(* ===== verification/_CoqProject ===== *)
-Q . S2P
Prelude.v
Dll.v
Bitmap.v
Buddy.v
Zone.v
ZoneClient.v
SaveFile.v
SaveStruct.v
Thinkers.v
SaveGame.v
SaveProofs.v
MemIo.v
Mus2Mid.v
MusSpec.v
MapSpec.v
HashMap.v
Registry.v
LinkedList.v
LruCache.v
Calendar.v
CalendarSpec.v
Movers.v
MoversSafe.v
MoversEvents.v
Triggers.v
TriggersSafe.v
MoversSpec.v
DoorCycle.v
Buttons.v
MoversFindings.v
Bytes.v
Path.v
PathSpec.v
CritBit.v
FatDisk.v
Fat.v
FatVolume.v
FatChains.v
FatDirs.v
FatHeap.v
FatNames.v
FatFs.v
FatOps.v
FatWrite.v
FatFormat.v
FatList.v
FatSpec.v
Vfs.v
VfsSpec.v
VfsBoot.v
Pipe.v
FileDesc.v
FileDescInv.v
FileDescSpec.v
FileDescOps.v
FileDescProc.v
FileDescClaims.v
Info.v
InfoThings.v
ThingData.v
Links.v
Things.v
ThingTables.v
ThingLinks.v
ThingsInv.v
ThingsOps.v
ThingsThink.v
ThingsSpawn.v
ThingsClaims.v
