(* ===== verification/Prelude.v ===== *)
(** * AlkOS: a verification library

    AlkOS is an operating system with a kernel in C++ and a user space whose largest program is
    a port of DOOM in C.  This library models parts of both and proves the theorems that make
    them correct.  Every definition that models code is executable, so concrete runs are
    evaluated by [vm_compute].

    ** How code is modelled

    This file holds what the components share.  Stateful code is a function of the monad
    [M S A]: it takes the state of its component and ends with a value and a new state, or
    stops ([stop]) with a failed assertion or [I_Error] ([Panic]), with an access outside an
    array or to a dead object ([BadAccess]), or with exhausted fuel ([NoFuel]).  Loops whose
    recursion is not structural take fuel; the theorems show that the fuel chosen in the model is
    enough, as they exclude [NoFuel].  [wp E m Q s] says that [m] run from [s] ends in [Q] or
    stops as [E] allows; [never] allows nothing, so [wp never] is total correctness.  A [w]-bit
    integer is a [Z]; [u8] ... [i64] are the conversions to the integer types, with their
    wrap-around written out wherever the code converts or computes.

    ** Components

    Kernel:
    - [Bitmap]: the boot-time page allocator (kernel/src/mem/phys/mngr/bitmap.hpp and .cpp, on
      the bit array of libs/libcontainers).  It finds a run of free pages exactly when there is
      one and marks exactly that run; freeing gives it back.
    - [Dll]: doubly linked lists threaded through a map of nodes: segments, rings, insertion and
      removal.  A typeclass states what a client must provide (link fields and their setters);
      [Buddy], [Zone] and [Thinkers] instantiate it.
    - [Buddy]: the buddy page allocator (buddy.hpp, buddy.cpp, page_meta.hpp, page_meta_table.hpp).
      The state is the page metadata, the free lists and the bounds of memory; the invariant
      relates the lists to a partition of memory into blocks.  Contracts of Alloc, Free and Init,
      full coalescing, safety of any sequence of operations, and a double free that the code does
      not detect.
    - [Path], [PathSpec]: the paths of kernel/src/fs/vfs/path.hpp, objects with a buffer and views
      into it, printed over the buffer that the views point to.  Printing and parsing, normalising,
      parents and children.
    - [FatDisk], [Fat]: the FAT driver (fs/vfs/fat/fat.hpp, fat12.hpp, fat16.hpp, fat32.hpp) on
      sectors in memory (fs/vfs/io/in_memory.hpp).  The class [FatImpl] has what a variant
      provides, with three instances; [Fat] has every operation of the driver on the bytes of the
      disk.
    - [FatVolume] ([FatLaws]: what the variants promise about table entries), [FatChains] (cluster
      chains and the walks over them), [FatDirs] (directory slots), [FatHeap] (chains and free
      clusters apart from each other), [FatNames] (short names), [FatFs] (the abstract file system
      and what it means that a volume represents it: [fs_rep]), [FatOps], [FatWrite], [FatList],
      [FatFormat] (the operations one by one), [FatSpec] (their contracts for every variant, and a
      small volume on which they are applied).
    - [Vfs], [VfsSpec], [VfsBoot]: the virtual file system (modules/vfs.cpp, fs/vfs/types.hpp): the
      table of mounts, the search for a mount point, relative paths, the calls of the drivers and
      the mount of the ramdisk at boot.  Drivers are records of operations ([Filesystem]); the
      theorems about dispatch hold for all of them and are composed with those of the FAT driver.
    - [Pipe]: the pipe and the ring buffer behind it (io/pipe.hpp, atomic_cyclic_buffer.hpp of
      libs/libcontainers), as whole operations and access by access, so that a producer and a consumer
      interleave: nothing is lost, doubled or reordered, and neither side waits for the other.
    - [FileDesc], [FileDescInv], [FileDescOps], [FileDescProc], [FileDescSpec], [FileDescClaims]: the
      tables of file descriptors, open entries and files, their reference counts and pools, and what
      of the processes concerns descriptors.  The tables refine open descriptions that descriptors
      name, as long as no file is opened twice; with two openings a freed file is used.

    User space, DOOM (userspace/programs/doom/src):
    - [Zone], [ZoneClient]: the zone allocator z_zone.c.  The heap is a map from addresses to
      block headers; the invariant says that the blocks tile the zone in list order.  Contracts
      of every operation, termination of the scan of Z_Malloc, safety of any client.
    - [SaveFile], [SaveStruct], [SaveGame], [SaveProofs]: the savegame format of p_saveg.c and
      the saving of a game in g_game.c: byte streams with room and read position, readers and
      writers of every structure, header, players, world, thinkers and specials.  A class of
      storable structures carries the round-trip law; the sections of a savegame are round trips
      built from it.
    - [Thinkers]: the thinker list of p_tick.c, allocated in the zone; the run loop refines a
      list-level tic in which thinkers are called, added and removed.
    - [MemIo]: the files in memory of memio.c, whose buffers grow in the zone.
    - [Mus2Mid], [MusSpec]: the conversion of MUS scores to MIDI of mus2mid.c.  The specification
      is a grammar of scores, a translation to MIDI messages, the layout of a MIDI file and an
      independent decoder; the converter implements the translation on every input.
    - [Movers]: the moving sectors and lights of p_floor.c, p_plats.c, p_doors.c, p_ceilng.c and
      p_lights.c, the searches and the donut of p_spec.c and the random numbers of m_random.c.
      The world has the sectors, lines and sides, the list of their thinkers and the tables of
      active platforms and ceilings; each [EV_] function is an event, each [T_] function the
      action of a thinker.  What moves the things of a sector (P_ChangeSector) and what is in
      memory that the code does not set are parameters.
    - [Triggers]: p_switch.c and the dispatch of p_spec.c: what a thing starts that crosses, shoots
      or uses a line, switches and buttons, the set-up of a level and the counters of a tic.
      EV_Teleport is a parameter.
    - [MoversSafe], [MoversEvents], [TriggersSafe]: the invariant that ties sectors, movers and
      tables, and that every action, event and trigger ends and keeps it.
    - [MoversSpec], [DoorCycle], [Buttons], [MoversFindings]: in a level that is played no sector
      has two movers and every event ends; planes do not pass their destination; the searches
      find minima and maxima; a door that nothing blocks closes again in a known time; a button
      switches back; and small levels on which the code does not do what it means to.
    - [Info], [InfoThings]: the tables of states and of types of things of info.c, row by row.
    - [ThingData], [Things]: the map objects of p_mobj.c, their links into sectors and blocks of
      p_maputl.c, and P_TryMove and P_ThingHeightClip of p_map.c.  The level has the things, the list of
      their thinkers, the heads of the lists and the queue of items that come back.  The
      test of a position, sliding, crossing a line, the actions of states, aiming, the reset of a player
      and the geometry of the map are parameters; the classes [Outside] and [Environment] say what
      the theorems ask of them, and a small level instantiates them.
    - [Links]: families of doubly linked lists that share their nodes, one list per place.
      [ThingTables] (what the tables guarantee), [ThingLinks] (linking and unlinking), [ThingsInv] (the
      invariant, removal and spawning), [ThingsOps], [ThingsThink], [ThingsSpawn] (the operations one by
      one), [ThingsClaims] (any sequence of operations is safe and keeps the invariant; setting a state
      ends; the queue of items is a bounded queue; what a map spawns; things stay in their room).

    Libraries (libs):
    - [MapSpec]: the interface of a map with integer keys, as operations ([MapOps]) with laws
      ([MapLaws]) against [gmap].
    - [HashMap]: the open-addressing FastMinimalStaticHashmap of hash_maps.hpp implements the
      interface; any run of operations refines a finite map.
    - [Registry]: the registry of the same file, on any map with the interface, refines a list of
      entries with a selected one.
    - [LinkedList]: linked_list.hpp in a heap of nodes refines a sequence; every node that leaves
      the list is destroyed twice.
    - [LruCache]: lru_cache.hpp, on the map interface and the linked list, refines the list of
      entries in the order of last use.
    - [Bytes]: slices of lists of bytes and little-endian numbers.
    - [CritBit]: critbit_tree.hpp refines a finite map from C strings; the search ends at the key
      that shares the longest run of bits with the one sought.
    - [Calendar], [CalendarSpec]: the conversions between POSIX and calendar time of libc (time_ext.cpp,
      time.hpp) against a calendar that counts days one by one: both directions, week numbers,
      and two errors of the code.

    ** Fuel and bounds

    List walks have one unit of fuel per node and one more; the scan of [Z_Malloc] two more, as
    it may pass its start once; the doubling of a file buffer 64, as sizes are below [2^31]; the
    loops of the converter one per input byte and two more.  Zones are smaller than [2^31] bytes,
    as their size is an [int]; clients of [MemIo] have zones of at most [2^30] bytes, so that
    doubling a buffer does not overflow that [int].  The searches over tagged sectors have the
    square of the number of sectors plus two: each round moves on or starts a mover on a sector
    that had none.  Stairs have one round per sector, the loop of lowerAndChange one per line of
    the largest sector.  The loops of the calendar have the bounds their assertions state (6, 3,
    12 and 3 rounds), the probes of a hash table one round per slot and one more, the clearing of
    a linked list one per node of the heap and one more.  Walks over cluster chains have one
    round per cluster of the volume and three more, and [FatSpec] shows that a chain has no more
    clusters than the volume; writing has one round per cluster of the data and three more; parsing
    a path one per character and one more.  The indices of a ring buffer wrap at [2^64].  Setting a
    state has one round per state of the table, and four are shown to be enough; a horizontal move
    has three, and takes at most two; crossing lines one per line and one more.  The addresses of
    things and of files are not used again: the memory of a thing that was removed stays as it is, and
    that of a file that was freed is not there.  Calls on descriptors are atomic, as under
    their locks.

    ** Not modelled

    The renderer, the menus and the platform layer of DOOM (drawing and input and output), its
    sounds and the actions of its enemies; [Movers] and [Things] are separate models, so that thinkers of
    things take no part in the tics of [Movers]; the
    boot code and the drivers of the kernel (assembly and device registers), the slab
    allocator, page tables and the scheduler of the kernel, and of DOOM the players and their
    weapons, the wad files and the loading of a saved game. *)
From stdpp Require Export base tactics numbers list gmap strings.
From Stdlib Require Export ZArith Lia.
#[export] Set Warnings "-clear-no-such-hyp".
Open Scope Z_scope.

(** ** Stopping outcomes *)

Inductive stop : Type :=
| Panic (msg : string)
| BadAccess
| NoFuel.

#[export] Instance stop_eq_dec : EqDecision stop.
Proof. solve_decision. Defined.

Inductive res (A : Type) : Type :=
| Ok (a : A)
| Stop (e : stop).
Arguments Ok {A} a.
Arguments Stop {A} e.

Definition M (S A : Type) : Type := S → res (A * S).

#[export] Instance M_ret {S} : MRet (M S) := λ A a s, Ok (a, s).
#[export] Instance M_bind {S} : MBind (M S) := λ A B k m s,
  match m s with
  | Ok (a, s') => k a s'
  | Stop e => Stop e
  end.

Definition getS {S} : M S S := λ s, Ok (s, s).
Definition putS {S} (s : S) : M S unit := λ _, Ok (tt, s).
Definition modS {S} (f : S → S) : M S unit := λ s, Ok (tt, f s).
Definition stopM {S A} (e : stop) : M S A := λ _, Stop e.
Definition assertM {S} (b : bool) (msg : string) : M S unit :=
  if b then mret tt else stopM (Panic msg).

(** A query of another component's state, which it does not change. *)
Definition peek {S T A} (m : M T A) (t : T) : M S A :=
  match m t with Ok (a, _) => mret a | Stop e => stopM e end.

(** An operation of a component that is a field of a larger state. *)
Definition zoom {S T A} (get : S → T) (set : T → S → S) (m : M T A) : M S A := λ s,
  match m (get s) with
  | Ok (a, t) => Ok (a, set t s)
  | Stop e => Stop e
  end.

(** ** Weakest preconditions
    [wp E m Q s]: run from [s], [m] either finishes with a value and a state that
    satisfy [Q], or stops with an outcome allowed by [E].  [E := never] is total
    correctness: no failed assertion, no bad access, no exhausted fuel. *)

Definition wp {S A} (E : stop → Prop) (m : M S A) (Q : A → S → Prop) (s : S) : Prop :=
  match m s with
  | Ok (a, s') => Q a s'
  | Stop e => E e
  end.

Definition never : stop → Prop := λ _, False.

Section wp_rules.
Context {S A B : Type}.
Implicit Types (E : stop → Prop) (s : S).

Lemma wp_bind E (m : M S A) (k : A → M S B) Q s :
  wp E (m ≫= k) Q s ↔ wp E m (λ a s', wp E (k a) Q s') s.
Proof. unfold wp, mbind, M_bind. by destruct (m s) as [[a s']|e]. Qed.

Lemma wp_bind_assoc {C} E (m : M S A) (n : A → M S B) (k : B → M S C) Q s :
  wp E (m ≫= λ a, n a ≫= k) Q s ↔ wp E (m ≫= n) (λ b s', wp E (k b) Q s') s.
Proof. unfold wp, mbind, M_bind. destruct (m s) as [[a s']|e]; [|done]. by destruct (n a s') as [[b s'']|e]. Qed.

Lemma wp_ret E (a : A) Q s : wp E (mret a) Q s ↔ Q a s.
Proof. done. Qed.

Lemma wp_get E (Q : S → S → Prop) s : wp E getS Q s ↔ Q s s.
Proof. done. Qed.

Lemma wp_put E s0 (Q : unit → S → Prop) s : wp E (putS s0) Q s ↔ Q tt s0.
Proof. done. Qed.

Lemma wp_mod E f (Q : unit → S → Prop) s : wp E (modS f) Q s ↔ Q tt (f s).
Proof. done. Qed.

Lemma wp_stop E e (Q : A → S → Prop) s : wp E (stopM e) Q s ↔ E e.
Proof. done. Qed.

Lemma wp_assert E b msg (Q : unit → S → Prop) s :
  b = true → Q tt s → wp E (assertM b msg) Q s.
Proof. by intros ->. Qed.

Lemma wp_mono E (m : M S A) (Q Q' : A → S → Prop) s :
  wp E m Q s → (∀ a s', Q a s' → Q' a s') → wp E m Q' s.
Proof. unfold wp. destruct (m s) as [[a s']|e]; naive_solver. Qed.

Lemma wp_weaken E E' (m : M S A) Q s :
  wp E m Q s → (∀ e, E e → E' e) → wp E' m Q s.
Proof. unfold wp. destruct (m s) as [[a s']|e]; naive_solver. Qed.

Lemma wp_total (m : M S A) Q s :
  wp never m Q s ↔ ∃ a s', m s = Ok (a, s') ∧ Q a s'.
Proof.
  unfold wp, never. destruct (m s) as [[a s']|e]; split.
  - eauto 10.
  - by intros (? & ? & [= <- <-] & ?).
  - done.
  - by intros (? & ? & ? & ?).
Qed.

Lemma wp_zoom {T} E (get : S → T) set (m : M T A) (Q : A → S → Prop) s :
  wp E (zoom get set m) Q s ↔ wp E m (λ a t, Q a (set t s)) (get s).
Proof. unfold wp, zoom. by destruct (m (get s)) as [[a t]|e]. Qed.

Lemma wp_ok E (m : M S A) Q s a s' : wp E m Q s → m s = Ok (a, s') → Q a s'.
Proof. unfold wp. intros H Hm. by rewrite Hm in H. Qed.
End wp_rules.

(** One symbolic-execution step, and its closure. *)
Ltac wp_step :=
  first
    [ rewrite wp_bind | rewrite wp_ret | rewrite wp_get | rewrite wp_put
    | rewrite wp_mod | rewrite wp_stop ].
Ltac wp_simp := repeat (wp_step; cbn beta iota zeta).

(** ** Refinement of computations
    [sim R m n]: from states related by [R], [m] and its specification [n] stop with the same
    outcome, or finish with the same value in related states. *)

Definition sim {S T A} (R : S → T → Prop) (m : M S A) (n : M T A) : Prop :=
  ∀ s t, R s t →
    match m s, n t with
    | Ok (a, s'), Ok (b, t') => a = b ∧ R s' t'
    | Stop e, Stop e' => e = e'
    | _, _ => False
    end.

(** A list of operations in a row, and their results. *)
Fixpoint runs {S A B} (op : A → M S B) (l : list A) : M S (list B) :=
  match l with
  | [] => mret []
  | a :: l => b ← op a; bs ← runs op l; mret (b :: bs)
  end.

Section sim.
Context {S T : Type} (R : S → T → Prop).

Lemma sim_ret {A} (a : A) : sim R (mret a) (mret a).
Proof. intros s t H. done. Qed.

Lemma sim_bind {A B} (m : M S A) (n : M T A) (k : A → M S B) (l : A → M T B) :
  sim R m n → (∀ a, sim R (k a) (l a)) → sim R (m ≫= k) (n ≫= l).
Proof.
  intros Hm Hk s t H. specialize (Hm s t H). unfold mbind, M_bind.
  destruct (m s) as [[a s']|e], (n t) as [[b t']|e']; try done.
  destruct Hm as [-> H']. by apply Hk.
Qed.

Lemma sim_runs {A B} (op : A → M S B) (spec : A → M T B) l :
  (∀ a, sim R (op a) (spec a)) → sim R (runs op l) (runs spec l).
Proof.
  intros H. induction l as [|a l IH]; [apply sim_ret|].
  apply sim_bind; [apply H|]. intros b. apply sim_bind; [done|]. intros bs. apply sim_ret.
Qed.
End sim.

(** [refines R m n]: where the specification [n] finishes, [m] finishes with its value and in a
    related state; nothing is said where [n] stops. *)
Definition refines {S T A} (R : S → T → Prop) (m : M S A) (n : M T A) : Prop :=
  ∀ s t, R s t →
    match n t with
    | Ok (b, t') => wp never m (λ a s', a = b ∧ R s' t') s
    | Stop _ => True
    end.

Section refines.
Context {S T : Type} (R : S → T → Prop).

Lemma refines_ret {A} (a : A) : refines R (mret a) (mret a).
Proof. intros s t H. done. Qed.

Lemma refines_bind {A B} (m : M S A) (n : M T A) (k : A → M S B) (l : A → M T B) :
  refines R m n → (∀ a, refines R (k a) (l a)) → refines R (m ≫= k) (n ≫= l).
Proof.
  intros Hm Hk s t H. specialize (Hm s t H). unfold mbind at 1, M_bind at 1.
  destruct (n t) as [[b t']|e]; [|done]. specialize (λ s' H', Hk b s' t' H').
  destruct (l b t') as [[c t'']|e]; [|done]. rewrite wp_bind.
  eapply wp_mono; [exact Hm|]. intros a s' [-> H']. by apply Hk.
Qed.

Lemma refines_runs {A B} (op : A → M S B) (spec : A → M T B) l :
  (∀ a, refines R (op a) (spec a)) → refines R (runs op l) (runs spec l).
Proof.
  intros H. induction l as [|a l IH]; [apply refines_ret|].
  apply refines_bind; [apply H|]. intros b. apply refines_bind; [done|]. intros bs. apply refines_ret.
Qed.
End refines.

(** ** Machine integers
    A [w]-bit unsigned (signed) object is a [Z]; conversion to it keeps the value
    modulo [2^w], in the range of the type. *)

Definition wrap_u (w z : Z) : Z := z `mod` 2 ^ w.
Definition wrap_s (w z : Z) : Z := (z + 2 ^ (w - 1)) `mod` 2 ^ w - 2 ^ (w - 1).

Abbreviation u8 := (wrap_u 8).
Abbreviation u16 := (wrap_u 16).
Abbreviation u32 := (wrap_u 32).
Abbreviation u64 := (wrap_u 64).
Abbreviation i8 := (wrap_s 8).
Abbreviation i16 := (wrap_s 16).
Abbreviation i32 := (wrap_s 32).
Abbreviation i64 := (wrap_s 64).

Definition in_u (w z : Z) : Prop := 0 ≤ z < 2 ^ w.
Definition in_s (w z : Z) : Prop := - 2 ^ (w - 1) ≤ z < 2 ^ (w - 1).

#[export] Instance in_u_dec w z : Decision (in_u w z).
Proof. unfold in_u. apply _. Defined.
#[export] Instance in_s_dec w z : Decision (in_s w z).
Proof. unfold in_s. apply _. Defined.

Section wraps.
Implicit Types w z : Z.

Lemma pow2_pos w : 0 ≤ w → 0 < 2 ^ w.
Proof. intros. by apply Z.pow_pos_nonneg. Qed.

Lemma pow2_double w : 0 < w → 2 ^ w = 2 * 2 ^ (w - 1).
Proof. intros. rewrite <- Z.pow_succ_r by lia. f_equal. lia. Qed.

Lemma wrap_u_range w z : 0 ≤ w → in_u w (wrap_u w z).
Proof. intros. apply Z.mod_pos_bound, pow2_pos, H. Qed.

Lemma wrap_s_range w z : 0 < w → in_s w (wrap_s w z).
Proof.
  intros Hw. unfold in_s, wrap_s.
  pose proof (Z.mod_pos_bound (z + 2 ^ (w - 1)) (2 ^ w) (pow2_pos w ltac:(lia))).
  pose proof (pow2_double w Hw). lia.
Qed.

Lemma wrap_u_small w z : in_u w z → wrap_u w z = z.
Proof. apply Z.mod_small. Qed.

Lemma wrap_s_small w z : 0 < w → in_s w z → wrap_s w z = z.
Proof.
  unfold in_s, wrap_s. intros Hw ?. pose proof (pow2_double w Hw).
  rewrite Z.mod_small; lia.
Qed.

Lemma wrap_u_mod w z : 0 ≤ w → wrap_u w (z `mod` 2 ^ w) = wrap_u w z.
Proof. intros. pose proof (pow2_pos w H). apply Z.mod_mod. lia. Qed.

Lemma wrap_s_mod w z : 0 ≤ w → wrap_s w (z `mod` 2 ^ w) = wrap_s w z.
Proof.
  intros. pose proof (pow2_pos w H). unfold wrap_s.
  by rewrite Zplus_mod_idemp_l.
Qed.

Lemma wrap_s_wrap_u w z : 0 ≤ w → wrap_s w (wrap_u w z) = wrap_s w z.
Proof. apply wrap_s_mod. Qed.
End wraps.

Create HintDb ints.
#[export] Hint Resolve wrap_u_range wrap_s_range : ints.

(** Discharges the conversions that do not change the value. *)
Ltac small_ints :=
  repeat first
    [ rewrite wrap_u_small by (unfold in_u in *; lia)
    | rewrite wrap_s_small by (unfold in_s in *; lia) ].

(** [std::countl_zero] on a [w]-bit unsigned value. *)
Definition countl_zero (w z : Z) : Z := if z =? 0 then w else w - 1 - Z.log2 z.

(** ** Bits and bytes *)

Lemma lor_shiftl a b n : 0 ≤ n → 0 ≤ a < 2 ^ n → Z.lor a (Z.shiftl b n) = a + b * 2 ^ n.
Proof.
  intros Hn Ha. rewrite <- Z.shiftl_mul_pow2 by done.
  pose proof (Zbitwise.Z.add_lor_land a (Z.shiftl b n)) as Hadd.
  enough (Z.land a (Z.shiftl b n) = 0) by lia. apply Z.bits_inj'. intros i Hi. rewrite Z.land_spec, Z.bits_0.
  destruct (Z.lt_ge_cases i n).
  - by rewrite Z.shiftl_spec_low, andb_false_r.
  - rewrite <- (Z.mod_small a (2 ^ n)) by done. by rewrite Z.mod_pow2_bits_high.
Qed.

(** The bytes of a value, and their recombination. *)
Lemma land_ff v : Z.land v 0xff = v `mod` 256.
Proof. exact (Z.land_ones v 8 ltac:(lia)). Qed.

Lemma byte_of v k : 0 ≤ k → u8 (Z.land (Z.shiftr v k) 0xff) = (v / 2 ^ k) `mod` 256.
Proof.
  intros. rewrite land_ff, Z.shiftr_div_pow2 by done. unfold wrap_u. by rewrite Z.mod_mod.
Qed.

Lemma land_7f v : Z.land v 0x7F = v `mod` 128.
Proof. exact (Z.land_ones v 7 ltac:(lia)). Qed.

Lemma lor_80 a : 0 ≤ a < 128 → Z.lor a 0x80 = a + 128.
Proof. exact (lor_shiftl a 1 7 ltac:(lia)). Qed.

(** A high part with the low four bits clear, and a low nibble. *)
Lemma lor_nibble a c : 0 ≤ c < 16 → Z.lor (16 * a) c = 16 * a + c.
Proof.
  intros Hc. pose proof (lor_shiftl c a 4 ltac:(lia) Hc) as H.
  rewrite Z.shiftl_mul_pow2 in H by lia. change (2 ^ 4) with 16 in H.
  rewrite Z.lor_comm, (Z.mul_comm 16). lia.
Qed.

Lemma land_80 v : (Z.land v 0x80 =? 0) = (v `mod` 256 <? 128).
Proof.
  replace (Z.land v 0x80) with (Z.shiftl (Z.b2z (Z.testbit v 7)) 7).
  - rewrite Z.testbit_spec', Z.shiftl_mul_pow2 by lia. change (2 ^ 7) with 128.
    destruct (Z.eqb_spec ((v / 128) `mod` 2 * 128) 0), (Z.ltb_spec (v `mod` 256) 128); try done;
      Z.to_euclidean_division_equations; lia.
  - apply Z.bits_inj'. intros i Hi. change 0x80 with (Z.shiftl 1 7).
    rewrite Z.land_spec, !Z.shiftl_spec by done.
    destruct (decide (i = 7)) as [->|].
    + by destruct (Z.testbit v 7).
    + destruct (Z.lt_ge_cases i 7).
      * rewrite !(Z.testbit_neg_r _ (i - 7)) by lia. by rewrite andb_false_r.
      * rewrite (Z.bits_above_log2 1 (i - 7)), andb_false_r by (cbn; lia).
        apply Z.bits_above_log2; [by destruct (Z.testbit v 7)|].
        destruct (Z.testbit v 7); cbn; lia.
Qed.

(** ** Lists *)

Lemma NoDup_split_mid {A} (l1 l2 : list A) y : NoDup (l1 ++ y :: l2) → NoDup (l1 ++ l2).
Proof.
  intros (? & Hd & [? ?]%NoDup_cons)%NoDup_app. apply NoDup_app.
  split_and!; [done| |done]. intros x ? ?. eapply Hd; [done|by right].
Qed.

Lemma NoDup_mid {A} (l1 l2 : list A) y : NoDup (l1 ++ y :: l2) → (y ∉ l1) ∧ (y ∉ l2).
Proof.
  intros (? & Hd & [? ?]%NoDup_cons)%NoDup_app. split; [|done].
  intros ?. eapply Hd; [done|left].
Qed.
