(* ===== verification/Dll.v ===== *)
(** * Doubly linked lists in a heap of nodes

    The kernel's buddy free lists, the zone allocator's block list and the thinker
    list are all chains of nodes that point at each other.  This file gives the one
    notion of such a chain the components share: [seg h p l q] says that the nodes
    at the addresses [l], in this order, are linked forwards and backwards, that the
    first one points back at [p] and the last one on at [q].  The links are values of
    a type [L] into which addresses inject, so that null-terminated lists
    ([L := option Z]) and circular lists with a sentinel ([L := Z]) are instances. *)
From S2P Require Import Prelude.

(** The link accessors behave as the fields of a struct. *)
Class LinkLaws {N L : Type} (nxt prv : N → L) (set_nxt set_prv : L → N → N) : Prop := {
  nxt_set_nxt v n : nxt (set_nxt v n) = v;
  prv_set_nxt v n : prv (set_nxt v n) = prv n;
  nxt_set_prv v n : nxt (set_prv v n) = nxt n;
  prv_set_prv v n : prv (set_prv v n) = v;
}.

Section dll.
Context {N L : Type} (nxt prv : N → L) (ref : Z → L).

Definition first (l : list Z) (q : L) : L :=
  match l with [] => q | a :: _ => ref a end.

Definition final (p : L) (l : list Z) : L :=
  match last l with None => p | Some a => ref a end.

Fixpoint seg (h : gmap Z N) (p : L) (l : list Z) (q : L) : Prop :=
  match l with
  | [] => True
  | a :: l' =>
      ∃ n, h !! a = Some n ∧ prv n = p ∧ nxt n = first l' q ∧ seg h (ref a) l' q
  end.

Lemma final_cons p a l : final p (a :: l) = final (ref a) l.
Proof. unfold final. rewrite last_cons. by destruct (last l). Qed.

Lemma final_snoc p l a : final p (l ++ [a]) = ref a.
Proof. unfold final. by rewrite last_snoc. Qed.

Lemma first_app l1 l2 q : first (l1 ++ l2) q = first l1 (first l2 q).
Proof. by destruct l1. Qed.

Lemma final_app p l1 l2 : final p (l1 ++ l2) = final (final p l1) l2.
Proof.
  revert p. induction l1 as [|a l1 IH]; intros p; [done|].
  cbn [app]. by rewrite !final_cons, IH.
Qed.

Lemma seg_app h p l1 l2 q :
  seg h p (l1 ++ l2) q ↔ seg h p l1 (first l2 q) ∧ seg h (final p l1) l2 q.
Proof.
  revert p. induction l1 as [|a l1 IH]; intros p; cbn [seg app].
  - split; [done|by intros [_ ?]].
  - rewrite final_cons, first_app. setoid_rewrite IH. firstorder.
Qed.

Lemma seg_lookup h p l q a : seg h p l q → a ∈ l → is_Some (h !! a).
Proof.
  revert p. induction l as [|b l IH]; intros p; [by intros _ ?%not_elem_of_nil|].
  intros (n & Hn & _ & _ & Hs) [->|Ha]%elem_of_cons; [by eexists|eauto].
Qed.

Lemma seg_mid h p l1 a l2 q :
  seg h p (l1 ++ a :: l2) q →
  ∃ n, h !! a = Some n ∧ prv n = final p l1 ∧ nxt n = first l2 q.
Proof. rewrite seg_app. intros [_ (n & ? & ? & ? & _)]. eauto. Qed.

(** Updates that leave the links of the chain alone. *)
Lemma seg_frame h h' p l q :
  (∀ a n, a ∈ l → h !! a = Some n →
     ∃ n', h' !! a = Some n' ∧ prv n' = prv n ∧ nxt n' = nxt n) →
  seg h p l q → seg h' p l q.
Proof.
  revert p. induction l as [|a l IH]; intros p Hf; [done|].
  intros (n & Hn & Hp & Hx & Hs).
  destruct (Hf a n) as (n' & ? & ? & ?); [left|done|].
  exists n'. split_and!; [done|congruence|congruence|].
  apply IH; [|done]. intros b m Hb. apply Hf. by right.
Qed.

Lemma seg_alter_notin f b h p l q : b ∉ l → seg h p l q → seg (alter f b h) p l q.
Proof.
  intros Hb. apply seg_frame. intros a n Ha Hn. exists n.
  rewrite lookup_alter_ne by (intros ->; done). done.
Qed.

Lemma seg_alter_links f b h p l q :
  (∀ n, prv (f n) = prv n ∧ nxt (f n) = nxt n) →
  seg h p l q → seg (alter f b h) p l q.
Proof.
  intros Hf. apply seg_frame. intros a n Ha Hn.
  destruct (decide (b = a)) as [->|Hne].
  - exists (f n). rewrite lookup_alter_eq, Hn. destruct (Hf n). done.
  - exists n. rewrite lookup_alter_ne by done. done.
Qed.

Lemma seg_insert_notin b m h p l q : b ∉ l → seg h p l q → seg (<[b:=m]> h) p l q.
Proof.
  intros Hb. apply seg_frame. intros a n Ha Hn. exists n.
  rewrite lookup_insert_ne by (intros ->; done). done.
Qed.

(** Updates of the outer links. *)
Context (set_nxt set_prv : L → N → N) (LAWS : LinkLaws nxt prv set_nxt set_prv).

Lemma seg_set_prv_first a v h p l q :
  a ∉ l → seg h p (a :: l) q → seg (alter (set_prv v) a h) v (a :: l) q.
Proof.
  intros Ha (n & Hn & Hp & Hx & Hs). exists (set_prv v n).
  destruct LAWS as [_ _ E1 E2]. rewrite lookup_alter_eq, Hn, E2, E1.
  split_and!; [done..|]. by apply seg_alter_notin.
Qed.

Lemma seg_set_nxt_last a v h p l q :
  a ∉ l → seg h p (l ++ [a]) q → seg (alter (set_nxt v) a h) p (l ++ [a]) v.
Proof.
  rewrite !seg_app. intros Ha [Hl (n & Hn & Hp & Hx & _)]. split.
  - by apply seg_alter_notin.
  - exists (set_nxt v n). destruct LAWS as [E1 E2 _ _].
    by rewrite lookup_alter_eq, Hn, E2, E1.
Qed.
End dll.

Arguments first {L} ref l q : assert.
Arguments final {L} ref p l : assert.

(** ** Circular lists with a sentinel

    [ring h S l]: the sentinel [S] and then the nodes of [l] form a cycle. *)
Lemma rfinal_in S l : final (λ a : Z, a) S l ∈ S :: l.
Proof.
  destruct l as [|a l _] using rev_ind; [left|]. rewrite final_snoc. right.
  apply elem_of_app. right. left.
Qed.

Lemma rfirst_in S l : first (λ a : Z, a) l S ∈ S :: l.
Proof. destruct l; [left|right; left]. Qed.

Section ring.
Context {N : Type} (nxt prv : N → Z) (set_nxt set_prv : Z → N → N).
Context (LAWS : LinkLaws nxt prv set_nxt set_prv).

Abbreviation rseg := (seg nxt prv (λ a : Z, a)).
Abbreviation rfirst := (first (λ a : Z, a)).
Abbreviation rfinal := (final (λ a : Z, a)).

Definition ring (h : gmap Z N) (S : Z) (l : list Z) : Prop :=
  rseg h (rfinal S l) (S :: l) S.

(** Taking the node between [l1] and [l2] out of the ring. *)
Definition ring_unlink (S : Z) (l1 l2 : list Z) (h : gmap Z N) : gmap Z N :=
  alter (set_prv (rfinal S l1)) (rfirst l2 S) (alter (set_nxt (rfirst l2 S)) (rfinal S l1) h).

(** Linking the node at [a] in between [l1] and [l2]. *)
Definition ring_link (S : Z) (l1 : list Z) (a : Z) (l2 : list Z) (h : gmap Z N) : gmap Z N :=
  alter (set_nxt a) (rfinal S l1) (alter (set_prv a) (rfirst l2 S) h).

Lemma cons_rfinal S l : ∃ l', S :: l = l' ++ [rfinal S l].
Proof.
  destruct l as [|a l _] using rev_ind; [by exists []|].
  exists (S :: l). by rewrite final_snoc.
Qed.

(** Redirecting the forward link that leaves the nodes [S :: l1]. *)
Lemma seg_redirect h p S l1 q n :
  NoDup (S :: l1) → rseg h p (S :: l1) q →
  rseg (alter (set_nxt n) (rfinal S l1) h) p (S :: l1) n.
Proof using LAWS.
  intros Hnd Hs. destruct (cons_rfinal S l1) as [l' Hl]. rewrite Hl in *.
  eapply seg_set_nxt_last; [exact LAWS| |exact Hs].
  apply NoDup_app in Hnd as (_ & Hd & _). intros Hx. eapply Hd; [exact Hx|set_solver].
Qed.

Lemma ring_remove h S l1 y l2 :
  NoDup (S :: l1 ++ y :: l2) → ring h S (l1 ++ y :: l2) →
  ring (ring_unlink S l1 l2 h) S (l1 ++ l2).
Proof using LAWS.
  unfold ring. intros Hnd Hr.
  change (S :: l1 ++ y :: l2) with ((S :: l1) ++ y :: l2) in Hr, Hnd.
  apply seg_app in Hr as [H1 (n & Hn & Hp & Hx & H2)].
  pose proof Hnd as (Hnd1 & Hd & [Hy Hnd2]%NoDup_cons)%NoDup_app.
  change (S :: l1 ++ l2) with ((S :: l1) ++ l2). apply seg_app.
  rewrite final_cons. unfold ring_unlink.
  destruct l2 as [|c l2].
  - rewrite app_nil_r. split; [|done]. cbn [first].
    eapply seg_set_prv_first; [exact LAWS|by apply NoDup_cons in Hnd1 as []|].
    eapply seg_redirect; [done|exact H1].
  - rewrite final_app. rewrite final_app in H1. cbn [first].
    assert (Hc : c ∉ S :: l1) by (intros Hc; eapply Hd; [exact Hc|set_solver]).
    split.
    + apply seg_alter_notin; [done|]. rewrite final_cons, final_cons in *.
      eapply seg_redirect; [done|exact H1].
    + eapply seg_set_prv_first; [exact LAWS|by apply NoDup_cons in Hnd2 as []|].
      apply seg_alter_notin; [|exact H2].
      intros Hin. eapply (Hd (rfinal S l1)); [apply rfinal_in|set_solver].
Qed.

Lemma ring_insert h S l1 a l2 n :
  NoDup (S :: l1 ++ a :: l2) → ring h S (l1 ++ l2) →
  h !! a = Some n → nxt n = rfirst l2 S → prv n = rfinal S l1 →
  ring (ring_link S l1 a l2 h) S (l1 ++ a :: l2).
Proof using LAWS.
  unfold ring. intros Hnd Hr Hn Hx Hp.
  change (S :: l1 ++ a :: l2) with ((S :: l1) ++ a :: l2) in *.
  change (S :: l1 ++ l2) with ((S :: l1) ++ l2) in Hr.
  apply seg_app in Hr as [H1 H2]. rewrite final_cons in H2.
  pose proof Hnd as (Hnd1 & Hd & [Ha Hnd2]%NoDup_cons)%NoDup_app.
  assert (Ha1 : a ∉ S :: l1) by (intros Hin; eapply Hd; [exact Hin|set_solver]).
  assert (Hx2 : ∀ b, b ∈ S :: l1 → b ∉ a :: l2) by (intros; by apply Hd).
  apply seg_app. rewrite final_cons, final_app. unfold ring_link. split.
  - cbn [first]. eapply seg_redirect; [done|].
    destruct l2 as [|c l2]; cbn [first].
    + rewrite final_cons. rewrite app_nil_r in H1.
      eapply seg_set_prv_first; [exact LAWS|by apply NoDup_cons in Hnd1 as []|exact H1].
    + rewrite final_app in H1. rewrite !final_cons in *.
      apply seg_alter_notin; [|exact H1]. intros Hin. eapply Hx2; [exact Hin|set_solver].
  - exists n. split_and!; [|done|done|].
    + assert (rfinal S l1 ≠ a) by (intros Heq; apply Ha1; rewrite <- Heq; apply rfinal_in).
      assert (rfirst l2 S ≠ a).
      { intros Heq. pose proof (rfirst_in S l2) as Hf. rewrite Heq in Hf. set_solver. }
      by rewrite !lookup_alter_ne.
    + apply seg_alter_notin.
      { intros Hin. eapply (Hx2 (rfinal S l1)); [apply rfinal_in|set_solver]. }
      destruct l2 as [|c l2]; [done|]. cbn [first].
      eapply seg_set_prv_first; [exact LAWS|by apply NoDup_cons in Hnd2 as []|exact H2].
Qed.

Lemma ring_lookup h S l a : ring h S l → a ∈ S :: l → is_Some (h !! a).
Proof. intros Hr. by eapply seg_lookup. Qed.

Lemma ring_mid h S l1 a l2 :
  ring h S (l1 ++ a :: l2) → ∃ n, h !! a = Some n ∧ prv n = rfinal S l1 ∧ nxt n = rfirst l2 S.
Proof.
  unfold ring. intros Hr. change (S :: l1 ++ a :: l2) with ((S :: l1) ++ a :: l2) in Hr.
  destruct (seg_mid _ _ _ _ _ _ _ _ _ Hr) as (n & ? & ? & ?). rewrite final_cons in *. eauto.
Qed.

(** The node before the one between [l1] and [l2]. *)
Lemma ring_before h S l1 a l2 :
  ring h S (l1 ++ a :: l2) → ∃ n, h !! rfinal S l1 = Some n ∧ nxt n = a.
Proof.
  unfold ring. destruct (cons_rfinal S l1) as [l' Hl]. intros Hr.
  change (S :: l1 ++ a :: l2) with ((S :: l1) ++ a :: l2) in Hr.
  rewrite Hl, <- app_assoc in Hr.
  destruct (seg_mid _ _ _ _ _ _ _ _ _ Hr) as (n & ? & _ & ?). eauto.
Qed.

Lemma ring_sentinel h S l :
  ring h S l → ∃ n, h !! S = Some n ∧ prv n = rfinal S l ∧ nxt n = rfirst l S.
Proof. intros (n & ? & ? & ? & _). eauto. Qed.

Lemma ring_frame h h' S l :
  (∀ a n, a ∈ S :: l → h !! a = Some n →
     ∃ n', h' !! a = Some n' ∧ prv n' = prv n ∧ nxt n' = nxt n) →
  ring h S l → ring h' S l.
Proof. apply seg_frame. Qed.

Lemma ring_alter_links f b h S l :
  (∀ n, prv (f n) = prv n ∧ nxt (f n) = nxt n) → ring h S l → ring (alter f b h) S l.
Proof. apply seg_alter_links. Qed.

Lemma ring_insert_notin b n h S l : b ∉ S :: l → ring h S l → ring (<[b:=n]> h) S l.
Proof. apply seg_insert_notin. Qed.
End ring.

(** ** Null-terminated lists

    [chain h l]: the nodes of [l], linked both ways, with null at both ends. *)
Section chain.
Context {N : Type} (nxt prv : N → option Z) (set_nxt set_prv : option Z → N → N).
Context (LAWS : LinkLaws nxt prv set_nxt set_prv).

Abbreviation cfirst l := (first Some l None).
Abbreviation cfinal l := (final Some None l).

Definition chain (h : gmap Z N) (l : list Z) : Prop := seg nxt prv Some h None l None.

(** The update of a node that may be null. *)
Definition upd (f : N → N) (p : option Z) (h : gmap Z N) : gmap Z N :=
  match p with None => h | Some a => alter f a h end.

Lemma cfirst_in l a : cfirst l = Some a → a ∈ l.
Proof. destruct l; [done|]. intros [= ->]. left. Qed.

Lemma cfinal_in l a : cfinal l = Some a → a ∈ l.
Proof.
  destruct l as [|b l _] using rev_ind; [done|]. rewrite final_snoc. intros [= ->].
  apply elem_of_app. right. left.
Qed.

Lemma seg_upd_notin f o h p l q : (∀ a, o = Some a → a ∉ l) → seg nxt prv Some h p l q → seg nxt prv Some (upd f o h) p l q.
Proof. intros Ho Hs. destruct o as [b|]; [|done]. by apply seg_alter_notin; [apply Ho|]. Qed.

Lemma seg_upd_first v h p l q :
  NoDup l → seg nxt prv Some h p l q → seg nxt prv Some (upd (set_prv v) (cfirst l) h) v l q.
Proof using LAWS.
  destruct l as [|a l]; [done|]. intros [Ha _]%NoDup_cons Hs.
  by eapply seg_set_prv_first; [exact LAWS| |exact Hs].
Qed.

Lemma seg_upd_final v h p l q :
  NoDup l → seg nxt prv Some h p l q → seg nxt prv Some (upd (set_nxt v) (cfinal l) h) p l v.
Proof using LAWS.
  destruct l as [|a l _] using rev_ind; [done|]. intros Hnd Hs. rewrite final_snoc.
  eapply seg_set_nxt_last; [exact LAWS| |exact Hs].
  apply NoDup_app in Hnd as (_ & Hd & _). intros Ha. eapply Hd; [exact Ha|left].
Qed.

Lemma final_some p l : l ≠ [] → final Some p l = cfinal l.
Proof. destruct l as [|a l _] using rev_ind; [done|]. by rewrite !final_snoc. Qed.

Lemma chain_remove h l1 y l2 :
  NoDup (l1 ++ y :: l2) → chain h (l1 ++ y :: l2) →
  chain (upd (set_prv (cfinal l1)) (cfirst l2) (upd (set_nxt (cfirst l2)) (cfinal l1) h)) (l1 ++ l2).
Proof using LAWS.
  unfold chain. rewrite !seg_app. intros Hnd [H1 (n & _ & _ & _ & H2)].
  pose proof Hnd as (Hnd1 & Hd & [_ Hnd2]%NoDup_cons)%NoDup_app. split.
  - apply seg_upd_notin; [|by eapply seg_upd_final].
    intros a Ha%cfirst_in Hin. eapply Hd; [exact Hin|by right].
  - eapply seg_upd_first; [done|]. apply seg_upd_notin; [|exact H2].
    intros a Ha%cfinal_in Hin. eapply Hd; [exact Ha|by right].
Qed.

Lemma chain_insert h l1 a l2 n :
  NoDup (l1 ++ a :: l2) → chain h (l1 ++ l2) →
  h !! a = Some n → nxt n = cfirst l2 → prv n = cfinal l1 →
  chain (upd (set_nxt (Some a)) (cfinal l1) (upd (set_prv (Some a)) (cfirst l2) h)) (l1 ++ a :: l2).
Proof using LAWS.
  unfold chain. rewrite !seg_app. intros Hnd [H1 H2] Hn Hx Hp.
  pose proof Hnd as (Hnd1 & Hd & [Ha Hnd2]%NoDup_cons)%NoDup_app. split.
  - eapply seg_upd_final; [done|]. apply seg_upd_notin; [|exact H1].
    intros b Hb%cfirst_in Hin. eapply Hd; [exact Hin|by right].
  - exists n. split_and!; [|done|done|].
    + assert (E : ∀ f o h', (∀ b, o = Some b → b ≠ a) → upd f o h' !! a = h' !! a).
      { intros f [b|] h' Hb; [|done]. cbn. by rewrite lookup_alter_ne by (by apply Hb). }
      rewrite !E; [done| |].
      * intros b Hb%cfirst_in ->. done.
      * intros b Hb%cfinal_in ->. eapply Hd; [exact Hb|left].
    + apply seg_upd_notin; [|by eapply seg_upd_first].
      intros b Hb%cfinal_in Hin. eapply Hd; [exact Hb|by right].
Qed.

Lemma chain_mid h l1 a l2 :
  chain h (l1 ++ a :: l2) → ∃ n, h !! a = Some n ∧ prv n = cfinal l1 ∧ nxt n = cfirst l2.
Proof. apply seg_mid. Qed.

Lemma chain_lookup h l a : chain h l → a ∈ l → is_Some (h !! a).
Proof. apply seg_lookup. Qed.
End chain.
