(* ===== verification/Bitmap.v ===== *)
(** * The boot-time page allocator: a bitmap of page frames

    Models libs/libcontainers/include/data_structures/bit_array.hpp ([BitMapView]) and
    kernel/src/mem/phys/mngr/bitmap.{hpp,cpp} ([BitmapPmm]), with the page arithmetic of
    kernel/src/mem/page.hpp and the error codes of kernel/src/mem/error.hpp that the two
    page allocators share.

    The storage of a [BitMapView] is kept as the bytes it is made of; [page_free] is the
    view of one bit, and the theorems are stated on it. *)
From S2P Require Import Prelude.

Definition kPageSizeBytes : Z := 4096.
Definition kPageShift : Z := 12.

Inductive MemError : Type := OutOfMemory | InvalidArgument | NotFound.

#[export] Instance MemError_eq_dec : EqDecision MemError.
Proof. solve_decision. Defined.

Definition PageFrameAddr (pfn : Z) : Z := u64 (pfn * kPageSizeBytes).

Definition PageFrameNumber {S} (page : Z) : M S Z :=
  assertM (page mod kPageSizeBytes =? 0) "Physical page pointer is not aligned to page size";;
  mret (page / kPageSizeBytes).

Record BitMapView : Type := mkBitMapView {
  storage_ptr_ : list Z;
  num_bits_ : Z;
}.

(** [BitMapView::Get] and [BitMapView::Set]; [None] is a failed bounds assertion. *)
Definition BitGet (v : BitMapView) (index : Z) : option bool :=
  if index <? num_bits_ v then
    byte ← storage_ptr_ v !! Z.to_nat (index / 8);
    Some (negb (Z.land (Z.shiftr byte (index mod 8)) 1 =? 0))
  else None.

Definition BitSet (v : BitMapView) (index : Z) (value : bool) : option BitMapView :=
  if index <? num_bits_ v then
    byte ← storage_ptr_ v !! Z.to_nat (index / 8);
    let cleared := Z.land byte (Z.lnot (Z.shiftl 1 (index mod 8))) in
    let byte' := u8 (Z.lor cleared (Z.shiftl (Z.b2z value) (index mod 8))) in
    Some (mkBitMapView (<[Z.to_nat (index / 8) := byte']> (storage_ptr_ v)) (num_bits_ v))
  else None.

Record BitmapPmm : Type := mkBitmapPmm {
  bitmap_view_ : BitMapView;
  last_alloc_idx_ : Z;
}.

Abbreviation PM := (M BitmapPmm).

Definition BitMapFree : bool := false.
Definition BitMapAllocated : bool := true.

Definition GetBit (pfn : Z) : PM bool :=
  s ← getS;
  match BitGet (bitmap_view_ s) pfn with
  | Some b => mret b
  | None => stopM (Panic "Index out of bounds")
  end.

Definition SetBit (pfn : Z) (value : bool) : PM unit :=
  s ← getS;
  match BitSet (bitmap_view_ s) pfn value with
  | Some v => putS (mkBitmapPmm v (last_alloc_idx_ s))
  | None => stopM (Panic "Index out of bounds")
  end.

Definition IsFree (pfn : Z) : PM bool := b ← GetBit pfn; mret (bool_decide (b = BitMapFree)).
Definition IsAllocated (pfn : Z) : PM bool :=
  b ← GetBit pfn; mret (bool_decide (b = BitMapAllocated)).

Definition MarkAllocated (pfn : Z) : PM unit :=
  b ← IsFree pfn; assertM b "Page frame is already allocated";; SetBit pfn BitMapAllocated.

Definition MarkFree (pfn : Z) : PM unit :=
  b ← IsAllocated pfn; assertM b "Page frame is already free";; SetBit pfn BitMapFree.

(** The loops over [n] consecutive page frames starting at [i]. *)
Fixpoint MarkAllocatedFrom (n : nat) (i : Z) : PM unit :=
  match n with O => mret tt | S n => MarkAllocated i;; MarkAllocatedFrom n (i + 1) end.

Definition MarkAllocatedRange (start_range_pfn end_range_pfn : Z) : PM unit :=
  assertM (start_range_pfn <? end_range_pfn) "start_range_pfn < end_range_pfn";;
  MarkAllocatedFrom (Z.to_nat (end_range_pfn - start_range_pfn)) start_range_pfn.

Fixpoint MarkFreeFrom (n : nat) (i : Z) : PM unit :=
  match n with O => mret tt | S n => MarkFree i;; MarkFreeFrom n (i + 1) end.

(** [FindContiguousBlock]: the [do ... while] loop scans downwards. *)
Fixpoint FindLoop (fuel : nat) (range_start_pfn num_pages current_pfn count : Z) :
    PM (MemError + Z) :=
  match fuel with
  | O => stopM NoFuel
  | S fuel =>
      free ← IsFree current_pfn;
      let count := if (free : bool) then u64 (count + 1) else 0 in
      if count =? num_pages then mret (inr current_pfn)
      else if range_start_pfn <? current_pfn
      then FindLoop fuel range_start_pfn num_pages (current_pfn - 1) count
      else mret (inl OutOfMemory)
  end.

Definition FindContiguousBlock (range_start_pfn range_end_pfn num_pages : Z) :
    PM (MemError + Z) :=
  assertM (range_start_pfn <? range_end_pfn) "range_start_pfn < range_end_pfn";;
  FindLoop (Z.to_nat (range_end_pfn - range_start_pfn)) range_start_pfn num_pages
    (range_end_pfn - 1) 0.

Definition BitmapInit (bmv : BitMapView) : PM unit :=
  assertM (0 <? num_bits_ bmv) "bmv.Size() > 0";;
  putS (mkBitmapPmm bmv (num_bits_ bmv - 1)).

Definition BitmapAlloc (num_pages : Z) : PM (MemError + Z) :=
  if num_pages =? 0 then mret (inl InvalidArgument)
  else
    s ← getS;
    let total_pages := num_bits_ (bitmap_view_ s) in
    let last := last_alloc_idx_ s in
    fbr ← (if last =? 0 then mret (inl OutOfMemory)
           else FindContiguousBlock 0 last num_pages);
    fbr ← match fbr with
          | inr start_pfn => mret (inr start_pfn)
          | inl _ =>
              FindContiguousBlock
                (if u64 (num_pages + 1) <? last then u64 (last - num_pages - 1) else 0)
                total_pages num_pages
          end;
    match fbr with
    | inl _ => mret (inl OutOfMemory)
    | inr start_pfn =>
        MarkAllocatedRange start_pfn (u64 (start_pfn + num_pages));;
        modS (λ s, mkBitmapPmm (bitmap_view_ s) start_pfn);;
        mret (inr (PageFrameAddr start_pfn))
    end.

Definition BitmapFree (page num_pages : Z) : PM unit :=
  pfn ← PageFrameNumber page;
  MarkFreeFrom (Z.to_nat num_pages) pfn.

(** ** Bits of the view *)

Definition bit (v : BitMapView) (i : Z) : bool :=
  Z.testbit (default 0 (storage_ptr_ v !! Z.to_nat (i / 8))) (i mod 8).

Definition view_ok (v : BitMapView) : Prop :=
  0 ≤ num_bits_ v ≤ 2 ^ 52 ∧ num_bits_ v ≤ 8 * Z.of_nat (length (storage_ptr_ v)).

Lemma view_byte v i :
  view_ok v → 0 ≤ i < num_bits_ v → is_Some (storage_ptr_ v !! Z.to_nat (i / 8)).
Proof.
  intros [_ ?] ?. apply lookup_lt_is_Some.
  assert (i / 8 < Z.of_nat (length (storage_ptr_ v))) by (apply Z.div_lt_upper_bound; lia).
  lia.
Qed.

Lemma land_1_testbit z n : 0 ≤ n → negb (Z.land (Z.shiftr z n) 1 =? 0) = Z.testbit z n.
Proof.
  intros Hn. change 1 with (Z.ones 1). rewrite Z.land_ones, Z.pow_1_r by lia.
  rewrite <- (Z.add_0_l n) at 2. rewrite <- Z.shiftr_spec by lia.
  rewrite Z.bit0_odd, Zmod_odd. by destruct (Z.odd _).
Qed.

Lemma BitGet_spec v i : view_ok v → 0 ≤ i < num_bits_ v → BitGet v i = Some (bit v i).
Proof.
  intros Hv Hi. destruct (view_byte v i Hv Hi) as [byte Hb].
  unfold BitGet, bit. destruct (Z.ltb_spec i (num_bits_ v)); [|lia].
  rewrite Hb. cbn. f_equal. apply land_1_testbit, Z.mod_pos_bound. lia.
Qed.

Lemma testbit_set byte m n b :
  0 ≤ m < 8 → 0 ≤ n < 8 →
  Z.testbit (u8 (Z.lor (Z.land byte (Z.lnot (Z.shiftl 1 m))) (Z.shiftl (Z.b2z b) m))) n =
  if decide (n = m) then b else Z.testbit byte n.
Proof.
  intros Hm Hn. unfold wrap_u. rewrite Z.mod_pow2_bits_low by lia.
  rewrite Z.lor_spec, Z.land_spec, Z.lnot_spec, !Z.shiftl_spec by lia.
  case_decide as Hd; [subst|].
  - rewrite Z.sub_diag. rewrite andb_false_r. cbn. by destruct b.
  - destruct (decide (n < m)).
    + rewrite !(Z.testbit_neg_r _ (n - m)) by lia. by rewrite orb_false_r, andb_true_r.
    + rewrite (Z.bits_above_log2 1), (Z.bits_above_log2 (Z.b2z b));
        [by rewrite orb_false_r, andb_true_r|destruct b; cbn; lia..|lia|cbn; lia].
Qed.

Lemma BitSet_spec v i b :
  view_ok v → 0 ≤ i < num_bits_ v →
  ∃ v', BitSet v i b = Some v' ∧ view_ok v' ∧ num_bits_ v' = num_bits_ v ∧
    ∀ j, 0 ≤ j < num_bits_ v → bit v' j = if decide (j = i) then b else bit v j.
Proof.
  intros Hv Hi. destruct (view_byte v i Hv Hi) as [byte Hb].
  unfold BitSet. destruct (Z.ltb_spec i (num_bits_ v)); [|lia]. rewrite Hb. cbn.
  eexists. split; [done|]. split; [|split; [done|]].
  - unfold view_ok. cbn. by rewrite length_insert.
  - intros j Hj. unfold bit. cbn.
    pose proof (Z.mod_pos_bound i 8 ltac:(lia)). pose proof (Z.mod_pos_bound j 8 ltac:(lia)).
    pose proof (Z.div_mod i 8 ltac:(lia)). pose proof (Z.div_mod j 8 ltac:(lia)).
    destruct (decide (j / 8 = i / 8)) as [Hq|Hq].
    + rewrite Hq, list_lookup_insert_eq by (by eapply lookup_lt_Some). cbn.
      rewrite testbit_set by lia. rewrite Hb. cbn.
      destruct (decide (j mod 8 = i mod 8)), (decide (j = i)); (done || lia).
    + rewrite list_lookup_insert_ne, decide_False; [done|lia|].
      intros Heq. apply Hq. apply Z2Nat.inj in Heq; [done|apply Z.div_pos; lia..].
Qed.

(** ** The allocator's contract *)

Definition page_free (s : BitmapPmm) (i : Z) : Prop := bit (bitmap_view_ s) i = false.

Abbreviation total s := (num_bits_ (bitmap_view_ s)).

Definition bitmap_inv (s : BitmapPmm) : Prop :=
  view_ok (bitmap_view_ s) ∧ 0 ≤ last_alloc_idx_ s < total s.

(** [n] free page frames in a row, from [p] on. *)
Definition free_run (s : BitmapPmm) (p n : Z) : Prop :=
  0 ≤ p ∧ p + n ≤ total s ∧ ∀ j, p ≤ j < p + n → page_free s j.

Section exec.
Context (E : stop → Prop).

Lemma wp_IsFree i (Q : bool → BitmapPmm → Prop) s :
  view_ok (bitmap_view_ s) → 0 ≤ i < total s →
  Q (negb (bit (bitmap_view_ s) i)) s → wp E (IsFree i) Q s.
Proof.
  intros Hv Hi HQ. unfold IsFree, GetBit. wp_simp. rewrite BitGet_spec by done.
  cbn. unfold BitMapFree. by destruct (bit _ i).
Qed.

Lemma wp_IsAllocated i (Q : bool → BitmapPmm → Prop) s :
  view_ok (bitmap_view_ s) → 0 ≤ i < total s →
  Q (bit (bitmap_view_ s) i) s → wp E (IsAllocated i) Q s.
Proof.
  intros Hv Hi HQ. unfold IsAllocated, GetBit. wp_simp. rewrite BitGet_spec by done.
  cbn. unfold BitMapAllocated. by destruct (bit _ i).
Qed.

Lemma wp_SetBit i b (Q : unit → BitmapPmm → Prop) s :
  view_ok (bitmap_view_ s) → 0 ≤ i < total s →
  (∀ v', view_ok v' → num_bits_ v' = total s →
     (∀ j, 0 ≤ j < total s → bit v' j = if decide (j = i) then b else bit (bitmap_view_ s) j) →
     Q tt (mkBitmapPmm v' (last_alloc_idx_ s))) →
  wp E (SetBit i b) Q s.
Proof.
  intros Hv Hi HQ. unfold SetBit. wp_simp.
  destruct (BitSet_spec _ i b Hv Hi) as (v' & -> & ? & ? & ?). wp_simp. by apply HQ.
Qed.
End exec.

(** The scan reports a free run inside the range, or that there is none. *)
Section find.
Context (s : BitmapPmm) (Hv : view_ok (bitmap_view_ s)) (lo hi n : Z).
Context (Hlo : 0 ≤ lo) (Hhi : hi ≤ total s) (Hn : 0 < n).

Definition find_post (r : MemError + Z) (s' : BitmapPmm) : Prop :=
  s' = s ∧
  match r with
  | inr p => lo ≤ p ∧ p + n ≤ hi ∧ free_run s p n
  | inl _ => ∀ p, lo ≤ p → p + n ≤ hi → ¬ free_run s p n
  end.

Lemma FindLoop_spec fuel cur c :
  lo ≤ cur < hi → 0 ≤ c < n → cur + c < hi → (Z.to_nat (cur - lo) < fuel)%nat →
  (∀ j, cur < j ≤ cur + c → page_free s j) →
  (cur + c + 1 < hi → ¬ page_free s (cur + c + 1)) →
  (∀ p, cur < p → p + n ≤ hi → ¬ free_run s p n) →
  wp never (FindLoop fuel lo n cur c) find_post s.
Proof using All.
  revert cur c. induction fuel as [|fuel IH]; intros cur c Hcur Hc Hch Hf Hfree Hb Hno; [lia|].
  destruct Hv as [[_ Hmax] _].
  cbn [FindLoop]. wp_simp. apply wp_IsFree; [done|lia|]. wp_simp.
  destruct (bit (bitmap_view_ s) cur) eqn:Hbit; cbn [negb].
  - destruct (Z.eqb_spec 0 n); [lia|].
    assert (Hno' : ∀ p, cur ≤ p → p + n ≤ hi → ¬ free_run s p n).
    { intros p Hp Hpn. destruct (decide (p = cur)) as [->|]; [|apply Hno; lia].
      intros (_ & _ & Hr). specialize (Hr cur ltac:(lia)). unfold page_free in Hr. congruence. }
    destruct (Z.ltb_spec lo cur).
    + apply IH; [lia..| | |]; [lia| |].
      * rewrite Z.add_0_r, Z.sub_add. intros _. unfold page_free. congruence.
      * intros p Hp. apply Hno'. lia.
    + wp_simp. split; [done|]. intros p Hp. apply Hno'. lia.
  - small_ints. destruct (Z.eqb_spec (c + 1) n) as [<-|Hcn].
    + wp_simp. split; [done|]. split_and!; [lia|lia|]. split_and!; [lia|lia|].
      intros j Hj. destruct (decide (j = cur)) as [->|]; [done|apply Hfree; lia].
    + assert (Hno' : ∀ p, cur ≤ p → p + n ≤ hi → ¬ free_run s p n).
      { intros p Hp Hpn. destruct (decide (p = cur)) as [->|]; [|apply Hno; lia].
        intros (_ & _ & Hr). apply Hb; [lia|]. apply Hr. lia. }
      destruct (Z.ltb_spec lo cur).
      * apply IH; [lia..| | |].
        -- intros j Hj. destruct (decide (j = cur)) as [->|]; [done|apply Hfree; lia].
        -- replace (cur - 1 + (c + 1) + 1) with (cur + c + 1) by lia. done.
        -- intros p Hp. apply Hno'. lia.
      * wp_simp. split; [done|]. intros p Hp. apply Hno'. lia.
Qed.

Lemma FindContiguousBlock_spec :
  lo < hi → wp never (FindContiguousBlock lo hi n) find_post s.
Proof using All.
  intros Hlt. unfold FindContiguousBlock. wp_simp. apply wp_assert; [lia|].
  apply FindLoop_spec; intros; lia.
Qed.
End find.

(** Marking a free run allocated touches exactly that run. *)
Lemma wp_MarkAllocatedFrom n i s :
  view_ok (bitmap_view_ s) → free_run s i (Z.of_nat n) →
  wp never (MarkAllocatedFrom n i) (λ _ s',
    view_ok (bitmap_view_ s') ∧ total s' = total s ∧ last_alloc_idx_ s' = last_alloc_idx_ s ∧
    ∀ j, 0 ≤ j < total s →
      page_free s' j ↔ page_free s j ∧ ¬ (i ≤ j < i + Z.of_nat n)) s.
Proof.
  revert i s. induction n as [|n IH]; intros i s Hv (Hi & Hin & Hfree).
  { cbn. wp_simp. split_and!; [done..|]. intros. split; [|tauto]. split; [done|lia]. }
  cbn [MarkAllocatedFrom]. unfold MarkAllocated. wp_simp.
  apply wp_IsFree; [done|lia|]. wp_simp. rewrite (Hfree i) by lia.
  apply wp_assert; [done|]. apply wp_SetBit; [done|lia|]. intros v' Hv' Hn' Hbits.
  eapply wp_mono; [apply IH; [done|]|].
  - split_and!; cbn; [lia|lia|]. intros j Hj. unfold page_free. cbn.
    rewrite Hbits, decide_False by lia. apply Hfree. lia.
  - cbn. intros [] s' (? & Ht & ? & Hpf). split_and!; [done|congruence|done|].
    intros j Hj. rewrite Hpf by lia. unfold page_free. cbn. rewrite Hbits by done.
    destruct (decide (j = i)); [|split; intros [? ?]; split; (done || lia)].
    split; [intros [? _]; done|intros [_ ?]; lia].
Qed.

Lemma free_run_bounds s p n k : free_run s p n → 0 ≤ k ≤ n → free_run s p k.
Proof. intros (? & ? & Hr) ?. split_and!; [done|lia|]. intros; apply Hr; lia. Qed.

(** What an allocation of [n] pages may return, and the state it leaves. *)
Definition alloc_outcome (s : BitmapPmm) (n : Z) (r : MemError + Z) (s' : BitmapPmm) : Prop :=
  match r with
  | inl InvalidArgument => n = 0 ∧ s' = s
  | inl OutOfMemory => 0 < n ∧ s' = s ∧ ∀ p, ¬ free_run s p n
  | inl NotFound => False
  | inr addr => ∃ p, addr = PageFrameAddr p ∧ free_run s p n ∧
      bitmap_inv s' ∧ total s' = total s ∧ last_alloc_idx_ s' = p ∧
      ∀ j, 0 ≤ j < total s → page_free s' j ↔ page_free s j ∧ ¬ (p ≤ j < p + n)
  end.

(** Either range [BitmapAlloc] scans contains any free run that exists. *)
Lemma BitmapAlloc_run s n :
  bitmap_inv s → 0 ≤ n < 2 ^ 64 →
  ∃ r s', BitmapAlloc n s = Ok (r, s') ∧ alloc_outcome s n r s'.
Proof.
  intros [Hv Hl] Hn. pose proof Hv as [[_ Hmax] _]. unfold BitmapAlloc.
  destruct (Z.eqb_spec n 0) as [->|Hn0]; [by exists (inl InvalidArgument), s|].
  apply wp_total. wp_simp.
  set (last := last_alloc_idx_ s) in *.
  eapply (wp_mono _ _ (find_post s 0 last n)).
  { destruct (Z.eqb_spec last 0) as [->|].
    - wp_simp. split; [done|]. intros p ? ? (? & ? & _). lia.
    - apply FindContiguousBlock_spec; (done || lia). }
  intros r1 s1 [-> H1]. wp_simp.
  set (lo := if u64 (n + 1) <? last then u64 (last - n - 1) else 0).
  assert (Hlo : 0 ≤ lo < total s ∧ (lo ≤ last - n ∨ lo = 0 ∨ total s < n)).
  { subst lo. destruct (decide (n = 2 ^ 64 - 1)) as [->|].
    - replace (u64 (2 ^ 64 - 1 + 1)) with 0 by done.
      destruct (Z.ltb_spec 0 last); [|lia].
      replace (u64 (last - (2 ^ 64 - 1) - 1)) with (u64 (last + (-1) * 2 ^ 64)) by (f_equal; lia).
      unfold wrap_u. rewrite Z.mod_add by lia. rewrite Z.mod_small by lia. lia.
    - small_ints. destruct (Z.ltb_spec (n + 1) last); small_ints; lia. }
  eapply (wp_mono _ _ (λ r s', s' = s ∧ match r with
    | inr p => free_run s p n | inl _ => ∀ p, ¬ free_run s p n end)).
  { destruct r1 as [e|p]; [|wp_simp; by destruct H1 as (_ & _ & ?)].
    eapply wp_mono; [apply (FindContiguousBlock_spec s Hv lo (total s) n); lia|].
    intros [e'|p] s' [-> H2]; (split; [done|]); [|by destruct H2 as (_ & _ & ?)].
    intros p Hp. pose proof Hp as (? & ? & _).
    destruct (decide (lo ≤ p)); [by apply (H2 p)|]. apply (H1 p); [lia|lia|done]. }
  intros [e|p] s2 [-> H2]; wp_simp; [split_and!; [lia|done|done]|].
  pose proof H2 as (Hp0 & Hp1 & _). unfold MarkAllocatedRange. wp_simp. small_ints.
  apply wp_assert; [lia|]. replace (p + n - p) with n by lia.
  eapply wp_mono; [apply wp_MarkAllocatedFrom; [done|by rewrite Z2Nat.id by lia]|].
  intros [] s3 (Hv3 & Ht3 & _ & Hpf). wp_simp. exists p.
  split_and!; [done|done| |done|done|].
  - split; [done|]. cbn. lia.
  - intros j Hj. rewrite <- (Z2Nat.id n) by lia. by apply Hpf.
Qed.

Lemma wp_MarkFreeFrom n i s :
  view_ok (bitmap_view_ s) → 0 ≤ i → i + Z.of_nat n ≤ total s →
  (∀ j, i ≤ j < i + Z.of_nat n → ¬ page_free s j) →
  wp never (MarkFreeFrom n i) (λ _ s',
    view_ok (bitmap_view_ s') ∧ total s' = total s ∧ last_alloc_idx_ s' = last_alloc_idx_ s ∧
    ∀ j, 0 ≤ j < total s → page_free s' j ↔ page_free s j ∨ i ≤ j < i + Z.of_nat n) s.
Proof.
  revert i s. induction n as [|n IH]; intros i s Hv Hi Hin Hal.
  { cbn. wp_simp. split_and!; [done..|]. intros. split; [by left|]. intros [?|?]; [done|lia]. }
  cbn [MarkFreeFrom]. unfold MarkFree. wp_simp.
  apply wp_IsAllocated; [done|lia|]. wp_simp.
  assert (bit (bitmap_view_ s) i = true) as Hbi.
  { apply not_false_is_true, Hal. lia. }
  apply wp_assert; [done|]. apply wp_SetBit; [done|lia|]. intros v' Hv' Hn' Hbits.
  eapply wp_mono; [apply IH; [done|cbn; lia..|]|].
  - intros j Hj. unfold page_free. cbn. rewrite Hbits, decide_False by lia. apply Hal. lia.
  - cbn. intros [] s' (? & Ht & ? & Hpf). split_and!; [done|congruence|done|].
    intros j Hj. rewrite Hpf by lia. unfold page_free. cbn. rewrite Hbits by done.
    destruct (decide (j = i)); [split; [intros _; right; lia|by left]|].
    split; (intros [?|?]; [by left|right; lia]).
Qed.

(** The bitmap allocator is exact: [Alloc] never trips an assertion; it returns a run of
    [n] free pages and marks exactly these, or reports that the request is empty, or reports
    out of memory, and the latter only when no run of [n] free pages exists, although the
    search starts at the last allocation and wraps around. *)
Theorem BitmapAlloc_spec s n :
  bitmap_inv s → 0 ≤ n < 2 ^ 64 →
  ∃ r s', BitmapAlloc n s = Ok (r, s') ∧ alloc_outcome s n r s'.
Proof. apply BitmapAlloc_run. Qed.

(** Freeing a bitmap allocation never trips an assertion and gives back exactly the pages
    it took. *)
Theorem BitmapAlloc_Free_roundtrip s n addr s1 :
  bitmap_inv s → 0 ≤ n < 2 ^ 64 → BitmapAlloc n s = Ok (inr addr, s1) →
  ∃ s2, BitmapFree addr n s1 = Ok (tt, s2) ∧ bitmap_inv s2 ∧ total s2 = total s ∧
    ∀ j, 0 ≤ j < total s → page_free s2 j ↔ page_free s j.
Proof.
  intros INV Hn Hal. pose proof INV as [[[_ Hmax] _] _].
  destruct (BitmapAlloc_run s n INV Hn) as (r & s1' & Hr & Hm).
  rewrite Hal in Hr. injection Hr as <- <-. cbn in Hm.
  destruct Hm as (p & -> & Hrun & [Hv1 Hl1] & Ht1 & Hla & Hpf).
  pose proof Hrun as (Hp0 & Hp1 & Hfree).
  assert (wp never (BitmapFree (PageFrameAddr p) n) (λ _ s2, bitmap_inv s2 ∧ total s2 = total s ∧
    ∀ j, 0 ≤ j < total s → page_free s2 j ↔ page_free s j) s1) as (? & s2 & ? & ?)%wp_total;
    [|destruct x; eauto].
  unfold BitmapFree, PageFrameNumber, PageFrameAddr, kPageSizeBytes. small_ints. wp_simp.
  apply wp_assert; [by rewrite Z.mod_mul|]. rewrite Z.div_mul by lia. wp_simp.
  eapply wp_mono; [apply wp_MarkFreeFrom; [done|lia|lia|]|].
  - intros j Hj. rewrite Hpf by lia. lia.
  - intros [] s2 (Hv2 & Ht2 & Hl2 & Hpf2). split_and!; [split; [done|lia]|lia|].
    intros j Hj. rewrite Hpf2, Hpf by lia. rewrite Z2Nat.id by lia.
    destruct (decide (p ≤ j < p + n)); [|tauto]. pose proof (Hfree j). tauto.
Qed.

(** Sixteen pages, the first four and page 9 in use. *)
Definition demo_pmm : BitmapPmm := mkBitmapPmm (mkBitMapView [0x0f; 0x02] 16) 15.

Lemma demo_pmm_inv : bitmap_inv demo_pmm.
Proof. repeat split; cbn; lia. Qed.

Lemma BitmapAlloc_spec_witness :
  ∃ r s', BitmapAlloc 5 demo_pmm = Ok (r, s') ∧ alloc_outcome demo_pmm 5 r s'.
Proof. apply (BitmapAlloc_spec demo_pmm 5 demo_pmm_inv). lia. Defined.

Definition demo_pmm_after : BitmapPmm := mkBitmapPmm (mkBitMapView [0x0f; 0x7e] 16) 10.

Lemma BitmapAlloc_Free_roundtrip_witness :
  ∃ s2, BitmapFree (PageFrameAddr 10) 5 demo_pmm_after = Ok (tt, s2) ∧ bitmap_inv s2.
Proof.
  destruct (BitmapAlloc_Free_roundtrip demo_pmm 5 (PageFrameAddr 10) demo_pmm_after demo_pmm_inv
    ltac:(lia) ltac:(vm_compute; reflexivity)) as (s2 & H & H' & _).
  exists s2. split; [exact H|exact H'].
Defined.
