(* ===== verification/Buddy.v ===== *)
(** * The kernel's physical page allocator (buddy system)

    Models kernel/src/mem/phys/mngr/buddy.{hpp,cpp} with the page metadata of
    kernel/src/mem/page_meta.hpp, page_meta_table.hpp and page.hpp.

    A [VPtr<PageMeta>] is a pointer into the array [page_frames_metas_], so it is
    modelled by the index it points at ([None] is [nullptr]); the array is a finite
    map from page frame numbers.  Assertions ([ASSERT_*], [R_ASSERT_*]) panic, as in
    a debug build; the theorems show that none of them fires, so a release build
    (which drops the [ASSERT_*] ones) runs the same steps.  The spinlock that makes
    [Alloc] and [Free] atomic is not modelled: each is one step. *)
From S2P Require Import Prelude Dll Bitmap.

Definition kMaxOrder : Z := 10.

Inductive PageMetaType : Type := Buddy | Allocated | Slab | PageTable | Dummy.

#[export] Instance PageMetaType_eq_dec : EqDecision PageMetaType.
Proof. solve_decision. Defined.

Abbreviation VPtr := (option Z).

(** [PageMeta]: the type tag, the order and the buddy view of the [data] union. *)
Record PageMeta : Type := mkPageMeta {
  pm_type : PageMetaType;
  pm_order : Z;
  pm_next : VPtr;
  pm_prev : VPtr;
}.

Definition set_type (t : PageMetaType) (m : PageMeta) : PageMeta :=
  mkPageMeta t (pm_order m) (pm_next m) (pm_prev m).
Definition set_order (o : Z) (m : PageMeta) : PageMeta :=
  mkPageMeta (pm_type m) o (pm_next m) (pm_prev m).
Definition set_next (p : VPtr) (m : PageMeta) : PageMeta :=
  mkPageMeta (pm_type m) (pm_order m) p (pm_prev m).
Definition set_prev (p : VPtr) (m : PageMeta) : PageMeta :=
  mkPageMeta (pm_type m) (pm_order m) (pm_next m) p.

Definition InitBuddy (order : Z) (m : PageMeta) : PageMeta :=
  mkPageMeta Buddy order None None.

Definition InitAllocated (order : Z) (m : PageMeta) : PageMeta :=
  set_order order (set_type Allocated m).

(** The allocator with the metadata table it depends on ([pmt_]). *)
Record BuddyPmm : Type := mkBuddyPmm {
  freelist_table_ : list VPtr;
  page_frames_metas_ : gmap Z PageMeta;
  num_page_frames_ : Z;
}.

Abbreviation BM := (M BuddyPmm).

Definition with_metas (f : gmap Z PageMeta → gmap Z PageMeta) (s : BuddyPmm) : BuddyPmm :=
  mkBuddyPmm (freelist_table_ s) (f (page_frames_metas_ s)) (num_page_frames_ s).

Definition with_table (f : list VPtr → list VPtr) (s : BuddyPmm) : BuddyPmm :=
  mkBuddyPmm (f (freelist_table_ s)) (page_frames_metas_ s) (num_page_frames_ s).

(** Reading and writing through a [PageMeta *]. *)
Definition load (p : Z) : BM PageMeta :=
  s ← getS;
  match page_frames_metas_ s !! p with
  | Some m => mret m
  | None => stopM BadAccess
  end.

Definition store (p : Z) (f : PageMeta → PageMeta) : BM unit :=
  load p;; modS (with_metas (alter f p)).

(** [freelist_table_[order]], with C array bounds. *)
Definition get_head (order : Z) : BM VPtr :=
  s ← getS;
  match (if order <? 0 then None else freelist_table_ s !! Z.to_nat order) with
  | Some h => mret h
  | None => stopM BadAccess
  end.

Definition set_head (order : Z) (h : VPtr) : BM unit :=
  get_head order;; modS (with_table <[Z.to_nat order := h]>).

(** [PageMetaTable::GetPageMeta] returns a reference, here the index it denotes. *)
Definition GetPageMeta (pfn : Z) : BM Z :=
  s ← getS;
  assertM (pfn <? num_page_frames_ s) "Page frame number is out of bounds";;
  mret pfn.

Definition GetPageFrameNumber (meta : Z) : BM Z :=
  s ← getS;
  assertM ((0 <=? meta) && (meta <? num_page_frames_ s)) "Meta pointer is out of bounds";;
  mret meta.

Definition AsBuddy (meta : Z) : BM unit :=
  m ← load meta;
  assertM (bool_decide (pm_type m = Buddy)) "meta.type == PageMetaType::Buddy".

Definition GetBuddyPfn (pfn order : Z) : Z := Z.lxor pfn (Z.shiftl 1 order).

Definition ListRemove (meta : Z) : BM unit :=
  AsBuddy meta;;
  b ← load meta;
  (match pm_next b with
   | Some n => AsBuddy n;; store n (set_prev (pm_prev b))
   | None => mret tt
   end);;
  b ← load meta;
  (match pm_prev b with
   | Some p => AsBuddy p;; store p (set_next (pm_next b))
   | None => mret tt
   end);;
  b ← load meta;
  head ← get_head (pm_order b);
  (if bool_decide (head = Some meta) then set_head (pm_order b) (pm_next b) else mret tt);;
  store meta (set_next None);;
  store meta (set_prev None).

Definition ListPush (meta : Z) : BM unit :=
  m ← load meta;
  head ← get_head (pm_order m);
  AsBuddy meta;;
  store meta (set_next head);;
  (match head with
   | Some h => AsBuddy h;; store h (set_prev (Some meta))
   | None => mret tt
   end);;
  store meta (set_prev None);;
  set_head (pm_order m) (Some meta).

(** The loop of [SplitBlock]: [i] counts down to [target_order]. *)
Fixpoint SplitLoop (fuel : nat) (pfn i target_order : Z) : BM unit :=
  match fuel with
  | O => stopM NoFuel
  | S fuel =>
      if target_order <? i then
        let lower_order := u8 (i - 1) in
        let buddy_pfn := GetBuddyPfn pfn lower_order in
        buddy_meta ← GetPageMeta buddy_pfn;
        store buddy_meta (InitBuddy lower_order);;
        ListPush buddy_meta;;
        SplitLoop fuel pfn (u8 (i - 1)) target_order
      else mret tt
  end.

Definition SplitBlock (block_to_split target_order : Z) : BM Z :=
  b ← load block_to_split;
  let current_order := pm_order b in
  pfn ← GetPageFrameNumber block_to_split;
  assertM (target_order <? current_order) "SplitBlock called on a block that isn't larger";;
  SplitLoop (S (Z.to_nat current_order)) pfn current_order target_order;;
  final_block ← GetPageMeta pfn;
  store final_block (set_order target_order);;
  mret final_block.

(** The loop of [MergeBlock] returns the final [pfn] and [order]. *)
Fixpoint MergeLoop (fuel : nat) (pfn order : Z) : BM (Z * Z) :=
  match fuel with
  | O => stopM NoFuel
  | S fuel =>
      if order <? kMaxOrder then
        let buddy_pfn := GetBuddyPfn pfn order in
        s ← getS;
        if num_page_frames_ s <=? buddy_pfn then mret (pfn, order)
        else
          buddy_meta ← GetPageMeta buddy_pfn;
          bm ← load buddy_meta;
          if bool_decide (pm_type bm = Buddy) && (pm_order bm =? order) then
            ListRemove buddy_meta;;
            let pfn := Z.min pfn buddy_pfn in
            let order := u8 (order + 1) in
            store buddy_meta (set_type Dummy);;
            MergeLoop fuel pfn order
          else mret (pfn, order)
      else mret (pfn, order)
  end.

Definition MergeBlock (block_to_merge : Z) : BM Z :=
  b ← load block_to_merge;
  pfn ← GetPageFrameNumber block_to_merge;
  r ← MergeLoop (S (Z.to_nat kMaxOrder)) pfn (pm_order b);
  final_block ← GetPageMeta r.1;
  store final_block (set_order r.2);;
  mret final_block.

(** [Alloc]: the search over the free lists, from the requested order upwards. *)
Fixpoint AllocLoop (fuel : nat) (current_order order : Z) : BM (MemError + Z) :=
  match fuel with
  | O => stopM NoFuel
  | S fuel =>
      if current_order <=? kMaxOrder then
        head ← get_head current_order;
        match head with
        | Some block_to_alloc =>
            ListRemove block_to_alloc;;
            block_to_alloc ←
              (if order <? current_order then SplitBlock block_to_alloc order
               else mret block_to_alloc);
            store block_to_alloc (InitAllocated order);;
            pfn ← GetPageFrameNumber block_to_alloc;
            mret (inr (PageFrameAddr pfn))
        | None => AllocLoop fuel (u8 (current_order + 1)) order
        end
      else mret (inl OutOfMemory)
  end.

Definition Alloc (order : Z) : BM (MemError + Z) :=
  if kMaxOrder <? order then mret (inl InvalidArgument)
  else AllocLoop (S (S (Z.to_nat kMaxOrder))) order order.

Definition Free (page : Z) : BM unit :=
  pfn ← PageFrameNumber page;
  meta ← GetPageMeta pfn;
  m ← load meta;
  assertM (bool_decide (pm_type m = Allocated))
    "Double free detected or freeing an invalid page!";;
  merged_block ← MergeBlock meta;
  mb ← load merged_block;
  store merged_block (InitBuddy (pm_order mb));;
  ListPush merged_block.

(** [Init]: every page starts allocated, then the free ones of the boot bitmap are
    freed one by one, up to [page_limit] of them. *)
Fixpoint InitMetas (n : nat) (i : Z) : BM unit :=
  match n with
  | O => mret tt
  | S n => meta ← GetPageMeta i; store meta (InitAllocated 0);; InitMetas n (i + 1)
  end.

Fixpoint InitFree (n : nat) (b_pmm : BitmapPmm) (page_limit i pages_freed : Z) : BM unit :=
  match n with
  | O => mret tt
  | S n =>
      if pages_freed <? page_limit then
        free ← peek (IsFree i) b_pmm;
        if (free : bool) then
          Free (PageFrameAddr i);; InitFree n b_pmm page_limit (i + 1) (pages_freed + 1)
        else InitFree n b_pmm page_limit (i + 1) pages_freed
      else mret tt
  end.

Definition Init (b_pmm : BitmapPmm) (page_limit : Z) : BM unit :=
  modS (with_table (λ _, replicate 11 None));;
  s ← getS;
  InitMetas (Z.to_nat (num_page_frames_ s)) 0;;
  InitFree (Z.to_nat (num_page_frames_ s)) b_pmm page_limit 0 0.

Definition SizeToPageOrder (size_bytes : Z) : Z :=
  if size_bytes <=? kPageSizeBytes then 0
  else
    let pages_needed := Z.shiftr (size_bytes - 1) kPageShift in
    u8 (64 - countl_zero 64 pages_needed).

Definition BuddyAreaSize (order : Z) : Z := u64 (Z.shiftl kPageSizeBytes order).

(** ** Symbolic execution of the accessors *)

#[export] Instance buddy_links : LinkLaws pm_next pm_prev set_next set_prev.
Proof. by split; intros ? []. Qed.

Abbreviation bseg := (seg pm_next pm_prev Some).

Definition alter_opt (f : PageMeta → PageMeta) (p : VPtr) (h : gmap Z PageMeta) :
    gmap Z PageMeta :=
  match p with Some a => alter f a h | None => h end.

Section exec.
Context (E : stop → Prop).
Implicit Types s : BuddyPmm.

Lemma wp_load p m Q s :
  page_frames_metas_ s !! p = Some m → Q m s → wp E (load p) Q s.
Proof. intros H HQ. unfold load. wp_simp. by rewrite H. Qed.

Lemma wp_store p m f Q s :
  page_frames_metas_ s !! p = Some m →
  Q tt (with_metas (alter f p) s) → wp E (store p f) Q s.
Proof. intros H HQ. unfold store. wp_simp. by eapply wp_load. Qed.

Lemma wp_get_head o h Q s :
  0 ≤ o → freelist_table_ s !! Z.to_nat o = Some h → Q h s → wp E (get_head o) Q s.
Proof.
  intros Ho H HQ. unfold get_head. wp_simp.
  destruct (o <? 0) eqn:?; [lia|]. by rewrite H.
Qed.

Lemma wp_set_head o h h' Q s :
  0 ≤ o → freelist_table_ s !! Z.to_nat o = Some h →
  Q tt (with_table <[Z.to_nat o := h']> s) → wp E (set_head o h') Q s.
Proof. intros. unfold set_head. wp_simp. by eapply wp_get_head. Qed.

Lemma wp_GetPageMeta p Q s :
  p < num_page_frames_ s → Q p s → wp E (GetPageMeta p) Q s.
Proof.
  intros. unfold GetPageMeta. wp_simp. apply wp_assert; [by apply Z.ltb_lt|done].
Qed.

Lemma wp_GetPageFrameNumber p Q s :
  0 ≤ p < num_page_frames_ s → Q p s → wp E (GetPageFrameNumber p) Q s.
Proof.
  intros. unfold GetPageFrameNumber. wp_simp. apply wp_assert; [|done].
  apply andb_true_intro; lia.
Qed.

Lemma wp_AsBuddy p m (Q : unit → BuddyPmm → Prop) s :
  page_frames_metas_ s !! p = Some m → pm_type m = Buddy →
  Q tt s → wp E (AsBuddy p) Q s.
Proof.
  intros. unfold AsBuddy. wp_simp. eapply wp_load; [done|].
  by apply wp_assert; [apply bool_decide_eq_true|].
Qed.
End exec.

(** ** The free lists as doubly linked lists *)

Definition unlink (l1 : list Z) (p : Z) (l2 : list Z) (h : gmap Z PageMeta) :
    gmap Z PageMeta :=
  alter (set_prev None) p (alter (set_next None) p
    (alter_opt (set_next (first Some l2 None)) (final Some None l1)
      (alter_opt (set_prev (final Some None l1)) (first Some l2 None) h))).

(** All nodes of a free list of order [o] carry the tags of that list. *)
Definition tagged (h : gmap Z PageMeta) (o : Z) (l : list Z) : Prop :=
  ∀ p, p ∈ l → ∃ m, h !! p = Some m ∧ pm_type m = Buddy ∧ pm_order m = o.

Lemma lookup_alter_opt_ne f x a h : x ≠ Some a → alter_opt f x h !! a = h !! a.
Proof. destruct x; intros; [|done]. apply lookup_alter_ne. congruence. Qed.

Lemma first_cases l : first Some l None = None ∧ l = [] ∨ ∃ a l', l = a :: l' ∧ first Some l None = Some a.
Proof. destruct l; [by left|right; eauto]. Qed.

Lemma final_cases l : final Some None l = None ∧ l = [] ∨ ∃ a l', l = l' ++ [a] ∧ final Some None l = Some a.
Proof.
  destruct l as [|a l' _] using rev_ind; [by left|right].
  exists a, l'. by rewrite final_snoc.
Qed.

Lemma first_in l a : first Some l None = Some a → a ∈ l.
Proof. destruct l; [done|]. intros [= ->]. set_solver. Qed.

Lemma final_in l a : final Some None l = Some a → a ∈ l.
Proof.
  destruct (final_cases l) as [[-> ->]|(b & l' & -> & ->)]; [done|].
  intros [= ->]. set_solver.
Qed.

Lemma wp_neighbour E f (x : VPtr) (Q : unit → BuddyPmm → Prop) s :
  (∀ a, x = Some a → ∃ m, page_frames_metas_ s !! a = Some m ∧ pm_type m = Buddy) →
  Q tt (with_metas (alter_opt f x) s) →
  wp E (match x with Some a => AsBuddy a;; store a f | None => mret tt end) Q s.
Proof.
  intros Hx HQ. destruct x as [a|]; [|by destruct s].
  destruct (Hx a) as (m & Hm & Ht); [done|].
  wp_simp. eapply wp_AsBuddy; [done..|]. by eapply wp_store.
Qed.

Section remove.
Context (E : stop → Prop) (l1 : list Z) (p : Z) (l2 : list Z) (o : Z).

Lemma first_notin l (h : gmap Z PageMeta) f : p ∉ l → alter_opt f (first Some l None) h !! p = h !! p.
Proof.
  intros Hp. apply lookup_alter_opt_ne. by intros ?%first_in.
Qed.

Lemma final_notin l (h : gmap Z PageMeta) f : p ∉ l → alter_opt f (final Some None l) h !! p = h !! p.
Proof.
  intros Hp. apply lookup_alter_opt_ne. by intros ?%final_in.
Qed.

Lemma wp_ListRemove (Q : unit → BuddyPmm → Prop) s :
  bseg (page_frames_metas_ s) None (l1 ++ p :: l2) None →
  NoDup (l1 ++ p :: l2) →
  tagged (page_frames_metas_ s) o (l1 ++ p :: l2) →
  0 ≤ o →
  freelist_table_ s !! Z.to_nat o = Some (first Some (l1 ++ p :: l2) None) →
  Q tt (mkBuddyPmm (<[Z.to_nat o := first Some (l1 ++ l2) None]> (freelist_table_ s))
          (unlink l1 p l2 (page_frames_metas_ s)) (num_page_frames_ s)) →
  wp E (ListRemove p) Q s.
Proof.
  intros Hseg Hnd Htag Ho Hhead HQ.
  destruct (seg_mid _ _ _ _ _ _ _ _ _ Hseg) as (m & Hm & Hprv & Hnxt).
  destruct (Htag p) as (m' & Hm' & Hty & Hord); [set_solver|]. simplify_eq.
  apply NoDup_app in Hnd as (Hnd1 & Hd & [Hp2 Hnd2]%NoDup_cons).
  assert (Hp1 : p ∉ l1) by (intros ?; eapply Hd; [done|set_solver]).
  unfold ListRemove. wp_simp.
  eapply wp_AsBuddy; [done..|]. wp_simp. eapply wp_load; [done|]. wp_simp.
  rewrite Hnxt, Hprv. apply wp_neighbour.
  { intros a Ha%first_in. destruct (Htag a) as (? & ? & ? & ?); [set_solver|eauto]. }
  wp_simp. eapply wp_load; [cbn; by rewrite first_notin|]. wp_simp.
  rewrite Hnxt, Hprv. apply wp_neighbour.
  { intros a Ha%final_in. destruct (Htag a) as (n & Hn & ? & ?); [set_solver|].
    exists n. cbn. rewrite lookup_alter_opt_ne; [done|].
    intros Hc%first_in. eapply (Hd a); set_solver. }
  wp_simp. eapply wp_load; [cbn; by rewrite final_notin, first_notin|].
  wp_simp. eapply wp_get_head; [done..|]. wp_simp.
  rewrite Hnxt. destruct l1 as [|a l1']; cbn.
  - rewrite bool_decide_eq_true_2 by done.
    eapply wp_set_head; [done..|]. wp_simp.
    eapply wp_store; [cbn; by rewrite first_notin|]. wp_simp.
    eapply wp_store; [cbn; by rewrite lookup_alter_eq, first_notin, Hm|exact HQ].
  - rewrite bool_decide_eq_false_2 by (intros [= ->]; set_solver). wp_simp.
    eapply wp_store; [cbn; by rewrite final_notin, first_notin|]. wp_simp.
    eapply wp_store; [cbn; by rewrite lookup_alter_eq, final_notin, first_notin, Hm|].
    cbn in HQ. rewrite list_insert_id in HQ by done. exact HQ.
Qed.
End remove.

(** Changes of links only. *)
Definition tag (m : PageMeta) : PageMetaType * Z := (pm_type m, pm_order m).

Definition same_tags (h h' : gmap Z PageMeta) : Prop :=
  ∀ q, tag <$> h' !! q = tag <$> h !! q.

Lemma same_tags_alter f p h : (∀ m, tag (f m) = tag m) → same_tags h (alter f p h).
Proof.
  intros Hf q. rewrite lookup_alter. case_decide; [|done]. subst.
  destruct (h !! q); cbn; [|done]. by rewrite Hf.
Qed.

Lemma same_tags_alter_opt f x h : (∀ m, tag (f m) = tag m) → same_tags h (alter_opt f x h).
Proof. destruct x; [apply same_tags_alter|by intros _ ?]. Qed.

Lemma same_tags_trans h1 h2 h3 : same_tags h1 h2 → same_tags h2 h3 → same_tags h1 h3.
Proof. intros H1 H2 q. by rewrite H2, H1. Qed.

Lemma same_tags_lookup h h' q m :
  same_tags h h' → h !! q = Some m → ∃ m', h' !! q = Some m' ∧ tag m' = tag m.
Proof.
  intros H Hq. specialize (H q). rewrite Hq in H. cbn in H.
  destruct (h' !! q) as [m'|]; [|done]. cbn in H. injection H as H1 H2.
  exists m'. split; [done|]. unfold tag. congruence.
Qed.

Lemma same_tags_sym h h' : same_tags h h' → same_tags h' h.
Proof. intros H q. by rewrite H. Qed.

Lemma same_tags_is_Some h h' q :
  same_tags h h' → is_Some (h' !! q) ↔ is_Some (h !! q).
Proof. intros H. rewrite <- !(fmap_is_Some tag). by rewrite H. Qed.

Lemma same_tags_tagged h h' o l : same_tags h h' → tagged h o l → tagged h' o l.
Proof.
  intros H Ht q (m & Hm & <- & <-)%Ht.
  destruct (same_tags_lookup _ _ _ _ H Hm) as (m' & ? & [= ? ?]). eauto.
Qed.

Lemma unlink_tags l1 p l2 h : same_tags h (unlink l1 p l2 h).
Proof.
  unfold unlink.
  repeat (eapply same_tags_trans; [|by apply same_tags_alter]).
  eapply same_tags_trans; [|by apply same_tags_alter_opt].
  by apply same_tags_alter_opt.
Qed.

Lemma seg_alter_opt_notin f x h p l q :
  (∀ a, x = Some a → a ∉ l) → bseg h p l q → bseg (alter_opt f x h) p l q.
Proof. intros Hx. destruct x; [apply seg_alter_notin; eauto|done]. Qed.

Lemma unlink_other l1 p l2 h l :
  (∀ a, a ∈ l → a ∉ l1 ++ p :: l2) → bseg h None l None → bseg (unlink l1 p l2 h) None l None.
Proof.
  intros Hd Hs. unfold unlink.
  do 2 (apply seg_alter_notin; [intros ?; eapply Hd; [done|set_solver]|]).
  apply seg_alter_opt_notin; [|apply seg_alter_opt_notin; [|done]]; intros a Ha ?.
  - apply final_in in Ha. eapply Hd; [done|set_solver].
  - apply first_in in Ha. eapply Hd; [done|set_solver].
Qed.

Lemma unlink_seg l1 p l2 h :
  NoDup (l1 ++ p :: l2) →
  bseg h None (l1 ++ p :: l2) None → bseg (unlink l1 p l2 h) None (l1 ++ l2) None.
Proof.
  intros (Hnd1 & Hd & [Hp2 Hnd2]%NoDup_cons)%NoDup_app Hs.
  assert (Hp1 : p ∉ l1) by (intros ?; eapply Hd; [done|set_solver]).
  unfold unlink. do 2 (apply seg_alter_notin; [set_solver|]).
  apply seg_app in Hs as [Hs1 (m & Hm & Hpr & Hnx & Hs2)].
  apply seg_app. split.
  - destruct (final_cases l1) as [[-> ->]|(a & l1' & Hl1 & ->)]; [done|]. cbn.
    rewrite Hl1. eapply seg_set_nxt_last; [apply _| |].
    { rewrite Hl1 in Hnd1. apply NoDup_app in Hnd1 as (_ & Hx & _).
      intros Ha. eapply Hx; [done|set_solver]. }
    apply seg_alter_opt_notin; [|by rewrite <- Hl1].
    intros b Hb%first_in ?. eapply (Hd b); set_solver.
  - apply seg_alter_opt_notin.
    { intros a Ha%final_in ?. eapply (Hd a); set_solver. }
    destruct l2 as [|b l2]; [done|]. cbn [first alter_opt].
    eapply seg_set_prv_first; [apply _|by apply NoDup_cons in Hnd2 as []|done].
Qed.

Definition link_front (p : Z) (l : list Z) (h : gmap Z PageMeta) : gmap Z PageMeta :=
  alter (set_prev None) p
    (alter_opt (set_prev (Some p)) (first Some l None)
      (alter (set_next (first Some l None)) p h)).

Lemma wp_ListPush E p l m o (Q : unit → BuddyPmm → Prop) s :
  page_frames_metas_ s !! p = Some m → pm_type m = Buddy → pm_order m = o →
  0 ≤ o → p ∉ l → tagged (page_frames_metas_ s) o l →
  freelist_table_ s !! Z.to_nat o = Some (first Some l None) →
  Q tt (mkBuddyPmm (<[Z.to_nat o := Some p]> (freelist_table_ s))
          (link_front p l (page_frames_metas_ s)) (num_page_frames_ s)) →
  wp E (ListPush p) Q s.
Proof.
  intros Hm Ht Ho H0 Hp Htag Hh HQ. unfold ListPush. wp_simp.
  eapply wp_load; [done|]. wp_simp. rewrite Ho. eapply wp_get_head; [done..|]. wp_simp.
  eapply wp_AsBuddy; [done..|]. wp_simp. eapply wp_store; [done|]. wp_simp.
  apply wp_neighbour.
  { intros a Ha%first_in. destruct (Htag a) as (n & ? & ? & ?); [done|]. exists n.
    cbn. by rewrite lookup_alter_ne by (by intros ->). }
  wp_simp. eapply wp_store.
  { cbn. rewrite first_notin by done. by rewrite lookup_alter_eq, Hm. }
  wp_simp. eapply wp_set_head; [done|exact Hh|exact HQ].
Qed.

Lemma link_front_tags p l h : same_tags h (link_front p l h).
Proof.
  unfold link_front. eapply same_tags_trans; [|by apply same_tags_alter].
  eapply same_tags_trans; [|by apply same_tags_alter_opt]. by apply same_tags_alter.
Qed.

Lemma link_front_other p l h l' :
  p ∉ l' → (∀ a, a ∈ l' → a ∉ l) →
  bseg h None l' None → bseg (link_front p l h) None l' None.
Proof.
  intros Hp Hd Hs. unfold link_front. apply seg_alter_notin; [done|].
  apply seg_alter_opt_notin; [intros a Ha%first_in ?; by eapply Hd|].
  by apply seg_alter_notin.
Qed.

Lemma link_front_seg p l h m :
  h !! p = Some m → p ∉ l → NoDup l → bseg h None l None →
  bseg (link_front p l h) None (p :: l) None.
Proof.
  intros Hm Hp Hnd Hs. unfold link_front. cbn.
  exists (set_prev None (set_next (first Some l None) m)).
  rewrite lookup_alter_eq, first_notin, lookup_alter_eq, Hm by done.
  split_and!; [done..|]. apply seg_alter_notin; [done|].
  destruct l as [|a l]; [done|]. cbn [first alter_opt].
  apply NoDup_cons in Hnd as [].
  eapply seg_set_prv_first; [apply _|done|]. by apply seg_alter_notin.
Qed.

(** ** Blocks

    A block is a page frame number with an order; it covers [2^order] pages. *)

Definition block : Type := Z * Z.

Definition covers (b : block) (x : Z) : Prop := b.1 ≤ x < b.1 + 2 ^ b.2.

Definition block_ok (num : Z) (b : block) : Prop :=
  0 ≤ b.2 ≤ kMaxOrder ∧ 0 ≤ b.1 ∧ (2 ^ b.2 | b.1) ∧ b.1 + 2 ^ b.2 ≤ num.

(** The blocks of [B] tile the page frames [0 .. num - 1]. *)
Record tiling (num : Z) (B : block → Prop) : Prop := {
  tl_ok b : B b → block_ok num b;
  tl_disjoint b b' x : B b → B b' → covers b x → covers b' x → b = b';
  tl_total x : 0 ≤ x < num → ∃ b, B b ∧ covers b x;
}.

(** [L] lists the free blocks by order, [A] holds the allocated blocks and [H] the
    blocks an operation holds in hand: on no list, and not handed out. *)
Definition blocks (L : Z → list Z) (A : gset block) (H : list block) (b : block) : Prop :=
  b.1 ∈ L (b.2) ∨ b ∈ A ∨ b ∈ H.

Record inv (s : BuddyPmm) (L : Z → list Z) (A : gset block) (H : list block) : Prop := {
  inv_len : length (freelist_table_ s) = 11%nat;
  inv_num : 0 ≤ num_page_frames_ s ≤ 2 ^ 52;
  inv_dom p : is_Some (page_frames_metas_ s !! p) ↔ (0 ≤ p < num_page_frames_ s);
  inv_head o : 0 ≤ o ≤ kMaxOrder →
    freelist_table_ s !! Z.to_nat o = Some (first Some (L o) None);
  inv_seg o : bseg (page_frames_metas_ s) None (L o) None;
  inv_nodup o : NoDup (L o);
  inv_tagged o : tagged (page_frames_metas_ s) o (L o);
  inv_buddy p m : page_frames_metas_ s !! p = Some m → pm_type m = Buddy →
    p ∈ L (pm_order m) ∨ (∃ o, (p, o) ∈ H);
  inv_alloc p o : (p, o) ∈ A →
    ∃ m, page_frames_metas_ s !! p = Some m ∧ tag m = (Allocated, o);
  inv_hand_nodup : NoDup H;
  inv_hand b : b ∈ H → (b.1 ∉ L (b.2)) ∧ (b ∉ A);
  inv_tiling : tiling (num_page_frames_ s) (blocks L A H);
}.

(** No two free blocks are buddies of each other: everything that can be merged is. *)
Definition coalesced (L : Z → list Z) : Prop :=
  ∀ p o, 0 ≤ o < kMaxOrder → p ∈ L o → GetBuddyPfn p o ∉ L o.

(** ** Ghost moves: how the operations transform the set of blocks *)

Definition upd (L : Z → list Z) (o : Z) (l : list Z) : Z → list Z :=
  λ o', if decide (o' = o) then l else L o'.

Lemma upd_eq L o l : upd L o l o = l.
Proof. unfold upd. by rewrite decide_True. Qed.

Lemma upd_ne L o l o' : o' ≠ o → upd L o l o' = L o'.
Proof. intros. unfold upd. by rewrite decide_False. Qed.

Lemma tiling_ext num B B' : (∀ b, B b ↔ B' b) → tiling num B → tiling num B'.
Proof.
  intros He [H1 H2 H3]. split.
  - intros b. rewrite <- He. apply H1.
  - intros b b' x. rewrite <- !He. apply H2.
  - intros x Hx. destruct (H3 x Hx) as (b & Hb & ?). exists b. by rewrite <- He.
Qed.

Lemma covers_head (b : block) : 0 ≤ b.2 → covers b b.1.
Proof. intros H. pose proof (pow2_pos _ H). unfold covers. lia. Qed.

Section facts.
Context {s : BuddyPmm} {L : Z → list Z} {A : gset block} {H : list block}.
Context (INV : inv s L A H).

Lemma inv_ok b : blocks L A H b → block_ok (num_page_frames_ s) b.
Proof using INV. apply INV. Qed.

Lemma free_ok p o : p ∈ L o → block_ok (num_page_frames_ s) (p, o).
Proof using INV. intros. apply inv_ok. by left. Qed.

Lemma same_head p o o' :
  blocks L A H (p, o) → blocks L A H (p, o') → o = o'.
Proof using INV.
  intros H1 H2. pose proof (inv_ok _ H1) as [? _]. pose proof (inv_ok _ H2) as [? _].
  assert ((p, o) = (p, o')) as [= ?]; [|done].
  eapply (tl_disjoint _ _ (inv_tiling _ _ _ _ INV) _ _ p); [done..| |];
    apply (covers_head (p, _)); cbn in *; lia.
Qed.

Lemma free_not_alloc p o o' : p ∈ L o → (p, o') ∉ A.
Proof using INV.
  intros Hp Ha. destruct (inv_tagged _ _ _ _ INV o p Hp) as (m & Hm & Ht & _).
  destruct (inv_alloc _ _ _ _ INV p o' Ha) as (m' & Hm' & [=]). congruence.
Qed.

Lemma free_one_list p o o' : p ∈ L o → p ∈ L o' → o = o'.
Proof using INV.
  intros (m & Hm & _ & Ho)%(inv_tagged _ _ _ _ INV)
    (m' & Hm' & _ & Ho')%(inv_tagged _ _ _ _ INV). congruence.
Qed.

Lemma hand_not_free p o o' : (p, o) ∈ H → p ∉ L o'.
Proof using INV.
  intros Hh Hp. assert (o = o') as ->.
  { apply (same_head p); [by do 2 right|by left]. }
  by destruct (inv_hand _ _ _ _ INV _ Hh).
Qed.

Lemma hand_not_alloc p o o' : (p, o) ∈ H → (p, o') ∉ A.
Proof using INV.
  intros Hh Hp. assert (o = o') as ->.
  { apply (same_head p); [by do 2 right|by right; left]. }
  by destruct (inv_hand _ _ _ _ INV _ Hh).
Qed.

Lemma hand_lookup p o : (p, o) ∈ H → is_Some (page_frames_metas_ s !! p).
Proof using INV.
  intros Hh. destruct (inv_ok (p, o)) as (Ho & ? & _ & ?); [by do 2 right|].
  cbn in *. apply (inv_dom _ _ _ _ INV). pose proof (pow2_pos o ltac:(lia)). lia.
Qed.

Lemma order_nat o o' : 0 ≤ o → 0 ≤ o' → o' ≠ o → Z.to_nat o ≠ Z.to_nat o'.
Proof. lia. Qed.
End facts.

(** Taking a free block in hand (the effect of [ListRemove]). *)
Lemma inv_take s L A H o l1 p l2 :
  inv s L A H → L o = l1 ++ p :: l2 →
  inv (mkBuddyPmm (<[Z.to_nat o := first Some (l1 ++ l2) None]> (freelist_table_ s))
         (unlink l1 p l2 (page_frames_metas_ s)) (num_page_frames_ s))
    (upd L o (l1 ++ l2)) A ((p, o) :: H).
Proof.
  intros INV HL. assert (Hp : p ∈ L o) by (rewrite HL; set_solver).
  destruct (free_ok INV p o Hp) as (Ho & Hp0 & _ & _). cbn in Ho.
  pose proof (inv_nodup _ _ _ _ INV o) as Hnd. rewrite HL in Hnd.
  pose proof (unlink_tags l1 p l2 (page_frames_metas_ s)) as Htags.
  assert (Hsub : ∀ o' q, q ∈ upd L o (l1 ++ l2) o' → q ∈ L o').
  { intros o' q. unfold upd. case_decide; [subst; rewrite HL; set_solver|done]. }
  split; cbn.
  - rewrite length_insert. apply INV.
  - apply INV.
  - intros q. rewrite same_tags_is_Some by done. apply INV.
  - intros o' Ho'. destruct (decide (o' = o)) as [->|Hne].
    + rewrite upd_eq, list_lookup_insert_eq; [done|].
      rewrite (inv_len _ _ _ _ INV). unfold kMaxOrder in *. lia.
    + rewrite upd_ne, list_lookup_insert_ne by (try apply order_nat; lia). by apply INV.
  - intros o'. pose proof (inv_seg _ _ _ _ INV o') as Hs.
    destruct (decide (o' = o)) as [->|Hne].
    + rewrite upd_eq. apply unlink_seg; [done|]. by rewrite <- HL.
    + rewrite upd_ne by done. apply unlink_other; [|done].
      intros a Ha Ha'. rewrite <- HL in Ha'. by eapply Hne, (free_one_list INV).
  - intros o'. unfold upd. case_decide; [|apply INV].
    apply NoDup_app in Hnd as (? & Hd & [? ?]%NoDup_cons). apply NoDup_app.
    split_and!; [done| |done]. intros x ? ?. eapply Hd; [done|set_solver].
  - intros o'. eapply same_tags_tagged; [done|]. intros q ?%Hsub. by apply INV.
  - intros q m' Hm' Ht'.
    destruct (same_tags_lookup _ _ _ _ (same_tags_sym _ _ Htags) Hm') as (m & Hm & [= Ht Hor]).
    rewrite <- Hor. destruct (inv_buddy _ _ _ _ INV q m Hm) as [Hq|[o' ?]]; [congruence| |].
    + unfold upd. case_decide as Heq; [|by left]. rewrite Heq, HL in Hq.
      destruct (decide (q = p)) as [->|]; [right; exists o; left|left; set_solver].
    + right. exists o'. by right.
  - intros q o' (m & Hm & Ht)%(inv_alloc _ _ _ _ INV).
    destruct (same_tags_lookup _ _ _ _ Htags Hm) as (m' & ? & ?). exists m'.
    split; [done|congruence].
  - apply NoDup_cons. split; [|apply INV]. intros Hh%(hand_not_free INV _ _ o). done.
  - intros b [->|Hb]%elem_of_cons; cbn.
    + rewrite upd_eq. split; [|by eapply (free_not_alloc INV)].
      intros Hin. apply NoDup_app in Hnd as (? & Hd & [? ?]%NoDup_cons).
      apply elem_of_app in Hin as [?|?]; [by eapply (Hd p); [|left]|done].
    + destruct (inv_hand _ _ _ _ INV b Hb) as [? ?]. split; [|done]. by intros ?%Hsub.
  - eapply tiling_ext; [|apply INV]. intros [q o']. unfold blocks, upd. cbn.
    case_decide; [subst; rewrite HL|]; set_solver.
Qed.

(** Rewriting the metadata of a block in hand. *)
Lemma inv_write s L A H p o f :
  inv s L A H → (p, o) ∈ H → inv (with_metas (alter f p) s) L A H.
Proof.
  intros INV Hh. destruct (hand_lookup INV p o Hh) as [m0 Hm0].
  assert (Hfr : ∀ o', p ∉ L o') by (intros; by eapply (hand_not_free INV)).
  split; cbn; try apply INV.
  - intros q. rewrite <- (inv_dom _ _ _ _ INV), lookup_alter.
    case_decide; [subst|done]. rewrite Hm0. split; by eexists.
  - intros o'. apply seg_alter_notin; [apply Hfr|apply INV].
  - intros o' q Hq. rewrite lookup_alter_ne by (intros ->; by eapply Hfr). by apply INV.
  - intros q m. rewrite lookup_alter. case_decide; [subst|apply INV]. eauto.
  - intros q o' Hq. rewrite lookup_alter_ne; [by apply INV|].
    intros ->. by eapply (hand_not_alloc INV).
Qed.

(** Putting a block in hand on its free list (the effect of [ListPush]). *)
Lemma inv_put s L A H p o m :
  inv s L A ((p, o) :: H) → page_frames_metas_ s !! p = Some m → tag m = (Buddy, o) →
  inv (mkBuddyPmm (<[Z.to_nat o := Some p]> (freelist_table_ s))
         (link_front p (L o) (page_frames_metas_ s)) (num_page_frames_ s))
    (upd L o (p :: L o)) A H.
Proof.
  intros INV Hm Htag.
  assert (Hin : (p, o) ∈ (p, o) :: H) by left.
  destruct (inv_ok INV (p, o)) as (Ho & Hp0 & _ & _); [by do 2 right|]. cbn in Ho.
  assert (Hfr : ∀ o', p ∉ L o') by (intros; by eapply (hand_not_free INV)).
  assert (Hna : (p, o) ∉ A) by by eapply (hand_not_alloc INV).
  pose proof (link_front_tags p (L o) (page_frames_metas_ s)) as Htags.
  pose proof (inv_hand_nodup _ _ _ _ INV) as [HpH HndH]%NoDup_cons.
  split; cbn.
  - rewrite length_insert. apply INV.
  - apply INV.
  - intros q. rewrite same_tags_is_Some by done. apply INV.
  - intros o' Ho'. destruct (decide (o' = o)) as [->|Hne].
    + rewrite upd_eq, list_lookup_insert_eq; [done|].
      rewrite (inv_len _ _ _ _ INV). unfold kMaxOrder in *. lia.
    + rewrite upd_ne, list_lookup_insert_ne by (try apply order_nat; lia). by apply INV.
  - intros o'. destruct (decide (o' = o)) as [->|Hne].
    + rewrite upd_eq. eapply link_front_seg; [done|apply Hfr|apply INV..].
    + rewrite upd_ne by done. apply link_front_other; [done| |apply INV].
      intros a Ha Ha'. by eapply Hne, (free_one_list INV).
  - intros o'. unfold upd. case_decide; [|apply INV]. apply NoDup_cons.
    split; [apply Hfr|apply INV].
  - intros o'. eapply same_tags_tagged; [done|]. intros q. unfold upd.
    case_decide; [subst|apply INV]. intros [->|?]%elem_of_cons; [|by apply INV].
    injection Htag as ? ?. eauto.
  - intros q m' Hm' Ht'.
    destruct (same_tags_lookup _ _ _ _ (same_tags_sym _ _ Htags) Hm') as (m1 & Hm1 & [= Ht Hor]).
    rewrite <- Hor. destruct (inv_buddy _ _ _ _ INV q m1 Hm1) as [Hq|[o' [[= -> ->]|?]%elem_of_cons]].
    + congruence.
    + left. unfold upd. case_decide as Heq; [|done]. rewrite Heq in Hq. by right.
    + left. rewrite Hm in Hm1. simplify_eq. injection Htag as ? ->. rewrite upd_eq. left.
    + right. eauto.
  - intros q o' (m1 & Hm1 & Ht)%(inv_alloc _ _ _ _ INV).
    destruct (same_tags_lookup _ _ _ _ Htags Hm1) as (m' & ? & ?). exists m'.
    split; [done|congruence].
  - done.
  - intros [q o'] Hb. cbn. destruct (inv_hand _ _ _ _ INV (q, o')) as [? ?]; [by right|].
    split; [|done]. unfold upd. case_decide; [subst|done].
    intros [->|?]%elem_of_cons; done.
  - eapply tiling_ext; [|apply INV]. intros [q o']. unfold blocks, upd. cbn.
    case_decide; [subst|]; set_solver.
Qed.

(** Handing a block out, and taking an allocated block back. *)
Lemma inv_give s L A H p o m :
  inv s L A ((p, o) :: H) → page_frames_metas_ s !! p = Some m → tag m = (Allocated, o) →
  inv s L ({[(p, o)]} ∪ A) H.
Proof.
  intros INV Hm Htag. pose proof (inv_hand_nodup _ _ _ _ INV) as [HpH HndH]%NoDup_cons.
  split; try apply INV; try done.
  - intros q m' Hm' Ht. destruct (inv_buddy _ _ _ _ INV q m' Hm' Ht)
      as [?|[o' [[= -> ->]|?]%elem_of_cons]]; [by left| |by right; eauto].
    rewrite Hm in Hm'. simplify_eq. unfold tag in Htag. congruence.
  - intros q o' [[= -> ->]%elem_of_singleton|?]%elem_of_union; [eauto|by apply INV].
  - intros b Hb. destruct (inv_hand _ _ _ _ INV b) as [? ?]; [by right|]. set_solver.
  - eapply tiling_ext; [|apply INV]. intros b. unfold blocks. set_solver.
Qed.

Lemma inv_reclaim s L A H p o :
  inv s L A H → (p, o) ∈ A → inv s L (A ∖ {[(p, o)]}) ((p, o) :: H).
Proof.
  intros INV Ha. split; try apply INV; try done.
  - intros q m Hm Ht. destruct (inv_buddy _ _ _ _ INV q m Hm Ht) as [?|[o' ?]]; [by left|].
    right. exists o'. by right.
  - intros q o' [? _]%elem_of_difference. by apply INV.
  - apply NoDup_cons. split; [|apply INV]. intros Hh. by destruct (inv_hand _ _ _ _ INV _ Hh).
  - intros b [->|Hb]%elem_of_cons; cbn.
    + split; [|set_solver]. intros Hp. by eapply (free_not_alloc INV).
    + destruct (inv_hand _ _ _ _ INV b Hb). set_solver.
  - eapply tiling_ext; [|apply INV]. intros b. unfold blocks.
    destruct (decide (b = (p, o))); set_solver.
Qed.

(** ** Buddies *)

Lemma lxor_1 k : Z.lxor k 1 = if Z.odd k then k - 1 else k + 1.
Proof.
  assert (Heven : ∀ m, Z.lxor (2 * m) 1 = 2 * m + 1).
  { intros m. symmetry. apply Z.add_nocarry_lxor. apply Z.bits_inj'. intros n Hn.
    rewrite Z.land_spec, Z.bits_0. destruct (decide (n = 0)) as [->|].
    - by rewrite Z.testbit_even_0.
    - by rewrite (Z.bits_above_log2 1 n), andb_false_r by (cbn; lia). }
  rewrite (Z.div2_odd k) at 1. destruct (Z.odd k) eqn:Ho; cbn [Z.b2z].
  - rewrite <- Heven, Z.lxor_assoc, Z.lxor_nilpotent, Z.lxor_0_r.
    rewrite (Z.div2_odd k) at 2. rewrite Ho. cbn. lia.
  - rewrite Z.add_0_r, Heven. rewrite (Z.div2_odd k) at 2. rewrite Ho. cbn. lia.
Qed.

Lemma GetBuddyPfn_mul k o :
  0 ≤ o → GetBuddyPfn (k * 2 ^ o) o = (if Z.odd k then k - 1 else k + 1) * 2 ^ o.
Proof.
  intros Ho. unfold GetBuddyPfn. rewrite <- lxor_1, <- !Z.shiftl_mul_pow2 by done.
  by rewrite Z.shiftl_lxor.
Qed.

(** An aligned block is the lower or the upper half of the block of the next order. *)
Lemma buddy_cases p o :
  0 ≤ o → (2 ^ o | p) →
  (GetBuddyPfn p o = p + 2 ^ o ∧ (2 ^ (o + 1) | p)) ∨
  (GetBuddyPfn p o = p - 2 ^ o ∧ (2 ^ (o + 1) | p - 2 ^ o)).
Proof.
  intros Ho [k ->]. rewrite GetBuddyPfn_mul by done.
  rewrite Z.pow_add_r, Z.pow_1_r by lia.
  pose proof (Z.div2_odd k) as Hk. destruct (Z.odd k); cbn [Z.b2z] in Hk; [right|left].
  - split; [lia|]. exists (Z.div2 k). rewrite Hk at 1. lia.
  - split; [lia|]. exists (Z.div2 k). rewrite Hk at 1. lia.
Qed.

Lemma buddy_involutive p o :
  0 ≤ o → (2 ^ o | p) → GetBuddyPfn (GetBuddyPfn p o) o = p.
Proof. intros. unfold GetBuddyPfn. by rewrite Z.lxor_assoc, Z.lxor_nilpotent, Z.lxor_0_r. Qed.

Lemma buddy_lower p o :
  0 ≤ o → (2 ^ (o + 1) | p) → GetBuddyPfn p o = p + 2 ^ o.
Proof.
  intros Ho [k ->]. rewrite Z.pow_add_r, Z.pow_1_r by lia.
  replace (k * (2 ^ o * 2)) with (2 * k * 2 ^ o) by lia.
  rewrite GetBuddyPfn_mul by done. rewrite Z.odd_mul. cbn. lia.
Qed.

Lemma divide_lower p o : 0 ≤ o → (2 ^ (o + 1) | p) → (2 ^ o | p).
Proof.
  intros Ho Hd. etransitivity; [|exact Hd].
  rewrite Z.pow_add_r by lia. apply Z.divide_factor_l.
Qed.

Lemma tiling_split num (B : block → Prop) p o :
  tiling num B → 0 ≤ o → B (p, o + 1) →
  tiling num (λ b, (B b ∧ b ≠ (p, o + 1)) ∨ b = (p, o) ∨ b = (p + 2 ^ o, o)).
Proof.
  intros [Hok Hdj Htot] Ho HB. pose proof (Hok _ HB) as (? & ? & Hal & ?). cbn in *.
  pose proof (pow2_pos o Ho). rewrite Z.pow_add_r, Z.pow_1_r in * by lia.
  assert (Hal' : (2 ^ o | p)) by (etransitivity; [|exact Hal]; apply Z.divide_factor_l).
  assert (Hnew : ∀ b x, B b → b ≠ (p, o + 1) → covers b x → p ≤ x < p + 2 ^ o * 2 → False).
  { intros b x Hb Hne Hc Hx. apply Hne. eapply Hdj; [done..|].
    unfold covers. cbn. rewrite Z.pow_add_r by lia. lia. }
  split.
  - intros b [[? _]|[-> | ->]]; [by apply Hok| |]; unfold block_ok; cbn; split_and!;
      try lia; [done|by apply Z.divide_add_r].
  - unfold covers in *. intros b b' x [[? ?]|[-> | ->]] [[? ?]|[-> | ->]] Hc Hc'; cbn in *;
      try (by eapply Hdj); try done; try lia; exfalso;
      (eapply Hnew; [| |exact Hc|lia]; done) || (eapply Hnew; [| |exact Hc'|lia]; done).
  - intros x Hx. destruct (Htot x Hx) as (b & Hb & Hc).
    destruct (decide (b = (p, o + 1))) as [->|]; [|by eauto].
    unfold covers in *. cbn in Hc. rewrite Z.pow_add_r, Z.pow_1_r in Hc by lia.
    destruct (decide (x < p + 2 ^ o)).
    + exists (p, o). cbn. split; [by right; left|lia].
    + exists (p + 2 ^ o, o). cbn. split; [by do 2 right|lia].
Qed.

Lemma tiling_join num (B : block → Prop) p o :
  tiling num B → 0 ≤ o < kMaxOrder → (2 ^ (o + 1) | p) → B (p, o) → B (p + 2 ^ o, o) →
  tiling num (λ b, (B b ∧ b ≠ (p, o) ∧ b ≠ (p + 2 ^ o, o)) ∨ b = (p, o + 1)).
Proof.
  intros [Hok Hdj Htot] Ho Hal HB HB'.
  pose proof (Hok _ HB) as (? & ? & _ & ?). pose proof (Hok _ HB') as (_ & _ & _ & ?).
  cbn in *. pose proof (pow2_pos o ltac:(lia)).
  assert (Hpow : 2 ^ (o + 1) = 2 * 2 ^ o) by (rewrite Z.pow_add_r; lia).
  assert (Hnew : ∀ b x, B b → b ≠ (p, o) → b ≠ (p + 2 ^ o, o) → covers b x →
    p ≤ x < p + 2 ^ (o + 1) → False).
  { intros b x Hb Hn1 Hn2 Hc Hx. destruct (decide (x < p + 2 ^ o)).
    - apply Hn1. eapply Hdj; [done..|]. unfold covers. cbn. lia.
    - apply Hn2. eapply Hdj; [done..|]. unfold covers. cbn. lia. }
  split.
  - intros b [[? _]| ->]; [by apply Hok|]. unfold block_ok. cbn. split_and!; try lia; done.
  - unfold covers in *. intros b b' x [(? & ? & ?)| ->] [(? & ? & ?)| ->] Hc Hc'; cbn in *;
      try (by eapply Hdj); try done; exfalso;
      (eapply Hnew; [| | |exact Hc|lia]; done) || (eapply Hnew; [| | |exact Hc'|lia]; done).
  - intros x Hx. destruct (Htot x Hx) as (b & Hb & Hc).
    destruct (decide (b = (p, o))) as [->|];
      [|destruct (decide (b = (p + 2 ^ o, o))) as [->|]; [|by eauto 10]];
      exists (p, o + 1); (split; [by right|]); unfold covers in *; cbn in *; lia.
Qed.

Lemma inv_perm s L A H H' : H ≡ₚ H' → inv s L A H → inv s L A H'.
Proof.
  intros HP INV. assert (Hin : ∀ b, b ∈ H' ↔ b ∈ H) by (intros; by rewrite HP).
  split; try apply INV.
  - intros p m Hm Ht. destruct (inv_buddy _ _ _ _ INV p m Hm Ht) as [?|[o ?]]; [by left|].
    right. exists o. by rewrite Hin.
  - rewrite <- HP. apply INV.
  - intros b. rewrite Hin. apply INV.
  - eapply tiling_ext; [|apply INV]. intros b. unfold blocks. by rewrite Hin.
Qed.

(** A block in hand overlaps no other block. *)
Lemma hand_disjoint s L A b H b' x :
  inv s L A (b :: H) → covers b x → covers b' x → ¬ blocks L A H b'.
Proof.
  intros INV Hb Hb' HB. pose proof (inv_hand_nodup _ _ _ _ INV) as [Hn _]%NoDup_cons.
  assert (b = b') as <-.
  { eapply (tl_disjoint _ _ (inv_tiling _ _ _ _ INV)); [| |done..].
    - do 2 right. left.
    - destruct HB as [?|[?|?]]; [by left|by right; left|]. do 2 right. by right. }
  destruct (inv_hand _ _ _ _ INV b) as [? ?]; [left|].
  destruct HB as [?|[?|?]]; done.
Qed.

Lemma inv_split s L A H p o :
  0 ≤ o → inv s L A ((p, o + 1) :: H) → inv s L A ((p, o) :: (p + 2 ^ o, o) :: H).
Proof.
  intros Ho INV. pose proof (pow2_pos o Ho) as Hpos.
  assert (Hpow : 2 ^ (o + 1) = 2 * 2 ^ o) by (rewrite Z.pow_add_r; lia).
  assert (Hn : ∀ x, p ≤ x < p + 2 * 2 ^ o → ∀ b, covers b x → ¬ blocks L A H b).
  { intros x Hx b Hc. eapply (hand_disjoint _ _ _ (p, o + 1)); [done| |exact Hc].
    unfold covers. cbn. lia. }
  assert (Hn1 : ¬ blocks L A H (p, o)) by (apply (Hn p); unfold covers; cbn; lia).
  assert (Hn2 : ¬ blocks L A H (p + 2 ^ o, o)) by (apply (Hn (p + 2 ^ o)); unfold covers; cbn; lia).
  assert (Hn3 : ¬ blocks L A H (p, o + 1)) by (apply (Hn p); unfold covers; cbn; lia).
  unfold blocks in Hn1, Hn2. split; try apply INV.
  - intros q m Hm Ht. destruct (inv_buddy _ _ _ _ INV q m Hm Ht)
      as [?|[o' [[= -> ->]|?]%elem_of_cons]]; [by left|right..]; [exists o; left|].
    exists o'. by do 2 right.
  - apply NoDup_cons. split; [|apply NoDup_cons; split].
    + intros [[= ?]|?]%elem_of_cons; [lia|naive_solver].
    + naive_solver.
    + by pose proof (inv_hand_nodup _ _ _ _ INV) as [_ ?]%NoDup_cons.
  - intros b [->|[->|Hb]%elem_of_cons]%elem_of_cons; cbn; [naive_solver..|].
    apply INV. by right.
  - eapply tiling_ext; [|apply (tiling_split _ _ p o (inv_tiling _ _ _ _ INV) Ho)].
    2:{ do 2 right. left. }
    intros b. unfold blocks in *. destruct (decide (b = (p, o + 1))) as [->|]; [|set_solver].
    split; [intros [[_ []]|[[= ?]|[= ? ?]]]; done || lia|].
    intros HB. exfalso. destruct HB as [?|[?|[[= ?]|[[= ?]|?]%elem_of_cons]%elem_of_cons]];
      lia || naive_solver.
Qed.

Lemma inv_join s L A H p o m :
  0 ≤ o < kMaxOrder → (2 ^ (o + 1) | p) →
  inv s L A ((p, o) :: (p + 2 ^ o, o) :: H) →
  page_frames_metas_ s !! (p + 2 ^ o) = Some m → pm_type m ≠ Buddy →
  inv s L A ((p, o + 1) :: H).
Proof.
  intros Ho Hal INV Hm Hty. pose proof (pow2_pos o ltac:(lia)) as Hpos.
  assert (Hpow : 2 ^ (o + 1) = 2 * 2 ^ o) by (rewrite Z.pow_add_r; lia).
  pose proof (inv_hand_nodup _ _ _ _ INV) as [Hp1 [Hp2 Hnd]%NoDup_cons]%NoDup_cons.
  assert (Hn : ∀ b, covers b p → ¬ blocks L A H b).
  { intros b Hc HB. eapply (hand_disjoint _ _ _ (p, o) _ b p INV); [..|exact Hc|].
    - apply (covers_head (p, o)). cbn. lia.
    - destruct HB as [?|[?|?]]; [by left|by right; left|]. do 2 right. by right. }
  assert (Hn3 : ¬ blocks L A H (p, o + 1)) by (apply Hn, (covers_head (p, o + 1)); cbn; lia).
  unfold blocks in Hn3. split; try apply INV.
  - intros q m' Hm' Ht. destruct (inv_buddy _ _ _ _ INV q m' Hm' Ht)
      as [?|[o' [[= -> ->]|[[= -> ->]|?]%elem_of_cons]%elem_of_cons]]; [by left|..].
    + right. exists (o + 1). left.
    + congruence.
    + right. exists o'. by right.
  - apply NoDup_cons. split; [naive_solver|done].
  - intros b [->|Hb]%elem_of_cons; cbn; [naive_solver|]. apply INV. by do 2 right.
  - eapply tiling_ext; [|apply (tiling_join _ _ p o (inv_tiling _ _ _ _ INV) Ho Hal)].
    2:{ do 2 right. left. }
    2:{ do 2 right. right. left. }
    intros b. unfold blocks.
    destruct (inv_hand _ _ _ _ INV (p, o)) as [? ?]; [left|].
    destruct (inv_hand _ _ _ _ INV (p + 2 ^ o, o)) as [? ?]; [right; left|]. cbn in *.
    destruct (decide (b = (p, o))) as [->|]; [|destruct (decide (b = (p + 2 ^ o, o))) as [->|]];
      [..|set_solver].
    + split; [intros [(_ & [] & _)|[= ?]]; [done|lia]|].
      intros [?|[?|[[= ?]|?]%elem_of_cons]]; [done|done|lia|]. set_solver.
    + split; [intros [(_ & _ & [])|[= ? ?]]; [done|lia]|].
      intros [?|[?|[[= ? ?]|?]%elem_of_cons]]; [done|done|lia|done].
Qed.

(** ** The operations, on the abstract state *)

Lemma coalesced_sub L L' : (∀ o p, p ∈ L' o → p ∈ L o) → coalesced L → coalesced L'.
Proof. intros Hs Hc p o Ho Hp%Hs Hb%Hs. by apply (Hc p o). Qed.

Lemma coalesced_put L o p :
  coalesced L → (o < kMaxOrder → GetBuddyPfn p o ∉ L o) → p ∉ L o →
  coalesced (upd L o (p :: L o)).
Proof.
  intros Hc Hb Hp q o' Ho'.
  destruct (decide (o' = o)) as [->|Hne]; [rewrite upd_eq|rewrite upd_ne by done; by apply Hc].
  assert (Hinv : ∀ x, GetBuddyPfn (GetBuddyPfn x o) o = x).
  { intros x. unfold GetBuddyPfn. by rewrite Z.lxor_assoc, Z.lxor_nilpotent, Z.lxor_0_r. }
  assert (Hself : GetBuddyPfn p o ≠ p).
  { unfold GetBuddyPfn. rewrite Z.shiftl_mul_pow2, Z.mul_1_l by lia. intros Heq.
    pose proof (pow2_pos o ltac:(lia)).
    pose proof (Z.lxor_assoc p p (2 ^ o)) as Ha.
    rewrite Z.lxor_nilpotent, Z.lxor_0_l, Heq, Z.lxor_nilpotent in Ha. lia. }
  intros [->|Hq]%elem_of_cons [Heq|Hq']%elem_of_cons.
  - done.
  - apply Hb; [lia|done].
  - apply Hb; [lia|]. rewrite <- Heq, Hinv. done.
  - by eapply (Hc q o).
Qed.

Section steps.
Context (E : stop → Prop).

Lemma wp_take L A H p o (Q : unit → BuddyPmm → Prop) s :
  inv s L A H → p ∈ L o →
  (∀ s' l, inv s' (upd L o l) A ((p, o) :: H) → (∀ q, q ∈ l → q ∈ L o) → p ∉ l →
     same_tags (page_frames_metas_ s) (page_frames_metas_ s') →
     num_page_frames_ s' = num_page_frames_ s → Q tt s') →
  wp E (ListRemove p) Q s.
Proof.
  intros INV Hp HQ. pose proof Hp as (l1 & l2 & HL)%list_elem_of_split.
  destruct (free_ok INV p o Hp) as (Ho & _). cbn in Ho.
  eapply (wp_ListRemove E l1 p l2 o).
  - rewrite <- HL. apply INV.
  - rewrite <- HL. apply INV.
  - rewrite <- HL. apply INV.
  - lia.
  - rewrite <- HL. apply INV; lia.
  - eapply HQ; [by apply inv_take|rewrite HL; set_solver| |apply unlink_tags|done].
    pose proof (inv_nodup _ _ _ _ INV o) as Hnd. rewrite HL in Hnd.
    apply NoDup_app in Hnd as (_ & Hd & [? _]%NoDup_cons).
    intros [?|?]%elem_of_app; [by eapply (Hd p); [|left]|done].
Qed.

Lemma wp_put_free L A H p o (Q : unit → BuddyPmm → Prop) s :
  inv s L A ((p, o) :: H) →
  (∀ s', inv s' (upd L o (p :: L o)) A H → num_page_frames_ s' = num_page_frames_ s →
     Q tt s') →
  wp E (store p (InitBuddy o)) (λ _ s, wp E (ListPush p) Q s) s.
Proof.
  intros INV HQ. assert (Hin : (p, o) ∈ (p, o) :: H) by left.
  destruct (hand_lookup INV p o Hin) as [m Hm].
  eapply wp_store; [done|]. pose proof (inv_write _ _ _ _ p o (InitBuddy o) INV Hin) as INV'.
  assert (Hm' : page_frames_metas_ (with_metas (alter (InitBuddy o) p) s) !! p
    = Some (InitBuddy o m)) by (cbn; by rewrite lookup_alter_eq, Hm).
  destruct (inv_ok INV (p, o)) as (Ho & _); [by do 2 right|]. cbn in Ho.
  apply (wp_ListPush E p (L o) (InitBuddy o m) o); [done|done|done|lia|by eapply (hand_not_free INV)|apply INV'|by apply INV'|].
  apply HQ; [|done]. by eapply inv_put.
Qed.

Lemma wp_SplitLoop fuel p i t L A (Q : unit → BuddyPmm → Prop) s :
  inv s L A [(p, i)] → coalesced L → 0 ≤ t ≤ i → (Z.to_nat i < fuel + Z.to_nat t)%nat →
  (∀ s' L', inv s' L' A [(p, t)] → coalesced L' →
     num_page_frames_ s' = num_page_frames_ s → Q tt s') →
  wp E (SplitLoop fuel p i t) Q s.
Proof.
  revert i L s. induction fuel as [|fuel IH]; intros i L s INV Hc Ht Hf HQ; [lia|].
  cbn [SplitLoop]. destruct (Z.ltb_spec t i) as [Hti|]; last first.
  { wp_simp. replace i with t in INV by lia. by eapply HQ. }
  destruct (inv_ok INV (p, i)) as (Hi & Hp & Hal & Hnum); [do 2 right; left|].
  cbn in *. unfold kMaxOrder in Hi. small_ints.
  replace i with (i - 1 + 1) in Hal, INV by lia.
  rewrite buddy_lower by (lia || done). set (q := p + 2 ^ (i - 1)).
  pose proof (pow2_pos (i - 1) ltac:(lia)). pose proof (pow2_double i ltac:(lia)).
  apply inv_split in INV; [|lia].
  pose proof (inv_perm _ _ _ _ _ (Permutation_swap _ _ _) INV) as INV'.
  wp_simp. apply wp_GetPageMeta; [subst q; lia|]. wp_simp.
  eapply wp_mono;
    [apply (wp_put_free _ _ _ _ _ (λ _ s', wp E (SplitLoop fuel p (i - 1) t) Q s') _ INV')
    |by intros [] s' Hw; wp_simp].
  intros s' INV2 Hn. eapply IH; [exact INV2| |lia|lia|].
  - apply coalesced_put; [done| |by eapply (hand_not_free INV'); left].
    intros _. subst q. rewrite <- (buddy_lower p), buddy_involutive; [|lia|..].
    + eapply (hand_not_free INV'). right. left.
    + apply divide_lower; [lia|done].
    + lia.
    + done.
  - intros s'' L'' ? ? ?. eapply HQ; [done..|congruence].
Qed.
End steps.

Lemma buddy_nonneg p o : 0 ≤ o → 0 ≤ p → 0 ≤ GetBuddyPfn p o.
Proof.
  intros Ho Hp. unfold GetBuddyPfn. apply Z.lxor_nonneg.
  rewrite Z.shiftl_mul_pow2 by done. pose proof (pow2_pos o Ho). lia.
Qed.

(** Joining a block in hand with its buddy, both in hand, in either order. *)
Lemma inv_merge s L A H p o mp mb :
  let b := GetBuddyPfn p o in
  0 ≤ o < kMaxOrder → inv s L A ((p, o) :: (b, o) :: H) →
  page_frames_metas_ s !! p = Some mp → pm_type mp ≠ Buddy →
  page_frames_metas_ s !! b = Some mb → pm_type mb ≠ Buddy →
  inv s L A ((Z.min p b, o + 1) :: H).
Proof.
  intros b Ho INV Hp Htp Hb Htb. pose proof (pow2_pos o ltac:(lia)).
  destruct (inv_ok INV (p, o)) as (_ & _ & Hal & _); [do 2 right; left|]. cbn in Hal.
  destruct (buddy_cases p o) as [[Heq Hd]|[Heq Hd]]; [lia|done|..]; subst b; rewrite Heq in *.
  - rewrite Z.min_l by lia. by eapply inv_join.
  - rewrite Z.min_r by lia. eapply inv_join; [done|done| |by rewrite Z.sub_add|done].
    rewrite Z.sub_add. eapply inv_perm; [|exact INV]. apply Permutation_swap.
Qed.

(** One round of [MergeLoop] with a free buddy. *)
Lemma wp_merge_step E A L p o m s :
  let b := GetBuddyPfn p o in
  inv s L A [(p, o)] → page_frames_metas_ s !! p = Some m → pm_type m ≠ Buddy →
  coalesced L → 0 ≤ o < kMaxOrder → b ∈ L o →
  wp E (ListRemove b) (λ _ s1, wp E (store b (set_type Dummy)) (λ _ s2,
    ∃ L2 mm, inv s2 L2 A [(Z.min p b, o + 1)] ∧ coalesced L2 ∧
      page_frames_metas_ s2 !! Z.min p b = Some mm ∧ pm_type mm ≠ Buddy ∧
      num_page_frames_ s2 = num_page_frames_ s) s1) s.
Proof.
  intros b INV Hm Ht Hc Ho Hin. eapply wp_take; [exact INV|exact Hin|].
  intros s1 l INV1 Hsub Hbl Htags Hn1.
  assert (Hbp : b ≠ p).
  { intros Heq. destruct (inv_tagged _ _ _ _ INV o b Hin) as (? & ? & ? & _). congruence. }
  assert (Hb1 : (b, o) ∈ [(b, o); (p, o)]) by left.
  destruct (hand_lookup INV1 b o Hb1) as [bm Hbm].
  eapply wp_store; [done|].
  pose proof (inv_write _ _ _ _ b o (set_type Dummy) INV1 Hb1) as INV2.
  pose proof (inv_perm _ _ _ _ _ (Permutation_swap _ _ _) INV2) as INV3.
  set (s2 := with_metas (alter (set_type Dummy) b) s1) in *.
  destruct (same_tags_lookup _ _ _ _ Htags Hm) as (mp & Hmp & [= Htp _]).
  assert (Hmp2 : page_frames_metas_ s2 !! p = Some mp) by (cbn; by rewrite lookup_alter_ne).
  assert (Hmb2 : page_frames_metas_ s2 !! b = Some (set_type Dummy bm))
    by (cbn; by rewrite lookup_alter_eq, Hbm).
  assert (∃ mm, page_frames_metas_ s2 !! Z.min p b = Some mm ∧ pm_type mm ≠ Buddy)
    as (mm & ? & ?).
  { destruct (Z.min_spec p b) as [[_ ->]|[_ ->]]; [exists mp|exists (set_type Dummy bm)];
      (split; [done|]); [congruence|done]. }
  exists (upd L o l), mm. split_and!; [|..|done|done|done].
  - eapply inv_merge; [done|exact INV3|exact Hmp2|congruence|exact Hmb2|done].
  - eapply coalesced_sub; [|exact Hc]. intros o' q. unfold upd. case_decide; naive_solver.
Qed.

Section merge.
Context (E : stop → Prop) (A : gset block) (Q : Z * Z → BuddyPmm → Prop) (n : Z).
Hypothesis HQ : ∀ s L p o,
  inv s L A [(p, o)] → coalesced L → (o < kMaxOrder → GetBuddyPfn p o ∉ L o) →
  num_page_frames_ s = n → Q (p, o) s.

Lemma wp_MergeLoop fuel p o L m s :
  inv s L A [(p, o)] → page_frames_metas_ s !! p = Some m → pm_type m ≠ Buddy →
  coalesced L → (Z.to_nat (kMaxOrder - o) < fuel)%nat → num_page_frames_ s = n →
  wp E (MergeLoop fuel p o) Q s.
Proof using HQ.
  revert p o L m s. induction fuel as [|fuel IH]; intros p o L m s INV Hm Ht Hc Hf Hn; [lia|].
  destruct (inv_ok INV (p, o)) as (Ho & Hp & Hal & Hend); [do 2 right; left|]. cbn in *.
  destruct (Z.ltb_spec o kMaxOrder) as [Hlt|]; last first.
  { wp_simp. apply (HQ s L); [done|done|lia|done]. }
  assert (Hu : u8 (o + 1) = o + 1) by (unfold kMaxOrder in *; by small_ints).
  rewrite Hu. clear Hu. set (b := GetBuddyPfn p o). wp_simp.
  assert (Hfree : b ∈ L o → b < num_page_frames_ s).
  { intros (_ & _ & _ & ?)%(free_ok INV). cbn in *. pose proof (pow2_pos o ltac:(lia)). lia. }
  destruct (Z.leb_spec (num_page_frames_ s) b).
  { wp_simp. apply (HQ s L); [done|done| |done]. intros _ ?%Hfree. lia. }
  wp_simp. apply wp_GetPageMeta; [done|]. wp_simp.
  assert (Hb0 : 0 ≤ b) by (apply buddy_nonneg; lia).
  destruct (proj2 (inv_dom _ _ _ _ INV b)) as [bm Hbm]; [lia|].
  eapply wp_load; [done|]. wp_simp.
  destruct (bool_decide (pm_type bm = Buddy) && (pm_order bm =? o)) eqn:Hcond; last first.
  { wp_simp. apply (HQ s L); [done|done| |done].
    intros _ (m' & Hm' & Ht' & Ho')%(inv_tagged _ _ _ _ INV). fold b in Hm'. simplify_eq.
    rewrite bool_decide_eq_true_2, Z.eqb_refl in Hcond by done. done. }
  apply andb_true_iff in Hcond as [Hbt%bool_decide_eq_true Hbo%Z.eqb_eq].
  assert (Hin : b ∈ L o).
  { destruct (inv_buddy _ _ _ _ INV b bm) as [?|[o' [[= ? ?]|[]%not_elem_of_nil]%elem_of_cons]];
      congruence. }
  wp_simp. eapply wp_mono; [apply (wp_merge_step E A L p o m s INV Hm Ht Hc); [lia|done]|].
  intros [] s1 Hs1. wp_simp. eapply wp_mono; [exact Hs1|].
  intros [] s2 (L2 & mm & INV2 & Hc2 & Hmm & Htm & Hn2).
  eapply IH; [exact INV2|exact Hmm|done..|lia|lia].
Qed.
End merge.

(** ** The allocator's contract *)

(** [buddy_inv s L A]: the free lists of [s] hold the blocks of [L], the blocks of [A]
    are allocated, together they tile the physical pages, and the free blocks are
    merged as far as they can be. *)
Definition buddy_inv (s : BuddyPmm) (L : Z → list Z) (A : gset block) : Prop :=
  inv s L A [] ∧ coalesced L.

Lemma page_addr p n : 0 ≤ p < n → n ≤ 2 ^ 52 → PageFrameAddr p = p * 4096.
Proof.
  intros. unfold PageFrameAddr, kPageSizeBytes. apply wrap_u_small. unfold in_u. lia.
Qed.

Lemma wp_PageFrameNumber E p n (Q : Z → BuddyPmm → Prop) s :
  0 ≤ p < n → n ≤ 2 ^ 52 → Q p s → wp E (PageFrameNumber (PageFrameAddr p)) Q s.
Proof.
  intros Hp Hn HQ. rewrite (page_addr p n) by done.
  unfold PageFrameNumber, kPageSizeBytes. wp_simp.
  apply wp_assert; [by rewrite Z.mod_mul|]. by rewrite Z.div_mul.
Qed.

Lemma wp_MergeBlock E A L p o m (Q : Z → BuddyPmm → Prop) s :
  inv s L A [(p, o)] → coalesced L →
  page_frames_metas_ s !! p = Some m → pm_type m ≠ Buddy → pm_order m = o →
  (∀ s' L' p' o' m', inv s' L' A [(p', o')] → coalesced L' →
     (o' < kMaxOrder → GetBuddyPfn p' o' ∉ L' o') →
     page_frames_metas_ s' !! p' = Some m' → pm_order m' = o' →
     num_page_frames_ s' = num_page_frames_ s → Q p' s') →
  wp E (MergeBlock p) Q s.
Proof.
  intros INV Hc Hm Ht Ho HQ. unfold MergeBlock. wp_simp.
  eapply wp_load; [done|]. wp_simp.
  destruct (inv_ok INV (p, o)) as (Hor & Hp & _ & Hend); [do 2 right; left|]. cbn in Hor, Hp, Hend.
  pose proof (pow2_pos o ltac:(lia)).
  apply wp_GetPageFrameNumber; [lia|]. wp_simp. rewrite Ho.
  eapply wp_MergeLoop; [|exact INV|exact Hm|done|done|unfold kMaxOrder in *; lia|reflexivity].
  intros s1 L1 p1 o1 INV1 Hc1 Hb1 Hn1. cbn. wp_simp.
  assert (Hin : (p1, o1) ∈ [(p1, o1)]) by left.
  destruct (inv_ok INV1 (p1, o1)) as (Hor1 & ? & _ & ?); [do 2 right; left|]. cbn in *.
  pose proof (pow2_pos o1 ltac:(lia)).
  apply wp_GetPageMeta; [lia|]. wp_simp.
  destruct (hand_lookup INV1 p1 o1 Hin) as [m1 Hm1].
  eapply wp_store; [done|]. wp_simp.
  eapply HQ; [by eapply inv_write|done|done| | |done].
  - cbn. by rewrite lookup_alter_eq, Hm1.
  - done.
Qed.

Lemma Free_run s L A p o :
  buddy_inv s L A → (p, o) ∈ A →
  ∃ s' L', Free (PageFrameAddr p) s = Ok (tt, s') ∧
    buddy_inv s' L' (A ∖ {[(p, o)]}) ∧ num_page_frames_ s' = num_page_frames_ s.
Proof.
  intros [INV Hc] Ha.
  destruct (inv_ok INV (p, o)) as (Hor & Hp & _ & Hend); [by right; left|]. cbn in Hor, Hp, Hend.
  pose proof (pow2_pos o ltac:(lia)). pose proof (inv_num _ _ _ _ INV).
  destruct (inv_alloc _ _ _ _ INV p o Ha) as (m & Hm & [= Ht Ho]).
  assert (wp never (Free (PageFrameAddr p)) (λ _ s', ∃ L',
    buddy_inv s' L' (A ∖ {[(p, o)]}) ∧ num_page_frames_ s' = num_page_frames_ s) s)
    as (? & s' & Hrun & L' & ?)%wp_total; [|destruct x; eauto].
  unfold Free. wp_simp. eapply wp_PageFrameNumber; [split; [done|]|apply INV|]; [lia|].
  wp_simp. apply wp_GetPageMeta; [lia|]. wp_simp. eapply wp_load; [done|]. wp_simp.
  apply wp_assert; [by apply bool_decide_eq_true|]. wp_simp.
  eapply wp_MergeBlock; [by apply inv_reclaim|done|done|congruence|done|].
  intros s1 L1 p1 o1 m1 INV1 Hc1 Hb1 Hm1 Ho1 Hn1. wp_simp.
  eapply wp_load; [done|]. wp_simp. rewrite Ho1.
  eapply wp_put_free; [exact INV1|]. intros s2 INV2 Hn2. exists (upd L1 o1 (p1 :: L1 o1)).
  split; [split; [done|]|congruence].
  apply coalesced_put; [done|done|]. eapply (hand_not_free INV1). left.
Qed.

Lemma wp_SplitBlock E A L p i t m (Q : Z → BuddyPmm → Prop) s :
  inv s L A [(p, i)] → coalesced L → 0 ≤ t < i →
  page_frames_metas_ s !! p = Some m → pm_order m = i →
  (∀ s' L', inv s' L' A [(p, t)] → coalesced L' →
     num_page_frames_ s' = num_page_frames_ s → Q p s') →
  wp E (SplitBlock p t) Q s.
Proof.
  intros INV Hc Ht Hm Ho HQ. unfold SplitBlock. wp_simp.
  eapply wp_load; [done|]. wp_simp. rewrite Ho.
  destruct (inv_ok INV (p, i)) as (Hor & Hp & _ & Hend); [do 2 right; left|]. cbn in Hor, Hp, Hend.
  pose proof (pow2_pos i ltac:(lia)).
  apply wp_GetPageFrameNumber; [lia|]. wp_simp.
  apply wp_assert; [lia|]. wp_simp.
  eapply wp_SplitLoop; [exact INV|done|lia|lia|]. intros s1 L1 INV1 Hc1 Hn1. wp_simp.
  apply wp_GetPageMeta; [lia|]. wp_simp.
  assert (Hin : (p, t) ∈ [(p, t)]) by left.
  destruct (hand_lookup INV1 p t Hin) as [m1 Hm1].
  eapply wp_store; [done|]. wp_simp. eapply HQ; [by eapply inv_write|done|done].
Qed.

(** The block [Alloc] takes: the head of the first non-empty list from [order] up. *)
Definition best_fit (L : Z → list Z) (order k p : Z) : Prop :=
  order ≤ k ≤ kMaxOrder ∧ (∀ j, order ≤ j < k → L j = []) ∧ head (L k) = Some p.

Lemma AllocLoop_spec fuel c order s L A :
  buddy_inv s L A → 0 ≤ order ≤ c → c ≤ kMaxOrder + 1 →
  (∀ j, order ≤ j < c → L j = []) → (Z.to_nat (kMaxOrder + 1 - c) < fuel)%nat →
  wp never (AllocLoop fuel c order) (λ r s',
    match r with
    | inl e => e = OutOfMemory ∧ s' = s ∧ ∀ j, order ≤ j ≤ kMaxOrder → L j = []
    | inr addr => ∃ k p L', best_fit L order k p ∧ addr = PageFrameAddr p ∧
        buddy_inv s' L' ({[(p, order)]} ∪ A) ∧ num_page_frames_ s' = num_page_frames_ s
    end) s.
Proof.
  intros [INV Hcoal]. revert c. induction fuel as [|fuel IH]; intros c Hc Hmax He Hf; [lia|].
  cbn [AllocLoop]. destruct (Z.leb_spec c kMaxOrder) as [Hle|]; last first.
  { wp_simp. split_and!; [done|done|]. intros j ?. apply He. lia. }
  wp_simp. eapply wp_get_head; [lia|by apply INV; lia|]. wp_simp.
  destruct (L c) as [|p l] eqn:HL; cbn [first].
  { replace (u8 (c + 1)) with (c + 1) by (unfold kMaxOrder in *; by small_ints).
    apply IH; [lia|lia| |lia]. intros j Hj.
    destruct (decide (j = c)) as [->|]; [done|apply He; lia]. }
  assert (Hp : p ∈ L c) by (rewrite HL; left).
  assert (Hfit : best_fit L order c p) by (split_and!; [lia|lia|done|by rewrite HL]).
  wp_simp. eapply wp_take; [exact INV|exact Hp|].
  intros s1 l1 INV1 Hsub Hpl Htags Hn1. wp_simp.
  assert (Hc1 : coalesced (upd L c l1)).
  { eapply coalesced_sub; [|exact Hcoal]. intros o q. unfold upd. case_decide; naive_solver. }
  destruct (inv_tagged _ _ _ _ INV c p Hp) as (m & Hm & _ & Hmo).
  destruct (same_tags_lookup _ _ _ _ Htags Hm) as (m1 & Hm1 & [= _ Hmo1]).
  eapply (wp_mono _ _ (λ r s', ∃ L', r = p ∧ inv s' L' A [(p, order)] ∧ coalesced L' ∧
    num_page_frames_ s' = num_page_frames_ s)).
  { destruct (Z.ltb_spec order c).
    - eapply wp_SplitBlock; [exact INV1|done|lia|exact Hm1|congruence|].
      intros s2 L2 INV2 Hc2 Hn2. exists L2. split_and!; [done..|congruence].
    - assert (c = order) as -> by lia. wp_simp. eauto 10. }
  intros ? s2 (L2 & -> & INV2 & Hc2 & Hn2). wp_simp.
  assert (Hin : (p, order) ∈ [(p, order)]) by left.
  destruct (hand_lookup INV2 p order Hin) as [m2 Hm2].
  eapply wp_store; [done|]. wp_simp.
  destruct (inv_ok INV2 (p, order)) as (_ & ? & _ & ?); [do 2 right; left|]. cbn in *.
  pose proof (pow2_pos order ltac:(lia)).
  apply wp_GetPageFrameNumber; [cbn; lia|]. wp_simp.
  exists c, p, L2. split_and!; [done|done| |done]. split; [|done].
  eapply inv_give; [by eapply inv_write|cbn; by rewrite lookup_alter_eq, Hm2|done].
Qed.

Lemma Alloc_run s L A order :
  buddy_inv s L A → 0 ≤ order →
  ∃ r s', Alloc order s = Ok (r, s') ∧
    match r with
    | inl InvalidArgument => kMaxOrder < order ∧ s' = s
    | inl OutOfMemory => s' = s ∧ ∀ j, order ≤ j ≤ kMaxOrder → L j = []
    | inl NotFound => False
    | inr addr => ∃ k p L', best_fit L order k p ∧ addr = PageFrameAddr p ∧
        buddy_inv s' L' ({[(p, order)]} ∪ A) ∧ num_page_frames_ s' = num_page_frames_ s
    end.
Proof.
  intros INV Ho. unfold Alloc. destruct (Z.ltb_spec kMaxOrder order);
    [by exists (inl InvalidArgument), s|].
  pose proof (AllocLoop_spec (S (S (Z.to_nat kMaxOrder))) order order s L A INV
    ltac:(lia) ltac:(lia) ltac:(lia) ltac:(unfold kMaxOrder in *; lia))
    as (r & s' & Hr & HQ)%wp_total.
  exists r, s'. split; [done|]. destruct r as [e|addr]; [|done].
  destruct HQ as (-> & ? & ?). done.
Qed.

(** ** The free blocks are determined by the allocated ones *)

Lemma nested p o q k x :
  0 ≤ k ≤ o → (2 ^ o | p) → (2 ^ k | q) → covers (p, o) x → covers (q, k) x →
  p ≤ q ∧ q + 2 ^ k ≤ p + 2 ^ o.
Proof.
  intros Hk [a ->] [c ->] [Hx1 Hx2] [Hx3 Hx4]. cbn in *.
  replace o with (k + (o - k)) in * by lia. rewrite Z.pow_add_r in * by lia.
  pose proof (pow2_pos k ltac:(lia)). set (u := 2 ^ k) in *. set (w := 2 ^ (o - k)) in *.
  assert (a * w < c + 1) by (apply (Z.mul_lt_mono_pos_r u); lia).
  assert (c < a * w + w) by (apply (Z.mul_lt_mono_pos_r u); lia).
  split; nia.
Qed.

(** The buddy of a block inside a larger block is inside it too, with their parent. *)
Lemma buddy_inside p o q k :
  0 ≤ k < o → (2 ^ o | p) → (2 ^ k | q) → covers (p, o) q →
  let b := GetBuddyPfn q k in
  covers (p, o) b ∧ (2 ^ k | b) ∧
  ∃ u, (2 ^ (k + 1) | u) ∧ covers (u, k + 1) q ∧ covers (u, k + 1) b.
Proof.
  intros Hk Hpa Hqa Hcov b. pose proof (pow2_pos k ltac:(lia)).
  assert (Hpow : 2 ^ (k + 1) = 2 * 2 ^ k) by (rewrite Z.pow_add_r; lia).
  assert (∃ u, (2 ^ (k + 1) | u) ∧ covers (u, k + 1) q ∧ covers (u, k + 1) b ∧ (2 ^ k | b))
    as (u & Hu & Hq & Hb & Hba).
  { destruct (buddy_cases q k) as [[Heq Hd]|[Heq Hd]]; [lia|done|..]; subst b; rewrite Heq.
    - exists q. unfold covers. cbn. split_and!; try lia; [done|by apply Z.divide_add_r].
    - exists (q - 2 ^ k). unfold covers. cbn. split_and!; try lia; [done|by apply Z.divide_sub_r]. }
  destruct (nested p o u (k + 1) q) as [? ?]; [lia|done..|].
  split; [|by eauto]. unfold covers in *. cbn in *. lia.
Qed.

(** Within a block free on one side, the other side has no smaller free block. *)
Lemma no_smaller s1 L1 s2 L2 A k :
  buddy_inv s1 L1 A → buddy_inv s2 L2 A → num_page_frames_ s1 = num_page_frames_ s2 →
  ∀ q p o, p ∈ L1 o → q ∈ L2 k → k < o → covers (p, o) q → False.
Proof.
  intros [I1 C1] [I2 C2] Hn q p o Hp Hq Hko Hcov.
  destruct (free_ok I1 p o Hp) as (Ho & Hp0 & Hpa & Hpe). cbn in *.
  destruct (free_ok I2 q k Hq) as (Hk & Hq0 & Hqa & Hqe). cbn in *.
  assert (Hk0 : 0 ≤ k) by lia. revert q Hq Hko Hcov Hk Hq0 Hqa Hqe.
  pattern k. apply Zlt_0_ind; [|done]. clear k Hk0.
  intros k IH Hk0 q Hq Hko Hcov Hk Hq0 Hqa Hqe.
  pose proof (pow2_pos k Hk0) as Hpos.
  set (b := GetBuddyPfn q k).
  pose proof (buddy_inside p o q k ltac:(lia) Hpa Hqa Hcov) as Hbc.
  destruct Hbc as (Hbp & Hba & u & Hua & Huq & Hub).
  destruct (tl_total _ _ (inv_tiling _ _ _ _ I2) b) as ([r j] & Hr & Hrb).
  { rewrite <- Hn. destruct Hbp. cbn in *. lia. }
  destruct Hr as [Hr|[Hr|[]%not_elem_of_nil]]; cbn in Hr; last first.
  { assert ((p, o) = (r, j)) as [= -> ->].
    { eapply (tl_disjoint _ _ (inv_tiling _ _ _ _ I1)); [by left|by right; left|done..]. }
    by eapply (free_not_alloc I1). }
  destruct (free_ok I2 r j Hr) as (Hj & Hr0 & Hra & Hre). cbn in *.
  destruct (Z.lt_trichotomy j k) as [Hjk|[->|Hjk]].
  - eapply (IH j ltac:(lia) r); [done|lia| |lia|done..].
    destruct (nested p o r j b) as [? ?]; [lia|done..|]. pose proof (pow2_pos j ltac:(lia)).
    unfold covers. cbn. lia.
  - assert (r = b) as ->; [|by apply (C2 q k); [lia|..]].
    destruct (nested r k b k b) as [? ?]; [lia|done|done|done| |lia].
    apply (covers_head (b, k)). done.
  - destruct (nested r j u (k + 1) b) as [? ?]; [lia|done..|]. destruct Huq as [? ?]. cbn in *.
    assert ((q, k) = (r, j)) as [= -> ->]; [|lia].
    eapply (tl_disjoint _ _ (inv_tiling _ _ _ _ I2) _ _ q); [by left|by left|..];
      unfold covers; cbn; lia.
Qed.

Lemma free_sub s1 L1 s2 L2 A p o :
  buddy_inv s1 L1 A → buddy_inv s2 L2 A → num_page_frames_ s1 = num_page_frames_ s2 →
  p ∈ L1 o → p ∈ L2 o.
Proof.
  intros I1 I2 Hn Hp. pose proof I1 as [J1 _]. pose proof I2 as [J2 _].
  destruct (free_ok J1 p o Hp) as (Ho & Hp0 & Hpa & Hpe). cbn in *.
  assert (Hcp : covers (p, o) p) by (apply (covers_head (p, o)); cbn; lia).
  destruct (tl_total _ _ (inv_tiling _ _ _ _ J2) p) as ([q k] & Hq & Hcq).
  { rewrite <- Hn. destruct Hcp. cbn in *. lia. }
  destruct Hq as [Hq|[Hq|[]%not_elem_of_nil]]; cbn in Hq; last first.
  { assert ((p, o) = (q, k)) as [= -> ->].
    { eapply (tl_disjoint _ _ (inv_tiling _ _ _ _ J1)); [by left|by right; left|done..]. }
    exfalso. by eapply (free_not_alloc J1). }
  destruct (free_ok J2 q k Hq) as (Hk & Hq0 & Hqa & Hqe). cbn in *.
  destruct (Z.lt_trichotomy k o) as [Hko|[->|Hko]].
  - exfalso. eapply (no_smaller s1 L1 s2 L2 A k I1 I2 Hn q p o); [done..|].
    destruct (nested p o q k p) as [? ?]; [lia|done..|].
    pose proof (pow2_pos k ltac:(lia)). unfold covers. cbn. lia.
  - destruct (nested p o q o p) as [? ?]; [lia|done..|]. by replace p with q by lia.
  - exfalso. eapply (no_smaller s2 L2 s1 L1 A o I2 I1 (eq_sym Hn) p q k); done.
Qed.

Lemma Alloc_Free_run s L A order addr s1 :
  buddy_inv s L A → 0 ≤ order → Alloc order s = Ok (inr addr, s1) →
  ∃ s2 L2, Free addr s1 = Ok (tt, s2) ∧ buddy_inv s2 L2 A ∧
    num_page_frames_ s = num_page_frames_ s2 ∧ (∀ p o, p ∈ L2 o ↔ p ∈ L o).
Proof.
  intros INV Ho Hal.
  destruct (Alloc_run s L A order INV Ho) as (r & s1' & Hr & Hm).
  rewrite Hal in Hr. injection Hr as <- <-. cbn in Hm.
  destruct Hm as (k & p & L1 & (Hk & _ & Hh) & -> & INV1 & Hn1).
  destruct (Free_run s1 L1 _ p order INV1) as (s2 & L2 & Hf & INV2 & Hn2); [set_solver|].
  assert ((({[(p, order)]} ∪ A) ∖ {[(p, order)]} : gset block) = A) as HA.
  { pose proof INV as [J _]. assert ((p, order) ∉ A); [|set_solver].
    eapply (free_not_alloc J p k). apply head_Some_elem_of in Hh. done. }
  rewrite HA in INV2. exists s2, L2. split_and!; [done|done|congruence|].
  intros q o. split; eapply free_sub; (done || congruence).
Qed.

(** ** Initialisation from the boot bitmap *)

(** The number of free pages of the bitmap below page [n]. *)
Fixpoint free_below (b : BitmapPmm) (n : nat) : Z :=
  match n with
  | O => 0
  | S n => free_below b n + (if bit (bitmap_view_ b) (Z.of_nat n) then 0 else 1)
  end.

(** The pages [Init] hands to the allocator: the free ones, up to the limit. *)
Definition donated (b : BitmapPmm) (limit p : Z) : Prop :=
  page_free b p ∧ free_below b (Z.to_nat p) < limit.

#[export] Instance donated_dec b limit p : Decision (donated b limit p).
Proof. unfold donated, page_free. apply _. Defined.

Lemma free_below_mono b n k : free_below b n ≤ free_below b (n + k)%nat.
Proof.
  induction k as [|k IH]; [by rewrite Nat.add_0_r|].
  rewrite Nat.add_succ_r. cbn. destruct (bit _ _); lia.
Qed.

(** A table whose first [i] entries are initialised, as [InitMetas] builds it. *)
Definition metas_init (i : Z) (s s' : BuddyPmm) : Prop :=
  freelist_table_ s' = freelist_table_ s ∧ num_page_frames_ s' = num_page_frames_ s ∧
  (∀ p, is_Some (page_frames_metas_ s' !! p) ↔ is_Some (page_frames_metas_ s !! p)) ∧
  (∀ p m, 0 ≤ p < i → page_frames_metas_ s' !! p = Some m → tag m = (Allocated, 0)).

Lemma wp_InitMetas E n i s0 (Q : unit → BuddyPmm → Prop) s :
  metas_init i s0 s → 0 ≤ i → i + Z.of_nat n = num_page_frames_ s0 →
  (∀ p, is_Some (page_frames_metas_ s0 !! p) ↔ (0 ≤ p < num_page_frames_ s0)) →
  (∀ s', metas_init (num_page_frames_ s0) s0 s' → Q tt s') →
  wp E (InitMetas n i) Q s.
Proof.
  revert i s. induction n as [|n IH]; intros i s Hm Hi Hin Hdom HQ.
  { cbn. wp_simp. apply HQ. by replace (num_page_frames_ s0) with i by lia. }
  destruct Hm as (Ht & Hn & Hd & Hmeta). cbn [InitMetas]. wp_simp.
  apply wp_GetPageMeta; [lia|]. wp_simp.
  destruct (proj2 (Hd i)) as [m Hm]; [apply Hdom; lia|].
  eapply wp_store; [done|]. wp_simp. apply IH; [|lia|lia|done|done].
  split_and!; [done|done| |]; cbn.
  - intros p. rewrite <- Hd, lookup_alter. case_decide; [subst|done].
    rewrite Hm. split; by eexists.
  - intros p m' Hp. rewrite lookup_alter. case_decide; [subst; rewrite Hm; by intros [= <-]|].
    apply Hmeta. lia.
Qed.

Definition singles (n : Z) : gset block := list_to_set ((λ p, (p, 0)) <$> seqZ 0 n).

Lemma elem_of_singles n p o : (p, o) ∈ singles n ↔ o = 0 ∧ 0 ≤ p < n.
Proof.
  unfold singles. rewrite elem_of_list_to_set, list_elem_of_fmap.
  setoid_rewrite elem_of_seqZ. split; [intros (? & [= -> ->] & ?); lia|].
  intros [-> ?]. exists p. split; [done|lia].
Qed.

Lemma inv_all_allocated s0 s :
  0 ≤ num_page_frames_ s0 ≤ 2 ^ 52 → freelist_table_ s0 = replicate 11 None →
  (∀ p, is_Some (page_frames_metas_ s0 !! p) ↔ (0 ≤ p < num_page_frames_ s0)) →
  metas_init (num_page_frames_ s0) s0 s →
  buddy_inv s (λ _, []) (singles (num_page_frames_ s0)).
Proof.
  intros Hn Ht Hd (Ht' & Hn' & Hd' & Hm).
  assert (Hlk : ∀ p m, page_frames_metas_ s !! p = Some m → tag m = (Allocated, 0)).
  { intros p m Hp. eapply Hm; [|done]. apply Hd, Hd'. by eexists. }
  split; [|intros ? ? _ ?%not_elem_of_nil; done].
  split; rewrite ?Ht', ?Ht, ?Hn'; try done; try lia.
  - intros p. by rewrite Hd', Hd.
  - intros o Ho. apply lookup_replicate. unfold kMaxOrder in Ho. split; [done|lia].
  - constructor.
  - by intros o p ?%not_elem_of_nil.
  - intros p m Hp Hb. apply Hlk in Hp. unfold tag in Hp. congruence.
  - intros p o [-> Hp]%elem_of_singles. destruct (proj2 (Hd' p)) as [m ?]; [by apply Hd|]. eauto.
  - constructor.
  - by intros b ?%not_elem_of_nil.
  - split.
    + intros [p o] [?%not_elem_of_nil|[[-> ?]%elem_of_singles|?%not_elem_of_nil]]; [done| |done].
      unfold block_ok, kMaxOrder. cbn. split_and!; try lia. apply Z.divide_1_l.
    + intros [p o] [p' o'] x [?%not_elem_of_nil|[[-> ?]%elem_of_singles|?%not_elem_of_nil]]
        [?%not_elem_of_nil|[[-> ?]%elem_of_singles|?%not_elem_of_nil]]; try done.
      unfold covers. cbn. intros. f_equal. lia.
    + intros x Hx. exists (x, 0). split; [right; left; by apply elem_of_singles|].
      unfold covers. cbn. lia.
Qed.

Lemma wp_InitFree n b limit i s L A :
  buddy_inv s L A → view_ok (bitmap_view_ b) → total b = num_page_frames_ s →
  Z.of_nat i + Z.of_nat n = num_page_frames_ s →
  (∀ p o, (p, o) ∈ A ↔ o = 0 ∧ 0 ≤ p < num_page_frames_ s ∧ ¬ (p < Z.of_nat i ∧ donated b limit p)) →
  wp never (InitFree n b limit (Z.of_nat i) (free_below b i)) (λ _ s', ∃ L' A',
    buddy_inv s' L' A' ∧ num_page_frames_ s' = num_page_frames_ s ∧
    ∀ p o, (p, o) ∈ A' ↔ o = 0 ∧ 0 ≤ p < num_page_frames_ s ∧ ¬ donated b limit p) s.
Proof.
  revert i s L A. induction n as [|n IH]; intros i s L A INV Hv Ht Hin HA.
  { cbn. wp_simp. exists L, A. split_and!; [done|done|]. intros p o. rewrite HA.
    split; intros (? & ? & Hx); (split; [done|split; [done|]]);
      [intros Hd; apply Hx; split; [lia|done]|by intros [_ Hd]]. }
  cbn [InitFree]. destruct (Z.ltb_spec (free_below b i) limit) as [Hlt|Hge]; last first.
  { wp_simp. exists L, A. split_and!; [done|done|]. intros p o. rewrite HA.
    assert (donated b limit p → 0 ≤ p → p < Z.of_nat i); [|tauto].
    intros [_ Hd] Hp. destruct (decide (p < Z.of_nat i)); [done|].
    pose proof (free_below_mono b i (Z.to_nat p - i)) as Hm.
    replace (i + (Z.to_nat p - i))%nat with (Z.to_nat p) in Hm by lia. lia. }
  assert (Hpeek : peek (IsFree (Z.of_nat i)) b s = Ok (negb (bit (bitmap_view_ b) (Z.of_nat i)), s)).
  { unfold peek. pose proof (wp_IsFree never (Z.of_nat i)
      (λ r s', r = negb (bit (bitmap_view_ b) (Z.of_nat i)) ∧ s' = b) b Hv ltac:(lia))
      as (r & s' & -> & -> & ->)%wp_total; done. }
  unfold wp, mbind, M_bind. rewrite Hpeek. fold (@wp BuddyPmm unit).
  replace (Z.of_nat i + 1) with (Z.of_nat (S i)) by lia.
  destruct (bit (bitmap_view_ b) (Z.of_nat i)) eqn:Hbit; cbn [negb].
  - assert (Hfb : free_below b i = free_below b (S i)) by (cbn; rewrite Hbit; lia).
    rewrite Hfb. apply (IH (S i) s L A); [done..|lia|].
    intros p o. rewrite HA. assert (donated b limit p → p ≠ Z.of_nat i).
    { intros [Hf _] ->. unfold page_free in Hf. congruence. }
    split; intros (? & ? & Hx); (split; [done|split; [done|]]); intros [Hlt' Hd]; apply Hx;
      (split; [|done]); [|lia]. specialize (H Hd). lia.
  - assert (Hfb : free_below b i + 1 = free_below b (S i)) by (cbn; rewrite Hbit; lia).
    rewrite Hfb.
    assert (Hd : donated b limit (Z.of_nat i)) by (split; [done|by rewrite Nat2Z.id]).
    assert (Hi : (Z.of_nat i, 0) ∈ A) by (apply HA; split_and!; lia).
    destruct (Free_run s L A _ _ INV Hi) as (s1 & L1 & -> & INV1 & Hn1).
    rewrite <- Hn1. apply (IH (S i) s1 L1 (A ∖ {[(Z.of_nat i, 0)]})); [done|done|lia|lia|].
    intros p o. rewrite elem_of_difference, elem_of_singleton, HA, Hn1. split.
    + intros [(-> & ? & Hx) Hne]. split_and!; [lia..|]. intros [? ?]. apply Hx.
      split; [|done]. assert (p ≠ Z.of_nat i) by congruence. lia.
    + intros (-> & ? & Hx). split; [split_and!; [lia..|]|].
      * intros [? ?]. apply Hx. split; [lia|done].
      * intros [= ->]. apply Hx. split; [lia|done].
Qed.

Lemma Init_run b limit s :
  0 ≤ num_page_frames_ s → total b = num_page_frames_ s → view_ok (bitmap_view_ b) →
  (∀ p, is_Some (page_frames_metas_ s !! p) ↔ (0 ≤ p < num_page_frames_ s)) →
  ∃ s' L A, Init b limit s = Ok (tt, s') ∧ buddy_inv s' L A ∧
    num_page_frames_ s' = num_page_frames_ s ∧
    ∀ x, 0 ≤ x < num_page_frames_ s →
      (donated b limit x ↔ ∃ p o, p ∈ L o ∧ covers (p, o) x).
Proof.
  intros Hn Ht Hv Hd. pose proof Hv as [[_ Hmax] _].
  assert (wp never (Init b limit) (λ _ s', ∃ L A, buddy_inv s' L A ∧
    num_page_frames_ s' = num_page_frames_ s ∧ ∀ p o, (p, o) ∈ A ↔
      o = 0 ∧ 0 ≤ p < num_page_frames_ s ∧ ¬ donated b limit p) s)
    as ([] & s' & Hrun & L & A & INV & Hn' & HA)%wp_total.
  { unfold Init. wp_simp. set (s0 := with_table (λ _, replicate 11 None) s).
    eapply (wp_InitMetas _ _ _ s0); [|done|cbn; lia|done|].
    - split_and!; [done..|]. intros; lia.
    - intros s1 Hs1. pose proof Hs1 as (_ & Hn1 & _). cbn in Hn1. wp_simp.
      eapply wp_mono; [eapply (wp_InitFree _ b limit 0)|].
      + eapply (inv_all_allocated s0); [cbn; lia|done|done|exact Hs1].
      + done.
      + congruence.
      + cbn in *. lia.
      + intros p o. rewrite elem_of_singles, Hn1. cbn. split; [|tauto].
        intros [? ?]. split_and!; [done|lia..].
      + intros [] s2 (L & A & ? & ? & HA). exists L, A. rewrite <- Hn1. split_and!; done. }
  exists s', L, A. split_and!; [done|done|done|]. intros x Hx. pose proof INV as [J _]. split.
  - intros Hdon. destruct (tl_total _ _ (inv_tiling _ _ _ _ J) x) as ([p o] & Hp & Hc); [lia|].
    destruct Hp as [?|[(-> & _ & ?)%HA|?%not_elem_of_nil]]; [by eauto| |done].
    unfold covers in Hc. cbn in Hc. assert (p = x) as -> by lia. done.
  - intros (p & o & Hp & Hc). destruct (decide (donated b limit x)) as [|Hnd]; [done|exfalso].
    assert ((x, 0) ∈ A) as Ha by (apply HA; split_and!; (done || lia)).
    assert ((p, o) = (x, 0)) as [= -> ->]; [|by eapply (free_not_alloc J)].
    eapply (tl_disjoint _ _ (inv_tiling _ _ _ _ J) _ _ x); [by left|by right; left|done|].
    apply (covers_head (x, 0)). done.
Qed.

(** ** Clients of the allocator

    The lock makes [Alloc] and [Free] atomic, so the runs of the kernel are the runs of
    this transition system.  Its state carries the blocks that are handed out; a client
    may free any of them, once. *)

Inductive client_step : BuddyPmm * gset block → BuddyPmm * gset block → Prop :=
| step_alloc s A order addr s' :
    0 ≤ order → Alloc order s = Ok (inr addr, s') →
    client_step (s, A) (s', {[(addr / kPageSizeBytes, order)]} ∪ A)
| step_alloc_failed s A order e s' :
    0 ≤ order → Alloc order s = Ok (inl e, s') → client_step (s, A) (s', A)
| step_free s A p o s' :
    (p, o) ∈ A → Free (PageFrameAddr p) s = Ok (tt, s') →
    client_step (s, A) (s', A ∖ {[(p, o)]}).

Lemma client_step_inv x y L :
  client_step x y → buddy_inv x.1 L x.2 → ∃ L', buddy_inv y.1 L' y.2.
Proof.
  intros [s A order addr s' Ho Hal|s A order e s' Ho Hal|s A p o s' Ha Hf]; cbn; intros INV.
  - destruct (Alloc_run s L A order INV Ho) as (r & s1 & Hr & Hm).
    rewrite Hal in Hr. injection Hr as <- <-. destruct Hm as (k & p & L' & Hfit & -> & INV' & Hn).
    destruct Hfit as (? & _ & Hh%head_Some_elem_of). pose proof INV as [J _].
    destruct (free_ok J p k Hh) as (? & ? & _ & ?). cbn in *.
    pose proof (pow2_pos k ltac:(lia)). pose proof (inv_num _ _ _ _ J).
    rewrite (page_addr p (num_page_frames_ s)) by lia.
    unfold kPageSizeBytes. rewrite Z.div_mul by lia. by exists L'.
  - destruct (Alloc_run s L A order INV Ho) as (r & s1 & Hr & Hm).
    rewrite Hal in Hr. injection Hr as <- <-. exists L.
    destruct e; cbn in Hm; [destruct Hm as [-> _]|destruct Hm as [_ ->]|]; done.
  - destruct (Free_run s L A p o INV Ha) as (s1 & L' & Hr & INV' & _).
    rewrite Hf in Hr. injection Hr as <-. by exists L'.
Qed.

Lemma client_run_inv x y L :
  rtc client_step x y → buddy_inv x.1 L x.2 → ∃ L', buddy_inv y.1 L' y.2.
Proof.
  intros Hr. revert L. induction Hr as [x|x y z Hst _ IH]; intros L INV; [by exists L|].
  destruct (client_step_inv _ _ _ Hst INV) as [L1 INV1]. by eapply IH.
Qed.

(** ** Double frees

    [Free] refuses a page whose metadata is not of type [Allocated].  When a freed block
    is merged into a buddy at a lower address, its own metadata is left as it was, so a
    second [Free] of the same page is accepted; from then on two free lists hold
    overlapping blocks and the page can be handed out twice. *)

Definition two_pages : BuddyPmm :=
  mkBuddyPmm (replicate 11 None)
    {[ 0 := mkPageMeta Dummy 0 None None; 1 := mkPageMeta Dummy 0 None None ]} 2.

Definition two_free : BitmapPmm := mkBitmapPmm (mkBitMapView [0] 2) 1.

(** Boot with two free pages, allocate both, free page 0, free page 1 twice, then
    allocate a page and a pair of pages. *)
Definition double_free_run : BM ((MemError + Z) * (MemError + Z)) :=
  Init two_free 2;;
  a ← Alloc 0;
  b ← Alloc 0;
  assertM (bool_decide (a = inr (PageFrameAddr 0) ∧ b = inr (PageFrameAddr 1))) "pages 0 and 1";;
  Free (PageFrameAddr 0);;
  Free (PageFrameAddr 1);;
  Free (PageFrameAddr 1);;
  a ← Alloc 0;
  b ← Alloc 1;
  mret (a, b).

(** ** The contract, as claims *)

(** A two-page machine, booted: the state the witnesses below start from. *)
Definition booted_state : BuddyPmm :=
  match Init two_free 2 two_pages with Ok (_, s) => s | Stop _ => two_pages end.

Lemma booted : ∃ L A, buddy_inv booted_state L A.
Proof.
  destruct (Init_run two_free 2 two_pages) as (s & L & A & Hs & INV & _);
    [done|done|by split| |].
  { intros p. cbn. rewrite lookup_insert_is_Some, lookup_singleton_is_Some. lia. }
  exists L, A. unfold booted_state. by rewrite Hs.
Qed.

(** C1.  Memory safety of the page allocator: along any run of a client that frees only
    what it holds, the held blocks stay inside the managed memory, naturally aligned and
    pairwise disjoint, and no request or release can fail an assertion, follow a bad
    pointer or loop. *)
Theorem buddy_client_safety s0 L0 A0 s A :
  buddy_inv s0 L0 A0 → rtc client_step (s0, A0) (s, A) →
  (∀ b, b ∈ A → block_ok (num_page_frames_ s) b) ∧
  (∀ b b' x, b ∈ A → b' ∈ A → covers b x → covers b' x → b = b') ∧
  (∀ order, 0 ≤ order → ∃ r s', Alloc order s = Ok (r, s')) ∧
  (∀ p o, (p, o) ∈ A → ∃ s', Free (PageFrameAddr p) s = Ok (tt, s')).
Proof.
  intros INV0 Hrun. destruct (client_run_inv _ _ _ Hrun INV0) as [L INV]. cbn in INV.
  pose proof INV as [J _]. split_and!.
  - intros b Hb. apply J. by right; left.
  - intros b b' x Hb Hb'. eapply J; by right; left.
  - intros order Ho. destruct (Alloc_run s L A order INV Ho) as (r & s' & ? & _). eauto.
  - intros p o Hp. destruct (Free_run s L A p o INV Hp) as (s' & ? & ? & _). eauto.
Qed.

Lemma buddy_client_safety_witness :
  ∃ L A s', buddy_inv booted_state L A ∧
    client_step (booted_state, A) (s', {[(0, 0)]} ∪ A) ∧
    ∃ r s'', Alloc 0 s' = Ok (r, s'').
Proof.
  destruct booted as (L & A & INV).
  destruct (Alloc 0 booted_state) as [[r s']|] eqn:Hal; [|by vm_compute in Hal].
  assert (r = inr 0) as -> by (vm_compute in Hal; by simplify_eq).
  assert (client_step (booted_state, A) (s', {[(0, 0)]} ∪ A)) as Hst
    by (apply (step_alloc booted_state A 0 0); done).
  exists L, A, s'. split_and!; [done|done|].
  destruct (buddy_client_safety _ L A s' _ INV (rtc_once _ _ Hst)) as (_ & _ & H & _).
  by apply (H 0).
Defined.

(** C3.  [Alloc] is total and exact: an order above the maximum is refused, out of memory
    is reported only when no free block is large enough, and otherwise the head of the
    smallest sufficient free list is split and its lower part becomes an allocated block;
    a failed request leaves the allocator unchanged. *)
Theorem Alloc_spec s L A order :
  buddy_inv s L A → 0 ≤ order →
  ∃ r s', Alloc order s = Ok (r, s') ∧
    match r with
    | inl InvalidArgument => kMaxOrder < order ∧ s' = s
    | inl OutOfMemory => s' = s ∧ ∀ j, order ≤ j ≤ kMaxOrder → L j = []
    | inl NotFound => False
    | inr addr => ∃ k p L', best_fit L order k p ∧ addr = PageFrameAddr p ∧
        buddy_inv s' L' ({[(p, order)]} ∪ A) ∧ num_page_frames_ s' = num_page_frames_ s
    end.
Proof. apply Alloc_run. Qed.

Lemma Alloc_spec_witness : ∃ L A, buddy_inv booted_state L A ∧
  ∃ r s', Alloc 1 booted_state = Ok (r, s') ∧ r = inr 0.
Proof.
  destruct booted as (L & A & INV). exists L, A. split; [done|].
  destruct (Alloc_spec _ L A 1 INV ltac:(lia)) as (r & s' & Hr & _).
  exists r, s'. split; [done|]. vm_compute in Hr. by simplify_eq.
Defined.

(** C4.  [Free] of an allocated block never fails, returns exactly that block and leaves
    the free blocks fully merged. *)
Theorem Free_spec s L A p o :
  buddy_inv s L A → (p, o) ∈ A →
  ∃ s' L', Free (PageFrameAddr p) s = Ok (tt, s') ∧
    buddy_inv s' L' (A ∖ {[(p, o)]}) ∧ num_page_frames_ s' = num_page_frames_ s.
Proof. apply Free_run. Qed.

Lemma Free_spec_witness : ∃ s L A s' L', buddy_inv s L A ∧ (0, 0) ∈ A ∧
  Free (PageFrameAddr 0) s = Ok (tt, s') ∧ buddy_inv s' L' (A ∖ {[(0, 0)]}).
Proof.
  destruct booted as (L & A & INV).
  destruct (Alloc_run _ L A 0 INV ltac:(lia)) as (r & s & Hr & Hm).
  assert (r = inr 0) as -> by (vm_compute in Hr; by simplify_eq). clear Hr.
  destruct Hm as (k & p & L' & (Hk & _ & Hh%head_Some_elem_of) & Hp & INV' & Hn).
  assert (p = 0) as ->.
  { pose proof INV as [J _]. destruct (free_ok J p k Hh) as (? & ? & _ & ?). cbn in *.
    pose proof (pow2_pos k ltac:(lia)). pose proof (inv_num _ _ _ _ J).
    rewrite (page_addr p (num_page_frames_ booted_state)) in Hp by lia. lia. }
  assert (Ha : (0, 0) ∈ ({[(0, 0)]} ∪ A : gset block))
    by (apply elem_of_union; left; by apply elem_of_singleton).
  destruct (Free_spec s L' _ 0 0 INV' Ha) as (s' & L2 & Hf & INV2 & _).
  exists s, L', ({[(0, 0)]} ∪ A), s', L2. split_and!; done.
Defined.



(**  Freeing what was just allocated undoes the allocation: the allocator is back in a
    state with the same allocated blocks and the same free blocks of every order. *)
Theorem Alloc_Free_roundtrip s L A order addr s1 :
  buddy_inv s L A → 0 ≤ order → Alloc order s = Ok (inr addr, s1) →
  ∃ s2 L2, Free addr s1 = Ok (tt, s2) ∧ buddy_inv s2 L2 A ∧
    num_page_frames_ s = num_page_frames_ s2 ∧ (∀ p o, p ∈ L2 o ↔ p ∈ L o).
Proof. apply Alloc_Free_run. Qed.

Lemma Alloc_Free_roundtrip_witness : ∃ L A s1 s2 (L2 : Z → list Z), buddy_inv booted_state L A ∧
  Alloc 0 booted_state = Ok (inr (PageFrameAddr 0), s1) ∧
  Free (PageFrameAddr 0) s1 = Ok (tt, s2) ∧ ∀ p o, p ∈ L2 o ↔ p ∈ L o.
Proof.
  destruct booted as (L & A & INV).
  destruct (Alloc 0 booted_state) as [[r s1]|] eqn:Hal; [|by vm_compute in Hal].
  assert (r = inr (PageFrameAddr 0)) as -> by (vm_compute in Hal; by simplify_eq).
  destruct (Alloc_Free_roundtrip _ L A 0 _ s1 INV ltac:(lia) Hal) as (s2 & L2 & Hf & _ & _ & Hl).
  exists L, A, s1, s2, L2. split_and!; done.
Defined.

(**  Boot: from an uninitialised metadata table and the boot bitmap, [Init] builds a
    consistent allocator whose free pages are exactly the pages free in the bitmap, up to
    the page limit. *)
Theorem Init_spec b limit s :
  0 ≤ num_page_frames_ s → total b = num_page_frames_ s → view_ok (bitmap_view_ b) →
  (∀ p, is_Some (page_frames_metas_ s !! p) ↔ (0 ≤ p < num_page_frames_ s)) →
  ∃ s' L A, Init b limit s = Ok (tt, s') ∧ buddy_inv s' L A ∧
    num_page_frames_ s' = num_page_frames_ s ∧
    ∀ x, 0 ≤ x < num_page_frames_ s →
      (donated b limit x ↔ ∃ p o, p ∈ L o ∧ covers (p, o) x).
Proof. apply Init_run. Qed.

Lemma Init_spec_witness : ∃ s L A, Init two_free 2 two_pages = Ok (tt, s) ∧ buddy_inv s L A ∧
  num_page_frames_ s = 2 ∧
  ∀ x, 0 ≤ x < 2 → (donated two_free 2 x ↔ ∃ p o, p ∈ L o ∧ covers (p, o) x).
Proof.
  apply (Init_spec two_free 2 two_pages); [done|done|by split|].
  intros p. cbn. rewrite lookup_insert_is_Some, lookup_singleton_is_Some. lia.
Defined.

(**  A double free can escape the check that is meant to detect it.  The second [Free] of page 1 is not detected, and page 1 is handed out twice: alone,
    and as the upper half of the pair at page 0. *)
Example double_free_undetected :
  ∃ s, double_free_run two_pages = Ok ((inr (PageFrameAddr 1), inr (PageFrameAddr 0)), s).
Proof. eexists. vm_compute. reflexivity. Qed.

(**  [SizeToPageOrder] is the least order whose block holds [size] bytes. *)
Theorem SizeToPageOrder_spec size :
  0 < size ≤ 2 ^ 63 →
  let order := SizeToPageOrder size in
  0 ≤ order ∧ size ≤ BuddyAreaSize order ∧ (0 < order → BuddyAreaSize (order - 1) < size).
Proof.
  intros Hs. unfold SizeToPageOrder, BuddyAreaSize, kPageSizeBytes, kPageShift, countl_zero.
  destruct (Z.leb_spec size 4096) as [Hle|Hgt].
  { cbn. split_and!; [done| |lia]. by replace (u64 4096) with 4096 by done. }
  rewrite Z.shiftr_div_pow2 by lia. change (2 ^ 12) with 4096.
  set (k := (size - 1) / 4096).
  assert (Hk : 1 ≤ k < 2 ^ 51).
  { subst k. split; [apply Z.div_le_lower_bound; lia|apply Z.div_lt_upper_bound; lia]. }
  destruct (Z.eqb_spec k 0); [lia|].
  destruct (Z.log2_spec k) as [Hl1 Hl2]; [lia|].
  assert (Hlog : 0 ≤ Z.log2 k < 51) by (split; [apply Z.log2_nonneg|apply Z.log2_lt_pow2; lia]).
  replace (64 - (64 - 1 - Z.log2 k)) with (Z.log2 k + 1) by lia. small_ints. cbn zeta.
  replace (Z.log2 k + 1 - 1) with (Z.log2 k) by lia.
  rewrite !Z.shiftl_mul_pow2 by lia. rewrite <- Z.add_1_r in Hl2.
  assert (2 ^ (Z.log2 k + 1) ≤ 2 ^ 51) by (apply Z.pow_le_mono_r; lia).
  pose proof (Z.div_mod (size - 1) 4096 ltac:(lia)) as Hdm. fold k in Hdm.
  pose proof (Z.mod_pos_bound (size - 1) 4096 ltac:(lia)).
  small_ints. split_and!; [lia|nia|nia].
Qed.


Lemma SizeToPageOrder_spec_witness :
  let order := SizeToPageOrder 8193 in
  0 ≤ order ∧ 8193 ≤ BuddyAreaSize order ∧ (0 < order → BuddyAreaSize (order - 1) < 8193).
Proof. apply (SizeToPageOrder_spec 8193). lia. Defined.
