(* ===== verification/Zone.v ===== *)
(** * DOOM's zone memory allocator

    Models userspace/programs/doom/src/z_zone.{c,h}.

    A [memblock_t *] is an address.  The headers live in a finite map from addresses;
    a block that is merged into its neighbour leaves its old header behind in the map,
    as it does in memory.  The variables that own blocks ([block->user]) live in a store
    of their own, [slots]: an owner is never inside a block header.  Fields the code
    leaves uninitialised (the [id] of a split-off fragment, most of the first block's
    header in [Z_Init]) are arguments of the model.  [I_Error] does not return: it is a
    [Panic].  Reading a header where there is none is a [BadAccess].
    [int] and [size_t] arithmetic is written out with its conversions (LP64). *)
From S2P Require Import Prelude Dll.

Definition MEM_ALIGN : Z := 8.
Definition ZONEID : Z := 0x1d4a11.
Definition MINFRAGMENT : Z := 64.

Definition PU_STATIC : Z := 1.
Definition PU_SOUND : Z := 2.
Definition PU_MUSIC : Z := 3.
Definition PU_FREE : Z := 4.
Definition PU_LEVEL : Z := 5.
Definition PU_LEVSPEC : Z := 6.
Definition PU_PURGELEVEL : Z := 7.
Definition PU_CACHE : Z := 8.

Definition sizeof_memblock_t : Z := 40.
Definition sizeof_memzone_t : Z := 56.
Definition offsetof_blocklist : Z := 8.
Definition NULL : Z := 0.

Record memblock_t : Type := mkBlock {
  mb_size : Z;
  mb_user : Z;
  mb_tag : Z;
  mb_id : Z;
  mb_next : Z;
  mb_prev : Z;
}.

Definition mb_set_size v (b : memblock_t) := mkBlock v (mb_user b) (mb_tag b) (mb_id b) (mb_next b) (mb_prev b).
Definition mb_set_user v (b : memblock_t) := mkBlock (mb_size b) v (mb_tag b) (mb_id b) (mb_next b) (mb_prev b).
Definition mb_set_tag v (b : memblock_t) := mkBlock (mb_size b) (mb_user b) v (mb_id b) (mb_next b) (mb_prev b).
Definition mb_set_id v (b : memblock_t) := mkBlock (mb_size b) (mb_user b) (mb_tag b) v (mb_next b) (mb_prev b).
Definition mb_set_next v (b : memblock_t) := mkBlock (mb_size b) (mb_user b) (mb_tag b) (mb_id b) v (mb_prev b).
Definition mb_set_prev v (b : memblock_t) := mkBlock (mb_size b) (mb_user b) (mb_tag b) (mb_id b) (mb_next b) v.

(** The zone: [mainzone] with its [size] and [rover], the block headers (the sentinel
    [blocklist] included), and the owners' variables. *)
Record zone : Type := mkZone {
  mainzone : Z;
  z_size : Z;
  z_rover : Z;
  z_mem : gmap Z memblock_t;
  z_slots : gmap Z Z;
}.

Abbreviation ZM := (M zone).

Definition with_mem (f : gmap Z memblock_t → gmap Z memblock_t) (z : zone) : zone :=
  mkZone (mainzone z) (z_size z) (z_rover z) (f (z_mem z)) (z_slots z).
Definition with_rover (r : Z) (z : zone) : zone :=
  mkZone (mainzone z) (z_size z) r (z_mem z) (z_slots z).
Definition with_slot (p v : Z) (z : zone) : zone :=
  mkZone (mainzone z) (z_size z) (z_rover z) (z_mem z) (<[p := v]> (z_slots z)).

(** [&mainzone->blocklist] *)
Definition sentinel (z : zone) : Z := mainzone z + offsetof_blocklist.

Definition load (a : Z) : ZM memblock_t :=
  z ← getS;
  match z_mem z !! a with Some b => mret b | None => stopM BadAccess end.

Definition store (a : Z) (f : memblock_t → memblock_t) : ZM unit :=
  load a;; modS (with_mem (alter f a)).

Definition when (b : bool) (m : ZM unit) : ZM unit := if b then m else mret tt.

(** [Z_ClearZone] of the main zone; [Z_Init] is the same on the memory [I_ZoneBase]
    returns.  [residue] is what the memory of the two headers held before. *)
Definition Z_ClearZone (residue : memblock_t) : ZM unit :=
  z ← getS;
  let block := mainzone z + sizeof_memzone_t in
  modS (with_mem (λ m,
    <[block := mkBlock (i32 (z_size z - sizeof_memzone_t)) (mb_user residue) PU_FREE
                 (mb_id residue) (sentinel z) (sentinel z)]>
    (<[sentinel z := mkBlock (mb_size residue) (mainzone z) PU_STATIC (mb_id residue)
                       block block]> m)));;
  modS (with_rover block).

Definition Z_Init (base size : Z) (residue : memblock_t) : ZM unit :=
  z ← getS;
  putS (mkZone base size (z_rover z) (z_mem z) (z_slots z));;
  Z_ClearZone residue.

(** The merge that both halves of [Z_Free] perform: [right] becomes part of its left
    neighbour [left], and the rover leaves it. *)
Definition Z_Merge (left right : Z) : ZM unit :=
  l ← load left;
  r ← load right;
  store left (mb_set_size (i32 (mb_size l + mb_size r)));;
  store left (mb_set_next (mb_next r));;
  store (mb_next r) (mb_set_prev left);;
  z ← getS;
  when (right =? z_rover z) (modS (with_rover left)).

Definition Z_Free (ptr : Z) : ZM unit :=
  let block := ptr - sizeof_memblock_t in
  b ← load block;
  (if negb (mb_id b =? ZONEID) then stopM (Panic "Z_Free: freed a pointer without ZONEID")
   else mret tt);;
  when (negb (mb_tag b =? PU_FREE) && negb (mb_user b =? NULL))
    (modS (with_slot (mb_user b) 0));;
  store block (mb_set_tag PU_FREE);;
  store block (mb_set_user NULL);;
  store block (mb_set_id 0);;
  b ← load block;
  let other := mb_prev b in
  o ← load other;
  block ← (if mb_tag o =? PU_FREE then Z_Merge other block;; mret other else mret block);
  b ← load block;
  let other := mb_next b in
  o ← load other;
  when (mb_tag o =? PU_FREE) (Z_Merge block other).

(** The scan of [Z_Malloc]; it returns [base]. *)
Fixpoint MallocLoop (fuel : nat) (size start base rover : Z) : ZM Z :=
  match fuel with
  | O => stopM NoFuel
  | S fuel =>
      (if rover =? start then stopM (Panic "Z_Malloc: failed on allocation") else mret tt);;
      r ← load rover;
      br ← (if negb (mb_tag r =? PU_FREE) then
              if mb_tag r <? PU_PURGELEVEL then mret (mb_next r, mb_next r)
              else
                b ← load base;
                let base := mb_prev b in
                Z_Free (rover + sizeof_memblock_t);;
                b ← load base;
                let base := mb_next b in
                b ← load base;
                mret (base, mb_next b)
            else mret (base, mb_next r));
      b ← load br.1;
      if negb (mb_tag b =? PU_FREE) || (mb_size b <? size)
      then MallocLoop fuel size start br.1 br.2
      else mret br.1
  end.

(** The request rounded up to [MEM_ALIGN], with room for the header. *)
Definition block_size (size : Z) : Z :=
  let size := i32 (Z.land (u64 (size + MEM_ALIGN - 1)) (u64 (Z.lnot (MEM_ALIGN - 1)))) in
  i32 (u64 (size + sizeof_memblock_t)).

(** [residue] is the [int] at the [id] field of the split-off fragment. *)
Definition Z_Malloc (residue size tag user : Z) : ZM Z :=
  let size := block_size size in
  z ← getS;
  let base := z_rover z in
  b ← load base;
  p ← load (mb_prev b);
  let base := if mb_tag p =? PU_FREE then mb_prev b else base in
  b ← load base;
  base ← MallocLoop (2 + base.size (z_mem z)) size (mb_prev b) base base;
  b ← load base;
  let extra := i32 (mb_size b - size) in
  when (MINFRAGMENT <? extra)
    (let newblock := base + size in
     modS (with_mem <[newblock := mkBlock extra NULL PU_FREE residue (mb_next b) base]>);;
     store (mb_next b) (mb_set_prev newblock);;
     store base (mb_set_next newblock);;
     store base (mb_set_size size));;
  (if (user =? NULL) && (PU_PURGELEVEL <=? tag)
   then stopM (Panic "Z_Malloc: an owner is required for purgable blocks") else mret tt);;
  store base (mb_set_user user);;
  store base (mb_set_tag tag);;
  let result := base + sizeof_memblock_t in
  when (negb (user =? NULL)) (modS (with_slot user result));;
  b ← load base;
  modS (with_rover (mb_next b));;
  store base (mb_set_id ZONEID);;
  mret result.

(** [Z_FreeTags]: the link is read before the block is freed. *)
Fixpoint FreeTagsLoop (fuel : nat) (lowtag hightag block : Z) : ZM unit :=
  match fuel with
  | O => stopM NoFuel
  | S fuel =>
      z ← getS;
      if block =? sentinel z then mret tt
      else
        b ← load block;
        let next := mb_next b in
        (if mb_tag b =? PU_FREE then mret tt
         else when ((lowtag <=? mb_tag b) && (mb_tag b <=? hightag))
                (Z_Free (block + sizeof_memblock_t)));;
        FreeTagsLoop fuel lowtag hightag next
  end.

Definition Z_FreeTags (lowtag hightag : Z) : ZM unit :=
  z ← getS;
  s ← load (sentinel z);
  FreeTagsLoop (S (base.size (z_mem z))) lowtag hightag (mb_next s).

(** [Z_CheckHeap]: walks the list from the first block and checks each block against
    the next one. *)
Fixpoint CheckLoop (fuel : nat) (block : Z) : ZM unit :=
  match fuel with
  | O => stopM NoFuel
  | S fuel =>
      z ← getS;
      b ← load block;
      if mb_next b =? sentinel z then mret tt
      else
        (if negb (block + mb_size b =? mb_next b)
         then stopM (Panic "Z_CheckHeap: block size does not touch the next block") else mret tt);;
        n ← load (mb_next b);
        (if negb (mb_prev n =? block)
         then stopM (Panic "Z_CheckHeap: next block doesn't have proper back link") else mret tt);;
        (if (mb_tag b =? PU_FREE) && (mb_tag n =? PU_FREE)
         then stopM (Panic "Z_CheckHeap: two consecutive free blocks") else mret tt);;
        CheckLoop fuel (mb_next b)
  end.

Definition Z_CheckHeap : ZM unit :=
  z ← getS;
  s ← load (sentinel z);
  CheckLoop (S (base.size (z_mem z))) (mb_next s).

(** [Z_DumpHeap] and [Z_FileDumpHeap] print; the model returns the printed lines. *)
Inductive dump_line : Type :=
| DumpBlock (addr size user tag : Z)
| DumpError (msg : string).

Fixpoint DumpLoop (fuel : nat) (lowtag hightag block : Z) : ZM (list dump_line) :=
  match fuel with
  | O => stopM NoFuel
  | S fuel =>
      z ← getS;
      b ← load block;
      let line := if (lowtag <=? mb_tag b) && (mb_tag b <=? hightag)
                  then [DumpBlock block (mb_size b) (mb_user b) (mb_tag b)] else [] in
      if mb_next b =? sentinel z then mret line
      else
        n ← load (mb_next b);
        let e1 := if negb (block + mb_size b =? mb_next b)
                  then [DumpError "ERROR: block size does not touch the next block"] else [] in
        let e2 := if negb (mb_prev n =? block)
                  then [DumpError "ERROR: next block doesn't have proper back link"] else [] in
        let e3 := if (mb_tag b =? PU_FREE) && (mb_tag n =? PU_FREE)
                  then [DumpError "ERROR: two consecutive free blocks"] else [] in
        rest ← DumpLoop fuel lowtag hightag (mb_next b);
        mret (line ++ e1 ++ e2 ++ e3 ++ rest)
  end.

Definition Z_DumpHeap (lowtag hightag : Z) : ZM (list dump_line) :=
  z ← getS;
  s ← load (sentinel z);
  DumpLoop (S (base.size (z_mem z))) lowtag hightag (mb_next s).

Definition Z_ChangeTag2 (ptr tag : Z) : ZM unit :=
  let block := ptr - sizeof_memblock_t in
  b ← load block;
  (if negb (mb_id b =? ZONEID)
   then stopM (Panic "Z_ChangeTag: block without a ZONEID!") else mret tt);;
  (if (PU_PURGELEVEL <=? tag) && (mb_user b =? NULL)
   then stopM (Panic "Z_ChangeTag: an owner is required for purgable blocks") else mret tt);;
  store block (mb_set_tag tag).

Definition Z_ChangeUser (ptr user : Z) : ZM unit :=
  let block := ptr - sizeof_memblock_t in
  b ← load block;
  (if negb (mb_id b =? ZONEID)
   then stopM (Panic "Z_ChangeUser: Tried to change user for invalid block!") else mret tt);;
  store block (mb_set_user user);;
  modS (with_slot user ptr).

Fixpoint FreeMemoryLoop (fuel : nat) (block free : Z) : ZM Z :=
  match fuel with
  | O => stopM NoFuel
  | S fuel =>
      z ← getS;
      if block =? sentinel z then mret free
      else
        b ← load block;
        FreeMemoryLoop fuel (mb_next b)
          (if (mb_tag b =? PU_FREE) || (PU_PURGELEVEL <=? mb_tag b)
           then i32 (free + mb_size b) else free)
  end.

Definition Z_FreeMemory : ZM Z :=
  z ← getS;
  s ← load (sentinel z);
  FreeMemoryLoop (S (base.size (z_mem z))) (mb_next s) 0.

Definition Z_ZoneSize : ZM Z := z ← getS; mret (u32 (z_size z)).

(** ** The zone invariant *)

#[export] Instance zone_links : LinkLaws mb_next mb_prev mb_set_next mb_set_prev.
Proof. by split; intros ? []. Qed.

Abbreviation zseg := (seg mb_next mb_prev (λ a : Z, a)).
Abbreviation zfirst := (first (λ a : Z, a)).
Abbreviation zfinal := (final (λ a : Z, a)).

(** The blocks of [l] lie back to back from [a] to [e]. *)
Fixpoint tiles (m : gmap Z memblock_t) (a : Z) (l : list Z) (e : Z) : Prop :=
  match l with
  | [] => a = e
  | b :: l =>
      b = a ∧ ∃ h, m !! b = Some h ∧ sizeof_memblock_t ≤ mb_size h ∧ tiles m (a + mb_size h) l e
  end.

Definition is_free (m : gmap Z memblock_t) (a : Z) : Prop :=
  ∃ h, m !! a = Some h ∧ mb_tag h = PU_FREE.

Fixpoint no_free_pair (m : gmap Z memblock_t) (l : list Z) : Prop :=
  match l with
  | a :: ((b :: _) as l) => ¬ (is_free m a ∧ is_free m b) ∧ no_free_pair m l
  | _ => True
  end.

(** Allocated blocks carry the magic number, and purgable ones an owner. *)
Definition live_ok (h : memblock_t) : Prop :=
  mb_tag h = PU_FREE ∨ (mb_id h = ZONEID ∧ (PU_PURGELEVEL ≤ mb_tag h → mb_user h ≠ NULL)).

Abbreviation zring := (ring mb_next mb_prev).

Record zone_wf (z : zone) (l : list Z) : Prop := {
  zw_ring : zring (z_mem z) (sentinel z) l;
  zw_sentinel : ∃ h, z_mem z !! sentinel z = Some h ∧ mb_tag h = PU_STATIC;
  zw_nodup : NoDup (sentinel z :: l);
  zw_tiles : tiles (z_mem z) (mainzone z + sizeof_memzone_t) l (mainzone z + z_size z);
  zw_rover : z_rover z ∈ sentinel z :: l;
  zw_live a h : a ∈ l → z_mem z !! a = Some h → live_ok h;
  zw_size : z_size z < 2 ^ 31;
}.

(** What holds between any two operations: the blocks tile the zone, no two free blocks
    are adjacent, and the rover points at a block or at the sentinel. *)
Definition zone_inv (z : zone) (l : list Z) : Prop :=
  zone_wf z l ∧ no_free_pair (z_mem z) l ∧ l ≠ [].

(** ** Headers up to links *)

Definition hdr (h : memblock_t) : Z * Z * Z * Z := (mb_size h, mb_user h, mb_tag h, mb_id h).

Definition same_hdr (m m' : gmap Z memblock_t) (a : Z) : Prop := hdr <$> m' !! a = hdr <$> m !! a.

Lemma same_hdr_lookup m m' a h :
  same_hdr m m' a → m !! a = Some h → ∃ h', m' !! a = Some h' ∧ hdr h' = hdr h.
Proof.
  unfold same_hdr. intros H Ha. rewrite Ha in H. destruct (m' !! a) as [h'|]; [|done].
  cbn in H. injection H as H1 H2 H3 H4. exists h'. split; [done|]. unfold hdr. congruence.
Qed.

Lemma same_hdr_refl m a : same_hdr m m a.
Proof. done. Qed.

Lemma same_hdr_sym m m' a : same_hdr m m' a → same_hdr m' m a.
Proof. unfold same_hdr. done. Qed.

Lemma same_hdr_trans m1 m2 m3 a : same_hdr m1 m2 a → same_hdr m2 m3 a → same_hdr m1 m3 a.
Proof. unfold same_hdr. congruence. Qed.

Lemma same_hdr_alter f m b a : (∀ h, hdr (f h) = hdr h) → same_hdr m (alter f b m) a.
Proof.
  intros Hf. unfold same_hdr. rewrite lookup_alter. case_decide; [subst|done].
  destruct (m !! a); cbn; [by rewrite Hf|done].
Qed.

Lemma same_hdr_alter_ne f m b a : a ≠ b → same_hdr m (alter f b m) a.
Proof. intros. unfold same_hdr. by rewrite lookup_alter_ne. Qed.

Lemma lookup_alter_fmap {A} (g : memblock_t → A) f (m : gmap Z memblock_t) b a :
  (∀ h, g (f h) = g h) → g <$> alter f b m !! a = g <$> m !! a.
Proof.
  intros Hf. rewrite lookup_alter. case_decide; [subst|done]. destruct (m !! a); cbn; by rewrite ?Hf.
Qed.

Lemma is_free_same m m' a : same_hdr m m' a → is_free m a → is_free m' a.
Proof.
  intros H (h & Hh & Ht). destruct (same_hdr_lookup _ _ _ _ H Hh) as (h' & ? & [= ? ? ? ?]).
  exists h'. split; [done|congruence].
Qed.

Lemma tiles_app m a l1 l2 e :
  tiles m a (l1 ++ l2) e ↔ ∃ c, tiles m a l1 c ∧ tiles m c l2 e.
Proof.
  revert a. induction l1 as [|b l1 IH]; intros a; cbn.
  - split; [by eauto|]. by intros (c & -> & ?).
  - split.
    + intros (-> & h & ? & ? & (c & ? & ?)%IH). exists c. eauto 10.
    + intros (c & (-> & h & ? & ? & ?) & ?). split; [done|]. exists h.
      split_and!; [done..|]. apply IH. eauto.
Qed.

Lemma tiles_same m m' a l e :
  (∀ b, b ∈ l → same_hdr m m' b) → tiles m a l e → tiles m' a l e.
Proof.
  revert a. induction l as [|b l IH]; intros a Hs; [done|]. cbn.
  intros (-> & h & Hh & ? & ?). split; [done|].
  destruct (same_hdr_lookup _ _ _ _ (Hs a ltac:(left)) Hh) as (h' & ? & [= Hsz ? ? ?]).
  exists h'. rewrite Hsz. split_and!; [done..|]. apply IH; [|done]. intros. apply Hs. by right.
Qed.

Lemma tiles_le m a l e : tiles m a l e → a ≤ e.
Proof.
  revert a. induction l as [|b l IH]; intros a; cbn; [lia|].
  unfold sizeof_memblock_t. intros (-> & h & _ & ? & ?%IH). lia.
Qed.

Lemma tiles_in m a l e b :
  tiles m a l e → b ∈ l →
  ∃ h, m !! b = Some h ∧ sizeof_memblock_t ≤ mb_size h ∧ a ≤ b ∧ b + mb_size h ≤ e.
Proof.
  intros Ht (l1 & l2 & ->)%list_elem_of_split.
  apply tiles_app in Ht as (c & H1%tiles_le & (-> & h & ? & ? & H2%tiles_le)). eauto 10.
Qed.

(** The headers determine the blocks. *)
Lemma tiles_unique m a l l' e : tiles m a l e → tiles m a l' e → l = l'.
Proof.
  revert a l'. induction l as [|b l IH]; intros a [|b' l']; cbn; try done.
  - intros -> (-> & h & _ & ? & ?%tiles_le). unfold sizeof_memblock_t in *. lia.
  - intros (-> & h & _ & ? & ?%tiles_le) ->. unfold sizeof_memblock_t in *. lia.
  - intros (-> & h & Hh & _ & H1) (-> & h' & Hh' & _ & H2). simplify_eq. f_equal. by eapply IH.
Qed.

Lemma zone_inv_unique z l l' : zone_inv z l → zone_inv z l' → l = l'.
Proof. intros (WF & _) (WF' & _). eapply tiles_unique; [apply WF|apply WF']. Qed.

(** ** Symbolic execution *)

Section exec.
Context (E : stop → Prop).
Implicit Types z : zone.

Lemma wp_zload a h (Q : memblock_t → zone → Prop) z :
  z_mem z !! a = Some h → Q h z → wp E (load a) Q z.
Proof. intros H HQ. unfold load. wp_simp. by rewrite H. Qed.

Lemma wp_zstore a h f (Q : unit → zone → Prop) z :
  z_mem z !! a = Some h → Q tt (with_mem (alter f a) z) → wp E (store a f) Q z.
Proof. intros H HQ. unfold store. wp_simp. by eapply wp_zload. Qed.

Lemma wp_when b (m : ZM unit) (Q : unit → zone → Prop) z :
  (b = true → wp E m Q z) → (b = false → Q tt z) → wp E (when b m) Q z.
Proof. destruct b; cbn; [by intros H _; apply H|by intros _ H; wp_simp; apply H]. Qed.
End exec.

(** ** Merging two adjacent free blocks *)

(** [z'] differs from [z] only in links, in the rover and at [X], where the [id] is kept. *)
Definition frame (X : list Z) (z z' : zone) : Prop :=
  mainzone z' = mainzone z ∧ z_size z' = z_size z ∧ z_slots z' = z_slots z ∧
  (∀ a, mb_id <$> z_mem z' !! a = mb_id <$> z_mem z !! a) ∧
  ∀ a, a ∉ X → same_hdr (z_mem z) (z_mem z') a.

Lemma frame_refl X z : frame X z z.
Proof. split_and!; done. Qed.

Lemma live_ok_same m m' a h h' :
  same_hdr m m' a → m !! a = Some h → m' !! a = Some h' → live_ok h → live_ok h'.
Proof.
  intros H Hh Hh'. destruct (same_hdr_lookup _ _ _ _ H Hh) as (h'' & ? & [= ? ? ? ?]).
  simplify_eq. unfold live_ok. intros [?|[? ?]]; [left; congruence|right].
  split; [congruence|]. intros. assert (mb_user h ≠ NULL); [|congruence]. naive_solver lia.
Qed.

Lemma unlink_hdr S l1 l2 m a : same_hdr m (ring_unlink mb_set_next mb_set_prev S l1 l2 m) a.
Proof.
  unfold ring_unlink. eapply same_hdr_trans; [|by apply same_hdr_alter].
  by apply same_hdr_alter.
Qed.

Section absorb.
Context (z : zone) (l1 : list Z) (x y : Z) (l2 : list Z) (hx hy : memblock_t).
Context (WF : zone_wf z (l1 ++ x :: y :: l2)).
Context (Hx : z_mem z !! x = Some hx) (Hfx : mb_tag hx = PU_FREE).
Context (Hy : z_mem z !! y = Some hy).

Let S := sentinel z.
Let n := zfirst l2 S.

(** The state after the merge. *)
Definition absorbed : zone :=
  mkZone (mainzone z) (z_size z) (if y =? z_rover z then x else z_rover z)
    (alter (mb_set_prev x) n (alter (mb_set_next n) x
       (alter (mb_set_size (mb_size hx + mb_size hy)) x (z_mem z)))) (z_slots z).

Lemma absorbed_hdr a : a ≠ x → same_hdr (z_mem z) (z_mem absorbed) a.
Proof using.
  intros Ha. cbn. eapply same_hdr_trans; [|by apply same_hdr_alter].
  eapply same_hdr_trans; [|by apply same_hdr_alter]. by apply same_hdr_alter_ne.
Qed.

Lemma absorbed_x : ∃ h, z_mem absorbed !! x = Some h ∧
  hdr h = (mb_size hx + mb_size hy, mb_user hx, PU_FREE, mb_id hx).
Proof using Hx Hfx.
  set (m := alter (mb_set_size (mb_size hx + mb_size hy)) x (z_mem z)).
  assert (Hm : m !! x = Some (mb_set_size (mb_size hx + mb_size hy) hx))
    by (subst m; by rewrite lookup_alter_eq, Hx).
  assert (same_hdr m (z_mem absorbed) x) as Hs.
  { cbn. eapply same_hdr_trans; [|by apply same_hdr_alter]. by apply same_hdr_alter. }
  destruct (same_hdr_lookup _ _ _ _ Hs Hm) as (h & ? & Hh). exists h. split; [done|].
  rewrite Hh. unfold hdr. cbn. by rewrite Hfx.
Qed.

Lemma absorbed_frame : frame [x] z absorbed.
Proof using.
  split_and!; [done..| |].
  { intros a. cbn. rewrite !lookup_alter_fmap by done. done. } 
  intros a Ha. apply absorbed_hdr. intros ->. apply Ha. left.
Qed.

Lemma absorbed_wf : zone_wf absorbed (l1 ++ x :: l2).
Proof using WF Hx Hfx Hy.
  pose proof (zw_nodup _ _ WF) as Hnd.
  assert (Hxin : (x ≠ S) ∧ (x ∉ l1) ∧ (x ≠ y) ∧ (x ∉ l2)).
  { apply NoDup_cons in Hnd as [HS (_ & Hd & [Hxx _]%NoDup_cons)%NoDup_app]. split_and!.
    - intros ->. set_solver.
    - intros ?. eapply Hd; [done|left].
    - intros ->. set_solver.
    - set_solver. }
  destruct Hxin as (HxS & Hx1 & Hxy & Hx2).
  replace (l1 ++ x :: y :: l2) with ((l1 ++ [x]) ++ y :: l2) in Hnd by by rewrite <- app_assoc.
  split.
  - pose proof (zw_ring _ _ WF) as Hr. fold S in Hr.
    replace (l1 ++ x :: y :: l2) with ((l1 ++ [x]) ++ y :: l2) in Hr by by rewrite <- app_assoc.
    assert (Hr' : zring (alter (mb_set_size (mb_size hx + mb_size hy)) x (z_mem z)) S
                    ((l1 ++ [x]) ++ y :: l2)).
    { by apply ring_alter_links. }
    apply (ring_remove _ _ mb_set_next mb_set_prev zone_links _ _ _ _ _ Hnd) in Hr'.
    unfold ring_unlink in Hr'. rewrite final_snoc, <- app_assoc in Hr'. exact Hr'.
  - destruct (zw_sentinel _ _ WF) as (h & Hh & Ht).
    destruct (same_hdr_lookup _ _ _ _ (absorbed_hdr S ltac:(done)) Hh) as (h' & ? & [= ? ? ? ?]).
    exists h'. split; [done|congruence].
  - change (sentinel absorbed) with S.
    pose proof (NoDup_split_mid (S :: l1 ++ [x]) l2 y Hnd) as H.
    cbn in H. by rewrite <- app_assoc in H.
  - pose proof (zw_tiles _ _ WF) as (c & H1 & (Hcx & h & Hh & Hs & (Hcy & h' & Hh' & Hs' & H2)))%tiles_app.
    rewrite Hx in Hh. rewrite Hy in Hh'. injection Hh as <-. injection Hh' as <-.
    apply tiles_app. exists c. destruct absorbed_x as (h'' & Hh'' & [= Hsz ? ? ?]).
    split; [eapply tiles_same; [|exact H1]; intros; apply absorbed_hdr; set_solver|].
    split; [done|]. exists h''. rewrite Hcx in *. split_and!; [done|unfold sizeof_memblock_t in *; lia|]. rewrite Hsz.
    replace (c + (mb_size hx + mb_size hy)) with (c + mb_size hx + mb_size hy) by lia.
    eapply tiles_same; [|exact H2]. intros; apply absorbed_hdr; set_solver.
  - change (sentinel absorbed) with S. cbn. pose proof (zw_rover _ _ WF). fold S in H.
    destruct (Z.eqb_spec y (z_rover z)); set_solver.
  - intros a h Ha Hh. destruct (decide (a = x)) as [->|Hax].
    + destruct absorbed_x as (h'' & Hh'' & [= ? ? Ht ?]). left. congruence.
    + destruct (ring_lookup _ _ _ _ _ a (zw_ring _ _ WF)) as [h0 Hh0]; [set_solver|].
      eapply live_ok_same; [by apply absorbed_hdr|done|done|].
      eapply (zw_live _ _ WF); [|done]. set_solver.
  - apply WF.
Qed.

Lemma wp_Merge E (Q : unit → zone → Prop) : Q tt absorbed → wp E (Z_Merge x y) Q z.
Proof using WF Hx Hfx Hy.
  intros HQ. unfold Z_Merge.
  assert (Hny : mb_next hy = n).
  { pose proof (zw_ring _ _ WF) as Hr.
    replace (l1 ++ x :: y :: l2) with ((l1 ++ [x]) ++ y :: l2) in Hr by by rewrite <- app_assoc.
    apply ring_mid in Hr as (h & Hh & _ & ?). simplify_eq. done. }
  assert (Hsz : i32 (mb_size hx + mb_size hy) = mb_size hx + mb_size hy).
  { pose proof (zw_tiles _ _ WF) as (c & H1%tiles_le & (Hcx & h & Hh & Hs & (Hcy & h' & Hh' & Hs' & H2%tiles_le)))%tiles_app.
    rewrite Hx in Hh. rewrite Hy in Hh'. simplify_eq. pose proof (zw_size _ _ WF). unfold sizeof_memblock_t, sizeof_memzone_t in *.
    small_ints. lia. }
  wp_simp. eapply wp_zload; [exact Hx|]. wp_simp. eapply wp_zload; [exact Hy|]. wp_simp.
  rewrite Hsz, Hny. eapply wp_zstore; [exact Hx|]. wp_simp.
  eapply wp_zstore; [cbn; by rewrite lookup_alter_eq, Hx|]. wp_simp.
  assert (Hn : is_Some (z_mem z !! n)).
  { eapply ring_lookup; [apply WF|]. pose proof (rfirst_in S l2). fold S. set_solver. }
  assert (is_Some (alter (mb_set_next n) x (alter (mb_set_size (mb_size hx + mb_size hy)) x (z_mem z)) !! n)) as [hn Hhn].
  { by rewrite !lookup_alter_is_Some. }
  eapply wp_zstore; [exact Hhn|]. wp_simp. apply wp_when; cbn.
  - intros Hr. wp_simp. unfold absorbed in HQ. rewrite Hr in HQ. exact HQ.
  - intros Hr. unfold absorbed in HQ. rewrite Hr in HQ. exact HQ.
Qed.
End absorb.


(** ** Adjacent free blocks *)

#[export] Instance is_free_dec m a : Decision (is_free m a).
Proof.
  destruct (m !! a) as [h|] eqn:Hh.
  - destruct (decide (mb_tag h = PU_FREE)) as [Ht|Ht]; [left; by exists h|].
    right. intros (h' & ? & ?). congruence.
  - right. intros (h' & ? & ?). congruence.
Defined.

Lemma is_free_tag m a h : m !! a = Some h → is_free m a ↔ mb_tag h = PU_FREE.
Proof. intros Hh. split; [intros (? & ? & ?); congruence|intros; by exists h]. Qed.

Lemma is_free_iff m m' a : same_hdr m m' a → is_free m' a ↔ is_free m a.
Proof. intros. split; apply is_free_same; [by apply same_hdr_sym|done]. Qed.

Definition first_free (m : gmap Z memblock_t) (l : list Z) : Prop :=
  match l with [] => False | a :: _ => is_free m a end.

Definition last_free (m : gmap Z memblock_t) (l : list Z) : Prop :=
  match last l with None => False | Some a => is_free m a end.

Lemma no_free_pair_app m l1 l2 :
  no_free_pair m (l1 ++ l2) ↔
  no_free_pair m l1 ∧ no_free_pair m l2 ∧ ¬ (last_free m l1 ∧ first_free m l2).
Proof.
  induction l1 as [|a l1 IH]; cbn [app].
  { cbn. unfold last_free. cbn. naive_solver. }
  destruct l1 as [|b l1].
  - cbn [app]. destruct l2 as [|c l2]; cbn; unfold last_free; cbn; naive_solver.
  - cbn [app no_free_pair] in *. rewrite IH.
    unfold last_free. rewrite (last_cons_cons a b l1). naive_solver.
Qed.

Lemma no_free_pair_same m m' l :
  (∀ a, a ∈ l → same_hdr m m' a) → no_free_pair m l → no_free_pair m' l.
Proof.
  induction l as [|a [|b l] IH]; [done..|]. intros Hs [Hab Hl]. split.
  - rewrite !(is_free_iff m m') by (apply Hs; set_solver). done.
  - apply IH; [|done]. intros. apply Hs. by right.
Qed.

Lemma last_free_final m S l : ¬ is_free m S → last_free m l ↔ is_free m (zfinal S l).
Proof. intros. unfold last_free, final. destruct (last l); naive_solver. Qed.

Lemma first_free_first m S l : ¬ is_free m S → first_free m l ↔ is_free m (zfirst l S).
Proof. intros. unfold first_free, first. destruct l; naive_solver. Qed.

Lemma sentinel_not_free z l : zone_wf z l → ¬ is_free (z_mem z) (sentinel z).
Proof.
  intros WF. destruct (zw_sentinel _ _ WF) as (h & Hh & Ht).
  rewrite (is_free_tag _ _ _ Hh), Ht. done.
Qed.

(** Updating a block's fields other than its size and links. *)
Lemma zone_wf_update z l a f slots :
  zone_wf z l → a ∈ l →
  (∀ h, mb_size (f h) = mb_size h ∧ mb_next (f h) = mb_next h ∧ mb_prev (f h) = mb_prev h) →
  (∀ h, z_mem z !! a = Some h → live_ok (f h)) →
  zone_wf (mkZone (mainzone z) (z_size z) (z_rover z) (alter f a (z_mem z)) slots) l.
Proof.
  intros WF Ha Hf Hlive.
  assert (HaS : sentinel z ≠ a).
  { pose proof (zw_nodup _ _ WF) as [? _]%NoDup_cons. by intros <-. }
  split; cbn.
  - apply ring_alter_links; [|apply WF]. intros. split; apply Hf.
  - rewrite lookup_alter_ne by (intros Heq; by apply HaS). apply WF.
  - apply WF.
  - pose proof (zw_tiles _ _ WF) as Ht. revert Ht. clear -Hf. generalize (mainzone z + sizeof_memzone_t).
    induction l as [|b l IH]; intros c; cbn; [done|]. intros (-> & h & Hh & Hs & Ht).
    split; [done|]. rewrite lookup_alter. case_decide as Hc.
    + subst c. exists (f h). rewrite Hh. destruct (Hf h) as [-> _]. split_and!; [done..|by apply IH].
    + exists h. split_and!; [done..|by apply IH].
  - apply WF.
  - intros b h Hb. rewrite lookup_alter. case_decide as Hc.
    + subst b. destruct (z_mem z !! a) eqn:E; [|done]. intros [= <-]. by apply Hlive.
    + by apply (zw_live _ _ WF).
  - apply WF.
Qed.

(** ** Evictions

    [evict P z l z' l']: on the way from [z] with the blocks [l] to [z'] with the blocks
    [l'], only blocks satisfying [P] were freed; every other allocated block is still
    there with its header, nothing new is allocated, and the owners' variables of the
    freed blocks are the only ones written, with zero. *)
Record evict (P : Z → Prop) (z : zone) (l : list Z) (z' : zone) (l' : list Z) : Prop := {
  ev_zone : mainzone z' = mainzone z ∧ z_size z' = z_size z;
  ev_back a : a ∈ l' → ¬ is_free (z_mem z') a →
    a ∈ l ∧ ¬ is_free (z_mem z) a ∧ same_hdr (z_mem z) (z_mem z') a;
  ev_keep a : a ∈ l → ¬ is_free (z_mem z) a → ¬ P a →
    a ∈ l' ∧ same_hdr (z_mem z) (z_mem z') a;
  ev_slots p : z_slots z' !! p ≠ z_slots z !! p → z_slots z' !! p = Some 0 ∧
    ∃ a h, P a ∧ a ∈ l ∧ z_mem z !! a = Some h ∧ mb_tag h ≠ PU_FREE ∧ mb_user h = p;
}.

Lemma evict_refl P z l : evict P z l z l.
Proof. by split. Qed.

Lemma evict_mono (P Q : Z → Prop) z l z' l' :
  (∀ a, P a → Q a) → evict P z l z' l' → evict Q z l z' l'.
Proof.
  intros HPQ [H1 H2 H3 H4]. split; [done|done|naive_solver|].
  intros p Hp. destruct (H4 p Hp) as (? & a & h & ? & ?). eauto 10.
Qed.

Lemma evict_trans P z l z1 l1 z2 l2 :
  evict P z l z1 l1 → evict P z1 l1 z2 l2 → evict P z l z2 l2.
Proof.
  intros [HA1 HA2 HA3 HA4] [HB1 HB2 HB3 HB4]. split.
  - destruct HA1, HB1. split; congruence.
  - intros a Ha Hf. destruct (HB2 a Ha Hf) as (Ha1 & Hf1 & Hs1).
    destruct (HA2 a Ha1 Hf1) as (? & ? & ?). split_and!; [done..|]. by eapply same_hdr_trans.
  - intros a Ha Hf HP. destruct (HA3 a Ha Hf HP) as (Ha1 & Hs1).
    destruct (HB3 a Ha1) as (? & ?); [by rewrite (is_free_iff _ _ _ Hs1)|done|].
    split; [done|]. by eapply same_hdr_trans.
  - intros p Hp. destruct (decide (z_slots z2 !! p = z_slots z1 !! p)) as [Heq|Hne].
    + rewrite Heq in *. by apply HA4.
    + destruct (HB4 p Hne) as (? & a & h & HP & Ha & Hh & Ht & Hu). split; [done|].
      destruct (HA2 a Ha) as (Ha0 & Hf0 & Hs0); [by rewrite (is_free_tag _ _ _ Hh)|].
      destruct (same_hdr_lookup _ _ _ _ (same_hdr_sym _ _ _ Hs0) Hh) as (h0 & Hh0 & [= ? ? ? ?]).
      exists a, h0. split_and!; [done..|congruence|congruence].
Qed.

(** ** [Z_Free] *)

Definition free_hdr (h : memblock_t) : memblock_t :=
  mb_set_id 0 (mb_set_user NULL (mb_set_tag PU_FREE h)).

Definition free_slot (h : memblock_t) (slots : gmap Z Z) : gmap Z Z :=
  if mb_user h =? NULL then slots else <[mb_user h := 0]> slots.

Definition marked (z : zone) (b : Z) (h : memblock_t) : zone :=
  mkZone (mainzone z) (z_size z) (z_rover z) (alter free_hdr b (z_mem z)) (free_slot h (z_slots z)).

Lemma marked_wf z l b h : zone_wf z l → b ∈ l → zone_wf (marked z b h) l.
Proof. intros WF Hb. apply zone_wf_update; [done|done|done|]. by left. Qed.

Lemma frame_free X z z' a : frame X z z' → a ∉ X → is_free (z_mem z') a ↔ is_free (z_mem z) a.
Proof. intros (_ & _ & _ & _ & H) Ha. apply is_free_iff, H, Ha. Qed.

Lemma frame_sentinel X z z' : frame X z z' → sentinel z' = sentinel z.
Proof. intros (H & _). unfold sentinel. by rewrite H. Qed.

(** The header that a merged block leaves behind still reads as that of a free block, and
    still points at the block that followed it. *)
Definition stale (m : gmap Z memblock_t) (c next : Z) : Prop :=
  ∃ h, m !! c = Some h ∧ mb_tag h = PU_FREE ∧ mb_next h = next.

Section free_merges.
Context (z : zone) (S : Z) (HS : sentinel z = S).

Lemma wp_Merge_left l1 b l2 ho :
  zone_wf z (l1 ++ b :: l2) → is_free (z_mem z) b → z_mem z !! zfinal S l1 = Some ho →
  wp never (if mb_tag ho =? PU_FREE then Z_Merge (zfinal S l1) b;; mret (zfinal S l1) else mret b)
    (λ x z', ∃ l1', zone_wf z' (l1' ++ x :: l2) ∧ is_free (z_mem z') x ∧ frame [x] z z' ∧
       ((l1' = l1 ∧ x = b ∧ ¬ is_free (z_mem z) (zfinal S l1)) ∨
        (l1 = l1' ++ [x] ∧ is_free (z_mem z) x))) z.
Proof using HS.
  intros WF (hb & Hb & Hfb) Ho. pose proof (sentinel_not_free _ _ WF) as HSf. rewrite HS in HSf.
  destruct (Z.eqb_spec (mb_tag ho) PU_FREE) as [Ht|Ht].
  - assert (Hof : is_free (z_mem z) (zfinal S l1)) by by exists ho.
    destruct l1 as [|x l1' _] using rev_ind; [done|].
    rewrite final_snoc in *. rewrite <- app_assoc in WF. cbn in WF.
    wp_simp. eapply (wp_Merge _ _ _ _ _ _ _ WF Ho Ht Hb). wp_simp. exists l1'. split_and!.
    + by eapply absorbed_wf.
    + destruct (absorbed_x z x b l2 _ hb Ho Ht) as (h & Hh & [= ? ? Hth ?]). by exists h.
    + apply absorbed_frame.
    + right. done.
  - wp_simp. exists l1. split_and!; [done|by exists hb|apply frame_refl|]. left.
    by rewrite (is_free_tag _ _ _ Ho).
Qed.

Lemma wp_Merge_right l1 x l2 ho :
  zone_wf z (l1 ++ x :: l2) → is_free (z_mem z) x → z_mem z !! zfirst l2 S = Some ho →
  wp never (when (mb_tag ho =? PU_FREE) (Z_Merge x (zfirst l2 S)))
    (λ _ z', ∃ l2', zone_wf z' (l1 ++ x :: l2') ∧ is_free (z_mem z') x ∧ frame [x] z z' ∧
       ((l2' = l2 ∧ ¬ is_free (z_mem z) (zfirst l2 S)) ∨
        ∃ c, l2 = c :: l2' ∧ is_free (z_mem z) c) ∧
       ∀ c, l2 = c :: l2' → stale (z_mem z') c (zfirst l2' S)) z.
Proof using HS.
  intros WF (hx & Hx & Hfx) Ho. pose proof (sentinel_not_free _ _ WF) as HSf. rewrite HS in HSf.
  apply wp_when; intros Ht.
  - apply Z.eqb_eq in Ht. assert (Hof : is_free (z_mem z) (zfirst l2 S)) by by exists ho.
    destruct l2 as [|c l2]; [done|]. cbn [first] in *.
    eapply (wp_Merge _ _ _ _ _ _ _ WF Hx Hfx Ho). exists l2. split_and!.
    + by eapply absorbed_wf.
    + destruct (absorbed_x z x c l2 _ ho Hx Hfx) as (h & Hh & [= ? ? Hth ?]). by exists h.
    + apply absorbed_frame.
    + right. by exists c.
    + intros c' [= <-]. exists ho. pose proof (zw_ring _ _ WF) as Hr.
      pose proof (zw_nodup _ _ WF) as Hnd.
      replace (l1 ++ x :: c :: l2) with ((l1 ++ [x]) ++ c :: l2) in Hr, Hnd by by rewrite <- app_assoc.
      destruct (ring_mid _ _ _ _ _ _ _ Hr) as (h & Hh & _ & Hn). rewrite Ho in Hh. injection Hh as <-.
      rewrite HS in Hn, Hnd. split_and!; [|done|done]. cbn. rewrite HS.
      assert (Hc : (c ∉ S :: l1 ++ [x]) ∧ (c ∉ l2)) by by apply NoDup_mid.
      assert (c ≠ x) by set_solver.
      assert (c ≠ zfirst l2 S) by (pose proof (rfirst_in S l2); set_solver).
      by rewrite !lookup_alter_ne.
  - apply Z.eqb_neq in Ht. exists l2. split_and!; [done|by exists hx|apply frame_refl| |].
    + left. by rewrite (is_free_tag _ _ _ Ho).
    + intros c Hc. exfalso. apply (f_equal length) in Hc. cbn in Hc. lia.
Qed.
End free_merges.

(** What [Z_Free] does: the block becomes part of a free block [x] that has absorbed the
    free neighbours. *)
Definition freed (z : zone) (l1 : list Z) (b : Z) (l2 : list Z) (h : memblock_t) (z' : zone)
    (l1' : list Z) (x : Z) (l2' : list Z) : Prop :=
  zone_inv z' (l1' ++ x :: l2') ∧ is_free (z_mem z') x ∧
  ((l1' = l1 ∧ x = b ∧ ¬ is_free (z_mem z) (zfinal (sentinel z) l1)) ∨
   (l1 = l1' ++ [x] ∧ is_free (z_mem z) x)) ∧
  ((l2' = l2 ∧ ¬ is_free (z_mem z) (zfirst l2 (sentinel z))) ∨
   ∃ c, l2 = c :: l2' ∧ is_free (z_mem z) c) ∧
  mainzone z' = mainzone z ∧ z_size z' = z_size z ∧ z_slots z' = free_slot h (z_slots z) ∧
  (∀ c, l2 = c :: l2' → stale (z_mem z') c (zfirst l2' (sentinel z))) ∧
  mb_id <$> z_mem z' !! b = Some 0 ∧
  ∀ a, a ∉ [b; x] → same_hdr (z_mem z) (z_mem z') a.

Lemma freed_inv z m l1' x l2' l1 b l2 :
  zone_wf z (l1' ++ x :: l2') → ¬ is_free m (sentinel z) →
  no_free_pair m l1 → no_free_pair m l2 →
  (∀ a, a ∈ l1' ++ l2' → same_hdr m (z_mem z) a) →
  ((l1' = l1 ∧ x = b ∧ ¬ is_free m (zfinal (sentinel z) l1)) ∨ (l1 = l1' ++ [x] ∧ is_free m x)) →
  ((l2' = l2 ∧ ¬ is_free m (zfirst l2 (sentinel z))) ∨ ∃ c, l2 = c :: l2' ∧ is_free m c) →
  zone_inv z (l1' ++ x :: l2').
Proof.
  intros WF HS Hn1 Hn2 Hs Hl Hr. split_and!; [done| |by destruct l1'].
  assert (H1 : no_free_pair m l1' ∧ ¬ last_free m l1').
  { destruct Hl as [(-> & _ & Hl)|[-> Hl]]; [by rewrite last_free_final|].
    apply no_free_pair_app in Hn1 as (? & _ & Hx). split; [done|]. intros ?. by apply Hx. }
  assert (H2 : no_free_pair m l2' ∧ ¬ first_free m l2').
  { destruct Hr as [(-> & Hr)|(c & -> & Hr)]; [by rewrite first_free_first|].
    apply (no_free_pair_app m [c]) in Hn2 as (_ & ? & Hx). split; [done|]. intros ?.
    by apply Hx. }
  assert (Hl1 : ∀ a, a ∈ l1' → same_hdr m (z_mem z) a) by (intros; apply Hs; set_solver).
  assert (Hl2 : ∀ a, a ∈ l2' → same_hdr m (z_mem z) a) by (intros; apply Hs; set_solver).
  destruct H1 as [H1 H1'], H2 as [H2 H2'].
  apply no_free_pair_app. split_and!; [by eapply no_free_pair_same| |].
  - apply (no_free_pair_app _ [x]). split_and!; [done|by eapply no_free_pair_same|].
    intros [_ Hf]. apply H2'. destruct l2' as [|c l2']; [done|]. cbn in *.
    eapply is_free_same; [|exact Hf]. apply same_hdr_sym, Hl2. left.
  - intros [Hf _]. apply H1'. unfold last_free in *. destruct (last l1') as [c|] eqn:Hc; [|done].
    eapply is_free_same; [|exact Hf]. apply same_hdr_sym, Hl1.
    apply last_Some in Hc as [l' ->]. set_solver.
Qed.

Lemma zone_inv_split z l1 b l2 :
  zone_inv z (l1 ++ b :: l2) →
  no_free_pair (z_mem z) l1 ∧ no_free_pair (z_mem z) l2 ∧
  (b ≠ sentinel z) ∧ (b ∉ l1) ∧ (b ∉ l2) ∧ (sentinel z ∉ l1) ∧ (sentinel z ∉ l2).
Proof.
  intros (WF & (H1 & H2 & _)%no_free_pair_app & _).
  apply (no_free_pair_app _ [b]) in H2 as (_ & H2 & _).
  pose proof (zw_nodup _ _ WF) as [HS [Hb1 Hb2]%NoDup_mid]%NoDup_cons.
  apply not_elem_of_app in HS as [? [? ?]%not_elem_of_cons]. split_and!; done.
Qed.

Lemma marked_run z (b : Z) h (Q : unit → zone → Prop) (k : ZM unit) :
  z_mem z !! b = Some h → mb_id h = ZONEID → mb_tag h ≠ PU_FREE →
  wp never k Q (marked z b h) →
  wp never
    ((if negb (mb_id h =? ZONEID) then stopM (Panic "Z_Free: freed a pointer without ZONEID")
      else mret tt);;
     when (negb (mb_tag h =? PU_FREE) && negb (mb_user h =? NULL)) (modS (with_slot (mb_user h) 0));;
     store b (mb_set_tag PU_FREE);; store b (mb_set_user NULL);; store b (mb_set_id 0);; k) Q z.
Proof.
  intros Hb Hid Ht Hk. rewrite Hid, Z.eqb_refl. cbn [negb]. wp_simp.
  apply (wp_mono _ _ (λ _ z1, z1 = mkZone (mainzone z) (z_size z) (z_rover z) (z_mem z)
                                  (free_slot h (z_slots z)))).
  { apply Z.eqb_neq in Ht. rewrite Ht. cbn [negb andb]. unfold free_slot.
    destruct (mb_user h =? NULL); cbn; unfold wp; cbn; [by destruct z|done]. }
  intros _ z1 ->. wp_simp. eapply wp_zstore; [exact Hb|].
  wp_simp. eapply wp_zstore; [cbn; by rewrite lookup_alter_eq, Hb|].
  wp_simp. eapply wp_zstore; [cbn; by rewrite !lookup_alter_eq, Hb|].
  unfold marked in Hk. unfold with_mem. cbn. rewrite !alter_alter_eq. exact Hk.
Qed.

Lemma marked_hdr z b h a : a ≠ b → same_hdr (z_mem z) (z_mem (marked z b h)) a.
Proof. intros. by apply same_hdr_alter_ne. Qed.

Lemma wp_Free z l1 b l2 h :
  zone_inv z (l1 ++ b :: l2) → z_mem z !! b = Some h → mb_tag h ≠ PU_FREE →
  wp never (Z_Free (b + sizeof_memblock_t))
    (λ _ z', ∃ l1' x l2', freed z l1 b l2 h z' l1' x l2') z.
Proof.
  intros INV Hb Ht. pose proof INV as (WF & _ & _).
  pose proof (zone_inv_split _ _ _ _ INV) as (Hn1 & Hn2 & HbS & Hb1 & Hb2 & HS1 & HS2).
  assert (Hid : mb_id h = ZONEID).
  { destruct (zw_live _ _ WF b h) as [?|[? _]]; [set_solver|done..]. }
  pose proof (sentinel_not_free _ _ WF) as HSf. set (S := sentinel z) in *.
  unfold Z_Free. replace (b + sizeof_memblock_t - sizeof_memblock_t) with b by lia.
  wp_simp. eapply wp_zload; [exact Hb|]. apply marked_run; [done..|].
  set (z1 := marked z b h).
  assert (WF1 : zone_wf z1 (l1 ++ b :: l2)) by (apply marked_wf; [done|set_solver]).
  destruct (ring_mid _ _ _ _ _ _ _ (zw_ring _ _ WF1)) as (h1 & Hh1 & Hp1 & _).
  change (sentinel z1) with S in Hp1.
  assert (Hf1 : is_free (z_mem z1) b).
  { cbn. exists (free_hdr h). by rewrite lookup_alter_eq, Hb. }
  assert (∃ ho, z_mem z1 !! zfinal S l1 = Some ho) as [ho Hho].
  { eapply ring_lookup; [apply WF1|]. pose proof (rfinal_in S l1).
    change (sentinel z1) with S. set_solver. }
  wp_simp. eapply wp_zload; [exact Hh1|]. rewrite Hp1. wp_simp.
  eapply wp_zload; [exact Hho|]. wp_simp.
  eapply wp_mono; [by eapply (wp_Merge_left z1 S)|]. cbn beta.
  intros x z2 (l1' & WF2 & Hx2 & F2 & Hleft).
  assert (HS2' : sentinel z2 = S) by by rewrite (frame_sentinel _ _ _ F2).
  destruct (ring_mid _ _ _ _ _ _ _ (zw_ring _ _ WF2)) as (h2 & Hh2 & _ & Hx2').
  rewrite HS2' in Hx2'.
  assert (∃ hn, z_mem z2 !! zfirst l2 S = Some hn) as [hn Hhn].
  { eapply ring_lookup; [apply WF2|]. pose proof (rfirst_in S l2). rewrite HS2'. set_solver. }
  wp_simp. eapply wp_zload; [exact Hh2|]. rewrite Hx2'. wp_simp.
  eapply wp_zload; [exact Hhn|]. wp_simp.
  eapply wp_mono; [by eapply (wp_Merge_right z2 S)|]. cbn beta.
  intros _ z3 (l2' & WF3 & Hx3 & F3 & Hright & Hst). exists l1', x, l2'.
  pose proof (frame_sentinel _ _ _ F3) as HS3. rewrite HS2' in HS3.
  assert (Hhdr : ∀ a, a ∉ [b; x] → same_hdr (z_mem z) (z_mem z3) a).
  { intros a [? [? _]%not_elem_of_cons]%not_elem_of_cons.
    eapply same_hdr_trans; [by apply (marked_hdr z b h)|].
    destruct F2 as (_ & _ & _ & _ & F2), F3 as (_ & _ & _ & _ & F3).
    eapply same_hdr_trans; [apply F2|apply F3]; by intros ?%list_elem_of_singleton. }
  assert (Hf2 : ∀ a, a ≠ b → a ≠ x → is_free (z_mem z2) a ↔ is_free (z_mem z) a).
  { intros a Hab Hax. rewrite (frame_free _ _ _ _ F2) by by intros ?%list_elem_of_singleton.
    by apply is_free_iff, marked_hdr. }
  pose proof (zw_nodup _ _ WF2) as [HxS [Hx1 Hx2'']%NoDup_mid]%NoDup_cons. rewrite HS2' in HxS.
  assert (Hxb : x ≠ S) by (intros ->; apply HxS, elem_of_app; right; left).
  assert (Hleft' : (l1' = l1 ∧ x = b ∧ ¬ is_free (z_mem z) (zfinal S l1)) ∨
                   (l1 = l1' ++ [x] ∧ is_free (z_mem z) x)).
  { assert (∀ a, a ≠ b → is_free (z_mem z1) a ↔ is_free (z_mem z) a) as Hf1'
      by (intros; by apply is_free_iff, marked_hdr).
    destruct Hleft as [(-> & -> & Hl)|[-> Hl]]; [left|right]; rewrite Hf1' in Hl; try done.
    - pose proof (rfinal_in S l1) as [Heq|?]%elem_of_cons; congruence.
    - intros ->. apply Hb1, elem_of_app. right; left. }
  assert (Hright' : (l2' = l2 ∧ ¬ is_free (z_mem z) (zfirst l2 S)) ∨
                    ∃ c, l2 = c :: l2' ∧ is_free (z_mem z) c).
  { assert (Hne : ∀ a, a ∈ S :: l2 → is_free (z_mem z2) a ↔ is_free (z_mem z) a).
    { intros a [->|Ha]%elem_of_cons; apply Hf2; congruence. }
    destruct Hright as [(-> & Hr)|(c & -> & Hr)]; [left|right; exists c]; rewrite Hne in Hr; try done.
    - apply rfirst_in.
    - right; left. }
  destruct F2 as (? & ? & Hsl2 & Hid2 & _), F3 as (? & ? & Hsl3 & Hid3 & _).
  unfold freed. fold S. split_and!; [|done..|cbn in *; congruence|cbn in *; congruence| |done| |done].
  - eapply (freed_inv z3 (z_mem z) l1' x l2' l1 b l2); rewrite ?HS3; try done.
    intros a Ha. apply Hhdr. pose proof (zw_nodup _ _ WF3) as [_ [? ?]%NoDup_mid]%NoDup_cons.
    destruct Hleft' as [(-> & -> & _)|[-> _]]; destruct Hright' as [(-> & _)|(c & -> & _)]; set_solver.
  - rewrite Hsl3, Hsl2. done.
  - rewrite Hid3, Hid2. cbn. by rewrite lookup_alter_eq, Hb.
Qed.

Lemma freed_evict z l1 b l2 h z' l1' x l2' :
  zone_inv z (l1 ++ b :: l2) → z_mem z !! b = Some h → mb_tag h ≠ PU_FREE →
  freed z l1 b l2 h z' l1' x l2' →
  evict (eq b) z (l1 ++ b :: l2) z' (l1' ++ x :: l2').
Proof.
  intros INV Hb Ht ((WF' & _) & Hx & Hl & Hr & Hm & Hz & Hs & _ & _ & Hhdr).
  pose proof (zone_inv_split _ _ _ _ INV) as (_ & _ & _ & Hb1 & Hb2 & _).
  assert (Hsub : ∀ a, a ∈ l1' ++ x :: l2' → a ∈ l1 ++ b :: l2).
  { destruct Hl as [(-> & -> & _)|[-> _]], Hr as [(-> & _)|(c & -> & _)]; set_solver. }
  split.
  - done.
  - intros a Ha Hf. assert (Hax : a ≠ x) by (intros ->; done).
    assert (Hab : a ≠ b).
    { intros ->. apply elem_of_app in Ha as [Ha|[->|Ha]%elem_of_cons]; [|done|].
      - apply Hb1. destruct Hl as [(-> & _)|[-> _]]; [done|]. apply elem_of_app. by left.
      - apply Hb2. destruct Hr as [(-> & _)|(c & -> & _)]; [done|]. by right. }
    assert (same_hdr (z_mem z) (z_mem z') a) by (apply Hhdr; set_solver).
    split_and!; [by apply Hsub| |done]. by rewrite <- (is_free_iff _ _ a H).
  - intros a Ha Hf Hab.
    assert (Hax : a ≠ x).
    { intros ->. destruct Hl as [(_ & -> & _)|[_ ?]]; done. }
    split; [|apply Hhdr; set_solver].
    apply elem_of_app in Ha as [Ha|[->|Ha]%elem_of_cons]; [|done|].
    + destruct Hl as [(-> & _)|[-> _]]; set_solver.
    + destruct Hr as [(-> & _)|(c & -> & Hc)]; [set_solver|].
      apply elem_of_cons in Ha as [->|Ha]; [done|set_solver].
  - intros p. rewrite Hs. unfold free_slot. destruct (Z.eqb_spec (mb_user h) NULL); [done|].
    destruct (decide (p = mb_user h)) as [->|Hp]; [|by rewrite lookup_insert_ne].
    rewrite lookup_insert_eq. intros _. split; [done|]. exists b, h. split_and!; [done|set_solver|done..].
Qed.

(** ** Rotations of the block list *)

Definition rot (C D : list Z) : Prop := ∃ A B, C = A ++ B ∧ D = B ++ A.

Definition del (y : Z) (l : list Z) : list Z := filter (λ a, a ≠ y) l.

Lemma del_notin y l : y ∉ l → del y l = l.
Proof.
  unfold del. induction l as [|a l IH]; [done|]. intros [? ?]%not_elem_of_cons.
  rewrite filter_cons_True by done. by rewrite IH.
Qed.

Lemma del_mid y l1 l2 : y ∉ l1 → y ∉ l2 → del y (l1 ++ y :: l2) = l1 ++ l2.
Proof.
  intros. unfold del. rewrite filter_app, filter_cons_False by (intros Hn; by apply Hn).
  f_equal; by apply del_notin.
Qed.

Lemma rot_del y C D : rot C D → rot (del y C) (del y D).
Proof.
  intros (A & B & -> & ->). exists (del y A), (del y B). unfold del. by rewrite !filter_app.
Qed.

Lemma rot_perm C D : rot C D → C ≡ₚ D.
Proof. intros (A & B & -> & ->). apply Permutation_app_comm. Qed.

Lemma rot_head C a : a ∈ C → ∃ X, rot C (a :: X).
Proof.
  intros (l1 & l2 & ->)%list_elem_of_split. exists (l2 ++ l1), l1, (a :: l2). done.
Qed.

Lemma ring_rot h S l a X :
  zring h S l → rot (S :: l) (a :: X) → zring h a X.
Proof.
  unfold ring. intros Hr (A & B & HA & HB). destruct A as [|s A].
  { cbn in HA. subst B. rewrite app_nil_r in HB. by injection HB as -> ->. }
  injection HA as <- ->. destruct B as [|b B].
  { rewrite app_nil_r in *. injection HB as -> ->. done. }
  injection HB as <- ->. cbn [app] in *.
  change (S :: A ++ a :: B) with ((S :: A) ++ a :: B) in Hr.
  apply seg_app in Hr as [H1 H2].
  change (a :: B ++ S :: A) with ((a :: B) ++ S :: A). apply seg_app.
  rewrite !final_app, !final_cons in *. done.
Qed.

Lemma zone_inv_next z l a h :
  zone_inv z l → a ∈ l → z_mem z !! a = Some h → is_free (z_mem z) a →
  ¬ is_free (z_mem z) (mb_next h).
Proof.
  intros (WF & Hn & _) (l1 & l2 & ->)%list_elem_of_split Hh Ha.
  destruct (ring_mid _ _ _ _ _ _ _ (zw_ring _ _ WF)) as (h' & Hh' & _ & Hx). simplify_eq.
  apply no_free_pair_app in Hn as (_ & (_ & _ & Hn)%(no_free_pair_app _ [a]) & _).
  rewrite Hx. rewrite <- first_free_first by by eapply sentinel_not_free. intros ?. by apply Hn.
Qed.

Lemma zone_inv_prev z l a h :
  zone_inv z l → a ∈ l → z_mem z !! a = Some h → is_free (z_mem z) a →
  ¬ is_free (z_mem z) (mb_prev h).
Proof.
  intros (WF & Hn & _) (l1 & l2 & ->)%list_elem_of_split Hh Ha.
  destruct (ring_mid _ _ _ _ _ _ _ (zw_ring _ _ WF)) as (h' & Hh' & Hp & _). simplify_eq.
  apply no_free_pair_app in Hn as (_ & _ & Hn).
  rewrite Hp. rewrite <- last_free_final by by eapply sentinel_not_free. intros ?. by apply Hn.
Qed.

(** ** The scan of [Z_Malloc]

    Seen from [start], the blocks are [X1] (already scanned) and then [X2]; the rover is
    at the first block of [X2].  The candidate [base] is the rover itself, or a free block
    just before it. *)
Record scan (z : zone) (l : list Z) (start base rover : Z) (X1 X2 : list Z) : Prop := {
  sc_inv : zone_inv z l;
  sc_rot : rot (sentinel z :: l) (start :: X1 ++ X2);
  sc_start : ¬ is_free (z_mem z) start;
  sc_rover : rover = zfirst X2 start;
  sc_base : (base = rover ∧ ¬ is_free (z_mem z) (zfinal start X1)) ∨
            (∃ X1', X1 = X1' ++ [base] ∧ is_free (z_mem z) base);
}.

Lemma scan_ring z l start base rover X1 X2 :
  scan z l start base rover X1 X2 → zring (z_mem z) start (X1 ++ X2).
Proof. intros [(WF & _) Hr _ _ _]. eapply ring_rot; [apply WF|done]. Qed.

Lemma scan_in z l start base rover X1 X2 a :
  scan z l start base rover X1 X2 → a ∈ start :: X1 ++ X2 ↔ a ∈ sentinel z :: l.
Proof. intros [_ Hr _ _ _]. by rewrite (rot_perm _ _ Hr). Qed.

Lemma scan_nodup z l start base rover X1 X2 :
  scan z l start base rover X1 X2 → NoDup (start :: X1 ++ X2).
Proof. intros [(WF & _) Hr _ _ _]. rewrite <- (rot_perm _ _ Hr). apply WF. Qed.

Lemma scan_free_in z l start base rover X1 X2 a :
  scan z l start base rover X1 X2 → a ∈ start :: X1 ++ X2 → ¬ is_free (z_mem z) (sentinel z) →
  is_free (z_mem z) a → a ∈ l.
Proof.
  intros Hs Ha HS Hf. apply (scan_in _ _ _ _ _ _ _ a Hs) in Ha.
  apply elem_of_cons in Ha as [->|Ha]; done.
Qed.

Lemma rot_remove C1 y C2 D1 D2 :
  NoDup (C1 ++ y :: C2) → rot (C1 ++ y :: C2) (D1 ++ y :: D2) → rot (C1 ++ C2) (D1 ++ D2).
Proof.
  intros Hnd Hr. pose proof (NoDup_mid _ _ _ Hnd) as [? ?].
  pose proof Hnd as Hnd'. rewrite (rot_perm _ _ Hr) in Hnd'.
  pose proof (NoDup_mid _ _ _ Hnd') as [? ?].
  apply (rot_del y) in Hr. by rewrite !del_mid in Hr.
Qed.

Lemma tiles_first m a l e : tiles m a l e → a = zfirst l e.
Proof. destruct l; [done|by intros [-> _]]. Qed.

(** The block that absorbed its right neighbour [c] is at least as large as [c]. *)
Lemma freed_size z z' l1 r c l2 l1' x hc hx :
  zone_wf z (l1 ++ r :: c :: l2) → zone_wf z' (l1' ++ x :: l2) →
  mainzone z' = mainzone z → z_size z' = z_size z →
  z_mem z !! c = Some hc → z_mem z' !! x = Some hx → x = r ∨ l1 = l1' ++ [x] →
  mb_size hc ≤ mb_size hx.
Proof.
  intros WF WF' Hm Hz Hc Hx Hl.
  pose proof (zw_tiles _ _ WF) as (q & H1 & (-> & hr & Hr & Hsr & (Hrc & hc' & Hc' & Hsc & H2)))%tiles_app.
  pose proof (zw_tiles _ _ WF') as (q' & H1' & (-> & hx' & Hx' & Hsx & H2'))%tiles_app.
  rewrite Hc in Hc'. rewrite Hx in Hx'. simplify_eq. rewrite Hm, Hz in *.
  apply tiles_first in H2, H2'. unfold sizeof_memblock_t in *.
  assert (q' ≤ q); [|lia]. destruct Hl as [-> | ->]; [done|].
  apply tiles_app in H1 as (q2 & _ & (? & h & _ & ? & Hq)). cbn in Hq.
  unfold sizeof_memblock_t in *. lia.
Qed.

(** Freeing the block at the rover: the candidate becomes a free block before the rover. *)
Lemma scan_purge z l start base r X1 X2 hb h :
  scan z l start base r X1 (r :: X2) →
  r ∈ l → z_mem z !! r = Some h → mb_tag h ≠ PU_FREE → z_mem z !! base = Some hb →
  wp never (Z_Free (r + sizeof_memblock_t))
    (λ _ z', ∃ l' Y x X2', scan z' l' start x (zfirst X2' start) (Y ++ [x]) X2' ∧
       mb_prev hb = zfinal start Y ∧ (length X2' ≤ length X2)%nat ∧
       evict (eq r) z l z' l' ∧
       ∀ g hg, g ∈ X2 → z_mem z !! g = Some hg →
         (g ∈ X2' ∧ same_hdr (z_mem z) (z_mem z') g) ∨
         ∃ hx, z_mem z' !! x = Some hx ∧ mb_tag hx = PU_FREE ∧ mb_size hg ≤ mb_size hx) z.
Proof.
  intros Hs Hr Hh Ht Hb. pose proof (scan_ring _ _ _ _ _ _ _ Hs) as Hring.
  pose proof (scan_nodup _ _ _ _ _ _ _ Hs) as Hnd.
  destruct Hs as [INV Hrot Hst _ Hbase]. pose proof INV as (WF & _).
  apply list_elem_of_split in Hr as (l1 & l2 & ->).
  destruct (ring_mid _ _ _ _ _ _ _ (zw_ring _ _ WF)) as (h' & Hh' & Hp & Hn). simplify_eq.
  destruct (ring_mid _ _ _ _ _ _ _ Hring) as (h' & Hh' & Hp' & Hn'). simplify_eq.
  eapply wp_mono; [by eapply wp_Free|]. cbn beta.
  intros _ z' (l1' & x & l2' & F). pose proof (freed_evict _ _ _ _ _ _ _ _ _ INV Hh Ht F) as EV.
  destruct F as (INV' & Hx & Hl & Hrt & Hm & Hz & Hsl & _ & _ & Hhdr).
  assert (HS : sentinel z' = sentinel z) by (unfold sentinel; congruence).
  assert (Hleft : ∃ Y, rot ((sentinel z :: l1') ++ x :: l2) (start :: Y ++ x :: X2) ∧
                       NoDup ((sentinel z :: l1') ++ x :: l2) ∧ mb_prev hb = zfinal start Y).
  { destruct Hbase as [[-> Hq]|(X1' & -> & Hbf)].
    - simplify_eq. destruct Hl as [(-> & -> & _)|[-> Hxf]].
      + exists X1. split_and!; [done|apply WF|done].
      + rewrite final_snoc in *. congruence.
    - rewrite final_snoc in *. destruct Hl as [(_ & _ & Hq)|[-> Hxf]].
      { rewrite <- Hp, Hp' in Hq. done. }
      rewrite final_snoc in *. assert (base = x) as -> by congruence.
      exists X1'. rewrite <- !app_assoc in *. cbn [app] in *.
      destruct (ring_mid _ _ _ _ _ _ _ Hring) as (h' & Hh' & Hp'' & _).
      rewrite Hb in Hh'. injection Hh' as <-.
      pose proof (zw_nodup _ _ WF) as Hnd1.
      replace (sentinel z :: l1' ++ x :: r :: l2) with ((sentinel z :: l1' ++ [x]) ++ r :: l2) in *
        by (cbn; by rewrite <- app_assoc).
      replace (start :: X1' ++ x :: r :: X2) with ((start :: X1' ++ [x]) ++ r :: X2) in *
        by (cbn; by rewrite <- app_assoc).
      pose proof (rot_remove _ _ _ _ _ Hnd1 Hrot) as Hrot'. apply NoDup_split_mid in Hnd1.
      cbn in *. rewrite <- !app_assoc in *. done. }
  destruct Hleft as (Y & Hrot1 & Hnd1 & Hprev).
  assert (Hright : ∃ X2', rot (sentinel z :: l1' ++ x :: l2') (start :: (Y ++ [x]) ++ X2') ∧
                          (X2' = X2 ∨ ∃ c, X2 = c :: X2' ∧ l2 = c :: l2')).
  { setoid_rewrite <- (app_assoc Y). cbn [app].
    destruct Hrt as [(-> & _)|(c & -> & Hc)]; [by exists X2; auto|]. cbn in Hn. destruct X2 as [|c' X2]; cbn in Hn'; [congruence|].
    assert (c' = c) as -> by congruence. exists X2. split; [|by right; exists c].
    replace ((sentinel z :: l1') ++ x :: c :: l2') with ((sentinel z :: l1' ++ [x]) ++ c :: l2') in *
      by (cbn; by rewrite <- app_assoc).
    replace (start :: Y ++ x :: c :: X2) with ((start :: Y ++ [x]) ++ c :: X2) in *
      by (cbn; by rewrite <- app_assoc).
    pose proof (rot_remove _ _ _ _ _ Hnd1 Hrot1) as Hrot2.
    cbn in *. rewrite <- !app_assoc in *. done. }
  destruct Hright as (X2' & Hrot2 & HX2). exists (l1' ++ x :: l2'), Y, x, X2'.
  split_and!; [|done|destruct HX2 as [->|(? & -> & _)]; cbn; lia|done|].
  2: { intros g hg Hg Hhg. destruct Hx as (hx & Hhx & Htx).
    assert (Hgx : g ∈ X2' → g ∉ [r; x]).
    { intros Hg'. apply NoDup_cons in Hnd as [_ [_ Hr2]%NoDup_mid].
      assert (NoDup (start :: (Y ++ [x]) ++ X2')) as [_ Hnd2]%NoDup_cons.
      { rewrite <- (rot_perm _ _ Hrot2), <- HS. apply INV'. }
      apply NoDup_app in Hnd2 as (_ & Hd & _). specialize (Hd x). set_solver. }
    destruct HX2 as [->|(c & -> & ->)]; [left; eauto|].
    apply elem_of_cons in Hg as [->|Hg]; [right|left; eauto].
    exists hx. split_and!; [done..|].
    apply (freed_size z z' l1 r c l2' l1' x hg hx); try done; [apply INV'|].
    destruct Hl as [(-> & -> & _)|[-> _]]; auto. } split; [done|by rewrite HS| |done|by right; eauto].
  assert (Hin : start ∈ sentinel z :: l1 ++ r :: l2) by (rewrite (rot_perm _ _ Hrot); left).
  apply elem_of_cons in Hin as [->|Hin]; [rewrite <- HS; by eapply sentinel_not_free, INV'|].
  destruct (ev_keep _ _ _ _ _ EV start Hin Hst) as [_ Hsh]; [|by rewrite (is_free_iff _ _ _ Hsh)].
  intros ->. apply NoDup_cons in Hnd as [Hnd _]. apply Hnd. set_solver.
Qed.

Definition alloc_failed (e : stop) : Prop := e = Panic "Z_Malloc: failed on allocation".

Definition purgable (z : zone) (a : Z) : Prop :=
  ∃ h, z_mem z !! a = Some h ∧ PU_PURGELEVEL ≤ mb_tag h.

Definition fits (m : gmap Z memblock_t) (size g : Z) : Prop :=
  ∃ h, m !! g = Some h ∧ mb_tag h = PU_FREE ∧ size ≤ mb_size h.

(** What the scan returns: a free block that is large enough. *)
Definition found (P : Z → Prop) (z : zone) (l : list Z) (size b : Z) (z' : zone) (l' : list Z) : Prop :=
  zone_inv z' l' ∧ evict P z l z' l' ∧ b ∈ l' ∧ fits (z_mem z') size b.

Lemma found_trans P z l z1 l1 size b z' l' :
  evict P z l z1 l1 → found P z1 l1 size b z' l' → found P z l size b z' l'.
Proof. intros EV (? & ? & ? & ?). split_and!; [done|by eapply evict_trans|done..]. Qed.

Lemma scan_base_lookup z l start base rover X1 X2 :
  scan z l start base rover X1 X2 → ∃ h, z_mem z !! base = Some h.
Proof.
  intros Hs. pose proof (scan_ring _ _ _ _ _ _ _ Hs) as Hr.
  eapply ring_lookup; [exact Hr|]. destruct Hs as [_ _ _ -> [[-> _]|(X1' & -> & _)]].
  - pose proof (rfirst_in start X2). set_solver.
  - set_solver.
Qed.

(** The result of the scan after a purge is a result of the whole scan. *)
Lemma scan_purge_round E P z l z' l' size r k x :
  ((∀ a, a ∈ l' → ¬ is_free (z_mem z') a → purgable z' a → P a) →
   wp E (load x) (λ b, wp E (k b) (λ b z'', ∃ l'', found P z' l' size b z'' l'')) z') →
  evict (eq r) z l z' l' →
  (∀ a, a ∈ l → ¬ is_free (z_mem z) a → purgable z a → P a) ∧ P r →
  wp E (load x) (λ b, wp E (k b) (λ b z'', ∃ l'', found P z l size b z'' l'')) z'.
Proof.
  intros Hk EV [HP Hr].
  assert (EV' : evict P z l z' l') by (eapply evict_mono; [|exact EV]; by intros ? <-).
  eapply wp_mono.
  - apply Hk. intros a Ha Hf (ha & Hha & Hpg).
    destruct (ev_back _ _ _ _ _ EV a Ha Hf) as (? & ? & Hsh). apply HP; [done..|].
    destruct (same_hdr_lookup _ _ _ _ (same_hdr_sym _ _ _ Hsh) Hha) as (h0 & ? & [= ? ? Htag ?]).
    exists h0. by rewrite Htag.
  - cbn beta. intros b z1 Hb. eapply wp_mono; [exact Hb|]. cbn beta.
    intros ? ? (l'' & HF). exists l''. by eapply found_trans.
Qed.

(** One more round, from a state where [base] and [rover] were just updated. *)
Lemma scan_round E fuel P size start z l base rover X1 X2 :
  (∀ a, a ∈ l → ¬ is_free (z_mem z) a → purgable z a → P a) →
  scan z l start base rover X1 X2 →
  (¬ fits (z_mem z) size base → wp E (MallocLoop fuel size start base rover)
    (λ b z', ∃ l', found P z l size b z' l') z) →
  wp E (load base)
    (λ b, wp E
       (if negb (mb_tag b =? PU_FREE) || (mb_size b <? size)
        then MallocLoop fuel size start base rover else mret base)
       (λ b z', ∃ l', found P z l size b z' l')) z.
Proof.
  intros HP Hs Hk. destruct (scan_base_lookup _ _ _ _ _ _ _ Hs) as [h Hh].
  eapply wp_zload; [exact Hh|].
  destruct (Z.eqb_spec (mb_tag h) PU_FREE) as [Ht|Ht]; cbn [negb orb].
  2: { apply Hk. intros (h' & ? & ? & ?). congruence. }
  destruct (Z.ltb_spec (mb_size h) size) as [Hsz|Hsz].
  { apply Hk. intros (h' & ? & ? & ?). simplify_eq. lia. }
  wp_simp. exists l.
  assert (Hin : base ∈ start :: X1 ++ X2).
  { destruct Hs as [_ _ _ -> [[-> _]|(X1' & -> & _)]]; [|set_solver].
    pose proof (rfirst_in start X2). set_solver. }
  pose proof (sc_inv _ _ _ _ _ _ _ Hs) as INV. split_and!; [done|apply evict_refl| |by exists h].
  eapply scan_free_in; [done|done|by eapply sentinel_not_free, INV|by exists h].
Qed.

Lemma fits_same m m' size g : same_hdr m m' g → fits m size g → fits m' size g.
Proof.
  intros Hs (h & Hh & ? & ?). destruct (same_hdr_lookup _ _ _ _ Hs Hh) as (h' & ? & [= ? ? ? ?]).
  exists h'. split_and!; [done|congruence|lia].
Qed.

(** The scan can only fail when no free block ahead is large enough. *)
Lemma wp_MallocLoop (E : stop → Prop) fuel P size start z l base rover X1 X2 :
  (∀ a, a ∈ l → ¬ is_free (z_mem z) a → purgable z a → P a) →
  scan z l start base rover X1 X2 → (length X2 < fuel)%nat →
  (∀ e, alloc_failed e → E e) ∨ (∃ g, g ∈ X2 ∧ fits (z_mem z) size g) →
  wp E (MallocLoop fuel size start base rover) (λ b z', ∃ l', found P z l size b z' l') z.
Proof.
  revert z l base rover X1 X2. induction fuel as [|fuel IH]; [lia|].
  intros z l base rover X1 X2 HP Hs Hlen HE. cbn [MallocLoop].
  pose proof (scan_nodup _ _ _ _ _ _ _ Hs) as Hnd.
  pose proof Hs as [INV Hrot Hst Hrv Hbase]. pose proof (sentinel_not_free _ _ (proj1 INV)) as HSf.
  destruct (Z.eqb_spec rover start) as [->|Hrs].
  { wp_simp. destruct HE as [HE|(g & Hg & _)]; [by apply HE|]. exfalso.
    destruct X2 as [|r X2]; [set_solver|]. cbn in Hrv. apply NoDup_cons in Hnd as [Hnd _]. set_solver. }
  pose proof (scan_ring _ _ _ _ _ _ _ Hs) as Hring.
  destruct X2 as [|r X2]; [by cbn in Hrv|]. cbn in Hrv. subst r. cbn in Hlen.
  destruct (ring_mid _ _ _ _ _ _ _ Hring) as (h & Hh & Hp & Hn).
  destruct (scan_base_lookup _ _ _ _ _ _ _ Hs) as [hb Hhb].
  assert (Hrin : rover ∈ sentinel z :: l) by (apply (scan_in _ _ _ _ _ _ _ rover Hs); set_solver).
  wp_simp. eapply wp_zload; [exact Hh|]. wp_simp.
  assert (HE' : ¬ fits (z_mem z) size rover →
    (∀ e, alloc_failed e → E e) ∨ (∃ g, g ∈ X2 ∧ fits (z_mem z) size g)).
  { intros Hnf. destruct HE as [HE|(g & [->|Hg]%elem_of_cons & Hfg)]; [by left|done|eauto]. }
  destruct (Z.eqb_spec (mb_tag h) PU_FREE) as [Ht|Ht]; cbn [negb]; wp_simp; cbn [fst snd].
  - (* a free block: it is the candidate, the rover moves on *)
    assert (Hrf : is_free (z_mem z) rover) by by exists h.
    assert (base = rover) as ->.
    { destruct Hbase as [[? _]|(X1' & -> & Hbf)]; [done|exfalso]. rewrite final_snoc in Hp.
      apply (zone_inv_prev z l rover h); rewrite ?Hp; try done.
      apply elem_of_cons in Hrin as [->|?]; done. }
    rewrite Hn. assert (Hs' : scan z l start rover (zfirst X2 start) (X1 ++ [rover]) X2).
    { split; [done|by rewrite <- app_assoc|done|done|]. right. eauto. }
    eapply scan_round; [done..|]. intros. eapply IH; [done..|lia|auto].
  - assert (Hnf : ¬ fits (z_mem z) size rover) by (intros (h' & ? & ? & ?); congruence).
    specialize (HE' Hnf).
    destruct (Z.ltb_spec (mb_tag h) PU_PURGELEVEL) as [Hlt|Hge]; wp_simp; cbn [fst snd].
    + (* an allocated block that cannot be purged *)
      rewrite Hn. assert (Hs' : scan z l start (zfirst X2 start) (zfirst X2 start) (X1 ++ [rover]) X2).
      { split; [done|by rewrite <- app_assoc|done|done|]. left. rewrite final_snoc.
        by rewrite (is_free_tag _ _ _ Hh). }
      eapply scan_round; [done..|]. intros. eapply IH; [done..|lia|auto].
    + (* a purgable block *)
      assert (Hrl : rover ∈ l).
      { apply elem_of_cons in Hrin as [->|?]; [|done].
        destruct (zw_sentinel _ _ (proj1 INV)) as (hs & ? & Hts). simplify_eq.
        rewrite Hts in Hge. by unfold PU_STATIC, PU_PURGELEVEL in Hge. }
      assert (HPr : P rover).
      { apply HP; [done|by rewrite (is_free_tag _ _ _ Hh)|by exists h]. }
      eapply wp_zload; [exact Hhb|]. wp_simp.
      eapply wp_mono; [eapply wp_weaken; [by eapply scan_purge|done]|]. cbn beta.
      intros _ z' (l' & Y & x & X2' & Hs' & Hpy & Hlen' & EV & HX2).
      pose proof (scan_ring _ _ _ _ _ _ _ Hs') as Hring'.
      rewrite <- app_assoc in Hring'. cbn [app] in Hring'.
      destruct (ring_before _ _ _ _ _ _ _ Hring') as (hq & Hq & Hqn).
      destruct (ring_mid _ _ _ _ _ _ _ Hring') as (hx & Hhx & _ & Hxn).
      rewrite Hpy. wp_simp. eapply wp_zload; [exact Hq|]. rewrite Hqn. wp_simp.
      eapply wp_zload; [exact Hhx|]. rewrite Hxn. wp_simp. cbn [fst snd].
      eapply scan_purge_round; [|exact EV|done].
      intros HP'. eapply scan_round; [done..|]. intros Hnfx. eapply IH; [done..|lia|].
      destruct HE' as [?|(g & Hg & Hfg)]; [by left|right]. pose proof Hfg as (hg & Hhg & ? & ?).
      destruct (HX2 g hg Hg Hhg) as [[Hg' Hsg]|(hx' & ? & ? & ?)].
      * exists g. split; [done|by eapply fits_same].
      * exfalso. apply Hnfx. exists hx'. split_and!; [done..|lia].
Qed.

(** ** Splitting a block *)
Section split.
Context (z : zone) (l1 : list Z) (b : Z) (l2 : list Z) (h : memblock_t) (sz residue : Z).
Context (WF : zone_wf z (l1 ++ b :: l2)) (Hb : z_mem z !! b = Some h).
Context (Hsz : sizeof_memblock_t ≤ sz) (Hex : sizeof_memblock_t ≤ mb_size h - sz).

Let nb := b + sz.
Let n := zfirst l2 (sentinel z).
Let frag := mkBlock (mb_size h - sz) NULL PU_FREE residue n b.

(** The state after the split. *)
Definition split_off : zone :=
  mkZone (mainzone z) (z_size z) (z_rover z)
    (alter (mb_set_size sz) b (alter (mb_set_next nb) b (alter (mb_set_prev nb) n
       (<[nb := frag]> (z_mem z))))) (z_slots z).

Lemma split_tiles : ∃ c, b = c ∧ tiles (z_mem z) (mainzone z + sizeof_memzone_t) l1 c ∧
  tiles (z_mem z) (c + mb_size h) l2 (mainzone z + z_size z).
Proof using WF Hb.
  pose proof (zw_tiles _ _ WF) as (c & H1 & (Hc & h' & Hh' & _ & H2))%tiles_app.
  rewrite Hb in Hh'. injection Hh' as <-. eauto.
Qed.

Lemma split_fresh : nb ∉ sentinel z :: l1 ++ b :: l2.
Proof using WF Hb Hsz Hex.
  destruct split_tiles as (c & Hc & H1 & H2). pose proof (tiles_le _ _ _ _ H1).
  unfold sizeof_memblock_t, sizeof_memzone_t in *. subst nb. intros Hin.
  apply elem_of_cons in Hin as [Hin|[Hin|[Hin|Hin]%elem_of_cons]%elem_of_app].
  - unfold sentinel, offsetof_blocklist in Hin. lia.
  - destruct (tiles_in _ _ _ _ _ H1 Hin) as (h' & _ & ? & ? & ?). unfold sizeof_memblock_t in *. lia.
  - lia.
  - destruct (tiles_in _ _ _ _ _ H2 Hin) as (h' & _ & ? & ? & ?). lia.
Qed.

Lemma split_neq : (nb ≠ b) ∧ (nb ≠ n).
Proof using WF Hb Hsz Hex.
  pose proof split_fresh as Hf. pose proof (rfirst_in (sentinel z) l2) as Hn. fold n in Hn.
  split; intros Heq; apply Hf; rewrite Heq; [right; apply elem_of_app; right; left|].
  apply elem_of_cons in Hn as [E|?]; [rewrite E; left|]. right. apply elem_of_app. right. by right.
Qed.

Lemma split_hdr a : a ≠ b → a ≠ nb → same_hdr (z_mem z) (z_mem split_off) a.
Proof using.
  intros. cbn. eapply same_hdr_trans; [|by apply same_hdr_alter_ne].
  eapply same_hdr_trans; [|by apply same_hdr_alter].
  eapply same_hdr_trans; [|by apply same_hdr_alter].
  unfold same_hdr. by rewrite lookup_insert_ne.
Qed.

Lemma split_frag : ∃ h', z_mem split_off !! nb = Some h' ∧
  hdr h' = (mb_size h - sz, NULL, PU_FREE, residue).
Proof using WF Hb Hsz Hex.
  destruct split_neq. exists frag. split; [|done]. cbn.
  rewrite !lookup_alter_ne by done. by rewrite lookup_insert_eq.
Qed.

Lemma split_base : ∃ h', z_mem split_off !! b = Some h' ∧ mb_next h' = nb ∧
  hdr h' = (sz, mb_user h, mb_tag h, mb_id h).
Proof using WF Hb Hsz Hex.
  destruct split_neq. cbn. rewrite !lookup_alter_eq.
  destruct (decide (n = b)) as [->|Hne].
  - rewrite lookup_alter_eq, lookup_insert_ne, Hb by done. by eexists.
  - rewrite lookup_alter_ne, lookup_insert_ne, Hb by done. by eexists.
Qed.

Lemma split_wf : zone_wf split_off (l1 ++ b :: nb :: l2).
Proof using WF Hb Hsz Hex.
  pose proof split_fresh as Hf. pose proof (zw_nodup _ _ WF) as Hnd.
  assert (HbS : sentinel z ≠ b) by (apply NoDup_cons in Hnd as [? _]; set_solver).
  assert (Hnd' : NoDup (sentinel z :: (l1 ++ [b]) ++ nb :: l2)).
  { rewrite <- app_assoc. cbn. change (NoDup ((sentinel z :: l1) ++ b :: nb :: l2)).
    change (NoDup ((sentinel z :: l1) ++ b :: l2)) in Hnd.
    assert (Hp : (sentinel z :: l1) ++ b :: nb :: l2 ≡ₚ nb :: (sentinel z :: l1) ++ b :: l2)
      by solve_Permutation.
    rewrite Hp. apply NoDup_cons. done. }
  split.
  - pose proof (zw_ring _ _ WF) as Hr. apply (ring_insert_notin _ _ nb frag) in Hr; [|done].
    replace (l1 ++ b :: l2) with ((l1 ++ [b]) ++ l2) in Hr by by rewrite <- app_assoc.
    apply (ring_insert _ _ mb_set_next mb_set_prev zone_links _ _ _ nb _ frag) in Hr.
    + unfold ring_link in Hr. rewrite final_snoc, <- app_assoc in Hr.
      by apply ring_alter_links.
    + done.
    + by rewrite lookup_insert_eq.
    + done.
    + by rewrite final_snoc.
  - destruct (zw_sentinel _ _ WF) as (hs & Hhs & Ht).
    destruct (same_hdr_lookup _ _ _ _ (split_hdr (sentinel z) HbS ltac:(set_solver)) Hhs)
      as (h' & ? & [= ? ? ? ?]). exists h'. split; [done|congruence].
  - by rewrite <- app_assoc in Hnd'.
  - destruct split_tiles as (c & Hc & H1 & H2). apply tiles_app. exists c.
    destruct split_base as (hb' & Hhb & _ & [= Hs1 _ _ _]), split_frag as (hf & Hhf & [= Hs2 _ _ _]).
    apply not_elem_of_cons in Hf as [_ [Hf1 [_ Hf2]%not_elem_of_cons]%not_elem_of_app].
    apply NoDup_cons in Hnd as [_ [Hb1 Hb2]%NoDup_mid].
    split; [eapply tiles_same; [|exact H1]; intros; apply split_hdr; congruence|].
    split; [done|]. exists hb'. rewrite Hs1. split_and!; [done..|].
    split; [unfold nb; congruence|]. exists hf. rewrite Hs2. split_and!; [done..|].
    replace (c + sz + (mb_size h - sz)) with (c + mb_size h) by lia.
    eapply tiles_same; [|exact H2]. intros; apply split_hdr; congruence.
  - pose proof (zw_rover _ _ WF). change (sentinel split_off) with (sentinel z). cbn. set_solver.
  - intros a ha Ha Hha. destruct (decide (a = nb)) as [->|Hanb].
    { destruct split_frag as (hf & Hhf & [= _ _ Ht _]). left. congruence. }
    assert (Ha' : a ∈ l1 ++ b :: l2) by set_solver.
    destruct (ring_lookup _ _ _ _ _ a (zw_ring _ _ WF)) as [h0 Hh0]; [by right|].
    assert (live_ok h0) as Hl0 by by eapply (zw_live _ _ WF).
    destruct (decide (a = b)) as [->|Hab].
    + destruct split_base as (hb' & Hhb & _ & [= _ Hu Ht Hi]). simplify_eq.
      unfold live_ok. by rewrite Ht, Hi, Hu.
    + eapply live_ok_same; [by apply split_hdr|done..].
  - apply WF.
Qed.
End split.

(** ** [Z_Malloc] *)

(** The size of the block for a request of [size] bytes: rounded up to a multiple of
    eight, plus the header. *)
Lemma block_size_round size :
  0 ≤ size ≤ 2 ^ 31 - 48 → block_size size = (size + 7) / 8 * 8 + sizeof_memblock_t.
Proof.
  intros Hs. unfold block_size, MEM_ALIGN, sizeof_memblock_t.
  assert (Hm : Z.land (u64 (size + 8 - 1)) (u64 (Z.lnot (8 - 1))) = (size + 7) / 8 * 8).
  { rewrite (wrap_u_small 64 (size + 8 - 1)) by (unfold in_u; lia).
    replace (u64 (Z.lnot (8 - 1))) with (Z.ldiff (Z.ones 64) (Z.ones 3)) by reflexivity.
    rewrite Z.ldiff_land, Z.land_assoc, Z.land_ones, Z.mod_small by lia.
    rewrite <- Z.ldiff_land, Z.ldiff_ones_r by lia.
    rewrite Z.shiftl_mul_pow2, Z.shiftr_div_pow2 by lia.
    f_equal. f_equal. lia. }
  rewrite Hm. pose proof (Z.div_mod (size + 7) 8 ltac:(lia)).
  pose proof (Z.mod_pos_bound (size + 7) 8 ltac:(lia)). set (q := (size + 7) / 8) in *.
  rewrite (wrap_s_small 32 (q * 8)) by (unfold in_s; lia).
  rewrite (wrap_u_small 64 (q * 8 + 40)) by (unfold in_u; lia).
  apply wrap_s_small; unfold in_s; lia.
Qed.

Lemma block_size_bounds size :
  0 ≤ size ≤ 2 ^ 31 - 48 → size + sizeof_memblock_t ≤ block_size size < 2 ^ 31.
Proof.
  intros Hs. rewrite (block_size_round size Hs). unfold sizeof_memblock_t.
  pose proof (Z.div_mod (size + 7) 8 ltac:(lia)).
  pose proof (Z.mod_pos_bound (size + 7) 8 ltac:(lia)). lia.
Qed.

Lemma NoDup_size (m : gmap Z memblock_t) (L : list Z) :
  NoDup L → (∀ a, a ∈ L → is_Some (m !! a)) → (length L ≤ base.size m)%nat.
Proof.
  intros Hnd HL. rewrite <- (size_dom (D:=gset Z)), <- (size_list_to_set (C:=gset Z) L) by done.
  apply subseteq_size. intros a Ha%elem_of_list_to_set. by apply elem_of_dom, HL.
Qed.

Lemma rot_snoc C D a : rot C (D ++ [a]) → rot C (a :: D).
Proof.
  intros (A & B & -> & HB). destruct A as [|a' A _] using rev_ind.
  - rewrite app_nil_r in HB. subst B. by exists D, [a].
  - rewrite app_assoc in HB. apply app_inj_tail in HB as [-> ->].
    exists A, (a' :: B). by rewrite <- app_assoc.
Qed.

(** Where the scan of a well-formed zone begins. *)
Lemma scan_start z l base h :
  zone_inv z l → base ∈ sentinel z :: l → z_mem z !! base = Some h →
  ¬ is_free (z_mem z) (mb_prev h) →
  ∃ X, scan z l (mb_prev h) base base [] X ∧ (length X < 2 + base.size (z_mem z))%nat ∧
       ∀ g, g ∈ l → is_free (z_mem z) g → g ∈ X.
Proof.
  intros INV Hb Hh Hp. destruct (rot_head _ _ Hb) as [W Hrot].
  pose proof (ring_rot _ _ _ _ _ (zw_ring _ _ (proj1 INV)) Hrot) as Hr.
  destruct (ring_sentinel _ _ _ _ _ Hr) as (h' & Hh' & Hph & _). simplify_eq.
  assert (Hlen : ∀ X st, rot (sentinel z :: l) (st :: X) → (length X < 2 + base.size (z_mem z))%nat).
  { intros X st HX. pose proof (NoDup_size (z_mem z) (sentinel z :: l)) as Hsz.
    specialize (Hsz (zw_nodup _ _ (proj1 INV))).
    specialize (Hsz (λ a, ring_lookup _ _ _ _ _ a (zw_ring _ _ (proj1 INV)))).
    rewrite (rot_perm _ _ HX) in Hsz. cbn in Hsz. lia. }
  assert (Hin : ∀ X st, rot (sentinel z :: l) (st :: X) → ¬ is_free (z_mem z) st →
    ∀ g, g ∈ l → is_free (z_mem z) g → g ∈ X).
  { intros X st HX Hst g Hg Hf. assert (g ∈ st :: X) as [->|?]%elem_of_cons; [|done..].
    rewrite <- (rot_perm _ _ HX). by right. }
  destruct W as [|st W _] using rev_ind.
  - cbn in Hph. rewrite Hph in *. exists []. split_and!; [|eauto..]. split; auto.
  - rewrite final_snoc in Hph. rewrite Hph in *.
    assert (Hrot' : rot (sentinel z :: l) (st :: base :: W)) by (by apply (rot_snoc _ (base :: W))).
    exists (base :: W). split_and!; [|eauto..]. split; auto.
Qed.

(** The candidate block, split when the rest is worth keeping. *)
Record carved (z : zone) (l1 : list Z) (b : Z) (l2 : list Z) (sz : Z) (z' : zone) (rest : list Z)
    : Prop := {
  cv_wf : zone_wf z' (l1 ++ b :: rest);
  cv_left : no_free_pair (z_mem z') l1;
  cv_right : no_free_pair (z_mem z') rest;
  cv_block : ∃ h, z_mem z' !! b = Some h ∧ sz ≤ mb_size h;
  cv_zone : mainzone z' = mainzone z ∧ z_size z' = z_size z ∧ z_slots z' = z_slots z;
  cv_rest : rest = l2 ∨ ∃ nb, rest = nb :: l2 ∧ is_free (z_mem z') nb;
  cv_hdr a : a ∈ l1 ++ l2 → same_hdr (z_mem z) (z_mem z') a;
}.

Lemma split_carved z l1 b l2 h sz residue :
  zone_inv z (l1 ++ b :: l2) → z_mem z !! b = Some h → mb_tag h = PU_FREE →
  sizeof_memblock_t ≤ sz → sizeof_memblock_t ≤ mb_size h - sz →
  carved z l1 b l2 sz (split_off z b l2 h sz residue) ((b + sz) :: l2).
Proof.
  intros INV Hb Ht Hsz Hex. pose proof INV as (WF & Hn & _).
  pose proof (zone_inv_split _ _ _ _ INV) as (Hn1 & Hn2 & _ & Hb1 & Hb2 & _).
  pose proof (split_fresh _ _ _ _ _ _ WF Hb Hsz Hex) as Hf.
  assert (Hhdr : ∀ a, a ∈ l1 ++ l2 → same_hdr (z_mem z) (z_mem (split_off z b l2 h sz residue)) a).
  { intros a Ha. apply split_hdr; set_solver. }
  split.
  - by apply split_wf.
  - eapply no_free_pair_same; [|exact Hn1]. intros. apply Hhdr. set_solver.
  - apply (no_free_pair_app _ [b + sz]). split_and!; [done| |].
    + eapply no_free_pair_same; [|exact Hn2]. intros. apply Hhdr. set_solver.
    + intros [_ Hff]. apply (zone_inv_next z _ b h INV); [set_solver|done|by exists h|].
      destruct (ring_mid _ _ _ _ _ _ _ (zw_ring _ _ WF)) as (h' & Hh' & _ & Hx).
      rewrite Hb in Hh'. injection Hh' as <-. rewrite Hx.
      destruct l2 as [|c l2]; [done|]. cbn in *. eapply is_free_same; [|exact Hff].
      apply same_hdr_sym, Hhdr. set_solver.
  - destruct (split_base _ l1 b l2 h sz residue WF Hb Hsz Hex) as (h' & ? & _ & [= ? _ _ _]).
    exists h'. split; [done|lia].
  - done.
  - right. exists (b + sz). split; [done|].
    destruct (split_frag _ l1 b l2 h sz residue WF Hb Hsz Hex) as (h' & ? & [= _ _ ? _]). by exists h'.
  - done.
Qed.

Lemma wp_carve z l1 b l2 h sz residue :
  zone_inv z (l1 ++ b :: l2) → z_mem z !! b = Some h → mb_tag h = PU_FREE →
  sizeof_memblock_t ≤ sz ≤ mb_size h →
  wp never
    (when (MINFRAGMENT <? i32 (mb_size h - sz))
       (modS (with_mem <[b + sz := mkBlock (i32 (mb_size h - sz)) NULL PU_FREE residue (mb_next h) b]>);;
        store (mb_next h) (mb_set_prev (b + sz));;
        store b (mb_set_next (b + sz));;
        store b (mb_set_size sz)))
    (λ _ z', ∃ rest, carved z l1 b l2 sz z' rest) z.
Proof.
  intros INV Hb Ht Hsz. pose proof INV as (WF & Hn & _).
  destruct (ring_mid _ _ _ _ _ _ _ (zw_ring _ _ WF)) as (h' & Hh' & _ & Hx).
  rewrite Hb in Hh'. injection Hh' as <-.
  assert (Hi : i32 (mb_size h - sz) = mb_size h - sz).
  { destruct (tiles_in _ _ _ _ b (zw_tiles _ _ WF)) as (h' & Hh' & ? & ? & ?); [set_solver|].
    rewrite Hb in Hh'. injection Hh' as <-. pose proof (zw_size _ _ WF).
    unfold sizeof_memblock_t, sizeof_memzone_t in *. small_ints. done. }
  rewrite Hi. apply wp_when; intros Hg.
  - apply Z.ltb_lt in Hg. unfold MINFRAGMENT in Hg.
    assert (Hex : sizeof_memblock_t ≤ mb_size h - sz) by (unfold sizeof_memblock_t; lia).
    pose proof (split_carved _ _ _ _ _ sz residue INV Hb Ht ltac:(lia) Hex) as HC.
    pose proof (split_neq _ _ _ _ _ _ WF Hb (proj1 Hsz) Hex) as [Hnb Hnn].
    rewrite Hx. wp_simp.
    assert (∃ hn, z_mem z !! zfirst l2 (sentinel z) = Some hn) as [hn Hhn].
    { eapply ring_lookup; [apply WF|]. pose proof (rfirst_in (sentinel z) l2). set_solver. }
    eapply wp_zstore; [cbn; by rewrite lookup_insert_ne|]. wp_simp.
    assert (is_Some (alter (mb_set_prev (b + sz)) (zfirst l2 (sentinel z))
       (<[b + sz := mkBlock (mb_size h - sz) NULL PU_FREE residue (zfirst l2 (sentinel z)) b]> (z_mem z)) !! b))
      as [hb Hhb].
    { rewrite lookup_alter_is_Some, lookup_insert_ne by done. by rewrite Hb. }
    eapply wp_zstore; [exact Hhb|]. eapply wp_zstore; [cbn; by rewrite lookup_alter_eq, Hhb|].
    eexists. exact HC.
  - exists l2. pose proof (zone_inv_split _ _ _ _ INV) as (Hn1 & Hn2 & _).
    split; [done|done|done| |done|by left|done]. exists h. split; [done|lia].
Qed.

Definition alloc_hdr (user tag : Z) (h : memblock_t) : memblock_t :=
  mb_set_id ZONEID (mb_set_tag tag (mb_set_user user h)).

Definition alloc_slot (user r : Z) (slots : gmap Z Z) : gmap Z Z :=
  if user =? NULL then slots else <[user := r]> slots.

(** What [Z_Malloc] promises: a new block with the requested payload, tag and owner; the
    blocks that are not purgable stay as they are, nothing else is allocated, and apart from
    the owner's variable only those of evicted blocks are written, with zero. *)
Record malloced (z : zone) (l : list Z) (size tag user r : Z) (z' : zone) (l' : list Z) (b : Z)
    : Prop := {
  ma_inv : zone_inv z' l';
  ma_zone : mainzone z' = mainzone z ∧ z_size z' = z_size z;
  ma_result : r = b + sizeof_memblock_t;
  ma_block : ∃ h, b ∈ l' ∧ z_mem z' !! b = Some h ∧ size + sizeof_memblock_t ≤ mb_size h ∧
    mb_tag h = tag ∧ mb_user h = user ∧ mb_id h = ZONEID;
  ma_keep a : a ∈ l → ¬ is_free (z_mem z) a → ¬ purgable z a →
    a ≠ b ∧ a ∈ l' ∧ same_hdr (z_mem z) (z_mem z') a;
  ma_back a : a ∈ l' → ¬ is_free (z_mem z') a → a ≠ b →
    a ∈ l ∧ ¬ is_free (z_mem z) a ∧ same_hdr (z_mem z) (z_mem z') a;
  ma_owner : user ≠ NULL → z_slots z' !! user = Some r;
  ma_slots p : user = NULL ∨ p ≠ user → z_slots z' !! p ≠ z_slots z !! p →
    z_slots z' !! p = Some 0 ∧
    ∃ a h, purgable z a ∧ a ∈ l ∧ z_mem z !! a = Some h ∧ mb_tag h ≠ PU_FREE ∧ mb_user h = p;
}.

Lemma zone_wf_rover z l r : zone_wf z l → r ∈ sentinel z :: l → zone_wf (with_rover r z) l.
Proof. intros [? ? ? ? ? ? ?] Hr. by split. Qed.

Section allocate.
Context (z z1 z2 : zone) (l l1 l2 rest : list Z) (b size sz tag user : Z) (h2 : memblock_t).
Context (EV : evict (purgable z) z l z1 (l1 ++ b :: l2)) (INV1 : zone_inv z1 (l1 ++ b :: l2)).
Context (Hfree : is_free (z_mem z1) b) (CV : carved z1 l1 b l2 sz z2 rest).
Context (Hsz : size + sizeof_memblock_t ≤ sz) (Htag : tag ≠ PU_FREE).
Context (Hown : user = NULL → tag < PU_PURGELEVEL).
Context (Hh2 : z_mem z2 !! b = Some h2).

Let r := b + sizeof_memblock_t.

(** The state [Z_Malloc] leaves. *)
Definition allocated : zone :=
  mkZone (mainzone z2) (z_size z2) (mb_next h2) (alter (alloc_hdr user tag) b (z_mem z2))
    (alloc_slot user r (z_slots z2)).

Lemma allocated_hdr a : a ≠ b → same_hdr (z_mem z2) (z_mem allocated) a.
Proof using. intros. by apply same_hdr_alter_ne. Qed.

Lemma allocated_hdr1 a : a ∈ l1 ++ l2 → same_hdr (z_mem z1) (z_mem allocated) a.
Proof using CV INV1.
  intros Ha. eapply same_hdr_trans; [by apply (cv_hdr _ _ _ _ _ _ _ CV)|]. apply allocated_hdr.
  pose proof (zone_inv_split _ _ _ _ INV1) as (_ & _ & _ & ? & ? & _).
  intros ->. apply elem_of_app in Ha as [?|?]; done.
Qed.

Lemma allocated_b : z_mem allocated !! b = Some (alloc_hdr user tag h2).
Proof using Hh2. cbn. by rewrite lookup_alter_eq, Hh2. Qed.

Lemma allocated_b_live : ¬ is_free (z_mem allocated) b.
Proof using Hh2 Htag. by rewrite (is_free_tag _ _ _ allocated_b). Qed.

Lemma allocated_inv : zone_inv allocated (l1 ++ b :: rest).
Proof using All.
  pose proof (cv_wf _ _ _ _ _ _ _ CV) as WF2.
  assert (WF3 : zone_wf allocated (l1 ++ b :: rest)).
  { change allocated with (with_rover (mb_next h2) (mkZone (mainzone z2) (z_size z2) (z_rover z2)
      (alter (alloc_hdr user tag) b (z_mem z2)) (alloc_slot user r (z_slots z2)))).
    apply zone_wf_rover.
    - apply zone_wf_update; [done|set_solver|done|]. intros h Hh. right. cbn.
      split; [done|]. intros Hpt ->. specialize (Hown eq_refl). lia.
    - destruct (ring_mid _ _ _ _ _ _ _ (zw_ring _ _ WF2)) as (h' & Hh' & _ & Hx).
      rewrite Hh2 in Hh'. injection Hh' as <-. rewrite Hx.
      pose proof (rfirst_in (sentinel z2) rest).
      change (zfirst rest (sentinel z2) ∈ sentinel z2 :: l1 ++ b :: rest). set_solver. }
  pose proof (zw_nodup _ _ WF2) as [_ [Hb1 Hb2]%NoDup_mid]%NoDup_cons.
  pose proof allocated_b_live as Hlive.
  split_and!; [done| |by destruct l1]. apply no_free_pair_app. split_and!.
  - eapply no_free_pair_same; [|apply CV]. intros. apply allocated_hdr. congruence.
  - apply (no_free_pair_app _ [b]). split_and!; [done| |by intros [? _]].
    eapply no_free_pair_same; [|apply CV]. intros. apply allocated_hdr. congruence.
  - by intros [_ ?].
Qed.

Lemma allocated_malloced : malloced z l size tag user r allocated (l1 ++ b :: rest) b.
Proof using All.
  assert (Hsub : ∀ a, a ∈ l1 ++ b :: rest → ¬ is_free (z_mem allocated) a → a ≠ b → a ∈ l1 ++ l2).
  { intros a Ha Hf Hab. destruct (cv_rest _ _ _ _ _ _ _ CV) as [->|(nb & -> & Hnb)]; [set_solver|].
    assert (a ≠ nb); [|set_solver]. intros ->. apply Hf.
    eapply is_free_same; [by apply allocated_hdr|done]. }
  assert (Hrest : ∀ a, a ∈ l2 → a ∈ rest).
  { intros a Ha. destruct (cv_rest _ _ _ _ _ _ _ CV) as [->|(nb & -> & Hnb)]; [done|by right]. }
  destruct (cv_zone _ _ _ _ _ _ _ CV) as (Hm & Hz & Hsl). destruct (ev_zone _ _ _ _ _ EV).
  split.
  - apply allocated_inv.
  - cbn. split; congruence.
  - done.
  - exists (alloc_hdr user tag h2). split_and!; [set_solver|apply allocated_b| |done..].
    destruct (cv_block _ _ _ _ _ _ _ CV) as (h & Hh & ?). rewrite Hh2 in Hh.
    injection Hh as <-. cbn. lia.
  - intros a Ha Hf Hp. destruct (ev_keep _ _ _ _ _ EV a Ha Hf Hp) as [Ha1 Hs1].
    assert (Hab : a ≠ b) by (intros ->; by rewrite (is_free_iff _ _ _ Hs1) in Hfree).
    split_and!; [done|set_solver|]. eapply same_hdr_trans; [exact Hs1|].
    apply allocated_hdr1. set_solver.
  - intros a Ha Hf Hab. pose proof (Hsub a Ha Hf Hab) as Ha1.
    pose proof (allocated_hdr1 a Ha1) as Hs1.
    destruct (ev_back _ _ _ _ _ EV a) as (? & ? & ?); [set_solver| |].
    { by rewrite <- (is_free_iff _ _ _ Hs1). }
    split_and!; [done..|]. by eapply same_hdr_trans.
  - intros Hu. cbn. unfold alloc_slot. destruct (Z.eqb_spec user NULL); [done|].
    by rewrite lookup_insert_eq.
  - intros p Hp Hne. assert (Hpe : z_slots allocated !! p = z_slots z1 !! p).
    { cbn. unfold alloc_slot. rewrite Hsl. destruct (Z.eqb_spec user NULL); [done|].
      rewrite lookup_insert_ne; [done|]. destruct Hp; congruence. }
    rewrite Hpe in *. by apply EV.
Qed.
End allocate.

Lemma wp_Malloc (E : stop → Prop) z l residue size tag user :
  zone_inv z l → 0 ≤ size ≤ 2 ^ 31 - 48 → tag ≠ PU_FREE → (user = NULL → tag < PU_PURGELEVEL) →
  (∀ e, alloc_failed e → E e) ∨ (∃ g, g ∈ l ∧ fits (z_mem z) (block_size size) g) →
  wp E (Z_Malloc residue size tag user) (λ r z', ∃ l' b, malloced z l size tag user r z' l' b) z.
Proof.
  intros INV Hsize Htag Hown HE. pose proof INV as (WF & _). unfold Z_Malloc.
  pose proof (block_size_bounds size Hsize) as Hbs. set (sz := block_size size) in *.
  destruct (ring_lookup _ _ _ _ _ _ (zw_ring _ _ WF) (zw_rover _ _ WF)) as [hr Hhr].
  wp_simp. eapply wp_zload; [exact Hhr|]. wp_simp.
  assert (∃ hp, z_mem z !! mb_prev hr = Some hp ∧ mb_prev hr ∈ sentinel z :: l) as (hp & Hhp & Hpin).
  { pose proof (zw_rover _ _ WF) as [Hrv|Hrv]%elem_of_cons.
    - destruct (ring_sentinel _ _ _ _ _ (zw_ring _ _ WF)) as (h & Hh & Hp & _).
      rewrite Hrv in *. simplify_eq. rewrite Hp. pose proof (rfinal_in (sentinel z) l) as Hin.
      destruct (ring_lookup _ _ _ _ _ _ (zw_ring _ _ WF) Hin) as [? ?]. eauto.
    - apply list_elem_of_split in Hrv as (l1 & l2 & ->).
      destruct (ring_mid _ _ _ _ _ _ _ (zw_ring _ _ WF)) as (h & Hh & Hp & _).
      rewrite Hhr in Hh. injection Hh as <-. rewrite Hp.
      assert (Hin : zfinal (sentinel z) l1 ∈ sentinel z :: l1 ++ z_rover z :: l2)
        by (pose proof (rfinal_in (sentinel z) l1); set_solver).
      destruct (ring_lookup _ _ _ _ _ _ (zw_ring _ _ WF) Hin) as [? ?]. eauto. }
  eapply wp_zload; [exact Hhp|]. wp_simp.
  set (base := if mb_tag hp =? PU_FREE then mb_prev hr else z_rover z).
  assert (∃ hb, base ∈ sentinel z :: l ∧ z_mem z !! base = Some hb ∧ ¬ is_free (z_mem z) (mb_prev hb))
    as (hb & Hbin & Hhb & Hnp).
  { subst base. destruct (Z.eqb_spec (mb_tag hp) PU_FREE) as [Ht|Ht].
    - exists hp. split_and!; [done..|]. assert (Hf : is_free (z_mem z) (mb_prev hr)) by by exists hp.
      eapply zone_inv_prev; [done| |done|done].
      apply elem_of_cons in Hpin as [Hpin|?]; [|done]. rewrite Hpin in Hf.
      by apply sentinel_not_free in WF.
    - exists hr. split_and!; [apply WF|done|]. by rewrite (is_free_tag _ _ _ Hhp). }
  eapply wp_zload; [exact Hhb|]. wp_simp.
  destruct (scan_start _ _ _ _ INV Hbin Hhb Hnp) as (X & Hs & Hlen & Hall).
  eapply wp_mono.
  { apply (wp_MallocLoop E _ (purgable z) _ _ z l _ _ [] X); [by auto|done|done|].
    destruct HE as [?|(g & Hg & Hfg)]; [by left|right]. exists g. split; [|done].
    apply Hall; [done|]. destruct Hfg as (h & ? & ? & _). by exists h. }
  cbn beta. intros b z1 (l' & INV1 & EV & Hb & (h1 & Hh1 & Ht1 & Hs1)).
  apply list_elem_of_split in Hb as (l1 & l2 & ->). wp_simp. eapply wp_zload; [exact Hh1|]. wp_simp.
  eapply wp_mono; [eapply wp_weaken; [eapply (wp_carve z1 l1 b l2 h1 sz residue)|done]|]; [done..| |].
  { unfold sizeof_memblock_t in *. lia. }
  cbn beta. intros _ z2 (rest & CV). destruct (cv_block _ _ _ _ _ _ _ CV) as (h2 & Hh2 & _).
  replace ((user =? NULL) && (PU_PURGELEVEL <=? tag)) with false.
  2: { destruct (Z.eqb_spec user NULL) as [->|]; [|done]. specialize (Hown eq_refl).
       symmetry. apply Z.leb_gt. lia. }
  wp_simp. eapply wp_zstore; [exact Hh2|]. wp_simp.
  eapply wp_zstore; [cbn; by rewrite lookup_alter_eq, Hh2|]. wp_simp.
  eapply (wp_mono _ _ (λ _ z', z' = mkZone (mainzone z2) (z_size z2) (z_rover z2)
    (alter (mb_set_tag tag) b (alter (mb_set_user user) b (z_mem z2)))
    (alloc_slot user (b + sizeof_memblock_t) (z_slots z2)))).
  { unfold alloc_slot. destruct (user =? NULL); cbn; wp_simp; done. }
  intros _ z3 ->. wp_simp. eapply wp_zload; [cbn; by rewrite !lookup_alter_eq, Hh2|]. wp_simp.
  eapply wp_zstore; [cbn; by rewrite !lookup_alter_eq, Hh2|]. wp_simp. cbn.
  exists (l1 ++ b :: rest), b. unfold with_mem, with_rover. cbn. rewrite !alter_alter_eq.
  eapply (allocated_malloced z z1 z2 l l1 l2 rest b size sz tag user h2); try done; [by exists h1|lia].
Qed.

(** ** [Z_FreeTags] *)

Definition tagged (lo hi : Z) (m : gmap Z memblock_t) (a : Z) : Prop :=
  ∃ h, m !! a = Some h ∧ lo ≤ mb_tag h ≤ hi.

Definition live_tagged (lo hi : Z) (m : gmap Z memblock_t) (a : Z) : Prop :=
  ¬ is_free m a ∧ tagged lo hi m a.

Lemma live_tagged_same lo hi m m' a :
  same_hdr m m' a → live_tagged lo hi m a → live_tagged lo hi m' a.
Proof.
  intros Hs [Hf (h & Hh & Ht)]. split; [by rewrite (is_free_iff _ _ _ Hs)|].
  destruct (same_hdr_lookup _ _ _ _ Hs Hh) as (h' & ? & [= ? ? ? ?]). exists h'. split; [done|lia].
Qed.

Lemma freed_live lo hi z l1 b l2 h z' l1' x l2' :
  zone_inv z (l1 ++ b :: l2) → z_mem z !! b = Some h → mb_tag h ≠ PU_FREE →
  freed z l1 b l2 h z' l1' x l2' → (∀ a, a ∈ l1 → ¬ live_tagged lo hi (z_mem z) a) →
  ∀ a, a ∈ l1' ++ [x] → ¬ live_tagged lo hi (z_mem z') a.
Proof.
  intros INV Hb Ht F Hl a Ha Hlive. pose proof (freed_evict _ _ _ _ _ _ _ _ _ INV Hb Ht F) as EV.
  destruct F as (_ & Hx & Hleft & _). apply elem_of_app in Ha as [Ha|Ha%list_elem_of_singleton].
  - destruct (ev_back _ _ _ _ _ EV a) as (_ & _ & Hs); [set_solver|apply Hlive|].
    apply (Hl a); [|by apply (live_tagged_same _ _ _ _ _ (same_hdr_sym _ _ _ Hs))].
    destruct Hleft as [(-> & _)|[-> _]]; set_solver.
  - subst a. by destruct Hlive.
Qed.

Lemma wp_FreeTagsLoop fuel P lo hi z l1 l2 block :
  zone_inv z (l1 ++ l2) →
  (∀ a, a ∈ l1 → ¬ live_tagged lo hi (z_mem z) a) →
  (∀ a, a ∈ l1 ++ l2 → live_tagged lo hi (z_mem z) a → P a) →
  (block = zfirst l2 (sentinel z) ∧ (length l2 < fuel)%nat) ∨
  (stale (z_mem z) block (zfirst l2 (sentinel z)) ∧ block ≠ sentinel z ∧ (S (length l2) < fuel)%nat) →
  wp never (FreeTagsLoop fuel lo hi block)
    (λ _ z', ∃ l', zone_inv z' l' ∧ evict P z (l1 ++ l2) z' l' ∧
       ∀ a, a ∈ l' → ¬ live_tagged lo hi (z_mem z') a) z.
Proof.
  revert z l1 l2 block. induction fuel as [|fuel IH]; intros z l1 l2 block INV Hdone HP Hblock; [lia|].
  cbn [FreeTagsLoop]. wp_simp.
  destruct Hblock as [[-> Hlen]|((h & Hh & Ht & Hn) & HbS & Hlen)].
  2: { apply Z.eqb_neq in HbS. rewrite HbS. wp_simp. eapply wp_zload; [exact Hh|]. rewrite Ht. wp_simp.
       rewrite Z.eqb_refl, Hn. wp_simp. apply IH; [done..|]. left. split; [done|lia]. }
  destruct l2 as [|b l2]; cbn [first].
  { rewrite Z.eqb_refl. wp_simp. exists (l1 ++ []). rewrite app_nil_r in *.
    split_and!; [done|apply evict_refl|done]. }
  pose proof (zone_inv_split _ _ _ _ INV) as (_ & _ & HbS & _).
  apply Z.eqb_neq in HbS. rewrite HbS. cbn in Hlen.
  destruct (ring_mid _ _ _ _ _ _ _ (zw_ring _ _ (proj1 INV))) as (h & Hh & _ & Hn).
  wp_simp. eapply wp_zload; [exact Hh|]. wp_simp.
  assert (Hskip : ¬ live_tagged lo hi (z_mem z) b →
    wp never (FreeTagsLoop fuel lo hi (mb_next h))
      (λ _ z', ∃ l', zone_inv z' l' ∧ evict P z (l1 ++ b :: l2) z' l' ∧
         ∀ a, a ∈ l' → ¬ live_tagged lo hi (z_mem z') a) z).
  { intros Hb. replace (l1 ++ b :: l2) with ((l1 ++ [b]) ++ l2) in * by by rewrite <- app_assoc.
    rewrite Hn. apply IH; [done| |done|left; split; [done|lia]].
    intros a [?|Ea%list_elem_of_singleton]%elem_of_app; [auto|by subst a]. }
  destruct (Z.eqb_spec (mb_tag h) PU_FREE) as [Ht|Ht].
  { wp_simp. apply Hskip. intros [Hf _]. by rewrite (is_free_tag _ _ _ Hh) in Hf. }
  apply wp_when; intros Hg.
  2: { apply Hskip. intros [_ (h' & Hh' & Hr)]. simplify_eq. rewrite andb_false_iff, !Z.leb_gt in Hg. lia. }
  rewrite andb_true_iff, !Z.leb_le in Hg.
  eapply wp_mono; [by eapply wp_Free|]. cbn beta. intros _ z' (l1' & x & l2' & F).
  pose proof (freed_evict _ _ _ _ _ _ _ _ _ INV Hh Ht F) as EV.
  pose proof (freed_live _ _ _ _ _ _ _ _ _ _ _ INV Hh Ht F Hdone) as Hdone'.
  pose proof F as (INV' & _ & _ & Hr & Hm & _ & _ & Hst & _).
  assert (HS : sentinel z' = sentinel z) by (unfold sentinel; congruence).
  assert (EV' : evict P z (l1 ++ b :: l2) z' (l1' ++ x :: l2')).
  { eapply evict_mono; [|exact EV]. intros ? <-. apply HP; [set_solver|].
    split; [by rewrite (is_free_tag _ _ _ Hh)|by exists h]. }
  replace (l1' ++ x :: l2') with ((l1' ++ [x]) ++ l2') in * by by rewrite <- app_assoc.
  eapply wp_mono.
  { apply (IH z' (l1' ++ [x]) l2'); [done|done| |].
    - intros a Ha Hl. destruct (ev_back _ _ _ _ _ EV a Ha) as (? & ? & Hs); [apply Hl|].
      apply HP; [done|]. by apply (live_tagged_same _ _ _ _ _ (same_hdr_sym _ _ _ Hs)).
    - rewrite HS, Hn. destruct Hr as [[-> _]|(c & -> & Hc)]; [left; split; [done|lia]|right].
      split_and!; [by apply Hst| |cbn in Hlen; lia]. cbn.
      intros ->. exact (sentinel_not_free _ _ (proj1 INV) Hc). }
  cbn beta. intros _ z'' (l'' & ? & ? & ?). exists l''. split_and!; [done|by eapply evict_trans|done].
Qed.

Lemma zone_inv_length z l : zone_inv z l → (length l < base.size (z_mem z))%nat.
Proof.
  intros (WF & _). pose proof (NoDup_size _ _ (zw_nodup _ _ WF)
    (λ a, ring_lookup _ _ _ _ _ a (zw_ring _ _ WF))) as H. cbn in H. lia.
Qed.

Lemma wp_FreeTags z l lo hi :
  zone_inv z l →
  wp never (Z_FreeTags lo hi)
    (λ _ z', ∃ l', zone_inv z' l' ∧ evict (live_tagged lo hi (z_mem z)) z l z' l' ∧
       ∀ a, a ∈ l' → ¬ live_tagged lo hi (z_mem z') a) z.
Proof.
  intros INV. unfold Z_FreeTags. pose proof (zone_inv_length _ _ INV).
  destruct (ring_sentinel _ _ _ _ _ (zw_ring _ _ (proj1 INV))) as (h & Hh & _ & Hn).
  wp_simp. eapply wp_zload; [exact Hh|]. rewrite Hn.
  apply (wp_FreeTagsLoop _ (live_tagged lo hi (z_mem z)) lo hi z [] l); [done|set_solver|done|].
  left. split; [done|lia].
Qed.

(** ** The walks that only read *)

(** Neighbours in a well-formed zone. *)
Lemma zone_inv_step z l1 b c l2 :
  zone_inv z (l1 ++ b :: c :: l2) →
  ∃ hb hc, z_mem z !! b = Some hb ∧ z_mem z !! c = Some hc ∧
    mb_next hb = c ∧ mb_prev hc = b ∧ b + mb_size hb = c ∧ c ≠ sentinel z ∧
    ¬ (mb_tag hb = PU_FREE ∧ mb_tag hc = PU_FREE).
Proof.
  intros INV. pose proof INV as (WF & _).
  destruct (ring_mid _ _ _ _ _ _ _ (zw_ring _ _ WF)) as (hb & Hb & _ & Hn). cbn in Hn.
  pose proof INV as INV2.
  replace (l1 ++ b :: c :: l2) with ((l1 ++ [b]) ++ c :: l2) in INV2 by by rewrite <- app_assoc.
  destruct (ring_mid _ _ _ _ _ _ _ (zw_ring _ _ (proj1 INV2))) as (hc & Hc & Hp & _).
  rewrite final_snoc in Hp. exists hb, hc.
  pose proof (zw_tiles _ _ WF) as (q & _ & (Hq & h & Hh & _ & (Hq2 & _)))%tiles_app.
  rewrite Hb in Hh. injection Hh as <-.
  split_and!; [done..|lia|by apply zone_inv_split in INV2 as (_ & _ & ? & _)|].
  intros [Hfb Hfc]. apply (zone_inv_next _ _ b hb INV); [set_solver|done|by exists hb|].
  rewrite Hn. by exists hc.
Qed.

Lemma zone_inv_last z l1 b :
  zone_inv z (l1 ++ [b]) → ∃ hb, z_mem z !! b = Some hb ∧ mb_next hb = sentinel z.
Proof.
  intros (WF & _). destruct (ring_mid _ _ _ _ _ _ _ (zw_ring _ _ WF)) as (hb & Hb & _ & Hn). eauto.
Qed.

Lemma zone_inv_first z l :
  zone_inv z l → ∃ h b l', z_mem z !! sentinel z = Some h ∧ l = b :: l' ∧ mb_next h = b.
Proof.
  intros (WF & _ & Hl). destruct (ring_sentinel _ _ _ _ _ (zw_ring _ _ WF)) as (h & Hh & _ & Hn).
  destruct l as [|b l]; [done|]. cbn in Hn. eauto 10.
Qed.

Lemma CheckLoop_run fuel z l1 b l2 :
  zone_inv z (l1 ++ b :: l2) → (length l2 < fuel)%nat → CheckLoop fuel b z = Ok (tt, z).
Proof.
  intros INV Hf.
  enough (wp never (CheckLoop fuel b) (λ _ z', z' = z) z) as H.
  { apply wp_total in H as ([] & ? & -> & ->). done. }
  revert l1 b l2 INV Hf. induction fuel as [|fuel IH]; [lia|]. intros l1 b l2 INV Hf.
  cbn [CheckLoop]. wp_simp. destruct l2 as [|c l2].
  - destruct (zone_inv_last _ _ _ INV) as (hb & Hb & Hn).
    eapply wp_zload; [exact Hb|]. rewrite Hn, Z.eqb_refl. by wp_simp.
  - destruct (zone_inv_step _ _ _ _ _ INV) as (hb & hc & Hb & Hc & Hn & Hp & Hs & HcS & Hnf).
    eapply wp_zload; [exact Hb|]. rewrite Hn. apply Z.eqb_neq in HcS. rewrite HcS, Hs, Z.eqb_refl.
    cbn [negb]. wp_simp. eapply wp_zload; [exact Hc|]. rewrite Hp, Z.eqb_refl. cbn [negb]. wp_simp.
    replace (_ && _) with false.
    2: { symmetry. rewrite andb_false_iff, !Z.eqb_neq.
         destruct (decide (mb_tag hb = PU_FREE)); [right; naive_solver|by left]. }
    wp_simp. apply (IH (l1 ++ [b]) c l2); [by rewrite <- app_assoc|cbn in Hf; lia].
Qed.

(** The lines [Z_DumpHeap] prints for a block. *)
Definition dump_block (lo hi : Z) (m : gmap Z memblock_t) (a : Z) : list dump_line :=
  match m !! a with
  | Some h => if (lo <=? mb_tag h) && (mb_tag h <=? hi)
              then [DumpBlock a (mb_size h) (mb_user h) (mb_tag h)] else []
  | None => []
  end.

Lemma DumpLoop_run fuel lo hi z l1 b l2 :
  zone_inv z (l1 ++ b :: l2) → (length l2 < fuel)%nat →
  wp never (DumpLoop fuel lo hi b)
    (λ r z', r = (b :: l2) ≫= dump_block lo hi (z_mem z) ∧ z' = z) z.
Proof.
  revert l1 b l2. induction fuel as [|fuel IH]; [lia|]. intros l1 b l2 INV Hf.
  cbn [DumpLoop]. wp_simp. destruct l2 as [|c l2].
  - destruct (zone_inv_last _ _ _ INV) as (hb & Hb & Hn).
    eapply wp_zload; [exact Hb|]. rewrite Hn, Z.eqb_refl. wp_simp. cbn. unfold dump_block.
    by rewrite Hb, app_nil_r.
  - destruct (zone_inv_step _ _ _ _ _ INV) as (hb & hc & Hb & Hc & Hn & Hp & Hs & HcS & Hnf).
    eapply wp_zload; [exact Hb|]. rewrite Hn. apply Z.eqb_neq in HcS. rewrite HcS, Hs.
    wp_simp. eapply wp_zload; [exact Hc|]. rewrite Hp, !Z.eqb_refl. cbn [negb].
    replace ((mb_tag hb =? PU_FREE) && (mb_tag hc =? PU_FREE)) with false.
    2: { symmetry. rewrite andb_false_iff, !Z.eqb_neq.
         destruct (decide (mb_tag hb = PU_FREE)); [right; naive_solver|by left]. }
    wp_simp. eapply wp_mono.
    { apply (IH (l1 ++ [b]) c l2); [by rewrite <- app_assoc|cbn in Hf; lia]. }
    cbn beta. intros r z' [-> ->]. wp_simp. split; [|done].
    rewrite (bind_cons _ b). f_equal. unfold dump_block. by rewrite Hb.
Qed.

Definition reclaimable (m : gmap Z memblock_t) (a : Z) : Z :=
  match m !! a with
  | Some h => if (mb_tag h =? PU_FREE) || (PU_PURGELEVEL <=? mb_tag h) then mb_size h else 0
  | None => 0
  end.

Definition sum_list (f : Z → Z) (l : list Z) : Z := foldr (λ a, Z.add (f a)) 0 l.

Lemma reclaimable_bound m a l e :
  tiles m a l e → 0 ≤ sum_list (reclaimable m) l ≤ e - a.
Proof.
  revert a. induction l as [|b l IH]; intros a; cbn; [lia|].
  intros (-> & h & Hh & ? & Ht%IH). unfold reclaimable at 1 3. rewrite Hh.
  unfold sizeof_memblock_t in *. fold (sum_list (reclaimable m) l). case_match; lia.
Qed.

Lemma FreeMemoryLoop_run fuel z l1 l2 free :
  zone_inv z (l1 ++ l2) → (length l2 < fuel)%nat →
  0 ≤ free → free + sum_list (reclaimable (z_mem z)) l2 < 2 ^ 31 →
  wp never (FreeMemoryLoop fuel (zfirst l2 (sentinel z)) free)
    (λ r z', r = free + sum_list (reclaimable (z_mem z)) l2 ∧ z' = z) z.
Proof.
  revert l1 l2 free. induction fuel as [|fuel IH]; [lia|]. intros l1 l2 free INV Hf H0 Hb.
  cbn [FreeMemoryLoop]. wp_simp. destruct l2 as [|b l2]; cbn [first].
  { rewrite Z.eqb_refl. wp_simp. cbn. split; [lia|done]. }
  pose proof (zone_inv_split _ _ _ _ INV) as (_ & _ & HbS & _).
  destruct (ring_mid _ _ _ _ _ _ _ (zw_ring _ _ (proj1 INV))) as (h & Hh & _ & Hn).
  pose proof (zw_tiles _ _ (proj1 INV)) as (q & _ & (_ & h' & Hh' & Hs & Ht%reclaimable_bound))%tiles_app.
  rewrite Hh in Hh'. injection Hh' as <-. unfold sizeof_memblock_t in Hs.
  apply Z.eqb_neq in HbS. rewrite HbS. wp_simp. eapply wp_zload; [exact Hh|]. rewrite Hn.
  cbn [sum_list foldr] in *. fold (sum_list (reclaimable (z_mem z)) l2) in *.
  assert (Hr : reclaimable (z_mem z) b =
    if (mb_tag h =? PU_FREE) || (PU_PURGELEVEL <=? mb_tag h) then mb_size h else 0)
    by (unfold reclaimable; by rewrite Hh).
  replace (l1 ++ b :: l2) with ((l1 ++ [b]) ++ l2) in INV by by rewrite <- app_assoc.
  rewrite Hr in *. destruct (_ || _).
  - rewrite wrap_s_small by (unfold in_s; lia). eapply wp_mono; [apply (IH (l1 ++ [b])); [done|cbn in Hf; lia|lia..]|].
    cbn beta. intros r z' [-> ->]. split; [lia|done].
  - eapply wp_mono; [apply (IH (l1 ++ [b])); [done|cbn in Hf; lia|lia..]|].
    cbn beta. intros r z' [-> ->]. split; [lia|done].
Qed.

(** ** [Z_Init], [Z_ChangeTag2] and [Z_ChangeUser] *)

Lemma single_block_inv base size m slots hs hb :
  sizeof_memzone_t + sizeof_memblock_t ≤ size < 2 ^ 31 →
  let S := base + offsetof_blocklist in
  let blk := base + sizeof_memzone_t in
  m !! S = Some hs → mb_tag hs = PU_STATIC → mb_next hs = blk → mb_prev hs = blk →
  m !! blk = Some hb → mb_tag hb = PU_FREE → mb_size hb = size - sizeof_memzone_t →
  mb_next hb = S → mb_prev hb = S →
  zone_inv (mkZone base size blk m slots) [blk].
Proof.
  intros Hs S blk HS HtS HnS HpS Hb Htb Hszb Hnb Hpb. split_and!; [|done|done].
  unfold sizeof_memzone_t, sizeof_memblock_t, offsetof_blocklist in *.
  split; cbn; change (sentinel _) with S.
  - exists hs. split_and!; [done..|]. exists hb. split_and!; done.
  - eauto.
  - apply NoDup_cons. split; [|apply NoDup_singleton]. intros ?%list_elem_of_singleton. lia.
  - split; [done|]. exists hb. split_and!; [done|unfold sizeof_memblock_t; lia|].
    unfold sizeof_memzone_t. lia.
  - right. left.
  - intros a h Ha%list_elem_of_singleton Hh. subst a. left. congruence.
  - lia.
Qed.

Lemma wp_Init base size residue z :
  sizeof_memzone_t + sizeof_memblock_t ≤ size < 2 ^ 31 →
  wp never (Z_Init base size residue)
    (λ _ z', zone_inv z' [base + sizeof_memzone_t] ∧ mainzone z' = base ∧ z_size z' = size ∧
       z_slots z' = z_slots z ∧
       fits (z_mem z') (size - sizeof_memzone_t) (base + sizeof_memzone_t)) z.
Proof.
  intros Hs. unfold Z_Init, Z_ClearZone. wp_simp. unfold with_mem, with_rover. cbn [mainzone z_size z_mem z_slots].
  change (sentinel _) with (base + offsetof_blocklist).
  assert (Hne : base + sizeof_memzone_t ≠ base + offsetof_blocklist)
    by (unfold sizeof_memzone_t, offsetof_blocklist; lia).
  rewrite (wrap_s_small 32) by (unfold in_s, sizeof_memzone_t, sizeof_memblock_t in *; lia).
  split_and!; [|done..|].
  - eapply single_block_inv.
    2: by rewrite lookup_insert_ne, lookup_insert_eq.
    5: by rewrite lookup_insert_eq.
    all: done.
  - eexists. rewrite lookup_insert_eq. split_and!; [done..|cbn; lia].
Qed.

Lemma no_free_pair_sub m m' l :
  (∀ a, a ∈ l → is_free m' a → is_free m a) → no_free_pair m l → no_free_pair m' l.
Proof.
  induction l as [|a [|b l] IH]; [done..|]. intros Hs [Hab Hl]. split.
  - intros [Ha Hb]. apply Hab. split; apply Hs; set_solver.
  - apply IH; [|done]. intros. apply Hs; [by right|done].
Qed.

(** Updating an allocated block that stays allocated. *)
Lemma zone_inv_relabel z l b h f slots :
  zone_inv z l → b ∈ l → z_mem z !! b = Some h →
  (∀ h, mb_size (f h) = mb_size h ∧ mb_next (f h) = mb_next h ∧ mb_prev (f h) = mb_prev h) →
  mb_tag (f h) ≠ PU_FREE → live_ok (f h) →
  zone_inv (mkZone (mainzone z) (z_size z) (z_rover z) (alter f b (z_mem z)) slots) l.
Proof.
  intros (WF & Hn & Hl) Hb Hh Hf Ht Hok. split_and!; [|cbn|done].
  - apply zone_wf_update; [done..|]. intros h' Hh'. by simplify_eq.
  - eapply no_free_pair_sub; [|exact Hn]. intros a Ha (h' & Hh' & Ht'). rewrite lookup_alter in Hh'.
    case_decide as Heq; [|by exists h']. subst a. rewrite Hh in Hh'. cbn in Hh'. congruence.
Qed.

Lemma wp_ChangeTag z l b h tag :
  zone_inv z l → b ∈ l → z_mem z !! b = Some h → mb_tag h ≠ PU_FREE → tag ≠ PU_FREE →
  (PU_PURGELEVEL ≤ tag → mb_user h ≠ NULL) →
  wp never (Z_ChangeTag2 (b + sizeof_memblock_t) tag)
    (λ _ z', zone_inv z' l ∧
       z' = mkZone (mainzone z) (z_size z) (z_rover z) (alter (mb_set_tag tag) b (z_mem z)) (z_slots z)) z.
Proof.
  intros INV Hb Hh Ht Htag Hu. unfold Z_ChangeTag2.
  replace (b + sizeof_memblock_t - sizeof_memblock_t) with b by lia.
  destruct (zw_live _ _ (proj1 INV) b h Hb Hh) as [?|[Hid _]]; [done|].
  wp_simp. eapply wp_zload; [exact Hh|]. rewrite Hid, Z.eqb_refl. cbn [negb]. wp_simp.
  replace (_ && _) with false.
  2: { symmetry. rewrite andb_false_iff, Z.leb_gt, Z.eqb_neq.
       destruct (Z.le_gt_cases PU_PURGELEVEL tag); [right; auto|left; lia]. }
  wp_simp. eapply wp_zstore; [exact Hh|]. split; [|done].
  eapply zone_inv_relabel; [done..|]. right. done.
Qed.

Lemma wp_ChangeUser z l b h user :
  zone_inv z l → b ∈ l → z_mem z !! b = Some h → mb_tag h ≠ PU_FREE →
  (PU_PURGELEVEL ≤ mb_tag h → user ≠ NULL) →
  wp never (Z_ChangeUser (b + sizeof_memblock_t) user)
    (λ _ z', zone_inv z' l ∧
       z' = mkZone (mainzone z) (z_size z) (z_rover z) (alter (mb_set_user user) b (z_mem z))
              (<[user := b + sizeof_memblock_t]> (z_slots z))) z.
Proof.
  intros INV Hb Hh Ht Hu. unfold Z_ChangeUser.
  replace (b + sizeof_memblock_t - sizeof_memblock_t) with b by lia.
  destruct (zw_live _ _ (proj1 INV) b h Hb Hh) as [?|[Hid _]]; [done|].
  wp_simp. eapply wp_zload; [exact Hh|]. rewrite Hid, Z.eqb_refl. cbn [negb]. wp_simp.
  eapply wp_zstore; [exact Hh|]. wp_simp. split; [|done].
  apply (zone_inv_relabel z l b h (mb_set_user user) (<[user := b + sizeof_memblock_t]> (z_slots z)));
    [done..|]. right. done.
Qed.
