(* ===== verification/ZoneClient.v ===== *)
(** * What the zone allocator promises its clients

    The theorems about z_zone.c ([Zone]): the contract of each operation, and the safety of
    any sequence of operations a client performs on an initialised zone. *)
From S2P Require Import Prelude Dll Zone.

(** ** A client of the zone

    A client holds pointers to blocks with tags below [PU_PURGELEVEL]; [C] records for each
    the size it asked for and the tag. *)
Abbreviation holdings := (gmap Z (Z * Z)).

Definition hold (p size tag : Z) (C : holdings) : holdings :=
  if tag <? PU_PURGELEVEL then <[p := (size, tag)]> C else delete p C.

Inductive zone_step : zone * holdings → zone * holdings → Prop :=
| zs_malloc z C residue size tag user r z' :
    0 ≤ size ≤ 2 ^ 31 - 48 → tag ≠ PU_FREE → (user = NULL → tag < PU_PURGELEVEL) →
    Z_Malloc residue size tag user z = Ok (r, z') →
    zone_step (z, C) (z', hold r size tag C)
| zs_free z C p st z' :
    C !! p = Some st → Z_Free p z = Ok (tt, z') → zone_step (z, C) (z', delete p C)
| zs_freetags z C lo hi z' :
    Z_FreeTags lo hi z = Ok (tt, z') →
    zone_step (z, C) (z', filter (λ e, ¬ (lo ≤ e.2.2 ≤ hi)) C)
| zs_changetag z C p size tag tag' z' :
    C !! p = Some (size, tag) → tag' ≠ PU_FREE → Z_ChangeTag2 p tag' z = Ok (tt, z') →
    zone_step (z, C) (z', hold p size tag' C)
| zs_changeuser z C p st user z' :
    C !! p = Some st → Z_ChangeUser p user z = Ok (tt, z') → zone_step (z, C) (z', C).

(** The blocks behind the client's pointers. *)
Definition held (z : zone) (l : list Z) (C : holdings) : Prop :=
  ∀ p size tag, C !! p = Some (size, tag) →
    ∃ h, p - sizeof_memblock_t ∈ l ∧ z_mem z !! (p - sizeof_memblock_t) = Some h ∧
      mb_tag h = tag ∧ tag ≠ PU_FREE ∧ tag < PU_PURGELEVEL ∧ size + sizeof_memblock_t ≤ mb_size h.

Definition client_inv (base size : Z) (s : zone * holdings) : Prop :=
  mainzone s.1 = base ∧ z_size s.1 = size ∧ ∃ l, zone_inv s.1 l ∧ held s.1 l s.2.

(** A pointer stays good when its block keeps its header. *)
Lemma held_sub z l z' l' C C' :
  held z l C →
  (∀ p st, C' !! p = Some st → C !! p = Some st) →
  (∀ p size tag h, C' !! p = Some (size, tag) → z_mem z !! (p - sizeof_memblock_t) = Some h →
     p - sizeof_memblock_t ∈ l → mb_tag h = tag → tag ≠ PU_FREE → tag < PU_PURGELEVEL →
     p - sizeof_memblock_t ∈ l' ∧ same_hdr (z_mem z) (z_mem z') (p - sizeof_memblock_t)) →
  held z' l' C'.
Proof.
  intros HH Hsub Hk p size tag Hp.
  destruct (HH p size tag (Hsub _ _ Hp)) as (h & Hin & Hh & Ht & Hnf & Hlt & Hs).
  destruct (Hk p size tag h) as [? Hsh]; [done..|].
  destruct (same_hdr_lookup _ _ _ _ Hsh Hh) as (h' & Hh' & [= ? ? ? ?]).
  exists h'. split_and!; [done..|congruence|done|done|congruence].
Qed.

Lemma not_free_lookup m a h : m !! a = Some h → mb_tag h ≠ PU_FREE → ¬ is_free m a.
Proof. intros Hh Ht. by rewrite (is_free_tag _ _ _ Hh). Qed.

Lemma not_purgable_lookup z a h :
  z_mem z !! a = Some h → mb_tag h < PU_PURGELEVEL → ¬ purgable z a.
Proof. intros Hh Ht (h' & ? & ?). simplify_eq. lia. Qed.

Lemma hold_lookup p size tag C q st :
  hold p size tag C !! q = Some st →
  (q = p ∧ st = (size, tag) ∧ tag < PU_PURGELEVEL) ∨ (q ≠ p ∧ C !! q = Some st).
Proof.
  unfold hold. destruct (Z.ltb_spec tag PU_PURGELEVEL).
  - intros [[<- <-]|[? ?]]%lookup_insert_Some; auto.
  - intros [? ?]%lookup_delete_Some. auto.
Qed.

Lemma step_malloc z l C residue size tag user r z' :
  zone_inv z l → held z l C →
  0 ≤ size ≤ 2 ^ 31 - 48 → tag ≠ PU_FREE → (user = NULL → tag < PU_PURGELEVEL) →
  Z_Malloc residue size tag user z = Ok (r, z') → client_inv (mainzone z) (z_size z) (z', hold r size tag C).
Proof.
  intros INV HH Hs Ht Hu Hrun.
  pose proof (wp_ok _ _ _ _ _ _ (wp_Malloc alloc_failed z l residue size tag user INV Hs Ht Hu
    (or_introl (λ e H, H))) Hrun) as (l' & b & [MI [MZ1 MZ2] -> (h & Hb & Hh & Hsz & Hth & _) MK _ _ _]).
  split_and!; [done..|]. exists l'. split; [done|]. cbn. intros p sz tg Hp.
  apply hold_lookup in Hp as [(-> & [= -> ->] & Hlt)|[Hne Hp]].
  - replace (b + sizeof_memblock_t - sizeof_memblock_t) with b by lia. eauto 10.
  - destruct (HH p sz tg Hp) as (h0 & Hin & Hh0 & Ht0 & Hnf & Hlt & Hs0).
    destruct (MK (p - sizeof_memblock_t)) as (_ & ? & Hsh);
      [done|eapply not_free_lookup; [done|congruence]|eapply not_purgable_lookup; [done|congruence]|].
    destruct (same_hdr_lookup _ _ _ _ Hsh Hh0) as (h' & Hh' & [= ? ? ? ?]).
    exists h'. split_and!; [done..|congruence|done|done|congruence].
Qed.

Lemma step_free z l C p st z' :
  zone_inv z l → held z l C → C !! p = Some st → Z_Free p z = Ok (tt, z') →
  client_inv (mainzone z) (z_size z) (z', delete p C).
Proof.
  intros INV HH Hp Hrun. destruct st as [sz tg].
  destruct (HH p sz tg Hp) as (h & Hin & Hh & Ht & Hnf & _). rewrite <- Ht in Hnf.
  apply list_elem_of_split in Hin as (l1 & l2 & ->).
  replace p with (p - sizeof_memblock_t + sizeof_memblock_t) in Hrun by lia.
  pose proof (wp_ok _ _ _ _ _ _ (wp_Free z l1 _ l2 h INV Hh Hnf) Hrun) as (l1' & x & l2' & F).
  pose proof (freed_evict _ _ _ _ _ _ _ _ _ INV Hh Hnf F) as EV.
  split_and!; [apply EV..|]. eexists. split; [apply F|]. cbn. eapply held_sub; [done| |].
  - by intros q st [_ ?]%lookup_delete_Some.
  - intros q size tag hq [Hne Hq]%lookup_delete_Some Hhq Hql Htq Hnfq _.
    apply (ev_keep _ _ _ _ _ EV); [done|eapply not_free_lookup; [done|congruence]|lia].
Qed.

Lemma step_freetags z l C lo hi z' :
  zone_inv z l → held z l C → Z_FreeTags lo hi z = Ok (tt, z') →
  client_inv (mainzone z) (z_size z) (z', filter (λ e, ¬ (lo ≤ e.2.2 ≤ hi)) C).
Proof.
  intros INV HH Hrun.
  pose proof (wp_ok _ _ _ _ _ _ (wp_FreeTags z l lo hi INV) Hrun) as (l' & INV' & EV & _).
  split_and!; [apply EV..|]. exists l'. split; [done|]. cbn. eapply held_sub; [done| |].
  - by intros q st [? _]%map_lookup_filter_Some.
  - intros q size tag hq [_ Hq]%map_lookup_filter_Some Hhq Hql Htq Hnfq _. cbn in Hq.
    apply (ev_keep _ _ _ _ _ EV); [done|eapply not_free_lookup; [done|congruence]|].
    intros [_ (h' & ? & ?)]. by simplify_eq.
Qed.

Lemma alter_held z l C C' b f rover slots :
  held z l C →
  (∀ q size tag, C' !! q = Some (size, tag) →
     (q - sizeof_memblock_t = b ∧ ∃ h, b ∈ l ∧ z_mem z !! b = Some h ∧ mb_tag (f h) = tag ∧
        tag ≠ PU_FREE ∧ tag < PU_PURGELEVEL ∧ size + sizeof_memblock_t ≤ mb_size (f h)) ∨
     (q - sizeof_memblock_t ≠ b ∧ C !! q = Some (size, tag))) →
  held (mkZone (mainzone z) (z_size z) rover (alter f b (z_mem z)) slots) l C'.
Proof.
  intros HH HC q size tag Hq. cbn.
  destruct (HC q size tag Hq) as [[-> (h & ? & Hh & ?)]|[Hne Hq']].
  - exists (f h). rewrite lookup_alter_eq, Hh. naive_solver.
  - destruct (HH q size tag Hq') as (h & ?). exists h. by rewrite lookup_alter_ne.
Qed.

Lemma step_changetag z l C p size tag tag' z' :
  zone_inv z l → held z l C → C !! p = Some (size, tag) → tag' ≠ PU_FREE →
  Z_ChangeTag2 p tag' z = Ok (tt, z') → client_inv (mainzone z) (z_size z) (z', hold p size tag' C).
Proof.
  intros INV HH Hp Ht' Hrun.
  destruct (HH p size tag Hp) as (h & Hin & Hh & Ht & Hnf & Hlt & Hs). rewrite <- Ht in Hnf.
  replace p with (p - sizeof_memblock_t + sizeof_memblock_t) in Hrun by lia.
  assert (Hu : PU_PURGELEVEL ≤ tag' → mb_user h ≠ NULL).
  { intros Hpu Hn. unfold Z_ChangeTag2 in Hrun.
    replace (p - sizeof_memblock_t + sizeof_memblock_t - sizeof_memblock_t)
      with (p - sizeof_memblock_t) in Hrun by lia.
    destruct (zw_live _ _ (proj1 INV) _ h Hin Hh) as [?|[Hid _]]; [done|].
    unfold load, store, mbind, M_bind, getS, mret, M_ret, stopM in Hrun. rewrite Hh, Hid in Hrun.
    rewrite Z.eqb_refl, Hn in Hrun. apply Z.leb_le in Hpu. by rewrite Hpu in Hrun. }
  pose proof (wp_ok _ _ _ _ _ _ (wp_ChangeTag z l _ h tag' INV Hin Hh Hnf Ht' Hu) Hrun) as [INV' ->].
  split_and!; [done..|]. exists l. split; [done|]. cbn. eapply alter_held; [done|].
  intros q sz tg [(-> & [= -> ->] & ?)|[? Hq]]%hold_lookup.
  - left. split; [done|]. exists h. cbn. split_and!; done.
  - right. split; [lia|done].
Qed.

Lemma step_changeuser z l C p st user z' :
  zone_inv z l → held z l C → C !! p = Some st → Z_ChangeUser p user z = Ok (tt, z') →
  client_inv (mainzone z) (z_size z) (z', C).
Proof.
  intros INV HH Hp Hrun. destruct st as [sz tg].
  destruct (HH p sz tg Hp) as (h & Hin & Hh & Ht & Hnf & Hlt & Hs). rewrite <- Ht in Hnf.
  replace p with (p - sizeof_memblock_t + sizeof_memblock_t) in Hrun by lia.
  pose proof (wp_ok _ _ _ _ _ _ (wp_ChangeUser z l _ h user INV Hin Hh Hnf ltac:(lia)) Hrun) as [INV' ->].
  split_and!; [done..|]. exists l. split; [done|]. cbn. eapply alter_held; [done|]. intros q size tag Hq.
  destruct (decide (q = p)) as [->|Hne]; [left|right; split; [lia|done]]. simplify_eq.
  split; [done|]. exists h. cbn. split_and!; done.
Qed.

Lemma zone_step_inv base size s s' : zone_step s s' → client_inv base size s → client_inv base size s'.
Proof.
  intros [] (<- & <- & l & INV & HH); cbn in *;
    eauto using step_malloc, step_free, step_freetags, step_changetag, step_changeuser.
Qed.

Lemma zone_steps_inv base size s s' :
  rtc zone_step s s' → client_inv base size s → client_inv base size s'.
Proof. induction 1; eauto using zone_step_inv. Qed.

Lemma zone_init_inv base size residue z z0 :
  sizeof_memzone_t + sizeof_memblock_t ≤ size < 2 ^ 31 →
  Z_Init base size residue z = Ok (tt, z0) → client_inv base size (z0, ∅).
Proof.
  intros Hs Hrun.
  pose proof (wp_ok _ _ _ _ _ _ (wp_Init base size residue z Hs) Hrun) as (INV & ? & ? & _).
  split_and!; [done..|]. eexists. split; [done|]. intros p sz tg Hp. cbn [snd] in Hp. by rewrite lookup_empty in Hp.
Qed.

(** Two blocks of a list that tiles do not overlap. *)
Lemma tiles_disjoint m a l e b c hb hc :
  tiles m a l e → b ∈ l → c ∈ l → b ≠ c → m !! b = Some hb → m !! c = Some hc →
  b + mb_size hb ≤ c ∨ c + mb_size hc ≤ b.
Proof.
  intros Ht (l1 & l2 & ->)%list_elem_of_split Hc Hne Hb Hhc.
  apply tiles_app in Ht as (q & H1 & (-> & h & Hh & _ & H2)). rewrite Hb in Hh. injection Hh as <-.
  apply elem_of_app in Hc as [Hc|[->|Hc]%elem_of_cons]; [|done|].
  - destruct (tiles_in _ _ _ _ _ H1 Hc) as (h & Hh & _ & _ & ?). simplify_eq. by right.
  - destruct (tiles_in _ _ _ _ _ H2 Hc) as (h & Hh & _ & ? & _). by left.
Qed.

Lemma CheckHeap_run z l : zone_inv z l → Z_CheckHeap z = Ok (tt, z).
Proof.
  intros INV. destruct (zone_inv_first _ _ INV) as (h & b & l' & Hh & -> & Hn).
  pose proof (CheckLoop_run (S (base.size (z_mem z))) z [] b l' INV) as Hrun.
  enough (wp never Z_CheckHeap (λ _ z', z' = z) z) as HW.
  { by apply wp_total in HW as ([] & ? & -> & ->). }
  unfold Z_CheckHeap. wp_simp. eapply wp_zload; [exact Hh|]. unfold wp. rewrite Hn, Hrun; [done|].
  pose proof (zone_inv_length _ _ INV). cbn in *. lia.
Qed.

(** C2. Any client of an initialised zone is safe: after any sequence of [Z_Malloc],
    [Z_Free], [Z_FreeTags], [Z_ChangeTag2] and [Z_ChangeUser] calls on the pointers it holds,
    [Z_CheckHeap] accepts the heap; every pointer it holds has its whole payload inside the
    zone, behind the zone header; the payloads and headers of two such pointers never overlap;
    and [Z_Free] of a held pointer always succeeds. *)
Theorem zone_client_safety base size residue z z0 z' C :
  sizeof_memzone_t + sizeof_memblock_t ≤ size < 2 ^ 31 →
  Z_Init base size residue z = Ok (tt, z0) →
  rtc zone_step (z0, ∅) (z', C) →
  Z_CheckHeap z' = Ok (tt, z') ∧
  (∀ p s t, C !! p = Some (s, t) →
     base + sizeof_memzone_t + sizeof_memblock_t ≤ p ∧ p + s ≤ base + size) ∧
  (∀ p q s t s' t', p ≠ q → C !! p = Some (s, t) → C !! q = Some (s', t') →
     p + s ≤ q - sizeof_memblock_t ∨ q + s' ≤ p - sizeof_memblock_t) ∧
  (∀ p st, C !! p = Some st → ∃ z'', Z_Free p z' = Ok (tt, z'')).
Proof.
  intros Hs Hinit Hrun.
  destruct (zone_steps_inv _ _ _ _ Hrun (zone_init_inv _ _ _ _ _ Hs Hinit))
    as (Hm & Hz & l & INV & HH). cbn in *.
  pose proof (zw_tiles _ _ (proj1 INV)) as Ht. rewrite Hm, Hz in Ht.
  split_and!; [by eapply CheckHeap_run| | |].
  - intros p s t Hp. destruct (HH p s t Hp) as (h & Hin & Hh & _ & _ & _ & ?).
    destruct (tiles_in _ _ _ _ _ Ht Hin) as (h' & Hh' & ? & ? & ?). simplify_eq. lia.
  - intros p q s t s' t' Hne Hp Hq. destruct (HH p s t Hp) as (h & Hin & Hh & _ & _ & _ & ?).
    destruct (HH q s' t' Hq) as (h' & Hin' & Hh' & _ & _ & _ & ?).
    pose proof (tiles_disjoint _ _ _ _ _ _ _ _ Ht Hin Hin' ltac:(lia) Hh Hh'). lia.
  - intros p [s t] Hp. destruct (HH p s t Hp) as (h & Hin & Hh & Htg & Hnf & _).
    rewrite <- Htg in Hnf. apply list_elem_of_split in Hin as (l1 & l2 & ->).
    pose proof (wp_Free z' l1 _ l2 h INV Hh Hnf) as HF.
    replace (p - sizeof_memblock_t + sizeof_memblock_t) with p in HF by lia.
    apply wp_total in HF as ([] & z'' & HF & _). eauto.
Qed.

(** A zone to run on: 4096 bytes at address 1000, with two allocations. *)
Definition demo_residue : memblock_t := mkBlock 77 78 79 80 81 82.

Definition demo_blank : zone := mkZone 0 0 0 ∅ ∅.

Definition run {A} (m : ZM A) (z : zone) : zone :=
  match m z with Ok (_, z') => z' | Stop _ => z end.

Definition demo0 : zone := run (Z_Init 1000 4096 demo_residue) demo_blank.
Definition demo1 : zone := run (Z_Malloc 5 100 PU_STATIC NULL) demo0.
Definition demo2 : zone := run (Z_Malloc 6 33 PU_CACHE 9000) demo1.

Lemma demo0_init : Z_Init 1000 4096 demo_residue demo_blank = Ok (tt, demo0).
Proof. vm_compute. reflexivity. Qed.

Lemma demo0_inv : zone_inv demo0 [1056].
Proof.
  pose proof (wp_Init 1000 4096 demo_residue demo_blank) as H. unfold wp in H.
  rewrite demo0_init in H. apply H. unfold sizeof_memzone_t, sizeof_memblock_t. lia.
Qed.

Lemma demo_steps : rtc zone_step (demo0, ∅) (demo2, hold 1240 33 PU_CACHE (hold 1096 100 PU_STATIC ∅)).
Proof.
  eapply rtc_l.
  { apply (zs_malloc demo0 ∅ 5 100 PU_STATIC NULL 1096 demo1); [lia|done|done|].
    vm_compute. reflexivity. }
  eapply rtc_l; [|apply rtc_refl].
  apply (zs_malloc demo1 _ 6 33 PU_CACHE 9000 1240 demo2); [lia|done|done|].
  vm_compute. reflexivity.
Qed.

Lemma zone_client_safety_witness :
  Z_CheckHeap demo2 = Ok (tt, demo2) ∧ ∃ z'', Z_Free 1096 demo2 = Ok (tt, z'').
Proof.
  destruct (zone_client_safety 1000 4096 demo_residue demo_blank demo0 demo2 _
    ltac:(unfold sizeof_memzone_t, sizeof_memblock_t; lia) demo0_init demo_steps) as (H1 & _ & _ & H2).
  split; [exact H1|]. apply (H2 1096 (100, PU_STATIC)). reflexivity.
Defined.

(** C28. [Z_Malloc] on a well-formed zone, with a size that does not overflow and an owner for
    purgable tags, either returns a block with its contract ([malloced]: the invariant holds
    again, the payload fits, tag, owner and magic are set, the owner's variable points at the
    payload, blocks that are not purgable are untouched), or stops in [I_Error], and the latter
    only when no free block is large enough.  The scan always terminates within its fuel. *)
Theorem Z_Malloc_spec z l residue size tag user :
  zone_inv z l → 0 ≤ size ≤ 2 ^ 31 - 48 → tag ≠ PU_FREE → (user = NULL → tag < PU_PURGELEVEL) →
  (∃ r z' l' b, Z_Malloc residue size tag user z = Ok (r, z') ∧ malloced z l size tag user r z' l' b) ∨
  (Z_Malloc residue size tag user z = Stop (Panic "Z_Malloc: failed on allocation") ∧
   ∀ g, g ∈ l → ¬ fits (z_mem z) (block_size size) g).
Proof.
  intros INV Hs Ht Hu.
  pose proof (wp_Malloc alloc_failed z l residue size tag user INV Hs Ht Hu (or_introl (λ e H, H))) as H.
  unfold wp in H. destruct (Z_Malloc residue size tag user z) as [[r z']|e] eqn:Hrun.
  - left. destruct H as (l' & b & H). eauto 10.
  - right. rewrite H. split; [done|]. intros g Hg Hf.
    pose proof (wp_Malloc never z l residue size tag user INV Hs Ht Hu
      (or_intror (ex_intro _ g (conj Hg Hf)))) as H'. unfold wp in H'. by rewrite Hrun in H'.
Qed.

Lemma Z_Malloc_spec_witness :
  ∃ r z' l' b, Z_Malloc 5 100 PU_STATIC NULL demo0 = Ok (r, z') ∧
    malloced demo0 [1056] 100 PU_STATIC NULL r z' l' b.
Proof.
  destruct (Z_Malloc_spec demo0 [1056] 5 100 PU_STATIC NULL demo0_inv ltac:(lia)
    ltac:(discriminate) ltac:(intros; reflexivity)) as [H|[H _]]; [exact H|].
  vm_compute in H. discriminate H.
Defined.

(** [Z_Free] of an allocated block never fails: the block ends up in a free block that has
    absorbed the free neighbours on either side, the zone is well formed with no two adjacent
    free blocks, the owner's variable is cleared, every other block keeps its header ([freed],
    [evict]); and freeing the same pointer again is reported as an error. *)
Theorem Z_Free_spec z l1 b l2 h :
  zone_inv z (l1 ++ b :: l2) → z_mem z !! b = Some h → mb_tag h ≠ PU_FREE →
  ∃ z' l1' x l2', Z_Free (b + sizeof_memblock_t) z = Ok (tt, z') ∧
    freed z l1 b l2 h z' l1' x l2' ∧
    evict (eq b) z (l1 ++ b :: l2) z' (l1' ++ x :: l2') ∧
    Z_Free (b + sizeof_memblock_t) z' = Stop (Panic "Z_Free: freed a pointer without ZONEID").
Proof.
  intros INV Hb Ht. pose proof (wp_Free z l1 b l2 h INV Hb Ht) as H.
  apply wp_total in H as ([] & z' & Hrun & l1' & x & l2' & F). exists z', l1', x, l2'.
  split_and!; [done|done|by eapply freed_evict|].
  destruct F as (_ & _ & _ & _ & _ & _ & _ & _ & Hid & _).
  destruct (z_mem z' !! b) as [h'|] eqn:Hh'; [|done]. cbn in Hid. injection Hid as Hid.
  unfold Z_Free, load, mbind, M_bind, getS, mret, M_ret, stopM.
  replace (b + sizeof_memblock_t - sizeof_memblock_t) with b by lia. by rewrite Hh', Hid.
Qed.

Lemma demo1_inv : ∃ l', zone_inv demo1 (1056 :: l').
Proof.
  pose proof (wp_Malloc never demo0 [1056] 5 100 PU_STATIC NULL demo0_inv ltac:(lia)
    ltac:(discriminate) ltac:(intros; reflexivity)) as H.
  unfold wp in H. destruct (Z_Malloc 5 100 PU_STATIC NULL demo0) as [[r z']|e] eqn:Hrun.
  - destruct H as (l' & b & H); [right; exists 1056; split; [left|]|].
    { eexists. vm_compute. split_and!; [reflexivity..|]. discriminate. }
    assert (Hz : z' = demo1) by (unfold demo1, run; by rewrite Hrun). subst z'.
    pose proof (ma_inv _ _ _ _ _ _ _ _ _ H) as INV. destruct l' as [|a l']; [by destruct INV as (_ & _ & ?)|].
    exists l'. destruct (zw_tiles _ _ (proj1 INV)) as [-> _]. exact INV.
  - vm_compute in Hrun. discriminate.
Qed.

Lemma Z_Free_spec_witness :
  ∃ z', Z_Free 1096 demo1 = Ok (tt, z') ∧
    Z_Free 1096 z' = Stop (Panic "Z_Free: freed a pointer without ZONEID").
Proof.
  destruct demo1_inv as [l' INV].
  destruct (Z_Free_spec demo1 [] 1056 l' (mkBlock 144 0 PU_STATIC ZONEID 1200 1008) INV
    ltac:(vm_compute; reflexivity) ltac:(discriminate)) as (z' & _ & _ & _ & H & _ & _ & H').
  exists z'. split; [exact H|exact H'].
Defined.

(** [Z_FreeTags] frees exactly the allocated blocks whose tag is in the range, although it
    reads a block's link before freeing the block and may step onto a header that the merge has
    just absorbed: it terminates without error, the zone is well formed, no allocated block with
    a tag in the range is left, and every other allocated block keeps its header. *)
Theorem Z_FreeTags_spec z l lo hi :
  zone_inv z l →
  ∃ z' l', Z_FreeTags lo hi z = Ok (tt, z') ∧ zone_inv z' l' ∧
    evict (live_tagged lo hi (z_mem z)) z l z' l' ∧
    ∀ a, a ∈ l' → ¬ live_tagged lo hi (z_mem z') a.
Proof.
  intros INV. pose proof (wp_FreeTags z l lo hi INV) as H.
  apply wp_total in H as ([] & z' & Hrun & l' & H). eauto 10.
Qed.

Lemma Z_FreeTags_spec_witness :
  ∃ z' l', Z_FreeTags PU_STATIC PU_MUSIC demo1 = Ok (tt, z') ∧ zone_inv z' l'.
Proof.
  destruct demo1_inv as [l0 INV].
  destruct (Z_FreeTags_spec demo1 (1056 :: l0) PU_STATIC PU_MUSIC INV) as (z' & l' & H & H' & _).
  exists z', l'. split; [exact H|exact H'].
Defined.

(** On a well-formed zone [Z_FreeMemory] returns the bytes of all free and purgable blocks,
    without overflow, and [Z_DumpHeap] prints one line per block with a tag in the range and no
    error line. *)
Theorem zone_reports z l lo hi :
  zone_inv z l →
  Z_FreeMemory z = Ok (sum_list (reclaimable (z_mem z)) l, z) ∧
  Z_DumpHeap lo hi z = Ok (l ≫= dump_block lo hi (z_mem z), z).
Proof.
  intros INV. pose proof (zone_inv_length _ _ INV).
  destruct (zone_inv_first _ _ INV) as (h & b & l' & Hh & -> & Hn).
  pose proof (reclaimable_bound _ _ _ _ (zw_tiles _ _ (proj1 INV))) as Hsum.
  pose proof (zw_size _ _ (proj1 INV)) as Hz. unfold sizeof_memzone_t in Hsum. split.
  - pose proof (FreeMemoryLoop_run (S (base.size (z_mem z))) z [] (b :: l') 0 INV ltac:(lia)
      ltac:(lia) ltac:(lia)) as (r & z' & Hrun & -> & ->)%wp_total.
    unfold Z_FreeMemory, load, mbind, M_bind, getS, mret, M_ret. rewrite Hh, Hn. exact Hrun.
  - cbn in H. pose proof (DumpLoop_run (S (base.size (z_mem z))) lo hi z [] b l' INV ltac:(lia))
      as (r & z' & Hrun & -> & ->)%wp_total.
    unfold Z_DumpHeap, load, mbind, M_bind, getS, mret, M_ret. rewrite Hh, Hn. exact Hrun.
Qed.

Lemma zone_reports_witness : Z_FreeMemory demo0 = Ok (4040, demo0).
Proof. exact (proj1 (zone_reports demo0 [1056] 0 9 demo0_inv)). Defined.
