(* ===== verification/SaveFile.v ===== *)
(** * The savegame stream

    Models the integer and padding primitives of userspace/programs/doom/src/p_saveg.c over
    [save_stream] and [savegame_error].  A file open for writing is what was written and how
    much more the device takes; a file open for reading is its contents and the position.
    A read past the end leaves the byte variable of [saveg_read8] uninitialised: the values
    it may hold are those of [r_junk]. *)
From Stdlib Require Import Zbitwise.
From S2P Require Import Prelude.

Record wfile : Type := mkW {
  w_out : list Z;
  w_room : nat;
  w_err : bool;
}.

Record rfile : Type := mkR {
  r_in : list Z;
  r_pos : nat;
  r_err : bool;
  r_junk : nat → Z;
}.

Abbreviation WM := (M wfile).
Abbreviation RM := (M rfile).

(** [fread(&result, 1, 1, save_stream)] *)
Definition saveg_read8 : RM Z :=
  f ← getS;
  match r_in f !! r_pos f with
  | Some b => putS (mkR (r_in f) (S (r_pos f)) (r_err f) (r_junk f));; mret (u8 b)
  | None => putS (mkR (r_in f) (r_pos f) true (λ n, r_junk f (S n)));; mret (u8 (r_junk f 0%nat))
  end.

(** [fwrite(&value, 1, 1, save_stream)]; the argument is converted to [byte]. *)
Definition saveg_write8 (value : Z) : WM unit :=
  f ← getS;
  match w_room f with
  | S room => putS (mkW (w_out f ++ [u8 value]) room (w_err f))
  | O => putS (mkW (w_out f) O true)
  end.

Definition saveg_read16 : RM Z :=
  a ← saveg_read8;
  b ← saveg_read8;
  mret (i16 (Z.lor a (Z.shiftl b 8))).

Definition saveg_write16 (value : Z) : WM unit :=
  let value := i16 value in
  saveg_write8 (Z.land value 0xff);;
  saveg_write8 (Z.land (Z.shiftr value 8) 0xff).

Definition saveg_read32 : RM Z :=
  a ← saveg_read8;
  b ← saveg_read8;
  c ← saveg_read8;
  d ← saveg_read8;
  mret (i32 (Z.lor (Z.lor (Z.lor a (Z.shiftl b 8)) (Z.shiftl c 16)) (Z.shiftl d 24))).

Definition saveg_write32 (value : Z) : WM unit :=
  let value := i32 value in
  saveg_write8 (Z.land value 0xff);;
  saveg_write8 (Z.land (Z.shiftr value 8) 0xff);;
  saveg_write8 (Z.land (Z.shiftr value 16) 0xff);;
  saveg_write8 (Z.land (Z.shiftr value 24) 0xff).

Definition padding (pos : nat) : nat := Z.to_nat (Z.land (4 - Z.land (Z.of_nat pos) 3) 3).

Fixpoint read_n (n : nat) : RM unit :=
  match n with O => mret tt | S n => saveg_read8;; read_n n end.

Fixpoint write_n (n : nat) (value : Z) : WM unit :=
  match n with O => mret tt | S n => saveg_write8 value;; write_n n value end.

Definition saveg_read_pad : RM unit := f ← getS; read_n (padding (r_pos f)).

Definition saveg_write_pad : WM unit := f ← getS; write_n (padding (length (w_out f))) 0.

(** Pointers are stored in 32 bits, whatever their width. *)
Definition saveg_readp : RM Z := p ← saveg_read32; mret (u64 p).
Definition saveg_writep (p : Z) : WM unit := saveg_write32 p.

Abbreviation saveg_read_enum := saveg_read32.
Abbreviation saveg_write_enum := saveg_write32.

(** Arrays of [int]s. *)
Fixpoint read_ints (n : nat) : RM (list Z) :=
  match n with
  | O => mret []
  | S n => x ← saveg_read32; l ← read_ints n; mret (x :: l)
  end.

Fixpoint write_ints (l : list Z) : WM unit :=
  match l with [] => mret tt | x :: l => saveg_write32 x;; write_ints l end.

(** ** What a writer emits and a reader consumes *)

Definition wrote (f : wfile) (bs : list Z) : wfile :=
  mkW (w_out f ++ bs) (w_room f - length bs) (w_err f).

Definition skip (f : rfile) (n : nat) : rfile := mkR (r_in f) (r_pos f + n) (r_err f) (r_junk f).

(** At position [p], [w] writes the bytes [bs]. *)
Definition emits (w : WM unit) (p : nat) (bs : list Z) : Prop :=
  ∀ f, length (w_out f) = p → (length bs ≤ w_room f)%nat → w f = Ok (tt, wrote f bs).

(** At position [p], where the file holds [bs], [r] reads them and returns [a]. *)
Definition consumes {A} (r : RM A) (p : nat) (bs : list Z) (a : A) : Prop :=
  ∀ f post, r_pos f = p → drop p (r_in f) = bs ++ post → r f = Ok (a, skip f (length bs)).

(** [codec w r p n a]: at position [p], [w] writes [n] bytes that [r] reads back as [a]. *)
Definition codec {A} (w : WM unit) (r : RM A) (p n : nat) (a : A) : Prop :=
  ∃ bs, length bs = n ∧ emits w p bs ∧ consumes r p bs a.

Lemma wrote_app f bs1 bs2 : wrote (wrote f bs1) bs2 = wrote f (bs1 ++ bs2).
Proof. unfold wrote. cbn. rewrite <- app_assoc, length_app. f_equal. lia. Qed.

Lemma wrote_nil f : wrote f [] = f.
Proof. destruct f. unfold wrote. cbn. rewrite app_nil_r. f_equal. lia. Qed.

Lemma skip_add f n m : skip (skip f n) m = skip f (n + m).
Proof. unfold skip. cbn. f_equal. lia. Qed.

Lemma skip_0 f : skip f 0 = f.
Proof. destruct f. unfold skip. cbn. f_equal. lia. Qed.

Lemma emits_nil p : emits (mret tt) p [].
Proof. intros f _ _. by rewrite wrote_nil. Qed.

Lemma emits_seq w1 w2 p bs1 bs2 :
  emits w1 p bs1 → emits w2 (p + length bs1) bs2 → emits (w1;; w2) p (bs1 ++ bs2).
Proof.
  intros H1 H2 f Hp Hr. rewrite length_app in Hr. unfold mbind, M_bind.
  rewrite H1 by (done || lia). rewrite H2; [by rewrite wrote_app| |cbn; lia].
  cbn. rewrite length_app. lia.
Qed.

Lemma consumes_ret {A} p (a : A) : consumes (mret a) p [] a.
Proof. intros f post _ _. by rewrite skip_0. Qed.

Lemma consumes_bind {A B} (r : RM A) (k : A → RM B) p bs1 bs2 a b :
  consumes r p bs1 a → consumes (k a) (p + length bs1) bs2 b →
  consumes (r ≫= k) p (bs1 ++ bs2) b.
Proof.
  intros H1 H2 f post Hp Hd. rewrite <- app_assoc in Hd. unfold mbind, M_bind.
  rewrite (H1 f _ Hp Hd). rewrite (H2 _ post).
  - by rewrite skip_add, length_app.
  - cbn. lia.
  - cbn. by rewrite <- drop_drop, Hd, drop_app_length.
Qed.

(** ** Codecs compose *)

Lemma codec_nil {A} p (a : A) : codec (mret tt) (mret a) p 0 a.
Proof. exists []. split_and!; [done|apply emits_nil|apply consumes_ret]. Qed.

Lemma codec_seq {A B} w1 w2 (r : RM A) (k : A → RM B) p n1 n2 a b :
  codec w1 r p n1 a → codec w2 (k a) (p + n1) n2 b → codec (w1;; w2) (r ≫= k) p (n1 + n2) b.
Proof.
  intros (bs1 & <- & ? & ?) (bs2 & <- & ? & ?). exists (bs1 ++ bs2).
  split_and!; [apply length_app|by apply emits_seq|by eapply consumes_bind].
Qed.

Lemma codec_map {A B} w (r : RM A) (g : A → B) p n a b :
  codec w r p n a → g a = b → codec w (x ← r; mret (g x)) p n b.
Proof.
  intros (bs & ? & ? & ?) <-. exists bs. split_and!; [done..|].
  rewrite <- (app_nil_r bs). eapply consumes_bind; [done|apply consumes_ret].
Qed.

Lemma codec_eq {A} w (r : RM A) p n n' a b : codec w r p n a → n = n' → a = b → codec w r p n' b.
Proof. by intros ? <- <-. Qed.

(** ** The primitives are codecs *)

Lemma consumes_read8 p v : consumes saveg_read8 p [v] (u8 v).
Proof.
  intros f post Hp Hd. unfold saveg_read8, mbind, M_bind, getS.
  assert (Hl : r_in f !! r_pos f = Some v).
  { rewrite Hp, <- (Nat.add_0_r p), <- lookup_drop, Hd. done. }
  rewrite Hl. cbn. unfold mret, M_ret, skip. do 3 f_equal. cbn. lia.
Qed.

Lemma emits_write8 p v : emits (saveg_write8 v) p [u8 v].
Proof.
  intros f _ Hr. unfold saveg_write8, mbind, M_bind, getS, wrote, putS. cbn in *.
  destruct (w_room f) eqn:E; [lia|]. do 3 f_equal. lia.
Qed.

Lemma u8_u8 v : u8 (u8 v) = u8 v.
Proof. unfold wrap_u. by rewrite Z.mod_mod. Qed.

Lemma codec_8 p v : codec (saveg_write8 v) saveg_read8 p 1 (u8 v).
Proof.
  exists [u8 v]. split_and!; [done|apply emits_write8|].
  rewrite <- (u8_u8 v) at 2. apply consumes_read8.
Qed.

Lemma codec_16 p v : codec (saveg_write16 v) saveg_read16 p 2 (i16 v).
Proof.
  unfold saveg_write16, saveg_read16. eapply (codec_seq _ _ _ _ _ 1 1); [apply codec_8|].
  eapply codec_map; [apply codec_8|].
  rewrite byte_of, land_ff, lor_shiftl by (lia || apply Z.mod_pos_bound; lia).
  unfold wrap_u. unfold wrap_s. change (2 ^ (16 - 1)) with 32768. change (2 ^ 16) with 65536.
  change (2 ^ 8) with 256. Z.to_euclidean_division_equations. lia.
Qed.

Lemma codec_32 p v : codec (saveg_write32 v) saveg_read32 p 4 (i32 v).
Proof.
  unfold saveg_write32, saveg_read32.
  eapply (codec_seq _ _ _ _ _ 1 3); [apply codec_8|].
  eapply (codec_seq _ _ _ _ _ 1 2); [apply codec_8|].
  eapply (codec_seq _ _ _ _ _ 1 1); [apply codec_8|].
  eapply codec_map; [apply codec_8|]. rewrite !byte_of, land_ff by lia.
  set (w := i32 v). replace (u8 (w `mod` 256)) with (w `mod` 256) by (symmetry; by apply Z.mod_mod).
  pose proof (λ k, Z.mod_pos_bound (w / 2 ^ k) 256 ltac:(lia)) as Hb.
  pose proof (Z.mod_pos_bound w 256 ltac:(lia)) as Hb0.
  pose proof (Hb 8) as Hb8. pose proof (Hb 16) as Hb16.
  rewrite (lor_shiftl _ _ 8) by lia.
  rewrite (lor_shiftl _ _ 16) by lia.
  rewrite (lor_shiftl _ _ 24) by lia.
  assert (Hw : w `mod` 256 + (w / 2 ^ 8) `mod` 256 * 2 ^ 8 + (w / 2 ^ 16) `mod` 256 * 2 ^ 16
    + (w / 2 ^ 24) `mod` 256 * 2 ^ 24 = w `mod` 2 ^ 32).
  { clear. change (2 ^ 8) with 256. change (2 ^ 16) with (256 * 256).
    change (2 ^ 24) with (256 * 256 * 256). change (2 ^ 32) with (256 * (256 * (256 * 256))).
    rewrite !Z.rem_mul_r, <- !Z.div_div by lia. lia. }
  rewrite Hw, wrap_s_mod by lia. apply wrap_s_small; [lia|]. apply wrap_s_range. lia.
Qed.

Lemma codec_p p v : codec (saveg_writep v) saveg_readp p 4 (u64 (i32 v)).
Proof. eapply codec_map; [apply codec_32|done]. Qed.

Lemma codec_ints p l : codec (write_ints l) (read_ints (length l)) p (4 * length l) (map i32 l).
Proof.
  revert p. induction l as [|x l IH]; intros p; [apply codec_nil|].
  cbn [write_ints length read_ints map].
  eapply codec_eq; [eapply codec_seq; [apply codec_32|]|..].
  - eapply codec_map; [apply IH|done].
  - lia.
  - done.
Qed.

Lemma padding_lt pos : (padding pos < 4)%nat.
Proof.
  unfold padding. change 3 with (Z.ones 2). rewrite !Z.land_ones by lia.
  change (2 ^ 2) with 4. pose proof (Z.mod_pos_bound (4 - Z.of_nat pos `mod` 4) 4). lia.
Qed.

(** Padding ends on a multiple of four. *)
Lemma padding_aligned pos : ((pos + padding pos) mod 4 = 0)%nat.
Proof.
  unfold padding. change 3 with (Z.ones 2). rewrite !Z.land_ones by lia. change (2 ^ 2) with 4.
  apply Nat2Z.inj. rewrite Nat2Z.inj_mod, Nat2Z.inj_add, Z2Nat.id by (apply Z.mod_pos_bound; lia).
  rewrite Zplus_mod_idemp_r. pose proof (Z.div_mod (Z.of_nat pos) 4 ltac:(lia)) as Hd.
  replace (Z.of_nat pos + (4 - Z.of_nat pos `mod` 4)) with ((Z.of_nat pos / 4 + 1) * 4) by lia.
  by apply Z.mod_mul.
Qed.

Lemma emits_n n v p : emits (write_n n v) p (repeat (u8 v) n).
Proof.
  revert p. induction n as [|n IH]; intros p; [apply emits_nil|]. cbn [write_n repeat].
  apply (emits_seq _ _ _ [u8 v]); [apply emits_write8|apply IH].
Qed.

Lemma consumes_n n p bs : length bs = n → consumes (read_n n) p bs tt.
Proof.
  revert p bs. induction n as [|n IH]; intros p [|b bs] [=]; [apply consumes_ret|]. cbn [read_n].
  apply (consumes_bind _ _ _ [b] _ (u8 b)); [apply consumes_read8|by apply IH].
Qed.

Lemma codec_pad p : codec saveg_write_pad saveg_read_pad p (padding p) tt.
Proof.
  exists (repeat 0 (padding p)). rewrite repeat_length. split_and!; [done| |].
  - intros f Hp Hr. unfold saveg_write_pad, mbind, M_bind, getS. rewrite Hp.
    by apply (emits_n (padding p) 0 p).
  - intros f post Hp Hd. unfold saveg_read_pad, mbind, M_bind, getS. rewrite Hp.
    eapply consumes_n; [by rewrite repeat_length|done|done].
Qed.

Create HintDb codec.
#[export] Hint Resolve codec_8 codec_16 codec_32 codec_p codec_ints codec_pad : codec.

(** Proves [codec] goals field by field; leaves the equation between the value read back and
    the expected one. *)
Ltac codec_step :=
  first
    [ eapply codec_map; [solve [eauto with codec]|]
    | eapply codec_seq; [solve [eauto with codec]|] ].
Ltac codecs := repeat (codec_step; cbn beta).
