(* ===== verification/SaveStruct.v ===== *)
(** * The structures of a savegame

    Models the structures that userspace/programs/doom/src/p_saveg.c stores (p_mobj.h,
    d_player.h, d_ticcmd.h, p_pspr.h, p_spec.h, d_think.h, doomdata.h) with their
    [saveg_read_*] and [saveg_write_*] functions.  A pointer into one of the static arrays
    [states], [players] and [sectors] is the index of its element; other pointers are
    addresses.  Enumerations and [boolean] are 32-bit unsigned. *)
From S2P Require Import Prelude SaveFile.

Definition MAXPLAYERS : nat := 4.
Definition NUMCARDS : nat := 6.
Definition NUMPOWERS : nat := 6.
Definition NUMWEAPONS : nat := 9.
Definition NUMAMMO : nat := 4.
Definition NUMPSPRITES : nat := 2.

Record mapthing_t : Type := mkMapthing {
  mt_x : Z;
  mt_y : Z;
  mt_angle : Z;
  mt_type : Z;
  mt_options : Z;
}.

Definition saveg_read_mapthing_t : RM mapthing_t :=
  x ← saveg_read16;
  y ← saveg_read16;
  angle ← saveg_read16;
  type' ← saveg_read16;
  options ← saveg_read16;
  mret (mkMapthing x y angle type' options).

Definition saveg_write_mapthing_t (str : mapthing_t) : WM unit :=
  saveg_write16 (mt_x str);;
  saveg_write16 (mt_y str);;
  saveg_write16 (mt_angle str);;
  saveg_write16 (mt_type str);;
  saveg_write16 (mt_options str).

Record thinker_t : Type := mkThinker {
  th_prev : Z;
  th_next : Z;
  th_function : Z;
}.

(** [actionf_t] is one pointer; [think_t] is an [actionf_t]. *)
Definition saveg_read_actionf_t : RM Z := saveg_readp.
Definition saveg_write_actionf_t (str : Z) : WM unit := saveg_writep str.

Definition saveg_read_thinker_t : RM thinker_t :=
  prev ← saveg_readp;
  next ← saveg_readp;
  function ← saveg_read_actionf_t;
  mret (mkThinker prev next function).

Definition saveg_write_thinker_t (str : thinker_t) : WM unit :=
  saveg_writep (th_prev str);;
  saveg_writep (th_next str);;
  saveg_write_actionf_t (th_function str).

Record mobj_t : Type := mkMobj {
  mo_thinker : thinker_t;
  mo_x : Z;
  mo_y : Z;
  mo_z : Z;
  mo_snext : Z;
  mo_sprev : Z;
  mo_angle : Z;
  mo_sprite : Z;
  mo_frame : Z;
  mo_bnext : Z;
  mo_bprev : Z;
  mo_subsector : Z;
  mo_floorz : Z;
  mo_ceilingz : Z;
  mo_radius : Z;
  mo_height : Z;
  mo_momx : Z;
  mo_momy : Z;
  mo_momz : Z;
  mo_validcount : Z;
  mo_type : Z;
  mo_info : Z;
  mo_tics : Z;
  mo_state : Z;
  mo_flags : Z;
  mo_health : Z;
  mo_movedir : Z;
  mo_movecount : Z;
  mo_target : Z;
  mo_reactiontime : Z;
  mo_threshold : Z;
  mo_player : option Z;
  mo_lastlook : Z;
  mo_spawnpoint : mapthing_t;
  mo_tracer : Z;
}.

(** The fields [saveg_read_mobj_t] reads; linking the player back to the object is done with
    the world, in [SaveGame]. *)
Definition read_mobj_fields : RM mobj_t :=
  thinker ← saveg_read_thinker_t;
  x ← saveg_read32;
  y ← saveg_read32;
  z ← saveg_read32;
  snext ← saveg_readp;
  sprev ← saveg_readp;
  angle ← saveg_read32;
  sprite ← saveg_read_enum;
  frame ← saveg_read32;
  bnext ← saveg_readp;
  bprev ← saveg_readp;
  subsector ← saveg_readp;
  floorz ← saveg_read32;
  ceilingz ← saveg_read32;
  radius ← saveg_read32;
  height ← saveg_read32;
  momx ← saveg_read32;
  momy ← saveg_read32;
  momz ← saveg_read32;
  validcount ← saveg_read32;
  type' ← saveg_read_enum;
  info ← saveg_readp;
  tics ← saveg_read32;
  state ← saveg_read32;
  flags ← saveg_read32;
  health ← saveg_read32;
  movedir ← saveg_read32;
  movecount ← saveg_read32;
  target ← saveg_readp;
  reactiontime ← saveg_read32;
  threshold ← saveg_read32;
  player ← saveg_read32;
  lastlook ← saveg_read32;
  spawnpoint ← saveg_read_mapthing_t;
  tracer ← saveg_readp;
  mret (mkMobj thinker x y z snext sprev (u32 angle) (u32 sprite) frame bnext bprev subsector
          floorz ceilingz radius height momx momy momz validcount (u32 type') info tics state
          flags health movedir movecount target reactiontime threshold 
          (if 0 <? player then Some (player - 1) else None) lastlook spawnpoint tracer).

Definition saveg_write_mobj_t (str : mobj_t) : WM unit :=
  saveg_write_thinker_t (mo_thinker str);;
  saveg_write32 (mo_x str);;
  saveg_write32 (mo_y str);;
  saveg_write32 (mo_z str);;
  saveg_writep (mo_snext str);;
  saveg_writep (mo_sprev str);;
  saveg_write32 (mo_angle str);;
  saveg_write_enum (mo_sprite str);;
  saveg_write32 (mo_frame str);;
  saveg_writep (mo_bnext str);;
  saveg_writep (mo_bprev str);;
  saveg_writep (mo_subsector str);;
  saveg_write32 (mo_floorz str);;
  saveg_write32 (mo_ceilingz str);;
  saveg_write32 (mo_radius str);;
  saveg_write32 (mo_height str);;
  saveg_write32 (mo_momx str);;
  saveg_write32 (mo_momy str);;
  saveg_write32 (mo_momz str);;
  saveg_write32 (mo_validcount str);;
  saveg_write_enum (mo_type str);;
  saveg_writep (mo_info str);;
  saveg_write32 (mo_tics str);;
  saveg_write32 (mo_state str);;
  saveg_write32 (mo_flags str);;
  saveg_write32 (mo_health str);;
  saveg_write32 (mo_movedir str);;
  saveg_write32 (mo_movecount str);;
  saveg_writep (mo_target str);;
  saveg_write32 (mo_reactiontime str);;
  saveg_write32 (mo_threshold str);;
  saveg_write32 (match mo_player str with Some i => i + 1 | None => 0 end);;
  saveg_write32 (mo_lastlook str);;
  saveg_write_mapthing_t (mo_spawnpoint str);;
  saveg_writep (mo_tracer str).

Record ticcmd_t : Type := mkTiccmd {
  tc_forwardmove : Z;
  tc_sidemove : Z;
  tc_angleturn : Z;
  tc_chatchar : Z;
  tc_buttons : Z;
  tc_consistancy : Z;
  tc_buttons2 : Z;
  tc_inventory : Z;
  tc_lookfly : Z;
  tc_arti : Z;
}.

(** [str] is the command the reader overwrites: the Strife, Heretic and Hexen fields are not
    part of the file. *)
Definition saveg_read_ticcmd_t (str : ticcmd_t) : RM ticcmd_t :=
  forwardmove ← saveg_read8;
  sidemove ← saveg_read8;
  angleturn ← saveg_read16;
  consistancy ← saveg_read16;
  chatchar ← saveg_read8;
  buttons ← saveg_read8;
  mret (mkTiccmd (i8 forwardmove) (i8 sidemove) angleturn chatchar buttons (u8 consistancy)
          (tc_buttons2 str) (tc_inventory str) (tc_lookfly str) (tc_arti str)).

Definition saveg_write_ticcmd_t (str : ticcmd_t) : WM unit :=
  saveg_write8 (tc_forwardmove str);;
  saveg_write8 (tc_sidemove str);;
  saveg_write16 (tc_angleturn str);;
  saveg_write16 (tc_consistancy str);;
  saveg_write8 (tc_chatchar str);;
  saveg_write8 (tc_buttons str).

Record pspdef_t : Type := mkPspdef {
  ps_state : option Z;
  ps_tics : Z;
  ps_sx : Z;
  ps_sy : Z;
}.

Definition saveg_read_pspdef_t : RM pspdef_t :=
  state ← saveg_read32;
  tics ← saveg_read32;
  sx ← saveg_read32;
  sy ← saveg_read32;
  mret (mkPspdef (if 0 <? state then Some state else None) tics sx sy).

Definition saveg_write_pspdef_t (str : pspdef_t) : WM unit :=
  saveg_write32 (match ps_state str with Some i => i | None => 0 end);;
  saveg_write32 (ps_tics str);;
  saveg_write32 (ps_sx str);;
  saveg_write32 (ps_sy str).

Record player_t : Type := mkPlayer {
  pl_mo : Z;
  pl_playerstate : Z;
  pl_cmd : ticcmd_t;
  pl_viewz : Z;
  pl_viewheight : Z;
  pl_deltaviewheight : Z;
  pl_bob : Z;
  pl_health : Z;
  pl_armorpoints : Z;
  pl_armortype : Z;
  pl_powers : list Z;
  pl_cards : list Z;
  pl_backpack : Z;
  pl_frags : list Z;
  pl_readyweapon : Z;
  pl_pendingweapon : Z;
  pl_weaponowned : list Z;
  pl_ammo : list Z;
  pl_maxammo : list Z;
  pl_attackdown : Z;
  pl_usedown : Z;
  pl_cheats : Z;
  pl_refire : Z;
  pl_killcount : Z;
  pl_itemcount : Z;
  pl_secretcount : Z;
  pl_message : Z;
  pl_damagecount : Z;
  pl_bonuscount : Z;
  pl_attacker : Z;
  pl_extralight : Z;
  pl_fixedcolormap : Z;
  pl_colormap : Z;
  pl_psprites : list pspdef_t;
  pl_didsecret : Z;
}.

Fixpoint read_psprites (n : nat) : RM (list pspdef_t) :=
  match n with
  | O => mret []
  | S n => x ← saveg_read_pspdef_t; l ← read_psprites n; mret (x :: l)
  end.

Fixpoint write_psprites (l : list pspdef_t) : WM unit :=
  match l with [] => mret tt | x :: l => saveg_write_pspdef_t x;; write_psprites l end.

Definition saveg_read_player_t (str : player_t) : RM player_t :=
  mo ← saveg_readp;
  playerstate ← saveg_read_enum;
  cmd ← saveg_read_ticcmd_t (pl_cmd str);
  viewz ← saveg_read32;
  viewheight ← saveg_read32;
  deltaviewheight ← saveg_read32;
  bob ← saveg_read32;
  health ← saveg_read32;
  armorpoints ← saveg_read32;
  armortype ← saveg_read32;
  powers ← read_ints NUMPOWERS;
  cards ← read_ints NUMCARDS;
  backpack ← saveg_read32;
  frags ← read_ints MAXPLAYERS;
  readyweapon ← saveg_read_enum;
  pendingweapon ← saveg_read_enum;
  weaponowned ← read_ints NUMWEAPONS;
  ammo ← read_ints NUMAMMO;
  maxammo ← read_ints NUMAMMO;
  attackdown ← saveg_read32;
  usedown ← saveg_read32;
  cheats ← saveg_read32;
  refire ← saveg_read32;
  killcount ← saveg_read32;
  itemcount ← saveg_read32;
  secretcount ← saveg_read32;
  message ← saveg_readp;
  damagecount ← saveg_read32;
  bonuscount ← saveg_read32;
  attacker ← saveg_readp;
  extralight ← saveg_read32;
  fixedcolormap ← saveg_read32;
  colormap ← saveg_read32;
  psprites ← read_psprites NUMPSPRITES;
  didsecret ← saveg_read32;
  mret (mkPlayer mo (u32 playerstate) cmd viewz viewheight deltaviewheight bob health
          armorpoints armortype powers (map u32 cards) (u32 backpack) frags (u32 readyweapon)
          (u32 pendingweapon) (map u32 weaponowned) ammo maxammo attackdown usedown cheats
          refire killcount itemcount secretcount message damagecount bonuscount attacker
          extralight fixedcolormap colormap psprites (u32 didsecret)).

Definition saveg_write_player_t (str : player_t) : WM unit :=
  saveg_writep (pl_mo str);;
  saveg_write_enum (pl_playerstate str);;
  saveg_write_ticcmd_t (pl_cmd str);;
  saveg_write32 (pl_viewz str);;
  saveg_write32 (pl_viewheight str);;
  saveg_write32 (pl_deltaviewheight str);;
  saveg_write32 (pl_bob str);;
  saveg_write32 (pl_health str);;
  saveg_write32 (pl_armorpoints str);;
  saveg_write32 (pl_armortype str);;
  write_ints (pl_powers str);;
  write_ints (pl_cards str);;
  saveg_write32 (pl_backpack str);;
  write_ints (pl_frags str);;
  saveg_write_enum (pl_readyweapon str);;
  saveg_write_enum (pl_pendingweapon str);;
  write_ints (pl_weaponowned str);;
  write_ints (pl_ammo str);;
  write_ints (pl_maxammo str);;
  saveg_write32 (pl_attackdown str);;
  saveg_write32 (pl_usedown str);;
  saveg_write32 (pl_cheats str);;
  saveg_write32 (pl_refire str);;
  saveg_write32 (pl_killcount str);;
  saveg_write32 (pl_itemcount str);;
  saveg_write32 (pl_secretcount str);;
  saveg_writep (pl_message str);;
  saveg_write32 (pl_damagecount str);;
  saveg_write32 (pl_bonuscount str);;
  saveg_writep (pl_attacker str);;
  saveg_write32 (pl_extralight str);;
  saveg_write32 (pl_fixedcolormap str);;
  saveg_write32 (pl_colormap str);;
  write_psprites (pl_psprites str);;
  saveg_write32 (pl_didsecret str).

Record ceiling_t : Type := mkCeiling {
  ce_thinker : thinker_t;
  ce_type : Z;
  ce_sector : Z;
  ce_bottomheight : Z;
  ce_topheight : Z;
  ce_speed : Z;
  ce_crush : Z;
  ce_direction : Z;
  ce_tag : Z;
  ce_olddirection : Z;
}.

Definition saveg_read_ceiling_t : RM ceiling_t :=
  thinker ← saveg_read_thinker_t;
  type' ← saveg_read_enum;
  sector ← saveg_read32;
  bottomheight ← saveg_read32;
  topheight ← saveg_read32;
  speed ← saveg_read32;
  crush ← saveg_read32;
  direction ← saveg_read32;
  tag ← saveg_read32;
  olddirection ← saveg_read32;
  mret (mkCeiling thinker (u32 type') sector bottomheight topheight speed (u32 crush) direction
          tag olddirection).

Definition saveg_write_ceiling_t (str : ceiling_t) : WM unit :=
  saveg_write_thinker_t (ce_thinker str);;
  saveg_write_enum (ce_type str);;
  saveg_write32 (ce_sector str);;
  saveg_write32 (ce_bottomheight str);;
  saveg_write32 (ce_topheight str);;
  saveg_write32 (ce_speed str);;
  saveg_write32 (ce_crush str);;
  saveg_write32 (ce_direction str);;
  saveg_write32 (ce_tag str);;
  saveg_write32 (ce_olddirection str).

Record vldoor_t : Type := mkVldoor {
  vd_thinker : thinker_t;
  vd_type : Z;
  vd_sector : Z;
  vd_topheight : Z;
  vd_speed : Z;
  vd_direction : Z;
  vd_topwait : Z;
  vd_topcountdown : Z;
}.

Definition saveg_read_vldoor_t : RM vldoor_t :=
  thinker ← saveg_read_thinker_t;
  type' ← saveg_read_enum;
  sector ← saveg_read32;
  topheight ← saveg_read32;
  speed ← saveg_read32;
  direction ← saveg_read32;
  topwait ← saveg_read32;
  topcountdown ← saveg_read32;
  mret (mkVldoor thinker (u32 type') sector topheight speed direction topwait topcountdown).

Definition saveg_write_vldoor_t (str : vldoor_t) : WM unit :=
  saveg_write_thinker_t (vd_thinker str);;
  saveg_write_enum (vd_type str);;
  saveg_write32 (vd_sector str);;
  saveg_write32 (vd_topheight str);;
  saveg_write32 (vd_speed str);;
  saveg_write32 (vd_direction str);;
  saveg_write32 (vd_topwait str);;
  saveg_write32 (vd_topcountdown str).

Record floormove_t : Type := mkFloormove {
  fm_thinker : thinker_t;
  fm_type : Z;
  fm_crush : Z;
  fm_sector : Z;
  fm_direction : Z;
  fm_newspecial : Z;
  fm_texture : Z;
  fm_floordestheight : Z;
  fm_speed : Z;
}.

Definition saveg_read_floormove_t : RM floormove_t :=
  thinker ← saveg_read_thinker_t;
  type' ← saveg_read_enum;
  crush ← saveg_read32;
  sector ← saveg_read32;
  direction ← saveg_read32;
  newspecial ← saveg_read32;
  texture ← saveg_read16;
  floordestheight ← saveg_read32;
  speed ← saveg_read32;
  mret (mkFloormove thinker (u32 type') (u32 crush) sector direction newspecial texture
          floordestheight speed).

Definition saveg_write_floormove_t (str : floormove_t) : WM unit :=
  saveg_write_thinker_t (fm_thinker str);;
  saveg_write_enum (fm_type str);;
  saveg_write32 (fm_crush str);;
  saveg_write32 (fm_sector str);;
  saveg_write32 (fm_direction str);;
  saveg_write32 (fm_newspecial str);;
  saveg_write16 (fm_texture str);;
  saveg_write32 (fm_floordestheight str);;
  saveg_write32 (fm_speed str).

Record plat_t : Type := mkPlat {
  pt_thinker : thinker_t;
  pt_sector : Z;
  pt_speed : Z;
  pt_low : Z;
  pt_high : Z;
  pt_wait : Z;
  pt_count : Z;
  pt_status : Z;
  pt_oldstatus : Z;
  pt_crush : Z;
  pt_tag : Z;
  pt_type : Z;
}.

Definition saveg_read_plat_t : RM plat_t :=
  thinker ← saveg_read_thinker_t;
  sector ← saveg_read32;
  speed ← saveg_read32;
  low ← saveg_read32;
  high ← saveg_read32;
  wait ← saveg_read32;
  count ← saveg_read32;
  status ← saveg_read_enum;
  oldstatus ← saveg_read_enum;
  crush ← saveg_read32;
  tag ← saveg_read32;
  type' ← saveg_read_enum;
  mret (mkPlat thinker sector speed low high wait count (u32 status) (u32 oldstatus) (u32 crush)
          tag (u32 type')).

Definition saveg_write_plat_t (str : plat_t) : WM unit :=
  saveg_write_thinker_t (pt_thinker str);;
  saveg_write32 (pt_sector str);;
  saveg_write32 (pt_speed str);;
  saveg_write32 (pt_low str);;
  saveg_write32 (pt_high str);;
  saveg_write32 (pt_wait str);;
  saveg_write32 (pt_count str);;
  saveg_write_enum (pt_status str);;
  saveg_write_enum (pt_oldstatus str);;
  saveg_write32 (pt_crush str);;
  saveg_write32 (pt_tag str);;
  saveg_write_enum (pt_type str).

Record lightflash_t : Type := mkLightflash {
  lf_thinker : thinker_t;
  lf_sector : Z;
  lf_count : Z;
  lf_maxlight : Z;
  lf_minlight : Z;
  lf_maxtime : Z;
  lf_mintime : Z;
}.

Definition saveg_read_lightflash_t : RM lightflash_t :=
  thinker ← saveg_read_thinker_t;
  sector ← saveg_read32;
  count ← saveg_read32;
  maxlight ← saveg_read32;
  minlight ← saveg_read32;
  maxtime ← saveg_read32;
  mintime ← saveg_read32;
  mret (mkLightflash thinker sector count maxlight minlight maxtime mintime).

Definition saveg_write_lightflash_t (str : lightflash_t) : WM unit :=
  saveg_write_thinker_t (lf_thinker str);;
  saveg_write32 (lf_sector str);;
  saveg_write32 (lf_count str);;
  saveg_write32 (lf_maxlight str);;
  saveg_write32 (lf_minlight str);;
  saveg_write32 (lf_maxtime str);;
  saveg_write32 (lf_mintime str).

Record strobe_t : Type := mkStrobe {
  sr_thinker : thinker_t;
  sr_sector : Z;
  sr_count : Z;
  sr_minlight : Z;
  sr_maxlight : Z;
  sr_darktime : Z;
  sr_brighttime : Z;
}.

Definition saveg_read_strobe_t : RM strobe_t :=
  thinker ← saveg_read_thinker_t;
  sector ← saveg_read32;
  count ← saveg_read32;
  minlight ← saveg_read32;
  maxlight ← saveg_read32;
  darktime ← saveg_read32;
  brighttime ← saveg_read32;
  mret (mkStrobe thinker sector count minlight maxlight darktime brighttime).

Definition saveg_write_strobe_t (str : strobe_t) : WM unit :=
  saveg_write_thinker_t (sr_thinker str);;
  saveg_write32 (sr_sector str);;
  saveg_write32 (sr_count str);;
  saveg_write32 (sr_minlight str);;
  saveg_write32 (sr_maxlight str);;
  saveg_write32 (sr_darktime str);;
  saveg_write32 (sr_brighttime str).

Record glow_t : Type := mkGlow {
  gl_thinker : thinker_t;
  gl_sector : Z;
  gl_minlight : Z;
  gl_maxlight : Z;
  gl_direction : Z;
}.

Definition saveg_read_glow_t : RM glow_t :=
  thinker ← saveg_read_thinker_t;
  sector ← saveg_read32;
  minlight ← saveg_read32;
  maxlight ← saveg_read32;
  direction ← saveg_read32;
  mret (mkGlow thinker sector minlight maxlight direction).

Definition saveg_write_glow_t (str : glow_t) : WM unit :=
  saveg_write_thinker_t (gl_thinker str);;
  saveg_write32 (gl_sector str);;
  saveg_write32 (gl_minlight str);;
  saveg_write32 (gl_maxlight str);;
  saveg_write32 (gl_direction str).

(** ** What survives being saved

    [*_ok]: the fields hold values of their types.  [saved_*]: the structure as it comes back
    from the file; only pointers change, to their low 32 bits sign-extended. *)
Definition ptr32 (p : Z) : Z := u64 (i32 p).

Definition mapthing_ok (str : mapthing_t) : Prop :=
  Forall (in_s 16) [mt_x str; mt_y str; mt_angle str; mt_type str; mt_options str].

Definition saved_thinker (str : thinker_t) : thinker_t :=
  mkThinker (ptr32 (th_prev str)) (ptr32 (th_next str)) (ptr32 (th_function str)).

Definition mobj_ok (str : mobj_t) : Prop :=
  Forall (in_s 32) [mo_x str; mo_y str; mo_z str; mo_frame str; mo_floorz str; mo_ceilingz
    str; mo_radius str; mo_height str; mo_momx str; mo_momy str; mo_momz str; mo_validcount
    str; mo_tics str; mo_state str; mo_flags str; mo_health str; mo_movedir str; mo_movecount
    str; mo_reactiontime str; mo_threshold str; mo_lastlook str] ∧
  Forall (in_u 32) [mo_angle str; mo_sprite str; mo_type str] ∧
  match mo_player str with Some i => 0 ≤ i < 2 ^ 31 - 1 | None => True end ∧
  mapthing_ok (mo_spawnpoint str).

Definition saved_mobj (str : mobj_t) : mobj_t :=
  mkMobj (saved_thinker (mo_thinker str)) (mo_x str) (mo_y str) (mo_z str) (ptr32 (mo_snext
    str)) (ptr32 (mo_sprev str)) (mo_angle str) (mo_sprite str) (mo_frame str) (ptr32 (mo_bnext
    str)) (ptr32 (mo_bprev str)) (ptr32 (mo_subsector str)) (mo_floorz str) (mo_ceilingz str)
    (mo_radius str) (mo_height str) (mo_momx str) (mo_momy str) (mo_momz str) (mo_validcount
    str) (mo_type str) (ptr32 (mo_info str)) (mo_tics str) (mo_state str) (mo_flags str)
    (mo_health str) (mo_movedir str) (mo_movecount str) (ptr32 (mo_target str)) (mo_reactiontime
    str) (mo_threshold str) (mo_player str) (mo_lastlook str) (mo_spawnpoint str) (ptr32
    (mo_tracer str)).

(** The fields of a command that are in the file: [consistancy] is a byte here, although the
    file has 16 bits for it. *)
Definition ticcmd_ok (str : ticcmd_t) : Prop :=
  Forall (in_s 8) [tc_forwardmove str; tc_sidemove str] ∧ in_s 16 (tc_angleturn str) ∧
  Forall (in_u 8) [tc_chatchar str; tc_buttons str; tc_consistancy str].

Definition saved_cmd (old str : ticcmd_t) : ticcmd_t :=
  mkTiccmd (tc_forwardmove str) (tc_sidemove str) (tc_angleturn str) (tc_chatchar str)
    (tc_buttons str) (tc_consistancy str) (tc_buttons2 old) (tc_inventory old)
    (tc_lookfly old) (tc_arti old).

(** A weapon sprite in state 0 ([S_NULL]) is stored like one with no state. *)
Definition saved_state (s : option Z) : option Z := s ≫= λ i, if 0 <? i then Some i else None.

Definition pspdef_ok (str : pspdef_t) : Prop :=
  Forall (in_s 32) [ps_tics str; ps_sx str; ps_sy str] ∧
  match ps_state str with Some i => 0 ≤ i < 2 ^ 31 | None => True end.

Definition saved_pspdef (str : pspdef_t) : pspdef_t :=
  mkPspdef (saved_state (ps_state str)) (ps_tics str) (ps_sx str) (ps_sy str).

Definition player_ok (str : player_t) : Prop :=
  Forall (in_s 32) [pl_viewz str; pl_viewheight str; pl_deltaviewheight str; pl_bob str;
    pl_health str; pl_armorpoints str; pl_armortype str; pl_attackdown str; pl_usedown str;
    pl_cheats str; pl_refire str; pl_killcount str; pl_itemcount str; pl_secretcount str;
    pl_damagecount str; pl_bonuscount str; pl_extralight str; pl_fixedcolormap str;
    pl_colormap str] ∧
  Forall (in_u 32) [pl_playerstate str; pl_backpack str; pl_readyweapon str; pl_pendingweapon
    str; pl_didsecret str] ∧
  ticcmd_ok (pl_cmd str) ∧
  (length (pl_powers str) = NUMPOWERS ∧ Forall (in_s 32) (pl_powers str)) ∧
  (length (pl_cards str) = NUMCARDS ∧ Forall (in_u 32) (pl_cards str)) ∧
  (length (pl_frags str) = MAXPLAYERS ∧ Forall (in_s 32) (pl_frags str)) ∧
  (length (pl_weaponowned str) = NUMWEAPONS ∧ Forall (in_u 32) (pl_weaponowned str)) ∧
  (length (pl_ammo str) = NUMAMMO ∧ Forall (in_s 32) (pl_ammo str)) ∧
  (length (pl_maxammo str) = NUMAMMO ∧ Forall (in_s 32) (pl_maxammo str)) ∧
  (length (pl_psprites str) = NUMPSPRITES ∧ Forall pspdef_ok (pl_psprites str)).

Definition saved_player (old : ticcmd_t) (str : player_t) : player_t :=
  mkPlayer (ptr32 (pl_mo str)) (pl_playerstate str) (saved_cmd old (pl_cmd str)) (pl_viewz str)
    (pl_viewheight str) (pl_deltaviewheight str) (pl_bob str) (pl_health str) (pl_armorpoints
    str) (pl_armortype str) (pl_powers str) (pl_cards str) (pl_backpack str) (pl_frags str)
    (pl_readyweapon str) (pl_pendingweapon str) (pl_weaponowned str) (pl_ammo str) (pl_maxammo
    str) (pl_attackdown str) (pl_usedown str) (pl_cheats str) (pl_refire str) (pl_killcount str)
    (pl_itemcount str) (pl_secretcount str) (ptr32 (pl_message str)) (pl_damagecount str)
    (pl_bonuscount str) (ptr32 (pl_attacker str)) (pl_extralight str) (pl_fixedcolormap str)
    (pl_colormap str) (map saved_pspdef (pl_psprites str)) (pl_didsecret str).

Definition ceiling_ok (str : ceiling_t) : Prop :=
  Forall (in_s 32) [ce_sector str; ce_bottomheight str; ce_topheight str; ce_speed str;
    ce_direction str; ce_tag str; ce_olddirection str] ∧
  Forall (in_u 32) [ce_type str; ce_crush str].

Definition saved_ceiling (str : ceiling_t) : ceiling_t :=
  mkCeiling (saved_thinker (ce_thinker str)) (ce_type str) (ce_sector str) (ce_bottomheight str)
    (ce_topheight str) (ce_speed str) (ce_crush str) (ce_direction str) (ce_tag str)
    (ce_olddirection str).

Definition vldoor_ok (str : vldoor_t) : Prop :=
  Forall (in_s 32) [vd_sector str; vd_topheight str; vd_speed str; vd_direction str;
    vd_topwait str; vd_topcountdown str] ∧
  Forall (in_u 32) [vd_type str].

Definition saved_vldoor (str : vldoor_t) : vldoor_t :=
  mkVldoor (saved_thinker (vd_thinker str)) (vd_type str) (vd_sector str) (vd_topheight str)
    (vd_speed str) (vd_direction str) (vd_topwait str) (vd_topcountdown str).

Definition floormove_ok (str : floormove_t) : Prop :=
  Forall (in_s 32) [fm_sector str; fm_direction str; fm_newspecial str; fm_floordestheight
    str; fm_speed str] ∧
  Forall (in_u 32) [fm_type str; fm_crush str] ∧
  Forall (in_s 16) [fm_texture str].

Definition saved_floormove (str : floormove_t) : floormove_t :=
  mkFloormove (saved_thinker (fm_thinker str)) (fm_type str) (fm_crush str) (fm_sector str)
    (fm_direction str) (fm_newspecial str) (fm_texture str) (fm_floordestheight str) (fm_speed
    str).

Definition plat_ok (str : plat_t) : Prop :=
  Forall (in_s 32) [pt_sector str; pt_speed str; pt_low str; pt_high str; pt_wait str;
    pt_count str; pt_tag str] ∧
  Forall (in_u 32) [pt_status str; pt_oldstatus str; pt_crush str; pt_type str].

Definition saved_plat (str : plat_t) : plat_t :=
  mkPlat (saved_thinker (pt_thinker str)) (pt_sector str) (pt_speed str) (pt_low str) (pt_high
    str) (pt_wait str) (pt_count str) (pt_status str) (pt_oldstatus str) (pt_crush str) (pt_tag
    str) (pt_type str).

Definition lightflash_ok (str : lightflash_t) : Prop :=
  Forall (in_s 32) [lf_sector str; lf_count str; lf_maxlight str; lf_minlight str; lf_maxtime
    str; lf_mintime str].

Definition saved_lightflash (str : lightflash_t) : lightflash_t :=
  mkLightflash (saved_thinker (lf_thinker str)) (lf_sector str) (lf_count str) (lf_maxlight str)
    (lf_minlight str) (lf_maxtime str) (lf_mintime str).

Definition strobe_ok (str : strobe_t) : Prop :=
  Forall (in_s 32) [sr_sector str; sr_count str; sr_minlight str; sr_maxlight str; sr_darktime
    str; sr_brighttime str].

Definition saved_strobe (str : strobe_t) : strobe_t :=
  mkStrobe (saved_thinker (sr_thinker str)) (sr_sector str) (sr_count str) (sr_minlight str)
    (sr_maxlight str) (sr_darktime str) (sr_brighttime str).

Definition glow_ok (str : glow_t) : Prop :=
  Forall (in_s 32) [gl_sector str; gl_minlight str; gl_maxlight str; gl_direction str].

Definition saved_glow (str : glow_t) : glow_t :=
  mkGlow (saved_thinker (gl_thinker str)) (gl_sector str) (gl_minlight str) (gl_maxlight str)
    (gl_direction str).

(** ** Every structure is read back as it was saved *)

(** What the structures promise to the archive functions. *)
Class Storable {A : Type} (ok : A → Prop) (write : A → WM unit) (read : RM A) (size : nat)
    (saved : A → A) : Prop :=
  storable_codec p x : ok x → codec (write x) read p size (saved x).

Lemma signed_as_unsigned v : in_u 32 v → u32 (i32 v) = v.
Proof.
  unfold in_u, wrap_u, wrap_s. intros Hv. change (2 ^ (32 - 1)) with 2147483648 in *.
  change (2 ^ 32) with 4294967296 in *. Z.to_euclidean_division_equations. lia.
Qed.

Lemma map_i32 l : Forall (in_s 32) l → map i32 l = l.
Proof. induction 1; cbn; [done|]. by rewrite wrap_s_small, IHForall by done. Qed.

Lemma map_u32_i32 l : Forall (in_u 32) l → map u32 (map i32 l) = l.
Proof. induction 1; cbn; [done|]. by rewrite signed_as_unsigned, IHForall by done. Qed.

Lemma i8_u8 v : in_s 8 v → i8 (u8 v) = v.
Proof. intros. rewrite wrap_s_wrap_u by lia. by apply wrap_s_small. Qed.

Lemma codec_ints_length p l n :
  length l = n → codec (write_ints l) (read_ints n) p (4 * n) (map i32 l).
Proof. intros <-. apply codec_ints. Qed.
#[export] Hint Resolve codec_ints_length : codec.

(** Splits the hypotheses about fields. *)
Ltac field_hyps :=
  repeat match goal with
  | H : Forall _ (_ :: _) |- _ => apply Forall_cons in H as [? H]
  | H : Forall _ [] |- _ => clear H
  | H : _ ∧ _ |- _ => destruct H
  end.

(** A field read back equals the field written. *)
Ltac field_eq :=
  first
    [ reflexivity
    | apply wrap_s_small; [lia|assumption]
    | apply signed_as_unsigned; assumption
    | apply i8_u8; assumption
    | apply map_i32; assumption
    | apply map_u32_i32; assumption
    | idtac ].

Ltac storable :=
  intros; field_hyps; eapply codec_eq; [codecs; reflexivity|reflexivity|f_equal; field_eq].

#[export] Instance mapthing_storable :
  Storable mapthing_ok saveg_write_mapthing_t saveg_read_mapthing_t 10 id.
Proof.
  intros p x Hok. unfold mapthing_ok, saveg_write_mapthing_t, saveg_read_mapthing_t in *.
  destruct x. cbn in *. storable.
Qed.

Lemma codec_thinker p x : codec (saveg_write_thinker_t x) saveg_read_thinker_t p 12 (saved_thinker x).
Proof.
  unfold saveg_write_thinker_t, saveg_read_thinker_t, saveg_write_actionf_t, saveg_read_actionf_t.
  storable.
Qed.

Lemma codec_mapthing p x :
  mapthing_ok x → codec (saveg_write_mapthing_t x) saveg_read_mapthing_t p 10 x.
Proof. apply mapthing_storable. Qed.
#[export] Hint Resolve codec_thinker codec_mapthing : codec.

#[export] Instance mobj_storable :
  Storable mobj_ok saveg_write_mobj_t read_mobj_fields 154 saved_mobj.
Proof.
  intros p x Hok. unfold mobj_ok, saveg_write_mobj_t, read_mobj_fields, saved_mobj in *. storable.
  destruct (mo_player x) as [i|]; [|done]. rewrite wrap_s_small by (unfold in_s; lia).
  destruct (Z.ltb_spec 0 (i + 1)); [f_equal|]; lia.
Qed.

Lemma codec_ticcmd old p x :
  ticcmd_ok x → codec (saveg_write_ticcmd_t x) (saveg_read_ticcmd_t old) p 8 (saved_cmd old x).
Proof.
  intros Hok. unfold ticcmd_ok, saveg_write_ticcmd_t, saveg_read_ticcmd_t, saved_cmd in *. storable.
  - by apply wrap_u_small.
  - by apply wrap_u_small.
  - rewrite (wrap_s_small 16) by (unfold in_s, in_u in *; lia). by apply wrap_u_small.
Qed.
#[export] Hint Resolve codec_ticcmd : codec.

#[export] Instance pspdef_storable :
  Storable pspdef_ok saveg_write_pspdef_t saveg_read_pspdef_t 16 saved_pspdef.
Proof.
  intros p x Hok. unfold pspdef_ok, saveg_write_pspdef_t, saveg_read_pspdef_t, saved_pspdef in *. storable.
  destruct (ps_state x) as [i|]; [|done]. rewrite wrap_s_small by (unfold in_s; lia). done.
Qed.

Lemma codec_psprites p l n :
  length l = n → Forall pspdef_ok l →
  codec (write_psprites l) (read_psprites n) p (16 * n) (map saved_pspdef l).
Proof.
  intros <- Hl. revert p. induction Hl as [|x l Hx Hl IH]; intros p; [apply codec_nil|].
  cbn [write_psprites length read_psprites map]. eapply codec_eq.
  - eapply codec_seq; [by apply pspdef_storable|]. eapply codec_map; [apply IH|done].
  - lia.
  - done.
Qed.
#[export] Hint Resolve codec_psprites : codec.

Lemma codec_player old p x :
  player_ok x →
  codec (saveg_write_player_t x) (saveg_read_player_t old) p 280 (saved_player (pl_cmd old) x).
Proof.
  intros Hok. unfold player_ok, saveg_write_player_t, saveg_read_player_t, saved_player in *. storable.
Qed.

#[export] Instance ceiling_storable :
  Storable ceiling_ok saveg_write_ceiling_t saveg_read_ceiling_t 48 saved_ceiling.
Proof.
  intros p x Hok. unfold ceiling_ok, saveg_write_ceiling_t, saveg_read_ceiling_t, saved_ceiling in *. storable.
Qed.

#[export] Instance vldoor_storable :
  Storable vldoor_ok saveg_write_vldoor_t saveg_read_vldoor_t 40 saved_vldoor.
Proof.
  intros p x Hok. unfold vldoor_ok, saveg_write_vldoor_t, saveg_read_vldoor_t, saved_vldoor in *. storable.
Qed.

#[export] Instance floormove_storable :
  Storable floormove_ok saveg_write_floormove_t saveg_read_floormove_t 42 saved_floormove.
Proof.
  intros p x Hok.
  unfold floormove_ok, saveg_write_floormove_t, saveg_read_floormove_t, saved_floormove in *. storable.
Qed.

#[export] Instance plat_storable :
  Storable plat_ok saveg_write_plat_t saveg_read_plat_t 56 saved_plat.
Proof.
  intros p x Hok. unfold plat_ok, saveg_write_plat_t, saveg_read_plat_t, saved_plat in *. storable.
Qed.

#[export] Instance lightflash_storable :
  Storable lightflash_ok saveg_write_lightflash_t saveg_read_lightflash_t 36 saved_lightflash.
Proof.
  intros p x Hok.
  unfold lightflash_ok, saveg_write_lightflash_t, saveg_read_lightflash_t, saved_lightflash in *. storable.
Qed.

#[export] Instance strobe_storable :
  Storable strobe_ok saveg_write_strobe_t saveg_read_strobe_t 36 saved_strobe.
Proof.
  intros p x Hok. unfold strobe_ok, saveg_write_strobe_t, saveg_read_strobe_t, saved_strobe in *. storable.
Qed.

#[export] Instance glow_storable :
  Storable glow_ok saveg_write_glow_t saveg_read_glow_t 28 saved_glow.
Proof.
  intros p x Hok. unfold glow_ok, saveg_write_glow_t, saveg_read_glow_t, saved_glow in *. storable.
Qed.
