(* ===== verification/Thinkers.v ===== *)
(** * The thinker list

    Models userspace/programs/doom/src/p_tick.c: the circular list of thinkers headed by
    [thinkercap].  A thinker is a structure that starts with a [thinker_t]; the objects live in
    a map from addresses, next to the zone they are allocated from ([Zone]).  [Z_Free] writes
    block headers and the owner's variable only, so the contents of a freed object stay where
    they are: the loop of [P_RunThinkers] relies on it when it follows the [next] link of the
    thinker it has just freed. *)
From S2P Require Import Prelude Dll Zone ZoneClient SaveFile SaveStruct.

(** The structures that are on the list.  [OOther] is a thinker of a kind that is never
    archived (the fire flicker, for example). *)
Inductive tobj : Type :=
| OCap (t : thinker_t)
| OMobj (o : mobj_t)
| OCeiling (o : ceiling_t)
| ODoor (o : vldoor_t)
| OFloor (o : floormove_t)
| OPlat (o : plat_t)
| OFlash (o : lightflash_t)
| OStrobe (o : strobe_t)
| OGlow (o : glow_t)
| OOther (t : thinker_t).

Definition th_of (o : tobj) : thinker_t :=
  match o with
  | OCap t | OOther t => t
  | OMobj o => mo_thinker o
  | OCeiling o => ce_thinker o
  | ODoor o => vd_thinker o
  | OFloor o => fm_thinker o
  | OPlat o => pt_thinker o
  | OFlash o => lf_thinker o
  | OStrobe o => sr_thinker o
  | OGlow o => gl_thinker o
  end.

(** Assignment to the [thinker] member. *)
Definition set_th (t : thinker_t) (o : tobj) : tobj :=
  match o with
  | OCap _ => OCap t
  | OOther _ => OOther t
  | OMobj (mkMobj _ a b c d e f g h i j k l m n o p q r s u v w x y z aa bb cc dd ee ff gg hh ii) =>
      OMobj (mkMobj t a b c d e f g h i j k l m n o p q r s u v w x y z aa bb cc dd ee ff gg hh ii)
  | OCeiling (mkCeiling _ a b c d e f g h i) => OCeiling (mkCeiling t a b c d e f g h i)
  | ODoor (mkVldoor _ a b c d e f g) => ODoor (mkVldoor t a b c d e f g)
  | OFloor (mkFloormove _ a b c d e f g h) => OFloor (mkFloormove t a b c d e f g h)
  | OPlat (mkPlat _ a b c d e f g h i j k) => OPlat (mkPlat t a b c d e f g h i j k)
  | OFlash (mkLightflash _ a b c d e f) => OFlash (mkLightflash t a b c d e f)
  | OStrobe (mkStrobe _ a b c d e f) => OStrobe (mkStrobe t a b c d e f)
  | OGlow (mkGlow _ a b c d) => OGlow (mkGlow t a b c d)
  end.

Definition t_next (o : tobj) : Z := th_next (th_of o).
Definition t_prev (o : tobj) : Z := th_prev (th_of o).
Definition t_function (o : tobj) : Z := th_function (th_of o).
Definition set_t_next (v : Z) (o : tobj) : tobj :=
  set_th (mkThinker (t_prev o) v (t_function o)) o.
Definition set_t_prev (v : Z) (o : tobj) : tobj :=
  set_th (mkThinker v (t_next o) (t_function o)) o.
Definition set_t_function (v : Z) (o : tobj) : tobj :=
  set_th (mkThinker (t_prev o) (t_next o) v) o.

Lemma th_of_set t o : th_of (set_th t o) = t.
Proof. by destruct o as [|[]|[]|[]|[]|[]|[]|[]|[]|]. Qed.

Section thinker_fields.
Context (v : Z) (o : tobj).
Lemma next_set_next : t_next (set_t_next v o) = v.
Proof. unfold t_next, set_t_next. by rewrite th_of_set. Qed.
Lemma prev_set_next : t_prev (set_t_next v o) = t_prev o.
Proof. unfold t_prev at 1, set_t_next. by rewrite th_of_set. Qed.
Lemma function_set_next : t_function (set_t_next v o) = t_function o.
Proof. unfold t_function at 1, set_t_next. by rewrite th_of_set. Qed.
Lemma next_set_prev : t_next (set_t_prev v o) = t_next o.
Proof. unfold t_next at 1, set_t_prev. by rewrite th_of_set. Qed.
Lemma prev_set_prev : t_prev (set_t_prev v o) = v.
Proof. unfold t_prev, set_t_prev. by rewrite th_of_set. Qed.
Lemma function_set_prev : t_function (set_t_prev v o) = t_function o.
Proof. unfold t_function at 1, set_t_prev. by rewrite th_of_set. Qed.
End thinker_fields.
Create Rewrite HintDb thinkers.
#[export] Hint Rewrite next_set_next prev_set_next function_set_next next_set_prev prev_set_prev
  function_set_prev : thinkers.

#[export] Instance thinker_links : LinkLaws t_next t_prev set_t_next set_t_prev.
Proof. split; intros; by autorewrite with thinkers. Qed.

Record tstate : Type := mkTs {
  thinkercap : Z;
  t_objs : gmap Z tobj;
  t_zone : zone;
}.

Abbreviation TM := (M tstate).

Definition with_objs (f : gmap Z tobj → gmap Z tobj) (s : tstate) : tstate :=
  mkTs (thinkercap s) (f (t_objs s)) (t_zone s).

Definition tload (a : Z) : TM tobj :=
  s ← getS;
  match t_objs s !! a with Some o => mret o | None => stopM BadAccess end.

Definition tstore (a : Z) (f : tobj → tobj) : TM unit :=
  tload a;; modS (with_objs (alter f a)).

(** An operation of the zone. *)
Definition onzone {A} (m : ZM A) : TM A := λ s,
  match m (t_zone s) with
  | Ok (a, z) => Ok (a, mkTs (thinkercap s) (t_objs s) z)
  | Stop e => Stop e
  end.

Definition P_InitThinkers : TM unit :=
  s ← getS;
  tstore (thinkercap s) (set_t_next (thinkercap s));;
  tstore (thinkercap s) (set_t_prev (thinkercap s)).

Definition P_AddThinker (thinker : Z) : TM unit :=
  s ← getS;
  let cap := thinkercap s in
  c ← tload cap;
  tstore (t_prev c) (set_t_next thinker);;
  tstore thinker (set_t_next cap);;
  c ← tload cap;
  tstore thinker (set_t_prev (t_prev c));;
  tstore cap (set_t_prev thinker).

(** [(actionf_v)(-1)] *)
Definition removed : Z := 2 ^ 64 - 1.

Definition P_RemoveThinker (thinker : Z) : TM unit := tstore thinker (set_t_function removed).

Section run.
(** The call through the function pointer: code of the other modules, run on the thinker. *)
Context (call : Z → Z → TM unit).

Fixpoint RunLoop (fuel : nat) (currentthinker : Z) : TM unit :=
  match fuel with
  | O => stopM NoFuel
  | S fuel =>
      s ← getS;
      if currentthinker =? thinkercap s then mret tt
      else
        c ← tload currentthinker;
        (if t_function c =? removed then
           tstore (t_next c) (set_t_prev (t_prev c));;
           tstore (t_prev c) (set_t_next (t_next c));;
           onzone (Z_Free currentthinker)
         else if negb (t_function c =? 0) then call (t_function c) currentthinker
         else mret tt);;
        c ← tload currentthinker;
        RunLoop fuel (t_next c)
  end.

Definition P_RunThinkers (fuel : nat) : TM unit :=
  s ← getS;
  c ← tload (thinkercap s);
  RunLoop fuel (t_next c).
End run.

(** ** The list invariant *)

Abbreviation tring := (ring t_next t_prev).

(** The thinkers [l] form the list, and each sits in an allocated block of the zone. *)
Record tinv (s : tstate) (l : list Z) : Prop := {
  ti_ring : tring (t_objs s) (thinkercap s) l;
  ti_nodup : NoDup (thinkercap s :: l);
  ti_zone : ∃ zl, zone_inv (t_zone s) zl ∧
    ∀ a, a ∈ l → a - sizeof_memblock_t ∈ zl ∧ ¬ is_free (z_mem (t_zone s)) (a - sizeof_memblock_t);
}.

Lemma alter_commute (f g : tobj → tobj) i j (m : gmap Z tobj) :
  (∀ o, f (g o) = g (f o)) → alter f i (alter g j m) = alter g j (alter f i m).
Proof.
  intros Hc. apply map_eq. intros k. rewrite !lookup_alter.
  repeat case_decide; subst; try done. destruct (m !! k); cbn; by rewrite ?Hc.
Qed.

Lemma alter_commute_ne (f g : tobj → tobj) i j (m : gmap Z tobj) :
  i ≠ j → alter f i (alter g j m) = alter g j (alter f i m).
Proof.
  intros Hij. apply map_eq. intros k. rewrite !lookup_alter. repeat case_decide; congruence.
Qed.

Lemma set_prev_next v w o : set_t_prev v (set_t_next w o) = set_t_next w (set_t_prev v o).
Proof. by destruct o as [[]|[[]]|[[]]|[[]]|[[]]|[[]]|[[]]|[[]]|[[]]|[]]. Qed.

Section exec.
Context (E : stop → Prop).
Implicit Types s : tstate.

Lemma wp_tload a o (Q : tobj → tstate → Prop) s :
  t_objs s !! a = Some o → Q o s → wp E (tload a) Q s.
Proof. intros H HQ. unfold tload. wp_simp. by rewrite H. Qed.

Lemma wp_tstore a f (Q : unit → tstate → Prop) s :
  is_Some (t_objs s !! a) → Q tt (with_objs (alter f a) s) → wp E (tstore a f) Q s.
Proof. intros [o H] HQ. unfold tstore. wp_simp. by eapply wp_tload. Qed.

Lemma wp_onzone {A} (m : ZM A) (Q : A → tstate → Prop) s :
  wp E m (λ a z, Q a (mkTs (thinkercap s) (t_objs s) z)) (t_zone s) → wp E (onzone m) Q s.
Proof. unfold wp, onzone. by destruct (m (t_zone s)) as [[]|]. Qed.
End exec.

(** Linking a new object in at the end of the list. *)
Lemma wp_AddThinker s l a :
  tring (t_objs s) (thinkercap s) l → NoDup (thinkercap s :: l) →
  is_Some (t_objs s !! a) → a ∉ thinkercap s :: l →
  wp never (P_AddThinker a)
    (λ _ s', thinkercap s' = thinkercap s ∧ t_zone s' = t_zone s ∧
       tring (t_objs s') (thinkercap s) (l ++ [a]) ∧
       ∀ b, t_function <$> t_objs s' !! b = t_function <$> t_objs s !! b) s.
Proof.
  intros Hr Hnd Ha Hin. unfold P_AddThinker. wp_simp. set (cap := thinkercap s) in *.
  destruct (ring_sentinel _ _ _ _ _ Hr) as (c & Hc & Hp & _).
  set (p := final (λ a : Z, a) cap l) in *.
  assert (Hpin : p ∈ cap :: l) by apply rfinal_in.
  assert (Hap : a ≠ p) by (intros ->; done). assert (Hac : a ≠ cap) by set_solver.
  destruct (ring_lookup _ _ _ _ _ _ Hr Hpin) as [op Hop].
  eapply wp_tload; [exact Hc|]. rewrite Hp. wp_simp.
  apply wp_tstore; [by eexists|]. wp_simp.
  apply wp_tstore; [cbn; by rewrite lookup_alter_is_Some|]. wp_simp.
  assert (∃ c', alter (set_t_next cap) a (alter (set_t_next a) p (t_objs s)) !! cap = Some c' ∧
                      t_prev c' = p) as (c' & Hc' & Hp').
  { rewrite lookup_alter_ne by done. destruct (decide (p = cap)) as [Heq|Hne].
    - rewrite Heq, lookup_alter_eq, Hc. eexists. split; [done|].
      rewrite prev_set_next. congruence.
    - exists c. by rewrite lookup_alter_ne. }
  eapply wp_tload; [exact Hc'|]. rewrite Hp'. wp_simp.
  apply wp_tstore; [cbn; by rewrite !lookup_alter_is_Some|]. wp_simp.
  apply wp_tstore; [cbn; by rewrite !lookup_alter_is_Some; eexists|]. cbn.
  split_and!; [done..| |].
  - set (m := alter (set_t_prev p) a (alter (set_t_next cap) a (t_objs s))).
    assert (Hm : tring m cap l).
    { subst m. unfold ring. apply seg_alter_notin; [done|]. by apply seg_alter_notin. }
    assert (is_Some (m !! a)) as [oa Hoa] by (subst m; by rewrite !lookup_alter_is_Some).
    assert (Hlinks : t_next oa = cap ∧ t_prev oa = p).
    { destruct Ha as [o Ho]. subst m. rewrite lookup_alter_eq, lookup_alter_eq, Ho in Hoa.
      injection Hoa as <-. by autorewrite with thinkers. }
    destruct Hlinks as [Hna Hpa]. rewrite <- (app_nil_r l) in Hm.
    apply (ring_insert _ _ set_t_next set_t_prev thinker_links _ _ _ a _ oa) in Hm; [| |done..].
    + unfold ring_link in Hm. cbn [first] in Hm. subst m. fold p in Hm.
      rewrite (alter_commute_ne (set_t_next cap) (set_t_next a)) by done.
      rewrite (alter_commute_ne (set_t_prev p) (set_t_next a)) by done.
      rewrite (alter_commute (set_t_prev a) (set_t_next a)) by apply set_prev_next. exact Hm.
    + change (cap :: l ++ [a]) with ((cap :: l) ++ [a]). apply NoDup_app. split_and!; [done| |apply NoDup_singleton].
      intros x Hx Hx2%list_elem_of_singleton. by subst x.
  - assert (HF : ∀ f b (m : gmap Z tobj), (∀ o, t_function (f o) = t_function o) →
      ∀ k, t_function <$> alter f b m !! k = t_function <$> m !! k).
    { intros f b m Hf k. rewrite lookup_alter. case_decide; [subst|done].
      destruct (m !! k); cbn; by rewrite ?Hf. }
    intros b. rewrite !HF; [done|apply function_set_next|apply function_set_next
      |apply function_set_prev|apply function_set_prev].
Qed.

(** ** Running the thinkers *)

(** Every block takes at least a header. *)
Lemma tiles_length m a l e : tiles m a l e → sizeof_memblock_t * Z.of_nat (length l) ≤ e - a.
Proof.
  revert a. induction l as [|b l IH]; intros a; cbn [tiles length]; [lia|].
  intros (-> & h & _ & Hs & Ht%IH). lia.
Qed.

(** How many thinkers fit into the zone. *)
Definition max_thinkers (s : tstate) : nat := Z.to_nat (z_size (t_zone s) / sizeof_memblock_t).

Lemma tinv_length s l : tinv s l → (length l ≤ max_thinkers s)%nat.
Proof.
  intros [_ Hnd (zl & INV & Hl)]. apply NoDup_cons in Hnd as [_ Hnd].
  assert (Hsub : (λ a, a - sizeof_memblock_t) <$> l ⊆+ zl).
  { apply NoDup_submseteq; [|intros b (a & -> & Ha)%list_elem_of_fmap; by apply Hl].
    apply NoDup_fmap; [intros ? ? ?; lia|done]. }
  apply submseteq_length in Hsub. rewrite length_fmap in Hsub.
  pose proof (tiles_length _ _ _ _ (zw_tiles _ _ (proj1 INV))) as Hlen.
  unfold max_thinkers. unfold sizeof_memblock_t, sizeof_memzone_t in *.
  apply Nat2Z.inj_le. rewrite Z2Nat.id by (apply Z.div_pos; lia).
  apply Z.div_le_lower_bound; lia.
Qed.

(** Unlinking and freeing the thinker between [l1] and [l2]. *)
Lemma wp_unlink s l1 a l2 o :
  tinv s (l1 ++ a :: l2) → t_objs s !! a = Some o →
  wp never
    (tstore (t_next o) (set_t_prev (t_prev o));;
     tstore (t_prev o) (set_t_next (t_next o));;
     onzone (Z_Free a))
    (λ _ s', thinkercap s' = thinkercap s ∧ z_size (t_zone s') = z_size (t_zone s) ∧
       tinv s' (l1 ++ l2) ∧ t_objs s' !! a = Some o) s.
Proof.
  intros [Hr Hnd (zl & INV & Hl)] Ho. set (cap := thinkercap s) in *.
  destruct (ring_mid _ _ _ _ _ _ _ Hr) as (o' & Ho' & Hp & Hn). rewrite Ho in Ho'. injection Ho' as <-.
  pose proof (ring_remove _ _ set_t_next set_t_prev thinker_links _ _ _ _ _ Hnd Hr) as Hr'.
  unfold ring_unlink in Hr'. rewrite <- Hp, <- Hn in Hr'.
  rewrite (alter_commute (set_t_prev (t_prev o)) (set_t_next (t_next o))) in Hr' by apply set_prev_next.
  change (cap :: l1 ++ a :: l2) with ((cap :: l1) ++ a :: l2) in Hnd.
  pose proof (NoDup_mid _ _ _ Hnd) as [Ha1 Ha2]. pose proof (NoDup_split_mid _ _ _ Hnd) as Hnd'.
  pose proof (rfirst_in cap l2) as Hfn. pose proof (rfinal_in cap l1) as Hfp.
  rewrite <- Hn in Hfn. rewrite <- Hp in Hfp.
  assert (Hnin : t_next o ∈ cap :: l1 ++ a :: l2) by set_solver.
  assert (Hpin : t_prev o ∈ cap :: l1 ++ a :: l2) by set_solver.
  assert (Hna : t_next o ≠ a) by (intros Heq; rewrite Heq in Hfn; set_solver).
  assert (Hpa : t_prev o ≠ a) by (intros Heq; rewrite Heq in Hfp; set_solver).
  wp_simp. apply wp_tstore; [by eapply ring_lookup|]. wp_simp.
  apply wp_tstore; [cbn; rewrite lookup_alter_is_Some; by eapply ring_lookup|]. wp_simp.
  apply wp_onzone. cbn [t_zone with_objs t_objs thinkercap].
  destruct (Hl a) as [Hza Hzf]; [apply elem_of_app; right; left|].
  pose proof Hza as (z1 & z2 & ->)%list_elem_of_split.
  destruct (ring_mid _ _ _ _ _ _ _ (zw_ring _ _ (proj1 INV))) as (hb & Hhb & _).
  rewrite (is_free_tag _ _ _ Hhb) in Hzf.
  replace a with (a - sizeof_memblock_t + sizeof_memblock_t) at 1 by lia.
  eapply wp_mono; [by eapply wp_Free|]. cbn beta. intros _ zn (z1' & x & z2' & F).
  pose proof (freed_evict _ _ _ _ _ _ _ _ _ INV Hhb Hzf F) as EV.
  split_and!; [done|apply EV| |].
  - split; cbn [t_objs thinkercap t_zone]; [exact Hr'|exact Hnd'|].
    eexists. split; [apply F|]. intros b Hb.
    assert (Hb' : b ∈ l1 ++ a :: l2 ∧ b ≠ a).
    { clear -Hb Ha1 Ha2. apply elem_of_app in Hb as [Hb|Hb]; split; try set_solver; by intros ->. }
    destruct Hb' as [Hb' Hba]. destruct (Hl b Hb') as [Hzb Hfb].
    destruct (ev_keep _ _ _ _ _ EV _ Hzb Hfb) as [? Hsh]; [lia|].
    split; [done|]. by rewrite (is_free_iff _ _ _ Hsh).
  - cbn. by rewrite !lookup_alter_ne.
Qed.

(** The visits left go down with every step, because the called thinkers stay in the zone. *)
Lemma tic_measure N d t t' fuel :
  (d < N)%nat → (t' ≤ N)%nat → ((N - d) * S N + S t < S fuel)%nat →
  ((N - (d + 1)) * S N + t' < fuel)%nat.
Proof.
  intros Hd Ht H. replace (N - d)%nat with (S (N - (d + 1))) in H by lia.
  rewrite Nat.mul_succ_l in H. generalize dependent ((N - (d + 1)) * S N)%nat. lia.
Qed.

Section run_spec.
Context (call : Z → Z → TM unit) (E : stop → Prop).

(** What a thinker function may do: it keeps the list in order and may add thinkers at its
    end. *)
Definition call_ok : Prop :=
  ∀ s l a o, tinv s l → a ∈ l → t_objs s !! a = Some o →
    t_function o ≠ removed → t_function o ≠ 0 →
    wp E (call (t_function o) a)
      (λ _ s', thinkercap s' = thinkercap s ∧ z_size (t_zone s') = z_size (t_zone s) ∧
         ∃ new, tinv s' (l ++ new)) s.

(** The list-level meaning of a tic: the thinkers are visited in order, those added on the way
    included; one that is marked is dropped from the list and freed, any other one is called
    and stays.  [tr] are the thinkers called. *)
Inductive tic : tstate → list Z → list Z → tstate → list Z → list Z → Prop :=
| tic_nil s d : tinv s d → tic s d [] s d []
| tic_drop s d a todo o s1 s' l' tr :
    t_objs s !! a = Some o → t_function o = removed →
    tinv s1 (d ++ todo) → tic s1 d todo s' l' tr →
    tic s d (a :: todo) s' l' tr
| tic_idle s d a todo o s' l' tr :
    t_objs s !! a = Some o → t_function o = 0 →
    tic s (d ++ [a]) todo s' l' tr →
    tic s d (a :: todo) s' l' tr
| tic_call s d a todo o s1 new s' l' tr :
    t_objs s !! a = Some o → t_function o ≠ removed → t_function o ≠ 0 →
    call (t_function o) a s = Ok (tt, s1) → tinv s1 ((d ++ [a]) ++ todo ++ new) →
    tic s1 (d ++ [a]) (todo ++ new) s' l' tr →
    tic s d (a :: todo) s' l' (a :: tr).

Context (OK : call_ok).

Lemma wp_RunLoop fuel N s d todo :
  tinv s (d ++ todo) → max_thinkers s = N →
  ((N - length d) * S N + length todo < fuel)%nat →
  wp E (RunLoop call fuel (first (λ a : Z, a) todo (thinkercap s)))
    (λ _ s', ∃ l' tr, tic s d todo s' l' tr) s.
Proof using OK.
  revert s d todo. induction fuel as [|fuel IH]; intros s d todo INV HN Hfuel;
    [by apply Nat.nlt_0_r in Hfuel|].
  cbn [RunLoop]. wp_simp. destruct todo as [|a todo]; cbn [first].
  { rewrite Z.eqb_refl. wp_simp. rewrite app_nil_r in INV. exists d, []. by constructor. }
  pose proof (tinv_length _ _ INV) as Hlen. rewrite length_app in Hlen. cbn in Hlen.
  assert (Hac : a ≠ thinkercap s).
  { pose proof (ti_nodup _ _ INV) as [Hc _]%NoDup_cons. intros ->. apply Hc, elem_of_app. right; left. }
  apply Z.eqb_neq in Hac. rewrite Hac.
  destruct (ring_mid _ _ _ _ _ _ _ (ti_ring _ _ INV)) as (o & Ho & _ & Hn).
  wp_simp. eapply wp_tload; [exact Ho|]. wp_simp.
  assert (Happ : d ++ a :: todo = (d ++ [a]) ++ todo) by by rewrite <- app_assoc.
  destruct (Z.eqb_spec (t_function o) removed) as [Hrm|Hrm].
  - eapply wp_mono; [eapply wp_weaken; [by eapply wp_unlink|done]|].
    cbn beta. intros _ s1 (Hcap & Hz & INV1 & Ho1). wp_simp.
    eapply wp_tload; [exact Ho1|]. rewrite Hn, <- Hcap. wp_simp.
    eapply wp_mono; [apply (IH s1 d todo); [done|unfold max_thinkers; by rewrite Hz|]|].
    + cbn [length] in Hfuel. lia.
    + cbn beta. intros _ s' (l' & tr & HT). exists l', tr. by eapply tic_drop.
  - destruct (Z.eqb_spec (t_function o) 0) as [H0|H0]; cbn [negb]; wp_simp.
    + eapply wp_tload; [exact Ho|]. rewrite Hn. wp_simp.
      eapply wp_mono; [apply (IH s (d ++ [a]) todo); [by rewrite <- Happ|done|]|].
      * rewrite length_app. eapply tic_measure; [| |exact Hfuel]; cbn in *; lia.
      * cbn beta. intros _ s' (l' & tr & HT). exists l', tr. by eapply tic_idle.
    + pose proof (OK s _ a o INV ltac:(apply elem_of_app; right; left) Ho Hrm H0) as HC. unfold wp in HC |- *.
      destruct (call (t_function o) a s) as [[[] s1]|e] eqn:Hrun; [|done].
      destruct HC as (Hcap & Hz & new & INV1). rewrite <- app_assoc in INV1. cbn [app] in INV1.
      destruct (ring_mid _ _ _ _ _ _ _ (ti_ring _ _ INV1)) as (o1 & Ho1 & _ & Hn1).
      pose proof (tinv_length _ _ INV1) as Hlen1. rewrite length_app in Hlen1. cbn in Hlen1.
      rewrite length_app in Hlen1.
      assert (Hmax : max_thinkers s1 = N) by (unfold max_thinkers in *; by rewrite Hz).
      assert (Happ1 : d ++ a :: todo ++ new = (d ++ [a]) ++ todo ++ new) by by rewrite <- app_assoc.
      rewrite Happ1 in INV1.
      fold (wp E (c ← tload a; RunLoop call fuel (t_next c))
        (λ _ s', ∃ l' tr, tic s d (a :: todo) s' l' tr) s1).
      wp_simp. eapply wp_tload; [exact Ho1|]. rewrite Hn1. wp_simp.
      eapply wp_mono; [apply (IH s1 (d ++ [a]) (todo ++ new)); [done|done|]|].
      * rewrite !length_app. eapply tic_measure; [| |exact Hfuel]; cbn in *; lia.
      * cbn beta. intros _ s' (l' & tr & HT). exists l', (a :: tr). by eapply tic_call.
Qed.
End run_spec.


(** [P_AddThinker] appends: the list becomes [l ++ [a]], and no thinker's function changes. *)
Theorem P_AddThinker_spec s l a zl :
  tinv s l → is_Some (t_objs s !! a) → a ∉ thinkercap s :: l →
  zone_inv (t_zone s) zl → a - sizeof_memblock_t ∈ zl →
  ¬ is_free (z_mem (t_zone s)) (a - sizeof_memblock_t) →
  ∃ s', P_AddThinker a s = Ok (tt, s') ∧ tinv s' (l ++ [a]) ∧
    ∀ b, t_function <$> t_objs s' !! b = t_function <$> t_objs s !! b.
Proof.
  intros [Hr Hnd (zl0 & INV0 & Hl)] Ha Hin INV Hza Hzf.
  pose proof (wp_AddThinker s l a Hr Hnd Ha Hin) as ([] & s' & Hrun & Hcap & Hz & Hr' & Hf)%wp_total.
  exists s'. split_and!; [done| |done]. split; rewrite ?Hcap, ?Hz; [done| |].
  - change (thinkercap s :: l ++ [a]) with ((thinkercap s :: l) ++ [a]). apply NoDup_app.
    split_and!; [done| |apply NoDup_singleton]. intros x Hx Hx2%list_elem_of_singleton. by subst x.
  - assert (Heq : zl0 = zl) by by eapply zone_inv_unique.
    subst zl0. exists zl. split; [done|].
    intros b [Hb|Hb%list_elem_of_singleton]%elem_of_app; [by apply Hl|by subst b].
Qed.

(** A list with one thinker, in the block that [demo1] has allocated. *)
Definition demo_list : tstate :=
  mkTs 500 {[ 500 := OCap (mkThinker 1096 1096 0); 1096 := OOther (mkThinker 500 500 7) ]} demo1.

Definition demo_empty : tstate :=
  mkTs 500 {[ 500 := OCap (mkThinker 500 500 0); 1096 := OOther (mkThinker 0 0 7) ]} demo1.

Lemma demo1_live : ¬ is_free (z_mem demo1) 1056.
Proof. intros (h & Hh & Ht). vm_compute in Hh. by simplify_eq. Qed.

Lemma demo_list_inv : tinv demo_list [1096].
Proof.
  split.
  - eexists. split_and!; [reflexivity..|]. eexists. split_and!; [reflexivity..|done].
  - apply NoDup_cons. split; [set_solver|apply NoDup_singleton].
  - destruct demo1_inv as [l' INV]. exists (1056 :: l'). split; [exact INV|].
    intros a Ha%list_elem_of_singleton. subst a. split; [left|apply demo1_live].
Qed.

Lemma demo_empty_inv : tinv demo_empty [].
Proof.
  split.
  - eexists. split_and!; reflexivity.
  - apply NoDup_singleton.
  - destruct demo1_inv as [l' INV]. exists (1056 :: l'). split; [exact INV|]. set_solver.
Qed.

(** A thinker function that does nothing. *)
Definition call_nothing (f a : Z) : TM unit := mret tt.

Lemma call_nothing_ok : call_ok call_nothing never.
Proof.
  intros s l a o INV _ _ _ _. unfold call_nothing. wp_simp. split_and!; [done..|].
  exists []. by rewrite app_nil_r.
Qed.


Lemma P_AddThinker_spec_witness :
  ∃ s', P_AddThinker 1096 demo_empty = Ok (tt, s') ∧ tinv s' [1096].
Proof.
  destruct demo1_inv as [l' INV].
  destruct (P_AddThinker_spec demo_empty [] 1096 (1056 :: l') demo_empty_inv) as (s' & H & H' & _).
  - eexists. reflexivity.
  - intros Hin%list_elem_of_singleton. discriminate Hin.
  - exact INV.
  - left.
  - exact demo1_live.
  - exists s'. split; [exact H|exact H'].
Defined.
