(* ===== verification/SaveGame.v ===== *)
(** * Saving and loading a game

    Models the archive functions of userspace/programs/doom/src/p_saveg.c: the header, the
    players, the sectors and lines of the level, the end marker, and the thinkers and specials
    that are written; and [G_DoSaveGame] of g_game.c.  The level is the arrays [sectors],
    [lines] and [sides] with the fields these functions use. *)
From S2P Require Import Prelude Dll Zone SaveFile SaveStruct Thinkers.

Definition SAVEGAME_EOF : Z := 0x1d.
Definition VERSIONSIZE : nat := 16.
Definition SAVESTRINGSIZE : nat := 24.
Definition FRACBITS : Z := 16.
Definition SAVEGAMESIZE : Z := 0x2c000.

(** ** The header *)

Record header : Type := mkHeader {
  gameskill : Z;
  gameepisode : Z;
  gamemap : Z;
  playeringame : list Z;
  leveltime : Z;
}.

Inductive GameVersion_t : Type :=
| exe_doom_1_2 | exe_doom_1_666 | exe_doom_1_7 | exe_doom_1_8 | exe_doom_1_9
| exe_hacx | exe_ultimate | exe_final | exe_final2 | exe_chex
| exe_heretic_1_3 | exe_hexen_1_1 | exe_strife_1_2 | exe_strife_1_31.

Definition G_VanillaVersionCode (gameversion : GameVersion_t) : res Z :=
  match gameversion with
  | exe_doom_1_2 => Stop (Panic "Doom 1.2 does not have a version code!")
  | exe_doom_1_666 => Ok 106
  | exe_doom_1_7 => Ok 107
  | exe_doom_1_8 => Ok 108
  | _ => Ok 109
  end.

(** The decimal digits of a positive number below 1000, as [%i] prints it. *)
Definition decimal (n : Z) : list Z :=
  if n <? 10 then [48 + n]
  else if n <? 100 then [48 + n / 10; 48 + n mod 10]
  else [48 + n / 100; 48 + (n / 10) mod 10; 48 + n mod 10].

(** The buffer [M_snprintf(name, VERSIONSIZE, "version %i", code)] fills, zeroed before. *)
Definition version_name (code : Z) : list Z :=
  let text := take (VERSIONSIZE - 1) ([118; 101; 114; 115; 105; 111; 110; 32] ++ decimal code) in
  text ++ repeat 0 (VERSIONSIZE - length text).

Fixpoint write_bytes (l : list Z) : WM unit :=
  match l with [] => mret tt | b :: l => saveg_write8 b;; write_bytes l end.

Fixpoint read_bytes (n : nat) : RM (list Z) :=
  match n with O => mret [] | S n => b ← saveg_read8; l ← read_bytes n; mret (b :: l) end.

Definition lift_res {S A} (r : res A) : M S A :=
  match r with Ok a => mret a | Stop e => stopM e end.

(** [description] is a C string: its characters up to the terminator. *)
Definition P_WriteSaveGameHeader (gameversion : GameVersion_t) (description : list Z) (h : header)
    : WM unit :=
  write_bytes description;;
  write_n (SAVESTRINGSIZE - length description) 0;;
  code ← lift_res (G_VanillaVersionCode gameversion);
  write_bytes (version_name code);;
  saveg_write8 (gameskill h);;
  saveg_write8 (gameepisode h);;
  saveg_write8 (gamemap h);;
  write_bytes (playeringame h);;
  saveg_write8 (Z.land (Z.shiftr (leveltime h) 16) 0xff);;
  saveg_write8 (Z.land (Z.shiftr (leveltime h) 8) 0xff);;
  saveg_write8 (Z.land (leveltime h) 0xff).

(** [strcmp(a, b) == 0]; running off the end of [a] is not reached when [b] is terminated. *)
Fixpoint streq (a b : list Z) : bool :=
  match a, b with
  | x :: a, y :: b => (x =? y) && ((x =? 0) || streq a b)
  | _, _ => false
  end.

(** [None] is the result [false]: a bad version; the globals are then not changed. *)
Definition P_ReadSaveGameHeader (gameversion : GameVersion_t) : RM (option header) :=
  read_n SAVESTRINGSIZE;;
  read_vcheck ← read_bytes VERSIONSIZE;
  code ← lift_res (G_VanillaVersionCode gameversion);
  if negb (streq read_vcheck (version_name code)) then mret None
  else
    skill ← saveg_read8;
    episode ← saveg_read8;
    map ← saveg_read8;
    ingame ← read_bytes MAXPLAYERS;
    a ← saveg_read8;
    b ← saveg_read8;
    c ← saveg_read8;
    mret (Some (mkHeader skill episode map ingame (Z.shiftl a 16 + Z.shiftl b 8 + c))).

Definition P_ReadSaveGameEOF : RM bool := value ← saveg_read8; mret (value =? SAVEGAME_EOF).

Definition P_WriteSaveGameEOF : WM unit := saveg_write8 SAVEGAME_EOF.

(** ** Players *)

Fixpoint P_ArchivePlayers (playeringame : list Z) (players : list player_t) : WM unit :=
  match playeringame, players with
  | ig :: playeringame, pl :: players =>
      (if ig =? 0 then mret tt else saveg_write_pad;; saveg_write_player_t pl);;
      P_ArchivePlayers playeringame players
  | _, _ => mret tt
  end.

(** [players[i].mo = players[i].message = players[i].attacker = NULL] *)
Definition detach (p : player_t) : player_t :=
  mkPlayer 0 (pl_playerstate p) (pl_cmd p) (pl_viewz p) (pl_viewheight p) (pl_deltaviewheight p)
    (pl_bob p) (pl_health p) (pl_armorpoints p) (pl_armortype p) (pl_powers p) (pl_cards p)
    (pl_backpack p) (pl_frags p) (pl_readyweapon p) (pl_pendingweapon p) (pl_weaponowned p)
    (pl_ammo p) (pl_maxammo p) (pl_attackdown p) (pl_usedown p) (pl_cheats p) (pl_refire p)
    (pl_killcount p) (pl_itemcount p) (pl_secretcount p) 0 (pl_damagecount p) (pl_bonuscount p)
    0 (pl_extralight p) (pl_fixedcolormap p) (pl_colormap p) (pl_psprites p) (pl_didsecret p).

Fixpoint P_UnArchivePlayers (playeringame : list Z) (players : list player_t) : RM (list player_t) :=
  match playeringame, players with
  | ig :: playeringame, pl :: players =>
      pl ← (if ig =? 0 then mret pl
            else saveg_read_pad;; p ← saveg_read_player_t pl; mret (detach p));
      players ← P_UnArchivePlayers playeringame players;
      mret (pl :: players)
  | _, _ => mret []
  end.

(** ** Sectors, lines and sides *)

Record sector_t : Type := mkSector {
  floorheight : Z;
  ceilingheight : Z;
  floorpic : Z;
  ceilingpic : Z;
  lightlevel : Z;
  sec_special : Z;
  sec_tag : Z;
  soundtarget : Z;
  specialdata : Z;
}.

Record line_t : Type := mkLine {
  li_flags : Z;
  li_special : Z;
  li_tag : Z;
  sidenum : list Z;
}.

Record side_t : Type := mkSide {
  textureoffset : Z;
  rowoffset : Z;
  toptexture : Z;
  bottomtexture : Z;
  midtexture : Z;
  si_sector : Z;
}.

Record level : Type := mkLevel {
  sectors : list sector_t;
  lines : list line_t;
  sides : list side_t;
}.

Definition write_sector (sec : sector_t) : WM unit :=
  saveg_write16 (Z.shiftr (floorheight sec) FRACBITS);;
  saveg_write16 (Z.shiftr (ceilingheight sec) FRACBITS);;
  saveg_write16 (floorpic sec);;
  saveg_write16 (ceilingpic sec);;
  saveg_write16 (lightlevel sec);;
  saveg_write16 (sec_special sec);;
  saveg_write16 (sec_tag sec).

Definition read_sector : RM sector_t :=
  fh ← saveg_read16;
  ch ← saveg_read16;
  fp ← saveg_read16;
  cp ← saveg_read16;
  ll ← saveg_read16;
  sp ← saveg_read16;
  tg ← saveg_read16;
  mret (mkSector (i32 (Z.shiftl fh FRACBITS)) (i32 (Z.shiftl ch FRACBITS)) fp cp ll sp tg 0 0).

Definition write_side (si : side_t) : WM unit :=
  saveg_write16 (Z.shiftr (textureoffset si) FRACBITS);;
  saveg_write16 (Z.shiftr (rowoffset si) FRACBITS);;
  saveg_write16 (toptexture si);;
  saveg_write16 (bottomtexture si);;
  saveg_write16 (midtexture si).

Definition read_side (si : side_t) : RM side_t :=
  tx ← saveg_read16;
  ro ← saveg_read16;
  tt_ ← saveg_read16;
  bt ← saveg_read16;
  mt ← saveg_read16;
  mret (mkSide (i32 (Z.shiftl tx FRACBITS)) (i32 (Z.shiftl ro FRACBITS)) tt_ bt mt (si_sector si)).

(** [sides[n]], for an [n] that is not -1; outside the array it is a bad access. *)
Definition side_at {S} (sd : list side_t) (n : Z) : M S side_t :=
  if n <? 0 then stopM BadAccess
  else match sd !! Z.to_nat n with Some si => mret si | None => stopM BadAccess end.

Fixpoint write_line_sides (sd : list side_t) (nums : list Z) : WM unit :=
  match nums with
  | [] => mret tt
  | n :: nums =>
      (if n =? -1 then mret tt else si ← side_at sd n; write_side si);;
      write_line_sides sd nums
  end.

Fixpoint read_line_sides (sd : list side_t) (nums : list Z) : RM (list side_t) :=
  match nums with
  | [] => mret sd
  | n :: nums =>
      sd ← (if n =? -1 then mret sd
            else si ← side_at sd n; si ← read_side si; mret (<[Z.to_nat n := si]> sd));
      read_line_sides sd nums
  end.

Fixpoint write_sectors (l : list sector_t) : WM unit :=
  match l with [] => mret tt | sec :: l => write_sector sec;; write_sectors l end.

Fixpoint read_sectors (l : list sector_t) : RM (list sector_t) :=
  match l with
  | [] => mret []
  | _ :: l => sec ← read_sector; l ← read_sectors l; mret (sec :: l)
  end.

Fixpoint write_lines (sd : list side_t) (l : list line_t) : WM unit :=
  match l with
  | [] => mret tt
  | li :: l =>
      saveg_write16 (li_flags li);;
      saveg_write16 (li_special li);;
      saveg_write16 (li_tag li);;
      write_line_sides sd (sidenum li);;
      write_lines sd l
  end.

Fixpoint read_lines (sd : list side_t) (l : list line_t) : RM (list line_t * list side_t) :=
  match l with
  | [] => mret ([], sd)
  | li :: l =>
      fl ← saveg_read16;
      sp ← saveg_read16;
      tg ← saveg_read16;
      sd ← read_line_sides sd (sidenum li);
      r ← read_lines sd l;
      mret (mkLine fl sp tg (sidenum li) :: r.1, r.2)
  end.

Definition P_ArchiveWorld (lv : level) : WM unit :=
  write_sectors (sectors lv);;
  write_lines (sides lv) (lines lv).

Definition P_UnArchiveWorld (lv : level) : RM level :=
  secs ← read_sectors (sectors lv);
  r ← read_lines (sides lv) (lines lv);
  mret (mkLevel secs r.1 r.2).

(** ** Thinkers *)

Definition tc_end : Z := 0.
Definition tc_mobj : Z := 1.

Definition tc_ceiling : Z := 0.
Definition tc_door : Z := 1.
Definition tc_floor : Z := 2.
Definition tc_plat : Z := 3.
Definition tc_flash : Z := 4.
Definition tc_strobe : Z := 5.
Definition tc_glow : Z := 6.
Definition tc_endspecials : Z := 7.

(** Where the linker put the thinker functions. *)
Record text : Type := mkText {
  P_MobjThinker : Z;
  T_MoveCeiling : Z;
  T_VerticalDoor : Z;
  T_MoveFloor : Z;
  T_PlatRaise : Z;
  T_LightFlash : Z;
  T_StrobeFlash : Z;
  T_Glow : Z;
}.

(** One record of the file: its class, then the structure on a four-byte boundary. *)
Definition write_record (tclass : Z) (body : WM unit) : WM unit :=
  saveg_write8 tclass;; saveg_write_pad;; body.

Section archive.
Context (tx : text) (cap : Z) (objs : gmap Z tobj) (activeceilings : list Z).

(** The casts to [mobj_t] and the like: a structure of another kind is a bad access. *)
Definition archive_mobj (o : tobj) : WM unit :=
  match o with OMobj m => write_record tc_mobj (saveg_write_mobj_t m) | _ => stopM BadAccess end.

Fixpoint ArchiveThinkersLoop (fuel : nat) (th : Z) : WM unit :=
  match fuel with
  | O => stopM NoFuel
  | S fuel =>
      if th =? cap then mret tt
      else
        match objs !! th with
        | None => stopM BadAccess
        | Some o =>
            (if t_function o =? P_MobjThinker tx then archive_mobj o else mret tt);;
            ArchiveThinkersLoop fuel (t_next o)
        end
  end.

Definition P_ArchiveThinkers : WM unit :=
  match objs !! cap with
  | None => stopM BadAccess
  | Some c => ArchiveThinkersLoop (S (size objs)) (t_next c);; saveg_write8 tc_end
  end.

Definition archive_ceiling (o : tobj) : WM unit :=
  match o with OCeiling m => write_record tc_ceiling (saveg_write_ceiling_t m) | _ => stopM BadAccess end.
Definition archive_door (o : tobj) : WM unit :=
  match o with ODoor m => write_record tc_door (saveg_write_vldoor_t m) | _ => stopM BadAccess end.
Definition archive_floor (o : tobj) : WM unit :=
  match o with OFloor m => write_record tc_floor (saveg_write_floormove_t m) | _ => stopM BadAccess end.
Definition archive_plat (o : tobj) : WM unit :=
  match o with OPlat m => write_record tc_plat (saveg_write_plat_t m) | _ => stopM BadAccess end.
Definition archive_flash (o : tobj) : WM unit :=
  match o with OFlash m => write_record tc_flash (saveg_write_lightflash_t m) | _ => stopM BadAccess end.
Definition archive_strobe (o : tobj) : WM unit :=
  match o with OStrobe m => write_record tc_strobe (saveg_write_strobe_t m) | _ => stopM BadAccess end.
Definition archive_glow (o : tobj) : WM unit :=
  match o with OGlow m => write_record tc_glow (saveg_write_glow_t m) | _ => stopM BadAccess end.

(** The chain of tests on [th->function]. *)
Definition archive_special (th : Z) (o : tobj) : WM unit :=
  let f := t_function o in
  if f =? 0 then if bool_decide (th ∈ activeceilings) then archive_ceiling o else mret tt
  else if f =? T_MoveCeiling tx then archive_ceiling o
  else if f =? T_VerticalDoor tx then archive_door o
  else if f =? T_MoveFloor tx then archive_floor o
  else if f =? T_PlatRaise tx then archive_plat o
  else if f =? T_LightFlash tx then archive_flash o
  else if f =? T_StrobeFlash tx then archive_strobe o
  else if f =? T_Glow tx then archive_glow o
  else mret tt.

Fixpoint ArchiveSpecialsLoop (fuel : nat) (th : Z) : WM unit :=
  match fuel with
  | O => stopM NoFuel
  | S fuel =>
      if th =? cap then mret tt
      else
        match objs !! th with
        | None => stopM BadAccess
        | Some o => archive_special th o;; ArchiveSpecialsLoop fuel (t_next o)
        end
  end.

Definition P_ArchiveSpecials : WM unit :=
  match objs !! cap with
  | None => stopM BadAccess
  | Some c => ArchiveSpecialsLoop (S (size objs)) (t_next c);; saveg_write8 tc_endspecials
  end.
End archive.

(** ** [G_DoSaveGame]

    The file system holds, by name, the bytes of each file; [opens] says which names can be
    opened for writing and [room] how many bytes the device takes. *)
Record game : Type := mkGame {
  g_version : GameVersion_t;
  g_text : text;
  g_header : header;
  g_players : list player_t;
  g_level : level;
  g_cap : Z;
  g_objs : gmap Z tobj;
  g_activeceilings : list Z;
  g_limit : bool;
}.

Record disk : Type := mkDisk {
  d_files : gmap string (list Z);
  d_opens : string → bool;
  d_room : nat;
}.

(** Everything that is written between [fopen] and [fclose]. *)
Definition write_game (g : game) (description : list Z) : WM unit :=
  P_WriteSaveGameHeader (g_version g) description (g_header g);;
  P_ArchivePlayers (playeringame (g_header g)) (g_players g);;
  P_ArchiveWorld (g_level g);;
  P_ArchiveThinkers (g_text g) (g_cap g) (g_objs g);;
  P_ArchiveSpecials (g_text g) (g_cap g) (g_objs g) (g_activeceilings g);;
  P_WriteSaveGameEOF;;
  f ← getS;
  if g_limit g && (SAVEGAMESIZE <? Z.of_nat (length (w_out f)))
  then stopM (Panic "Savegame buffer overrun") else mret tt.

(** [fopen(name, "wb")] truncates; [remove] and [rename] follow. *)
Definition G_DoSaveGame (g : game) (description : list Z)
    (temp_file savegame_file recovery_file : string) : M disk unit :=
  d ← getS;
  let name := if d_opens d temp_file then temp_file else recovery_file in
  if negb (d_opens d name) then
    stopM (Panic "Failed to open either file to write savegame.")
  else
    match write_game g description (mkW [] (d_room d) false) with
    | Stop e => stopM e
    | Ok (_, f) =>
        putS (mkDisk (<[name := w_out f]> (d_files d)) (d_opens d) (w_room f));;
        if negb (d_opens d temp_file) then
          stopM (Panic "Failed to open savegame file for writing; saved for recovery.")
        else
          modS (λ d, mkDisk (delete savegame_file (d_files d)) (d_opens d) (d_room d));;
          modS (λ d, match d_files d !! temp_file with
                     | Some bs => mkDisk (<[savegame_file := bs]> (delete temp_file (d_files d)))
                                    (d_opens d) (d_room d)
                     | None => d
                     end)
    end.
