(* ===== verification/SaveProofs.v ===== *)
(** * What a savegame preserves

    The round trips of [SaveStruct] and [SaveGame]: what p_saveg.c writes, it reads back, at any
    position of the file; and what does not survive. *)
From S2P Require Import Prelude Dll Zone SaveFile SaveStruct Thinkers SaveGame.

(** ** Sequencing *)

Lemma codec_ext {A} w w' (r r' : RM A) p n a :
  (∀ f, w f = w' f) → (∀ f, r f = r' f) → codec w r p n a → codec w' r' p n a.
Proof.
  intros Hw Hr (bs & ? & He & Hc). exists bs. split_and!; [done| |].
  - intros f. rewrite <- Hw. apply He.
  - intros f post. rewrite <- Hr. apply Hc.
Qed.

Lemma seq_assoc {S A} (m1 m2 : M S unit) (m3 : M S A) s :
  ((m1;; m2);; m3) s = (m1;; m2;; m3) s.
Proof. unfold mbind, M_bind. by destruct (m1 s) as [[? ?]|]. Qed.

Lemma codec_skip {B} w1 w2 (k : RM B) n1 n2 p b r :
  codec w1 r p n1 tt → codec w2 k (p + n1) n2 b → codec (w1;; w2) (r;; k) p (n1 + n2) b.
Proof. intros H1 H2. by eapply (codec_seq _ _ _ (λ _, k)). Qed.

Lemma ret_bind {S A B} (a : A) (k : A → M S B) : mret a ≫= k = k a.
Proof. reflexivity. Qed.

(** ** The header *)

Lemma emits_bytes l p : Forall (in_u 8) l → emits (write_bytes l) p l.
Proof.
  intros Hl. revert p. induction Hl as [|b l Hb Hl IH]; intros p; [apply emits_nil|].
  cbn [write_bytes]. apply (emits_seq _ _ _ [b]); [|apply IH].
  rewrite <- (wrap_u_small 8 b) at 2 by done. apply emits_write8.
Qed.

Lemma consumes_bytes l p : Forall (in_u 8) l → consumes (read_bytes (length l)) p l l.
Proof.
  intros Hl. revert p. induction Hl as [|b l Hb Hl IH]; intros p; [apply consumes_ret|].
  cbn [length read_bytes]. apply (consumes_bind _ _ _ [b] _ b).
  - rewrite <- (wrap_u_small 8 b) at 2 by done. apply consumes_read8.
  - rewrite <- (app_nil_r l) at 2. eapply consumes_bind; [apply IH|apply consumes_ret].
Qed.

Lemma codec_bytes l n p :
  length l = n → Forall (in_u 8) l → codec (write_bytes l) (read_bytes n) p n l.
Proof. intros <- Hl. exists l. split_and!; [done|by apply emits_bytes|by apply consumes_bytes]. Qed.

Lemma codec_description d p :
  Forall (in_u 8) d → (length d ≤ SAVESTRINGSIZE)%nat →
  codec (write_bytes d;; write_n (SAVESTRINGSIZE - length d) 0) (read_n SAVESTRINGSIZE) p
    SAVESTRINGSIZE tt.
Proof.
  intros Hd Hlen. exists (d ++ repeat (u8 0) (SAVESTRINGSIZE - length d)).
  assert (Hl : length (d ++ repeat (u8 0) (SAVESTRINGSIZE - length d)) = SAVESTRINGSIZE)
    by (rewrite length_app, repeat_length; lia).
  split_and!; [done| |by apply consumes_n].
  apply emits_seq; [by apply emits_bytes|apply emits_n].
Qed.

Definition header_ok (h : header) : Prop :=
  Forall (in_u 8) [gameskill h; gameepisode h; gamemap h] ∧
  length (playeringame h) = MAXPLAYERS ∧ Forall (in_u 8) (playeringame h).

(** The level time is stored in 24 bits. *)
Definition saved_header (h : header) : header :=
  mkHeader (gameskill h) (gameepisode h) (gamemap h) (playeringame h) (leveltime h `mod` 2 ^ 24).

Lemma leveltime_bytes t :
  Z.shiftl (u8 (Z.land (Z.shiftr t 16) 0xff)) 16 + Z.shiftl (u8 (Z.land (Z.shiftr t 8) 0xff)) 8 +
  u8 (Z.land t 0xff) = t `mod` 2 ^ 24.
Proof.
  rewrite !byte_of, land_ff, !Z.shiftl_mul_pow2 by lia.
  replace (u8 (t `mod` 256)) with (t `mod` 256) by (symmetry; by apply Z.mod_mod).
  change (2 ^ 8) with 256. change (2 ^ 16) with (256 * 256). change (2 ^ 24) with (256 * (256 * 256)).
  rewrite !Z.rem_mul_r, <- !Z.div_div by lia. lia.
Qed.

Lemma version_name_ok v code :
  G_VanillaVersionCode v = Ok code →
  length (version_name code) = VERSIONSIZE ∧ Forall (in_u 8) (version_name code) ∧
  streq (version_name code) (version_name code) = true.
Proof.
  intros H. assert (code ∈ [106; 107; 108; 109]) as Hc by (destruct v; cbn in H; simplify_eq; set_solver).
  repeat (apply elem_of_cons in Hc as [->|Hc]; [vm_compute; repeat constructor; done|]).
  by apply not_elem_of_nil in Hc.
Qed.

Lemma codec_header v code d h p :
  G_VanillaVersionCode v = Ok code →
  Forall (in_u 8) d → (length d ≤ SAVESTRINGSIZE)%nat → header_ok h →
  codec (P_WriteSaveGameHeader v d h) (P_ReadSaveGameHeader v) p 50 (Some (saved_header h)).
Proof.
  intros Hv Hd Hlen Hok. unfold header_ok in Hok.
  destruct (version_name_ok v code Hv) as (Hn & Hb & Hs).
  unfold P_WriteSaveGameHeader, P_ReadSaveGameHeader. rewrite Hv. cbn [lift_res].
  eapply codec_ext; [intros f; apply seq_assoc|intros f; reflexivity|].
  apply (codec_skip _ _ _ 24 26); [by apply codec_description|].
  rewrite ret_bind. apply (codec_seq _ _ _ _ _ 16 10 (version_name code)); [by apply codec_bytes|].
  rewrite ret_bind, Hs. cbn [negb]. field_hyps.
  eapply (codec_seq _ _ _ _ _ 1 9); [apply codec_8|].
  eapply (codec_seq _ _ _ _ _ 1 8); [apply codec_8|].
  eapply (codec_seq _ _ _ _ _ 1 7); [apply codec_8|].
  eapply (codec_seq _ _ _ _ _ 4 3); [by apply codec_bytes|].
  eapply (codec_seq _ _ _ _ _ 1 2); [apply codec_8|].
  eapply (codec_seq _ _ _ _ _ 1 1); [apply codec_8|].
  eapply codec_map; [apply codec_8|]. unfold saved_header. do 2 f_equal.
  - by apply wrap_u_small.
  - by apply wrap_u_small.
  - by apply wrap_u_small.
  - apply leveltime_bytes.
Qed.

(** ** Players *)

(** The players after loading: those in the game are read back, with their pointers into the
    old level cleared; the others stay. *)
Fixpoint restored_players (ingame : list Z) (saved old : list player_t) : list player_t :=
  match ingame, saved, old with
  | ig :: ingame, pl :: saved, o :: old =>
      (if ig =? 0 then o else detach (saved_player (pl_cmd o) pl)) :: restored_players ingame saved old
  | _, _, _ => []
  end.

Lemma codec_players ig pls olds p :
  length ig = length pls → length olds = length pls → Forall player_ok pls →
  ∃ n, codec (P_ArchivePlayers ig pls) (P_UnArchivePlayers ig olds) p n (restored_players ig pls olds).
Proof.
  intros H1 H2 Hok. revert ig olds p H1 H2.
  induction Hok as [|pl pls Hpl Hok IH]; intros [|i ig] [|o olds] p [=] [=].
  { exists 0%nat. apply codec_nil. }
  cbn [P_ArchivePlayers P_UnArchivePlayers restored_players].
  destruct (i =? 0).
  - destruct (IH ig olds p) as [n Hn]; [done..|]. exists n.
    change (P_ArchivePlayers ig pls) with (mret tt;; P_ArchivePlayers ig pls) in Hn.
    rewrite ret_bind. eapply codec_map; [exact Hn|done].
  - destruct (IH ig olds (p + (padding p + 280))%nat) as [n Hn]; [done..|].
    exists ((padding p + 280) + n)%nat. eapply codec_seq.
    + apply codec_skip; [apply codec_pad|]. eapply codec_map; [by apply codec_player|done].
    + eapply codec_map; [exact Hn|done].
Qed.

(** ** The level *)

Definition sector_ok (sec : sector_t) : Prop :=
  Forall (in_s 32) [floorheight sec; ceilingheight sec] ∧
  Forall (in_s 16) [floorpic sec; ceilingpic sec; lightlevel sec; sec_special sec; sec_tag sec].

(** Heights are stored without their fraction. *)
Definition whole (x : Z) : Z := x - x `mod` 2 ^ FRACBITS.

Definition saved_sector (sec : sector_t) : sector_t :=
  mkSector (whole (floorheight sec)) (whole (ceilingheight sec)) (floorpic sec) (ceilingpic sec)
    (lightlevel sec) (sec_special sec) (sec_tag sec) 0 0.

Lemma whole_stored x : in_s 32 x → i32 (Z.shiftl (i16 (Z.shiftr x FRACBITS)) FRACBITS) = whole x.
Proof.
  unfold in_s, whole, FRACBITS. intros Hx. rewrite Z.shiftr_div_pow2, Z.shiftl_mul_pow2 by lia.
  pose proof (Z.div_mod x (2 ^ 16) ltac:(lia)). pose proof (Z.mod_pos_bound x (2 ^ 16) ltac:(lia)).
  rewrite (wrap_s_small 16) by (unfold in_s; lia). rewrite (wrap_s_small 32) by (unfold in_s; lia). lia.
Qed.

Lemma codec_sector sec p : sector_ok sec → codec (write_sector sec) read_sector p 14 (saved_sector sec).
Proof.
  intros Hok. unfold sector_ok, write_sector, read_sector, saved_sector in *. storable.
  all: by apply whole_stored.
Qed.

Definition side_ok (si : side_t) : Prop :=
  Forall (in_s 32) [textureoffset si; rowoffset si] ∧
  Forall (in_s 16) [toptexture si; bottomtexture si; midtexture si].

(** The sector a side faces is not part of the file. *)
Definition saved_side (old si : side_t) : side_t :=
  mkSide (whole (textureoffset si)) (whole (rowoffset si)) (toptexture si) (bottomtexture si)
    (midtexture si) (si_sector old).

Lemma codec_side old si p : side_ok si → codec (write_side si) (read_side old) p 10 (saved_side old si).
Proof.
  intros Hok. unfold side_ok, write_side, read_side, saved_side in *. storable.
  all: by apply whole_stored.
Qed.

Definition sidenum_ok (sd : list side_t) (n : Z) : Prop := n = -1 ∨ 0 ≤ n < Z.of_nat (length sd).

(** The sides after the sides of a line have been read. *)
Fixpoint restore_line (sd : list side_t) (nums : list Z) (old : list side_t) : list side_t :=
  match nums with
  | [] => old
  | n :: nums =>
      restore_line sd nums
        (if n =? -1 then old
         else match sd !! Z.to_nat n, old !! Z.to_nat n with
              | Some si, Some o => <[Z.to_nat n := saved_side o si]> old
              | _, _ => old
              end)
  end.

Lemma restore_line_length sd nums old : length (restore_line sd nums old) = length old.
Proof.
  revert old. induction nums as [|n nums IH]; intros old; [done|]. cbn. rewrite IH.
  repeat case_match; by rewrite ?length_insert.
Qed.

Lemma side_at_ok {S} sd n : 0 ≤ n < Z.of_nat (length sd) →
  ∃ si, sd !! Z.to_nat n = Some si ∧ side_at (S := S) sd n = mret si.
Proof.
  intros Hn. assert (is_Some (sd !! Z.to_nat n)) as [si Hsi] by (apply lookup_lt_is_Some; lia).
  exists si. split; [done|]. unfold side_at. rewrite Hsi.
  destruct (Z.ltb_spec n 0); [lia|done].
Qed.

Lemma codec_line_sides sd old nums p :
  Forall side_ok sd → length old = length sd → Forall (sidenum_ok sd) nums →
  ∃ n, codec (write_line_sides sd nums) (read_line_sides old nums) p n (restore_line sd nums old).
Proof.
  intros Hsd Hlen Hn. revert old p Hlen. induction Hn as [|k nums Hk Hn IH]; intros old p Hlen.
  { exists 0%nat. apply codec_nil. }
  cbn [write_line_sides read_line_sides restore_line]. destruct (Z.eqb_spec k (-1)) as [->|Hne].
  - rewrite !ret_bind. by apply IH.
  - destruct Hk as [->|Hk]; [done|]. destruct (side_at_ok (S := wfile) sd k Hk) as (si & Hsi & ->).
    destruct (side_at_ok (S := rfile) old k) as (o & Ho & ->); [lia|].
    rewrite Hsi, Ho, !ret_bind.
    destruct (IH (<[Z.to_nat k := saved_side o si]> old) (p + 10)%nat) as [n Hcod];
      [by rewrite length_insert|]. exists (10 + n)%nat.
    eapply codec_seq; [|exact Hcod]. eapply codec_map; [|done]. apply codec_side.
    by eapply Forall_lookup_1.
Qed.

Definition line_ok (sd : list side_t) (li : line_t) : Prop :=
  Forall (in_s 16) [li_flags li; li_special li; li_tag li] ∧ Forall (sidenum_ok sd) (sidenum li).

(** [ls] are the saved lines, [old] those of the freshly loaded level. *)
Fixpoint restore_sides (sd : list side_t) (ls : list line_t) (old : list side_t) : list side_t :=
  match ls with [] => old | li :: ls => restore_sides sd ls (restore_line sd (sidenum li) old) end.

Lemma codec_lines sd ls olds old p :
  Forall side_ok sd → length old = length sd → Forall (line_ok sd) ls →
  sidenum <$> olds = sidenum <$> ls →
  ∃ n, codec (write_lines sd ls) (read_lines old olds) p n (ls, restore_sides sd ls old).
Proof.
  intros Hsd Hlen Hls. revert olds old p Hlen.
  induction Hls as [|li ls Hli Hls IH]; intros [|lo olds] old p Hlen; cbn; intros [=].
  { exists 0%nat. apply codec_nil. }
  destruct Hli as [Hf Hnums]. rewrite H0.
  destruct (codec_line_sides sd old (sidenum li) (p + 2 + 2 + 2) Hsd Hlen Hnums) as [n1 Hc1].
  destruct (IH olds (restore_line sd (sidenum li) old) (p + 2 + 2 + 2 + n1)%nat) as [n2 Hc2];
    [by rewrite restore_line_length|done|].
  exists (2 + (2 + (2 + (n1 + n2))))%nat. field_hyps.
  eapply codec_seq; [apply codec_16|]. eapply codec_seq; [apply codec_16|].
  eapply codec_seq; [apply codec_16|]. eapply codec_seq; [exact Hc1|].
  eapply codec_map; [exact Hc2|]. cbn. rewrite !wrap_s_small by done. by destruct li.
Qed.

Lemma codec_sectors l old p :
  Forall sector_ok l → length old = length l →
  codec (write_sectors l) (read_sectors old) p (14 * length l) (saved_sector <$> l).
Proof.
  intros Hl. revert old p. induction Hl as [|sec l Hs Hl IH]; intros [|o old] p [=]; [apply codec_nil|].
  cbn [write_sectors read_sectors]. eapply codec_eq.
  - eapply codec_seq; [by apply codec_sector|]. eapply codec_map; [by apply IH|done].
  - cbn. lia.
  - done.
Qed.

Definition referenced (k : nat) (ls : list line_t) : Prop :=
  ∃ li, li ∈ ls ∧ Z.of_nat k ∈ sidenum li.

#[export] Instance referenced_dec k ls : Decision (referenced k ls).
Proof.
  destruct (decide (Exists (λ li, Z.of_nat k ∈ sidenum li) ls)) as [H|H];
    [left|right]; unfold referenced; by rewrite <- Exists_exists.
Defined.

Lemma restore_line_lookup sd nums old k o si :
  old !! k = Some o → sd !! k = Some si → Forall (λ n, -1 ≤ n) nums →
  restore_line sd nums old !! k =
    Some (if decide (Z.of_nat k ∈ nums) then saved_side o si else o).
Proof.
  intros Ho Hsi Hnums. revert old o Ho. induction Hnums as [|n nums Hn Hnums IH]; intros old o Ho.
  { cbn. rewrite decide_False by apply not_elem_of_nil. done. }
  cbn [restore_line]. destruct (Z.eqb_spec n (-1)) as [->|Hne].
  { rewrite (IH old o Ho). f_equal. apply decide_ext. rewrite elem_of_cons.
    split; [by right|]. intros [?|?]; [lia|done]. }
  destruct (decide (Z.to_nat n = k)) as [<-|Hk].
  - rewrite Hsi, Ho, (IH _ (saved_side o si)) by (apply list_lookup_insert_eq, (lookup_lt_Some _ _ _ Ho)).
    rewrite (decide_True (P := _ ∈ n :: nums)) by (rewrite Z2Nat.id by lia; left).
    by destruct (decide _).
  - assert (Hskip : ∀ old', old' !! k = Some o →
      restore_line sd nums old' !! k =
        Some (if decide (Z.of_nat k ∈ n :: nums) then saved_side o si else o)).
    { intros old' Ho'. rewrite (IH old' o Ho'). f_equal. apply decide_ext. rewrite elem_of_cons.
      split; [by right|]. intros [?|?]; [lia|done]. }
    repeat case_match; apply Hskip; by rewrite ?list_lookup_insert_ne by done.
Qed.

Lemma restore_sides_lookup sd ls old k o si :
  old !! k = Some o → sd !! k = Some si → Forall (λ li, Forall (λ n, -1 ≤ n) (sidenum li)) ls →
  restore_sides sd ls old !! k = Some (if decide (referenced k ls) then saved_side o si else o).
Proof.
  intros Ho Hsi Hls. revert old o Ho. induction Hls as [|li ls Hli Hls IH]; intros old o Ho.
  { cbn. rewrite decide_False; [done|]. intros (li & ?%not_elem_of_nil & _). done. }
  cbn [restore_sides]. erewrite IH by (by apply restore_line_lookup). f_equal.
  destruct (decide (Z.of_nat k ∈ sidenum li)) as [Hk|Hk].
  - rewrite (decide_True (P := referenced k (li :: ls))) by (exists li; split; [left|done]).
    by destruct (decide (referenced k ls)).
  - apply decide_ext. unfold referenced. setoid_rewrite elem_of_cons. naive_solver.
Qed.

(** The level after loading. *)
Record restored_level (lv old lv' : level) : Prop := {
  rl_sectors : sectors lv' = saved_sector <$> sectors lv;
  rl_lines : lines lv' = lines lv;
  rl_sides k o si : sides old !! k = Some o → sides lv !! k = Some si →
    sides lv' !! k = Some (if decide (referenced k (lines lv)) then saved_side o si else o);
}.

Definition level_ok (lv : level) : Prop :=
  Forall sector_ok (sectors lv) ∧ Forall side_ok (sides lv) ∧ Forall (line_ok (sides lv)) (lines lv).

(** Two levels made from the same map. *)
Definition same_map (lv old : level) : Prop :=
  length (sectors old) = length (sectors lv) ∧ length (sides old) = length (sides lv) ∧
  sidenum <$> lines old = sidenum <$> lines lv.

Lemma codec_world lv old p :
  level_ok lv → same_map lv old →
  ∃ n lv', codec (P_ArchiveWorld lv) (P_UnArchiveWorld old) p n lv' ∧ restored_level lv old lv'.
Proof.
  intros (Hsec & Hsd & Hls) (Hl1 & Hl2 & Hl3).
  destruct (codec_lines (sides lv) (lines lv) (lines old) (sides old)
    (p + 14 * length (sectors lv)) Hsd Hl2 Hls Hl3) as [n Hn].
  eexists (14 * length (sectors lv) + n)%nat, _. split.
  - unfold P_ArchiveWorld, P_UnArchiveWorld. eapply codec_seq; [by apply codec_sectors|].
    eapply codec_map; [exact Hn|reflexivity].
  - split; [done|done|]. cbn. intros k o si Ho Hsi. apply restore_sides_lookup; [done..|].
    eapply Forall_impl; [exact Hls|]. intros li [_ Hli]. eapply Forall_impl; [exact Hli|].
    intros x [->|?]; lia.
Qed.

(** ** The walks over the thinkers *)

(** The archive functions at the level of the list: the thinkers in order. *)
Fixpoint archive_list (objs : gmap Z tobj) (one : Z → tobj → WM unit) (l : list Z) : WM unit :=
  match l with
  | [] => mret tt
  | th :: l =>
      match objs !! th with
      | None => stopM BadAccess
      | Some o => one th o;; archive_list objs one l
      end
  end.

Section walks.
Context (tx : text) (cap : Z) (objs : gmap Z tobj) (activeceilings : list Z) (l : list Z).
Context (Hring : tring objs cap l) (Hnd : NoDup (cap :: l)).

Definition one_mobj (th : Z) (o : tobj) : WM unit :=
  if t_function o =? P_MobjThinker tx then archive_mobj o else mret tt.

Lemma walk_step l1 th l2 : l = l1 ++ th :: l2 →
  th ≠ cap ∧ ∃ o, objs !! th = Some o ∧ t_next o = first (λ a : Z, a) l2 cap.
Proof using Hring Hnd.
  intros ->. apply NoDup_cons in Hnd as [Hc _]. split.
  - intros ->. apply Hc, elem_of_app. right; left.
  - destruct (ring_mid _ _ _ _ _ _ _ Hring) as (o & ? & _ & ?). eauto.
Qed.

Lemma ArchiveThinkersLoop_list fuel l1 l2 f :
  l = l1 ++ l2 → (length l2 < fuel)%nat →
  ArchiveThinkersLoop tx cap objs fuel (first (λ a : Z, a) l2 cap) f =
    archive_list objs one_mobj l2 f.
Proof using Hring Hnd.
  revert l1 l2 f. induction fuel as [|fuel IH]; [lia|]. intros l1 [|th l2] f Hl Hf;
    cbn [ArchiveThinkersLoop first archive_list].
  { by rewrite Z.eqb_refl. }
  destruct (walk_step _ _ _ Hl) as [Hne (o & Ho & Hn)]. apply Z.eqb_neq in Hne.
  rewrite Hne, Ho. unfold one_mobj at 2, mbind, M_bind.
  destruct ((if t_function o =? P_MobjThinker tx then archive_mobj o else mret tt) f) as [[? f']|];
    [|done]. rewrite Hn. apply (IH (l1 ++ [th])); [by rewrite <- app_assoc|cbn in Hf; lia].
Qed.

Lemma ArchiveSpecialsLoop_list fuel l1 l2 f :
  l = l1 ++ l2 → (length l2 < fuel)%nat →
  ArchiveSpecialsLoop tx cap objs activeceilings fuel (first (λ a : Z, a) l2 cap) f =
    archive_list objs (archive_special tx activeceilings) l2 f.
Proof using Hring Hnd.
  revert l1 l2 f. induction fuel as [|fuel IH]; [lia|]. intros l1 [|th l2] f Hl Hf;
    cbn [ArchiveSpecialsLoop first archive_list].
  { by rewrite Z.eqb_refl. }
  destruct (walk_step _ _ _ Hl) as [Hne (o & Ho & Hn)]. apply Z.eqb_neq in Hne.
  rewrite Hne, Ho. unfold mbind, M_bind.
  destruct (archive_special tx activeceilings th o f) as [[? f']|]; [|done].
  rewrite Hn. apply (IH (l1 ++ [th])); [by rewrite <- app_assoc|cbn in Hf; lia].
Qed.

Lemma walk_fuel : (length l < S (size objs))%nat.
Proof using Hring Hnd.
  assert (H : (length (cap :: l) ≤ size objs)%nat); [|cbn in H; lia].
  rewrite <- (size_dom (D:=gset Z)), <- (size_list_to_set (C:=gset Z) (cap :: l)) by done.
  apply subseteq_size. intros a Ha%elem_of_list_to_set. apply elem_of_dom.
  by eapply ring_lookup.
Qed.

Lemma ArchiveThinkers_list f :
  P_ArchiveThinkers tx cap objs f = (archive_list objs one_mobj l;; saveg_write8 tc_end) f.
Proof using Hring Hnd.
  unfold P_ArchiveThinkers.
  destruct (ring_sentinel _ _ _ _ _ Hring) as (c & -> & _ & ->).
  unfold mbind, M_bind. by rewrite (ArchiveThinkersLoop_list _ [] l f eq_refl walk_fuel).
Qed.

Lemma ArchiveSpecials_list f :
  P_ArchiveSpecials tx cap objs activeceilings f =
    (archive_list objs (archive_special tx activeceilings) l;; saveg_write8 tc_endspecials) f.
Proof using Hring Hnd.
  unfold P_ArchiveSpecials.
  destruct (ring_sentinel _ _ _ _ _ Hring) as (c & -> & _ & ->).
  unfold mbind, M_bind. by rewrite (ArchiveSpecialsLoop_list _ [] l f eq_refl walk_fuel).
Qed.
End walks.

(** ** The properties *)

(** C32. Every structure of a savegame survives: at any position of the file, what the
    [saveg_write_*] function of a mobj, a player, a ceiling, a door, a floor, a platform or a
    light writes (154, 280, 48, 40, 42, 56, 36, 36 and 28 bytes) the [saveg_read_*] function
    reads back with every field equal, except that pointers keep only their low 32 bits, the
    fields of a command that belong to other games keep their old values, and a weapon sprite in
    state 0 comes back without a state. *)
Theorem saved_structures_roundtrip p :
  (∀ o, mobj_ok o → codec (saveg_write_mobj_t o) read_mobj_fields p 154 (saved_mobj o)) ∧
  (∀ o old, player_ok o →
     codec (saveg_write_player_t o) (saveg_read_player_t old) p 280 (saved_player (pl_cmd old) o)) ∧
  (∀ o, ceiling_ok o → codec (saveg_write_ceiling_t o) saveg_read_ceiling_t p 48 (saved_ceiling o)) ∧
  (∀ o, vldoor_ok o → codec (saveg_write_vldoor_t o) saveg_read_vldoor_t p 40 (saved_vldoor o)) ∧
  (∀ o, floormove_ok o →
     codec (saveg_write_floormove_t o) saveg_read_floormove_t p 42 (saved_floormove o)) ∧
  (∀ o, plat_ok o → codec (saveg_write_plat_t o) saveg_read_plat_t p 56 (saved_plat o)) ∧
  (∀ o, lightflash_ok o →
     codec (saveg_write_lightflash_t o) saveg_read_lightflash_t p 36 (saved_lightflash o)) ∧
  (∀ o, strobe_ok o → codec (saveg_write_strobe_t o) saveg_read_strobe_t p 36 (saved_strobe o)) ∧
  (∀ o, glow_ok o → codec (saveg_write_glow_t o) saveg_read_glow_t p 28 (saved_glow o)).
Proof. split_and!; intros; by (apply storable_codec || apply codec_player). Qed.

Lemma saved_structures_roundtrip_witness :
  codec (saveg_write_glow_t (mkGlow (mkThinker 1 2 3) 4 5 6 (-1))) saveg_read_glow_t 50 28
    (mkGlow (mkThinker 1 2 3) 4 5 6 (-1)).
Proof.
  apply (proj2 (proj2 (proj2 (proj2 (proj2 (proj2 (proj2 (proj2 (saved_structures_roundtrip 50)))))))) 
    (mkGlow (mkThinker 1 2 3) 4 5 6 (-1))).
  repeat constructor; vm_compute; intros; discriminate.
Defined.

(** The header survives: for a description of at most [SAVESTRINGSIZE] characters and any
    version that has a version code, [P_ReadSaveGameHeader] accepts the version and reads back
    skill, episode, map and players; the level time keeps its low 24 bits. *)
Theorem header_roundtrip v code d h p :
  G_VanillaVersionCode v = Ok code →
  Forall (in_u 8) d → (length d ≤ SAVESTRINGSIZE)%nat → header_ok h →
  codec (P_WriteSaveGameHeader v d h) (P_ReadSaveGameHeader v) p 50 (Some (saved_header h)).
Proof. apply codec_header. Qed.

Definition demo_header : header := mkHeader 2 1 7 [1; 0; 0; 0] 350.

Lemma header_roundtrip_witness :
  codec (P_WriteSaveGameHeader exe_doom_1_9 [65; 66] demo_header) (P_ReadSaveGameHeader exe_doom_1_9)
    0 50 (Some demo_header).
Proof.
  apply (header_roundtrip exe_doom_1_9 109 [65; 66] demo_header 0).
  - reflexivity.
  - repeat constructor; vm_compute; intros; discriminate.
  - vm_compute. repeat constructor.
  - repeat constructor; vm_compute; intros; discriminate.
Defined.

(** The level survives: loading onto a level made from the same map restores every sector
    (heights without their fraction, sound target and special data cleared), every line, and
    every side that a line refers to, also when lines share sides; the other sides stay.  The
    two functions stay in step whatever is in the file before. *)
Theorem world_roundtrip lv old p :
  level_ok lv → same_map lv old →
  ∃ n lv', codec (P_ArchiveWorld lv) (P_UnArchiveWorld old) p n lv' ∧ restored_level lv old lv'.
Proof. apply codec_world. Qed.

Definition demo_level : level :=
  mkLevel [mkSector 0x28000 0x800000 3 4 160 9 0 77 78]
    [mkLine 1 0 0 [0; -1]; mkLine 4 11 5 [0; 1]]
    [mkSide 0 0x10000 1 2 3 0; mkSide 0 0 4 5 6 0].

Lemma demo_level_ok : level_ok demo_level.
Proof.
  split_and!; repeat constructor; try (vm_compute; intros; discriminate);
    try (right; vm_compute; split; intros; congruence); by left.
Qed.

Lemma world_roundtrip_witness :
  ∃ n lv', codec (P_ArchiveWorld demo_level) (P_UnArchiveWorld demo_level) 338 n lv' ∧
    restored_level demo_level demo_level lv'.
Proof. apply (world_roundtrip demo_level demo_level 338 demo_level_ok). repeat split. Defined.

(** The players survive: each player in the game is read back (with its pointers into the
    level cleared), the others are left alone, and the two functions agree on the padding. *)
Theorem players_roundtrip ig pls olds p :
  length ig = length pls → length olds = length pls → Forall player_ok pls →
  ∃ n, codec (P_ArchivePlayers ig pls) (P_UnArchivePlayers ig olds) p n (restored_players ig pls olds).
Proof. apply codec_players. Qed.

Definition demo_player : player_t :=
  mkPlayer 0x400000 0 (mkTiccmd 25 0 (-640) 0 0 17 0 0 0 0) 2687360 2687360 0 0 100 0 0
    (repeat 0 6) (repeat 0 6) 0 (repeat 0 4) 1 10 (repeat 1 9) [50; 0; 0; 0] [200; 50; 300; 50]
    0 0 0 0 3 1 0 0 0 0 0 0 0 0 [mkPspdef (Some 13) 1 65536 2097152; mkPspdef None 0 0 0] 0.

Lemma demo_player_ok : player_ok demo_player.
Proof. split_and!; repeat constructor; vm_compute; intros; discriminate. Qed.

Lemma players_roundtrip_witness :
  ∃ n, codec (P_ArchivePlayers [1; 0] [demo_player; demo_player])
    (P_UnArchivePlayers [1; 0] [demo_player; demo_player]) 50 n
    (restored_players [1; 0] [demo_player; demo_player] [demo_player; demo_player]).
Proof.
  apply (players_roundtrip [1; 0] [demo_player; demo_player] [demo_player; demo_player] 50);
    [reflexivity|reflexivity|]. repeat (apply Forall_cons; split; [exact demo_player_ok|]).
  apply Forall_nil. exact I.
Defined.

(** [P_ArchiveThinkers] and [P_ArchiveSpecials] walk the pointers of the thinker list and
    terminate; they write what the list-level archive writes: the records of the thinkers in
    list order, then the terminating marker. *)
Theorem archive_refines_list tx cap objs activeceilings l f :
  tring objs cap l → NoDup (cap :: l) →
  P_ArchiveThinkers tx cap objs f = (archive_list objs (one_mobj tx) l;; saveg_write8 tc_end) f ∧
  P_ArchiveSpecials tx cap objs activeceilings f =
    (archive_list objs (archive_special tx activeceilings) l;; saveg_write8 tc_endspecials) f.
Proof. intros. split; [by apply ArchiveThinkers_list|by apply ArchiveSpecials_list]. Qed.

Definition demo_text : text := mkText 1001 1002 1003 1004 1005 1006 1007 1008.

(** A platform in stasis ([EV_StopPlat] clears its function), alone on the list. *)
Definition stopped_plat : plat_t := mkPlat (mkThinker 500 500 0) 0 65536 0 4194304 105 0 3 1 0 7 0.

Definition plat_list : gmap Z tobj :=
  {[ 500 := OCap (mkThinker 600 600 0); 600 := OPlat stopped_plat ]}.

Lemma plat_list_ring : tring plat_list 500 [600].
Proof. eexists. split_and!; [reflexivity..|]. eexists. split_and!; [reflexivity..|done]. Qed.

Lemma archive_refines_list_witness :
  P_ArchiveSpecials demo_text 500 plat_list [] (mkW [] 10 false) =
    (archive_list plat_list (archive_special demo_text []) [600];; saveg_write8 tc_endspecials)
      (mkW [] 10 false).
Proof.
  apply (archive_refines_list demo_text 500 plat_list [] [600] (mkW [] 10 false) plat_list_ring).
  apply NoDup_cons. split; [|apply NoDup_singleton]. intros H%list_elem_of_singleton. discriminate H.
Defined.

Lemma archive_list_skip objs one l1 th l2 o f :
  objs !! th = Some o → (∀ f, one th o f = Ok (tt, f)) →
  archive_list objs one (l1 ++ th :: l2) f = archive_list objs one (l1 ++ l2) f.
Proof.
  intros Ho Hone. revert f. induction l1 as [|a l1 IH]; intros f; cbn [app archive_list].
  - rewrite Ho. unfold mbind, M_bind. by rewrite Hone.
  - destruct (objs !! a) as [oa|]; [|done]. unfold mbind, M_bind.
    destruct (one a oa f) as [[? f']|]; [apply IH|done].
Qed.

(** A platform in stasis is not saved: [P_ArchiveSpecials] looks for a thinker without a
    function among the active ceilings only, so a stopped platform (whose function
    [EV_StopPlat] has cleared, and which [P_UnArchiveSpecials] is prepared to restore) leaves no
    trace: the file is the one of a level without it. *)
Theorem stopped_plat_lost tx cap objs activeceilings l1 th l2 pt f :
  tring objs cap (l1 ++ th :: l2) → NoDup (cap :: l1 ++ th :: l2) →
  objs !! th = Some (OPlat pt) → th_function (pt_thinker pt) = 0 → th ∉ activeceilings →
  P_ArchiveSpecials tx cap objs activeceilings f =
    (archive_list objs (archive_special tx activeceilings) (l1 ++ l2);; saveg_write8 tc_endspecials) f.
Proof.
  intros Hr Hnd Ho Hf Hac. rewrite (ArchiveSpecials_list _ _ _ _ _ Hr Hnd).
  unfold mbind, M_bind. rewrite (archive_list_skip _ _ _ _ _ _ _ Ho); [done|].
  intros f'. unfold archive_special, t_function. cbn. rewrite Hf. cbn. by rewrite bool_decide_eq_false_2.
Qed.

Lemma stopped_plat_lost_witness :
  P_ArchiveSpecials demo_text 500 plat_list [] (mkW [] 10 false) = Ok (tt, mkW [tc_endspecials] 9 false).
Proof.
  refine (eq_trans (stopped_plat_lost demo_text 500 plat_list [] [] 600 [] stopped_plat (mkW [] 10 false)
    plat_list_ring _ _ _ _) _); [|reflexivity..| |reflexivity].
  - apply NoDup_cons. split; [|apply NoDup_singleton]. intros H%list_elem_of_singleton. discriminate H.
  - apply not_elem_of_nil.
Defined.

(** [G_DoSaveGame] does not look at [savegame_error]: when the device runs full while the
    temporary file is written, the old savegame is removed all the same and replaced by the
    truncated file, and the function reports success. *)
Theorem failed_save_overwrites g d desc temp sav rec_ f old :
  d_opens d temp = true → temp ≠ sav →
  write_game g desc (mkW [] (d_room d) false) = Ok (tt, f) → w_err f = true →
  d_files d !! sav = Some old →
  ∃ d', G_DoSaveGame g desc temp sav rec_ d = Ok (tt, d') ∧ d_files d' !! sav = Some (w_out f).
Proof.
  intros Hop Hne Hrun Herr Hold. unfold G_DoSaveGame, mbind, M_bind, getS, putS, modS.
  rewrite Hop, Hop. cbn [negb]. rewrite Hrun. cbn.
  eexists. split; [reflexivity|]. rewrite lookup_delete_ne, lookup_insert_eq by done.
  cbn. by rewrite lookup_insert_eq.
Qed.

Definition demo_game : game :=
  mkGame exe_doom_1_9 demo_text demo_header [demo_player; demo_player; demo_player; demo_player]
    demo_level 500 plat_list [] false.

Definition full_disk : disk := mkDisk {[ "doomsav0.dsg"%string := [1; 2; 3] ]} (λ _, true) 100.

Definition cut_file : wfile :=
  match write_game demo_game [65] (mkW [] 100 false) with Ok (_, f) => f | Stop _ => mkW [] 0 false end.

Lemma failed_save_overwrites_witness :
  ∃ d', G_DoSaveGame demo_game [65] "temp.dsg" "doomsav0.dsg" "recovery.dsg" full_disk = Ok (tt, d') ∧
    d_files d' !! "doomsav0.dsg"%string = Some (w_out cut_file).
Proof.
  apply (failed_save_overwrites demo_game full_disk [65] "temp.dsg" "doomsav0.dsg" "recovery.dsg"
    cut_file [1; 2; 3]).
  - reflexivity.
  - discriminate.
  - vm_compute. reflexivity.
  - vm_compute. reflexivity.
  - reflexivity.
Defined.
