(* ===== verification/MemIo.v ===== *)
(** * Files in memory

    Models userspace/programs/doom/src/memio.{c,h}.  A [MEMFILE] carries, besides the fields of
    the structure, its own address and the bytes of its buffer; buffers for writing are
    allocated from the zone ([Zone]).  Bytes of a new buffer that were never written are those
    of [junk], and [residue] is what [Z_Malloc] finds in a split-off header. *)
From S2P Require Import Prelude Dll Zone.

Inductive memfile_mode_t : Type := MODE_READ | MODE_WRITE.

Inductive mem_rel_t : Type := MEM_SEEK_SET | MEM_SEEK_CUR | MEM_SEEK_END.

Record MEMFILE : Type := mkFile {
  mf_addr : Z;
  mf_buf : Z;
  mf_data : list Z;
  mf_buflen : Z;
  mf_alloced : Z;
  mf_position : Z;
  mf_mode : memfile_mode_t;
}.

Definition sizeof_MEMFILE : Z := 32.

Section memio.
Context (residue : nat → Z) (junk : Z → Z).

Definition mem_fopen_read (buf : Z) (data : list Z) (buflen alloced : Z) : ZM MEMFILE :=
  file ← Z_Malloc (residue 0) sizeof_MEMFILE PU_STATIC 0;
  mret (mkFile file buf data buflen alloced 0 MODE_READ).

(** Returns the number of items, the bytes copied, and the stream.  A stream opened for writing
    yields [(size_t)-1]. *)
Definition mem_fread (size nmemb : Z) (stream : MEMFILE) : res (Z * list Z * MEMFILE) :=
  match mf_mode stream with
  | MODE_WRITE => Ok (u64 (-1), [], stream)
  | MODE_READ =>
      let left := u64 (mf_buflen stream - mf_position stream) in
      let items := if left <? u64 (nmemb * size) then left / size else nmemb in
      let n := u64 (items * size) in
      if (length (mf_data stream) <? Z.to_nat (mf_position stream + n))%nat then Stop BadAccess
      else
        let bytes := take (Z.to_nat n) (drop (Z.to_nat (mf_position stream)) (mf_data stream)) in
        Ok (items, bytes,
            mkFile (mf_addr stream) (mf_buf stream) (mf_data stream) (mf_buflen stream)
              (mf_alloced stream) (u32 (mf_position stream + n)) MODE_READ)
  end.

Definition mem_fopen_write : ZM MEMFILE :=
  file ← Z_Malloc (residue 0) sizeof_MEMFILE PU_STATIC 0;
  buf ← Z_Malloc (residue 1) 1024 PU_STATIC 0;
  mret (mkFile file buf (map junk (seqZ 0 1024)) 0 1024 0 MODE_WRITE).

(** The loop that doubles the buffer. *)
Fixpoint GrowLoop (fuel : nat) (bytes : Z) (stream : MEMFILE) : ZM MEMFILE :=
  match fuel with
  | O => stopM NoFuel
  | S fuel =>
      if u64 (mf_alloced stream - mf_position stream) <? bytes then
        newbuf ← Z_Malloc (residue fuel) (i32 (u64 (mf_alloced stream * 2))) PU_STATIC 0;
        Z_Free (mf_buf stream);;
        GrowLoop fuel bytes
          (mkFile (mf_addr stream) newbuf
             (mf_data stream ++ map junk (seqZ (mf_alloced stream) (mf_alloced stream)))
             (mf_buflen stream) (u64 (mf_alloced stream * 2)) (mf_position stream) (mf_mode stream))
      else mret stream
  end.

Definition mem_fwrite (ptr : list Z) (size nmemb : Z) (stream : MEMFILE) : ZM (Z * MEMFILE) :=
  match mf_mode stream with
  | MODE_READ => mret (u64 (-1), stream)
  | MODE_WRITE =>
      let bytes := u64 (size * nmemb) in
      stream ← GrowLoop 64 bytes stream;
      let pos := Z.to_nat (mf_position stream) in
      let n := Z.to_nat bytes in
      if (length (mf_data stream) <? pos + n)%nat || (length ptr <? n)%nat then stopM BadAccess
      else
        let data := take pos (mf_data stream) ++ take n ptr ++ drop (pos + n) (mf_data stream) in
        let position := u32 (mf_position stream + bytes) in
        let buflen := if mf_buflen stream <? position then position else mf_buflen stream in
        mret (nmemb, mkFile (mf_addr stream) (mf_buf stream) data buflen (mf_alloced stream)
                       position MODE_WRITE)
  end.

Definition mem_get_buf (stream : MEMFILE) : Z * list Z * Z :=
  (mf_buf stream, mf_data stream, mf_buflen stream).

Definition mem_fclose (stream : MEMFILE) : ZM unit :=
  (match mf_mode stream with MODE_WRITE => Z_Free (mf_buf stream) | MODE_READ => mret tt end);;
  Z_Free (mf_addr stream).

Definition mem_ftell (stream : MEMFILE) : Z := mf_position stream.

(** Returns 0, or -1 when the new position is not before the end. *)
Definition mem_fseek (stream : MEMFILE) (position : Z) (whence : mem_rel_t) : Z * MEMFILE :=
  let newpos :=
    match whence with
    | MEM_SEEK_SET => u32 (i32 position)
    | MEM_SEEK_CUR => u32 (i32 (i64 (mf_position stream + position)))
    | MEM_SEEK_END => u32 (i32 (u64 (mf_buflen stream + position)))
    end in
  if newpos <? mf_buflen stream
  then (0, mkFile (mf_addr stream) (mf_buf stream) (mf_data stream) (mf_buflen stream)
             (mf_alloced stream) newpos (mf_mode stream))
  else (-1, stream).
End memio.

(** ** The abstract file

    A file open for writing is its contents and a position in it. *)

Definition contents (f : MEMFILE) : list Z := take (Z.to_nat (mf_buflen f)) (mf_data f).

(** Writing [bs] at [pos] into the contents [c], which it may extend. *)
Definition write_at (c : list Z) (pos : nat) (bs : list Z) : list Z :=
  take pos c ++ bs ++ drop (pos + length bs) c.

(** A block of the zone that holds [n] bytes at [p], allocated as [PU_STATIC]. *)
Definition static_block (z : zone) (zl : list Z) (p n : Z) : Prop :=
  p - sizeof_memblock_t ∈ zl ∧
  ∃ h, z_mem z !! (p - sizeof_memblock_t) = Some h ∧ mb_tag h = PU_STATIC ∧
       n + sizeof_memblock_t ≤ mb_size h.

Record wfile_ok (z : zone) (zl : list Z) (f : MEMFILE) : Prop := {
  wo_zone : zone_inv z zl;
  wo_mode : mf_mode f = MODE_WRITE;
  wo_data : Z.of_nat (length (mf_data f)) = mf_alloced f;
  wo_range : 0 ≤ mf_position f ≤ mf_buflen f ∧ mf_buflen f ≤ mf_alloced f ∧ 1 ≤ mf_alloced f;
  wo_self : static_block z zl (mf_addr f) sizeof_MEMFILE;
  wo_buf : static_block z zl (mf_buf f) (mf_alloced f);
  wo_two : mf_addr f ≠ mf_buf f;
}.

(** What a writing operation may do to the file's zone: static blocks other than the file's
    buffer stay. *)
Definition keeps_static (z : zone) (zl : list Z) (z' : zone) (zl' : list Z) (buf : Z) : Prop :=
  z_size z' = z_size z ∧
  ∀ p n, p ≠ buf → static_block z zl p n → static_block z' zl' p n.

Lemma static_live z zl p n :
  static_block z zl p n → ¬ is_free (z_mem z) (p - sizeof_memblock_t) ∧ ¬ purgable z (p - sizeof_memblock_t).
Proof.
  intros (_ & h & Hh & Ht & _). split.
  - rewrite (is_free_tag _ _ _ Hh), Ht. done.
  - intros (h' & Hh' & Hp). simplify_eq. rewrite Ht in Hp. unfold PU_PURGELEVEL, PU_STATIC in Hp. lia.
Qed.

Lemma static_same z zl z' zl' p n :
  static_block z zl p n → p - sizeof_memblock_t ∈ zl' →
  same_hdr (z_mem z) (z_mem z') (p - sizeof_memblock_t) → static_block z' zl' p n.
Proof.
  intros (_ & h & Hh & Ht & Hs) Hin Hsh. split; [done|].
  destruct (same_hdr_lookup _ _ _ _ Hsh Hh) as (h' & ? & [= ? ? ? ?]).
  exists h'. split_and!; [done|congruence|lia].
Qed.

(** Allocating a static block. *)
Lemma wp_static_malloc z zl r size :
  zone_inv z zl → 0 ≤ size ≤ 2 ^ 31 - 48 →
  wp alloc_failed (Z_Malloc r size PU_STATIC 0)
    (λ p z', ∃ zl', zone_inv z' zl' ∧ z_size z' = z_size z ∧ static_block z' zl' p size ∧
       ∀ q n, static_block z zl q n → q ≠ p ∧ static_block z' zl' q n) z.
Proof.
  intros INV Hs. eapply wp_mono.
  { apply (wp_Malloc alloc_failed z zl r size PU_STATIC 0); [done..|]. by left. }
  cbn beta. intros p z' (zl' & b & [MI [_ MZ] -> (h & Hb & Hh & Hsz & Ht & _) MK _ _ _]).
  exists zl'. split_and!; [done..| |].
  - split; [by replace (b + sizeof_memblock_t - sizeof_memblock_t) with b by lia|].
    exists h. replace (b + sizeof_memblock_t - sizeof_memblock_t) with b by lia. done.
  - intros q n HB. destruct (static_live _ _ _ _ HB) as [? ?].
    destruct (MK (q - sizeof_memblock_t)) as (Hne & ? & ?); [apply HB|done..|].
    split; [lia|by eapply static_same].
Qed.

(** Freeing a static block. *)
Lemma wp_static_free z zl p n :
  zone_inv z zl → static_block z zl p n →
  wp never (Z_Free p)
    (λ _ z', ∃ zl', zone_inv z' zl' ∧ z_size z' = z_size z ∧
       ∀ q k, q ≠ p → static_block z zl q k → static_block z' zl' q k) z.
Proof.
  intros INV HB. pose proof HB as (Hin & h & Hh & Ht & _).
  assert (Hnf : mb_tag h ≠ PU_FREE) by by rewrite Ht.
  apply list_elem_of_split in Hin as (l1 & l2 & ->).
  pose proof (wp_Free z l1 (p - sizeof_memblock_t) l2 h INV Hh Hnf) as HF.
  replace (p - sizeof_memblock_t + sizeof_memblock_t) with p in HF by lia.
  eapply wp_mono; [exact HF|]. cbn beta. intros _ z' (l1' & x & l2' & F).
  pose proof (freed_evict _ _ _ _ _ _ _ _ _ INV Hh Hnf F) as EV.
  eexists. split_and!; [apply F|apply EV|]. intros q k Hq HBq.
  destruct (static_live _ _ _ _ HBq) as [Hf _].
  destruct (ev_keep _ _ _ _ _ EV (q - sizeof_memblock_t)) as [? ?]; [apply HBq|done|lia|].
  by eapply static_same.
Qed.

Lemma static_bound z zl p n : zone_inv z zl → static_block z zl p n → n + 96 ≤ z_size z.
Proof.
  intros (WF & _) (Hin & h & Hh & _ & Hs).
  destruct (tiles_in _ _ _ _ _ (zw_tiles _ _ WF) Hin) as (h' & ? & ? & ? & ?). simplify_eq.
  unfold sizeof_memzone_t, sizeof_memblock_t in *. lia.
Qed.

Lemma static_size z zl p n n' : static_block z zl p n → n' ≤ n → static_block z zl p n'.
Proof. intros (? & h & ? & ? & ?) ?. split; [done|]. exists h. split_and!; [done..|lia]. Qed.

(** ** Lists of bytes *)

Lemma take_write (data bs : list Z) (pos len : nat) :
  (pos ≤ len)%nat → (len ≤ length data)%nat → (pos + length bs ≤ length data)%nat →
  take (len `max` (pos + length bs)) (take pos data ++ bs ++ drop (pos + length bs) data) =
  write_at (take len data) pos bs.
Proof.
  intros Hp Hl Hb. unfold write_at. rewrite take_take, Nat.min_l by done.
  rewrite !take_app, length_take, Nat.min_l by lia.
  rewrite (take_ge (take pos data)) by (rewrite length_take; lia). f_equal.
  rewrite (take_ge bs) by lia. f_equal.
  rewrite skipn_firstn_comm. f_equal. lia.
Qed.

Lemma length_write_at c pos bs :
  (pos ≤ length c)%nat → length (write_at c pos bs) = (length c `max` (pos + length bs))%nat.
Proof. intros. unfold write_at. rewrite !length_app, length_take, length_drop. lia. Qed.

(** At the end of the contents, writing appends. *)
Lemma write_at_end c bs : write_at c (length c) bs = c ++ bs.
Proof. unfold write_at. rewrite take_ge, drop_ge by lia. by rewrite app_nil_r. Qed.

Lemma length_contents z zl f : wfile_ok z zl f → length (contents f) = Z.to_nat (mf_buflen f).
Proof. intros [? ? ? ? ? ? ?]. unfold contents. rewrite length_take. lia. Qed.

(** ** Writing *)

Section writing.
Context (residue : nat → Z) (junk : Z → Z).

(** What the growing loop keeps: everything but the buffer. *)
Definition grown (f f' : MEMFILE) : Prop :=
  contents f' = contents f ∧ mf_addr f' = mf_addr f ∧
  mf_position f' = mf_position f ∧ mf_buflen f' = mf_buflen f.

Definition doubled (p : Z) (f : MEMFILE) : MEMFILE :=
  mkFile (mf_addr f) p (mf_data f ++ map junk (seqZ (mf_alloced f) (mf_alloced f)))
    (mf_buflen f) (mf_alloced f * 2) (mf_position f) (mf_mode f).

Lemma doubled_grown z zl p f : wfile_ok z zl f → grown f (doubled p f).
Proof.
  intros [? ? ? ? ? ? ?]. unfold grown, contents. cbn. split_and!; [|done..].
  rewrite take_app_le; [done|lia].
Qed.

Lemma wp_double z zl f r k (Q : MEMFILE → zone → Prop) :
  wfile_ok z zl f → z_size z ≤ 2 ^ 30 →
  (∀ p z' zl', wfile_ok z' zl' (doubled p f) → (∀ n, ¬ static_block z zl p n) → keeps_static z zl z' zl' (mf_buf f) →
     wp alloc_failed (k p) Q z') →
  wp alloc_failed
    (newbuf ← Z_Malloc r (i32 (u64 (mf_alloced f * 2))) PU_STATIC 0; Z_Free (mf_buf f);; k newbuf) Q z.
Proof.
  intros OK Hsz Hk. pose proof OK as [INV Hm Hd Hr HS HB Hne].
  pose proof (static_bound _ _ _ _ INV HB). small_ints.
  rewrite wp_bind. eapply wp_mono; [apply (wp_static_malloc z zl); [done|lia]|].
  cbn beta. intros p z1 (zl1 & INV1 & Hz1 & HP & Hkeep1).
  destruct (Hkeep1 _ _ HB) as [HBp HB1]. destruct (Hkeep1 _ _ HS) as [HSp HS1].
  rewrite wp_bind. eapply wp_mono.
  { eapply wp_weaken; [by apply (wp_static_free z1 zl1 _ _ INV1 HB1)|done]. }
  cbn beta. intros _ z2 (zl2 & INV2 & Hz2 & Hkeep2). apply (Hk p z2 zl2).
  - split; cbn; [done|done| |lia|by apply Hkeep2|by apply Hkeep2; [congruence|]|done].
    rewrite length_app, length_map, length_seqZ. lia.
  - intros n HP0. by destruct (Hkeep1 p n HP0).
  - split; [lia|]. intros q n Hq HQ. apply Hkeep2; [done|]. by apply Hkeep1.
Qed.

Lemma wp_GrowLoop fuel bytes z zl f :
  wfile_ok z zl f → z_size z ≤ 2 ^ 30 → 2 ^ 31 ≤ mf_alloced f * 2 ^ Z.of_nat fuel → 0 ≤ bytes →
  wp alloc_failed (GrowLoop residue junk fuel bytes f)
    (λ f' z', ∃ zl', wfile_ok z' zl' f' ∧ grown f f' ∧ keeps_static z zl z' zl' (mf_buf f) ∧
       mf_position f' + bytes ≤ mf_alloced f') z.
Proof.
  revert z zl f. induction fuel as [|fuel IH]; intros z zl f OK Hsz Hfuel Hb.
  { pose proof (static_bound _ _ _ _ (wo_zone _ _ _ OK) (wo_buf _ _ _ OK)). lia. }
  pose proof OK as [INV Hm Hd Hr HS HB Hne]. pose proof (static_bound _ _ _ _ INV HB).
  cbn [GrowLoop]. rewrite (wrap_u_small 64 (mf_alloced f - _)) by (unfold in_u; lia).
  destruct (Z.ltb_spec (mf_alloced f - mf_position f) bytes).
  - apply (wp_double z zl f (residue fuel) (λ p, GrowLoop residue junk fuel bytes _)); [done..|].
    intros p z1 zl1 OK1 Hp [Hz1 K1].
    pose proof (doubled_grown _ _ p _ OK) as G1.
    replace (u64 (mf_alloced f * 2)) with (mf_alloced f * 2) by (small_ints; lia).
    eapply wp_mono; [apply (IH z1 zl1); [done|lia| |done]|].
    + unfold doubled. cbn. rewrite Nat2Z.inj_succ, Z.pow_succ_r in Hfuel by lia. lia.
    + cbn beta. intros f' z' (zl' & OK' & G & [Hz K] & Hroom). exists zl'.
      split_and!; [done| | |done].
      * destruct G as (? & ? & ? & ?), G1 as (? & ? & ? & ?). split_and!; etrans; done.
      * split; [lia|]. intros q n Hq HQ. apply K; [by intros ->; eapply Hp|by apply K1].
  - rewrite wp_ret. exists zl. split_and!; [done..|]. lia.
Qed.

Definition stored (f : MEMFILE) (bs : list Z) : MEMFILE :=
  let pos := Z.to_nat (mf_position f) in
  let position := mf_position f + Z.of_nat (length bs) in
  mkFile (mf_addr f) (mf_buf f)
    (take pos (mf_data f) ++ bs ++ drop (pos + length bs) (mf_data f))
    (Z.max (mf_buflen f) position) (mf_alloced f) position MODE_WRITE.

Lemma stored_ok z zl f bs :
  wfile_ok z zl f → mf_position f + Z.of_nat (length bs) ≤ mf_alloced f →
  wfile_ok z zl (stored f bs) ∧
  contents (stored f bs) = write_at (contents f) (Z.to_nat (mf_position f)) bs.
Proof.
  intros [INV Hm Hd Hr HS HB Hne] Hroom. split.
  - split; cbn; [done|done| |lia|done..].
    rewrite !length_app, length_take, length_drop. lia.
  - unfold contents. cbn. rewrite <- take_write by lia. f_equal. lia.
Qed.

(** What a write of [bs] does to the file and to the zone. *)
Definition written (z : zone) (zl : list Z) (f : MEMFILE) (bs : list Z) (f' : MEMFILE) (z' : zone) : Prop :=
  ∃ zl', wfile_ok z' zl' f' ∧ keeps_static z zl z' zl' (mf_buf f) ∧ mf_addr f' = mf_addr f ∧
    contents f' = write_at (contents f) (Z.to_nat (mf_position f)) bs ∧
    mf_position f' = mf_position f + Z.of_nat (length bs).

Lemma wp_fwrite z zl f bs size nmemb :
  wfile_ok z zl f → z_size z ≤ 2 ^ 30 → size * nmemb = Z.of_nat (length bs) →
  Z.of_nat (length bs) < 2 ^ 64 →
  wp alloc_failed (mem_fwrite residue junk bs size nmemb f)
    (λ r z', r.1 = nmemb ∧ written z zl f bs r.2 z') z.
Proof.
  intros OK Hz Hlen Hbs. unfold mem_fwrite. rewrite (wo_mode _ _ _ OK), Hlen. small_ints.
  rewrite wp_bind. eapply wp_mono; [apply (wp_GrowLoop 64 _ z zl); [done|done| |lia]|].
  { pose proof (wo_range _ _ _ OK). change (2 ^ 31) with 2147483648.
    change (2 ^ Z.of_nat 64) with 18446744073709551616. lia. }
  cbn beta. intros g z' (zl' & OK' & (Gc & Ga & Gp & Gb) & K & Hroom).
  pose proof (static_bound _ _ _ _ (wo_zone _ _ _ OK') (wo_buf _ _ _ OK')) as Hbd.
  pose proof (zw_size _ _ (proj1 (wo_zone _ _ _ OK'))) as Hzs.
  pose proof (wo_range _ _ _ OK') as Hr. pose proof (wo_data _ _ _ OK') as Hd.
  destruct (stored_ok z' zl' g bs OK' Hroom) as [OKs Hc].
  destruct (Nat.ltb_spec (length (mf_data g)) (Z.to_nat (mf_position g) + Z.to_nat (Z.of_nat (length bs))));
    [lia|].
  rewrite Nat2Z.id. rewrite (proj2 (Nat.ltb_ge (length bs) (length bs))) by lia.
  cbn [orb]. rewrite wp_ret. cbn [fst snd]. rewrite (take_ge bs) by lia. small_ints.
  split; [done|]. exists zl'.
  match goal with |- wfile_ok _ _ ?h ∧ _ => replace h with (stored g bs) end.
  - split_and!; [done..|congruence|unfold stored; cbn; lia].
  - unfold stored. f_equal. case_match; lia.
Qed.

Lemma wp_fopen_write z zl :
  zone_inv z zl →
  wp alloc_failed (mem_fopen_write residue junk)
    (λ f z', ∃ zl', wfile_ok z' zl' f ∧ contents f = [] ∧ mf_position f = 0 ∧
       z_size z' = z_size z ∧
       ∀ q n, static_block z zl q n → q ≠ mf_addr f ∧ q ≠ mf_buf f ∧ static_block z' zl' q n) z.
Proof.
  intros INV. unfold mem_fopen_write. rewrite wp_bind.
  eapply wp_mono; [apply (wp_static_malloc z zl); [done|unfold sizeof_MEMFILE; lia]|].
  cbn beta. intros p z1 (zl1 & INV1 & Hz1 & HP & K1). rewrite wp_bind.
  eapply wp_mono; [apply (wp_static_malloc z1 zl1); [done|lia]|].
  cbn beta. intros b z2 (zl2 & INV2 & Hz2 & HB & K2). rewrite wp_ret. exists zl2.
  destruct (K2 _ _ HP) as [? ?].
  split_and!; [|done|done|lia|].
  - split; [done|done| |cbn; lia|done|done|done].
    cbn [mf_data mf_alloced]. by rewrite length_map, length_seqZ.
  - intros q n HQ. destruct (K1 q n HQ) as [? HQ1]. destruct (K2 q n HQ1) as [? ?]. done.
Qed.

Lemma wp_fclose z zl f :
  wfile_ok z zl f →
  wp never (mem_fclose f)
    (λ _ z', ∃ zl', zone_inv z' zl' ∧ z_size z' = z_size z ∧
       ∀ q n, q ≠ mf_addr f → q ≠ mf_buf f → static_block z zl q n → static_block z' zl' q n) z.
Proof.
  intros [INV Hm Hd Hr HS HB Hne]. unfold mem_fclose. rewrite Hm, wp_bind.
  cbv iota. eapply wp_mono; [exact (wp_static_free z zl _ _ INV HB)|]. cbn beta.
  intros _ z1 (zl1 & INV1 & Hz1 & K1).
  pose proof (K1 _ _ Hne HS) as HS1.
  eapply wp_mono; [exact (wp_static_free z1 zl1 _ _ INV1 HS1)|].
  cbn beta. intros _ z2 (zl2 & INV2 & Hz2 & K2). exists zl2. split_and!; [done|lia|].
  intros q n Ha Hb HQ. apply K2; [done|]. by apply K1.
Qed.
End writing.

(** ** Reading and seeking *)

Record rfile_ok (f : MEMFILE) : Prop := {
  ro_mode : mf_mode f = MODE_READ;
  ro_len : mf_buflen f = Z.of_nat (length (mf_data f));
  ro_range : 0 ≤ mf_position f ≤ mf_buflen f;
  ro_max : mf_buflen f < 2 ^ 31;
}.

(** The bytes not read yet. *)
Definition unread (f : MEMFILE) : list Z := drop (Z.to_nat (mf_position f)) (mf_data f).

Definition seeked (pos : Z) (f : MEMFILE) : MEMFILE :=
  mkFile (mf_addr f) (mf_buf f) (mf_data f) (mf_buflen f) (mf_alloced f) pos (mf_mode f).

Lemma fread_run f size nmemb :
  rfile_ok f → 0 < size → 0 ≤ nmemb → nmemb * size < 2 ^ 64 →
  let items := Z.min nmemb (Z.of_nat (length (unread f)) / size) in
  let f' := seeked (mf_position f + items * size) f in
  mem_fread size nmemb f = Ok (items, take (Z.to_nat (items * size)) (unread f), f') ∧
  rfile_ok f' ∧ unread f' = drop (Z.to_nat (items * size)) (unread f).
Proof.
  intros [Hm Hl Hr Hx] Hs Hn Hmax items f'.
  assert (Hu : Z.of_nat (length (unread f)) = mf_buflen f - mf_position f).
  { unfold unread. rewrite length_drop. lia. }
  assert (Hit : 0 ≤ items ∧ items * size ≤ mf_buflen f - mf_position f).
  { unfold items. rewrite Hu. pose proof (Z.div_pos (mf_buflen f - mf_position f) size ltac:(lia) Hs).
    pose proof (Z.mul_div_le (mf_buflen f - mf_position f) size Hs). nia. }
  assert (Hi : (if mf_buflen f - mf_position f <? nmemb * size
                then (mf_buflen f - mf_position f) / size else nmemb) = items).
  { unfold items. rewrite Hu. destruct (Z.ltb_spec (mf_buflen f - mf_position f) (nmemb * size)).
    - symmetry. apply Z.min_r. apply Z.lt_le_incl, Z.div_lt_upper_bound; lia.
    - symmetry. apply Z.min_l. apply Z.div_le_lower_bound; lia. }
  assert (0 ≤ items * size) by nia.
  split_and!.
  - unfold mem_fread. rewrite Hm. rewrite (wrap_u_small 64 (mf_buflen f - _)) by (unfold in_u; lia).
    rewrite (wrap_u_small 64 (nmemb * size)) by (unfold in_u; nia). rewrite Hi.
    rewrite (wrap_u_small 64 (items * size)), (wrap_u_small 32) by (unfold in_u; lia).
    destruct (Nat.ltb_spec (length (mf_data f)) (Z.to_nat (mf_position f + items * size))); [lia|].
    unfold f', seeked. by rewrite Hm.
  - split; cbn; [done|done|lia|done].
  - unfold unread, f'. cbn. rewrite drop_drop. f_equal. lia.
Qed.

Lemma fseek_set_run f pos :
  mf_buflen f < 2 ^ 31 → 0 ≤ pos < 2 ^ 31 →
  mem_fseek f pos MEM_SEEK_SET = if pos <? mf_buflen f then (0, seeked pos f) else (-1, f).
Proof. intros Hl Hp. unfold mem_fseek. small_ints. done. Qed.
