(* ===== verification/Mus2Mid.v ===== *)
(** * Converting MUS scores to MIDI

    Models userspace/programs/doom/src/mus2mid.c on the memory files of [MemIo]: the static
    variables of the file, the input and output streams and the zone are the state [conv]; a C
    function that returns [true] for failure returns a [bool].  The specification is a grammar
    of MUS scores ([mus_score]), a translation of scores to MIDI messages ([translate]) and the
    layout of a MIDI file ([midi_file]). *)
From S2P Require Import Prelude Dll Zone MemIo.

Definition NUM_CHANNELS : nat := 16.
Definition MIDI_PERCUSSION_CHAN : Z := 9.
Definition MUS_PERCUSSION_CHAN : Z := 15.

Definition mus_releasekey : Z := 0x00.
Definition mus_presskey : Z := 0x10.
Definition mus_pitchwheel : Z := 0x20.
Definition mus_systemevent : Z := 0x30.
Definition mus_changecontroller : Z := 0x40.
Definition mus_scoreend : Z := 0x60.

Definition midi_releasekey : Z := 0x80.
Definition midi_presskey : Z := 0x90.
Definition midi_changecontroller : Z := 0xB0.
Definition midi_changepatch : Z := 0xC0.
Definition midi_pitchwheel : Z := 0xE0.

Record musheader : Type := mkMusHeader {
  mh_id : list Z;
  mh_scorelength : Z;
  mh_scorestart : Z;
  mh_primarychannels : Z;
  mh_secondarychannels : Z;
  mh_instrumentcount : Z;
}.

Definition midiheader : list Z :=
  [0x4D; 0x54; 0x68; 0x64; 0x00; 0x00; 0x00; 0x06; 0x00; 0x00; 0x00; 0x01; 0x00; 0x46;
   0x4D; 0x54; 0x72; 0x6B; 0x00; 0x00; 0x00; 0x00].

Definition controller_map : list Z :=
  [0x00; 0x20; 0x01; 0x07; 0x0A; 0x0B; 0x5B; 0x5D; 0x40; 0x43; 0x78; 0x7B; 0x7E; 0x7F; 0x79].

(** The static variables, the two streams and the zone the output grows in. *)
Record conv : Type := mkConv {
  cv_zone : zone;
  cv_in : MEMFILE;
  cv_out : MEMFILE;
  queuedtime : Z;
  tracksize : Z;
  channelvelocities : list Z;
  channel_map : list Z;
}.

Definition set_queuedtime v (s : conv) :=
  mkConv (cv_zone s) (cv_in s) (cv_out s) v (tracksize s) (channelvelocities s) (channel_map s).
Definition set_tracksize v (s : conv) :=
  mkConv (cv_zone s) (cv_in s) (cv_out s) (queuedtime s) v (channelvelocities s) (channel_map s).
Definition set_velocities v (s : conv) :=
  mkConv (cv_zone s) (cv_in s) (cv_out s) (queuedtime s) (tracksize s) v (channel_map s).
Definition set_channel_map v (s : conv) :=
  mkConv (cv_zone s) (cv_in s) (cv_out s) (queuedtime s) (tracksize s) (channelvelocities s) v.
Definition set_in f (s : conv) :=
  mkConv (cv_zone s) f (cv_out s) (queuedtime s) (tracksize s) (channelvelocities s) (channel_map s).
Definition set_out z f (s : conv) :=
  mkConv z (cv_in s) f (queuedtime s) (tracksize s) (channelvelocities s) (channel_map s).

Abbreviation CM := (M conv).

(** Reading an array element; outside its bounds the access is bad. *)
Definition elem (l : list Z) (i : Z) : CM Z :=
  if i <? 0 then stopM BadAccess
  else match l !! Z.to_nat i with Some v => mret v | None => stopM BadAccess end.

(** [if (m) return true;] followed by [k]. *)
Definition orfail (m k : CM bool) : CM bool := b ← m; if b : bool then mret true else k.

Section mus2mid.
Context (residue : nat → Z) (junk : Z → Z).

Definition fwrite (bs : list Z) (size nmemb : Z) : CM Z := λ s,
  match mem_fwrite residue junk bs size nmemb (cv_out s) (cv_zone s) with
  | Ok ((n, f), z) => Ok (n, set_out z f s)
  | Stop e => Stop e
  end.

Definition fread (size nmemb : Z) : CM (Z * list Z) := λ s,
  match mem_fread size nmemb (cv_in s) with
  | Ok ((n, bs), f) => Ok ((n, bs), set_in f s)
  | Stop e => Stop e
  end.

(** [mem_fread(&b, 1, 1, musinput)]: the byte, unless the count is not 1. *)
Definition readbyte : CM (option Z) :=
  r ← fread 1 1;
  mret (if r.1 =? 1 then head r.2 else None).

(** [mem_fwrite(&working, 1, 1, midioutput) != 1]. *)
Definition writebyte (working : Z) : CM bool :=
  n ← fwrite [working] 1 1; mret (negb (n =? 1)).

(** ** Writers *)

Fixpoint TimeBuffer (fuel : nat) (time buffer : Z) : CM Z :=
  match fuel with
  | O => stopM NoFuel
  | S fuel =>
      let time := Z.shiftr time 7 in
      if time =? 0 then mret buffer
      else TimeBuffer fuel time
             (Z.lor (u32 (Z.shiftl buffer 8)) (Z.lor (Z.land time 0x7F) 0x80))
  end.

Fixpoint EmitTime (fuel : nat) (buffer : Z) : CM bool :=
  match fuel with
  | O => stopM NoFuel
  | S fuel =>
      orfail (writebyte (u8 (Z.land buffer 0xFF)))
        (s ← getS;
         modS (set_tracksize (u32 (tracksize s + 1)));;
         if negb (Z.land buffer 0x80 =? 0) then EmitTime fuel (Z.shiftr buffer 8)
         else modS (set_queuedtime 0);; mret false)
  end.

Definition WriteTime (time : Z) : CM bool :=
  buffer ← TimeBuffer 8 time (Z.land time 0x7F);
  EmitTime 8 buffer.

Definition WriteQueuedTime : CM bool := s ← getS; WriteTime (queuedtime s).

Definition add_tracksize (n : Z) : CM bool :=
  s ← getS; modS (set_tracksize (u32 (tracksize s + n)));; mret false.

Definition WriteEndTrack : CM bool :=
  orfail WriteQueuedTime
    (n ← fwrite [0xFF; 0x2F; 0x00] 1 3;
     if negb (n =? 3) then mret true else add_tracksize 3).

Definition WritePressKey (channel key velocity : Z) : CM bool :=
  orfail WriteQueuedTime
    (orfail (writebyte (u8 (Z.lor midi_presskey channel)))
       (orfail (writebyte (u8 (Z.land key 0x7F)))
          (orfail (writebyte (u8 (Z.land velocity 0x7F))) (add_tracksize 3)))).

Definition WriteReleaseKey (channel key : Z) : CM bool :=
  orfail WriteQueuedTime
    (orfail (writebyte (u8 (Z.lor midi_releasekey channel)))
       (orfail (writebyte (u8 (Z.land key 0x7F)))
          (orfail (writebyte 0) (add_tracksize 3)))).

Definition WritePitchWheel (channel wheel : Z) : CM bool :=
  orfail WriteQueuedTime
    (orfail (writebyte (u8 (Z.lor midi_pitchwheel channel)))
       (orfail (writebyte (u8 (Z.land wheel 0x7F)))
          (orfail (writebyte (u8 (Z.land (Z.shiftr wheel 7) 0x7F))) (add_tracksize 3)))).

Definition WriteChangePatch (channel patch : Z) : CM bool :=
  orfail WriteQueuedTime
    (orfail (writebyte (u8 (Z.lor midi_changepatch channel)))
       (orfail (writebyte (u8 (Z.land patch 0x7F))) (add_tracksize 2))).

Definition WriteChangeController_Valued (channel control value : Z) : CM bool :=
  orfail WriteQueuedTime
    (orfail (writebyte (u8 (Z.lor midi_changecontroller channel)))
       (orfail (writebyte (u8 (Z.land control 0x7F)))
          (let working := if negb (Z.land value 0x80 =? 0) then 0x7F else value in
           orfail (writebyte working) (add_tracksize 3)))).

Definition WriteChangeController_Valueless (channel control : Z) : CM bool :=
  WriteChangeController_Valued channel control 0.

(** ** Channels *)

Definition AllocateMIDIChannel (map : list Z) : Z :=
  let max := foldl (λ max c, if max <? c then c else max) (-1) map in
  let result := max + 1 in
  if result =? MIDI_PERCUSSION_CHAN then result + 1 else result.

Definition GetMIDIChannel (mus_channel : Z) : CM Z :=
  if mus_channel =? MUS_PERCUSSION_CHAN then mret MIDI_PERCUSSION_CHAN
  else
    s ← getS;
    c ← elem (channel_map s) mus_channel;
    (if c =? -1 then
       let new := AllocateMIDIChannel (channel_map s) in
       modS (set_channel_map (<[Z.to_nat mus_channel := new]> (channel_map s)));;
       WriteChangeController_Valueless (u8 new) 0x7b;; mret tt
     else mret tt);;
    s ← getS;
    elem (channel_map s) mus_channel.

(** ** The header *)

Definition SHORT (x : Z) : Z := i16 x.

(** Two bytes read into an [unsigned short], which [SHORT] then converts. *)
Definition short_of (bs : list Z) : Z :=
  match bs with [a; b] => u16 (SHORT (a + 256 * b)) | _ => 0 end.

(** [None] is the result [false]. *)
Definition ReadMusHeader : CM (option musheader) :=
  a ← fread 1 4;
  if negb (a.1 =? 4) then mret None else
  b ← fread 2 1;
  if negb (b.1 =? 1) then mret None else
  c ← fread 2 1;
  if negb (c.1 =? 1) then mret None else
  d ← fread 2 1;
  if negb (d.1 =? 1) then mret None else
  e ← fread 2 1;
  if negb (e.1 =? 1) then mret None else
  f ← fread 2 1;
  if negb (f.1 =? 1) then mret None else
  mret (Some (mkMusHeader a.2 (short_of b.2) (short_of c.2) (short_of d.2) (short_of e.2)
                (short_of f.2))).

(** ** The conversion *)

(** The outcome of one pass of a loop body: [return true], or go on with [hitscoreend]. *)
Abbreviation FAILED := (@None bool).

Definition check (m : CM bool) : CM (option bool) := b ← m; mret (if b : bool then FAILED else Some false).

(** The [switch] on the event. *)
Definition HandleEvent (event channel : Z) : CM (option bool) :=
  if event =? mus_releasekey then
    k ← readbyte;
    match k with None => mret FAILED | Some key => check (WriteReleaseKey (u8 channel) key) end
  else if event =? mus_presskey then
    k ← readbyte;
    match k with
    | None => mret FAILED
    | Some key =>
        v ← (if negb (Z.land key 0x80 =? 0) then
               v ← readbyte;
               match v with
               | None => mret false
               | Some v =>
                   s ← getS;
                   elem (channelvelocities s) channel;;
                   modS (set_velocities (<[Z.to_nat channel := Z.land v 0x7F]> (channelvelocities s)));;
                   mret true
               end
             else mret true);
        if v : bool then
          s ← getS;
          vel ← elem (channelvelocities s) channel;
          check (WritePressKey (u8 channel) key vel)
        else mret FAILED
    end
  else if event =? mus_pitchwheel then
    k ← readbyte;
    match k with
    | None => mret (Some false)
    | Some key => check (WritePitchWheel (u8 channel) (i16 (key * 64)))
    end
  else if event =? mus_systemevent then
    n ← readbyte;
    match n with
    | None => mret FAILED
    | Some n =>
        if (n <? 10) || (14 <? n) then mret FAILED
        else control ← elem controller_map n; check (WriteChangeController_Valueless (u8 channel) control)
    end
  else if event =? mus_changecontroller then
    n ← readbyte;
    match n with
    | None => mret FAILED
    | Some n =>
        v ← readbyte;
        match v with
        | None => mret FAILED
        | Some v =>
            if n =? 0 then check (WriteChangePatch (u8 channel) v)
            else if (n <? 1) || (9 <? n) then mret FAILED
            else control ← elem controller_map n;
                 check (WriteChangeController_Valued (u8 channel) control v)
        end
    end
  else if event =? mus_scoreend then mret (Some true)
  else mret FAILED.

(** A block of events: the inner [while]. *)
Fixpoint EventBlock (fuel : nat) : CM (option bool) :=
  match fuel with
  | O => stopM NoFuel
  | S fuel =>
      d ← readbyte;
      match d with
      | None => mret FAILED
      | Some eventdescriptor =>
          channel ← GetMIDIChannel (Z.land eventdescriptor 0x0F);
          r ← HandleEvent (Z.land eventdescriptor 0x70) channel;
          match r with
          | None => mret FAILED
          | Some true => mret (Some true)
          | Some false =>
              if negb (Z.land eventdescriptor 0x80 =? 0) then mret (Some false) else EventBlock fuel
          end
      end
  end.

(** The time code: [None] when the input ends in it. *)
Fixpoint TimeCode (fuel : nat) (timedelay : Z) : CM (option Z) :=
  match fuel with
  | O => stopM NoFuel
  | S fuel =>
      w ← readbyte;
      match w with
      | None => mret None
      | Some working =>
          let timedelay := u32 (timedelay * 128 + Z.land working 0x7F) in
          if Z.land working 0x80 =? 0 then mret (Some timedelay) else TimeCode fuel timedelay
      end
  end.

(** The outer [while]; the result says whether the function fails. *)
Fixpoint ScoreLoop (fuel0 fuel : nat) : CM bool :=
  match fuel with
  | O => stopM NoFuel
  | S fuel =>
      r ← EventBlock fuel0;
      match r with
      | None => mret true
      | Some true => mret false
      | Some false =>
          t ← TimeCode fuel0 0;
          match t with
          | None => mret true
          | Some timedelay =>
              s ← getS;
              modS (set_queuedtime (u32 (queuedtime s + timedelay)));;
              ScoreLoop fuel0 fuel
          end
      end
  end.

Definition size_bytes (n : Z) : list Z :=
  [u8 (Z.land (Z.shiftr n 24) 0xff); u8 (Z.land (Z.shiftr n 16) 0xff);
   u8 (Z.land (Z.shiftr n 8) 0xff); u8 (Z.land n 0xff)].

Definition mus2mid : CM bool :=
  modS (set_channel_map (replicate NUM_CHANNELS (-1)));;
  h ← ReadMusHeader;
  match h with
  | None => mret true
  | Some musfileheader =>
      if negb (bool_decide (mh_id musfileheader = [0x4D; 0x55; 0x53; 0x1A])) then mret true
      else
        s ← getS;
        let (r, f) := mem_fseek (cv_in s) (mh_scorestart musfileheader) MEM_SEEK_SET in
        modS (set_in f);;
        if negb (r =? 0) then mret true
        else
          fwrite midiheader 1 22;;
          modS (set_tracksize 0);;
          let fuel := S (S (length (mf_data f))) in
          orfail (ScoreLoop fuel fuel)
            (orfail WriteEndTrack
               (s ← getS;
                let (r, f) := mem_fseek (cv_out s) 18 MEM_SEEK_SET in
                modS (set_out (cv_zone s) f);;
                if negb (r =? 0) then mret true
                else
                  n ← fwrite (size_bytes (tracksize s)) 1 4;
                  mret (negb (n =? 4))))
  end.
End mus2mid.

(** ** MUS scores

    A score is a sequence of events on MUS channels and of waits. *)

Inductive mus_event : Type :=
| Release (key : Z)
| Press (key : Z) (volume : option Z)
| Pitch (bend : Z)
| System (number : Z)
| Controller (number value : Z).

Inductive item : Type :=
| Event (channel : Z) (e : mus_event)
| Wait (ticks : Z)
| ScoreEnd (channel : Z).

Definition ed_code (ed : Z) : Z := Z.land ed 0x70.
Definition ed_channel (ed : Z) : Z := Z.land ed 0x0F.
Definition ed_last (ed : Z) : bool := negb (Z.land ed 0x80 =? 0).

(** The arguments of an event, from the bytes that follow its descriptor. *)
Definition parse_event (code : Z) (bs : list Z) : option (mus_event * list Z) :=
  match bs with
  | [] => None
  | k :: bs =>
      if code =? mus_releasekey then Some (Release k, bs)
      else if code =? mus_presskey then
        if Z.land k 0x80 =? 0 then Some (Press k None, bs)
        else match bs with v :: bs => Some (Press k (Some v), bs) | [] => None end
      else if code =? mus_pitchwheel then Some (Pitch k, bs)
      else if code =? mus_systemevent then
        if (10 <=? k) && (k <=? 14) then Some (System k, bs) else None
      else if code =? mus_changecontroller then
        match bs with
        | v :: bs => if k <=? 9 then Some (Controller k v, bs) else None
        | [] => None
        end
      else None
  end.

(** Seven bits a byte, most significant first, until a byte below 128; modulo [2^32]. *)
Fixpoint parse_time (acc : Z) (bs : list Z) : option (Z * list Z) :=
  match bs with
  | [] => None
  | w :: bs =>
      let acc := u32 (acc * 128 + Z.land w 0x7F) in
      if Z.land w 0x80 =? 0 then Some (acc, bs) else parse_time acc bs
  end.

(** [mus_score bs items]: the bytes [bs] start with the score [items].  The wait belongs to the
    last event of a block. *)
Inductive mus_score : list Z → list item → Prop :=
| score_end ed bs : ed_code ed = mus_scoreend → mus_score (ed :: bs) [ScoreEnd (ed_channel ed)]
| score_event ed bs e rest items :
    ed_code ed ≠ mus_scoreend → parse_event (ed_code ed) bs = Some (e, rest) → ed_last ed = false →
    mus_score rest items → mus_score (ed :: bs) (Event (ed_channel ed) e :: items)
| score_last ed bs e rest items :
    ed_code ed ≠ mus_scoreend → parse_event (ed_code ed) bs = Some (e, rest) → ed_last ed = true →
    mus_wait rest items → mus_score (ed :: bs) (Event (ed_channel ed) e :: items)
with mus_wait : list Z → list item → Prop :=
| wait_time bs t rest items :
    parse_time 0 bs = Some (t, rest) → mus_score rest items → mus_wait bs (Wait t :: items).

(** ** MIDI messages *)

Inductive message : Type :=
| NoteOff (channel key : Z)
| NoteOn (channel key velocity : Z)
| Bend (channel wheel : Z)
| Patch (channel patch : Z)
| Control (channel control value : Z)
| EndOfTrack.

#[export] Instance message_eq_dec : EqDecision message.
Proof. solve_decision. Defined.

(** A number in groups of seven bits, most significant first, all but the last with bit 7 set. *)
Definition vlq (n : Z) : list Z :=
  let group k := (n / 128 ^ k) `mod` 128 in
  if n <? 128 then [n]
  else if n <? 128 ^ 2 then [128 + group 1; group 0]
  else if n <? 128 ^ 3 then [128 + group 2; 128 + group 1; group 0]
  else if n <? 128 ^ 4 then [128 + group 3; 128 + group 2; 128 + group 1; group 0]
  else (* does not fit the 32-bit buffer: the least significant group is lost *)
    [128 + group 4; 128 + group 3; 128 + group 2; 128 + group 1; 0].

Definition message_bytes (m : message) : list Z :=
  match m with
  | NoteOff c k => [0x80 + c; k; 0]
  | NoteOn c k v => [0x90 + c; k; v]
  | Bend c w => [0xE0 + c; w `mod` 128; w / 128]
  | Patch c p => [0xC0 + c; p]
  | Control c n v => [0xB0 + c; n; v]
  | EndOfTrack => [0xFF; 0x2F; 0x00]
  end.

Definition track (ms : list (Z * message)) : list Z :=
  ms ≫= λ dm, vlq dm.1 ++ message_bytes dm.2.

Definition be32 (n : Z) : list Z :=
  [n / 2 ^ 24; (n / 2 ^ 16) `mod` 256; (n / 2 ^ 8) `mod` 256; n `mod` 256].

(** A type 0 MIDI file with one track. *)
Definition midi_file (ms : list (Z * message)) : list Z :=
  take 18 midiheader ++ be32 (Z.of_nat (length (track ms))) ++ track ms.

(** ** Translation *)

(** What the translation of the rest of a score depends on: the MIDI channels of the MUS
    channels (-1: none yet), the last volume on each MIDI channel, the ticks since the last message. *)
Record tstate : Type := mkT { t_map : list Z; t_vel : list Z; t_wait : Z }.

(** A MUS channel gets a MIDI channel when first used, announced by an all-notes-off. *)
Definition t_channel (c : Z) (t : tstate) : Z * list (Z * message) * tstate :=
  if c =? MUS_PERCUSSION_CHAN then (MIDI_PERCUSSION_CHAN, [], t)
  else
    let m := t_map t !!! Z.to_nat c in
    if m =? -1 then
      let m := AllocateMIDIChannel (t_map t) in
      (m, [(t_wait t, Control m 0x7b 0)], mkT (<[Z.to_nat c := m]> (t_map t)) (t_vel t) 0)
    else (m, [], t).

(** The message of an event on MIDI channel [c], and the volumes after it. *)
Definition t_message (c : Z) (vel : list Z) (e : mus_event) : message * list Z :=
  match e with
  | Release k => (NoteOff c (k `mod` 128), vel)
  | Press k None => (NoteOn c (k `mod` 128) (vel !!! Z.to_nat c), vel)
  | Press k (Some v) =>
      (NoteOn c (k `mod` 128) (v `mod` 128), <[Z.to_nat c := v `mod` 128]> vel)
  | Pitch b => (Bend c (b * 64), vel)
  | System n => (Control c (controller_map !!! Z.to_nat n) 0, vel)
  | Controller n v =>
      (if n =? 0 then Patch c (v `mod` 128)
       else Control c (controller_map !!! Z.to_nat n) (v `min` 127), vel)
  end.

Fixpoint translate (t : tstate) (items : list item) : list (Z * message) :=
  match items with
  | [] => []
  | Wait w :: items => translate (mkT (t_map t) (t_vel t) (u32 (t_wait t + w))) items
  | Event c e :: items =>
      let '(ch, ms, t) := t_channel c t in
      let (m, vel) := t_message ch (t_vel t) e in
      ms ++ (t_wait t, m) :: translate (mkT (t_map t) vel 0) items
  | ScoreEnd c :: _ =>
      let '(_, ms, t) := t_channel c t in
      ms ++ [(t_wait t, EndOfTrack)]
  end.

(** ** Proofs: channels *)

(** The MIDI channels in the order in which they are given out. *)
Definition midi_channels : list Z := [0; 1; 2; 3; 4; 5; 6; 7; 8; 10; 11; 12; 13; 14; 15].

Definition assigned (m : list Z) : list Z := filter (λ c, c ≠ -1) m.

(** A channel map gives out an initial piece of [midi_channels], each channel once, and none to
    the percussion channel. *)
Definition map_ok (m : list Z) : Prop :=
  length m = 16%nat ∧ m !! 15%nat = Some (-1) ∧
  ∃ k, (k ≤ 15)%nat ∧ assigned m ≡ₚ take k midi_channels.

Lemma foldl_max (m : list Z) a :
  let r := foldl (λ max c, if max <? c then c else max) a m in
  a ≤ r ∧ (r = a ∨ r ∈ m) ∧ ∀ c, c ∈ m → c ≤ r.
Proof.
  revert a. induction m as [|x m IH]; intros a; cbn; [set_solver by lia|].
  destruct (IH (if a <? x then x else a)) as (Hle & Hin & Hub).
  set (r := foldl _ _ m) in *. clearbody r. clear IH.
  destruct (Z.ltb_spec a x); split_and!; try lia.
  - right. destruct Hin as [-> | ?]; [left|by right].
  - intros c [-> | ?]%elem_of_cons; [lia|auto].
  - destruct Hin as [-> | ?]; [by left|right; by right].
  - intros c [-> | ?]%elem_of_cons; [lia|auto].
Qed.

Lemma allocate_next m k :
  assigned m ≡ₚ take k midi_channels → (k < 15)%nat →
  midi_channels !! k = Some (AllocateMIDIChannel m).
Proof.
  intros Hp Hk. unfold AllocateMIDIChannel.
  destruct (foldl_max m (-1)) as (Hle & Hin & Hub). set (r := foldl _ _ m) in *. clearbody r.
  assert (Hin' : r = -1 ∨ r ∈ take k midi_channels).
  { destruct (decide (r = -1)); [by left|]. right. rewrite <- Hp. apply list_elem_of_filter.
    split; [done|]. by destruct Hin. }
  assert (Hub' : Forall (λ c, c ≤ r) (take k midi_channels)).
  { apply Forall_forall. intros c. rewrite <- Hp. intros [_ ?]%list_elem_of_filter. auto. }
  clear -Hk Hin' Hub'. unfold MIDI_PERCUSSION_CHAN.
  do 15 (destruct k as [|k]; [cbn in *; rewrite ?elem_of_cons, elem_of_nil in Hin'; rewrite ?Forall_cons in Hub';
    f_equal; destruct (Z.eqb_spec (r + 1) 9); lia|]). lia.
Qed.

Lemma assigned_insert m c v :
  m !! c = Some (-1) → v ≠ -1 → assigned (<[c := v]> m) ≡ₚ v :: assigned m.
Proof.
  intros Hc Hv. pose proof (lookup_lt_Some _ _ _ Hc) as Hl.
  rewrite insert_take_drop by done. rewrite <- (take_drop_middle m c (-1) Hc) at 3.
  unfold assigned. rewrite !filter_app, filter_cons_True, (filter_cons_False _ (-1)) by (done || intros H; by apply H).
  by rewrite Permutation_middle.
Qed.

Lemma assigned_room m c :
  length m = 16%nat → m !! 15%nat = Some (-1) → (c < 15)%nat → m !! c = Some (-1) →
  (length (assigned m) < 15)%nat.
Proof.
  intros Hl H15 Hc Hm.
  assert (H2 : assigned (<[c := 0]> (<[15%nat := 0]> m)) ≡ₚ 0 :: 0 :: assigned m).
  { rewrite assigned_insert, (assigned_insert m); [done|done|done| |done].
    by rewrite list_lookup_insert_ne by lia. }
  apply Permutation_length in H2. cbn in H2.
  pose proof (length_filter (λ c, c ≠ -1) (<[c := 0]> (<[15%nat := 0]> m))) as H.
  unfold assigned in H2. rewrite !length_insert in H. unfold assigned. lia.
Qed.

Lemma allocate_ok m c :
  map_ok m → (c < 15)%nat → m !! c = Some (-1) →
  let v := AllocateMIDIChannel m in map_ok (<[c := v]> m) ∧ 0 ≤ v < 16 ∧ v ≠ 9 ∧ v ∉ m.
Proof.
  intros (Hl & H15 & k & Hk & Hp) Hc Hm v.
  pose proof (assigned_room m c Hl H15 Hc Hm) as Hroom. rewrite Hp, length_take in Hroom.
  assert (Hk' : (k < 15)%nat) by (cbn in Hroom; lia).
  pose proof (allocate_next m k Hp Hk') as Hv. fold v in Hv.
  assert (Hr : 0 ≤ v < 16 ∧ v ≠ 9).
  { apply list_elem_of_lookup_2 in Hv. revert Hv. unfold midi_channels.
    rewrite !elem_of_cons, elem_of_nil. lia. }
  split_and!; [|lia..|].
  - split_and!; [by rewrite length_insert|by rewrite list_lookup_insert_ne by lia|].
    exists (S k). split; [lia|]. rewrite assigned_insert by (done || lia).
    rewrite (take_S_r _ _ v Hv), Hp. by rewrite Permutation_cons_append.
  - intros Hin. assert (Hva : v ∈ take k midi_channels).
    { rewrite <- Hp. apply list_elem_of_filter. split; [lia|done]. }
    apply list_elem_of_lookup in Hva as [i Hi]. apply lookup_take_Some in Hi as [Hi Hlt].
    assert (Hnd : NoDup midi_channels) by (apply (bool_decide_unpack _); vm_compute; done).
    pose proof (NoDup_lookup _ _ _ _ Hnd Hi Hv). lia.
Qed.

Lemma map_ok_range m c v : map_ok m → m !! c = Some v → v = -1 ∨ (0 ≤ v < 16 ∧ v ≠ 9).
Proof.
  intros (_ & _ & k & _ & Hp) Hc. destruct (decide (v = -1)); [by left|]. right.
  assert (Hva : v ∈ take k midi_channels).
  { rewrite <- Hp. apply list_elem_of_filter. split; [done|]. by eapply list_elem_of_lookup_2. }
  apply list_elem_of_lookup in Hva as [i [Hv _]%lookup_take_Some]. apply list_elem_of_lookup_2 in Hv. revert Hv.
  unfold midi_channels. rewrite !elem_of_cons, elem_of_nil. lia.
Qed.

Lemma map_ok_init : map_ok (replicate NUM_CHANNELS (-1)).
Proof. split_and!; [done|done|]. exists 0%nat. split; [lia|]. done. Qed.

(** ** Proofs: the output stream *)

Section proofs.
Context (residue : nat → Z) (junk : Z → Z).

Definition output (s : conv) : list Z := contents (cv_out s).

(** The output is a good file, open at its end. *)
Record out_ok (s : conv) (zl : list Z) : Prop := {
  oo_file : wfile_ok (cv_zone s) zl (cv_out s);
  oo_zone : z_size (cv_zone s) ≤ 2 ^ 30;
  oo_end : mf_position (cv_out s) = mf_buflen (cv_out s);
}.

(** [bs] was appended; the counters became [q] and [ts]; nothing else changed. *)
Definition appended (bs : list Z) (q ts : Z) (s s' : conv) : Prop :=
  (∃ z f, s' = mkConv z (cv_in s) f q ts (channelvelocities s) (channel_map s)) ∧
  (∃ zl, out_ok s' zl) ∧ output s' = output s ++ bs.

Lemma appended_trans bs bs' q ts q' ts' s s1 s2 :
  appended bs q ts s s1 → appended bs' q' ts' s1 s2 → appended (bs ++ bs') q' ts' s s2.
Proof.
  intros ((z & f & ->) & _ & H1) ((z' & f' & ->) & ? & H2). split_and!; [by eexists _, _|done|].
  by rewrite H2, H1, app_assoc.
Qed.

Lemma out_ok_set q ts s zl :
  out_ok s zl → out_ok (mkConv (cv_zone s) (cv_in s) (cv_out s) q ts (channelvelocities s) (channel_map s)) zl.
Proof. by intros [? ? ?]. Qed.

Lemma output_length s zl : out_ok s zl → Z.of_nat (length (output s)) = mf_position (cv_out s).
Proof.
  intros [OK _ E]. unfold output. rewrite (length_contents _ _ _ OK), E.
  pose proof (wo_range _ _ _ OK). lia.
Qed.

Lemma wp_fwrite_end s zl bs n (Q : Z → conv → Prop) :
  out_ok s zl → n = Z.of_nat (length bs) → n < 2 ^ 64 →
  (∀ s', appended bs (queuedtime s) (tracksize s) s s' → Q n s') →
  wp alloc_failed (fwrite residue junk bs 1 n) Q s.
Proof.
  intros OO -> Hn HQ. pose proof OO as [OK Hz He].
  pose proof (wp_fwrite residue junk _ _ _ bs 1 (Z.of_nat (length bs)) OK Hz ltac:(lia) Hn) as H.
  unfold wp, fwrite in *.
  destruct (mem_fwrite _ _ _ _ _ _ _) as [[[r f] z]|e]; [|done]. cbn in H.
  destruct H as [-> (zl' & OK' & [Hz' _] & _ & Hc & Hp)]. apply HQ.
  rewrite <- (output_length _ _ OO), Nat2Z.id in Hc. unfold output in Hc. rewrite write_at_end in Hc.
  split_and!; [by eexists _, _| |done]. exists zl'. split; cbn; [done|lia|].
  pose proof (length_contents _ _ _ OK') as HL. rewrite Hc, length_app in HL.
  pose proof (output_length _ _ OO) as HO. unfold output in HO. pose proof (wo_range _ _ _ OK'). lia.
Qed.

(** Sequencing steps that append. *)
Lemma wp_writebyte s zl b (Q : bool → conv → Prop) :
  out_ok s zl → (∀ s', appended [b] (queuedtime s) (tracksize s) s s' → Q false s') →
  wp alloc_failed (writebyte residue junk b) Q s.
Proof.
  intros OO HQ. unfold writebyte. rewrite wp_bind. apply (wp_fwrite_end s zl); [done|done|lia|].
  intros s' HA. rewrite wp_ret. by apply HQ.
Qed.

Lemma wp_orfail (m k : CM bool) (Q : bool → conv → Prop) s :
  wp alloc_failed m (λ r s', r = false ∧ wp alloc_failed k Q s') s → wp alloc_failed (orfail m k) Q s.
Proof.
  intros H. unfold orfail. rewrite wp_bind. eapply wp_mono; [exact H|]. cbn beta. by intros r s' [-> ?].
Qed.

(** [emitter m bs q ts s]: from [s], [m] reports no failure, appends [bs] and leaves the
    counters [q] and [ts]. *)
Definition emitter (m : CM bool) (bs : list Z) (q ts : Z) (s : conv) : Prop :=
  wp alloc_failed m (λ r s', r = false ∧ appended bs q ts s s') s.

Lemma emit_seq m k bs bs' q ts q' ts' s :
  emitter m bs q ts s →
  (∀ s1 zl, out_ok s1 zl → queuedtime s1 = q → tracksize s1 = ts → emitter k bs' q' ts' s1) →
  emitter (orfail m k) (bs ++ bs') q' ts' s.
Proof.
  intros Hm Hk. apply wp_orfail. eapply wp_mono; [exact Hm|]. cbn beta. intros r s1 [-> HA].
  split; [done|]. destruct HA as ((z & f & ->) & [zl OO] & HO) eqn:E. clear E.
  eapply wp_mono; [by apply (Hk _ zl)|]. cbn beta. intros r s2 [-> HA']. split; [done|].
  eapply appended_trans; [|exact HA']. split_and!; [by eexists _, _|by eexists|done].
Qed.

Lemma emit_byte s zl b : out_ok s zl → emitter (writebyte residue junk b) [b] (queuedtime s) (tracksize s) s.
Proof. intros OO. by apply (wp_writebyte s zl). Qed.

Lemma emit_size s zl n :
  out_ok s zl → emitter (add_tracksize n) [] (queuedtime s) (u32 (tracksize s + n)) s.
Proof.
  intros OO. unfold emitter, add_tracksize. wp_simp. split; [done|]. split_and!.
  - by eexists _, _.
  - exists zl. by apply (out_ok_set (queuedtime s) (u32 (tracksize s + n))) in OO.
  - unfold output. cbn. by rewrite app_nil_r.
Qed.

(** *** Times *)

Lemma TimeBuffer_S fuel time buffer :
  0 ≤ time → 0 ≤ buffer →
  TimeBuffer (S fuel) time buffer =
  if time / 128 =? 0 then mret buffer
  else TimeBuffer fuel (time / 128) ((buffer * 256) `mod` 2 ^ 32 + (128 + (time / 128) `mod` 128)).
Proof.
  intros Ht Hb. cbn [TimeBuffer]. rewrite Z.shiftr_div_pow2 by lia. change (2 ^ 7) with 128.
  case_match; [done|]. f_equal.
  rewrite land_7f, lor_80 by (apply Z.mod_pos_bound; lia).
  unfold wrap_u. rewrite Z.shiftl_mul_pow2 by lia. change (2 ^ 8) with 256.
  replace ((buffer * 256) `mod` 2 ^ 32) with (Z.shiftl (buffer `mod` 2 ^ 24) 8).
  - rewrite Z.lor_comm, lor_shiftl; [rewrite Z.shiftl_mul_pow2 by lia|lia|]; [lia|].
    pose proof (Z.mod_pos_bound (time / 128) 128). lia.
  - rewrite Z.shiftl_mul_pow2 by lia. change (2 ^ 32) with (2 ^ 24 * 2 ^ 8). change (2 ^ 8) with 256.
    by rewrite Z.mul_mod_distr_r.
Qed.

(** The buffer whose bytes, from the least significant one, are [pre ++ [b]]. *)
Fixpoint buffer_of (pre : list Z) (b : Z) : Z :=
  match pre with [] => b | c :: pre => c + 256 * buffer_of pre b end.

Lemma TimeBuffer_more fuel time buffer :
  128 ≤ time → 0 ≤ buffer →
  TimeBuffer (S fuel) time buffer =
  TimeBuffer fuel (time / 128) ((buffer * 256) `mod` 2 ^ 32 + (128 + (time / 128) `mod` 128)).
Proof.
  intros Ht Hb. rewrite TimeBuffer_S by lia. destruct (Z.eqb_spec (time / 128) 0); [|done].
  pose proof (Z.div_le_lower_bound time 128 1). lia.
Qed.

Lemma TimeBuffer_done fuel time buffer :
  0 ≤ time < 128 → 0 ≤ buffer → TimeBuffer (S fuel) time buffer = mret buffer.
Proof. intros Ht Hb. rewrite TimeBuffer_S by lia. by rewrite Z.div_small by lia. Qed.

Lemma wp_TimeBuffer n (Q : Z → conv → Prop) s :
  0 ≤ n < 2 ^ 32 →
  (∀ pre b, Forall (λ c, 128 ≤ c < 256) pre → 0 ≤ b < 128 → (length pre ≤ 4)%nat →
     vlq n = pre ++ [b] → Q (buffer_of pre b) s) →
  wp alloc_failed (TimeBuffer 8 n (Z.land n 0x7F)) Q s.
Proof.
  intros Hn HQ. rewrite land_7f. unfold vlq in HQ.
  change (128 ^ 4) with (128 * 128 * 128 * 128) in HQ. change (128 ^ 3) with (128 * 128 * 128) in HQ.
  change (128 ^ 2) with (128 * 128) in HQ. change (128 ^ 1) with 128 in HQ.
  change (128 ^ 0) with 1 in HQ. rewrite <- !Z.div_div, Z.div_1_r in HQ by lia.
  set (n1 := n / 128) in *. set (n2 := n1 / 128) in *. set (n3 := n2 / 128) in *. set (n4 := n3 / 128) in *.
  assert (Hg : ∀ a, 0 ≤ a `mod` 128 < 128) by (intros; apply Z.mod_pos_bound; lia).
  pose proof (Hg n). pose proof (Hg n1). pose proof (Hg n2). pose proof (Hg n3). pose proof (Hg n4).
  destruct (Z.ltb_spec n 128).
  { rewrite TimeBuffer_done by lia. rewrite wp_ret. rewrite Z.mod_small by lia.
    apply (HQ [] n); [constructor|lia|cbn; lia|done]. }
  assert (HD1 : 128 * n1 ≤ n < 128 * n1 + 128) by (subst n1; Z.to_euclidean_division_equations; lia).
  assert (HD2 : 128 * n2 ≤ n1 < 128 * n2 + 128) by (subst n2; clearbody n1; Z.to_euclidean_division_equations; lia).
  assert (HD3 : 128 * n3 ≤ n2 < 128 * n3 + 128) by (subst n3; clearbody n2; Z.to_euclidean_division_equations; lia).
  assert (HD4 : 128 * n4 ≤ n3 < 128 * n4 + 128) by (subst n4; clearbody n3; Z.to_euclidean_division_equations; lia).
  rewrite TimeBuffer_more by lia. fold n1. rewrite (Z.mod_small (_ * 256)) by lia.
  destruct (Z.ltb_spec n (128 * 128)).
  { rewrite TimeBuffer_done, wp_ret by lia.
    replace (_ + _) with (buffer_of [128 + n1 `mod` 128] (n `mod` 128)) by (cbn; lia).
    apply HQ; [repeat constructor; lia|lia|cbn; lia|done]. }
  rewrite TimeBuffer_more by lia. fold n2. rewrite (Z.mod_small (_ * 256)) by lia.
  destruct (Z.ltb_spec n (128 * 128 * 128)).
  { rewrite TimeBuffer_done, wp_ret by lia.
    replace (_ + _) with (buffer_of [128 + n2 `mod` 128; 128 + n1 `mod` 128] (n `mod` 128)) by (cbn; lia).
    apply HQ; [repeat constructor; lia|lia|cbn; lia|done]. }
  rewrite TimeBuffer_more by lia. fold n3. rewrite (Z.mod_small (_ * 256)) by lia.
  destruct (Z.ltb_spec n (128 * 128 * 128 * 128)).
  { rewrite TimeBuffer_done, wp_ret by lia.
    replace (_ + _) with
      (buffer_of [128 + n3 `mod` 128; 128 + n2 `mod` 128; 128 + n1 `mod` 128] (n `mod` 128)) by (cbn; lia).
    apply HQ; [repeat constructor; lia|lia|cbn; lia|done]. }
  rewrite TimeBuffer_more by lia. fold n4.
  match goal with |- context [?a `mod` 2 ^ 32] =>
    replace (a `mod` 2 ^ 32) with (a - n `mod` 128 * 2 ^ 32)
      by (apply Z.mod_unique with (n `mod` 128); lia)
  end.
  rewrite TimeBuffer_done, wp_ret by lia.
  replace (_ + _) with (buffer_of [128 + n4 `mod` 128; 128 + n3 `mod` 128; 128 + n2 `mod` 128;
    128 + n1 `mod` 128] 0) by (cbn; lia).
  apply HQ; [repeat constructor; lia|lia|cbn; lia|done].
Qed.

Lemma u32_add a b : u32 (u32 a + b) = u32 (a + b).
Proof. apply Zplus_mod_idemp_l. Qed.

Lemma emit_buffer fuel pre b s zl :
  out_ok s zl → Forall (λ c, 128 ≤ c < 256) pre → 0 ≤ b < 128 → (length pre < fuel)%nat →
  emitter (EmitTime residue junk fuel (buffer_of pre b)) (pre ++ [b]) 0
    (u32 (tracksize s + Z.of_nat (length (pre ++ [b])))) s.
Proof.
  revert pre s zl. induction fuel as [|fuel IH]; intros pre s zl OO Hp Hb Hf; [lia|].
  cbn [EmitTime]. rewrite land_ff, land_80.
  set (v := buffer_of pre b `mod` 256).
  assert (Hv : v = match pre with [] => b | c :: _ => c end).
  { subst v. destruct pre as [|c pre]; cbn; [by rewrite Z.mod_small by lia|].
    apply Forall_cons in Hp as [? _]. rewrite Z.mul_comm, Z.mod_add by lia. apply Z.mod_small; lia. }
  rewrite (wrap_u_small 8 v) by (apply Z.mod_pos_bound; lia).
  replace (pre ++ [b]) with ([v] ++ tail (pre ++ [b])) by (rewrite Hv; by destruct pre).
  eapply emit_seq; [by apply (emit_byte s zl)|]. intros s1 zl1 OO1 Hq Ht. unfold emitter. wp_simp.
  pose proof (out_ok_set (queuedtime s1) (u32 (tracksize s1 + 1)) _ _ OO1) as OO2.
  destruct pre as [|c pre].
  - rewrite (proj2 (Z.ltb_lt v 128)) by lia. cbn [negb]. wp_simp. split; [done|].
    split_and!; [eexists _, _; unfold set_queuedtime, set_tracksize; cbn; by rewrite Ht| |].
    + exists zl1. by apply (out_ok_set 0 (u32 (tracksize s1 + 1))) in OO1.
    + unfold output. cbn. by rewrite app_nil_r.
  - apply Forall_cons in Hp as [? ?]. rewrite (proj2 (Z.ltb_ge v 128)) by lia. cbn [negb].
    rewrite Z.shiftr_div_pow2 by lia. cbn [buffer_of].
    replace ((c + 256 * buffer_of pre b) / 2 ^ 8) with (buffer_of pre b).
    2:{ change (2 ^ 8) with 256. rewrite Z.add_comm, Z.mul_comm, Z.div_add_l, Z.div_small by lia. lia. }
    eapply wp_mono; [apply (IH pre _ zl1); [exact OO2|done|done|cbn in Hf; lia]|].
    cbn beta. intros r s2 [-> ((z & f & ->) & HZ & HO)]. split; [done|]. split_and!; [|done|exact HO].
    eexists _, _. cbn. rewrite u32_add, Ht. do 2 f_equal. cbn. rewrite length_app. cbn. lia.
Qed.

Lemma emit_time s zl n :
  out_ok s zl → 0 ≤ n < 2 ^ 32 →
  emitter (WriteTime residue junk n) (vlq n) 0 (u32 (tracksize s + Z.of_nat (length (vlq n)))) s.
Proof.
  intros OO Hn. unfold emitter, WriteTime. rewrite wp_bind. apply wp_TimeBuffer; [done|].
  intros pre b Hp Hb Hl Hv. rewrite Hv. apply (emit_buffer 8 _ _ _ zl); [done..|lia].
Qed.

(** *** Messages *)

(** The common shape of the writers. *)
Fixpoint write_bytes (bs : list Z) (k : CM bool) : CM bool :=
  match bs with [] => k | b :: bs => orfail (writebyte residue junk b) (write_bytes bs k) end.

Lemma emit_bytes bs n s zl :
  out_ok s zl → emitter (write_bytes bs (add_tracksize n)) bs (queuedtime s) (u32 (tracksize s + n)) s.
Proof.
  revert s zl. induction bs as [|b bs IH]; intros s zl OO; cbn [write_bytes].
  - by apply (emit_size s zl).
  - apply (emit_seq _ _ [b] bs (queuedtime s) (tracksize s)); [by apply (emit_byte s zl)|].
    intros s1 zl1 OO1 <- <-. by apply (IH s1 zl1).
Qed.

Lemma emit_queued k bs s zl n :
  out_ok s zl → 0 ≤ queuedtime s < 2 ^ 32 → n = Z.of_nat (length bs) →
  (∀ s1 zl1, out_ok s1 zl1 → emitter k bs (queuedtime s1) (u32 (tracksize s1 + n)) s1) →
  emitter (orfail (WriteQueuedTime residue junk) k) (vlq (queuedtime s) ++ bs) 0
    (u32 (tracksize s + Z.of_nat (length (vlq (queuedtime s) ++ bs)))) s.
Proof.
  intros OO Hq -> Hk. eapply emit_seq.
  - unfold emitter, WriteQueuedTime. rewrite wp_bind, wp_get. by apply (emit_time s zl).
  - intros s1 zl1 OO1 Hq1 Ht1. pose proof (Hk s1 zl1 OO1) as H. rewrite Hq1, Ht1, u32_add in H.
    rewrite length_app, Nat2Z.inj_add, Z.add_assoc. exact H.
Qed.

Definition sends (m : CM bool) (msg : message) (s : conv) : Prop :=
  emitter m (track [(queuedtime s, msg)]) 0
    (u32 (tracksize s + Z.of_nat (length (track [(queuedtime s, msg)])))) s.

Lemma sends_bytes m bs msg n s zl :
  out_ok s zl → 0 ≤ queuedtime s < 2 ^ 32 →
  m = orfail (WriteQueuedTime residue junk) (write_bytes bs (add_tracksize n)) →
  bs = message_bytes msg → n = Z.of_nat (length bs) → sends m msg s.
Proof.
  intros OO Hq -> Hbs Hn. unfold sends, track. cbn [mbind list_bind fst snd]. rewrite app_nil_r, <- Hbs.
  apply (emit_queued _ _ _ zl n); [done..|]. intros s1 zl1 OO1. by apply (emit_bytes bs n s1 zl1).
Qed.

Lemma status_byte a c : 0 ≤ a < 16 → 0 ≤ c < 16 → u8 (Z.lor (16 * a) c) = 16 * a + c.
Proof. intros. rewrite lor_nibble by done. apply wrap_u_small. unfold in_u. lia. Qed.

Lemma u8_7f v : u8 (v `mod` 128) = v `mod` 128.
Proof. apply wrap_u_small. unfold in_u. pose proof (Z.mod_pos_bound v 128). lia. Qed.

Section senders.
Context (s : conv) (zl : list Z) (c : Z).
Hypothesis OO : out_ok s zl.
Hypothesis Hq : 0 ≤ queuedtime s < 2 ^ 32.
Hypothesis Hc : 0 ≤ c < 16.

Ltac sender bs :=
  eapply (sends_bytes _ bs); [exact OO|exact Hq|reflexivity| |reflexivity];
  rewrite ?land_7f, ?u8_7f; cbn [message_bytes].

Lemma send_press k v : sends (WritePressKey residue junk c k v) (NoteOn c (k `mod` 128) (v `mod` 128)) s.
Proof. sender uconstr:([_; _; _]). rewrite (status_byte 9) by lia. done. Qed.

Lemma send_release k : sends (WriteReleaseKey residue junk c k) (NoteOff c (k `mod` 128)) s.
Proof. sender uconstr:([_; _; _]). rewrite (status_byte 8) by lia. done. Qed.

Lemma send_wheel w : 0 ≤ w < 128 * 128 → sends (WritePitchWheel residue junk c w) (Bend c w) s.
Proof.
  intros Hw. sender uconstr:([_; _; _]). rewrite (status_byte 14), Z.shiftr_div_pow2 by lia. change (2 ^ 7) with 128.
  rewrite (Z.mod_small (w / 128)); [done|]. split; [apply Z.div_pos; lia|apply Z.div_lt_upper_bound; lia].
Qed.

Lemma send_patch p : sends (WriteChangePatch residue junk c p) (Patch c (p `mod` 128)) s.
Proof. sender uconstr:([_; _]). rewrite (status_byte 12) by lia. done. Qed.

Lemma send_control n v :
  0 ≤ n < 128 → 0 ≤ v < 256 →
  sends (WriteChangeController_Valued residue junk c n v) (Control c n (v `min` 127)) s.
Proof.
  intros Hn Hv. sender uconstr:([_; _; _]). rewrite (status_byte 11), (Z.mod_small n), land_80, (Z.mod_small v) by lia.
  do 2 f_equal. destruct (Z.ltb_spec v 128); cbn [negb]; f_equal; lia.
Qed.

Lemma send_end : sends (WriteEndTrack residue junk) EndOfTrack s.
Proof.
  unfold sends, track, WriteEndTrack. cbn [mbind list_bind fst snd]. rewrite app_nil_r.
  apply (emit_queued _ _ _ zl 3); [done..|]. intros s1 zl1 OO1. unfold emitter. rewrite wp_bind.
  apply (wp_fwrite_end s1 zl1); [done|done|lia|]. intros s2 ((z & f & ->) & [zl2 OO2] & HO). cbn [Z.eqb negb Pos.eqb].
  eapply wp_mono; [by apply (emit_size _ zl2)|]. cbn beta. intros r s3 [-> HA]. split; [done|].
  rewrite <- (app_nil_r (message_bytes _)). eapply appended_trans; [|exact HA].
  split_and!; [by eexists _, _|by eexists|done].
Qed.
End senders.

(** ** The conversion, step by step *)

Definition input (s : conv) : list Z := unread (cv_in s).
Definition tst (s : conv) : tstate := mkT (channel_map s) (channelvelocities s) (queuedtime s).
Definition vel_ok (l : list Z) : Prop := length l = 16%nat ∧ Forall (λ v, 0 ≤ v < 128) l.

(** What holds while the score is converted. *)
Record conv_inv (s : conv) : Prop := {
  ci_out : ∃ zl, out_ok s zl;
  ci_in : rfile_ok (cv_in s);
  ci_bytes : Forall (in_u 8) (mf_data (cv_in s));
  ci_map : map_ok (channel_map s);
  ci_vel : vel_ok (channelvelocities s);
  ci_time : in_u 32 (queuedtime s);
  ci_size : tracksize s = Z.of_nat (length (output s)) - 22 ∧ 22 ≤ Z.of_nat (length (output s));
}.

(** From [s] to [s']: [ms] was sent, the translation state is [t], [rest] is left to read. *)
Definition moved (s : conv) (ms : list (Z * message)) (t : tstate) (rest : list Z) (s' : conv) : Prop :=
  conv_inv s' ∧ output s' = output s ++ track ms ∧ tst s' = t ∧ input s' = rest.

Lemma moved_refl s : conv_inv s → moved s [] (tst s) (input s) s.
Proof. intros. split_and!; [done| |done..]. by rewrite app_nil_r. Qed.

Lemma track_app ms ms' : track (ms ++ ms') = track ms ++ track ms'.
Proof. apply bind_app. Qed.

Lemma moved_trans s ms t rest s1 ms' t' rest' s2 :
  moved s ms t rest s1 → moved s1 ms' t' rest' s2 → moved s (ms ++ ms') t' rest' s2.
Proof.
  intros (_ & HO & _ & _) (? & HO' & ? & ?). split_and!; [done| |done..].
  by rewrite HO', HO, track_app, app_assoc.
Qed.

Lemma out_bound s zl : out_ok s zl → Z.of_nat (length (output s)) ≤ 2 ^ 30.
Proof.
  intros OO. rewrite (output_length _ _ OO). destruct OO as [OK Hz He].
  pose proof (static_bound _ _ _ _ (wo_zone _ _ _ OK) (wo_buf _ _ _ OK)).
  pose proof (wo_range _ _ _ OK). lia.
Qed.

Lemma wp_readbyte s (Q : option Z → conv → Prop) :
  conv_inv s →
  (∀ s', input s = [] → moved s [] (tst s) [] s' → Q None s') →
  (∀ b rest s', input s = b :: rest → 0 ≤ b < 256 → moved s [] (tst s) rest s' → Q (Some b) s') →
  wp alloc_failed readbyte Q s.
Proof.
  intros [[zl OO] RI HB HM HV HT HS] H0 H1. unfold readbyte, fread. rewrite wp_bind. unfold wp at 1.
  destruct (fread_run (cv_in s) 1 1 RI) as (-> & RI' & HU); [lia..|]. fold (input s) in *.
  rewrite Z.div_1_r in *. set (f' := seeked _ _) in *.
  assert (Hinv : conv_inv (set_in f' s)).
  { split; try done. exists zl. by destruct OO. }
  rewrite wp_ret. cbn [fst snd]. destruct (input s) as [|b rest] eqn:E.
  - apply H0; [done|]. split_and!; [done| |done..]. by rewrite app_nil_r.
  - rewrite (Z.min_l 1) in * by (cbn [length]; lia). cbn. apply (H1 b rest); [done| |].
    + unfold input, unread in E. rewrite Forall_forall in HB. apply (HB b).
      rewrite <- (take_drop (Z.to_nat (mf_position (cv_in s))) (mf_data _)), E. set_solver.
    + split_and!; [done| |done|done]. by rewrite app_nil_r.
Qed.

Lemma wp_send m msg s :
  conv_inv s → sends m msg s →
  wp alloc_failed m
    (λ r s', r = false ∧
       moved s [(queuedtime s, msg)] (mkT (channel_map s) (channelvelocities s) 0) (input s) s') s.
Proof.
  intros [[zl OO] RI HB HM HV HT [HS HS22]] Hm. eapply wp_mono; [exact Hm|]. cbn beta.
  intros r s' [-> ((z & f & ->) & [zl' OO'] & HO)]. split; [done|]. split_and!; [|done..].
  split; try done; [by exists zl'|]. cbn [tracksize]. pose proof (out_bound _ _ OO') as Hb.
  apply (f_equal length) in HO. rewrite length_app in HO.
  match type of HO with ?L = _ => set (len := L) in * end. clearbody len. split; [|lia].
  rewrite wrap_u_small; [lia|]. unfold in_u. lia.
Qed.

Lemma wp_elem l i v (Q : Z → conv → Prop) s :
  0 ≤ i → l !! Z.to_nat i = Some v → Q v s → wp alloc_failed (elem l i) Q s.
Proof. intros Hi Hl HQ. unfold elem. destruct (Z.ltb_spec i 0); [lia|]. by rewrite Hl. Qed.

Lemma wp_GetMIDIChannel c s :
  conv_inv s → 0 ≤ c < 16 →
  wp alloc_failed (GetMIDIChannel residue junk c)
    (λ r s', 0 ≤ r < 16 ∧ ∃ ms t, t_channel c (tst s) = (r, ms, t) ∧ moved s ms t (input s) s') s.
Proof.
  intros CI Hc. unfold GetMIDIChannel, t_channel. unfold MUS_PERCUSSION_CHAN, MIDI_PERCUSSION_CHAN.
  destruct (Z.eqb_spec c 15) as [->|Hne].
  { rewrite wp_ret. split; [lia|]. eexists _, _. split; [done|]. by apply moved_refl. }
  pose proof (ci_map _ CI) as MO. destruct MO as (Hl & H15 & Hk) eqn:E. clear E.
  destruct (lookup_lt_is_Some_2 (channel_map s) (Z.to_nat c)) as [v Hv]; [lia|].
  rewrite (list_lookup_total_correct _ _ _ Hv : t_map (tst s) !!! _ = _).
  rewrite wp_bind, wp_get, wp_bind. apply (wp_elem _ _ v); [lia|done|].
  rewrite wp_bind. destruct (Z.eqb_spec v (-1)) as [->|Hv1].
  - destruct (allocate_ok (channel_map s) (Z.to_nat c) (ci_map _ CI) ltac:(lia) Hv) as (MO' & Hr & _).
    set (new := AllocateMIDIChannel (channel_map s)) in *.
    set (s1 := set_channel_map (<[Z.to_nat c := new]> (channel_map s)) s).
    assert (CI1 : conv_inv s1).
    { destruct CI as [[zl OO] ? ? ? ? ? ?]. split; try done. exists zl. by destruct OO. }
    rewrite wp_bind, wp_mod, wp_bind. fold s1.
    rewrite (wrap_u_small 8 new) by (unfold in_u; lia).
    eapply wp_mono.
    { apply wp_send; [exact CI1|]. destruct (ci_out _ CI1) as [zl OO]. 
      apply (send_control s1 zl new OO (ci_time _ CI1) Hr 0x7b 0); lia. }
    cbn beta. intros r s2 (_ & CI2 & HO & HT & HI). rewrite wp_ret. cbn beta iota. rewrite wp_bind, wp_get.
    assert (HM : channel_map s2 = <[Z.to_nat c := new]> (channel_map s)) by (by injection HT).
    apply (wp_elem _ _ new); [lia|rewrite HM; apply list_lookup_insert_eq; lia|].
    split; [done|]. eexists _, _. split; [done|]. split_and!; [done..|]. by rewrite HI.
  - rewrite wp_ret, wp_bind, wp_get. apply (wp_elem _ _ v); [lia|done|].
    destruct (map_ok_range _ _ _ (ci_map _ CI) Hv) as [?|?]; [done|].
    split; [lia|]. eexists _, _. split; [done|]. by apply moved_refl.
Qed.

(** What one event does: it is the parse of the input and sends one message, or the parse fails;
    a pitch-wheel event cut off by the end of the input is only noticed by the next read. *)
Definition handled (code channel : Z) (s : conv) (r : option bool) (s' : conv) : Prop :=
  conv_inv s' ∧
  match r with
  | None => code ≠ mus_scoreend ∧ parse_event code (input s) = None
  | Some true => code = mus_scoreend ∧ s' = s
  | Some false =>
      code ≠ mus_scoreend ∧
      ((∃ e rest, parse_event code (input s) = Some (e, rest) ∧
          let (m, vel) := t_message channel (channelvelocities s) e in
          moved s [(queuedtime s, m)] (mkT (channel_map s) vel 0) rest s') ∨
       (parse_event code (input s) = None ∧ input s' = []))
  end.

Lemma wp_check_send m msg s s1 code channel e rest vel :
  moved s [] (mkT (channel_map s) vel (queuedtime s)) rest s1 → sends m msg s1 →
  code ≠ mus_scoreend → parse_event code (input s) = Some (e, rest) →
  t_message channel (channelvelocities s) e = (msg, vel) →
  wp alloc_failed (check m) (handled code channel s) s1.
Proof.
  intros HM Hs Hc Hp Ht. pose proof HM as (CI & HO & HT & HI). injection HT as Hm Hv Hq.
  unfold check. rewrite wp_bind. eapply wp_mono; [by apply wp_send|]. cbn beta.
  intros r s' [-> HM']. rewrite wp_ret. split; [apply HM'|]. split; [done|]. left.
  eexists e, rest. split; [done|]. rewrite Ht. eapply (moved_trans s []); [exact HM|].
  by rewrite <- Hm, <- Hq, <- Hv, <- HI.
Qed.

Lemma moved_same s rest s1 :
  moved s [] (tst s) rest s1 →
  conv_inv s1 ∧ channel_map s1 = channel_map s ∧ channelvelocities s1 = channelvelocities s ∧
  queuedtime s1 = queuedtime s ∧ input s1 = rest ∧ output s1 = output s.
Proof.
  intros (? & HO & HT & HI). injection HT as ? ? ?. split_and!; try done. by rewrite HO, app_nil_r.
Qed.

Lemma moved_next s rest s1 rest' s2 :
  moved s [] (tst s) rest s1 → moved s1 [] (tst s1) rest' s2 → moved s [] (tst s) rest' s2.
Proof.
  intros HM HM'. pose proof (moved_same _ _ _ HM) as (_ & Hm & Hv & Hq & _).
  pose proof (moved_trans _ _ _ _ _ _ _ _ _ HM HM') as HM''. unfold tst in *.
  by rewrite Hm, Hv, Hq in HM''.
Qed.

Lemma cut_short code channel s s1 rest :
  moved s [] (tst s) rest s1 → code ≠ mus_scoreend → parse_event code (input s) = None →
  handled code channel s None s1.
Proof. intros HM ? ?. split; [apply HM|done]. Qed.

Lemma controller_range n v : controller_map !! Z.to_nat n = Some v → 0 ≤ v < 128.
Proof.
  intros Hv. assert (Forall (λ v, 0 ≤ v < 128) controller_map) as HF by (repeat constructor; lia).
  rewrite Forall_lookup in HF. by eapply HF.
Qed.

Lemma parse_system n bs :
  parse_event mus_systemevent (n :: bs) =
  if (10 <=? n) && (n <=? 14) then Some (System n, bs) else None.
Proof. reflexivity. Qed.

Lemma parse_controller n v bs :
  parse_event mus_changecontroller (n :: v :: bs) =
  if n <=? 9 then Some (Controller n v, bs) else None.
Proof. reflexivity. Qed.

Section events.
Context (s : conv) (channel : Z).
Hypothesis CI : conv_inv s.
Hypothesis Hch : 0 ≤ channel < 16.

Lemma u8_channel : u8 channel = channel.
Proof. apply wrap_u_small. unfold in_u. lia. Qed.

Lemma sender_ok s1 rest :
  moved s [] (tst s) rest s1 → ∃ zl, out_ok s1 zl ∧ 0 ≤ queuedtime s1 < 2 ^ 32.
Proof. intros ([[zl OO] ? ? ? ? HT ?] & _). by exists zl. Qed.

Lemma handle_release : wp alloc_failed (HandleEvent residue junk mus_releasekey channel) (handled mus_releasekey channel s) s.
Proof.
  cbn [HandleEvent Z.eqb mus_releasekey]. rewrite wp_bind. apply wp_readbyte; [done|..].
  - intros s1 HI HM. rewrite wp_ret. eapply cut_short; [done|done|]. by rewrite HI.
  - intros k rest s1 HI Hk HM. rewrite u8_channel. destruct (sender_ok _ _ HM) as (zl & OO & HT).
    eapply wp_check_send; [exact HM|by apply (send_release s1 zl)|done|by rewrite HI|done].
Qed.

Lemma handle_pitch : wp alloc_failed (HandleEvent residue junk mus_pitchwheel channel) (handled mus_pitchwheel channel s) s.
Proof.
  unfold HandleEvent. cbn [Z.eqb mus_releasekey mus_presskey mus_pitchwheel Pos.eqb].
  rewrite wp_bind. apply wp_readbyte; [done|..].
  - intros s1 HI HM. rewrite wp_ret. split; [apply HM|]. split; [done|]. right. rewrite HI. split; [done|]. apply HM.
  - intros k rest s1 HI Hk HM. rewrite u8_channel. destruct (sender_ok _ _ HM) as (zl & OO & HT).
    small_ints.
    eapply wp_check_send; [exact HM|apply (send_wheel s1 zl); [done..|lia]|done|by rewrite HI|done].
Qed.

Lemma handle_system : wp alloc_failed (HandleEvent residue junk mus_systemevent channel) (handled mus_systemevent channel s) s.
Proof.
  unfold HandleEvent. cbn [Z.eqb mus_releasekey mus_presskey mus_pitchwheel mus_systemevent Pos.eqb].
  rewrite wp_bind. apply wp_readbyte; [done|..].
  - intros s1 HI HM. rewrite wp_ret. eapply cut_short; [done|done|]. by rewrite HI.
  - intros n rest s1 HI Hn HM. rewrite u8_channel. destruct (sender_ok _ _ HM) as (zl & OO & HT).
    destruct (Z.ltb_spec n 10), (Z.ltb_spec 14 n); cbn [orb]; try
      (rewrite wp_ret; eapply cut_short; [done|done|]; rewrite HI, parse_system;
       destruct (Z.leb_spec 10 n), (Z.leb_spec n 14); (done || lia)).
    destruct (lookup_lt_is_Some_2 controller_map (Z.to_nat n)) as [v Hv]; [cbn; lia|].
    rewrite wp_bind. apply (wp_elem _ _ v); [lia|done|].
    pose proof (controller_range _ _ Hv).
    eapply wp_check_send; [exact HM|apply (send_control s1 zl channel OO HT Hch v 0); lia|done| |].
    + rewrite HI, parse_system. destruct (Z.leb_spec 10 n), (Z.leb_spec n 14); try lia. done.
    + cbn [t_message]. by rewrite (list_lookup_total_correct _ _ _ Hv).
Qed.

Lemma handle_controller :
  wp alloc_failed (HandleEvent residue junk mus_changecontroller channel) (handled mus_changecontroller channel s) s.
Proof.
  unfold HandleEvent.
  cbn [Z.eqb mus_releasekey mus_presskey mus_pitchwheel mus_systemevent mus_changecontroller Pos.eqb].
  rewrite wp_bind. apply wp_readbyte; [done|..].
  { intros s1 HI HM. rewrite wp_ret. eapply cut_short; [done|done|]. by rewrite HI. }
  intros n rest s1 HI Hn HM. rewrite wp_bind.
  pose proof (moved_same _ _ _ HM) as (CI1 & Hmap1 & Hvel1 & Hq1 & HI1 & HO1).
  apply wp_readbyte; [done|..].
  { intros s2 HI2 HM2. rewrite wp_ret. split; [apply HM2|]. split; [done|]. rewrite HI.
    rewrite HI1 in HI2. by rewrite HI2. }
  intros v rest' s2 HI2 Hv HM2. rewrite HI1 in HI2. rewrite HI2 in HI.
  pose proof (moved_next _ _ _ _ _ HM HM2) as HM'.
  destruct (sender_ok _ _ HM') as (zl & OO & HT). rewrite u8_channel.
  destruct (Z.eqb_spec n 0) as [->|Hn0].
  { eapply wp_check_send; [exact HM'|by apply (send_patch s2 zl)|done|by rewrite HI|done]. }
  destruct (Z.ltb_spec n 1); [lia|]. destruct (Z.ltb_spec 9 n); cbn [orb].
  { rewrite wp_ret. split; [apply HM'|]. split; [done|]. rewrite HI, parse_controller. by destruct (Z.leb_spec n 9); [lia|]. }
  destruct (lookup_lt_is_Some_2 controller_map (Z.to_nat n)) as [c Hc]; [cbn; lia|].
  rewrite wp_bind. apply (wp_elem _ _ c); [lia|done|]. pose proof (controller_range _ _ Hc).
  eapply wp_check_send; [exact HM'|apply (send_control s2 zl channel OO HT Hch c v); lia|done| |].
  - rewrite HI, parse_controller. by destruct (Z.leb_spec n 9); [|lia].
  - cbn [t_message]. rewrite (list_lookup_total_correct _ _ _ Hc). by destruct (Z.eqb_spec n 0).
Qed.

Lemma handle_press : wp alloc_failed (HandleEvent residue junk mus_presskey channel) (handled mus_presskey channel s) s.
Proof.
  unfold HandleEvent. cbn [Z.eqb mus_releasekey mus_presskey Pos.eqb].
  rewrite wp_bind. apply wp_readbyte; [done|..].
  { intros s1 HI HM. rewrite wp_ret. eapply cut_short; [done|done|]. by rewrite HI. }
  intros k rest s1 HI Hk HM. rewrite wp_bind, u8_channel.
  pose proof (moved_same _ _ _ HM) as (CI1 & Hmap1 & Hvel1 & Hq1 & HI1 & HO1).
  destruct (ci_vel _ CI1) as [Hvl Hvf].
  destruct (lookup_lt_is_Some_2 (channelvelocities s1) (Z.to_nat channel)) as [v0 Hv0]; [lia|].
  destruct (Z.land k 0x80 =? 0) eqn:Hk80; cbn [negb].
  - rewrite wp_ret. rewrite wp_bind, wp_get, wp_bind. apply (wp_elem _ _ v0); [lia|done|].
    destruct (sender_ok _ _ HM) as (zl & OO & HT).
    eapply (wp_check_send _ _ _ _ _ _ (Press k None) rest); [exact HM|by apply (send_press s1 zl)|done| |].
    + rewrite HI. cbn. by rewrite Hk80.
    + cbn [t_message]. rewrite <- Hvel1, (list_lookup_total_correct _ _ _ Hv0).
      rewrite (Z.mod_small v0); [done|]. rewrite Forall_lookup in Hvf. by eapply Hvf.
  - rewrite wp_bind. apply wp_readbyte; [done|..].
    { intros s2 HI2 HM2. rewrite !wp_ret. rewrite HI1 in HI2. eapply cut_short; [by eapply moved_next|done|].
      rewrite HI, HI2. cbn. by rewrite Hk80. }
    intros v rest' s2 HI2 Hv HM2. rewrite HI1 in HI2. rewrite HI2 in HI.
    pose proof (moved_next _ _ _ _ _ HM HM2) as HM'.
    pose proof (moved_same _ _ _ HM') as (CI2 & Hmap2 & Hvel2 & Hq2 & HI2' & HO2).
    wp_simp. rewrite Hvel1, <- Hvel2 in Hv0.
    apply (wp_elem _ _ v0); [lia|done|]. wp_simp.
    set (vel := <[Z.to_nat channel := _]> (channelvelocities s2)).
    assert (Hlook : vel !! Z.to_nat channel = Some (Z.land v 0x7F)).
    { apply list_lookup_insert_eq. rewrite Hvel2, <- Hvel1, Hvl. lia. }
    apply (wp_elem _ _ (Z.land v 0x7F)); [lia|done|].
    assert (HM3 : moved s [] (mkT (channel_map s) vel (queuedtime s)) rest' (set_velocities vel s2)).
    { destruct CI2 as [[zl OO] ? ? ? [? ?] ? ?].
      split_and!; [|by rewrite app_nil_r|unfold tst; cbn; by rewrite Hmap2, Hq2|done].
      split; try done; [exists zl; by destruct OO|]. split; [unfold vel; cbn; by rewrite length_insert|].
      apply Forall_insert; [done|]. rewrite land_7f. apply Z.mod_pos_bound. lia. }
    destruct HM3 as (CI3 & HM3). destruct (ci_out _ CI3) as [zl OO].
    eapply (wp_check_send _ _ s _ _ _ (Press k (Some v)) rest' vel);
      [by split|apply (send_press _ zl channel OO (ci_time _ CI3) Hch)|done| |].
    + rewrite HI. cbn. by rewrite Hk80.
    + unfold vel. cbn [t_message]. rewrite Hvel2, land_7f. by rewrite Z.mod_mod by lia.
Qed.

Lemma wp_HandleEvent code :
  wp alloc_failed (HandleEvent residue junk code channel) (handled code channel s) s.
Proof.
  destruct (decide (code = mus_releasekey)) as [->|H1]; [apply handle_release|].
  destruct (decide (code = mus_presskey)) as [->|H2]; [apply handle_press|].
  destruct (decide (code = mus_pitchwheel)) as [->|H3]; [apply handle_pitch|].
  destruct (decide (code = mus_systemevent)) as [->|H4]; [apply handle_system|].
  destruct (decide (code = mus_changecontroller)) as [->|H5]; [apply handle_controller|].
  unfold HandleEvent. rewrite !(proj2 (Z.eqb_neq code _)) by done.
  destruct (Z.eqb_spec code mus_scoreend) as [->|H6]; rewrite wp_ret; split; try done.
  split; [done|]. unfold parse_event. rewrite !(proj2 (Z.eqb_neq code _)) by done. by destruct (input s).
Qed.
End events.

(** *** Blocks, times and the score *)

Lemma parse_event_length code bs e rest :
  parse_event code bs = Some (e, rest) → (length rest < length bs)%nat.
Proof.
  unfold parse_event. intros H. repeat case_match; simplify_eq; cbn; lia.
Qed.

Lemma parse_time_length acc bs t rest :
  parse_time acc bs = Some (t, rest) → (length rest < length bs)%nat.
Proof.
  revert acc. induction bs as [|w bs IH]; intros acc; cbn; [done|].
  case_match; [intros [= _ <-]; lia|]. intros H'%IH. lia.
Qed.

(** What is sent before [s'] and after it, for a rest of the score in [next], is what the whole
    score sends; and the whole is a score only if the rest is. *)
Definition continues (s s' : conv) (next : list item → Prop) : Prop :=
  (∀ items', next items' → ∃ items, mus_score (input s) items ∧
     output s' ++ track (translate (tst s') items') = output s ++ track (translate (tst s) items)) ∧
  (∀ items, mus_score (input s) items → ∃ items', next items').

(** The whole score has been read: what is left to send is the end of the track. *)
Definition complete (s s' : conv) : Prop :=
  ∃ items, mus_score (input s) items ∧
    output s' ++ track [(queuedtime s', EndOfTrack)] = output s ++ track (translate (tst s) items).

Lemma continues_complete s s1 s' :
  continues s s1 (mus_score (input s1)) → complete s1 s' → complete s s'.
Proof.
  intros [H _] (items & HS & HO). destruct (H items HS) as (items' & ? & HO').
  exists items'. split; [done|]. by rewrite HO, HO'.
Qed.

Lemma continues_trans s s1 s2 next :
  continues s s1 (mus_score (input s1)) → continues s1 s2 next → continues s s2 next.
Proof.
  intros [H1 H1'] [H2 H2']. split.
  - intros items' Hn. destruct (H2 _ Hn) as (items1 & HS1 & HO1).
    destruct (H1 _ HS1) as (items & HS & HO). exists items. split; [done|]. by rewrite HO1, HO.
  - intros items HS. destruct (H1' _ HS) as [items1 HS1]. eauto.
Qed.

Section one_event.
Context (s s1 s2 : conv) (ed ch : Z) (bs : list Z) (ms : list (Z * message)).
Hypothesis Hin : input s = ed :: bs.
Hypothesis Hch : t_channel (ed_channel ed) (tst s) = (ch, ms, tst s1).
Hypothesis HM : output s1 = output s ++ track ms.

Lemma event_end : ed_code ed = mus_scoreend → complete s s1.
Proof.
  intros Hc. exists [ScoreEnd (ed_channel ed)]. rewrite Hin. split; [by constructor|].
  cbn [translate]. rewrite Hch, HM, track_app, app_assoc. done.
Qed.

Lemma event_more e rest :
  ed_code ed ≠ mus_scoreend → parse_event (ed_code ed) bs = Some (e, rest) →
  (let (m, vel) := t_message ch (channelvelocities s1) e in
   moved s1 [(queuedtime s1, m)] (mkT (channel_map s1) vel 0) rest s2) →
  continues s s2 (if ed_last ed then mus_wait rest else mus_score rest).
Proof.
  intros Hc Hp Ht. destruct (t_message ch (channelvelocities s1) e) as [m vel] eqn:Em.
  destruct Ht as (_ & HO & HT & _). split.
  - intros items' Hn. exists (Event (ed_channel ed) e :: items'). rewrite Hin. split.
    + destruct (ed_last ed) eqn:El; [by eapply score_last|by eapply score_event].
    + cbn [translate]. rewrite Hch. cbn [t_vel t_map tst]. rewrite Em, HT, HO, HM, <- !app_assoc.
      by rewrite <- !track_app.
  - rewrite Hin. intros items HS. inversion HS; subst; [done|..]; simplify_eq;
      destruct (ed_last ed); try done; eauto.
Qed.
End one_event.

Lemma wp_EventBlock fuel s :
  conv_inv s → (length (input s) < fuel)%nat →
  wp alloc_failed (EventBlock residue junk fuel)
    (λ r s', conv_inv s' ∧
       match r with
       | None => ∀ items, ¬ mus_score (input s) items
       | Some true => complete s s'
       | Some false =>
           (length (input s') < length (input s))%nat ∧ continues s s' (mus_wait (input s'))
       end) s.
Proof.
  revert s. induction fuel as [|fuel IH]; intros s CI Hf; [lia|]. cbn [EventBlock].
  rewrite wp_bind. apply wp_readbyte; [done|..].
  { intros s1 HI HM. rewrite wp_ret. split; [apply HM|]. rewrite HI. intros items HS. inversion HS. }
  intros ed bs s1 HI Hed HM. pose proof (moved_same _ _ _ HM) as (CI1 & Hm1 & Hv1 & Hq1 & HI1 & HO1).
  assert (Hc : 0 ≤ ed_channel ed < 16).
  { unfold ed_channel. rewrite (Z.land_ones ed 4 ltac:(lia) : Z.land ed 0x0F = _). apply Z.mod_pos_bound. lia. }
  fold (ed_channel ed) (ed_code ed) (ed_last ed).
  rewrite wp_bind. eapply wp_mono; [by apply wp_GetMIDIChannel|]. cbn beta.
  intros ch s2 (Hch & ms & t & Ht & CI2 & HO2 & <- & HI2).
  replace (tst s1) with (tst s) in Ht by (unfold tst; by rewrite Hm1, Hv1, Hq1).
  rewrite HO1 in HO2. rewrite HI1 in HI2.
  rewrite wp_bind. eapply wp_mono; [by apply (wp_HandleEvent s2 ch)|]. cbn beta.
  intros [[]|] s3 [CI3 HR].
  - destruct HR as [Hcode ->]. rewrite wp_ret. split; [done|]. by eapply event_end.
  - destruct HR as [Hcode [(e & rest & Hp & Hmv)|[Hp Hnil]]]; rewrite HI2 in *.
    + assert (HI3 : input s3 = rest) by (destruct (t_message _ _ _); apply Hmv).
      pose proof (parse_event_length _ _ _ _ Hp).
      pose proof (event_more s s2 s3 ed ch bs ms HI Ht HO2 e rest Hcode Hp Hmv) as HC.
      destruct (ed_last ed).
      * rewrite wp_ret. split; [done|]. subst rest. split; [rewrite HI; cbn; lia|done].
      * rewrite HI in Hf. cbn in Hf. eapply wp_mono; [apply (IH s3 CI3); rewrite HI3; lia|].
        cbn beta. intros r s4 [CI4 HR4]. split; [done|]. subst rest.
        destruct r as [[]|].
        -- by eapply continues_complete.
        -- destruct HR4 as [Hl HC4]. split; [rewrite HI; cbn; lia|]. by eapply continues_trans.
        -- intros items HS. destruct HC as [_ HC]. destruct (HC _ HS) as [items' ?]. by eapply HR4.
    + assert (Hno : ∀ items, ¬ mus_score (input s) items).
      { rewrite HI. intros items HS. inversion HS; by simplify_eq. }
      destruct (ed_last ed).
      * rewrite wp_ret. split; [done|]. split; [rewrite Hnil, HI; cbn; lia|]. rewrite Hnil. split.
        -- intros items' HW. inversion HW. by simplify_eq.
        -- intros items HS. by apply Hno in HS.
      * rewrite HI in Hf. cbn in Hf. eapply wp_mono; [apply (IH s3 CI3); rewrite Hnil; cbn; lia|].
        cbn beta. intros r s4 [CI4 HR4]. split; [done|]. destruct r as [[]|]; [..|done].
        -- destruct HR4 as (items & HS & _). rewrite Hnil in HS. inversion HS.
        -- rewrite Hnil in HR4. cbn in HR4. lia.
  - destruct HR as [Hcode Hp]. rewrite wp_ret. split; [done|]. rewrite HI2 in Hp. rewrite HI.
    intros items HS. inversion HS; by simplify_eq.
Qed.

Lemma wp_TimeCode fuel acc s :
  conv_inv s → (length (input s) < fuel)%nat → 
  wp alloc_failed (TimeCode fuel acc)
    (λ r s', ∃ rest, moved s [] (tst s) rest s' ∧
       match r with
       | None => parse_time acc (input s) = None
       | Some t => parse_time acc (input s) = Some (t, rest)
       end) s.
Proof.
  revert s acc. induction fuel as [|fuel IH]; intros s acc CI Hf; [lia|]. cbn [TimeCode].
  rewrite wp_bind. apply wp_readbyte; [done|..].
  { intros s1 HI HM. rewrite wp_ret. exists []. by rewrite HI. }
  intros w bs s1 HI Hw HM. rewrite HI. cbn [parse_time]. case_match.
  - rewrite wp_ret. by exists bs.
  - pose proof (moved_same _ _ _ HM) as (CI1 & _ & _ & _ & HI1 & _).
    rewrite HI in Hf. cbn in Hf. eapply wp_mono; [apply (IH s1 _ CI1); rewrite HI1; lia|].
    cbn beta. intros r s2 (rest & HM2 & HR). exists rest. rewrite HI1 in HR.
    split; [by eapply moved_next|done].
Qed.

Lemma wp_ScoreLoop fuel0 fuel s :
  conv_inv s → (length (input s) < fuel)%nat → (length (input s) < fuel0)%nat →
  wp alloc_failed (ScoreLoop residue junk fuel0 fuel)
    (λ r s', conv_inv s' ∧
       if r : bool then ∀ items, ¬ mus_score (input s) items else complete s s') s.
Proof.
  revert s. induction fuel as [|fuel IH]; intros s CI Hf Hf0; [lia|]. cbn [ScoreLoop].
  rewrite wp_bind. eapply wp_mono; [by apply wp_EventBlock|]. cbn beta.
  intros [[]|] s1 [CI1 HR]; [by rewrite wp_ret| |by rewrite wp_ret].
  destruct HR as [Hl [HC1 HC2]].
  rewrite wp_bind. eapply wp_mono; [apply wp_TimeCode; [done|lia]|]. cbn beta.
  intros [t|] s2 (rest & HM2 & Hp).
  - pose proof (moved_same _ _ _ HM2) as (CI2 & Hm2 & Hv2 & Hq2 & HI2 & HO2).
    pose proof (parse_time_length _ _ _ _ Hp).
    rewrite wp_bind, wp_get, wp_bind, wp_mod. set (s3 := set_queuedtime _ s2).
    assert (CI3 : conv_inv s3).
    { destruct CI2 as [[zl OO] ? ? ? ? ? ?]. split; try done; [exists zl; by destruct OO|].
      apply wrap_u_range. lia. }
    assert (HI3 : input s3 = rest) by done.
    assert (HC : continues s s3 (mus_score (input s3))).
    { split.
      - intros items' HS. destruct (HC1 (Wait t :: items')) as (items & HSi & HO).
        + econstructor; [done|by rewrite <- HI3].
        + exists items. split; [done|]. rewrite <- HO. unfold output in HO2 |- *. cbn [cv_out s3 set_queuedtime].
          rewrite HO2. cbn [translate]. do 3 f_equal. unfold tst. cbn. by rewrite Hm2, Hv2, Hq2.
      - intros items HS. destruct (HC2 _ HS) as [items' HW]. inversion HW; simplify_eq.
        rewrite HI3. eauto. }
    eapply wp_mono; [apply (IH s3 CI3); rewrite HI3; lia|]. cbn beta. intros [] s4 [CI4 HR4]; split; try done.
    + intros items HS. destruct HC as [_ HC]. destruct (HC _ HS) as [items' ?]. by eapply HR4.
    + by eapply continues_complete.
  - rewrite wp_ret. split; [apply HM2|]. intros items HS. destruct (HC2 _ HS) as [items' HW].
    inversion HW. by simplify_eq.
Qed.

(** *** The header *)

(** The score of a MUS file: the signature, then the start of the score in bytes 6 and 7. *)
Definition score_of (data : list Z) : option (list Z) :=
  match data with
  | i0 :: i1 :: i2 :: i3 :: _ :: _ :: a :: b :: _ :: _ :: _ :: _ :: _ :: _ :: _ =>
      if bool_decide ([i0; i1; i2; i3] = [0x4D; 0x55; 0x53; 0x1A]) &&
         (a + 256 * b <? Z.of_nat (length data))
      then Some (drop (Z.to_nat (a + 256 * b)) data) else None
  | _ => None
  end.

Lemma wp_fread size nmemb s (Q : Z * list Z → conv → Prop) :
  rfile_ok (cv_in s) → 0 < size → 0 ≤ nmemb → nmemb * size < 2 ^ 64 →
  (∀ pre rest pos, unread (cv_in s) = pre ++ rest → Z.of_nat (length pre) = nmemb * size →
     rfile_ok (seeked pos (cv_in s)) → unread (seeked pos (cv_in s)) = rest →
     Q (nmemb, pre) (set_in (seeked pos (cv_in s)) s)) →
  (∀ items bs pos, Z.of_nat (length (unread (cv_in s))) < nmemb * size → items ≠ nmemb →
     Q (items, bs) (set_in (seeked pos (cv_in s)) s)) →
  wp alloc_failed (fread size nmemb) Q s.
Proof.
  intros RI Hs Hn Hm HQ HQ'. unfold wp, fread.
  destruct (fread_run (cv_in s) size nmemb RI Hs Hn Hm) as (-> & RI' & HU).
  set (items := _ `min` _) in *.
  destruct (Z.le_gt_cases (nmemb * size) (Z.of_nat (length (unread (cv_in s))))) as [Hle|Hgt].
  - assert (Hi : items = nmemb) by (subst items; apply Z.min_l, Z.div_le_lower_bound; lia).
    rewrite Hi in *. eapply HQ; [symmetry; apply take_drop| |done|done]. rewrite length_take. nia.
  - apply HQ'; [done|]. subst items. pose proof (Z.div_lt_upper_bound (Z.of_nat (length (unread (cv_in s)))) size nmemb).
    lia.
Qed.

Lemma short_of_bytes a b : 0 ≤ a < 256 → 0 ≤ b < 256 → short_of [a; b] = a + 256 * b.
Proof.
  intros Ha Hb. unfold short_of, SHORT, wrap_u, wrap_s. change (2 ^ (16 - 1)) with 32768.
  change (2 ^ 16) with 65536. Z.to_euclidean_division_equations. lia.
Qed.

Lemma unread_start f : mf_position f = 0 → unread f = mf_data f.
Proof. intros H. unfold unread. by rewrite H. Qed.

(** One [short] of the header, with the input at some position. *)
Lemma wp_read_short pos s (k : Z * list Z → CM (option musheader)) (Q : option musheader → conv → Prop) :
  rfile_ok (seeked pos (cv_in s)) →
  (∀ pos', (length (unread (seeked pos (cv_in s))) < 2)%nat → Q None (set_in (seeked pos' (cv_in s)) s)) →
  (∀ a b rest pos', unread (seeked pos (cv_in s)) = a :: b :: rest →
     rfile_ok (seeked pos' (cv_in s)) → unread (seeked pos' (cv_in s)) = rest →
     wp alloc_failed (k (1, [a; b])) Q (set_in (seeked pos' (cv_in s)) s)) →
  wp alloc_failed (b ← fread 2 1; if negb (b.1 =? 1) then mret None else k b) Q
    (set_in (seeked pos (cv_in s)) s).
Proof.
  intros RI HN HS. rewrite wp_bind. apply wp_fread; [done|lia..| |].
  - intros pre rest pos' E L R U. cbn [fst Z.eqb Pos.eqb negb].
    destruct pre as [|a [|b [|]]]; cbn in L; try lia. by apply (HS a b rest pos').
  - intros items bs pos' Hlt Hi. cbn [fst]. rewrite (proj2 (Z.eqb_neq _ _) Hi). cbn [negb]. rewrite wp_ret.
    apply (HN pos'). cbn [cv_in set_in] in Hlt. lia.
Qed.

Lemma wp_ReadMusHeader s (Q : option musheader → conv → Prop) :
  rfile_ok (cv_in s) → mf_position (cv_in s) = 0 →
  (∀ pos, (length (mf_data (cv_in s)) < 14)%nat → Q None (set_in (seeked pos (cv_in s)) s)) →
  (∀ pos i0 i1 i2 i3 l0 l1 a b p0 p1 q0 q1 n0 n1 rest,
     mf_data (cv_in s) = [i0; i1; i2; i3; l0; l1; a; b; p0; p1; q0; q1; n0; n1] ++ rest →
     Q (Some (mkMusHeader [i0; i1; i2; i3] (short_of [l0; l1]) (short_of [a; b]) (short_of [p0; p1])
                (short_of [q0; q1]) (short_of [n0; n1]))) (set_in (seeked pos (cv_in s)) s)) →
  wp alloc_failed ReadMusHeader Q s.
Proof.
  intros RI Hp HN HS. pose proof (unread_start _ Hp) as HU0. unfold ReadMusHeader.
  rewrite wp_bind. apply wp_fread; [done|lia..| |].
  2:{ intros ? ? ? Hlt Hi. cbn [fst]. rewrite (proj2 (Z.eqb_neq _ _) Hi). cbn [negb]. rewrite wp_ret.
      apply HN. rewrite <- HU0. lia. }
  intros ids r0 x0 E0 L0 R0 U0. cbn [fst Z.eqb Pos.eqb negb]. rewrite HU0 in E0.
  destruct ids as [|i0 [|i1 [|i2 [|i3 [|]]]]]; cbn in L0; try lia. cbn [app] in E0.
  rewrite E0 in HN. cbn [length] in HN.
  apply wp_read_short; [done|intros; apply HN; rewrite U0 in *; lia|].
  intros l0 l1 r1 x1 E1 R1 U1. rewrite E1 in U0. subst r0. cbn [length] in HN.
  apply wp_read_short; [done|intros; apply HN; rewrite U1 in *; lia|].
  intros a b r2 x2 E2 R2 U2. rewrite E2 in U1. subst r1. cbn [length] in HN.
  apply wp_read_short; [done|intros; apply HN; rewrite U2 in *; lia|].
  intros p0 p1 r3 x3 E3 R3 U3. rewrite E3 in U2. subst r2. cbn [length] in HN.
  apply wp_read_short; [done|intros; apply HN; rewrite U3 in *; lia|].
  intros q0 q1 r4 x4 E4 R4 U4. rewrite E4 in U3. subst r3. cbn [length] in HN.
  apply wp_read_short; [done|intros; apply HN; rewrite U4 in *; lia|].
  intros n0 n1 r5 x5 E5 R5 U5. rewrite E5 in U4. subst r4. cbn [snd].
  rewrite wp_ret. eapply (HS _ i0 i1 i2 i3 l0 l1 a b p0 p1 q0 q1 n0 n1 r5). exact E0.
Qed.

(** *** The whole conversion *)

(** The state in which a conversion starts: an empty output, the input at its start, and the
    velocities and the queued time that earlier conversions left. *)
Record start_ok (s : conv) : Prop := {
  so_out : ∃ zl, out_ok s zl;
  so_empty : output s = [];
  so_in : rfile_ok (cv_in s);
  so_pos : mf_position (cv_in s) = 0;
  so_bytes : Forall (in_u 8) (mf_data (cv_in s));
  so_vel : vel_ok (channelvelocities s);
  so_time : in_u 32 (queuedtime s);
}.

Definition start_state (s : conv) : tstate :=
  mkT (replicate NUM_CHANNELS (-1)) (channelvelocities s) (queuedtime s).

Definition mus_file (data : list Z) (items : list item) : Prop :=
  ∃ bytes, score_of data = Some bytes ∧ mus_score bytes items.

Lemma size_bytes_be32 n : 0 ≤ n < 2 ^ 32 → size_bytes n = be32 n.
Proof.
  intros Hn. unfold size_bytes, be32. rewrite !byte_of, land_ff by lia.
  rewrite (wrap_u_small 8 (n `mod` 256)) by (apply Z.mod_pos_bound; lia).
  rewrite (Z.mod_small (n / 2 ^ 24)); [done|].
  split; [apply Z.div_pos; lia|apply Z.div_lt_upper_bound; lia].
Qed.

Lemma patch_header ms :
  write_at (midiheader ++ track ms) 18 (be32 (Z.of_nat (length (track ms)))) = midi_file ms.
Proof. reflexivity. Qed.

(** The last part: the end of the track, and its size in the header. *)
Lemma wp_finish s ms :
  conv_inv s → output s ++ track [(queuedtime s, EndOfTrack)] = midiheader ++ track ms →
  wp alloc_failed
    (orfail (WriteEndTrack residue junk)
       (s ← getS;
        let (r, f) := mem_fseek (cv_out s) 18 MEM_SEEK_SET in
        modS (set_out (cv_zone s) f);;
        if negb (r =? 0) then mret true
        else n ← fwrite residue junk (size_bytes (tracksize s)) 1 4; mret (negb (n =? 4))))
    (λ r s', r = false ∧ output s' = midi_file ms ∧ (∃ zl, wfile_ok (cv_zone s') zl (cv_out s'))) s.
Proof.
  intros CI HO. apply wp_orfail. destruct (ci_out _ CI) as [zl OO].
  eapply wp_mono; [apply wp_send; [done|apply (send_end s zl OO (ci_time _ CI))]|]. cbn beta.
  intros r s1 (-> & CI1 & HO1 & _). split; [done|]. rewrite HO in HO1.
  destruct (ci_out _ CI1) as [zl1 OO1]. pose proof (out_bound _ _ OO1) as Hb.
  pose proof (output_length _ _ OO1) as Hl. pose proof (oo_end _ _ OO1) as He.
  destruct (ci_size _ CI1) as [Hts H22].
  rewrite wp_bind, wp_get, fseek_set_run by lia. rewrite (proj2 (Z.ltb_lt _ _)) by lia.
  rewrite wp_bind, wp_mod. cbn [Z.eqb negb]. rewrite wp_bind.
  destruct OO1 as [OK Hz _]. pose proof (wo_range _ _ _ OK) as Hr.
  assert (OK' : wfile_ok (cv_zone s1) zl1 (seeked 18 (cv_out s1))).
  { destruct OK. split; cbn; try done. lia. }
  assert (Ht : tracksize s1 = Z.of_nat (length (track ms))).
  { rewrite Hts, HO1, length_app. cbn. lia. }
  pose proof (wp_fwrite residue junk _ _ _ (size_bytes (tracksize s1)) 1 4 OK' Hz eq_refl ltac:(done)) as H.
  unfold wp, fwrite in *. cbn [cv_out cv_zone set_out] in *.
  destruct (mem_fwrite _ _ _ _ _ _ _) as [[[n f] z]|e]; [|done]. cbn in H.
  destruct H as [-> (zl' & OK2 & _ & _ & Hc & _)]. cbn. split_and!; [done| |by exists zl'].
  change (contents f = midi_file ms). rewrite Hc.
  change (contents (seeked 18 (cv_out s1))) with (output s1).
  rewrite HO1, size_bytes_be32, Ht by lia. apply patch_header.
Qed.

Lemma wp_convert s :
  conv_inv s → output s = midiheader → (length (input s) ≤ length (mf_data (cv_in s)))%nat →
  let fuel := S (S (length (mf_data (cv_in s)))) in
  wp alloc_failed
    (orfail (ScoreLoop residue junk fuel fuel) (orfail (WriteEndTrack residue junk)
       (s ← getS;
        let (r, f) := mem_fseek (cv_out s) 18 MEM_SEEK_SET in
        modS (set_out (cv_zone s) f);;
        if negb (r =? 0) then mret true
        else n ← fwrite residue junk (size_bytes (tracksize s)) 1 4; mret (negb (n =? 4)))))
    (λ r s', (∃ zl, wfile_ok (cv_zone s') zl (cv_out s')) ∧
       if r : bool then ∀ items, ¬ mus_score (input s) items
       else ∃ items, mus_score (input s) items ∧ output s' = midi_file (translate (tst s) items)) s.
Proof.
  intros CI HO Hl fuel. unfold orfail at 1. rewrite wp_bind.
  eapply wp_mono; [apply wp_ScoreLoop; [done|lia|lia]|]. cbn beta. intros [] s1 [CI1 HR].
  - rewrite wp_ret. split; [|done]. destruct (ci_out _ CI1) as [zl [OK _ _]]. by exists zl.
  - destruct HR as (items & HS & HO1). rewrite HO in HO1.
    eapply wp_mono; [by apply (wp_finish s1 (translate (tst s) items))|]. cbn beta.
    intros r s2 (-> & HO2 & HZ). split; [done|]. by exists items.
Qed.

Lemma wp_mus2mid s :
  start_ok s →
  wp alloc_failed (mus2mid residue junk)
    (λ failed s', (∃ zl, wfile_ok (cv_zone s') zl (cv_out s')) ∧
       if failed : bool then ∀ items, ¬ mus_file (mf_data (cv_in s)) items
       else ∃ items, mus_file (mf_data (cv_in s)) items ∧
              output s' = midi_file (translate (start_state s) items)) s.
Proof.
  intros [[zl OO] HE RI HP HB HV HT]. pose proof OO as [OK Hz He].
  unfold mus2mid. rewrite wp_bind, wp_mod, wp_bind.
  set (s0 := set_channel_map _ s). apply wp_ReadMusHeader; [done..| |].
  { intros pos Hlt. rewrite wp_ret. split; [by exists zl|]. intros items (bytes & Hs & _). cbn in Hlt.
    destruct (mf_data (cv_in s)) as [|? [|? [|? [|? [|? [|? [|? [|? [|? [|? [|? [|? [|? [|? ?]]]]]]]]]]]]]]; try done.
    cbn in Hlt. lia. }
  intros pos i0 i1 i2 i3 l0 l1 a b p0 p1 q0 q1 n0 n1 rest ED. change (cv_in s0) with (cv_in s) in *.
  set (data := mf_data (cv_in s)) in *.
  assert (Hab : 0 ≤ a < 256 ∧ 0 ≤ b < 256).
  { rewrite ED in HB. rewrite !Forall_cons, Forall_app in HB || rewrite Forall_app, !Forall_cons in HB.
    unfold in_u in HB. naive_solver lia. }
  cbn [mh_id mh_scorestart]. rewrite short_of_bytes by lia.
  assert (HSO : score_of data =
    if bool_decide ([i0; i1; i2; i3] = [0x4D; 0x55; 0x53; 0x1A]) && (a + 256 * b <? Z.of_nat (length data))
    then Some (drop (Z.to_nat (a + 256 * b)) data) else None) by (by rewrite ED).
  destruct (bool_decide _); cbn [negb andb] in *.
  2:{ rewrite wp_ret. split; [by exists zl|]. intros items (? & ? & _). congruence. }
  rewrite wp_bind, wp_get. cbn [cv_in set_in].
  pose proof (ro_len _ RI) as HL. pose proof (ro_max _ RI) as HX. fold data in HL.
  rewrite fseek_set_run by (cbn; lia). cbn [mf_buflen seeked]. rewrite <- HL in HSO.
  destruct (Z.ltb_spec (a + 256 * b) (mf_buflen (cv_in s))); rewrite wp_bind, wp_mod; cbn [Z.eqb negb].
  2:{ rewrite wp_ret. split; [by exists zl|]. intros items (? & ? & _). congruence. }
  set (f := seeked (a + 256 * b) _). set (s1 := set_in f _). rewrite wp_bind.
  apply (wp_fwrite_end s1 zl); [by destruct OO|done|lia|].
  intros s2 ((z & g & ->) & [zl2 OO2] & HO2). rewrite wp_bind, wp_mod.
  set (s3 := set_tracksize 0 _). assert (HO3 : output s3 = midiheader).
  { change (output s3) with (contents g). change (contents g = output s ++ midiheader) in HO2.
    by rewrite HO2, HE. }
  assert (CI : conv_inv s3).
  { split; try done; [exists zl2; by destruct OO2| |apply map_ok_init|by rewrite HO3].
    split; cbn; [by destruct RI|done|lia|done]. }
  assert (HI : input s3 = drop (Z.to_nat (a + 256 * b)) data) by done.
  eapply wp_mono; [apply (wp_convert s3 CI HO3); rewrite HI, length_drop; cbn; unfold data; lia|].
  cbn beta. rewrite HI. intros r s4 [HZ HR]. split; [done|]. destruct r.
  - intros items (bytes & Hs & HM). rewrite HSO in Hs. injection Hs as <-. by eapply HR.
  - destruct HR as (items & HM & HO). exists items. split; [|done]. by eexists.
Qed.
End proofs.
