(* ===== verification/MusSpec.v ===== *)
(** * What the MUS converter produces

    The theorems about memio.c and mus2mid.c: a file in memory behaves as its contents; the
    converter accepts exactly the MUS files, and its output, read by an independent decoder of
    MIDI files, is the translation of the score; channels are given out without clashes; and
    what a conversion leaves in the static variables changes the next one. *)
From S2P Require Import Prelude Dll Zone ZoneClient MemIo Mus2Mid.

(** ** A decoder of MIDI files *)

(** A number of at most [n] bytes. *)
Fixpoint read_vlq (n : nat) (acc : Z) (bs : list Z) : option (Z * list Z) :=
  match n, bs with
  | S n, b :: bs =>
      let acc := acc * 128 + b `mod` 128 in
      if b <? 128 then Some (acc, bs) else read_vlq n acc bs
  | _, _ => None
  end.

Definition read_message (bs : list Z) : option (message * list Z) :=
  match bs with
  | st :: a :: bs =>
      let c := st `mod` 16 in
      if st / 16 =? 12 then Some (Patch c a, bs)
      else
        match bs with
        | b :: bs =>
            if st / 16 =? 8 then Some (NoteOff c a, bs)
            else if st / 16 =? 9 then Some (NoteOn c a b, bs)
            else if st / 16 =? 11 then Some (Control c a b, bs)
            else if st / 16 =? 14 then Some (Bend c (a + 128 * b), bs)
            else if bool_decide ([st; a; b] = [0xFF; 0x2F; 0x00]) then Some (EndOfTrack, bs)
            else None
        | [] => None
        end
  | _ => None
  end.

(** The messages of a track, each with its delay, up to the end of the track. *)
Fixpoint read_track (fuel : nat) (bs : list Z) : option (list (Z * message)) :=
  match fuel with
  | O => None
  | S fuel =>
      '(d, bs) ← read_vlq 4 0 bs;
      '(m, bs) ← read_message bs;
      match m with
      | EndOfTrack => if bool_decide (bs = []) then Some [(d, m)] else None
      | _ => ms ← read_track fuel bs; Some ((d, m) :: ms)
      end
  end.

Definition of_be32 (bs : list Z) : Z := foldl (λ a b, a * 256 + b) 0 bs.

(** A file with one track, whose size is in its header. *)
Definition read_midi (bs : list Z) : option (list (Z * message)) :=
  let body := drop 22 bs in
  if bool_decide (take 18 bs = take 18 midiheader) &&
     (of_be32 (take 4 (drop 18 bs)) =? Z.of_nat (length body))
  then read_track (length body) body else None.

(** ** Messages that can be read back *)

Definition data_ok (v : Z) : Prop := 0 ≤ v < 128.

Definition message_ok (m : message) : Prop :=
  match m with
  | NoteOff c k => 0 ≤ c < 16 ∧ data_ok k
  | NoteOn c k v => 0 ≤ c < 16 ∧ data_ok k ∧ data_ok v
  | Bend c w => 0 ≤ c < 16 ∧ 0 ≤ w < 128 * 128
  | Patch c p => 0 ≤ c < 16 ∧ data_ok p
  | Control c n v => 0 ≤ c < 16 ∧ data_ok n ∧ data_ok v
  | EndOfTrack => True
  end.

Definition delay_ok (d : Z) : Prop := 0 ≤ d < 2 ^ 28.

(** Messages up to the end of the track, which comes last. *)
Fixpoint messages_ok (ms : list (Z * message)) : Prop :=
  match ms with
  | [] => False
  | [(d, EndOfTrack)] => delay_ok d
  | (d, m) :: ms => m ≠ EndOfTrack ∧ delay_ok d ∧ message_ok m ∧ messages_ok ms
  end.

Lemma read_vlq_vlq d rest : delay_ok d → read_vlq 4 0 (vlq d ++ rest) = Some (d, rest).
Proof.
  unfold delay_ok, vlq. intros Hd.
  change (128 ^ 3) with (128 * 128 * 128). change (128 ^ 2) with (128 * 128).
  change (128 ^ 1) with 128. change (128 ^ 0) with 1. rewrite <- !Z.div_div, Z.div_1_r by lia.
  assert (Hg : ∀ a, 0 ≤ a `mod` 128 < 128) by (intros; apply Z.mod_pos_bound; lia).
  assert (Hlow : ∀ a, (a `mod` 128 <? 128) = true) by (intros a; specialize (Hg a); lia).
  assert (Hhigh : ∀ a, (128 + a `mod` 128 <? 128) = false) by (intros a; specialize (Hg a); lia).
  assert (Hm : ∀ a, (128 + a `mod` 128) `mod` 128 = a `mod` 128).
  { intros a. rewrite <- (Z.mod_mod a 128) at 2 by lia. rewrite <- (Z_mod_plus_full (a `mod` 128) 1 128).
    f_equal. lia. }
  assert (Hd0 : ∀ a, a / 128 * 128 + a `mod` 128 = a) by (intros a; rewrite Z.mul_comm; symmetry; by apply Z.div_mod).
  assert (Hsm : ∀ a, 0 ≤ a < 128 → a `mod` 128 = a) by (intros; by apply Z.mod_small).
  assert (Hdiv : ∀ a k, 0 ≤ a < 128 * k → 0 ≤ a / 128 < k).
  { intros a k Ha. split; [apply Z.div_pos; lia|apply Z.div_lt_upper_bound; lia]. }
  destruct (Z.ltb_spec d 128).
  { cbn [app read_vlq]. rewrite Hsm by lia. by rewrite (proj2 (Z.ltb_lt d 128)) by lia. }
  destruct (Z.ltb_spec d (128 * 128)).
  { cbn [app read_vlq]. rewrite Hhigh, Hlow, Hm, Z.mod_mod by lia.
    rewrite (Hsm (d / 128)) by (apply Hdiv; lia). do 2 f_equal. apply Hd0. }
  destruct (Z.ltb_spec d (128 * 128 * 128)).
  { cbn [app read_vlq]. rewrite !Hhigh, Hlow, !Hm, Z.mod_mod by lia.
    rewrite (Hsm (d / 128 / 128)) by (repeat apply Hdiv; lia). do 2 f_equal. by rewrite !Z.add_0_l, !Hd0. }
  rewrite (proj2 (Z.ltb_lt d _)) by (change (128 ^ 4) with (2 ^ 28); lia).
  cbn [app read_vlq]. rewrite !Hhigh, Hlow, !Hm, Z.mod_mod by lia.
  rewrite (Hsm (d / 128 / 128 / 128)) by (repeat apply Hdiv; lia). do 2 f_equal. by rewrite !Z.add_0_l, !Hd0.
Qed.

Lemma read_message_bytes m rest :
  message_ok m → read_message (message_bytes m ++ rest) = Some (m, rest).
Proof.
  assert (Hst : ∀ a k c, 0 ≤ c < 16 → a = 16 * k → (a + c) / 16 = k ∧ (a + c) `mod` 16 = c).
  { intros a k c Hc ->. split; [by rewrite Z.mul_comm, Z.div_add_l, Z.div_small by lia; lia|].
    rewrite Z.add_comm, Z.mul_comm, Z.mod_add by lia. by apply Z.mod_small. }
  destruct m as [c k|c k v|c w|c p|c n v|]; cbn [message_ok message_bytes app read_message].
  - intros [Hc _]. destruct (Hst 128 8 c Hc eq_refl) as [-> ->]. done.
  - intros [Hc _]. destruct (Hst 144 9 c Hc eq_refl) as [-> ->]. done.
  - intros [Hc Hw]. destruct (Hst 224 14 c Hc eq_refl) as [-> ->]. cbn [Z.eqb Pos.eqb]. do 3 f_equal.
    rewrite Z.add_comm. symmetry. by apply Z.div_mod.
  - intros [Hc _]. destruct (Hst 192 12 c Hc eq_refl) as [-> ->]. done.
  - intros [Hc _]. destruct (Hst 176 11 c Hc eq_refl) as [-> ->]. done.
  - done.
Qed.

Lemma message_bytes_length m : (2 ≤ length (message_bytes m))%nat.
Proof. destruct m; cbn; lia. Qed.

Lemma read_track_track fuel ms :
  messages_ok ms → (length (track ms) ≤ fuel)%nat → read_track fuel (track ms) = Some ms.
Proof.
  revert fuel. induction ms as [|[d m] ms IH]; intros fuel Hok Hf; [done|].
  change (track ((d, m) :: ms)) with ((vlq d ++ message_bytes m) ++ track ms) in *.
  rewrite !length_app in Hf. pose proof (message_bytes_length m).
  destruct fuel as [|fuel]; [lia|]. cbn [read_track]. rewrite <- app_assoc.
  assert (Hd : delay_ok d ∧ message_ok m) by (by destruct m, ms; cbn in Hok; naive_solver).
  rewrite read_vlq_vlq by apply Hd. cbn [mbind option_bind]. rewrite read_message_bytes by apply Hd.
  cbn [mbind option_bind].
  destruct (decide (m = EndOfTrack)) as [->|Hm].
  - destruct ms as [|]; [done|]. cbn in Hok. naive_solver.
  - assert (Hms : messages_ok ms) by (by destruct m, ms; cbn in Hok; naive_solver).
    rewrite (IH fuel) by (done || lia). by destruct m.
Qed.

Lemma of_be32_be32 n : 0 ≤ n < 2 ^ 32 → of_be32 (be32 n) = n.
Proof.
  intros Hn. unfold of_be32, be32. cbn [foldl]. change (2 ^ 24) with (256 * 256 * 256).
  change (2 ^ 16) with (256 * 256). change (2 ^ 8) with 256. rewrite <- !Z.div_div by lia.
  Z.to_euclidean_division_equations. lia.
Qed.

Lemma read_midi_file ms :
  messages_ok ms → Z.of_nat (length (track ms)) < 2 ^ 32 → read_midi (midi_file ms) = Some ms.
Proof.
  intros Hok Hl. unfold read_midi, midi_file.
  change (drop 22 _) with (track ms). change (take 18 (take 18 midiheader ++ _)) with (take 18 midiheader).
  change (take 4 (drop 18 _)) with (be32 (Z.of_nat (length (track ms)))).
  rewrite of_be32_be32, Z.eqb_refl, bool_decide_true by (done || lia). by apply read_track_track.
Qed.

(** ** Scores that come from bytes *)

Definition byte_ok (v : Z) : Prop := in_u 8 v.

Definition event_ok (e : mus_event) : Prop :=
  match e with
  | Release k => byte_ok k
  | Press k v => byte_ok k ∧ from_option byte_ok True v
  | Pitch b => byte_ok b
  | System n => 10 ≤ n ≤ 14
  | Controller n v => 0 ≤ n ≤ 9 ∧ byte_ok v
  end.

Fixpoint items_ok (items : list item) : Prop :=
  match items with
  | Event c e :: items => 0 ≤ c < 16 ∧ event_ok e ∧ items_ok items
  | Wait t :: items => 0 ≤ t ∧ items_ok items
  | [ScoreEnd c] => 0 ≤ c < 16
  | _ => False
  end.

Fixpoint total_wait (items : list item) : Z :=
  match items with
  | Wait t :: items => t + total_wait items
  | _ :: items => total_wait items
  | [] => 0
  end.

Lemma total_wait_nonneg items : items_ok items → 0 ≤ total_wait items.
Proof.
  induction items as [|[c e|t|c] items IH]; cbn; [done|naive_solver|intros []; specialize (IH ltac:(done)); lia|].
  destruct items; [done|done].
Qed.

Lemma parse_event_ok code bs e rest :
  Forall byte_ok bs → parse_event code bs = Some (e, rest) → event_ok e ∧ Forall byte_ok rest.
Proof.
  unfold parse_event. intros Hb H. repeat case_match; simplify_eq; decompose_Forall_hyps; cbn;
    unfold byte_ok, in_u in *; split_and?; (done || lia).
Qed.

Lemma parse_time_ok acc bs t rest :
  Forall byte_ok bs → parse_time acc bs = Some (t, rest) → 0 ≤ t ∧ Forall byte_ok rest.
Proof.
  revert acc. induction bs as [|w bs IH]; intros acc Hb; cbn [parse_time]; [done|].
  apply Forall_cons in Hb as [Hw Hb]. case_match; [|by apply IH].
  intros [= <- <-]. split; [|done]. apply wrap_u_range. lia.
Qed.

Lemma ed_channel_range ed : 0 ≤ ed_channel ed < 16.
Proof.
  unfold ed_channel. rewrite (Z.land_ones ed 4 ltac:(lia) : Z.land ed 0x0F = _). apply Z.mod_pos_bound. lia.
Qed.

Scheme mus_score_mut := Induction for mus_score Sort Prop
  with mus_wait_mut := Induction for mus_wait Sort Prop.
Combined Scheme mus_score_wait_ind from mus_score_mut, mus_wait_mut.

Lemma score_items_ok :
  (∀ bs items, mus_score bs items → Forall byte_ok bs → items_ok items) ∧
  (∀ bs items, mus_wait bs items → Forall byte_ok bs → items_ok items).
Proof.
  apply mus_score_wait_ind; cbn.
  - intros. apply ed_channel_range.
  - intros ed bs e rest items _ Hp _ _ IH [_ Hb]%Forall_cons.
    destruct (parse_event_ok _ _ _ _ Hb Hp). pose proof (ed_channel_range ed). auto.
  - intros ed bs e rest items _ Hp _ _ IH [_ Hb]%Forall_cons.
    destruct (parse_event_ok _ _ _ _ Hb Hp). pose proof (ed_channel_range ed). auto.
  - intros bs t rest items Hp _ IH Hb. destruct (parse_time_ok _ _ _ _ Hb Hp). auto.
Qed.

(** ** The translation of a score can be read back *)

Definition tstate_ok (t : tstate) : Prop := map_ok (t_map t) ∧ vel_ok (t_vel t) ∧ 0 ≤ t_wait t.

Lemma t_channel_ok c t ch ms t' :
  tstate_ok t → 0 ≤ c < 16 → t_channel c t = (ch, ms, t') →
  tstate_ok t' ∧ 0 ≤ ch < 16 ∧ 0 ≤ t_wait t' ≤ t_wait t ∧
  ((ms = [] ∧ t' = t) ∨ ms = [(t_wait t, Control ch 0x7b 0)]).
Proof.
  intros (HM & HV & HW) Hc. unfold t_channel, MUS_PERCUSSION_CHAN, MIDI_PERCUSSION_CHAN.
  destruct (Z.eqb_spec c 15); [intros [= <- <- <-]; split_and!; try lia; [done|by left]|].
  destruct (lookup_lt_is_Some_2 (t_map t) (Z.to_nat c)) as [v Hv]; [destruct HM; lia|].
  rewrite (list_lookup_total_correct _ _ _ Hv).
  destruct (Z.eqb_spec v (-1)) as [->|Hv1]; intros [= <- <- <-].
  - destruct (allocate_ok (t_map t) (Z.to_nat c) HM ltac:(lia) Hv) as (? & ? & _).
    split_and!; cbn; try (done || lia). by right.
  - destruct (map_ok_range _ _ _ HM Hv) as [|[? _]]; [done|]. split_and!; try lia; [done|by left].
Qed.

Lemma t_message_ok c vel e m vel' :
  vel_ok vel → 0 ≤ c < 16 → event_ok e → t_message c vel e = (m, vel') →
  message_ok m ∧ m ≠ EndOfTrack ∧ vel_ok vel'.
Proof.
  intros [HL HF] Hc He. assert (Hmod : ∀ a, data_ok (a `mod` 128)) by (intros; apply Z.mod_pos_bound; lia).
  assert (Hctl : ∀ n, 0 ≤ n < 15 → data_ok (controller_map !!! Z.to_nat n)).
  { intros n Hn. destruct (lookup_lt_is_Some_2 controller_map (Z.to_nat n)) as [v Hv]; [cbn; lia|].
    rewrite (list_lookup_total_correct _ _ _ Hv). by eapply controller_range. }
  destruct e as [k|k [v|]|b|n|n v]; cbn in He |- *; intros [= <- <-]; unfold byte_ok, in_u in He.
  - split; [|done]. split; [done|apply Hmod].
  - split; [split; [done|split; apply Hmod]|]. split; [done|].
    split; [by rewrite length_insert|]. apply Forall_insert; [done|apply Hmod].
  - destruct (lookup_lt_is_Some_2 vel (Z.to_nat c)) as [v Hv]; [lia|].
    rewrite (list_lookup_total_correct _ _ _ Hv).
    split; [|done]. split; [done|]. split; [apply Hmod|]. rewrite Forall_lookup in HF. by eapply HF.
  - split; [|done]. split; [done|lia].
  - split; [|done]. split; [done|]. split; [apply Hctl; lia|]. unfold data_ok. lia.
  - split; [|by destruct (n =? 0)]. destruct (Z.eqb_spec n 0); cbn; split; try done.
    split; [apply Hctl; lia|]. unfold data_ok. lia.
Qed.

Lemma messages_ok_cons d m ms :
  delay_ok d → message_ok m → m ≠ EndOfTrack → messages_ok ms → messages_ok ((d, m) :: ms).
Proof. intros. destruct m, ms; cbn in *; done. Qed.

Lemma translate_ok items t :
  items_ok items → tstate_ok t → t_wait t + total_wait items < 2 ^ 28 → messages_ok (translate t items).
Proof.
  revert t. induction items as [|[c e|w|c] items IH]; intros t Hok HT HW; cbn in Hok; [done|..].
  - destruct Hok as (Hc & He & Hok). pose proof (total_wait_nonneg _ Hok). cbn [total_wait] in HW.
    cbn [translate]. destruct (t_channel c t) as [[ch ms] t'] eqn:Ech.
    destruct (t_channel_ok _ _ _ _ _ HT Hc Ech) as (HT' & Hch & Hw' & Hms).
    destruct (t_message ch (t_vel t') e) as [m vel] eqn:Em.
    destruct (t_message_ok _ _ _ _ _ (proj1 (proj2 HT')) Hch He Em) as (Hm & Hne & Hv).
    assert (Hrest : messages_ok ((t_wait t', m) :: translate (mkT (t_map t') vel 0) items)).
    { apply messages_ok_cons; [unfold delay_ok; lia|done|done|]. apply IH; [done| |cbn; lia].
      split_and!; [apply HT'|done|cbn; lia]. }
    destruct Hms as [[-> _]| ->]; [done|]. destruct HT as (_ & _ & ?).
    apply messages_ok_cons; [unfold delay_ok; lia|unfold message_ok, data_ok; lia|done|done].
  - destruct Hok as [Hw Hok]. pose proof (total_wait_nonneg _ Hok). cbn [total_wait translate] in *.
    destruct HT as (? & ? & ?). rewrite wrap_u_small by (unfold in_u; lia).
    apply IH; [done|split_and!; [done|done|cbn; lia]|cbn; lia].
  - destruct items; [|done]. cbn [translate total_wait] in *.
    destruct (t_channel c t) as [[ch ms] t'] eqn:Ech.
    destruct (t_channel_ok _ _ _ _ _ HT Hok Ech) as (HT' & Hch & Hw' & Hms).
    assert (delay_ok (t_wait t')) by (unfold delay_ok; lia).
    destruct Hms as [[-> _]| ->]; [done|]. destruct HT as (_ & _ & ?).
    apply messages_ok_cons; [unfold delay_ok; lia|unfold message_ok, data_ok; lia|done|done].
Qed.

(** A text has at most one score. *)
Lemma scores_unique :
  (∀ bs items, mus_score bs items → ∀ items', mus_score bs items' → items' = items) ∧
  (∀ bs items, mus_wait bs items → ∀ items', mus_wait bs items' → items' = items).
Proof.
  apply mus_score_wait_ind.
  - intros ed bs Hc items' HS. inversion HS; by simplify_eq.
  - intros ed bs e rest items Hc Hp Hl _ IH items' HS. inversion HS; subst; try congruence; simplify_eq; f_equal; auto.
  - intros ed bs e rest items Hc Hp Hl _ IH items' HS. inversion HS; subst; try congruence; simplify_eq; f_equal; auto.
  - intros bs t rest items Hp _ IH items' HS. inversion HS; subst; try congruence; simplify_eq; f_equal; auto.
Qed.

Lemma score_unique bs items items' : mus_score bs items' → mus_score bs items → items' = items.
Proof. intros ? ?. by eapply (proj1 scores_unique). Qed.

Lemma score_of_bytes data bs : Forall byte_ok data → score_of data = Some bs → Forall byte_ok bs.
Proof.
  unfold score_of. intros HF H. repeat case_match; simplify_eq. by apply Forall_drop.
Qed.

(** ** Files in memory *)

Section claims.
Context (residue : nat → Z) (junk : Z → Z).

(** Writing to a file in memory is writing at a position of its contents: [mem_fwrite] of
    [nmemb] items returns [nmemb], the bytes replace and extend the contents at the position,
    which moves behind them, the file is well formed again in a well-formed zone, and every
    static block of the zone other than the file's old buffer is untouched, although the buffer
    may be reallocated many times on the way; or the zone has no room, the only way to stop.
    The loop that doubles the buffer always ends within its fuel. *)
Theorem mem_fwrite_spec z zl f bs size nmemb :
  wfile_ok z zl f → z_size z ≤ 2 ^ 30 → size * nmemb = Z.of_nat (length bs) →
  Z.of_nat (length bs) < 2 ^ 64 →
  match mem_fwrite residue junk bs size nmemb f z with
  | Ok ((n, f'), z') => n = nmemb ∧ written z zl f bs f' z'
  | Stop e => alloc_failed e
  end.
Proof.
  intros OK Hz Hs Hl. pose proof (wp_fwrite residue junk z zl f bs size nmemb OK Hz Hs Hl) as H.
  unfold wp in H. by destruct (mem_fwrite _ _ _ _ _ _ _) as [[[n f'] z']|e].
Qed.

(** What was written is what is read: after a file open for writing was handed over with
    [mem_get_buf], a file opened on that buffer for reading gives back, in items of any size,
    the contents as far as whole items fit, leaves the rest unread, and the next read of single
    bytes returns exactly the rest. *)
Theorem mem_io_roundtrip z zl f addr size nmemb :
  wfile_ok z zl f → 0 < size → 0 ≤ nmemb → nmemb * size < 2 ^ 64 →
  let '(buf, data, len) := mem_get_buf f in
  let g := mkFile addr buf (take (Z.to_nat len) data) len 0 0 MODE_READ in
  let items := nmemb `min` (len / size) in
  ∃ g', mem_fread size nmemb g = Ok (items, take (Z.to_nat (items * size)) (contents f), g') ∧
    ∃ g'', mem_fread 1 (len - items * size) g' =
             Ok (len - items * size, drop (Z.to_nat (items * size)) (contents f), g'') ∧
           mem_ftell g'' = len.
Proof.
  intros OK Hs Hn Hm. unfold mem_get_buf. fold (contents f).
  set (g := mkFile _ _ _ _ _ _ _). set (items := _ `min` _).
  pose proof (length_contents _ _ _ OK) as HL. pose proof (wo_range _ _ _ OK) as Hr.
  pose proof (static_bound _ _ _ _ (wo_zone _ _ _ OK) (wo_buf _ _ _ OK)) as Hb.
  pose proof (zw_size _ _ (proj1 (wo_zone _ _ _ OK))) as Hz.
  assert (RG : rfile_ok g) by (split; cbn; [done|lia|lia|lia]).
  assert (HU : unread g = contents f) by done.
  pose proof (fread_run g size nmemb RG Hs Hn Hm) as (H1 & RG1 & HU1).
  rewrite HU in *. replace (Z.of_nat (length (contents f))) with (mf_buflen f) in * by lia.
  fold items in H1, RG1, HU1. eexists. split; [exact H1|].
  assert (Hi : 0 ≤ items * size ≤ mf_buflen f).
  { subst items. pose proof (Z.mul_div_le (mf_buflen f) size Hs).
    pose proof (Z.div_pos (mf_buflen f) size). nia. }
  pose proof (fread_run _ 1 (mf_buflen f - items * size) RG1 ltac:(lia) ltac:(lia) ltac:(lia)) as (H2 & _ & _).
  rewrite HU1, Z.div_1_r, length_drop, Z.min_l, Z.mul_1_r in H2 by lia.
  eexists. split; [rewrite H2; do 3 f_equal; apply take_ge; rewrite length_drop; lia|].
  cbn. lia.
Qed.

(** ** The converter *)

(** C39. [mus2mid] implements the translation of MUS scores.  Started on an empty output and any
    bytes as input, it always terminates, never accesses an array out of bounds, and stops only
    when the zone has no room.  It reports failure exactly when the input is not a MUS file with
    a score ([mus_file]); otherwise the output is the MIDI file of the translation of the score,
    with the length of the track in its header, from the velocities and the queued time that
    the static variables held at the start. *)
Theorem mus2mid_spec s :
  start_ok s →
  match mus2mid residue junk s with
  | Ok (failed, s') =>
      (∃ zl, wfile_ok (cv_zone s') zl (cv_out s')) ∧
      if failed : bool then ∀ items, ¬ mus_file (mf_data (cv_in s)) items
      else ∃ items, mus_file (mf_data (cv_in s)) items ∧
             contents (cv_out s') = midi_file (translate (start_state s) items)
  | Stop e => alloc_failed e
  end.
Proof.
  intros SO. pose proof (wp_mus2mid residue junk s SO) as H. unfold wp in H.
  by destruct (mus2mid residue junk s) as [[failed s']|e].
Qed.

Lemma midi_file_short s zl ms :
  wfile_ok (cv_zone s) zl (cv_out s) → output s = midi_file ms → Z.of_nat (length (track ms)) < 2 ^ 32.
Proof.
  intros OK HO. pose proof (length_contents _ _ _ OK) as HL. pose proof (wo_range _ _ _ OK).
  pose proof (static_bound _ _ _ _ (wo_zone _ _ _ OK) (wo_buf _ _ _ OK)).
  pose proof (zw_size _ _ (proj1 (wo_zone _ _ _ OK))). unfold output in HO. rewrite HO in HL.
  unfold midi_file in HL. rewrite !length_app in HL. lia.
Qed.

End claims.

(** ** A session: a zone, an output file opened in it, and a song *)

Definition no_residue : nat → Z := λ _, 0.
Definition zeros : Z → Z := λ _, 0.

Definition demo_file : MEMFILE :=
  match mem_fopen_write no_residue zeros demo0 with Ok (f, _) => f | Stop _ => mkFile 0 0 [] 0 0 0 MODE_READ end.
Definition demo_zone : zone := run (mem_fopen_write no_residue zeros) demo0.

(** The input [data] and the static variables [q] and [vel]. *)
Definition session (data : list Z) (q : Z) (vel : list Z) : conv :=
  mkConv demo_zone (mkFile 0 0 data (Z.of_nat (length data)) 0 0 MODE_READ) demo_file q 0 vel [].

Definition initial_velocities : list Z := replicate 16 127.

Definition mus_start : list Z := [0x4D; 0x55; 0x53; 0x1A; 0; 0; 14; 0; 1; 0; 0; 0; 0; 0].

(** A key pressed at volume 100 and released, 70 ticks, the end. *)
Definition demo_song : list Z := mus_start ++ [0x10; 0xBC; 100; 0x80; 0x3C; 0x46; 0x60].

(** A key pressed without a volume. *)
Definition plain_song : list Z := mus_start ++ [0x90; 0x3C; 0x46; 0x60].

Lemma demo_file_ok : ∃ zl, wfile_ok demo_zone zl demo_file ∧ contents demo_file = [] ∧
  mf_position demo_file = 0.
Proof.
  pose proof (wp_fopen_write no_residue zeros demo0 [1056] demo0_inv) as H. unfold wp in H.
  destruct (mem_fopen_write no_residue zeros demo0) as [[f z]|e] eqn:E; [|by vm_compute in E].
  destruct H as (zl & OK & HC & HP & _). exists zl. unfold demo_zone, run, demo_file. rewrite E.
  exact (conj OK (conj HC HP)).
Qed.

Lemma session_ok data q vel :
  Z.of_nat (length data) < 2 ^ 31 → Forall byte_ok data → vel_ok vel → in_u 32 q →
  start_ok (session data q vel).
Proof.
  intros Hl HF HV HQ. destruct demo_file_ok as (zl & OK & HC & HP). constructor.
  - exists zl. constructor; [exact OK|vm_compute; discriminate|vm_compute; reflexivity].
  - exact HC.
  - constructor; cbn; [reflexivity|reflexivity|lia|exact Hl].
  - reflexivity.
  - exact HF.
  - exact HV.
  - exact HQ.
Qed.

Lemma demo_session_ok : start_ok (session demo_song 0 initial_velocities).
Proof.
  apply session_ok; [done| | |done]; [|split; [done|]]; apply (bool_decide_unpack _); vm_compute; done.
Qed.

Lemma demo_song_score :
  mus_file demo_song [Event 0 (Press 0xBC (Some 100)); Event 0 (Release 0x3C); Wait 70; ScoreEnd 0].
Proof.
  eexists. split; [reflexivity|].
  apply (score_event 0x10 _ _ [0x80; 0x3C; 0x46; 0x60]); [done..|].
  apply (score_last 0x80 _ _ [0x46; 0x60]); [done..|].
  apply (wait_time _ _ [0x60]); [done|]. by apply (score_end 0x60).
Qed.

Lemma mem_fwrite_spec_witness :
  ∃ f z, mem_fwrite no_residue zeros (replicate 1500 7) 2 750 demo_file demo_zone = Ok ((750, f), z) ∧
    contents f = replicate 1500 7.
Proof.
  destruct demo_file_ok as (zl & OK & HC & HP).
  pose proof (mem_fwrite_spec no_residue zeros demo_zone zl demo_file (replicate 1500 7) 2 750 OK
    ltac:(vm_compute; discriminate) ltac:(by rewrite length_replicate) ltac:(by rewrite length_replicate)) as H.
  destruct (mem_fwrite no_residue zeros (replicate 1500 7) 2 750 demo_file demo_zone) as [[[n f] z]|e] eqn:E.
  - destruct H as [-> (zl' & _ & _ & _ & Hc & _)]. exists f, z. split; [reflexivity|].
    rewrite HC, HP in Hc. exact Hc.
  - exfalso. clear H. apply (f_equal (λ r, match r with Ok _ => true | Stop _ => false end)) in E.
    vm_compute in E. discriminate E.
Defined.

Lemma mem_io_roundtrip_witness :
  ∃ g', mem_fread 4 9 (mkFile 0 (mf_buf demo_file) [] 0 0 0 MODE_READ) = Ok (0, [], g').
Proof.
  destruct demo_file_ok as (zl & OK & HC & HP).
  destruct (mem_io_roundtrip demo_zone zl demo_file 0 4 9 OK ltac:(lia) ltac:(lia) ltac:(lia)) as (g' & H & _).
  exists g'. exact H.
Defined.

Lemma mus2mid_spec_witness :
  ∃ s' items, mus2mid no_residue zeros (session demo_song 0 initial_velocities) = Ok (false, s') ∧
    mus_file demo_song items ∧
    contents (cv_out s') = midi_file (translate (start_state (session demo_song 0 initial_velocities)) items).
Proof.
  pose proof (mus2mid_spec no_residue zeros _ demo_session_ok) as H.
  destruct (mus2mid no_residue zeros (session demo_song 0 initial_velocities)) as [[[] s']|e] eqn:E.
  - exfalso. exact (proj2 H _ demo_song_score).
  - destruct H as [_ (items & HF & HO)]. exists s', items. split; [reflexivity|]. split; [exact HF|exact HO].
  - exfalso. clear H. apply (f_equal (λ r, match r with Ok _ => true | Stop _ => false end)) in E.
    vm_compute in E. discriminate E.
Defined.


(** A conversion depends on the conversions before it: the static [channelvelocities] are
    never reset, so a song that presses a key without a volume is converted with the volume that
    the song before it used last on the channel, not with the volume 127 it has when it is
    converted first; and a conversion that fails leaves its [queuedtime], which delays the next
    song. *)
Theorem mus2mid_remembers :
  ∃ s1 s2 s3 s4 s5,
    mus2mid no_residue zeros (session plain_song 0 initial_velocities) = Ok (false, s1) ∧
    mus2mid no_residue zeros (session demo_song 0 initial_velocities) = Ok (false, s2) ∧
    mus2mid no_residue zeros (session plain_song (queuedtime s2) (channelvelocities s2)) = Ok (false, s3) ∧
    mus2mid no_residue zeros (session (take 16 plain_song ++ [0x46]) 0 initial_velocities) = Ok (true, s4) ∧
    mus2mid no_residue zeros (session plain_song (queuedtime s4) (channelvelocities s4)) = Ok (false, s5) ∧
    read_midi (output s1) = Some [(0, Control 0 123 0); (0, NoteOn 0 60 127); (70, EndOfTrack)] ∧
    read_midi (output s3) = Some [(0, Control 0 123 0); (0, NoteOn 0 60 100); (70, EndOfTrack)] ∧
    read_midi (output s5) = Some [(70, Control 0 123 0); (0, NoteOn 0 60 127); (70, EndOfTrack)].
Proof.
  eexists _, _, _, _, _. split; [vm_compute; reflexivity|]. split; [vm_compute; reflexivity|].
  split; [vm_compute; reflexivity|]. split; [vm_compute; reflexivity|]. split; [vm_compute; reflexivity|].
  split_and!; vm_compute; reflexivity.
Qed.

(** ** Channels *)

(** The channel maps that occur: none assigned at the start, then one for a MUS channel that has
    none, other than the percussion channel. *)
Inductive map_reachable : list Z → Prop :=
| map_start : map_reachable (replicate NUM_CHANNELS (-1))
| map_assign m c :
    map_reachable m → (c < 15)%nat → m !! c = Some (-1) →
    map_reachable (<[c := AllocateMIDIChannel m]> m).

Lemma reachable_ok m : map_reachable m → map_ok m.
Proof. induction 1; [apply map_ok_init|by apply allocate_ok]. Qed.

(** MIDI channels are given out without clashes: whatever order the MUS channels come in,
    two MUS channels never share a MIDI channel, every assigned channel is below 16, the MIDI
    percussion channel 9 is never given to another channel, and there is always a fresh channel
    left for a MUS channel that has none, so all 16 MUS channels can be used. *)
Theorem midi_channels_distinct m :
  map_reachable m →
  length m = NUM_CHANNELS ∧
  (∀ i j v, m !! i = Some v → m !! j = Some v → v ≠ -1 → i = j) ∧
  (∀ i v, m !! i = Some v → v ≠ -1 → 0 ≤ v < 16 ∧ v ≠ MIDI_PERCUSSION_CHAN) ∧
  (∀ c, (c < 15)%nat → m !! c = Some (-1) →
     let v := AllocateMIDIChannel m in (v ∉ m) ∧ 0 ≤ v < 16 ∧ v ≠ MIDI_PERCUSSION_CHAN).
Proof.
  intros HR. split_and!.
  - by destruct (reachable_ok _ HR).
  - induction HR as [|m c HR IH Hc Hm]; intros i j v.
    + intros [-> _]%lookup_replicate. done.
    + destruct (allocate_ok m c (reachable_ok _ HR) Hc Hm) as (_ & _ & _ & Hfresh).
      rewrite !list_lookup_insert_Some. intros [(-> & <- & _)|[? Hi]] [(-> & E & _)|[? Hj]] Hv; try done.
      * apply list_elem_of_lookup_2 in Hj. done.
      * subst v. apply list_elem_of_lookup_2 in Hi. done.
      * eauto.
  - intros i v Hi Hv. destruct (map_ok_range _ _ _ (reachable_ok _ HR) Hi) as [|[? ?]]; done.
  - intros c Hc Hm v. destruct (allocate_ok m c (reachable_ok _ HR) Hc Hm) as (_ & ? & ? & ?). done.
Qed.

Lemma midi_channels_distinct_witness :
  map_reachable (<[3%nat := 0]> (replicate 16 (-1))) ∧
  AllocateMIDIChannel (<[3%nat := 0]> (replicate 16 (-1))) ∉ <[3%nat := 0]> (replicate 16 (-1)).
Proof.
  assert (H : map_reachable (<[3%nat := 0]> (replicate 16 (-1)))).
  { exact (map_assign _ 3 map_start ltac:(lia) eq_refl). }
  split; [exact H|].
  exact (proj1 (proj2 (proj2 (proj2 (midi_channels_distinct _ H))) 7%nat ltac:(lia) eq_refl)).
Defined.
