(* ===== verification/MapSpec.v ===== *)
(** * What a map of the kernel promises

    The interface between the hash map and the components that are built on it.  The operations
    are those of libs/libcontainers/include/data_structures/hash_maps.hpp; the promise is that
    each one behaves as the same operation on a finite map, failed assertions included. *)
From S2P Require Import Prelude.

(** ** The operations on a finite map with room for [cap] entries *)

Section spec.
Context {V : Type} (cap : Z).
Implicit Types m : gmap Z V.

Abbreviation SM := (M (gmap Z V)).

Definition key_check (k : Z) : SM unit :=
  assertM (negb (k =? 0)) "Zero key is not allowed in FastMinimalStaticHashmap".

Definition spec_insert (kOverwrite : bool) (k : Z) (v : V) : SM bool :=
  m ← getS;
  assertM (Z.of_nat (size m) <? cap) "Hashmap overflow attempted";;
  key_check k;;
  match m !! k with
  | None => putS (<[k := v]> m);; mret true
  | Some _ => (if kOverwrite then putS (<[k := v]> m) else mret tt);; mret false
  end.

Definition spec_remove (k : Z) : SM bool :=
  key_check k;;
  m ← getS;
  putS (delete k m);;
  mret (bool_decide (is_Some (m !! k))).

(** In an empty map every key is looked up, zero included. *)
Definition spec_find (k : Z) : SM (option V) :=
  m ← getS;
  if (size m =? 0)%nat then mret None else key_check k;; mret (m !! k).

Definition spec_has_key (k : Z) : SM bool :=
  v ← spec_find k; mret (match v with None => false | Some _ => true end).

Definition spec_size : SM Z := m ← getS; mret (Z.of_nat (size m)).
End spec.

(** ** The interface *)

Class MapOps (S V : Type) : Type := {
  map_new : S;
  map_insert : bool → Z → V → M S bool;
  map_emplace : Z → V → M S bool;
  map_remove : Z → M S bool;
  map_find : Z → M S (option V);
  map_has_key : Z → M S bool;
  map_size : M S Z;
}.

Class MapLaws (S V : Type) (OPS : MapOps S V) (cap : Z) (rep : S → gmap Z V → Prop) : Prop := {
  law_cap : 0 < cap;
  law_new : rep map_new ∅;
  law_room s m : rep s m → Z.of_nat (size m) ≤ cap;
  law_key s m : rep s m → m !! 0 = None;
  law_insert ow k v : sim rep (map_insert ow k v) (spec_insert cap ow k v);
  law_emplace k v : sim rep (map_emplace k v) (spec_insert cap false k v);
  law_remove k : sim rep (map_remove k) (spec_remove k);
  law_find k : sim rep (map_find k) (spec_find k);
  law_has_key k : sim rep (map_has_key k) (spec_has_key k);
  law_size : sim rep map_size spec_size;
}.

(** ** The promises as rules for the clients *)

Definition zero_stop : stop := Panic "Zero key is not allowed in FastMinimalStaticHashmap".

Section rules.
Context {S V : Type} {OPS : MapOps S V} {cap : Z} {rep : S → gmap Z V → Prop}.
Context (LAWS : MapLaws S V OPS cap rep).
Implicit Types (s : S) (m : gmap Z V) (E : stop → Prop).

Lemma sim_wp {A} (op : M S A) (spec : M (gmap Z V) A) E (Q : A → S → Prop) s m :
  sim rep op spec → rep s m → wp E spec (λ a m', ∀ s', rep s' m' → Q a s') m → wp E op Q s.
Proof.
  intros Hsim Hrep HQ. specialize (Hsim s m Hrep). unfold wp in *.
  destruct (op s) as [[a s']|e], (spec m) as [[b m']|e']; try done.
  - destruct Hsim as [-> ?]. by apply HQ.
  - by subst e.
Qed.

Lemma key_check_wp E k (Q : unit → gmap Z V → Prop) m :
  (k = 0 → E zero_stop) → (k ≠ 0 → Q tt m) →
  wp E (key_check k) Q m.
Proof. intros H1 H2. unfold key_check. destruct (Z.eqb_spec k 0) as [->|]; [by apply H1|by apply H2]. Qed.

Lemma find_wp E k (Q : option V → S → Prop) s m :
  rep s m → (k = 0 → E zero_stop) →
  (∀ s', rep s' m → Q (m !! k) s') → wp E (map_find k) Q s.
Proof using LAWS.
  intros Hr HE HQ. eapply sim_wp; [apply (law_find (MapLaws := LAWS))|exact Hr|]. unfold spec_find. wp_simp.
  destruct (Nat.eqb_spec (size m) 0) as [->%map_size_empty_inv|].
  - rewrite wp_ret. intros s' Hr'. specialize (HQ s'). rewrite lookup_empty in HQ. auto.
  - rewrite wp_bind. apply key_check_wp; [done|]. intros _. by rewrite wp_ret.
Qed.

Lemma has_key_wp E k (Q : bool → S → Prop) s m :
  rep s m → (k = 0 → E zero_stop) →
  (∀ s', rep s' m → Q (bool_decide (is_Some (m !! k))) s') → wp E (map_has_key k) Q s.
Proof using LAWS.
  intros Hr HE HQ. eapply sim_wp; [apply (law_has_key (MapLaws := LAWS))|exact Hr|].
  unfold spec_has_key, spec_find. wp_simp.
  destruct (Nat.eqb_spec (size m) 0) as [->%map_size_empty_inv|].
  - wp_simp. intros s' Hr'. specialize (HQ s'). rewrite lookup_empty in HQ. auto.
  - rewrite wp_bind. apply key_check_wp; [done|]. intros _. wp_simp. intros s' Hr'. specialize (HQ s' Hr').
    by destruct (m !! k).
Qed.

Lemma insert_wp E k v (Q : bool → S → Prop) s m :
  rep s m → m !! k = None → Z.of_nat (size m) < cap →
  (k = 0 → E zero_stop) →
  (k ≠ 0 → ∀ s', rep s' (<[k := v]> m) → Q true s') → wp E (map_insert false k v) Q s.
Proof using LAWS.
  intros Hr Hk Hc HE HQ. eapply sim_wp; [apply (law_insert (MapLaws := LAWS))|exact Hr|]. unfold spec_insert. wp_simp.
  apply wp_assert; [by apply Z.ltb_lt|]. rewrite wp_bind. apply key_check_wp; [done|]. intros Hk0.
  rewrite Hk. wp_simp. by apply HQ.
Qed.

Lemma remove_wp E k (Q : bool → S → Prop) s m :
  rep s m → k ≠ 0 → (∀ b s', rep s' (delete k m) → Q b s') → wp E (map_remove k) Q s.
Proof using LAWS.
  intros Hr Hk HQ. eapply sim_wp; [apply (law_remove (MapLaws := LAWS))|exact Hr|]. unfold spec_remove. wp_simp.
  apply key_check_wp; [done|]. intros _. wp_simp. auto.
Qed.
End rules.
