(* ===== verification/HashMap.v ===== *)
(** * The static hash map of the kernel

    Models [FastMinimalStaticHashmap] of libs/libcontainers/include/data_structures/hash_maps.hpp:
    open addressing with linear probing over a table of twice the rounded capacity; zero marks
    an empty slot; removal closes the gap by inserting the rest of the run again.  A key is the
    integer of [width] bits that its bytes form. *)
From S2P Require Import Prelude.
From S2P Require Import MapSpec.

(** ** std::bit_width and std::bit_ceil on [size_t] *)

Definition bit_width (x : Z) : Z := 64 - countl_zero 64 x.
Definition bit_ceil (x : Z) : Z := if x <=? 1 then 1 else Z.shiftl 1 (bit_width (u64 (x - 1))).

Record hashmap (V : Type) : Type := mkHashmap {
  keys_ : list Z;
  values_ : list (option V);
  size_ : Z;
}.
Arguments mkHashmap {V} _ _ _.
Arguments keys_ {V} _.
Arguments values_ {V} _.
Arguments size_ {V} _.

Section hashmap.
Context {V : Type} (kSize : Z).
Implicit Types s : hashmap V.

Abbreviation HM := (M (hashmap V)).

Definition kAdjustedSize : Z := bit_ceil kSize * 2.
Definition kReservedEmptyKey : Z := 0.

(** The map after construction: no key, and values that hold no object. *)
Definition empty_map : hashmap V :=
  mkHashmap (replicate (Z.to_nat kAdjustedSize) kReservedEmptyKey)
    (replicate (Z.to_nat kAdjustedSize) None) 0.

Definition key_at (i : Z) : HM Z :=
  s ← getS;
  match keys_ s !! Z.to_nat i with Some k => mret k | None => stopM BadAccess end.

Definition set_key (i k : Z) : HM unit :=
  modS (λ s, mkHashmap (<[Z.to_nat i := k]> (keys_ s)) (values_ s) (size_ s)).

(** Making ([Some]) or destroying ([None]) the object in a slot. *)
Definition set_value (i : Z) (v : option V) : HM unit :=
  modS (λ s, mkHashmap (keys_ s) (<[Z.to_nat i := v]> (values_ s)) (size_ s)).

Definition set_size (f : Z → Z) : HM unit :=
  modS (λ s, mkHashmap (keys_ s) (values_ s) (u64 (f (size_ s)))).

(** The object in a slot; a slot without an object is a bad access. *)
Definition value_at (i : Z) : HM V :=
  s ← getS;
  match values_ s !! Z.to_nat i with Some (Some v) => mret v | _ => stopM BadAccess end.

Definition HashKey (key : Z) : Z := u64 (Z.lxor 2166136261 key * 16777619) `mod` kAdjustedSize.

Definition ConvertKey_ (key : Z) : HM (Z * Z) :=
  assertM (negb (key =? 0)) "Zero key is not allowed in FastMinimalStaticHashmap";;
  mret (HashKey key, key).

Fixpoint ProbeLoop (fuel : nat) (integral_key hash_iterator : Z) : HM Z :=
  match fuel with
  | O => stopM NoFuel
  | S fuel =>
      k ← key_at hash_iterator;
      if negb (k =? integral_key) && negb (k =? kReservedEmptyKey)
      then ProbeLoop fuel integral_key ((hash_iterator + 1) `mod` kAdjustedSize)
      else mret hash_iterator
  end.

Definition FindEmpty_ (key : Z) : HM Z :=
  hk ← ConvertKey_ key;
  ProbeLoop (S (Z.to_nat kAdjustedSize)) hk.2 hk.1.

(** [None] is [kNotFound]. *)
Definition FindIndex_ (key : Z) : HM (option Z) :=
  hk ← ConvertKey_ key;
  i ← ProbeLoop (S (Z.to_nat kAdjustedSize)) hk.2 hk.1;
  k ← key_at i;
  mret (if k =? kReservedEmptyKey then None else Some i).

Definition Insert (kOverwrite : bool) (key : Z) (value : V) : HM bool :=
  s ← getS;
  assertM (size_ s <? kSize) "Hashmap overflow attempted";;
  idx ← FindEmpty_ key;
  k ← key_at idx;
  if k =? key then
    (if kOverwrite then set_value idx (Some value) else mret tt);;
    mret false
  else
    set_value idx (Some value);;
    set_key idx key;;
    set_size (λ n, n + 1);;
    mret true.

Definition Emplace (key : Z) (value : V) : HM bool :=
  s ← getS;
  assertM (size_ s <? kSize) "Hashmap overflow attempted";;
  idx ← FindEmpty_ key;
  k ← key_at idx;
  if k =? key then mret false
  else
    set_value idx (Some value);;
    set_key idx key;;
    set_size (λ n, n + 1);;
    mret true.

(** The loop of [Remove] that inserts the rest of the run again. *)
Fixpoint RehashLoop (fuel : nat) (current_idx : Z) : HM unit :=
  match fuel with
  | O => stopM NoFuel
  | S fuel =>
      integral_key ← key_at current_idx;
      if negb (integral_key =? kReservedEmptyKey) then
        value_to_rehash ← value_at current_idx;
        set_value current_idx None;;
        set_key current_idx kReservedEmptyKey;;
        new_slot_idx ← FindEmpty_ integral_key;
        set_value new_slot_idx (Some value_to_rehash);;
        set_key new_slot_idx integral_key;;
        RehashLoop fuel ((current_idx + 1) `mod` kAdjustedSize)
      else mret tt
  end.

Definition Remove (key : Z) : HM bool :=
  i ← FindIndex_ key;
  match i with
  | None => mret false
  | Some idx =>
      set_key idx kReservedEmptyKey;;
      set_size (λ n, n - 1);;
      set_value idx None;;
      RehashLoop (S (Z.to_nat kAdjustedSize)) ((idx + 1) `mod` kAdjustedSize);;
      mret true
  end.

(** The value behind the pointer that [Find] returns. *)
Definition Find (key : Z) : HM (option V) :=
  s ← getS;
  if size_ s =? 0 then mret None
  else
    i ← FindIndex_ key;
    match i with
    | None => mret None
    | Some idx => v ← value_at idx; mret (Some v)
    end.

Definition HasKey (key : Z) : HM bool :=
  s ← getS;
  if size_ s =? 0 then mret false
  else
    i ← FindIndex_ key;
    mret (match i with None => false | Some _ => true end).

Definition Size : HM Z := s ← getS; mret (size_ s).
End hashmap.

(** ** Probing on a ring of slots

    The part of the correctness argument that is about the table as a function from slots to
    keys. *)

Section probing.
Context (A : Z) (h : Z → Z).
Hypothesis HA : 0 < A.
Hypothesis Hh : ∀ k, 0 ≤ h k < A.
Implicit Types K : Z → Z.

Definition slot (i : Z) : Prop := 0 ≤ i < A.

(** Steps from [i] forward to [j]. *)
Definition dist (i j : Z) : Z := if i <=? j then j - i else j - i + A.

Definition nexti (i : Z) : Z := if i + 1 =? A then 0 else i + 1.

Lemma nexti_mod i : slot i → (i + 1) `mod` A = nexti i.
Proof using HA.
  unfold slot, nexti. intros Hi. destruct (Z.eqb_spec (i + 1) A) as [->|]; [apply Z_mod_same_full|].
  apply Z.mod_small. lia.
Qed.

Ltac ring_lia :=
  unfold dist, nexti, slot in *;
  repeat match goal with
  | |- context [?a <=? ?b] => destruct (Z.leb_spec a b)
  | H : context [?a <=? ?b] |- _ => destruct (Z.leb_spec a b)
  | |- context [?a =? ?b] => destruct (Z.eqb_spec a b)
  | H : context [?a =? ?b] |- _ => destruct (Z.eqb_spec a b)
  end; lia.

Lemma dist_range i j : slot i → slot j → 0 ≤ dist i j < A.
Proof. intros. ring_lia. Qed.

Lemma dist_inj i j j' : slot i → slot j → slot j' → dist i j = dist i j' → j = j'.
Proof. intros. ring_lia. Qed.

Lemma dist_0 i j : slot i → slot j → dist i j = 0 → i = j.
Proof. intros. ring_lia. Qed.

Lemma dist_self i : dist i i = 0.
Proof. ring_lia. Qed.

Lemma nexti_slot i : slot i → slot (nexti i).
Proof. intros. ring_lia. Qed.

Lemma dist_next i j : slot i → slot j → i ≠ j → dist (nexti i) j = dist i j - 1.
Proof. intros. ring_lia. Qed.

Lemma dist_next_self i : slot i → dist (nexti i) i = A - 1.
Proof. intros. ring_lia. Qed.

(** A way that passes [i] and ends outside the slots between [i] and [e] passes [e]. *)
Lemma dist_pass p i j e :
  slot p → slot i → slot j → slot e →
  dist p i < dist p j → ¬ dist i j < dist i e → j ≠ e → dist p e < dist p j.
Proof. intros. ring_lia. Qed.

Lemma dist_pass_next p i j e :
  slot p → slot i → slot j → slot e →
  dist p i < dist p j → ¬ dist (nexti i) j < dist (nexti i) e → j ≠ e → i ≠ e → dist p e < dist p j.
Proof. intros. ring_lia. Qed.

(** The first slot from [p] on with a decidable property. *)
Lemma first_slot (P : Z → Prop) `{∀ i, Decision (P i)} p i :
  slot p → slot i → P i →
  ∃ n, slot n ∧ P n ∧ dist p n ≤ dist p i ∧ ∀ j, slot j → dist p j < dist p n → ¬ P j.
Proof using HA.
  intros Hp Hi HP. remember (Z.to_nat (dist p i)) as d eqn:Hd.
  revert i Hi HP Hd. induction (lt_wf d) as [d _ IH]; intros i Hi HP ->.
  destruct (decide (Exists (λ j, dist p j < dist p i ∧ P j) (seqZ 0 A))) as [Hex|Hno].
  - apply Exists_exists in Hex as (j & Hj%elem_of_seqZ & Hlt & HPj).
    assert (Hsj : slot j) by (unfold slot; lia). pose proof (dist_range p j Hp Hsj).
    destruct (IH (Z.to_nat (dist p j)) ltac:(lia) j Hsj HPj eq_refl) as (n & ? & ? & ? & ?).
    exists n. split_and!; [done|done|lia|done].
  - exists i. split_and!; [done|done|lia|]. intros j Hj Hlt HPj. apply Hno. apply Exists_exists.
    exists j. split; [apply elem_of_seqZ; unfold slot in Hj; lia|done].
Qed.

Record table_ok K : Prop := {
  to_inj i j : slot i → slot j → K i = K j → K i ≠ 0 → i = j;
  to_path i j : slot i → slot j → K i ≠ 0 → dist (h (K i)) j < dist (h (K i)) i → K j ≠ 0;
}.

(** While the run from [cur] to the empty slot [e] is being inserted again. *)
Record rehash_ok K (cur e : Z) : Prop := {
  ro_end : slot e ∧ K e = 0;
  ro_inj i j : slot i → slot j → K i = K j → K i ≠ 0 → i = j;
  ro_run i : slot i → dist cur i < dist cur e → K i ≠ 0;
  ro_way i : slot i → dist cur i < dist cur e → dist (h (K i)) i < dist (h (K i)) e;
  ro_path i j : slot i → slot j → K i ≠ 0 → ¬ dist cur i < dist cur e →
    dist (h (K i)) j < dist (h (K i)) i → K j ≠ 0;
}.

Lemma rehash_done K e : rehash_ok K e e → table_ok K.
Proof.
  intros [[Hs _] ? _ _ HP]. split; [done|]. intros i j Hi Hj Hk. apply HP; [done..|].
  rewrite dist_self. pose proof (dist_range e i Hs Hi). lia.
Qed.

(** Taking out the key at [idx]. *)
Lemma table_remove K K' idx e :
  table_ok K → slot idx → K idx ≠ 0 → slot e → K e = 0 →
  (∀ j, slot j → dist (nexti idx) j < dist (nexti idx) e → K j ≠ 0) →
  (∀ j, slot j → K' j = if j =? idx then 0 else K j) →
  rehash_ok K' (nexti idx) e.
Proof using HA Hh.
  intros [HI HP] Hs Hk He He0 Hrun HK'.
  assert (Hne : idx ≠ e) by congruence.
  assert (Hidx : ¬ dist (nexti idx) idx < dist (nexti idx) e).
  { rewrite dist_next_self by done. pose proof (dist_range (nexti idx) e (nexti_slot _ Hs) He). lia. }
  assert (HKne : ∀ j, slot j → K' j ≠ 0 → j ≠ idx ∧ K' j = K j).
  { intros j Hj. rewrite HK' by done. destruct (Z.eqb_spec j idx); done. }
  assert (Hpend : ∀ i, slot i → dist (nexti idx) i < dist (nexti idx) e → K' i = K i).
  { intros i Hi Hlt. rewrite HK' by done. destruct (Z.eqb_spec i idx) as [->|]; done. }
  split.
  - split; [done|]. rewrite HK' by done. destruct (Z.eqb_spec e idx); done.
  - intros i j Hi Hj E Hn. destruct (HKne i Hi Hn) as [_ Ei]. rewrite E in Hn.
    destruct (HKne j Hj Hn) as [_ Ej]. apply HI; congruence.
  - intros i Hi Hlt. rewrite Hpend by done. auto.
  - intros i Hi Hlt. rewrite Hpend by done. pose proof (Hrun i Hi Hlt) as Hn.
    destruct (Z.lt_ge_cases (dist (h (K i)) e) (dist (h (K i)) i)) as [Hc|Hc].
    + by destruct (HP i e Hi He Hn Hc).
    + destruct (decide (dist (h (K i)) i = dist (h (K i)) e)) as [E|]; [|lia].
      apply dist_inj in E; [|exact (Hh (K i))|done|done]. congruence.
  - intros i j Hi Hj Hn Hnp Hlt. destruct (HKne i Hi Hn) as [Hii Ei]. rewrite Ei in *.
    pose proof (HP i j Hi Hj Hn Hlt) as Hj0. rewrite HK' by done.
    destruct (Z.eqb_spec j idx) as [->|]; [|done].
    exfalso. eapply (HP i e Hi He Hn); [|done]. eapply dist_pass_next; [exact (Hh (K i))| | | |exact Hlt| | |]; done || congruence.
Qed.

(** Inserting the key [k] of the slot [cur] again, at the first empty slot [n] from its hash. *)
Lemma rehash_step K K' cur e n :
  rehash_ok K cur e → slot cur → cur ≠ e → slot n →
  (K n = 0 ∨ n = cur) →
  (∀ j, slot j → dist (h (K cur)) j < dist (h (K cur)) n → K j ≠ 0 ∧ j ≠ cur) →
  (∀ j, slot j → K' j = if j =? n then K cur else if j =? cur then 0 else K j) →
  rehash_ok K' (nexti cur) e ∧ n ≠ e.
Proof using HA Hh.
  intros [[He He0] HI HR HW HP] Hc Hce Hn Hn0 Hfirst HK'.
  set (k := K cur) in *.
  assert (Hcc : dist cur cur < dist cur e).
  { rewrite dist_self. destruct (decide (dist cur e = 0)) as [E|]; [by apply dist_0 in E|].
    pose proof (dist_range cur e Hc He). lia. }
  assert (Hk : k ≠ 0) by (by apply HR).
  assert (Hwc : dist (h k) cur < dist (h k) e) by (by apply HW).
  assert (Hnc : dist (h k) n ≤ dist (h k) cur).
  { destruct (Z.le_gt_cases (dist (h k) n) (dist (h k) cur)) as [|Hgt]; [done|].
    destruct (Hfirst cur Hc ltac:(lia)). done. }
  assert (Hne : n ≠ e) by (intros ->; lia).
  assert (Hpend : ∀ i, slot i → dist (nexti cur) i < dist (nexti cur) e →
    dist cur i < dist cur e ∧ i ≠ cur ∧ i ≠ n ∧ K' i = K i).
  { intros i Hi Hlt. assert (i ≠ cur).
    { intros ->. rewrite dist_next_self in Hlt by done.
      pose proof (dist_range (nexti cur) e (nexti_slot _ Hc) He). lia. }
    rewrite !dist_next in Hlt by (done || congruence). assert (Hlt' : dist cur i < dist cur e) by lia.
    assert (i ≠ n) by (intros ->; destruct Hn0; [by destruct (HR n Hn Hlt')|done]).
    split_and!; [done..|]. rewrite HK' by done.
    destruct (Z.eqb_spec i n), (Z.eqb_spec i cur); done. }
  assert (Hcase : ∀ i, slot i → K' i ≠ 0 → (i = n ∧ K' i = k) ∨ (i ≠ n ∧ i ≠ cur ∧ K' i = K i)).
  { intros i Hi. rewrite HK' by done. destruct (Z.eqb_spec i n), (Z.eqb_spec i cur); auto. done. }
  split; [split|done].
  - split; [done|]. rewrite HK' by done. destruct (Z.eqb_spec e n), (Z.eqb_spec e cur); congruence.
  - intros i j Hi Hj E Hni. destruct (Hcase i Hi Hni) as [[-> Ei]|(Hin & Hic & Ei)];
      rewrite E in Hni; destruct (Hcase j Hj Hni) as [[-> Ej]|(Hjn & Hjc & Ej)]; [done|..].
    + destruct Hjc. apply HI; [done..| |]; fold k; congruence.
    + destruct Hic. apply HI; [done..| |]; fold k; congruence.
    + apply HI; [done..| |]; congruence.
  - intros i Hi Hlt. destruct (Hpend i Hi Hlt) as (? & _ & _ & ->). by apply HR.
  - intros i Hi Hlt. destruct (Hpend i Hi Hlt) as (? & _ & _ & ->). by apply HW.
  - intros i j Hi Hj Hni Hnp Hlt.
    destruct (Hcase i Hi Hni) as [[-> Ei]|(Hin & Hic & Ei)]; rewrite Ei in *.
    + destruct (Hfirst j Hj Hlt) as [? ?]. rewrite HK' by done.
      destruct (Z.eqb_spec j n), (Z.eqb_spec j cur); done.
    + assert (Hold : ¬ dist cur i < dist cur e).
      { intros Hlt'. apply Hnp. rewrite !dist_next by (done || congruence). lia. }
      pose proof (HP i j Hi Hj Hni Hold Hlt). rewrite HK' by done.
      destruct (Z.eqb_spec j n); [done|]. destruct (Z.eqb_spec j cur) as [->|]; [|done].
      exfalso. eapply (HP i e Hi He Hni Hold); [|done].
      apply (dist_pass (h (K i)) cur i e); [exact (Hh (K i))|done|done|done|done|done|congruence].
Qed.

(** Putting a new key into the first empty slot from its hash. *)
Lemma table_insert K K' n k :
  table_ok K → k ≠ 0 → (∀ i, slot i → K i ≠ k) → slot n → K n = 0 →
  (∀ j, slot j → dist (h k) j < dist (h k) n → K j ≠ 0) →
  (∀ j, slot j → K' j = if j =? n then k else K j) → table_ok K'.
Proof.
  intros [HI HP] Hk Hnew Hn Hn0 Hfirst HK'. split.
  - intros i j Hi Hj. rewrite !HK' by done.
    destruct (Z.eqb_spec i n), (Z.eqb_spec j n); intros E Hne; subst; try done.
    + by destruct (Hnew j Hj).
    + by destruct (Hnew i Hi).
    + by apply HI.
  - intros i j Hi Hj. rewrite !HK' by done. destruct (Z.eqb_spec j n); [done|].
    destruct (Z.eqb_spec i n) as [->|]; [auto|]. by apply HP.
Qed.
End probing.

(** ** The map the table represents *)

Section refinement.
Context {V : Type} (kSize : Z).
Hypothesis HkSize : 0 < kSize < 64.
Implicit Types (s : hashmap V) (m : gmap Z V).

Abbreviation A := (kAdjustedSize kSize).
Abbreviation hslot := (slot A).
Abbreviation hdist := (dist A).
Abbreviation hash := (HashKey kSize).

Lemma adjusted_size : 2 * kSize ≤ A ≤ 128.
Proof using HkSize.
  assert (HF : Forall (λ k, 2 * k ≤ kAdjustedSize k ≤ 128) (seqZ 1 63)).
  { apply (bool_decide_unpack _). vm_compute. reflexivity. }
  rewrite Forall_forall in HF. apply HF, elem_of_seqZ. lia.
Qed.

Lemma A_pos : 0 < A.
Proof using HkSize. pose proof adjusted_size. lia. Qed.

Lemma hash_range k : 0 ≤ hash k < A.
Proof using HkSize. apply Z.mod_pos_bound, A_pos. Qed.

Definition K s (i : Z) : Z := keys_ s !!! Z.to_nat i.
Definition W s (i : Z) : option V := values_ s !!! Z.to_nat i.

(** The slots hold the entries of [m]. *)
Record holds s m : Prop := {
  hd_keys : Z.of_nat (length (keys_ s)) = A;
  hd_values : Z.of_nat (length (values_ s)) = A;
  hd_entry k v : m !! k = Some v ↔ k ≠ 0 ∧ ∃ i, hslot i ∧ K s i = k ∧ W s i = Some v;
  hd_value i : hslot i → K s i ≠ 0 → is_Some (W s i);
}.

Record hashmap_ok s m : Prop := {
  hm_holds : holds s m;
  hm_table : table_ok A hash (K s);
  hm_size : size_ s = Z.of_nat (base.size m);
  hm_room : size_ s ≤ kSize;
}.

(** *** Accesses *)

Lemma key_at_run s i : Z.of_nat (length (keys_ s)) = A → hslot i → key_at i s = Ok (K s i, s).
Proof.
  intros Hl Hi. unfold key_at, mbind, M_bind, getS, K. unfold slot in Hi.
  destruct (lookup_lt_is_Some_2 (keys_ s) (Z.to_nat i)) as [k Hk]; [lia|].
  by rewrite Hk, (list_lookup_total_correct _ _ _ Hk).
Qed.

Lemma value_at_run s i v :
  Z.of_nat (length (values_ s)) = A → hslot i → W s i = Some v → value_at i s = Ok (v, s).
Proof.
  intros Hl Hi Hv. unfold value_at, mbind, M_bind, getS. unfold slot in Hi. unfold W in Hv.
  destruct (lookup_lt_is_Some_2 (values_ s) (Z.to_nat i)) as [k Hk]; [lia|].
  rewrite (list_lookup_total_correct _ _ _ Hk) in Hv. by rewrite Hk, Hv.
Qed.

(** The state after one slot has been written. *)
Definition put (i k : Z) (v : option V) s : hashmap V :=
  mkHashmap (<[Z.to_nat i := k]> (keys_ s)) (<[Z.to_nat i := v]> (values_ s)) (size_ s).

Lemma K_put s i k v j :
  Z.of_nat (length (keys_ s)) = A → hslot i → hslot j → K (put i k v s) j = if j =? i then k else K s j.
Proof.
  intros Hl Hi Hj. unfold K, put, slot in *. cbn [keys_]. destruct (Z.eqb_spec j i) as [->|].
  - apply list_lookup_total_insert_eq. lia.
  - apply list_lookup_total_insert_ne. lia.
Qed.

Lemma W_put s i k v j :
  Z.of_nat (length (values_ s)) = A → hslot i → hslot j → W (put i k v s) j = if j =? i then v else W s j.
Proof.
  intros Hl Hi Hj. unfold W, put, slot in *. cbn [values_]. destruct (Z.eqb_spec j i) as [->|].
  - apply list_lookup_total_insert_eq. lia.
  - apply list_lookup_total_insert_ne. lia.
Qed.

Lemma ProbeLoop_run fuel s k p n :
  Z.of_nat (length (keys_ s)) = A → hslot p → hslot n → (K s n = k ∨ K s n = 0) →
  (∀ j, hslot j → hdist p j < hdist p n → K s j ≠ k ∧ K s j ≠ 0) →
  hdist p n < Z.of_nat fuel → ProbeLoop kSize fuel k p s = Ok (n, s).
Proof using HkSize.
  revert p. induction fuel as [|fuel IH]; intros p Hl Hp Hn Hhit Hmiss Hf.
  { pose proof (dist_range A p n Hp Hn). lia. }
  cbn [ProbeLoop]. unfold mbind, M_bind. rewrite key_at_run by done. unfold kReservedEmptyKey.
  destruct (decide (p = n)) as [->|Hne].
  - destruct Hhit as [-> | ->]; [by rewrite Z.eqb_refl|]. by rewrite Z.eqb_refl, andb_false_r.
  - assert (Hd : hdist p p < hdist p n).
    { rewrite dist_self. pose proof (dist_range A p n Hp Hn).
      destruct (decide (hdist p n = 0)) as [E|]; [by apply dist_0 in E|lia]. }
    destruct (Hmiss p Hp Hd) as [H1 H2]. rewrite (proj2 (Z.eqb_neq _ _) H1), (proj2 (Z.eqb_neq _ _) H2).
    cbn [negb andb]. rewrite (nexti_mod A A_pos) by done. pose proof (dist_next A A_pos p n Hp Hn Hne) as Hdn.
    apply IH; [done|by apply (nexti_slot A A_pos)|done|done| |lia].
    intros j Hj Hlt. apply Hmiss; [done|]. destruct (decide (p = j)) as [->|Hpj]; [done|].
    rewrite (dist_next A A_pos p j), Hdn in Hlt by done. lia.
Qed.

(** *** Looking up *)

Lemma NoDup_bound (m : gmap Z V) (l : list Z) :
  NoDup l → (∀ k, k ∈ l → is_Some (m !! k)) → (length l ≤ base.size m)%nat.
Proof.
  intros Hnd Hin. rewrite <- (size_list_to_set (C := gset Z) l Hnd), <- size_dom.
  apply subseteq_size. intros k Hk%elem_of_list_to_set. by apply elem_of_dom, Hin.
Qed.

Lemma has_empty s m : hashmap_ok s m → ∃ e, hslot e ∧ K s e = 0.
Proof using HkSize.
  intros [[Hl _ HE HV] [HI _] Hsz Hroom].
  destruct (decide (Exists (λ i, K s i = 0) (seqZ 0 A))) as [Hex|Hno].
  { apply Exists_exists in Hex as (e & He%elem_of_seqZ & ?). exists e. split; [unfold slot; lia|done]. }
  exfalso. assert (Hnz : ∀ i, hslot i → K s i ≠ 0).
  { intros i Hi E. apply Hno, Exists_exists. exists i. split; [apply elem_of_seqZ; unfold slot in Hi; lia|done]. }
  assert (HKn : ∀ i k, keys_ s !! i = Some k → hslot (Z.of_nat i) ∧ K s (Z.of_nat i) = k).
  { intros i k Hi. pose proof (lookup_lt_Some _ _ _ Hi). unfold slot, K. rewrite Nat2Z.id.
    split; [lia|by apply list_lookup_total_correct]. }
  pose proof adjusted_size.
  assert (length (keys_ s) ≤ base.size m)%nat; [|lia]. apply NoDup_bound.
  - apply NoDup_alt. intros i j k Hi Hj. destruct (HKn i k Hi) as [? Ei], (HKn j k Hj) as [? Ej].
    enough (Z.of_nat i = Z.of_nat j) by lia. apply HI; [done..|congruence|by apply Hnz].
  - intros k [i Hi]%list_elem_of_lookup. destruct (HKn i k Hi) as [Hs Ei].
    destruct (HV _ Hs (Hnz _ Hs)) as [v Hv]. exists v. apply HE. rewrite <- Ei. split; [by apply Hnz|eauto].
Qed.

(** The slot where probing for [k] stops. *)
Lemma probe_stop s m k :
  hashmap_ok s m → k ≠ 0 →
  ∃ n, hslot n ∧ ProbeLoop kSize (S (Z.to_nat A)) k (hash k) s = Ok (n, s) ∧
    (∀ j, hslot j → hdist (hash k) j < hdist (hash k) n → K s j ≠ 0) ∧
    match m !! k with
    | Some v => K s n = k ∧ W s n = Some v
    | None => K s n = 0 ∧ ∀ i, hslot i → K s i ≠ k
    end.
Proof using HkSize.
  intros OK Hk. destruct (has_empty s m OK) as (e & He & He0).
  destruct (first_slot A A_pos (λ i, K s i = k ∨ K s i = 0) (hash k) e) as (n & Hn & Hhit & _ & Hmiss);
    [apply hash_range|done|by right|].
  destruct OK as [[Hl _ HE HV] [HI HP] _ _].
  pose proof (dist_range A (hash k) n (hash_range k) Hn).
  exists n. split_and!; [done| | |].
  - apply ProbeLoop_run; [done|apply hash_range|done|done| |lia].
    intros j Hj Hlt. apply Hmiss in Hlt; [|done]. tauto.
  - intros j Hj Hlt. apply Hmiss in Hlt; [|done]. tauto.
  - destruct (m !! k) as [v|] eqn:Em.
    + apply HE in Em as (_ & i & Hi & Ei & Wi).
      assert (n = i) as ->; [|done]. destruct Hhit as [E|E]; [apply HI; [done..| |]; congruence|].
      destruct (Z.lt_trichotomy (hdist (hash k) n) (hdist (hash k) i)) as [Hc|[Hc|Hc]].
      * by destruct (HP i n Hi Hn ltac:(congruence) ltac:(by rewrite Ei)).
      * by apply (dist_inj A (hash k)) in Hc; [|apply hash_range|..].
      * destruct (Hmiss i Hi Hc). by left.
    + assert (Hnone : ∀ i, hslot i → K s i ≠ k).
      { intros i Hi E. destruct (HV i Hi ltac:(congruence)) as [v Hv].
        assert (m !! k = Some v) by (apply HE; eauto). congruence. }
      split; [|done]. destruct Hhit as [E|E]; [by destruct (Hnone n Hn)|done].
Qed.

(** *** Writing slots *)

Lemma holds_size keys values n n' m :
  holds (mkHashmap keys values n) m → holds (mkHashmap keys values n') m.
Proof. by intros [? ? ? ?]. Qed.

Lemma put_lengths s i k v m :
  holds s m → Z.of_nat (length (keys_ (put i k v s))) = A ∧ Z.of_nat (length (values_ (put i k v s))) = A.
Proof. intros [? ? _ _]. cbn. by rewrite !length_insert. Qed.

Lemma holds_put s m n k v :
  holds s m → hslot n → k ≠ 0 → (K s n = 0 ∨ K s n = k) →
  (∀ i, hslot i → i ≠ n → K s i ≠ k) → holds (put n k (Some v) s) (<[k := v]> m).
Proof.
  intros HD Hn Hk Hfree Huniq. pose proof HD as [Hl Hv HE HV].
  destruct (put_lengths s n k (Some v) m HD). split; [done|done| |].
  - intros k' v'. rewrite lookup_insert_Some, HE. split.
    + intros [[<- <-]|(Hne & Hk' & i & Hi & Ei & Wi)].
      * split; [done|]. exists n. rewrite K_put, W_put, Z.eqb_refl by done. done.
      * split; [done|]. exists i. rewrite K_put, W_put by done.
        destruct (Z.eqb_spec i n) as [->|]; [|done]. destruct Hfree; congruence.
    + intros (Hk' & i & Hi & Ei & Wi). rewrite K_put, W_put in * by done.
      destruct (Z.eqb_spec i n) as [->|Hin]; [left; simplify_eq; done|].
      right. split; [|eauto]. intros ->. by eapply (Huniq i).
  - intros i Hi. rewrite K_put, W_put by done. destruct (Z.eqb_spec i n); [done|auto].
Qed.

Lemma holds_clear s m n :
  holds s m → hslot n → K s n ≠ 0 → (∀ i, hslot i → i ≠ n → K s i ≠ K s n) →
  holds (put n 0 None s) (delete (K s n) m).
Proof.
  intros HD Hn Hk Huniq. pose proof HD as [Hl Hv HE HV].
  destruct (put_lengths s n 0 None m HD). split; [done|done| |].
  - intros k' v'. rewrite lookup_delete_Some, HE. split.
    + intros (Hne & Hk' & i & Hi & Ei & Wi). split; [done|]. exists i. rewrite K_put, W_put by done.
      destruct (Z.eqb_spec i n) as [->|]; [congruence|done].
    + intros (Hk' & i & Hi & Ei & Wi). rewrite K_put, W_put in * by done.
      destruct (Z.eqb_spec i n) as [->|Hin]; [congruence|]. split; [|eauto].
      intros E. eapply (Huniq i); [done|done|congruence].
  - intros i Hi. rewrite K_put, W_put by done. destruct (Z.eqb_spec i n); [done|auto].
Qed.

Lemma ConvertKey_run k s : k ≠ 0 → ConvertKey_ kSize k s = Ok ((hash k, k), s).
Proof. intros Hk. unfold ConvertKey_. by rewrite (proj2 (Z.eqb_neq k 0) Hk). Qed.

Lemma FindEmpty_run k s r : k ≠ 0 →
  ProbeLoop kSize (S (Z.to_nat A)) k (hash k) s = Ok r → FindEmpty_ kSize k s = Ok r.
Proof. intros Hk H. unfold FindEmpty_, mbind, M_bind. by rewrite ConvertKey_run. Qed.

(** *** The rest of a run is inserted again *)

Lemma RehashLoop_run fuel s m cur e :
  holds s m → hslot cur → rehash_ok A hash (K s) cur e → hdist cur e < Z.of_nat fuel →
  ∃ s', RehashLoop kSize fuel cur s = Ok (tt, s') ∧ holds s' m ∧ table_ok A hash (K s') ∧ size_ s' = size_ s.
Proof using HkSize.
  revert s cur. induction fuel as [|fuel IH]; intros s cur HD Hc RO Hf.
  { pose proof (dist_range A cur e Hc (proj1 (ro_end _ _ _ _ _ RO))). lia. }
  pose proof RO as [[He He0] HI HR _ _]. cbn [RehashLoop]. unfold mbind, M_bind, kReservedEmptyKey.
  rewrite key_at_run by (done || apply HD).
  destruct (decide (cur = e)) as [->|Hce].
  { rewrite He0. cbn. exists s. split_and!; [done|done| |done]. by eapply rehash_done. }
  assert (Hcc : hdist cur cur < hdist cur e).
  { rewrite dist_self. pose proof (dist_range A cur e Hc He).
    destruct (decide (hdist cur e = 0)) as [E|]; [by apply dist_0 in E|lia]. }
  pose proof (HR cur Hc Hcc) as Hk. rewrite (proj2 (Z.eqb_neq _ _) Hk). cbn [negb].
  destruct (hd_value _ _ HD cur Hc Hk) as [v Hv]. rewrite (value_at_run s cur v) by (done || apply HD).
  unfold set_value, set_key, modS. cbn [keys_ values_ size_]. fold (put cur 0 None s).
  set (k := K s cur) in *. set (s1 := put cur 0 None s).
  assert (Huniq : ∀ i, hslot i → i ≠ cur → K s i ≠ k) by (intros i Hi Hne E; apply Hne, HI; [done..|congruence]).
  assert (HD1 : holds s1 (delete k m)) by (by apply holds_clear).
  assert (HK1 : ∀ j, hslot j → K s1 j = if j =? cur then 0 else K s j).
  { intros j Hj. apply K_put; [apply HD|done..]. }
  destruct (first_slot A A_pos (λ i, K s1 i = k ∨ K s1 i = 0) (hash k) e) as (n & Hn & Hhit & _ & Hmiss);
    [apply hash_range|done|right; rewrite HK1 by done; by destruct (e =? cur)|].
  assert (Hk1 : ∀ i, hslot i → K s1 i ≠ k).
  { intros i Hi. rewrite HK1 by done. destruct (Z.eqb_spec i cur); auto. }
  assert (Hn0 : K s1 n = 0) by (destruct Hhit; [by destruct (Hk1 n)|done]).
  pose proof (dist_range A (hash k) n (hash_range k) Hn).
  rewrite (FindEmpty_run k s1 (n, s1)); [|done|].
  2:{ apply ProbeLoop_run; [apply HD1|apply hash_range|done|done| |lia].
      intros j Hj Hlt. apply Hmiss in Hlt; [|done]. tauto. }
  cbn [keys_ values_ size_]. fold (put n k (Some v) s1).
  set (s2 := put n k (Some v) s1).
  assert (HD2 : holds s2 m).
  { replace m with (<[k := v]> (delete k m)).
    - apply holds_put; [done|done|done|by left|auto].
    - rewrite insert_delete_eq. apply insert_id. apply (hd_entry _ _ HD). eauto. }
  destruct (rehash_step A hash A_pos hash_range (K s) (K s2) cur e n) as [RO2 _]; [done..| | | |].
  - rewrite HK1 in Hn0 by done. destruct (Z.eqb_spec n cur); auto.
  - intros j Hj Hlt. apply Hmiss in Hlt; [|done]. rewrite HK1 in Hlt by done.
    destruct (Z.eqb_spec j cur); [tauto|]. split; [tauto|done].
  - intros j Hj. unfold s2. rewrite K_put, HK1 by (done || apply HD1). done.
  - rewrite (nexti_mod A A_pos) by done.
    destruct (IH s2 (nexti A cur)) as (s' & H1 & H2 & H3 & H4); [done|by apply (nexti_slot A A_pos)|done| |].
    + rewrite (dist_next A A_pos cur e) by done. lia.
    + exists s'. done.
Qed.

(** *** The operations *)

Lemma hashmap_sizes s m : hashmap_ok s m → 0 ≤ size_ s ≤ 64.
Proof using HkSize. intros [_ _ -> ?]. lia. Qed.

Lemma empty_ok : hashmap_ok (empty_map kSize) (∅ : gmap Z V).
Proof using HkSize.
  pose proof A_pos as HA.
  assert (HK : ∀ i, hslot i → K (empty_map kSize) i = 0).
  { intros i Hi. unfold K, empty_map, kReservedEmptyKey. cbn [keys_].
    apply list_lookup_total_correct, lookup_replicate. unfold slot in Hi. split; [done|lia]. }
  split; [split| | |]; cbn [size_ keys_ values_ empty_map].
  - rewrite length_replicate. lia.
  - rewrite length_replicate. lia.
  - intros k v. rewrite lookup_empty. split; [done|]. intros (Hk & i & Hi & Ei & _). rewrite HK in Ei by done. done.
  - intros i Hi. by rewrite HK by done.
  - split; [intros i j Hi Hj _|intros i j Hi Hj]; by rewrite HK by done.
  - by rewrite map_size_empty.
  - lia.
Qed.

Definition added (ow : bool) (k : Z) (v : V) m : bool * gmap Z V :=
  match m !! k with
  | None => (true, <[k := v]> m)
  | Some _ => (false, if ow then <[k := v]> m else m)
  end.

Lemma Insert_run s m ow k v :
  hashmap_ok s m → k ≠ 0 → size_ s < kSize →
  ∃ s', Insert kSize ow k v s = Ok ((added ow k v m).1, s') ∧ hashmap_ok s' (added ow k v m).2.
Proof using HkSize.
  intros OK Hk Hlt. destruct (probe_stop s m k OK Hk) as (n & Hn & Hprobe & Hway & Hcase).
  pose proof OK as [HD [HI HP] Hsz Hroom]. pose proof HD as [Hl Hvl HE HV].
  pose proof (hashmap_sizes _ _ OK) as Hrange.
  unfold Insert, mbind, M_bind, getS, assertM. rewrite (proj2 (Z.ltb_lt _ _) Hlt). cbn beta iota.
  unfold mret at 1, M_ret at 1. rewrite (FindEmpty_run k s (n, s)) by done. rewrite key_at_run by done.
  unfold added. destruct (m !! k) as [v0|] eqn:Em.
  - destruct Hcase as [Ek Wv]. rewrite Ek, Z.eqb_refl. cbn [fst snd]. destruct ow; [|by exists s].
    unfold set_value, modS, mret, M_ret. eexists. split; [reflexivity|].
    assert (Hkeys : <[Z.to_nat n := k]> (keys_ s) = keys_ s).
    { apply list_insert_id. unfold K in Ek. unfold slot in Hn.
      destruct (lookup_lt_is_Some_2 (keys_ s) (Z.to_nat n)) as [x Hx]; [lia|].
      rewrite (list_lookup_total_correct _ _ _ Hx) in Ek. congruence. }
    rewrite <- Hkeys at 1. fold (put n k (Some v) s).
    assert (HK' : ∀ i, K (put n k (Some v) s) i = K s i) by (intros i; unfold K; cbn; by rewrite Hkeys).
    split.
    + apply holds_put; [done|done|done|by right|]. intros i Hi Hne E.
      apply Hne, HI; [done|done|congruence|congruence].
    + split; intros i j; rewrite !HK'; [apply HI|apply HP].
    + cbn. rewrite Hsz. f_equal. symmetry. apply map_size_insert_Some. by rewrite Em.
    + done.
  - destruct Hcase as [E0 Hnew]. rewrite E0. rewrite (proj2 (Z.eqb_neq 0 k)) by congruence.
    unfold set_value, set_key, set_size, modS, mret, M_ret. cbn [keys_ values_ size_ fst snd].
    rewrite wrap_u_small by (unfold in_u; lia). eexists. split; [reflexivity|].
    set (s1 := put n k (Some v) s).
    change (mkHashmap _ _ _) with (mkHashmap (keys_ s1) (values_ s1) (size_ s + 1)). split.
    + eapply holds_size. apply (holds_put s m n k v); [done|done|done|by left|auto].
    + change (K (mkHashmap _ _ _)) with (K s1).
      apply (table_insert A hash (K s) (K s1) n k); [done|done|done|done|done|done|].
      intros j Hj. by apply K_put.
    + cbn. rewrite map_size_insert_None by done. lia.
    + cbn. lia.
Qed.

Lemma Emplace_Insert k v s : Emplace kSize k v s = Insert kSize false k v s.
Proof. reflexivity. Qed.

Lemma FindIndex_run s m k :
  hashmap_ok s m → k ≠ 0 →
  ∃ r, FindIndex_ kSize k s = Ok (r, s) ∧
    match m !! k with
    | Some v => ∃ n, r = Some n ∧ hslot n ∧ K s n = k ∧ W s n = Some v
    | None => r = None
    end.
Proof using HkSize.
  intros OK Hk. destruct (probe_stop s m k OK Hk) as (n & Hn & Hprobe & _ & Hcase).
  pose proof OK as [[Hl _ _ _] _ _ _]. unfold FindIndex_, mbind, M_bind.
  rewrite ConvertKey_run by done. cbn [fst snd]. rewrite Hprobe, key_at_run by done.
  unfold kReservedEmptyKey. eexists. split; [reflexivity|].
  destruct (m !! k) as [v|]; destruct Hcase as [E ?].
  - rewrite E, (proj2 (Z.eqb_neq k 0) Hk). eauto.
  - by rewrite E.
Qed.

Lemma Find_run s m k : hashmap_ok s m → k ≠ 0 → Find kSize k s = Ok (m !! k, s).
Proof using HkSize.
  intros OK Hk. unfold Find, mbind, M_bind, getS. cbn beta iota.
  destruct (Z.eqb_spec (size_ s) 0) as [E|E].
  - pose proof (hm_size _ _ OK). assert (m = ∅) as -> by (apply map_size_empty_inv; lia). by rewrite lookup_empty.
  - destruct (FindIndex_run s m k OK Hk) as (r & -> & Hr). destruct (m !! k) as [v|]; [|by rewrite Hr].
    destruct Hr as (n & -> & Hn & _ & Hv). rewrite (value_at_run s n v); [done|apply OK|done..].
Qed.

Lemma HasKey_run s m k : hashmap_ok s m → k ≠ 0 → HasKey kSize k s = Ok (bool_decide (is_Some (m !! k)), s).
Proof using HkSize.
  intros OK Hk. unfold HasKey, mbind, M_bind, getS. cbn beta iota.
  destruct (Z.eqb_spec (size_ s) 0) as [E|E].
  - pose proof (hm_size _ _ OK). assert (m = ∅) as -> by (apply map_size_empty_inv; lia). by rewrite lookup_empty.
  - destruct (FindIndex_run s m k OK Hk) as (r & -> & Hr). destruct (m !! k) as [v|]; [|by rewrite Hr].
    destruct Hr as (n & -> & _). rewrite bool_decide_true by done. done.
Qed.

Lemma Remove_run s m k :
  hashmap_ok s m → k ≠ 0 →
  ∃ s', Remove kSize k s = Ok (bool_decide (is_Some (m !! k)), s') ∧ hashmap_ok s' (delete k m).
Proof using HkSize.
  intros OK Hk. unfold Remove, mbind, M_bind.
  destruct (FindIndex_run s m k OK Hk) as (r & -> & Hr). destruct (m !! k) as [v|] eqn:Em.
  2:{ subst r. exists s. split; [done|]. by rewrite delete_id by done. }
  destruct Hr as (idx & -> & Hs & Ek & Wv). destruct (has_empty s m OK) as (e0 & He0 & Ee0).
  pose proof OK as [HD TO Hsz Hroom]. pose proof (hashmap_sizes _ _ OK).
  assert (base.size m ≠ 0%nat) by (intros E; apply map_size_empty_inv in E; by subst).
  unfold kReservedEmptyKey, set_key, set_size, set_value, modS. cbn [keys_ values_ size_].
  rewrite wrap_u_small by (unfold in_u; lia).
  set (s1 := put idx 0 None s).
  change (mkHashmap _ _ _) with (mkHashmap (keys_ s1) (values_ s1) (size_ s - 1)).
  set (s2 := mkHashmap (keys_ s1) (values_ s1) (size_ s - 1)).
  assert (HD2 : holds s2 (delete k m)).
  { eapply holds_size. rewrite <- Ek. apply holds_clear; [done|done|congruence|].
    intros i Hi Hne E. apply Hne. destruct TO as [HI _]. apply HI; [done..| |]; congruence. }
  destruct (first_slot A A_pos (λ i, K s i = 0) (nexti A idx) e0) as (e & He & Ee & _ & Hrun);
    [by apply (nexti_slot A A_pos)|done|done|].
  assert (RO : rehash_ok A hash (K s2) (nexti A idx) e).
  { apply (table_remove A hash A_pos hash_range (K s)); [done|done|congruence|done|done|done|].
    intros j Hj. apply (K_put s idx 0 None); [apply HD|done..]. }
  rewrite (nexti_mod A A_pos) by done.
  pose proof (dist_range A (nexti A idx) e (nexti_slot A A_pos idx Hs) He).
  destruct (RehashLoop_run (S (Z.to_nat A)) s2 (delete k m) (nexti A idx) e) as (s' & -> & HD' & TO' & Hsz');
    [done|by apply (nexti_slot A A_pos)|done|lia|].
  exists s'. split; [done|]. split; [done|done| |]; rewrite Hsz'; cbn.
  - rewrite map_size_delete_Some by (by rewrite Em). lia.
  - lia.
Qed.
End refinement.

(** ** The hash map implements the interface *)

Inductive map_op (V : Type) : Type :=
| OpInsert (kOverwrite : bool) (k : Z) (v : V)
| OpEmplace (k : Z) (v : V)
| OpRemove (k : Z)
| OpFind (k : Z)
| OpHasKey (k : Z)
| OpSize.
Arguments OpInsert {V} _ _ _.
Arguments OpEmplace {V} _ _.
Arguments OpRemove {V} _.
Arguments OpFind {V} _.
Arguments OpHasKey {V} _.
Arguments OpSize {V}.

Inductive map_out (V : Type) : Type :=
| OutBool (b : bool)
| OutValue (v : option V)
| OutSize (n : Z).
Arguments OutBool {V} _.
Arguments OutValue {V} _.
Arguments OutSize {V} _.

Definition run_op {V} (kSize : Z) (op : map_op V) : M (hashmap V) (map_out V) :=
  match op with
  | OpInsert ow k v => b ← Insert kSize ow k v; mret (OutBool b)
  | OpEmplace k v => b ← Emplace kSize k v; mret (OutBool b)
  | OpRemove k => b ← Remove kSize k; mret (OutBool b)
  | OpFind k => v ← Find kSize k; mret (OutValue v)
  | OpHasKey k => b ← HasKey kSize k; mret (OutBool b)
  | OpSize => n ← Size; mret (OutSize n)
  end.

Definition spec_op {V} (kSize : Z) (op : map_op V) : M (gmap Z V) (map_out V) :=
  match op with
  | OpInsert ow k v => b ← spec_insert kSize ow k v; mret (OutBool b)
  | OpEmplace k v => b ← spec_insert kSize false k v; mret (OutBool b)
  | OpRemove k => b ← spec_remove k; mret (OutBool b)
  | OpFind k => v ← spec_find k; mret (OutValue v)
  | OpHasKey k => b ← spec_has_key k; mret (OutBool b)
  | OpSize => n ← spec_size; mret (OutSize n)
  end.

#[export] Instance hashmap_ops {V} (kSize : Z) : MapOps (hashmap V) V := {|
  map_new := empty_map kSize;
  map_insert := Insert kSize;
  map_emplace := Emplace kSize;
  map_remove := Remove kSize;
  map_find := Find kSize;
  map_has_key := HasKey kSize;
  map_size := Size;
|}.

Section laws.
Context {V : Type} (kSize : Z).
Hypothesis HkSize : 0 < kSize < 64.
Abbreviation ok := (hashmap_ok (V := V) kSize).

Lemma Insert_sim ow k v : sim ok (Insert kSize ow k v) (spec_insert kSize ow k v).
Proof using HkSize.
  intros s m OK. unfold spec_insert, key_check, mbind, M_bind, getS. rewrite <- (hm_size _ _ _ OK).
  destruct (Z.ltb_spec (size_ s) kSize) as [Hlt|Hge]; cbn.
  2:{ unfold Insert, mbind, M_bind, getS. by rewrite (proj2 (Z.ltb_ge _ _) Hge). }
  destruct (Z.eqb_spec k 0) as [->|Hk]; cbn.
  { unfold Insert, mbind, M_bind, getS. by rewrite (proj2 (Z.ltb_lt _ _) Hlt). }
  destruct (Insert_run kSize HkSize s m ow k v OK Hk Hlt) as (s' & -> & OK').
  unfold added in *. destruct (m !! k); [by destruct ow|done].
Qed.

Lemma Remove_sim k : sim ok (Remove kSize k) (spec_remove k).
Proof using HkSize.
  intros s m OK. unfold spec_remove, key_check, mbind, M_bind.
  destruct (Z.eqb_spec k 0) as [->|Hk]; [done|].
  destruct (Remove_run kSize HkSize s m k OK Hk) as (s' & -> & OK'). done.
Qed.

Lemma empty_size s m : ok s m → (size_ s =? 0) = (base.size m =? 0)%nat.
Proof. intros [_ _ -> _]. destruct (Z.eqb_spec (Z.of_nat (base.size m)) 0), (Nat.eqb_spec (base.size m) 0); lia || done. Qed.

Lemma Find_sim k : sim ok (Find kSize k) (spec_find k).
Proof using HkSize.
  intros s m OK. unfold spec_find, key_check, mbind, M_bind, getS. rewrite <- (empty_size s m OK).
  destruct (Z.eqb_spec k 0) as [->|Hk].
  - unfold Find, mbind, M_bind, getS. by destruct (size_ s =? 0).
  - rewrite (Find_run kSize HkSize s m k OK Hk). rewrite (empty_size s m OK).
    destruct (Nat.eqb_spec (base.size m) 0) as [->%map_size_empty_inv|]; done.
Qed.

Lemma HasKey_sim k : sim ok (HasKey kSize k) (spec_has_key k).
Proof using HkSize.
  intros s m OK. unfold spec_has_key, spec_find, key_check, mbind, M_bind, getS. rewrite <- (empty_size s m OK).
  destruct (Z.eqb_spec k 0) as [->|Hk].
  - unfold HasKey, mbind, M_bind, getS. by destruct (size_ s =? 0).
  - rewrite (HasKey_run kSize HkSize s m k OK Hk). rewrite (empty_size s m OK).
    destruct (Nat.eqb_spec (base.size m) 0) as [->%map_size_empty_inv|]; [done|cbn].
    by destruct (m !! k).
Qed.

Lemma Size_sim : sim ok Size spec_size.
Proof. intros s m OK. split; [exact (hm_size _ _ _ OK)|exact OK]. Qed.

Lemma hashmap_laws : MapLaws (hashmap V) V (hashmap_ops kSize) kSize ok.
Proof using HkSize.
  split; cbn.
  - lia.
  - by apply empty_ok.
  - intros s m [_ _ <- ?]. done.
  - intros s m OK. apply eq_None_not_Some. intros [v [? _]%(hd_entry _ _ _ (hm_holds _ _ _ OK))]. done.
  - apply Insert_sim.
  - intros k v s m OK. rewrite Emplace_Insert. by apply Insert_sim.
  - apply Remove_sim.
  - apply Find_sim.
  - apply HasKey_sim.
  - apply Size_sim.
Qed.

Lemma run_op_sim op : sim ok (run_op kSize op) (spec_op kSize op).
Proof using HkSize.
  destruct op; (apply sim_bind; [|intros; apply sim_ret]).
  - apply Insert_sim.
  - intros s m OK. rewrite Emplace_Insert. by apply Insert_sim.
  - apply Remove_sim.
  - apply Find_sim.
  - apply HasKey_sim.
  - apply Size_sim.
Qed.
End laws.

(** C33. Any sequence of [Insert], [Emplace], [Remove], [Find], [HasKey] and [Size] on a new hash
    map of capacity 1 to 63 gives the results of the same operations on a finite map, and fails
    exactly where those do and with the same message (capacity reached, or the key zero): linear
    probing and the closing of the gap after a removal lose no entry, make up none and always
    end. *)
Theorem hashmap_refines_map {V} (kSize : Z) (ops : list (map_op V)) :
  0 < kSize < 64 →
  match runs (run_op kSize) ops (empty_map kSize), runs (spec_op kSize) ops ∅ with
  | Ok (outs, s), Ok (outs', m) => outs = outs' ∧ hashmap_ok kSize s m
  | Stop e, Stop e' => e = e'
  | _, _ => False
  end.
Proof.
  intros HkSize. apply (sim_runs (hashmap_ok kSize) (run_op kSize) (spec_op kSize)).
  - intros op. by apply run_op_sim.
  - by apply empty_ok.
Qed.

Definition example_ops : list (map_op Z) :=
  [OpInsert false 5 50; OpInsert false 13 130; OpEmplace 21 210; OpRemove 5; OpFind 13;
   OpInsert true 13 131; OpHasKey 21; OpFind 13; OpFind 5; OpSize].

Lemma hashmap_refines_map_witness :
  0 < 4 < 64 ∧
  match runs (run_op 4) example_ops (empty_map 4) with
  | Ok (outs, s) => outs = [OutBool true; OutBool true; OutBool true; OutBool true; OutValue (Some 130);
      OutBool false; OutBool true; OutValue (Some 131); OutValue None; OutSize 2]
      ∧ hashmap_ok 4 s {[13 := 131; 21 := 210]}
  | Stop _ => False
  end.
Proof.
  assert (H4 : 0 < 4 < 64) by lia. split; [exact H4|].
  pose proof (hashmap_refines_map 4 example_ops H4) as H.
  vm_compute in H |- *. destruct H as [_ H]. split; [reflexivity|exact H].
Defined.
