(* ===== verification/Registry.v ===== *)
(** * Registries of devices

    Models [Registry] of libs/libcontainers/include/data_structures/hash_maps.hpp, from which the
    clock and event clock registries of kernel/src/hardware are made: a hash map of entries, a
    vector of their keys in the order of registration, and a copy of the selected entry.  The
    theorems hold for every map that keeps the promises of MapSpec.v. *)
From S2P Require Import Prelude.
From S2P Require Import MapSpec.
From S2P Require Import HashMap.

Record registry (S T : Type) : Type := mkRegistry {
  entries_ : S;
  key_vector_ : list Z;
  active_ : option T;     (* None: not initialised *)
  is_active_ : bool;
}.
Arguments mkRegistry {S T} _ _ _ _.
Arguments entries_ {S T} _.
Arguments key_vector_ {S T} _.
Arguments active_ {S T} _.
Arguments is_active_ {S T} _.

(** The field [id] of the base class [RegistryEntry]. *)
Class RegistryEntry (T : Type) : Type := entry_id : T → Z.

Section registry.
Context {S T : Type} {OPS : MapOps S T} {ENTRY : RegistryEntry T} (kSize : Z).

Abbreviation RM := (M (registry S T)).

Definition new_registry : registry S T := mkRegistry map_new [] None false.

Definition entries {A} : M S A → RM A :=
  zoom entries_ (λ e r, mkRegistry e (key_vector_ r) (active_ r) (is_active_ r)).

(** [ArrayStaticStack::PushMem_] and [Push] on the vector of [u64] keys; [top_] is its size in
    bytes. *)
Definition Push (key : Z) : RM unit :=
  r ← getS;
  let top_ := u64 (8 * Z.of_nat (length (key_vector_ r)) + 8) in
  assertM (top_ <=? 8 * kSize) "Stack overflow!";;
  putS (mkRegistry (entries_ r) (key_vector_ r ++ [key]) (active_ r) (is_active_ r)).

Definition Register (entry : T) : RM unit :=
  result ← entries (map_insert false (entry_id entry) entry);
  assertM result "Tried to register item twice with id";;
  Push (entry_id entry).

Definition RegisterEmplace (id : Z) (entry : T) : RM unit :=
  let id_u64 := u64 id in
  result ← entries (map_emplace id_u64 entry);
  assertM result "Tried to register item twice with id";;
  Push id_u64.

Definition IsSelectedPicked : RM bool := r ← getS; mret (is_active_ r).

Definition HasKey (key : Z) : RM bool := entries (map_has_key (u64 key)).

Definition GetSelected : RM T :=
  picked ← IsSelectedPicked;
  assertM picked "Tried to get active item, but no active item is set!";;
  r ← getS;
  match active_ r with Some t => mret t | None => stopM BadAccess end.

Definition SwitchSelected (key : Z) : RM unit :=
  let key_u64 := u64 key in
  has ← entries (map_has_key key_u64);
  assertM has "Tried to set active item with non-existing key";;
  v ← entries (map_find key_u64);
  match v with
  | None => stopM BadAccess
  | Some t => modS (λ r, mkRegistry (entries_ r) (key_vector_ r) (Some t) true)
  end.

(** [operator[]]: the entry behind the pointer. *)
Definition at_key (key : Z) : RM T :=
  v ← entries (map_find key);
  match v with None => stopM BadAccess | Some t => mret t end.

Definition Size : RM Z := entries map_size.
End registry.

(** ** What a registry is: the entries in the order of their registration, and a selected one *)

Record reg_spec (T : Type) : Type := mkSpec {
  listed : list (Z * T);
  selected : option T;
}.
Arguments mkSpec {T} _ _.
Arguments listed {T} _.
Arguments selected {T} _.

Section spec.
Context {T : Type} (kSize : Z).
Abbreviation SP := (M (reg_spec T)).

Definition entry_of (k : Z) (l : list (Z * T)) : option T := (list_to_map l : gmap Z T) !! k.

Definition spec_key (k : Z) : SP unit :=
  assertM (negb (k =? 0)) "Zero key is not allowed in FastMinimalStaticHashmap".

Definition spec_register (k : Z) (t : T) : SP unit :=
  s ← getS;
  assertM (Z.of_nat (length (listed s)) <? kSize) "Hashmap overflow attempted";;
  spec_key k;;
  assertM (match entry_of k (listed s) with None => true | Some _ => false end)
    "Tried to register item twice with id";;
  putS (mkSpec (listed s ++ [(k, t)]) (selected s)).

Definition spec_lookup (k : Z) : SP (option T) :=
  s ← getS;
  if (length (listed s) =? 0)%nat then mret None else spec_key k;; mret (entry_of k (listed s)).

Definition spec_has (k : Z) : SP bool :=
  v ← spec_lookup k; mret (match v with None => false | Some _ => true end).

Definition spec_count : SP Z := s ← getS; mret (Z.of_nat (length (listed s))).

Definition spec_switch (k : Z) : SP unit :=
  v ← spec_lookup k;
  match v with
  | None => stopM (Panic "Tried to set active item with non-existing key")
  | Some t => modS (λ s, mkSpec (listed s) (Some t))
  end.

Definition spec_selected : SP T :=
  s ← getS;
  match selected s with
  | None => stopM (Panic "Tried to get active item, but no active item is set!")
  | Some t => mret t
  end.
End spec.

Inductive reg_op (T : Type) : Type :=
| RgRegister (t : T)
| RgEmplace (id : Z) (t : T)
| RgHasKey (id : Z)
| RgSwitch (id : Z)
| RgSelected
| RgSize.
Arguments RgRegister {T} _.
Arguments RgEmplace {T} _ _.
Arguments RgHasKey {T} _.
Arguments RgSwitch {T} _.
Arguments RgSelected {T}.
Arguments RgSize {T}.

Inductive reg_out (T : Type) : Type :=
| RoUnit
| RoBool (b : bool)
| RoEntry (t : T)
| RoSize (n : Z).
Arguments RoUnit {T}.
Arguments RoBool {T} _.
Arguments RoEntry {T} _.
Arguments RoSize {T} _.

Definition run_reg {S T} {OPS : MapOps S T} {ENTRY : RegistryEntry T} (kSize : Z) (op : reg_op T) : M (registry S T) (reg_out T) :=
  match op with
  | RgRegister t => Register kSize t;; mret RoUnit
  | RgEmplace id t => RegisterEmplace kSize id t;; mret RoUnit
  | RgHasKey id => b ← HasKey id; mret (RoBool b)
  | RgSwitch id => SwitchSelected id;; mret RoUnit
  | RgSelected => t ← GetSelected; mret (RoEntry t)
  | RgSize => n ← Size; mret (RoSize n)
  end.

Definition spec_reg {T} {ENTRY : RegistryEntry T} (kSize : Z) (op : reg_op T) : M (reg_spec T) (reg_out T) :=
  match op with
  | RgRegister t => spec_register kSize (entry_id t) t;; mret RoUnit
  | RgEmplace id t => spec_register kSize (u64 id) t;; mret RoUnit
  | RgHasKey id => b ← spec_has (u64 id); mret (RoBool b)
  | RgSwitch id => spec_switch (u64 id);; mret RoUnit
  | RgSelected => t ← spec_selected; mret (RoEntry t)
  | RgSize => n ← spec_count; mret (RoSize n)
  end.

(** ** The registry implements its specification *)

Section refinement.
Context {S T : Type} {OPS : MapOps S T} {ENTRY : RegistryEntry T} (kSize : Z) (rep : S → gmap Z T → Prop).
Context (LAWS : MapLaws S T OPS kSize rep).
Hypothesis HkSize : kSize < 64.
Implicit Types (r : registry S T) (sp : reg_spec T).

Record reg_rel r sp : Prop := {
  rr_entries : rep (entries_ r) (list_to_map (listed sp));
  rr_keys : key_vector_ r = (listed sp).*1;
  rr_nodup : NoDup (listed sp).*1;
  rr_active : is_active_ r = match selected sp with Some _ => true | None => false end;
  rr_selected t : selected sp = Some t → active_ r = Some t;
}.

Lemma listed_size r sp : reg_rel r sp → base.size (list_to_map (listed sp) : gmap Z T) = length (listed sp).
Proof.
  intros RR. rewrite <- (size_dom (D := gset Z)), dom_list_to_map_L, size_list_to_set by apply RR.
  apply length_fmap.
Qed.

Lemma new_rel : reg_rel new_registry (mkSpec [] None).
Proof using LAWS. split; [apply (law_new (MapLaws := LAWS))|done|apply NoDup_nil_2|done|done]. Qed.

(** An operation on the entries that changes no entry. *)
Lemma entries_sim {A} (op : M S A) (spec : M (gmap Z T) A) (sspec : M (reg_spec T) A) :
  sim rep op spec →
  (∀ sp, base.size (list_to_map (listed sp) : gmap Z T) = length (listed sp) →
     match spec (list_to_map (listed sp)), sspec sp with
     | Ok (a, m), Ok (b, sp') => a = b ∧ m = list_to_map (listed sp) ∧ sp' = sp
     | Stop e, Stop e' => e = e'
     | _, _ => False
     end) →
  sim reg_rel (entries op) sspec.
Proof.
  intros Hsim Hspec r sp RR. specialize (Hspec sp (listed_size _ _ RR)).
  specialize (Hsim _ _ (rr_entries _ _ RR)). unfold entries, zoom.
  destruct (op (entries_ r)) as [[a s']|e], (spec _) as [[b m]|e']; try done;
    destruct (sspec sp) as [[c sp']|e'']; try done.
  - destruct Hsim as [-> Hrep], Hspec as (-> & -> & ->). split; [done|]. by destruct RR.
  - congruence.
Qed.

Lemma Register_sim op k t :
  sim rep op (spec_insert kSize false k t) →
  sim reg_rel (result ← entries op; assertM result "Tried to register item twice with id";; Push kSize k)
    (spec_register kSize k t).
Proof using LAWS HkSize.
  intros Hsim r sp RR. pose proof (listed_size _ _ RR) as Hsz.
  specialize (Hsim _ _ (rr_entries _ _ RR)).
  unfold spec_register, spec_key, spec_insert, key_check, entries, zoom, mbind, M_bind, getS in *.
  rewrite Hsz in Hsim. unfold entry_of.
  destruct (Z.ltb_spec (Z.of_nat (length (listed sp))) kSize) as [Hlt|Hge]; cbn in *.
  2:{ destruct (op (entries_ r)) as [[? ?]|]; done. }
  destruct (Z.eqb_spec k 0) as [->|Hk]; cbn in *; [destruct (op (entries_ r)) as [[? ?]|]; done|].
  set (m := list_to_map (listed sp) : gmap Z T) in *.
  destruct (m !! k) as [t0|] eqn:Em; cbn in *.
  - destruct (op (entries_ r)) as [[? ?]|]; [|done]. by destruct Hsim as [-> _].
  - destruct (op (entries_ r)) as [[? s']|]; [|done]. destruct Hsim as [-> Hrep]. cbn.
    unfold Push, mbind, M_bind, getS. cbn. rewrite (rr_keys _ _ RR), length_fmap.
    rewrite wrap_u_small by (unfold in_u; lia). rewrite (proj2 (Z.leb_le _ _)) by lia. cbn.
    apply not_elem_of_list_to_map in Em. split; [done|]. split; cbn.
    + by rewrite list_to_map_snoc.
    + by rewrite fmap_app.
    + rewrite fmap_app. apply NoDup_app. split_and!; [apply RR| |apply NoDup_singleton].
      cbn. intros x Hx ->%list_elem_of_singleton. done.
    + apply RR.
    + apply RR.
Qed.

Lemma lookup_sim k : sim reg_rel (entries (map_find k)) (spec_lookup k).
Proof using LAWS.
  eapply entries_sim; [apply (law_find (MapLaws := LAWS))|]. intros sp Hsz.
  unfold spec_find, spec_lookup, spec_key, key_check, mbind, M_bind, getS. rewrite Hsz.
  destruct (length (listed sp) =? 0)%nat; [done|]. destruct (k =? 0); done.
Qed.

Lemma has_key_sim k : sim reg_rel (entries (map_has_key k)) (spec_has k).
Proof using LAWS.
  eapply entries_sim; [apply (law_has_key (MapLaws := LAWS))|]. intros sp Hsz.
  unfold spec_has_key, spec_find, spec_has, spec_lookup, spec_key, key_check, mbind, M_bind, getS. rewrite Hsz.
  destruct (length (listed sp) =? 0)%nat; [done|]. destruct (k =? 0); done.
Qed.

Lemma lookup_twice k sp :
  match spec_lookup k sp with Ok (v, sp') => sp' = sp ∧ spec_lookup k sp' = Ok (v, sp') | Stop _ => True end.
Proof.
  unfold spec_lookup, spec_key, mbind, M_bind, getS.
  destruct (length (listed sp) =? 0)%nat eqn:E; cbn; [by rewrite E|].
  destruct (k =? 0); cbn; [done|by rewrite E].
Qed.

Lemma switch_sim key : sim reg_rel (SwitchSelected key) (spec_switch (u64 key)).
Proof using LAWS.
  intros r sp RR. unfold SwitchSelected, spec_switch. set (k := u64 key).
  pose proof (has_key_sim k r sp RR) as H1. pose proof (lookup_twice k sp) as H2.
  unfold spec_has, mbind, M_bind in *. destruct (spec_lookup k sp) as [[v sp']|e].
  2:{ destruct (entries (map_has_key k) r) as [[? ?]|]; done. }
  destruct H2 as [-> H2]. destruct (entries (map_has_key k) r) as [[b r']|]; [|done].
  cbn in H1. destruct H1 as [-> RR']. destruct v as [t|]; cbn; [|done].
  pose proof (lookup_sim k r' sp RR') as H3. rewrite H2 in H3.
  destruct (entries (map_find k) r') as [[w r'']|]; [|done]. destruct H3 as [-> RR''].
  split; [done|]. destruct RR''. split; cbn; done || congruence.
Qed.

Lemma run_reg_sim op : sim reg_rel (run_reg kSize op) (spec_reg kSize op).
Proof using LAWS HkSize.
  destruct op.
  - apply sim_bind; [|intros; apply sim_ret]. apply Register_sim, (law_insert (MapLaws := LAWS)).
  - apply sim_bind; [|intros; apply sim_ret]. apply Register_sim, (law_emplace (MapLaws := LAWS)).
  - apply sim_bind; [apply has_key_sim|intros; apply sim_ret].
  - apply sim_bind; [apply switch_sim|intros; apply sim_ret].
  - intros r sp RR. cbn. unfold GetSelected, IsSelectedPicked, spec_selected, mbind, M_bind, getS. cbn.
    rewrite (rr_active _ _ RR). destruct (selected sp) as [t|] eqn:E; cbn; [|done].
    by rewrite (rr_selected _ _ RR t E).
  - apply sim_bind; [|intros; apply sim_ret].
    eapply entries_sim; [apply (law_size (MapLaws := LAWS))|]. intros sp Hsz.
    unfold spec_size, spec_count, mbind, M_bind, getS. by rewrite Hsz.
Qed.
End refinement.

(** A registry is the list of its entries in the order of their registration: any sequence of
    registrations, membership tests, selections and reads of the selected entry gives the results
    of the same operations on a list of entries with distinct keys and a selected entry, and
    stops at the same point with the same message (capacity reached, key zero, key registered
    twice, nothing selected); the vector of keys never overflows and lists the keys of the map.
    This holds on every map with the promises of the interface. *)
Theorem registry_refines_list {S T} (OPS : MapOps S T) (ENTRY : RegistryEntry T) kSize rep (ops : list (reg_op T)) :
  MapLaws S T OPS kSize rep → kSize < 64 →
  match runs (run_reg kSize) ops new_registry, runs (spec_reg kSize) ops (mkSpec [] None) with
  | Ok (outs, r), Ok (outs', sp) =>
      outs = outs' ∧ key_vector_ r = (listed sp).*1 ∧ NoDup (key_vector_ r)
      ∧ rep (entries_ r) (list_to_map (listed sp))
  | Stop e, Stop e' => e = e'
  | _, _ => False
  end.
Proof.
  intros LAWS Hk.
  pose proof (sim_runs (reg_rel rep) (run_reg kSize) (spec_reg kSize) ops
    (run_reg_sim kSize rep LAWS Hk) new_registry (mkSpec [] None) (new_rel kSize rep LAWS)) as H.
  destruct (runs _ _ new_registry) as [[outs r]|], (runs _ _ (mkSpec [] None)) as [[outs' sp]|]; try done.
  destruct H as [-> [? Hkeys Hnd _ _]]. rewrite Hkeys. done.
Qed.

Definition device_ops : list (reg_op (Z * Z)) :=
  [RgRegister (3, 30); RgEmplace 11 (11, 110); RgHasKey 3; RgSwitch 11; RgSelected; RgSize].

Lemma registry_refines_list_witness :
  MapLaws (hashmap (Z * Z)) (Z * Z) (hashmap_ops 8) 8 (hashmap_ok 8) ∧ 8 < 64 ∧
  match runs (run_reg (OPS := hashmap_ops 8) (ENTRY := fst) 8) device_ops
      (new_registry (OPS := hashmap_ops 8)) with
  | Ok (outs, r) =>
      outs = [RoUnit; RoUnit; RoBool true; RoUnit; RoEntry (11, 110); RoSize 2]
      ∧ NoDup (key_vector_ r) ∧ key_vector_ r = [3; 11]
  | Stop _ => False
  end.
Proof.
  assert (H8 : 0 < 8 < 64) by lia. pose proof (hashmap_laws (V := Z * Z) 8 H8) as LAWS.
  split; [exact LAWS|]. split; [lia|].
  pose proof (registry_refines_list (hashmap_ops 8) fst 8 (hashmap_ok 8) device_ops LAWS ltac:(lia)) as H.
  vm_compute in H |- *. destruct H as (_ & _ & H & _). split; [reflexivity|]. split; [exact H|reflexivity].
Defined.
