(* ===== verification/LinkedList.v ===== *)
(** * Doubly linked lists with an allocator

    Models [LinkedList<T, AllocatorT, true>] of
    libs/libcontainers/include/data_structures/linked_list.hpp with the allocator functors of
    libs/libcontainers/include/allocators/custom_allocator_wrapper.hpp.  The heap holds the nodes
    of one list; the kernel allocator behind [KMalloc] is the parameter [pick], which gives an
    address that is not in use, or none. *)
From S2P Require Import Prelude.
From S2P Require Import Dll.

Record node (T : Type) : Type := mkNode {
  data : T;
  prev : option Z;
  next : option Z;
}.
Arguments mkNode {T} _ _ _.
Arguments data {T} _.
Arguments prev {T} _.
Arguments next {T} _.

Record linked_list (T : Type) : Type := mkLinkedList {
  heap : gmap Z (node T);
  head_ : option Z;
  tail_ : option Z;
  size_ : Z;
  destroyed : list Z;    (* the nodes whose destructor ran, in order *)
}.
Arguments mkLinkedList {T} _ _ _ _ _.
Arguments heap {T} _.
Arguments head_ {T} _.
Arguments tail_ {T} _.
Arguments size_ {T} _.
Arguments destroyed {T} _.

(** The allocator gives addresses that are not in use. *)
Class Picks (pick : gset Z → option Z) : Prop := pick_fresh X a : pick X = Some a → a ∉ X.

Section linked_list.
Context {T : Type} (pick : gset Z → option Z).
Implicit Types s : linked_list T.

Abbreviation LM := (M (linked_list T)).

Definition new_list : linked_list T := mkLinkedList ∅ None None 0 [].

Definition with_heap (h : gmap Z (node T)) s : linked_list T :=
  mkLinkedList h (head_ s) (tail_ s) (size_ s) (destroyed s).
Definition set_prev (p : option Z) (n : node T) : node T := mkNode (data n) p (next n).
Definition set_next (p : option Z) (n : node T) : node T := mkNode (data n) (prev n) p.

Definition load (p : option Z) : LM (node T) :=
  s ← getS;
  match p with
  | None => stopM BadAccess
  | Some a => match heap s !! a with Some n => mret n | None => stopM BadAccess end
  end.

Definition store (p : option Z) (f : node T → node T) : LM unit :=
  load p;;
  match p with None => mret tt | Some a => modS (λ s, with_heap (alter f a (heap s)) s) end.

Definition set_head (p : option Z) : LM unit :=
  modS (λ s, mkLinkedList (heap s) p (tail_ s) (size_ s) (destroyed s)).
Definition set_tail (p : option Z) : LM unit :=
  modS (λ s, mkLinkedList (heap s) (head_ s) p (size_ s) (destroyed s)).
Definition set_size (f : Z → Z) : LM unit :=
  modS (λ s, mkLinkedList (heap s) (head_ s) (tail_ s) (u64 (f (size_ s))) (destroyed s)).

Definition is_null (p : option Z) : bool := match p with None => true | Some _ => false end.

(** [KMallocAllocate]: memory for a node, and its constructor. *)
Definition AllocateNode (value : T) : LM (option Z) :=
  s ← getS;
  match pick (dom (heap s)) with
  | None => mret None
  | Some a => putS (with_heap (<[a := mkNode value None None]> (heap s)) s);; mret (Some a)
  end.

Definition destructor (p : option Z) : LM unit :=
  load p;;
  match p with
  | None => mret tt
  | Some a => modS (λ s, mkLinkedList (heap s) (head_ s) (tail_ s) (size_ s) (destroyed s ++ [a]))
  end.

(** [KMallocDeallocate]: the destructor, and the memory is given back. *)
Definition Deallocate (p : option Z) : LM unit :=
  match p with
  | None => mret tt
  | Some a => destructor p;; modS (λ s, with_heap (delete a (heap s)) s)
  end.

Definition DeallocateNode (p : option Z) : LM unit :=
  if is_null p then mret tt else destructor p;; Deallocate p.

Definition EmplaceFront (value : T) : LM (option Z) :=
  node ← AllocateNode value;
  if is_null node then mret None
  else
    store node (set_prev None);;
    s ← getS;
    store node (set_next (head_ s));;
    (if negb (is_null (head_ s)) then store (head_ s) (set_prev node) else mret tt);;
    set_head node;;
    s ← getS;
    (if is_null (tail_ s) then set_tail node else mret tt);;
    set_size (λ n, n + 1);;
    mret node.

Definition PushBack (value : T) : LM (option Z) :=
  node ← AllocateNode value;
  if is_null node then mret None
  else
    s ← getS;
    store node (set_prev (tail_ s));;
    store node (set_next None);;
    (if negb (is_null (tail_ s)) then store (tail_ s) (set_next node) else mret tt);;
    set_tail node;;
    s ← getS;
    (if is_null (head_ s) then set_head node else mret tt);;
    set_size (λ n, n + 1);;
    mret node.

Definition EmplaceAfter (after : option Z) (value : T) : LM (option Z) :=
  if is_null after then mret None
  else
    node ← AllocateNode value;
    if is_null node then mret None
    else
      an ← load after;
      store node (set_next (next an));;
      store node (set_prev after);;
      an ← load after;
      (if negb (is_null (next an)) then store (next an) (set_prev node) else set_tail node);;
      store after (set_next node);;
      set_size (λ n, n + 1);;
      mret node.

Definition PopFront : LM unit :=
  s ← getS;
  if is_null (head_ s) then mret tt
  else
    let node := head_ s in
    n ← load (head_ s);
    set_head (next n);;
    (if negb (is_null (next n)) then store (next n) (set_prev None) else set_tail None);;
    DeallocateNode node;;
    set_size (λ n, n - 1).

Definition PopBack : LM unit :=
  s ← getS;
  if is_null (tail_ s) then mret tt
  else
    let node := tail_ s in
    n ← load (tail_ s);
    set_tail (prev n);;
    (if negb (is_null (prev n)) then store (prev n) (set_next None) else set_head None);;
    DeallocateNode node;;
    set_size (λ n, n - 1).

Definition Remove (node : option Z) : LM unit :=
  if is_null node then mret tt
  else
    n ← load node;
    (if negb (is_null (prev n)) then store (prev n) (set_next (next n)) else set_head (next n));;
    n ← load node;
    (if negb (is_null (next n)) then store (next n) (set_prev (prev n)) else set_tail (prev n));;
    DeallocateNode node;;
    set_size (λ n, n - 1).

Definition MoveToFront (node : option Z) : LM unit :=
  s ← getS;
  if is_null node || bool_decide (node = head_ s) then mret tt
  else
    n ← load node;
    (if negb (is_null (prev n)) then store (prev n) (set_next (next n)) else mret tt);;
    n ← load node;
    (if negb (is_null (next n)) then store (next n) (set_prev (prev n)) else set_tail (prev n));;
    store node (set_prev None);;
    s ← getS;
    store node (set_next (head_ s));;
    (if negb (is_null (head_ s)) then store (head_ s) (set_prev node) else mret tt);;
    set_head node;;
    s ← getS;
    if is_null (tail_ s) then set_tail node else mret tt.

Definition MoveToBack (node : option Z) : LM unit :=
  s ← getS;
  if is_null node || bool_decide (node = tail_ s) then mret tt
  else
    n ← load node;
    (if negb (is_null (prev n)) then store (prev n) (set_next (next n)) else set_head (next n));;
    n ← load node;
    (if negb (is_null (next n)) then store (next n) (set_prev (prev n)) else mret tt);;
    s ← getS;
    store node (set_prev (tail_ s));;
    store node (set_next None);;
    (if negb (is_null (tail_ s)) then store (tail_ s) (set_next node) else mret tt);;
    set_tail node;;
    s ← getS;
    if is_null (head_ s) then set_head node else mret tt.

Fixpoint ClearLoop (fuel : nat) (node : option Z) : LM unit :=
  match fuel with
  | O => stopM NoFuel
  | S fuel =>
      if negb (is_null node) then
        n ← load node;
        DeallocateNode node;;
        ClearLoop fuel (next n)
      else mret tt
  end.

Definition Clear : LM unit :=
  s ← getS;
  ClearLoop (S (base.size (heap s))) (head_ s);;
  set_head None;;
  set_tail None;;
  set_size (λ _, 0).

Definition Size : LM Z := s ← getS; mret (size_ s).
Definition Empty : LM bool := s ← getS; mret (size_ s =? 0).
Definition Front : LM T := s ← getS; n ← load (head_ s); mret (data n).
Definition Back : LM T := s ← getS; n ← load (tail_ s); mret (data n).
Definition GetHead : LM (option Z) := s ← getS; mret (head_ s).
Definition GetTail : LM (option Z) := s ← getS; mret (tail_ s).
End linked_list.

(** ** What a list is: its elements with the addresses of their nodes *)

Record list_spec (T : Type) : Type := mkListSpec {
  nodes : list (Z * T);
  dropped : list Z;
}.
Arguments mkListSpec {T} _ _.
Arguments nodes {T} _.
Arguments dropped {T} _.

(** The elements before the node at an address, its own, and those after it. *)
Fixpoint break_at {T} (a : Z) (l : list (Z * T)) : option (list (Z * T) * T * list (Z * T)) :=
  match l with
  | [] => None
  | (b, t) :: l =>
      if a =? b then Some ([], t, l)
      else match break_at a l with None => None | Some (l1, x, l2) => Some ((b, t) :: l1, x, l2) end
  end.

Lemma break_at_Some {T} a (l l1 l2 : list (Z * T)) t : break_at a l = Some (l1, t, l2) → l = l1 ++ (a, t) :: l2.
Proof.
  revert l1. induction l as [|[b x] l IH]; intros l1; cbn; [done|]. destruct (Z.eqb_spec a b) as [->|].
  - by intros [= <- <- <-].
  - destruct (break_at a l) as [[[m1 y] m2]|]; [|done]. intros [= <- <- <-]. cbn. f_equal. by apply IH.
Qed.

Section spec.
Context {T : Type} (pick : gset Z → option Z).
Abbreviation SP := (M (list_spec T)).

(** The element at an address goes where [f] puts it. *)
Definition spec_at (p : option Z) (f : list (Z * T) → Z * T → list (Z * T) → list_spec T → list_spec T) : SP unit :=
  s ← getS;
  match p with
  | None => mret tt
  | Some a =>
      match break_at a (nodes s) with
      | None => stopM BadAccess
      | Some (l1, t, l2) => putS (f l1 (a, t) l2 s)
      end
  end.

Definition spec_new (f : Z → list (Z * T) → list (Z * T)) : SP (option Z) :=
  s ← getS;
  match pick (list_to_set (nodes s).*1) with
  | None => mret None
  | Some a => putS (mkListSpec (f a (nodes s)) (dropped s));; mret (Some a)
  end.

Definition spec_emplace_front (v : T) : SP (option Z) := spec_new (λ a l, (a, v) :: l).
Definition spec_push_back (v : T) : SP (option Z) := spec_new (λ a l, l ++ [(a, v)]).

Definition spec_emplace_after (p : option Z) (v : T) : SP (option Z) :=
  s ← getS;
  match p with
  | None => mret None
  | Some b =>
      match break_at b (nodes s) with
      | None => stopM BadAccess
      | Some (l1, t, l2) => spec_new (λ a _, l1 ++ (b, t) :: (a, v) :: l2)
      end
  end.

(** The node is taken out; its destructor runs twice. *)
Definition spec_remove (p : option Z) : SP unit :=
  spec_at p (λ l1 x l2 s, mkListSpec (l1 ++ l2) (dropped s ++ [x.1; x.1])).
Definition spec_pop_front : SP unit := s ← getS; spec_remove (first Some (nodes s).*1 None).
Definition spec_pop_back : SP unit := s ← getS; spec_remove (final Some None (nodes s).*1).
Definition spec_to_front (p : option Z) : SP unit :=
  spec_at p (λ l1 x l2 s, mkListSpec (x :: l1 ++ l2) (dropped s)).
Definition spec_to_back (p : option Z) : SP unit :=
  spec_at p (λ l1 x l2 s, mkListSpec (l1 ++ l2 ++ [x]) (dropped s)).
Definition spec_clear : SP unit :=
  modS (λ s, mkListSpec [] (dropped s ++ mjoin ((λ a, [a; a]) <$> (nodes s).*1))).
Definition spec_front : SP T :=
  s ← getS; match nodes s with [] => stopM BadAccess | (_, t) :: _ => mret t end.
Definition spec_back : SP T :=
  s ← getS; match last (nodes s) with None => stopM BadAccess | Some (_, t) => mret t end.
Definition spec_length : SP Z := s ← getS; mret (u64 (Z.of_nat (length (nodes s)))).
End spec.

(** ** The list represents its elements *)

#[export] Instance node_links {T} : LinkLaws (@next T) prev set_next set_prev.
Proof. by split. Qed.

Section refinement.
Context {T : Type} (pick : gset Z → option Z) (PICKS : Picks pick).
Implicit Types (s : linked_list T) (l : list (Z * T)) (h : gmap Z (node T)).

Abbreviation nchain := (chain (@next T) prev).
Abbreviation nupd := (upd (N := node T)).
Abbreviation lfirst l := (first Some (l.*1) None).
Abbreviation lfinal l := (final Some None (l.*1)).

Record list_ok s l : Prop := {
  lo_chain : nchain (heap s) l.*1;
  lo_nodup : NoDup l.*1;
  lo_data : data <$> heap s = list_to_map l;
  lo_head : head_ s = lfirst l;
  lo_tail : tail_ s = lfinal l;
  lo_size : size_ s = u64 (Z.of_nat (length l));
}.

Definition list_rel s (t : list_spec T) : Prop := list_ok s (nodes t) ∧ destroyed s = dropped t.

Lemma wp_list_load E a n s (Q : node T → linked_list T → Prop) :
  heap s !! a = Some n → Q n s → wp E (load (Some a)) Q s.
Proof. intros Ha HQ. unfold load. wp_simp. rewrite Ha. by rewrite wp_ret. Qed.

Lemma wp_list_store E a f s (Q : unit → linked_list T → Prop) :
  is_Some (heap s !! a) → Q tt (with_heap (alter f a (heap s)) s) → wp E (store (Some a) f) Q s.
Proof. intros [n Hn] HQ. unfold store. wp_simp. by apply (wp_list_load _ a n). Qed.

(** A store through a pointer that may be null, with another action for null. *)
Lemma wp_store_or E o f m s (Q : unit → linked_list T → Prop) :
  (∀ a, o = Some a → is_Some (heap s !! a)) →
  match o with
  | Some _ => Q tt (with_heap (nupd f o (heap s)) s)
  | None => wp E m Q s
  end → wp E (if negb (is_null o) then store o f else m) Q s.
Proof. intros Ho HQ. destruct o as [a|]; cbn; [|done]. apply wp_list_store; [by apply Ho|done]. Qed.

Lemma wp_store_opt E o f s (Q : unit → linked_list T → Prop) :
  (∀ a, o = Some a → is_Some (heap s !! a)) → Q tt (with_heap (nupd f o (heap s)) s) →
  wp E (if negb (is_null o) then store o f else mret tt) Q s.
Proof. intros Ho HQ. apply wp_store_or; [done|]. destruct o; [done|]. rewrite wp_ret. by destruct s. Qed.

Lemma data_upd f o h : (∀ n, data (f n) = data n) → data <$> nupd f o h = data <$> h.
Proof.
  intros Hf. destruct o as [a|]; [|done]. apply map_eq. intros b. cbn. rewrite !lookup_fmap.
  destruct (decide (a = b)) as [->|]; [|by rewrite lookup_alter_ne].
  rewrite lookup_alter_eq. destruct (h !! b); cbn; [by rewrite Hf|done].
Qed.

Lemma data_alter f a h : (∀ n, data (f n) = data n) → data <$> alter f a h = data <$> h.
Proof. apply (data_upd f (Some a)). Qed.

Lemma list_dom s l : list_ok s l → dom (heap s) = list_to_set l.*1.
Proof. intros OK. rewrite <- (dom_fmap_L data), (lo_data _ _ OK). apply dom_list_to_map_L. Qed.

Lemma list_addr s l a : list_ok s l → is_Some (heap s !! a) ↔ a ∈ l.*1.
Proof.
  intros OK. rewrite <- (elem_of_dom (D := gset Z)), (list_dom _ _ OK). apply elem_of_list_to_set.
Qed.

Lemma list_value s l a n t : list_ok s l → heap s !! a = Some n → (a, t) ∈ l → data n = t.
Proof.
  intros OK Hn Hin. pose proof (elem_of_list_to_map_1 (M := gmap Z) l a t (lo_nodup _ _ OK) Hin) as H.
  rewrite <- (lo_data _ _ OK), lookup_fmap, Hn in H. by injection H.
Qed.

Lemma new_list_rel : list_rel new_list (mkListSpec [] []).
Proof. split; [split|]; done || apply NoDup_nil_2. Qed.

Lemma is_Some_upd f o h b : is_Some (nupd f o h !! b) ↔ is_Some (h !! b).
Proof.
  destruct o as [a|]; [|done]. cbn. destruct (decide (a = b)) as [->|].
  - rewrite lookup_alter_eq. apply fmap_is_Some.
  - by rewrite lookup_alter_ne.
Qed.

Lemma is_Some_alter f a h b : is_Some (alter f a h !! b) ↔ is_Some (h !! b).
Proof. apply (is_Some_upd f (Some a)). Qed.

Lemma head_addr s l a : list_ok s l → lfirst l = Some a → is_Some (heap s !! a).
Proof. intros OK Ha%cfirst_in. by apply (list_addr s l). Qed.

Lemma tail_addr s l a : list_ok s l → lfinal l = Some a → is_Some (heap s !! a).
Proof. intros OK Ha%cfinal_in. by apply (list_addr s l). Qed.

(** Links of a node that is not in the list yet. *)
Lemma chain_own f a h ks : a ∉ ks → nchain h ks → nchain (alter f a h) ks.
Proof. apply seg_alter_notin. Qed.

Lemma front_chain h ks a n :
  NoDup (a :: ks) → nchain h ks → h !! a = Some n →
  nchain (nupd (set_prev (Some a)) (first Some ks None)
    (alter (set_next (first Some ks None)) a (alter (set_prev None) a h))) (a :: ks).
Proof.
  intros Hnd Hc Hn. pose proof Hnd as [Ha _]%NoDup_cons.
  eapply (chain_insert next prev set_next set_prev node_links _ [] a ks); [done| | | |].
  - by do 2 (apply chain_own; [done|]).
  - by rewrite !lookup_alter_eq, Hn.
  - done.
  - done.
Qed.

Lemma back_chain h ks a n :
  NoDup (ks ++ [a]) → nchain h ks → h !! a = Some n →
  nchain (nupd (set_next (Some a)) (final Some None ks)
    (alter (set_next None) a (alter (set_prev (final Some None ks)) a h))) (ks ++ [a]).
Proof.
  intros Hnd Hc Hn. pose proof Hnd as (_ & Hd & _)%NoDup_app.
  assert (Ha : a ∉ ks) by (intros Hin; eapply Hd; [exact Hin|left]).
  set (h0 := alter (set_next None) a _).
  eapply (chain_insert next prev set_next set_prev node_links h0 ks a []); [done| | | |]; unfold h0.
  - rewrite app_nil_r. by do 2 (apply chain_own; [done|]).
  - by rewrite !lookup_alter_eq, Hn.
  - done.
  - done.
Qed.

(** The list with one more element at the front, or at the back. *)
Lemma front_ok h l a v n sz d :
  NoDup (a :: l.*1) → nchain h l.*1 → h !! a = Some n → data <$> h = <[a := v]> (list_to_map l) →
  sz = u64 (Z.of_nat (length ((a, v) :: l))) →
  list_ok (mkLinkedList (nupd (set_prev (Some a)) (lfirst l)
      (alter (set_next (lfirst l)) a (alter (set_prev None) a h)))
    (Some a) (if is_null (lfinal l) then Some a else lfinal l) sz d) ((a, v) :: l).
Proof.
  intros Hnd Hc Hn Hd Hsz. split; cbn [heap head_ tail_ size_]; [|done| |done| |done].
  - by eapply front_chain.
  - by rewrite data_upd, !data_alter by done.
  - cbn [fmap list_fmap fst]. rewrite final_cons.
    destruct l as [|x l _] using rev_ind; [done|]. rewrite fmap_app.
    cbn [fmap list_fmap]. by rewrite !final_snoc.
Qed.

Lemma back_ok h l a v n sz d :
  NoDup (l.*1 ++ [a]) → nchain h l.*1 → h !! a = Some n → data <$> h = <[a := v]> (list_to_map l) →
  sz = u64 (Z.of_nat (length ((a, v) :: l))) →
  list_ok (mkLinkedList (nupd (set_next (Some a)) (lfinal l)
      (alter (set_next None) a (alter (set_prev (lfinal l)) a h)))
    (if is_null (lfirst l) then Some a else lfirst l) (Some a) sz d) (l ++ [(a, v)]).
Proof.
  intros Hnd Hc Hn Hd Hsz. pose proof Hnd as (_ & Hdis & _)%NoDup_app.
  split; cbn [heap head_ tail_ size_]; rewrite ?fmap_app.
  - by eapply back_chain.
  - done.
  - rewrite data_upd, !data_alter by done. rewrite list_to_map_snoc; [done|].
    intros Hin. eapply Hdis; [exact Hin|left].
  - by destruct l.
  - symmetry. apply final_snoc.
  - rewrite Hsz, length_app. cbn. do 2 f_equal. lia.
Qed.

Lemma AllocateNode_wp E s l v (Q : option Z → linked_list T → Prop) :
  list_ok s l →
  match pick (list_to_set l.*1) with
  | None => Q None s
  | Some a => a ∉ l.*1 → Q (Some a) (with_heap (<[a := mkNode v None None]> (heap s)) s)
  end → wp E (AllocateNode pick v) Q s.
Proof using PICKS.
  intros OK HQ. unfold AllocateNode. wp_simp. rewrite (list_dom _ _ OK).
  destruct (pick _) as [a|] eqn:Hp; wp_simp; [|done]. apply HQ.
  intros Ha. apply PICKS in Hp. apply Hp. by apply elem_of_list_to_set.
Qed.

Lemma size_succ l x : u64 (u64 (Z.of_nat (length l)) + 1) = u64 (Z.of_nat (length (x :: l))).
Proof. unfold wrap_u. rewrite Zplus_mod_idemp_l. f_equal. cbn. lia. Qed.

Lemma size_pred l x : u64 (u64 (Z.of_nat (length (x :: l))) - 1) = u64 (Z.of_nat (length l)).
Proof. unfold wrap_u. rewrite Zminus_mod_idemp_l. f_equal. cbn. lia. Qed.

(** *** Adding elements *)

Lemma EmplaceFront_run v : refines list_rel (EmplaceFront pick v) (spec_emplace_front pick v).
Proof using PICKS.
  intros s t [OK D]. unfold spec_emplace_front, spec_new, mbind, M_bind, getS.
  destruct (pick _) as [a|] eqn:Hp; cbn; unfold EmplaceFront; rewrite wp_bind;
    apply (AllocateNode_wp _ _ _ _ _ OK); rewrite Hp; cbn [is_null]; [|done].
  intros Ha. rewrite wp_bind. set (h0 := <[a := _]> (heap s)).
  assert (H0 : h0 !! a = Some (mkNode v None None)) by apply lookup_insert_eq.
  apply wp_list_store; [eauto|]. wp_simp. apply wp_list_store; [cbn; rewrite is_Some_alter; eauto|].
  rewrite wp_bind. cbn [head_ with_heap heap]. rewrite (lo_head _ _ OK).
  apply wp_store_opt.
  { cbn. intros b Hb. rewrite !is_Some_alter. apply lookup_insert_is_Some'. right.
    by apply (head_addr s (nodes t)). }
  unfold set_head, set_tail, set_size. wp_simp. cbn [heap tail_ size_ destroyed with_heap head_].
  unshelve epose proof (front_ok h0 (nodes t) a v _ (u64 (size_ s + 1)) (destroyed s) _ _ H0 _ _) as Hok.
  { apply NoDup_cons. split; [done|apply OK]. }
  { apply seg_insert_notin; [done|apply OK]. }
  { unfold h0. by rewrite fmap_insert, (lo_data _ _ OK). }
  { rewrite (lo_size _ _ OK). apply size_succ. }
  rewrite (lo_tail _ _ OK). destruct (is_null (lfinal (nodes t))); wp_simp; done.
Qed.

Lemma PushBack_run v : refines list_rel (PushBack pick v) (spec_push_back pick v).
Proof using PICKS.
  intros s t [OK D]. unfold spec_push_back, spec_new, mbind, M_bind, getS.
  destruct (pick _) as [a|] eqn:Hp; cbn; unfold PushBack; rewrite wp_bind;
    apply (AllocateNode_wp _ _ _ _ _ OK); rewrite Hp; cbn [is_null]; [|done].
  intros Ha. wp_simp. set (h0 := <[a := _]> (heap s)).
  assert (H0 : h0 !! a = Some (mkNode v None None)) by apply lookup_insert_eq.
  apply wp_list_store; [eauto|]. wp_simp. apply wp_list_store; [cbn; rewrite is_Some_alter; eauto|].
  rewrite wp_bind. cbn [tail_ with_heap heap]. rewrite (lo_tail _ _ OK).
  apply wp_store_opt.
  { cbn. intros b Hb. rewrite !is_Some_alter. apply lookup_insert_is_Some'. right.
    by apply (tail_addr s (nodes t)). }
  unfold set_head, set_tail, set_size. wp_simp. cbn [heap tail_ size_ destroyed with_heap head_].
  unshelve epose proof (back_ok h0 (nodes t) a v _ (u64 (size_ s + 1)) (destroyed s) _ _ H0 _ _) as Hok.
  { apply NoDup_app. split_and!; [apply OK| |apply NoDup_singleton]. by intros x Hx ->%list_elem_of_singleton. }
  { apply seg_insert_notin; [done|apply OK]. }
  { unfold h0. by rewrite fmap_insert, (lo_data _ _ OK). }
  { rewrite (lo_size _ _ OK). apply size_succ. }
  rewrite (lo_head _ _ OK). destruct (is_null (lfirst (nodes t))); wp_simp; done.
Qed.

(** *** Taking a node out of its place *)

Section unlink.
Context (s : linked_list T) (l1 l2 : list (Z * T)) (a : Z) (x : T).
Hypothesis OK : list_ok s (l1 ++ (a, x) :: l2).

Definition unlinked : gmap Z (node T) :=
  nupd (set_prev (lfinal l1)) (lfirst l2) (nupd (set_next (lfirst l2)) (lfinal l1) (heap s)).

Lemma nodup_mid : NoDup (l1.*1 ++ a :: l2.*1).
Proof using OK. pose proof (lo_nodup _ _ OK) as H. by rewrite fmap_app in H. Qed.

Lemma mid_notin : a ∉ (l1 ++ l2).*1.
Proof using OK. rewrite fmap_app. destruct (NoDup_mid _ _ _ nodup_mid). by intros [?|?]%elem_of_app. Qed.

Lemma mid_map : data <$> heap s = <[a := x]> (list_to_map (l1 ++ l2)).
Proof using OK.
  rewrite (lo_data _ _ OK). rewrite <- list_to_map_cons. apply list_to_map_proper; [apply OK|].
  by rewrite <- Permutation_middle.
Qed.

Lemma mid_node : ∃ n, heap s !! a = Some n ∧ data n = x ∧ prev n = lfinal l1 ∧ next n = lfirst l2.
Proof using OK.
  pose proof (lo_chain _ _ OK) as Hc. rewrite fmap_app in Hc.
  destruct (chain_mid _ _ _ _ _ _ Hc) as (n & Hn & ? & ?). exists n. split_and!; [done| |done|done].
  eapply (list_value s); [exact OK|done|]. apply elem_of_app. right. left.
Qed.

Lemma mid_prev b : lfinal l1 = Some b → is_Some (heap s !! b).
Proof using OK.
  intros Hb%cfinal_in. apply (list_addr s _ b OK). rewrite fmap_app. apply elem_of_app. by left.
Qed.

Lemma mid_next b : lfirst l2 = Some b → is_Some (heap s !! b).
Proof using OK.
  intros Hb%cfirst_in. apply (list_addr s _ b OK). rewrite fmap_app. apply elem_of_app. right. by right.
Qed.

Lemma upd_other f o h : (∀ b, o = Some b → b ≠ a) → nupd f o h !! a = h !! a.
Proof. intros Ho. destruct o as [b|]; [|done]. cbn. by rewrite lookup_alter_ne by (by apply Ho). Qed.

Lemma prev_other f h : nupd f (lfinal l1) h !! a = h !! a.
Proof using OK.
  apply upd_other. intros b Hb%cfinal_in ->. apply mid_notin. rewrite fmap_app. apply elem_of_app. by left.
Qed.

Lemma next_other f h : nupd f (lfirst l2) h !! a = h !! a.
Proof using OK.
  apply upd_other. intros b Hb%cfirst_in ->. apply mid_notin. rewrite fmap_app. apply elem_of_app. by right.
Qed.

Lemma unlinked_chain : nchain unlinked (l1 ++ l2).*1.
Proof using OK.
  rewrite fmap_app. eapply (chain_remove next prev set_next set_prev node_links _ _ a); [apply nodup_mid|].
  pose proof (lo_chain _ _ OK) as H. by rewrite fmap_app in H.
Qed.

Lemma unlinked_data : data <$> unlinked = <[a := x]> (list_to_map (l1 ++ l2)).
Proof using OK. unfold unlinked. rewrite !data_upd by done. apply mid_map. Qed.

Lemma unlinked_nodup : NoDup (l1 ++ l2).*1.
Proof using OK. rewrite fmap_app. eapply NoDup_split_mid, nodup_mid. Qed.

(** The list without the node, after its memory has been given back. *)
Lemma removed_ok d :
  list_ok (mkLinkedList (delete a unlinked) (lfirst (l1 ++ l2)) (lfinal (l1 ++ l2)) (u64 (size_ s - 1)) d) (l1 ++ l2).
Proof using OK.
  split; cbn [heap head_ tail_ size_]; [|apply unlinked_nodup| |done|done|].
  - eapply seg_frame; [|apply unlinked_chain]. intros b n Hb Hn. exists n.
    rewrite lookup_delete_ne; [done|]. intros E. rewrite <- E in Hb. by apply mid_notin in Hb.
  - rewrite fmap_delete, unlinked_data. apply delete_insert_id, not_elem_of_list_to_map, mid_notin.
  - rewrite (lo_size _ _ OK), !length_app. cbn [length]. rewrite Nat.add_succ_r, <- length_app.
    apply (size_pred (l1 ++ l2) (a, x)).
Qed.

(** The head and the tail without the node. *)
Lemma head_without : (if is_null (lfinal l1) then lfirst l2 else head_ s) = lfirst (l1 ++ l2).
Proof using OK.
  rewrite (lo_head _ _ OK). clear OK. destruct l1 as [|y l]; [done|].
  cbn [fmap list_fmap app first]. rewrite final_cons. by destruct l as [|z l _] using rev_ind;
    [|rewrite fmap_app; cbn [fmap list_fmap]; rewrite final_snoc].
Qed.

Lemma tail_without : (if is_null (lfirst l2) then lfinal l1 else tail_ s) = lfinal (l1 ++ l2).
Proof using OK.
  rewrite (lo_tail _ _ OK), !fmap_app, !final_app. cbn [fmap list_fmap fst]. rewrite final_cons.
  clear OK. destruct l2 as [|y l _] using rev_ind; [done|]. rewrite fmap_app. cbn [fmap list_fmap].
  rewrite !final_snoc. by destruct l.
Qed.
End unlink.

Lemma wp_store_head E o f p s (Q : unit → linked_list T → Prop) :
  (∀ a, o = Some a → is_Some (heap s !! a)) →
  Q tt (mkLinkedList (nupd f o (heap s)) (if is_null o then p else head_ s) (tail_ s) (size_ s) (destroyed s)) →
  wp E (if negb (is_null o) then store o f else set_head p) Q s.
Proof. intros Ho HQ. apply wp_store_or; [done|]. by destruct o. Qed.

Lemma wp_store_tail E o f p s (Q : unit → linked_list T → Prop) :
  (∀ a, o = Some a → is_Some (heap s !! a)) →
  Q tt (mkLinkedList (nupd f o (heap s)) (head_ s) (if is_null o then p else tail_ s) (size_ s) (destroyed s)) →
  wp E (if negb (is_null o) then store o f else set_tail p) Q s.
Proof. intros Ho HQ. apply wp_store_or; [done|]. by destruct o. Qed.

Lemma DeallocateNode_wp E a s (Q : unit → linked_list T → Prop) :
  is_Some (heap s !! a) →
  Q tt (mkLinkedList (delete a (heap s)) (head_ s) (tail_ s) (size_ s) (destroyed s ++ [a; a])) →
  wp E (DeallocateNode (Some a)) Q s.
Proof.
  intros [n Hn] HQ. unfold DeallocateNode, Deallocate, destructor. cbn [is_null]. rewrite !wp_bind.
  apply (wp_list_load _ a n); [done|]. wp_simp. apply (wp_list_load _ a n); [done|]. wp_simp. cbn.
  by rewrite <- app_assoc.
Qed.

Lemma Remove_mid s l1 a x l2 :
  list_ok s (l1 ++ (a, x) :: l2) →
  wp never (Remove (Some a)) (λ _ s', list_ok s' (l1 ++ l2) ∧ destroyed s' = destroyed s ++ [a; a]) s.
Proof.
  intros OK. destruct (mid_node _ _ _ _ _ OK) as (n & Hn & _ & Hp & Hx).
  unfold Remove. cbn [is_null]. rewrite wp_bind. apply (wp_list_load _ a n); [done|]. rewrite Hp, Hx, wp_bind.
  apply wp_store_head; [apply (mid_prev _ _ _ _ _ OK)|]. rewrite (head_without _ _ _ _ _ OK), wp_bind.
  apply (wp_list_load _ a n); [cbn; by rewrite (prev_other _ _ _ _ _ OK)|]. rewrite Hp, Hx, wp_bind.
  apply wp_store_tail; [cbn; intros b Hb; rewrite is_Some_upd; by apply (mid_next _ _ _ _ _ OK)|].
  cbn [tail_ heap head_ size_ destroyed]. rewrite (tail_without _ _ _ _ _ OK), wp_bind.
  apply DeallocateNode_wp; [cbn; rewrite (next_other _ _ _ _ _ OK), (prev_other _ _ _ _ _ OK); eauto|].
  unfold set_size. wp_simp. split; [|done]. apply (removed_ok _ _ _ _ _ OK).
Qed.

Lemma mid_head s l1 a x l2 : list_ok s (l1 ++ (a, x) :: l2) → Some a = head_ s ↔ l1 = [].
Proof.
  intros OK. pose proof (mid_notin _ _ _ _ _ OK) as Hn. rewrite (lo_head _ _ OK).
  destruct l1 as [|[b y] l1]; [done|]. split; [|done]. intros [= ->]. destruct Hn. left.
Qed.

Lemma mid_tail s l1 a x l2 : list_ok s (l1 ++ (a, x) :: l2) → Some a = tail_ s ↔ l2 = [].
Proof.
  intros OK. pose proof (mid_notin _ _ _ _ _ OK) as Hn. rewrite (lo_tail _ _ OK).
  destruct l2 as [|[b y] l2 _] using rev_ind.
  - rewrite fmap_app. cbn [fmap list_fmap fst]. by rewrite final_snoc.
  - split; [|by destruct l2]. rewrite !fmap_app, final_app. cbn [fmap list_fmap fst].
    rewrite fmap_app. cbn [fmap list_fmap fst]. rewrite final_cons, final_snoc. intros [= ->].
    destruct Hn. rewrite !fmap_app. apply elem_of_app. right. apply elem_of_app. right. left.
Qed.

Lemma size_mid s l1 a x l2 : list_ok s (l1 ++ (a, x) :: l2) → size_ s = u64 (Z.of_nat (length ((a, x) :: l1 ++ l2))).
Proof. intros OK. rewrite (lo_size _ _ OK). by rewrite <- Permutation_middle. Qed.

Lemma MoveToFront_mid s l1 a x l2 :
  list_ok s (l1 ++ (a, x) :: l2) →
  wp never (MoveToFront (Some a)) (λ _ s', list_ok s' ((a, x) :: l1 ++ l2) ∧ destroyed s' = destroyed s) s.
Proof.
  intros OK. destruct (mid_node _ _ _ _ _ OK) as (n & Hn & _ & Hp & Hx).
  unfold MoveToFront. rewrite wp_bind, wp_get. cbn [is_null orb].
  destruct (bool_decide_reflect (Some a = head_ s)) as [->%(mid_head _ _ _ _ _ OK)|Hne]; [done|].
  assert (Hl1 : l1 ≠ []) by (intros E; by apply Hne, (mid_head _ _ _ _ _ OK)).
  rewrite wp_bind. apply (wp_list_load _ a n); [done|]. rewrite Hp, Hx, wp_bind.
  apply wp_store_opt; [apply (mid_prev _ _ _ _ _ OK)|]. rewrite wp_bind.
  apply (wp_list_load _ a n); [cbn; by rewrite (prev_other _ _ _ _ _ OK)|]. rewrite Hp, Hx, wp_bind.
  apply wp_store_tail; [cbn; intros b Hb; rewrite is_Some_upd; by apply (mid_next _ _ _ _ _ OK)|].
  cbn [tail_ heap head_ size_ destroyed with_heap]. rewrite (tail_without _ _ _ _ _ OK).
  change (nupd _ (lfirst l2) _) with (unlinked s l1 l2).
  assert (Hh : head_ s = lfirst (l1 ++ l2)) by (rewrite (lo_head _ _ OK); by destruct l1).
  assert (Hu : unlinked s l1 l2 !! a = Some n)
    by (unfold unlinked; by rewrite (next_other _ _ _ _ _ OK), (prev_other _ _ _ _ _ OK)).
  rewrite wp_bind. apply wp_list_store; [eauto|]. wp_simp. apply wp_list_store; [cbn; rewrite is_Some_alter; eauto|].
  rewrite wp_bind. cbn [head_ with_heap heap]. rewrite Hh. apply wp_store_opt.
  { cbn. intros b Hb. rewrite !is_Some_alter. unfold unlinked. rewrite !is_Some_upd.
    rewrite <- Hh, (lo_head _ _ OK) in Hb. by apply (head_addr s _ _ OK). }
  pose proof (front_ok (unlinked s l1 l2) (l1 ++ l2) a x n (size_ s) (destroyed s)
    (NoDup_cons_2 _ _ (mid_notin _ _ _ _ _ OK) (unlinked_nodup _ _ _ _ _ OK))
    (unlinked_chain _ _ _ _ _ OK) Hu (unlinked_data _ _ _ _ _ OK) (size_mid _ _ _ _ _ OK)) as Hok.
  unfold set_head, set_tail. wp_simp. cbn [heap tail_ size_ destroyed with_heap head_].
  destruct (is_null (lfinal (l1 ++ l2))); wp_simp; done.
Qed.

Lemma MoveToBack_mid s l1 a x l2 :
  list_ok s (l1 ++ (a, x) :: l2) →
  wp never (MoveToBack (Some a)) (λ _ s', list_ok s' (l1 ++ l2 ++ [(a, x)]) ∧ destroyed s' = destroyed s) s.
Proof.
  intros OK. destruct (mid_node _ _ _ _ _ OK) as (n & Hn & _ & Hp & Hx).
  unfold MoveToBack. rewrite wp_bind, wp_get. cbn [is_null orb].
  destruct (bool_decide_reflect (Some a = tail_ s)) as [->%(mid_tail _ _ _ _ _ OK)|Hne]; [done|].
  assert (Hl2 : l2 ≠ []) by (intros E; by apply Hne, (mid_tail _ _ _ _ _ OK)).
  rewrite wp_bind. apply (wp_list_load _ a n); [done|]. rewrite Hp, Hx, wp_bind.
  apply wp_store_head; [apply (mid_prev _ _ _ _ _ OK)|]. rewrite (head_without _ _ _ _ _ OK), wp_bind.
  apply (wp_list_load _ a n); [cbn; by rewrite (prev_other _ _ _ _ _ OK)|]. rewrite Hp, Hx, wp_bind.
  apply wp_store_opt; [cbn; intros b Hb; rewrite is_Some_upd; by apply (mid_next _ _ _ _ _ OK)|].
  cbn [tail_ heap head_ size_ destroyed with_heap].
  change (nupd _ (lfirst l2) _) with (unlinked s l1 l2).
  assert (Ht : tail_ s = lfinal (l1 ++ l2)).
  { rewrite <- (tail_without _ _ _ _ _ OK). by destruct l2. }
  assert (Hu : unlinked s l1 l2 !! a = Some n)
    by (unfold unlinked; by rewrite (next_other _ _ _ _ _ OK), (prev_other _ _ _ _ _ OK)).
  wp_simp. cbn [tail_ heap head_ size_ destroyed with_heap].
  apply wp_list_store; [eauto|]. wp_simp. apply wp_list_store; [cbn; rewrite is_Some_alter; eauto|].
  rewrite wp_bind. cbn [tail_ with_heap heap]. rewrite Ht. apply wp_store_opt.
  { cbn. intros b Hb. rewrite !is_Some_alter. unfold unlinked. rewrite !is_Some_upd.
    rewrite <- Ht, (lo_tail _ _ OK) in Hb. by apply (tail_addr s _ _ OK). }
  unshelve epose proof (back_ok (unlinked s l1 l2) (l1 ++ l2) a x n (size_ s) (destroyed s) _
    (unlinked_chain _ _ _ _ _ OK) Hu (unlinked_data _ _ _ _ _ OK) (size_mid _ _ _ _ _ OK)) as Hok.
  { apply NoDup_app. split_and!; [apply (unlinked_nodup _ _ _ _ _ OK)| |apply NoDup_singleton].
    intros y Hy ->%list_elem_of_singleton. by apply (mid_notin _ _ _ _ _ OK). }
  rewrite app_assoc. unfold set_head, set_tail. wp_simp. cbn [heap tail_ size_ destroyed with_heap head_].
  destruct (is_null (lfirst (l1 ++ l2))); wp_simp; done.
Qed.

Lemma PopFront_cons s a x l :
  list_ok s ((a, x) :: l) →
  wp never PopFront (λ _ s', list_ok s' l ∧ destroyed s' = destroyed s ++ [a; a]) s.
Proof.
  intros OK. pose proof OK as OK'. change ((a, x) :: l) with ([] ++ (a, x) :: l) in OK'.
  destruct (mid_node _ _ _ _ _ OK') as (n & Hn & _ & Hp & Hx).
  unfold PopFront. wp_simp. rewrite (lo_head _ _ OK). cbn [fmap list_fmap fst first is_null]. rewrite wp_bind.
  apply (wp_list_load _ a n); [done|]. rewrite Hx. unfold set_head. wp_simp.
  apply wp_store_tail; [apply (mid_next _ _ _ _ _ OK')|]. cbn [tail_ heap head_ size_ destroyed].
  rewrite wp_bind. pose proof (tail_without _ _ _ _ _ OK') as Ht. cbn [fmap list_fmap] in Ht.
  change (final Some None []) with (@None Z) in Ht. rewrite Ht.
  apply DeallocateNode_wp; [cbn; rewrite (next_other _ _ _ _ _ OK'); eauto|].
  unfold set_size. wp_simp. split; [|done]. apply (removed_ok _ _ _ _ _ OK').
Qed.

Lemma PopBack_snoc s a x l :
  list_ok s (l ++ [(a, x)]) →
  wp never PopBack (λ _ s', list_ok s' l ∧ destroyed s' = destroyed s ++ [a; a]) s.
Proof.
  intros OK. destruct (mid_node _ _ _ _ _ OK) as (n & Hn & _ & Hp & Hx).
  unfold PopBack. wp_simp. rewrite (lo_tail _ _ OK), fmap_app. cbn [fmap list_fmap fst].
  rewrite final_snoc. cbn [is_null]. rewrite wp_bind.
  apply (wp_list_load _ a n); [done|]. rewrite Hp. unfold set_tail. wp_simp.
  apply wp_store_head; [apply (mid_prev _ _ _ _ _ OK)|]. cbn [tail_ heap head_ size_ destroyed].
  rewrite wp_bind. pose proof (head_without _ _ _ _ _ OK) as Hh. rewrite app_nil_r in Hh. cbn [fmap list_fmap first] in Hh. rewrite Hh.
  apply DeallocateNode_wp; [cbn; rewrite (prev_other _ _ _ _ _ OK); eauto|].
  unfold set_size. wp_simp. split; [|done].
  pose proof (removed_ok _ _ _ _ _ OK (destroyed s ++ [a; a])) as H. by rewrite app_nil_r in H.
Qed.

Lemma EmplaceAfter_mid s l1 b y l2 v :
  list_ok s (l1 ++ (b, y) :: l2) →
  wp never (EmplaceAfter pick (Some b) v) (λ r s',
    r = pick (list_to_set (l1 ++ (b, y) :: l2).*1) ∧ destroyed s' = destroyed s ∧
    list_ok s' (match r with None => l1 ++ (b, y) :: l2 | Some a => l1 ++ (b, y) :: (a, v) :: l2 end)) s.
Proof using PICKS.
  intros OK. destruct (mid_node _ _ _ _ _ OK) as (n & Hn & _ & Hp & Hx).
  unfold EmplaceAfter. cbn [is_null]. rewrite wp_bind. apply (AllocateNode_wp _ _ _ _ _ OK).
  destruct (pick _) as [a|]; cbn [is_null]; [|by rewrite wp_ret]. intros Ha.
  set (h0 := <[a := _]> (heap s)).
  assert (H0 : h0 !! a = Some (mkNode v None None)) by apply lookup_insert_eq.
  assert (Hab : a ≠ b).
  { intros ->. apply Ha. rewrite fmap_app. apply elem_of_app. right. left. }
  assert (Hb : h0 !! b = Some n) by (unfold h0; by rewrite lookup_insert_ne).
  rewrite wp_bind. apply (wp_list_load _ b n); [done|]. rewrite Hx, wp_bind.
  apply wp_list_store; [eauto|]. rewrite wp_bind. apply wp_list_store; [cbn; rewrite is_Some_alter; eauto|].
  rewrite wp_bind. apply (wp_list_load _ b n); [cbn; by rewrite !lookup_alter_ne by done|]. rewrite Hx, wp_bind.
  apply wp_store_tail.
  { cbn. intros c Hc. rewrite !is_Some_alter. apply lookup_insert_is_Some'. right. by apply (mid_next _ _ _ _ _ OK). }
  cbn [heap tail_ size_ destroyed with_heap head_]. rewrite wp_bind.
  apply wp_list_store; [cbn; rewrite is_Some_upd, !is_Some_alter; eauto|].
  unfold set_size. wp_simp. split; [done|]. split; [done|]. cbn [heap tail_ size_ destroyed with_heap head_].
  set (h1 := alter (set_prev (Some b)) a _).
  assert (Hnd : NoDup ((l1.*1 ++ [b]) ++ a :: l2.*1)).
  { rewrite <- app_assoc. cbn [app]. rewrite (Permutation_swap a b l2.*1), <- Permutation_middle.
    rewrite fmap_app in Ha. apply NoDup_cons. split; [done|apply (nodup_mid _ _ _ _ _ OK)]. }
  split; cbn [heap head_ tail_ size_].
  - pose proof (chain_insert next prev set_next set_prev node_links h1 (l1.*1 ++ [b]) a l2.*1
      (mkNode v (Some b) (lfirst l2)) Hnd) as Hc.
    rewrite final_snoc, <- !app_assoc in Hc. cbn [app] in Hc. rewrite fmap_app. apply Hc; [|by unfold h1; rewrite !lookup_alter_eq, H0|done|done].
    unfold h1. rewrite fmap_app in Ha. do 2 (apply chain_own; [done|]). apply seg_insert_notin; [done|].
    pose proof (lo_chain _ _ OK) as H. by rewrite fmap_app in H.
  - rewrite fmap_app. by rewrite <- app_assoc in Hnd.
  - rewrite data_alter, data_upd by done. unfold h1. rewrite !data_alter by done. unfold h0.
    rewrite fmap_insert, (lo_data _ _ OK). cbn [data]. rewrite <- list_to_map_cons. apply list_to_map_proper.
    + rewrite fmap_cons. apply NoDup_cons. split; [done|apply OK].
    + rewrite (Permutation_swap (a, v) (b, y) l2). apply Permutation_middle.
  - rewrite (lo_head _ _ OK). by destruct l1.
  - rewrite (lo_tail _ _ OK), !fmap_app, !final_app. cbn [fmap list_fmap fst]. rewrite !final_cons.
    destruct l2 as [|z l _] using rev_ind; [done|]. rewrite fmap_app. cbn [fmap list_fmap].
    rewrite !final_snoc. by destruct l.
  - rewrite (lo_size _ _ OK), (size_succ _ (a, v)), !length_app. cbn [length]. do 2 f_equal. rewrite length_app. cbn. lia.
Qed.

Lemma ClearLoop_run fuel s p l :
  seg next prev Some (heap s) p l.*1 None → NoDup l.*1 → data <$> heap s = list_to_map l → (length l < fuel)%nat →
  wp never (ClearLoop fuel (lfirst l)) (λ _ s', heap s' = ∅ ∧
    destroyed s' = destroyed s ++ mjoin ((λ a, [a; a]) <$> l.*1)) s.
Proof.
  revert s p l. induction fuel as [|fuel IH]; intros s p l Hs Hnd Hd Hf; [lia|].
  destruct l as [|[a x] l]; cbn [ClearLoop fmap list_fmap first is_null negb fst].
  { rewrite wp_ret. cbn. rewrite app_nil_r. split; [|done]. by apply (fmap_empty_inv data). }
  destruct Hs as (n & Hn & _ & Hx & Hs). apply NoDup_cons in Hnd as [Ha Hnd].
  rewrite wp_bind. apply (wp_list_load _ a n); [done|]. rewrite wp_bind.
  apply DeallocateNode_wp; [eauto|]. rewrite Hx. eapply wp_mono.
  - apply (IH _ (Some a)); [| |cbn|cbn in Hf; lia]; [|done|].
    + eapply seg_frame; [|exact Hs]. intros b m Hb Hm. exists m. cbn.
      rewrite lookup_delete_ne by (intros ->; done). done.
    + rewrite fmap_delete, Hd. cbn. apply delete_insert_id, not_elem_of_list_to_map, Ha.
  - intros _ s' [-> ->]. cbn. by rewrite <- app_assoc.
Qed.

Lemma Clear_run : refines list_rel Clear (@spec_clear T).
Proof.
  intros s t [OK D]. cbn. unfold Clear. wp_simp. rewrite (lo_head _ _ OK). eapply wp_mono.
  - apply (ClearLoop_run _ _ None (nodes t)); [apply OK..|].
    rewrite <- (size_dom (D := gset Z)), (list_dom _ _ OK), size_list_to_set by apply OK. rewrite length_fmap. lia.
  - intros _ s' [Hh Hd]. unfold set_head, set_tail, set_size. wp_simp. split; [done|]. split.
    + split; cbn; [done|apply NoDup_nil_2| |done|done|done]. by rewrite Hh, fmap_empty.
    + cbn. by rewrite Hd, D.
Qed.

(** *** The operations refine their specifications *)

Lemma spec_at_refines (m : M (linked_list T) unit) a f :
  (∀ s t l1 x l2, list_ok s (l1 ++ (a, x) :: l2) → destroyed s = dropped t → nodes t = l1 ++ (a, x) :: l2 →
     wp never m (λ _ s', list_rel s' (f l1 (a, x) l2 t)) s) →
  refines list_rel m (spec_at (Some a) f).
Proof.
  intros Hm s t [OK D]. unfold spec_at, mbind, M_bind, getS.
  destruct (break_at a (nodes t)) as [[[l1 x] l2]|] eqn:Hb; [|done]. apply break_at_Some in Hb. cbn.
  rewrite Hb in OK. eapply wp_mono; [by apply (Hm s t l1 x l2)|]. by intros [] s' ?.
Qed.

Lemma list_Remove_run p : refines list_rel (Remove p) (@spec_remove T p).
Proof.
  destruct p as [a|]; [|by intros s t H]. apply spec_at_refines. intros s t l1 x l2 OK D _.
  eapply wp_mono; [eapply Remove_mid; exact OK|]. intros _ s' [OK' D']. split; [done|]. cbn. by rewrite D', D.
Qed.

Lemma MoveToFront_run p : refines list_rel (MoveToFront p) (@spec_to_front T p).
Proof.
  destruct p as [a|]; [|by intros s t H]. apply spec_at_refines. intros s t l1 x l2 OK D _.
  eapply wp_mono; [eapply MoveToFront_mid; exact OK|]. intros _ s' [OK' D']. split; [done|]. cbn. by rewrite D', D.
Qed.

Lemma MoveToBack_run p : refines list_rel (MoveToBack p) (@spec_to_back T p).
Proof.
  destruct p as [a|]; [|by intros s t H]. apply spec_at_refines. intros s t l1 x l2 OK D _.
  eapply wp_mono; [eapply MoveToBack_mid; exact OK|]. intros _ s' [OK' D']. split; [done|]. cbn. by rewrite D', D.
Qed.

Lemma break_nodup l1 a (x : T) l2 : NoDup (l1 ++ (a, x) :: l2).*1 → break_at a (l1 ++ (a, x) :: l2) = Some (l1, x, l2).
Proof.
  induction l1 as [|[b y] l1 IH]; cbn; [by rewrite Z.eqb_refl|]. intros [Hb Hnd]%NoDup_cons.
  destruct (Z.eqb_spec a b) as [->|]; [|by rewrite IH].
  destruct Hb. rewrite fmap_app. apply elem_of_app. right. left.
Qed.

Lemma PopFront_run : refines list_rel PopFront (@spec_pop_front T).
Proof.
  intros s t [OK D]. unfold spec_pop_front, spec_remove, spec_at, mbind, M_bind, getS.
  destruct (nodes t) as [|[a x] l] eqn:El.
  - cbn. unfold PopFront. wp_simp. rewrite (lo_head _ _ OK).
    split; [done|]. split; [by rewrite El|done].
  - cbn [fmap list_fmap fst first break_at]. rewrite Z.eqb_refl. cbn.
    eapply wp_mono; [eapply PopFront_cons; exact OK|]. intros [] s' [OK' D']. split; [done|]. split; [done|]. cbn.
    by rewrite D', D.
Qed.

Lemma PopBack_run : refines list_rel PopBack (@spec_pop_back T).
Proof.
  intros s t [OK D]. unfold spec_pop_back, spec_remove, spec_at, mbind, M_bind, getS.
  destruct (nodes t) as [|[a x] l _] eqn:El using rev_ind.
  - cbn. unfold PopBack. wp_simp. rewrite (lo_tail _ _ OK).
    split; [done|]. split; [by rewrite El|done].
  - rewrite fmap_app. cbn [fmap list_fmap fst]. rewrite final_snoc, break_nodup by apply OK. cbn.
    rewrite app_nil_r. eapply wp_mono; [eapply PopBack_snoc; exact OK|]. intros [] s' [OK' D']. split; [done|].
    split; [done|]. cbn. by rewrite D', D.
Qed.

Lemma EmplaceAfter_run p v : refines list_rel (EmplaceAfter pick p v) (spec_emplace_after pick p v).
Proof using PICKS.
  destruct p as [b|]; [|by intros s t H]. intros s t [OK D].
  unfold spec_emplace_after, spec_new, mbind, M_bind, getS.
  destruct (break_at b (nodes t)) as [[[l1 y] l2]|] eqn:Hb; [|done]. apply break_at_Some in Hb.
  rewrite Hb in OK. pose proof (EmplaceAfter_mid s l1 b y l2 v OK) as H. rewrite <- Hb in H.
  destruct (pick _) as [a|]; cbn; (eapply wp_mono; [exact H|]); intros r s' (-> & D' & OK'); (split; [done|]);
    split; done || by rewrite D', D.
Qed.

Lemma Front_run : refines list_rel Front (@spec_front T).
Proof.
  intros s t [OK D]. unfold spec_front, mbind, M_bind, getS. destruct (nodes t) as [|[a x] l] eqn:El; [done|].
  cbn. unfold Front. wp_simp. rewrite (lo_head _ _ OK). cbn [fmap list_fmap fst first].
  change ((a, x) :: l) with ([] ++ (a, x) :: l) in OK. destruct (mid_node _ _ _ _ _ OK) as (n & Hn & Hd & _).
  apply (wp_list_load _ a n); [done|]. rewrite wp_ret. split; [done|]. split; [by rewrite El|done].
Qed.

Lemma Back_run : refines list_rel Back (@spec_back T).
Proof.
  intros s t [OK D]. unfold spec_back, mbind, M_bind, getS.
  destruct (nodes t) as [|[a x] l _] eqn:El using rev_ind; [done|].
  rewrite last_snoc. cbn. unfold Back. wp_simp. rewrite (lo_tail _ _ OK), fmap_app. cbn [fmap list_fmap fst].
  rewrite final_snoc. destruct (mid_node _ _ _ _ _ OK) as (n & Hn & Hd & _).
  apply (wp_list_load _ a n); [done|]. rewrite wp_ret. split; [done|]. split; [by rewrite El|done].
Qed.

Lemma Size_run : refines list_rel Size (@spec_length T).
Proof. intros s t [OK D]. split; [apply OK|done]. Qed.
End refinement.

(** ** Sequences of operations *)

Inductive list_op (T : Type) : Type :=
| LoEmplaceFront (v : T)
| LoPushBack (v : T)
| LoEmplaceAfter (p : option Z) (v : T)
| LoPopFront
| LoPopBack
| LoRemove (p : option Z)
| LoToFront (p : option Z)
| LoToBack (p : option Z)
| LoClear
| LoFront
| LoBack
| LoSize.
Arguments LoEmplaceFront {T} _.
Arguments LoPushBack {T} _.
Arguments LoEmplaceAfter {T} _ _.
Arguments LoPopFront {T}.
Arguments LoPopBack {T}.
Arguments LoRemove {T} _.
Arguments LoToFront {T} _.
Arguments LoToBack {T} _.
Arguments LoClear {T}.
Arguments LoFront {T}.
Arguments LoBack {T}.
Arguments LoSize {T}.

Inductive list_out (T : Type) : Type :=
| LtUnit
| LtNode (p : option Z)
| LtValue (v : T)
| LtSize (n : Z).
Arguments LtUnit {T}.
Arguments LtNode {T} _.
Arguments LtValue {T} _.
Arguments LtSize {T} _.

Definition run_list {T} (pick : gset Z → option Z) (op : list_op T) : M (linked_list T) (list_out T) :=
  match op with
  | LoEmplaceFront v => p ← EmplaceFront pick v; mret (LtNode p)
  | LoPushBack v => p ← PushBack pick v; mret (LtNode p)
  | LoEmplaceAfter q v => p ← EmplaceAfter pick q v; mret (LtNode p)
  | LoPopFront => PopFront;; mret LtUnit
  | LoPopBack => PopBack;; mret LtUnit
  | LoRemove p => Remove p;; mret LtUnit
  | LoToFront p => MoveToFront p;; mret LtUnit
  | LoToBack p => MoveToBack p;; mret LtUnit
  | LoClear => Clear;; mret LtUnit
  | LoFront => v ← Front; mret (LtValue v)
  | LoBack => v ← Back; mret (LtValue v)
  | LoSize => n ← Size; mret (LtSize n)
  end.

Definition spec_list {T} (pick : gset Z → option Z) (op : list_op T) : M (list_spec T) (list_out T) :=
  match op with
  | LoEmplaceFront v => p ← spec_emplace_front pick v; mret (LtNode p)
  | LoPushBack v => p ← spec_push_back pick v; mret (LtNode p)
  | LoEmplaceAfter q v => p ← spec_emplace_after pick q v; mret (LtNode p)
  | LoPopFront => spec_pop_front;; mret LtUnit
  | LoPopBack => spec_pop_back;; mret LtUnit
  | LoRemove p => spec_remove p;; mret LtUnit
  | LoToFront p => spec_to_front p;; mret LtUnit
  | LoToBack p => spec_to_back p;; mret LtUnit
  | LoClear => spec_clear;; mret LtUnit
  | LoFront => v ← spec_front; mret (LtValue v)
  | LoBack => v ← spec_back; mret (LtValue v)
  | LoSize => n ← spec_length; mret (LtSize n)
  end.

Lemma run_list_refines {T} pick (op : list_op T) :
  Picks pick → refines list_rel (run_list pick op) (spec_list pick op).
Proof.
  intros PICKS. destruct op; (apply refines_bind; [|intros; apply refines_ret]).
  - by apply EmplaceFront_run.
  - by apply PushBack_run.
  - by apply EmplaceAfter_run.
  - apply PopFront_run.
  - apply PopBack_run.
  - apply list_Remove_run.
  - apply MoveToFront_run.
  - apply MoveToBack_run.
  - apply Clear_run.
  - apply Front_run.
  - apply Back_run.
  - apply Size_run.
Qed.

(** C36. A linked list is the sequence of its elements: from an empty list, any operations whose
    node pointers are null or nodes of the list run without a bad access, give the results of the
    same operations on a sequence, and leave a list that represents it (forward and backward
    links, head, tail and size), with no node lost; a node that leaves the list is destroyed
    twice, once by [DeallocateNode] and once by the allocator. *)
Theorem linked_list_refines_sequence {T} pick (ops : list (list_op T)) outs t :
  Picks pick → runs (spec_list pick) ops (mkListSpec [] []) = Ok (outs, t) →
  ∃ s, runs (run_list pick) ops new_list = Ok (outs, s) ∧ list_ok s (nodes t) ∧ destroyed s = dropped t.
Proof.
  intros PICKS Hs. pose proof (refines_runs list_rel (run_list pick) (spec_list pick) ops
    (λ op, run_list_refines pick op PICKS) new_list (mkListSpec [] []) new_list_rel) as H.
  rewrite Hs in H. apply wp_total in H as (outs' & s & Hr & -> & Hok). exists s. split; [exact Hr|exact Hok].
Qed.

(** The allocator that gives the addresses from 1 on. *)
Definition next_free (X : gset Z) : option Z := Some (set_fold Z.max 0 X + 1).

Lemma next_free_picks : Picks next_free.
Proof.
  intros X a [= <-] Hin. enough (H : ∀ x, x ∈ X → x ≤ set_fold Z.max 0 X) by (apply H in Hin; lia).
  apply (set_fold_ind_L (λ m Y, ∀ x, x ∈ Y → x ≤ m)).
  - set_solver.
  - intros y Y m Hy IH x [->%elem_of_singleton|Hx]%elem_of_union; [lia|]. apply IH in Hx. lia.
Qed.

Definition example_list_ops : list (list_op Z) :=
  [LoEmplaceFront 10; LoPushBack 20; LoEmplaceAfter (Some 1) 15; LoToFront (Some 2); LoToBack (Some 1);
   LoRemove (Some 3); LoFront; LoBack; LoPopBack; LoSize].

Lemma linked_list_refines_sequence_witness :
  Picks next_free ∧
  runs (spec_list next_free) example_list_ops (mkListSpec [] []) =
    Ok ([LtNode (Some 1); LtNode (Some 2); LtNode (Some 3); LtUnit; LtUnit; LtUnit; LtValue 20; LtValue 10;
         LtUnit; LtSize 1], mkListSpec [(2, 20)] [3; 3; 1; 1]) ∧
  ∃ s, runs (run_list next_free) example_list_ops new_list =
    Ok ([LtNode (Some 1); LtNode (Some 2); LtNode (Some 3); LtUnit; LtUnit; LtUnit; LtValue 20; LtValue 10;
         LtUnit; LtSize 1], s) ∧ list_ok s [(2, 20)] ∧ destroyed s = [3; 3; 1; 1].
Proof.
  split; [exact next_free_picks|]. split; [vm_compute; reflexivity|].
  apply (linked_list_refines_sequence next_free example_list_ops _ (mkListSpec [(2, 20)] [3; 3; 1; 1]) next_free_picks).
  vm_compute. reflexivity.
Defined.
