(* ===== verification/LruCache.v ===== *)
(** * The least recently used cache

    Models [LruCache] of libs/libcontainers/include/data_structures/lru_cache.hpp: a linked list
    of the entries, the most recently used one first, and a map from the keys to the nodes.  The
    map is a template parameter of the class: the theorems hold for every map that keeps the
    promises of MapSpec.v, and the hash map of HashMap.v, the default, is one. *)
From S2P Require Import Prelude.
From S2P Require Import Dll.
From S2P Require Import MapSpec.
From S2P Require Import HashMap.
From S2P Require Import LinkedList.

Record lru_cache (S V : Type) : Type := mkLru {
  list_ : linked_list (Z * V);
  hash_map_ : S;
}.
Arguments mkLru {S V} _ _.
Arguments list_ {S V} _.
Arguments hash_map_ {S V} _.

Section lru.
Context {S V : Type} {OPS : MapOps S Z} (pick : gset Z → option Z) (kCapacity : Z).

Abbreviation CM := (M (lru_cache S V)).

Definition new_lru : lru_cache S V := mkLru new_list map_new.

Definition on_list {A} : M (linked_list (Z * V)) A → CM A := zoom list_ (λ l c, mkLru l (hash_map_ c)).
Definition on_map {A} : M S A → CM A := zoom hash_map_ (λ h c, mkLru (list_ c) h).

Definition lru_Size : CM Z := on_list Size.
Definition lru_Empty : CM bool := on_list Empty.
Definition Contains (key : Z) : CM bool := on_map (map_has_key key).

Definition Get (key : Z) : CM (option V) :=
  node_ptr ← on_map (map_find key);
  match node_ptr with
  | None => mret None
  | Some node =>
      on_list (MoveToFront (Some node));;
      n ← on_list (load (Some node));
      mret (Some (data n).2)
  end.

(** The [const] overload. *)
Definition Get_const (key : Z) : CM (option V) :=
  node_ptr ← on_map (map_find key);
  match node_ptr with
  | None => mret None
  | Some node => n ← on_list (load (Some node)); mret (Some (data n).2)
  end.

Definition set_data (value : V) (n : node (Z * V)) : node (Z * V) :=
  mkNode ((data n).1, value) (prev n) (next n).

Definition Evict : CM unit :=
  tail ← on_list GetTail;
  if is_null tail then mret tt
  else
    n ← on_list (load tail);
    on_map (map_remove (data n).1);;
    on_list PopBack.

Definition Put (key : Z) (value : V) : CM unit :=
  node_ptr ← on_map (map_find key);
  match node_ptr with
  | Some node =>
      on_list (store (Some node) (set_data value));;
      on_list (MoveToFront (Some node))
  | None =>
      size ← on_list Size;
      (if size =? kCapacity then Evict else mret tt);;
      new_node ← on_list (EmplaceFront pick (key, value));
      if is_null new_node then mret tt
      else
        n ← on_list (load new_node);
        match new_node with
        | None => mret tt
        | Some a => on_map (map_insert false (data n).1 a);; mret tt
        end
  end.

Definition Erase (key : Z) : CM bool :=
  node_ptr ← on_map (map_find key);
  match node_ptr with
  | None => mret false
  | Some node =>
      on_map (map_remove key);;
      on_list (LinkedList.Remove (Some node));;
      mret true
  end.

Definition lru_Clear : CM unit :=
  on_list Clear;;
  modS (λ c, mkLru (list_ c) map_new).
End lru.

(** ** What a cache is: the entries in the order of their last use *)

Inductive lru_op (V : Type) : Type :=
| LGet (k : Z)
| LPeek (k : Z)
| LPut (k : Z) (v : V)
| LErase (k : Z)
| LContains (k : Z)
| LSize
| LClear.
Arguments LGet {V} _.
Arguments LPeek {V} _.
Arguments LPut {V} _ _.
Arguments LErase {V} _.
Arguments LContains {V} _.
Arguments LSize {V}.
Arguments LClear {V}.

Inductive lru_out (V : Type) : Type :=
| LvUnit
| LvValue (v : option V)
| LvBool (b : bool)
| LvSize (n : Z).
Arguments LvUnit {V}.
Arguments LvValue {V} _.
Arguments LvBool {V} _.
Arguments LvSize {V} _.

Definition run_lru {S V} {OPS : MapOps S Z} (pick : gset Z → option Z) (kCapacity : Z) (op : lru_op V)
    : M (lru_cache S V) (lru_out V) :=
  match op with
  | LGet k => v ← Get k; mret (LvValue v)
  | LPeek k => v ← Get_const k; mret (LvValue v)
  | LPut k v => Put pick kCapacity k v;; mret LvUnit
  | LErase k => b ← Erase k; mret (LvBool b)
  | LContains k => b ← Contains k; mret (LvBool b)
  | LSize => n ← lru_Size; mret (LvSize n)
  | LClear => lru_Clear;; mret LvUnit
  end.

Definition op_key {V} (op : lru_op V) : option Z :=
  match op with
  | LGet k | LPeek k | LPut k _ | LErase k | LContains k => Some k
  | LSize | LClear => None
  end.

Section spec.
Context {V : Type} (pick : gset Z → option Z) (cap : Z).
Implicit Types c : list (Z * V).

(** The allocator can fail. *)
Definition no_memory : Prop := ∃ X, pick X = None.

Inductive lru_step : lru_op V → list (Z * V) → lru_out V → list (Z * V) → Prop :=
| step_get k v c1 c2 : lru_step (LGet k) (c1 ++ (k, v) :: c2) (LvValue (Some v)) ((k, v) :: c1 ++ c2)
| step_get_miss k c : k ∉ c.*1 → lru_step (LGet k) c (LvValue None) c
| step_peek k v c : (k, v) ∈ c → lru_step (LPeek k) c (LvValue (Some v)) c
| step_peek_miss k c : k ∉ c.*1 → lru_step (LPeek k) c (LvValue None) c
| step_put k v w c1 c2 : lru_step (LPut k v) (c1 ++ (k, w) :: c2) LvUnit ((k, v) :: c1 ++ c2)
| step_put_new k v c :
    k ∉ c.*1 → Z.of_nat (length c) < cap → lru_step (LPut k v) c LvUnit ((k, v) :: c)
| step_put_evict k v c x :
    k ∉ (c ++ [x]).*1 → Z.of_nat (length (c ++ [x])) = cap →
    lru_step (LPut k v) (c ++ [x]) LvUnit ((k, v) :: c)
| step_put_fail k v c :
    k ∉ c.*1 → Z.of_nat (length c) < cap → no_memory → lru_step (LPut k v) c LvUnit c
| step_put_evict_fail k v c x :
    k ∉ (c ++ [x]).*1 → Z.of_nat (length (c ++ [x])) = cap → no_memory →
    lru_step (LPut k v) (c ++ [x]) LvUnit c
| step_erase k v c1 c2 : lru_step (LErase k) (c1 ++ (k, v) :: c2) (LvBool true) (c1 ++ c2)
| step_erase_miss k c : k ∉ c.*1 → lru_step (LErase k) c (LvBool false) c
| step_contains k c : lru_step (LContains k) c (LvBool (bool_decide (k ∈ c.*1))) c
| step_size c : lru_step LSize c (LvSize (Z.of_nat (length c))) c
| step_clear c : lru_step LClear c LvUnit [].

Inductive lru_steps : list (lru_op V) → list (Z * V) → list (lru_out V) → list (Z * V) → Prop :=
| steps_nil c : lru_steps [] c [] c
| steps_cons op ops c o c' outs c'' :
    lru_step op c o c' → lru_steps ops c' outs c'' → lru_steps (op :: ops) c (o :: outs) c''.
End spec.

(** ** The cache implements it *)

Section refinement.
Context {S V : Type} {OPS : MapOps S Z} (pick : gset Z → option Z) (cap : Z) (rep : S → gmap Z Z → Prop).
Context (LAWS : MapLaws S Z OPS cap rep) (PICKS : Picks pick).
Hypothesis Hcap : cap < 2 ^ 64.
Implicit Types (s : lru_cache S V) (c : list (Z * V)) (l : list (Z * (Z * V))).

(** The map from the keys to the nodes. *)
Definition index l : gmap Z Z := list_to_map ((λ x, (x.2.1, x.1)) <$> l).

Lemma index_keys l : ((λ x : Z * (Z * V), (x.2.1, x.1)) <$> l).*1 = l.*2.*1.
Proof. induction l as [|x l IH]; cbn; by f_equal. Qed.

Lemma index_None l k : index l !! k = None ↔ k ∉ l.*2.*1.
Proof. unfold index. rewrite <- not_elem_of_list_to_map, index_keys. done. Qed.

Lemma index_mid l1 a k v l2 :
  NoDup (l1 ++ (a, (k, v)) :: l2).*2.*1 →
  index (l1 ++ (a, (k, v)) :: l2) = <[k := a]> (index (l1 ++ l2)) ∧ index (l1 ++ l2) !! k = None.
Proof.
  intros Hnd. split.
  - unfold index. rewrite !fmap_app, fmap_cons. cbn [fst snd]. rewrite <- list_to_map_cons. apply list_to_map_proper.
    + rewrite <- index_keys, fmap_app in Hnd. exact Hnd.
    + by rewrite <- Permutation_middle.
  - apply index_None. rewrite !fmap_app in *. cbn [fmap list_fmap fst snd] in Hnd.
    destruct (NoDup_mid _ _ _ Hnd). by intros [?|?]%elem_of_app.
Qed.

Lemma index_Some l k a : NoDup l.*2.*1 → index l !! k = Some a → ∃ l1 v l2, l = l1 ++ (a, (k, v)) :: l2.
Proof.
  intros Hnd Hk%elem_of_list_to_map_2. apply list_elem_of_fmap in Hk as ([b [k' v]] & [= -> ->] & Hin).
  apply list_elem_of_split in Hin as (l1 & l2 & ->). eauto.
Qed.

Lemma index_size l : NoDup l.*2.*1 → base.size (index l) = length l.
Proof.
  intros Hnd. unfold index. rewrite <- (size_dom (D := gset Z)), dom_list_to_map_L, size_list_to_set.
  - by rewrite !length_fmap.
  - by rewrite index_keys.
Qed.

Record lru_ok s l : Prop := {
  lru_list : list_ok (list_ s) l;
  lru_map : rep (hash_map_ s) (index l);
  lru_nodup : NoDup l.*2.*1;
  lru_room : Z.of_nat (length l) ≤ cap;
}.

Definition lru_rel s c : Prop := ∃ l, lru_ok s l ∧ c = l.*2.

Lemma new_lru_rel : lru_rel new_lru [].
Proof using LAWS.
  exists []. split; [|done]. split; cbn.
  - apply (proj1 new_list_rel).
  - apply (law_new (MapLaws := LAWS)).
  - apply NoDup_nil_2.
  - pose proof (law_cap (MapLaws := LAWS)). lia.
Qed.

Lemma lru_zero s l : lru_ok s l → 0 ∉ l.*2.*1.
Proof using LAWS. intros OK. apply index_None. by apply (law_key (MapLaws := LAWS) _ _ (lru_map _ _ OK)). Qed.

Abbreviation zeroE k := (λ e : stop, e = zero_stop ∧ k = 0).

(** Looking up a key leads to its node. *)
Lemma find_entry k s l (Q : option Z → lru_cache S V → Prop) :
  lru_ok s l →
  (∀ s' l1 a v l2, lru_ok s' l → l = l1 ++ (a, (k, v)) :: l2 → list_ s' = list_ s → Q (Some a) s') →
  (∀ s', lru_ok s' l → k ∉ l.*2.*1 → list_ s' = list_ s → Q None s') →
  wp (zeroE k) (on_map (map_find k)) Q s.
Proof using LAWS.
  intros OK Hhit Hmiss. unfold on_map. rewrite wp_zoom.
  eapply (find_wp LAWS); [apply OK|done|]. intros h Hh.
  assert (OK' : lru_ok (mkLru (list_ s) h) l) by (by destruct OK; split).
  destruct (index l !! k) as [a|] eqn:E.
  - apply index_Some in E as (l1 & v & l2 & El); [|apply OK]. by eapply Hhit.
  - apply index_None in E. by apply Hmiss.
Qed.

(** A list operation that moves nodes, or changes the values, keeps the index. *)
Lemma reindexed s l l' :
  lru_ok s l → ∀ ll, list_ok ll l' →
  (λ x : Z * (Z * V), (x.2.1, x.1)) <$> l' ≡ₚ (λ x : Z * (Z * V), (x.2.1, x.1)) <$> l →
  lru_ok (mkLru ll (hash_map_ s)) l'.
Proof.
  intros [H1 H2 H3 H4] ll Hll Hp. rewrite <- index_keys in H3. split; cbn.
  - done.
  - replace (index l') with (index l); [done|]. by apply list_to_map_proper.
  - by rewrite <- index_keys, Hp.
  - apply Permutation_length in Hp. rewrite !length_fmap in Hp. lia.
Qed.

Lemma reordered s l l' :
  lru_ok s l → ∀ ll, list_ok ll l' → l' ≡ₚ l → lru_ok (mkLru ll (hash_map_ s)) l'.
Proof. intros OK ll Hll Hp. apply (reindexed s l); [done|done|by rewrite Hp]. Qed.

Lemma node_value (ll : linked_list (Z * V)) l1 a k v l2 :
  list_ok ll (l1 ++ (a, (k, v)) :: l2) → ∃ n, heap ll !! a = Some n ∧ data n = (k, v).
Proof. intros OK. destruct (mid_node _ _ _ _ _ OK) as (n & ? & ? & _). eauto. Qed.

Lemma Get_run k s c : lru_rel s c →
  wp (zeroE k) (Get k) (λ v s', ∃ c', lru_step pick cap (LGet k) c (LvValue v) c' ∧ lru_rel s' c') s.
Proof using LAWS.
  intros (l & OK & ->). unfold Get. rewrite wp_bind. apply (find_entry k s l _ OK).
  - intros s' l1 a v l2 OK' -> _. unfold on_list. rewrite wp_bind, wp_zoom.
    eapply wp_weaken; [eapply wp_mono; [apply (MoveToFront_mid _ l1 a (k, v) l2), OK'|]|done].
    intros _ ll [Hll _]. rewrite wp_bind, wp_zoom.
    destruct (node_value ll [] a k v (l1 ++ l2) Hll) as (n & Hn & Hd).
    apply (wp_list_load _ a n); [done|]. rewrite wp_ret, Hd. cbn [snd].
    exists ((k, v) :: l1.*2 ++ l2.*2). split; [rewrite fmap_app; apply step_get|].
    exists ((a, (k, v)) :: l1 ++ l2). split; [|by cbn; rewrite fmap_app].
    apply (reordered s' _ _ OK'); [exact Hll|apply Permutation_middle].
  - intros s' OK' Hk _. rewrite wp_ret. exists l.*2. split; [by apply step_get_miss|]. by exists l.
Qed.

Lemma Get_const_run k s c : lru_rel s c →
  wp (zeroE k) (Get_const k) (λ v s', ∃ c', lru_step pick cap (LPeek k) c (LvValue v) c' ∧ lru_rel s' c') s.
Proof using LAWS.
  intros (l & OK & ->). unfold Get_const. rewrite wp_bind. apply (find_entry k s l _ OK).
  - intros s' l1 a v l2 OK' -> _. unfold on_list. rewrite wp_bind, wp_zoom.
    destruct (node_value (list_ s') l1 a k v l2 (lru_list _ _ OK')) as (n & Hn & Hd).
    apply (wp_list_load _ a n); [done|]. rewrite wp_ret, Hd. cbn [snd].
    eexists. split; [apply step_peek|].
    + rewrite fmap_app. apply elem_of_app. right. left.
    + eexists. split; [|reflexivity]. by destruct s'.
  - intros s' OK' Hk _. rewrite wp_ret. exists l.*2. split; [by apply step_peek_miss|]. by exists l.
Qed.

(** Taking the entry of a key out of the map. *)
Lemma without s l1 a k v l2 h ll :
  lru_ok s (l1 ++ (a, (k, v)) :: l2) → rep h (delete k (index (l1 ++ (a, (k, v)) :: l2))) →
  list_ok ll (l1 ++ l2) → lru_ok (mkLru ll h) (l1 ++ l2) ∧ Z.of_nat (length (l1 ++ l2)) < cap.
Proof.
  intros OK Hh Hll. pose proof (lru_room _ _ OK) as Hr. rewrite length_app in Hr. cbn in Hr.
  assert (Hlt : Z.of_nat (length (l1 ++ l2)) < cap) by (rewrite length_app; lia). split; [|done].
  destruct (index_mid l1 a k v l2 (lru_nodup _ _ OK)) as [E Hn]. split; cbn.
  - done.
  - by rewrite E, delete_insert_id in Hh by done.
  - pose proof (lru_nodup _ _ OK) as H. rewrite !fmap_app in *. eapply NoDup_split_mid, H.
  - lia.
Qed.

Lemma Erase_run k s c : lru_rel s c →
  wp (zeroE k) (Erase k) (λ b s', ∃ c', lru_step pick cap (LErase k) c (LvBool b) c' ∧ lru_rel s' c') s.
Proof using LAWS.
  intros (l & OK & ->). unfold Erase. rewrite wp_bind. apply (find_entry k s l _ OK).
  - intros s' l1 a v l2 OK' -> _. unfold on_list, on_map. rewrite wp_bind, wp_zoom.
    assert (Hk : k ≠ 0).
    { intros ->. destruct (lru_zero _ _ OK). rewrite !fmap_app. apply elem_of_app. right. left. }
    eapply (remove_wp LAWS); [apply OK'|done|]. intros b h Hh. rewrite wp_bind, wp_zoom.
    eapply wp_weaken; [eapply wp_mono; [apply (Remove_mid _ l1 a (k, v) l2), OK'|]|done].
    intros _ ll [Hll _]. rewrite wp_ret. cbn.
    exists (l1.*2 ++ l2.*2). split; [rewrite fmap_app; apply step_erase|].
    exists (l1 ++ l2). split; [|by rewrite fmap_app]. by eapply without.
  - intros s' OK' Hk _. rewrite wp_ret. exists l.*2. split; [by apply step_erase_miss|]. by exists l.
Qed.

Lemma set_data_ok (ll : linked_list (Z * V)) l1 a k w v l2 :
  list_ok ll (l1 ++ (a, (k, w)) :: l2) →
  list_ok (with_heap (alter (set_data v) a (heap ll)) ll) (l1 ++ (a, (k, v)) :: l2).
Proof.
  intros OK. destruct (node_value ll l1 a k w l2 OK) as (n & Hn & Hd).
  assert (E : ∀ x, (l1 ++ (a, x) :: l2).*1 = (l1 ++ (a, (k, w)) :: l2).*1) by (intros x; by rewrite !fmap_app).
  pose proof OK as [Hc Hnd _ Hh Ht Hs]. split; cbn [heap with_heap head_ tail_ size_]; rewrite ?(E (k, v)); try done.
  - by apply seg_alter_links.
  - rewrite (list_to_map_proper (l1 ++ (a, (k, v)) :: l2) ((a, (k, v)) :: l1 ++ l2));
      [|by rewrite E|by rewrite <- Permutation_middle].
    assert (E2 : data <$> alter (set_data v) a (heap ll) = <[a := (k, v)]> (data <$> heap ll)).
    { apply map_eq. intros b. rewrite lookup_fmap. destruct (decide (a = b)) as [<-|].
      - rewrite lookup_alter_eq, lookup_insert_eq, Hn. cbn. by rewrite Hd.
      - by rewrite lookup_alter_ne, lookup_insert_ne, lookup_fmap by done. }
    by rewrite E2, (mid_map _ _ _ _ _ OK), insert_insert_eq.
  - rewrite Hs. by rewrite !length_app.
Qed.

Lemma EmplaceFront_wp E (ll : linked_list (Z * V)) l x (Q : option Z → linked_list (Z * V) → Prop) :
  list_ok ll l →
  (∀ r ll', r = pick (list_to_set l.*1) → list_ok ll' (match r with None => l | Some a => (a, x) :: l end) → Q r ll') →
  wp E (EmplaceFront pick x) Q ll.
Proof using PICKS.
  intros OK HQ. pose proof (EmplaceFront_run pick PICKS x ll (mkListSpec l (destroyed ll)) (conj OK eq_refl)) as H.
  unfold spec_emplace_front, spec_new, mbind, M_bind, getS in H. cbn in H.
  apply (wp_weaken never); [|by intros e []].
  destruct (pick (list_to_set l.*1)) as [a|]; cbn in H; (eapply wp_mono; [exact H|]);
    intros r ll' [-> [OK' _]]; by apply HQ.
Qed.

(** The part of [Put] after the room has been made. *)
Lemma insert_new k v s l :
  lru_ok s l → k ∉ l.*2.*1 → Z.of_nat (length l) < cap →
  wp (zeroE k)
    (new_node ← on_list (EmplaceFront pick (k, v));
     if is_null new_node then mret tt
     else
       n ← on_list (load new_node);
       match new_node with
       | None => mret tt
       | Some a => on_map (map_insert false (data n).1 a);; mret tt
       end)
    (λ _ s', ∃ c', lru_rel s' c' ∧ (c' = (k, v) :: l.*2 ∨ (c' = l.*2 ∧ no_memory pick))) s.
Proof using LAWS PICKS.
  intros OK Hk Hlt. unfold on_list, on_map. rewrite wp_bind, wp_zoom.
  apply (EmplaceFront_wp _ _ l); [apply OK|]. intros r ll Hr Hll. destruct r as [a|]; cbn [is_null].
  2:{ rewrite wp_ret. exists l.*2. split; [|right; split; [done|by eexists]].
      exists l. split; [|done]. by apply (reordered s l l OK). }
  destruct (node_value ll [] a k v l Hll) as (n & Hn & Hd).
  rewrite wp_bind, wp_zoom. apply (wp_list_load _ a n); [done|]. rewrite Hd, wp_bind, wp_zoom. cbn [fst].
  eapply (insert_wp LAWS); [apply OK|by apply index_None| |done|].
  { rewrite index_size by apply OK. done. }
  intros _ h Hh. rewrite wp_ret. exists ((k, v) :: l.*2). split; [|by left].
  exists ((a, (k, v)) :: l). split; [|done]. split; cbn; [done|done| |lia].
  apply NoDup_cons. split; [done|apply OK].
Qed.

Lemma Evict_run s l x :
  lru_ok s (l ++ [x]) → wp never Evict (λ _ s', lru_ok s' l ∧ Z.of_nat (length l) < cap) s.
Proof using LAWS.
  intros OK. destruct x as [b [k w]]. unfold Evict, on_list, on_map, GetTail.
  rewrite wp_bind, wp_zoom. wp_simp. rewrite (lo_tail _ _ (lru_list _ _ OK)), fmap_app. cbn [fmap list_fmap fst].
  rewrite final_snoc. cbn [is_null]. destruct (node_value (list_ s) l b k w [] (lru_list _ _ OK)) as (n & Hn & Hd).
  rewrite wp_bind, wp_zoom. apply (wp_list_load _ b n); [done|]. rewrite Hd, wp_bind, wp_zoom. cbn [fst].
  eapply (remove_wp LAWS); [apply OK| |].
  { intros ->. destruct (lru_zero _ _ OK). rewrite !fmap_app. apply elem_of_app. right. left. }
  intros _ h Hh. rewrite wp_zoom. eapply wp_mono; [apply (PopBack_snoc _ b (k, w) l), OK|].
  intros _ ll [Hll _]. cbn. pose proof (without s l b k w [] h ll OK Hh) as H. rewrite app_nil_r in H. by apply H.
Qed.

Lemma Put_run k v s c : lru_rel s c →
  wp (zeroE k) (Put pick cap k v) (λ _ s', ∃ c', lru_step pick cap (LPut k v) c LvUnit c' ∧ lru_rel s' c') s.
Proof using LAWS PICKS Hcap.
  intros (l & OK & ->). unfold Put. rewrite wp_bind. apply (find_entry k s l _ OK).
  - intros s' l1 a w l2 OK' -> _. unfold on_list. rewrite wp_bind, wp_zoom.
    destruct (node_value (list_ s') l1 a k w l2 (lru_list _ _ OK')) as (n & Hn & _).
    apply wp_list_store; [eauto|]. rewrite wp_zoom.
    pose proof (set_data_ok _ _ _ _ _ v _ (lru_list _ _ OK')) as Hset.
    eapply wp_weaken; [eapply wp_mono; [apply (MoveToFront_mid _ l1 a (k, v) l2 Hset)|]|by intros e []].
    intros _ ll [Hll _]. exists ((k, v) :: l1.*2 ++ l2.*2). split; [rewrite fmap_app; apply step_put|].
    exists ((a, (k, v)) :: l1 ++ l2). split; [|by cbn; rewrite fmap_app].
    apply (reindexed s' _ _ OK'); [exact Hll|]. rewrite Permutation_middle, !fmap_app. done.
  - intros [ls hs] OK' Hk Hs. rewrite wp_bind. unfold on_list at 1. rewrite wp_zoom. unfold Size. wp_simp.
    rewrite (lo_size _ _ (lru_list _ _ OK')). pose proof (lru_room _ _ OK').
    rewrite wrap_u_small by (unfold in_u; lia).
    destruct (Z.eqb_spec (Z.of_nat (length l)) cap) as [Hfull|Hroom].
    + destruct l as [|x l _] using rev_ind.
      { pose proof (law_cap (MapLaws := LAWS)). cbn in *. lia. }
      eapply wp_weaken; [eapply wp_mono; [apply (Evict_run _ _ _ OK')|]|by intros e []].
      intros _ s'' [OK'' Hlt]. eapply wp_mono; [apply (insert_new k v s'' l OK''); [|done]|].
      { intros Hin. apply Hk. rewrite !fmap_app. apply elem_of_app. by left. }
      rewrite fmap_app in *. intros _ s3 (c' & Hrel & [->|[-> Hm]]); (eexists; split; [|exact Hrel]).
      * apply step_put_evict; [done|]. rewrite length_app, length_fmap in *. done.
      * apply step_put_evict_fail; [done| |done]. rewrite length_app, length_fmap in *. done.
    + rewrite wp_ret. eapply wp_mono; [apply (insert_new k v _ l)|]; [exact OK'|done|lia|].
      intros _ s3 (c' & Hrel & [->|[-> Hm]]); (eexists; split; [|exact Hrel]).
      * apply step_put_new; [done|]. rewrite length_fmap. lia.
      * apply step_put_fail; [done| |done]. rewrite length_fmap. lia.
Qed.

Lemma Contains_run k s c : lru_rel s c →
  wp (zeroE k) (Contains k) (λ b s', ∃ c', lru_step pick cap (LContains k) c (LvBool b) c' ∧ lru_rel s' c') s.
Proof using LAWS.
  intros (l & OK & ->). unfold Contains, on_map. rewrite wp_zoom.
  eapply (has_key_wp LAWS); [apply OK|done|]. intros h Hh. exists l.*2. split.
  - replace (bool_decide (is_Some (index l !! k))) with (bool_decide (k ∈ l.*2.*1)); [apply step_contains|].
    apply bool_decide_ext. rewrite <- not_eq_None_Some, index_None. split; [tauto|apply dec_stable].
  - exists l. split; [|done]. by destruct OK; split.
Qed.

Lemma Size_step s c : lru_rel s c →
  wp never lru_Size (λ n s', ∃ c', lru_step pick cap LSize c (LvSize n) c' ∧ lru_rel s' c') s.
Proof using Hcap.
  intros (l & OK & ->). unfold lru_Size, on_list, Size. rewrite wp_zoom. wp_simp. exists l.*2. split.
  - rewrite (lo_size _ _ (lru_list _ _ OK)). pose proof (lru_room _ _ OK).
    rewrite wrap_u_small by (unfold in_u; lia). rewrite <- (length_fmap snd l). apply step_size.
  - exists l. split; [|done]. by destruct s.
Qed.

Lemma Clear_step s c : lru_rel s c →
  wp never lru_Clear (λ _ s', ∃ c', lru_step pick cap LClear c LvUnit c' ∧ lru_rel s' c') s.
Proof using LAWS.
  intros (l & OK & ->). unfold lru_Clear, on_list. rewrite wp_bind, wp_zoom.
  eapply wp_mono; [apply (Clear_run _ (mkListSpec l (destroyed (list_ s)))); split; [apply OK|done]|].
  intros _ ll [_ [Hll _]]. rewrite wp_mod. exists []. split; [apply step_clear|].
  exists []. split; [|done]. split; cbn; [exact Hll|apply (law_new (MapLaws := LAWS))|apply NoDup_nil_2|].
  pose proof (law_cap (MapLaws := LAWS)). lia.
Qed.

Lemma result_step {A} (E : stop → Prop) (m : M (lru_cache S V) A) (g : A → lru_out V) op s c :
  wp E m (λ a s', ∃ c', lru_step pick cap op c (g a) c' ∧ lru_rel s' c') s → (∀ e, E e → e = zero_stop ∧ op_key op = Some 0) →
  wp (λ e, e = zero_stop ∧ op_key op = Some 0) (a ← m; mret (g a))
    (λ o s', ∃ c', lru_step pick cap op c o c' ∧ lru_rel s' c') s.
Proof. intros H HE. rewrite wp_bind. by eapply wp_weaken. Qed.

Lemma run_lru_step op s c : lru_rel s c →
  wp (λ e, e = zero_stop ∧ op_key op = Some 0) (run_lru pick cap op)
    (λ o s', ∃ c', lru_step pick cap op c o c' ∧ lru_rel s' c') s.
Proof using LAWS PICKS Hcap.
  intros Hrel. destruct op as [k|k|k v|k|k| |].
  - eapply result_step; [by apply Get_run|by intros e [-> ->]].
  - eapply result_step; [by apply Get_const_run|by intros e [-> ->]].
  - eapply (result_step _ _ (λ _, LvUnit)); [by apply Put_run|by intros e [-> ->]].
  - eapply result_step; [by apply Erase_run|by intros e [-> ->]].
  - eapply result_step; [by apply Contains_run|by intros e [-> ->]].
  - eapply result_step; [by apply Size_step|by intros e []].
  - eapply (result_step _ _ (λ _, LvUnit)); [by apply Clear_step|by intros e []].
Qed.

Lemma runs_lru ops s c : lru_rel s c →
  wp (λ e, e = zero_stop ∧ Some 0 ∈ op_key <$> ops) (runs (run_lru pick cap) ops)
    (λ outs s', ∃ c', lru_steps pick cap ops c outs c' ∧ lru_rel s' c') s.
Proof using LAWS PICKS Hcap.
  revert s c. induction ops as [|op ops IH]; intros s c Hrel; cbn [runs].
  { rewrite wp_ret. exists c. split; [apply steps_nil|done]. }
  pose proof (run_lru_step op s c Hrel) as Hop. rewrite wp_bind. unfold wp at 1.
  unfold wp in Hop. destruct (run_lru pick cap op s) as [[o s']|e].
  2:{ destruct Hop as [-> Hk]. split; [done|]. cbn. rewrite Hk. left. }
  destruct Hop as (c' & Hstep & Hrel'). rewrite wp_bind. specialize (IH s' c' Hrel').
  eapply wp_weaken; [eapply wp_mono; [exact IH|]|].
  - intros outs s'' (c'' & Hsteps & Hrel''). rewrite wp_ret. exists c''. split; [by eapply steps_cons|done].
  - intros e [-> Hin]. split; [done|]. cbn. by right.
Qed.
End refinement.

(** C34. The cache is a least-recently-used list: any sequence of operations on a new cache gives
    the results that the list of the entries in the order of their last use gives, where a hit of
    [Get] or [Put] moves the entry to the front, a miss of [Put] adds it at the front, after the
    last entry has been dropped if there were [kCapacity], and an entry is not added only when the
    allocator fails; the run stops only at the key zero.  The map and the list agree throughout.
    This holds for every map with the promises of the interface and for every allocator. *)
Theorem lru_cache_refines_list {S V} (OPS : MapOps S Z) pick cap rep (ops : list (lru_op V)) :
  MapLaws S Z OPS cap rep → Picks pick → cap < 2 ^ 64 →
  match runs (run_lru pick cap) ops new_lru with
  | Ok (outs, s) => ∃ c, lru_steps pick cap ops [] outs c ∧ lru_rel cap rep s c
  | Stop e => e = zero_stop ∧ Some 0 ∈ op_key <$> ops
  end.
Proof.
  intros LAWS PICKS Hcap. exact (runs_lru pick cap rep LAWS PICKS Hcap ops new_lru [] (new_lru_rel cap rep LAWS)).
Qed.

Definition example_lru_ops : list (lru_op Z) :=
  [LPut 1 10; LPut 2 20; LGet 1; LPut 3 30; LGet 2; LPeek 1; LErase 3; LContains 1; LSize].

Lemma lru_cache_refines_list_witness :
  MapLaws (hashmap Z) Z (hashmap_ops 2) 2 (hashmap_ok 2) ∧ Picks next_free ∧ 2 < 2 ^ 64 ∧
  ∃ s c, runs (run_lru (OPS := hashmap_ops 2) next_free 2) example_lru_ops (new_lru (OPS := hashmap_ops 2)) =
      Ok ([LvUnit; LvUnit; LvValue (Some 10); LvUnit; LvValue None; LvValue (Some 10); LvBool true;
           LvBool true; LvSize 1], s)
    ∧ lru_steps next_free 2 example_lru_ops []
      [LvUnit; LvUnit; LvValue (Some 10); LvUnit; LvValue None; LvValue (Some 10); LvBool true;
       LvBool true; LvSize 1] c.
Proof.
  assert (H2 : 0 < 2 < 64) by lia. pose proof (hashmap_laws (V := Z) 2 H2) as LAWS.
  assert (Hc : 2 < 2 ^ 64) by lia.
  split; [exact LAWS|]. split; [exact next_free_picks|]. split; [exact Hc|].
  pose proof (lru_cache_refines_list (hashmap_ops 2) next_free 2 (hashmap_ok 2) example_lru_ops LAWS next_free_picks Hc) as H.
  assert (E : ∃ s, runs (run_lru (OPS := hashmap_ops 2) next_free 2) example_lru_ops (new_lru (OPS := hashmap_ops 2)) =
      Ok ([LvUnit; LvUnit; LvValue (Some 10); LvUnit; LvValue None; LvValue (Some 10); LvBool true;
           LvBool true; LvSize 1], s)) by (eexists; vm_compute; reflexivity).
  destruct E as [s E]. rewrite E in H. destruct H as (c & Hsteps & _). exists s, c. split; [exact E|exact Hsteps].
Defined.
