(* ===== verification/Calendar.v ===== *)
(** * Calendar time

    Models libs/libcpp/include/time.hpp and libs/libc/src/time/time_ext.cpp: the conversions
    between POSIX seconds and broken-down time behind [mktime], [gmtime] and [localtime], and the
    week numbers behind [strftime].  Signed 64-bit arithmetic is written with [Z], [/] and [%] of
    C++ as [Z.quot] and [Z.rem]; conversions to the unsigned and to the [int] type are written
    out.  An index outside a table is [BadAccess]. *)
From S2P Require Import Prelude.

#[export] Instance res_ret : MRet res := λ A a, Ok a.
#[export] Instance res_bind : MBind res := λ A B k m, match m with Ok a => k a | Stop e => Stop e end.

Definition assertR (b : bool) (msg : string) : res unit := if b then Ok tt else Stop (Panic msg).

(** ** Constants *)

Definition kTmBaseYear : Z := 1900.
Definition kSecondsInMinute : Z := 60.
Definition kSecondsInHour : Z := kSecondsInMinute * 60.
Definition kSecondsInDay : Z := kSecondsInHour * 24.
Definition kSecondsInUsualYear : Z := kSecondsInDay * 365.
Definition kPosixEpoch : Z := 1970.
Definition kPosixEpochTmSecondDiff : Z :=
  (kPosixEpoch - kTmBaseYear) * kSecondsInUsualYear + (kPosixEpoch - kTmBaseYear) ÷ 4 * kSecondsInDay.
Definition kFirst30PosixYears : Z := 30 * kSecondsInUsualYear + 28 ÷ 4 * kSecondsInDay.
Definition kPosixToTmYearDiff : Z := kPosixEpoch - kTmBaseYear.
Definition kConversionFailed : Z := u64 (-1).
Definition kMktimeFailed : Z := u64 (-1).

Definition kDaysInMonth (leap : bool) : list Z :=
  if leap then [0; 31; 60; 91; 121; 152; 182; 213; 244; 274; 305; 335; 366]
  else [0; 31; 59; 90; 120; 151; 181; 212; 243; 273; 304; 334; 365].

Definition DaysInMonth (leap : bool) (i : Z) : res Z :=
  if i <? 0 then Stop BadAccess
  else match kDaysInMonth leap !! Z.to_nat i with Some d => Ok d | None => Stop BadAccess end.

Record tm : Type := mkTm {
  tm_sec : Z;
  tm_min : Z;
  tm_hour : Z;
  tm_mday : Z;
  tm_mon : Z;
  tm_year : Z;
  tm_wday : Z;
  tm_yday : Z;
  tm_isdst : Z;
}.

Record Timezone : Type := mkTimezone {
  west_offset_minutes : Z;
  dst_time_offset_minutes : Z;
  dst_time_start_seconds : Z;
  dst_time_end_seconds : Z;
}.

Definition kUtcTimezone : Timezone := mkTimezone 0 0 (u16 (-1)) (u16 (-1)).

(** ** Years and days *)

Definition IsLeapYear (year : Z) : bool :=
  ((Z.rem year 4 =? 0) && negb (Z.rem year 100 =? 0)) || (Z.rem year 400 =? 0).

Definition IsTmYearLeap (year : Z) : bool := IsLeapYear (year + kTmBaseYear).

Definition SumUpDays (year : Z) : Z :=
  let years_adjusted := year - 1 in
  years_adjusted * 365 + years_adjusted ÷ 4 - years_adjusted ÷ 100 + years_adjusted ÷ 400.

Definition SumUpDays_tm (t : tm) : Z := SumUpDays (tm_year t + kTmBaseYear).

Definition GetWeekdayJan1 (days_since_century : Z) : Z := Z.rem (days_since_century + 1) 7.

Definition SumYearDays (t : tm) : res Z :=
  d ← DaysInMonth (IsTmYearLeap (tm_year t)) (tm_mon t);
  mret (d + tm_mday t).

Definition CalculateDayOfWeek (t : tm) : res Z :=
  d ← SumYearDays t;
  mret (Z.rem (GetWeekdayJan1 (SumUpDays_tm t) + d - 1) 7).

(** ** From broken-down time to POSIX time *)

Definition ConvertDateTimeToPosix (date_time : tm) (time_zone : Timezone) : res Z :=
  let is_month_negative := if tm_mon date_time <? 0 then 1 else 0 in
  let month_remainder := Z.rem (tm_mon date_time) 12 + is_month_negative * 12 in
  let month_years := tm_mon date_time ÷ 12 in
  let years := tm_year date_time + month_years in
  days ← DaysInMonth (IsTmYearLeap years) month_remainder;
  let time := tm_sec date_time in
  let time := time + tm_min date_time * kSecondsInMinute in
  let time := time + tm_hour date_time * kSecondsInHour in
  let time := time + (tm_mday date_time - 1) * kSecondsInDay in
  let time := time + days * kSecondsInDay in
  let time := time + years * kSecondsInUsualYear in
  let time := time + (years - 1) ÷ 4 * kSecondsInDay in
  let time := time - (years - 1) ÷ 100 * kSecondsInDay in
  let time := time + (300 + years - 1) ÷ 400 * kSecondsInDay in
  let time := time - kPosixEpochTmSecondDiff in
  let time := time - west_offset_minutes time_zone * kSecondsInMinute in
  let time :=
    if (0 <? tm_isdst date_time) && negb (dst_time_offset_minutes time_zone =? 0)
    then time - dst_time_offset_minutes time_zone * kSecondsInMinute else time in
  if tm_isdst date_time <? 0 then Stop (Panic "DST guess is not supported yet")
  else if time <? 0 then mret kConversionFailed
  else mret (u64 time).

(** ** From POSIX time to broken-down time *)

(** The do-while loops; [iterations] is the counter that the code asserts to be small. *)
Fixpoint Years30MoreLoop (fuel : nat) (time years iterations : Z) : res (Z * Z) :=
  match fuel with
  | O => Stop NoFuel
  | S fuel =>
      assertR (iterations <? 5) "iterations++ < 5";;
      let local_time_left := i64 (u64 (time - kFirst30PosixYears)) in
      let local_time_left := local_time_left - years * kSecondsInUsualYear in
      let local_time_left := local_time_left - (years - 1) ÷ 4 * kSecondsInDay in
      let local_time_left := local_time_left + (years - 1) ÷ 100 * kSecondsInDay in
      let local_time_left := local_time_left - (years - 1) ÷ 400 * kSecondsInDay in
      let local_time_left := local_time_left - (if 0 <? years then 1 else 0) * kSecondsInDay in
      if local_time_left <? 0 then Years30MoreLoop fuel time (years - 1) (iterations + 1)
      else mret (u64 (years - 1 + 1 + 30), u64 local_time_left)
  end.

Definition CalculateYears30MoreWLeaps (time : Z) : res (Z * Z) :=
  Years30MoreLoop 6 time (u64 (time - kFirst30PosixYears) `div` kSecondsInUsualYear) 0.

Fixpoint Years30LessLoop (fuel : nat) (time years iterations : Z) : res (Z * Z) :=
  match fuel with
  | O => Stop NoFuel
  | S fuel =>
      assertR (iterations <? 2) "iterations++ < 2";;
      let local_time_left := i64 time in
      let local_time_left := local_time_left - years * kSecondsInUsualYear in
      let local_time_left :=
        local_time_left - (if 2 <? years then (years + 1) ÷ 4 * kSecondsInDay else 0) in
      if local_time_left <? 0 then Years30LessLoop fuel time (years - 1) (iterations + 1)
      else mret (u64 (years - 1 + 1), u64 local_time_left)
  end.

Definition CalculateYears30LessWLeaps (time : Z) : res (Z * Z) :=
  Years30LessLoop 3 time (time `div` kSecondsInUsualYear) 0.

Definition CalculateYearsFromPosix (time : Z) : res (Z * Z) :=
  if kFirst30PosixYears <=? time then CalculateYears30MoreWLeaps time
  else CalculateYears30LessWLeaps time.

(** [for (size_t idx = 1; idx < 12; ++idx)], from [idx]. *)
Fixpoint MonthLoop (fuel : nat) (idx days : Z) (leap : bool) : res (Z * Z) :=
  match fuel with
  | O => Stop NoFuel
  | S fuel =>
      if idx <? 12 then
        d ← DaysInMonth leap idx;
        if days <? d then
          d' ← DaysInMonth leap (idx - 1);
          mret (idx, u64 (days - d' + 1))
        else MonthLoop fuel (idx + 1) days leap
      else
        d' ← DaysInMonth leap 11;
        mret (12, u64 (days - d' + 1))
  end.

Definition CalculateMonthAndDaysFromPosix (days : Z) (leap : bool) : res (Z * Z) :=
  assertR (days <? (if leap then 366 else 365)) "days < days in year";;
  MonthLoop 12 1 days leap.

Definition GetDSTOffset (time : Z) (time_zone : Timezone) : Z :=
  if dst_time_offset_minutes time_zone =? 0 then 0
  else if dst_time_start_seconds time_zone <? dst_time_end_seconds time_zone then
    if (dst_time_start_seconds time_zone <=? time) && (time <? dst_time_end_seconds time_zone)
    then u64 (dst_time_offset_minutes time_zone * kSecondsInMinute) else 0
  else
    if (dst_time_start_seconds time_zone <=? time) || (time <? dst_time_end_seconds time_zone)
    then u64 (dst_time_offset_minutes time_zone * kSecondsInMinute) else 0.

Definition ConvertFromPosixToTm (timer : Z) (tz : Timezone) : res tm :=
  let time_left := u64 (timer + west_offset_minutes tz * kSecondsInMinute) in
  yt ← CalculateYearsFromPosix time_left;
  let (years, time_left_after_years) := (yt : Z * Z) in
  let time_left := time_left_after_years in
  let year := i32 (u64 (kPosixToTmYearDiff + years)) in
  let dst_offset := GetDSTOffset time_left tz in
  let time_left := u64 (time_left + dst_offset) in
  let isdst := i32 (if negb (dst_offset =? 0) then 1 else dst_offset) in
  let days := time_left `div` kSecondsInDay in
  let time_left := time_left - days * kSecondsInDay in
  let hours := time_left `div` kSecondsInHour in
  let time_left := time_left - hours * kSecondsInHour in
  let minutes := time_left `div` kSecondsInMinute in
  let time_left := time_left - minutes * kSecondsInMinute in
  md ← CalculateMonthAndDaysFromPosix days (IsTmYearLeap year);
  let (month, day) := (md : Z * Z) in
  let result := mkTm (i32 time_left) (i32 minutes) (i32 hours) (i32 day) (i32 (u64 (month - 1)))
                  year 0 (i32 days) isdst in
  wday ← CalculateDayOfWeek result;
  mret (mkTm (tm_sec result) (tm_min result) (tm_hour result) (tm_mday result) (tm_mon result)
          (tm_year result) (i32 wday) (tm_yday result) (tm_isdst result)).

(** The time, or [kMktimeFailed], and the normalised fields. *)
Definition MkTimeFromTimeZone (time_ptr : tm) (time_zone : Timezone) : res (Z * tm) :=
  t ← ConvertDateTimeToPosix time_ptr time_zone;
  if t =? kConversionFailed then mret (kMktimeFailed, time_ptr)
  else
    r ← ConvertFromPosixToTm t time_zone;
    t' ← ConvertDateTimeToPosix r time_zone;
    assertR (t' =? t) "ConvertDateTimeToPosix(time_ptr, time_zone) == t";;
    mret (t, r).

Definition gmtime_r (timer : Z) : res tm := ConvertFromPosixToTm timer kUtcTimezone.

Definition ValidateTm (t : tm) : bool :=
  (0 <=? tm_hour t) && (tm_hour t <=? 23) && (0 <=? tm_min t) && (tm_min t <=? 59) &&
  (0 <=? tm_sec t) && (tm_sec t <=? 60) && (0 <=? tm_mon t) && (tm_mon t <=? 11) &&
  (1 <=? tm_mday t) && (tm_mday t <=? 31) && (0 <=? tm_year t) && (tm_year t <=? 9999) &&
  (0 <=? tm_wday t) && (tm_wday t <=? 6) && (0 <=? tm_yday t) && (tm_yday t <=? 365).

(** ** Weeks *)

Definition CalculateMondayBasedWeek (t : tm) : res Z :=
  let jan1_weekday := GetWeekdayJan1 (SumUpDays_tm t) in
  d ← SumYearDays t;
  let days := d - 1 in
  let monday_based_jan1_weekday :=
    if jan1_weekday =? 1 then 7 else if jan1_weekday =? 0 then 6 else jan1_weekday - 1 in
  mret ((days + monday_based_jan1_weekday) ÷ 7).

Definition CalculateSundayBasedWeek (t : tm) : res Z :=
  let jan1_weekday := GetWeekdayJan1 (SumUpDays_tm t) in
  d ← SumYearDays t;
  let days := d - 1 in
  let sunday_based_weekday := if jan1_weekday =? 0 then 7 else jan1_weekday in
  mret ((days + sunday_based_weekday) ÷ 7).

Fixpoint CalculateIsoBasedWeek (fuel : nat) (t : tm) : res Z :=
  match fuel with
  | O => Stop NoFuel
  | S fuel =>
      let jan1_weekday := GetWeekdayJan1 (SumUpDays_tm t) in
      let normalized_jan1_weekday := if jan1_weekday =? 0 then 7 else jan1_weekday in
      let days_in_first_week := 8 - normalized_jan1_weekday in
      let is_first_week_in_this_year := 4 <=? days_in_first_week in
      days_sum ← SumYearDays t;
      if days_sum <=? days_in_first_week then
        if negb is_first_week_in_this_year
        then CalculateIsoBasedWeek fuel (mkTm 0 0 0 31 11 (tm_year t - 1) 0 0 0)
        else mret 1
      else
        let total_years_days := if IsTmYearLeap (tm_year t) then 366 else 365 in
        let days_except_first_week := total_years_days - days_in_first_week in
        let days_in_last_not_full_week := Z.rem days_except_first_week 7 in
        let days_before_last_week := total_years_days - days_in_last_not_full_week in
        let is_last_not_full_week_from_next_year :=
          (days_in_last_not_full_week <? 4) && (0 <? days_in_last_not_full_week) in
        if is_last_not_full_week_from_next_year && (days_before_last_week <? days_sum)
        then CalculateIsoBasedWeek fuel (mkTm 0 0 0 1 0 (tm_year t + 1) 0 0 0)
        else mret (1 + (if is_first_week_in_this_year then 1 else 0) +
                   (days_sum - days_in_first_week - 1) ÷ 7)
  end.

Definition CalculateIsoBasedYear (t : tm) : res Z :=
  let jan1_weekday := GetWeekdayJan1 (SumUpDays_tm t) in
  let normalized_jan1_weekday := if jan1_weekday =? 0 then 7 else jan1_weekday in
  let days_in_first_week := 8 - normalized_jan1_weekday in
  days_sum ← SumYearDays t;
  if days_sum <=? days_in_first_week then
    if negb (4 <=? days_in_first_week) then mret (kTmBaseYear + tm_year t - 1)
    else mret (kTmBaseYear + tm_year t)
  else
    let total_years_days := if IsTmYearLeap (tm_year t) then 366 else 365 in
    let days_except_first_week := total_years_days - days_in_first_week in
    let days_in_last_not_full_week := Z.rem days_except_first_week 7 in
    let days_before_last_week := total_years_days - days_in_last_not_full_week in
    let is_last_not_full_week_from_next_year :=
      (days_in_last_not_full_week <? 4) && (0 <? days_in_last_not_full_week) in
    if is_last_not_full_week_from_next_year && (days_before_last_week <? days_sum)
    then mret (kTmBaseYear + tm_year t + 1)
    else mret (kTmBaseYear + tm_year t).
