(* ===== verification/CalendarSpec.v ===== *)
(** * The Gregorian calendar and the conversions

    The reference calendar counts days year by year and month by month; the theorems relate the
    closed formulas and the loops of time_ext.cpp to it. *)
From S2P Require Import Prelude Calendar.

(** ** The reference calendar *)

Definition leap_year (y : Z) : bool :=
  (y `mod` 4 =? 0) && (negb (y `mod` 100 =? 0) || (y `mod` 400 =? 0)).

Definition year_days (y : Z) : Z := if leap_year y then 366 else 365.

(** Days of the months 1 ... 12. *)
Definition month_days (leap : bool) (m : Z) : Z :=
  if m =? 2 then (if leap then 29 else 28)
  else if bool_decide (m ∈ [4; 6; 9; 11]) then 30 else 31.

(** Days of the year before the first of month [m + 1]. *)
Fixpoint days_before_month (leap : bool) (m : nat) : Z :=
  match m with O => 0 | S m => days_before_month leap m + month_days leap (Z.of_nat (S m)) end.

(** Days from 1970-01-01 to the first day of the year 1970 + [n]. *)
Fixpoint epoch_days (n : nat) : Z :=
  match n with O => 0 | S n => epoch_days n + year_days (1970 + Z.of_nat n) end.

(** Days from 1970-01-01 to a date; the day may lie outside its month. *)
Definition civil_day (year : Z) (month : nat) (day : Z) : Z :=
  epoch_days (Z.to_nat (year - 1970)) + days_before_month (leap_year year) month + (day - 1).

Definition time_of_day (t : tm) : Z := tm_hour t * 3600 + tm_min t * 60 + tm_sec t.

(** The local time of the fields, in seconds from the epoch, from 1970 on. *)
Definition civil_seconds (t : tm) : Z :=
  86400 * civil_day (1900 + tm_year t) (Z.to_nat (tm_mon t)) (tm_mday t) + time_of_day t.

(** The fields are in their ranges, and the derived ones agree with the date. *)
Record tm_ok (t : tm) : Prop := {
  ok_sec : 0 ≤ tm_sec t < 60;
  ok_min : 0 ≤ tm_min t < 60;
  ok_hour : 0 ≤ tm_hour t < 24;
  ok_mon : 0 ≤ tm_mon t < 12;
  ok_mday : 1 ≤ tm_mday t ≤ month_days (leap_year (1900 + tm_year t)) (tm_mon t + 1);
  ok_year : 70 ≤ tm_year t < 6100;
  ok_yday : tm_yday t =
    days_before_month (leap_year (1900 + tm_year t)) (Z.to_nat (tm_mon t)) + (tm_mday t - 1);
  ok_wday : tm_wday t =
    (4 + civil_day (1900 + tm_year t) (Z.to_nat (tm_mon t)) (tm_mday t)) `mod` 7;
}.

(** The start of the year 8000. *)
Definition max_time : Z := 190288396800.

(** ** Years *)

Lemma IsLeapYear_leap y : 0 ≤ y → IsLeapYear y = leap_year y.
Proof.
  intros Hy. unfold IsLeapYear, leap_year. rewrite !Z.rem_mod_nonneg by lia.
  destruct (Z.eqb_spec (y `mod` 4) 0), (Z.eqb_spec (y `mod` 100) 0), (Z.eqb_spec (y `mod` 400) 0);
    try done; exfalso; Z.to_euclidean_division_equations; lia.
Qed.

Lemma SumUpDays_div y :
  1 ≤ y → SumUpDays y = (y - 1) * 365 + (y - 1) / 4 - (y - 1) / 100 + (y - 1) / 400.
Proof. intros. unfold SumUpDays. rewrite !Z.quot_div_nonneg by lia. done. Qed.

Lemma SumUpDays_S y : 1 ≤ y → SumUpDays (y + 1) = SumUpDays y + year_days y.
Proof.
  intros Hy. rewrite !SumUpDays_div by lia. unfold year_days, leap_year.
  destruct (Z.eqb_spec (y `mod` 4) 0), (Z.eqb_spec (y `mod` 100) 0), (Z.eqb_spec (y `mod` 400) 0); cbn;
    Z.to_euclidean_division_equations; lia.
Qed.

Lemma epoch_days_sum n : epoch_days n = SumUpDays (1970 + Z.of_nat n) - SumUpDays 1970.
Proof.
  induction n as [|n IH]; [done|]. cbn [epoch_days]. rewrite IH.
  replace (1970 + Z.of_nat (S n)) with (1970 + Z.of_nat n + 1) by lia. rewrite SumUpDays_S by lia. lia.
Qed.

Lemma year_days_range y : 365 ≤ year_days y ≤ 366.
Proof. unfold year_days. case_match; lia. Qed.

Lemma epoch_days_bracket d : 0 ≤ d → ∃ n, epoch_days n ≤ d < epoch_days (S n).
Proof.
  intros Hd. pattern d. apply natlike_ind; [|clear d Hd|done].
  - exists O. change (epoch_days 1) with 365. change (epoch_days 0) with 0. lia.
  - intros d Hd (n & Hn). destruct (decide (Z.succ d < epoch_days (S n))); [exists n; lia|].
    exists (S n). cbn [epoch_days] in *. pose proof (year_days_range (1970 + Z.of_nat (S n))). lia.
Qed.

Lemma epoch_days_mono n m : (n ≤ m)%nat → epoch_days n + 365 * (Z.of_nat m - Z.of_nat n) ≤ epoch_days m.
Proof.
  induction 1 as [|m Hm IH]; [lia|]. cbn [epoch_days].
  pose proof (year_days_range (1970 + Z.of_nat m)). lia.
Qed.

(** The days that the loop for years from 2000 on subtracts. *)
Definition days2000 (y : Z) : Z :=
  y * 365 + (y - 1) ÷ 4 - (y - 1) ÷ 100 + (y - 1) ÷ 400 + (if 0 <? y then 1 else 0).

Lemma days2000_epoch y : 0 ≤ y → days2000 y = epoch_days (Z.to_nat y + 30) - epoch_days 30.
Proof.
  intros Hy. rewrite !epoch_days_sum. unfold days2000. rewrite !SumUpDays_div by lia.
  destruct (Z.ltb_spec 0 y).
  - rewrite !Z.quot_div_nonneg by lia.
    replace (1970 + Z.of_nat (Z.to_nat y + 30)) with (2000 + y) by lia.
    change (Z.of_nat 30) with 30. Z.to_euclidean_division_equations. lia.
  - replace y with 0 by lia. reflexivity.
Qed.

Lemma days1970_epoch y :
  0 ≤ y < 30 → y * 365 + (if 2 <? y then (y + 1) ÷ 4 else 0) = epoch_days (Z.to_nat y).
Proof.
  intros Hy. rewrite epoch_days_sum, !SumUpDays_div by lia. rewrite Z2Nat.id by lia.
  destruct (Z.ltb_spec 2 y); [rewrite Z.quot_div_nonneg by lia|];
    Z.to_euclidean_division_equations; lia.
Qed.

Lemma max_time_days : max_time = 86400 * epoch_days (Z.to_nat 6030).
Proof. rewrite epoch_days_sum. reflexivity. Qed.

(** A time in the range lies in one of the years before 8000. *)
Lemma time_year T :
  0 ≤ T < max_time →
  ∃ n, 86400 * epoch_days n ≤ T < 86400 * epoch_days (S n) ∧ (n < Z.to_nat 6030)%nat.
Proof.
  intros HT. destruct (epoch_days_bracket (T / 86400)) as (n & Hn); [apply Z.div_pos; lia|].
  assert (Hb : 86400 * epoch_days n ≤ T < 86400 * epoch_days (S n))
    by (Z.to_euclidean_division_equations; lia).
  exists n. split; [done|]. destruct (decide (n < Z.to_nat 6030)%nat); [done|].
  pose proof (epoch_days_mono (Z.to_nat 6030) n ltac:(lia)). rewrite max_time_days in HT. lia.
Qed.

Lemma res_bind_ok {A B} (a : A) (k : A → res B) : Ok a ≫= k = k a.
Proof. done. Qed.

Lemma Years30MoreLoop_run fuel T y y' it :
  kFirst30PosixYears ≤ T < max_time →
  0 ≤ y ≤ y' → y' - y < Z.of_nat fuel → 0 ≤ it → it + (y' - y) < 5 →
  86400 * days2000 y ≤ T - kFirst30PosixYears < 86400 * days2000 (y + 1) →
  Years30MoreLoop fuel T y' it = Ok (30 + y, T - kFirst30PosixYears - 86400 * days2000 y).
Proof.
  revert y' it. induction fuel as [|fuel IH]; intros y' it HT Hy Hf Hit Hn HD; [lia|].
  cbn [Years30MoreLoop]. unfold assertR. rewrite (proj2 (Z.ltb_lt it 5)) by lia. rewrite res_bind_ok.
  unfold kFirst30PosixYears, max_time in *.
  change (30 * kSecondsInUsualYear + 28 ÷ 4 * kSecondsInDay) with 946684800 in *.
  rewrite (wrap_u_small 64 (T - 946684800)), wrap_s_small by (unfold in_u, in_s; lia).
  change kSecondsInUsualYear with (86400 * 365). change kSecondsInDay with 86400.
  assert (HX : ∀ z, T - 946684800 - z * (86400 * 365) - (z - 1) ÷ 4 * 86400 + (z - 1) ÷ 100 * 86400 -
    (z - 1) ÷ 400 * 86400 - (if 0 <? z then 1 else 0) * 86400 = T - 946684800 - 86400 * days2000 z)
    by (intros z; unfold days2000; lia).
  rewrite HX. destruct (Z.ltb_spec (T - 946684800 - 86400 * days2000 y') 0).
  - assert (y' ≠ y) by (intros ->; lia). apply IH; lia.
  - assert (y' = y) as ->.
    { destruct (decide (y' = y)); [done|]. rewrite !days2000_epoch in * by lia.
      pose proof (epoch_days_mono (Z.to_nat (y + 1) + 30) (Z.to_nat y' + 30) ltac:(lia)). lia. }
    assert (365 * y ≤ days2000 y).
    { rewrite days2000_epoch by lia. pose proof (epoch_days_mono 30 (Z.to_nat y + 30) ltac:(lia)). lia. }
    rewrite !wrap_u_small by (unfold in_u; lia). unfold mret, res_ret. do 2 f_equal. lia.
Qed.

Lemma days2000_short y : 0 ≤ y ≤ 6000 → days2000 y ≤ 365 * y + 1457.
Proof.
  intros Hy. unfold days2000. destruct (Z.ltb_spec 0 y); [|replace y with 0 by lia; done].
  rewrite !Z.quot_div_nonneg by lia. Z.to_euclidean_division_equations. lia.
Qed.

Lemma Years30LessLoop_run fuel T y y' it :
  0 ≤ T < kFirst30PosixYears →
  0 ≤ y ≤ y' → y' < 31 → y' - y < Z.of_nat fuel → 0 ≤ it → it + (y' - y) < 2 →
  86400 * epoch_days (Z.to_nat y) ≤ T < 86400 * epoch_days (Z.to_nat (y + 1)) → 
  Years30LessLoop fuel T y' it = Ok (y, T - 86400 * epoch_days (Z.to_nat y)).
Proof.
  revert y' it. induction fuel as [|fuel IH]; intros y' it HT Hy Hy' Hf Hit Hn HD; [lia|].
  cbn [Years30LessLoop]. unfold assertR. rewrite (proj2 (Z.ltb_lt it 2)) by lia. rewrite res_bind_ok.
  unfold kFirst30PosixYears in *.
  change (30 * kSecondsInUsualYear + 28 ÷ 4 * kSecondsInDay) with 946684800 in *.
  rewrite wrap_s_small by (unfold in_s; lia).
  change kSecondsInUsualYear with (86400 * 365). change kSecondsInDay with 86400.
  assert (HX : ∀ z, 0 ≤ z < 31 → T - z * (86400 * 365) - (if 2 <? z then (z + 1) ÷ 4 * 86400 else 0) =
    T - 86400 * (z * 365 + (if 2 <? z then (z + 1) ÷ 4 else 0))) by (intros z ?; case_match; lia).
  rewrite HX by lia. destruct (Z.ltb_spec (T - 86400 * (y' * 365 + (if 2 <? y' then (y' + 1) ÷ 4 else 0))) 0) as [Hlt|Hge].
  - assert (y' ≠ y).
    { intros ->. destruct (decide (y < 30)); [rewrite days1970_epoch in Hlt by lia; lia|].
      assert (y = 30) as -> by lia. change (epoch_days (Z.to_nat 30)) with 10957 in HD. lia. }
    apply IH; lia.
  - assert (Hy30 : y' < 30).
    { destruct (decide (y' = 30)) as [->|]; [|lia].
      change (30 * 365 + (if 2 <? 30 then (30 + 1) ÷ 4 else 0)) with 10957 in Hge. lia. }
    rewrite days1970_epoch in * by lia.
    assert (y' = y) as ->.
    { destruct (decide (y' = y)); [done|].
      pose proof (epoch_days_mono (Z.to_nat (y + 1)) (Z.to_nat y') ltac:(lia)). lia. }
    pose proof (epoch_days_mono 0 (Z.to_nat y) ltac:(lia)) as H0. change (epoch_days 0) with 0 in H0.
    rewrite !wrap_u_small by (unfold in_u; lia). unfold mret, res_ret. do 2 f_equal. lia.
Qed.

(** The year of a time, and the seconds left in it. *)
Lemma CalculateYears_run T n :
  0 ≤ T < max_time → 86400 * epoch_days n ≤ T < 86400 * epoch_days (S n) → (n < Z.to_nat 6030)%nat →
  CalculateYearsFromPosix T = Ok (Z.of_nat n, T - 86400 * epoch_days n).
Proof.
  intros HT HD Hn. unfold CalculateYearsFromPosix.
  assert (HF : kFirst30PosixYears = 86400 * epoch_days 30) by (rewrite epoch_days_sum; reflexivity).
  destruct (Z.leb_spec kFirst30PosixYears T).
  - assert (Hn30 : (30 ≤ n)%nat).
    { destruct (decide (30 ≤ n)%nat); [done|]. pose proof (epoch_days_mono (S n) 30 ltac:(lia)). lia. }
    assert (HT' : kFirst30PosixYears = 946684800) by reflexivity.
    unfold CalculateYears30MoreWLeaps. rewrite wrap_u_small by (unfold in_u, max_time in *; lia).
    set (y := Z.of_nat n - 30). assert (Hy : 0 ≤ y < 6000) by lia.
    assert (HDy : ∀ k, 0 ≤ k → 86400 * days2000 k = 86400 * epoch_days (Z.to_nat k + 30) - kFirst30PosixYears)
      by (intros k Hk; rewrite days2000_epoch by done; lia).
    assert (HB : 86400 * days2000 y ≤ T - kFirst30PosixYears < 86400 * days2000 (y + 1)).
    { rewrite !HDy by lia. replace (Z.to_nat y + 30)%nat with n by lia.
      replace (Z.to_nat (y + 1) + 30)%nat with (S n) by lia. lia. }
    pose proof (days2000_short (y + 1) ltac:(lia)) as HS.
    assert (Hlow : 365 * y ≤ days2000 y).
    { rewrite days2000_epoch by lia. pose proof (epoch_days_mono 30 (Z.to_nat y + 30) ltac:(lia)). lia. }
    set (y0 := (T - kFirst30PosixYears) / kSecondsInUsualYear).
    assert (Hy0 : y ≤ y0 ≤ y + 4).
    { subst y0. change kSecondsInUsualYear with (86400 * 365). split.
      - apply Z.div_le_lower_bound; lia.
      - enough ((T - kFirst30PosixYears) / (86400 * 365) < y + 5) by lia. apply Z.div_lt_upper_bound; lia. }
    rewrite (Years30MoreLoop_run 6 T y y0 0) by lia. rewrite HDy by lia.
    replace (Z.to_nat y + 30)%nat with n by lia. do 2 f_equal; lia.
  - assert (Hn30 : (n < 30)%nat).
    { destruct (decide (n < 30)%nat); [done|]. pose proof (epoch_days_mono 30 n ltac:(lia)). lia. }
    unfold CalculateYears30LessWLeaps. set (y0 := T / kSecondsInUsualYear).
    pose proof (epoch_days_mono 0 n ltac:(lia)) as Hlow. change (epoch_days 0) with 0 in Hlow.
    assert (Hup : epoch_days (S n) ≤ 365 * (Z.of_nat n + 1) + 8).
    { rewrite epoch_days_sum, !SumUpDays_div by lia. Z.to_euclidean_division_equations. lia. }
    assert (Hy0 : Z.of_nat n ≤ y0 ≤ Z.of_nat n + 1).
    { subst y0. change kSecondsInUsualYear with (86400 * 365). split.
      - apply Z.div_le_lower_bound; lia.
      - enough (T / (86400 * 365) < Z.of_nat n + 2) by lia. apply Z.div_lt_upper_bound; lia. }
    rewrite (Years30LessLoop_run 3 T (Z.of_nat n) y0 0); rewrite ?Nat2Z.id; try lia; [done|].
    replace (Z.to_nat (Z.of_nat n + 1)) with (S n) by lia. lia.
Qed.

(** ** Months and the time of day *)

Definition month_check (leap : bool) (d : Z) : bool :=
  match CalculateMonthAndDaysFromPosix d leap with
  | Ok (m, day) =>
      (1 <=? m) && (m <=? 12) && (1 <=? day) && (day <=? month_days leap m) &&
      (day =? d - days_before_month leap (Z.to_nat (m - 1)) + 1)
  | Stop _ => false
  end.

Lemma month_checks : forallb (month_check true) (seqZ 0 366) && forallb (month_check false) (seqZ 0 365) = true.
Proof. vm_compute. reflexivity. Qed.

Lemma month_run (leap : bool) d :
  0 ≤ d < (if leap then 366 else 365) →
  ∃ m, 0 ≤ m < 12 ∧
    let day := d - days_before_month leap (Z.to_nat m) + 1 in
    CalculateMonthAndDaysFromPosix d leap = Ok (m + 1, day) ∧ 1 ≤ day ≤ month_days leap (m + 1).
Proof.
  intros Hd. assert (Hc : month_check leap d = true).
  { pose proof month_checks as [H1 H2]%andb_prop. rewrite forallb_forall in H1, H2.
    destruct leap; [apply H1|apply H2]; apply list_elem_of_In, elem_of_seqZ; lia. }
  unfold month_check in Hc. destruct (CalculateMonthAndDaysFromPosix d leap) as [[m day]|]; [|done].
  rewrite !andb_true_iff, !Z.leb_le, Z.eqb_eq in Hc. destruct Hc as [[[[H1 H2] H3] H4] H5].
  exists (m - 1). split; [lia|]. cbn zeta. rewrite <- H5. replace (m - 1 + 1) with m by lia. done.
Qed.

Lemma DaysInMonth_run leap m :
  0 ≤ m < 12 → DaysInMonth leap m = Ok (days_before_month leap (Z.to_nat m)).
Proof.
  intros Hm. assert (m ∈ seqZ 0 12) as Hin by (apply elem_of_seqZ; lia). revert Hin.
  assert (HF : Forall (λ m, DaysInMonth leap m = Ok (days_before_month leap (Z.to_nat m))) (seqZ 0 12)).
  { destruct leap; vm_compute; repeat constructor. }
  rewrite Forall_forall in HF. apply HF.
Qed.

Lemma days_before_month_bound (leap : bool) m : 0 ≤ m < 12 →
  0 ≤ days_before_month leap (Z.to_nat m) ∧
  days_before_month leap (Z.to_nat m) + month_days leap (m + 1) ≤ (if leap then 366 else 365).
Proof.
  intros Hm. assert (m ∈ seqZ 0 12) as Hin by (apply elem_of_seqZ; lia). revert Hin.
  assert (HF : Forall (λ m, 0 ≤ days_before_month leap (Z.to_nat m) ∧
    days_before_month leap (Z.to_nat m) + month_days leap (m + 1) ≤ (if leap then 366 else 365)) (seqZ 0 12)).
  { apply (bool_decide_unpack _). destruct leap; vm_compute; reflexivity. }
  rewrite Forall_forall in HF. apply HF.
Qed.

Lemma weekday_run year m day :
  1970 ≤ year → 1 ≤ day → 0 ≤ days_before_month (leap_year year) m →
  Z.rem (GetWeekdayJan1 (SumUpDays year) + (days_before_month (leap_year year) m + day) - 1) 7 =
  (4 + civil_day year m day) `mod` 7.
Proof.
  intros Hy Hd Hm. unfold GetWeekdayJan1, civil_day. rewrite epoch_days_sum.
  replace (1970 + Z.of_nat (Z.to_nat (year - 1970))) with year by lia.
  assert (0 ≤ SumUpDays year).
  { rewrite SumUpDays_div by lia. Z.to_euclidean_division_equations. lia. }
  rewrite (Z.rem_mod_nonneg (SumUpDays year + 1)) by lia.
  pose proof (Z.mod_pos_bound (SumUpDays year + 1) 7 ltac:(lia)).
  rewrite Z.rem_mod_nonneg by lia. change (SumUpDays 1970) with 719162.
  set (S := SumUpDays year) in *. set (B := days_before_month (leap_year year) m) in *. clearbody S B.
  Z.to_euclidean_division_equations. lia.
Qed.

Lemma ConvertFromPosixToTm_run t tz :
  dst_time_offset_minutes tz = 0 → 0 ≤ t + 60 * west_offset_minutes tz < max_time →
  ∃ r, ConvertFromPosixToTm t tz = Ok r ∧ tm_ok r ∧ tm_isdst r = 0 ∧
       civil_seconds r = t + 60 * west_offset_minutes tz.
Proof.
  intros Hdst HT. set (T := t + 60 * west_offset_minutes tz) in *.
  destruct (time_year T HT) as (n & HD & Hn). unfold ConvertFromPosixToTm.
  replace (t + west_offset_minutes tz * kSecondsInMinute) with T by (unfold kSecondsInMinute; lia).
  rewrite (wrap_u_small 64 T) by (unfold in_u, max_time in *; lia).
  rewrite (CalculateYears_run T n HT HD Hn), res_bind_ok. cbv beta iota zeta.
  unfold GetDSTOffset. rewrite Hdst. cbn [Z.eqb negb].
  set (L := T - 86400 * epoch_days n). set (year := 1970 + Z.of_nat n).
  assert (HL : 0 ≤ L < 86400 * year_days year) by (unfold L, year; cbn [epoch_days] in HD; lia).
  pose proof (year_days_range year).
  replace (kPosixToTmYearDiff + Z.of_nat n) with (year - 1900) by (unfold kPosixToTmYearDiff, kPosixEpoch, kTmBaseYear, year; lia).
  rewrite (wrap_u_small 64 (year - 1900)), (wrap_s_small 32 (year - 1900)) by (unfold in_u, in_s, year; lia).
  rewrite Z.add_0_r, (wrap_u_small 64 L) by (unfold in_u; lia).
  change kSecondsInDay with 86400. change kSecondsInHour with 3600. change kSecondsInMinute with 60.
  set (d := L / 86400). set (s := L - d * 86400). set (h := s / 3600). set (s' := s - h * 3600). set (mi := s' / 60).
  assert (Hd : L = 86400 * d + s ∧ 0 ≤ s < 86400) by (unfold s, d; Z.to_euclidean_division_equations; lia).
  assert (Hh : s = 3600 * h + s' ∧ 0 ≤ s' < 3600 ∧ 0 ≤ h < 24)
    by (unfold s', h; clearbody s; Z.to_euclidean_division_equations; lia).
  assert (Hmi : s' = 60 * mi + (s' - mi * 60) ∧ 0 ≤ s' - mi * 60 < 60 ∧ 0 ≤ mi < 60)
    by (unfold mi; clearbody s'; Z.to_euclidean_division_equations; lia).
  set (sec := s' - mi * 60) in *. clearbody sec mi s' h s d.
  unfold IsTmYearLeap. replace (year - 1900 + kTmBaseYear) with year by (unfold kTmBaseYear; lia).
  rewrite IsLeapYear_leap by (unfold year; lia). set (leap := leap_year year) in *.
  assert (Hd' : 0 ≤ d < (if leap then 366 else 365)) by (unfold year_days in HL; fold leap in HL; lia).
  destruct (month_run leap d Hd') as (m & Hm & HM & Hday). cbn zeta in HM, Hday. rewrite HM, res_bind_ok.
  set (day := d - days_before_month leap (Z.to_nat m) + 1) in *. cbv beta iota zeta.
  assert (month_days leap (m + 1) ≤ 31) by (unfold month_days; repeat case_match; lia).
  replace (m + 1 - 1) with m by lia.
  repeat rewrite ?wrap_s_small, ?wrap_u_small by (unfold in_s, in_u; lia).
  unfold CalculateDayOfWeek, SumYearDays, SumUpDays_tm, IsTmYearLeap. cbn [tm_year tm_mon tm_mday].
  replace (year - 1900 + kTmBaseYear) with year by (unfold kTmBaseYear; lia).
  rewrite IsLeapYear_leap by (unfold year; lia). fold leap. rewrite DaysInMonth_run, !res_bind_ok by done.
  pose proof (days_before_month_bound leap m Hm) as [Hb0 Hb1].
  unfold mret, res_ret. cbn [tm_mday]. unfold leap. rewrite weekday_run; [|unfold year; lia|lia|exact Hb0].
  fold leap. set (w := (4 + civil_day year (Z.to_nat m) day) `mod` 7).
  assert (Hw : 0 ≤ w < 7) by (apply Z.mod_pos_bound; lia).
  rewrite (wrap_s_small 32 w) by (unfold in_s; lia). cbn [tm_sec tm_min tm_hour tm_mday tm_mon tm_year tm_yday tm_isdst].
  eexists. split; [reflexivity|]. assert (Hyear : 1900 + (year - 1900) = year) by lia.
  split; [|split; [done|]].
  - split; cbn [tm_sec tm_min tm_hour tm_mday tm_mon tm_year tm_yday tm_isdst tm_wday]; rewrite ?Hyear;
      fold leap; try (done || lia); unfold year, day; lia.
  - unfold civil_seconds, civil_day, time_of_day. cbn [tm_sec tm_min tm_hour tm_mday tm_mon tm_year].
    rewrite Hyear. fold leap. replace (Z.to_nat (year - 1970)) with n by (unfold year; lia).
    unfold L, day in *. lia.
Qed.

(** ** From the fields to the time *)

Lemma tm_years_epoch y :
  1 ≤ y → y * 365 + (y - 1) ÷ 4 - (y - 1) ÷ 100 + (300 + y - 1) ÷ 400 - (70 * 365 + 17) =
  SumUpDays (1900 + y) - SumUpDays 1970.
Proof.
  intros Hy. rewrite !SumUpDays_div by lia. rewrite !Z.quot_div_nonneg by lia.
  Z.to_euclidean_division_equations. lia.
Qed.

Lemma ConvertDateTimeToPosix_run t tz :
  70 ≤ tm_year t → 0 ≤ tm_mon t < 12 → tm_isdst t = 0 →
  let s := civil_seconds t - 60 * west_offset_minutes tz in
  ConvertDateTimeToPosix t tz = if s <? 0 then Ok kConversionFailed else Ok (u64 s).
Proof.
  intros Hy Hm Hdst s. unfold ConvertDateTimeToPosix. rewrite Hdst.
  rewrite (proj2 (Z.ltb_ge (tm_mon t) 0)) by lia.
  rewrite Z.rem_mod_nonneg, Z.mod_small, Z.quot_div_nonneg, Z.div_small by lia.
  rewrite Z.mul_0_l, !Z.add_0_r, DaysInMonth_run, res_bind_ok by lia. cbn [Z.ltb Z.compare andb].
  unfold IsTmYearLeap, kTmBaseYear. rewrite IsLeapYear_leap, (Z.add_comm _ 1900) by lia.
  match goal with |- context [(?e <? 0)] => replace e with s end; [done|].
  subst s. unfold civil_seconds, civil_day, time_of_day. rewrite epoch_days_sum.
  replace (1970 + Z.of_nat (Z.to_nat (1900 + tm_year t - 1970))) with (1900 + tm_year t) by lia.
  rewrite <- tm_years_epoch by lia.
  change kPosixEpochTmSecondDiff with (86400 * (70 * 365 + 17)).
  change kSecondsInUsualYear with (86400 * 365). change kSecondsInDay with 86400.
  change kSecondsInHour with 3600. change kSecondsInMinute with 60. lia.
Qed.

(** ** Broken-down times are unique *)

Lemma days_before_month_mono leap (m m' : nat) :
  (m < m')%nat → days_before_month leap m + month_days leap (Z.of_nat m + 1) ≤ days_before_month leap m'.
Proof.
  induction 1 as [|m' Hm IH]; cbn [days_before_month].
  - by replace (Z.of_nat (S m)) with (Z.of_nat m + 1) by lia.
  - assert (0 ≤ month_days leap (Z.of_nat (S m'))) by (unfold month_days; repeat case_match; lia). lia.
Qed.

Lemma tm_ok_day t :
  tm_ok t → ∃ n, 1900 + tm_year t = 1970 + Z.of_nat n ∧
    civil_day (1900 + tm_year t) (Z.to_nat (tm_mon t)) (tm_mday t) = epoch_days n + tm_yday t ∧
    0 ≤ tm_yday t < year_days (1970 + Z.of_nat n).
Proof.
  intros [? ? ? Hm Hd Hy Hyd Hw]. exists (Z.to_nat (tm_year t - 70)).
  assert (E : 1900 + tm_year t = 1970 + Z.of_nat (Z.to_nat (tm_year t - 70))) by lia.
  split; [done|]. rewrite <- E. split.
  - unfold civil_day. rewrite Hyd. replace (1900 + tm_year t - 1970) with (tm_year t - 70) by lia. lia.
  - pose proof (days_before_month_bound (leap_year (1900 + tm_year t)) (tm_mon t) Hm).
    unfold year_days. destruct (leap_year (1900 + tm_year t)); lia.
Qed.

Lemma tm_unique t t' :
  tm_ok t → tm_ok t' → tm_isdst t = tm_isdst t' → civil_seconds t = civil_seconds t' → t = t'.
Proof.
  intros OK OK' Hdst HS. unfold civil_seconds in HS.
  destruct (tm_ok_day t OK) as (n & Hn & HD & Hyd), (tm_ok_day t' OK') as (n' & Hn' & HD' & Hyd').
  assert (Htod : ∀ u, tm_ok u → 0 ≤ time_of_day u < 86400).
  { intros u [? ? ? _ _ _ _ _]. unfold time_of_day. lia. }
  pose proof (Htod t OK). pose proof (Htod t' OK').
  assert (HDD : epoch_days n + tm_yday t = epoch_days n' + tm_yday t') by lia.
  assert (Hmono : ∀ a b, (a < b)%nat → epoch_days (S a) ≤ epoch_days b).
  { intros a b Hab. pose proof (epoch_days_mono (S a) b ltac:(lia)). lia. }
  assert (n' = n) as ->.
  { cbn [epoch_days] in Hmono. destruct (Nat.lt_trichotomy n n') as [Hc|[Hc|Hc]]; [|done|].
    - specialize (Hmono _ _ Hc). lia.
    - specialize (Hmono _ _ Hc). lia. }
  assert (Hy : tm_year t = tm_year t') by lia. assert (Hd : tm_yday t = tm_yday t') by lia.
  assert (Hm : tm_mon t = tm_mon t').
  { destruct OK as [_ _ _ Hm Hmd _ E _], OK' as [_ _ _ Hm' Hmd' _ E' _]. rewrite Hy in *.
    destruct (Z.lt_trichotomy (tm_mon t) (tm_mon t')) as [Hc|[Hc|Hc]]; [|done|].
    - pose proof (days_before_month_mono (leap_year (1900 + tm_year t')) (Z.to_nat (tm_mon t))
        (Z.to_nat (tm_mon t')) ltac:(lia)) as HB. rewrite Z2Nat.id in HB by lia. lia.
    - pose proof (days_before_month_mono (leap_year (1900 + tm_year t')) (Z.to_nat (tm_mon t'))
        (Z.to_nat (tm_mon t)) ltac:(lia)) as HB. rewrite Z2Nat.id in HB by lia. lia. }
  assert (Hmd : tm_mday t = tm_mday t').
  { destruct OK as [_ _ _ _ _ _ E _], OK' as [_ _ _ _ _ _ E' _]. rewrite Hy, Hm in E. lia. }
  assert (Hw : tm_wday t = tm_wday t').
  { rewrite (ok_wday _ OK), (ok_wday _ OK'). by rewrite Hy, Hm, Hmd. }
  rewrite Hy, Hm, Hmd in HS.
  destruct t, t'. cbn in *. destruct OK as [? ? ? _ _ _ _ _], OK' as [? ? ? _ _ _ _ _].
  unfold time_of_day in *. cbn in *. f_equal; try done; lia.
Qed.

(** C35. The conversion from POSIX time is the Gregorian calendar: for every time from 1970 to the
    end of the year 7999 and a time zone without daylight saving, [ConvertFromPosixToTm] ends
    without a failed assertion (so its year loops never need more iterations than it allows),
    the fields are in their ranges, the day of the year and the day of the week are those of the
    date, counting days year by year and month by month from Thursday 1970-01-01 gives back the
    local time, and no other fields have these properties. *)
Theorem posix_to_calendar t tz :
  dst_time_offset_minutes tz = 0 → 0 ≤ t + 60 * west_offset_minutes tz < max_time →
  ∃ r, ConvertFromPosixToTm t tz = Ok r ∧ tm_ok r ∧ tm_isdst r = 0 ∧
       civil_seconds r = t + 60 * west_offset_minutes tz ∧
       ∀ r', tm_ok r' → tm_isdst r' = 0 →
             civil_seconds r' = t + 60 * west_offset_minutes tz → r' = r.
Proof.
  intros Hdst HT. destruct (ConvertFromPosixToTm_run t tz Hdst HT) as (r & Hr & OK & Hd & HS).
  exists r. split_and!; [done..|]. intros r' OK' Hd' HS'. apply tm_unique; [done..|congruence|congruence].
Qed.

Lemma posix_to_calendar_witness :
  ∃ r, ConvertFromPosixToTm 951782400 kUtcTimezone = Ok r ∧ tm_ok r ∧
    civil_seconds r = 951782400.
Proof.
  destruct (posix_to_calendar 951782400 kUtcTimezone eq_refl ltac:(vm_compute; split; [discriminate|reflexivity]))
    as (r & H & OK & _ & HS & _).
  exists r. exact (conj H (conj OK HS)).
Defined.

(** [mktime] is the inverse of the calendar: for any fields with a month in its range, from
    1970 on (the seconds, minutes, hours and days may lie outside their ranges), and a zone
    without daylight saving, it returns the number of seconds that the calendar gives and
    normalises the fields to the unique broken-down time of that instant, so converting back and
    forth is the identity and the final assertion holds; a time before the epoch is reported
    as failed and leaves the fields alone. *)
Theorem mktime_inverts_calendar t tz :
  70 ≤ tm_year t → 0 ≤ tm_mon t < 12 → tm_isdst t = 0 → dst_time_offset_minutes tz = 0 →
  0 ≤ civil_seconds t < max_time → civil_seconds t - 60 * west_offset_minutes tz < max_time →
  let s := civil_seconds t - 60 * west_offset_minutes tz in
  (s < 0 ∧ MkTimeFromTimeZone t tz = Ok (kMktimeFailed, t)) ∨
  (0 ≤ s ∧ ∃ r, MkTimeFromTimeZone t tz = Ok (s, r) ∧ tm_ok r ∧ civil_seconds r = civil_seconds t ∧
     ConvertFromPosixToTm s tz = Ok r ∧ (tm_ok t → r = t)).
Proof.
  intros Hy Hm Hdst Htz HT HT2 s. unfold MkTimeFromTimeZone.
  rewrite (ConvertDateTimeToPosix_run t tz Hy Hm Hdst). fold s.
  destruct (Z.ltb_spec s 0) as [Hs|Hs]; rewrite res_bind_ok; [by left|right]. split; [done|].
  assert (Hu : in_u 64 s) by (unfold in_u, s, max_time in *; lia).
  rewrite (wrap_u_small 64 s) by done.
  assert (Hnf : (s =? kConversionFailed) = false).
  { apply Z.eqb_neq. change kConversionFailed with 18446744073709551615. unfold s, max_time in *. lia. }
  rewrite Hnf. replace (civil_seconds t) with (s + 60 * west_offset_minutes tz) in HT by lia.
  destruct (ConvertFromPosixToTm_run s tz Htz HT) as (r & Hr & OK & Hd & HS). rewrite Hr, res_bind_ok.
  rewrite (ConvertDateTimeToPosix_run r tz); [|apply OK|apply OK|done]. rewrite HS.
  replace (s + 60 * west_offset_minutes tz - 60 * west_offset_minutes tz) with s by lia.
  rewrite (proj2 (Z.ltb_ge s 0)), res_bind_ok, (wrap_u_small 64 s), Z.eqb_refl by done.
  exists r. split_and!; [done|done|unfold s in HS; lia|done|].
  intros OKt. apply tm_unique; [done|done|congruence|]. rewrite HS. unfold s. lia.
Qed.

Lemma mktime_inverts_calendar_witness :
  ∃ r, MkTimeFromTimeZone (mkTm 70 59 23 31 11 99 0 0 0) (mkTimezone 60 0 0 0) = Ok (946681210, r) ∧ tm_ok r.
Proof.
  destruct (mktime_inverts_calendar (mkTm 70 59 23 31 11 99 0 0 0) (mkTimezone 60 0 0 0)) as [[H _]|[_ (r & H & OK & _)]];
    [discriminate|split; [discriminate|reflexivity]|reflexivity|reflexivity|
     vm_compute; split; [discriminate|reflexivity]|vm_compute; reflexivity|vm_compute in H; discriminate H|].
  exists r. split; [exact H|exact OK].
Defined.

(** A negative month is taken to the wrong year: for the months -11 to -1, which are months
    of the year before, [ConvertDateTimeToPosix] uses the month of the given year, and so
    returns a time one year late, since the division of the month by 12 rounds towards zero. *)
Theorem negative_month_one_year_late t tz :
  71 ≤ tm_year t → -11 ≤ tm_mon t ≤ -1 → tm_isdst t = 0 →
  let year m := mkTm (tm_sec t) (tm_min t) (tm_hour t) (tm_mday t) (tm_mon t + 12) m 0 0 0 in
  ConvertDateTimeToPosix t tz = ConvertDateTimeToPosix (year (tm_year t)) tz ∧
  civil_seconds (year (tm_year t - 1)) + 365 * 86400 ≤ civil_seconds (year (tm_year t)).
Proof.
  intros Hy Hm Hdst year. split.
  - unfold ConvertDateTimeToPosix, year. cbn [tm_sec tm_min tm_hour tm_mday tm_mon tm_year tm_isdst].
    rewrite Hdst, (proj2 (Z.ltb_lt (tm_mon t) 0)), (proj2 (Z.ltb_ge (tm_mon t + 12) 0)) by lia.
    assert (Hr : Z.rem (tm_mon t) 12 = tm_mon t ∧ tm_mon t ÷ 12 = 0).
    { Z.to_euclidean_division_equations. lia. }
    destruct Hr as [-> ->].
    rewrite (Z.rem_small (tm_mon t + 12) 12), (Z.quot_small (tm_mon t + 12) 12) by lia.
    rewrite Z.mul_0_l, !Z.add_0_r, Z.mul_1_l. reflexivity.
  - unfold civil_seconds, civil_day, time_of_day, year. cbn [tm_sec tm_min tm_hour tm_mday tm_mon tm_year].
    set (y := 1900 + tm_year t). replace (1900 + (tm_year t - 1)) with (y - 1) by lia.
    replace (Z.to_nat (y - 1970)) with (S (Z.to_nat (y - 1 - 1970))) by lia. cbn [epoch_days].
    replace (1970 + Z.of_nat (Z.to_nat (y - 1 - 1970))) with (y - 1) by lia.
    assert (Hleap : ∀ (l : bool) m, days_before_month l m = days_before_month false m +
      (if l then (if (2 <=? m)%nat then 1 else 0) else 0)).
    { intros [] k; [|lia]. induction k as [|k IHk]; [done|]. cbn [days_before_month]. rewrite IHk.
      unfold month_days. destruct k as [|[|k]]; [done|done|].
      rewrite (proj2 (Z.eqb_neq _ 2)) by lia. cbn. lia. }
    rewrite (Hleap (leap_year y)), (Hleap (leap_year (y - 1))). unfold year_days.
    destruct (leap_year y), (leap_year (y - 1)), (2 <=? Z.to_nat (tm_mon t + 12))%nat; lia.
Qed.

Lemma negative_month_one_year_late_witness :
  ConvertDateTimeToPosix (mkTm 0 0 0 1 (-1) 100 0 0 0) kUtcTimezone =
  ConvertDateTimeToPosix (mkTm 0 0 0 1 11 100 0 0 0) kUtcTimezone.
Proof.
  exact (proj1 (negative_month_one_year_late (mkTm 0 0 0 1 (-1) 100 0 0 0) kUtcTimezone
    ltac:(discriminate) ltac:(split; discriminate) eq_refl)).
Defined.

(** ** Week numbers *)

(** Days from the first of January of year 1, a Monday, to that of year [n + 1]. *)
Fixpoint ce_days (n : nat) : Z :=
  match n with O => 0 | S n => ce_days n + year_days (Z.of_nat (S n)) end.

(** Monday is 1, Sunday is 7; [doy] counts from 1. *)
Definition iso_weekday (y doy : Z) : Z := (ce_days (Z.to_nat (y - 1)) + (doy - 1)) `mod` 7 + 1.

(** ISO 8601: a week starts on Monday and belongs to the year of its Thursday, in which it is
    numbered by its Thursday. *)
Definition iso_week_date (y doy : Z) : Z * Z :=
  let thursday := doy - iso_weekday y doy + 4 in
  if thursday <? 1 then (y - 1, (thursday + year_days (y - 1) - 1) / 7 + 1)
  else if year_days y <? thursday then (y + 1, (thursday - year_days y - 1) / 7 + 1)
  else (y, (thursday - 1) / 7 + 1).

Lemma ce_days_sum n : ce_days n = SumUpDays (Z.of_nat n + 1).
Proof.
  induction n as [|n IH]; [done|]. cbn [ce_days]. rewrite IH.
  replace (Z.of_nat (S n)) with (Z.of_nat n + 1) by lia.
  by rewrite (SumUpDays_S (Z.of_nat n + 1)) by lia.
Qed.

Lemma SumUpDays_nonneg y : 1 ≤ y → 0 ≤ SumUpDays y.
Proof. intros. rewrite SumUpDays_div by lia. Z.to_euclidean_division_equations. lia. Qed.

#[export] Instance res_eq_dec {A} `{EqDecision A} : EqDecision (res A).
Proof. solve_decision. Defined.

(** The common shape of the two functions: a day belongs to the last week of the year before,
    to the first week of the year after, or to a week of its own year. *)
Definition week_case {A} (prev next : A) (own : Z → A) (jan1_weekday : Z) (leap : bool) (days_sum : Z) : A :=
  let normalized_jan1_weekday := if jan1_weekday =? 0 then 7 else jan1_weekday in
  let days_in_first_week := 8 - normalized_jan1_weekday in
  let is_first_week_in_this_year := 4 <=? days_in_first_week in
  if days_sum <=? days_in_first_week then
    if negb is_first_week_in_this_year then prev else own 1
  else
    let total_years_days := if leap then 366 else 365 in
    let days_in_last_not_full_week := Z.rem (total_years_days - days_in_first_week) 7 in
    if (days_in_last_not_full_week <? 4) && (0 <? days_in_last_not_full_week) &&
       (total_years_days - days_in_last_not_full_week <? days_sum)
    then next
    else own (1 + (if is_first_week_in_this_year then 1 else 0) + (days_sum - days_in_first_week - 1) ÷ 7).

(** The reference, as a function of the same data: the weekday of January 1 (Sunday is 0) and
    which of the two years are leap. *)
Definition iso_core (y j : Z) (pleap leap : bool) (doy : Z) : Z * Z :=
  let days (l : bool) := if l then 366 else 365 in
  let thursday := doy - ((j + 6 + (doy - 1)) `mod` 7 + 1) + 4 in
  if thursday <? 1 then (y - 1, (thursday + days pleap - 1) / 7 + 1)
  else if days leap <? thursday then (y + 1, (thursday - days leap - 1) / 7 + 1)
  else (y, (thursday - 1) / 7 + 1).

Definition iso_check (pleap leap nleap : bool) (j doy : Z) : bool :=
  let days (l : bool) := if l then 366 else 365 in
  let prev := week_case (Stop NoFuel) (Stop NoFuel) Ok ((j - days pleap) `mod` 7) pleap (days pleap) in
  let next := week_case (Stop NoFuel) (Stop NoFuel) Ok ((j + days leap) `mod` 7) nleap 1 in
  bool_decide (week_case prev next Ok j leap doy = Ok (iso_core 0 j pleap leap doy).2) &&
  (week_case (-1) 1 (λ _, 0) j leap doy =? (iso_core 0 j pleap leap doy).1).

Lemma iso_checks :
  forallb (λ p, forallb (λ l, forallb (λ n, forallb (λ j, forallb (iso_check p l n j)
    (seqZ 1 (if l : bool then 366 else 365))) (seqZ 0 7)) [true; false]) [true; false]) [true; false] = true.
Proof. vm_compute. reflexivity. Qed.

Lemma iso_check_ok pleap leap nleap j doy :
  0 ≤ j < 7 → 1 ≤ doy ≤ (if leap : bool then 366 else 365) → iso_check pleap leap nleap j doy = true.
Proof.
  intros Hj Hd. pose proof iso_checks as H. rewrite forallb_forall in H.
  specialize (H pleap ltac:(destruct pleap; cbn; tauto)). rewrite forallb_forall in H.
  specialize (H leap ltac:(destruct leap; cbn; tauto)). rewrite forallb_forall in H.
  specialize (H nleap ltac:(destruct nleap; cbn; tauto)). rewrite forallb_forall in H.
  specialize (H j ltac:(apply list_elem_of_In, elem_of_seqZ; lia)). rewrite forallb_forall in H.
  apply H, list_elem_of_In, elem_of_seqZ. lia.
Qed.

(** A result that does not come from a neighbouring year does not depend on it. *)
Lemma week_case_mono (prev next prev' next' : res Z) j leap d w :
  (∀ w, prev = Ok w → prev' = Ok w) → (∀ w, next = Ok w → next' = Ok w) →
  week_case prev next Ok j leap d = Ok w → week_case prev' next' Ok j leap d = Ok w.
Proof. unfold week_case. intros ? ?. repeat case_match; auto. Qed.

Lemma week_case_map {A B} (f : A → B) prev next own j leap d :
  f (week_case prev next own j leap d) = week_case (f prev) (f next) (λ w, f (own w)) j leap d.
Proof. unfold week_case. repeat case_match; done. Qed.

(** January 1 of a year and of its neighbours. *)
Definition jan1 (y : Z) : Z := GetWeekdayJan1 (SumUpDays y).

Lemma jan1_mod y : 1 ≤ y → jan1 y = (SumUpDays y + 1) `mod` 7.
Proof. intros Hy. pose proof (SumUpDays_nonneg y Hy). apply Z.rem_mod_nonneg; lia. Qed.

Lemma jan1_next y : 1 ≤ y → jan1 (y + 1) = (jan1 y + year_days y) `mod` 7.
Proof.
  intros Hy. rewrite !jan1_mod, SumUpDays_S by lia. rewrite Zplus_mod_idemp_l. f_equal. lia.
Qed.

Lemma jan1_prev y : 2 ≤ y → jan1 (y - 1) = (jan1 y - year_days (y - 1)) `mod` 7.
Proof.
  intros Hy. rewrite !jan1_mod by lia. replace y with (y - 1 + 1) at 2 by lia. rewrite SumUpDays_S by lia.
  rewrite Zminus_mod_idemp_l. f_equal. lia.
Qed.

Lemma iso_core_date y doy :
  2 ≤ y → iso_week_date y doy =
  (y + (iso_core 0 (jan1 y) (leap_year (y - 1)) (leap_year y) doy).1,
   (iso_core 0 (jan1 y) (leap_year (y - 1)) (leap_year y) doy).2).
Proof.
  intros Hy. unfold iso_week_date, iso_core, iso_weekday, year_days. rewrite ce_days_sum, jan1_mod by lia.
  replace (Z.of_nat (Z.to_nat (y - 1)) + 1) with y by lia.
  replace (((SumUpDays y + 1) `mod` 7 + 6 + (doy - 1)) `mod` 7) with ((SumUpDays y + (doy - 1)) `mod` 7).
  2:{ rewrite <- Z.add_assoc, Zplus_mod_idemp_l.
      replace (SumUpDays y + 1 + (6 + (doy - 1))) with (SumUpDays y + (doy - 1) + 1 * 7) by lia.
      by rewrite Z_mod_plus_full. }
  repeat case_match; cbn; f_equal; lia.
Qed.

Lemma iso_week_unfold fuel t d :
  SumYearDays t = Ok d →
  CalculateIsoBasedWeek (S fuel) t =
  week_case (CalculateIsoBasedWeek fuel (mkTm 0 0 0 31 11 (tm_year t - 1) 0 0 0))
    (CalculateIsoBasedWeek fuel (mkTm 0 0 0 1 0 (tm_year t + 1) 0 0 0)) Ok
    (jan1 (tm_year t + kTmBaseYear)) (IsTmYearLeap (tm_year t)) d.
Proof. intros H. cbn [CalculateIsoBasedWeek]. rewrite H. reflexivity. Qed.

Lemma SumYearDays_run t :
  0 ≤ tm_year t + 1900 → 0 ≤ tm_mon t < 12 →
  SumYearDays t = Ok (days_before_month (leap_year (tm_year t + 1900)) (Z.to_nat (tm_mon t)) + tm_mday t).
Proof.
  intros Hy Hm. unfold SumYearDays, IsTmYearLeap. rewrite IsLeapYear_leap by done.
  by rewrite DaysInMonth_run by done.
Qed.

Lemma iso_week_run t :
  2 ≤ tm_year t + 1900 → 0 ≤ tm_mon t < 12 →
  1 ≤ tm_mday t ≤ month_days (leap_year (tm_year t + 1900)) (tm_mon t + 1) →
  let y := tm_year t + 1900 in
  let doy := days_before_month (leap_year y) (Z.to_nat (tm_mon t)) + tm_mday t in
  CalculateIsoBasedWeek 3 t = Ok (iso_week_date y doy).2 ∧
  CalculateIsoBasedYear t = Ok (iso_week_date y doy).1.
Proof.
  intros Hy Hm Hd y doy.
  assert (HS : SumYearDays t = Ok doy) by (by apply SumYearDays_run; [lia|]).
  pose proof (days_before_month_bound (leap_year y) (tm_mon t) Hm) as Hb.
  assert (Hdoy : 1 ≤ doy ≤ (if leap_year y then 366 else 365)) by (unfold doy; fold y in Hd; lia).
  assert (Hj : 0 ≤ jan1 y < 7) by (rewrite jan1_mod by lia; apply Z.mod_pos_bound; lia).
  pose proof (iso_check_ok (leap_year (y - 1)) (leap_year y) (leap_year (y + 1)) (jan1 y) doy Hj Hdoy) as HC.
  unfold iso_check in HC. apply andb_prop in HC as [HC1%bool_decide_eq_true HC2%Z.eqb_eq].
  assert (HL : ∀ u, 0 ≤ u + 1900 → IsTmYearLeap u = leap_year (u + 1900)) by (intros; by apply IsLeapYear_leap).
  rewrite iso_core_date by lia. cbn [fst snd]. split.
  - rewrite (iso_week_unfold 2 t doy HS), HL by lia. fold y.
    rewrite (iso_week_unfold 1 (mkTm 0 0 0 31 11 (tm_year t - 1) 0 0 0) (year_days (y - 1))).
    2:{ rewrite SumYearDays_run by (cbn; lia). cbn [tm_year tm_mon tm_mday].
        replace (tm_year t - 1 + 1900) with (y - 1) by lia. unfold year_days. by destruct (leap_year (y - 1)). }
    rewrite (iso_week_unfold 1 (mkTm 0 0 0 1 0 (tm_year t + 1) 0 0 0) 1).
    2:{ rewrite SumYearDays_run by (cbn; lia). by cbn. }
    cbn [tm_year tm_mon tm_mday]. rewrite !HL by lia. unfold kTmBaseYear.
    replace (tm_year t - 1 + 1900) with (y - 1) by lia. replace (tm_year t + 1 + 1900) with (y + 1) by lia.
    fold y. rewrite jan1_prev, jan1_next by lia. 
    revert HC1. unfold year_days. apply week_case_mono; intros w; apply week_case_mono; done.
  - rewrite <- HC2. unfold CalculateIsoBasedYear. rewrite HS, res_bind_ok. rewrite HL by lia.
    change (tm_year t + 1900) with y. change (GetWeekdayJan1 (SumUpDays_tm t)) with (jan1 y).
    rewrite (week_case_map (λ k, y + k)). rewrite (week_case_map Ok).
    replace (y + -1) with (kTmBaseYear + tm_year t - 1) by (unfold y, kTmBaseYear; lia).
    replace (y + 1) with (kTmBaseYear + tm_year t + 1) by (unfold y, kTmBaseYear; lia).
    replace (y + 0) with (kTmBaseYear + tm_year t) by (unfold y, kTmBaseYear; lia). reflexivity.
Qed.

(** The week numbers are those of ISO 8601: for every date from the year 2 on,
    [CalculateIsoBasedWeek] and [CalculateIsoBasedYear] return the number and the year of the
    week of the date, where a week starts on Monday and belongs to the year of its Thursday.  In
    particular the recursion into the neighbouring years ends. *)
Theorem iso_week_numbers t :
  2 ≤ tm_year t + 1900 → 0 ≤ tm_mon t < 12 →
  1 ≤ tm_mday t ≤ month_days (leap_year (tm_year t + 1900)) (tm_mon t + 1) →
  let y := tm_year t + 1900 in
  let doy := days_before_month (leap_year y) (Z.to_nat (tm_mon t)) + tm_mday t in
  CalculateIsoBasedWeek 3 t = Ok (iso_week_date y doy).2 ∧
  CalculateIsoBasedYear t = Ok (iso_week_date y doy).1.
Proof. apply iso_week_run. Qed.

Lemma iso_week_numbers_witness :
  CalculateIsoBasedWeek 3 (mkTm 0 0 0 1 0 121 0 0 0) = Ok 53 ∧
  CalculateIsoBasedYear (mkTm 0 0 0 1 0 121 0 0 0) = Ok 2020.
Proof.
  exact (iso_week_numbers (mkTm 0 0 0 1 0 121 0 0 0) ltac:(vm_compute; discriminate)
    ltac:(vm_compute; split; [discriminate|reflexivity]) ltac:(vm_compute; split; discriminate)).
Defined.

(** Daylight saving breaks the last hours of a year: when it is in effect at the end of the
    year (its start lies after its end, as on the southern hemisphere), the offset is added
    after the year has been determined, the day of the year can reach the length of the year,
    and the conversion stops in a failed assertion: here for 1970-12-31 23:00:00 to 23:59:59. *)
Theorem dst_year_end_fails t :
  31532400 ≤ t < 31536000 →
  ConvertFromPosixToTm t (mkTimezone 0 60 20000 10000) = Stop (Panic "days < days in year").
Proof.
  intros Ht. unfold ConvertFromPosixToTm.
  cbn [west_offset_minutes dst_time_offset_minutes dst_time_start_seconds dst_time_end_seconds].
  rewrite Z.mul_0_l, Z.add_0_r, (wrap_u_small 64 t) by (unfold in_u; lia).
  rewrite (CalculateYears_run t 0); [|unfold max_time; lia| |lia].
  2:{ change (epoch_days 1) with 365. change (epoch_days 0) with 0. lia. }
  rewrite res_bind_ok. cbv beta iota zeta. change (epoch_days 0) with 0. rewrite Z.mul_0_r, Z.sub_0_r.
  unfold GetDSTOffset. cbn [dst_time_offset_minutes dst_time_start_seconds dst_time_end_seconds].
  change (60 =? 0) with false. change (20000 <? 10000) with false. cbv iota.
  rewrite (proj2 (Z.leb_le 20000 t)) by lia. cbn [orb]. change (u64 (60 * kSecondsInMinute)) with 3600.
  rewrite (wrap_u_small 64 (t + 3600)) by (unfold in_u; lia).
  replace ((t + 3600) / kSecondsInDay) with 365; [reflexivity|].
  change kSecondsInDay with 86400. Z.to_euclidean_division_equations. lia.
Qed.

Lemma dst_year_end_fails_witness :
  ConvertFromPosixToTm 31535999 (mkTimezone 0 60 20000 10000) = Stop (Panic "days < days in year").
Proof. apply dst_year_end_fails. split; [discriminate|reflexivity]. Defined.
