(* ===== verification/Movers.v ===== *)
(** * Moving sectors and lights of DOOM

    Models p_floor.c, p_plats.c, p_doors.c, p_ceilng.c and p_lights.c, the searches of p_spec.c
    that they use, its donut, and the random number table of m_random.c.  A pointer to a sector,
    line or side is its index; a thinker is known by an address that [Z_Malloc] has not given out
    before, and the thinkers are a list in the order of [P_AddThinker] (Thinkers.v relates the
    linked list to it).  Fields that the code leaves unset hold whatever was in the memory: the
    parameters [junk_*].  [P_ChangeSector] of p_map.c, which moves, crushes and damages the things
    of a sector and tells whether one does not fit, is the parameter [change].  Sounds are left
    out: they do not change the game. *)
From S2P Require Import Prelude.

(** ** Data *)

Inductive result_e : Type := ok | crushed | pastdest.
Inductive plat_e : Type := up | down | waiting | in_stasis.
Inductive plattype_e : Type :=
| perpetualRaise | downWaitUpStay | raiseAndChange | raiseToNearestAndChange | blazeDWUS.
Inductive vldoor_e : Type :=
| vld_normal | vld_close30ThenOpen | vld_close | vld_open | vld_raiseIn5Mins | vld_blazeRaise
| vld_blazeOpen | vld_blazeClose.
Inductive ceiling_e : Type :=
| lowerToFloor | raiseToHighest | lowerAndCrush | crushAndRaise | fastCrushAndRaise | silentCrushAndRaise.
Inductive floor_e : Type :=
| lowerFloor | lowerFloorToLowest | turboLower | raiseFloor | raiseFloorToNearest | raiseToTexture
| lowerAndChange | raiseFloor24 | raiseFloor24AndChange | raiseFloorCrush | raiseFloorTurbo
| donutRaise | raiseFloor512.
Inductive stair_e : Type := build8 | turbo16.

#[export] Instance result_e_eq : EqDecision result_e.
Proof. solve_decision. Defined.
#[export] Instance plat_e_eq : EqDecision plat_e.
Proof. solve_decision. Defined.
#[export] Instance plattype_e_eq : EqDecision plattype_e.
Proof. solve_decision. Defined.
#[export] Instance vldoor_e_eq : EqDecision vldoor_e.
Proof. solve_decision. Defined.
#[export] Instance ceiling_e_eq : EqDecision ceiling_e.
Proof. solve_decision. Defined.
#[export] Instance floor_e_eq : EqDecision floor_e.
Proof. solve_decision. Defined.

Definition FRACUNIT : Z := 65536.
Definition TICRATE : Z := 35.
Definition INT_MAX : Z := 2 ^ 31 - 1.
Definition PLATWAIT : Z := 3.
Definition PLATSPEED : Z := FRACUNIT.
Definition MAXPLATS : nat := 30.
Definition VDOORSPEED : Z := FRACUNIT * 2.
Definition VDOORWAIT : Z := 150.
Definition CEILSPEED : Z := FRACUNIT.
Definition MAXCEILINGS : nat := 30.
Definition FLOORSPEED : Z := FRACUNIT.
Definition GLOWSPEED : Z := 8.
Definition STROBEBRIGHT : Z := 5.
Definition SLOWDARK : Z := 35.
Definition MAXBUTTONS : nat := 16.
Definition MAX_ADJOINING_SECTORS : Z := 20.

Record sector_t : Type := mkSector {
  floorheight : Z;
  ceilingheight : Z;
  floorpic : Z;
  lightlevel : Z;
  special : Z;
  tag : Z;
  specialdata : option Z;
  slines : list Z;
}.

Record line_t : Type := mkLine {
  two_sided : bool;            (* flags & ML_TWOSIDED *)
  secret : bool;               (* flags & ML_SECRET *)
  lspecial : Z;
  ltag : Z;
  sidenum : Z * Z;
  frontsector : Z;
  backsector : option Z;
}.

Record side_t : Type := mkSide {
  textureoffset : Z;
  toptexture : Z;
  bottomtexture : Z;
  midtexture : Z;
  side_sector : Z;
}.

Record vldoor_t : Type := mkDoor {
  vd_type : vldoor_e;
  vd_sector : Z;
  vd_topheight : Z;
  vd_speed : Z;
  vd_direction : Z;
  vd_topwait : Z;
  vd_topcountdown : Z;
}.

Record plat_t : Type := mkPlat {
  pt_sector : Z;
  pt_speed : Z;
  pt_low : Z;
  pt_high : Z;
  pt_wait : Z;
  pt_count : Z;
  pt_status : plat_e;
  pt_oldstatus : plat_e;
  pt_crush : bool;
  pt_tag : Z;
  pt_type : plattype_e;
}.

Record floormove_t : Type := mkFloor {
  fm_type : floor_e;
  fm_crush : bool;
  fm_sector : Z;
  fm_direction : Z;
  fm_newspecial : Z;
  fm_texture : Z;
  fm_floordestheight : Z;
  fm_speed : Z;
}.

Record ceiling_t : Type := mkCeiling {
  ce_type : ceiling_e;
  ce_sector : Z;
  ce_bottomheight : Z;
  ce_topheight : Z;
  ce_speed : Z;
  ce_crush : bool;
  ce_direction : Z;
  ce_tag : Z;
  ce_olddirection : Z;
}.

Record fireflicker_t : Type := mkFlicker { ff_sector : Z; ff_count : Z; ff_maxlight : Z; ff_minlight : Z }.
Record lightflash_t : Type := mkFlash {
  lf_sector : Z; lf_count : Z; lf_maxlight : Z; lf_minlight : Z; lf_maxtime : Z; lf_mintime : Z }.
Record strobe_t : Type := mkStrobe {
  sr_sector : Z; sr_count : Z; sr_minlight : Z; sr_maxlight : Z; sr_darktime : Z; sr_brighttime : Z }.
Record glow_t : Type := mkGlow { gl_sector : Z; gl_minlight : Z; gl_maxlight : Z; gl_direction : Z }.

Inductive object : Type :=
| ODoor (o : vldoor_t)
| OPlat (o : plat_t)
| OFloor (o : floormove_t)
| OCeiling (o : ceiling_t)
| OFlicker (o : fireflicker_t)
| OFlash (o : lightflash_t)
| OStrobe (o : strobe_t)
| OGlow (o : glow_t).

(** Where a wall switch has its texture. *)
Inductive bwhere_e : Type := top | middle | bottom.

(** A wall button that will switch back. *)
Record button_t : Type := mkButton {
  b_line : option Z;
  b_where : bwhere_e;
  b_texture : Z;
  b_timer : Z;
}.

(** The counters and the list of scrolling walls that [P_SpawnSpecials] sets up. *)
Record specials_t : Type := mkSpecials {
  totalsecret : Z;
  levelTimer : bool;
  levelTimeCount : Z;
  linespeciallist : list Z;
}.

(** The function pointer of a thinker: the action of its kind, null for one in stasis, and -1 for
    one that [P_RemoveThinker] has marked. *)
Inductive action : Type := act_run | act_null | act_removed.

#[export] Instance action_eq : EqDecision action.
Proof. solve_decision. Defined.

Record thinker_t : Type := mkThinker {
  th_addr : Z;
  th_function : action;
  th_obj : object;
}.

Record world (T : Type) : Type := mkWorld {
  sectors : list sector_t;
  lines : list line_t;
  sides : list side_t;
  thinkers : list thinker_t;
  next_addr : Z;                     (* above every address given out *)
  activeplats : list (option Z);
  activeceilings : list (option Z);
  prndindex : Z;
  message : option string;           (* of the player that acts *)
  buttonlist : list button_t;
  specials : specials_t;
  exiting : option bool;             (* gameaction is ga_completed; whether by the secret exit *)
  things : T;
}.
Arguments mkWorld {T} _ _ _ _ _ _ _ _ _ _ _ _ _.
Arguments sectors {T} _.
Arguments lines {T} _.
Arguments sides {T} _.
Arguments thinkers {T} _.
Arguments next_addr {T} _.
Arguments activeplats {T} _.
Arguments activeceilings {T} _.
Arguments prndindex {T} _.
Arguments message {T} _.
Arguments buttonlist {T} _.
Arguments specials {T} _.
Arguments exiting {T} _.
Arguments things {T} _.

Definition set_floorheight (v : Z) (s : sector_t) : sector_t :=
  mkSector v (ceilingheight s) (floorpic s) (lightlevel s) (special s) (tag s) (specialdata s) (slines s).
Definition set_ceilingheight (v : Z) (s : sector_t) : sector_t :=
  mkSector (floorheight s) v (floorpic s) (lightlevel s) (special s) (tag s) (specialdata s) (slines s).
Definition set_floorpic (v : Z) (s : sector_t) : sector_t :=
  mkSector (floorheight s) (ceilingheight s) v (lightlevel s) (special s) (tag s) (specialdata s) (slines s).
Definition set_lightlevel (v : Z) (s : sector_t) : sector_t :=
  mkSector (floorheight s) (ceilingheight s) (floorpic s) (i16 v) (special s) (tag s) (specialdata s) (slines s).
Definition set_special (v : Z) (s : sector_t) : sector_t :=
  mkSector (floorheight s) (ceilingheight s) (floorpic s) (lightlevel s) (i16 v) (tag s) (specialdata s) (slines s).
Definition set_specialdata (v : option Z) (s : sector_t) : sector_t :=
  mkSector (floorheight s) (ceilingheight s) (floorpic s) (lightlevel s) (special s) (tag s) v (slines s).

Definition set_lspecial (v : Z) (l : line_t) : line_t :=
  mkLine (two_sided l) (secret l) v (ltag l) (sidenum l) (frontsector l) (backsector l).

Section access.
Context {T : Type}.
Implicit Types w : world T.

Definition with_sectors (s : list sector_t) w : world T :=
  mkWorld s (lines w) (sides w) (thinkers w) (next_addr w) (activeplats w) (activeceilings w) (prndindex w) (message w) (buttonlist w) (specials w) (exiting w) (things w).
Definition with_lines (l : list line_t) w : world T :=
  mkWorld (sectors w) l (sides w) (thinkers w) (next_addr w) (activeplats w) (activeceilings w) (prndindex w) (message w) (buttonlist w) (specials w) (exiting w) (things w).
Definition with_thinkers (t : list thinker_t) (n : Z) w : world T :=
  mkWorld (sectors w) (lines w) (sides w) t n (activeplats w) (activeceilings w) (prndindex w) (message w) (buttonlist w) (specials w) (exiting w) (things w).
Definition with_plats (p : list (option Z)) w : world T :=
  mkWorld (sectors w) (lines w) (sides w) (thinkers w) (next_addr w) p (activeceilings w) (prndindex w) (message w) (buttonlist w) (specials w) (exiting w) (things w).
Definition with_ceilings (c : list (option Z)) w : world T :=
  mkWorld (sectors w) (lines w) (sides w) (thinkers w) (next_addr w) (activeplats w) c (prndindex w) (message w) (buttonlist w) (specials w) (exiting w) (things w).
Definition with_things (r : Z) (t : T) w : world T :=
  mkWorld (sectors w) (lines w) (sides w) (thinkers w) (next_addr w) (activeplats w) (activeceilings w) r (message w) (buttonlist w) (specials w) (exiting w) t.
Definition with_sides (d : list side_t) w : world T :=
  mkWorld (sectors w) (lines w) d (thinkers w) (next_addr w) (activeplats w) (activeceilings w) (prndindex w) (message w) (buttonlist w) (specials w) (exiting w) (things w).
Definition with_buttons (b : list button_t) w : world T :=
  mkWorld (sectors w) (lines w) (sides w) (thinkers w) (next_addr w) (activeplats w) (activeceilings w) (prndindex w) (message w) b (specials w) (exiting w) (things w).
Definition with_specials (x : specials_t) w : world T :=
  mkWorld (sectors w) (lines w) (sides w) (thinkers w) (next_addr w) (activeplats w) (activeceilings w) (prndindex w) (message w) (buttonlist w) x (exiting w) (things w).
Definition with_exiting (e : option bool) w : world T :=
  mkWorld (sectors w) (lines w) (sides w) (thinkers w) (next_addr w) (activeplats w) (activeceilings w) (prndindex w) (message w) (buttonlist w) (specials w) e (things w).
Definition with_message (m : option string) w : world T :=
  mkWorld (sectors w) (lines w) (sides w) (thinkers w) (next_addr w) (activeplats w) (activeceilings w) (prndindex w) m (buttonlist w) (specials w) (exiting w) (things w).

Abbreviation WM := (M (world T)).

(** An index into a list; a negative one or one past the end is a bad access. *)
Definition at_index {A} (l : list A) (i : Z) : option A := if i <? 0 then None else l !! Z.to_nat i.

Definition sector (i : Z) : WM sector_t :=
  w ← getS; match at_index (sectors w) i with Some s => mret s | None => stopM BadAccess end.
Definition upd_sector (i : Z) (f : sector_t → sector_t) : WM unit :=
  sector i;;
  modS (λ w, with_sectors (alter f (Z.to_nat i) (sectors w)) w).
Definition line (i : Z) : WM line_t :=
  w ← getS; match at_index (lines w) i with Some l => mret l | None => stopM BadAccess end.
Definition upd_line (i : Z) (f : line_t → line_t) : WM unit :=
  line i;;
  modS (λ w, with_lines (alter f (Z.to_nat i) (lines w)) w).
Definition side (i : Z) : WM side_t :=
  w ← getS; match at_index (sides w) i with Some s => mret s | None => stopM BadAccess end.

Definition find_thinker (a : Z) (l : list thinker_t) : option thinker_t :=
  snd <$> list_find (λ t, th_addr t = a) l.

Definition thinker (a : Z) : WM thinker_t :=
  w ← getS; match find_thinker a (thinkers w) with Some t => mret t | None => stopM BadAccess end.

(** A write through a pointer to a thinker. *)
Definition upd_thinkers (a : Z) (f : thinker_t → thinker_t) (l : list thinker_t) : list thinker_t :=
  (λ t, if th_addr t =? a then f t else t) <$> l.
Definition upd_thinker (a : Z) (f : thinker_t → thinker_t) : WM unit :=
  thinker a;;
  modS (λ w, with_thinkers (upd_thinkers a f (thinkers w)) (next_addr w) w).
Definition set_obj (o : object) (t : thinker_t) : thinker_t := mkThinker (th_addr t) (th_function t) o.
Definition set_function (f : action) (t : thinker_t) : thinker_t := mkThinker (th_addr t) f (th_obj t).

(** [Z_Malloc] of a thinker and [P_AddThinker]: at the end of the list. *)
Definition P_AddThinker (mk : Z → object) : WM Z :=
  w ← getS;
  let a := next_addr w in
  putS (with_thinkers (thinkers w ++ [mkThinker a act_run (mk a)]) (a + 1) w);;
  mret a.

Definition P_RemoveThinker (a : Z) : WM unit := upd_thinker a (set_function act_removed).

(** ** Random numbers *)

Definition rndtable : list Z :=
  [0;   8;   109; 220; 222; 241; 149; 107; 75;  248; 254; 140; 16;  66;  74;  21;  211; 47;  80;
   242; 154; 27;  205; 128; 161; 89;  77;  36;  95;  110; 85;  48;  212; 140; 211; 249; 22;  79;
   200; 50;  28;  188; 52;  140; 202; 120; 68;  145; 62;  70;  184; 190; 91;  197; 152; 224; 149;
   104; 25;  178; 252; 182; 202; 182; 141; 197; 4;   81;  181; 242; 145; 42;  39;  227; 156; 198;
   225; 193; 219; 93;  122; 175; 249; 0;   175; 143; 70;  239; 46;  246; 163; 53;  163; 109; 168;
   135; 2;   235; 25;  92;  20;  145; 138; 77;  69;  166; 78;  176; 173; 212; 166; 113; 94;  161;
   41;  50;  239; 49;  111; 164; 70;  60;  2;   37;  171; 75;  136; 156; 11;  56;  42;  146; 138;
   229; 73;  146; 77;  61;  98;  196; 135; 106; 63;  197; 195; 86;  96;  203; 113; 101; 170; 247;
   181; 113; 80;  250; 108; 7;   255; 237; 129; 226; 79;  107; 112; 166; 103; 241; 24;  223; 239;
   120; 198; 58;  60;  82;  128; 3;   184; 66;  143; 224; 145; 224; 81;  206; 163; 45;  63;  90;
   168; 114; 59;  33;  159; 95;  28;  139; 123; 98;  125; 196; 15;  70;  194; 253; 54;  14;  109;
   226; 71;  17;  161; 93;  186; 87;  244; 138; 20;  52;  123; 251; 26;  36;  17;  46;  52;  231;
   232; 76;  31;  221; 84;  37;  216; 165; 212; 106; 197; 242; 98;  43;  39;  175; 254; 145; 190;
   84;  118; 222; 187; 136; 120; 163; 236; 249].

Definition P_Random : WM Z :=
  w ← getS;
  let i := Z.land (prndindex w + 1) 0xff in
  putS (with_things i (things w) w);;
  match rndtable !! Z.to_nat i with Some v => mret v | None => stopM BadAccess end.
End access.

Section movers.
Context {T : Type}.
(** [P_ChangeSector]: from the sectors, the number of the one that moved, [crunch], the random
    index and the things, whether something does not fit, and the new index and things. *)
Context (change : list sector_t → Z → bool → Z → T → bool * (Z * T)).
(** What is in the memory of a new thinker. *)
Context (junk_door : Z → vldoor_t) (junk_plat : Z → plat_t) (junk_floor : Z → floormove_t)
  (junk_ceiling : Z → ceiling_t).
(** The place of [direction] of a door in the memory of another kind of thinker. *)
Context (pun_direction : object → Z) (pun_set_direction : Z → object → object).
Context (textureheight : Z → Z) (DonutOverrun : Z * Z).

Abbreviation WM := (M (world T)).

(** ** Searches around a sector *)

Definition getNextSector (l : line_t) (sec : Z) : option Z :=
  if negb (two_sided l) then None
  else if frontsector l =? sec then backsector l
  else Some (frontsector l).

(** The loop over the lines of a sector that the searches share: [step] is applied to the sector
    on the other side of each two-sided line. *)
Fixpoint AroundLoop {A} (sec : Z) (step : A → sector_t → WM A) (ls : list Z) (acc : A) : WM A :=
  match ls with
  | [] => mret acc
  | i :: ls =>
      check ← line i;
      match getNextSector check sec with
      | None => AroundLoop sec step ls acc
      | Some o =>
          other ← sector o;
          acc ← step acc other;
          AroundLoop sec step ls acc
      end
  end.

Definition P_FindLowestFloorSurrounding (sec : Z) : WM Z :=
  s ← sector sec;
  AroundLoop sec (λ floor other,
    mret (if floorheight other <? floor then floorheight other else floor)) (slines s) (floorheight s).

Definition P_FindHighestFloorSurrounding (sec : Z) : WM Z :=
  s ← sector sec;
  AroundLoop sec (λ floor other,
    mret (if floor <? floorheight other then floorheight other else floor)) (slines s) (-500 * FRACUNIT).

(** The loop keeps [height] and the heights found so far, the last one first. *)
Definition P_FindNextHighestFloor (sec currentheight : Z) : WM Z :=
  s ← sector sec;
  r ← AroundLoop sec (λ acc other,
    if acc.1 <? floorheight other then
      let h := Z.of_nat (length acc.2) in
      let height := if h =? MAX_ADJOINING_SECTORS + 1 then floorheight other else acc.1 in
      assertM (negb (h =? MAX_ADJOINING_SECTORS + 2)) "Sector with more than 22 adjoining sectors. Vanilla will crash here";;
      mret (height, floorheight other :: acc.2)
    else mret acc) (slines s) (currentheight, []);
  match reverse r.2 with
  | [] => mret currentheight
  | h0 :: hs => mret (foldl (λ m h, if h <? m then h else m) h0 hs)
  end.

Definition P_FindLowestCeilingSurrounding (sec : Z) : WM Z :=
  s ← sector sec;
  AroundLoop sec (λ height other,
    mret (if ceilingheight other <? height then ceilingheight other else height)) (slines s) INT_MAX.

Definition P_FindHighestCeilingSurrounding (sec : Z) : WM Z :=
  s ← sector sec;
  AroundLoop sec (λ height other,
    mret (if height <? ceilingheight other then ceilingheight other else height)) (slines s) 0.

Definition P_FindMinSurroundingLight (sec max : Z) : WM Z :=
  s ← sector sec;
  AroundLoop sec (λ min other,
    mret (if lightlevel other <? min then lightlevel other else min)) (slines s) max.

(** The sectors from number [i] on. *)
Fixpoint FindTagLoop (t : Z) (i : Z) (ss : list sector_t) : Z :=
  match ss with
  | [] => -1
  | s :: ss => if tag s =? t then i else FindTagLoop t (i + 1) ss
  end.

Definition P_FindSectorFromLineTag (t start : Z) : WM Z :=
  w ← getS;
  mret (FindTagLoop t (start + 1) (drop (Z.to_nat (start + 1)) (sectors w))).

(** The loop of the events over the sectors with the tag [t], from number [start + 1] on: [body]
    acts on a sector that has no mover, and its value is the number the search goes on from;
    [None] leaves the loop. *)
Fixpoint TagLoop (fuel : nat) (t start : Z) (body : Z → WM (option Z)) (rtn : Z) : WM Z :=
  match fuel with
  | O => stopM NoFuel
  | S fuel =>
      secnum ← P_FindSectorFromLineTag t start;
      if secnum <? 0 then mret rtn
      else
        sec ← sector secnum;
        match specialdata sec with
        | Some _ => TagLoop fuel t secnum body rtn
        | None =>
            next ← body secnum;
            match next with
            | None => mret 1
            | Some secnum => TagLoop fuel t secnum body 1
            end
        end
  end.

(** As many rounds as the search can make. *)
Definition tag_fuel (w : world T) : nat := S (S (length (sectors w))) * S (S (length (sectors w))).

Definition OverTags (t : Z) (body : Z → WM (option Z)) : WM Z :=
  w ← getS; TagLoop (tag_fuel w) t (-1) body 0.

(** ** Planes *)

Definition P_ChangeSector (sec : Z) (crunch : bool) : WM bool :=
  w ← getS;
  let r := change (sectors w) sec crunch (prndindex w) (things w) in
  putS (with_things r.2.1 r.2.2 w);;
  mret r.1.

(** [floorOrCeiling] 0 is the floor, 1 the ceiling. *)
Definition plane_height (floorOrCeiling : Z) (s : sector_t) : Z :=
  if floorOrCeiling =? 0 then floorheight s else ceilingheight s.
Definition set_plane (floorOrCeiling v : Z) : sector_t → sector_t :=
  if floorOrCeiling =? 0 then set_floorheight v else set_ceilingheight v.

(** The branch that reaches the destination: back to the last position if something is in the
    way. *)
Definition arrive (sec dest : Z) (crush : bool) (floorOrCeiling : Z) : WM result_e :=
  s ← sector sec;
  let lastpos := plane_height floorOrCeiling s in
  upd_sector sec (set_plane floorOrCeiling dest);;
  flag ← P_ChangeSector sec crush;
  (if (flag : bool) then
     upd_sector sec (set_plane floorOrCeiling lastpos);;
     P_ChangeSector sec crush;;
     mret tt
   else mret tt);;
  mret pastdest.

(** The branch that moves one step; [stays] tells that a crusher that is in something keeps the
    new height. *)
Definition advance (sec newpos : Z) (crush : bool) (floorOrCeiling : Z) (stays : bool) : WM result_e :=
  s ← sector sec;
  let lastpos := plane_height floorOrCeiling s in
  upd_sector sec (set_plane floorOrCeiling newpos);;
  flag ← P_ChangeSector sec crush;
  if (flag : bool) then
    if stays && crush then mret crushed
    else
      upd_sector sec (set_plane floorOrCeiling lastpos);;
      P_ChangeSector sec crush;;
      mret crushed
  else mret ok.

Definition T_MovePlane (sec speed dest : Z) (crush : bool) (floorOrCeiling direction : Z) : WM result_e :=
  s ← sector sec;
  if floorOrCeiling =? 0 then
    if direction =? -1 then
      if i32 (floorheight s - speed) <? dest then arrive sec dest crush 0
      else advance sec (i32 (floorheight s - speed)) crush 0 false
    else if direction =? 1 then
      if dest <? i32 (floorheight s + speed) then arrive sec dest crush 0
      else advance sec (i32 (floorheight s + speed)) crush 0 true
    else mret ok
  else if floorOrCeiling =? 1 then
    if direction =? -1 then
      if i32 (ceilingheight s - speed) <? dest then arrive sec dest crush 1
      else advance sec (i32 (ceilingheight s - speed)) crush 1 true
    else if direction =? 1 then
      if dest <? i32 (ceilingheight s + speed) then arrive sec dest crush 1
      else
        (* the ceiling goes up whatever is in the way *)
        upd_sector sec (set_ceilingheight (i32 (ceilingheight s + speed)));;
        P_ChangeSector sec crush;;
        mret ok
    else mret ok
  else mret ok.

(** ** Floors *)

Definition T_MoveFloor (a : Z) (floor : floormove_t) : WM unit :=
  res ← T_MovePlane (fm_sector floor) (fm_speed floor) (fm_floordestheight floor) (fm_crush floor) 0 (fm_direction floor);
  if bool_decide (res = pastdest) then
    upd_sector (fm_sector floor) (set_specialdata None);;
    (if ((fm_direction floor =? 1) && bool_decide (fm_type floor = donutRaise))
        || ((fm_direction floor =? -1) && bool_decide (fm_type floor = lowerAndChange)) then
       upd_sector (fm_sector floor) (set_special (fm_newspecial floor));;
       upd_sector (fm_sector floor) (set_floorpic (fm_texture floor))
     else mret tt);;
    P_RemoveThinker a
  else mret tt.

(** The thinker that [EV_DoFloor] makes before the switch over the types. *)
Definition new_floor (sec : Z) (floortype : floor_e) : WM Z :=
  floor ← P_AddThinker (λ a,
    let j := junk_floor a in
    OFloor (mkFloor floortype false (fm_sector j) (fm_direction j) (fm_newspecial j) (fm_texture j)
      (fm_floordestheight j) (fm_speed j)));
  upd_sector sec (set_specialdata (Some floor));;
  mret floor.

(** A write to the fields [direction], [sector], [speed] and [floordestheight]. *)
Definition set_floor (a sec direction speed dest : Z) : WM unit :=
  upd_thinker a (λ t, match th_obj t with
    | OFloor o => set_obj (OFloor (mkFloor (fm_type o) (fm_crush o) sec direction (fm_newspecial o) (fm_texture o) dest speed)) t
    | _ => t
    end).
Definition set_floor_crush (a : Z) : WM unit :=
  upd_thinker a (λ t, match th_obj t with
    | OFloor o => set_obj (OFloor (mkFloor (fm_type o) true (fm_sector o) (fm_direction o) (fm_newspecial o) (fm_texture o)
        (fm_floordestheight o) (fm_speed o))) t
    | _ => t
    end).
Definition set_floor_texture (a texture : Z) (newspecial : option Z) : WM unit :=
  upd_thinker a (λ t, match th_obj t with
    | OFloor o => set_obj (OFloor (mkFloor (fm_type o) (fm_crush o) (fm_sector o) (fm_direction o)
        (match newspecial with Some n => n | None => fm_newspecial o end) texture (fm_floordestheight o) (fm_speed o))) t
    | _ => t
    end).

Definition getSide (l : line_t) (side_no : Z) : WM side_t :=
  side (if side_no =? 0 then (sidenum l).1 else (sidenum l).2).

(** The shortest lower texture around a sector. *)
Fixpoint TextureLoop (ls : list Z) (minsize : Z) : WM Z :=
  match ls with
  | [] => mret minsize
  | i :: ls =>
      l ← line i;
      if two_sided l then
        s0 ← getSide l 0;
        let minsize :=
          if (0 <=? bottomtexture s0) && (textureheight (bottomtexture s0) <? minsize)
          then textureheight (bottomtexture s0) else minsize in
        s1 ← getSide l 1;
        let minsize :=
          if (0 <=? bottomtexture s1) && (textureheight (bottomtexture s1) <? minsize)
          then textureheight (bottomtexture s1) else minsize in
        TextureLoop ls minsize
      else TextureLoop ls minsize
  end.

(** The loop of [lowerAndChange]: [i] runs over the lines of the sector that [sec] points at, which
    the body moves to a neighbour, while the line is always the one of sector [secnum]. *)
Fixpoint ChangeLoop (fuel : nat) (secnum sec i a dest : Z) : WM unit :=
  match fuel with
  | O => stopM NoFuel
  | S fuel =>
      s ← sector sec;
      if i <? Z.of_nat (length (slines s)) then
        s0 ← sector secnum;
        match at_index (slines s0) i with
        | None => stopM BadAccess
        | Some li =>
            l ← line li;
            if two_sided l then
              sd ← getSide l 0;
              sd ← getSide l (if side_sector sd =? secnum then 1 else 0);
              let sec := side_sector sd in
              s ← sector sec;
              if floorheight s =? dest then set_floor_texture a (floorpic s) (Some (special s))
              else ChangeLoop fuel secnum sec (i + 1) a dest
            else ChangeLoop fuel secnum sec (i + 1) a dest
        end
      else mret tt
  end.

(** More rounds than any sector has lines. *)
Definition line_fuel (w : world T) : nat := S (foldr Nat.max 0%nat ((λ s, length (slines s)) <$> sectors w)).

Definition EV_DoFloor (ln : Z) (floortype : floor_e) : WM Z :=
  l ← line ln;
  OverTags (ltag l) (λ secnum,
    floor ← new_floor secnum floortype;
    sec ← sector secnum;
    (match floortype with
     | lowerFloor =>
         dest ← P_FindHighestFloorSurrounding secnum;
         set_floor floor secnum (-1) FLOORSPEED dest
     | lowerFloorToLowest =>
         dest ← P_FindLowestFloorSurrounding secnum;
         set_floor floor secnum (-1) FLOORSPEED dest
     | turboLower =>
         dest ← P_FindHighestFloorSurrounding secnum;
         set_floor floor secnum (-1) (FLOORSPEED * 4)
           (if negb (dest =? floorheight sec) then i32 (dest + 8 * FRACUNIT) else dest)
     | raiseFloorCrush | raiseFloor =>
         (if bool_decide (floortype = raiseFloorCrush) then set_floor_crush floor else mret tt);;
         dest ← P_FindLowestCeilingSurrounding secnum;
         let dest := if ceilingheight sec <? dest then ceilingheight sec else dest in
         set_floor floor secnum 1 FLOORSPEED
           (i32 (dest - (if bool_decide (floortype = raiseFloorCrush) then 8 * FRACUNIT else 0)))
     | raiseFloorTurbo =>
         dest ← P_FindNextHighestFloor secnum (floorheight sec);
         set_floor floor secnum 1 (FLOORSPEED * 4) dest
     | raiseFloorToNearest =>
         dest ← P_FindNextHighestFloor secnum (floorheight sec);
         set_floor floor secnum 1 FLOORSPEED dest
     | raiseFloor24 => set_floor floor secnum 1 FLOORSPEED (i32 (floorheight sec + 24 * FRACUNIT))
     | raiseFloor512 => set_floor floor secnum 1 FLOORSPEED (i32 (floorheight sec + 512 * FRACUNIT))
     | raiseFloor24AndChange =>
         set_floor floor secnum 1 FLOORSPEED (i32 (floorheight sec + 24 * FRACUNIT));;
         front ← sector (frontsector l);
         upd_sector secnum (set_floorpic (floorpic front));;
         front ← sector (frontsector l);
         upd_sector secnum (set_special (special front))
     | raiseToTexture =>
         minsize ← TextureLoop (slines sec) INT_MAX;
         set_floor floor secnum 1 FLOORSPEED (i32 (floorheight sec + minsize))
     | lowerAndChange =>
         dest ← P_FindLowestFloorSurrounding secnum;
         set_floor floor secnum (-1) FLOORSPEED dest;;
         set_floor_texture floor (floorpic sec) None;;
         w ← getS;
         ChangeLoop (line_fuel w) secnum secnum 0 floor dest
     | donutRaise => mret tt
     end);;
    mret (Some secnum)).

(** ** Stairs *)

(** The thinker of one step; the type, the crush flag and what goes with the type are not set. *)
Definition new_step (sec speed dest : Z) : WM unit :=
  floor ← P_AddThinker (λ a,
    let j := junk_floor a in
    OFloor (mkFloor (fm_type j) (fm_crush j) sec 1 (fm_newspecial j) (fm_texture j) dest speed));
  upd_sector sec (set_specialdata (Some floor)).

(** The scan of the lines for the next step: the height so far, and the sector found. *)
Fixpoint StairScan (ls : list Z) (secnum texture stairsize height : Z) : WM (Z * option Z) :=
  match ls with
  | [] => mret (height, None)
  | i :: ls =>
      l ← line i;
      if negb (two_sided l) then StairScan ls secnum texture stairsize height
      else if negb (secnum =? frontsector l) then StairScan ls secnum texture stairsize height
      else
        match backsector l with
        | None => stopM BadAccess
        | Some newsecnum =>
            tsec ← sector newsecnum;
            if negb (floorpic tsec =? texture) then StairScan ls secnum texture stairsize height
            else
              let height := i32 (height + stairsize) in
              match specialdata tsec with
              | Some _ => StairScan ls secnum texture stairsize height
              | None => mret (height, Some newsecnum)
              end
        end
  end.

Fixpoint StairLoop (fuel : nat) (secnum texture speed stairsize height : Z) : WM Z :=
  match fuel with
  | O => stopM NoFuel
  | S fuel =>
      sec ← sector secnum;
      r ← StairScan (slines sec) secnum texture stairsize height;
      match r.2 with
      | None => mret secnum
      | Some newsecnum =>
          new_step newsecnum speed r.1;;
          StairLoop fuel newsecnum texture speed stairsize r.1
      end
  end.

Definition EV_BuildStairs (ln : Z) (type : stair_e) : WM Z :=
  l ← line ln;
  OverTags (ltag l) (λ secnum,
    sec ← sector secnum;
    let speed := match type with build8 => FLOORSPEED ÷ 4 | turbo16 => FLOORSPEED * 4 end in
    let stairsize := match type with build8 => 8 * FRACUNIT | turbo16 => 16 * FRACUNIT end in
    let height := i32 (floorheight sec + stairsize) in
    new_step secnum speed height;;
    w ← getS;
    secnum ← StairLoop (S (length (sectors w))) secnum (floorpic sec) speed stairsize height;
    mret (Some secnum)).

(** ** Platforms *)

(** The first null entry of a table of pointers gets the pointer. *)
Fixpoint add_active (a : Z) (l : list (option Z)) : option (list (option Z)) :=
  match l with
  | [] => None
  | None :: l => Some (Some a :: l)
  | Some b :: l => cons (Some b) <$> add_active a l
  end.

(** The first entry with the pointer is cleared. *)
Fixpoint clear_active (a : Z) (l : list (option Z)) : option (list (option Z)) :=
  match l with
  | [] => None
  | o :: l => if bool_decide (o = Some a) then Some (None :: l) else cons o <$> clear_active a l
  end.

Definition P_AddActivePlat (a : Z) : WM unit :=
  w ← getS;
  match add_active a (activeplats w) with
  | Some l => putS (with_plats l w)
  | None => stopM (Panic "P_AddActivePlat: no more plats!")
  end.

Definition plat_of (a : Z) : WM plat_t :=
  t ← thinker a; match th_obj t with OPlat o => mret o | _ => stopM BadAccess end.

Definition P_RemoveActivePlat (a : Z) : WM unit :=
  w ← getS;
  match clear_active a (activeplats w) with
  | Some l =>
      o ← plat_of a;
      upd_sector (pt_sector o) (set_specialdata None);;
      P_RemoveThinker a;;
      modS (with_plats l)
  | None => stopM (Panic "P_RemoveActivePlat: can't find plat!")
  end.

Definition set_plat (a : Z) (o : plat_t) : WM unit := upd_thinker a (set_obj (OPlat o)).
Definition plat_status (count : Z) (status : plat_e) (o : plat_t) : plat_t :=
  mkPlat (pt_sector o) (pt_speed o) (pt_low o) (pt_high o) (pt_wait o) count status (pt_oldstatus o)
    (pt_crush o) (pt_tag o) (pt_type o).

Definition T_PlatRaise (a : Z) (plat : plat_t) : WM unit :=
  match pt_status plat with
  | up =>
      res ← T_MovePlane (pt_sector plat) (pt_speed plat) (pt_high plat) (pt_crush plat) 0 1;
      if bool_decide (res = crushed) && negb (pt_crush plat) then
        set_plat a (plat_status (pt_wait plat) down plat)
      else if bool_decide (res = pastdest) then
        set_plat a (plat_status (pt_wait plat) waiting plat);;
        match pt_type plat with
        | blazeDWUS | downWaitUpStay | raiseAndChange | raiseToNearestAndChange => P_RemoveActivePlat a
        | perpetualRaise => mret tt
        end
      else mret tt
  | down =>
      res ← T_MovePlane (pt_sector plat) (pt_speed plat) (pt_low plat) false 0 (-1);
      if bool_decide (res = pastdest) then set_plat a (plat_status (pt_wait plat) waiting plat)
      else mret tt
  | waiting =>
      let count := i32 (pt_count plat - 1) in
      set_plat a (plat_status count waiting plat);;
      if count =? 0 then
        s ← sector (pt_sector plat);
        set_plat a (plat_status count (if floorheight s =? pt_low plat then up else down) plat)
      else mret tt
  | in_stasis => mret tt
  end.

(** The loops over a table of active thinkers. *)
Fixpoint ActiveLoop (f : Z → WM unit) (l : list (option Z)) : WM unit :=
  match l with
  | [] => mret tt
  | None :: l => ActiveLoop f l
  | Some a :: l => f a;; ActiveLoop f l
  end.

Definition P_ActivateInStasis (t : Z) : WM unit :=
  w ← getS;
  ActiveLoop (λ a,
    o ← plat_of a;
    if (pt_tag o =? t) && bool_decide (pt_status o = in_stasis) then
      set_plat a (plat_status (pt_count o) (pt_oldstatus o) o);;
      upd_thinker a (set_function act_run)
    else mret tt) (activeplats w).

Definition EV_StopPlat (ln : Z) : WM unit :=
  l ← line ln;
  w ← getS;
  ActiveLoop (λ a,
    o ← plat_of a;
    if negb (bool_decide (pt_status o = in_stasis)) && (pt_tag o =? ltag l) then
      set_plat a (mkPlat (pt_sector o) (pt_speed o) (pt_low o) (pt_high o) (pt_wait o) (pt_count o) in_stasis
        (pt_status o) (pt_crush o) (pt_tag o) (pt_type o));;
      upd_thinker a (set_function act_null)
    else mret tt) (activeplats w).

(** A write to the fields [speed], [low], [high], [wait] and [status] of a platform. *)
Definition set_plat_fields (a speed : Z) (low : option Z) (high wait : Z) (status : plat_e) : WM unit :=
  upd_thinker a (λ t, match th_obj t with
    | OPlat o => set_obj (OPlat (mkPlat (pt_sector o) speed (match low with Some v => v | None => pt_low o end) high
        wait (pt_count o) status (pt_oldstatus o) (pt_crush o) (pt_tag o) (pt_type o))) t
    | _ => t
    end).

Definition EV_DoPlat (ln : Z) (type : plattype_e) (amount : Z) : WM Z :=
  l ← line ln;
  (if bool_decide (type = perpetualRaise) then P_ActivateInStasis (ltag l) else mret tt);;
  OverTags (ltag l) (λ secnum,
    plat ← P_AddThinker (λ a,
      let j := junk_plat a in
      OPlat (mkPlat secnum (pt_speed j) (pt_low j) (pt_high j) (pt_wait j) (pt_count j) (pt_status j)
        (pt_oldstatus j) false (ltag l) type));
    upd_sector secnum (set_specialdata (Some plat));;
    sec ← sector secnum;
    (match type with
     | raiseToNearestAndChange =>
         sd ← side (sidenum l).1;
         from ← sector (side_sector sd);
         upd_sector secnum (set_floorpic (floorpic from));;
         high ← P_FindNextHighestFloor secnum (floorheight sec);
         set_plat_fields plat (PLATSPEED ÷ 2) None high 0 up;;
         upd_sector secnum (set_special 0)
     | raiseAndChange =>
         sd ← side (sidenum l).1;
         from ← sector (side_sector sd);
         upd_sector secnum (set_floorpic (floorpic from));;
         set_plat_fields plat (PLATSPEED ÷ 2) None (i32 (floorheight sec + i32 (amount * FRACUNIT))) 0 up
     | downWaitUpStay | blazeDWUS =>
         low ← P_FindLowestFloorSurrounding secnum;
         let low := if floorheight sec <? low then floorheight sec else low in
         set_plat_fields plat (PLATSPEED * (if bool_decide (type = downWaitUpStay) then 4 else 8)) (Some low)
           (floorheight sec) (TICRATE * PLATWAIT) down
     | perpetualRaise =>
         low ← P_FindLowestFloorSurrounding secnum;
         let low := if floorheight sec <? low then floorheight sec else low in
         high ← P_FindHighestFloorSurrounding secnum;
         let high := if high <? floorheight sec then floorheight sec else high in
         r ← P_Random;
         set_plat_fields plat PLATSPEED (Some low) high (TICRATE * PLATWAIT)
           (if Z.land r 1 =? 0 then up else down)
     end);;
    P_AddActivePlat plat;;
    mret (Some secnum)).

(** ** Ceilings *)

(** A full table keeps its entries: the pointer is dropped. *)
Definition P_AddActiveCeiling (a : Z) : WM unit :=
  w ← getS;
  match add_active a (activeceilings w) with
  | Some l => putS (with_ceilings l w)
  | None => mret tt
  end.

Definition ceiling_of (a : Z) : WM ceiling_t :=
  t ← thinker a; match th_obj t with OCeiling o => mret o | _ => stopM BadAccess end.

Definition P_RemoveActiveCeiling (a : Z) : WM unit :=
  w ← getS;
  match clear_active a (activeceilings w) with
  | Some l =>
      o ← ceiling_of a;
      upd_sector (ce_sector o) (set_specialdata None);;
      P_RemoveThinker a;;
      modS (with_ceilings l)
  | None => mret tt
  end.

Definition set_ceiling (a : Z) (o : ceiling_t) : WM unit := upd_thinker a (set_obj (OCeiling o)).
Definition ceiling_motion (speed direction olddirection : Z) (o : ceiling_t) : ceiling_t :=
  mkCeiling (ce_type o) (ce_sector o) (ce_bottomheight o) (ce_topheight o) speed (ce_crush o) direction
    (ce_tag o) olddirection.

Definition T_MoveCeiling (a : Z) (ceiling : ceiling_t) : WM unit :=
  if ce_direction ceiling =? 1 then
    res ← T_MovePlane (ce_sector ceiling) (ce_speed ceiling) (ce_topheight ceiling) false 1 1;
    if bool_decide (res = pastdest) then
      match ce_type ceiling with
      | raiseToHighest => P_RemoveActiveCeiling a
      | silentCrushAndRaise | fastCrushAndRaise | crushAndRaise =>
          set_ceiling a (ceiling_motion (ce_speed ceiling) (-1) (ce_olddirection ceiling) ceiling)
      | lowerToFloor | lowerAndCrush => mret tt
      end
    else mret tt
  else if ce_direction ceiling =? -1 then
    res ← T_MovePlane (ce_sector ceiling) (ce_speed ceiling) (ce_bottomheight ceiling) (ce_crush ceiling) 1 (-1);
    match res with
    | pastdest =>
        match ce_type ceiling with
        | silentCrushAndRaise | crushAndRaise =>
            set_ceiling a (ceiling_motion CEILSPEED 1 (ce_olddirection ceiling) ceiling)
        | fastCrushAndRaise =>
            set_ceiling a (ceiling_motion (ce_speed ceiling) 1 (ce_olddirection ceiling) ceiling)
        | lowerAndCrush | lowerToFloor => P_RemoveActiveCeiling a
        | raiseToHighest => mret tt
        end
    | crushed =>
        match ce_type ceiling with
        | silentCrushAndRaise | crushAndRaise | lowerAndCrush =>
            set_ceiling a (ceiling_motion (CEILSPEED ÷ 8) (ce_direction ceiling) (ce_olddirection ceiling) ceiling)
        | lowerToFloor | raiseToHighest | fastCrushAndRaise => mret tt
        end
    | ok => mret tt
    end
  else mret tt.

Definition P_ActivateInStasisCeiling (t : Z) : WM unit :=
  w ← getS;
  ActiveLoop (λ a,
    o ← ceiling_of a;
    if (ce_tag o =? t) && (ce_direction o =? 0) then
      set_ceiling a (ceiling_motion (ce_speed o) (ce_olddirection o) (ce_olddirection o) o);;
      upd_thinker a (set_function act_run)
    else mret tt) (activeceilings w).

Fixpoint CrushStopLoop (t : Z) (l : list (option Z)) (rtn : Z) : WM Z :=
  match l with
  | [] => mret rtn
  | None :: l => CrushStopLoop t l rtn
  | Some a :: l =>
      o ← ceiling_of a;
      if (ce_tag o =? t) && negb (ce_direction o =? 0) then
        set_ceiling a (ceiling_motion (ce_speed o) 0 (ce_direction o) o);;
        upd_thinker a (set_function act_null);;
        CrushStopLoop t l 1
      else CrushStopLoop t l rtn
  end.

Definition EV_CeilingCrushStop (ln : Z) : WM Z :=
  l ← line ln;
  w ← getS;
  CrushStopLoop (ltag l) (activeceilings w) 0.

Definition EV_DoCeiling (ln : Z) (type : ceiling_e) : WM Z :=
  l ← line ln;
  (match type with
   | fastCrushAndRaise | silentCrushAndRaise | crushAndRaise => P_ActivateInStasisCeiling (ltag l)
   | lowerToFloor | raiseToHighest | lowerAndCrush => mret tt
   end);;
  OverTags (ltag l) (λ secnum,
    ceiling ← P_AddThinker (λ a, OCeiling (junk_ceiling a));
    upd_sector secnum (set_specialdata (Some ceiling));;
    sec ← sector secnum;
    let j := junk_ceiling ceiling in
    highest ← (match type with raiseToHighest => P_FindHighestCeilingSurrounding secnum | _ => mret 0 end);
    set_ceiling ceiling (match type with
      | fastCrushAndRaise =>
          mkCeiling type secnum (i32 (floorheight sec + 8 * FRACUNIT)) (ceilingheight sec) (CEILSPEED * 2) true (-1)
            (tag sec) (ce_olddirection j)
      | silentCrushAndRaise | crushAndRaise =>
          mkCeiling type secnum (i32 (floorheight sec + 8 * FRACUNIT)) (ceilingheight sec) CEILSPEED true (-1)
            (tag sec) (ce_olddirection j)
      | lowerAndCrush =>
          mkCeiling type secnum (i32 (floorheight sec + 8 * FRACUNIT)) (ce_topheight j) CEILSPEED false (-1)
            (tag sec) (ce_olddirection j)
      | lowerToFloor =>
          mkCeiling type secnum (floorheight sec) (ce_topheight j) CEILSPEED false (-1)
            (tag sec) (ce_olddirection j)
      | raiseToHighest =>
          mkCeiling type secnum (ce_bottomheight j) highest CEILSPEED false 1
            (tag sec) (ce_olddirection j)
      end);;
    P_AddActiveCeiling ceiling;;
    mret (Some secnum)).

(** ** Doors *)

Definition set_door (a : Z) (o : vldoor_t) : WM unit := upd_thinker a (set_obj (ODoor o)).
Definition door_motion (type : vldoor_e) (direction topcountdown : Z) (o : vldoor_t) : vldoor_t :=
  mkDoor type (vd_sector o) (vd_topheight o) (vd_speed o) direction (vd_topwait o) topcountdown.

Definition end_door (a : Z) (door : vldoor_t) : WM unit :=
  upd_sector (vd_sector door) (set_specialdata None);;
  P_RemoveThinker a.

Definition T_VerticalDoor (a : Z) (door : vldoor_t) : WM unit :=
  let countdown := i32 (vd_topcountdown door - 1) in
  if vd_direction door =? 0 then
    set_door a (door_motion (vd_type door) 0
      countdown door);;
    if countdown =? 0 then
      match vd_type door with
      | vld_blazeRaise | vld_normal => set_door a (door_motion (vd_type door) (-1) countdown door)
      | vld_close30ThenOpen => set_door a (door_motion (vd_type door) 1 countdown door)
      | _ => mret tt
      end
    else mret tt
  else if vd_direction door =? 2 then
    set_door a (door_motion (vd_type door) 2 countdown door);;
    if countdown =? 0 then
      match vd_type door with
      | vld_raiseIn5Mins => set_door a (door_motion vld_normal 1 countdown door)
      | _ => mret tt
      end
    else mret tt
  else if vd_direction door =? -1 then
    s ← sector (vd_sector door);
    res ← T_MovePlane (vd_sector door) (vd_speed door) (floorheight s) false 1 (-1);
    match res with
    | pastdest =>
        match vd_type door with
        | vld_blazeRaise | vld_blazeClose | vld_normal | vld_close => end_door a door
        | vld_close30ThenOpen => set_door a (door_motion (vd_type door) 0 (TICRATE * 30) door)
        | _ => mret tt
        end
    | crushed =>
        match vd_type door with
        | vld_blazeClose | vld_close => mret tt
        | _ => set_door a (door_motion (vd_type door) 1 (vd_topcountdown door) door)
        end
    | ok => mret tt
    end
  else if vd_direction door =? 1 then
    res ← T_MovePlane (vd_sector door) (vd_speed door) (vd_topheight door) false 1 1;
    if bool_decide (res = pastdest) then
      match vd_type door with
      | vld_blazeRaise | vld_normal => set_door a (door_motion (vd_type door) 0 (vd_topwait door) door)
      | vld_close30ThenOpen | vld_blazeOpen | vld_open => end_door a door
      | _ => mret tt
      end
    else mret tt
  else mret tt.

Definition EV_DoDoor (ln : Z) (type : vldoor_e) : WM Z :=
  l ← line ln;
  OverTags (ltag l) (λ secnum,
    door ← P_AddThinker (λ a, ODoor (junk_door a));
    upd_sector secnum (set_specialdata (Some door));;
    let j := junk_door door in
    sec ← sector secnum;
    lowest ← (match type with
      | vld_close30ThenOpen | vld_raiseIn5Mins => mret 0
      | _ => P_FindLowestCeilingSurrounding secnum
      end);
    let top := i32 (lowest - 4 * FRACUNIT) in
    set_door door (match type with
      | vld_blazeClose => mkDoor type secnum top (VDOORSPEED * 4) (-1) VDOORWAIT (vd_topcountdown j)
      | vld_close => mkDoor type secnum top VDOORSPEED (-1) VDOORWAIT (vd_topcountdown j)
      | vld_close30ThenOpen => mkDoor type secnum (ceilingheight sec) VDOORSPEED (-1) VDOORWAIT (vd_topcountdown j)
      | vld_blazeRaise | vld_blazeOpen => mkDoor type secnum top (VDOORSPEED * 4) 1 VDOORWAIT (vd_topcountdown j)
      | vld_normal | vld_open => mkDoor type secnum top VDOORSPEED 1 VDOORWAIT (vd_topcountdown j)
      | vld_raiseIn5Mins => mkDoor type secnum (vd_topheight j) VDOORSPEED (vd_direction j) VDOORWAIT (vd_topcountdown j)
      end);;
    mret (Some secnum)).

(** The key cards of the player that acts; [None] for a monster. *)
Record player_t : Type := mkPlayer {
  bluecard : bool; blueskull : bool; redcard : bool; redskull : bool; yellowcard : bool; yellowskull : bool;
}.

(** The check of a lock: a player without the card is told so. *)
Definition check_lock (p : player_t) (card skull : player_t → bool) (msg : string) : WM bool :=
  if negb (card p) && negb (skull p) then
    modS (with_message (Some msg));;
    mret false
  else mret true.

Definition EV_DoLockedDoor (ln : Z) (type : vldoor_e) (thing : option player_t) : WM Z :=
  match thing with
  | None => mret 0
  | Some p =>
      l ← line ln;
      pass ←
        (if (lspecial l =? 99) || (lspecial l =? 133) then check_lock p bluecard blueskull "PD_BLUEO"
         else if (lspecial l =? 134) || (lspecial l =? 135) then check_lock p redcard redskull "PD_REDO"
         else if (lspecial l =? 136) || (lspecial l =? 137) then check_lock p yellowcard yellowskull "PD_YELLOWO"
         else mret true);
      if (pass : bool) then EV_DoDoor ln type else mret 0
  end.

(** The lock of a door that is opened by hand; a monster does not pass it. *)
Definition manual_lock (thing : option player_t) (card skull : player_t → bool) (msg : string) : WM bool :=
  match thing with None => mret false | Some p => check_lock p card skull msg end.

Definition raise_door_line (sp : Z) : bool :=
  (sp =? 1) || (sp =? 26) || (sp =? 27) || (sp =? 28) || (sp =? 117).

(** A door line used while its sector has a mover: the direction is turned round, whatever kind of
    thinker it is. *)
Definition use_moving_door (a : Z) (thing : option player_t) : WM unit :=
  t ← thinker a;
  let direction := match th_obj t with ODoor o => vd_direction o | o => pun_direction o end in
  let put (d : Z) := upd_thinker a (λ t, match th_obj t with
    | ODoor o => set_obj (ODoor (door_motion (vd_type o) d (vd_topcountdown o) o)) t
    | o => set_obj (pun_set_direction d o) t
    end) in
  if direction =? -1 then put 1
  else match thing with
  | None => mret tt
  | Some _ =>
      match th_obj t, th_function t with
      | OPlat o, act_run =>
          set_plat a (mkPlat (pt_sector o) (pt_speed o) (pt_low o) (pt_high o) (-1) (pt_count o) (pt_status o)
            (pt_oldstatus o) (pt_crush o) (pt_tag o) (pt_type o))
      | _, _ => put (-1)
      end
  end.

Definition EV_VerticalDoor (ln : Z) (thing : option player_t) : WM unit :=
  l ← line ln;
  pass ←
    (if (lspecial l =? 26) || (lspecial l =? 32) then manual_lock thing bluecard blueskull "PD_BLUEK"
     else if (lspecial l =? 27) || (lspecial l =? 34) then manual_lock thing yellowcard yellowskull "PD_YELLOWK"
     else if (lspecial l =? 28) || (lspecial l =? 33) then manual_lock thing redcard redskull "PD_REDK"
     else mret true);
  if negb pass then mret tt
  else
    sd ← side (sidenum l).2;
    let secnum := side_sector sd in
    sec ← sector secnum;
    match specialdata sec, raise_door_line (lspecial l) with
    | Some a, true => use_moving_door a thing
    | _, _ =>
        door ← P_AddThinker (λ a, ODoor (junk_door a));
        upd_sector secnum (set_specialdata (Some door));;
        let j := junk_door door in
        let sp := lspecial l in
        let type :=
          if (sp =? 1) || (sp =? 26) || (sp =? 27) || (sp =? 28) then vld_normal
          else if (sp =? 31) || (sp =? 32) || (sp =? 33) || (sp =? 34) then vld_open
          else if sp =? 117 then vld_blazeRaise
          else if sp =? 118 then vld_blazeOpen
          else vd_type j in
        let speed := if (sp =? 117) || (sp =? 118) then VDOORSPEED * 4 else VDOORSPEED in
        (if (sp =? 31) || (sp =? 32) || (sp =? 33) || (sp =? 34) || (sp =? 118)
         then upd_line ln (set_lspecial 0) else mret tt);;
        lowest ← P_FindLowestCeilingSurrounding secnum;
        set_door door (mkDoor type secnum (i32 (lowest - 4 * FRACUNIT)) speed 1 VDOORWAIT (vd_topcountdown j))
    end.

(** The height it would open to and the time it would wait there are not set. *)
Definition P_SpawnDoorCloseIn30 (sec : Z) : WM unit :=
  door ← P_AddThinker (λ a,
    let j := junk_door a in
    ODoor (mkDoor vld_normal sec (vd_topheight j) VDOORSPEED 0 (vd_topwait j) (30 * TICRATE)));
  upd_sector sec (set_specialdata (Some door));;
  upd_sector sec (set_special 0).

Definition P_SpawnDoorRaiseIn5Mins (sec : Z) : WM unit :=
  door ← P_AddThinker (λ a, ODoor (junk_door a));
  upd_sector sec (set_specialdata (Some door));;
  upd_sector sec (set_special 0);;
  lowest ← P_FindLowestCeilingSurrounding sec;
  set_door door (mkDoor vld_raiseIn5Mins sec (i32 (lowest - 4 * FRACUNIT)) VDOORSPEED 2 VDOORWAIT (5 * 60 * TICRATE)).

(** ** Lights *)

Definition T_FireFlicker (a : Z) (flick : fireflicker_t) : WM unit :=
  let count := i32 (ff_count flick - 1) in
  upd_thinker a (set_obj (OFlicker (mkFlicker (ff_sector flick) count (ff_maxlight flick) (ff_minlight flick))));;
  if negb (count =? 0) then mret tt
  else
    r ← P_Random;
    let amount := Z.land r 3 * 16 in
    s ← sector (ff_sector flick);
    upd_sector (ff_sector flick)
      (set_lightlevel (if lightlevel s - amount <? ff_minlight flick then ff_minlight flick
                       else ff_maxlight flick - amount));;
    upd_thinker a (set_obj (OFlicker (mkFlicker (ff_sector flick) 4 (ff_maxlight flick) (ff_minlight flick)))).

Definition P_SpawnFireFlicker (sec : Z) : WM unit :=
  upd_sector sec (set_special 0);;
  s ← sector sec;
  min ← P_FindMinSurroundingLight sec (lightlevel s);
  P_AddThinker (λ _, OFlicker (mkFlicker sec 4 (lightlevel s) (i32 (min + 16))));;
  mret tt.

Definition T_LightFlash (a : Z) (flash : lightflash_t) : WM unit :=
  let put (count : Z) := upd_thinker a (set_obj (OFlash (mkFlash (lf_sector flash) count (lf_maxlight flash)
    (lf_minlight flash) (lf_maxtime flash) (lf_mintime flash)))) in
  let count := i32 (lf_count flash - 1) in
  put count;;
  if negb (count =? 0) then mret tt
  else
    s ← sector (lf_sector flash);
    if lightlevel s =? lf_maxlight flash then
      upd_sector (lf_sector flash) (set_lightlevel (lf_minlight flash));;
      r ← P_Random;
      put (Z.land r (lf_mintime flash) + 1)
    else
      upd_sector (lf_sector flash) (set_lightlevel (lf_maxlight flash));;
      r ← P_Random;
      put (Z.land r (lf_maxtime flash) + 1).

Definition P_SpawnLightFlash (sec : Z) : WM unit :=
  upd_sector sec (set_special 0);;
  s ← sector sec;
  min ← P_FindMinSurroundingLight sec (lightlevel s);
  r ← P_Random;
  P_AddThinker (λ _, OFlash (mkFlash sec (Z.land r 64 + 1) (lightlevel s) min 64 7));;
  mret tt.

Definition T_StrobeFlash (a : Z) (flash : strobe_t) : WM unit :=
  let put (count : Z) := upd_thinker a (set_obj (OStrobe (mkStrobe (sr_sector flash) count (sr_minlight flash)
    (sr_maxlight flash) (sr_darktime flash) (sr_brighttime flash)))) in
  let count := i32 (sr_count flash - 1) in
  put count;;
  if negb (count =? 0) then mret tt
  else
    s ← sector (sr_sector flash);
    if lightlevel s =? sr_minlight flash then
      upd_sector (sr_sector flash) (set_lightlevel (sr_maxlight flash));;
      put (sr_brighttime flash)
    else
      upd_sector (sr_sector flash) (set_lightlevel (sr_minlight flash));;
      put (sr_darktime flash).

Definition P_SpawnStrobeFlash (sec fastOrSlow : Z) (inSync : bool) : WM unit :=
  s ← sector sec;
  min ← P_FindMinSurroundingLight sec (lightlevel s);
  let min := if min =? lightlevel s then 0 else min in
  count ← (if negb inSync then r ← P_Random; mret (Z.land r 7 + 1) else mret 1);
  P_AddThinker (λ _, OStrobe (mkStrobe sec count min (lightlevel s) fastOrSlow STROBEBRIGHT));;
  upd_sector sec (set_special 0).

Definition EV_StartLightStrobing (ln : Z) : WM unit :=
  l ← line ln;
  OverTags (ltag l) (λ secnum, P_SpawnStrobeFlash secnum SLOWDARK false;; mret (Some secnum));;
  mret tt.

(** The sectors from number [j] on; [n] of them are left. *)
Fixpoint LightsOffLoop (n : nat) (t j : Z) : WM unit :=
  match n with
  | O => mret tt
  | S n =>
      s ← sector j;
      (if tag s =? t then
         min ← P_FindMinSurroundingLight j (lightlevel s);
         upd_sector j (set_lightlevel min)
       else mret tt);;
      LightsOffLoop n t (j + 1)
  end.

Definition EV_TurnTagLightsOff (ln : Z) : WM unit :=
  l ← line ln;
  w ← getS;
  LightsOffLoop (length (sectors w)) (ltag l) 0.

(** [bright] is one variable for all sectors: the brightness found around one sector is kept. *)
Fixpoint LightsOnLoop (n : nat) (t i bright : Z) : WM unit :=
  match n with
  | O => mret tt
  | S n =>
      s ← sector i;
      if tag s =? t then
        bright ← (if bright =? 0 then
          AroundLoop i (λ b other, mret (if b <? lightlevel other then lightlevel other else b)) (slines s) bright
          else mret bright);
        upd_sector i (set_lightlevel bright);;
        LightsOnLoop n t (i + 1) bright
      else LightsOnLoop n t (i + 1) bright
  end.

Definition EV_LightTurnOn (ln bright : Z) : WM unit :=
  l ← line ln;
  w ← getS;
  LightsOnLoop (length (sectors w)) (ltag l) 0 bright.

Definition T_Glow (a : Z) (g : glow_t) : WM unit :=
  let put (d : Z) := upd_thinker a (set_obj (OGlow (mkGlow (gl_sector g) (gl_minlight g) (gl_maxlight g) d))) in
  if gl_direction g =? -1 then
    s ← sector (gl_sector g);
    upd_sector (gl_sector g) (set_lightlevel (lightlevel s - GLOWSPEED));;
    s ← sector (gl_sector g);
    if lightlevel s <=? gl_minlight g then
      upd_sector (gl_sector g) (set_lightlevel (lightlevel s + GLOWSPEED));;
      put 1
    else mret tt
  else if gl_direction g =? 1 then
    s ← sector (gl_sector g);
    upd_sector (gl_sector g) (set_lightlevel (lightlevel s + GLOWSPEED));;
    s ← sector (gl_sector g);
    if gl_maxlight g <=? lightlevel s then
      upd_sector (gl_sector g) (set_lightlevel (lightlevel s - GLOWSPEED));;
      put (-1)
    else mret tt
  else mret tt.

Definition P_SpawnGlowingLight (sec : Z) : WM unit :=
  s ← sector sec;
  min ← P_FindMinSurroundingLight sec (lightlevel s);
  P_AddThinker (λ _, OGlow (mkGlow sec min (lightlevel s) (-1)));;
  upd_sector sec (set_special 0).

(** ** The donut *)

(** The first line of the ring whose back is not the pillar. *)
Fixpoint DonutScan (ls : list Z) (s1 : Z) : WM (option (option Z)) :=
  match ls with
  | [] => mret None
  | i :: ls =>
      l ← line i;
      if bool_decide (backsector l = Some s1) then DonutScan ls s1 else mret (Some (backsector l))
  end.

Definition EV_DoDonut (ln : Z) : WM Z :=
  l ← line ln;
  OverTags (ltag l) (λ secnum,
    s1 ← sector secnum;
    match slines s1 with
    | [] => stopM BadAccess
    | i0 :: _ =>
        l0 ← line i0;
        match getNextSector l0 secnum with
        | None => mret None
        | Some ring =>
            s2 ← sector ring;
            found ← DonutScan (slines s2) secnum;
            match found with
            | None => mret (Some secnum)
            | Some s3 =>
                hp ← (match s3 with
                  | None => mret DonutOverrun
                  | Some i => s ← sector i; mret (floorheight s, floorpic s)
                  end);
                floor ← P_AddThinker (λ a, OFloor (mkFloor donutRaise false ring 1 0 hp.2 hp.1 (FLOORSPEED ÷ 2)));
                upd_sector ring (set_specialdata (Some floor));;
                floor ← P_AddThinker (λ a, let j := junk_floor a in
                  OFloor (mkFloor lowerFloor false secnum (-1) (fm_newspecial j) (fm_texture j) hp.1 (FLOORSPEED ÷ 2)));
                upd_sector secnum (set_specialdata (Some floor));;
                mret (Some secnum)
            end
        end
    end).

(** ** One tic *)

(** The call of the function of a thinker. *)
Definition think (t : thinker_t) : WM unit :=
  match th_obj t with
  | ODoor o => T_VerticalDoor (th_addr t) o
  | OPlat o => T_PlatRaise (th_addr t) o
  | OFloor o => T_MoveFloor (th_addr t) o
  | OCeiling o => T_MoveCeiling (th_addr t) o
  | OFlicker o => T_FireFlicker (th_addr t) o
  | OFlash o => T_LightFlash (th_addr t) o
  | OStrobe o => T_StrobeFlash (th_addr t) o
  | OGlow o => T_Glow (th_addr t) o
  end.

(** The movers in the order of the list, as [P_RunThinkers] visits them: a removed one is taken
    out, one in stasis is left alone, the others are called. *)
Fixpoint RunMovers (addrs : list Z) : WM unit :=
  match addrs with
  | [] => mret tt
  | a :: addrs =>
      t ← thinker a;
      (match th_function t with
       | act_removed =>
           modS (λ w, with_thinkers (filter (λ t, th_addr t ≠ a) (thinkers w)) (next_addr w) w)
       | act_null => mret tt
       | act_run => think t
       end);;
      RunMovers addrs
  end.

Definition P_RunMovers : WM unit := w ← getS; RunMovers (th_addr <$> thinkers w).
End movers.
