(* ===== verification/MoversSafe.v ===== *)
(** * Moving sectors: no mover is lost or doubled

    The invariant of the sectors and their thinkers of Movers.v, and that every event and every
    tic ends and keeps it. *)
From S2P Require Import Prelude.
From S2P Require Import Movers.

Lemma at_index_Some {A} (l : list A) i x : at_index l i = Some x ↔ 0 ≤ i ∧ l !! Z.to_nat i = Some x.
Proof. unfold at_index. destruct (Z.ltb_spec i 0); split; [done|intros []; lia|auto|by intros []]. Qed.

Lemma at_index_valid {A} (l : list A) i : 0 ≤ i < Z.of_nat (length l) → is_Some (at_index l i).
Proof.
  intros Hi. destruct (lookup_lt_is_Some_2 l (Z.to_nat i)) as [x Hx]; [lia|]. exists x. apply at_index_Some. split; [lia|done].
Qed.

Lemma at_index_range {A} (l : list A) i x : at_index l i = Some x → 0 ≤ i < Z.of_nat (length l).
Proof. intros [? H%lookup_lt_Some]%at_index_Some. lia. Qed.

Lemma at_index_elem {A} (l : list A) i x : at_index l i = Some x → x ∈ l.
Proof. intros [_ H]%at_index_Some. by eapply list_elem_of_lookup_2. Qed.

Lemma at_index_alter {A} (f : A → A) (l : list A) i j :
  0 ≤ i → at_index (alter f (Z.to_nat i) l) j = if decide (i = j) then f <$> at_index l j else at_index l j.
Proof.
  intros Hi. unfold at_index. destruct (Z.ltb_spec j 0); [case_decide; [lia|done]|].
  case_decide as E; [subst; apply list_lookup_alter_eq|]. apply list_lookup_alter_ne. lia.
Qed.

(** ** The invariant *)

Definition obj_sector (o : object) : Z :=
  match o with
  | ODoor o => vd_sector o | OPlat o => pt_sector o | OFloor o => fm_sector o | OCeiling o => ce_sector o
  | OFlicker o => ff_sector o | OFlash o => lf_sector o | OStrobe o => sr_sector o | OGlow o => gl_sector o
  end.

(** The kinds of thinkers: movers own their sector. *)
Inductive kind : Type := k_door | k_plat | k_floor | k_ceiling | k_light.

#[export] Instance kind_eq : EqDecision kind.
Proof. solve_decision. Defined.

Definition kind_of (o : object) : kind :=
  match o with
  | ODoor _ => k_door | OPlat _ => k_plat | OFloor _ => k_floor | OCeiling _ => k_ceiling | _ => k_light
  end.

Section invariant.
Context {T : Type}.
Implicit Types (w : world T) (t : thinker_t).

Definition line_ok (nsec nsides : Z) (l : line_t) : Prop :=
  0 ≤ frontsector l < nsec ∧ (∀ b, backsector l = Some b → 0 ≤ b < nsec) ∧
  0 ≤ (sidenum l).1 < nsides ∧ (two_sided l = true → is_Some (backsector l) ∧ 0 ≤ (sidenum l).2 < nsides).

Definition live t : Prop := th_function t ≠ act_removed.

(** A thinker's sector exists; a mover is the one its sector knows. *)
Definition owner_ok w t : Prop :=
  ∃ s, at_index (sectors w) (obj_sector (th_obj t)) = Some s ∧
    (kind_of (th_obj t) ≠ k_light → specialdata s = Some (th_addr t)).

(** A table of active thinkers holds each at most once, and live ones of its kind. *)
Definition table_ok w (k : kind) (tab : list (option Z)) : Prop :=
  NoDup (omap id tab) ∧
  ∀ a, Some a ∈ tab → ∃ t, t ∈ thinkers w ∧ th_addr t = a ∧ live t ∧ kind_of (th_obj t) = k.

(** The invariant, except for the thinker [hole], which is being made. *)
Record winv (hole : option Z) w : Prop := {
  wi_lines s i : s ∈ sectors w → i ∈ slines s → 0 ≤ i < Z.of_nat (length (lines w));
  wi_line : Forall (line_ok (Z.of_nat (length (sectors w))) (Z.of_nat (length (sides w)))) (lines w);
  wi_side : Forall (λ sd, 0 ≤ side_sector sd < Z.of_nat (length (sectors w))) (sides w);
  wi_nodup : NoDup (th_addr <$> thinkers w);
  wi_next t : t ∈ thinkers w → th_addr t < next_addr w;
  wi_owner t : t ∈ thinkers w → live t → hole ≠ Some (th_addr t) → owner_ok w t;
  wi_special i s a : at_index (sectors w) i = Some s → specialdata s = Some a → hole ≠ Some a →
    ∃ t, t ∈ thinkers w ∧ th_addr t = a ∧ live t ∧ kind_of (th_obj t) ≠ k_light ∧ obj_sector (th_obj t) = i;
  wi_plats : table_ok w k_plat (activeplats w);
  wi_ceilings : table_ok w k_ceiling (activeceilings w);
  wi_listed t : t ∈ thinkers w → live t → hole ≠ Some (th_addr t) → kind_of (th_obj t) = k_plat →
    Some (th_addr t) ∈ activeplats w;
  wi_buttons b : b ∈ buttonlist w → b_timer b ≠ 0 → ∃ ln, b_line b = Some ln ∧ 0 ≤ ln < Z.of_nat (length (lines w));
  wi_nbuttons : length (buttonlist w) = MAXBUTTONS;
  wi_scroll ln : ln ∈ linespeciallist (specials w) → 0 ≤ ln < Z.of_nat (length (lines w));
}.

(** Two worlds that differ only in what the invariant does not read. *)
Record same_shape w w' : Prop := {
  ss_lines : (λ l, (two_sided l, sidenum l, frontsector l, backsector l)) <$> lines w' =
             (λ l, (two_sided l, sidenum l, frontsector l, backsector l)) <$> lines w;
  ss_sides : side_sector <$> sides w' = side_sector <$> sides w;
  ss_sectors : (λ s, (slines s, specialdata s)) <$> sectors w' = (λ s, (slines s, specialdata s)) <$> sectors w;
  ss_thinkers : (λ t, (th_addr t, bool_decide (th_function t = act_removed), kind_of (th_obj t), obj_sector (th_obj t))) <$> thinkers w' =
    (λ t, (th_addr t, bool_decide (th_function t = act_removed), kind_of (th_obj t), obj_sector (th_obj t))) <$> thinkers w;
  ss_next : next_addr w' = next_addr w;
  ss_plats : activeplats w' = activeplats w;
  ss_ceilings : activeceilings w' = activeceilings w;
  ss_buttons : buttonlist w' = buttonlist w;
  ss_scroll : linespeciallist (specials w') = linespeciallist (specials w);
}.

Lemma fmap_at_index {A B} (f : A → B) l l' i x' :
  f <$> l' = f <$> l → at_index l' i = Some x' → ∃ x, at_index l i = Some x ∧ f x = f x'.
Proof.
  intros E [Hi Hx]%at_index_Some. assert (H : (f <$> l) !! Z.to_nat i = Some (f x')) by (by rewrite <- E, list_lookup_fmap, Hx).
  rewrite list_lookup_fmap in H. apply fmap_Some in H as (x & Hx' & Hf). exists x.
  split; [by apply at_index_Some|done].
Qed.

Lemma fmap_elem {A B} (f : A → B) (l l' : list A) x' : f <$> l' = f <$> l → x' ∈ l' → ∃ x, x ∈ l ∧ f x = f x'.
Proof.
  intros E Hx. assert (H : f x' ∈ f <$> l) by (rewrite <- E; by apply list_elem_of_fmap_2).
  apply list_elem_of_fmap in H as (x & Hf & Hin). eauto.
Qed.

Lemma same_shape_refl w : same_shape w w.
Proof. done. Qed.

Lemma same_shape_sym w w' : same_shape w w' → same_shape w' w.
Proof. intros []. by split. Qed.

Lemma same_shape_trans w1 w2 w3 : same_shape w1 w2 → same_shape w2 w3 → same_shape w1 w3.
Proof. intros [] []. split; congruence. Qed.

(** A thinker of one world in a world of the same shape. *)
Lemma shape_thinker w w' t' : same_shape w w' → t' ∈ thinkers w' →
  ∃ t, t ∈ thinkers w ∧ th_addr t = th_addr t' ∧ (live t ↔ live t') ∧ kind_of (th_obj t) = kind_of (th_obj t') ∧
    obj_sector (th_obj t) = obj_sector (th_obj t').
Proof.
  intros SS Ht. destruct (fmap_elem _ _ _ _ (ss_thinkers _ _ SS) Ht) as (t & Hin & [= ? Hr ? ?]).
  exists t. split_and!; [done|done| |done|done]. unfold live. revert Hr. do 2 case_bool_decide; done || tauto.
Qed.

Lemma shape_sector w w' i s' : same_shape w w' → at_index (sectors w') i = Some s' →
  ∃ s, at_index (sectors w) i = Some s ∧ slines s = slines s' ∧ specialdata s = specialdata s'.
Proof.
  intros SS Hs. destruct (fmap_at_index _ _ _ _ _ (ss_sectors _ _ SS) Hs) as (s & ? & [= ? ?]). eauto.
Qed.

Lemma shape_owner w w' t t' :
  same_shape w w' → th_addr t = th_addr t' → kind_of (th_obj t) = kind_of (th_obj t') →
  obj_sector (th_obj t) = obj_sector (th_obj t') → owner_ok w t → owner_ok w' t'.
Proof.
  intros SS Ha Hk Ho (s & Hs & Hd). rewrite Ho in Hs.
  destruct (shape_sector _ _ _ _ (same_shape_sym _ _ SS) Hs) as (s' & Hs' & _ & E).
  exists s'. split; [done|]. rewrite <- Hk, <- Ha, E. done.
Qed.

Lemma shape_table w w' k tab : same_shape w w' → table_ok w k tab → table_ok w' k tab.
Proof.
  intros SS [Hn Ht]. split; [done|]. intros a (t & Hin & Ha & Hl & Hk)%Ht.
  destruct (shape_thinker _ _ _ (same_shape_sym _ _ SS) Hin) as (t' & ? & ? & ? & ? & _).
  exists t'. split_and!; [done|congruence|tauto|congruence].
Qed.

Lemma shape_lengths w w' : same_shape w w' →
  length (sectors w') = length (sectors w) ∧ length (lines w') = length (lines w) ∧ length (sides w') = length (sides w).
Proof.
  intros SS. split_and!.
  - by rewrite <- (length_fmap (λ s, (slines s, specialdata s)) (sectors w')), (ss_sectors _ _ SS), length_fmap.
  - by rewrite <- (length_fmap (λ l, (two_sided l, sidenum l, frontsector l, backsector l)) (lines w')),
      (ss_lines _ _ SS), length_fmap.
  - by rewrite <- (length_fmap side_sector (sides w')), (ss_sides _ _ SS), length_fmap.
Qed.

Lemma winv_shape hole w w' : same_shape w w' → winv hole w → winv hole w'.
Proof.
  intros SS I. destruct (shape_lengths _ _ SS) as (Hls & Hll & Hld).
  pose proof (same_shape_sym _ _ SS) as SS'. split; rewrite ?Hls, ?Hll, ?Hld.
  - intros s' i Hs' Hi. destruct (fmap_elem _ _ _ _ (ss_sectors _ _ SS) Hs') as (s & Hs & [= E _]).
    apply (wi_lines _ _ I s); [done|by rewrite E].
  - apply Forall_forall. intros l' Hl'. destruct (fmap_elem _ _ _ _ (ss_lines _ _ SS) Hl') as (l & Hl & [= E1 E2 E3 E4]).
    pose proof (proj1 (Forall_forall _ _) (wi_line _ _ I) l Hl) as H. unfold line_ok in *. by rewrite E1, E2, E3, E4 in H.
  - apply Forall_forall. intros sd' Hsd'. destruct (fmap_elem _ _ _ _ (ss_sides _ _ SS) Hsd') as (sd & Hsd & <-).
    exact (proj1 (Forall_forall _ _) (wi_side _ _ I) sd Hsd).
  - assert (E : th_addr <$> thinkers w' = th_addr <$> thinkers w); [|rewrite E; apply I].
    pose proof (f_equal (fmap (λ x : Z * bool * kind * Z, x.1.1.1)) (ss_thinkers _ _ SS)) as E.
    by rewrite <- !list_fmap_compose in E.
  - intros t' Ht'. destruct (shape_thinker _ _ _ SS Ht') as (t & Ht & <- & _). rewrite (ss_next _ _ SS). by apply I.
  - intros t' Ht' Hl Hh. destruct (shape_thinker _ _ _ SS Ht') as (t & Ht & Ea & El & Ek & Eo).
    eapply (shape_owner w w' t); [done..|]. apply I; [done|tauto|congruence].
  - intros i s' a Hs' Hd Hh. destruct (shape_sector _ _ _ _ SS Hs') as (s & Hs & _ & E).
    destruct (wi_special _ _ I i s a Hs ltac:(congruence) Hh) as (t & Ht & Ha & Hl & Hk & Ho).
    destruct (shape_thinker _ _ _ SS' Ht) as (t' & ? & ? & ? & ? & ?). exists t'.
    split_and!; [done|congruence|tauto|congruence|congruence].
  - rewrite (ss_plats _ _ SS). eapply shape_table; [done|apply I].
  - rewrite (ss_ceilings _ _ SS). eapply shape_table; [done|apply I].
  - intros t' Ht' Hl Hh Hk. destruct (shape_thinker _ _ _ SS Ht') as (t & Ht & Ea & El & Ek & _).
    rewrite (ss_plats _ _ SS), <- Ea. apply (wi_listed _ _ I t); [done|tauto|congruence|congruence].
  - rewrite (ss_buttons _ _ SS). apply I.
  - rewrite (ss_buttons _ _ SS). apply I.
  - rewrite (ss_scroll _ _ SS). apply I.
Qed.
End invariant.

(** ** Rules for the primitives *)

Section rules.
Context {T : Type}.
Implicit Types (w : world T) (t : thinker_t) (E : stop → Prop).

Lemma sector_wp E i s w (Q : sector_t → world T → Prop) : at_index (sectors w) i = Some s → Q s w → wp E (sector i) Q w.
Proof. intros Hs HQ. unfold sector. wp_simp. by rewrite Hs. Qed.

Lemma line_wp E i l w (Q : line_t → world T → Prop) : at_index (lines w) i = Some l → Q l w → wp E (line i) Q w.
Proof. intros Hs HQ. unfold line. wp_simp. by rewrite Hs. Qed.

Lemma side_wp E i s w (Q : side_t → world T → Prop) : at_index (sides w) i = Some s → Q s w → wp E (side i) Q w.
Proof. intros Hs HQ. unfold side. wp_simp. by rewrite Hs. Qed.

Lemma upd_sector_wp E i s f w (Q : unit → world T → Prop) :
  at_index (sectors w) i = Some s → Q tt (with_sectors (alter f (Z.to_nat i) (sectors w)) w) → wp E (upd_sector i f) Q w.
Proof. intros Hs HQ. unfold upd_sector. wp_simp. by apply (sector_wp _ i s). Qed.

Lemma find_thinker_Some a l t : find_thinker a l = Some t → t ∈ l ∧ th_addr t = a.
Proof.
  unfold find_thinker. intros ([i t'] & (H & Ha & _)%list_find_Some & ->)%fmap_Some. split; [|done].
  by eapply list_elem_of_lookup_2.
Qed.

Lemma find_thinker_in l t : NoDup (th_addr <$> l) → t ∈ l → find_thinker (th_addr t) l = Some t.
Proof.
  intros Hnd Ht. unfold find_thinker. destruct (list_find _ l) as [[i t']|] eqn:E; cbn.
  - apply list_find_Some in E as (Hi & Ha & _). f_equal. apply list_elem_of_lookup in Ht as [j Hj].
    assert (i = j) as ->; [|congruence]. eapply (NoDup_lookup (th_addr <$> l)); [done|..]; rewrite list_lookup_fmap.
    + by rewrite Hi.
    + rewrite Hj. cbn. by rewrite Ha.
  - apply list_find_None in E. by destruct (proj1 (Forall_forall _ _) E t Ht).
Qed.

Lemma thinker_wp E t w (Q : thinker_t → world T → Prop) :
  NoDup (th_addr <$> thinkers w) → t ∈ thinkers w → Q t w → wp E (thinker (th_addr t)) Q w.
Proof. intros Hn Ht HQ. unfold thinker. wp_simp. by rewrite find_thinker_in. Qed.

Lemma upd_thinker_wp E t f w (Q : unit → world T → Prop) :
  NoDup (th_addr <$> thinkers w) → t ∈ thinkers w →
  Q tt (with_thinkers (upd_thinkers (th_addr t) f (thinkers w)) (next_addr w) w) → wp E (upd_thinker (th_addr t) f) Q w.
Proof. intros Hn Ht HQ. unfold upd_thinker. wp_simp. by apply (thinker_wp _ t). Qed.

Lemma fmap_alter_same {A B} (g : A → B) (f : A → A) i (l : list A) : (∀ x, g (f x) = g x) → g <$> alter f i l = g <$> l.
Proof.
  intros Hf. apply list_eq. intros j. rewrite !list_lookup_fmap. destruct (decide (i = j)) as [->|].
  - rewrite list_lookup_alter_eq. destruct (l !! j); cbn; by rewrite ?Hf.
  - by rewrite list_lookup_alter_ne.
Qed.

Lemma alter_twice {A} (f g : A → A) i (l : list A) : (∀ x, f (g x) = f x) → alter f i (alter g i l) = alter f i l.
Proof.
  intros Hf. apply list_eq. intros j. destruct (decide (i = j)) as [->|].
  - rewrite !list_lookup_alter_eq. destruct (l !! j); cbn; by rewrite ?Hf.
  - by rewrite !list_lookup_alter_ne.
Qed.

(** Updates that keep the shape. *)
Lemma shape_sectors f i w : (∀ s, slines (f s) = slines s ∧ specialdata (f s) = specialdata s) →
  same_shape w (with_sectors (alter f i (sectors w)) w).
Proof. intros Hf. split; try done. cbn. apply fmap_alter_same. intros s. by destruct (Hf s) as [-> ->]. Qed.

Lemma shape_things r x w : same_shape w (with_things r x w).
Proof. by split. Qed.

Lemma shape_message m w : same_shape w (with_message m w).
Proof. by split. Qed.

Lemma shape_line f i w : (∀ l, two_sided (f l) = two_sided l ∧ sidenum (f l) = sidenum l ∧ frontsector (f l) = frontsector l ∧
    backsector (f l) = backsector l) →
  same_shape w (with_lines (alter f i (lines w)) w).
Proof. intros Hf. split; try done. cbn. apply fmap_alter_same. intros l. by destruct (Hf l) as (-> & -> & -> & ->). Qed.

(** A write to a thinker that keeps its kind, its sector and whether it is live. *)
Definition keeps (t : thinker_t) (f : thinker_t → thinker_t) : Prop :=
  th_addr (f t) = th_addr t ∧ (live (f t) ↔ live t) ∧ kind_of (th_obj (f t)) = kind_of (th_obj t) ∧
  obj_sector (th_obj (f t)) = obj_sector (th_obj t).

Lemma addr_unique (l : list thinker_t) t t' : NoDup (th_addr <$> l) → t ∈ l → t' ∈ l → th_addr t = th_addr t' → t = t'.
Proof.
  intros Hn Ht Ht' E. pose proof (find_thinker_in l t Hn Ht) as H. rewrite E, find_thinker_in in H by done. congruence.
Qed.

Lemma shape_thinkers t f w : NoDup (th_addr <$> thinkers w) → t ∈ thinkers w → keeps t f →
  same_shape w (with_thinkers (upd_thinkers (th_addr t) f (thinkers w)) (next_addr w) w).
Proof.
  intros Hn Ht (Ha & Hl & Hk & Ho). split; try done. cbn. unfold upd_thinkers. rewrite <- list_fmap_compose.
  apply list_fmap_ext. intros i t' Ht'%list_elem_of_lookup_2. cbn. destruct (Z.eqb_spec (th_addr t') (th_addr t)) as [E|]; [|done].
  assert (t' = t) as -> by (by eapply addr_unique). rewrite Ha, Hk, Ho. do 3 f_equal. apply bool_decide_ext.
  unfold live in Hl. destruct (decide (th_function t = act_removed)), (decide (th_function (f t) = act_removed)); tauto.
Qed.

Lemma set_obj_keeps t o : kind_of o = kind_of (th_obj t) → obj_sector o = obj_sector (th_obj t) → keeps t (set_obj o).
Proof. by split. Qed.

Lemma set_function_keeps t f : live t → f ≠ act_removed → keeps t (set_function f).
Proof. intros. split; [done|]. split; [by split|done]. Qed.
End rules.

(** ** Planes *)

Section planes.
Context {T : Type} (change : list sector_t → Z → bool → Z → T → bool * (Z * T)).
Implicit Types (w : world T) (E : stop → Prop).

(** The world in which a plane has another height, and the things have been moved. *)
Definition moved w (sec fc h : Z) (w' : world T) : Prop :=
  ∃ r x, w' = with_things r x (with_sectors (alter (set_plane fc h) (Z.to_nat sec) (sectors w)) w).

Lemma set_plane_fields fc h s : slines (set_plane fc h s) = slines s ∧ specialdata (set_plane fc h s) = specialdata s.
Proof. unfold set_plane. by destruct (fc =? 0). Qed.

Lemma moved_shape w sec fc h w' : moved w sec fc h w' → same_shape w w'.
Proof.
  intros (r & x & ->). eapply same_shape_trans; [|apply shape_things]. apply shape_sectors, set_plane_fields.
Qed.

Lemma moved_sector w sec fc h w' s : moved w sec fc h w' → at_index (sectors w) sec = Some s →
  at_index (sectors w') sec = Some (set_plane fc h s).
Proof.
  intros (r & x & ->) Hs. cbn. pose proof (at_index_range _ _ _ Hs).
  rewrite at_index_alter by lia. by rewrite decide_True, Hs by done.
Qed.

Lemma moved_again w sec fc h h' w1 w2 : moved w sec fc h w1 → moved w1 sec fc h' w2 → moved w sec fc h' w2.
Proof.
  intros (r & x & ->) (r' & x' & ->). exists r', x'. cbn. unfold with_things, with_sectors. cbn. f_equal.
  apply alter_twice. intros s. unfold set_plane. by destruct (fc =? 0).
Qed.

(** Nothing is ever in the way of the sector. *)
Definition unblocked (sec : Z) : Prop := ∀ ss crush i x, (change ss sec crush i x).1 = false.

Lemma arrive_wp E sec dest crush fc w s :
  at_index (sectors w) sec = Some s →
  wp E (arrive change sec dest crush fc) (λ r w', ∃ h, moved w sec fc h w' ∧
    r = pastdest ∧ (h = dest ∨ (h = plane_height fc s ∧ ¬ unblocked sec))) w.
Proof.
  intros Hs. unfold arrive. rewrite wp_bind. apply (sector_wp _ _ s); [done|].
  rewrite wp_bind. apply (upd_sector_wp _ _ s); [done|]. rewrite wp_bind. unfold P_ChangeSector at 1. wp_simp.
  destruct (change _ sec crush _ _) as [b [r x]] eqn:Eb. cbn [fst snd].
  set (w1 := with_things r x _).
  assert (M1 : moved w sec fc dest w1) by (by do 2 eexists).
  destruct b.
  - pose proof (moved_sector _ _ _ _ _ _ M1 Hs) as Hs1. wp_simp.
    apply (upd_sector_wp _ _ _ _ _ _ Hs1). unfold P_ChangeSector. wp_simp.
    exists (plane_height fc s). split; [|split; [done|right; split; [done|]]].
    + eapply moved_again; [exact M1|]. by do 2 eexists.
    + intros Hu. specialize (Hu (sectors (with_sectors (alter (set_plane fc dest) (Z.to_nat sec) (sectors w)) w)) crush
        (prndindex w) (things w)). cbn in *. by rewrite Eb in Hu.
  - wp_simp. exists dest. auto.
Qed.

Lemma advance_wp E sec newpos crush fc stays w s :
  at_index (sectors w) sec = Some s →
  wp E (advance change sec newpos crush fc stays) (λ r w', ∃ h, moved w sec fc h w' ∧
    ((r = ok ∧ h = newpos) ∨ (r = crushed ∧ ¬ unblocked sec ∧
      (h = plane_height fc s ∨ (h = newpos ∧ stays && crush = true))))) w.
Proof.
  intros Hs. unfold advance. rewrite wp_bind. apply (sector_wp _ _ s); [done|].
  rewrite wp_bind. apply (upd_sector_wp _ _ s); [done|]. rewrite wp_bind. unfold P_ChangeSector at 1. wp_simp.
  destruct (change _ sec crush _ _) as [b [r x]] eqn:Eb. cbn [fst snd].
  set (w1 := with_things r x _).
  assert (M1 : moved w sec fc newpos w1) by (by do 2 eexists).
  destruct b; [|wp_simp; exists newpos; auto].
  assert (Hb : ¬ unblocked sec).
  { intros Hu. specialize (Hu (sectors (with_sectors (alter (set_plane fc newpos) (Z.to_nat sec) (sectors w)) w)) crush
        (prndindex w) (things w)). cbn in *. by rewrite Eb in Hu. }
  destruct (stays && crush) eqn:Ec.
  - wp_simp. exists newpos. split; [done|]. right. auto.
  - pose proof (moved_sector _ _ _ _ _ _ M1 Hs) as Hs1. wp_simp.
    apply (upd_sector_wp _ _ _ _ _ _ Hs1). unfold P_ChangeSector. wp_simp.
    exists (plane_height fc s). split; [eapply moved_again; [exact M1|]; by do 2 eexists|]. right. auto.
Qed.

(** The height after the move, and what [T_MovePlane] reports. *)
Definition plane_moves (sec direction h0 speed dest : Z) (crush : bool) (r : result_e) (h : Z) : Prop :=
  let step := i32 (h0 + direction * speed) in
  if (if direction =? -1 then step <? dest else dest <? step)
  then r = pastdest ∧ (h = dest ∨ (h = h0 ∧ ¬ unblocked sec))
  else (r = ok ∧ h = step) ∨ (r = crushed ∧ ¬ unblocked sec ∧ (h = h0 ∨ (h = step ∧ crush = true))).

Lemma T_MovePlane_wp E sec speed dest crush fc direction w s :
  at_index (sectors w) sec = Some s → fc = 0 ∨ fc = 1 → direction = 1 ∨ direction = -1 →
  wp E (T_MovePlane change sec speed dest crush fc direction) (λ r w', ∃ h, moved w sec fc h w' ∧
    plane_moves sec direction (plane_height fc s) speed dest crush r h) w.
Proof.
  intros Hs Hfc Hd. unfold T_MovePlane. rewrite wp_bind. apply (sector_wp _ _ s); [done|].
  assert (HA : ∀ newpos stays, wp E (advance change sec newpos crush fc stays) (λ r w', ∃ h, moved w sec fc h w' ∧
    ((r = ok ∧ h = newpos) ∨ (r = crushed ∧ ¬ unblocked sec ∧ (h = plane_height fc s ∨ (h = newpos ∧ crush = true))))) w).
  { intros newpos stays. eapply wp_mono; [by apply (advance_wp _ _ _ _ _ stays)|].
    intros r w' (h & Hm & H). exists h. split; [done|]. destruct H as [H|(? & ? & [?|[? [_ ?]%andb_prop]])]; [by left|right; auto|right; auto]. }
  pose proof (arrive_wp E sec dest crush fc w s Hs) as HR. unfold plane_moves, plane_height in *.
  destruct Hfc as [-> | ->], Hd as [-> | ->]; cbn [Z.eqb Pos.eqb] in *.
  - rewrite Z.mul_1_l. destruct (dest <? i32 (floorheight s + speed)); [exact HR|apply HA].
  - replace (floorheight s + -1 * speed) with (floorheight s - speed) by lia.
    destruct (i32 (floorheight s - speed) <? dest); [exact HR|apply HA].
  - rewrite Z.mul_1_l. destruct (dest <? i32 (ceilingheight s + speed)); [exact HR|].
    rewrite wp_bind. apply (upd_sector_wp _ _ s); [done|]. unfold P_ChangeSector. wp_simp.
    eexists. split; [by do 2 eexists|]. by left.
  - replace (ceilingheight s + -1 * speed) with (ceilingheight s - speed) by lia.
    destruct (i32 (ceilingheight s - speed) <? dest); [exact HR|apply HA].
Qed.

(** Any direction and plane: the shape stays. *)
Lemma T_MovePlane_shape E sec speed dest crush fc direction w s :
  at_index (sectors w) sec = Some s →
  wp E (T_MovePlane change sec speed dest crush fc direction) (λ _ w', same_shape w w') w.
Proof.
  intros Hs. destruct (decide ((fc = 0 ∨ fc = 1) ∧ (direction = 1 ∨ direction = -1))) as [[Hf Hd]|Hno].
  - eapply wp_mono; [by apply T_MovePlane_wp|]. intros r w' (h & Hm & _). by eapply moved_shape.
  - unfold T_MovePlane. rewrite wp_bind. apply (sector_wp _ _ s); [done|].
    destruct (Z.eqb_spec fc 0), (Z.eqb_spec fc 1), (Z.eqb_spec direction 1), (Z.eqb_spec direction (-1));
      try (rewrite wp_ret; apply same_shape_refl); exfalso; apply Hno; auto; lia.
Qed.
End planes.

(** ** Ending a mover *)

Section retire.
Context {T : Type}.
Implicit Types (w : world T) (t : thinker_t).

Lemma clear_active_None a l : clear_active a l = None → Some a ∉ l.
Proof.
  induction l as [|o l IH]; cbn; [by intros _ ?%not_elem_of_nil|]. case_bool_decide; [done|].
  intros Hc%fmap_None. intros [?|?]%elem_of_cons; [done|]. by apply IH.
Qed.

Lemma clear_active_Some a l l' : clear_active a l = Some l' → NoDup (omap id l) →
  NoDup (omap id l') ∧ ∀ x, Some x ∈ l' ↔ Some x ∈ l ∧ x ≠ a.
Proof.
  revert l'. induction l as [|o l IH]; intros l'; cbn; [done|]. case_bool_decide as Ho.
  - subst o. intros [= <-]. cbn. intros [Ha Hn]%NoDup_cons. split; [done|]. intros x.
    rewrite !elem_of_cons. split; [intros [?|Hx]; [done|]|naive_solver]. split; [by right|].
    intros ->. apply Ha. apply list_elem_of_omap. by exists (Some a).
  - intros (l1 & Hc & ->)%fmap_Some. destruct o as [b|]; cbn.
    + intros [Hb Hn]%NoDup_cons. destruct (IH l1 Hc Hn) as [Hn1 Hx]. split.
      * apply NoDup_cons. split; [|done]. intros Hin. apply Hb. apply list_elem_of_omap in Hin as (y & Hy & Hid).
        cbn in Hid. subst y. apply Hx in Hy as [? _]. apply list_elem_of_omap. by exists (Some b).
      * intros x. rewrite !elem_of_cons, Hx. naive_solver.
    + intros Hn. destruct (IH l1 Hc Hn) as [Hn1 Hx]. split; [done|]. intros x. rewrite !elem_of_cons, Hx. naive_solver.
Qed.

Lemma add_active_Some a l l' : add_active a l = Some l' → NoDup (omap id l) → Some a ∉ l →
  NoDup (omap id l') ∧ ∀ x, Some x ∈ l' ↔ Some x ∈ l ∨ x = a.
Proof.
  revert l'. induction l as [|[b|] l IH]; intros l'; cbn; [done| |].
  - intros (l1 & Hc & ->)%fmap_Some [Hb Hn]%NoDup_cons Ha.
    destruct (IH l1 Hc Hn) as [Hn1 Hx]; [intros ?; apply Ha; by right|]. cbn. split.
    + apply NoDup_cons. split; [|done]. intros Hin. apply list_elem_of_omap in Hin as (y & Hy & Hid).
      cbn in Hid. subst y. apply Hx in Hy as [Hy| ->]; [|apply Ha; left]. apply Hb. apply list_elem_of_omap. by exists (Some b).
    + intros x. rewrite !elem_of_cons, Hx. naive_solver.
  - intros [= <-] Hn Ha. cbn. split.
    + apply NoDup_cons. split; [|done]. intros (y & Hy & Hid)%list_elem_of_omap. cbn in Hid. subst y.
      apply Ha. by right.
    + intros x. rewrite !elem_of_cons. naive_solver.
Qed.

Lemma upd_thinkers_elem a f l t' : t' ∈ upd_thinkers a f l ↔ ∃ t, t ∈ l ∧ t' = if th_addr t =? a then f t else t.
Proof. unfold upd_thinkers. rewrite list_elem_of_fmap. naive_solver. Qed.

Lemma upd_thinkers_addr a f l : (∀ t, th_addr (f t) = th_addr t) → th_addr <$> upd_thinkers a f l = th_addr <$> l.
Proof.
  intros Hf. unfold upd_thinkers. rewrite <- list_fmap_compose. apply list_fmap_ext. intros i t _. cbn.
  destruct (th_addr t =? a); [apply Hf|done].
Qed.

(** The world without the mover [t]. *)
Definition retired (t : thinker_t) (plats ceilings : list (option Z)) w : world T :=
  with_ceilings ceilings (with_plats plats (with_thinkers (upd_thinkers (th_addr t) (set_function act_removed) (thinkers w)) (next_addr w)
    (with_sectors (alter (set_specialdata None) (Z.to_nat (obj_sector (th_obj t))) (sectors w)) w))).

Lemma alter_specialdata i v w j s' :
  0 ≤ i → at_index (alter (set_specialdata v) (Z.to_nat i) (sectors w)) j = Some s' →
  ∃ s, at_index (sectors w) j = Some s ∧ slines s' = slines s ∧
    specialdata s' = if decide (i = j) then v else specialdata s.
Proof.
  intros Hi. rewrite at_index_alter by done. case_decide; [|by eauto].
  intros (s & -> & ->)%fmap_Some. eauto.
Qed.

(** The parts of the invariant that are about the map. *)
Lemma map_ok i v (ts : list thinker_t) n p c hole w :
  winv hole w → 0 ≤ i →
  let w' := with_ceilings c (with_plats p (with_thinkers ts n (with_sectors (alter (set_specialdata v) (Z.to_nat i) (sectors w)) w))) in
  (∀ s j, s ∈ sectors w' → j ∈ slines s → 0 ≤ j < Z.of_nat (length (lines w'))) ∧
  Forall (line_ok (Z.of_nat (length (sectors w'))) (Z.of_nat (length (sides w')))) (lines w') ∧
  Forall (λ sd, 0 ≤ side_sector sd < Z.of_nat (length (sectors w'))) (sides w').
Proof.
  intros I Hi w'. cbn. rewrite length_alter. split_and!; [|apply I|apply I].
  intros s j Hs Hj.
  destruct (fmap_elem slines (sectors w) _ s (fmap_alter_same slines (set_specialdata v) (Z.to_nat i) _ (λ x, eq_refl)) Hs)
    as (s0 & Hs0 & E).
  apply (wi_lines _ _ I s0); [done|by rewrite E].
Qed.

Lemma retired_ok t plats ceilings w :
  winv None w → t ∈ thinkers w → live t → kind_of (th_obj t) ≠ k_light →
  NoDup (omap id plats) → (∀ x, Some x ∈ plats ↔ Some x ∈ activeplats w ∧ x ≠ th_addr t) →
  NoDup (omap id ceilings) → (∀ x, Some x ∈ ceilings ↔ Some x ∈ activeceilings w ∧ x ≠ th_addr t) →
  winv None (retired t plats ceilings w).
Proof.
  intros I Ht Hl Hk Hp1 Hp2 Hc1 Hc2. destruct (wi_owner _ _ I t Ht Hl ltac:(done)) as (s & Hs & Hd).
  specialize (Hd Hk). set (i := obj_sector (th_obj t)) in *. pose proof (at_index_range _ _ _ Hs) as Hi.
  destruct (map_ok i None (upd_thinkers (th_addr t) (set_function act_removed) (thinkers w)) (next_addr w) plats ceilings
    None w I ltac:(lia)) as (M1 & M2 & M3).
  assert (Hback : ∀ t', t' ∈ upd_thinkers (th_addr t) (set_function act_removed) (thinkers w) → live t' →
    t' ∈ thinkers w ∧ th_addr t' ≠ th_addr t).
  { intros t' (t0 & Ht0 & ->)%upd_thinkers_elem Hl'. destruct (Z.eqb_spec (th_addr t0) (th_addr t)); [|done].
    by destruct Hl'. }
  assert (Hforth : ∀ t', t' ∈ thinkers w → th_addr t' ≠ th_addr t →
    t' ∈ upd_thinkers (th_addr t) (set_function act_removed) (thinkers w)).
  { intros t' Ht' Hne. apply upd_thinkers_elem. exists t'. split; [done|]. by rewrite (proj2 (Z.eqb_neq _ _) Hne). }
  assert (Htab : ∀ k tab tab', table_ok w k tab → NoDup (omap id tab') → (∀ x, Some x ∈ tab' ↔ Some x ∈ tab ∧ x ≠ th_addr t) →
    table_ok (retired t plats ceilings w) k tab').
  { intros k tab tab' [_ HT] Hn Hx. split; [done|]. intros a [Ha Hne]%Hx. destruct (HT a Ha) as (t' & ? & ? & ? & ?).
    exists t'. split_and!; [apply Hforth; [done|congruence]|done..]. }
  split; try done.
  - cbn. rewrite upd_thinkers_addr by done. apply I.
  - cbn. intros t' (t0 & Ht0 & ->)%upd_thinkers_elem. destruct (th_addr t0 =? th_addr t); exact (wi_next _ _ I _ Ht0).
  - intros t' Ht'' Hl' _. destruct (Hback t' Ht'' Hl') as [Ht' Hne]. destruct (wi_owner _ _ I t' Ht' Hl' ltac:(done)) as (s' & Hs' & Hd').
    cbn. unfold owner_ok. cbn. fold i. rewrite at_index_alter by lia. case_decide as E; [|by eauto].
    rewrite <- E, Hs in Hs'. injection Hs' as <-. rewrite <- E, Hs. exists (set_specialdata None s). split; [done|].
    intros Hk'. specialize (Hd' Hk'). congruence.
  - cbn. fold i. intros j s' a Hs' Hd' _. destruct (alter_specialdata i None w j s' ltac:(lia) Hs') as (s0 & Hs0 & _ & E).
    rewrite E in Hd'. case_decide as Eij; [done|].
    destruct (wi_special _ _ I j s0 a Hs0 Hd' ltac:(done)) as (t' & Ht' & Ha & Hl' & Hk' & Ho). exists t'.
    split_and!; [|done..]. apply Hforth; [done|]. intros Ea.
    apply Eij. rewrite <- Ho. unfold i. f_equal. by rewrite (addr_unique _ t t' (wi_nodup _ _ I) Ht Ht' (eq_sym Ea)).
  - eapply Htab; [apply I|done|done].
  - eapply Htab; [apply I|done|done].
  - intros t' Ht'' Hl' _ Hk'. destruct (Hback t' Ht'' Hl') as [Ht' Hne]. cbn. apply Hp2. split; [|done]. by apply (wi_listed _ _ I).
  - apply (wi_buttons _ _ I).
  - apply (wi_nbuttons _ _ I).
  - apply (wi_scroll _ _ I).
Qed.
End retire.

(** ** The actions of the thinkers *)

Section actions.
Context {T : Type} (change : list sector_t → Z → bool → Z → T → bool * (Z * T)).
Implicit Types (w : world T) (t : thinker_t) (E : stop → Prop) (A : list Z).

(** The invariant, with the addresses [A] in the list of thinkers. *)
Definition settled A w : Prop := winv None w ∧ th_addr <$> thinkers w = A.

(** The same, while the thinker at [a], of kind [k] and sector [i], is being called. *)
Definition at_work A a k i w : Prop :=
  settled A w ∧ ∃ t, t ∈ thinkers w ∧ th_addr t = a ∧ live t ∧ kind_of (th_obj t) = k ∧ obj_sector (th_obj t) = i.

Lemma work_settled A a k i w : at_work A a k i w → settled A w.
Proof. by intros [? _]. Qed.

Lemma work_sector A a k i w : at_work A a k i w → ∃ s, at_index (sectors w) i = Some s.
Proof.
  intros [[I _] (t & Ht & Ha & Hl & Hk & <-)]. destruct (wi_owner _ _ I t Ht Hl ltac:(done)) as (s & ? & _). eauto.
Qed.

Lemma shape_addrs w w' : same_shape w w' → th_addr <$> thinkers w' = th_addr <$> thinkers w.
Proof.
  intros SS. pose proof (f_equal (fmap (λ x : Z * bool * kind * Z, x.1.1.1)) (ss_thinkers _ _ SS)) as H.
  by rewrite <- !list_fmap_compose in H.
Qed.

Lemma shape_settled A w w' : same_shape w w' → settled A w → settled A w'.
Proof. intros SS [I E]. split; [by eapply winv_shape|]. by rewrite (shape_addrs w w'). Qed.

Lemma shape_work A a k i w w' : same_shape w w' → at_work A a k i w → at_work A a k i w'.
Proof.
  intros SS [HS (t & Ht & Ha & Hl & Hk & Ho)]. split; [by eapply shape_settled|].
  destruct (shape_thinker _ _ _ (same_shape_sym _ _ SS) Ht) as (t' & ? & ? & ? & ? & ?). exists t'.
  split_and!; [done|congruence|tauto|congruence|congruence].
Qed.

Lemma work_upd E A a k i w f (Q : unit → world T → Prop) :
  at_work A a k i w → (∀ t, live t → kind_of (th_obj t) = k → obj_sector (th_obj t) = i → keeps t f) →
  (∀ w', at_work A a k i w' → Q tt w') → wp E (upd_thinker a f) Q w.
Proof.
  intros W Hf HQ. pose proof W as [[I HA] (t & Ht & <- & Hl & Hk & Ho)]. apply upd_thinker_wp; [apply I|done|].
  apply HQ. eapply shape_work; [|exact W]. apply shape_thinkers; [apply I|done|by apply Hf].
Qed.

Lemma work_set E A a k i w o (Q : unit → world T → Prop) :
  at_work A a k i w → kind_of o = k → obj_sector o = i →
  (∀ w', at_work A a k i w' → Q tt w') → wp E (upd_thinker a (set_obj o)) Q w.
Proof. intros W Hk Ho. apply work_upd; [done|]. intros t _ Hk' Ho'. apply set_obj_keeps; congruence. Qed.

Lemma work_sector_upd E A a k i w f (Q : unit → world T → Prop) :
  at_work A a k i w → (∀ s, slines (f s) = slines s ∧ specialdata (f s) = specialdata s) →
  (∀ w', at_work A a k i w' → Q tt w') → wp E (upd_sector i f) Q w.
Proof.
  intros W Hf HQ. destruct (work_sector _ _ _ _ _ W) as [s Hs]. apply (upd_sector_wp _ _ s); [done|].
  apply HQ. eapply shape_work; [by apply shape_sectors|done].
Qed.

Lemma work_move E A a k i w speed dest crush fc d (Q : result_e → world T → Prop) :
  at_work A a k i w → (∀ r w', at_work A a k i w' → Q r w') → wp E (T_MovePlane change i speed dest crush fc d) Q w.
Proof.
  intros W HQ. destruct (work_sector _ _ _ _ _ W) as [s Hs].
  eapply wp_mono; [by eapply T_MovePlane_shape|]. intros r w' SS. apply HQ. eapply shape_work; [exact SS|exact W].
Qed.

(** The end of a mover that is in the tables [p] and [c] no more. *)
Lemma retire_wp E A a k i w p c (Q : unit → world T → Prop) :
  at_work A a k i w → k ≠ k_light →
  NoDup (omap id p) → (∀ x, Some x ∈ p ↔ Some x ∈ activeplats w ∧ x ≠ a) →
  NoDup (omap id c) → (∀ x, Some x ∈ c ↔ Some x ∈ activeceilings w ∧ x ≠ a) →
  (∀ w1, activeplats w1 = activeplats w → activeceilings w1 = activeceilings w →
     settled A (with_ceilings c (with_plats p w1)) → Q tt w1) →
  wp E (upd_sector i (set_specialdata None);; P_RemoveThinker a) Q w.
Proof.
  intros W Hk Hp1 Hp2 Hc1 Hc2 HQ. pose proof W as [[I HA] (t & Ht & <- & Hl & Hkt & <-)].
  destruct (work_sector _ _ _ _ _ W) as [s Hs]. rewrite wp_bind. apply (upd_sector_wp _ _ s); [done|].
  apply upd_thinker_wp; [apply I|done|]. apply HQ; [done|done|]. split.
  - apply (retired_ok t p c w); [done|done|done|congruence|done..].
  - rewrite <- HA. by apply upd_thinkers_addr.
Qed.

Lemma not_in_table A a k i w k' tab : at_work A a k i w → table_ok w k' tab → k ≠ k' → Some a ∉ tab.
Proof.
  intros [[I _] (t & Ht & <- & Hl & Hk & _)] [_ HT] Hne (t' & Ht' & Ha & _ & Hk')%HT.
  rewrite (addr_unique _ t t' (wi_nodup _ _ I) Ht Ht' (eq_sym Ha)) in Hk. congruence.
Qed.

Lemma table_without (a : Z) (tab : list (option Z)) : Some a ∉ tab → ∀ x, Some x ∈ tab ↔ Some x ∈ tab ∧ x ≠ a.
Proof. intros Ha x. split; [|tauto]. intros Hx. split; [done|]. by intros ->. Qed.

(** The end of a door or a floor. *)
Lemma end_mover_wp E A a k i w (Q : unit → world T → Prop) :
  at_work A a k i w → k = k_door ∨ k = k_floor → (∀ w', settled A w' → Q tt w') →
  wp E (upd_sector i (set_specialdata None);; P_RemoveThinker a) Q w.
Proof.
  intros W Hk HQ. pose proof W as [[I _] _]. pose proof (wi_plats _ _ I) as TP. pose proof (wi_ceilings _ _ I) as TC.
  apply (retire_wp _ A a k i w (activeplats w) (activeceilings w)); [done|destruct Hk; congruence|apply TP| |apply TC| |].
  - apply table_without, (not_in_table A a k i w k_plat); [done|done|destruct Hk; congruence].
  - apply table_without, (not_in_table A a k i w k_ceiling); [done|done|destruct Hk; congruence].
  - intros w1 Hp Hc HS. apply HQ. rewrite <- Hp, <- Hc in HS. by destruct w1.
Qed.

Lemma plat_of_wp E A a i w (Q : plat_t → world T → Prop) :
  at_work A a k_plat i w → (∀ o, pt_sector o = i → Q o w) → wp E (plat_of a) Q w.
Proof.
  intros [[I _] (t & Ht & <- & _ & Hk & Ho)] HQ. unfold plat_of. rewrite wp_bind. apply thinker_wp; [apply I|done|].
  destruct (th_obj t) as [| o | | | | | |]; try done. by apply HQ.
Qed.

Lemma ceiling_of_wp E A a i w (Q : ceiling_t → world T → Prop) :
  at_work A a k_ceiling i w → (∀ o, ce_sector o = i → Q o w) → wp E (ceiling_of a) Q w.
Proof.
  intros [[I _] (t & Ht & <- & _ & Hk & Ho)] HQ. unfold ceiling_of. rewrite wp_bind. apply thinker_wp; [apply I|done|].
  destruct (th_obj t) as [| | | o | | | |]; try done. by apply HQ.
Qed.

Lemma RemoveActivePlat_wp E A a i w (Q : unit → world T → Prop) :
  at_work A a k_plat i w → (∀ w', settled A w' → Q tt w') → wp E (P_RemoveActivePlat a) Q w.
Proof.
  intros W HQ. pose proof W as [[I _] (t & Ht & Ha & Hl & Hk & _)]. unfold P_RemoveActivePlat. wp_simp.
  destruct (clear_active a (activeplats w)) as [p|] eqn:Hc.
  2:{ apply clear_active_None in Hc. destruct Hc. rewrite <- Ha. by apply (wi_listed _ _ I). }
  destruct (clear_active_Some _ _ _ Hc (proj1 (wi_plats _ _ I))) as [Hn Hx].
  rewrite wp_bind. apply (plat_of_wp _ _ _ _ _ _ W). intros o ->.
  apply (wp_bind_assoc E (upd_sector i (set_specialdata None)) (λ _, P_RemoveThinker a) (λ _, modS (with_plats p))).
  pose proof (wi_ceilings _ _ I) as TC.
  apply (retire_wp _ A a k_plat i w p (activeceilings w)); [done|done|done|done|apply TC| |].
  - apply table_without, (not_in_table A a k_plat i w k_ceiling); done.
  - intros w1 Hp Hc' HS. rewrite wp_mod. apply HQ. rewrite <- Hc' in HS. by destruct w1.
Qed.

Lemma RemoveActiveCeiling_wp E A a i w (Q : unit → world T → Prop) :
  at_work A a k_ceiling i w → (∀ w', settled A w' → Q tt w') → wp E (P_RemoveActiveCeiling a) Q w.
Proof.
  intros W HQ. pose proof W as [[I HA] (t & Ht & Ha & Hl & Hk & _)]. unfold P_RemoveActiveCeiling. wp_simp.
  destruct (clear_active a (activeceilings w)) as [p|] eqn:Hc; [|rewrite wp_ret; apply HQ; by split].
  destruct (clear_active_Some _ _ _ Hc (proj1 (wi_ceilings _ _ I))) as [Hn Hx].
  rewrite wp_bind. apply (ceiling_of_wp _ _ _ _ _ _ W). intros o ->.
  apply (wp_bind_assoc E (upd_sector i (set_specialdata None)) (λ _, P_RemoveThinker a) (λ _, modS (with_ceilings p))).
  pose proof (wi_plats _ _ I) as TC.
  apply (retire_wp _ A a k_ceiling i w (activeplats w) p); [done|done|apply TC| |done|done|].
  - apply table_without, (not_in_table A a k_ceiling i w k_plat); done.
  - intros w1 Hp Hc' HS. rewrite wp_mod. apply HQ. rewrite <- Hp in HS. by destruct w1.
Qed.

Lemma done_wp E A a k i w : at_work A a k i w → wp E (mret tt) (λ _ w', settled A w') w.
Proof. intros W. by eapply work_settled. Qed.

Lemma VerticalDoor_wp E A a door w :
  at_work A a k_door (vd_sector door) w → wp E (T_VerticalDoor change a door) (λ _ w', settled A w') w.
Proof.
  intros W. unfold T_VerticalDoor.
  assert (Hset : ∀ w0 o (m : M (world T) unit), at_work A a k_door (vd_sector door) w0 → vd_sector o = vd_sector door →
    (∀ w', at_work A a k_door (vd_sector door) w' → wp E m (λ _ w', settled A w') w') →
    wp E (set_door a o ≫= λ _, m) (λ _ w', settled A w') w0).
  { intros w0 o m W0 Ho Hm. rewrite wp_bind. by apply (work_set _ _ _ _ _ _ _ _ W0). }
  assert (Hlast : ∀ w0 o, at_work A a k_door (vd_sector door) w0 → vd_sector o = vd_sector door →
    wp E (set_door a o) (λ _ w', settled A w') w0).
  { intros w0 o W0 Ho. apply (work_set _ _ _ _ _ _ _ _ W0); [done|done|]. intros w'. apply work_settled. }
  assert (Hend : ∀ w0, at_work A a k_door (vd_sector door) w0 → wp E (end_door a door) (λ _ w', settled A w') w0).
  { intros w0 W0. eapply end_mover_wp; [done|by left|done]. }
  pose proof (λ w0, done_wp E A a k_door (vd_sector door) w0) as Hdone.
  destruct (vd_direction door =? 0); [|destruct (vd_direction door =? 2); [|destruct (vd_direction door =? -1);
    [|destruct (vd_direction door =? 1)]]].
  - apply Hset; [done|done|]. intros w' W'. destruct (_ =? 0); [|auto]. destruct (vd_type door); auto.
  - apply Hset; [done|done|]. intros w' W'. destruct (_ =? 0); [|auto]. destruct (vd_type door); auto.
  - destruct (work_sector _ _ _ _ _ W) as [s Hs]. rewrite wp_bind. apply (sector_wp _ _ s); [done|].
    rewrite wp_bind. apply (work_move _ _ _ _ _ _ _ _ _ _ _ _ W). intros r w' W'.
    destruct r; [auto|destruct (vd_type door); auto..].
  - rewrite wp_bind. apply (work_move _ _ _ _ _ _ _ _ _ _ _ _ W). intros r w' W'.
    case_bool_decide; [|auto]. destruct (vd_type door); auto.
  - auto.
Qed.

Lemma PlatRaise_wp E A a plat w :
  at_work A a k_plat (pt_sector plat) w → wp E (T_PlatRaise change a plat) (λ _ w', settled A w') w.
Proof.
  intros W. unfold T_PlatRaise.
  assert (Hlast : ∀ w0 o, at_work A a k_plat (pt_sector plat) w0 → pt_sector o = pt_sector plat →
    wp E (set_plat a o) (λ _ w', settled A w') w0).
  { intros w0 o W0 Ho. apply (work_set _ _ _ _ _ _ _ _ W0); [done|done|]. intros w'. apply work_settled. }
  pose proof (λ w0, done_wp E A a k_plat (pt_sector plat) w0) as Hdone.
  assert (Hrem : ∀ w0, at_work A a k_plat (pt_sector plat) w0 → wp E (P_RemoveActivePlat a) (λ _ w', settled A w') w0).
  { intros w0 W0. by apply (RemoveActivePlat_wp _ _ _ _ _ _ W0). }
  destruct (pt_status plat).
  - rewrite wp_bind. apply (work_move _ _ _ _ _ _ _ _ _ _ _ _ W). intros r w' W'.
    destruct (_ && _); [auto|]. case_bool_decide; [|auto]. rewrite wp_bind.
    apply (work_set _ _ _ _ _ _ _ _ W'); [done|done|]. intros w'' W''. destruct (pt_type plat); auto.
  - rewrite wp_bind. apply (work_move _ _ _ _ _ _ _ _ _ _ _ _ W). intros r w' W'. case_bool_decide; auto.
  - rewrite wp_bind. apply (work_set _ _ _ _ _ _ _ _ W); [done|done|]. intros w' W'. destruct (_ =? 0); [|auto].
    destruct (work_sector _ _ _ _ _ W') as [s Hs]. rewrite wp_bind. apply (sector_wp _ _ s); [done|]. auto.
  - auto.
Qed.

Lemma MoveFloor_wp E A a floor w :
  at_work A a k_floor (fm_sector floor) w → wp E (T_MoveFloor change a floor) (λ _ w', settled A w') w.
Proof.
  intros W. unfold T_MoveFloor. rewrite wp_bind. apply (work_move _ _ _ _ _ _ _ _ _ _ _ _ W). intros r w' W'.
  case_bool_decide; [|by eapply done_wp].
  pose proof W' as [[I HA] (t & Ht & <- & Hl & Hk & Ho)]. destruct (work_sector _ _ _ _ _ W') as [s Hs].
  pose proof (wi_plats _ _ I) as TP. pose proof (wi_ceilings _ _ I) as TC.
  set (w1 := retired t (activeplats w') (activeceilings w') w').
  assert (S1 : settled A w1).
  { split; [|rewrite <- HA; by apply upd_thinkers_addr].
    apply retired_ok; [done|done|done|congruence|apply TP| |apply TC|].
    - by eapply table_without, (not_in_table A _ _ _ w' k_plat).
    - by eapply table_without, (not_in_table A _ _ _ w' k_ceiling). }
  rewrite wp_bind. apply (upd_sector_wp _ _ s); [done|]. rewrite wp_bind.
  assert (Hi : 0 ≤ fm_sector floor) by (apply at_index_range in Hs; lia).
  assert (Hs1 : at_index (alter (set_specialdata None) (Z.to_nat (fm_sector floor)) (sectors w')) (fm_sector floor) =
    Some (set_specialdata None s)) by (rewrite at_index_alter by done; by rewrite decide_True, Hs).
  destruct (_ || _).
  - rewrite wp_bind. apply (upd_sector_wp _ _ (set_specialdata None s)); [exact Hs1|].
    apply (upd_sector_wp _ _ (set_special (fm_newspecial floor) (set_specialdata None s))).
    { cbn. rewrite at_index_alter by done. by rewrite decide_True, Hs1. }
    apply upd_thinker_wp; [apply I|done|]. eapply shape_settled; [|exact S1]. split; try done. cbn. rewrite Ho.
    by rewrite !(fmap_alter_same (λ s, (slines s, specialdata s)) (set_floorpic _)),
      !(fmap_alter_same (λ s, (slines s, specialdata s)) (set_special _)).
  - rewrite wp_ret. apply upd_thinker_wp; [apply I|done|]. eapply shape_settled; [|exact S1]. split; try done.
    cbn. by rewrite Ho.
Qed.

Lemma MoveCeiling_wp E A a ceiling w :
  at_work A a k_ceiling (ce_sector ceiling) w → wp E (T_MoveCeiling change a ceiling) (λ _ w', settled A w') w.
Proof.
  intros W. unfold T_MoveCeiling.
  assert (Hlast : ∀ w0 o, at_work A a k_ceiling (ce_sector ceiling) w0 → ce_sector o = ce_sector ceiling →
    wp E (set_ceiling a o) (λ _ w', settled A w') w0).
  { intros w0 o W0 Ho. apply (work_set _ _ _ _ _ _ _ _ W0); [done|done|]. intros w'. apply work_settled. }
  pose proof (λ w0, done_wp E A a k_ceiling (ce_sector ceiling) w0) as Hdone.
  assert (Hrem : ∀ w0, at_work A a k_ceiling (ce_sector ceiling) w0 → wp E (P_RemoveActiveCeiling a) (λ _ w', settled A w') w0).
  { intros w0 W0. by apply (RemoveActiveCeiling_wp _ _ _ _ _ _ W0). }
  destruct (ce_direction ceiling =? 1); [|destruct (ce_direction ceiling =? -1)].
  - rewrite wp_bind. apply (work_move _ _ _ _ _ _ _ _ _ _ _ _ W). intros r w' W'. case_bool_decide; [|auto].
    destruct (ce_type ceiling); auto.
  - rewrite wp_bind. apply (work_move _ _ _ _ _ _ _ _ _ _ _ _ W). intros r w' W'.
    destruct r; [auto|destruct (ce_type ceiling); auto..].
  - auto.
Qed.

Lemma Random_wp E w (Q : Z → world T → Prop) :
  (∀ r w', same_shape w w' → 0 ≤ r < 256 → Q r w') → wp E P_Random Q w.
Proof.
  intros HQ. unfold P_Random. wp_simp. set (i := Z.land _ _).
  assert (Hi : 0 ≤ i < 256) by (unfold i; rewrite land_ff; by apply Z.mod_pos_bound).
  destruct (lookup_lt_is_Some_2 rndtable (Z.to_nat i)) as [r Hr]; [change (length rndtable) with 256%nat; lia|].
  rewrite Hr, wp_ret. apply HQ; [apply shape_things|].
  assert (HF : Forall (λ x, 0 ≤ x < 256) rndtable) by (apply (bool_decide_unpack _); vm_compute; reflexivity).
  rewrite Forall_forall in HF. by eapply HF, list_elem_of_lookup_2.
Qed.

Lemma light_fields v s : slines (set_lightlevel v s) = slines s ∧ specialdata (set_lightlevel v s) = specialdata s.
Proof. done. Qed.

Lemma FireFlicker_wp E A a flick w :
  at_work A a k_light (ff_sector flick) w → wp E (T_FireFlicker a flick) (λ _ w', settled A w') w.
Proof.
  intros W. unfold T_FireFlicker. rewrite wp_bind. apply (work_set _ _ _ _ _ _ _ _ W); [done|done|]. intros w1 W1.
  destruct (negb _); [by eapply done_wp|]. rewrite wp_bind. apply Random_wp. intros r w2 SS _.
  pose proof (shape_work _ _ _ _ _ _ SS W1) as W2. destruct (work_sector _ _ _ _ _ W2) as [s Hs].
  rewrite wp_bind. apply (sector_wp _ _ s); [done|]. rewrite wp_bind.
  apply (work_sector_upd _ _ _ _ _ _ _ _ W2); [done|]. intros w3 W3.
  apply (work_set _ _ _ _ _ _ _ _ W3); [done|done|]. intros w'. apply work_settled.
Qed.

Lemma LightFlash_wp E A a flash w :
  at_work A a k_light (lf_sector flash) w → wp E (T_LightFlash a flash) (λ _ w', settled A w') w.
Proof.
  intros W. unfold T_LightFlash. rewrite wp_bind. apply (work_set _ _ _ _ _ _ _ _ W); [done|done|]. intros w1 W1.
  destruct (negb _); [by eapply done_wp|]. destruct (work_sector _ _ _ _ _ W1) as [s Hs].
  rewrite wp_bind. apply (sector_wp _ _ s); [done|].
  destruct (_ =? _); rewrite wp_bind; (apply (work_sector_upd _ _ _ _ _ _ _ _ W1); [done|]); intros w2 W2;
    rewrite wp_bind; apply Random_wp; intros r w3 SS _;
    (apply (work_set _ _ _ _ _ _ _ _ (shape_work _ _ _ _ _ _ SS W2)); [done|done|]); intros w'; apply work_settled.
Qed.

Lemma StrobeFlash_wp E A a flash w :
  at_work A a k_light (sr_sector flash) w → wp E (T_StrobeFlash a flash) (λ _ w', settled A w') w.
Proof.
  intros W. unfold T_StrobeFlash. rewrite wp_bind. apply (work_set _ _ _ _ _ _ _ _ W); [done|done|]. intros w1 W1.
  destruct (negb _); [by eapply done_wp|]. destruct (work_sector _ _ _ _ _ W1) as [s Hs].
  rewrite wp_bind. apply (sector_wp _ _ s); [done|].
  destruct (_ =? _); rewrite wp_bind; (apply (work_sector_upd _ _ _ _ _ _ _ _ W1); [done|]); intros w2 W2;
    (apply (work_set _ _ _ _ _ _ _ _ W2); [done|done|]); intros w'; apply work_settled.
Qed.

Lemma Glow_wp E A a g w :
  at_work A a k_light (gl_sector g) w → wp E (T_Glow a g) (λ _ w', settled A w') w.
Proof.
  intros W. unfold T_Glow. destruct (work_sector _ _ _ _ _ W) as [s Hs].
  destruct (_ =? -1); [|destruct (_ =? 1); [|by eapply done_wp]];
    rewrite wp_bind; (apply (sector_wp _ _ s); [done|]); rewrite wp_bind;
    (apply (work_sector_upd _ _ _ _ _ _ _ _ W); [done|]); intros w1 W1; destruct (work_sector _ _ _ _ _ W1) as [s1 Hs1];
    rewrite wp_bind; (apply (sector_wp _ _ s1); [done|]); (destruct (_ <=? _); [|by eapply done_wp]);
    rewrite wp_bind; (apply (work_sector_upd _ _ _ _ _ _ _ _ W1); [done|]); intros w2 W2;
    (apply (work_set _ _ _ _ _ _ _ _ W2); [done|done|]); intros w'; apply work_settled.
Qed.

Lemma think_wp E A t w : settled A w → t ∈ thinkers w → live t → wp E (think change t) (λ _ w', settled A w') w.
Proof.
  intros S Ht Hl. assert (W : at_work A (th_addr t) (kind_of (th_obj t)) (obj_sector (th_obj t)) w) by (split; eauto 10).
  unfold think. destruct (th_obj t).
  - by apply VerticalDoor_wp.
  - by apply PlatRaise_wp.
  - by apply MoveFloor_wp.
  - by apply MoveCeiling_wp.
  - by apply FireFlicker_wp.
  - by apply LightFlash_wp.
  - by apply StrobeFlash_wp.
  - by apply Glow_wp.
Qed.
End actions.

(** ** A tic *)

Section tic.
Context {T : Type} (change : list sector_t → Z → bool → Z → T → bool * (Z * T)).
Implicit Types (w : world T) (t : thinker_t) (E : stop → Prop).

Lemma NoDup_fmap_filter {A B} (g : A → B) (P : A → Prop) `{∀ x, Decision (P x)} (l : list A) :
  NoDup (g <$> l) → NoDup (g <$> filter P l).
Proof.
  induction l as [|x l IH]; [done|]. intros [Hx Hn]%NoDup_cons. rewrite filter_cons. case_decide; [|auto].
  cbn. apply NoDup_cons. split; [|auto]. intros (y & E & [_ Hy]%list_elem_of_filter)%list_elem_of_fmap.
  apply Hx. rewrite E. by apply list_elem_of_fmap_2.
Qed.

Definition dropped (a : Z) w : world T :=
  with_thinkers (filter (λ t, th_addr t ≠ a) (thinkers w)) (next_addr w) w.

(** Taking a removed thinker out of the list. *)
Lemma dropped_ok t w : winv None w → t ∈ thinkers w → ¬ live t → winv None (dropped (th_addr t) w).
Proof.
  intros I Ht Hr.
  assert (Hstay : ∀ t', t' ∈ thinkers w → live t' → t' ∈ thinkers (dropped (th_addr t) w)).
  { intros t' Ht' Hl. cbn. apply list_elem_of_filter. split; [|done]. intros E.
    by rewrite (addr_unique _ t' t (wi_nodup _ _ I) Ht' Ht E) in Hl. }
  assert (Hback : ∀ t', t' ∈ thinkers (dropped (th_addr t) w) → t' ∈ thinkers w).
  { cbn. intros t' [_ ?]%list_elem_of_filter. done. }
  assert (Htab : ∀ k tab, table_ok w k tab → table_ok (dropped (th_addr t) w) k tab).
  { intros k tab [? HT]. split; [done|]. intros a (t' & ? & ? & ? & ?)%HT. exists t'. split_and!; auto. }
  split; try apply I.
  - apply NoDup_fmap_filter, I.
  - intros t' ?%Hback. by apply (wi_next _ _ I).
  - intros t' ?%Hback ? ?. by apply (wi_owner _ _ I).
  - intros i s a Hs Hd _. destruct (wi_special _ _ I i s a Hs Hd ltac:(done)) as (t' & ? & ? & ? & ? & ?).
    exists t'. split_and!; auto.
  - apply Htab, I.
  - apply Htab, I.
  - intros t' ?%Hback ? ? ?. by apply (wi_listed _ _ I).
Qed.

Lemma RunMovers_wp E addrs w :
  winv None w → NoDup addrs → (∀ a, a ∈ addrs → a ∈ th_addr <$> thinkers w) →
  wp E (RunMovers change addrs) (λ _ w', winv None w') w.
Proof.
  revert w. induction addrs as [|a addrs IH]; intros w I Hn Hin; cbn [RunMovers]; [done|].
  apply NoDup_cons in Hn as [Ha Hn]. pose proof (Hin a ltac:(left)) as (t & -> & Ht)%list_elem_of_fmap.
  rewrite wp_bind. apply thinker_wp; [apply I|done|]. rewrite wp_bind.
  assert (Hnext : ∀ w', settled (th_addr <$> thinkers w) w' → wp E (RunMovers change addrs) (λ _ w', winv None w') w').
  { intros w' [I' E']. apply IH; [done|done|]. intros b Hb. rewrite E'. apply Hin. by right. }
  destruct (th_function t) eqn:Ef.
  - eapply wp_mono; [apply (think_wp change _ (th_addr <$> thinkers w) t); [done|done|unfold live; congruence]|].
    intros [] w'. apply Hnext.
  - rewrite wp_ret. by apply Hnext.
  - rewrite wp_mod. apply IH; [|done|].
    + apply dropped_ok; [done|done|]. intros Hl. by apply Hl.
    + intros b Hb. pose proof (Hin b ltac:(by right)) as (t' & -> & Ht')%list_elem_of_fmap. cbn.
      apply list_elem_of_fmap_2. apply list_elem_of_filter. split; [|done]. intros Eb. by rewrite Eb in Hb.
Qed.

Lemma P_RunMovers_wp E w : winv None w → wp E (P_RunMovers change) (λ _ w', winv None w') w.
Proof. intros I. unfold P_RunMovers. wp_simp. apply RunMovers_wp; [done|apply I|done]. Qed.
End tic.

(** ** Reading around a sector *)

Section reads.
Context {T : Type}.
Implicit Types (w : world T) (E : stop → Prop).

Lemma line_valid hole w i : winv hole w → 0 ≤ i < Z.of_nat (length (lines w)) →
  ∃ l, at_index (lines w) i = Some l ∧ line_ok (Z.of_nat (length (sectors w))) (Z.of_nat (length (sides w))) l.
Proof.
  intros I Hi. destruct (at_index_valid (lines w) i Hi) as [l Hl]. exists l. split; [done|].
  eapply (proj1 (Forall_forall _ _) (wi_line _ _ I)), at_index_elem, Hl.
Qed.

Lemma next_valid nsec nsides l sec o : line_ok nsec nsides l → getNextSector l sec = Some o → 0 ≤ o < nsec.
Proof.
  intros (Hf & Hb & _ & _). unfold getNextSector. destruct (negb _); [done|]. destruct (_ =? _); [apply Hb|].
  by intros [= <-].
Qed.

(** A read that fails at most with an outcome in [E]. *)
Lemma AroundLoop_wp {A} E hole w sec (step : A → sector_t → M (world T) A) (ok : A → Prop) ls acc :
  winv hole w → (∀ i, i ∈ ls → 0 ≤ i < Z.of_nat (length (lines w))) → ok acc →
  (∀ acc other, ok acc → wp E (step acc other) (λ acc' w', w' = w ∧ ok acc') w) →
  wp E (AroundLoop sec step ls acc) (λ acc' w', w' = w ∧ ok acc') w.
Proof.
  intros I Hls. revert acc. induction ls as [|i ls IH]; intros acc Hacc Hstep; cbn [AroundLoop]; [done|].
  destruct (line_valid hole w i I) as (l & Hl & Hok); [apply Hls; left|].
  rewrite wp_bind. apply (line_wp _ _ l); [done|].
  assert (Hls' : ∀ i, i ∈ ls → 0 ≤ i < Z.of_nat (length (lines w))) by (intros; apply Hls; by right).
  destruct (getNextSector l sec) as [o|] eqn:Eo; [|by apply IH].
  destruct (at_index_valid (sectors w) o) as [s Hs]; [by eapply next_valid|].
  rewrite wp_bind. apply (sector_wp _ _ s); [done|]. rewrite wp_bind.
  eapply wp_mono; [by apply Hstep|]. intros acc' w' [-> Hacc']. by apply IH.
Qed.

Lemma sector_lines hole w i s : winv hole w → at_index (sectors w) i = Some s →
  ∀ j, j ∈ slines s → 0 ≤ j < Z.of_nat (length (lines w)).
Proof. intros I Hs j Hj. eapply (wi_lines _ _ I s); [by eapply at_index_elem|done]. Qed.

(** The searches whose step is a pure function. *)
Lemma search_wp E hole w i s (f : Z → sector_t → Z) z (Q : Z → world T → Prop) :
  winv hole w → at_index (sectors w) i = Some s → (∀ r, Q r w) →
  wp E (AroundLoop i (λ acc other, mret (f acc other)) (slines s) z) Q w.
Proof.
  intros I Hs HQ. eapply wp_mono.
  - apply (AroundLoop_wp E hole w i _ (λ _, True)); [done|by eapply sector_lines|done|by intros].
  - intros r w' [-> _]. apply HQ.
Qed.

Ltac search := unfold P_FindLowestFloorSurrounding, P_FindHighestFloorSurrounding, P_FindLowestCeilingSurrounding,
  P_FindHighestCeilingSurrounding, P_FindMinSurroundingLight.

Lemma FindLowestFloor_wp E hole w i s (Q : Z → world T → Prop) :
  winv hole w → at_index (sectors w) i = Some s → (∀ r, Q r w) → wp E (P_FindLowestFloorSurrounding i) Q w.
Proof. intros I Hs HQ. search. rewrite wp_bind. apply (sector_wp _ _ s); [done|]. by eapply search_wp. Qed.

Lemma FindHighestFloor_wp E hole w i s (Q : Z → world T → Prop) :
  winv hole w → at_index (sectors w) i = Some s → (∀ r, Q r w) → wp E (P_FindHighestFloorSurrounding i) Q w.
Proof. intros I Hs HQ. search. rewrite wp_bind. apply (sector_wp _ _ s); [done|]. by eapply search_wp. Qed.

Lemma FindLowestCeiling_wp E hole w i s (Q : Z → world T → Prop) :
  winv hole w → at_index (sectors w) i = Some s → (∀ r, Q r w) → wp E (P_FindLowestCeilingSurrounding i) Q w.
Proof. intros I Hs HQ. search. rewrite wp_bind. apply (sector_wp _ _ s); [done|]. by eapply search_wp. Qed.

Lemma FindHighestCeiling_wp E hole w i s (Q : Z → world T → Prop) :
  winv hole w → at_index (sectors w) i = Some s → (∀ r, Q r w) → wp E (P_FindHighestCeilingSurrounding i) Q w.
Proof. intros I Hs HQ. search. rewrite wp_bind. apply (sector_wp _ _ s); [done|]. by eapply search_wp. Qed.

Lemma FindMinLight_wp E hole w i s m (Q : Z → world T → Prop) :
  winv hole w → at_index (sectors w) i = Some s → (∀ r, Q r w) → wp E (P_FindMinSurroundingLight i m) Q w.
Proof. intros I Hs HQ. search. rewrite wp_bind. apply (sector_wp _ _ s); [done|]. by eapply search_wp. Qed.

Definition crowded : stop := Panic "Sector with more than 22 adjoining sectors. Vanilla will crash here".

Lemma FindNextHighest_wp E hole w i s h (Q : Z → world T → Prop) :
  E crowded → winv hole w → at_index (sectors w) i = Some s → (∀ r, Q r w) → wp E (P_FindNextHighestFloor i h) Q w.
Proof.
  intros HE I Hs HQ. unfold P_FindNextHighestFloor. rewrite wp_bind. apply (sector_wp _ _ s); [done|]. rewrite wp_bind.
  eapply wp_mono.
  - apply (AroundLoop_wp E hole w i _ (λ _, True)); [done|by eapply sector_lines|done|].
    intros acc other _. destruct (_ <? _); [|done]. rewrite wp_bind. unfold assertM.
    destruct (negb _); [done|exact HE].
  - intros r w' [-> _]. destruct (reverse r.2); rewrite wp_ret; apply HQ.
Qed.
End reads.
