(* ===== verification/MoversEvents.v ===== *)
(** * Moving sectors: the events

    Every event of Movers.v ends and keeps the invariant of MoversSafe.v. *)
From S2P Require Import Prelude.
From S2P Require Import Movers.
From S2P Require Import MoversSafe.

(** ** A mover in the making *)

Section making.
Context {T : Type}.
Implicit Types (w : world T) (t : thinker_t) (E : stop → Prop).

(** The sectors that have no mover. *)
Definition free w : nat := length (filter (λ s, specialdata s = None) (sectors w)).

(** The numbers of sectors, sides and lines. *)
Definition dims w : nat * nat * nat := (length (sectors w), length (sides w), length (lines w)).

(** Since the world [w0], the thinker [a] of kind [k] has been made for the sector [i]; [fin] tells
    that it points at the sector. *)
Record making w0 (a i : Z) (k : kind) (fin : bool) w : Prop := {
  mk_inv : winv (Some a) w;
  mk_thinker : ∃ t, t ∈ thinkers w ∧ th_addr t = a ∧ live t ∧ kind_of (th_obj t) = k ∧
    (fin = true → obj_sector (th_obj t) = i);
  mk_sector : ∃ s, at_index (sectors w) i = Some s ∧ specialdata s = Some a;
  mk_only j s : at_index (sectors w) j = Some s → specialdata s = Some a → j = i;
  mk_plats : Some a ∉ activeplats w;
  mk_ceilings : Some a ∉ activeceilings w;
  mk_kind : k ≠ k_light;
  mk_dims : dims w = dims w0;
  mk_free : (free w < free w0)%nat;
  mk_frame : specialdata <$> sectors w = <[Z.to_nat i := Some a]> (specialdata <$> sectors w0);
}.

Lemma free_shape w w' : same_shape w w' → free w' = free w.
Proof.
  intros SS. unfold free. pose proof (ss_sectors _ _ SS) as H. revert H.
  generalize (sectors w) as l, (sectors w') as l'. induction l as [|s l IH]; intros [|s' l']; try done.
  intros [= _ E H]. rewrite !filter_cons, E. specialize (IH _ H). case_decide; cbn [length]; congruence.
Qed.

Lemma shape_dims w w' : same_shape w w' → dims w' = dims w.
Proof. intros (E1 & E2 & E3)%shape_lengths. unfold dims. congruence. Qed.

Lemma shape_special w w' : same_shape w w' → specialdata <$> sectors w' = specialdata <$> sectors w.
Proof.
  intros SS. pose proof (f_equal (fmap snd) (ss_sectors _ _ SS)) as H. by rewrite <- !list_fmap_compose in H.
Qed.

Lemma alter_special i v (l : list sector_t) :
  specialdata <$> alter (set_specialdata v) i l = <[i := v]> (specialdata <$> l).
Proof.
  apply list_eq. intros j. rewrite list_lookup_fmap. destruct (decide (i = j)) as [->|].
  - rewrite list_lookup_alter_eq. destruct (decide (j < length l)%nat) as [Hj|Hj].
    + rewrite list_lookup_insert_eq by (by rewrite length_fmap). destruct (lookup_lt_is_Some_2 l j Hj) as [s ->]. done.
    + rewrite list_insert_ge by (rewrite length_fmap; lia). rewrite list_lookup_fmap, lookup_ge_None_2 by lia. done.
  - by rewrite list_lookup_alter_ne, list_lookup_insert_ne, list_lookup_fmap.
Qed.

Lemma making_shape w0 a i k fin w w' : same_shape w w' → making w0 a i k fin w → making w0 a i k fin w'.
Proof.
  intros SS [H1 (t & Ht & Ha & Hl & Hk & Ho) (s & Hs & Hd) H4 H5 H6 H7 H8 H9 H10].
  pose proof (same_shape_sym _ _ SS) as SS'. split.
  - by eapply winv_shape.
  - destruct (shape_thinker _ _ _ SS' Ht) as (t' & ? & ? & ? & ? & ?). exists t'.
    split_and!; [done|congruence|tauto|congruence|]. intros E. rewrite <- (Ho E). congruence.
  - destruct (shape_sector _ _ _ _ SS' Hs) as (s' & ? & _ & ?). exists s'. split; congruence.
  - intros j s' Hs' Hd'. destruct (shape_sector _ _ _ _ SS Hs') as (s0 & ? & _ & ?). eapply H4; [done|congruence].
  - by rewrite (ss_plats _ _ SS).
  - by rewrite (ss_ceilings _ _ SS).
  - done.
  - by rewrite (shape_dims _ _ SS).
  - by rewrite (free_shape _ _ SS).
  - by rewrite (shape_special _ _ SS).
Qed.

Lemma free_claim w i s a : at_index (sectors w) i = Some s → specialdata s = None →
  (free (with_sectors (alter (set_specialdata (Some a)) (Z.to_nat i) (sectors w)) w) < free w)%nat.
Proof.
  intros [_ Hs]%at_index_Some Hd. unfold free. cbn [sectors with_sectors].
  revert Hs. generalize (sectors w) as l, (Z.to_nat i) as n. induction l as [|s0 l IH]; intros [|n]; [done|done| |].
  - intros [= ->]. change (alter ?f 0%nat (s :: l)) with (f s :: l). rewrite !filter_cons.
    rewrite decide_False by done. rewrite decide_True by done. cbn [length]. lia.
  - intros Hs. change (alter ?f (S n) (s0 :: l)) with (s0 :: alter f n l). rewrite !filter_cons. specialize (IH n Hs).
    case_decide; cbn [length]; lia.
Qed.

(** A new thinker at the end of the list. *)
Definition added (o : object) w : world T :=
  with_thinkers (thinkers w ++ [mkThinker (next_addr w) act_run o]) (next_addr w + 1) w.

Lemma added_elem o w t : t ∈ thinkers (added o w) ↔ t ∈ thinkers w ∨ t = mkThinker (next_addr w) act_run o.
Proof. cbn. by rewrite elem_of_app, list_elem_of_singleton. Qed.

Lemma next_fresh hole w t : winv hole w → t ∈ thinkers w → th_addr t ≠ next_addr w.
Proof. intros I Ht. pose proof (wi_next _ _ I t Ht). lia. Qed.

Lemma added_ok w o : winv None w →
  winv (Some (next_addr w)) (added o w) ∧ (∀ k tab, table_ok w k tab → Some (next_addr w) ∉ tab).
Proof.
  intros I. split.
  - assert (Htab : ∀ k tab, table_ok w k tab → table_ok (added o w) k tab).
    { intros k tab [? HT]. split; [done|]. intros a (t' & ? & ? & ? & ?)%HT. exists t'. rewrite added_elem. auto. }
    split; try apply I.
    + cbn. rewrite fmap_app. apply NoDup_app. split_and!; [apply I| |apply NoDup_singleton].
      intros a (t & -> & Ht)%list_elem_of_fmap. cbn. intros E%list_elem_of_singleton. by eapply next_fresh in Ht.
    + intros t [Ht| ->]%added_elem; cbn; [pose proof (wi_next _ _ I t Ht); lia|lia].
    + intros t [Ht| ->]%added_elem Hl Hh; [|done]. by apply (wi_owner _ _ I t Ht Hl).
    + intros i s a Hs Hd Hh. destruct (wi_special _ _ I i s a Hs Hd ltac:(done)) as (t & ? & ? & ? & ? & ?).
      exists t. rewrite added_elem. auto 10.
    + apply Htab, I.
    + apply Htab, I.
    + intros t [Ht| ->]%added_elem Hl Hh Hk; [|done]. by apply (wi_listed _ _ I t Ht Hl).
  - intros k tab [_ HT] (t & Ht & Ha & _)%HT. by eapply next_fresh in Ht.
Qed.

Lemma spawned w i s o k :
  winv None w → at_index (sectors w) i = Some s → specialdata s = None → kind_of o = k → k ≠ k_light →
  making w (next_addr w) i k (bool_decide (obj_sector o = i))
    (with_sectors (alter (set_specialdata (Some (next_addr w))) (Z.to_nat i) (sectors (added o w))) (added o w)).
Proof.
  intros I Hs Hd Hk Hkl. destruct (added_ok w o I) as [I' Hfresh]. set (a := next_addr w) in *.
  pose proof (at_index_range _ _ _ Hs) as Hi.
  destruct (map_ok i (Some a) (thinkers (added o w)) (next_addr (added o w)) (activeplats w) (activeceilings w) (Some a)
    (added o w) I' ltac:(lia)) as (M1 & M2 & M3).
  assert (Hold : ∀ j s', at_index (sectors w) j = Some s' → specialdata s' ≠ Some a).
  { intros j s' Hs' Hd'. destruct (wi_special _ _ I j s' a Hs' Hd' ltac:(done)) as (t & Ht & Ha & _).
    by eapply next_fresh in Ht. }
  split.
  - split; try done; try apply I'.
    + intros t Ht Hl Hh. destruct (wi_owner _ _ I' t Ht Hl Hh) as (s' & Hs' & Hd'). unfold owner_ok. cbn.
      rewrite at_index_alter by lia. cbn in Hs'. rewrite Hs'. case_decide as E; [|by eauto].
      eexists. split; [done|]. intros Hk'. rewrite <- E, Hs in Hs'. injection Hs' as <-. specialize (Hd' Hk'). congruence.
    + intros j s' b Hs' Hd' Hh. destruct (alter_specialdata i (Some a) (added o w) j s' ltac:(lia) Hs') as (s0 & Hs0 & _ & E).
      rewrite E in Hd'. case_decide; [congruence|]. by apply (wi_special _ _ I' j s0).
  - exists (mkThinker a act_run o). split_and!; [apply added_elem; by right|done|done|done|].
    by intros ?%bool_decide_eq_true.
  - cbn. rewrite at_index_alter by lia. rewrite decide_True, Hs by done. eexists. split; done.
  - intros j s' Hs' Hd'. destruct (alter_specialdata i (Some a) (added o w) j s' ltac:(lia) Hs') as (s0 & Hs0 & _ & E).
    rewrite E in Hd'. case_decide; [done|]. by destruct (Hold j s0 Hs0).
  - apply (Hfresh k_plat). apply I.
  - apply (Hfresh k_ceiling). apply I.
  - done.
  - unfold dims. cbn. by rewrite length_alter.
  - by apply (free_claim (added o w) i s a).
  - cbn. apply alter_special.
Qed.

Lemma spawn_wp {B} E w i s mk k (c : Z → M (world T) B) (Q : B → world T → Prop) :
  winv None w → at_index (sectors w) i = Some s → specialdata s = None →
  (∀ a, kind_of (mk a) = k) → k ≠ k_light →
  (∀ a w', making w a i k (bool_decide (obj_sector (mk a) = i)) w' → wp E (c a) Q w') →
  wp E (a ← P_AddThinker mk; upd_sector i (set_specialdata (Some a));; c a) Q w.
Proof.
  intros I Hs Hd Hk Hkl HQ. rewrite wp_bind. unfold P_AddThinker. wp_simp.
  apply (upd_sector_wp _ _ s); [done|]. apply HQ. by eapply spawned.
Qed.

(** A write to the new thinker. *)
Lemma making_upd E w0 a i k fin fin' w f (Q : unit → world T → Prop) :
  making w0 a i k fin w →
  (∀ t, live t → kind_of (th_obj t) = k → th_addr (f t) = th_addr t ∧ live (f t) ∧ kind_of (th_obj (f t)) = k ∧
     (fin' = true → (fin = true → obj_sector (th_obj t) = i) → obj_sector (th_obj (f t)) = i)) →
  (∀ w', making w0 a i k fin' w' → Q tt w') → wp E (upd_thinker a f) Q w.
Proof.
  intros MK Hf HQ. pose proof MK as [I (t & Ht & <- & Hl & Hk & Ho) Hsec Honly Hp Hc Hkl Hlen Hfree Hframe].
  destruct (Hf t Hl Hk) as (Ha' & Hl' & Hk' & Ho'). apply upd_thinker_wp; [apply I|done|]. apply HQ.
  set (w' := with_thinkers _ _ w).
  assert (Hback : ∀ t', t' ∈ thinkers w' → t' = f t ∨ (t' ∈ thinkers w ∧ th_addr t' ≠ th_addr t)).
  { intros t' (t0 & Ht0 & ->)%upd_thinkers_elem. destruct (Z.eqb_spec (th_addr t0) (th_addr t)) as [E'|]; [|by right].
    left. by rewrite (addr_unique _ t0 t (wi_nodup _ _ I) Ht0 Ht E'). }
  assert (Hforth : ∀ t', t' ∈ thinkers w → th_addr t' ≠ th_addr t → t' ∈ thinkers w').
  { intros t' Ht' Hne. apply upd_thinkers_elem. exists t'. split; [done|]. by rewrite (proj2 (Z.eqb_neq _ _) Hne). }
  assert (Hnew : f t ∈ thinkers w') by (apply upd_thinkers_elem; exists t; split; [done|by rewrite Z.eqb_refl]).
  assert (Haddr : th_addr <$> thinkers w' = th_addr <$> thinkers w).
  { cbn. unfold upd_thinkers. rewrite <- list_fmap_compose. apply list_fmap_ext. intros j t0 Ht0%list_elem_of_lookup_2. cbn.
    destruct (Z.eqb_spec (th_addr t0) (th_addr t)) as [E'|]; [|done].
    rewrite (addr_unique _ t0 t (wi_nodup _ _ I) Ht0 Ht E'). done. }
  assert (Htab : ∀ k tab, table_ok w k tab → Some (th_addr t) ∉ tab → table_ok w' k tab).
  { intros k' tab [? HT] Hnot. split; [done|]. intros b Hb. destruct (HT b Hb) as (t' & ? & ? & ? & ?). exists t'.
    split_and!; [apply Hforth; [done|congruence]|done..]. }
  split; try done.
  - split; try apply I.
    + by rewrite Haddr; apply I.
    + intros t' [-> |[Ht' _]]%Hback; [rewrite Ha'|]; by apply (wi_next _ _ I).
    + intros t' [-> |[Ht' _]]%Hback Hl1 Hh; [congruence|]. by apply (wi_owner _ _ I).
    + intros j s b Hs Hd Hh. destruct (wi_special _ _ I j s b Hs Hd Hh) as (t' & ? & ? & ? & ? & ?). exists t'.
      split_and!; [apply Hforth; [done|congruence]|done..].
    + by apply Htab; [apply I|].
    + by apply Htab; [apply I|].
    + intros t' [-> |[Ht' _]]%Hback Hl1 Hh Hk1; [congruence|]. by apply (wi_listed _ _ I).
  - exists (f t). split_and!; [done|done|done|done|]. intros Hfin'. apply Ho'; done.
Qed.

Lemma making_done w0 a i k w p c : making w0 a i k true w →
  NoDup (omap id p) → (∀ x, Some x ∈ p ↔ Some x ∈ activeplats w ∨ (x = a ∧ k = k_plat)) →
  NoDup (omap id c) → (∀ x, Some x ∈ c → Some x ∈ activeceilings w ∨ (x = a ∧ k = k_ceiling)) →
  winv None (with_ceilings c (with_plats p w)).
Proof.
  intros [I (t & Ht & Ha & Hl & Hk & Ho) (s & Hs & Hd) Honly _ _ Hkl _ _ _] Hp1 Hp2 Hc1 Hc2. specialize (Ho eq_refl).
  assert (Hdec : ∀ t', t' ∈ thinkers w → t' = t ∨ Some a ≠ Some (th_addr t')).
  { intros t' Ht'. destruct (decide (th_addr t' = a)) as [E|]; [left|right; congruence].
    apply (addr_unique _ t' t (wi_nodup _ _ I) Ht' Ht). congruence. }
  split; try apply I.
  - intros t' Ht' Hl' _. destruct (Hdec t' Ht') as [-> |Hne]; [|by apply (wi_owner _ _ I)].
    exists s. rewrite Ho. split; [done|]. congruence.
  - intros j s' b Hs' Hd' _. destruct (decide (b = a)) as [-> |]; [|by apply (wi_special _ _ I j s'); [..|congruence]].
    exists t. rewrite (Honly j s' Hs' Hd'). split_and!; [done|done|done|congruence|done].
  - split; [done|]. intros b [Hb|[-> ->]]%Hp2; [by apply (wi_plats _ _ I)|by exists t].
  - split; [done|]. intros b [Hb|[-> ->]]%Hc2; [by apply (wi_ceilings _ _ I)|by exists t].
  - intros t' Ht' Hl' _ Hk'. apply Hp2. destruct (Hdec t' Ht') as [-> |Hne]; [right; split; congruence|].
    left. by apply (wi_listed _ _ I).
Qed.

Lemma making_settled w0 a i k w : making w0 a i k true w → k ≠ k_plat → winv None w.
Proof.
  intros MK Hk. pose proof (mk_inv _ _ _ _ _ _ MK) as I.
  pose proof (making_done w0 a i k w (activeplats w) (activeceilings w) MK (proj1 (wi_plats _ _ I))) as H.
  assert (E : with_ceilings (activeceilings w) (with_plats (activeplats w) w) = w) by (by destruct w).
  rewrite E in H. apply H; [naive_solver|apply (wi_ceilings _ _ I)|auto].
Qed.

(** ** The events' loop over the tagged sectors *)

(** What a part of an event leaves when it is done: the invariant, and a mover on one more
    sector. *)
Record made w0 w : Prop := {
  md_inv : winv None w;
  md_dims : dims w = dims w0;
  md_free : (free w < free w0)%nat;
}.

Lemma made_kept w0 w : made w0 w → winv None w ∧ dims w = dims w0.
Proof. by intros []. Qed.

Lemma making_made w0 a i k w : making w0 a i k true w → k ≠ k_plat → made w0 w.
Proof. intros MK Hk. split; [by eapply making_settled|apply MK|apply MK]. Qed.

Lemma made_trans w0 w1 w2 : made w0 w1 → made w1 w2 → made w0 w2.
Proof. intros [] []. split; [done|congruence|lia]. Qed.

Lemma made_shape w0 w w' : same_shape w w' → made w0 w → made w0 w'.
Proof.
  intros SS []. split; [by eapply winv_shape|by rewrite (shape_dims _ _ SS)|by rewrite (free_shape _ _ SS)].
Qed.

Definition full_plats : stop := Panic "P_AddActivePlat: no more plats!".

Lemma AddActivePlat_wp E w0 a i w (Q : unit → world T → Prop) :
  E full_plats → making w0 a i k_plat true w → (∀ w', made w0 w' → Q tt w') → wp E (P_AddActivePlat a) Q w.
Proof.
  intros HE MK HQ. unfold P_AddActivePlat. wp_simp. pose proof (mk_inv _ _ _ _ _ _ MK) as I.
  destruct (add_active a (activeplats w)) as [l|] eqn:Ea; [|exact HE]. wp_simp. apply HQ.
  destruct (add_active_Some _ _ _ Ea (proj1 (wi_plats _ _ I)) (mk_plats _ _ _ _ _ _ MK)) as [Hn Hx].
  split; [|exact (mk_dims _ _ _ _ _ _ MK)|exact (mk_free _ _ _ _ _ _ MK)].
  pose proof (making_done w0 a i k_plat w l (activeceilings w) MK Hn) as H.
  apply H; [naive_solver|apply (wi_ceilings _ _ I)|auto].
Qed.

Lemma AddActiveCeiling_wp E w0 a i w (Q : unit → world T → Prop) :
  making w0 a i k_ceiling true w → (∀ w', made w0 w' → Q tt w') → wp E (P_AddActiveCeiling a) Q w.
Proof.
  intros MK HQ. unfold P_AddActiveCeiling. wp_simp. pose proof (mk_inv _ _ _ _ _ _ MK) as I.
  destruct (add_active a (activeceilings w)) as [l|] eqn:Ea; wp_simp; apply HQ; [|by eapply making_made].
  destruct (add_active_Some _ _ _ Ea (proj1 (wi_ceilings _ _ I)) (mk_ceilings _ _ _ _ _ _ MK)) as [Hn Hx].
  split; [|exact (mk_dims _ _ _ _ _ _ MK)|exact (mk_free _ _ _ _ _ _ MK)].
  pose proof (making_done w0 a i k_ceiling w (activeplats w) l MK (proj1 (wi_plats _ _ I))) as H.
  assert (E' : with_ceilings l (with_plats (activeplats w) w) = with_ceilings l w) by (by destruct w).
  rewrite E' in H. apply H; [naive_solver|done|naive_solver].
Qed.

(** What one round of the loop leaves, from the sector [secnum]: the search goes on from a valid
    number, further on unless a mover has been started. *)
Definition round_ok w0 (secnum : Z) (r : option Z) w : Prop :=
  winv None w ∧ dims w = dims w0 ∧
  ∀ n, r = Some n → -1 ≤ n < Z.of_nat (length (sectors w0)) ∧
    ((free w < free w0)%nat ∨ (free w = free w0 ∧ secnum ≤ n)).

Lemma made_round w0 w secnum n : made w0 w → 0 ≤ n < Z.of_nat (length (sectors w0)) → round_ok w0 secnum (Some n) w.
Proof. intros [] Hn. split_and!; [done|done|]. intros m [= <-]. split; [lia|auto]. Qed.

Lemma FindTagLoop_spec (t i : Z) ss : 0 ≤ i →
  FindTagLoop t i ss = -1 ∨ i ≤ FindTagLoop t i ss ∧ ∃ s, ss !! Z.to_nat (FindTagLoop t i ss - i) = Some s ∧ tag s = t.
Proof.
  revert i. induction ss as [|s ss IH]; intros i Hi; cbn [FindTagLoop]; [by left|].
  destruct (Z.eqb_spec (tag s) t).
  - right. split; [lia|]. exists s. by rewrite Z.sub_diag.
  - destruct (IH (i + 1) ltac:(lia)) as [|(Hle & s' & Hs' & Ht)]; [by left|]. right. split; [lia|]. exists s'. split; [|done].
    rewrite <- Hs'. set (r := FindTagLoop _ _ _) in *. by replace (Z.to_nat (r - i)) with (S (Z.to_nat (r - (i + 1)))) by lia.
Qed.

Lemma FindSector_wp E (t start : Z) w (Q : Z → world T → Prop) :
  -1 ≤ start → Q (-1) w → (∀ r s, start < r → at_index (sectors w) r = Some s → tag s = t → Q r w) →
  wp E (P_FindSectorFromLineTag t start) Q w.
Proof.
  intros Hs H1 H2. unfold P_FindSectorFromLineTag. wp_simp. set (l := drop _ _).
  destruct (FindTagLoop_spec t (start + 1) l ltac:(lia)) as [->|(Hle & s & Hl & Ht)]; [done|].
  apply (H2 _ s); [lia| |done]. apply at_index_Some. split; [lia|]. unfold l in Hl. rewrite lookup_drop in Hl.
  rewrite <- Hl. f_equal. set (r := FindTagLoop _ _ _) in *. lia.
Qed.

Lemma free_le w : (free w ≤ length (sectors w))%nat.
Proof. apply length_filter. Qed.

(** The loop, with an invariant [J] of the number the search goes on from and the world. *)
Lemma TagLoop_wp E (t : Z) (body : Z → M (world T) (option Z)) w0 (J : Z → world T → Prop) :
  (∀ start secnum w, J start w → start < secnum → J secnum w) →
  (∀ start secnum s w, J start w → start < secnum → winv None w → dims w = dims w0 → at_index (sectors w) secnum = Some s →
     specialdata s = None → tag s = t →
     wp E (body secnum) (λ r w', round_ok w secnum r w' ∧ ∀ n, r = Some n → J n w') w) →
  ∀ fuel start rtn w, J start w → winv None w → dims w = dims w0 → -1 ≤ start < Z.of_nat (length (sectors w0)) →
  Z.of_nat (free w) * (Z.of_nat (length (sectors w0)) + 1) + (Z.of_nat (length (sectors w0)) - start) < Z.of_nat fuel →
  wp E (TagLoop fuel t start body rtn) (λ _ w', winv None w' ∧ dims w' = dims w0) w.
Proof.
  intros HJ Hbody. induction fuel as [|fuel IH]; intros start rtn w Jw I Hd Hst Hf; [nia|]. cbn [TagLoop].
  pose proof Hd as [= Hlen _ _].
  rewrite wp_bind. apply FindSector_wp; [lia|done|]. intros secnum s Hlt Hs Ht.
  pose proof (at_index_range _ _ _ Hs) as Hr. rewrite (proj2 (Z.ltb_ge secnum 0)) by lia.
  rewrite wp_bind. apply (sector_wp _ _ s); [done|].
  destruct (specialdata s) eqn:Esp; [apply IH; [by eapply HJ|done|done|lia|lia]|].
  rewrite wp_bind. eapply wp_mono; [by apply (Hbody start secnum s)|].
  intros [n|] w' [(I' & Hd' & Hn) Jn]; [|split; [done|congruence]].
  destruct (Hn n eq_refl) as [Hrn Hpr]. apply IH; [by apply Jn|done|congruence|lia|]. rewrite Hlen in *. destruct Hpr; nia.
Qed.

(** What an event leaves. *)
Definition kept w0 w : Prop := winv None w ∧ dims w = dims w0.

Lemma kept_shape w w' : winv None w → same_shape w w' → kept w w'.
Proof. intros I SS. split; [exact (winv_shape _ _ _ SS I)|exact (shape_dims _ _ SS)]. Qed.

Lemma kept_trans w1 w2 w3 : kept w1 w2 → kept w2 w3 → kept w1 w3.
Proof. intros [] []. split; [done|congruence]. Qed.

Lemma kept_wp {A} E w w0 (m : M (world T) A) :
  kept w w0 → wp E m (λ _ w', kept w0 w') w0 → wp E m (λ _ w', kept w w') w0.
Proof. intros K Hm. eapply wp_mono; [exact Hm|]. intros r w'. by apply kept_trans. Qed.

Lemma kept_refl w : winv None w → kept w w.
Proof. by split. Qed.

Lemma OverTags_inv E (t : Z) (body : Z → M (world T) (option Z)) w0 (J : Z → world T → Prop) :
  winv None w0 → J (-1) w0 → (∀ start secnum w, J start w → start < secnum → J secnum w) →
  (∀ start secnum s w, J start w → start < secnum → winv None w → dims w = dims w0 → at_index (sectors w) secnum = Some s →
     specialdata s = None → tag s = t →
     wp E (body secnum) (λ r w', round_ok w secnum r w' ∧ ∀ n, r = Some n → J n w') w) →
  wp E (OverTags t body) (λ _ w', kept w0 w') w0.
Proof.
  intros I J0 HJ Hbody. unfold OverTags. wp_simp. eapply wp_mono.
  - apply (TagLoop_wp E t body w0 J HJ Hbody); [done|done|done|lia|]. pose proof (free_le w0). unfold tag_fuel. nia.
  - by intros r w' [? ?].
Qed.

Lemma OverTags_wp E (t : Z) (body : Z → M (world T) (option Z)) w0 :
  winv None w0 →
  (∀ secnum s w, winv None w → dims w = dims w0 → at_index (sectors w) secnum = Some s → specialdata s = None → tag s = t →
     wp E (body secnum) (round_ok w secnum) w) →
  wp E (OverTags t body) (λ _ w', kept w0 w') w0.
Proof.
  intros I Hbody. apply (OverTags_inv E t body w0 (λ _ _, True)); [done|done|done|].
  intros start secnum s w _ _ Iw Hd Hs Hsp Ht. eapply wp_mono; [by eapply Hbody|]. auto.
Qed.
End making.

(** ** Floors *)

Section floors.
Context {T : Type}.
Context (junk_floor : Z → floormove_t) (textureheight : Z → Z).
Implicit Types (w : world T) (E : stop → Prop) (k : kind).

Lemma making_sectors w0 a i k fin w j : making w0 a i k fin w → 0 ≤ j < Z.of_nat (length (sectors w0)) →
  ∃ s, at_index (sectors w) j = Some s.
Proof.
  intros MK Hj. destruct (at_index_valid (sectors w) j) as [s Hs]; [|by exists s].
  pose proof (mk_dims _ _ _ _ _ _ MK) as [= E' _ _]. lia.
Qed.

Lemma making_any w0 a i k fin w : making w0 a i k fin w → making w0 a i k false w.
Proof. intros [? (t & ? & ? & ? & ? & ?) ? ? ? ? ? ? ? ?]. split; try done. by exists t. Qed.

Lemma making_sector_upd E w0 a i k fin w j f (Q : unit → world T → Prop) :
  making w0 a i k fin w → 0 ≤ j < Z.of_nat (length (sectors w0)) →
  (∀ s, slines (f s) = slines s ∧ specialdata (f s) = specialdata s) →
  (∀ w', making w0 a i k fin w' → Q tt w') → wp E (upd_sector j f) Q w.
Proof.
  intros MK Hj Hf HQ. destruct (making_sectors _ _ _ _ _ _ j MK Hj) as [s Hs]. apply (upd_sector_wp _ _ s); [done|].
  apply HQ. eapply making_shape; [by apply shape_sectors|done].
Qed.

Lemma making_sector_wp E w0 a i k fin w j (Q : sector_t → world T → Prop) :
  making w0 a i k fin w → 0 ≤ j < Z.of_nat (length (sectors w0)) →
  (∀ s, at_index (sectors w) j = Some s → Q s w) → wp E (sector j) Q w.
Proof. intros MK Hj HQ. destruct (making_sectors _ _ _ _ _ _ j MK Hj) as [s Hs]. apply (sector_wp _ _ s); auto. Qed.

Lemma set_floor_wp E w0 a i fin w d speed dest (Q : unit → world T → Prop) :
  making w0 a i k_floor fin w → (∀ w', making w0 a i k_floor true w' → Q tt w') → wp E (set_floor a i d speed dest) Q w.
Proof.
  intros MK HQ. apply (making_upd _ w0 a i k_floor fin true w); [done| |done]. intros t Hl Hk.
  destruct (th_obj t) eqn:Eo; try done.
Qed.

Lemma set_floor_crush_wp E w0 a i fin w (Q : unit → world T → Prop) :
  making w0 a i k_floor fin w → (∀ w', making w0 a i k_floor fin w' → Q tt w') → wp E (set_floor_crush a) Q w.
Proof.
  intros MK HQ. apply (making_upd _ w0 a i k_floor fin fin w); [done| |done]. intros t Hl Hk.
  destruct (th_obj t) eqn:Eo; try done. split_and!; try done. auto.
Qed.

Lemma set_floor_texture_wp E w0 a i fin w x n (Q : unit → world T → Prop) :
  making w0 a i k_floor fin w → (∀ w', making w0 a i k_floor fin w' → Q tt w') → wp E (set_floor_texture a x n) Q w.
Proof.
  intros MK HQ. apply (making_upd _ w0 a i k_floor fin fin w); [done| |done]. intros t Hl Hk.
  destruct (th_obj t) eqn:Eo; try done. split_and!; try done. auto.
Qed.

Lemma getSide_wp E hole w l n (Q : side_t → world T → Prop) :
  winv hole w → line_ok (Z.of_nat (length (sectors w))) (Z.of_nat (length (sides w))) l → two_sided l = true →
  (∀ sd, 0 ≤ side_sector sd < Z.of_nat (length (sectors w)) → Q sd w) → wp E (getSide l n) Q w.
Proof.
  intros I (_ & _ & H1 & H2) Ht HQ. destruct (H2 Ht) as [_ H3]. unfold getSide.
  set (j := if n =? 0 then _ else _).
  destruct (at_index_valid (sides w) j) as [sd Hsd]; [unfold j; destruct (n =? 0); lia|].
  apply (side_wp _ _ sd); [done|]. apply HQ. eapply (proj1 (Forall_forall _ _) (wi_side _ _ I)), at_index_elem, Hsd.
Qed.

Lemma TextureLoop_wp E hole w ls m : winv hole w → (∀ i, i ∈ ls → 0 ≤ i < Z.of_nat (length (lines w))) →
  wp E (TextureLoop textureheight ls m) (λ _ w', w' = w) w.
Proof.
  intros I. revert m. induction ls as [|i ls IH]; intros m Hls; cbn [TextureLoop]; [done|].
  destruct (line_valid hole w i I) as (l & Hl & Hok); [apply Hls; left|].
  assert (Hls' : ∀ i, i ∈ ls → 0 ≤ i < Z.of_nat (length (lines w))) by (intros; apply Hls; by right).
  rewrite wp_bind. apply (line_wp _ _ l); [done|]. destruct (two_sided l) eqn:Et; [|by apply IH].
  rewrite wp_bind. apply (getSide_wp _ hole); [done..|]. intros s0 _.
  rewrite wp_bind. apply (getSide_wp _ hole); [done..|]. intros s1 _. by apply IH.
Qed.

(** No sector has more lines than [line_fuel] allows for. *)
Lemma lines_fuel w i s : at_index (sectors w) i = Some s → (length (slines s) < line_fuel w)%nat.
Proof.
  intros Hs%at_index_elem. unfold line_fuel. revert Hs. generalize (sectors w) as l. induction l as [|s0 l IH].
  - by intros ?%not_elem_of_nil.
  - intros [-> |Hs]%elem_of_cons; cbn; [lia|]. specialize (IH Hs). lia.
Qed.

Lemma ChangeLoop_wp E w0 a i w dest : E BadAccess → making w0 a i k_floor true w →
  ∀ fuel sec n, 0 ≤ sec < Z.of_nat (length (sectors w)) → 0 ≤ i < Z.of_nat (length (sectors w)) → 0 ≤ n < Z.of_nat (line_fuel w) →
  Z.of_nat (line_fuel w) ≤ n + Z.of_nat fuel →
  wp E (ChangeLoop fuel i sec n a dest) (λ _ w', making w0 a i k_floor true w') w.
Proof.
  intros HE MK. pose proof (mk_inv _ _ _ _ _ _ MK) as I.
  induction fuel as [|fuel IH]; intros sec n Hsec Hi Hn Hf; [lia|]. cbn [ChangeLoop].
  destruct (at_index_valid (sectors w) sec Hsec) as [s Hs]. destruct (at_index_valid (sectors w) i Hi) as [s0 Hs0].
  rewrite wp_bind. apply (sector_wp _ _ s); [done|]. destruct (Z.ltb_spec n (Z.of_nat (length (slines s)))) as [Hlt|]; [|done].
  pose proof (lines_fuel _ _ _ Hs) as Hfuel.
  rewrite wp_bind. apply (sector_wp _ _ s0); [done|]. destruct (at_index (slines s0) n) as [li|] eqn:Eli; [|exact HE].
  destruct (line_valid _ w li I) as (l & Hl & Hok); [eapply sector_lines; [done|exact Hs0|by eapply at_index_elem]|].
  rewrite wp_bind. apply (line_wp _ _ l); [done|]. destruct (two_sided l) eqn:Et; [|apply IH; lia].
  rewrite wp_bind. apply (getSide_wp _ (Some a)); [done..|]. intros sd _.
  rewrite wp_bind. apply (getSide_wp _ (Some a)); [done..|]. intros sd' Hsd.
  destruct (at_index_valid (sectors w) _ Hsd) as [s1 Hs1]. rewrite wp_bind. apply (sector_wp _ _ s1); [done|].
  destruct (_ =? _); [|apply IH; lia]. apply (set_floor_texture_wp _ w0 a i true w); done.
Qed.

Lemma new_floor_wp E w i s type (Q : Z → world T → Prop) :
  winv None w → at_index (sectors w) i = Some s → specialdata s = None →
  (∀ a w', making w a i k_floor false w' → Q a w') → wp E (new_floor junk_floor i type) Q w.
Proof.
  intros I Hs Hd HQ. unfold new_floor. apply (spawn_wp E w i s _ k_floor (λ a, mret a)); [done|done|done|done|done|].
  intros a w' MK. rewrite wp_ret. eapply HQ, making_any, MK.
Qed.

(** The stops of [EV_DoFloor]. *)
Definition floor_stops (type : floor_e) (e : stop) : Prop :=
  match type with
  | raiseFloorTurbo | raiseFloorToNearest => e = crowded
  | lowerAndChange => e = BadAccess
  | _ => False
  end.

Lemma EV_DoFloor_wp E ln type w :
  (∀ e, floor_stops type e → E e) → type ≠ donutRaise → winv None w → 0 ≤ ln < Z.of_nat (length (lines w)) →
  wp E (EV_DoFloor junk_floor textureheight ln type) (λ _ w', kept w w') w.
Proof.
  intros HE Hty I Hln. destruct (line_valid _ w ln I Hln) as (l & Hl & Hlok). unfold EV_DoFloor.
  rewrite wp_bind. apply (line_wp _ _ l); [done|]. apply OverTags_wp; [done|].
  intros secnum s w1 I1 [= Hd1 Hd2 _] Hs Hd _. pose proof (at_index_range _ _ _ Hs) as Hr.
  rewrite wp_bind. apply (new_floor_wp _ _ _ s); [done..|]. intros a w2 MK.
  rewrite wp_bind. apply (making_sector_wp _ _ _ _ _ _ _ _ _ MK Hr). intros sec Hsec. rewrite wp_bind.
  pose proof (mk_inv _ _ _ _ _ _ MK) as I2.
  assert (Hend : ∀ w', making w1 a secnum k_floor true w' → wp E (mret (Some secnum)) (round_ok w1 secnum) w').
  { intros w' MK'. rewrite wp_ret. apply made_round; [|done]. by eapply making_made. }
  assert (Hset : ∀ d speed dest, wp E (set_floor a secnum d speed dest) (λ _ w', wp E (mret (Some secnum)) (round_ok w1 secnum) w') w2).
  { intros. by apply (set_floor_wp _ w1 _ _ _ _ _ _ _ _ MK). }
  destruct type; try done; rewrite ?wp_bind.
  - apply (FindHighestFloor_wp _ _ _ _ _ _ I2 Hsec). auto.
  - apply (FindLowestFloor_wp _ _ _ _ _ _ I2 Hsec). auto.
  - apply (FindHighestFloor_wp _ _ _ _ _ _ I2 Hsec). auto.
  - rewrite bool_decide_eq_false_2 by done. rewrite wp_ret, wp_bind. apply (FindLowestCeiling_wp _ _ _ _ _ _ I2 Hsec). auto.
  - apply (FindNextHighest_wp _ _ _ _ _ _ _ (HE _ eq_refl) I2 Hsec). auto.
  - eapply wp_mono; [apply (TextureLoop_wp _ _ _ _ _ I2); by eapply sector_lines|]. intros m w' ->. auto.
  - apply (FindLowestFloor_wp _ _ _ _ _ _ I2 Hsec). intros dest.
    rewrite wp_bind. apply (set_floor_wp _ w1 _ _ _ _ _ _ _ _ MK). intros w3 MK3.
    rewrite wp_bind. apply (set_floor_texture_wp _ w1 _ _ _ _ _ _ _ MK3). intros w4 MK4. rewrite wp_bind, wp_get.
    pose proof (mk_dims _ _ _ _ _ _ MK4) as [= E4 _ _].
    eapply wp_mono; [apply (ChangeLoop_wp _ w1); [by apply HE|done|lia..|unfold line_fuel; lia|lia]|]. auto.
  - apply (set_floor_wp _ w1 _ _ _ _ _ _ _ _ MK). intros w3 MK3.
    assert (Hf : 0 ≤ frontsector l < Z.of_nat (length (sectors w1))) by (destruct Hlok; lia).
    rewrite wp_bind. apply (making_sector_wp _ _ _ _ _ _ _ _ _ MK3 Hf). intros front _.
    rewrite wp_bind. apply (making_sector_upd _ _ _ _ _ _ _ _ _ _ MK3 Hr); [done|]. intros w4 MK4.
    rewrite wp_bind. apply (making_sector_wp _ _ _ _ _ _ _ _ _ MK4 Hf). intros front' _.
    apply (making_sector_upd _ _ _ _ _ _ _ _ _ _ MK4 Hr); [done|]. auto.
  - rewrite bool_decide_eq_true_2 by done. apply (set_floor_crush_wp _ _ _ _ _ _ _ MK). intros w3 MK3. rewrite wp_bind.
    destruct (making_sectors _ _ _ _ _ _ secnum MK3 Hr) as [s3 Hs3].
    apply (FindLowestCeiling_wp _ _ _ _ _ _ (mk_inv _ _ _ _ _ _ MK3) Hs3). intros r.
    apply (set_floor_wp _ w1 _ _ _ _ _ _ _ _ MK3). auto.
  - apply (FindNextHighest_wp _ _ _ _ _ _ _ (HE _ eq_refl) I2 Hsec). auto.
Qed.
End floors.

(** ** Stairs *)

Section stairs.
Context {T : Type}.
Context (junk_floor : Z → floormove_t).
Implicit Types (w : world T) (E : stop → Prop).

Lemma new_step_wp E w i s speed dest (Q : unit → world T → Prop) :
  winv None w → at_index (sectors w) i = Some s → specialdata s = None →
  (∀ w', made w w' → Q tt w') → wp E (new_step junk_floor i speed dest) Q w.
Proof.
  intros I Hs Hd HQ. unfold new_step. rewrite wp_bind. unfold P_AddThinker. wp_simp.
  apply (upd_sector_wp _ _ s); [done|]. apply HQ.
  set (o := OFloor _). pose proof (spawned w i s o k_floor I Hs Hd eq_refl ltac:(done)) as MK.
  rewrite bool_decide_eq_true_2 in MK by done. by eapply making_made.
Qed.

Lemma StairScan_wp E w ls secnum texture size h :
  winv None w → (∀ i, i ∈ ls → 0 ≤ i < Z.of_nat (length (lines w))) →
  wp E (StairScan ls secnum texture size h)
    (λ r w', w' = w ∧ ∀ n, r.2 = Some n → ∃ s, at_index (sectors w) n = Some s ∧ specialdata s = None) w.
Proof.
  intros I. revert h. induction ls as [|i ls IH]; intros h Hls; cbn [StairScan]; [done|].
  destruct (line_valid None w i I) as (l & Hl & _ & Hb & _ & Htwo); [apply Hls; left|].
  assert (Hls' : ∀ i, i ∈ ls → 0 ≤ i < Z.of_nat (length (lines w))) by (intros; apply Hls; by right).
  rewrite wp_bind. apply (line_wp _ _ l); [done|]. destruct (two_sided l); cbn [negb]; [|by apply IH].
  destruct (negb _); [by apply IH|]. destruct (Htwo eq_refl) as [[n En] _]. rewrite En.
  destruct (at_index_valid (sectors w) n (Hb n En)) as [s Hs]. rewrite wp_bind. apply (sector_wp _ _ s); [done|].
  destruct (negb _); [by apply IH|]. destruct (specialdata s) eqn:Esp; [by apply IH|].
  rewrite wp_ret. split; [done|]. intros m [= <-]. by exists s.
Qed.

Lemma StairLoop_wp E texture speed size w0 : ∀ fuel secnum h w, made w0 w → 0 ≤ secnum < Z.of_nat (length (sectors w)) →
  (free w < fuel)%nat →
  wp E (StairLoop junk_floor fuel secnum texture speed size h) (λ n w', made w0 w' ∧ 0 ≤ n < Z.of_nat (length (sectors w0))) w.
Proof.
  induction fuel as [|fuel IH]; intros secnum h w MD Hsec Hf; [lia|]. cbn [StairLoop].
  destruct (at_index_valid (sectors w) secnum Hsec) as [s Hs]. pose proof (md_dims _ _ MD) as [= Ed _ _].
  rewrite wp_bind. apply (sector_wp _ _ s); [done|]. rewrite wp_bind.
  eapply wp_mono; [apply StairScan_wp; [apply MD|eapply sector_lines; [apply MD|done]]|].
  intros [h' [n|]] w' [-> Hn]; cbn [fst snd]; [|rewrite wp_ret; split; [done|lia]].
  destruct (Hn n eq_refl) as (s' & Hs' & Hd'). rewrite wp_bind. apply (new_step_wp _ _ _ s'); [apply MD|done|done|].
  intros w' MD'. pose proof (at_index_range _ _ _ Hs'). pose proof (md_dims _ _ MD') as [= Ed' _ _]. pose proof (md_free _ _ MD').
  apply IH; [by eapply made_trans|lia|lia].
Qed.

Lemma EV_BuildStairs_wp E ln type w : winv None w → 0 ≤ ln < Z.of_nat (length (lines w)) →
  wp E (EV_BuildStairs junk_floor ln type) (λ _ w', kept w w') w.
Proof.
  intros I Hln. destruct (line_valid _ w ln I Hln) as (l & Hl & _). unfold EV_BuildStairs.
  rewrite wp_bind. apply (line_wp _ _ l); [done|]. apply OverTags_wp; [done|].
  intros secnum s w1 I1 _ Hs Hd _. rewrite wp_bind. apply (sector_wp _ _ s); [done|].
  rewrite wp_bind. apply (new_step_wp _ _ _ s); [done..|]. intros w2 MD. rewrite wp_bind, wp_get, wp_bind.
  pose proof (md_dims _ _ MD) as [= Ed _ _]. pose proof (at_index_range _ _ _ Hs). pose proof (free_le w2).
  eapply wp_mono; [apply (StairLoop_wp _ _ _ _ w1); [done|lia|lia]|].
  intros n w3 [MD3 Hn]. rewrite wp_ret. by apply made_round.
Qed.
End stairs.

(** ** Platforms and ceilings *)

Section actives.
Context {T : Type}.
Context (junk_plat : Z → plat_t) (junk_ceiling : Z → ceiling_t).
Implicit Types (w : world T) (E : stop → Prop).

Lemma ActiveLoop_wp E (f : Z → M (world T) unit) l w :
  (∀ a w', Some a ∈ l → same_shape w w' → wp E (f a) (λ _ w'', same_shape w w'') w') →
  wp E (ActiveLoop f l) (λ _ w', same_shape w w') w.
Proof.
  intros Hf. assert (H : ∀ w', same_shape w w' → wp E (ActiveLoop f l) (λ _ w', same_shape w w') w'); [|apply H, same_shape_refl].
  induction l as [|[a|] l IH]; intros w' SS; cbn [ActiveLoop].
  - done.
  - rewrite wp_bind. eapply wp_mono; [apply Hf; [left|done]|]. intros [] w'' SS'. apply IH; [|done].
    intros b w3 Hb. apply Hf. by right.
  - apply IH; [|done]. intros b w3 Hb. apply Hf. by right.
Qed.

(** A thinker of a table, in a world of the same shape. *)
Lemma table_shape w w' k tab a : table_ok w k tab → same_shape w w' → Some a ∈ tab →
  ∃ t, t ∈ thinkers w' ∧ th_addr t = a ∧ live t ∧ kind_of (th_obj t) = k.
Proof.
  intros [_ HT] SS (t & Ht & Ha & Hl & Hk)%HT.
  destruct (shape_thinker _ _ _ (same_shape_sym _ _ SS) Ht) as (t' & ? & ? & ? & ? & _). exists t'.
  split_and!; [done|congruence|tauto|congruence].
Qed.

Lemma shape_upd E w w' a k f (Q : unit → world T → Prop) :
  winv None w → same_shape w w' → (∃ t, t ∈ thinkers w' ∧ th_addr t = a ∧ live t ∧ kind_of (th_obj t) = k ∧ keeps t f) →
  (∀ w'', same_shape w w'' → Q tt w'') → wp E (upd_thinker a f) Q w'.
Proof.
  intros I SS (t & Ht & <- & Hl & Hk & Hf) HQ. pose proof (winv_shape _ _ _ SS I) as I'.
  apply upd_thinker_wp; [apply I'|done|]. apply HQ. eapply same_shape_trans; [exact SS|]. by apply shape_thinkers; [apply I'|..].
Qed.

(** A write of the object and of the function of a thinker of a table. *)
Lemma table_set_wp E w w' k tab a t o f :
  winv None w → table_ok w k tab → same_shape w w' → Some a ∈ tab → t ∈ thinkers w' → th_addr t = a →
  kind_of o = k → obj_sector o = obj_sector (th_obj t) → kind_of (th_obj t) = k → f ≠ act_removed →
  wp E (upd_thinker a (set_obj o);; upd_thinker a (set_function f)) (λ _ w'', same_shape w w'') w'.
Proof.
  intros I HT SS Ha Ht Eta Hk Ho Hkt Hf. pose proof (winv_shape _ _ _ SS I) as I'.
  destruct (table_shape _ _ _ _ _ HT SS Ha) as (t0 & Ht0 & Ha0 & Hl0 & Hk0).
  assert (t0 = t) as -> by (eapply addr_unique; [apply I'|done|done|congruence]).
  rewrite wp_bind. apply (shape_upd _ w w' a k); [done|done| |].
  { exists t. split_and!; try done. apply set_obj_keeps; congruence. }
  intros w2 SS2. destruct (table_shape _ _ _ _ _ HT SS2 Ha) as (t2 & Ht2 & Ha2 & Hl2 & Hk2).
  apply (shape_upd _ w w2 a k); [done|done| |done]. exists t2. split_and!; done || by apply set_function_keeps.
Qed.

Lemma plat_entry_wp E w w' a (Q : plat_t → world T → Prop) :
  winv None w → same_shape w w' → Some a ∈ activeplats w →
  (∀ o t, t ∈ thinkers w' → th_addr t = a → th_obj t = OPlat o → Q o w') → wp E (plat_of a) Q w'.
Proof.
  intros I SS Ha HQ. destruct (table_shape _ _ _ _ _ (wi_plats _ _ I) SS Ha) as (t & Ht & Eta & Hl & Hk).
  unfold plat_of. rewrite <- Eta, wp_bind. apply thinker_wp; [apply (winv_shape _ _ _ SS I)|done|].
  destruct (th_obj t) eqn:Eo; try done. by eapply HQ.
Qed.

Lemma ceiling_entry_wp E w w' a (Q : ceiling_t → world T → Prop) :
  winv None w → same_shape w w' → Some a ∈ activeceilings w →
  (∀ o t, t ∈ thinkers w' → th_addr t = a → th_obj t = OCeiling o → Q o w') → wp E (ceiling_of a) Q w'.
Proof.
  intros I SS Ha HQ. destruct (table_shape _ _ _ _ _ (wi_ceilings _ _ I) SS Ha) as (t & Ht & Eta & Hl & Hk).
  unfold ceiling_of. rewrite <- Eta, wp_bind. apply thinker_wp; [apply (winv_shape _ _ _ SS I)|done|].
  destruct (th_obj t) eqn:Eo; try done. by eapply HQ.
Qed.

Lemma ActivateInStasis_wp E (t : Z) w : winv None w → wp E (P_ActivateInStasis t) (λ _ w', same_shape w w') w.
Proof.
  intros I. unfold P_ActivateInStasis. wp_simp. apply ActiveLoop_wp. intros a w' Ha SS.
  rewrite wp_bind. apply (plat_entry_wp _ w); [done..|]. intros o t' Ht' Eta Eo.
  destruct (_ && _); [|done]. eapply (table_set_wp _ w w' k_plat); [done|apply I|done|done|done|done| |by rewrite Eo..|done]. done.
Qed.

Lemma EV_StopPlat_wp E ln w : winv None w → 0 ≤ ln < Z.of_nat (length (lines w)) → wp E (EV_StopPlat ln) (λ _ w', kept w w') w.
Proof.
  intros I Hln. destruct (line_valid _ w ln I Hln) as (l & Hl & _). unfold EV_StopPlat.
  rewrite wp_bind. apply (line_wp _ _ l); [done|]. rewrite wp_bind, wp_get. eapply wp_mono.
  - apply ActiveLoop_wp. intros a w' Ha SS. rewrite wp_bind. apply (plat_entry_wp _ w); [done..|]. intros o t' Ht' Eta Eo.
    destruct (_ && _); [|done]. eapply (table_set_wp _ w w' k_plat); [done|apply I|done|done|done|done| |by rewrite Eo..|done]. done.
  - intros [] w' SS. by apply kept_shape.
Qed.

Lemma ActivateInStasisCeiling_wp E (t : Z) w : winv None w → wp E (P_ActivateInStasisCeiling t) (λ _ w', same_shape w w') w.
Proof.
  intros I. unfold P_ActivateInStasisCeiling. wp_simp. apply ActiveLoop_wp. intros a w' Ha SS.
  rewrite wp_bind. apply (ceiling_entry_wp _ w); [done..|]. intros o t' Ht' Eta Eo.
  destruct (_ && _); [|done]. eapply (table_set_wp _ w w' k_ceiling); [done|apply I|done|done|done|done| |by rewrite Eo..|done]. done.
Qed.

Lemma CrushStopLoop_wp E (t : Z) w : winv None w → ∀ l r w', same_shape w w' → (∀ a, Some a ∈ l → Some a ∈ activeceilings w) →
  wp E (CrushStopLoop t l r) (λ _ w', same_shape w w') w'.
Proof.
  intros I. induction l as [|[a|] l IH]; intros r w' SS Hin; cbn [CrushStopLoop].
  - done.
  - assert (Hin' : ∀ a, Some a ∈ l → Some a ∈ activeceilings w) by (intros; apply Hin; by right).
    assert (Ha : Some a ∈ activeceilings w) by (apply Hin; left).
    rewrite wp_bind. apply (ceiling_entry_wp _ w); [done..|]. intros o t' Ht' Eta Eo. destruct (_ && _); [|by apply IH].
    apply (wp_bind_assoc E (set_ceiling a _) (λ _, upd_thinker a (set_function act_null))). eapply wp_mono.
    + eapply (table_set_wp _ w w' k_ceiling); [done|apply I|done|done|done|done| |by rewrite Eo..|done]. done.
    + intros [] w2 SS2. by apply IH.
  - apply IH; [done|]. intros; apply Hin; by right.
Qed.

Lemma EV_CeilingCrushStop_wp E ln w : winv None w → 0 ≤ ln < Z.of_nat (length (lines w)) →
  wp E (EV_CeilingCrushStop ln) (λ _ w', kept w w') w.
Proof.
  intros I Hln. destruct (line_valid _ w ln I Hln) as (l & Hl & _). unfold EV_CeilingCrushStop.
  rewrite wp_bind. apply (line_wp _ _ l); [done|]. rewrite wp_bind, wp_get. eapply wp_mono.
  - apply (CrushStopLoop_wp _ _ w I); [apply same_shape_refl|done].
  - intros r w' SS. by apply kept_shape.
Qed.

Lemma making_set E w0 a i k fin w o (Q : unit → world T → Prop) :
  making w0 a i k fin w → kind_of o = k → obj_sector o = i →
  (∀ w', making w0 a i k true w' → Q tt w') → wp E (upd_thinker a (set_obj o)) Q w.
Proof. intros MK Hk Ho HQ. by apply (making_upd _ w0 a i k fin true w). Qed.

Lemma set_plat_fields_wp E w0 a i w sp lo hi wt st (Q : unit → world T → Prop) :
  making w0 a i k_plat true w → (∀ w', making w0 a i k_plat true w' → Q tt w') → wp E (set_plat_fields a sp lo hi wt st) Q w.
Proof.
  intros MK HQ. apply (making_upd _ w0 a i k_plat true true w); [done| |done]. intros t Hl Hk.
  destruct (th_obj t) eqn:Eo; try done. split_and!; try done. auto.
Qed.

(** The stops of [EV_DoPlat]. *)
Definition plat_stops (type : plattype_e) (e : stop) : Prop :=
  e = full_plats ∨ (type = raiseToNearestAndChange ∧ e = crowded).

Lemma EV_DoPlat_wp E ln type amount w :
  (∀ e, plat_stops type e → E e) → winv None w → 0 ≤ ln < Z.of_nat (length (lines w)) →
  wp E (EV_DoPlat junk_plat ln type amount) (λ _ w', kept w w') w.
Proof.
  intros HE I Hln. destruct (line_valid _ w ln I Hln) as (l & Hl & Hlok). unfold EV_DoPlat.
  rewrite wp_bind. apply (line_wp _ _ l); [done|]. rewrite wp_bind.
  apply (wp_mono _ _ (λ _ w', same_shape w w')).
  { case_bool_decide; [by apply ActivateInStasis_wp|rewrite wp_ret; apply same_shape_refl]. }
  intros [] w0 SS0. pose proof (winv_shape _ _ _ SS0 I) as I0. pose proof (shape_dims _ _ SS0) as [= D1 D2 _].
  apply kept_wp; [by apply kept_shape|]. apply OverTags_wp; [done|]. intros secnum s w1 I1 [= D3 D4 _] Hs Hd _. pose proof (at_index_range _ _ _ Hs) as Hr.
  eapply (spawn_wp _ _ _ s _ k_plat); [done..|]. intros a w2 MK. cbn [obj_sector pt_sector] in MK.
  rewrite bool_decide_eq_true_2 in MK by done.
  rewrite wp_bind. apply (making_sector_wp _ _ _ _ _ _ _ _ _ MK Hr). intros sec Hsec. rewrite wp_bind.
  assert (Hend : ∀ w', making w1 a secnum k_plat true w' → wp E (P_AddActivePlat a;; mret (Some secnum)) (round_ok w1 secnum) w').
  { intros w' MK'. rewrite wp_bind. apply (AddActivePlat_wp _ w1 a secnum); [by apply HE; left|done|].
    intros w3 MD. rewrite wp_ret. by apply made_round. }
  assert (Hset : ∀ w' sp lo hi wt st, making w1 a secnum k_plat true w' → wp E (set_plat_fields a sp lo hi wt st)
    (λ _ w'', wp E (P_AddActivePlat a;; mret (Some secnum)) (round_ok w1 secnum) w'') w').
  { intros w' sp lo hi wt st MK'. by apply (set_plat_fields_wp _ _ _ _ _ _ _ _ _ _ _ MK'). }
  assert (Hside : ∀ c Q, (∀ sd, 0 ≤ side_sector sd < Z.of_nat (length (sectors w1)) → wp E (c sd) Q w2) →
    wp E (sd ← side (sidenum l).1; c sd : M (world T) unit) Q w2).
  { intros c Q HQ. pose proof (mk_dims _ _ _ _ _ _ MK) as [= D5 D6 _]. destruct Hlok as (_ & _ & Hsd & _).
    destruct (at_index_valid (sides w2) (sidenum l).1) as [sd Esd]; [lia|]. rewrite wp_bind. apply (side_wp _ _ sd); [done|].
    apply HQ. pose proof (proj1 (Forall_forall _ _) (wi_side _ _ (mk_inv _ _ _ _ _ _ MK)) sd (at_index_elem _ _ _ Esd)). cbn in *. lia. }
  pose proof (mk_inv _ _ _ _ _ _ MK) as I2. destruct type.
  - rewrite wp_bind. apply (FindLowestFloor_wp _ _ _ _ _ _ I2 Hsec). intros lo. rewrite wp_bind.
    apply (FindHighestFloor_wp _ _ _ _ _ _ I2 Hsec). intros hi. rewrite wp_bind. apply Random_wp. intros r w3 SS _.
    apply Hset. by eapply making_shape.
  - rewrite wp_bind. apply (FindLowestFloor_wp _ _ _ _ _ _ I2 Hsec). auto.
  - apply Hside. intros sd Hsd. rewrite wp_bind. apply (making_sector_wp _ _ _ _ _ _ _ _ _ MK Hsd). intros from _.
    rewrite wp_bind. apply (making_sector_upd _ _ _ _ _ _ _ _ _ _ MK Hr); [done|]. auto.
  - apply Hside. intros sd Hsd. rewrite wp_bind. apply (making_sector_wp _ _ _ _ _ _ _ _ _ MK Hsd). intros from _.
    rewrite wp_bind. apply (making_sector_upd _ _ _ _ _ _ _ _ _ _ MK Hr); [done|]. intros w3 MK3.
    destruct (making_sectors _ _ _ _ _ _ secnum MK3 Hr) as [s3 Hs3]. rewrite wp_bind.
    apply (FindNextHighest_wp _ _ _ _ _ _ _ (HE _ (or_intror (conj eq_refl eq_refl))) (mk_inv _ _ _ _ _ _ MK3) Hs3). intros hi.
    rewrite wp_bind. apply (set_plat_fields_wp _ _ _ _ _ _ _ _ _ _ _ MK3). intros w4 MK4.
    apply (making_sector_upd _ _ _ _ _ _ _ _ _ _ MK4 Hr); [done|]. auto.
  - rewrite wp_bind. apply (FindLowestFloor_wp _ _ _ _ _ _ I2 Hsec). auto.
Qed.

Lemma EV_DoCeiling_wp E ln type w : winv None w → 0 ≤ ln < Z.of_nat (length (lines w)) →
  wp E (EV_DoCeiling junk_ceiling ln type) (λ _ w', kept w w') w.
Proof.
  intros I Hln. destruct (line_valid _ w ln I Hln) as (l & Hl & Hlok). unfold EV_DoCeiling.
  rewrite wp_bind. apply (line_wp _ _ l); [done|]. rewrite wp_bind.
  apply (wp_mono _ _ (λ _ w', same_shape w w')).
  { destruct type; [rewrite wp_ret; apply same_shape_refl..| | |]; by apply ActivateInStasisCeiling_wp. }
  intros [] w0 SS0. pose proof (winv_shape _ _ _ SS0 I) as I0.
  apply kept_wp; [by apply kept_shape|]. apply OverTags_wp; [done|]. intros secnum s w1 I1 _ Hs Hd _. pose proof (at_index_range _ _ _ Hs) as Hr.
  eapply (spawn_wp _ _ _ s _ k_ceiling); [done..|]. intros a w2 MK.
  rewrite wp_bind. apply (making_sector_wp _ _ _ _ _ _ _ _ _ MK Hr). intros sec Hsec. rewrite wp_bind.
  apply (wp_mono _ _ (λ _ w', w' = w2)).
  { destruct type; try done. by apply (FindHighestCeiling_wp _ _ _ _ _ _ (mk_inv _ _ _ _ _ _ MK) Hsec). }
  intros hi w' ->. rewrite wp_bind. apply (making_set _ _ _ _ _ _ _ _ _ MK); [done|by destruct type|]. intros w3 MK3.
  rewrite wp_bind. apply (AddActiveCeiling_wp _ w1 a secnum); [done|]. intros w4 MD. rewrite wp_ret. by apply made_round.
Qed.
End actives.

(** ** Doors *)

Section doors.
Context {T : Type}.
Context (junk_door : Z → vldoor_t) (pun_direction : object → Z) (pun_set_direction : Z → object → object).
Hypothesis pun_keeps : ∀ d o, kind_of (pun_set_direction d o) = kind_of o ∧ obj_sector (pun_set_direction d o) = obj_sector o.
Implicit Types (w : world T) (E : stop → Prop).

Lemma EV_DoDoor_wp E ln type w : winv None w → 0 ≤ ln < Z.of_nat (length (lines w)) →
  wp E (EV_DoDoor junk_door ln type) (λ _ w', kept w w') w.
Proof using Type.
  intros I Hln. destruct (line_valid _ w ln I Hln) as (l & Hl & Hlok). unfold EV_DoDoor.
  rewrite wp_bind. apply (line_wp _ _ l); [done|].
  apply OverTags_wp; [done|]. intros secnum s w1 I1 _ Hs Hd _. pose proof (at_index_range _ _ _ Hs) as Hr.
  eapply (spawn_wp _ _ _ s _ k_door); [done..|]. intros a w2 MK.
  rewrite wp_bind. apply (making_sector_wp _ _ _ _ _ _ _ _ _ MK Hr). intros sec Hsec. rewrite wp_bind.
  apply (wp_mono _ _ (λ _ w', w' = w2)).
  { pose proof (λ Q, FindLowestCeiling_wp E _ _ _ _ Q (mk_inv _ _ _ _ _ _ MK) Hsec) as H. destruct type; done || by apply H. }
  intros hi w' ->. rewrite wp_bind. apply (making_set _ _ _ _ _ _ _ _ _ MK); [by destruct type|by destruct type|]. intros w3 MK3.
  rewrite wp_ret. apply made_round; [|done]. by eapply making_made.
Qed.

Lemma check_lock_wp E p card skull msg w : wp E (check_lock p card skull msg) (λ _ w', same_shape w w') w.
Proof using Type. unfold check_lock. destruct (_ && _); wp_simp; [apply shape_message|apply same_shape_refl]. Qed.

Lemma manual_lock_wp E p card skull msg w : wp E (manual_lock p card skull msg) (λ _ w', same_shape w w') w.
Proof using Type. destruct p; [apply check_lock_wp|apply same_shape_refl]. Qed.

Lemma EV_DoLockedDoor_wp E ln type thing w : winv None w → 0 ≤ ln < Z.of_nat (length (lines w)) →
  wp E (EV_DoLockedDoor junk_door ln type thing) (λ _ w', kept w w') w.
Proof using Type.
  intros I Hln. destruct thing as [p|]; [|done]. destruct (line_valid _ w ln I Hln) as (l & Hl & Hlok). unfold EV_DoLockedDoor.
  rewrite wp_bind. apply (line_wp _ _ l); [done|]. rewrite wp_bind. apply (wp_mono _ _ (λ _ w', same_shape w w')).
  { repeat (destruct (_ || _); [apply check_lock_wp|]). apply same_shape_refl. }
  intros [] w' SS; [|by apply kept_shape]. pose proof (shape_dims _ _ SS) as [= _ _ D].
  apply kept_wp; [by apply kept_shape|]. apply EV_DoDoor_wp; [exact (winv_shape _ _ _ SS I)|lia].
Qed.

(** A use of a line that has a moving door behind it. *)
Lemma use_moving_door_wp E i s a thing w : winv None w → at_index (sectors w) i = Some s → specialdata s = Some a →
  wp E (use_moving_door pun_direction pun_set_direction a thing) (λ _ w', kept w w') w.
Proof using pun_keeps.
  intros I Hs Hd. destruct (wi_special _ _ I i s a Hs Hd ltac:(done)) as (t & Ht & <- & Hl & Hk & Ho).
  unfold use_moving_door. rewrite wp_bind. apply thinker_wp; [apply I|done|].
  assert (Hput : ∀ f, keeps t f → wp E (upd_thinker (th_addr t) f) (λ _ w', kept w w') w).
  { intros f Hf. apply upd_thinker_wp; [apply I|done|]. apply kept_shape; [done|]. by apply shape_thinkers; [apply I|..]. }
  assert (Hturn : ∀ d, keeps t (λ t, match th_obj t with
    | ODoor o => set_obj (ODoor (door_motion (vd_type o) d (vd_topcountdown o) o)) t
    | o => set_obj (pun_set_direction d o) t
    end)).
  { intros d. clear -pun_keeps. destruct t as [? ? []]; (split; [done|]); (split; [done|]); done || apply pun_keeps. }
  destruct (_ =? -1); [by apply Hput, Hturn|]. destruct thing; [|done].
  destruct (th_obj t) eqn:Eo; try (by apply Hput, Hturn). destruct (th_function t); try (by apply Hput, Hturn).
  apply Hput, set_obj_keeps; by rewrite Eo.
Qed.

(** The sector behind a door line has no mover, unless the line is one that turns a moving door
    round. *)
Definition door_line_ready w (ln : Z) : bool :=
  match at_index (lines w) ln with
  | None => false
  | Some l =>
      two_sided l &&
      (raise_door_line (lspecial l) ||
       match at_index (sides w) (sidenum l).2 with
       | None => false
       | Some sd =>
           match at_index (sectors w) (side_sector sd) with
           | None => false
           | Some s => bool_decide (specialdata s = None)
           end
       end)
  end.

Lemma EV_VerticalDoor_wp E ln thing w : winv None w → door_line_ready w ln = true →
  wp E (EV_VerticalDoor junk_door pun_direction pun_set_direction ln thing) (λ _ w', kept w w') w.
Proof using pun_keeps.
  intros I Hready. unfold door_line_ready in Hready. destruct (at_index (lines w) ln) as [l|] eqn:Hl; [|done].
  apply andb_prop in Hready as [Htwo Hready]. pose proof (at_index_range _ _ _ Hl) as Hln.
  destruct (line_valid _ w ln I Hln) as (l' & Hl' & (_ & _ & _ & Hok)). rewrite Hl in Hl'. injection Hl' as <-.
  destruct (Hok Htwo) as [_ Hsn]. destruct (at_index_valid (sides w) _ Hsn) as [sd Hsd]. rewrite Hsd in Hready.
  pose proof (proj1 (Forall_forall _ _) (wi_side _ _ I) sd (at_index_elem _ _ _ Hsd)) as Hr. cbn in Hr.
  destruct (at_index_valid (sectors w) _ Hr) as [s Hs]. rewrite Hs in Hready.
  unfold EV_VerticalDoor. rewrite wp_bind. apply (line_wp _ _ l); [done|]. rewrite wp_bind.
  apply (wp_mono _ _ (λ _ w', same_shape w w')).
  { destruct ((lspecial l =? 26) || _); [apply manual_lock_wp|]. destruct ((lspecial l =? 27) || _); [apply manual_lock_wp|].
    destruct ((lspecial l =? 28) || _); [apply manual_lock_wp|]. apply same_shape_refl. }
  intros pass w1 SS. pose proof (winv_shape _ _ _ SS I) as I1. destruct pass; cbn [negb]; [|by apply kept_shape].
  apply kept_wp; [by apply kept_shape|].
  destruct (fmap_at_index _ _ _ _ _ (eq_sym (ss_sides _ _ SS)) Hsd) as (sd1 & Hsd1 & Esd).
  rewrite wp_bind. apply (side_wp _ _ sd1); [done|]. rewrite Esd.
  destruct (shape_sector _ _ _ _ (same_shape_sym _ _ SS) Hs) as (s1 & Hs1 & _ & Ed). rewrite <- Ed in Hready.
  rewrite wp_bind. apply (sector_wp _ _ s1); [done|]. pose proof (shape_dims _ _ SS) as [= D1 _ D3].
  destruct (specialdata s1) as [a|] eqn:Esp; [destruct (raise_door_line (lspecial l))|]; [by eapply use_moving_door_wp|done|].
  clear Hready. eapply (spawn_wp _ _ _ s1 _ k_door); [done..|]. intros a w2 MK. rewrite wp_bind.
  assert (Hr' : 0 ≤ side_sector sd < Z.of_nat (length (sectors w1))) by lia.
  apply (wp_mono _ _ (λ _ w', making w1 a (side_sector sd) k_door false w')).
  { destruct (_ || _); [|by eapply making_any]. unfold upd_line. rewrite wp_bind.
    pose proof (mk_dims _ _ _ _ _ _ MK) as [= _ _ D4]. destruct (at_index_valid (lines w2) ln) as [l2 Hl2]; [lia|].
    apply (line_wp _ _ l2); [done|]. rewrite wp_mod. eapply making_shape; [by apply shape_line|by eapply making_any]. }
  intros [] w3 MK3. destruct (making_sectors _ _ _ _ _ _ _ MK3 Hr') as [s3 Hs3]. rewrite wp_bind.
  apply (FindLowestCeiling_wp _ _ _ _ _ _ (mk_inv _ _ _ _ _ _ MK3) Hs3). intros lowest.
  apply (making_set _ _ _ _ _ _ _ _ _ MK3); [done|done|]. intros w4 MK4. eapply made_kept, making_made; [exact MK4|done].
Qed.

Lemma P_SpawnDoorCloseIn30_wp E i s w : winv None w → at_index (sectors w) i = Some s → specialdata s = None →
  wp E (P_SpawnDoorCloseIn30 junk_door i) (λ _ w', kept w w' ∧
    ∃ a, specialdata <$> sectors w' = <[Z.to_nat i := Some a]> (specialdata <$> sectors w)) w.
Proof using Type.
  intros I Hs Hd. unfold P_SpawnDoorCloseIn30. pose proof (at_index_range _ _ _ Hs) as Hr.
  eapply (spawn_wp _ _ _ s _ k_door); [done..|]. intros a w2 MK. cbn [obj_sector vd_sector] in MK.
  rewrite bool_decide_eq_true_2 in MK by done.
  apply (making_sector_upd _ _ _ _ _ _ _ _ _ _ MK Hr); [done|]. intros w3 MK3.
  split; [eapply made_kept, making_made; [exact MK3|done]|exists a; apply MK3].
Qed.

Lemma P_SpawnDoorRaiseIn5Mins_wp E i s w : winv None w → at_index (sectors w) i = Some s → specialdata s = None →
  wp E (P_SpawnDoorRaiseIn5Mins junk_door i) (λ _ w', kept w w' ∧
    ∃ a, specialdata <$> sectors w' = <[Z.to_nat i := Some a]> (specialdata <$> sectors w)) w.
Proof using Type.
  intros I Hs Hd. unfold P_SpawnDoorRaiseIn5Mins. pose proof (at_index_range _ _ _ Hs) as Hr.
  eapply (spawn_wp _ _ _ s _ k_door); [done..|]. intros a w2 MK. rewrite wp_bind.
  apply (making_sector_upd _ _ _ _ _ _ _ _ _ _ MK Hr); [done|]. intros w3 MK3.
  destruct (making_sectors _ _ _ _ _ _ _ MK3 Hr) as [s3 Hs3]. rewrite wp_bind.
  apply (FindLowestCeiling_wp _ _ _ _ _ _ (mk_inv _ _ _ _ _ _ MK3) Hs3). intros lowest.
  apply (making_set _ _ _ _ _ _ _ _ _ MK3); [done|done|]. intros w4 MK4.
  split; [eapply made_kept, making_made; [exact MK4|done]|exists a; apply MK4].
Qed.
End doors.

(** ** Lights *)

Section lights.
Context {T : Type}.
Implicit Types (w : world T) (E : stop → Prop).

(** What the start of a light leaves: no mover has changed. *)
Record lit w0 w : Prop := {
  lt_inv : winv None w;
  lt_dims : dims w = dims w0;
  lt_free : free w = free w0;
  lt_frame : specialdata <$> sectors w = specialdata <$> sectors w0;
}.

Lemma lit_refl w : winv None w → lit w w.
Proof. by split. Qed.

Lemma lit_shape w0 w w' : same_shape w w' → lit w0 w → lit w0 w'.
Proof.
  intros SS []. split; [by eapply winv_shape|by rewrite (shape_dims _ _ SS)|by rewrite (free_shape _ _ SS)|].
  by rewrite (shape_special _ _ SS).
Qed.

Lemma lit_sectors w0 w i s0 : lit w0 w → at_index (sectors w0) i = Some s0 → ∃ s, at_index (sectors w) i = Some s.
Proof.
  intros L Hs. pose proof (lt_dims _ _ L) as [= D _ _]. pose proof (at_index_range _ _ _ Hs).
  destruct (at_index_valid (sectors w) i) as [s ?]; [lia|]. by exists s.
Qed.

Lemma lit_sector_upd E w0 w i s0 f (Q : unit → world T → Prop) :
  lit w0 w → at_index (sectors w0) i = Some s0 → (∀ s, slines (f s) = slines s ∧ specialdata (f s) = specialdata s) →
  (∀ w', lit w0 w' → Q tt w') → wp E (upd_sector i f) Q w.
Proof.
  intros L Hs Hf HQ. destruct (lit_sectors _ _ _ _ L Hs) as [s Hs']. apply (upd_sector_wp _ _ s); [done|].
  apply HQ. eapply lit_shape; [by apply shape_sectors|done].
Qed.

Lemma lit_min E w0 w i s0 m (Q : Z → world T → Prop) :
  lit w0 w → at_index (sectors w0) i = Some s0 → (∀ r, Q r w) → wp E (P_FindMinSurroundingLight i m) Q w.
Proof.
  intros L Hs HQ. destruct (lit_sectors _ _ _ _ L Hs) as [s Hs']. apply (FindMinLight_wp _ _ _ _ _ _ _ (lt_inv _ _ L) Hs'). auto.
Qed.

Lemma add_light_wp E w0 w i s0 mk (Q : Z → world T → Prop) :
  lit w0 w → at_index (sectors w0) i = Some s0 → (∀ a, kind_of (mk a) = k_light ∧ obj_sector (mk a) = i) →
  (∀ a w', lit w0 w' → Q a w') → wp E (P_AddThinker mk) Q w.
Proof.
  intros L Hs Hmk HQ. destruct (lit_sectors _ _ _ _ L Hs) as [s Hs']. pose proof L as [I D F FR].
  unfold P_AddThinker. wp_simp. apply HQ. split; [|done|done|done].
  set (a := next_addr w). destruct (Hmk a) as [Hk Ho]. destruct (added_ok w (mk a) I) as [I' _].
  assert (Hnew : ∀ t, t ∈ thinkers (added (mk a) w) → th_addr t = a → t = mkThinker a act_run (mk a)).
  { intros t Ht E'. apply (addr_unique _ _ _ (wi_nodup _ _ I') Ht); [|done]. apply added_elem. by right. }
  split; try apply I'.
  - intros t Ht Hl _. destruct (decide (th_addr t = a)) as [E'|Hne]; [|apply (wi_owner _ _ I'); [done|done|by intros [= ?]]].
    rewrite (Hnew t Ht E'). exists s. cbn. rewrite Ho. split; [done|]. by rewrite Hk.
  - intros j s' b Hj Hd' _. destruct (wi_special _ _ I j s' b Hj Hd' ltac:(done)) as (t & ? & ? & ? & ? & ?).
    exists t. split_and!; [apply added_elem; by left|done..].
  - intros t Ht Hl _ Hkp. destruct (decide (th_addr t = a)) as [E'|Hne]; [|apply (wi_listed _ _ I'); [done|done|by intros [= ?]|done]].
    rewrite (Hnew t Ht E') in Hkp. cbn in Hkp. congruence.
Qed.

Lemma SpawnFireFlicker_wp E i s w : winv None w → at_index (sectors w) i = Some s →
  wp E (P_SpawnFireFlicker i) (λ _ w', lit w w') w.
Proof.
  intros I Hs. unfold P_SpawnFireFlicker. rewrite wp_bind. apply (lit_sector_upd _ w _ _ s); [by apply lit_refl|done|done|].
  intros w1 L1. destruct (lit_sectors _ _ _ _ L1 Hs) as [s1 Hs1]. rewrite wp_bind. apply (sector_wp _ _ s1); [done|].
  rewrite wp_bind. apply (lit_min _ w _ _ s); [done|done|]. intros m. rewrite wp_bind.
  by apply (add_light_wp _ w _ i s).
Qed.

Lemma SpawnLightFlash_wp E i s w : winv None w → at_index (sectors w) i = Some s →
  wp E (P_SpawnLightFlash i) (λ _ w', lit w w') w.
Proof.
  intros I Hs. unfold P_SpawnLightFlash. rewrite wp_bind. apply (lit_sector_upd _ w _ _ s); [by apply lit_refl|done|done|].
  intros w1 L1. destruct (lit_sectors _ _ _ _ L1 Hs) as [s1 Hs1]. rewrite wp_bind. apply (sector_wp _ _ s1); [done|].
  rewrite wp_bind. apply (lit_min _ w _ _ s); [done|done|]. intros m. rewrite wp_bind. apply Random_wp. intros r w2 SS _.
  rewrite wp_bind. apply (add_light_wp _ w _ i s); [by eapply lit_shape|done|done|done].
Qed.

Lemma SpawnStrobeFlash_wp E i s sp sync w : winv None w → at_index (sectors w) i = Some s →
  wp E (P_SpawnStrobeFlash i sp sync) (λ _ w', lit w w') w.
Proof.
  intros I Hs. unfold P_SpawnStrobeFlash. pose proof (lit_refl w I) as L. rewrite wp_bind. apply (sector_wp _ _ s); [done|].
  rewrite wp_bind. apply (lit_min _ w _ _ s); [done|done|]. intros m. rewrite wp_bind.
  apply (wp_mono _ _ (λ _ w', lit w w')).
  { destruct sync; cbn [negb]; [done|]. rewrite wp_bind. apply Random_wp. intros r w2 SS _. by eapply lit_shape. }
  intros c w2 L2. rewrite wp_bind. apply (add_light_wp _ w _ i s); [done|done|done|]. intros a w3 L3.
  by apply (lit_sector_upd _ w _ _ s).
Qed.

Lemma SpawnGlowingLight_wp E i s w : winv None w → at_index (sectors w) i = Some s →
  wp E (P_SpawnGlowingLight i) (λ _ w', lit w w') w.
Proof.
  intros I Hs. unfold P_SpawnGlowingLight. pose proof (lit_refl w I) as L. rewrite wp_bind. apply (sector_wp _ _ s); [done|].
  rewrite wp_bind. apply (lit_min _ w _ _ s); [done|done|]. intros m.
  rewrite wp_bind. apply (add_light_wp _ w _ i s); [done|done|done|]. intros a w3 L3.
  by apply (lit_sector_upd _ w _ _ s).
Qed.

Lemma EV_StartLightStrobing_wp E ln w : winv None w → 0 ≤ ln < Z.of_nat (length (lines w)) →
  wp E (EV_StartLightStrobing ln) (λ _ w', kept w w') w.
Proof.
  intros I Hln. destruct (line_valid _ w ln I Hln) as (l & Hl & _). unfold EV_StartLightStrobing.
  rewrite wp_bind. apply (line_wp _ _ l); [done|]. rewrite wp_bind. eapply wp_mono; [|by intros r w' H; exact H].
  apply OverTags_wp; [done|]. intros secnum s w1 I1 _ Hs Hd _. pose proof (at_index_range _ _ _ Hs) as Hr.
  rewrite wp_bind. eapply wp_mono; [by apply (SpawnStrobeFlash_wp _ _ s)|]. intros [] w2 [I2 D2 F2 _]. rewrite wp_ret.
  split_and!; [done|done|]. intros n [= <-]. split; [lia|]. right. split; [done|lia].
Qed.

Lemma LightsOffLoop_wp E (t : Z) w0 : winv None w0 → ∀ n j w, same_shape w0 w → 0 ≤ j → j + Z.of_nat n = Z.of_nat (length (sectors w0)) →
  wp E (LightsOffLoop n t j) (λ _ w', same_shape w0 w') w.
Proof.
  intros I. induction n as [|n IH]; intros j w SS Hj Hn; cbn [LightsOffLoop]; [done|].
  pose proof (shape_dims _ _ SS) as [= D _ _]. pose proof (winv_shape _ _ _ SS I) as Iw.
  destruct (at_index_valid (sectors w) j) as [s Hs]; [lia|]. rewrite wp_bind. apply (sector_wp _ _ s); [done|].
  rewrite wp_bind. apply (wp_mono _ _ (λ _ w', same_shape w0 w')); [|intros [] w' SS'; apply IH; [done|lia|lia]].
  destruct (tag s =? t); [|done]. rewrite wp_bind. apply (FindMinLight_wp _ _ _ _ _ _ _ Iw Hs). intros m.
  apply (upd_sector_wp _ _ s); [done|]. eapply same_shape_trans; [done|by apply shape_sectors].
Qed.

Lemma EV_TurnTagLightsOff_wp E ln w : winv None w → 0 ≤ ln < Z.of_nat (length (lines w)) →
  wp E (EV_TurnTagLightsOff ln) (λ _ w', kept w w') w.
Proof.
  intros I Hln. destruct (line_valid _ w ln I Hln) as (l & Hl & _). unfold EV_TurnTagLightsOff.
  rewrite wp_bind. apply (line_wp _ _ l); [done|]. rewrite wp_bind, wp_get. eapply wp_mono.
  - apply (LightsOffLoop_wp _ _ w I); [apply same_shape_refl|lia|lia].
  - intros [] w' SS. by apply kept_shape.
Qed.

Lemma LightsOnLoop_wp E (t : Z) w0 : winv None w0 → ∀ n j b w, same_shape w0 w → 0 ≤ j → j + Z.of_nat n = Z.of_nat (length (sectors w0)) →
  wp E (LightsOnLoop n t j b) (λ _ w', same_shape w0 w') w.
Proof.
  intros I. induction n as [|n IH]; intros j b w SS Hj Hn; cbn [LightsOnLoop]; [done|].
  pose proof (shape_dims _ _ SS) as [= D _ _]. pose proof (winv_shape _ _ _ SS I) as Iw.
  destruct (at_index_valid (sectors w) j) as [s Hs]; [lia|]. rewrite wp_bind. apply (sector_wp _ _ s); [done|].
  destruct (tag s =? t); [|apply IH; [done|lia|lia]]. rewrite wp_bind. apply (wp_mono _ _ (λ _ w', w' = w)).
  { destruct (b =? 0); [|done]. by apply (search_wp _ None). }
  intros b' w' ->. rewrite wp_bind. apply (upd_sector_wp _ _ s); [done|].
  apply IH; [|lia|lia]. eapply same_shape_trans; [done|by apply shape_sectors].
Qed.

Lemma EV_LightTurnOn_wp E ln bright w : winv None w → 0 ≤ ln < Z.of_nat (length (lines w)) →
  wp E (EV_LightTurnOn ln bright) (λ _ w', kept w w') w.
Proof.
  intros I Hln. destruct (line_valid _ w ln I Hln) as (l & Hl & _). unfold EV_LightTurnOn.
  rewrite wp_bind. apply (line_wp _ _ l); [done|]. rewrite wp_bind, wp_get. eapply wp_mono.
  - apply (LightsOnLoop_wp _ _ w I); [apply same_shape_refl|lia|lia].
  - intros [] w' SS. by apply kept_shape.
Qed.
End lights.

(** ** The donut *)

Section donut.
Context {T : Type}.
Context (junk_floor : Z → floormove_t) (DonutOverrun : Z * Z).
Implicit Types (w : world T) (E : stop → Prop).

(** The sector across the first line of sector [p]. *)
Definition ring w (p : Z) (s : sector_t) : option Z :=
  match slines s with
  | [] => None
  | i :: _ => match at_index (lines w) i with Some l => getNextSector l p | None => None end
  end.

(** The pillars with the tag [t] from number [start + 1] on have lines, and each a ring of its own
    that has no mover and another tag. *)
Record donut_ready (t start : Z) w : Prop := {
  dr_lines p s : at_index (sectors w) p = Some s → tag s = t → slines s ≠ [];
  dr_ring p s r s2 : start < p → at_index (sectors w) p = Some s → tag s = t → ring w p s = Some r →
    at_index (sectors w) r = Some s2 → specialdata s2 = None ∧ tag s2 ≠ t;
  dr_own p p' s s' r : at_index (sectors w) p = Some s → at_index (sectors w) p' = Some s' → tag s = t → tag s' = t →
    ring w p s = Some r → ring w p' s' = Some r → p = p';
}.

Lemma donut_later t start n w : donut_ready t start w → start < n → donut_ready t n w.
Proof. intros [H1 H2 H3] Hn. split; [done| |done]. intros p s r s2 Hp. apply H2. lia. Qed.

(** The world with a new floor mover on sector [i]. *)
Definition claimed (o : object) (i : Z) w : world T :=
  with_sectors (alter (set_specialdata (Some (next_addr w))) (Z.to_nat i) (sectors (added o w))) (added o w).

Lemma claim_wp {B} E w i s mk (c : Z → M (world T) B) (Q : B → world T → Prop) :
  winv None w → at_index (sectors w) i = Some s → specialdata s = None →
  (∀ a, kind_of (mk a) = k_floor ∧ obj_sector (mk a) = i) →
  (made w (claimed (mk (next_addr w)) i w) → wp E (c (next_addr w)) Q (claimed (mk (next_addr w)) i w)) →
  wp E (a ← P_AddThinker mk; upd_sector i (set_specialdata (Some a));; c a) Q w.
Proof.
  intros I Hs Hd Hmk HQ. rewrite wp_bind. unfold P_AddThinker. wp_simp.
  apply (upd_sector_wp _ _ s); [done|]. apply HQ. destruct (Hmk (next_addr w)) as [Hk Ho].
  pose proof (spawned w i s (mk (next_addr w)) k_floor I Hs Hd Hk ltac:(done)) as MK.
  rewrite bool_decide_eq_true_2 in MK by done. by eapply making_made.
Qed.

Lemma claimed_sector o i w j s' : 0 ≤ i → at_index (sectors (claimed o i w)) j = Some s' →
  ∃ s, at_index (sectors w) j = Some s ∧ slines s' = slines s ∧ tag s' = tag s ∧ (j ≠ i → s' = s).
Proof.
  intros Hi. unfold claimed. cbn. rewrite at_index_alter by done. case_decide; [|by eauto].
  intros (s & -> & ->)%fmap_Some. exists s. split_and!; done || congruence.
Qed.

(** The ring and the pillar [p] of a donut get movers; the later donuts are not touched. *)
Lemma donut_claimed t start w p s r o1 o2 :
  donut_ready t start w → start < p → at_index (sectors w) p = Some s → tag s = t → ring w p s = Some r → 0 ≤ r → 0 ≤ p →
  donut_ready t p (claimed o2 p (claimed o1 r w)).
Proof.
  intros [H1 H2 H3] Hst Hs Ht Hring Hr Hp.
  assert (Hback : ∀ j s', at_index (sectors (claimed o2 p (claimed o1 r w))) j = Some s' →
    ∃ s0, at_index (sectors w) j = Some s0 ∧ slines s' = slines s0 ∧ tag s' = tag s0 ∧ (j ≠ r → j ≠ p → s' = s0)).
  { intros j s' (s1 & Hs1 & E1 & E2 & E3)%claimed_sector; [|done].
    apply claimed_sector in Hs1 as (s0 & Hs0 & F1 & F2 & F3); [|done]. exists s0. split_and!; [done|congruence|congruence|].
    intros Hjr Hjp. by rewrite E3, F3. }
  assert (Hsame : ∀ w' q s' s0, lines w' = lines w → slines s' = slines s0 → ring w' q s' = ring w q s0).
  { intros w' q s' s0 El Es. unfold ring. by rewrite El, Es. }
  split.
  - intros q s' (s0 & Hs0 & -> & -> & _)%Hback. by apply H1 with q.
  - intros q s' r' s2 Hq (s0 & Hs0 & Es & Et & _)%Hback Htq Hrq Hs2. rewrite (Hsame _ _ _ s0) in Hrq by done. rewrite Et in Htq.
    destruct (Hback _ _ Hs2) as (s20 & Hs20 & _ & Et2 & Eq2).
    destruct (H2 q s0 r' s20 ltac:(lia) Hs0 Htq Hrq Hs20) as [Hn2 Ht2]. split; [|congruence].
    rewrite Eq2; [done| |]; intros ->.
    + pose proof (H3 q p s0 s r Hs0 Hs Htq Ht Hrq Hring). lia.
    + rewrite Hs in Hs20. congruence.
  - intros q q' s' s'' r' (s0 & Hs0 & Es & Et & _)%Hback (s1 & Hs1 & Es1 & Et1 & _)%Hback Hq Hq' Hrq Hrq'.
    rewrite (Hsame _ _ _ s0) in Hrq by done. rewrite (Hsame _ _ _ s1) in Hrq' by done.
    apply (H3 q q' s0 s1 r'); congruence.
Qed.

Lemma DonutScan_wp E w ls s1 : winv None w → (∀ i, i ∈ ls → 0 ≤ i < Z.of_nat (length (lines w))) →
  wp E (DonutScan ls s1) (λ r w', w' = w ∧ ∀ n, r = Some (Some n) → 0 ≤ n < Z.of_nat (length (sectors w))) w.
Proof.
  intros I. induction ls as [|i ls IH]; intros Hls; cbn [DonutScan]; [done|].
  destruct (line_valid None w i I) as (l & Hl & _ & Hb & _); [apply Hls; left|].
  rewrite wp_bind. apply (line_wp _ _ l); [done|]. case_bool_decide; [apply IH; intros; apply Hls; by right|].
  rewrite wp_ret. split; [done|]. intros n [= E']. by apply Hb.
Qed.

Lemma EV_DoDonut_wp E ln l w : winv None w → at_index (lines w) ln = Some l → donut_ready (ltag l) (-1) w →
  wp E (EV_DoDonut junk_floor DonutOverrun ln) (λ _ w', kept w w') w.
Proof.
  intros I Hl HR. unfold EV_DoDonut. rewrite wp_bind. apply (line_wp _ _ l); [done|].
  apply (OverTags_inv _ _ _ _ (donut_ready (ltag l))); [done|done|intros *; apply donut_later|].
  clear HR I. intros start p s w1 HR Hst I _ Hs Hd Ht. pose proof (at_index_range _ _ _ Hs) as Hp.
  rewrite wp_bind. apply (sector_wp _ _ s); [done|]. pose proof (dr_lines _ _ _ HR p s Hs Ht) as Hne.
  destruct (slines s) as [|i0 ls] eqn:Els; [done|].
  destruct (line_valid None w1 i0 I) as (l0 & Hl0 & Hok); [eapply sector_lines; [done|exact Hs|rewrite Els; left]|].
  rewrite wp_bind. apply (line_wp _ _ l0); [done|]. destruct (getNextSector l0 p) as [r|] eqn:Er; [|done].
  assert (Hring : ring w1 p s = Some r) by (unfold ring; by rewrite Els, Hl0).
  pose proof (next_valid _ _ _ _ _ Hok Er) as Hr. destruct (at_index_valid (sectors w1) r Hr) as [s2 Hs2].
  destruct (dr_ring _ _ _ HR p s r s2 Hst Hs Ht Hring Hs2) as [Hd2 Ht2].
  rewrite wp_bind. apply (sector_wp _ _ s2); [done|]. rewrite wp_bind.
  eapply wp_mono; [apply DonutScan_wp; [done|by eapply sector_lines]|]. intros found w' [-> Hf].
  destruct found as [s3|].
  2:{ rewrite wp_ret. split; [split_and!; [done|done|]|]; intros n [= <-]; [split; [lia|right; split; [done|lia]]|].
      by eapply donut_later. }
  rewrite wp_bind. apply (wp_mono _ _ (λ _ w', w' = w1)).
  { destruct s3 as [n|]; [|done]. destruct (at_index_valid (sectors w1) n (Hf n eq_refl)) as [s3 Hs3].
    rewrite wp_bind. by apply (sector_wp _ _ s3). }
  intros hp w' ->. apply (claim_wp _ _ _ s2); [done|done|done|done|]. intros MD1. set (o1 := OFloor _) in *.
  assert (Hs' : at_index (sectors (claimed o1 r w1)) p = Some s).
  { unfold claimed. cbn. rewrite at_index_alter by lia. rewrite decide_False; [done|]. intros ->. rewrite Hs in Hs2. congruence. }
  apply (claim_wp _ _ _ s); [apply MD1|done|done|done|]. intros MD2. rewrite wp_ret. split.
  - apply made_round; [|lia]. by eapply made_trans.
  - intros n [= <-]. apply (donut_claimed _ start _ _ s); [done|lia|done|done|done|lia|lia].
Qed.
End donut.
