(* ===== verification/Triggers.v ===== *)
(** * Special lines and sectors of DOOM

    Models p_switch.c and the dispatch of p_spec.c: what a thing starts that crosses, shoots or uses
    a special line, the wall switches and their buttons, the set-up of the special sectors of a
    level and the counters of [P_UpdateSpecials].  The movers they start are those of Movers.v.
    [EV_Teleport], which moves things, is the parameter [teleport]; the lookup of a texture is the
    parameter of [P_InitSwitchList]; sounds and the animation of textures are left out. *)
From S2P Require Import Prelude.
From S2P Require Import Movers.

Definition FASTDARK : Z := 15.
Definition MAXSWITCHES : nat := 50.
Definition BUTTONTIME : Z := 35.
Definition MAXLINEANIMS : nat := 64.

(** ** The list of switches *)

Record switchlist_t : Type := mkSwitch { name1 : string; name2 : string; episode : Z }.

Definition alphSwitchList : list switchlist_t :=
  [mkSwitch "SW1BRCOM" "SW2BRCOM" 1; mkSwitch "SW1BRN1" "SW2BRN1" 1; mkSwitch "SW1BRN2" "SW2BRN2" 1;
   mkSwitch "SW1BRNGN" "SW2BRNGN" 1; mkSwitch "SW1BROWN" "SW2BROWN" 1; mkSwitch "SW1COMM" "SW2COMM" 1;
   mkSwitch "SW1COMP" "SW2COMP" 1; mkSwitch "SW1DIRT" "SW2DIRT" 1; mkSwitch "SW1EXIT" "SW2EXIT" 1;
   mkSwitch "SW1GRAY" "SW2GRAY" 1; mkSwitch "SW1GRAY1" "SW2GRAY1" 1; mkSwitch "SW1METAL" "SW2METAL" 1;
   mkSwitch "SW1PIPE" "SW2PIPE" 1; mkSwitch "SW1SLAD" "SW2SLAD" 1; mkSwitch "SW1STARG" "SW2STARG" 1;
   mkSwitch "SW1STON1" "SW2STON1" 1; mkSwitch "SW1STON2" "SW2STON2" 1; mkSwitch "SW1STONE" "SW2STONE" 1;
   mkSwitch "SW1STRTN" "SW2STRTN" 1;
   mkSwitch "SW1BLUE" "SW2BLUE" 2; mkSwitch "SW1CMT" "SW2CMT" 2; mkSwitch "SW1GARG" "SW2GARG" 2;
   mkSwitch "SW1GSTON" "SW2GSTON" 2; mkSwitch "SW1HOT" "SW2HOT" 2; mkSwitch "SW1LION" "SW2LION" 2;
   mkSwitch "SW1SATYR" "SW2SATYR" 2; mkSwitch "SW1SKIN" "SW2SKIN" 2; mkSwitch "SW1VINE" "SW2VINE" 2;
   mkSwitch "SW1WOOD" "SW2WOOD" 2;
   mkSwitch "SW1PANEL" "SW2PANEL" 3; mkSwitch "SW1ROCK" "SW2ROCK" 3; mkSwitch "SW1MET2" "SW2MET2" 3;
   mkSwitch "SW1WDMET" "SW2WDMET" 3; mkSwitch "SW1BRIK" "SW2BRIK" 3; mkSwitch "SW1MOD1" "SW2MOD1" 3;
   mkSwitch "SW1ZIM" "SW2ZIM" 3; mkSwitch "SW1STON6" "SW2STON6" 3; mkSwitch "SW1TEK" "SW2TEK" 3;
   mkSwitch "SW1MARB" "SW2MARB" 3; mkSwitch "SW1SKULL" "SW2SKULL" 3;
   mkSwitch "" "" 0].

(** The episodes whose switches a game mode has. *)
Inductive GameMode_t : Type := shareware | registered | commercial | retail | indetermined.

Definition switch_episode (gamemode : GameMode_t) : Z :=
  match gamemode with registered | retail => 2 | commercial => 3 | _ => 1 end.

(** The entries of [switchlist] below [2 * numswitches]; [n] more rounds are made. *)
Fixpoint InitSwitchLoop (R_TextureNumForName : string → Z) (ep : Z) (n : nat) (l : list switchlist_t) : list Z :=
  match n, l with
  | S n, sw :: l =>
      if episode sw =? 0 then []
      else if episode sw <=? ep then
        R_TextureNumForName (name1 sw) :: R_TextureNumForName (name2 sw) :: InitSwitchLoop R_TextureNumForName ep n l
      else InitSwitchLoop R_TextureNumForName ep n l
  | _, _ => []
  end.

Definition P_InitSwitchList (R_TextureNumForName : string → Z) (gamemode : GameMode_t) : list Z :=
  InitSwitchLoop R_TextureNumForName (switch_episode gamemode) MAXSWITCHES alphSwitchList.

(** The thing that acts: a player or a monster, and the kinds of missile that do not trigger
    lines. *)
Inductive mobjtype_t : Type :=
| MT_ROCKET | MT_PLASMA | MT_BFG | MT_TROOPSHOT | MT_HEADSHOT | MT_BRUISERSHOT | MT_OTHER.

Record actor_t : Type := mkActor { ac_player : option player_t; ac_type : mobjtype_t }.

Definition is_player (thing : actor_t) : bool := match ac_player thing with Some _ => true | None => false end.

(** The functions that a special line can call. *)
Inductive call : Type :=
| c_door (type : vldoor_e)
| c_locked (type : vldoor_e)
| c_floor (type : floor_e)
| c_stairs (type : stair_e)
| c_plat (type : plattype_e) (amount : Z)
| c_stop_plat
| c_ceiling (type : ceiling_e)
| c_crush_stop
| c_light (bright : Z)
| c_strobe
| c_lights_off
| c_donut
| c_teleport
| c_exit
| c_secret_exit.

#[export] Instance stair_e_eq : EqDecision stair_e.
Proof. solve_decision. Defined.
#[export] Instance call_eq : EqDecision call.
Proof. solve_decision. Defined.

Section triggers.
Context {T : Type}.
Context (change : list sector_t → Z → bool → Z → T → bool * (Z * T)).
Context (junk_door : Z → vldoor_t) (junk_plat : Z → plat_t) (junk_floor : Z → floormove_t)
  (junk_ceiling : Z → ceiling_t).
Context (pun_direction : object → Z) (pun_set_direction : Z → object → object).
Context (textureheight : Z → Z) (DonutOverrun : Z * Z).
(** [EV_Teleport] of p_telept.c on the line, its side and the thing. *)
Context (teleport : world T → line_t → Z → actor_t → Z * (Z * T)).
(** The texture numbers of the switches, and whether the secret levels are there. *)
Context (switchlist : list Z) (secret_levels : bool).

Abbreviation WM := (M (world T)).

(** ** Buttons *)

Definition upd_side (i : Z) (f : side_t → side_t) : WM unit :=
  side i;;
  modS (λ w, with_sides (alter f (Z.to_nat i) (sides w)) w).

Definition set_texture (wh : bwhere_e) (v : Z) (s : side_t) : side_t :=
  match wh with
  | top => mkSide (textureoffset s) (i16 v) (bottomtexture s) (midtexture s) (side_sector s)
  | middle => mkSide (textureoffset s) (toptexture s) (bottomtexture s) (i16 v) (side_sector s)
  | bottom => mkSide (textureoffset s) (toptexture s) (i16 v) (midtexture s) (side_sector s)
  end.

Definition no_button : button_t := mkButton None top 0 0.

Definition pressed (ln : Z) (b : button_t) : bool := negb (b_timer b =? 0) && bool_decide (b_line b = Some ln).

(** The first button that is not counting. *)
Fixpoint FreeButton (b : button_t) (l : list button_t) : option (list button_t) :=
  match l with
  | [] => None
  | b0 :: l => if b_timer b0 =? 0 then Some (b :: l) else cons b0 <$> FreeButton b l
  end.

Definition P_StartButton (ln : Z) (wh : bwhere_e) (texture time : Z) : WM unit :=
  w ← getS;
  if existsb (pressed ln) (buttonlist w) then mret tt
  else
    match FreeButton (mkButton (Some ln) wh texture time) (buttonlist w) with
    | Some l => putS (with_buttons l w)
    | None => stopM (Panic "P_StartButton: no button slots left!")
    end.

Definition switched (i : Z) : WM Z :=
  match at_index switchlist (Z.lxor i 1) with Some v => mret v | None => stopM BadAccess end.

(** The switches from number [i] on. *)
Fixpoint SwitchLoop (ln sd texTop texMid texBot : Z) (useAgain : bool) (i : Z) (l : list Z) : WM unit :=
  match l with
  | [] => mret tt
  | x :: l =>
      let hit (wh : bwhere_e) :=
        v ← switched i;
        upd_side sd (set_texture wh v);;
        if useAgain then P_StartButton ln wh x BUTTONTIME else mret tt in
      if x =? texTop then hit top
      else if x =? texMid then hit middle
      else if x =? texBot then hit bottom
      else SwitchLoop ln sd texTop texMid texBot useAgain (i + 1) l
  end.

Definition P_ChangeSwitchTexture (ln : Z) (useAgain : bool) : WM unit :=
  (if negb useAgain then upd_line ln (set_lspecial 0) else mret tt);;
  l ← line ln;
  s ← side (sidenum l).1;
  SwitchLoop ln (sidenum l).1 (toptexture s) (midtexture s) (bottomtexture s) useAgain 0 switchlist.

(** ** The actions of a special line *)

Definition void (m : WM unit) : WM Z := m;; mret 0.

Definition EV_Teleport (ln sd : Z) (thing : actor_t) : WM Z :=
  l ← line ln;
  w ← getS;
  let r := teleport w l sd thing in
  putS (with_things r.2.1 r.2.2 w);;
  mret r.1.

Definition run_call (ln sd : Z) (thing : actor_t) (c : call) : WM Z :=
  match c with
  | c_door type => EV_DoDoor junk_door ln type
  | c_locked type => EV_DoLockedDoor junk_door ln type (ac_player thing)
  | c_floor type => EV_DoFloor junk_floor textureheight ln type
  | c_stairs type => EV_BuildStairs junk_floor ln type
  | c_plat type amount => EV_DoPlat junk_plat ln type amount
  | c_stop_plat => void (EV_StopPlat ln)
  | c_ceiling type => EV_DoCeiling junk_ceiling ln type
  | c_crush_stop => EV_CeilingCrushStop ln
  | c_light bright => void (EV_LightTurnOn ln bright)
  | c_strobe => void (EV_StartLightStrobing ln)
  | c_lights_off => void (EV_TurnTagLightsOff ln)
  | c_donut => EV_DoDonut junk_floor DonutOverrun ln
  | c_teleport => EV_Teleport ln sd thing
  | c_exit => void (modS (with_exiting (Some false)))
  | c_secret_exit => void (modS (with_exiting (Some secret_levels)))
  end.

Fixpoint run_calls (ln sd : Z) (thing : actor_t) (cs : list call) : WM unit :=
  match cs with
  | [] => mret tt
  | c :: cs => run_call ln sd thing c;; run_calls ln sd thing cs
  end.
End triggers.

(** ** Crossing a line *)

(** What the switch over the special number calls, and whether it clears the number. *)
Definition cross_switch (player : bool) (sp : Z) : list call * bool :=
  match sp with
  | 2 => ([c_door vld_open], true)
  | 3 => ([c_door vld_close], true)
  | 4 => ([c_door vld_normal], true)
  | 5 => ([c_floor raiseFloor], true)
  | 6 => ([c_ceiling fastCrushAndRaise], true)
  | 8 => ([c_stairs build8], true)
  | 10 => ([c_plat downWaitUpStay 0], true)
  | 12 => ([c_light 0], true)
  | 13 => ([c_light 255], true)
  | 16 => ([c_door vld_close30ThenOpen], true)
  | 17 => ([c_strobe], true)
  | 19 => ([c_floor lowerFloor], true)
  | 22 => ([c_plat raiseToNearestAndChange 0], true)
  | 25 => ([c_ceiling crushAndRaise], true)
  | 30 => ([c_floor raiseToTexture], true)
  | 35 => ([c_light 35], true)
  | 36 => ([c_floor turboLower], true)
  | 37 => ([c_floor lowerAndChange], true)
  | 38 => ([c_floor lowerFloorToLowest], true)
  | 39 => ([c_teleport], true)
  | 40 => ([c_ceiling raiseToHighest; c_floor lowerFloorToLowest], true)
  | 44 => ([c_ceiling lowerAndCrush], true)
  | 52 => ([c_exit], false)
  | 53 => ([c_plat perpetualRaise 0], true)
  | 54 => ([c_stop_plat], true)
  | 56 => ([c_floor raiseFloorCrush], true)
  | 57 => ([c_crush_stop], true)
  | 58 => ([c_floor raiseFloor24], true)
  | 59 => ([c_floor raiseFloor24AndChange], true)
  | 104 => ([c_lights_off], true)
  | 108 => ([c_door vld_blazeRaise], true)
  | 109 => ([c_door vld_blazeOpen], true)
  | 100 => ([c_stairs turbo16], true)
  | 110 => ([c_door vld_blazeClose], true)
  | 119 => ([c_floor raiseFloorToNearest], true)
  | 121 => ([c_plat blazeDWUS 0], true)
  | 124 => ([c_secret_exit], false)
  | 125 => if player then ([], false) else ([c_teleport], true)
  | 130 => ([c_floor raiseFloorTurbo], true)
  | 141 => ([c_ceiling silentCrushAndRaise], true)
  | 72 => ([c_ceiling lowerAndCrush], false)
  | 73 => ([c_ceiling crushAndRaise], false)
  | 74 => ([c_crush_stop], false)
  | 75 => ([c_door vld_close], false)
  | 76 => ([c_door vld_close30ThenOpen], false)
  | 77 => ([c_ceiling fastCrushAndRaise], false)
  | 79 => ([c_light 35], false)
  | 80 => ([c_light 0], false)
  | 81 => ([c_light 255], false)
  | 82 => ([c_floor lowerFloorToLowest], false)
  | 83 => ([c_floor lowerFloor], false)
  | 84 => ([c_floor lowerAndChange], false)
  | 86 => ([c_door vld_open], false)
  | 87 => ([c_plat perpetualRaise 0], false)
  | 88 => ([c_plat downWaitUpStay 0], false)
  | 89 => ([c_stop_plat], false)
  | 90 => ([c_door vld_normal], false)
  | 91 => ([c_floor raiseFloor], false)
  | 92 => ([c_floor raiseFloor24], false)
  | 93 => ([c_floor raiseFloor24AndChange], false)
  | 94 => ([c_floor raiseFloorCrush], false)
  | 95 => ([c_plat raiseToNearestAndChange 0], false)
  | 96 => ([c_floor raiseToTexture], false)
  | 97 => ([c_teleport], false)
  | 98 => ([c_floor turboLower], false)
  | 105 => ([c_door vld_blazeRaise], false)
  | 106 => ([c_door vld_blazeOpen], false)
  | 107 => ([c_door vld_blazeClose], false)
  | 120 => ([c_plat blazeDWUS 0], false)
  | 126 => if player then ([], false) else ([c_teleport], false)
  | 128 => ([c_floor raiseFloorToNearest], false)
  | 129 => ([c_floor raiseFloorTurbo], false)
  | _ => ([], false)
  end.

(** Missiles trigger nothing, monsters only a few specials. *)
Definition may_cross (thing : actor_t) (sp : Z) : bool :=
  is_player thing ||
  (match ac_type thing with MT_OTHER => true | _ => false end &&
   ((sp =? 39) || (sp =? 97) || (sp =? 125) || (sp =? 126) || (sp =? 4) || (sp =? 10) || (sp =? 88))).

(** ** Using a line *)

Inductive use_act : Type :=
| u_none
| u_vertical
| u_if (c : call) (useAgain : bool)        (* the texture changes if the call has started something *)
| u_always (c : call) (useAgain : bool)
| u_exit (c : call).                       (* the texture changes first *)

Definition use_switch (sp : Z) : use_act :=
  match sp with
  | 1 | 26 | 27 | 28 | 31 | 32 | 33 | 34 | 117 | 118 => u_vertical
  | 7 => u_if (c_stairs build8) false
  | 9 => u_if c_donut false
  | 11 => u_exit c_exit
  | 14 => u_if (c_plat raiseAndChange 32) false
  | 15 => u_if (c_plat raiseAndChange 24) false
  | 18 => u_if (c_floor raiseFloorToNearest) false
  | 20 => u_if (c_plat raiseToNearestAndChange 0) false
  | 21 => u_if (c_plat downWaitUpStay 0) false
  | 23 => u_if (c_floor lowerFloorToLowest) false
  | 29 => u_if (c_door vld_normal) false
  | 41 => u_if (c_ceiling lowerToFloor) false
  | 71 => u_if (c_floor turboLower) false
  | 49 => u_if (c_ceiling crushAndRaise) false
  | 50 => u_if (c_door vld_close) false
  | 51 => u_exit c_secret_exit
  | 55 => u_if (c_floor raiseFloorCrush) false
  | 101 => u_if (c_floor raiseFloor) false
  | 102 => u_if (c_floor lowerFloor) false
  | 103 => u_if (c_door vld_open) false
  | 111 => u_if (c_door vld_blazeRaise) false
  | 112 => u_if (c_door vld_blazeOpen) false
  | 113 => u_if (c_door vld_blazeClose) false
  | 122 => u_if (c_plat blazeDWUS 0) false
  | 127 => u_if (c_stairs turbo16) false
  | 131 => u_if (c_floor raiseFloorTurbo) false
  | 133 | 135 | 137 => u_if (c_locked vld_blazeOpen) false
  | 140 => u_if (c_floor raiseFloor512) false
  | 42 => u_if (c_door vld_close) true
  | 43 => u_if (c_ceiling lowerToFloor) true
  | 45 => u_if (c_floor lowerFloor) true
  | 60 => u_if (c_floor lowerFloorToLowest) true
  | 61 => u_if (c_door vld_open) true
  | 62 => u_if (c_plat downWaitUpStay 1) true
  | 63 => u_if (c_door vld_normal) true
  | 64 => u_if (c_floor raiseFloor) true
  | 66 => u_if (c_plat raiseAndChange 24) true
  | 67 => u_if (c_plat raiseAndChange 32) true
  | 65 => u_if (c_floor raiseFloorCrush) true
  | 68 => u_if (c_plat raiseToNearestAndChange 0) true
  | 69 => u_if (c_floor raiseFloorToNearest) true
  | 70 => u_if (c_floor turboLower) true
  | 114 => u_if (c_door vld_blazeRaise) true
  | 115 => u_if (c_door vld_blazeOpen) true
  | 116 => u_if (c_door vld_blazeClose) true
  | 123 => u_if (c_plat blazeDWUS 0) true
  | 132 => u_if (c_floor raiseFloorTurbo) true
  | 99 | 134 | 136 => u_if (c_locked vld_blazeOpen) true
  | 138 => u_always (c_light 255) true
  | 139 => u_always (c_light 35) true
  | _ => u_none
  end.

(** Only the front of a line can be used; a monster uses doors that are not secret. *)
Definition may_use (l : line_t) (thing : actor_t) (sd : Z) : bool :=
  ((sd =? 0) || (lspecial l =? 124)) &&
  (is_player thing ||
   (negb (secret l) &&
    ((lspecial l =? 1) || (lspecial l =? 32) || (lspecial l =? 33) || (lspecial l =? 34)))).

Section dispatch.
Context {T : Type}.
Context (change : list sector_t → Z → bool → Z → T → bool * (Z * T)).
Context (junk_door : Z → vldoor_t) (junk_plat : Z → plat_t) (junk_floor : Z → floormove_t)
  (junk_ceiling : Z → ceiling_t).
Context (pun_direction : object → Z) (pun_set_direction : Z → object → object).
Context (textureheight : Z → Z) (DonutOverrun : Z * Z).
Context (teleport : world T → line_t → Z → actor_t → Z * (Z * T)).
Context (switchlist : list Z) (secret_levels : bool).

Abbreviation WM := (M (world T)).
#[local] Abbreviation run_call :=
  (run_call junk_door junk_plat junk_floor junk_ceiling textureheight DonutOverrun teleport secret_levels).
#[local] Abbreviation run_calls :=
  (run_calls junk_door junk_plat junk_floor junk_ceiling textureheight DonutOverrun teleport secret_levels).
#[local] Abbreviation P_ChangeSwitchTexture := (P_ChangeSwitchTexture switchlist).

Definition P_CrossSpecialLine (linenum sd : Z) (thing : actor_t) : WM unit :=
  l ← line linenum;
  if negb (may_cross thing (lspecial l)) then mret tt
  else
    let act := cross_switch (is_player thing) (lspecial l) in
    run_calls linenum sd thing act.1;;
    if (act.2 : bool) then upd_line linenum (set_lspecial 0) else mret tt.

Definition P_ShootSpecialLine (thing : actor_t) (ln : Z) : WM unit :=
  l ← line ln;
  if negb (is_player thing) && negb (lspecial l =? 46) then mret tt
  else if lspecial l =? 24 then
    run_call ln 0 thing (c_floor raiseFloor);; P_ChangeSwitchTexture ln false
  else if lspecial l =? 46 then
    run_call ln 0 thing (c_door vld_open);; P_ChangeSwitchTexture ln true
  else if lspecial l =? 47 then
    run_call ln 0 thing (c_plat raiseToNearestAndChange 0);; P_ChangeSwitchTexture ln false
  else mret tt.

Definition P_UseSpecialLine (thing : actor_t) (ln sd : Z) : WM bool :=
  l ← line ln;
  if negb (may_use l thing sd) then mret false
  else
    (match use_switch (lspecial l) with
     | u_none => mret tt
     | u_vertical => EV_VerticalDoor junk_door pun_direction pun_set_direction ln (ac_player thing)
     | u_if c useAgain =>
         r ← run_call ln sd thing c;
         if negb (r =? 0) then P_ChangeSwitchTexture ln useAgain else mret tt
     | u_always c useAgain => run_call ln sd thing c;; P_ChangeSwitchTexture ln useAgain
     | u_exit c => P_ChangeSwitchTexture ln false;; run_call ln sd thing c;; mret tt
     end);;
    mret true.

(** ** The start of a level *)

Definition count_secret (w : world T) : world T :=
  let s := specials w in
  with_specials (mkSpecials (i32 (totalsecret s + 1)) (levelTimer s) (levelTimeCount s) (linespeciallist s)) w.

Definition spawn_special (i : Z) (sp : Z) : WM unit :=
  match sp with
  | 1 => P_SpawnLightFlash i
  | 2 => P_SpawnStrobeFlash i FASTDARK false
  | 3 => P_SpawnStrobeFlash i SLOWDARK false
  | 4 => P_SpawnStrobeFlash i FASTDARK false;; upd_sector i (set_special 4)
  | 8 => P_SpawnGlowingLight i
  | 9 => modS count_secret
  | 10 => P_SpawnDoorCloseIn30 junk_door i
  | 12 => P_SpawnStrobeFlash i SLOWDARK true
  | 13 => P_SpawnStrobeFlash i FASTDARK true
  | 14 => P_SpawnDoorRaiseIn5Mins junk_door i
  | 17 => P_SpawnFireFlicker i
  | _ => mret tt
  end.

(** The sectors from number [i] on; [n] of them are left. *)
Fixpoint SpawnSectorLoop (n : nat) (i : Z) : WM unit :=
  match n with
  | O => mret tt
  | S n =>
      s ← sector i;
      spawn_special i (special s);;
      SpawnSectorLoop n (i + 1)
  end.

(** The lines from number [i] on; [found] are the scrolling walls so far. *)
Fixpoint ScrollLines (i : Z) (ls : list line_t) (found : list Z) : WM (list Z) :=
  match ls with
  | [] => mret found
  | l :: ls =>
      if lspecial l =? 48 then
        assertM (length found <? MAXLINEANIMS)%nat "Too many scrolling wall linedefs! (Vanilla limit is 64)";;
        ScrollLines (i + 1) ls (found ++ [i])
      else ScrollLines (i + 1) ls found
  end.

Definition P_SpawnSpecials (timelimit : Z) (deathmatch : bool) : WM unit :=
  modS (λ w, let s := specials w in
    with_specials (if (0 <? timelimit) && deathmatch
      then mkSpecials (totalsecret s) true (i32 (timelimit * 60 * TICRATE)) (linespeciallist s)
      else mkSpecials (totalsecret s) false (levelTimeCount s) (linespeciallist s)) w);;
  w ← getS;
  SpawnSectorLoop (length (sectors w)) 0;;
  w ← getS;
  found ← ScrollLines 0 (lines w) [];
  modS (λ w, let s := specials w in
    with_specials (mkSpecials (totalsecret s) (levelTimer s) (levelTimeCount s) found) w);;
  modS (λ w, with_ceilings (replicate MAXCEILINGS None) (with_plats (replicate MAXPLATS None)
    (with_buttons (replicate MAXBUTTONS no_button) w))).

(** ** Every tic *)

Definition UpdateTimer : WM unit :=
  w ← getS;
  let s := specials w in
  if levelTimer s then
    let count := i32 (levelTimeCount s - 1) in
    putS (with_specials (mkSpecials (totalsecret s) (levelTimer s) count (linespeciallist s)) w);;
    if count =? 0 then modS (with_exiting (Some false)) else mret tt
  else mret tt.

Definition scroll_side (s : side_t) : side_t :=
  mkSide (i32 (textureoffset s + FRACUNIT)) (toptexture s) (bottomtexture s) (midtexture s) (side_sector s).

Fixpoint ScrollLoop (ls : list Z) : WM unit :=
  match ls with
  | [] => mret tt
  | i :: ls =>
      l ← line i;
      (if lspecial l =? 48 then upd_side (sidenum l).1 scroll_side else mret tt);;
      ScrollLoop ls
  end.

(** One round of the loop over the buttons. *)
Definition UpdateButton (i : nat) : WM unit :=
  w ← getS;
  match buttonlist w !! i with
  | None => stopM BadAccess
  | Some b =>
      if b_timer b =? 0 then mret tt
      else
        let timer := i32 (b_timer b - 1) in
        putS (with_buttons (<[i := mkButton (b_line b) (b_where b) (b_texture b) timer]> (buttonlist w)) w);;
        if timer =? 0 then
          match b_line b with
          | None => stopM BadAccess
          | Some ln =>
              l ← line ln;
              upd_side (sidenum l).1 (set_texture (b_where b) (b_texture b));;
              modS (λ w, with_buttons (<[i := no_button]> (buttonlist w)) w)
          end
        else mret tt
  end.

(** The buttons from number [i] on; [n] of them are left. *)
Fixpoint ButtonLoop (n i : nat) : WM unit :=
  match n with
  | O => mret tt
  | S n => UpdateButton i;; ButtonLoop n (S i)
  end.

(** The timer, the scrolling walls and the buttons; the animation of flats and textures between the
    first two only changes which pictures are drawn and is left out. *)
Definition P_UpdateSpecials : WM unit :=
  UpdateTimer;;
  w ← getS;
  ScrollLoop (linespeciallist (specials w));;
  ButtonLoop MAXBUTTONS 0.

(** The movers and the specials of one tic. *)
Definition SpecialsTic : WM unit := P_RunMovers change;; P_UpdateSpecials.
End dispatch.
