(* ===== verification/TriggersSafe.v ===== *)
(** * Special lines and sectors: every trigger ends and keeps the movers apart

    The triggers of Triggers.v keep the invariant of MoversSafe.v; with the rules of MoversEvents.v
    this shows that in a level that is played no sector ever has two movers. *)
From S2P Require Import Prelude.
From S2P Require Import Movers.
From S2P Require Import MoversSafe.
From S2P Require Import MoversEvents.
From S2P Require Import Triggers.

(** ** Switches *)

Lemma InitSwitchLoop_even f ep n l : Nat.Even (length (InitSwitchLoop f ep n l)).
Proof.
  revert l. induction n as [|n IH]; intros [|sw l]; cbn [InitSwitchLoop]; try (by exists 0%nat).
  destruct (episode sw =? 0); [by exists 0%nat|]. destruct (_ <=? _); [|done]. destruct (IH l) as [m Hm].
  exists (S m). cbn. lia.
Qed.

Lemma lxor_flip i : 0 ≤ i → Z.lxor i 1 = if Z.even i then i + 1 else i - 1.
Proof.
  intros Hi. destruct i as [|p|p]; [done| |lia]. destruct p as [p|p|]; cbn; [done|done|done].
Qed.

Lemma lxor_range i n : Nat.Even n → 0 ≤ i < Z.of_nat n → 0 ≤ Z.lxor i 1 < Z.of_nat n.
Proof.
  intros [m ->] Hi. rewrite lxor_flip by lia. destruct (Z.even i) eqn:E.
  - apply Z.even_spec in E as [k ->]. lia.
  - rewrite <- Z.negb_odd in E. apply negb_false_iff, Z.odd_spec in E as [k ->]. lia.
Qed.

Section switches.
Context {T : Type} (switchlist : list Z).
Hypothesis switches_even : Nat.Even (length switchlist).
Implicit Types (w : world T) (E : stop → Prop).

Definition full_buttons : stop := Panic "P_StartButton: no button slots left!".

Lemma shape_side f i w : (∀ s, side_sector (f s) = side_sector s) → same_shape w (with_sides (alter f i (sides w)) w).
Proof using Type. intros Hf. split; try done. cbn. by apply fmap_alter_same. Qed.

Lemma upd_side_wp E i f w (Q : unit → world T → Prop) :
  0 ≤ i < Z.of_nat (length (sides w)) → (∀ s, side_sector (f s) = side_sector s) →
  (∀ w', same_shape w w' → Q tt w') → wp E (upd_side i f) Q w.
Proof using Type.
  intros Hi Hf HQ. destruct (at_index_valid (sides w) i Hi) as [s Hs]. unfold upd_side. rewrite wp_bind.
  apply (side_wp _ _ s); [done|]. rewrite wp_mod. by apply HQ, shape_side.
Qed.

Lemma set_texture_sector wh v s : side_sector (set_texture wh v s) = side_sector s.
Proof using Type. by destruct wh. Qed.

(** Other buttons. *)
Lemma buttons_ok w l : winv None w → length l = MAXBUTTONS →
  (∀ b, b ∈ l → b_timer b ≠ 0 → ∃ ln, b_line b = Some ln ∧ 0 ≤ ln < Z.of_nat (length (lines w))) →
  kept w (with_buttons l w).
Proof using Type. intros I Hn Hl. split; [|done]. by split; try apply I. Qed.

Lemma FreeButton_elem b l l' b' : FreeButton b l = Some l' → b' ∈ l' → b' = b ∨ b' ∈ l.
Proof using Type.
  revert l'. induction l as [|b0 l IH]; intros l'; cbn [FreeButton]; [done|]. destruct (b_timer b0 =? 0).
  - intros [= <-] [?|?]%elem_of_cons; [by left|]. right. by right.
  - intros (l1 & Hl & ->)%fmap_Some [->|Hb]%elem_of_cons; [right; left|].
    destruct (IH l1 Hl Hb); [by left|]. right. by right.
Qed.

Lemma FreeButton_length b l l' : FreeButton b l = Some l' → length l' = length l.
Proof using Type.
  revert l'. induction l as [|b0 l IH]; intros l'; cbn [FreeButton]; [done|]. destruct (b_timer b0 =? 0).
  - by intros [= <-].
  - intros (l1 & Hl & ->)%fmap_Some. cbn. by rewrite (IH l1).
Qed.

Lemma StartButton_wp E ln wh tex time w :
  E full_buttons → winv None w → 0 ≤ ln < Z.of_nat (length (lines w)) →
  wp E (P_StartButton ln wh tex time) (λ _ w', kept w w') w.
Proof using Type.
  intros HE I Hln. unfold P_StartButton. wp_simp. destruct (existsb _ _); [by apply kept_refl|].
  destruct (FreeButton _ _) as [l|] eqn:Ef; [|exact HE]. rewrite wp_put.
  apply buttons_ok; [done|rewrite (FreeButton_length _ _ _ Ef); apply I|]. intros b Hb Ht. destruct (FreeButton_elem _ _ _ _ Ef Hb) as [-> |Hin]; [by exists ln|by apply (wi_buttons _ _ I)].
Qed.

Lemma SwitchLoop_wp E ln sd tt' tm tb again w : (again = true → E full_buttons) → winv None w →
  0 ≤ ln < Z.of_nat (length (lines w)) → 0 ≤ sd < Z.of_nat (length (sides w)) →
  ∀ l i, 0 ≤ i → i + Z.of_nat (length l) = Z.of_nat (length switchlist) →
  wp E (SwitchLoop switchlist ln sd tt' tm tb again i l) (λ _ w', kept w w') w.
Proof using switches_even.
  intros HE I Hln Hsd. induction l as [|x l IH]; intros i Hi Hlen; cbn [SwitchLoop]; [by apply kept_refl|].
  cbn [length] in Hlen.
  assert (Hhit : ∀ wh, wp E (v ← switched switchlist i; upd_side sd (set_texture wh v);;
    if again then P_StartButton ln wh x BUTTONTIME else mret tt) (λ _ w', kept w w') w).
  { intros wh. unfold switched.
    destruct (at_index_valid switchlist (Z.lxor i 1)) as [v ->]; [apply lxor_range; [done|lia]|].
    rewrite wp_bind, wp_ret, wp_bind. apply upd_side_wp; [done|intros; apply set_texture_sector|]. intros w' SS.
    pose proof (kept_shape _ _ I SS) as K. destruct again; [|done]. apply kept_wp; [done|].
    pose proof (shape_dims _ _ SS) as [= _ _ D]. apply StartButton_wp; [auto|apply K|lia]. }
  destruct (x =? tt'); [apply Hhit|]. destruct (x =? tm); [apply Hhit|]. destruct (x =? tb); [apply Hhit|].
  apply IH; lia.
Qed.

Lemma ChangeSwitchTexture_wp E ln again w : (again = true → E full_buttons) → winv None w →
  0 ≤ ln < Z.of_nat (length (lines w)) → wp E (P_ChangeSwitchTexture switchlist ln again) (λ _ w', kept w w') w.
Proof using switches_even.
  intros HE I Hln. unfold P_ChangeSwitchTexture. rewrite wp_bind. apply (wp_mono _ _ (λ _ w', same_shape w w')).
  { destruct again; cbn [negb]; [apply same_shape_refl|]. unfold upd_line. rewrite wp_bind.
    destruct (line_valid _ w ln I Hln) as (l & Hl & _). apply (line_wp _ _ l); [done|]. rewrite wp_mod. by apply shape_line. }
  intros [] w1 SS. pose proof (winv_shape _ _ _ SS I) as I1. pose proof (shape_dims _ _ SS) as [= _ _ D].
  destruct (line_valid _ w1 ln I1 ltac:(lia)) as (l & Hl & (_ & _ & Hsd & _)). rewrite wp_bind. apply (line_wp _ _ l); [done|].
  destruct (at_index_valid (sides w1) _ Hsd) as [s Hs]. rewrite wp_bind. apply (side_wp _ _ s); [done|].
  apply kept_wp; [by apply kept_shape|]. apply SwitchLoop_wp; [done|done|lia|done|lia|lia].
Qed.
End switches.

(** ** The calls *)

(** The outcomes other than a result that a call can have. *)
Definition call_stops (c : call) (e : stop) : Prop :=
  match c with
  | c_floor type => floor_stops type e
  | c_plat type _ => plat_stops type e
  | _ => False
  end.

(** The calls that start movers on sectors that they find by the tag, and check that those have
    none. *)
Definition tagged_call (c : call) : Prop :=
  match c with c_donut => False | c_floor type => type ≠ donutRaise | _ => True end.

(** The same, and the donuts, for which the sectors around have to be free. *)
Definition call_ok {T} (w : world T) (ln : Z) (c : call) : Prop :=
  match c with
  | c_donut => ∀ l, at_index (lines w) ln = Some l → donut_ready (ltag l) (-1) w
  | _ => tagged_call c
  end.

Section calls.
Context {T : Type}.
Context (junk_door : Z → vldoor_t) (junk_plat : Z → plat_t) (junk_floor : Z → floormove_t)
  (junk_ceiling : Z → ceiling_t).
Context (textureheight : Z → Z) (DonutOverrun : Z * Z).
Context (teleport : world T → line_t → Z → actor_t → Z * (Z * T)).
Context (secret_levels : bool).
Implicit Types (w : world T) (E : stop → Prop).
#[local] Abbreviation run_call :=
  (run_call junk_door junk_plat junk_floor junk_ceiling textureheight DonutOverrun teleport secret_levels).
#[local] Abbreviation run_calls :=
  (run_calls junk_door junk_plat junk_floor junk_ceiling textureheight DonutOverrun teleport secret_levels).

Lemma shape_exiting x w : same_shape w (with_exiting x w).
Proof. by split. Qed.

Lemma run_call_wp E ln sd thing c w : (∀ e, call_stops c e → E e) → winv None w → 0 ≤ ln < Z.of_nat (length (lines w)) →
  call_ok w ln c → wp E (run_call ln sd thing c) (λ _ w', kept w w') w.
Proof.
  intros HE I Hln Hok. unfold Triggers.run_call, void. destruct c; cbn [call_stops call_ok tagged_call] in *.
  - by apply EV_DoDoor_wp.
  - by apply EV_DoLockedDoor_wp.
  - by apply EV_DoFloor_wp.
  - by apply EV_BuildStairs_wp.
  - by apply EV_DoPlat_wp.
  - rewrite wp_bind. by apply EV_StopPlat_wp.
  - by apply EV_DoCeiling_wp.
  - by apply EV_CeilingCrushStop_wp.
  - rewrite wp_bind. by apply EV_LightTurnOn_wp.
  - rewrite wp_bind. by apply EV_StartLightStrobing_wp.
  - rewrite wp_bind. by apply EV_TurnTagLightsOff_wp.
  - destruct (line_valid _ w ln I Hln) as (l & Hl & _). apply (EV_DoDonut_wp _ _ _ _ l); auto.
  - destruct (line_valid _ w ln I Hln) as (l & Hl & _). unfold EV_Teleport. rewrite wp_bind. apply (line_wp _ _ l); [done|].
    wp_simp. apply kept_shape; [done|apply shape_things].
  - wp_simp. apply kept_shape; [done|apply shape_exiting].
  - wp_simp. apply kept_shape; [done|apply shape_exiting].
Qed.

Lemma run_calls_wp E ln sd thing cs w : (∀ c e, c ∈ cs → call_stops c e → E e) → winv None w →
  0 ≤ ln < Z.of_nat (length (lines w)) → (∀ c, c ∈ cs → tagged_call c) → wp E (run_calls ln sd thing cs) (λ _ w', kept w w') w.
Proof.
  revert w. induction cs as [|c cs IH]; intros w HE I Hln Hok; cbn [Triggers.run_calls]; [by apply kept_refl|].
  rewrite wp_bind. eapply wp_mono.
  - apply run_call_wp; [intros e; apply HE; left|done|done|]. pose proof (Hok c ltac:(left)). by destruct c.
  - intros r w' K. apply kept_wp; [done|]. destruct K as [I' [= _ _ D]].
    apply IH; [intros c' e Hc; apply HE; by right|done|lia|intros c' Hc; apply Hok; by right].
Qed.
End calls.

Lemma cross_tagged player sp c : c ∈ (cross_switch player sp).1 → tagged_call c.
Proof.
  unfold cross_switch. repeat case_match; cbn [fst];
    intros Hc; repeat (apply elem_of_cons in Hc as [->|Hc]; [done|]); by apply not_elem_of_nil in Hc.
Qed.

Lemma cross_stops player sp c e : c ∈ (cross_switch player sp).1 → call_stops c e →
  e = crowded ∨ e = full_plats ∨ (e = BadAccess ∧ (sp = 37 ∨ sp = 84)).
Proof.
  unfold cross_switch. repeat case_match; cbn [fst];
    intros Hc; repeat (apply elem_of_cons in Hc as [->|Hc]; [unfold call_stops, floor_stops, plat_stops; naive_solver|]);
    by apply not_elem_of_nil in Hc.
Qed.

Definition use_call (u : use_act) : option call :=
  match u with u_if c _ | u_always c _ | u_exit c => Some c | _ => None end.

Lemma use_calls sp c : use_call (use_switch sp) = Some c → c ≠ c_donut → tagged_call c ∧
  ∀ e, call_stops c e → e = crowded ∨ e = full_plats.
Proof.
  unfold use_switch. repeat case_match; cbn [use_call]; intros [= <-] Hd; (split; [done|]);
    unfold call_stops, floor_stops, plat_stops; naive_solver.
Qed.

(** ** A tic *)

Section tics.
Context {T : Type} (change : list sector_t → Z → bool → Z → T → bool * (Z * T)).
Implicit Types (w : world T) (E : stop → Prop).

Lemma shape_specials x w : linespeciallist x = linespeciallist (specials w) → same_shape w (with_specials x w).
Proof. intros. by split. Qed.

Lemma UpdateTimer_wp E w : wp E UpdateTimer (λ _ w', same_shape w w') w.
Proof.
  unfold UpdateTimer. wp_simp. destruct (levelTimer _); [|apply same_shape_refl]. rewrite wp_bind, wp_put.
  destruct (_ =? 0); [|by apply shape_specials]. rewrite wp_mod.
  eapply same_shape_trans; [|apply shape_exiting]. by apply shape_specials.
Qed.

Lemma ScrollLoop_wp E w0 : winv None w0 → ∀ ls w, same_shape w0 w → (∀ i, i ∈ ls → 0 ≤ i < Z.of_nat (length (lines w0))) →
  wp E (ScrollLoop ls) (λ _ w', same_shape w0 w') w.
Proof.
  intros I. induction ls as [|i ls IH]; intros w SS Hls; cbn [ScrollLoop]; [done|].
  pose proof (shape_dims _ _ SS) as [= _ D2 D3]. pose proof (winv_shape _ _ _ SS I) as Iw.
  destruct (line_valid _ w i Iw) as (l & Hl & (_ & _ & Hsd & _)); [pose proof (Hls i ltac:(left)); lia|].
  rewrite wp_bind. apply (line_wp _ _ l); [done|]. rewrite wp_bind.
  assert (Hls' : ∀ i, i ∈ ls → 0 ≤ i < Z.of_nat (length (lines w0))) by (intros; apply Hls; by right).
  destruct (_ =? _); [|by apply IH]. apply upd_side_wp; [done|done|]. intros w' SS'. apply IH; [by eapply same_shape_trans|done].
Qed.

Lemma insert_elem {A} (i : nat) (x : A) (l : list A) y : y ∈ <[i := x]> l → y = x ∨ y ∈ l.
Proof.
  intros [j Hj]%list_elem_of_lookup. apply list_lookup_insert_Some in Hj as [(? & -> & _)|[_ Hj]]; [by left|].
  right. by eapply list_elem_of_lookup_2.
Qed.

Lemma ButtonLoop_wp E : ∀ n i w, winv None w → (i + n ≤ length (buttonlist w))%nat →
  wp E (ButtonLoop n i) (λ _ w', winv None w') w.
Proof.
  induction n as [|n IH]; intros i w I Hn; cbn [ButtonLoop]; [done|]. unfold UpdateButton. rewrite wp_bind, wp_bind, wp_get.
  destruct (lookup_lt_is_Some_2 (buttonlist w) i) as [b Hb]; [lia|]. rewrite Hb.
  destruct (Z.eqb_spec (b_timer b) 0) as [|Ht]; [rewrite wp_ret; apply IH; [done|lia]|].
  destruct (wi_buttons _ _ I b ltac:(by eapply list_elem_of_lookup_2) Ht) as (ln & Eln & Hln).
  rewrite wp_bind, wp_put. set (b' := mkButton _ _ _ _). set (w1 := with_buttons _ w).
  assert (K1 : kept w w1).
  { apply buttons_ok; [done|rewrite length_insert; apply I|]. intros x Hx Hxt. apply insert_elem in Hx as [-> |Hx]; [by exists ln|by apply (wi_buttons _ _ I)]. }
  assert (Hlen : length (buttonlist w1) = length (buttonlist w)) by (cbn; apply length_insert).
  destruct (_ =? 0); [|rewrite wp_ret; apply IH; [apply K1|lia]].
  rewrite Eln. destruct K1 as [I1 _]. destruct (line_valid _ w1 ln I1 Hln) as (l & Hl & (_ & _ & Hsd & _)).
  rewrite wp_bind. apply (line_wp _ _ l); [done|]. rewrite wp_bind. apply upd_side_wp; [done|intros; apply set_texture_sector|].
  intros w2 SS. pose proof (winv_shape _ _ _ SS I1) as I2. rewrite wp_mod. pose proof (ss_buttons _ _ SS) as Eb. apply IH.
  - apply buttons_ok; [done|rewrite length_insert; apply I2|]. intros x Hx Hxt. apply insert_elem in Hx as [-> |Hx]; [done|by apply (wi_buttons _ _ I2)].
  - cbn. rewrite length_insert, Eb. lia.
Qed.

Lemma UpdateSpecials_wp E w1 : winv None w1 → wp E P_UpdateSpecials (λ _ w', winv None w') w1.
Proof.
  intros I1. unfold P_UpdateSpecials. rewrite wp_bind. eapply wp_mono; [apply UpdateTimer_wp|]. intros [] w2 SS2.
  pose proof (winv_shape _ _ _ SS2 I1) as I2. rewrite wp_bind, wp_get, wp_bind.
  eapply wp_mono; [apply (ScrollLoop_wp _ w2 I2); [apply same_shape_refl|apply I2]|]. intros [] w3 SS3.
  pose proof (winv_shape _ _ _ SS3 I2) as I3. apply ButtonLoop_wp; [done|]. rewrite (wi_nbuttons _ _ I3). done.
Qed.
End tics.

(** ** The start of a level *)

Section level.
Context {T : Type} (junk_door : Z → vldoor_t).
Implicit Types (w : world T) (E : stop → Prop).

(** The world with empty tables: [P_SpawnSpecials] leaves the tables of the last level until its
    end. *)
Definition clear w : world T :=
  with_ceilings (replicate MAXCEILINGS None) (with_plats (replicate MAXPLATS None)
    (with_buttons (replicate MAXBUTTONS no_button)
      (with_specials (mkSpecials (totalsecret (specials w)) (levelTimer (specials w)) (levelTimeCount (specials w)) []) w))).

(** What does not read or write the tables. *)
Definition blind {A} (m : M (world T) A) : Prop :=
  ∀ w, m (clear w) = match m w with Ok (a, w') => Ok (a, clear w') | Stop e => Stop e end.

Lemma blind_ret {A} (a : A) : blind (mret a).
Proof. done. Qed.

Lemma blind_bind {A B} (m : M (world T) A) (k : A → M (world T) B) : blind m → (∀ a, blind (k a)) → blind (m ≫= k).
Proof.
  intros Hm Hk w. specialize (Hm w). unfold mbind, M_bind in *. rewrite Hm. destruct (m w) as [[a w']|e]; [apply Hk|done].
Qed.

Lemma blind_sector i : blind (sector i).
Proof. intros w. unfold sector, mbind, M_bind, getS. cbn. by destruct (at_index _ _). Qed.

Lemma blind_line i : blind (line i).
Proof. intros w. unfold line, mbind, M_bind, getS. cbn. by destruct (at_index _ _). Qed.

Lemma blind_upd_sector i f : blind (upd_sector i f).
Proof. apply blind_bind; [apply blind_sector|]. done. Qed.

Lemma blind_upd_thinker a f : blind (upd_thinker a f).
Proof.
  apply blind_bind; [|done]. intros w. unfold thinker, mbind, M_bind, getS. cbn beta iota.
  change (thinkers (clear w)) with (thinkers w). by destruct (find_thinker a (thinkers w)).
Qed.

Lemma blind_add mk : blind (P_AddThinker mk).
Proof. done. Qed.

Lemma blind_random : blind P_Random.
Proof. intros w. unfold P_Random, mbind, M_bind, getS, putS. cbn. by destruct (rndtable !! _). Qed.

Lemma blind_around {A} sec (step : A → sector_t → M (world T) A) ls acc :
  (∀ acc s, blind (step acc s)) → blind (AroundLoop sec step ls acc).
Proof.
  intros Hs. revert acc. induction ls as [|i ls IH]; intros acc; cbn [AroundLoop]; [apply blind_ret|].
  apply blind_bind; [apply blind_line|]. intros l. destruct (getNextSector l sec); [|apply IH].
  apply blind_bind; [apply blind_sector|]. intros s. by apply blind_bind.
Qed.

Ltac blind :=
  repeat lazymatch goal with
    | |- blind (mret _) => apply blind_ret
    | |- blind (sector _) => apply blind_sector
    | |- blind (upd_sector _ _) => apply blind_upd_sector
    | |- blind (upd_thinker _ _) => apply blind_upd_thinker
    | |- blind (P_AddThinker _) => apply blind_add
    | |- blind P_Random => apply blind_random
    | |- blind (AroundLoop _ _ _ _) => apply blind_around; intros
    | |- blind (_ ≫= _) => apply blind_bind; [|intros]
    | |- blind (modS _) => done
    end.

Lemma blind_spawn i sp : blind (spawn_special junk_door i sp).
Proof.
  unfold spawn_special, P_SpawnLightFlash, P_SpawnStrobeFlash, P_SpawnGlowingLight, P_SpawnDoorCloseIn30,
    P_SpawnDoorRaiseIn5Mins, P_SpawnFireFlicker, P_FindMinSurroundingLight, P_FindLowestCeilingSurrounding, set_door.
  repeat case_match; cbn [negb]; blind.
Qed.

Lemma blind_sectors n i : blind (SpawnSectorLoop junk_door n i).
Proof.
  revert i. induction n as [|n IH]; intros i; cbn [SpawnSectorLoop]; [apply blind_ret|].
  apply blind_bind; [apply blind_sector|]. intros s. apply blind_bind; [apply blind_spawn|]. intros _. apply IH.
Qed.

(** No sector from number [i] on has a mover. *)
Definition free_from (i : Z) w : Prop := ∀ j s, i ≤ j → at_index (sectors w) j = Some s → specialdata s = None.

Lemma special_at w w' j s' : specialdata <$> sectors w' = specialdata <$> sectors w → at_index (sectors w') j = Some s' →
  ∃ s, at_index (sectors w) j = Some s ∧ specialdata s = specialdata s'.
Proof. apply fmap_at_index. Qed.

Lemma lit_spawned w w' i : lit w w' → free_from i w → kept w w' ∧ free_from (i + 1) w'.
Proof.
  intros [I D F FR] HF. split; [done|]. intros j s' Hj Hs'. destruct (special_at _ _ _ _ FR Hs') as (s & Hs & <-).
  apply (HF j); [lia|done].
Qed.

Lemma door_spawned w w' i : 0 ≤ i → kept w w' ∧ (∃ a, specialdata <$> sectors w' = <[Z.to_nat i := Some a]> (specialdata <$> sectors w)) →
  free_from i w → kept w w' ∧ free_from (i + 1) w'.
Proof.
  intros Hi [K [a FR]] HF. split; [done|]. intros j s' Hj [Hj0 Hs']%at_index_Some.
  assert (H : (specialdata <$> sectors w') !! Z.to_nat j = Some (specialdata s')) by (by rewrite list_lookup_fmap, Hs').
  rewrite FR, list_lookup_insert_ne, list_lookup_fmap in H by lia. apply fmap_Some in H as (s & Hs & ->).
  apply (HF j); [lia|]. by apply at_index_Some.
Qed.

Lemma spawn_special_wp E i s sp w : winv None w → at_index (sectors w) i = Some s → free_from i w →
  wp E (spawn_special junk_door i sp) (λ _ w', kept w w' ∧ free_from (i + 1) w') w.
Proof.
  intros I Hs HF. pose proof (at_index_range _ _ _ Hs) as Hi. pose proof (HF i s ltac:(lia) Hs) as Hd.
  assert (Hlit : ∀ m, wp E m (λ _ w', lit w w') w → wp E m (λ (_ : unit) w', kept w w' ∧ free_from (i + 1) w') w).
  { intros m Hm. eapply wp_mono; [exact Hm|]. intros [] w' L. by eapply lit_spawned. }
  assert (Hdoor : ∀ m, wp E m (λ _ w', kept w w' ∧
      ∃ a, specialdata <$> sectors w' = <[Z.to_nat i := Some a]> (specialdata <$> sectors w)) w →
    wp E m (λ (_ : unit) w', kept w w' ∧ free_from (i + 1) w') w).
  { intros m Hm. eapply wp_mono; [exact Hm|]. intros [] w' L. apply door_spawned; [lia|done|done]. }
  pose proof (SpawnStrobeFlash_wp (T := T) E i s) as HS.
  assert (Hret : wp E (mret tt) (λ (_ : unit) w', kept w w' ∧ free_from (i + 1) w') w) by (apply Hlit, lit_refl, I).
  unfold spawn_special. repeat case_match;
    lazymatch goal with
    | |- wp _ (mret _) _ _ => exact Hret
    | |- wp _ (P_SpawnStrobeFlash _ _ _) _ _ => apply Hlit, HS; [exact I|exact Hs]
    | |- wp _ (P_SpawnFireFlicker _) _ _ => apply Hlit, (SpawnFireFlicker_wp _ _ s); [exact I|exact Hs]
    | |- wp _ (P_SpawnLightFlash _) _ _ => apply Hlit, (SpawnLightFlash_wp _ _ s); [exact I|exact Hs]
    | |- wp _ (P_SpawnGlowingLight _) _ _ => apply Hlit, (SpawnGlowingLight_wp _ _ s); [exact I|exact Hs]
    | |- wp _ (P_SpawnDoorCloseIn30 _ _) _ _ => apply Hdoor, (P_SpawnDoorCloseIn30_wp _ _ _ s); [exact I|exact Hs|exact Hd]
    | |- wp _ (P_SpawnDoorRaiseIn5Mins _ _) _ _ => apply Hdoor, (P_SpawnDoorRaiseIn5Mins_wp _ _ _ s); [exact I|exact Hs|exact Hd]
    | |- _ => idtac
    end.
  - apply Hlit. rewrite wp_mod. eapply lit_shape; [|by apply lit_refl]. by apply shape_specials.
  - apply Hlit. rewrite wp_bind. eapply wp_mono; [by apply HS|]. intros [] w' L.
    by apply (lit_sector_upd _ w _ _ s).
Qed.

Lemma SpawnSectorLoop_wp E : ∀ n i w, winv None w → free_from i w → 0 ≤ i → i + Z.of_nat n = Z.of_nat (length (sectors w)) →
  wp E (SpawnSectorLoop junk_door n i) (λ _ w', kept w w') w.
Proof.
  induction n as [|n IH]; intros i w I HF Hi Hn; cbn [SpawnSectorLoop]; [by apply kept_refl|].
  destruct (at_index_valid (sectors w) i) as [s Hs]; [lia|]. rewrite wp_bind. apply (sector_wp _ _ s); [done|].
  rewrite wp_bind. eapply wp_mono; [by apply (spawn_special_wp _ _ s)|]. intros [] w' [K HF']. apply kept_wp; [done|].
  destruct K as [I' [= D _ _]]. apply IH; [done|done|lia|lia].
Qed.

Lemma blind_wp {A} E (m : M (world T) A) (P : world T → Prop) w :
  blind m → wp E m (λ _ w', P w') (clear w) → wp E m (λ _ w', P (clear w')) w.
Proof. intros Hm. unfold wp. rewrite (Hm w). by destruct (m w) as [[a w']|e]. Qed.

(** A level that has been loaded: the lines, sides and sectors point at each other, and nothing
    moves. *)
Record level_loaded w : Prop := {
  ll_lines s i : s ∈ sectors w → i ∈ slines s → 0 ≤ i < Z.of_nat (length (lines w));
  ll_line : Forall (line_ok (Z.of_nat (length (sectors w))) (Z.of_nat (length (sides w)))) (lines w);
  ll_side : Forall (λ sd, 0 ≤ side_sector sd < Z.of_nat (length (sectors w))) (sides w);
  ll_thinkers : thinkers w = [];
  ll_free : Forall (λ s, specialdata s = None) (sectors w);
}.

Lemma replicate_table w k n : table_ok w k (replicate n None).
Proof.
  split.
  - by induction n; cbn; [constructor|].
  - intros a [Ha _]%elem_of_replicate. done.
Qed.

Lemma loaded_inv w : level_loaded w → winv None (clear w).
Proof.
  intros [H1 H2 H3 H4 H5]. rewrite Forall_forall in H5.
  split; try done; cbn; rewrite ?H4; try (by intros t ?%not_elem_of_nil).
  - constructor.
  - intros i s a Hs Hd _. rewrite (H5 s) in Hd; [done|by eapply at_index_elem].
  - exact (replicate_table _ _ MAXPLATS).
  - exact (replicate_table _ _ MAXCEILINGS).
  - intros b Hb. repeat (apply elem_of_cons in Hb as [->|Hb]; [done|]). by apply not_elem_of_nil in Hb.
Qed.

Definition full_scrolls : stop := Panic "Too many scrolling wall linedefs! (Vanilla limit is 64)".

Lemma ScrollLines_wp E w : E full_scrolls → ∀ ls i found, 0 ≤ i → i + Z.of_nat (length ls) = Z.of_nat (length (lines w)) →
  (∀ j, j ∈ found → 0 ≤ j < Z.of_nat (length (lines w))) →
  wp E (ScrollLines i ls found) (λ r w', w' = w ∧ ∀ j, j ∈ r → 0 ≤ j < Z.of_nat (length (lines w))) w.
Proof.
  intros HE. induction ls as [|l ls IH]; intros i found Hi Hn Hf; cbn [ScrollLines length] in *; [done|].
  destruct (_ =? 48); [|apply IH; [lia|lia|done]]. rewrite wp_bind. unfold assertM.
  destruct (_ <? _)%nat; [rewrite wp_ret|exact HE]. apply IH; [lia|lia|]. intros j [Hj|Hj%list_elem_of_singleton]%elem_of_app; [by apply Hf|lia].
Qed.

Lemma SpawnSpecials_wp E timelimit deathmatch w : E full_scrolls → level_loaded w →
  wp E (P_SpawnSpecials junk_door timelimit deathmatch) (λ _ w', winv None w') w.
Proof.
  intros HE HL. unfold P_SpawnSpecials. rewrite wp_bind, wp_mod. set (w1 := with_specials _ w).
  assert (HL1 : level_loaded w1) by (destruct HL; by split). rewrite wp_bind, wp_get, wp_bind.
  eapply wp_mono.
  - apply (blind_wp E _ (λ w', kept (clear w1) w')); [apply blind_sectors|].
    apply SpawnSectorLoop_wp; [by apply loaded_inv| |lia|done].
    intros j s _ Hs. pose proof (ll_free _ HL1) as HF. rewrite Forall_forall in HF. by eapply HF, at_index_elem.
  - intros [] w2 [I2 _]. rewrite wp_bind, wp_get, wp_bind.
    eapply wp_mono; [by apply (ScrollLines_wp _ w2); [..|intros j ?%not_elem_of_nil]|]. intros found w' [-> Hf].
    rewrite wp_bind, !wp_mod. by split; try apply I2.
Qed.
End level.

(** ** A level that is played *)

(** What happens in a level: a tic, or a thing that crosses, shoots or uses a line. *)
Inductive event : Type :=
| ev_tic
| ev_cross (linenum sd : Z) (thing : actor_t)
| ev_shoot (thing : actor_t) (ln : Z)
| ev_use (thing : actor_t) (ln sd : Z).

Section played.
Context {T : Type}.
Context (change : list sector_t → Z → bool → Z → T → bool * (Z * T)).
Context (junk_door : Z → vldoor_t) (junk_plat : Z → plat_t) (junk_floor : Z → floormove_t)
  (junk_ceiling : Z → ceiling_t).
Context (pun_direction : object → Z) (pun_set_direction : Z → object → object).
Context (textureheight : Z → Z) (DonutOverrun : Z * Z).
Context (teleport : world T → line_t → Z → actor_t → Z * (Z * T)).
Context (R_TextureNumForName : string → Z) (gamemode : GameMode_t) (secret_levels : bool).
(** The place of a door's direction is not the kind or the sector of another thinker. *)
Hypothesis pun_keeps : ∀ d o, kind_of (pun_set_direction d o) = kind_of o ∧ obj_sector (pun_set_direction d o) = obj_sector o.
Implicit Types (w : world T).

#[local] Abbreviation switchlist := (P_InitSwitchList R_TextureNumForName gamemode).
#[local] Abbreviation P_UseSpecialLine := (P_UseSpecialLine junk_door junk_plat junk_floor junk_ceiling pun_direction
  pun_set_direction textureheight DonutOverrun teleport switchlist secret_levels).
#[local] Abbreviation P_ShootSpecialLine := (P_ShootSpecialLine junk_door junk_plat junk_floor junk_ceiling
  textureheight DonutOverrun teleport switchlist secret_levels).
#[local] Abbreviation P_CrossSpecialLine := (P_CrossSpecialLine junk_door junk_plat junk_floor junk_ceiling
  textureheight DonutOverrun teleport secret_levels).

Definition run_event (ev : event) : M (world T) unit :=
  match ev with
  | ev_tic => SpecialsTic change
  | ev_cross linenum sd thing => P_CrossSpecialLine linenum sd thing
  | ev_shoot thing ln => P_ShootSpecialLine thing ln
  | ev_use thing ln sd => P_UseSpecialLine thing ln sd;; mret tt
  end.

Definition valid_line w (ln : Z) : Prop := 0 ≤ ln < Z.of_nat (length (lines w)).

(** A line can be used if the door behind it is there and, unless it is one that can be turned
    round, is not moving, and if the donut it starts has nothing moving around it. *)
Definition event_ok w (ev : event) : Prop :=
  match ev with
  | ev_tic => True
  | ev_cross ln _ _ | ev_shoot _ ln => valid_line w ln
  | ev_use _ ln _ => ∀ l, at_index (lines w) ln = Some l →
      match use_switch (lspecial l) with
      | u_vertical => door_line_ready w ln = true
      | u_if c_donut _ => donut_ready (ltag l) (-1) w
      | _ => True
      end
  end ∧ match ev with ev_use _ ln _ => valid_line w ln | _ => True end.

(** The errors that an event can end with. *)
Definition event_stops w (ev : event) (e : stop) : Prop :=
  match ev with
  | ev_tic => False
  | ev_cross ln _ _ => e = crowded ∨ e = full_plats ∨
      (e = BadAccess ∧ ∃ l, at_index (lines w) ln = Some l ∧ (lspecial l = 37 ∨ lspecial l = 84))
  | ev_shoot _ _ | ev_use _ _ _ => e = crowded ∨ e = full_plats ∨ e = full_buttons
  end.

Lemma switches_even : Nat.Even (length switchlist).
Proof using Type. apply InitSwitchLoop_even. Qed.

Lemma tic_wp E w : winv None w → wp E (SpecialsTic change) (λ _ w', winv None w') w.
Proof using Type.
  intros I. unfold SpecialsTic. rewrite wp_bind. eapply wp_mono; [by apply P_RunMovers_wp|]. intros [] w1 I1.
  by apply UpdateSpecials_wp.
Qed.

Lemma cross_wp w ln sd thing : winv None w → valid_line w ln →
  wp (event_stops w (ev_cross ln sd thing)) (P_CrossSpecialLine ln sd thing) (λ _ w', winv None w') w.
Proof using Type.
  intros I Hln. destruct (line_valid _ w ln I Hln) as (l & Hl & _). unfold Triggers.P_CrossSpecialLine.
  rewrite wp_bind. apply (line_wp _ _ l); [done|]. destruct (negb _); [done|]. rewrite wp_bind. eapply wp_mono.
  - apply run_calls_wp; [|done|done|apply cross_tagged]. intros c e Hc He.
    destruct (cross_stops _ _ _ _ Hc He) as [?|[?|[? ?]]]; [by left|by right; left|]. right. right. eauto.
  - intros [] w' [I' [= _ _ D]]. destruct (_.2); [|done]. unfold upd_line. rewrite wp_bind.
    destruct (line_valid _ w' ln I') as (l' & Hl' & _); [unfold valid_line in *; lia|].
    apply (line_wp _ _ l'); [done|]. rewrite wp_mod. eapply winv_shape; [|exact I']. by apply shape_line.
Qed.

Lemma shoot_wp w thing ln : winv None w → valid_line w ln →
  wp (event_stops w (ev_shoot thing ln)) (P_ShootSpecialLine thing ln) (λ _ w', winv None w') w.
Proof using Type pun_keeps.
  intros I Hln. destruct (line_valid _ w ln I Hln) as (l & Hl & _). unfold Triggers.P_ShootSpecialLine.
  rewrite wp_bind. apply (line_wp _ _ l); [done|]. destruct (_ && _); [done|].
  assert (Hthen : ∀ c again, tagged_call c → (∀ e, call_stops c e → e = crowded ∨ e = full_plats) →
    wp (event_stops w (ev_shoot thing ln)) (run_call junk_door junk_plat junk_floor junk_ceiling textureheight DonutOverrun
      teleport secret_levels ln 0 thing c;; P_ChangeSwitchTexture switchlist ln again) (λ _ w', winv None w') w).
  { intros c again Hc Hs. rewrite wp_bind. eapply wp_mono.
    - apply run_call_wp; [|done|done|by destruct c]. intros e He. cbn. destruct (Hs e He); auto.
    - intros r w' [I' [= _ _ D]]. eapply wp_mono; [apply ChangeSwitchTexture_wp|by intros [] w'' []].
      + apply switches_even.
      + intros _. right. by right.
      + done.
      + unfold valid_line in *. lia. }
  repeat (destruct (_ =? _); [apply Hthen; [done|]; unfold call_stops, floor_stops, plat_stops; naive_solver|]). done.
Qed.

Lemma use_wp w thing ln sd : winv None w → event_ok w (ev_use thing ln sd) →
  wp (event_stops w (ev_use thing ln sd)) (P_UseSpecialLine thing ln sd) (λ _ w', winv None w') w.
Proof using pun_keeps.
  intros I [Hok Hln]. destruct (line_valid _ w ln I Hln) as (l & Hl & _). specialize (Hok l Hl). unfold Triggers.P_UseSpecialLine.
  rewrite wp_bind. apply (line_wp _ _ l); [done|]. destruct (negb _); [done|]. rewrite wp_bind.
  set (E := event_stops w (ev_use thing ln sd)).
  assert (Hcall : ∀ c, use_call (use_switch (lspecial l)) = Some c →
    (c = c_donut → donut_ready (ltag l) (-1) w) → ∀ w', kept w w' → (c = c_donut → w' = w) →
    wp E (run_call junk_door junk_plat junk_floor junk_ceiling textureheight DonutOverrun
      teleport secret_levels ln sd thing c) (λ _ w'', kept w w'') w').
  { intros c Hc Hdonut w' K Hw. destruct (decide (c = c_donut)) as [-> |Hne].
    - rewrite Hw by done. apply run_call_wp; [done|done|done|]. cbn. intros l' Hl'. rewrite Hl in Hl'. injection Hl' as <-. auto.
    - destruct (use_calls _ _ Hc Hne) as [Ht Hs]. apply kept_wp; [done|]. destruct K as [I' [= _ _ D]].
      apply run_call_wp; [|done|unfold valid_line in *; lia|by destruct c].
      intros e He. unfold E. cbn. destruct (Hs e He); auto. }
  assert (Hch : ∀ again w', kept w w' → wp E (P_ChangeSwitchTexture switchlist ln again) (λ _ w'', kept w w'') w').
  { intros again w' K. apply kept_wp; [done|]. destruct K as [I' [= _ _ D]].
    apply ChangeSwitchTexture_wp; [apply switches_even|intros _; right; by right|done|unfold valid_line in *; lia]. }
  pose proof (kept_refl w I) as K0. apply (wp_mono _ _ (λ _ w', kept w w')); [|intros [] w' [K _]; exact K].
  destruct (use_switch (lspecial l)) as [| |c again|c again|c] eqn:Eu.
  - done.
  - eapply wp_mono; [apply (EV_VerticalDoor_wp _ _ _ pun_keeps); done|done].
  - rewrite wp_bind. eapply wp_mono; [apply (Hcall c eq_refl); [|done|done]|].
    + intros ->. done.
    + intros r w' K. destruct (negb _); [by apply Hch|done].
  - rewrite wp_bind. eapply wp_mono; [apply (Hcall c eq_refl); [|done|done]|intros r w' K; by apply Hch].
    intros ->. exfalso. clear -Eu. unfold use_switch in Eu. by repeat case_match.
  - assert (Hnd : c ≠ c_donut) by (intros ->; clear -Eu; unfold use_switch in Eu; by repeat case_match).
    rewrite wp_bind. eapply wp_mono; [by apply Hch|]. intros [] w' K. rewrite wp_bind.
    eapply wp_mono; [by apply (Hcall c eq_refl)|]. done.
Qed.

Lemma run_event_wp w ev : winv None w → event_ok w ev → wp (event_stops w ev) (run_event ev) (λ _ w', winv None w') w.
Proof using pun_keeps.
  intros I Hok. destruct ev; cbn [run_event].
  - by apply tic_wp.
  - apply cross_wp; [done|apply Hok].
  - apply shoot_wp; [done|apply Hok].
  - rewrite wp_bind. eapply wp_mono; [by apply use_wp|done].
Qed.

(** The worlds of a level that is played. *)
Inductive reachable : world T → Prop :=
| r_start timelimit deathmatch w w' :
    level_loaded w → P_SpawnSpecials junk_door timelimit deathmatch w = Ok (tt, w') → reachable w'
| r_step ev w w' : reachable w → event_ok w ev → run_event ev w = Ok (tt, w') → reachable w'.

Lemma reachable_inv w : reachable w → winv None w.
Proof using pun_keeps.
  induction 1 as [tl dm w w' HL HR|ev w w' _ IH Hok HR].
  - by eapply (wp_ok (λ e, e = full_scrolls) _ _ _ _ _ (SpawnSpecials_wp _ _ _ _ _ eq_refl HL)), HR.
  - by eapply (wp_ok _ _ _ _ _ _ (run_event_wp w ev IH Hok)), HR.
Qed.
End played.
