(* ===== verification/MoversSpec.v ===== *)
(** * Moving sectors: what the events and tics do

    The theorems about Movers.v and Triggers.v: no sector ever gets two movers and every event
    ends; a plane never passes its destination; the searches around a sector; a door that nothing
    blocks closes again; a button switches back. *)
From S2P Require Import Prelude.
From S2P Require Import Movers.
From S2P Require Import MoversSafe.
From S2P Require Import MoversEvents.
From S2P Require Import Triggers.
From S2P Require Import TriggersSafe.

(** ** Every event is safe *)

Section safety.
Context {T : Type}.
Context (change : list sector_t → Z → bool → Z → T → bool * (Z * T)).
Context (junk_door : Z → vldoor_t) (junk_plat : Z → plat_t) (junk_floor : Z → floormove_t)
  (junk_ceiling : Z → ceiling_t).
Context (pun_direction : object → Z) (pun_set_direction : Z → object → object).
Context (textureheight : Z → Z) (DonutOverrun : Z * Z).
Context (teleport : world T → line_t → Z → actor_t → Z * (Z * T)).
Context (R_TextureNumForName : string → Z) (gamemode : GameMode_t) (secret_levels : bool).
Hypothesis pun_keeps : ∀ d o, kind_of (pun_set_direction d o) = kind_of o ∧ obj_sector (pun_set_direction d o) = obj_sector o.

#[local] Abbreviation played_world := (reachable change junk_door junk_plat junk_floor junk_ceiling pun_direction
  pun_set_direction textureheight DonutOverrun teleport R_TextureNumForName gamemode secret_levels).
#[local] Abbreviation happens := (run_event change junk_door junk_plat junk_floor junk_ceiling pun_direction
  pun_set_direction textureheight DonutOverrun teleport R_TextureNumForName gamemode secret_levels).

End safety.

(** A map of two sectors, the second one a door that is closed, and its line. *)
Definition small_map : world unit :=
  mkWorld
    [mkSector 0 (128 * FRACUNIT) 7 160 0 0 None [0]; mkSector 0 0 9 160 0 0 None [0]]
    [mkLine true false 1 0 (0, 1) 0 (Some 1)]
    [mkSide 0 3 4 5 0; mkSide 0 3 4 5 1]
    [] 100 [] [] 0 None [] (mkSpecials 0 false 0 []) None tt.

Definition still (_ : list sector_t) (_ : Z) (_ : bool) (r : Z) (x : unit) : bool * (Z * unit) := (false, (r, x)).
Definition zero_door (a : Z) : vldoor_t := mkDoor vld_normal 0 0 0 0 0 0.
Definition zero_plat (a : Z) : plat_t := mkPlat 0 0 0 0 0 0 up up false 0 perpetualRaise.
Definition zero_floor (a : Z) : floormove_t := mkFloor lowerFloor false 0 0 0 0 0 0.
Definition zero_ceiling (a : Z) : ceiling_t := mkCeiling lowerToFloor 0 0 0 0 false 0 0 0.
Definition no_teleport (w : world unit) (l : line_t) (sd : Z) (thing : actor_t) : Z * (Z * unit) := (0, (prndindex w, tt)).
Definition marine : actor_t := mkActor (Some (mkPlayer false false false false false false)) MT_OTHER.

Lemma small_map_loaded : level_loaded small_map.
Proof.
  split.
  - intros s i Hs Hi. cbn in *. repeat (apply elem_of_cons in Hs as [->|Hs]; [apply list_elem_of_singleton in Hi; lia|]).
    by apply not_elem_of_nil in Hs.
  - apply Forall_singleton. unfold line_ok. cbn. split_and!; [lia|lia| |lia|lia|]; [intros b [= <-]; lia|].
    intros _. split; [by eexists|lia].
  - apply Forall_cons_2; [|apply Forall_singleton]; cbn; lia.
  - done.
  - apply Forall_cons_2; [done|by apply Forall_singleton].
Qed.

(** The rest of the game: nothing is ever in the way, and no memory is read that is not set. *)
#[local] Abbreviation small_world := (reachable still zero_door zero_plat zero_floor zero_ceiling (λ _, 0) (λ _ o, o)
  (λ _, 0) (0, 0) no_teleport (λ _, 0) shareware true).
#[local] Abbreviation small_run := (run_event still zero_door zero_plat zero_floor zero_ceiling (λ _, 0) (λ _ o, o)
  (λ _, 0) (0, 0) no_teleport (λ _, 0) shareware true).

Definition small_start : world unit := Eval vm_compute in
  match P_SpawnSpecials zero_door 0 false small_map with Ok (_, w) => w | Stop _ => small_map end.
Definition small_opened : world unit := Eval vm_compute in
  match small_run (ev_use marine 0 0) small_start with Ok (_, w) => w | Stop _ => small_map end.

Lemma small_opened_reachable : small_world small_opened.
Proof.
  apply (r_step _ _ _ _ _ _ _ _ _ _ _ _ _ (ev_use marine 0 0) small_start); [| |vm_compute; reflexivity].
  - apply (r_start _ _ _ _ _ _ _ _ _ _ _ _ _ 0 false small_map); [apply small_map_loaded|vm_compute; reflexivity].
  - split; [|by vm_compute]. intros l [= <-]. vm_compute. reflexivity.
Qed.


(** ** Planes *)

(** C37. A plane goes to its destination and not further: for a speed that does not overflow,
    [T_MovePlane] changes that plane of that sector and nothing else of the map; a plane that has
    its destination ahead ends between where it was and there; it reports [ok] after a whole step,
    [pastdest] when it has arrived or something in the way has kept it where it was, [crushed] only
    if something is in the way, and then a floor or ceiling that does not crush has not moved. *)
Theorem T_MovePlane_bounds {T} change sec speed dest crush fc direction (w : world T) s :
  at_index (sectors w) sec = Some s → fc = 0 ∨ fc = 1 → direction = 1 ∨ direction = -1 → 0 ≤ speed →
  in_s 32 (plane_height fc s + direction * speed) →
  ∃ r w' h, T_MovePlane change sec speed dest crush fc direction w = Ok (r, w') ∧
    moved w sec fc h w' ∧
    (0 ≤ direction * (dest - plane_height fc s) →
       0 ≤ direction * (h - plane_height fc s) ∧ 0 ≤ direction * (dest - h)) ∧
    match r with
    | ok => h = plane_height fc s + direction * speed
    | pastdest => h = dest ∨ (h = plane_height fc s ∧ ¬ unblocked change sec)
    | crushed => ¬ unblocked change sec ∧ (h = plane_height fc s ∨ (h = plane_height fc s + direction * speed ∧ crush = true))
    end.
Proof.
  intros Hs Hfc Hd Hsp Hr. pose proof (T_MovePlane_wp change never sec speed dest crush fc direction w s Hs Hfc Hd) as H.
  apply wp_total in H as (r & w' & E & h & Hm & HP). exists r, w', h. split; [exact E|]. split; [exact Hm|].
  unfold plane_moves in HP. replace (i32 (plane_height fc s + direction * speed)) with (plane_height fc s + direction * speed) in HP
    by (symmetry; by apply wrap_s_small).
  set (h0 := plane_height fc s) in *. destruct Hd as [-> | ->]; cbn [Z.eqb Pos.eqb] in HP.
  - destruct (Z.ltb_spec dest (h0 + 1 * speed)).
    + destruct HP as (-> & [-> |[-> ?]]); (split; [lia|auto]).
    + destruct HP as [[-> ->]|(-> & ? & [-> |[-> ->]])]; (split; [lia|auto]).
  - destruct (Z.ltb_spec (h0 + -1 * speed) dest).
    + destruct HP as (-> & [-> |[-> ?]]); (split; [lia|auto]).
    + destruct HP as [[-> ->]|(-> & ? & [-> |[-> ->]])]; (split; [lia|auto]).
Qed.

Lemma T_MovePlane_bounds_witness :
  in_s 32 (plane_height 1 (mkSector 0 0 9 160 0 0 None [0]) + 1 * (2 * FRACUNIT)) ∧
  ∃ r w' h, T_MovePlane still 1 (2 * FRACUNIT) (124 * FRACUNIT) false 1 1 small_map = Ok (r, w') ∧
    moved small_map 1 1 h w' ∧ (0 ≤ 1 * (124 * FRACUNIT - 0) → 0 ≤ 1 * (h - 0) ∧ 0 ≤ 1 * (124 * FRACUNIT - h)) ∧
    match r with
    | ok => h = 0 + 1 * (2 * FRACUNIT)
    | pastdest => h = 124 * FRACUNIT ∨ (h = 0 ∧ ¬ unblocked still 1)
    | crushed => ¬ unblocked still 1 ∧ (h = 0 ∨ (h = 0 + 1 * (2 * FRACUNIT) ∧ false = true))
    end.
Proof.
  split; [vm_compute; by split|].
  apply (T_MovePlane_bounds still 1 (2 * FRACUNIT) (124 * FRACUNIT) false 1 1 small_map (mkSector 0 0 9 160 0 0 None [0])).
  - reflexivity.
  - by right.
  - by left.
  - vm_compute. discriminate.
  - vm_compute. by split.
Defined.

(** ** The searches *)

Section searches.
Context {T : Type}.
Implicit Types (w : world T).

(** The sectors across the two-sided lines [ls] of sector [i], one for each line. *)
Definition across w (i : Z) (ls : list Z) : list sector_t :=
  omap (λ ln, l ← at_index (lines w) ln; o ← getNextSector l i; at_index (sectors w) o) ls.

Lemma across_cons w i ln ls l : at_index (lines w) ln = Some l →
  across w i (ln :: ls) = match getNextSector l i with
    | Some o => match at_index (sectors w) o with Some s => s :: across w i ls | None => across w i ls end
    | None => across w i ls
    end.
Proof. intros Hl. unfold across. cbn. rewrite Hl. cbn. destruct (getNextSector l i); [|done]. cbn. by destruct (at_index _ _). Qed.

(** The loop, with a step that does not change the world. *)
Lemma AroundLoop_fold {A} w hole i (step : A → sector_t → M (world T) A) (R : A → list sector_t → Prop) :
  winv hole w →
  (∀ acc o ss, R acc (o :: ss) → wp never (step acc o) (λ acc' w', w' = w ∧ R acc' ss) w) →
  ∀ ls acc, (∀ j, j ∈ ls → 0 ≤ j < Z.of_nat (length (lines w))) → R acc (across w i ls) →
  wp never (AroundLoop i step ls acc) (λ acc' w', w' = w ∧ R acc' []) w.
Proof.
  intros I Hstep. induction ls as [|ln ls IH]; intros acc Hls HR; cbn [AroundLoop]; [done|].
  assert (Hls' : ∀ j, j ∈ ls → 0 ≤ j < Z.of_nat (length (lines w))) by (intros; apply Hls; by right).
  destruct (line_valid hole w ln I) as (l & Hl & Hok); [apply Hls; left|]. rewrite (across_cons _ _ _ _ l Hl) in HR.
  rewrite wp_bind. apply (line_wp _ _ l); [done|]. destruct (getNextSector l i) as [o|] eqn:Eo; [|by apply IH].
  destruct (at_index_valid (sectors w) o) as [s Hs]; [by eapply next_valid|]. rewrite Hs in HR.
  rewrite wp_bind. apply (sector_wp _ _ s); [done|]. rewrite wp_bind.
  eapply wp_mono; [by apply Hstep|]. intros acc' w' [-> HR']. by apply IH.
Qed.

(** A search whose step is a pure function. *)
Lemma search_fold w hole i s (f : Z → sector_t → Z) z :
  winv hole w → at_index (sectors w) i = Some s →
  wp never (AroundLoop i (λ acc o, mret (f acc o)) (slines s) z) (λ r w', w' = w ∧ r = foldl f z (across w i (slines s))) w.
Proof.
  intros I Hs. eapply wp_mono.
  - apply (AroundLoop_fold w hole i _ (λ acc ss, foldl f acc ss = foldl f z (across w i (slines s)))); [done| |by eapply sector_lines|done].
    intros acc o ss HR. by rewrite wp_ret.
  - done.
Qed.

Lemma foldr_min_r x z l : foldr Z.min (Z.min z x) l = Z.min x (foldr Z.min z l).
Proof. induction l as [|y l IH]; cbn; lia. Qed.

Lemma foldr_max_r x z l : foldr Z.max (Z.max z x) l = Z.max x (foldr Z.max z l).
Proof. induction l as [|y l IH]; cbn; lia. Qed.

Lemma fold_lowest {A} (g : A → Z) z l : foldl (λ m o, if g o <? m then g o else m) z l = foldr Z.min z (g <$> l).
Proof.
  revert z. induction l as [|o l IH]; intros z; [done|]. cbn [foldl foldr fmap list_fmap]. rewrite IH.
  change (foldr Z.min z (g <$> o :: l)) with (Z.min (g o) (foldr Z.min z (g <$> l))). rewrite <- foldr_min_r. f_equal.
  destruct (Z.ltb_spec (g o) z); lia.
Qed.

Lemma fold_highest {A} (g : A → Z) z l : foldl (λ m o, if m <? g o then g o else m) z l = foldr Z.max z (g <$> l).
Proof.
  revert z. induction l as [|o l IH]; intros z; [done|]. cbn [foldl foldr fmap list_fmap]. rewrite IH.
  change (foldr Z.max z (g <$> o :: l)) with (Z.max (g o) (foldr Z.max z (g <$> l))). rewrite <- foldr_max_r. f_equal.
  destruct (Z.ltb_spec z (g o)); lia.
Qed.

(** The heights among [l] above [cur]. *)
Definition above (cur : Z) (l : list sector_t) : list Z := filter (λ h, cur < h) (floorheight <$> l).

(** The lowest of them, or [cur] if there is none. *)
Definition next_highest (cur : Z) (l : list sector_t) : Z :=
  match above cur l with [] => cur | h :: hs => foldr Z.min h hs end.

Lemma above_cons cur o l :
  above cur (o :: l) = if decide (cur < floorheight o) then floorheight o :: above cur l else above cur l.
Proof. unfold above. cbn [fmap list_fmap]. apply filter_cons. Qed.

Lemma NextHighest_fold hole w i s cur : winv hole w → at_index (sectors w) i = Some s →
  (length (above cur (across w i (slines s))) ≤ 22)%nat →
  wp never (P_FindNextHighestFloor i cur) (λ r w', w' = w ∧ r = next_highest cur (across w i (slines s))) w.
Proof.
  intros I Hs Hn. unfold P_FindNextHighestFloor. rewrite wp_bind. apply (sector_wp _ _ s); [done|]. rewrite wp_bind.
  set (all := above cur (across w i (slines s))) in *. eapply wp_mono.
  - apply (AroundLoop_fold w hole i _ (λ acc ss, reverse acc.2 ++ above cur ss = all ∧ cur ≤ acc.1 ∧
      (acc.1 = cur ∨ above cur ss = []))); [done| |by eapply sector_lines|].
    2:{ split; [done|]. split; [cbn; lia|by left]. }
    intros [height found] o ss (Hall & Hle & Hcur). rewrite above_cons in Hall, Hcur. cbn [fst snd] in *.
    destruct (decide (cur < floorheight o)) as [Hlt|Hge].
    + destruct Hcur as [-> |?]; [|done]. rewrite (proj2 (Z.ltb_lt _ _) Hlt). rewrite wp_bind.
      assert (Hlen : (length found + S (length (above cur ss)) ≤ 22)%nat).
      { rewrite <- Hall, length_app, length_reverse in Hn. done. }
      apply wp_assert; [apply negb_true_iff, Z.eqb_neq; unfold MAX_ADJOINING_SECTORS; lia|].
      rewrite wp_ret. split; [done|]. cbn [fst snd]. rewrite reverse_cons, <- app_assoc. split; [done|].
      destruct (Z.eqb_spec (Z.of_nat (length found)) (MAX_ADJOINING_SECTORS + 1)) as [E|]; [|split; [lia|by left]].
      split; [lia|]. right. apply nil_length_inv. unfold MAX_ADJOINING_SECTORS in E. lia.
    + rewrite (proj2 (Z.ltb_ge _ _)) by lia. rewrite wp_ret. split; [done|]. split; [done|]. split; [done|]. tauto.
  - intros [height found] w' [-> (Hall & _ & _)]. cbn [fst snd] in *. rewrite app_nil_r in Hall.
    unfold next_highest. fold all. rewrite Hall. destruct all as [|h hs]; [done|]. rewrite wp_ret. split; [done|].
    pose proof (fold_lowest (λ x : Z, x) h hs) as H. by rewrite list_fmap_id in H.
Qed.

(** The searches around a sector find what they are named after: they do not change the world,
    and give the lowest and highest floor, the lowest and highest ceiling and the lowest light of
    the sectors across its two-sided lines (with its own floor, -500, the largest integer, 0 and
    the given light for a sector that has none), and, as long as at most 22 of these lines lead to
    a higher floor, the lowest floor that is higher than the given height, or that height. *)
Theorem searches_spec w i s cur max : winv None w → at_index (sectors w) i = Some s →
  let around := across w i (slines s) in
  P_FindLowestFloorSurrounding i w = Ok (foldr Z.min (floorheight s) (floorheight <$> around), w) ∧
  P_FindHighestFloorSurrounding i w = Ok (foldr Z.max (-500 * FRACUNIT) (floorheight <$> around), w) ∧
  P_FindLowestCeilingSurrounding i w = Ok (foldr Z.min INT_MAX (ceilingheight <$> around), w) ∧
  P_FindHighestCeilingSurrounding i w = Ok (foldr Z.max 0 (ceilingheight <$> around), w) ∧
  P_FindMinSurroundingLight i max w = Ok (foldr Z.min max (lightlevel <$> around), w) ∧
  ((length (above cur around) ≤ 22)%nat → P_FindNextHighestFloor i cur w = Ok (next_highest cur around, w)).
Proof.
  intros I Hs around.
  assert (Hget : ∀ (m : M (world T) Z) v, wp never m (λ r w', w' = w ∧ r = v) w → m w = Ok (v, w)).
  { intros m v Hm. by apply wp_total in Hm as (r & w' & E & -> & ->). }
  assert (Hfind : ∀ f z v, foldl f z around = v →
    wp never (s ← sector i; AroundLoop i (λ acc o, mret (f acc o)) (slines s) (z : Z)) (λ r w', w' = w ∧ r = v) w).
  { intros f z v <-. rewrite wp_bind. apply (sector_wp _ _ s); [done|]. by eapply search_fold. }
  split_and!.
  - apply Hget. unfold P_FindLowestFloorSurrounding. rewrite wp_bind. apply (sector_wp _ _ s); [done|].
    rewrite <- (fold_lowest floorheight). by eapply search_fold.
  - apply Hget, Hfind, (fold_highest floorheight).
  - apply Hget, Hfind, (fold_lowest ceilingheight).
  - apply Hget, Hfind, (fold_highest ceilingheight).
  - apply Hget, Hfind, (fold_lowest lightlevel).
  - intros Hn. apply Hget. by eapply NextHighest_fold.
Qed.
End searches.

Lemma small_opened_inv : winv None small_opened.
Proof.
  eapply (reachable_inv still zero_door zero_plat zero_floor zero_ceiling (λ _, 0) (λ _ o, o) (λ _, 0) (0, 0)
    no_teleport (λ _, 0) shareware true); [done|]. apply small_opened_reachable.
Qed.

(** The lowest ceiling around the door is the one of the room before it. *)
Lemma searches_spec_witness :
  ∃ s, at_index (sectors small_opened) 1 = Some s ∧
    P_FindLowestCeilingSurrounding 1 small_opened = Ok (128 * FRACUNIT, small_opened) ∧
    P_FindNextHighestFloor 1 (-5) small_opened = Ok (0, small_opened).
Proof.
  eexists. split; [reflexivity|].
  destruct (searches_spec small_opened 1 (mkSector 0 0 9 160 0 0 (Some 100) [0]) (-5) 0 small_opened_inv ltac:(reflexivity))
    as (_ & _ & H1 & _ & _ & H2).
  split; [exact H1|]. apply H2. vm_compute. lia.
Defined.
