(* ===== verification/DoorCycle.v ===== *)
(** * A door opens and closes again

    What the other thinkers of Movers.v leave alone, and from it the time that a door that nothing
    blocks takes to open, wait and close. *)
From S2P Require Import Prelude.
From S2P Require Import Movers.
From S2P Require Import MoversSafe.
From S2P Require Import MoversEvents.
From S2P Require Import Triggers.
From S2P Require Import TriggersSafe.
From S2P Require Import MoversSpec.

(** ** What a thinker leaves alone *)

Section frame.
Context {T : Type} (change : list sector_t → Z → bool → Z → T → bool * (Z * T)).
Implicit Types (w : world T).

(** The sector [i] has the heights and the mover of [k], and the thinker [keep] is in the list. *)
Definition scene (i : Z) (k : Z * Z * option Z) (keep : option thinker_t) w : Prop :=
  (∃ s, at_index (sectors w) i = Some s ∧ (floorheight s, ceilingheight s, specialdata s) = k) ∧
  ∀ t, keep = Some t → t ∈ thinkers w.

Section other.
Context (i : Z) (k : Z * Z * option Z) (keep : option thinker_t) (b : Z).
Hypothesis keep_other : ∀ t, keep = Some t → th_addr t ≠ b.

(** A thinker that is a light or does not have the sector [i]. *)
Definition elsewhere (o : object) : Prop := kind_of o = k_light ∨ obj_sector o ≠ i.

Definition at_b w : Prop := scene i k keep w ∧ ∀ t, t ∈ thinkers w → th_addr t = b → elsewhere (th_obj t).

Definition stable {A} (m : M (world T) A) : Prop := ∀ w r w', at_b w → m w = Ok (r, w') → at_b w'.

Lemma stable_bind {A B} (m : M (world T) A) (f : A → M (world T) B) : stable m → (∀ a, stable (f a)) → stable (m ≫= f).
Proof using Type.
  intros Hm Hf w r w' H. unfold mbind, M_bind. destruct (m w) as [[a w1]|e] eqn:E; [|done]. apply Hf. by eapply Hm.
Qed.

Lemma stable_ret {A} (a : A) : stable (mret a).
Proof using Type. by intros w r w' H [= <- <-]. Qed.

Lemma stable_stop {A} e : stable (stopM (A := A) e).
Proof using Type. done. Qed.

Lemma stable_get : stable getS.
Proof using Type. by intros w r w' H [= <- <-]. Qed.

Lemma stable_sector j : stable (sector j).
Proof using Type. apply stable_bind; [apply stable_get|]. intros w. destruct (at_index _ _); [apply stable_ret|apply stable_stop]. Qed.

Lemma stable_line j : stable (line j).
Proof using Type. apply stable_bind; [apply stable_get|]. intros w. destruct (at_index _ _); [apply stable_ret|apply stable_stop]. Qed.

Lemma stable_thinker a : stable (thinker a).
Proof using Type. apply stable_bind; [apply stable_get|]. intros w. destruct (find_thinker _ _); [apply stable_ret|apply stable_stop]. Qed.

(** A write that the scene does not read. *)
Lemma stable_mod (f : world T → world T) : (∀ w, sectors (f w) = sectors w ∧ thinkers (f w) = thinkers w) → stable (modS f).
Proof using Type.
  intros Hf w r w' [[Hs Hk] Hb] [= <- <-]. destruct (Hf w) as [E1 E2]. unfold at_b, scene. rewrite E1, E2. done.
Qed.

(** A write of a world made from the present one. *)
Lemma stable_update {A} (g : world T → world T) (f : world T → M (world T) A) :
  (∀ w, sectors (g w) = sectors w ∧ thinkers (g w) = thinkers w) → (∀ w, stable (f w)) →
  stable (w ← getS; putS (g w);; f w).
Proof using Type.
  intros Hg Hf w r w' H E. apply (Hf w (g w) r w'); [|done]. destruct H as [[Hs Hk] Hb], (Hg w) as [E1 E2].
  unfold at_b, scene. rewrite E1, E2. done.
Qed.

Lemma sector_ok j w s w' : sector j w = Ok (s, w') → at_index (sectors w) j = Some s ∧ w' = w.
Proof using Type. unfold sector, mbind, M_bind, getS. destruct (at_index (sectors w) j); [|done]. by intros [= <- <-]. Qed.

Lemma stable_upd_sector j f :
  j ≠ i ∨ (∀ s, (floorheight (f s), ceilingheight (f s), specialdata (f s)) = (floorheight s, ceilingheight s, specialdata s)) →
  stable (upd_sector j f).
Proof using Type.
  intros Hf w r w' [[(s & Hs & Hk) Hkeep] Hb] E. unfold upd_sector, mbind, M_bind in E.
  destruct (sector j w) as [[s0 w0]|e] eqn:Es; [|done]. apply sector_ok in Es as [Hj ->]. injection E as <- <-.
  apply at_index_range in Hj. split; [|done]. split; [|done]. cbn. rewrite at_index_alter by lia. case_decide as Ej; [|by eauto].
  subst j. destruct Hf as [?|Hf]; [done|]. rewrite Hs. exists (f s). split; [done|]. by rewrite Hf.
Qed.

Lemma stable_upd_thinker f : (∀ t, th_addr (f t) = th_addr t) → (∀ t, elsewhere (th_obj t) → elsewhere (th_obj (f t))) →
  stable (upd_thinker b f).
Proof using keep_other.
  intros Hf1 Hf2. intros w r w' [[Hs Hkeep] Hb] E. unfold upd_thinker, mbind, M_bind in E.
  destruct (thinker b w) as [[t0 w0]|e] eqn:Et; [|done]. unfold thinker, mbind, M_bind, getS in Et.
  destruct (find_thinker b (thinkers w)) as [t1|]; [|done]. injection Et as <- <-. injection E as <- <-. split; [split; [done|]|].
  - intros t Ht. apply upd_thinkers_elem. exists t. split; [by apply Hkeep|].
    by rewrite (proj2 (Z.eqb_neq _ _) (keep_other t Ht)).
  - intros t (t' & Ht' & ->)%upd_thinkers_elem. destruct (Z.eqb_spec (th_addr t') b) as [E'|]; [|by apply Hb].
    intros _. apply Hf2. by apply Hb.
Qed.

Lemma stable_set o : elsewhere o → stable (upd_thinker b (set_obj o)).
Proof using keep_other. intros Ho. by apply stable_upd_thinker. Qed.

Lemma stable_remove : stable (P_RemoveThinker b).
Proof using keep_other. by apply stable_upd_thinker. Qed.

Lemma stable_change j crush : stable (P_ChangeSector change j crush).
Proof using Type. apply (stable_update (λ w, with_things _ _ w)); [done|]. intros w. apply stable_ret. Qed.

Lemma stable_random : stable P_Random.
Proof using Type.
  apply (stable_update (λ w, with_things _ _ w)); [done|]. intros w. destruct (rndtable !! _); [apply stable_ret|apply stable_stop].
Qed.

Ltac stable_step :=
  lazymatch goal with
  | |- stable (mret _) => apply stable_ret
  | |- stable (stopM _) => apply stable_stop
  | |- stable (sector _) => apply stable_sector
  | |- stable (line _) => apply stable_line
  | |- stable (thinker _) => apply stable_thinker
  | |- stable (upd_sector _ _) => apply stable_upd_sector; first [left; done | right; done]
  | |- stable (upd_thinker _ (set_obj _)) => apply stable_set; done
  | |- stable (P_RemoveThinker _) => apply stable_remove
  | |- stable (P_ChangeSector _ _ _) => apply stable_change
  | |- stable P_Random => apply stable_random
  | |- stable (_ ≫= _) => apply stable_bind; [|intros ?]
  | |- stable (if ?x then _ else _) => destruct x
  | |- stable (match ?x with _ => _ end) => destruct x
  end.
Ltac stables := repeat stable_step.

Lemma stable_move j speed dest crush fc d : j ≠ i → stable (T_MovePlane change j speed dest crush fc d).
Proof using Type. intros Hj. unfold T_MovePlane, arrive, advance. stables. Qed.

Lemma stable_plat_of (f : plat_t → M (world T) unit) : (∀ o, pt_sector o ≠ i → stable (f o)) → stable (plat_of b ≫= f).
Proof using Type.
  intros Hf w r w' H E. unfold plat_of, mbind, M_bind in E. destruct (thinker b w) as [[t w1]|e] eqn:Et; [|done].
  unfold thinker, mbind, M_bind, getS in Et. destruct (find_thinker b (thinkers w)) as [t'|] eqn:Ef; [|done].
  injection Et as <- <-. apply find_thinker_Some in Ef as [Ht Ha]. destruct H as [Hsc Hb]. pose proof (Hb _ Ht Ha) as He.
  destruct (th_obj t') as [|o| | | | | |]; try done. cbn in E. apply (Hf o) in E; [done| |by split]. by destruct He.
Qed.

Lemma stable_ceiling_of (f : ceiling_t → M (world T) unit) : (∀ o, ce_sector o ≠ i → stable (f o)) → stable (ceiling_of b ≫= f).
Proof using Type.
  intros Hf w r w' H E. unfold ceiling_of, mbind, M_bind in E. destruct (thinker b w) as [[t w1]|e] eqn:Et; [|done].
  unfold thinker, mbind, M_bind, getS in Et. destruct (find_thinker b (thinkers w)) as [t'|] eqn:Ef; [|done].
  injection Et as <- <-. apply find_thinker_Some in Ef as [Ht Ha]. destruct H as [Hsc Hb]. pose proof (Hb _ Ht Ha) as He.
  destruct (th_obj t') as [| | |o| | | |]; try done. cbn in E. apply (Hf o) in E; [done| |by split]. by destruct He.
Qed.

Lemma stable_remove_plat : stable (P_RemoveActivePlat b).
Proof using keep_other.
  apply stable_bind; [apply stable_get|]. intros w. destruct (clear_active _ _); [|apply stable_stop].
  apply stable_plat_of. intros o Ho. stables. by apply stable_mod.
Qed.

Lemma stable_remove_ceiling : stable (P_RemoveActiveCeiling b).
Proof using keep_other.
  apply stable_bind; [apply stable_get|]. intros w. destruct (clear_active _ _); [|apply stable_ret].
  apply stable_ceiling_of. intros o Ho. stables. by apply stable_mod.
Qed.

Lemma stable_think t : th_addr t = b → elsewhere (th_obj t) → stable (think change t).
Proof using keep_other.
  intros Ha He. unfold think. rewrite Ha. destruct (th_obj t) as [o|o|o|o|o|o|o|o];
    try (assert (Hj : obj_sector (th_obj t) ≠ i) by (by destruct He)); try (destruct He as [He|He]; [done|]); cbn [obj_sector] in *.
  - assert (Hset : ∀ o', vd_sector o' = vd_sector o → stable (set_door b o')).
    { intros o' E. apply stable_set. right. cbn. by rewrite E. }
    pose proof (λ s d c f x, stable_move (vd_sector o) s d c f x He) as Hmove.
    unfold T_VerticalDoor, end_door. repeat (stable_step || apply Hmove || (apply Hset; done)).
  - assert (Hset : ∀ o', pt_sector o' = pt_sector o → stable (set_plat b o')).
    { intros o' E. apply stable_set. right. cbn. by rewrite E. }
    pose proof (λ s d c f x, stable_move (pt_sector o) s d c f x He) as Hmove.
    unfold T_PlatRaise. repeat (stable_step || apply Hmove || apply stable_remove_plat || (apply Hset; done)).
  - pose proof (λ s d c f x, stable_move (fm_sector o) s d c f x He) as Hmove.
    unfold T_MoveFloor. repeat (stable_step || apply Hmove).
  - assert (Hset : ∀ o', ce_sector o' = ce_sector o → stable (set_ceiling b o')).
    { intros o' E. apply stable_set. right. cbn. by rewrite E. }
    pose proof (λ s d c f x, stable_move (ce_sector o) s d c f x He) as Hmove.
    unfold T_MoveCeiling. repeat (stable_step || apply Hmove || apply stable_remove_ceiling || (apply Hset; done)).
  - unfold T_FireFlicker. repeat (stable_step || (apply stable_set; by left)).
  - unfold T_LightFlash. repeat (stable_step || (apply stable_set; by left)).
  - unfold T_StrobeFlash. repeat (stable_step || (apply stable_set; by left)).
  - unfold T_Glow. repeat (stable_step || (apply stable_set; by left)).
Qed.
End other.
End frame.

(** ** What the counters leave alone *)

Section idle.
Context {T : Type}.
Implicit Types (w : world T).

(** Code that does not change the sectors and the thinkers. *)
Definition idle {A} (m : M (world T) A) : Prop :=
  ∀ w r w', m w = Ok (r, w') → sectors w' = sectors w ∧ thinkers w' = thinkers w.

Lemma idle_ret {A} (a : A) : idle (mret a).
Proof. by intros w r w' [= <- <-]. Qed.

Lemma idle_bind {A B} (m : M (world T) A) (f : A → M (world T) B) : idle m → (∀ a, idle (f a)) → idle (m ≫= f).
Proof.
  intros Hm Hf w r w'. unfold mbind, M_bind. destruct (m w) as [[a w1]|e] eqn:E; [|done]. intros Hr.
  destruct (Hm _ _ _ E), (Hf _ _ _ _ Hr). split; congruence.
Qed.

Lemma idle_mod f : (∀ w, sectors (f w) = sectors w ∧ thinkers (f w) = thinkers w) → idle (modS f).
Proof. intros Hf w r w' [= <- <-]. apply Hf. Qed.

(** Code that reads the world first. *)
Lemma idle_get {A} (f : world T → M (world T) A) :
  (∀ w r w', f w w = Ok (r, w') → sectors w' = sectors w ∧ thinkers w' = thinkers w) → idle (getS ≫= f).
Proof. intros Hf w r w' E. by eapply Hf. Qed.

Lemma idle_put {A} w0 w (m : M (world T) A) : sectors w0 = sectors w → thinkers w0 = thinkers w → idle m →
  ∀ r w', (putS w0;; m) w = Ok (r, w') → sectors w' = sectors w ∧ thinkers w' = thinkers w.
Proof. intros E1 E2 Hm r w' E. destruct (Hm w0 r w' E). split; congruence. Qed.

Lemma idle_line j : idle (line j).
Proof. apply idle_get. intros w r w'. destruct (at_index _ _); [|done]. by intros [= <- <-]. Qed.

Lemma idle_upd_side j f : idle (upd_side j f).
Proof.
  apply idle_bind; [|intros ?; by apply idle_mod]. apply idle_get. intros w r w'. destruct (at_index _ _); [|done].
  by intros [= <- <-].
Qed.

Lemma idle_timer : idle UpdateTimer.
Proof.
  apply idle_get. intros w r w'. cbn beta zeta. destruct (levelTimer (specials w)); [|by intros [= <- <-]].
  apply idle_put; [done|done|]. destruct (_ =? 0); [by apply idle_mod|apply idle_ret].
Qed.

Lemma idle_scroll ls : idle (ScrollLoop ls).
Proof.
  induction ls as [|j ls IH]; cbn [ScrollLoop]; [apply idle_ret|]. apply idle_bind; [apply idle_line|]. intros l.
  apply idle_bind; [|done]. destruct (_ =? _); [apply idle_upd_side|apply idle_ret].
Qed.

Lemma idle_button j : idle (UpdateButton j).
Proof.
  apply idle_get. intros w r w'. cbn beta. destruct (buttonlist w !! j) as [b|]; [|done].
  destruct (_ =? 0); [by intros [= <- <-]|]. apply idle_put; [done|done|].
  destruct (_ =? 0); [|apply idle_ret]. destruct (b_line b); [|done].
  apply idle_bind; [apply idle_line|]. intros l. apply idle_bind; [apply idle_upd_side|]. intros _. by apply idle_mod.
Qed.

Lemma idle_buttons n j : idle (ButtonLoop n j).
Proof.
  revert j. induction n as [|n IH]; intros j; cbn [ButtonLoop]; [apply idle_ret|].
  apply idle_bind; [apply idle_button|]. intros _. apply IH.
Qed.

Lemma idle_specials : idle P_UpdateSpecials.
Proof.
  apply idle_bind; [apply idle_timer|]. intros _. apply idle_get. intros w r w'.
  apply (idle_bind (ScrollLoop (linespeciallist (specials w))) (λ _, ButtonLoop MAXBUTTONS 0)); [apply idle_scroll|]. intros _.
  apply idle_buttons.
Qed.
End idle.

(** ** A tic of the other thinkers *)

Section tics.
Context {T : Type} (change : list sector_t → Z → bool → Z → T → bool * (Z * T)).
Implicit Types (w : world T).

(** The thinkers [addrs] do not touch the scene. *)
Lemma RunMovers_apart i k keep addrs w :
  (∀ t, keep = Some t → th_addr t ∉ addrs) →
  (∀ w t, winv None w → scene i k keep w → t ∈ thinkers w → live t → (∀ t', keep = Some t' → th_addr t' ≠ th_addr t) →
     elsewhere i (th_obj t)) →
  winv None w → NoDup addrs → (∀ a, a ∈ addrs → a ∈ th_addr <$> thinkers w) → scene i k keep w →
  wp never (RunMovers change addrs) (λ _ w', winv None w' ∧ scene i k keep w' ∧
    ∀ a, a ∉ addrs → a ∈ th_addr <$> thinkers w → a ∈ th_addr <$> thinkers w') w.
Proof.
  intros Hkeep Helse. revert w. induction addrs as [|b addrs IH]; intros w I Hn Hin Hsc; cbn [RunMovers]; [done|].
  apply NoDup_cons in Hn as [Hb Hn]. pose proof (Hin b ltac:(left)) as (t & -> & Ht)%list_elem_of_fmap.
  assert (Hother : ∀ t', keep = Some t' → th_addr t' ≠ th_addr t).
  { intros t' E E'. apply (Hkeep t' E). rewrite E'. left. }
  assert (Hnext : ∀ w1, winv None w1 → scene i k keep w1 →
    (∀ a, a ≠ th_addr t → a ∈ th_addr <$> thinkers w → a ∈ th_addr <$> thinkers w1) →
    wp never (RunMovers change addrs) (λ _ w', winv None w' ∧ scene i k keep w' ∧
      ∀ a, a ∉ th_addr t :: addrs → a ∈ th_addr <$> thinkers w → a ∈ th_addr <$> thinkers w') w1).
  { intros w1 I1 Hsc1 Hst. eapply wp_mono; [apply IH; [intros t' E H; apply (Hkeep t' E); by right|done|done| |done]|].
    - intros a Ha. apply Hst; [by intros ->|]. apply Hin. by right.
    - intros [] w' (I' & Hsc' & Hst'). split; [done|]. split; [done|]. intros a Ha Haw. rewrite not_elem_of_cons in Ha.
      apply Hst'; [tauto|]. apply Hst; tauto. }
  rewrite wp_bind. apply thinker_wp; [apply I|done|]. rewrite wp_bind. destruct (th_function t) eqn:Ef.
  - assert (Hl : live t) by (unfold live; congruence).
    pose proof (think_wp change never (th_addr <$> thinkers w) t w ltac:(done) Ht Hl) as Hwp.
    apply wp_total in Hwp as ([] & w1 & Ew & I1 & Ea1). apply wp_total. exists tt, w1. split; [exact Ew|].
    apply Hnext; [done| |by rewrite Ea1].
    eapply (stable_think change i k keep (th_addr t) Hother t eq_refl); [exact (Helse w t I Hsc Ht Hl Hother)| |exact Ew].
    split; [done|]. intros t' Ht' E'. rewrite (addr_unique _ t' t (wi_nodup _ _ I) Ht' Ht E').
    exact (Helse w t I Hsc Ht Hl Hother).
  - rewrite wp_ret. by apply Hnext.
  - rewrite wp_mod. assert (Hst : ∀ a, a ≠ th_addr t → a ∈ th_addr <$> thinkers w → a ∈ th_addr <$> thinkers (dropped (th_addr t) w)).
    { intros a Hne (t' & -> & Ht')%list_elem_of_fmap. apply list_elem_of_fmap_2, list_elem_of_filter. done. }
    apply (Hnext (dropped (th_addr t) w)); [apply dropped_ok; [done|done|]; intros H; by apply H| |done].
    destruct Hsc as [? Hk]. split; [done|]. intros t' E. cbn. apply list_elem_of_filter. split; [by apply Hother|by apply Hk].
Qed.
End tics.

(** ** One tic of a door *)

(** A door as the code steps it, with the floor [f] and the ceiling [c] of its sector, when nothing
    is in the way; [None] when it has closed and is gone. *)
Definition door_step (f c : Z) (d : vldoor_t) : option (Z * vldoor_t) :=
  if vd_direction d =? 1 then
    Some (if vd_topheight d <? c + vd_speed d then (vd_topheight d, door_motion (vd_type d) 0 (vd_topwait d) d)
          else (c + vd_speed d, d))
  else if vd_direction d =? 0 then
    let count := vd_topcountdown d - 1 in
    Some (c, door_motion (vd_type d) (if count =? 0 then -1 else 0) count d)
  else if c - vd_speed d <? f then None else Some (c - vd_speed d, d).

Fixpoint door_run (n : nat) (f : Z) (st : option (Z * vldoor_t)) : option (Z * vldoor_t) :=
  match n, st with
  | S n, Some (c, d) => door_run n f (door_step f c d)
  | _, _ => st
  end.

(** A door that closes by itself, within the integers. *)
Record good_door (i f c : Z) (d : vldoor_t) : Prop := {
  gd_type : vd_type d = vld_normal ∨ vd_type d = vld_blazeRaise;
  gd_sector : vd_sector d = i;
  gd_height : f ≤ c ≤ vd_topheight d;
  gd_speed : 0 < vd_speed d;
  gd_up : in_s 32 (vd_topheight d + vd_speed d);
  gd_down : in_s 32 (f - vd_speed d);
  gd_wait : 0 < vd_topwait d < 2 ^ 31;
  gd_direction : vd_direction d = 1 ∨ vd_direction d = -1 ∨ (vd_direction d = 0 ∧ 0 < vd_topcountdown d < 2 ^ 31);
}.

Lemma door_step_good i f c d c' d' : good_door i f c d → door_step f c d = Some (c', d') → good_door i f c' d'.
Proof.
  intros [Ht Hs Hh Hv Hu Hdn Hw Hd]. unfold door_step. destruct Hd as [Ed|[Ed|[Ed Hc]]]; rewrite Ed; cbn [Z.eqb Pos.eqb].
  - destruct (Z.ltb_spec (vd_topheight d) (c + vd_speed d)); intros [= <- <-]; split; try done; cbn; try lia; auto.
  - destruct (Z.ltb_spec (c - vd_speed d) f); [done|]. intros [= <- <-]. split; try done; lia || auto.
  - intros [= <- <-]. split; try done. cbn. destruct (Z.eqb_spec (vd_topcountdown d - 1) 0); [auto|]. right. right. split; [done|lia].
Qed.

Section door.
Context {T : Type} (change : list sector_t → Z → bool → Z → T → bool * (Z * T)).
Context (i a : Z).
Hypothesis nothing_there : unblocked change i.
Implicit Types (w : world T).

Definition door_thinker (d : vldoor_t) : thinker_t := mkThinker a act_run (ODoor d).

(** The state of the door in the world. *)
Definition door_in (f : Z) (st : option (Z * vldoor_t)) w : Prop :=
  match st with
  | Some (c, d) => scene i (f, c, Some a) (Some (door_thinker d)) w
  | None => scene i (f, f, None) None w
  end.

Lemma others_elsewhere f c d w t : winv None w → scene i (f, c, Some a) (Some (door_thinker d)) w → t ∈ thinkers w → live t →
  (∀ t', Some (door_thinker d) = Some t' → th_addr t' ≠ th_addr t) → elsewhere i (th_obj t).
Proof using Type.
  intros I [(s & Hs & [= _ _ Hd]) _] Ht Hl Hne. destruct (decide (kind_of (th_obj t) = k_light)); [by left|]. right. intros E.
  destruct (wi_owner _ _ I t Ht Hl ltac:(done)) as (s' & Hs' & Hd'). rewrite E, Hs in Hs'. injection Hs' as <-.
  rewrite Hd' in Hd by done. injection Hd as Ha. by apply (Hne _ eq_refl).
Qed.

Lemma nobody_elsewhere f w t : winv None w → scene i (f, f, None) None w → t ∈ thinkers w → live t → elsewhere i (th_obj t).
Proof using Type.
  intros I [(s & Hs & [= _ _ Hd]) _] Ht Hl. destruct (decide (kind_of (th_obj t) = k_light)); [by left|]. right. intros E.
  destruct (wi_owner _ _ I t Ht Hl ltac:(done)) as (s' & Hs' & Hd'). rewrite E, Hs in Hs'. injection Hs' as <-.
  rewrite Hd' in Hd by done. done.
Qed.

(** The ceiling of the sector has moved. *)
Lemma moved_scene f c h sd keep w w' : scene i (f, c, sd) keep w → moved w i 1 h w' → scene i (f, h, sd) keep w'.
Proof using Type.
  intros [(s & Hs & [= Hf Hc Hd]) Hk] M. pose proof (moved_sector _ _ _ _ _ _ M Hs) as Hs'. destruct M as (r & x & ->).
  split; [|done]. exists (set_plane 1 h s). split; [done|]. cbn. congruence.
Qed.

Lemma door_set_wp f c d o w : winv None w → scene i (f, c, Some a) (Some (door_thinker d)) w →
  wp never (set_door a o) (λ _ w', scene i (f, c, Some a) (Some (door_thinker o)) w') w.
Proof using Type.
  intros I [Hs Hk]. pose proof (Hk _ eq_refl) as Ht. apply (upd_thinker_wp _ (door_thinker d)); [apply I|done|].
  split; [done|]. intros t [= <-]. cbn. apply upd_thinkers_elem. exists (door_thinker d). split; [done|]. cbn.
  by rewrite Z.eqb_refl.
Qed.

Lemma door_think f c d w : winv None w → scene i (f, c, Some a) (Some (door_thinker d)) w → good_door i f c d →
  wp never (T_VerticalDoor change a d) (λ _ w', door_in f (door_step f c d) w') w.
Proof using nothing_there.
  intros I Hsc [Hty Hsec Hh Hv Hup Hdn Hw Hdir]. pose proof Hsc as [(s & Hs & [= Hf Hc Hd]) Hk].
  unfold T_VerticalDoor, door_step. destruct Hdir as [Ed|[Ed|[Ed Hcount]]]; rewrite Ed; cbn [Z.eqb Pos.eqb].
  - rewrite wp_bind, Hsec. eapply wp_mono; [apply (T_MovePlane_wp _ _ _ _ _ _ 1 1 w s); auto|].
    intros r w' (h & HM & HP). unfold plane_moves in HP. cbn [Z.eqb Pos.eqb plane_height] in HP. rewrite Hc in HP.
    replace (i32 (c + 1 * vd_speed d)) with (c + vd_speed d) in HP
      by (rewrite Z.mul_1_l; symmetry; apply wrap_s_small; [lia|unfold in_s in *; lia]).
    destruct (vd_topheight d <? c + vd_speed d).
    + destruct HP as [-> [-> |[_ ?]]]; [|done]. rewrite bool_decide_eq_true_2 by done.
      pose proof (moved_scene _ _ _ _ _ _ _ Hsc HM) as Hsc'.
      pose proof (winv_shape _ _ _ (moved_shape _ _ _ _ _ HM) I) as I'.
      destruct Hty as [-> | ->]; by apply (door_set_wp f _ d).
    + destruct HP as [[-> ->]|(-> & ? & _)]; [|done]. rewrite bool_decide_eq_false_2 by done. rewrite wp_ret.
      exact (moved_scene _ _ _ _ _ _ _ Hsc HM).
  - rewrite wp_bind, Hsec. apply (sector_wp _ _ s); [done|]. rewrite Hf, wp_bind.
    eapply wp_mono; [apply (T_MovePlane_wp _ _ _ _ _ _ 1 (-1) w s); auto|].
    intros r w' (h & HM & HP). unfold plane_moves in HP. cbn [Z.eqb Pos.eqb plane_height] in HP. rewrite Hc in HP.
    replace (i32 (c + -1 * vd_speed d)) with (c - vd_speed d) in HP
      by (replace (c + -1 * vd_speed d) with (c - vd_speed d) by lia; symmetry; apply wrap_s_small; [lia|unfold in_s in *; lia]).
    pose proof (moved_scene _ _ _ _ _ _ _ Hsc HM) as Hsc'.
    pose proof (winv_shape _ _ _ (moved_shape _ _ _ _ _ HM) I) as I'.
    destruct (c - vd_speed d <? f).
    + destruct HP as [-> [-> |[_ ?]]]; [|done]. cbn [door_in].
      assert (Hend : wp never (end_door a d) (λ _ w', scene i (f, f, None) None w') w').
      { unfold end_door. rewrite Hsec. destruct Hsc' as [(s' & Hs' & [= Hf' Hc' Hd']) Hk']. rewrite wp_bind.
        apply (upd_sector_wp _ _ s'); [done|]. pose proof (Hk' _ eq_refl) as Ht'.
        apply (upd_thinker_wp _ (door_thinker d)); [apply I'|done|]. split; [|done]. cbn.
        rewrite at_index_alter by (apply at_index_range in Hs'; lia). rewrite decide_True, Hs' by done.
        eexists. split; [done|]. cbn. congruence. }
      destruct Hty as [-> | ->]; exact Hend.
    + destruct HP as [[-> ->]|(-> & ? & _)]; [|done]. done.
  - assert (Ei : i32 (vd_topcountdown d - 1) = vd_topcountdown d - 1) by (apply wrap_s_small; [lia|unfold in_s; lia]).
    rewrite Ei, wp_bind. pose proof (door_set_wp f c d (door_motion (vd_type d) 0 (vd_topcountdown d - 1) d) w I Hsc) as Hset.
    apply wp_total in Hset as ([] & w1 & E1 & Hsc1). apply wp_total. exists tt, w1. split; [exact E1|].
    destruct (vd_topcountdown d - 1 =? 0); [|exact Hsc1].
    assert (I1 : winv None w1).
    { pose proof (work_set never (th_addr <$> thinkers w) a k_door i w (ODoor (door_motion (vd_type d) 0 (vd_topcountdown d - 1) d))
        (λ _ w', winv None w')) as H.
      refine (wp_ok never _ _ _ _ _ (H _ eq_refl Hsec _) E1); [|by intros w' [[? _] _]].
      split; [done|]. exists (door_thinker d). split_and!; [by apply Hk|done..]. }
    destruct Hty as [Et|Et]; rewrite Et in *; by apply (door_set_wp f c _ _ w1 I1 Hsc1).
Qed.

Lemma RunMovers_app (l1 l2 : list Z) Q w :
  wp never (RunMovers change l1) (λ _ w', wp never (RunMovers change l2) Q w') w → wp never (RunMovers change (l1 ++ l2)) Q w.
Proof using Type.
  revert w. induction l1 as [|b l1 IH]; intros w; cbn [RunMovers app]; [done|]. rewrite !wp_bind. intros H.
  eapply wp_mono; [exact H|]. intros t w1. rewrite !wp_bind. intros H1. eapply wp_mono; [exact H1|]. intros [] w2. apply IH.
Qed.

Lemma idle_scene j k keep w w' : sectors w' = sectors w → thinkers w' = thinkers w → scene j k keep w → scene j k keep w'.
Proof using Type. intros E1 E2. unfold scene. by rewrite E1, E2. Qed.

(** One tic of the level, with the movers of the other sectors. *)
Lemma door_tic f c d w : winv None w → scene i (f, c, Some a) (Some (door_thinker d)) w → good_door i f c d →
  wp never (P_RunMovers change) (λ _ w', winv None w' ∧ door_in f (door_step f c d) w') w.
Proof using nothing_there.
  intros I Hsc Hgood. unfold P_RunMovers. rewrite wp_bind, wp_get. pose proof (proj2 Hsc _ eq_refl) as Ht.
  assert (Ha : a ∈ th_addr <$> thinkers w) by (change a with (th_addr (door_thinker d)); by apply list_elem_of_fmap_2).
  pose proof (wi_nodup _ _ I) as Hn. set (addrs := th_addr <$> thinkers w) in *.
  assert (Hall : ∀ x, x ∈ addrs → x ∈ th_addr <$> thinkers w) by done. clearbody addrs.
  apply list_elem_of_split in Ha as (l1 & l2 & ->). apply NoDup_app in Hn as (Hn1 & Hdisj & Hn2).
  apply NoDup_cons in Hn2 as [Ha2 Hn2]. apply RunMovers_app. eapply wp_mono.
  { apply (RunMovers_apart change i (f, c, Some a) (Some (door_thinker d)) l1); [| |done|done| |done].
    - intros t [= <-] H. apply (Hdisj _ H). left.
    - intros w' t' I' Hsc' Ht' Hl' Hne. by eapply others_elsewhere.
    - intros x Hx. apply Hall. set_solver. }
  intros [] w1 (I1 & Hsc1 & Hst1). cbn [RunMovers]. rewrite wp_bind. pose proof (proj2 Hsc1 _ eq_refl) as Ht1.
  apply (thinker_wp _ (door_thinker d)); [apply I1|done|]. cbn [th_function door_thinker]. rewrite wp_bind.
  pose proof (think_wp change never (th_addr <$> thinkers w1) (door_thinker d) w1 ltac:(done) Ht1 ltac:(done)) as Hwp.
  apply wp_total in Hwp as ([] & w2 & E2 & I2 & Ea2). apply wp_total. exists tt, w2. split; [exact E2|].
  pose proof (wp_ok _ _ _ _ _ _ (door_think f c d w1 I1 Hsc1 Hgood) E2) as Hst.
  assert (Hin2 : ∀ x, x ∈ l2 → x ∈ th_addr <$> thinkers w2).
  { intros x Hx. rewrite Ea2. apply Hst1; [|apply Hall; set_solver]. intros H. apply (Hdisj _ H). set_solver. }
  destruct (door_step f c d) as [[c' d']|]; cbn [door_in] in *.
  - eapply wp_mono; [apply (RunMovers_apart change i (f, c', Some a) (Some (door_thinker d')) l2); [| |done|done|done|done]|].
    + intros t [= <-]. done.
    + intros w' t' I' Hsc' Ht' Hl' Hne. by eapply others_elsewhere.
    + intros [] w3 (I3 & Hsc3 & _). done.
  - eapply wp_mono; [apply (RunMovers_apart change i (f, f, None) None l2); [done| |done|done|done|done]|].
    + intros w' t' I' Hsc' Ht' Hl' _. by eapply nobody_elsewhere.
    + intros [] w3 (I3 & Hsc3 & _). done.
Qed.

Lemma closed_tic f w : winv None w → scene i (f, f, None) None w →
  wp never (P_RunMovers change) (λ _ w', winv None w' ∧ scene i (f, f, None) None w') w.
Proof using Type.
  intros I Hsc. unfold P_RunMovers. rewrite wp_bind, wp_get.
  eapply wp_mono; [apply (RunMovers_apart change i (f, f, None) None); [done| |done|apply I|done|done]|].
  - intros w' t' I' Hsc' Ht' Hl' _. by eapply nobody_elsewhere.
  - intros [] w3 (I3 & Hsc3 & _). done.
Qed.

Fixpoint tics (n : nat) : M (world T) unit :=
  match n with O => mret tt | S n => SpecialsTic change;; tics n end.

Definition good_state (f : Z) (st : option (Z * vldoor_t)) : Prop :=
  match st with Some (c, d) => good_door i f c d | None => True end.

Lemma tics_door n : ∀ f st w, winv None w → door_in f st w → good_state f st →
  wp never (tics n) (λ _ w', winv None w' ∧ door_in f (door_run n f st) w') w.
Proof using nothing_there.
  induction n as [|n IH]; intros f st w I Hst Hgood; [by destruct st as [[]|]|]. cbn [tics]. rewrite wp_bind.
  assert (Hspec : ∀ w1 st', winv None w1 ∧ door_in f st' w1 →
    wp never P_UpdateSpecials (λ _ w', winv None w' ∧ door_in f st' w') w1).
  { intros w1 st' [I1 Hst1]. pose proof (UpdateSpecials_wp never w1 I1) as H. apply wp_total in H as ([] & w2 & E2 & I2).
    apply wp_total. exists tt, w2. split; [exact E2|]. split; [done|]. destruct (idle_specials _ _ _ E2) as [Es Et].
    destruct st' as [[]|]; by eapply idle_scene. }
  unfold SpecialsTic. rewrite wp_bind. destruct st as [[c d]|]; cbn [door_in good_state door_run] in *.
  - eapply wp_mono; [by apply door_tic|]. intros [] w1 H1. eapply wp_mono; [by apply Hspec|]. intros [] w2 [I2 H2].
    apply IH; [done|done|]. destruct (door_step f c d) as [[c' d']|] eqn:Es; [|done]. by eapply door_step_good.
  - eapply wp_mono; [by apply closed_tic|]. intros [] w1 H1. eapply wp_mono; [by apply (Hspec _ None)|]. intros [] w2 [I2 H2].
    eapply wp_mono; [by apply (IH f None)|]. by destruct n.
Qed.
End door.

(** ** The times *)

Lemma door_run_add n m f st : door_run (n + m) f st = door_run m f (door_run n f st).
Proof.
  revert st. induction n as [|n IH]; intros st; [done|]. destruct st as [[c d]|]; cbn; [apply IH|by destruct m].
Qed.

(** The number of steps of size [v] until a step passes the end of the way [h]. *)
Definition steps (h v : Z) : nat := S (Z.to_nat (h / v)).

Lemma door_opens f d : 0 < vd_speed d → vd_direction d = 1 → ∀ n c, c ≤ vd_topheight d → Z.to_nat ((vd_topheight d - c) / vd_speed d) = n →
  door_run (S n) f (Some (c, d)) = Some (vd_topheight d, door_motion (vd_type d) 0 (vd_topwait d) d).
Proof.
  intros Hv Hd. induction n as [|n IH]; intros c Hc Hn; cbn [door_run]; unfold door_step; rewrite Hd; cbn [Z.eqb Pos.eqb].
  - pose proof (Z.div_pos (vd_topheight d - c) (vd_speed d)). assert (E : (vd_topheight d - c) / vd_speed d = 0) by lia.
    apply Z.div_small_iff in E; [|lia]. rewrite (proj2 (Z.ltb_lt _ _)) by lia. done.
  - assert (Hge : vd_speed d ≤ vd_topheight d - c).
    { destruct (Z.le_gt_cases (vd_speed d) (vd_topheight d - c)); [done|]. rewrite Z.div_small in Hn by lia. done. }
    rewrite (proj2 (Z.ltb_ge _ _)) by lia. apply IH; [lia|].
    replace (vd_topheight d - (c + vd_speed d)) with (vd_topheight d - c + (-1) * vd_speed d) by lia. rewrite Z.div_add by lia. lia.
Qed.

Lemma door_waits f c d : vd_direction d = 0 → ∀ n, 0 < vd_topcountdown d → Z.to_nat (vd_topcountdown d) = n →
  door_run n f (Some (c, d)) = Some (c, door_motion (vd_type d) (-1) 0 d).
Proof.
  intros Hd n. revert d Hd. induction n as [|n IH]; intros d Hd Hc Hn; [lia|]. cbn [door_run]. unfold door_step. rewrite Hd.
  cbn [Z.eqb Pos.eqb]. destruct (Z.eqb_spec (vd_topcountdown d - 1) 0) as [E|].
  - assert (n = 0%nat) as -> by lia. cbn. do 2 f_equal. by rewrite E.
  - rewrite (IH (door_motion (vd_type d) 0 (vd_topcountdown d - 1) d)); [done|done|cbn; lia|cbn; lia].
Qed.

Lemma door_shuts f d : 0 < vd_speed d → vd_direction d = -1 → ∀ n c, f ≤ c → Z.to_nat ((c - f) / vd_speed d) = n →
  door_run (S n) f (Some (c, d)) = None.
Proof.
  intros Hv Hd. induction n as [|n IH]; intros c Hc Hn; cbn [door_run]; unfold door_step; rewrite Hd; cbn [Z.eqb Pos.eqb].
  - pose proof (Z.div_pos (c - f) (vd_speed d)). assert (E : (c - f) / vd_speed d = 0) by lia.
    apply Z.div_small_iff in E; [|lia]. rewrite (proj2 (Z.ltb_lt _ _)) by lia. done.
  - assert (Hge : vd_speed d ≤ c - f).
    { destruct (Z.le_gt_cases (vd_speed d) (c - f)); [done|]. rewrite Z.div_small in Hn by lia. done. }
    rewrite (proj2 (Z.ltb_ge _ _)) by lia. apply IH; [lia|].
    replace (c - vd_speed d - f) with (c - f + (-1) * vd_speed d) by lia. rewrite Z.div_add by lia. lia.
Qed.

(** C30. A door opens and closes again: in a level where every mover is the one of its sector, a
    door that has started to open and that nothing ever blocks is fully open after as many tics as
    its way has steps, and after its waiting time and the tics of the way down its ceiling is on its
    floor, its sector has no mover and is free for the next event; whatever else moves and flickers
    meanwhile. *)
Theorem door_closes {T} change (w : world T) i a f c d :
  winv None w → unblocked change i → vd_direction d = 1 → good_door i f c d →
  scene i (f, c, Some a) (Some (door_thinker a d)) w →
  let opening := steps (vd_topheight d - c) (vd_speed d) in
  let closing := steps (vd_topheight d - f) (vd_speed d) in
  (∃ w1 s, tics change opening w = Ok (tt, w1) ∧ at_index (sectors w1) i = Some s ∧
     ceilingheight s = vd_topheight d ∧ floorheight s = f) ∧
  ∃ w2 s, tics change (opening + (Z.to_nat (vd_topwait d) + closing)) w = Ok (tt, w2) ∧
    at_index (sectors w2) i = Some s ∧ ceilingheight s = f ∧ floorheight s = f ∧ specialdata s = None.
Proof.
  intros I Hu Hd Hg Hsc opening closing. pose proof Hg as [_ _ Hh Hv _ _ Hw _].
  pose proof (door_opens f d Hv Hd _ c ltac:(lia) eq_refl) as E1. fold (steps (vd_topheight d - c) (vd_speed d)) in E1. fold opening in E1.
  assert (E2 : door_run (opening + (Z.to_nat (vd_topwait d) + closing)) f (Some (c, d)) = None).
  { rewrite !door_run_add, E1. rewrite (door_waits f (vd_topheight d) (door_motion (vd_type d) 0 (vd_topwait d) d)); [|done|cbn; lia|done].
    apply (door_shuts f (door_motion (vd_type d) (-1) 0 (door_motion (vd_type d) 0 (vd_topwait d) d))); [done|done|lia|done]. }
  pose proof (λ n, tics_door change i a Hu n f (Some (c, d)) w I Hsc Hg) as Ht. split.
  - specialize (Ht opening). apply wp_total in Ht as ([] & w1 & Er & _ & Hst). rewrite E1 in Hst.
    destruct Hst as [(s & Hs & [= Hf Hc _]) _]. by exists w1, s.
  - specialize (Ht (opening + (Z.to_nat (vd_topwait d) + closing))%nat). apply wp_total in Ht as ([] & w2 & Er & _ & Hst). rewrite E2 in Hst.
    destruct Hst as [(s & Hs & [= Hf Hc Hsd]) _]. by exists w2, s.
Qed.

(** The door of the small map: 63 tics up, 150 open, 63 down. *)
Lemma door_closes_witness :
  winv None small_opened ∧ unblocked still 1 ∧
  ∃ w2 s, tics still 276 small_opened = Ok (tt, w2) ∧ at_index (sectors w2) 1 = Some s ∧
    ceilingheight s = 0 ∧ floorheight s = 0 ∧ specialdata s = None.
Proof.
  split; [apply small_opened_inv|]. split; [done|].
  refine (proj2 (door_closes still small_opened 1 100 0 0 (mkDoor vld_normal 1 8126464 131072 1 150 0) small_opened_inv _ _ _ _)).
  - done.
  - reflexivity.
  - split; cbn; auto; lia || by vm_compute.
  - split; [eexists; split; reflexivity|]. intros t [= <-]. left.
Defined.
