(* ===== verification/Buttons.v ===== *)
(** * A wall button switches back

    The texture that [P_ChangeSwitchTexture] of Triggers.v puts on a wall for a button, and the
    count down after which [P_UpdateSpecials] takes it away again. *)
From S2P Require Import Prelude.
From S2P Require Import Movers.
From S2P Require Import MoversSafe.
From S2P Require Import Triggers.
From S2P Require Import TriggersSafe.
From S2P Require Import MoversSpec.

Definition texture_at (wh : bwhere_e) (s : side_t) : Z :=
  match wh with top => toptexture s | middle => midtexture s | bottom => bottomtexture s end.

(** A side's textures fit their 16 bits. *)
Definition side_ok (s : side_t) : Prop := ∀ wh, in_s 16 (texture_at wh s).

Lemma set_texture_back wh v s : side_ok s → set_texture wh (texture_at wh s) (set_texture wh v s) = s.
Proof.
  intros Hs. specialize (Hs wh). destruct s. destruct wh; unfold set_texture; cbn in *; by rewrite wrap_s_small.
Qed.

Section buttons.
Context {T : Type} (switchlist : list Z).
Hypothesis switches_even : Nat.Even (length switchlist).
Implicit Types (w : world T).

(** The world with one button counting, and another texture on the wall. *)
Definition pressed_at (ln sd : Z) (wh : bwhere_e) (tex v timer : Z) w : world T :=
  with_buttons (mkButton (Some ln) wh tex timer :: replicate (MAXBUTTONS - 1) no_button)
    (with_sides (alter (set_texture wh v) (Z.to_nat sd) (sides w)) w).

Lemma SwitchLoop_press w ln sd s : at_index (sides w) sd = Some s → buttonlist w = replicate MAXBUTTONS no_button →
  ∀ l i, 0 ≤ i → drop (Z.to_nat i) switchlist = l →
  wp never (SwitchLoop switchlist ln sd (toptexture s) (midtexture s) (bottomtexture s) true i l)
    (λ _ w', (w' = w ∧ ∀ x wh, x ∈ l → x ≠ texture_at wh s) ∨
      ∃ j wh v, i ≤ j ∧ at_index switchlist j = Some (texture_at wh s) ∧ at_index switchlist (Z.lxor j 1) = Some v ∧
        w' = pressed_at ln sd wh (texture_at wh s) v BUTTONTIME w) w.
Proof using switches_even.
  intros Hs Hb. induction l as [|x l IH]; intros i Hi Hl; cbn [SwitchLoop].
  { left. split; [done|]. intros x wh ?%not_elem_of_nil. done. }
  assert (Hx : at_index switchlist i = Some x).
  { apply at_index_Some. split; [done|]. rewrite <- (Nat.add_0_r (Z.to_nat i)), <- lookup_drop, Hl. done. }
  pose proof (at_index_range _ _ _ Hx) as Hr.
  destruct (at_index_valid switchlist (Z.lxor i 1)) as [v Hv]; [by apply lxor_range|].
  assert (Hhit : ∀ wh, x = texture_at wh s → wp never (v ← switched switchlist i; upd_side sd (set_texture wh v);;
      if true then P_StartButton ln wh x BUTTONTIME else mret tt)
    (λ _ w', (w' = w ∧ ∀ y wh, y ∈ x :: l → y ≠ texture_at wh s) ∨
      ∃ j wh v, i ≤ j ∧ at_index switchlist j = Some (texture_at wh s) ∧ at_index switchlist (Z.lxor j 1) = Some v ∧
        w' = pressed_at ln sd wh (texture_at wh s) v BUTTONTIME w) w).
  { intros wh ->. unfold switched. rewrite Hv, wp_bind, wp_ret. unfold upd_side. rewrite wp_bind, wp_bind.
    apply (side_wp _ _ s); [done|]. rewrite wp_mod. unfold P_StartButton. rewrite wp_bind, wp_get.
    change (buttonlist (with_sides _ w)) with (buttonlist w). rewrite Hb.
    assert (Ee : existsb (pressed ln) (replicate MAXBUTTONS no_button) = false) by reflexivity. rewrite Ee.
    change (FreeButton ?b (replicate MAXBUTTONS no_button)) with (Some (b :: replicate (MAXBUTTONS - 1) no_button)). rewrite wp_put.
    right. exists i, wh, v. split; [lia|]. split; [done|]. split; [done|]. done. }
  destruct (Z.eqb_spec x (toptexture s)) as [E1|N1]; [by apply (Hhit top)|].
  destruct (Z.eqb_spec x (midtexture s)) as [E2|N2]; [by apply (Hhit middle)|].
  destruct (Z.eqb_spec x (bottomtexture s)) as [E3|N3]; [by apply (Hhit bottom)|].
  eapply wp_mono; [apply IH; [lia|]|].
  - replace (Z.to_nat (i + 1)) with (Z.to_nat i + 1)%nat by lia. rewrite <- drop_drop, Hl. done.
  - intros [] w' [[-> Hno]|(j & wh & u & Hj & ?)]; [left|right; exists j, wh, u; split; [lia|done]].
    split; [done|]. intros y wh [-> |Hy]%elem_of_cons; [by destruct wh|by apply Hno].
Qed.

Lemma ButtonLoop_idle n i w : (∀ j, (i ≤ j < i + n)%nat → ∃ b, buttonlist w !! j = Some b ∧ b_timer b = 0) →
  ButtonLoop n i w = Ok (tt, w).
Proof using Type.
  revert i. induction n as [|n IH]; intros i Hj; cbn [ButtonLoop]; [done|].
  destruct (Hj i ltac:(lia)) as (b & Hb & Ht). unfold mbind, M_bind, UpdateButton, getS. cbn beta iota. unfold mbind, M_bind. rewrite Hb, Ht.
  cbn [Z.eqb]. apply IH. intros j Hjr. apply Hj. lia.
Qed.

Fixpoint button_tics (n : nat) : M (world T) unit :=
  match n with O => mret tt | S n => ButtonLoop MAXBUTTONS 0;; button_tics n end.

(** One round while the button counts. *)
Lemma button_counts ln sd wh tex v timer w : 1 < timer < 2 ^ 31 →
  ButtonLoop MAXBUTTONS 0 (pressed_at ln sd wh tex v timer w) = Ok (tt, pressed_at ln sd wh tex v (timer - 1) w).
Proof using Type.
  intros Ht. change (ButtonLoop (T := T) MAXBUTTONS 0) with (UpdateButton (T := T) 0;; ButtonLoop 15 1).
  assert (E : UpdateButton 0 (pressed_at ln sd wh tex v timer w) = Ok (tt, pressed_at ln sd wh tex v (timer - 1) w)).
  { unfold UpdateButton, mbind, M_bind, getS. cbn [buttonlist pressed_at with_buttons lookup list_lookup].
    rewrite (proj2 (Z.eqb_neq (b_timer _) 0)) by (cbn; lia). cbn [b_timer b_line b_where b_texture].
    replace (i32 (timer - 1)) with (timer - 1) by (symmetry; apply wrap_s_small; [lia|unfold in_s; lia]).
    rewrite (proj2 (Z.eqb_neq (timer - 1) 0)) by lia. done. }
  unfold mbind, M_bind. rewrite E. apply ButtonLoop_idle. intros j Hj. exists no_button. split; [|done].
  destruct j as [|j]; [lia|]. apply (lookup_replicate_2 15%nat). lia.
Qed.

(** The round in which it has counted down. *)
Lemma button_ends ln l wh tex v w : at_index (lines w) ln = Some l → is_Some (at_index (sides w) (sidenum l).1) →
  ButtonLoop MAXBUTTONS 0 (pressed_at ln (sidenum l).1 wh tex v 1 w) =
  Ok (tt, with_buttons (replicate MAXBUTTONS no_button)
    (with_sides (alter (set_texture wh tex) (Z.to_nat (sidenum l).1) (alter (set_texture wh v) (Z.to_nat (sidenum l).1) (sides w))) w)).
Proof using Type.
  intros Hl [s Hs]. pose proof (at_index_range _ _ _ Hs) as Hr.
  set (w1 := pressed_at ln (sidenum l).1 wh tex v 1 w).
  set (w2 := with_buttons _ (with_sides _ w)).
  assert (E : wp never (UpdateButton 0) (λ _ w', w' = w2) w1).
  { unfold UpdateButton. rewrite wp_bind, wp_get. cbn [buttonlist w1 pressed_at with_buttons lookup list_lookup b_timer Z.eqb].
    rewrite wp_bind, wp_put. cbn [b_line]. change (i32 (1 - 1) =? 0) with true. cbn iota. rewrite wp_bind.
    apply (line_wp _ _ l); [done|]. rewrite wp_bind. unfold upd_side. rewrite wp_bind.
    apply (side_wp _ _ (set_texture wh v s)); [|done]. cbn. rewrite at_index_alter by lia. by rewrite decide_True, Hs. }
  apply wp_total in E as ([] & w' & E & ->).
  change (ButtonLoop (T := T) MAXBUTTONS 0) with (UpdateButton (T := T) 0;; ButtonLoop 15 1).
  unfold mbind, M_bind. rewrite E. apply ButtonLoop_idle. intros j Hj. exists no_button. split; [|done].
  apply (lookup_replicate_2 16%nat). lia.
Qed.

Lemma button_counts_down ln l wh tex v w : at_index (lines w) ln = Some l → is_Some (at_index (sides w) (sidenum l).1) →
  ∀ n, Z.of_nat n < 2 ^ 31 - 1 →
  button_tics (S n) (pressed_at ln (sidenum l).1 wh tex v (Z.of_nat (S n)) w) =
  Ok (tt, with_buttons (replicate MAXBUTTONS no_button)
    (with_sides (alter (set_texture wh tex) (Z.to_nat (sidenum l).1) (alter (set_texture wh v) (Z.to_nat (sidenum l).1) (sides w))) w)).
Proof using Type.
  intros Hl Hs. induction n as [|n IH]; intros Hn.
  - change (button_tics 1) with (ButtonLoop (T := T) MAXBUTTONS 0;; mret tt). unfold mbind, M_bind.
    change (Z.of_nat 1) with 1. by rewrite (button_ends ln l).
  - change (button_tics (S (S n))) with (ButtonLoop (T := T) MAXBUTTONS 0;; button_tics (S n)).
    unfold mbind, M_bind. rewrite button_counts by lia. replace (Z.of_nat (S (S n)) - 1) with (Z.of_nat (S n)) by lia.
    apply IH. lia.
Qed.
End buttons.

(** A wall button switches back: on a wall whose textures include a switch, pressing it puts the
    other picture of the switch there, and after [BUTTONTIME] rounds the wall is as before and no
    button counts; a wall without a switch is not changed. *)
Theorem button_switches_back {T} R_TextureNumForName gamemode (w : world T) ln l s :
  let switchlist := P_InitSwitchList R_TextureNumForName gamemode in
  at_index (lines w) ln = Some l → at_index (sides w) (sidenum l).1 = Some s → side_ok s →
  buttonlist w = replicate MAXBUTTONS no_button →
  ∃ w1, P_ChangeSwitchTexture switchlist ln true w = Ok (tt, w1) ∧
    ((w1 = w ∧ ∀ wh, texture_at wh s ∉ switchlist) ∨
     (∃ j wh v, at_index switchlist j = Some (texture_at wh s) ∧ at_index switchlist (Z.lxor j 1) = Some v ∧
        at_index (sides w1) (sidenum l).1 = Some (set_texture wh v s) ∧
        button_tics (Z.to_nat BUTTONTIME) w1 = Ok (tt, w))).
Proof.
  intros switchlist Hl Hs Hok Hb. pose proof (at_index_range _ _ _ Hs) as Hr.
  assert (H : wp never (P_ChangeSwitchTexture switchlist ln true) (λ _ w1,
    (w1 = w ∧ ∀ x wh, x ∈ switchlist → x ≠ texture_at wh s) ∨
    ∃ j wh v, 0 ≤ j ∧ at_index switchlist j = Some (texture_at wh s) ∧ at_index switchlist (Z.lxor j 1) = Some v ∧
      w1 = pressed_at ln (sidenum l).1 wh (texture_at wh s) v BUTTONTIME w) w).
  { unfold P_ChangeSwitchTexture. cbn [negb]. rewrite wp_bind, wp_ret, wp_bind. apply (line_wp _ _ l); [done|].
    rewrite wp_bind. apply (side_wp _ _ s); [done|]. apply SwitchLoop_press; [apply InitSwitchLoop_even|done|done|lia|done]. }
  apply wp_total in H as ([] & w1 & E & HP). exists w1. split; [exact E|].
  destruct HP as [[-> Hno]|(j & wh & v & _ & Hj & Hv & ->)]; [left|right].
  - split; [done|]. intros wh Hin. by apply (Hno _ wh Hin).
  - exists j, wh, v. split; [done|]. split; [done|]. split.
    + cbn. rewrite at_index_alter by lia. by rewrite decide_True, Hs.
    + change (Z.to_nat BUTTONTIME) with 35%nat. change BUTTONTIME with (Z.of_nat 35).
      rewrite (button_counts_down ln l) by (done || lia). do 2 f_equal.
      assert (Es : alter (set_texture wh (texture_at wh s)) (Z.to_nat (sidenum l).1)
        (alter (set_texture wh v) (Z.to_nat (sidenum l).1) (sides w)) = sides w).
      { apply at_index_Some in Hs as [_ Hs]. apply list_eq. intros n. destruct (decide (n = Z.to_nat (sidenum l).1)) as [-> |].
        - rewrite !list_lookup_alter_eq, Hs. cbn. by rewrite set_texture_back.
        - by rewrite !list_lookup_alter_ne by congruence. }
      rewrite Es, <- Hb. by destruct w.
Qed.

(** The wall of a map on which the middle texture, number 5, is the first picture of a switch. *)
Definition numbers (name : string) : Z := if decide (name = "SW1BRCOM"%string) then 5 else if decide (name = "SW2BRCOM"%string) then 6 else 0.

Lemma button_switches_back_witness :
  buttonlist small_start = replicate MAXBUTTONS no_button ∧
  ∃ w1, P_ChangeSwitchTexture (P_InitSwitchList numbers shareware) 0 true small_start = Ok (tt, w1) ∧
    ((w1 = small_start ∧ ∀ wh, texture_at wh (mkSide 0 3 4 5 0) ∉ P_InitSwitchList numbers shareware) ∨
     (∃ j wh v, at_index (P_InitSwitchList numbers shareware) j = Some (texture_at wh (mkSide 0 3 4 5 0)) ∧
        at_index (P_InitSwitchList numbers shareware) (Z.lxor j 1) = Some v ∧
        at_index (sides w1) 0 = Some (set_texture wh v (mkSide 0 3 4 5 0)) ∧
        button_tics (Z.to_nat BUTTONTIME) w1 = Ok (tt, small_start))).
Proof.
  split; [reflexivity|].
  apply (button_switches_back numbers shareware small_start 0 (mkLine true false 1 0 (0, 1) 0 (Some 1)) (mkSide 0 3 4 5 0)).
  - reflexivity.
  - reflexivity.
  - intros []; vm_compute; by split.
  - reflexivity.
Defined.
