(* ===== verification/MoversFindings.v ===== *)
(** * Moving sectors: where the code does not do what it means to

    Small levels on which the functions of Movers.v differ from what their comments or their
    other branches intend. *)
From S2P Require Import Prelude.
From S2P Require Import Movers.
From S2P Require Import MoversSafe.
From S2P Require Import Triggers.
From S2P Require Import TriggersSafe.
From S2P Require Import MoversSpec.

(** Levels with the given sectors, lines and sides. *)
Definition level (ss : list sector_t) (ls : list line_t) (sds : list side_t) : world unit :=
  mkWorld ss ls sds [] 100 (replicate MAXPLATS None) (replicate MAXCEILINGS None) 0 None
    (replicate MAXBUTTONS no_button) (mkSpecials 0 false 0 []) None tt.

(** Two dark sectors with the tag 5, the first beside a sector of light 80, the second beside one of
    light 200. *)
Definition two_rooms : world unit :=
  level
    [mkSector 0 100 0 80 0 0 None [0]; mkSector 0 100 0 10 0 5 None [0];
     mkSector 0 100 0 200 0 0 None [1]; mkSector 0 100 0 10 0 5 None [1]]
    [mkLine true false 12 5 (0, 1) 0 (Some 1); mkLine true false 0 0 (2, 3) 2 (Some 3)]
    [mkSide 0 0 0 0 0; mkSide 0 0 0 0 1; mkSide 0 0 0 0 2; mkSide 0 0 0 0 3].

(** The light around the first tagged sector is given to the second one too. *)
Lemma light_of_first_sector :
  ∃ w, EV_LightTurnOn 0 0 two_rooms = Ok (tt, w) ∧ (lightlevel <$> sectors w) = [80; 80; 200; 80].
Proof. eexists. split; vm_compute; reflexivity. Qed.

(** A sector with one line and the tag 5, lower than the one beside it, which has two lines. *)
Definition uneven : world unit :=
  level
    [mkSector (-16) 100 0 80 0 5 None [0]; mkSector 0 100 0 80 0 0 None [0; 1]; mkSector (-8) 100 0 80 0 0 None [1]]
    [mkLine true false 37 5 (0, 1) 0 (Some 1); mkLine true false 0 0 (1, 2) 1 (Some 2)]
    [mkSide 0 0 0 0 0; mkSide 0 0 0 0 1; mkSide 0 0 0 0 2].

(** The loop of [lowerAndChange] goes on to the second line of a sector that has one. *)
Lemma lower_and_change_reads_past : EV_DoFloor zero_floor (λ _, 0) 0 lowerAndChange uneven = Stop BadAccess.
Proof. vm_compute. reflexivity. Qed.

(** The level of [small_map] with a line that opens the door for good. *)
Definition open_map : world unit :=
  level
    [mkSector 0 (128 * FRACUNIT) 7 160 0 0 None [0]; mkSector 0 0 9 160 0 9 None [0]]
    [mkLine true false 31 9 (0, 1) 0 (Some 1)]
    [mkSide 0 3 4 5 0; mkSide 0 3 4 5 1].

(** A floor on the move and the door line used: the sector has two movers, and it knows only the
    second. *)
Lemma open_door_on_moving_sector :
  ∃ w1 w2, EV_DoFloor zero_floor (λ _, 0) 0 raiseFloor24 open_map = Ok (1, w1) ∧
    P_UseSpecialLine zero_door zero_plat zero_floor zero_ceiling (λ _, 0) (λ _ o, o) (λ _, 0) (0, 0) no_teleport [] true
      marine 0 0 w1 = Ok (true, w2) ∧
    (obj_sector ∘ th_obj <$> thinkers w2) = [1; 1] ∧ (specialdata <$> sectors w2) = [None; Some 101].
Proof. do 2 eexists. split; [vm_compute; reflexivity|]. split; [vm_compute; reflexivity|]. split; reflexivity. Qed.
