(* ===== verification/Bytes.v ===== *)
(** * Byte sequences
    Blocks of memory and disks are lists of bytes.  [slice o n l] is what a copy of [n] bytes
    from offset [o] reads, [splice o x l] what a copy of [x] to offset [o] leaves behind; little-endian
    integers of two and four bytes are read and written at an offset.  The lemmas say which reads
    see a write. *)
From S2P Require Import Prelude.

Abbreviation zlen l := (Z.of_nat (length l)).

Definition slice (o n : Z) (l : list Z) : list Z := take (Z.to_nat n) (drop (Z.to_nat o) l).

Definition splice (o : Z) (x l : list Z) : list Z :=
  take (Z.to_nat o) l ++ x ++ drop (Z.to_nat o + length x) l.

Definition bytes (l : list Z) : Prop := Forall (λ b, 0 ≤ b < 256) l.

Definition get16 (o : Z) (l : list Z) : Z :=
  (l !!! Z.to_nat o : Z) + 256 * (l !!! S (Z.to_nat o) : Z).
Definition get32 (o : Z) (l : list Z) : Z := get16 o l + 65536 * get16 (o + 2) l.
Definition le16 (v : Z) : list Z := [v `mod` 256; (v / 256) `mod` 256].
Definition le32 (v : Z) : list Z := le16 v ++ le16 (v / 65536).

(** [l] with its [n]-byte element [i] replaced. *)
Definition put (n i : Z) (x l : list Z) : list Z := splice (i * n) x l.

Section slices.
Implicit Types (l x : list Z) (o n : Z).

Lemma length_slice o n l : 0 ≤ o → 0 ≤ n → o + n ≤ zlen l → zlen (slice o n l) = n.
Proof. intros. unfold slice. rewrite length_take, length_drop. lia. Qed.

Lemma length_splice o x l : 0 ≤ o → o + zlen x ≤ zlen l → length (splice o x l) = length l.
Proof. intros. unfold splice. rewrite !length_app, length_take, length_drop. lia. Qed.

Lemma lookup_slice o n l i :
  0 ≤ o → (i < Z.to_nat n)%nat → slice o n l !! i = l !! (Z.to_nat o + i)%nat.
Proof. intros. unfold slice. rewrite lookup_take_lt by lia. by rewrite lookup_drop. Qed.

Lemma lookup_splice o x l i :
  0 ≤ o → o + zlen x ≤ zlen l →
  splice o x l !! i =
    if decide (o ≤ Z.of_nat i < o + zlen x) then x !! (i - Z.to_nat o)%nat else l !! i.
Proof.
  intros. unfold splice. case_decide.
  - rewrite lookup_app_r by (rewrite length_take; lia).
    rewrite lookup_app_l by (rewrite length_take; lia). f_equal. rewrite length_take. lia.
  - destruct (decide (i < Z.to_nat o)%nat).
    + rewrite lookup_app_l by (rewrite length_take; lia). by apply lookup_take_lt.
    + rewrite !lookup_app_r by (rewrite ?length_take; lia). rewrite lookup_drop, length_take.
      f_equal. lia.
Qed.

Lemma slice_ext o n l l' :
  0 ≤ o → (∀ i, o ≤ Z.of_nat i < o + n → l !! i = l' !! i) → slice o n l = slice o n l'.
Proof.
  intros Ho H. apply list_eq. intros i. destruct (decide (i < Z.to_nat n)%nat).
  - rewrite !lookup_slice by done. apply H. lia.
  - unfold slice. by rewrite !lookup_take_ge by lia.
Qed.

(** A read that the write covers, one apart from it, and one that contains it. *)
Lemma slice_splice o x l : 0 ≤ o → o + zlen x ≤ zlen l → slice o (zlen x) (splice o x l) = x.
Proof.
  intros. apply list_eq. intros i. destruct (decide (i < length x)%nat).
  - rewrite lookup_slice, lookup_splice, decide_True by lia. f_equal. lia.
  - rewrite (lookup_ge_None_2 x) by lia. unfold slice. by rewrite lookup_take_ge by lia.
Qed.

Lemma slice_splice_apart o n o' x l :
  0 ≤ o → 0 ≤ o' → o' + zlen x ≤ zlen l → o + n ≤ o' ∨ o' + zlen x ≤ o →
  slice o n (splice o' x l) = slice o n l.
Proof.
  intros. apply slice_ext; [done|]. intros i Hi. rewrite lookup_splice, decide_False by lia. done.
Qed.

Lemma slice_splice_in o n o' x l :
  0 ≤ o → o ≤ o' → o' + zlen x ≤ o + n → o + n ≤ zlen l →
  slice o n (splice o' x l) = splice (o' - o) x (slice o n l).
Proof.
  intros. apply list_eq. intros i. destruct (decide (i < Z.to_nat n)%nat).
  - rewrite lookup_slice, !lookup_splice by (rewrite ?length_slice; lia).
    case_decide; case_decide; try lia.
    + f_equal. lia.
    + by rewrite lookup_slice by lia.
  - pose proof (length_slice o n l). pose proof (length_splice (o' - o) x (slice o n l)).
    rewrite !lookup_ge_None_2; [done|lia|]. unfold slice. rewrite length_take. lia.
Qed.

Lemma slice_slice o n o' n' l :
  0 ≤ o → 0 ≤ o' → o' + n' ≤ n → slice o' n' (slice o n l) = slice (o + o') n' l.
Proof.
  intros. apply list_eq. intros i. destruct (decide (i < Z.to_nat n')%nat).
  - rewrite !lookup_slice by lia. f_equal. lia.
  - unfold slice. by rewrite !lookup_take_ge by lia.
Qed.

Lemma slice_all n l : zlen l = n → slice 0 n l = l.
Proof. intros <-. unfold slice. rewrite drop_0, take_ge by lia. done. Qed.

Lemma slice_app o n m l : 0 ≤ o → 0 ≤ n → 0 ≤ m → slice o n l ++ slice (o + n) m l = slice o (n + m) l.
Proof.
  intros. unfold slice. rewrite !Z2Nat.inj_add by lia.
  rewrite <- drop_drop. by rewrite <- take_take_drop.
Qed.

Lemma splice_splice o x y l :
  0 ≤ o → length x = length y → o + zlen x ≤ zlen l → splice o y (splice o x l) = splice o y l.
Proof.
  intros Ho Hl ?. apply list_eq. intros i.
  rewrite !lookup_splice by (rewrite ?length_splice; lia). by repeat case_decide; try lia.
Qed.

Lemma splice_slice o n l : 0 ≤ o → 0 ≤ n → o + n ≤ zlen l → splice o (slice o n l) l = l.
Proof.
  intros. apply list_eq. intros i. pose proof (length_slice o n l).
  rewrite lookup_splice by lia. case_decide; [|done]. rewrite lookup_slice by lia. f_equal. lia.
Qed.

Lemma splice_all x l : length x = length l → splice 0 x l = x.
Proof. intros H. unfold splice. cbn. rewrite drop_ge by lia. apply app_nil_r. Qed.
Lemma splice_nil o l : splice o [] l = l.
Proof. unfold splice. cbn [length app]. rewrite Nat.add_0_r. apply take_drop. Qed.

Lemma splice_cons o c x l :
  0 ≤ o → o + 1 + zlen x ≤ zlen l → splice (o + 1) x (<[Z.to_nat o := c]> l) = splice o (c :: x) l.
Proof.
  intros. apply list_eq. intros i.
  rewrite !lookup_splice by (rewrite ?length_insert; cbn [length]; lia). cbn [length].
  destruct (decide (i = Z.to_nat o)) as [->|].
  - rewrite decide_False, decide_True by lia. rewrite list_lookup_insert_eq by lia.
    by rewrite Nat.sub_diag.
  - rewrite list_lookup_insert_ne by done. repeat case_decide; try lia; [|done].
    by replace (i - Z.to_nat o)%nat with (S (i - Z.to_nat (o + 1)))%nat by lia.
Qed.

Lemma splice_app o x y l :
  0 ≤ o → o + zlen x + zlen y ≤ zlen l → splice (o + zlen x) y (splice o x l) = splice o (x ++ y) l.
Proof.
  intros. apply list_eq. intros i. rewrite !lookup_splice by (rewrite ?length_splice, ?length_app; lia).
  rewrite length_app. repeat case_decide; try lia; try done.
  - rewrite lookup_app_r by lia. f_equal. lia.
  - by rewrite lookup_app_l by lia.
Qed.

Lemma slice_splice_end o x l : 0 ≤ o → o + zlen x ≤ zlen l → slice 0 (o + zlen x) (splice o x l) = slice 0 o l ++ x.
Proof.
  intros. rewrite <- (slice_app 0 o (zlen x)) by lia. f_equal; [|by apply slice_splice].
  by apply slice_splice_apart; lia.
Qed.

(** Reads and writes of a sequence in two parts. *)
Lemma slice_nil o n : slice o n [] = [].
Proof. unfold slice. by rewrite drop_nil, take_nil. Qed.

Lemma slice_app_l o n A B : 0 ≤ o → o + n ≤ zlen A → slice o n (A ++ B) = slice o n A.
Proof. intros. apply slice_ext; [done|]. intros i Hi. by rewrite lookup_app_l by lia. Qed.

Lemma slice_app_r o n A B : zlen A ≤ o → slice o n (A ++ B) = slice (o - zlen A) n B.
Proof. intros. unfold slice. rewrite drop_app_ge by lia. do 2 f_equal. lia. Qed.

Lemma slice_app_mid o n A B : 0 ≤ o ≤ zlen A → zlen A - o ≤ n →
  slice o n (A ++ B) = slice o (zlen A - o) A ++ slice 0 (n - (zlen A - o)) B.
Proof.
  intros. replace n with (zlen A - o + (n - (zlen A - o))) at 1 by lia.
  rewrite <- (slice_app o) by lia. rewrite slice_app_l, slice_app_r by lia. do 2 f_equal. lia.
Qed.

Lemma splice_app_l o x A B : 0 ≤ o → o + zlen x ≤ zlen A → splice o x (A ++ B) = splice o x A ++ B.
Proof.
  intros. unfold splice. rewrite take_app_le, drop_app_le by lia. by rewrite <- !app_assoc.
Qed.

Lemma splice_app_r o x A B : zlen A ≤ o → splice o x (A ++ B) = A ++ splice (o - zlen A) x B.
Proof.
  intros. unfold splice. rewrite take_app_ge, drop_app_ge by lia. rewrite <- app_assoc. repeat f_equal; lia.
Qed.

Lemma splice_app_mid o x y A B : 0 ≤ o → o + zlen x = zlen A →
  splice o (x ++ y) (A ++ B) = splice o x A ++ splice 0 y B.
Proof.
  intros. unfold splice. rewrite take_app_le, drop_app_ge, (drop_ge A) by (rewrite ?length_app; lia).
  change (Z.to_nat 0) with 0%nat. rewrite app_nil_r, <- !app_assoc, length_app. 
  by replace (Z.to_nat o + (length x + length y) - length A)%nat with (0 + length y)%nat by lia.
Qed.
End slices.

(** ** Bytes *)

Lemma bytes_slice o n l : bytes l → bytes (slice o n l).
Proof. intros H. by apply Forall_take, Forall_drop. Qed.

Lemma bytes_splice o x l : bytes x → bytes l → bytes (splice o x l).
Proof. intros Hx H. unfold bytes, splice. rewrite !Forall_app. split_and!; [by apply Forall_take|done|by apply Forall_drop]. Qed.

Lemma bytes_lookup l i : bytes l → 0 ≤ (l !!! i : Z) < 256.
Proof.
  intros H. rewrite list_lookup_total_alt. destruct (l !! i) eqn:E; cbn; [|lia].
  eapply (Forall_lookup_1 _ _ _ _ H E).
Qed.

Lemma bytes_le16 v : bytes (le16 v).
Proof. unfold bytes, le16. repeat constructor; apply Z.mod_pos_bound; lia. Qed.

Lemma bytes_le32 v : bytes (le32 v).
Proof. apply Forall_app. split; apply bytes_le16. Qed.

Lemma bytes_replicate n b : 0 ≤ b < 256 → bytes (replicate n b).
Proof. intros. by apply Forall_replicate. Qed.

Create HintDb bytes.
#[export] Hint Resolve bytes_slice bytes_splice bytes_le16 bytes_le32 bytes_replicate : bytes.

(** ** Little-endian integers *)

Lemma slice_two o l : 0 ≤ o → o + 2 ≤ zlen l →
  slice o 2 l = [l !!! Z.to_nat o; l !!! S (Z.to_nat o)].
Proof.
  intros. apply list_eq. intros [|[|i]].
  - rewrite lookup_slice, Nat.add_0_r by lia. by apply list_lookup_lookup_total_lt; lia.
  - rewrite lookup_slice, Nat.add_1_r by lia. by apply list_lookup_lookup_total_lt; lia.
  - unfold slice. rewrite lookup_take_ge by lia. done.
Qed.

Lemma get16_slice o l l' : 0 ≤ o → o + 2 ≤ zlen l → o + 2 ≤ zlen l' →
  slice o 2 l = slice o 2 l' → get16 o l = get16 o l'.
Proof. intros Ho H H' E. rewrite !slice_two in E by done. unfold get16. by inversion E. Qed.

Lemma get16_range o l : bytes l → 0 ≤ get16 o l < 65536.
Proof.
  intros H. unfold get16.
  pose proof (bytes_lookup l (Z.to_nat o) H). pose proof (bytes_lookup l (S (Z.to_nat o)) H). lia.
Qed.

Lemma get32_range o l : bytes l → 0 ≤ get32 o l < 2 ^ 32.
Proof.
  intros H. unfold get32. pose proof (get16_range o l H). pose proof (get16_range (o + 2) l H). lia.
Qed.

Lemma get16_le16 v : get16 0 (le16 v) = v `mod` 65536.
Proof. change 65536 with (256 * 256). rewrite Z.rem_mul_r by lia. done. Qed.

Lemma get32_le32 v : get32 0 (le32 v) = v `mod` 2 ^ 32.
Proof.
  change (2 ^ 32) with (65536 * 65536). rewrite Z.rem_mul_r by lia.
  rewrite <- !get16_le16. done.
Qed.

Lemma le16_get16 o l : bytes l → 0 ≤ o → o + 2 ≤ zlen l → le16 (get16 o l) = slice o 2 l.
Proof.
  intros H ? ?. rewrite slice_two by done. unfold le16, get16.
  pose proof (bytes_lookup l (Z.to_nat o) H). pose proof (bytes_lookup l (S (Z.to_nat o)) H).
  f_equal; [|f_equal]; Z.to_euclidean_division_equations; lia.
Qed.

Lemma le32_get32 o l : bytes l → 0 ≤ o → o + 4 ≤ zlen l → le32 (get32 o l) = slice o 4 l.
Proof.
  intros H ? ?. unfold le32, get32.
  pose proof (get16_range o l H). pose proof (get16_range (o + 2) l H).
  change 4 with (2 + 2). rewrite <- slice_app, <- !le16_get16 by (done || lia). f_equal.
  - unfold le16. replace (get16 o l + 65536 * get16 (o + 2) l) with (get16 o l + 256 * get16 (o + 2) l * 256) by lia.
    rewrite Z.div_add, Z.mod_add by lia. f_equal. f_equal.
    rewrite (Z.mul_comm 256). apply Z.mod_add. lia.
  - f_equal. Z.to_euclidean_division_equations; lia.
Qed.
