(* ===== verification/Path.v ===== *)
(** * File system paths (kernel/src/fs/vfs/path.hpp)
    A path owns a buffer of [kMaxPathSize] characters and the components found in it, as views
    into that buffer.  Copying a path parses the buffer again; the operations that build a path
    print components into it ([RebuildPath]), some of them from views into the buffer that is
    being overwritten, so the views are modelled as such.  Theorems: parsing against splitting at
    separators, printing and parsing, the parent, joining and normalising paths. *)
From S2P Require Import Prelude Bytes.

Definition chars (s : string) : list Z := map (λ a, Z.of_N (Ascii.N_of_ascii a)) (String.list_ascii_of_string s).

Definition kMaxPathSize : Z := 1024.
Definition kMaxComponents : Z := 64.
Definition kMaxComponentSize : Z := 128.
Definition kPathSeparator : Z := 47.

(** A view: a part of the path's own buffer, or characters that another object holds. *)
Inductive string_view : Type :=
| Own (off len : Z)
| Other (s : list Z).

Record Path := mkPath {
  raw_path : list Z;
  path_len : Z;
  components : list string_view;
  is_absolute : bool
}.

#[export] Instance string_view_eq_dec : EqDecision string_view.
Proof. solve_decision. Defined.

Definition view_str (raw : list Z) (v : string_view) : list Z :=
  match v with
  | Own off len => slice off len raw
  | Other s => s
  end.

Definition view_len (v : string_view) : Z :=
  match v with
  | Own _ len => len
  | Other s => zlen s
  end.

(** [Path path;] *)
Definition fresh_path : Path := mkPath (replicate (Z.to_nat kMaxPathSize) 0) 0 [] false.

(** ** Parsing *)

(** [full_path.find(kPathSeparator, pos)], or the size where there is none. *)
Fixpoint FindSep (l : list Z) (pos : Z) : Z :=
  match l with
  | [] => pos
  | c :: l => if c =? kPathSeparator then pos else FindSep l (pos + 1)
  end.

Fixpoint ParseLoop (fuel : nat) (full : list Z) (pos : Z) (cs : list string_view) : list string_view :=
  match fuel with
  | O => cs
  | S fuel =>
      if (pos <? zlen full) && (zlen cs <? kMaxComponents) then
        let next_sep := FindSep (drop (Z.to_nat pos) full) pos in
        let cs := if pos <? next_sep then cs ++ [Own pos (next_sep - pos)] else cs in
        ParseLoop fuel full (next_sep + 1) cs
      else cs
  end.

Definition Parse (raw : list Z) (len : Z) : Path :=
  let full := slice 0 len raw in
  match full with
  | [] => mkPath raw len [] false
  | c :: _ =>
      let abs := c =? kPathSeparator in
      mkPath raw len (ParseLoop (S (length full)) full (if abs then 1 else 0) []) abs
  end.

(** ** Copying characters *)

Definition view_get (buf : list Z) (v : string_view) (i : nat) : option Z :=
  match v with
  | Own off _ => buf !! (Z.to_nat off + i)%nat
  | Other s => s !! i
  end.

(** The [strncpy] of libc into the buffer at [dst]; the source may be the buffer itself.  After a
    NUL it fills with one zero more than [n] asks for. *)
Fixpoint strncpy (n : nat) (dst : nat) (v : string_view) (i : nat) (buf : list Z) : option (list Z) :=
  match n with
  | O => Some buf
  | S n =>
      c ← view_get buf v i;
      let buf := <[(dst + i)%nat := c]> buf in
      if c =? 0 then
        guard (dst + i + 1 + S n ≤ length buf)%nat;;
        Some (splice (Z.of_nat (dst + i + 1)) (replicate (S n) 0) buf)
      else strncpy n dst v (S i) buf
  end.

(** [Path(path_str)] *)
Definition path_of (sv : list Z) : Path :=
  let len := Z.min (zlen sv) (kMaxPathSize - 1) in
  let raw := default [] (strncpy (Z.to_nat len) 0 (Other sv) 0 (raw_path fresh_path)) in
  Parse (<[Z.to_nat len := 0]> raw) len.

Definition kCurrentDir : Path := path_of (chars ".").
Definition kParentDir : Path := path_of (chars "..").
Definition kRoot : Path := path_of [kPathSeparator].

(** The copy constructor and the assignment. *)
Definition copy (p : Path) : Path := Parse (raw_path p) (path_len p).

(** ** Accessors *)

Definition IsEmpty (p : Path) : bool := path_len p =? 0.
Definition IsRoot (p : Path) : bool := is_absolute p && (zlen (components p) =? 0).
Definition ComponentCount (p : Path) : Z := zlen (components p).
Definition HasComponents (p : Path) : bool := 0 <? ComponentCount p.
Definition strings (p : Path) : list (list Z) := map (view_str (raw_path p)) (components p).
Definition GetComponent (p : Path) (index : Z) : list Z := default [] (strings p !! Z.to_nat index).
Definition GetFilename (p : Path) : list Z := default [] (last (strings p)).
Definition StringView (p : Path) : list Z := slice 0 (path_len p) (raw_path p).

(** The string that [CString] points to: the buffer up to its first NUL. *)
Fixpoint c_str (l : list Z) : list Z :=
  match l with
  | [] => []
  | c :: l => if c =? 0 then [] else c :: c_str l
  end.
Definition CString (p : Path) : list Z := c_str (raw_path p).

Fixpoint find_last (c : Z) (l : list Z) (i : Z) : option Z :=
  match l with
  | [] => None
  | x :: l => match find_last c l (i + 1) with
              | Some j => Some j
              | None => if x =? c then Some i else None
              end
  end.

Definition GetStem (p : Path) : list Z :=
  let filename := GetFilename p in
  match find_last 46 filename 0 with
  | Some d => if d =? 0 then filename else slice 0 d filename
  | None => filename
  end.

Definition GetExtension (p : Path) : list Z :=
  let filename := GetFilename p in
  match find_last 46 filename 0 with
  | Some d => if d =? 0 then [] else drop (Z.to_nat d) filename
  | None => []
  end.

(** ** Printing *)

Fixpoint CopyComponents (first : bool) (cs : list string_view) (current : Z) (buf : list Z)
  : option (Z * list Z) :=
  match cs with
  | [] => Some (current, buf)
  | v :: cs =>
      let '(current, buf) :=
        if negb first && (current <? kMaxPathSize)
        then (current + 1, <[Z.to_nat current := kPathSeparator]> buf) else (current, buf) in
      let copy_len := Z.min (view_len v) (kMaxPathSize - current) in
      buf ← strncpy (Z.to_nat copy_len) (Z.to_nat current) v 0 buf;
      CopyComponents false cs (current + copy_len) buf
  end.

Fixpoint RePoint (cs : list string_view) (current_offset : Z) : list string_view :=
  match cs with
  | [] => []
  | v :: cs => Own current_offset (view_len v) :: RePoint cs (current_offset + view_len v + 1)
  end.

(** [None] when a view is read past the end of the buffer. *)
Definition RebuildPath (p : Path) : option Path :=
  let '(current, buf) :=
    if is_absolute p then (1, <[0%nat := kPathSeparator]> (raw_path p)) else (0, raw_path p) in
  '(current, buf) ← CopyComponents true (components p) current buf;
  let buf := if current <? kMaxPathSize then <[Z.to_nat current := 0]> buf else buf in
  let abs := (0 <? current) && ((buf !!! 0%nat : Z) =? kPathSeparator) in
  Some (mkPath buf current (RePoint (components p) (if abs then 1 else 0)) abs).

(** ** Operations on whole paths *)

Definition GetParent (p : Path) : option Path :=
  if IsRoot p || (ComponentCount p =? 0) then Some (if is_absolute p then kRoot else kCurrentDir)
  else if negb (is_absolute p) && (ComponentCount p =? 1) then Some kCurrentDir
  else
    raw ← strncpy (Z.to_nat (Z.min (path_len p) (kMaxPathSize - 1))) 0 (Other (raw_path p)) 0
            (raw_path fresh_path);
    RebuildPath (mkPath raw 0 (map Other (removelast (strings p))) (is_absolute p)).

(** [operator/] *)
Definition path_append (p other : Path) : option Path :=
  if is_absolute other then Some (copy other)
  else
    let result := copy p in
    if ComponentCount result + ComponentCount other <=? kMaxComponents then
      RebuildPath (mkPath (raw_path result) (path_len result)
        (components result ++ map Other (strings other)) (is_absolute result))
    else Some result.

(** [operator/=] *)
Definition path_append_assign (p other : Path) : option Path := copy <$> path_append p other.

Definition canon_step (abs : bool) (acc : list (list Z)) (component : list Z) : list (list Z) :=
  if bool_decide (component = chars ".") then acc
  else if bool_decide (component = chars "..") then
    if (0 <? zlen acc) && negb (bool_decide (last acc = Some (chars ".."))) then removelast acc
    else if negb abs then (if zlen acc <? kMaxComponents then acc ++ [component] else acc)
    else acc
  else if zlen acc <? kMaxComponents then acc ++ [component] else acc.

Definition GetWeaklyCanonical (p : Path) : option Path :=
  let cs := fold_left (canon_step (is_absolute p)) (strings p) [] in
  RebuildPath (mkPath (raw_path fresh_path) 0 (map Other cs) (is_absolute p)).

(** [operator==] and [operator<] *)
Definition path_eqb (p q : Path) : bool :=
  bool_decide (is_absolute p = is_absolute q) && bool_decide (strings p = strings q).

Fixpoint str_compare (s t : list Z) : comparison :=
  match s, t with
  | [], [] => Eq
  | [], _ :: _ => Lt
  | _ :: _, [] => Gt
  | a :: s, b :: t => match a ?= b with Eq => str_compare s t | r => r end
  end.

Fixpoint LessLoop (cs ds : list (list Z)) : bool :=
  match cs, ds with
  | c :: cs, d :: ds =>
      match str_compare c d with Lt => true | Gt => false | Eq => LessLoop cs ds end
  | [], _ :: _ => true
  | _, [] => false
  end.

Definition path_ltb (p q : Path) : bool :=
  if negb (bool_decide (is_absolute p = is_absolute q)) then negb (is_absolute p)
  else LessLoop (strings p) (strings q).

(** [Join] *)
Definition Join (args : list (list Z)) : option Path :=
  fold_left (λ r a, r ← r; path_append_assign r (path_of a)) args (Some fresh_path).


(** ** Parsing finds the pieces between separators *)

Fixpoint pieces (l : list Z) : list (list Z) :=
  match l with
  | [] => [[]]
  | c :: l =>
      if c =? kPathSeparator then [] :: pieces l
      else match pieces l with
           | p :: ps => (c :: p) :: ps
           | [] => [[c]]
           end
  end.

Abbreviation nonempty := (filter (λ p : list Z, p ≠ [])).

(** The components that a string has. *)
Definition split (l : list Z) : list (list Z) := nonempty (pieces l).

Lemma FindSep_ge l pos : pos ≤ FindSep l pos ≤ pos + zlen l.
Proof. revert pos. induction l as [|c l IH]; intros pos; cbn; [lia|]. case_match; [lia|]. specialize (IH (pos + 1)). lia. Qed.

Lemma FindSep_shift l pos : FindSep l pos = pos + FindSep l 0.
Proof.
  revert pos. induction l as [|c l IH]; intros pos; cbn; [lia|]. case_match; [lia|].
  rewrite (IH (pos + 1)), (IH (0 + 1)). lia.
Qed.

Lemma pieces_find l :
  let k := Z.to_nat (FindSep l 0) in
  pieces l = take k l :: (if decide (k < length l)%nat then pieces (drop (S k) l) else []).
Proof.
  induction l as [|c l IH]; [done|]. cbn [FindSep pieces length]. destruct (c =? kPathSeparator) eqn:E.
  - cbn. by rewrite decide_True by lia.
  - rewrite FindSep_shift. pose proof (FindSep_ge l 0).
    replace (Z.to_nat (0 + 1 + FindSep l 0)) with (S (Z.to_nat (FindSep l 0))) by lia.
    cbn zeta in IH. rewrite IH. cbn. f_equal. destruct (decide _), (decide _); try lia; done.
Qed.

Lemma split_find l :
  let k := Z.to_nat (FindSep l 0) in
  split l = nonempty [take k l] ++ (if decide (k < length l)%nat then split (drop (S k) l) else []).
Proof.
  cbn zeta. unfold split. rewrite pieces_find at 1. cbn zeta.
  match goal with |- nonempty (?x :: ?r) = _ => change (x :: r) with ([x] ++ r) end.
  rewrite filter_app. by destruct (decide _).
Qed.

Lemma split_nil : split [] = [].
Proof. done. Qed.

Lemma ParseLoop_spec full fuel pos cs :
  0 ≤ pos → zlen full - pos < Z.of_nat fuel →
  map (view_str full) (ParseLoop fuel full pos cs) =
    map (view_str full) cs ++ take (64 - length cs) (split (drop (Z.to_nat pos) full)).
Proof.
  revert pos cs. induction fuel as [|fuel IH]; intros pos cs Hpos Hf.
  - rewrite drop_ge, split_nil, take_nil by lia. by rewrite app_nil_r.
  - cbn [ParseLoop]. unfold kMaxComponents.
    destruct ((pos <? zlen full) && (zlen cs <? 64)) eqn:E; cycle 1.
    { apply andb_false_iff in E as [E|E]; apply Z.ltb_ge in E.
      - rewrite drop_ge, split_nil, take_nil by lia. by rewrite app_nil_r.
      - replace (64 - length cs)%nat with 0%nat by lia. by rewrite take_0, app_nil_r. }
    apply andb_true_iff in E as [E1%Z.ltb_lt E2%Z.ltb_lt].
    set (l := drop (Z.to_nat pos) full). assert (Hl : zlen l = zlen full - pos).
    { unfold l. rewrite length_drop. lia. }
    pose proof (FindSep_ge l 0). rewrite (FindSep_shift l pos). set (k := FindSep l 0) in *.
    rewrite IH by lia. rewrite (split_find l). cbn zeta. fold k.
    assert (Hrest : split (drop (Z.to_nat (pos + k + 1)) full) =
      if decide (Z.to_nat k < length l)%nat then split (drop (S (Z.to_nat k)) l) else []).
    { case_decide.
      - f_equal. unfold l. rewrite drop_drop. f_equal. lia.
      - rewrite drop_ge by lia. done. }
    rewrite Hrest. destruct (Z.ltb_spec pos (pos + k)).
    + rewrite map_app, <- app_assoc. f_equal. cbn [map app view_str].
      replace (pos + k - pos) with k by lia. unfold slice. fold l.
      rewrite filter_cons_True by (intros Hn; apply (f_equal length) in Hn; rewrite length_take in Hn; cbn in Hn; lia).
      rewrite filter_nil, length_app. cbn [length app].
      replace (64 - length cs)%nat with (S (64 - (length cs + 1)))%nat by lia. done.
    + replace k with 0 by lia. cbn [Z.to_nat take]. rewrite filter_cons_False by naive_solver. done.
Qed.

(** The views that parsing makes lie in the string, in order, with a separator between them. *)
Definition view_in (len : Z) (v : string_view) : Prop :=
  match v with
  | Own off n => 0 ≤ off ∧ 0 < n ∧ off + n ≤ len
  | Other _ => False
  end.

Lemma ParseLoop_in full len fuel pos cs :
  0 ≤ pos → zlen full = len → Forall (view_in len) cs →
  Forall (view_in len) (ParseLoop fuel full pos cs).
Proof.
  revert pos cs. induction fuel as [|fuel IH]; intros pos cs Hpos Hl Hcs; [done|]. cbn [ParseLoop].
  destruct ((pos <? zlen full) && (zlen cs <? kMaxComponents)) eqn:E; [|done].
  apply andb_true_iff in E as [E%Z.ltb_lt _].
  pose proof (FindSep_ge (drop (Z.to_nat pos) full) pos) as H. rewrite length_drop in H.
  apply IH; [lia|done|]. destruct (Z.ltb_spec pos (FindSep (drop (Z.to_nat pos) full) pos)); [|done].
  apply Forall_app. split; [done|]. constructor; [cbn; lia|done].
Qed.

(** What an object built from [raw] and [len] shows: the components of the string, at most
    [kMaxComponents] of them. *)
Lemma strings_Parse raw len :
  0 ≤ len ≤ zlen raw →
  strings (Parse raw len) = take 64 (split (slice 0 len raw)) ∧
  is_absolute (Parse raw len) = bool_decide (head (slice 0 len raw) = Some kPathSeparator).
Proof.
  intros H. unfold Parse. destruct (slice 0 len raw) as [|c full] eqn:E; [done|].
  assert (Hf : zlen (c :: full) = len) by (rewrite <- E; apply length_slice; lia).
  split; [|cbn [is_absolute head]; destruct (Z.eqb_spec c kPathSeparator); case_bool_decide; congruence].
  unfold strings. cbn [raw_path components].
  set (cs := ParseLoop _ _ _ _). assert (Hv : map (view_str raw) cs = map (view_str (c :: full)) cs).
  { apply map_ext_in. intros v Hv%list_elem_of_In.
    assert (Hw : Forall (view_in len) cs) by (apply ParseLoop_in; [case_match; lia|done|constructor]).
    rewrite Forall_forall in Hw. specialize (Hw v Hv).
    destruct v as [o n|]; [|done]. cbn in *. rewrite <- E, slice_slice by lia. done. }
  rewrite Hv. unfold cs. rewrite ParseLoop_spec by (case_match; lia). cbn [map app length].
  rewrite Nat.sub_0_r. destruct (Z.eqb_spec c kPathSeparator) as [->|]; done.
Qed.

(** ** Printing *)

(** The text of components, with a separator before each but the first. *)
Fixpoint printed (first : bool) (cs : list (list Z)) : list Z :=
  match cs with
  | [] => []
  | s :: cs => (if first then [] else [kPathSeparator]) ++ s ++ printed false cs
  end.

Definition print (abs : bool) (cs : list (list Z)) : list Z :=
  (if abs then [kPathSeparator] else []) ++ printed true cs.

Lemma strncpy_spec m dst v i buf x :
  (∀ off n, v = Own off n → Z.of_nat dst ≤ off) →
  (dst + i + m ≤ length buf)%nat → length x = m → Forall (λ c, c ≠ 0) x →
  (∀ j, (j < m)%nat → view_get buf v (i + j) = x !! j) →
  strncpy m dst v i buf = Some (splice (Z.of_nat (dst + i)) x buf).
Proof.
  intros Hv. revert i buf x. induction m as [|m IH]; intros i buf x Hb Hx Hz Hget.
  - destruct x; [|done]. cbn. by rewrite splice_nil.
  - destruct x as [|c x]; [done|]. apply Forall_cons in Hz as [Hc Hz]. injection Hx as Hx.
    cbn [strncpy]. pose proof (Hget 0%nat ltac:(lia)) as H0. rewrite Nat.add_0_r in H0. rewrite H0. cbn.
    destruct (Z.eqb_spec c 0) as [->|_]; [done|]. rewrite (IH (S i) _ x); try done.
    + f_equal. replace (Z.of_nat (dst + S i)) with (Z.of_nat (dst + i) + 1) by lia.
      rewrite <- splice_cons by lia. by rewrite Nat2Z.id.
    + rewrite length_insert. lia.
    + intros j Hj. specialize (Hget (S j) ltac:(lia)).
      replace (S i + j)%nat with (i + S j)%nat by lia.
      change ((c :: x) !! S j) with (x !! j) in Hget. rewrite <- Hget.
      destruct v as [off n|s]; [|done]. cbn. specialize (Hv off n eq_refl).
      apply list_lookup_insert_ne. lia.
Qed.

Lemma strncpy_total m dst s i buf :
  (i + m ≤ length s)%nat → (dst + i + m < length buf)%nat →
  ∃ buf', strncpy m dst (Other s) i buf = Some buf' ∧ length buf' = length buf.
Proof.
  revert i buf. induction m as [|m IH]; intros i buf Hs Hb; cbn [strncpy]; [by exists buf|].
  destruct (lookup_lt_is_Some_2 s i ltac:(lia)) as [c Hc]. cbn [view_get]. rewrite Hc. cbn [mbind option_bind].
  destruct (c =? 0).
  - rewrite option_guard_True by (rewrite length_insert; lia). eexists. split; [done|].
    rewrite length_splice; rewrite ?length_insert, ?length_replicate; lia.
  - destruct (IH (S i) (<[(dst + i)%nat := c]> buf)) as (buf' & ? & ?); [lia|rewrite length_insert; lia|].
    exists buf'. rewrite length_insert in *. done.
Qed.

(** Views that can be printed into the buffer they lie in: each starts at or after the place it
    is copied to, and ends before the next one starts. *)
Fixpoint movable (lo : Z) (cs : list string_view) : Prop :=
  match cs with
  | [] => True
  | Own off n :: cs => lo ≤ off ∧ 0 ≤ n ∧ off + n ≤ kMaxPathSize ∧ movable (off + n + 1) cs
  | Other s :: cs => Forall (λ v, ∃ s, v = Other s) cs
  end.

Lemma movable_others lo cs : Forall (λ v, ∃ s, v = Other s) cs → movable lo cs.
Proof. intros H. destruct cs as [|v cs]; [done|]. apply Forall_cons in H as [[s ->] H]. done. Qed.

Lemma movable_weaken lo lo' cs : lo' ≤ lo → movable lo cs → movable lo' cs.
Proof. destruct cs as [|[]]; cbn; [done| |done]. intuition lia. Qed.

Lemma view_str_ext lo raw buf cs :
  0 ≤ lo → (∀ k, lo ≤ Z.of_nat k → buf !! k = raw !! k) → movable lo cs →
  map (view_str buf) cs = map (view_str raw) cs.
Proof.
  revert lo. induction cs as [|v cs IH]; intros lo Hlo H Hm; [done|]. cbn. destruct v as [off n|s]; cbn in *.
  - destruct Hm as (? & ? & ? & Hm). f_equal.
    + apply slice_ext; [lia|]. intros k Hk. apply H. lia.
    + apply (IH (off + n + 1)); [lia| |done]. intros k Hk. apply H. lia.
  - f_equal. apply (IH lo Hlo H). by apply movable_others.
Qed.

Lemma view_len_str lo raw v cs :
  0 ≤ lo → zlen raw = kMaxPathSize → movable lo (v :: cs) → zlen (view_str raw v) = view_len v.
Proof. destruct v as [off n|s]; cbn; [|done]. intros. apply length_slice; lia. Qed.

Lemma copy_view lo raw v cs cur :
  0 ≤ cur ≤ lo → zlen raw = kMaxPathSize → movable lo (v :: cs) →
  Forall (λ c, c ≠ 0) (view_str raw v) → cur + view_len v < kMaxPathSize →
  strncpy (Z.to_nat (view_len v)) (Z.to_nat cur) v 0 raw = Some (splice cur (view_str raw v) raw).
Proof.
  intros Hc Hr Hm Hz Hlen. pose proof (view_len_str lo raw v cs ltac:(lia) Hr Hm) as Hl.
  rewrite (strncpy_spec _ _ _ _ _ (view_str raw v)); try done; try lia.
  - rewrite Nat.add_0_r. do 2 f_equal. lia.
  - intros off n ->. cbn in Hm. lia.
  - intros j Hj. destruct v as [off n|s]; [|done]. cbn in *.
    rewrite lookup_slice by lia. done.
Qed.

(** The text one component adds. *)
Definition piece_text (first : bool) (s : list Z) : list Z :=
  (if first then [] else [kPathSeparator]) ++ s.

Lemma copy_step lo (first : bool) v cs cur raw :
  zlen raw = kMaxPathSize → 0 ≤ cur → cur + (if first then 0 else 1) ≤ lo → movable lo (v :: cs) →
  Forall (λ c, c ≠ 0) (view_str raw v) →
  let x := piece_text first (view_str raw v) in
  cur + zlen x < kMaxPathSize →
  CopyComponents first (v :: cs) cur raw = CopyComponents false cs (cur + zlen x) (splice cur x raw).
Proof.
  intros Hr Hcur Hlo Hm Hz x. unfold x, piece_text. set (sep := if first then @nil Z else [kPathSeparator]).
  rewrite length_app. pose proof (view_len_str lo raw v cs ltac:(case_match; lia) Hr Hm) as Hl. intros Hlen.
  assert (Hsep : zlen sep = if first then 0 else 1) by (unfold sep; by destruct first).
  rewrite <- splice_app by lia. set (b := splice cur sep raw).
  assert (Hb : (if negb first && (cur <? kMaxPathSize) then (cur + 1, (<[Z.to_nat cur := kPathSeparator]> raw : list Z)) else (cur, raw))
    = (cur + zlen sep, b)).
  { rewrite (proj2 (Z.ltb_lt _ _)), andb_true_r by lia. unfold b, sep. destruct first; cbn [negb].
    - rewrite splice_nil. f_equal. cbn. lia.
    - rewrite <- splice_cons, splice_nil by (cbn [length]; lia). done. }
  cbn [CopyComponents]. rewrite Hb, Z.min_l by lia.
  assert (Hs : view_str b v = view_str raw v).
  { destruct v as [off n|s]; [|done]. cbn in *. apply slice_splice_apart; lia. }
  rewrite (copy_view lo _ v cs); rewrite ?Hs; try done; try lia.
  - cbn. f_equal. lia.
  - unfold b. rewrite length_splice by lia. done.
Qed.

Lemma CopyComponents_spec cs raw (first : bool) cur lo :
  zlen raw = kMaxPathSize → 0 ≤ cur → cur + (if first then 0 else 1) ≤ lo → movable lo cs →
  Forall (Forall (λ c, c ≠ 0)) (map (view_str raw) cs) →
  let text := printed first (map (view_str raw) cs) in
  cur + zlen text < kMaxPathSize →
  ∃ buf, CopyComponents first cs cur raw = Some (cur + zlen text, buf) ∧
    zlen buf = kMaxPathSize ∧ slice 0 (cur + zlen text) buf = slice 0 cur raw ++ text.
Proof.
  revert raw first cur lo. induction cs as [|v cs IH]; intros raw first cur lo Hr Hcur Hlo Hm Hz text Ht.
  { exists raw. cbn. rewrite Z.add_0_r, app_nil_r. done. }
  cbn [map] in Hz. apply Forall_cons in Hz as [Hzv Hz].
  pose proof (view_len_str lo raw v cs ltac:(case_match; lia) Hr Hm) as Hl.
  set (x := piece_text first (view_str raw v)).
  assert (Htext : text = x ++ printed false (map (view_str raw) cs)) by (unfold x, piece_text; rewrite <- app_assoc; done).
  assert (Hx : zlen x = (if first then 0 else 1) + view_len v).
  { unfold x, piece_text. rewrite length_app. destruct first; cbn [length]; rewrite <- Hl; lia. }
  rewrite Htext, length_app in Ht. assert (Hxl : cur + zlen x < kMaxPathSize) by lia.
  rewrite (copy_step lo) by (exact Hxl || done || lia). fold x.
  set (buf := splice cur x raw). assert (Hb : zlen buf = kMaxPathSize) by (unfold buf; rewrite length_splice by lia; done).
  assert (Hkeep : map (view_str buf) cs = map (view_str raw) cs).
  { apply (view_str_ext (match v with Own off n => off + n + 1 | _ => kMaxPathSize end)).
    - destruct v; cbn in *; [lia|done].
    - intros k Hk. unfold buf. rewrite lookup_splice, decide_False; destruct v; cbn in *; done || lia.
    - destruct v; cbn in *; [tauto|by apply movable_others]. }
  destruct (IH buf false (cur + zlen x) (match v with Own off n => off + n + 1 | _ => cur + zlen x + 1 end))
    as (buf' & E & Hb' & Hs).
  - done.
  - lia.
  - destruct v; cbn in *; lia.
  - destruct v; cbn in *; [tauto|by apply movable_others].
  - by rewrite Hkeep.
  - rewrite Hkeep. lia.
  - rewrite Hkeep in E, Hs. exists buf'. rewrite Htext, length_app, Nat2Z.inj_add, Z.add_assoc.
    split_and!; [done|done|]. rewrite Hs. unfold buf. rewrite slice_splice_end by lia.
    by rewrite <- app_assoc.
Qed.

(** ** Printing and parsing *)

Definition comp_ok (s : list Z) : Prop := s ≠ [] ∧ Forall (λ c, c ≠ 0 ∧ c ≠ kPathSeparator) s.

Lemma FindSep_app s rest pos :
  Forall (λ c, c ≠ kPathSeparator) s → FindSep (s ++ kPathSeparator :: rest) pos = pos + zlen s.
Proof.
  revert pos. induction s as [|c s IH]; intros pos H; cbn -[kPathSeparator]; [rewrite Z.eqb_refl; lia|].
  apply Forall_cons in H as [Hc H]. rewrite (proj2 (Z.eqb_neq _ _)) by done. rewrite IH by done. lia.
Qed.

Lemma FindSep_none s pos : Forall (λ c, c ≠ kPathSeparator) s → FindSep s pos = pos + zlen s.
Proof.
  revert pos. induction s as [|c s IH]; intros pos H; cbn -[kPathSeparator]; [lia|].
  apply Forall_cons in H as [Hc H]. rewrite (proj2 (Z.eqb_neq _ _)) by done. rewrite IH by done. lia.
Qed.

Lemma comp_ok_sep s : comp_ok s → Forall (λ c, c ≠ kPathSeparator) s.
Proof. intros [_ H]. eapply Forall_impl; [exact H|]. naive_solver. Qed.

Lemma comp_ok_nul s : comp_ok s → Forall (λ c, c ≠ 0) s.
Proof. intros [_ H]. eapply Forall_impl; [exact H|]. naive_solver. Qed.

Lemma comp_ok_len s : comp_ok s → 0 < zlen s.
Proof. intros [H _]. destruct s; [done|]. cbn. lia. Qed.

Lemma printed_false s cs : printed false (s :: cs) = kPathSeparator :: printed true (s :: cs).
Proof. done. Qed.

(** Parsing a printed text finds the printed components, at the places [RePoint] computes. *)
Lemma ParseLoop_printed strs full fuel pos acc :
  Forall comp_ok strs → 0 ≤ pos → drop (Z.to_nat pos) full = printed true strs →
  zlen acc + zlen strs ≤ kMaxComponents → (length strs < fuel)%nat →
  ParseLoop fuel full pos acc = acc ++ RePoint (map Other strs) pos.
Proof.
  revert fuel pos acc. induction strs as [|s strs IH]; intros fuel pos acc Hok Hpos Hd Hn Hf;
    (destruct fuel as [|fuel]; [cbn in Hf; lia|]); cbn [ParseLoop].
  - apply (f_equal length) in Hd. rewrite length_drop in Hd. cbn in Hd.
    rewrite (proj2 (Z.ltb_ge _ _)) by lia. by rewrite app_nil_r.
  - apply Forall_cons in Hok as [Hs Hok]. pose proof (comp_ok_len s Hs). cbn [length] in *.
    assert (Hlen : zlen full - pos = zlen (printed true (s :: strs))).
    { rewrite <- Hd, length_drop. enough (pos ≤ zlen full) by lia.
      apply (f_equal length) in Hd. rewrite length_drop in Hd. cbn [printed app] in Hd. rewrite length_app in Hd. lia. }
    assert (E : FindSep (drop (Z.to_nat pos) full) pos = pos + zlen s).
    { rewrite Hd. cbn [printed app]. destruct strs as [|t strs].
      - cbn. rewrite app_nil_r. by apply FindSep_none, comp_ok_sep.
      - rewrite printed_false. by apply FindSep_app, comp_ok_sep. }
    cbn [printed app] in Hlen. rewrite length_app in Hlen.
    rewrite (proj2 (Z.ltb_lt pos _)), (proj2 (Z.ltb_lt (zlen acc) _)) by lia. cbn [andb].
    rewrite E, (proj2 (Z.ltb_lt pos _)) by lia. rewrite IH; [|done|lia| |rewrite length_app; cbn; lia|lia].
    + rewrite <- app_assoc. cbn. do 3 f_equal. lia.
    + replace (Z.to_nat (pos + zlen s + 1)) with (Z.to_nat pos + (length s + 1))%nat by lia.
      rewrite <- drop_drop, Hd. cbn [printed app].
      rewrite drop_app_ge, Nat.add_sub_swap, Nat.sub_diag by lia. by destruct strs.
Qed.

Lemma RePoint_len cs ds off : map view_len cs = map view_len ds → RePoint cs off = RePoint ds off.
Proof.
  revert ds off. induction cs as [|v cs IH]; intros [|w ds] off H; try done. cbn in *.
  injection H as -> H. f_equal. by apply IH.
Qed.

Lemma view_lens lo raw cs :
  0 ≤ lo → zlen raw = kMaxPathSize → movable lo cs →
  map view_len cs = map view_len (map Other (map (view_str raw) cs)).
Proof.
  revert lo. induction cs as [|v cs IH]; intros lo Hlo Hr Hm; [done|]. cbn [map]. f_equal.
  - symmetry. by eapply view_len_str.
  - destruct v as [off n|s]; cbn in Hm; [apply (IH (off + n + 1)); [lia|done|tauto]|].
    apply (IH lo); [done..|by apply movable_others].
Qed.

Lemma printed_length first cs : Forall comp_ok cs → (length cs ≤ length (printed first cs))%nat.
Proof.
  intros H. revert first. induction H as [|s cs Hs _ IH]; intros first; [done|]. cbn.
  rewrite !length_app. specialize (IH false). pose proof (comp_ok_len s Hs). lia.
Qed.

Lemma Parse_printed raw len a cs :
  slice 0 len raw = print a cs → Forall comp_ok cs → zlen cs ≤ kMaxComponents →
  Parse raw len = mkPath raw len (RePoint (map Other cs) (if a then 1 else 0)) a.
Proof.
  intros E Hok Hn. unfold Parse. pose proof (printed_length true cs Hok).
  destruct (slice 0 len raw) as [|c full] eqn:Es.
  - destruct a; [done|]. destruct cs as [|s cs]; [done|]. cbn in H, E. rewrite <- E in H. cbn in H. lia.
  - assert (Ha : (c =? kPathSeparator) = a).
    { destruct a; [injection E as -> _; apply Z.eqb_refl|]. cbn in E. destruct cs as [|s cs]; [done|].
      apply Forall_cons in Hok as [Hs _]. pose proof (comp_ok_sep s Hs) as Hs'. destruct s as [|d s]; [by destruct Hs|].
      injection E as -> _. apply Forall_cons in Hs' as [Hd _]. by apply Z.eqb_neq. }
    rewrite Ha. f_equal. apply (f_equal length) in E as El. unfold print in El. rewrite length_app in El.
    rewrite (ParseLoop_printed cs); [done|done|by destruct a| |done|lia].
    rewrite E. by destruct a.
Qed.

(** [p] is a whole path object that stands for the components [cs]: its buffer is terminated and
    its views are those that parsing finds. *)
Record path_is (p : Path) (a : bool) (cs : list (list Z)) : Prop := {
  pi_parsed : Parse (raw_path p) (path_len p) = p;
  pi_raw : zlen (raw_path p) = kMaxPathSize;
  pi_len : 0 ≤ path_len p < kMaxPathSize;
  pi_term : raw_path p !! Z.to_nat (path_len p) = Some 0;
  pi_strings : strings p = cs;
  pi_abs : is_absolute p = a;
  pi_ok : Forall comp_ok cs;
  pi_print : zlen (print a cs) ≤ path_len p;
  pi_count : zlen cs ≤ kMaxComponents
}.

Lemma split_printed cs : Forall comp_ok cs → split (printed true cs) = cs.
Proof.
  induction 1 as [|s cs Hs _ IH]; [done|]. rewrite split_find. cbn zeta. cbn [printed app].
  assert (Hne : nonempty [s] = [s]) by (destruct Hs; by rewrite filter_cons_True).
  assert (Hk : Z.to_nat (FindSep (s ++ printed false cs) 0) = length s).
  { destruct cs as [|t cs].
    - cbn. rewrite app_nil_r, FindSep_none by (by apply comp_ok_sep). lia.
    - rewrite printed_false, FindSep_app by (by apply comp_ok_sep). lia. }
  rewrite Hk, take_app_length, Hne. cbn [app]. f_equal.
  destruct cs as [|t cs]; [cbn; rewrite app_nil_r; by rewrite decide_False by lia|].
  rewrite printed_false, decide_True by (rewrite length_app; cbn; lia).
  rewrite drop_app_ge, Nat.sub_succ_l, Nat.sub_diag by lia. exact IH.
Qed.

Lemma split_print a cs : Forall comp_ok cs → split (print a cs) = cs.
Proof. intros H. unfold print. destruct a; [|by apply split_printed]. cbn. by apply (split_printed cs). Qed.

(** The components of a text take no more room than the text. *)
Lemma printed_pieces l : zlen (printed false (pieces l)) = zlen l + 1.
Proof.
  induction l as [|c l IH]; [done|]. cbn -[kPathSeparator Z.of_nat]. destruct (c =? kPathSeparator).
  - cbn -[Z.of_nat]. lia.
  - destruct (pieces l); cbn -[Z.of_nat] in *; [lia|]. lia.
Qed.

Lemma printed_sub qs ps : qs `sublist_of` ps → zlen (printed false qs) ≤ zlen (printed false ps).
Proof. induction 1; cbn -[Z.of_nat]; rewrite ?length_app; lia. Qed.

Lemma printed_true qs : zlen (printed true qs) = Z.max 0 (zlen (printed false qs) - 1).
Proof. destruct qs as [|q qs]; [done|]. rewrite printed_false. cbn [length]. lia. Qed.

Lemma printed_split n l : zlen (printed true (take n (split l))) ≤ zlen l.
Proof.
  rewrite printed_true. pose proof (printed_pieces l).
  assert (H1 : zlen (printed false (take n (split l))) ≤ zlen (printed false (pieces l))); [|lia].
  apply printed_sub. etrans; [apply sublist_take|]. apply sublist_filter.
Qed.

Lemma split_ok l : Forall (λ c, c ≠ 0) l → Forall comp_ok (split l).
Proof.
  intros Hl. unfold split. assert (H : Forall (Forall (λ c, c ≠ 0 ∧ c ≠ kPathSeparator)) (pieces l)).
  { induction Hl as [|c l Hc Hl IH]; [by repeat constructor|]. cbn -[kPathSeparator].
    destruct (Z.eqb_spec c kPathSeparator); [constructor; [constructor|done]|].
    destruct (pieces l); [by repeat constructor|]. apply Forall_cons in IH as [? ?].
    constructor; [by constructor|done]. }
  apply Forall_forall. intros s [Hne Hs]%list_elem_of_filter. rewrite Forall_forall in H. by split; [|apply H].
Qed.

Lemma Parse_raw raw len : raw_path (Parse raw len) = raw.
Proof. unfold Parse. by destruct (slice 0 len raw). Qed.

Lemma Parse_len raw len : path_len (Parse raw len) = len.
Proof. unfold Parse. by destruct (slice 0 len raw). Qed.

(** An object parsed from a terminated buffer. *)
Lemma Parse_is raw len :
  zlen raw = kMaxPathSize → 0 ≤ len < kMaxPathSize → raw !! Z.to_nat len = Some 0 →
  Forall (λ c, c ≠ 0) (slice 0 len raw) →
  path_is (Parse raw len) (bool_decide (head (slice 0 len raw) = Some kPathSeparator))
    (take 64 (split (slice 0 len raw))).
Proof.
  intros Hr Hl Ht Hz. destruct (strings_Parse raw len ltac:(lia)) as [Hs Ha].
  split; rewrite ?Parse_raw, ?Parse_len; try done.
  - by apply Forall_take, split_ok.
  - unfold print. rewrite length_app. case_bool_decide as Hh; [|pose proof (printed_split 64 (slice 0 len raw)) as H].
    + destruct (slice 0 len raw) as [|c l] eqn:E; [done|]. injection Hh as ->.
      change (split (kPathSeparator :: l)) with (split l). pose proof (printed_split 64 l).
      apply (f_equal length) in E. pose proof (length_slice 0 len raw). cbn [length] in *. lia.
    + rewrite length_slice in H by lia. cbn [length]. lia.
  - rewrite length_take. unfold kMaxComponents. lia.
Qed.

Lemma Parse_print_is raw len a cs :
  zlen raw = kMaxPathSize → 0 ≤ len < kMaxPathSize → raw !! Z.to_nat len = Some 0 →
  slice 0 len raw = print a cs → Forall comp_ok cs → zlen cs ≤ kMaxComponents →
  path_is (Parse raw len) a cs.
Proof.
  intros Hr Hl Ht E Hok Hn. assert (Hz : Forall (λ c, c ≠ 0) (print a cs)).
  { unfold print. apply Forall_app. split; [destruct a; by repeat constructor|]. clear -Hok. generalize true.
    induction Hok as [|s cs Hs _ IH]; intros first; [constructor|]. cbn [printed]. rewrite !Forall_app.
    split_and!; [destruct first; by repeat constructor|by apply comp_ok_nul|apply IH]. }
  pose proof (Parse_is raw len Hr Hl Ht) as H. rewrite E, split_print in H by done.
  rewrite take_ge in H by (unfold kMaxComponents in Hn; lia).
  assert (Ha : is_absolute (Parse raw len) = a) by (by rewrite (Parse_printed raw len a cs)).
  specialize (H Hz). pose proof (pi_abs _ _ _ H) as Ha'. rewrite Ha in Ha'. by rewrite <- Ha' in H.
Qed.

(** The buffer after the leading separator. *)
Lemma rebuild_start p lo (a := is_absolute p) (start := if a then 1 else 0)
    (b0 := if a then <[0%nat:=kPathSeparator]> (raw_path p) else raw_path p) :
  zlen (raw_path p) = kMaxPathSize → start ≤ lo → movable lo (components p) →
  zlen b0 = kMaxPathSize ∧ map (view_str b0) (components p) = strings p ∧
  slice 0 start b0 = if a then [kPathSeparator] else [].
Proof.
  intros Hr Hlo Hm. split_and!.
  - unfold b0. destruct a; rewrite ?length_insert; done.
  - apply (view_str_ext lo); [unfold start in *; destruct a; lia| |done]. intros k Hk. unfold b0.
    destruct a; [|done]. apply list_lookup_insert_ne. unfold start in *. lia.
  - unfold b0, start. destruct a; [|done]. apply list_eq. intros [|i]; [|unfold slice; by rewrite lookup_take_ge by lia].
    rewrite lookup_slice by lia. cbn. rewrite list_lookup_insert_eq by (unfold kMaxPathSize in *; lia). done.
Qed.

(** The flag computed again from the printed text. *)
Lemma abs_again buf len vs a cs :
  path_is (mkPath buf len vs a) a cs → (0 <? len) && ((buf !!! 0%nat : Z) =? kPathSeparator) = a.
Proof.
  intros Hp. pose proof (pi_parsed _ _ _ Hp) as E. pose proof (pi_len _ _ _ Hp). pose proof (pi_raw _ _ _ Hp).
  cbn [raw_path path_len] in *. unfold Parse in E. pose proof (length_slice 0 len buf) as Hl.
  destruct (slice 0 len buf) as [|c l] eqn:El; injection E as E1 E2; cbn [length] in Hl.
  - destruct a; [done|]. rewrite (proj2 (Z.ltb_ge _ _)) by lia. done.
  - rewrite (proj2 (Z.ltb_lt _ _)) by lia. rewrite <- E2. cbn [andb]. f_equal.
    apply list_lookup_total_correct. pose proof (lookup_slice 0 len buf 0) as H1. rewrite El in H1.
    symmetry. apply H1; lia.
Qed.

(** Printing components that are movable gives a whole path object of these components. *)
Lemma RebuildPath_spec p lo :
  zlen (raw_path p) = kMaxPathSize → (if is_absolute p then 1 else 0) ≤ lo → movable lo (components p) →
  Forall comp_ok (strings p) → zlen (strings p) ≤ kMaxComponents →
  zlen (print (is_absolute p) (strings p)) < kMaxPathSize →
  ∃ q, RebuildPath p = Some q ∧ path_is q (is_absolute p) (strings p) ∧
    StringView q = print (is_absolute p) (strings p).
Proof.
  intros Hr Hlo Hm Hok Hn Hlen. destruct (rebuild_start p lo Hr Hlo Hm) as (Hb0 & Hkeep & Hs0).
  unfold RebuildPath. set (a := is_absolute p) in *. set (start := if a then 1 else 0) in *.
  set (b0 := if a then <[0%nat:=kPathSeparator]> (raw_path p) else raw_path p) in *.
  assert (Hst : (if a then (1, (<[0%nat:=kPathSeparator]> (raw_path p) : list Z)) else (0, raw_path p)) = (start, b0))
    by (unfold start, b0; by destruct a). rewrite Hst. clear Hst.
  assert (Hstart : 0 ≤ start) by (unfold start; by destruct a).
  unfold print in Hlen. rewrite length_app in Hlen.
  assert (Hst : zlen (if a then [kPathSeparator] else []) = start) by (unfold start; by destruct a).
  destruct (CopyComponents_spec (components p) b0 true start lo) as (buf & -> & Hb & Hs);
    rewrite ?Hkeep; try done; try lia.
  { eapply Forall_impl; [exact Hok|]. apply comp_ok_nul. }
  rewrite Hkeep, Hs0 in *. cbn [mbind option_bind]. set (len := start + zlen (printed true (strings p))) in *.
  rewrite (proj2 (Z.ltb_lt len _)) by lia. set (buf' := <[Z.to_nat len := 0]> buf).
  assert (Hs' : slice 0 len buf' = print a (strings p)).
  { unfold print. rewrite <- Hs. apply slice_ext; [done|]. intros i Hi. apply list_lookup_insert_ne. lia. }
  assert (Hp : path_is (Parse buf' len) a (strings p)).
  { apply Parse_print_is; try done; [by unfold buf'; rewrite length_insert|lia|]. apply list_lookup_insert_eq. lia. }
  rewrite (Parse_printed buf' len a (strings p)) in Hp by done.
  eexists. split; [|split; [exact Hp|exact Hs']]. f_equal. rewrite (abs_again _ _ _ _ _ Hp). f_equal.
  apply RePoint_len. rewrite <- Hkeep. by apply (view_lens lo); [lia|..].
Qed.

(** ** Whole operations *)

Lemma path_of_is sv :
  zlen sv < kMaxPathSize → Forall (λ c, c ≠ 0) sv →
  path_is (path_of sv) (bool_decide (head sv = Some kPathSeparator)) (take 64 (split sv)) ∧
  StringView (path_of sv) = sv.
Proof.
  intros Hl Hz. unfold path_of. rewrite Z.min_l by lia.
  assert (Hf : zlen (raw_path fresh_path) = kMaxPathSize) by (cbn [raw_path fresh_path]; rewrite length_replicate; lia).
  rewrite (strncpy_spec _ _ _ _ _ sv); [|done|lia|lia|done|by intros]. cbn [default Nat.add].
  set (raw := splice (Z.of_nat 0) sv (raw_path fresh_path)).
  assert (Hr : zlen raw = kMaxPathSize) by (unfold raw; rewrite length_splice by lia; done).
  assert (Hs : slice 0 (zlen sv) (<[Z.to_nat (zlen sv) := 0]> raw) = sv).
  { rewrite <- (slice_splice 0 sv (raw_path fresh_path)) at 3 by lia. apply slice_ext; [done|].
    intros i Hi. apply list_lookup_insert_ne. lia. }
  split.
  - pose proof (Parse_is (<[Z.to_nat (zlen sv) := 0]> raw) (zlen sv)) as H. rewrite Hs in H.
    apply H; [by rewrite length_insert|lia| |done]. apply list_lookup_insert_eq. lia.
  - unfold StringView. by rewrite Parse_raw, Parse_len.
Qed.

Lemma kRoot_is : path_is kRoot true [].
Proof. apply (path_of_is [kPathSeparator]); [done|by repeat constructor]. Qed.

Lemma kCurrentDir_is : path_is kCurrentDir false [chars "."].
Proof. apply (path_of_is (chars ".")); [done|by repeat constructor]. Qed.

Lemma copy_is p a cs : path_is p a cs → copy p = p.
Proof. apply pi_parsed. Qed.

Lemma count_is p a cs : path_is p a cs → ComponentCount p = zlen cs.
Proof. intros H. unfold ComponentCount. rewrite <- (pi_strings _ _ _ H). unfold strings. by rewrite length_map. Qed.

Lemma strings_others raw len a cs : strings (mkPath raw len (map Other cs) a) = cs.
Proof. unfold strings. cbn. rewrite map_map. cbn. apply map_id. Qed.

Lemma others_movable lo (cs : list (list Z)) : movable lo (map Other cs).
Proof. apply movable_others. apply Forall_map, Forall_true. eauto. Qed.

(** Printing components that other objects hold. *)
Lemma Rebuild_others raw len a cs :
  zlen raw = kMaxPathSize → Forall comp_ok cs → zlen cs ≤ kMaxComponents → zlen (print a cs) < kMaxPathSize →
  ∃ q, RebuildPath (mkPath raw len (map Other cs) a) = Some q ∧ path_is q a cs ∧ StringView q = print a cs.
Proof.
  intros Hr Hok Hn Hl. pose proof (RebuildPath_spec (mkPath raw len (map Other cs) a) (if a then 1 else 0)) as H.
  rewrite strings_others in H. apply H; try done. apply others_movable.
Qed.

Lemma removelast_sublist {A} (l : list A) : removelast l `sublist_of` l.
Proof. rewrite removelast_firstn_len. apply sublist_take. Qed.

Lemma print_sub a qs ps : qs `sublist_of` ps → zlen (print a qs) ≤ zlen (print a ps).
Proof. intros H. unfold print. rewrite !length_app, !Nat2Z.inj_add, !printed_true. pose proof (printed_sub _ _ H). lia. Qed.

Lemma Forall_sub {A} (P : A → Prop) qs ps : qs `sublist_of` ps → Forall P ps → Forall P qs.
Proof.
  induction 1 as [|x l1 l2 _ IH|x l1 l2 _ IH]; [done|..]; intros [? ?]%Forall_cons; [constructor|]; auto.
Qed.

(** The components of the parent. *)
Definition parent_of (a : bool) (cs : list (list Z)) : list (list Z) :=
  if negb a && (zlen cs <=? 1) then [chars "."] else removelast cs.

Lemma GetParent_is p a cs :
  path_is p a cs → ∃ q, GetParent p = Some q ∧ path_is q a (parent_of a cs).
Proof.
  intros H. unfold GetParent, IsRoot, parent_of. rewrite (count_is _ _ _ H), (pi_abs _ _ _ H).
  change (zlen (components p)) with (ComponentCount p). rewrite (count_is _ _ _ H).
  destruct cs as [|c cs].
  { destruct a; cbn; eauto using kRoot_is, kCurrentDir_is. }
  rewrite andb_comm. rewrite (proj2 (Z.eqb_neq (zlen (c :: cs)) 0)) by (cbn; lia). cbn [andb orb].
  destruct (negb a && (zlen (c :: cs) =? 1)) eqn:E.
  { apply andb_true_iff in E as [Ea E%Z.eqb_eq]. destruct a; [done|]. rewrite E. cbn. eauto using kCurrentDir_is. }
  assert (E' : negb a && (zlen (c :: cs) <=? 1) = false).
  { destruct a; [done|]. cbn [negb andb] in *. apply Z.eqb_neq in E. apply Z.leb_gt. cbn [length] in *. lia. }
  rewrite E'. pose proof (pi_len _ _ _ H). pose proof (pi_raw _ _ _ H).
  destruct (strncpy_total (Z.to_nat (Z.min (path_len p) (kMaxPathSize - 1))) 0 (raw_path p) 0 (raw_path fresh_path))
    as (raw & -> & Hraw); [lia|cbn [raw_path fresh_path]; rewrite length_replicate; lia|].
  cbn [mbind option_bind]. rewrite (pi_strings _ _ _ H). pose proof (removelast_sublist (c :: cs)) as Hsub.
  destruct (Rebuild_others raw 0 a (removelast (c :: cs))) as (q & -> & Hq & _).
  - rewrite Hraw. cbn [raw_path fresh_path]. rewrite length_replicate. lia.
  - eapply Forall_sub; [exact Hsub|]. apply H.
  - pose proof (pi_count _ _ _ H). apply sublist_length in Hsub. lia.
  - pose proof (print_sub a _ _ Hsub). pose proof (pi_print _ _ _ H). lia.
  - by exists q.
Qed.

(** Joining: an absolute path replaces the other; otherwise the components are put one after the
    other, unless there are too many of them. *)
Lemma path_append_absolute p q cs : path_is q true cs → path_append p q = Some q.
Proof. intros H. unfold path_append. rewrite (pi_abs _ _ _ H). by rewrite (copy_is _ _ _ H). Qed.

Lemma path_append_full p q a cs ds :
  path_is p a cs → path_is q false ds → kMaxComponents < zlen (cs ++ ds) → path_append p q = Some p.
Proof.
  intros Hp Hq. rewrite length_app. intros H. unfold path_append. rewrite (pi_abs _ _ _ Hq), (copy_is _ _ _ Hp).
  rewrite (count_is _ _ _ Hp), (count_is _ _ _ Hq), (proj2 (Z.leb_gt _ _)) by lia. done.
Qed.

Lemma ParseLoop_movable full fuel pos acc ds :
  0 ≤ pos → zlen full ≤ kMaxPathSize →
  ∃ vs, ParseLoop fuel full pos acc = acc ++ vs ∧ movable pos (vs ++ map Other ds).
Proof.
  revert pos acc. induction fuel as [|fuel IH]; intros pos acc Hpos Hl; cbn [ParseLoop].
  { exists []. rewrite app_nil_r. split; [done|]. apply others_movable. }
  destruct ((pos <? zlen full) && (zlen acc <? kMaxComponents)) eqn:E; cycle 1.
  { exists []. rewrite app_nil_r. split; [done|]. apply others_movable. }
  apply andb_true_iff in E as [E%Z.ltb_lt _].
  pose proof (FindSep_ge (drop (Z.to_nat pos) full) pos) as H. rewrite length_drop in H.
  set (next := FindSep (drop (Z.to_nat pos) full) pos) in *. destruct (Z.ltb_spec pos next).
  - destruct (IH (next + 1) (acc ++ [Own pos (next - pos)])) as (vs & -> & Hm); [lia|done|].
    exists (Own pos (next - pos) :: vs). rewrite <- app_assoc. split; [done|]. cbn.
    split_and!; [lia..|]. eapply movable_weaken; [|exact Hm]. lia.
  - destruct (IH (next + 1) acc) as (vs & -> & Hm); [lia|done|].
    exists vs. split; [done|]. eapply movable_weaken; [|exact Hm]. lia.
Qed.

Lemma Parse_movable p a cs ds :
  path_is p a cs → movable (if a then 1 else 0) (components p ++ map Other ds).
Proof.
  intros H. pose proof (pi_parsed _ _ _ H) as E. pose proof (pi_abs _ _ _ H) as Ha.
  pose proof (pi_len _ _ _ H). pose proof (pi_raw _ _ _ H).
  rewrite <- E. rewrite <- E in Ha. unfold Parse in *. pose proof (length_slice 0 (path_len p) (raw_path p)) as Hl.
  destruct (slice 0 (path_len p) (raw_path p)) as [|c full]; [apply others_movable|].
  cbn [is_absolute components] in *. rewrite <- Ha.
  destruct (ParseLoop_movable (c :: full) (S (length (c :: full))) (if c =? kPathSeparator then 1 else 0) [] ds)
    as (vs & -> & Hm); [by case_match|lia|done].
Qed.

Lemma path_append_is p q a cs ds :
  path_is p a cs → path_is q false ds → zlen (cs ++ ds) ≤ kMaxComponents →
  zlen (print a (cs ++ ds)) < kMaxPathSize →
  ∃ r, path_append p q = Some r ∧ path_is r a (cs ++ ds) ∧ StringView r = print a (cs ++ ds).
Proof.
  intros Hp Hq Hn Hl. unfold path_append. rewrite (pi_abs _ _ _ Hq), (copy_is _ _ _ Hp).
  rewrite (count_is _ _ _ Hp), (count_is _ _ _ Hq). rewrite length_app in Hn.
  rewrite (proj2 (Z.leb_le _ _)) by lia. rewrite (pi_strings _ _ _ Hq), (pi_abs _ _ _ Hp).
  set (r := mkPath _ _ _ _). assert (Hr : strings r = cs ++ ds).
  { unfold strings, r. cbn [components raw_path]. rewrite map_app. f_equal.
    - apply (pi_strings _ _ _ Hp).
    - rewrite map_map. cbn. apply map_id. }
  pose proof (RebuildPath_spec r (if a then 1 else 0)) as H. rewrite Hr in H. apply H; cbn [raw_path is_absolute r].
  - apply Hp.
  - done.
  - unfold r. cbn [components]. by apply (Parse_movable p a cs).
  - apply Forall_app. split; [apply Hp|apply Hq].
  - rewrite length_app. lia.
  - done.
Qed.

(** ** Normalising *)

Abbreviation dot := (chars ".").
Abbreviation dotdot := (chars "..").

(** No component is redundant: [".."] appears only at the front of a relative path. *)
Definition normal (a : bool) (cs : list (list Z)) : Prop :=
  ∃ n rest, cs = replicate n dotdot ++ rest ∧ (a = true → n = 0%nat) ∧
    Forall (λ c, c ≠ dot ∧ c ≠ dotdot) rest.

Definition canon (a : bool) (cs : list (list Z)) : list (list Z) := fold_left (canon_step a) cs [].

Lemma canon_step_normal a acc c : normal a acc → normal a (canon_step a acc c).
Proof.
  intros (n & rest & -> & Hn & Hr). unfold canon_step. case_bool_decide; [by exists n, rest|].
  case_bool_decide as Hd.
  - subst c. destruct rest as [|r rest _] using rev_ind.
    + rewrite app_nil_r. destruct n as [|n].
      * cbn. destruct a; [by exists 0%nat, []|]. by exists 1%nat, [].
      * rewrite replicate_S_end, last_snoc. rewrite bool_decide_eq_true_2 by done. rewrite andb_false_r.
        destruct a; [by specialize (Hn eq_refl)|]. cbn [negb]. rewrite <- replicate_S_end.
        destruct (zlen _ <? kMaxComponents); [exists (S (S n)), []|exists (S n), []]; rewrite ?app_nil_r; [|done].
        by rewrite (replicate_S_end (S n)).
    + apply Forall_app in Hr as [Hr [[? ?] _]%Forall_cons]. rewrite app_assoc, last_snoc.
      rewrite bool_decide_eq_false_2 by naive_solver. rewrite (proj2 (Z.ltb_lt _ _)) by (rewrite length_app; cbn; lia).
      cbn. rewrite removelast_last. by exists n, rest.
  - destruct (zlen _ <? kMaxComponents); [|by exists n, rest]. exists n, (rest ++ [c]).
    rewrite app_assoc. split_and!; [done|done|]. apply Forall_app. by repeat constructor.
Qed.

Lemma canon_normal a cs : normal a (canon a cs).
Proof.
  unfold canon. assert (H : normal a []) by (exists 0%nat, []; by repeat constructor). revert H.
  generalize (@nil (list Z)). induction cs as [|c cs IH]; intros acc H; [done|]. cbn.
  apply IH. by apply canon_step_normal.
Qed.

(** A normal path is not changed. *)
Lemma canon_id a cs : normal a cs → zlen cs ≤ kMaxComponents → canon a cs = cs.
Proof.
  intros (n & rest & -> & Hn & Hr) Hl. unfold canon. rewrite fold_left_app.
  assert (H1 : fold_left (canon_step a) (replicate n dotdot) [] = replicate n dotdot).
  { destruct a; [by rewrite Hn|]. clear -Hl. induction n as [|n IH]; [done|].
    rewrite replicate_S_end, fold_left_app. rewrite length_app, length_replicate in *. rewrite IH by lia. cbn.
    unfold canon_step. rewrite bool_decide_eq_false_2, bool_decide_eq_true_2 by done. rewrite length_replicate.
    destruct n as [|n]; [done|]. rewrite replicate_S_end, last_snoc, bool_decide_eq_true_2, andb_false_r by done.
    cbn [negb]. by rewrite (proj2 (Z.ltb_lt _ _)) by lia. }
  rewrite H1. clear H1. revert Hl. generalize (replicate n dotdot). clear Hn. induction Hr as [|c rest [Hc Hd] _ IH]; intros acc Hl.
  { by rewrite app_nil_r. }
  cbn. unfold canon_step at 2. rewrite !bool_decide_eq_false_2 by done.
  rewrite length_app in Hl. cbn in Hl. rewrite (proj2 (Z.ltb_lt _ _)) by lia.
  rewrite IH; [by rewrite <- app_assoc|]. rewrite !length_app. cbn. lia.
Qed.

(** Where components lead from the directory [d]. *)
Definition walk_step (d : list (list Z)) (c : list Z) : list (list Z) :=
  if bool_decide (c = dot) then d else if bool_decide (c = dotdot) then removelast d else d ++ [c].
Definition walk (d cs : list (list Z)) : list (list Z) := fold_left walk_step cs d.

Lemma walk_snoc d cs c : walk d (cs ++ [c]) = walk_step (walk d cs) c.
Proof. unfold walk. by rewrite fold_left_app. Qed.

Lemma canon_step_walk a d acc c :
  normal a acc → (a = true → d = []) → zlen acc < kMaxComponents →
  walk d (canon_step a acc c) = walk_step (walk d acc) c.
Proof.
  intros (n & rest & -> & Hn & Hr) Hd Hl. unfold canon_step. rewrite (proj2 (Z.ltb_lt _ kMaxComponents)) by done.
  case_bool_decide as E1; [unfold walk_step; by rewrite bool_decide_eq_true_2 by done|].
  case_bool_decide as E2; [|by rewrite walk_snoc].
  subst c. destruct rest as [|r rest _] using rev_ind.
  - rewrite app_nil_r in *. destruct n as [|n].
    + cbn. destruct a; [by rewrite Hd|]. done.
    + destruct a; [by specialize (Hn eq_refl)|].
      rewrite replicate_S_end, last_snoc, bool_decide_eq_true_2, andb_false_r by done. apply walk_snoc.
  - apply Forall_app in Hr as [Hr [[? ?] _]%Forall_cons]. rewrite app_assoc, last_snoc.
    rewrite bool_decide_eq_false_2 by naive_solver. rewrite (proj2 (Z.ltb_lt _ _)) by (rewrite length_app; cbn; lia).
    cbn [negb andb]. rewrite removelast_last, walk_snoc. unfold walk_step.
    rewrite !(bool_decide_eq_false_2 (r = _)), bool_decide_eq_false_2, bool_decide_eq_true_2 by done.
    by rewrite removelast_last.
Qed.

Lemma canon_step_length a acc c : (length (canon_step a acc c) ≤ S (length acc))%nat.
Proof.
  unfold canon_step. repeat case_match; rewrite ?length_app; cbn; try lia.
  rewrite removelast_firstn_len, length_take. lia.
Qed.

Lemma canon_walk a d cs : (a = true → d = []) → zlen cs ≤ kMaxComponents → walk d (canon a cs) = walk d cs.
Proof.
  intros Hd. unfold canon. rewrite <- (rev_involutive cs). generalize (rev cs). clear cs. intros cs.
  assert (H : (length cs ≤ 64)%nat → walk d (fold_left (canon_step a) (rev cs) []) = walk d (rev cs) ∧
    (length (fold_left (canon_step a) (rev cs) []) ≤ length cs)%nat).
  { induction cs as [|c cs IH]; intros Hl; [done|]. cbn [rev]. rewrite fold_left_app. cbn [fold_left length] in *.
    destruct IH as [IH1 IH2]; [lia|]. split.
    - rewrite canon_step_walk; [|apply canon_normal|done|unfold kMaxComponents; lia]. by rewrite walk_snoc, IH1.
    - etrans; [apply canon_step_length|]. lia. }
  rewrite length_rev. unfold kMaxComponents. intros Hl. apply H. lia.
Qed.

Lemma canon_sub a cs : zlen (canon a cs) ≤ zlen cs ∧ zlen (print a (canon a cs)) ≤ zlen (print a cs) ∧
  (Forall comp_ok cs → Forall comp_ok (canon a cs)).
Proof.
  enough (H : canon a cs `sublist_of` cs).
  { split_and!; [apply sublist_length in H; lia|by apply print_sub|by apply Forall_sub]. }
  assert (H : ∀ acc acc', acc `sublist_of` acc' → fold_left (canon_step a) cs acc `sublist_of` acc' ++ cs).
  { induction cs as [|c cs IH]; intros acc acc' H; [by rewrite app_nil_r|]. cbn.
    rewrite (assoc_L (++) acc' [c] cs : acc' ++ c :: cs = _). apply IH. unfold canon_step.
    repeat case_match; try (by apply sublist_inserts_r); try (by apply sublist_app).
    apply sublist_inserts_r. etrans; [apply removelast_sublist|done]. }
  by apply (H [] []).
Qed.

Lemma GetWeaklyCanonical_is p a cs :
  path_is p a cs →
  ∃ q, GetWeaklyCanonical p = Some q ∧ path_is q a (canon a cs) ∧ StringView q = print a (canon a cs).
Proof.
  intros H. unfold GetWeaklyCanonical. rewrite (pi_abs _ _ _ H), (pi_strings _ _ _ H). fold (canon a cs).
  destruct (canon_sub a cs) as (H1 & H2 & H3). pose proof (pi_count _ _ _ H). pose proof (pi_print _ _ _ H).
  pose proof (pi_len _ _ _ H). apply Rebuild_others; [|by apply H3, H|lia|lia].
  cbn [raw_path fresh_path]. rewrite length_replicate. lia.
Qed.

Definition path_str (o : option Path) : option (list Z) := StringView <$> o.

Example join_ex : path_str (Join (map chars ["a//b/"; "c"; "d/.."])) = Some (chars "a/b/c/d/..").
Proof. vm_compute. reflexivity. Qed.
Example canon_ex : path_str (GetWeaklyCanonical (path_of (chars "/a/./b/../../../c//d"))) = Some (chars "/c/d").
Proof. vm_compute. reflexivity. Qed.
Example parent_ex : path_str (GetParent (path_of (chars "/a/b//"))) = Some (chars "/a").
Proof. vm_compute. reflexivity. Qed.
