(* ===== verification/PathSpec.v ===== *)
(** * What paths promise
    Printing and parsing, normalising, and going to a child and back. *)
From S2P Require Import Prelude Bytes Path.

Lemma print_head a cs : Forall comp_ok cs → bool_decide (head (print a cs) = Some kPathSeparator) = a.
Proof.
  intros Hc. unfold print. destruct a; [done|]. cbn [app]. destruct Hc as [|s cs [Hne Hs] _]; [done|].
  destruct s as [|x s]; [done|]. cbn. apply bool_decide_eq_false. intros [= ->]. by apply Forall_cons in Hs as [[_ ?] _].
Qed.

Lemma print_nonzero a cs : Forall comp_ok cs → Forall (λ c, c ≠ 0) (print a cs).
Proof.
  intros Hc. assert (H : ∀ f, Forall (λ c, c ≠ 0) (printed f cs)).
  { induction Hc as [|s cs Hs _ IH]; intros f; [constructor|]. cbn [printed]. apply Forall_app. split; [by destruct f; repeat constructor|].
    apply Forall_app. split; [by apply comp_ok_nul|apply IH]. }
  unfold print. apply Forall_app. split; [by destruct a; repeat constructor|apply H].
Qed.

(** A path object that is made of the text of components has these components. *)
Lemma path_of_print a cs :
  Forall comp_ok cs → zlen cs ≤ kMaxComponents → zlen (print a cs) < kMaxPathSize →
  path_is (path_of (print a cs)) a cs ∧ StringView (path_of (print a cs)) = print a cs.
Proof.
  intros Hc Hn Hl. destruct (path_of_is (print a cs) Hl (print_nonzero a cs Hc)) as [Hp Hs]. split; [|done].
  rewrite print_head, split_print, take_ge in Hp by (done || unfold kMaxComponents in *; lia). done.
Qed.

(** Components that fit a path object are what parsing their text gives back, and the text is
    what the object prints. *)
Theorem path_roundtrip a cs :
  Forall comp_ok cs → zlen cs ≤ kMaxComponents → zlen (print a cs) < kMaxPathSize →
  strings (path_of (print a cs)) = cs ∧ is_absolute (path_of (print a cs)) = a ∧ StringView (path_of (print a cs)) = print a cs.
Proof. intros Hc Hn Hl. destruct (path_of_print a cs Hc Hn Hl) as [Hp Hs]. split_and!; [apply Hp..|done]. Qed.

Lemma path_roundtrip_witness : strings (path_of (print true [chars "usr"; chars "bin"])) = [chars "usr"; chars "bin"].
Proof. apply (path_roundtrip true [chars "usr"; chars "bin"]); [apply (bool_decide_unpack _); vm_compute; exact I|done..]. Defined.

(** C16. [GetWeaklyCanonical] returns a path without redundant components that leads from every
    directory to where the path led, and that it leaves as it is. *)
Theorem path_canonical p a cs :
  path_is p a cs →
  ∃ q, GetWeaklyCanonical p = Some q ∧ path_is q a (canon a cs) ∧ normal a (canon a cs) ∧
    (∀ d, (a = true → d = []) → walk d (strings q) = walk d (strings p)) ∧
    ∃ q', GetWeaklyCanonical q = Some q' ∧ strings q' = strings q ∧ StringView q' = StringView q.
Proof.
  intros Hp. destruct (GetWeaklyCanonical_is p a cs Hp) as (q & Hq & Hpq & Hsv). exists q.
  destruct (GetWeaklyCanonical_is q a _ Hpq) as (q' & Hq' & Hpq' & Hsv').
  assert (Hid : canon a (canon a cs) = canon a cs) by (apply canon_id; [apply canon_normal|apply Hpq]).
  split_and!; [done..|apply canon_normal| |].
  - intros d Hd. rewrite (pi_strings _ _ _ Hpq), (pi_strings _ _ _ Hp). apply canon_walk; [done|apply Hp].
  - exists q'. rewrite (pi_strings _ _ _ Hpq'), (pi_strings _ _ _ Hpq), Hsv, Hsv', Hid. done.
Qed.

Lemma path_canonical_witness : ∃ q, GetWeaklyCanonical (path_of (print true [chars "a"; chars ".."; chars "b"])) = Some q ∧
  path_is q true [chars "b"].
Proof.
  destruct (path_canonical (path_of (print true [chars "a"; chars ".."; chars "b"])) true [chars "a"; chars ".."; chars "b"]) as (q & E & Hq & _).
  - apply path_of_print; [apply (bool_decide_unpack _); vm_compute; exact I|done..].
  - exists q. split; [exact E|exact Hq].
Defined.

(** Appending a name to a path and taking the parent leads back: the new path has the name as
    its file name and the parent has the components of the old path. *)
Theorem path_child_parent p cs c :
  path_is p true cs → comp_ok c → zlen cs < kMaxComponents → zlen (print true (cs ++ [c])) < kMaxPathSize → zlen c < kMaxPathSize →
  ∃ r q, path_append p (path_of c) = Some r ∧ strings r = cs ++ [c] ∧ StringView r = print true (cs ++ [c]) ∧ GetFilename r = c ∧
    GetParent r = Some q ∧ strings q = strings p.
Proof.
  intros Hp Hc Hn Hl Hlc. assert (Hpr : print false [c] = c) by (unfold print; cbn; by rewrite app_nil_r).
  destruct (path_of_print false [c]) as [Hq _]; [by constructor|done|by rewrite Hpr|]. rewrite Hpr in Hq.
  destruct (path_append_is p (path_of c) true cs [c] Hp Hq) as (r & Er & Hr & Hsv); [rewrite length_app; cbn; lia|done|].
  destruct (GetParent_is r true _ Hr) as (q & Eq & Hpq). exists r, q. split_and!; [done|apply Hr|done| |done|].
  - unfold GetFilename. rewrite (pi_strings _ _ _ Hr), last_snoc. done.
  - rewrite (pi_strings _ _ _ Hpq), (pi_strings _ _ _ Hp). unfold parent_of. cbn [negb andb]. apply removelast_last.
Qed.

Lemma path_child_parent_witness : ∃ r q, path_append (path_of (print true [chars "usr"])) (path_of (chars "bin")) = Some r ∧
  GetParent r = Some q ∧ strings q = [chars "usr"].
Proof.
  destruct (path_child_parent (path_of (print true [chars "usr"])) [chars "usr"] (chars "bin")) as (r & q & E1 & _ & _ & _ & E2 & E3).
  - apply path_of_print; [apply (bool_decide_unpack _); vm_compute; exact I|done..].
  - apply (bool_decide_unpack _). vm_compute. exact I.
  - done.
  - done.
  - done.
  - exists r, q. split; [exact E1|]. split; [exact E2|]. etrans; [exact E3|]. vm_compute. reflexivity.
Defined.
