(* ===== verification/CritBit.v ===== *)
(** * Crit-bit tree (libs/libcontainers/include/data_structures/critbit_tree.hpp)
    A binary tree over NUL-terminated keys.  The tagged pointers own the nodes they point to, so a
    tree is a value: an external node with its key, or an internal node that sends a key to one of
    its children by one bit of one byte.  The key of an external node is missing when its
    allocation failed; using it is an access through a null pointer.  The tree refines a finite
    map; its longest-prefix search does not find the longest prefix. *)
From S2P Require Import Prelude Bytes.

Inductive node (V : Type) : Type :=
| ExternalNode (key : option (list Z)) (value : V)
| InternalNode (byte mask : Z) (child0 child1 : node V).
Arguments ExternalNode {V}.
Arguments InternalNode {V}.

(** Which of the allocations of an insertion succeed. *)
Record allocs := mkAllocs { external_ok : bool; key_ok : bool; internal_ok : bool }.

Section tree.
Context {V : Type}.
Implicit Types (n : node V) (key : list Z).

Abbreviation TM := (M (option (node V))).

Definition key_byte (key : list Z) (byte : Z) : Z :=
  if byte <? zlen key then key !!! Z.to_nat byte else 0.

(** [(1 + (mask | c)) >> 8] *)
Definition direction (mask c : Z) : Z := Z.shiftr (1 + Z.lor mask c) 8.

(** [q->child[dir]] *)
Definition child {A} (dir : Z) (c0 c1 : A) : A := if dir =? 0 then c0 else c1.

Fixpoint BestMatch (n : node V) (key : list Z) : option (list Z) * V :=
  match n with
  | ExternalNode k v => (k, v)
  | InternalNode byte mask c0 c1 =>
      child (direction mask (key_byte key byte)) (BestMatch c0 key) (BestMatch c1 key)
  end.

Definition GetBestMatch (key : list Z) : TM (option (option (list Z) * V)) :=
  root ← getS; mret ((λ n, BestMatch n key) <$> root).

(** [std::string_view(match->key)] *)
Definition match_key (k : option (list Z)) : TM (list Z) :=
  match k with Some k => mret k | None => stopM BadAccess end.

Definition Contains (key : list Z) : TM bool :=
  m ← GetBestMatch key;
  match m with
  | None => mret false
  | Some (k, _) => k ← match_key k; mret (bool_decide (k = key))
  end.

Definition Get (key : list Z) : TM (option V) :=
  m ← GetBestMatch key;
  match m with
  | None => mret None
  | Some (k, v) => k ← match_key k; mret (if bool_decide (k = key) then Some v else None)
  end.

Definition GetLongestPrefixMatch (key : list Z) : TM (option V) :=
  m ← GetBestMatch key; mret (snd <$> m).

Definition Clear : TM unit := putS None.

Definition new_external (a : allocs) (key : list Z) (v : V) : option (node V) :=
  if external_ok a then Some (ExternalNode (if key_ok a then Some key else None) v) else None.

(** The first byte where two strings differ; the strings end in a NUL. *)
Fixpoint FirstDiff (p key : list Z) (i : Z) : Z :=
  match p, key with
  | a :: p, b :: key => if b =? a then FirstDiff p key (i + 1) else i
  | _, _ => i
  end.

(** The bits of a mask below and at its highest one, and from it the complement of that bit. *)
Definition critical_mask (u_char p_char : Z) : Z :=
  let newmask := Z.lxor u_char p_char in
  let newmask := Z.lor newmask (Z.shiftr newmask 1) in
  let newmask := Z.lor newmask (Z.shiftr newmask 2) in
  let newmask := Z.lor newmask (Z.shiftr newmask 4) in
  Z.lxor (Z.land newmask (u32 (Z.lnot (Z.shiftr newmask 1)))) 255.

(** The external node whose value [Insert<true>] replaces. *)
Fixpoint Overwrite (n : node V) (key : list Z) (v : V) : node V :=
  match n with
  | ExternalNode k _ => ExternalNode k v
  | InternalNode byte mask c0 c1 =>
      child (direction mask (key_byte key byte))
        (InternalNode byte mask (Overwrite c0 key v) c1) (InternalNode byte mask c0 (Overwrite c1 key v))
  end.

(** The new internal node above [sub], with [sub] at [newdir]. *)
Definition join_nodes (newbyte newmask newdir : Z) (ext sub : node V) : node V :=
  child newdir (InternalNode newbyte newmask sub ext) (InternalNode newbyte newmask ext sub).

Fixpoint InsertInternalNode (n : node V) (newbyte newmask newdir : Z) (ext : node V) (key : list Z) : node V :=
  match n with
  | ExternalNode _ _ => join_nodes newbyte newmask newdir ext n
  | InternalNode byte mask c0 c1 =>
      if (newbyte <? byte) || ((byte =? newbyte) && (newmask <? mask)) then
        join_nodes newbyte newmask newdir ext n
      else
        child (direction mask (key_byte key byte))
          (InternalNode byte mask (InsertInternalNode c0 newbyte newmask newdir ext key) c1)
          (InternalNode byte mask c0 (InsertInternalNode c1 newbyte newmask newdir ext key))
  end.

Definition Insert (overwrite : bool) (a : allocs) (key : list Z) (v : V) : TM bool :=
  root ← getS;
  match root with
  | None =>
      match new_external a key v with
      | None => mret false
      | Some n => putS (Some n);; mret true
      end
  | Some n =>
      p ← match_key (BestMatch n key).1;
      let i := FirstDiff p key 0 in
      if (key_byte key i =? 0) && (key_byte p i =? 0) then
        if overwrite then putS (Some (Overwrite n key v));; mret true else mret false
      else
        let newbyte := u32 i in
        let u_char := key_byte key newbyte in
        let p_char := key_byte p newbyte in
        let mask := u8 (critical_mask u_char p_char) in
        let dir := direction mask p_char in
        match new_external a key v with
        | None => mret false
        | Some ext =>
            if internal_ok a then
              putS (Some (InsertInternalNode n newbyte mask dir ext key));; mret true
            else mret false
        end
  end.

(** The tree without the external node of [key], where [n] is an internal node: the sibling
    takes the place of the parent. *)
Fixpoint RemoveNode (n : node V) (key : list Z) : option (node V) :=
  match n with
  | ExternalNode _ _ => None
  | InternalNode byte mask c0 c1 =>
      child (direction mask (key_byte key byte))
        (Some (match RemoveNode c0 key with None => c1 | Some c0 => InternalNode byte mask c0 c1 end))
        (Some (match RemoveNode c1 key with None => c0 | Some c1 => InternalNode byte mask c0 c1 end))
  end.

Definition Remove (key : list Z) : TM bool :=
  root ← getS;
  match root with
  | None => mret false
  | Some n =>
      k ← match_key (BestMatch n key).1;
      if negb (bool_decide (k = key)) then mret false
      else putS (RemoveNode n key);; mret true
  end.
End tree.

(** ** Bits of keys *)

Definition good_key (k : list Z) : Prop := Forall (λ c, 0 < c < 256) k.

(** Bit [i] of a key, counted from the highest bit of its first byte; the key ends in zeros. *)
Definition kbit (k : list Z) (i : Z) : bool := Z.testbit (key_byte k (i / 8)) (7 - i `mod` 8).

Definition agree (d : Z) (k k' : list Z) : Prop := ∀ i, 0 ≤ i < d → kbit k i = kbit k' i.

Lemma agree_sym d k k' : agree d k k' → agree d k' k.
Proof. intros H i Hi. symmetry. by apply H. Qed.

Lemma agree_trans d k1 k2 k3 : agree d k1 k2 → agree d k2 k3 → agree d k1 k3.
Proof. intros H1 H2 i Hi. rewrite H1 by done. by apply H2. Qed.

Lemma agree_le d d' k k' : d' ≤ d → agree d k k' → agree d' k k'.
Proof. intros Hd H i Hi. apply H. lia. Qed.

Lemma key_byte_range k i : good_key k → 0 ≤ key_byte k i < 256.
Proof.
  intros H. unfold key_byte. case_match; [|lia]. rewrite list_lookup_total_alt.
  destruct (k !! Z.to_nat i) eqn:E; cbn; [|lia]. pose proof (Forall_lookup_1 _ _ _ _ H E). cbn in *. lia.
Qed.

Lemma key_byte_pos k i : good_key k → 0 ≤ i < zlen k → 0 < key_byte k i.
Proof.
  intros H Hi. unfold key_byte. rewrite (proj2 (Z.ltb_lt _ _)) by lia.
  destruct (lookup_lt_is_Some_2 k (Z.to_nat i) ltac:(lia)) as [c Hc].
  rewrite (list_lookup_total_correct _ _ _ Hc). pose proof (Forall_lookup_1 _ _ _ _ H Hc). cbn in *. lia.
Qed.

(** The position of the bit that an internal node tests, and its mask. *)
Definition bit_pos (byte b : Z) : Z := 8 * byte + 7 - b.
Definition bit_mask (b : Z) : Z := 255 - 2 ^ b.

Lemma kbit_pos k byte b : 0 ≤ b < 8 → kbit k (bit_pos byte b) = Z.testbit (key_byte k byte) b.
Proof.
  intros. unfold kbit, bit_pos. f_equal; [f_equal|]; Z.to_euclidean_division_equations; lia.
Qed.

Lemma direction_table :
  forallb (λ b, forallb (λ c, direction (bit_mask b) c =? Z.b2z (Z.testbit c b)) (seqZ 0 256)) (seqZ 0 8) = true.
Proof. vm_compute. reflexivity. Qed.

Lemma direction_bit b c : 0 ≤ b < 8 → 0 ≤ c < 256 → direction (bit_mask b) c = Z.b2z (Z.testbit c b).
Proof.
  intros Hb Hc. pose proof direction_table as H. rewrite forallb_forall in H.
  specialize (H b ltac:(apply list_elem_of_In, elem_of_seqZ; lia)). rewrite forallb_forall in H.
  specialize (H c ltac:(apply list_elem_of_In, elem_of_seqZ; lia)). by apply Z.eqb_eq.
Qed.

Lemma direction_key k byte b :
  good_key k → 0 ≤ b < 8 → direction (bit_mask b) (key_byte k byte) = Z.b2z (kbit k (bit_pos byte b)).
Proof. intros Hk Hb. rewrite kbit_pos by done. apply direction_bit; [done|by apply key_byte_range]. Qed.

Lemma child_b2z {A} (b : bool) (x y : A) : child (Z.b2z b) x y = if b then y else x.
Proof. by destruct b. Qed.

Definition mask_of (x : Z) : Z :=
  let x := Z.lor x (Z.shiftr x 1) in
  let x := Z.lor x (Z.shiftr x 2) in
  let x := Z.lor x (Z.shiftr x 4) in
  Z.lxor (Z.land x (u32 (Z.lnot (Z.shiftr x 1)))) 255.

Lemma mask_table : forallb (λ x, mask_of x =? bit_mask (Z.log2 x)) (seqZ 1 255) = true.
Proof. vm_compute. reflexivity. Qed.

Lemma testbit_byte u j : 0 ≤ u < 256 → 8 ≤ j → Z.testbit u j = false.
Proof.
  intros Hu Hj. rewrite <- (Z.mod_small u (2 ^ 8)) by done. apply Z.mod_pow2_bits_high. lia.
Qed.

Lemma lxor_byte u p : 0 ≤ u < 256 → 0 ≤ p < 256 → 0 ≤ Z.lxor u p < 256.
Proof.
  intros Hu Hp. enough (Z.lxor u p `mod` 2 ^ 8 = Z.lxor u p) as <- by (by apply Z.mod_pos_bound).
  apply Z.bits_inj'. intros j Hj. destruct (decide (j < 8)).
  - by rewrite Z.mod_pow2_bits_low by lia.
  - rewrite Z.mod_pow2_bits_high by lia. by rewrite Z.lxor_spec, (testbit_byte u), (testbit_byte p) by lia.
Qed.

(** The critical bit: the highest one where two characters differ. *)
Lemma critical_bit u p :
  0 ≤ u < 256 → 0 ≤ p < 256 → u ≠ p →
  ∃ b, 0 ≤ b < 8 ∧ u8 (critical_mask u p) = bit_mask b ∧ Z.testbit u b ≠ Z.testbit p b ∧
    ∀ j, b < j → Z.testbit u j = Z.testbit p j.
Proof.
  intros Hu Hp Hne. set (x := Z.lxor u p). assert (Hx : 0 < x < 256).
  { pose proof (lxor_byte u p Hu Hp). assert (x ≠ 0) by (intros E; by apply Hne, Z.lxor_eq). fold x in H. lia. }
  assert (Hb : 0 ≤ Z.log2 x < 8).
  { split; [apply Z.log2_nonneg|]. apply (Z.log2_lt_pow2 x 8); lia. }
  exists (Z.log2 x). split_and!; [lia..| | |].
  - change (critical_mask u p) with (mask_of x). pose proof mask_table as H. rewrite forallb_forall in H.
    specialize (H x ltac:(apply list_elem_of_In, elem_of_seqZ; lia)). apply Z.eqb_eq in H. rewrite H.
    apply wrap_u_small. unfold in_u, bit_mask. change (2 ^ 8) with 256.
    pose proof (Z.log2_spec x ltac:(lia)). pose proof (pow2_pos (Z.log2 x) ltac:(lia)). lia.
  - intros E. pose proof (Z.bit_log2 x ltac:(lia)) as H. unfold x in H at 1.
    rewrite Z.lxor_spec, E, xorb_nilpotent in H. done.
  - intros j Hj. pose proof (Z.bits_above_log2 x j ltac:(lia) Hj) as H. unfold x in H.
    rewrite Z.lxor_spec in H. by apply xorb_eq.
Qed.

(** ** The first difference of two keys *)

Lemma FirstDiff_shift p k i : FirstDiff p k i = i + FirstDiff p k 0.
Proof.
  revert k i. induction p as [|a p IH]; intros [|b k] i; cbn; try lia.
  case_match; [|lia]. rewrite (IH k (i + 1)), (IH k (0 + 1)). lia.
Qed.

Lemma FirstDiff_same k i : FirstDiff k k i = i + zlen k.
Proof.
  revert i. induction k as [|c k IH]; intros i; cbn -[Z.of_nat]; [lia|]. rewrite Z.eqb_refl, IH. lia.
Qed.

Lemma key_byte_cons a k i : 0 ≤ i → key_byte (a :: k) (i + 1) = key_byte k i.
Proof.
  intros. unfold key_byte. cbn [length]. destruct (Z.ltb_spec i (zlen k)).
  - rewrite (proj2 (Z.ltb_lt _ _)) by lia. by replace (Z.to_nat (i + 1)) with (S (Z.to_nat i)) by lia.
  - by rewrite (proj2 (Z.ltb_ge _ _)) by lia.
Qed.

Lemma FirstDiff_spec p k :
  0 ≤ FirstDiff p k 0 ≤ zlen p ∧ (∀ j, 0 ≤ j < FirstDiff p k 0 → key_byte k j = key_byte p j) ∧
  (good_key p → good_key k → p ≠ k → key_byte k (FirstDiff p k 0) ≠ key_byte p (FirstDiff p k 0)).
Proof.
  revert k. induction p as [|a p IH]; intros [|b k]; cbn [FirstDiff].
  - split_and!; [done|lia..|done].
  - split_and!; [done|done|lia|]. intros _ Hk _. pose proof (key_byte_pos (b :: k) 0 Hk ltac:(cbn; lia)). change (key_byte [] 0) with 0. lia.
  - split_and!; [done|cbn; lia|lia|]. intros Hp _ _. pose proof (key_byte_pos (a :: p) 0 Hp ltac:(cbn; lia)). change (key_byte [] 0) with 0. lia.
  - destruct (Z.eqb_spec b a) as [->|Hab].
    + rewrite FirstDiff_shift. destruct (IH k) as ([H0 H1] & H2 & H3). rewrite (Z.add_comm (0 + 1)).
      split_and!; [lia|cbn [length]; lia| |].
      * intros j Hj. destruct (decide (j = 0)) as [->|]; [done|].
        replace j with (j - 1 + 1) by lia. rewrite !key_byte_cons by lia. apply H2. lia.
      * intros Hp%Forall_cons Hk%Forall_cons Hne. change (0 + 1) with 1. rewrite !key_byte_cons by done.
        apply H3; [tauto..|congruence].
    + split_and!; [done|cbn; lia|lia|]. intros _ _ _. done.
Qed.

(** Bits before the critical one agree, the critical one differs. *)
Lemma critical_position p k (i := FirstDiff p k 0) :
  good_key p → good_key k → p ≠ k →
  ∃ b, 0 ≤ b < 8 ∧ 0 ≤ i ∧ u8 (critical_mask (key_byte k i) (key_byte p i)) = bit_mask b ∧
    agree (bit_pos i b) k p ∧ kbit k (bit_pos i b) ≠ kbit p (bit_pos i b).
Proof.
  intros Hp Hk Hne. destruct (FirstDiff_spec p k) as ([H0 _] & H1 & H2). fold i in H0, H1, H2.
  destruct (critical_bit (key_byte k i) (key_byte p i)) as (b & Hb & Hm & Hd & Ha).
  1, 2: by apply key_byte_range. { by apply H2. }
  exists b. rewrite !kbit_pos by done. split_and!; try done; try lia. intros j Hj. unfold kbit.
  unfold bit_pos in Hj. pose proof (Z.div_mod j 8 ltac:(lia)). pose proof (Z.mod_pos_bound j 8 ltac:(lia)).
  destruct (decide (j / 8 = i)) as [E|].
  - rewrite E. apply Ha. lia.
  - rewrite H1; [done|]. lia.
Qed.

Lemma agree_eq k k' : good_key k → good_key k' → (∀ d, agree d k k') → k = k'.
Proof.
  intros Hk Hk' H. destruct (decide (k' = k)) as [->|Hne]; [done|].
  destruct (critical_position k' k Hk' Hk Hne) as (b & Hb & Hi & _ & _ & Hd). exfalso. apply Hd.
  apply (H (bit_pos (FirstDiff k' k 0) b + 1)). unfold bit_pos. lia.
Qed.

(** ** The invariant
    Bit positions grow downwards; the keys below a node agree before its position, and at it
    they are in the child of their bit. *)
Section invariant.
Context {V : Type}.
Implicit Types (n : node V) (k p : list Z).

(** The map that a tree stands for. *)
Fixpoint tmap (n : node V) : gmap (list Z) V :=
  match n with
  | ExternalNode (Some k) v => {[k := v]}
  | ExternalNode None _ => ∅
  | InternalNode _ _ c0 c1 => tmap c0 ∪ tmap c1
  end.

Definition has_key (n : node V) (k : list Z) : Prop := is_Some (tmap n !! k).

Fixpoint wf (lo : Z) (n : node V) : Prop :=
  match n with
  | ExternalNode None _ => False
  | ExternalNode (Some k) _ => good_key k
  | InternalNode byte mask c0 c1 =>
      ∃ b, 0 ≤ b < 8 ∧ 0 ≤ byte ∧ mask = bit_mask b ∧ lo ≤ bit_pos byte b ∧
        wf (bit_pos byte b + 1) c0 ∧ wf (bit_pos byte b + 1) c1 ∧
        (∀ k, has_key c0 k → kbit k (bit_pos byte b) = false) ∧
        (∀ k, has_key c1 k → kbit k (bit_pos byte b) = true) ∧
        (∀ k k', has_key (InternalNode byte mask c0 c1) k → has_key (InternalNode byte mask c0 c1) k' →
          agree (bit_pos byte b) k k')
  end.

Lemma wf_le lo lo' n : lo' ≤ lo → wf lo n → wf lo' n.
Proof.
  intros Hl. destruct n; cbn; [done|]. intros (b & ? & ? & ? & ? & ?). exists b. split_and!; naive_solver lia.
Qed.

Lemma has_int byte mask c0 c1 k : has_key (InternalNode byte mask c0 c1) k ↔ has_key c0 k ∨ has_key c1 k.
Proof. unfold has_key. cbn. by rewrite lookup_union_is_Some. Qed.

Lemma has_ext k0 v k : has_key (ExternalNode (Some k0) v) k ↔ k = k0.
Proof. unfold has_key. cbn. rewrite lookup_singleton_is_Some. naive_solver. Qed.

Lemma wf_good lo n k : wf lo n → has_key n k → good_key k.
Proof.
  revert lo. induction n as [k0 v|byte mask c0 IH0 c1 IH1]; intros lo; cbn.
  - destruct k0 as [k0|]; [|done]. intros ? ->%has_ext. done.
  - intros (b & _ & _ & _ & _ & H0 & H1 & _) [?|?]%has_int; eauto.
Qed.

Lemma wf_inhabited lo n : wf lo n → ∃ k, has_key n k.
Proof.
  revert lo. induction n as [k0 v|byte mask c0 IH0 c1 IH1]; intros lo; cbn.
  - destruct k0 as [k0|]; [|done]. exists k0. by apply has_ext.
  - intros (b & _ & _ & _ & _ & H0 & _). destruct (IH0 _ H0) as [k ?]. exists k. apply has_int. by left.
Qed.

(** The two children of a node share no key. *)
Lemma children_disjoint lo byte mask c0 c1 : wf lo (InternalNode byte mask c0 c1) → tmap c0 ##ₘ tmap c1.
Proof.
  intros (b & _ & _ & _ & _ & _ & _ & H0 & H1 & _). apply map_disjoint_spec. intros k v v' E0 E1.
  pose proof (H0 k ltac:(by exists v)). pose proof (H1 k ltac:(by exists v')). congruence.
Qed.

Lemma BestMatch_int lo byte mask c0 c1 k :
  good_key k → wf lo (InternalNode byte mask c0 c1) →
  ∃ b, 0 ≤ b < 8 ∧ mask = bit_mask b ∧ 0 ≤ byte ∧
    direction mask (key_byte k byte) = Z.b2z (kbit k (bit_pos byte b)) ∧
    BestMatch (InternalNode byte mask c0 c1) k =
      if kbit k (bit_pos byte b) then BestMatch c1 k else BestMatch c0 k.
Proof.
  intros Hk (b & Hb & Hbyte & -> & _). exists b. split_and!; [lia..|done|done| |].
  - by apply direction_key.
  - cbn. rewrite direction_key by done. apply child_b2z.
Qed.

(** The search ends in an external node of the tree, and in the one of the key if there is one. *)
Lemma BestMatch_in lo n k : good_key k → wf lo n → ∃ p v, BestMatch n k = (Some p, v) ∧ tmap n !! p = Some v.
Proof.
  revert lo. induction n as [k0 v|byte mask c0 IH0 c1 IH1]; intros lo Hk Hw.
  - destruct k0 as [k0|]; [|done]. exists k0, v. split; [done|]. apply lookup_singleton_eq.
  - destruct (BestMatch_int _ _ _ _ _ k Hk Hw) as (b & _ & _ & _ & _ & ->).
    pose proof (children_disjoint _ _ _ _ _ Hw) as Hd. destruct Hw as (b' & _ & _ & _ & _ & H0 & H1 & _).
    destruct (kbit k (bit_pos byte b)).
    + destruct (IH1 _ Hk H1) as (p & v & ? & ?). exists p, v. split; [done|]. cbn. by apply lookup_union_Some_r.
    + destruct (IH0 _ Hk H0) as (p & v & ? & ?). exists p, v. split; [done|]. cbn. by apply lookup_union_Some_l.
Qed.

Lemma mask_inj b b' : 0 ≤ b → 0 ≤ b' → bit_mask b = bit_mask b' → b = b'.
Proof. unfold bit_mask. intros ? ? E. apply (Z.pow_inj_r 2); lia. Qed.

Lemma BestMatch_found lo n k v : wf lo n → tmap n !! k = Some v → BestMatch n k = (Some k, v).
Proof.
  revert lo. induction n as [k0 v0|byte mask c0 IH0 c1 IH1]; intros lo Hw E.
  - destruct k0 as [k0|]; [|done]. cbn in E. apply lookup_singleton_Some in E as [-> ->]. done.
  - pose proof (wf_good lo _ k Hw ltac:(by exists v)) as Hk.
    destruct (BestMatch_int _ _ _ _ _ k Hk Hw) as (b & Hb & Hm & _ & _ & ->).
    destruct Hw as (b' & Hb' & _ & Hm' & _ & H0 & H1 & Hk0 & Hk1 & _).
    rewrite (mask_inj b b') by (lia || congruence). cbn in E.
    apply lookup_union_Some_raw in E as [E|[_ E]].
    + rewrite (Hk0 k) by (by exists v). eauto.
    + rewrite (Hk1 k) by (by exists v). eauto.
Qed.

(** ** Insertion and removal *)

Lemma join_ok lo n k v p newbyte b (d := bit_pos newbyte b) :
  0 ≤ b < 8 → 0 ≤ newbyte → lo ≤ d → good_key k → wf (d + 1) n → agree d k p → kbit k d ≠ kbit p d →
  (∀ q, has_key n q → agree d q p ∧ kbit q d = kbit p d) →
  let n' := join_nodes newbyte (bit_mask b) (Z.b2z (kbit p d)) (ExternalNode (Some k) v) n in
  wf lo n' ∧ tmap n' = <[k:=v]> (tmap n).
Proof.
  intros Hb Hnb Hlo Hk Hw Hag Hne Hn n'. assert (Hnone : tmap n !! k = None).
  { apply eq_None_not_Some. intros H. destruct (Hn k H) as [_ ?]. done. }
  assert (Hall : ∀ q, has_key n q ∨ has_key (ExternalNode (Some k) v) q → agree d q p).
  { intros q [?| ->%has_ext]; [by apply Hn|done]. }
  unfold n', join_nodes. rewrite child_b2z. split.
  - destruct (kbit p d) eqn:Ep; exists b; fold d; split_and!; try done; try lia.
    + intros q ->%has_ext. by destruct (kbit k d).
    + intros q Hq. by destruct (Hn q Hq).
    + intros q q' Hq%has_int Hq'%has_int. eapply agree_trans; [|apply agree_sym]; apply Hall; tauto.
    + intros q Hq. by destruct (Hn q Hq).
    + intros q ->%has_ext. by destruct (kbit k d).
    + intros q q' Hq%has_int Hq'%has_int. eapply agree_trans; [|apply agree_sym]; apply Hall; tauto.
  - destruct (kbit p d); cbn; [by rewrite insert_union_singleton_l|].
    by rewrite insert_union_singleton_r.
Qed.

(** The nodes that the insertion passes test an earlier bit. *)
Lemma before_critical newbyte b byte b' :
  0 ≤ b < 8 → 0 ≤ b' < 8 →
  (newbyte <? byte) || ((byte =? newbyte) && (bit_mask b <? bit_mask b')) =
    (bit_pos newbyte b <? bit_pos byte b').
Proof.
  intros. assert (Hm : (bit_mask b <? bit_mask b') = (b' <? b)).
  { unfold bit_mask. destruct (Z.ltb_spec b' b).
    - apply Z.ltb_lt. pose proof (Z.pow_lt_mono_r 2 b' b). lia.
    - apply Z.ltb_ge. pose proof (Z.pow_le_mono_r 2 b b'). lia. }
  rewrite Hm. unfold bit_pos.
  destruct (Z.ltb_spec newbyte byte), (Z.eqb_spec byte newbyte), (Z.ltb_spec b' b),
    (Z.ltb_spec (8 * newbyte + 7 - b) (8 * byte + 7 - b')); cbn; try done; lia.
Qed.

Lemma wf_raise lo lo' byte b c0 c1 :
  0 ≤ b < 8 → wf lo (InternalNode byte (bit_mask b) c0 c1) → lo' ≤ bit_pos byte b →
  wf lo' (InternalNode byte (bit_mask b) c0 c1).
Proof.
  intros Hb (b' & ? & ? & E & ? & ?) ?. apply mask_inj in E as <-; [|lia..]. exists b. split_and!; tauto.
Qed.

(** A key added below a node that it passes. *)
Lemma add_key lo byte b c0 c1 c0' c1' k v (e := bit_pos byte b) :
  0 ≤ b < 8 → wf lo (InternalNode byte (bit_mask b) c0 c1) →
  (∀ q, has_key (InternalNode byte (bit_mask b) c0 c1) q → agree e q k) →
  wf (e + 1) c0' → wf (e + 1) c1' →
  (tmap c0' = <[k:=v]> (tmap c0) ∧ tmap c1' = tmap c1 ∧ kbit k e = false) ∨
  (tmap c0' = tmap c0 ∧ tmap c1' = <[k:=v]> (tmap c1) ∧ kbit k e = true) →
  wf lo (InternalNode byte (bit_mask b) c0' c1').
Proof.
  intros Hb (b' & Hb' & Hbyte & E & Hlo & _ & _ & Hk0 & Hk1 & _) Hall Hw0 Hw1 H.
  apply mask_inj in E as <-; [|lia..]. fold e in Hlo, Hk0, Hk1.
  assert (Hnew : ∀ q, has_key (InternalNode byte (bit_mask b) c0' c1') q → agree e q k).
  { intros q [Hq|Hq]%has_int; unfold has_key in Hq; destruct H as [(E0 & E1 & _)|(E0 & E1 & _)];
      rewrite ?E0, ?E1 in Hq; try apply lookup_insert_is_Some in Hq as [->|[_ Hq]]; try done;
      apply Hall, has_int; tauto. }
  exists b. fold e. split_and!; try done; try lia.
  - intros q Hq. unfold has_key in Hq. destruct H as [(E0 & _ & Hk)|(E0 & _)]; rewrite E0 in Hq; [|by apply Hk0].
    apply lookup_insert_is_Some in Hq as [->|[_ Hq]]; [done|by apply Hk0].
  - intros q Hq. unfold has_key in Hq. destruct H as [(_ & E1 & _)|(_ & E1 & Hk)]; rewrite E1 in Hq; [by apply Hk1|].
    apply lookup_insert_is_Some in Hq as [->|[_ Hq]]; [done|by apply Hk1].
  - intros q q' Hq Hq'. eapply agree_trans; [by apply Hnew|]. apply agree_sym. by apply Hnew.
Qed.

Lemma insert_ok lo n k v p v0 newbyte b (d := bit_pos newbyte b) :
  0 ≤ b < 8 → 0 ≤ newbyte → lo ≤ d → good_key k → wf lo n → BestMatch n k = (Some p, v0) →
  agree d k p → kbit k d ≠ kbit p d →
  let n' := InsertInternalNode n newbyte (bit_mask b) (Z.b2z (kbit p d)) (ExternalNode (Some k) v) k in
  wf lo n' ∧ tmap n' = <[k:=v]> (tmap n).
Proof.
  intros Hb Hnb. revert lo. induction n as [k0 w|byte mask c0 IH0 c1 IH1]; intros lo Hlo Hk Hw Hp Hag Hne n'.
  { cbn in Hp. simplify_eq. apply join_ok; try done. intros q ->%has_ext. done. }
  destruct (BestMatch_in lo _ k Hk Hw) as (p' & v' & E & Hin). rewrite Hp in E. injection E as <- <-.
  destruct (BestMatch_int _ _ _ _ _ k Hk Hw) as (b' & Hb' & -> & Hbyte & Hdir & E). rewrite Hp in E.
  pose proof Hw as (b'' & Hb'' & _ & Hm & Hlo' & H0 & H1 & Hk0 & Hk1 & Hall).
  apply mask_inj in Hm as <-; [|lia..]. set (e := bit_pos byte b') in *.
  unfold n'. cbn [InsertInternalNode]. rewrite before_critical by done. fold d e. destruct (Z.ltb_spec d e) as [Hlt|Hge].
  { apply join_ok; try done; [eapply (wf_raise lo); [done|exact Hw|]; fold e; lia|].
    intros q Hq. pose proof (Hall q p Hq ltac:(by exists v0)) as Hqp.
    split; [apply (agree_le e); [lia|done]|apply Hqp]. unfold d, bit_pos in *. lia. }
  assert (Hkp : kbit k e = kbit p e ∧ e < d).
  { assert (kbit k e = kbit p e); [|split; [done|]; destruct (decide (e = d)) as [Eq|]; [by rewrite Eq in *|lia]].
    destruct (kbit k e).
    - destruct (BestMatch_in _ c1 k Hk H1) as (p' & ? & E' & ?). rewrite E' in E. simplify_eq. symmetry. apply Hk1. by eexists.
    - destruct (BestMatch_in _ c0 k Hk H0) as (p' & ? & E' & ?). rewrite E' in E. simplify_eq. symmetry. apply Hk0. by eexists. }
  destruct Hkp as [Hkp He]. rewrite Hdir, child_b2z.
  assert (Hnew : ∀ q, has_key (InternalNode byte (bit_mask b') c0 c1) q → agree e q k).
  { intros q Hq. eapply agree_trans; [apply (Hall q p Hq); by exists v0|]. apply agree_sym. by apply (agree_le d); [lia|]. }
  destruct (kbit k e) eqn:Ek.
  - destruct (IH1 (e + 1)) as [Hw1 Ht1]; [lia|done..|]. split.
    + eapply (add_key _ _ _ c0 c1 _ _ k v); eauto.
    + cbn. rewrite Ht1. symmetry. apply insert_union_r. apply eq_None_not_Some. intros ?. specialize (Hk0 k H). congruence.
  - destruct (IH0 (e + 1)) as [Hw0 Ht0]; [lia|done..|]. split.
    + eapply (add_key _ _ _ c0 c1 _ _ k v); eauto.
    + cbn. rewrite Ht0. symmetry. apply insert_union_l.
Qed.

Lemma Overwrite_ok lo n k v w : wf lo n → tmap n !! k = Some w → wf lo (Overwrite n k v) ∧ tmap (Overwrite n k v) = <[k:=v]> (tmap n).
Proof.
  revert lo. induction n as [k0 v0|byte mask c0 IH0 c1 IH1]; intros lo Hw E.
  { destruct k0 as [k0|]; [|done]. cbn in E. apply lookup_singleton_Some in E as [-> ->].
    split; [done|]. cbn. by rewrite insert_singleton_eq. }
  pose proof (wf_good lo _ k Hw ltac:(by exists w)) as Hk.
  destruct (BestMatch_int _ _ _ _ _ k Hk Hw) as (b & Hb & -> & _ & Hdir & _).
  pose proof Hw as (b' & Hb' & _ & Hm & _ & H0 & H1 & Hk0 & Hk1 & Hall). apply mask_inj in Hm as <-; [|lia..].
  assert (Hag : ∀ q, has_key (InternalNode byte (bit_mask b) c0 c1) q → agree (bit_pos byte b) q k).
  { intros q Hq. apply Hall; [done|]. by exists w. }
  cbn [Overwrite]. rewrite Hdir, child_b2z. cbn in E. destruct (kbit k (bit_pos byte b)) eqn:Ek.
  - assert (E1 : tmap c1 !! k = Some w).
    { apply lookup_union_Some_raw in E as [E|[_ E]]; [|done]. specialize (Hk0 k ltac:(by exists w)). congruence. }
    destruct (IH1 _ H1 E1) as [Hw1 Ht1]. split; [by eapply (add_key _ _ _ c0 c1 _ _ k v); eauto|].
    cbn. rewrite Ht1. symmetry. apply insert_union_r. apply eq_None_not_Some. intros H. specialize (Hk0 k H). congruence.
  - assert (E0 : tmap c0 !! k = Some w).
    { apply lookup_union_Some_raw in E as [E|[_ E]]; [done|]. specialize (Hk1 k ltac:(by exists w)). congruence. }
    destruct (IH0 _ H0 E0) as [Hw0 Ht0]. split; [by eapply (add_key _ _ _ c0 c1 _ _ k v); eauto|].
    cbn. rewrite Ht0. symmetry. apply insert_union_l.
Qed.

(** A node whose keys are among those it had. *)
Lemma fewer_keys lo byte b c0 c1 c0' c1' :
  0 ≤ b < 8 → wf lo (InternalNode byte (bit_mask b) c0 c1) →
  wf (bit_pos byte b + 1) c0' → wf (bit_pos byte b + 1) c1' → tmap c0' ⊆ tmap c0 → tmap c1' ⊆ tmap c1 →
  wf lo (InternalNode byte (bit_mask b) c0' c1').
Proof.
  intros Hb (b' & Hb' & Hbyte & E & Hlo & _ & _ & Hk0 & Hk1 & Hall) Hw0 Hw1 S0 S1.
  apply mask_inj in E as <-; [|lia..]. assert (H0 : ∀ q, has_key c0' q → has_key c0 q).
  { intros q [x ?]. exists x. by eapply lookup_weaken. }
  assert (H1 : ∀ q, has_key c1' q → has_key c1 q).
  { intros q [x ?]. exists x. by eapply lookup_weaken. }
  exists b. split_and!; try done; [lia..|by eauto|by eauto|]. intros q q' Hq%has_int Hq'%has_int. apply Hall; apply has_int; naive_solver.
Qed.

(** Removing a key of the tree: nothing is left, or a tree without it. *)
Lemma remove_ok lo n k w :
  wf lo n → tmap n !! k = Some w →
  match RemoveNode n k with
  | None => tmap n = {[k := w]}
  | Some n' => wf lo n' ∧ tmap n' = delete k (tmap n)
  end.
Proof.
  revert lo. induction n as [k0 v0|byte mask c0 IH0 c1 IH1]; intros lo Hw E.
  { destruct k0 as [k0|]; [|done]. cbn in *. by apply lookup_singleton_Some in E as [-> ->]. }
  pose proof (wf_good lo _ k Hw ltac:(by exists w)) as Hk. pose proof (children_disjoint _ _ _ _ _ Hw) as Hd.
  destruct (BestMatch_int _ _ _ _ _ k Hk Hw) as (b & Hb & -> & _ & Hdir & _).
  pose proof Hw as (b' & Hb' & _ & Hm & Hlo & H0 & H1 & Hk0 & Hk1 & Hall). apply mask_inj in Hm as <-; [|lia..].
  cbn [RemoveNode]. rewrite Hdir, child_b2z. cbn in E. destruct (kbit k (bit_pos byte b)) eqn:Ek.
  - assert (E0 : tmap c0 !! k = None).
    { apply eq_None_not_Some. intros H. specialize (Hk0 k H). congruence. }
    assert (E1 : tmap c1 !! k = Some w) by (apply lookup_union_Some_raw in E; naive_solver).
    specialize (IH1 _ H1 E1). cbn [tmap]. rewrite delete_union, (delete_id (tmap c0)) by done.
    destruct (RemoveNode c1 k) as [c1'|].
    + destruct IH1 as [Hw1 Ht1]. split; [|cbn; by rewrite Ht1].
      apply (fewer_keys lo byte b c0 c1); try done. rewrite Ht1. apply delete_subseteq.
    + split; [eapply wf_le; [|exact H0]; lia|]. by rewrite IH1, delete_singleton_eq, map_union_empty.
  - assert (E1 : tmap c1 !! k = None).
    { apply eq_None_not_Some. intros H. specialize (Hk1 k H). congruence. }
    assert (E0 : tmap c0 !! k = Some w) by (apply lookup_union_Some_raw in E; naive_solver).
    specialize (IH0 _ H0 E0). cbn [tmap]. rewrite delete_union, (delete_id (tmap c1)) by done.
    destruct (RemoveNode c0 k) as [c0'|].
    + destruct IH0 as [Hw0 Ht0]. split; [|cbn; by rewrite Ht0].
      apply (fewer_keys lo byte b c0 c1); try done. rewrite Ht0. apply delete_subseteq.
    + split; [eapply wf_le; [|exact H1]; lia|]. by rewrite IH0, delete_singleton_eq, map_empty_union.
Qed.
(** The key that the search ends at shares with the key sought the longest run of bits that any
    key of the tree shares with it. *)
Lemma BestMatch_longest lo n k p v q d :
  wf lo n → good_key k → BestMatch n k = (Some p, v) → has_key n q → agree d q k → agree d p k.
Proof.
  revert lo. induction n as [k0 v0|byte mask c0 IH0 c1 IH1]; intros lo Hw Hk E Hq Hd.
  { cbn in E. simplify_eq. cbn in Hq. unfold has_key in Hq. cbn in Hq. by apply lookup_singleton_is_Some in Hq as <-. }
  destruct (BestMatch_int _ _ _ _ _ k Hk Hw) as (b & Hb & -> & _ & Hdir & _).
  pose proof Hw as (b' & Hb' & Hbyte & Hm & _ & H0 & H1 & Hk0 & Hk1 & Hall). apply mask_inj in Hm as <-; [|lia..].
  set (e := bit_pos byte b) in *. assert (He : 0 ≤ e) by (unfold e, bit_pos; lia). cbn [BestMatch] in E. rewrite Hdir, child_b2z in E.
  assert (Hfar : kbit q e ≠ kbit k e → agree d p k).
  { intros Hne. assert (d ≤ e) by (destruct (decide (d ≤ e)); [done|]; exfalso; apply Hne, Hd; lia).
    eapply agree_trans; [|exact Hd]. apply (agree_le e); [done|]. apply Hall; [|done]. apply has_int.
    destruct (kbit k e).
    - destruct (BestMatch_in _ c1 k Hk H1) as (p' & w & E' & ?). rewrite E' in E. simplify_eq. right. by eexists.
    - destruct (BestMatch_in _ c0 k Hk H0) as (p' & w & E' & ?). rewrite E' in E. simplify_eq. left. by eexists. }
  apply has_int in Hq as [Hq|Hq].
  - specialize (Hk0 _ Hq). destruct (kbit k e) eqn:Ek; [apply Hfar; congruence|by apply (IH0 _ H0)].
  - specialize (Hk1 _ Hq). destruct (kbit k e) eqn:Ek; [by apply (IH1 _ H1)|apply Hfar; congruence].
Qed.
End invariant.

(** ** Refinement of a finite map *)

Inductive tree_op (V : Type) : Type :=
| OpContains (key : list Z)
| OpGet (key : list Z)
| OpInsert (overwrite : bool) (a : allocs) (key : list Z) (v : V)
| OpRemove (key : list Z)
| OpClear.
Arguments OpContains {V}.
Arguments OpGet {V}.
Arguments OpInsert {V}.
Arguments OpRemove {V}.
Arguments OpClear {V}.

(** The answer of an operation: whether, and which value. *)
Definition answer (V : Type) : Type := bool * option V.

Section refinement.
Context {V : Type}.
Implicit Types (n : node V) (k : list Z) (m : gmap (list Z) V).

Definition tree_do (o : tree_op V) : M (option (node V)) (answer V) :=
  match o with
  | OpContains k => b ← Contains k; mret (b, None)
  | OpGet k => v ← Get k; mret (bool_decide (is_Some (v : option V)), v)
  | OpInsert ow a k v => b ← Insert ow a k v; mret (b, None)
  | OpRemove k => b ← Remove k; mret (b, None)
  | OpClear => Clear;; mret (true, None)
  end.

(** What the keys must be: C strings shorter than [2^32].  The specification says nothing about
    others, nor about an insertion whose key cannot be allocated. *)
Definition key_pre (k : list Z) : M (gmap (list Z) V) unit :=
  assertM (bool_decide (Forall (λ c, 0 < c < 256) k ∧ zlen k < 2 ^ 32)) "key".

Definition map_insert (ow : bool) (a : allocs) (k : list Z) (v : V) (m : gmap (list Z) V) : bool * gmap (list Z) V :=
  if bool_decide (is_Some (m !! k)) then (ow, if ow then <[k:=v]> m else m)
  else if external_ok a && (internal_ok a || bool_decide (m = ∅)) then (true, <[k:=v]> m)
  else (false, m).

Definition map_do (o : tree_op V) : M (gmap (list Z) V) (answer V) :=
  match o with
  | OpContains k => key_pre k;; m ← getS; mret (bool_decide (is_Some ((m : gmap (list Z) V) !! k)), None)
  | OpGet k => key_pre k;; m ← getS; mret (bool_decide (is_Some (m !! k)), m !! k)
  | OpInsert ow a k v =>
      key_pre k;; assertM (key_ok a) "key allocation";;
      m ← getS; let '(b, m) := map_insert ow a k v m in putS m;; mret (b, None)
  | OpRemove k => key_pre k;; m ← getS; putS (delete k m);; mret (bool_decide (is_Some (m !! k)), None)
  | OpClear => putS ∅;; mret (true, None)
  end.

Definition stands_for (root : option (node V)) (m : gmap (list Z) V) : Prop :=
  match root with
  | None => m = ∅
  | Some n => wf 0 n ∧ tmap n = m
  end ∧ ∀ k, is_Some (m !! k) → zlen k < 2 ^ 32.

Lemma best_lookup n k :
  good_key k → wf 0 n →
  ∃ p v, BestMatch n k = (Some p, v) ∧ good_key p ∧ (p = k ↔ is_Some (tmap n !! k)) ∧
    (p = k → tmap n !! k = Some v).
Proof.
  intros Hk Hw. destruct (BestMatch_in 0 n k Hk Hw) as (p & v & E & Hp). exists p, v. split; [done|].
  split_and!; [by eapply wf_good; [exact Hw|]; exists v| |by intros <-]. split; [intros <-; by exists v|].
  intros [w Hw']. rewrite (BestMatch_found 0 n k w Hw Hw') in E. by injection E.
Qed.

Lemma tmap_nonempty n : wf 0 n → tmap n ≠ ∅.
Proof. intros Hw E. destruct (wf_inhabited 0 n Hw) as [k [v Hk]]. by rewrite E in Hk. Qed.

(** A new key in a tree that is not empty. *)
Lemma tree_insert_new n k v p v0 :
  good_key k → zlen k < 2 ^ 32 → wf 0 n → BestMatch n k = (Some p, v0) → good_key p → p ≠ k →
  zlen p < 2 ^ 32 →
  let i := FirstDiff p k 0 in
  let mask := u8 (critical_mask (key_byte k i) (key_byte p i)) in
  (key_byte k i =? 0) && (key_byte p i =? 0) = false ∧ u32 i = i ∧
  let n' := InsertInternalNode n i mask (direction mask (key_byte p i)) (ExternalNode (Some k) v) k in
  wf 0 n' ∧ tmap n' = <[k:=v]> (tmap n).
Proof.
  intros Hk Hl Hw Hb Hp Hne Hlp i mask. destruct (FirstDiff_spec p k) as ([H0 H1] & _ & H2). fold i in H0, H1, H2.
  specialize (H2 Hp Hk Hne). split_and!.
  - apply andb_false_iff. destruct (Z.eqb_spec (key_byte k i) 0), (Z.eqb_spec (key_byte p i) 0); try tauto. congruence.
  - apply wrap_u_small. unfold in_u. lia.
  - destruct (critical_position p k Hp Hk Hne) as (b & Hbb & _ & Hm & Hag & Hd). fold i in Hm, Hag, Hd.
    unfold mask. rewrite Hm, direction_key by done. apply (insert_ok 0 n k v p v0 i b); try done.
    unfold bit_pos. lia.
Qed.

Local Ltac run :=
  unfold wp, Contains, Get, Remove, Insert, GetBestMatch, new_external, match_key, mbind, M_bind, mret, M_ret,
    getS, putS, stopM, fmap, option_fmap, option_map; cbn beta iota zeta.

(** The precondition of an operation, where the specification goes on. *)
Lemma refines_pre {A} R k (c : M (option (node V)) A) r :
  (good_key k → zlen k < 2 ^ 32 → refines R c r) → refines R c (key_pre k;; r).
Proof.
  intros H s t HR. unfold key_pre, assertM, mbind at 1, M_bind at 1. case_bool_decide as Hk; [|done].
  destruct Hk as [Hk Hl]. exact (H Hk Hl s t HR).
Qed.

Lemma Contains_ok k : good_key k → refines stands_for (Contains k)
  (m ← getS; mret (bool_decide (is_Some (m !! k)))).
Proof.
  intros Hk [n|] m [Hm Hl]; run; [|by subst].
  destruct Hm as [Hw <-]. destruct (best_lookup n k Hk Hw) as (p & v & E & _ & Hiff & _).
  rewrite E. cbn. split; [|done]. by apply bool_decide_ext.
Qed.

Lemma Get_ok k : good_key k → refines stands_for (Get k) (m ← getS; mret (m !! k)).
Proof.
  intros Hk [n|] m [Hm Hl]; run; [|by subst].
  destruct Hm as [Hw <-]. destruct (best_lookup n k Hk Hw) as (p & v & E & _ & Hiff & Hv).
  rewrite E. cbn. split; [|done]. case_bool_decide; [by rewrite Hv|].
  symmetry. apply eq_None_not_Some. tauto.
Qed.

Lemma Remove_ok k : good_key k → refines stands_for (Remove k)
  (m ← getS; putS (delete k m);; mret (bool_decide (is_Some (m !! k)))).
Proof.
  intros Hk [n|] m [Hm Hl]; run; [|subst; by rewrite delete_empty].
  destruct Hm as [Hw <-]. destruct (best_lookup n k Hk Hw) as (p & v & E & _ & Hiff & Hv).
  rewrite E. cbn. case_bool_decide as Hp; cbn.
  - rewrite bool_decide_eq_true_2 by tauto. split; [done|]. specialize (Hv Hp).
    pose proof (remove_ok 0 n k v Hw Hv) as Hr. destruct (RemoveNode n k) as [n'|].
    + destruct Hr as [Hw' Ht]. split; [done|]. intros q [_ Hq]%lookup_delete_is_Some. by apply Hl.
    + rewrite Hr, delete_singleton_eq. split; [done|]. intros q Hq. by rewrite lookup_empty in Hq; destruct Hq.
  - rewrite bool_decide_eq_false_2 by tauto. split; [done|]. rewrite delete_id by (apply eq_None_not_Some; tauto). done.
Qed.

Lemma Insert_ok ow a k v : good_key k → zlen k < 2 ^ 32 → key_ok a = true → refines stands_for (Insert ow a k v)
  (m ← getS; let '(b, m) := map_insert ow a k v m in putS m;; mret b).
Proof.
  intros Hk Hlen Ha root m [Hm Hl]. unfold map_insert. run. rewrite Ha.
  assert (Hins : ∀ q, is_Some (<[k:=v]> m !! q) → zlen q < 2 ^ 32).
  { intros q [->|[_ ?]]%lookup_insert_is_Some; [done|by apply Hl]. }
  destruct root as [n|]; cycle 1.
  { subst m. rewrite lookup_empty, bool_decide_eq_false_2 by (by intros []). rewrite bool_decide_eq_true_2, orb_true_r by done.
    destruct (external_ok a); cbn; [|done]. split; [done|]. split; [|done]. by rewrite insert_empty. }
  destruct Hm as [Hw <-]. destruct (best_lookup n k Hk Hw) as (p & v0 & E & Hp & Hiff & Hv).
  rewrite (bool_decide_eq_false_2 (tmap n = ∅)), orb_false_r by (by apply tmap_nonempty).
  rewrite E. cbn. destruct (decide (p = k)) as [->|Hne].
  - rewrite bool_decide_eq_true_2 by tauto. rewrite FirstDiff_same.
    assert (Hd : (key_byte k (0 + zlen k) =? 0) = true) by (unfold key_byte; by rewrite Z.ltb_irrefl).
    rewrite Hd. cbn. destruct ow; cbn; [|done]. destruct (Overwrite_ok 0 n k v v0 Hw (Hv eq_refl)). done.
  - rewrite bool_decide_eq_false_2 by tauto.
    destruct (tree_insert_new n k v p v0) as (-> & Hi & Hw' & Ht); try done.
    { apply Hl. exists v0. destruct (BestMatch_in 0 n k Hk Hw) as (p' & v' & E' & ?). rewrite E in E'. by simplify_eq. }
    rewrite Hi. destruct (external_ok a); cbn; [|done]. destruct (internal_ok a); cbn; done.
Qed.

(** An operation followed by a packing of its result. *)
Lemma refines_map {S T A B} (R : S → T → Prop) (c : M S A) (r : M T A) (f : A → B) :
  refines R c r → refines R (x ← c; mret (f x)) (x ← r; mret (f x)).
Proof. intros H. apply refines_bind; [done|]. intros x. apply refines_ret. Qed.

Lemma tree_do_ok o : refines stands_for (tree_do o) (map_do o).
Proof.
  destruct o as [k|k|ow a k v|k|]; cbn [tree_do map_do].
  - apply refines_pre. intros Hk _. exact (refines_map _ _ _ (λ b, (b, None)) (Contains_ok k Hk)).
  - apply refines_pre. intros Hk _. exact (refines_map _ _ _ (λ v, (bool_decide (is_Some v), v)) (Get_ok k Hk)).
  - apply refines_pre. intros Hk Hl s t HR. unfold assertM. destruct (key_ok a) eqn:Ha; [|done].
    pose proof (refines_map _ _ _ (λ b, (b, @None V)) (Insert_ok ow a k v Hk Hl Ha) s t HR) as H. revert H. run.
    by destruct (map_insert ow a k v t).
  - apply refines_pre. intros Hk _. exact (refines_map _ _ _ (λ b, (b, None)) (Remove_ok k Hk)).
  - intros s t HR. run. split; [done|]. split; [done|]. intros k [? Hk]. by rewrite lookup_empty in Hk.
Qed.

End refinement.
