(* ===== verification/FatDisk.v ===== *)
(** * FAT volumes: sectors, boot sector and the three variants
    (kernel/src/fs/vfs/io/in_memory.hpp, fs/vfs/fat/fat.hpp, fat12.hpp, fat16.hpp, fat32.hpp)
    A volume is a block of memory read and written in sectors.  The temporary buffer that a read
    returns is overwritten by the next read; every caller is done with it by then, so a read is the
    bytes it returns.  The generic driver is written against its variant ([T<IO>] in the source):
    the class [FatImpl] has what the variants provide, with one instance for each. *)
From S2P Require Import Prelude Bytes.

(** ** Sectors *)

Record InMemory := mkIO { disk : list Z; sector_size : Z }.
Record SectorRange := mkRange { start : Z; count : Z }.

Definition kMaxTempBufSize : Z := 64 * 1024.

Abbreviation IOM := (M InMemory).

Definition ReadRange (range : SectorRange) : IOM (list Z) :=
  io ← getS;
  let total_size := u64 (count range * sector_size io) in
  assertM (total_size <=? kMaxTempBufSize) "Requested range exceeds maximum temporary buffer size";;
  let from := u64 (start range * sector_size io) in
  if from + total_size <=? zlen (disk io) then mret (slice from total_size (disk io)) else stopM BadAccess.

Definition ReadSector (offset : Z) : IOM (list Z) := ReadRange (mkRange offset 1).

Definition WriteRange (range : SectorRange) (data : list Z) : IOM unit :=
  io ← getS;
  let total_size := u64 (count range * sector_size io) in
  assertM (zlen data =? total_size) "Data size does not match the expected size for writing";;
  let to := u64 (start range * sector_size io) in
  if to + total_size <=? zlen (disk io)
  then putS (mkIO (splice to data (disk io)) (sector_size io)) else stopM BadAccess.

Definition WriteSector (offset : Z) (data : list Z) : IOM unit := WriteRange (mkRange offset 1) data.

Definition SetSectorSize (size : Z) : IOM unit := modS (λ io, mkIO (disk io) size).

(** [internal::get<T>(span, offset)] for a type of [size] bytes. *)
Definition span_get (size offset : Z) (span : list Z) : IOM (list Z) :=
  assertM (offset + size <=? zlen span) "Offset out of bounds";; mret (slice offset size span).

(** ** The boot sector *)

Record BootSector := mkBoot {
  jump_instruction : list Z;
  oem_name : list Z;
  bytes_per_sector : Z;
  sectors_per_cluster : Z;
  reserved_sectors : Z;
  number_of_fats : Z;
  root_dir_entries : Z;
  total_sectors_word : Z;
  media_descriptor : Z;
  fat_size_word : Z;
  sectors_per_track : Z;
  number_of_heads : Z;
  hidden_sectors : Z;
  total_sectors_dword : Z
}.

Abbreviation get8 := (λ o (l : list Z), l !!! Z.to_nat o : Z).

Definition read_boot (b : list Z) : BootSector :=
  mkBoot (slice 0 3 b) (slice 3 8 b) (get16 11 b) (get8 13 b) (get16 14 b) (get8 16 b) (get16 17 b)
    (get16 19 b) (get8 21 b) (get16 22 b) (get16 24 b) (get16 26 b) (get32 28 b) (get32 32 b).

(** The fields that FAT32 adds and the driver uses. *)
Record BootSector32 := mkBoot32 { fat_size_dword : Z; root_cluster : Z }.
Definition read_boot32 (b : list Z) : BootSector32 := mkBoot32 (get32 36 b) (get32 44 b).

Definition kSignature : Z := 0xAA55.
Definition kMaxClusterSize : Z := 32768.
Definition kFirstClusterNumber : Z := 2.
Definition sizeof_DirectoryEntry : Z := 32.

(** The object: what its constructor computes. *)
Record Fat := mkFat {
  boot_sector : BootSector;
  boot_sector32 : BootSector32;
  fat_region : SectorRange;
  root_dir_region : SectorRange;
  data_region : SectorRange;
  cluster_count : Z
}.

Definition IsPowerOfTwo (n : Z) : bool := (0 <? n) && (Z.land n (n - 1) =? 0).
Definition DivRoundUp (x y : Z) : Z := u64 (x + y - 1) / y.

(** [kBitMask<NumT, kBitStart, kBitLength>] and [kBitMaskRight], [kFullMask] *)
Definition kBitMask (kBitStart kBitLength : Z) : Z :=
  fold_left (λ mask bit, Z.lor mask (Z.shiftl 1 bit)) (seqZ kBitStart (kBitLength - kBitStart)) 0.
Definition kFullMask (bits : Z) : Z := wrap_u bits (Z.lnot 0).
Definition kBitMaskRight (bits range : Z) : Z := Z.shiftr (kFullMask bits) (bits - range).

(** ** What a variant provides *)

Class FatImpl := {
  ClusterBits : Z;
  kHasFixedRootDir : bool;
  kEOC : Z;
  kClusterMask : Z;
  kCleanShutdownMarkerBit : option Z;
  sizeof_BootSector : Z;
  fat_size : BootSector → BootSector32 → Z;
  GetRootCluster : Fat → Z;
  GetFATEntry : Fat → Z → IOM Z;
  SetFATEntry : Fat → Z → Z → IOM unit
}.

(** The entries of FAT16 and FAT32, of [bits] bits, in [Fat::GetFATEntry_] and [Fat::SetFATEntry_]. *)
Section plain_entries.
Context (bits mask : Z).

Definition entry_bytes (v : Z) : list Z := if bits =? 16 then le16 v else le32 v.
Definition entry_value (b : list Z) : Z := if bits =? 16 then get16 0 b else get32 0 b.

Definition fat_place (F : Fat) (cluster : Z) : Z * Z :=
  let fat_offset := u64 (cluster * (bits / 8)) in
  (u64 (start (fat_region F) + fat_offset / bytes_per_sector (boot_sector F)),
   fat_offset `mod` bytes_per_sector (boot_sector F)).

Definition plain_get (F : Fat) (cluster : Z) : IOM Z :=
  let '(sector_number, sector_offset) := fat_place F cluster in
  sector ← ReadSector sector_number;
  e ← span_get (bits / 8) sector_offset sector;
  mret (Z.land (entry_value e) mask).

Definition plain_set (F : Fat) (cluster value : Z) : IOM unit :=
  let '(sector_number, sector_offset) := fat_place F cluster in
  sector ← ReadSector sector_number;
  e ← span_get (bits / 8) sector_offset sector;
  let entry := wrap_u bits (Z.lor (Z.land (entry_value e) (Z.lnot mask)) (Z.land value mask)) in
  WriteSector sector_number (splice sector_offset (entry_bytes entry) sector).
End plain_entries.

(** The 12-bit entries of FAT12. *)
Definition fat12_place (F : Fat) (cluster : Z) : Z * Z * Z :=
  let bps := bytes_per_sector (boot_sector F) in
  let fat_offset := cluster + cluster / 2 in
  let sector_number := u64 (start (fat_region F) + fat_offset / bps) in
  let sector_offset := fat_offset `mod` bps in
  let count := if sector_offset =? u64 (bps - 1) then 2 else 1 in
  (sector_number, sector_offset, count).

Definition fat12_get (F : Fat) (cluster : Z) : IOM Z :=
  assertM (cluster <? u64 (cluster_count F + kFirstClusterNumber)) "Cluster number out of range";;
  let '(sector_number, sector_offset, count) := fat12_place F cluster in
  range ← ReadRange (mkRange sector_number count);
  e ← span_get 2 sector_offset range;
  mret (if cluster `mod` 2 =? 0 then Z.land (get16 0 e) 0x0FFF else Z.shiftr (get16 0 e) 4).

Definition fat12_set (F : Fat) (cluster value : Z) : IOM unit :=
  assertM (cluster <? u64 (cluster_count F + kFirstClusterNumber)) "Cluster number out of range";;
  let '(sector_number, sector_offset, count) := fat12_place F cluster in
  range ← ReadRange (mkRange sector_number count);
  e ← span_get 2 sector_offset range;
  let fat_entry := get16 0 e in
  let fat_entry :=
    if cluster `mod` 2 =? 0 then u16 (Z.lor (Z.land fat_entry 0xF000) (Z.land value 0x0FFF))
    else u16 (Z.lor (Z.land fat_entry 0x000F) (Z.shiftl (Z.land value 0x0FFF) 4)) in
  WriteRange (mkRange sector_number count) (splice sector_offset (le16 fat_entry) range).

Definition Fat12 : FatImpl := {|
  ClusterBits := 16;
  kHasFixedRootDir := true;
  kEOC := 0x0FF8;
  kClusterMask := kBitMaskRight 16 12;
  kCleanShutdownMarkerBit := None;
  sizeof_BootSector := 62;
  fat_size b _ := fat_size_word b;
  GetRootCluster _ := 0;
  GetFATEntry := fat12_get;
  SetFATEntry := fat12_set
|}.

Definition Fat16 : FatImpl := {|
  ClusterBits := 16;
  kHasFixedRootDir := true;
  kEOC := 0xFFF8;
  kClusterMask := kFullMask 16;
  kCleanShutdownMarkerBit := Some (2 * 8 - 1);
  sizeof_BootSector := 62;
  fat_size b _ := fat_size_word b;
  GetRootCluster _ := 0;
  GetFATEntry := plain_get 16 (kFullMask 16);
  SetFATEntry := plain_set 16 (kFullMask 16)
|}.

Definition Fat32 : FatImpl := {|
  ClusterBits := 32;
  kHasFixedRootDir := false;
  kEOC := kBitMask 3 25;
  kClusterMask := kBitMaskRight 32 28;
  kCleanShutdownMarkerBit := None;
  sizeof_BootSector := 90;
  fat_size b b32 := if negb (fat_size_word b =? 0) then fat_size_word b else fat_size_dword b32;
  GetRootCluster F := root_cluster (boot_sector32 F);
  GetFATEntry := plain_get 32 (kBitMaskRight 32 28);
  SetFATEntry := plain_set 32 (kBitMaskRight 32 28)
|}.

(** ** Construction and validation *)

Section construct.
Context `{FatImpl}.

(** What the constructors of the variants compute from the boot sector. *)
Definition layout (b : BootSector) (b32 : BootSector32) : Fat :=
  let fat_region_sectors := u32 (number_of_fats b * fat_size b b32) in
  let root_dir_start := u32 (reserved_sectors b + fat_region_sectors) in
  let root_dir_sectors := u32 (DivRoundUp (root_dir_entries b * sizeof_DirectoryEntry) (bytes_per_sector b)) in
  let data_start_sector := u32 (reserved_sectors b + fat_region_sectors + root_dir_sectors) in
  let total := if negb (total_sectors_word b =? 0) then total_sectors_word b else total_sectors_dword b in
  let data_sectors := u32 (total - data_start_sector) in
  mkFat b b32 (mkRange (reserved_sectors b) fat_region_sectors) (mkRange root_dir_start root_dir_sectors)
    (mkRange data_start_sector data_sectors) (data_sectors / sectors_per_cluster b).

(** [T(io)].  The base class checks the clean shutdown marker before the regions are set: [garbage]
    is what the memory of the object held.  The result says whether the warning was given. *)
Definition Construct (garbage : SectorRange) : IOM (bool * Fat) :=
  sector ← ReadSector 0;
  b ← span_get sizeof_BootSector 0 sector;
  let F := layout (read_boot b) (read_boot32 b) in
  warn ← match kCleanShutdownMarkerBit with
         | Some bit =>
             e ← GetFATEntry (mkFat (read_boot b) (read_boot32 b) garbage garbage garbage 0) 1;
             mret (negb (Z.land e (Z.shiftl 1 bit) =? Z.shiftl 1 bit))
         | None => mret false
         end;
  SetSectorSize (bytes_per_sector (boot_sector F));;
  mret (warn, F).

Definition ValidateJumpInstruction (b : BootSector) : bool :=
  let j := jump_instruction b in
  ((get8 0 j =? 0xEB) && (get8 2 j =? 0x90)) || (get8 0 j =? 0xE9).

Definition ValidateSectorAndClusterSize (b : BootSector) : bool :=
  if negb (IsPowerOfTwo (bytes_per_sector b)) || (bytes_per_sector b <? 512) || (4096 <? bytes_per_sector b)
  then false
  else if negb (IsPowerOfTwo (sectors_per_cluster b)) || (sectors_per_cluster b <? 1) || (128 <? sectors_per_cluster b)
  then false
  else bytes_per_sector b * sectors_per_cluster b <=? kMaxClusterSize.

Definition ValidateMediaDescriptor (b : BootSector) : bool :=
  bool_decide (media_descriptor b ∈ [0xF0; 0xF8; 0xF9; 0xFA; 0xFB; 0xFC; 0xFD; 0xFE; 0xFF]).

Definition ValidateFatMediaDescriptor (b : BootSector) : IOM bool :=
  fat_region ← ReadSector (reserved_sectors b);
  e ← span_get (ClusterBits / 8) 0 fat_region;
  mret (Z.land (entry_value ClusterBits e) 0xFF =? media_descriptor b).

(** [Fat::IsValid] *)
Definition IsValid_base : IOM bool :=
  sector ← ReadSector 0;
  sig ← span_get 2 510 sector;
  if negb (get16 0 sig =? kSignature) then mret false
  else
    b ← span_get 36 0 sector;
    let b := read_boot b in
    if negb (ValidateJumpInstruction b) then mret false
    else if negb (ValidateSectorAndClusterSize b) then mret false
    else if reserved_sectors b =? 0 then mret false
    else if number_of_fats b =? 0 then mret false
    else if negb (ValidateMediaDescriptor b) then mret false
    else ValidateFatMediaDescriptor b.
End construct.

(** The cluster counts that the variants accept. *)
Definition IsValid12 : IOM bool :=
  ok ← IsValid_base (H := Fat12);
  if negb ok then mret false
  else
    sector ← ReadSector 0;
    b ← span_get 62 0 sector;
    mret (cluster_count (layout (H := Fat12) (read_boot b) (read_boot32 b)) <? 4085).

Definition IsValid16 : IOM bool :=
  ok ← IsValid_base (H := Fat16);
  if negb ok then mret false
  else
    sector ← ReadSector 0;
    b ← span_get 62 0 sector;
    let n := cluster_count (layout (H := Fat16) (read_boot b) (read_boot32 b)) in
    mret ((4085 <=? n) && (n <? 65525)).

Definition IsValid32 : IOM bool :=
  ok ← IsValid_base (H := Fat32);
  if negb ok then mret false
  else
    sector ← ReadSector 0;
    b ← span_get 90 0 sector;
    let bs := read_boot b in
    if negb (fat_size_word bs =? 0) || negb (total_sectors_word bs =? 0) then mret false
    else mret (65525 <=? cluster_count (layout (H := Fat32) bs (read_boot32 b))).
