(* ===== verification/Fat.v ===== *)
(** * The FAT driver (kernel/src/fs/vfs/fat/fat.hpp)
    The operations of the driver, generic in the variant ([FatImpl]) and in the layout that the
    constructor computed.  A chain of clusters is walked with fuel, one step for each cluster of the
    volume and two more: on a volume whose chains end, no walk is longer. *)
From S2P Require Import Prelude Bytes Path FatDisk.

(** ** Results *)

Inductive VfsError : Type :=
| kFileNotFound | kDirectoryNotFound | kInvalidPath | kMountPointNotFound | kAlreadyMounted
| kNotMounted | kInvalidArgument | kAlreadyExists | kNotEmpty | kNotADirectory | kNotAFile
| kInvalidName | kReadOnly | kDiskFull | kCrossFilesystemRename | kUnknownError.

#[export] Instance VfsError_eq_dec : EqDecision VfsError.
Proof. solve_decision. Defined.

Inductive Result (A : Type) : Type :=
| Value (a : A)
| Unexpected (e : VfsError).
Arguments Value {A}.
Arguments Unexpected {A}.

(** [RET_UNEXPECTED_IF] *)
Definition ret_if {S A} (cond : bool) (e : VfsError) (k : M S (Result A)) : M S (Result A) :=
  if cond then mret (Unexpected e) else k.

(** ** Directory entries *)

Record DirectoryEntry := mkEntry {
  filename : list Z;
  attributes : Z;
  reserved : Z;
  creation_time_tenth : Z;
  creation_time : Z;
  creation_date : Z;
  last_access_date : Z;
  first_cluster_high : Z;
  last_write_time : Z;
  last_write_date : Z;
  first_cluster_low : Z;
  file_size : Z
}.

Definition read_entry (b : list Z) : DirectoryEntry :=
  mkEntry (slice 0 11 b) (get8 11 b) (get8 12 b) (get8 13 b) (get16 14 b) (get16 16 b) (get16 18 b)
    (get16 20 b) (get16 22 b) (get16 24 b) (get16 26 b) (get32 28 b).

Definition entry_data (e : DirectoryEntry) : list Z :=
  filename e ++ [attributes e; reserved e; creation_time_tenth e] ++ le16 (creation_time e) ++
  le16 (creation_date e) ++ le16 (last_access_date e) ++ le16 (first_cluster_high e) ++
  le16 (last_write_time e) ++ le16 (last_write_date e) ++ le16 (first_cluster_low e) ++ le32 (file_size e).

Definition zero_entry : DirectoryEntry := mkEntry (replicate 11 0) 0 0 0 0 0 0 0 0 0 0 0.

Definition kMaxNameLength : Z := 11.
Definition kLongNameMask : Z := 0x3F.
Definition kDeletedEntry : Z := 0xE5.
Definition kEOD : Z := 0x00.

Definition aNone : Z := 0x00.
Definition aVolumeLabel : Z := 0x08.
Definition aDirectory : Z := 0x10.
Definition aArchive : Z := 0x20.
Definition aLongName : Z := 0x0F.

Definition kDot : list Z := 46 :: replicate 10 32.
Definition kDotDot : list Z := 46 :: 46 :: replicate 9 32.

Definition first_byte (e : DirectoryEntry) : Z := filename e !!! 0%nat.
Definition IsFree (e : DirectoryEntry) : bool := first_byte e =? kDeletedEntry.
Definition IsFurtherEntriesFree (e : DirectoryEntry) : bool := first_byte e =? kEOD.
Definition IsLongNameSubComponent (e : DirectoryEntry) : bool :=
  (Z.land (attributes e) kLongNameMask =? aLongName) && negb (IsFree e).
Definition IsDirectory (e : DirectoryEntry) : bool :=
  Z.land (attributes e) (Z.lor aDirectory aVolumeLabel) =? aDirectory.
Definition IsFile (e : DirectoryEntry) : bool :=
  Z.land (attributes e) (Z.lor aDirectory aVolumeLabel) =? aNone.
Definition IsVolumeLabel (e : DirectoryEntry) : bool :=
  Z.land (attributes e) (Z.lor aDirectory aVolumeLabel) =? aVolumeLabel.
Definition entry_IsValid (e : DirectoryEntry) : bool := IsFile e || IsDirectory e || IsVolumeLabel e.
Definition IsRootDirectory (e : DirectoryEntry) : bool :=
  IsDirectory e && (first_cluster_low e =? 0) && (first_cluster_high e =? 0).

(** [GetCheckSum] of the entry's short name *)
Definition GetCheckSum (e : DirectoryEntry) : Z :=
  fold_left (λ sum c, u8 ((if Z.testbit sum 0 then 0x80 else 0) + Z.shiftr sum 1 + c)) (filename e) 0.

Definition with_filename (x : list Z) (e : DirectoryEntry) : DirectoryEntry :=
  mkEntry x (attributes e) (reserved e) (creation_time_tenth e) (creation_time e) (creation_date e)
    (last_access_date e) (first_cluster_high e) (last_write_time e) (last_write_date e)
    (first_cluster_low e) (file_size e).
Definition with_first_byte (x : Z) (e : DirectoryEntry) : DirectoryEntry :=
  with_filename (<[0%nat := x]> (filename e)) e.
Definition with_cluster (hi lo : Z) (e : DirectoryEntry) : DirectoryEntry :=
  mkEntry (filename e) (attributes e) (reserved e) (creation_time_tenth e) (creation_time e)
    (creation_date e) (last_access_date e) hi (last_write_time e) (last_write_date e) lo (file_size e).
Definition with_size (x : Z) (e : DirectoryEntry) : DirectoryEntry :=
  mkEntry (filename e) (attributes e) (reserved e) (creation_time_tenth e) (creation_time e)
    (creation_date e) (last_access_date e) (first_cluster_high e) (last_write_time e)
    (last_write_date e) (first_cluster_low e) x.

(** ** Names *)

Definition kInvalidChars : list Z :=
  [0x22; 0x2A; 0x2B; 0x2C; 0x2E; 0x2F; 0x3A; 0x3B; 0x3C; 0x3D; 0x3E; 0x3F; 0x5B; 0x5C; 0x5D; 0x7C].

Definition toupper (c : Z) : Z := if (97 <=? c) && (c <=? 122) then c - 0x20 else c.

(** One character of a name; [char] is signed. *)
Definition name_char (c : Z) : option Z :=
  if (i8 c <? 0x20) && negb (i8 c =? 0x05) then None
  else if bool_decide (c ∈ kInvalidChars) then None
  else Some (if i8 c =? 0x05 then toupper 0xE5 else u8 (toupper (i8 c))).

Fixpoint CopyAndValidateChars (src : list Z) (len : nat) (dst : list Z) (dst_offset : nat) : option (list Z) :=
  match len, src with
  | S len, c :: src => x ← name_char c; CopyAndValidateChars src len (<[dst_offset := x]> dst) (S dst_offset)
  | _, _ => Some dst
  end.

Definition ToShortFormat (buf : list Z) : option (list Z) :=
  let filename := c_str buf in
  let len := zlen filename in
  if kMaxNameLength + 1 <? len then None
  else
    let dot_pos := find_last 46 filename 0 in
    let name_len := default len dot_pos in
    let ext_len := match dot_pos with Some _ => len - name_len - 1 | None => 0 end in
    if (3 <? ext_len) || (name_len =? 0) || (8 <? name_len) then None
    else
      formatted ← CopyAndValidateChars filename (Z.to_nat name_len) (replicate 11 32) 0;
      match dot_pos with
      | Some d => CopyAndValidateChars (drop (S (Z.to_nat d)) filename) (Z.to_nat ext_len) formatted 8
      | None => Some formatted
      end.

(** [FormatFilename_], and the same copy in [FindEntryInDirectory_] *)
Definition FormatFilename (name : list Z) : option (list Z) :=
  ToShortFormat (take (Z.to_nat (Z.min (zlen name) (kMaxComponentSize - 1))) name).

Fixpoint until_space (l : list Z) : list Z :=
  match l with
  | [] => []
  | c :: l => if c =? 32 then [] else c :: until_space l
  end.

Definition FormatShortName (short_name : list Z) : list Z :=
  until_space (take 8 short_name) ++
  (if negb ((short_name !!! 8%nat : Z) =? 32) then 46 :: until_space (drop 8 short_name) else []).

Example format_ex : FormatFilename (chars "Readme.md") = Some (chars "README  MD ").
Proof. vm_compute. reflexivity. Qed.
Example format_bad : map FormatFilename (map chars ["."; ".."; "a.b.c"; "toolongname"; "a+b"; "x.text"]) = [None; None; None; None; None; None].
Proof. vm_compute. reflexivity. Qed.

(** ** Clusters *)

Record PathLookupResult := mkLookup {
  entry : DirectoryEntry;
  parent_cluster : Z;
  entry_offset : Z;
  found : bool
}.

Section driver.
Context `{FatImpl} (F : Fat).

Abbreviation bps := (bytes_per_sector (boot_sector F)).
Abbreviation spc := (sectors_per_cluster (boot_sector F)).
Abbreviation walk_fuel := (Z.to_nat (cluster_count F) + 3)%nat.

(** Conversion to [ClusterNumT] *)
Definition clus (z : Z) : Z := wrap_u ClusterBits z.

Definition GetRootCluster_ : Z := GetRootCluster F.

Definition GetFirstCluster (e : DirectoryEntry) : Z := Z.lor (Z.shiftl (first_cluster_high e) 16) (first_cluster_low e).

Definition GetClusterSector (cluster : Z) : Z :=
  u32 (u64 (start (data_region F) + u64 (u64 (cluster - kFirstClusterNumber) * spc))).

Definition GetClusterSize : Z := spc * bps.

Definition ReadCluster (cluster : Z) : IOM (list Z) := ReadRange (mkRange (GetClusterSector cluster) spc).
Definition WriteCluster (cluster : Z) (data : list Z) : IOM unit :=
  WriteRange (mkRange (GetClusterSector cluster) spc) data.

Fixpoint AllocLoop (fuel : nat) (cluster value : Z) : IOM Z :=
  match fuel with
  | O => stopM NoFuel
  | S fuel =>
      if cluster <? u64 (cluster_count F + kFirstClusterNumber) then
        e ← GetFATEntry F cluster;
        if e =? 0 then SetFATEntry F cluster value;; mret cluster
        else AllocLoop fuel (clus (cluster + 1)) value
      else mret 0
  end.

Definition AllocateCluster : IOM Z := AllocLoop walk_fuel kFirstClusterNumber kEOC.

Fixpoint FreeLoop (fuel : nat) (cluster : Z) : IOM unit :=
  match fuel with
  | O => stopM NoFuel
  | S fuel =>
      if negb (cluster =? 0) && (cluster <? kEOC) then
        next ← GetFATEntry F cluster;
        SetFATEntry F cluster 0;;
        FreeLoop fuel next
      else mret tt
  end.

Definition FreeClusterChain (cluster : Z) : IOM unit := FreeLoop walk_fuel (clus cluster).

(** ** Scanning directories *)

(** The entries of a block of directory data, from index [i]: [visit] takes the accumulator, the
    entry and its offset, and says whether to go on.  The result says whether the scan goes on in
    the next block. *)
Fixpoint ScanEntries {A} (n : nat) (i offset : Z) (data : list Z) (visit : A → DirectoryEntry → Z → A * bool) (a : A)
  : IOM (A * Z * bool) :=
  match n with
  | O => mret (a, offset, true)
  | S n =>
      b ← span_get sizeof_DirectoryEntry (i * sizeof_DirectoryEntry) data;
      let e := read_entry b in
      if IsFree e then ScanEntries n (i + 1) (offset + sizeof_DirectoryEntry) data visit a
      else if IsFurtherEntriesFree e then mret (a, offset, false)
      else
        let '(a, go) := visit a e offset in
        if go then ScanEntries n (i + 1) (offset + sizeof_DirectoryEntry) data visit a
        else mret (a, offset, false)
  end.

Definition entry_count (data : list Z) : nat := Z.to_nat (zlen data / sizeof_DirectoryEntry).

Definition ScanFixedRootDirectory {A} (visit : A → DirectoryEntry → Z → A * bool) (a : A) : IOM A :=
  root_data ← ReadRange (root_dir_region F);
  '(a, _, _) ← ScanEntries (entry_count root_data) 0 0 root_data visit a;
  mret a.

Fixpoint ScanClusterChain {A} (fuel : nat) (cluster offset : Z) (visit : A → DirectoryEntry → Z → A * bool) (a : A) : IOM A :=
  match fuel with
  | O => stopM NoFuel
  | S fuel =>
      if cluster <? kEOC then
        cluster_data ← ReadCluster cluster;
        '(a, offset, go) ← ScanEntries (entry_count cluster_data) 0 offset cluster_data visit a;
        if (go : bool) then
          next ← GetFATEntry F cluster;
          ScanClusterChain fuel next offset visit a
        else mret a
      else mret a
  end.

(** [ScanDirectoryTableWithOffset_]; [ScanDirectoryTable_] is the scan that never stops early. *)
Definition ScanDirectoryTableWithOffset {A} (dir_entry : DirectoryEntry)
    (visit : A → DirectoryEntry → Z → A * bool) (a : A) : IOM A :=
  let cluster := clus (GetFirstCluster dir_entry) in
  if kHasFixedRootDir && (cluster =? 0) then ScanFixedRootDirectory visit a
  else ScanClusterChain walk_fuel cluster 0 visit a.

Definition ScanDirectoryTable {A} (dir_entry : DirectoryEntry) (callback : A → DirectoryEntry → A) (a : A) : IOM A :=
  ScanDirectoryTableWithOffset dir_entry (λ a e _, (callback a e, true)) a.

(** ** Looking up paths *)

Definition MakeRootDirectoryEntry : DirectoryEntry :=
  let root := GetRootCluster_ in
  mkEntry (replicate 11 0) aDirectory 0 0 0 0 0 (Z.land (Z.shiftr root 16) 0xFFFF) 0 0 (Z.land root 0xFFFF) 0.

Definition match_name (formatted : list Z) (m : option (DirectoryEntry * Z)) (e : DirectoryEntry) (offset : Z)
  : option (DirectoryEntry * Z) * bool :=
  if negb (IsLongNameSubComponent e) && negb (IsFree e) && bool_decide (filename e = formatted)
  then (Some (e, offset), false) else (m, true).

Definition FindEntryInDirectory (dir_entry : DirectoryEntry) (component : list Z) : IOM (option (DirectoryEntry * Z)) :=
  match FormatFilename component with
  | None => mret None
  | Some formatted => ScanDirectoryTableWithOffset dir_entry (match_name formatted) None
  end.

Fixpoint LookupLoop (cs : list (list Z)) (current_entry : DirectoryEntry) (current_cluster parent_cluster offset : Z)
  : IOM PathLookupResult :=
  match cs with
  | [] => mret (mkLookup current_entry parent_cluster offset true)
  | component :: cs =>
      if bool_decide (component = chars ".") || bool_decide (component = chars "..")
      then LookupLoop cs current_entry current_cluster parent_cluster offset
      else
        m ← FindEntryInDirectory current_entry component;
        match m with
        | None => mret (mkLookup zero_entry 0 offset false)
        | Some (e, entry_offset) => LookupLoop cs e (clus (GetFirstCluster e)) current_cluster entry_offset
        end
  end.

Definition LookupPath (path : Path) : IOM PathLookupResult :=
  if IsEmpty path || IsRoot path then mret (mkLookup zero_entry 0 0 false)
  else LookupLoop (strings path) MakeRootDirectoryEntry GetRootCluster_ GetRootCluster_ 0.

Definition GetDirectoryLookup (path : Path) : IOM PathLookupResult :=
  if IsRoot path then mret (mkLookup MakeRootDirectoryEntry 0 0 true) else LookupPath path.

(** [path.GetParent()] reads past a view only for a path that does not fit its buffer. *)
Definition parent_path (path : Path) : IOM Path :=
  match GetParent path with Some p => mret p | None => stopM BadAccess end.

Definition GetParentCluster (path : Path) : IOM (Result Z) :=
  parent ← parent_path path;
  if IsRoot parent then mret (Value GetRootCluster_)
  else
    l ← LookupPath parent;
    if negb (found l) then mret (Unexpected kDirectoryNotFound)
    else mret (Value (clus (GetFirstCluster (entry l)))).

(** ** File data *)

Fixpoint SkipClusters (count : nat) (cluster : Z) : IOM Z :=
  match count with
  | O => mret cluster
  | S count =>
      if cluster <? kEOC then next ← GetFATEntry F cluster; SkipClusters count next else mret cluster
  end.

(** The bytes that are copied to the destination. *)
Fixpoint ReadLoop (fuel : nat) (cluster offset_in_cluster bytes_to_read : Z) (dst : list Z) : IOM (list Z) :=
  match fuel with
  | O => stopM NoFuel
  | S fuel =>
      let bytes_read := zlen dst in
      if (bytes_read <? bytes_to_read) && (cluster <? kEOC) then
        cluster_data ← ReadCluster cluster;
        let copy_size := Z.min (GetClusterSize - offset_in_cluster) (bytes_to_read - bytes_read) in
        if offset_in_cluster + copy_size <=? zlen cluster_data then
          next ← GetFATEntry F cluster;
          ReadLoop fuel next 0 bytes_to_read (dst ++ slice offset_in_cluster copy_size cluster_data)
        else stopM BadAccess
      else mret dst
  end.

Definition ReadFileData (e : DirectoryEntry) (size offset : Z) : IOM (list Z) :=
  let bytes_to_read := Z.min size (u64 (file_size e - offset)) in
  let cluster_size := GetClusterSize in
  cluster ← SkipClusters (Z.to_nat (offset / cluster_size)) (clus (GetFirstCluster e));
  ReadLoop walk_fuel cluster (offset `mod` cluster_size) bytes_to_read [].

(** A copy of [size] bytes into a [byte temp_buffer[kMaxClusterSize]]. *)
Definition temp_buffer (size : Z) (data : list Z) : IOM (list Z) :=
  if (size <=? kMaxClusterSize) && (size <=? zlen data) then mret (slice 0 size data) else stopM BadAccess.

Fixpoint EnsureClusterChain (clusters_needed : nat) (cluster : Z) : IOM Z :=
  match clusters_needed with
  | O => mret cluster
  | S n =>
      next ← GetFATEntry F cluster;
      if kEOC <=? next then
        next ← AllocateCluster;
        if next =? 0 then mret 0
        else SetFATEntry F cluster next;; EnsureClusterChain n next
      else EnsureClusterChain n next
  end.

Fixpoint WriteLoop (fuel : nat) (cluster : Z) (src : list Z) (size offset_in_cluster bytes_written : Z) : IOM Z :=
  match fuel with
  | O => stopM NoFuel
  | S fuel =>
      if bytes_written <? size then
        let cluster_size := GetClusterSize in
        cluster_data ← ReadCluster cluster;
        temp ← temp_buffer cluster_size cluster_data;
        let copy_size := Z.min (cluster_size - offset_in_cluster) (size - bytes_written) in
        WriteCluster cluster (splice offset_in_cluster (slice bytes_written copy_size src) temp);;
        let bytes_written := bytes_written + copy_size in
        if bytes_written <? size then
          next ← GetFATEntry F cluster;
          if kEOC <=? next then
            next ← AllocateCluster;
            if next =? 0 then mret bytes_written
            else SetFATEntry F cluster next;; WriteLoop fuel next src size 0 bytes_written
          else WriteLoop fuel next src size 0 bytes_written
        else mret bytes_written
      else mret bytes_written
  end.

Definition WriteToClusterChain (cluster : Z) (buffer : list Z) (offset_in_cluster : Z) : IOM Z :=
  WriteLoop (S (Z.to_nat (zlen buffer / GetClusterSize + 2))) cluster buffer (zlen buffer) offset_in_cluster 0.

Definition SetEntryFirstCluster (cluster : Z) (e : DirectoryEntry) : DirectoryEntry :=
  with_cluster (Z.land (Z.shiftr cluster 16) 0xFFFF) (Z.land cluster 0xFFFF) e.

(** ** Directory entries on the volume *)

Definition root_size : Z := u64 (count (root_dir_region F) * bps).

Definition UpdateEntryInFixedRootDir (offset : Z) (e : DirectoryEntry) : IOM unit :=
  if root_size <=? offset then mret tt
  else
    root_data ← ReadRange (root_dir_region F);
    temp ← temp_buffer root_size root_data;
    WriteRange (root_dir_region F) (slice 0 root_size (splice offset (entry_data e) temp)).

Fixpoint SeekEntry (fuel : nat) (offset cluster : Z) : IOM (Z * Z) :=
  match fuel with
  | O => stopM NoFuel
  | S fuel =>
      if (GetClusterSize <=? offset) && (cluster <? kEOC) then
        next ← GetFATEntry F cluster; SeekEntry fuel (offset - GetClusterSize) next
      else mret (offset, cluster)
  end.

Definition UpdateEntryInClusterDir (parent_cluster offset : Z) (e : DirectoryEntry) : IOM unit :=
  '(offset, cluster) ← SeekEntry walk_fuel offset parent_cluster;
  if kEOC <=? cluster then mret tt
  else
    cluster_data ← ReadCluster cluster;
    temp ← temp_buffer GetClusterSize cluster_data;
    WriteCluster cluster (slice 0 GetClusterSize (splice offset (entry_data e) temp)).

Definition UpdateDirectoryEntry (parent_cluster offset : Z) (e : DirectoryEntry) : IOM unit :=
  if kHasFixedRootDir && (parent_cluster =? 0) then UpdateEntryInFixedRootDir offset e
  else UpdateEntryInClusterDir parent_cluster offset e.

(** The fields that [WriteNewEntry_] sets; the reserved byte keeps its value. *)
Definition new_entry (name : list Z) (attrs first_cluster : Z) (old : DirectoryEntry) : DirectoryEntry :=
  mkEntry name attrs (reserved old) 0 0 0 0 (Z.land (Z.shiftr first_cluster 16) 0xFFFF) 0 0
    (Z.land first_cluster 0xFFFF) 0.

Definition WriteNewEntry (buffer : list Z) (index : Z) (name : list Z) (attrs first_cluster : Z)
    (was_eod has_next_slot : bool) : list Z :=
  let at_ := index * sizeof_DirectoryEntry in
  let old := read_entry (slice at_ sizeof_DirectoryEntry buffer) in
  let buffer := splice at_ (entry_data (new_entry name attrs first_cluster old)) buffer in
  if was_eod && has_next_slot then <[Z.to_nat ((index + 1) * sizeof_DirectoryEntry) := kEOD]> buffer else buffer.

(** The index of the first free entry of a block of directory data. *)
Fixpoint FindFree (n : nat) (i : Z) (data : list Z) : IOM (option (Z * bool)) :=
  match n with
  | O => mret None
  | S n =>
      b ← span_get sizeof_DirectoryEntry (i * sizeof_DirectoryEntry) data;
      let e := read_entry b in
      if IsFree e || IsFurtherEntriesFree e then mret (Some (i, IsFurtherEntriesFree e))
      else FindFree n (i + 1) data
  end.

Definition CreateEntryInFixedRootDir (name : list Z) (attrs first_cluster : Z) : IOM (Result unit) :=
  root_data ← ReadRange (root_dir_region F);
  let n := root_size / sizeof_DirectoryEntry in
  slot ← FindFree (Z.to_nat n) 0 root_data;
  match slot with
  | Some (i, was_eod) =>
      temp ← temp_buffer root_size root_data;
      WriteRange (root_dir_region F) (WriteNewEntry temp i name attrs first_cluster was_eod (i + 1 <? n));;
      mret (Value tt)
  | None => mret (Unexpected kDiskFull)
  end.

Definition InitializeEmptyCluster (cluster : Z) : IOM unit :=
  if GetClusterSize <=? kMaxClusterSize
  then WriteCluster cluster (<[0%nat := kEOD]> (replicate (Z.to_nat GetClusterSize) 0)) else stopM BadAccess.

Fixpoint CreateInChain (fuel : nat) (cluster : Z) (name : list Z) (attrs first_cluster : Z) : IOM (Result unit) :=
  match fuel with
  | O => stopM NoFuel
  | S fuel =>
      if cluster <? kEOC then
        cluster_data ← ReadCluster cluster;
        let n := zlen cluster_data / sizeof_DirectoryEntry in
        slot ← FindFree (Z.to_nat n) 0 cluster_data;
        match slot with
        | Some (i, was_eod) =>
            temp ← temp_buffer GetClusterSize cluster_data;
            WriteCluster cluster (WriteNewEntry temp i name attrs first_cluster was_eod (i + 1 <? n));;
            mret (Value tt)
        | None =>
            next ← GetFATEntry F cluster;
            if kEOC <=? next then
              next ← AllocateCluster;
              if next =? 0 then mret (Unexpected kDiskFull)
              else
                SetFATEntry F cluster next;;
                InitializeEmptyCluster next;;
                CreateInChain fuel next name attrs first_cluster
            else CreateInChain fuel next name attrs first_cluster
        end
      else mret (Unexpected kDiskFull)
  end.

Definition CreateEntryInClusterDir (parent_cluster : Z) (name : list Z) (attrs first_cluster : Z) : IOM (Result unit) :=
  CreateInChain walk_fuel parent_cluster name attrs first_cluster.

Definition CreateEntry (parent_cluster : Z) (name : list Z) (attrs first_cluster : Z) : IOM (Result unit) :=
  if kHasFixedRootDir && (parent_cluster =? 0) then CreateEntryInFixedRootDir name attrs first_cluster
  else CreateEntryInClusterDir parent_cluster name attrs first_cluster.

Definition DeleteEntry (l : PathLookupResult) : IOM (Result unit) :=
  FreeClusterChain (GetFirstCluster (entry l));;
  UpdateDirectoryEntry (parent_cluster l) (entry_offset l) (with_first_byte kDeletedEntry (entry l));;
  mret (Value tt).

Definition MoveEntry (old : PathLookupResult) (new_name : list Z) (new_parent_cluster : Z) : IOM (Result unit) :=
  if parent_cluster old =? new_parent_cluster then
    UpdateDirectoryEntry (parent_cluster old) (entry_offset old) (with_filename new_name (entry old));;
    mret (Value tt)
  else
    r ← CreateEntry new_parent_cluster new_name (attributes (entry old)) (clus (GetFirstCluster (entry old)));
    match r with
    | Unexpected e => mret (Unexpected e)
    | Value _ =>
        UpdateDirectoryEntry (parent_cluster old) (entry_offset old) (with_first_byte kDeletedEntry (entry old));;
        mret (Value tt)
    end.

Definition dir_data (new_cluster parent_cluster : Z) : list Z :=
  let dot c name := mkEntry name aDirectory 0 0 0 0 0 (Z.land (Z.shiftr c 16) 0xFFFF) 0 0 (Z.land c 0xFFFF) 0 in
  splice sizeof_DirectoryEntry (entry_data (dot parent_cluster kDotDot))
    (splice 0 (entry_data (dot new_cluster kDot)) (replicate (Z.to_nat GetClusterSize) 0)).

Definition InitializeNewDirectory (new_cluster parent_cluster : Z) : IOM unit :=
  if GetClusterSize <=? kMaxClusterSize then WriteCluster new_cluster (dir_data new_cluster parent_cluster)
  else stopM BadAccess.

Definition CreateDirectoryWithCluster (parent_cluster : Z) (name : list Z) : IOM (Result unit) :=
  new_cluster ← AllocateCluster;
  if new_cluster =? 0 then mret (Unexpected kDiskFull)
  else
    InitializeNewDirectory new_cluster parent_cluster;;
    CreateEntry parent_cluster name aDirectory new_cluster.

Definition occupies (is_empty : bool) (e : DirectoryEntry) : bool :=
  if negb (IsFree e) && negb (IsLongNameSubComponent e) && negb (IsVolumeLabel e) &&
     negb (bool_decide (filename e = kDot)) && negb (bool_decide (filename e = kDotDot))
  then false else is_empty.

Definition IsDirectoryEmpty (e : DirectoryEntry) : IOM bool := ScanDirectoryTable e occupies true.

Definition WriteFileData (l : PathLookupResult) (buffer : list Z) (offset : Z) : IOM (Result Z) :=
  let cluster_size := GetClusterSize in
  let cluster := clus (GetFirstCluster (entry l)) in
  start ← (if cluster =? 0 then
             c ← AllocateCluster;
             if c =? 0 then mret None
             else
               let e := SetEntryFirstCluster c (entry l) in
               UpdateDirectoryEntry (parent_cluster l) (entry_offset l) e;;
               mret (Some (c, e))
           else mret (Some (cluster, entry l)));
  match start with
  | None => mret (Unexpected kDiskFull)
  | Some (cluster, e) =>
      cluster ← EnsureClusterChain (Z.to_nat (offset / cluster_size)) cluster;
      if cluster =? 0 then mret (Unexpected kDiskFull)
      else
        bytes_written ← WriteToClusterChain cluster buffer (offset `mod` cluster_size);
        let new_size := Z.max (file_size e) (u64 (offset + bytes_written)) in
        (if negb (new_size =? file_size e)
         then UpdateDirectoryEntry (parent_cluster l) (entry_offset l) (with_size (u32 new_size) e) else mret tt);;
        mret (Value bytes_written)
  end.

(** ** The operations *)

Definition CreateFile (path : Path) : IOM (Result unit) :=
  ret_if (IsEmpty path || negb (HasComponents path)) kInvalidPath (
  match FormatFilename (GetFilename path) with
  | None => mret (Unexpected kInvalidName)
  | Some formatted_name =>
      l ← LookupPath path;
      ret_if (found l) kAlreadyExists (
      p ← GetParentCluster path;
      match p with
      | Unexpected e => mret (Unexpected e)
      | Value c => CreateEntry c formatted_name aArchive 0
      end)
  end).

(** The bytes that are read into the buffer; [buffer] says that it is not null. *)
Definition ReadFile (path : Path) (buffer : bool) (size offset : Z) : IOM (Result (list Z)) :=
  ret_if (negb buffer || (size =? 0)) kInvalidArgument (
  l ← LookupPath path;
  ret_if (negb (found l)) kFileNotFound (
  ret_if (negb (IsFile (entry l))) kNotAFile (
  if file_size (entry l) <=? offset then mret (Value [])
  else d ← ReadFileData (entry l) size offset; mret (Value d)))).

(** [buffer] holds the [size] bytes to write, [None] for a null pointer. *)
Definition WriteFile (path : Path) (buffer : option (list Z)) (offset : Z) : IOM (Result Z) :=
  match buffer with
  | None | Some [] => mret (Unexpected kInvalidArgument)
  | Some data =>
      l ← LookupPath path;
      ret_if (negb (found l)) kFileNotFound (
      ret_if (negb (IsFile (entry l))) kNotAFile (
      WriteFileData l data offset))
  end.

Definition DeleteFile (path : Path) : IOM (Result unit) :=
  l ← LookupPath path;
  ret_if (negb (found l)) kFileNotFound (
  ret_if (negb (IsFile (entry l))) kNotAFile (DeleteEntry l)).

Definition FileExists (path : Path) : IOM (Result bool) :=
  l ← LookupPath path; mret (Value (found l && IsFile (entry l))).

Definition GetFileSize (path : Path) : IOM (Result Z) :=
  l ← LookupPath path;
  ret_if (negb (found l)) kFileNotFound (
  ret_if (negb (IsFile (entry l))) kNotAFile (mret (Value (file_size (entry l))))).

Definition CreateDirectory (path : Path) : IOM (Result unit) :=
  ret_if (IsEmpty path || negb (HasComponents path)) kInvalidPath (
  match FormatFilename (GetFilename path) with
  | None => mret (Unexpected kInvalidName)
  | Some formatted_name =>
      l ← LookupPath path;
      ret_if (found l) kAlreadyExists (
      p ← GetParentCluster path;
      match p with
      | Unexpected e => mret (Unexpected e)
      | Value c => CreateDirectoryWithCluster c formatted_name
      end)
  end).

Definition RemoveDirectory (path : Path) : IOM (Result unit) :=
  l ← LookupPath path;
  ret_if (negb (found l)) kDirectoryNotFound (
  ret_if (negb (IsDirectory (entry l))) kNotADirectory (
  empty ← IsDirectoryEmpty (entry l);
  ret_if (negb empty) kNotEmpty (DeleteEntry l))).

(** The names and kinds that the callback is called with, in order. *)
Definition list_entry (acc : list (list Z * bool)) (e : DirectoryEntry) : list (list Z * bool) :=
  if entry_IsValid e && negb (IsVolumeLabel e) then acc ++ [(FormatShortName (filename e), IsDirectory e)] else acc.

Definition ListDirectory (path : Path) : IOM (list (list Z * bool)) :=
  l ← GetDirectoryLookup path;
  if negb (found l) || negb (IsDirectory (entry l)) then mret []
  else ScanDirectoryTable (entry l) list_entry [].

Definition DirectoryExists (path : Path) : IOM (Result bool) :=
  if IsRoot path then mret (Value true)
  else l ← LookupPath path; mret (Value (found l && IsDirectory (entry l))).

Definition Exists (path : Path) : IOM (Result bool) :=
  if IsRoot path then mret (Value true)
  else l ← LookupPath path; mret (Value (found l)).

Definition Move (old_path new_path : Path) : IOM (Result unit) :=
  old ← LookupPath old_path;
  ret_if (negb (found old)) kFileNotFound (
  new ← LookupPath new_path;
  ret_if (found new) kAlreadyExists (
  match FormatFilename (GetFilename new_path) with
  | None => mret (Unexpected kInvalidName)
  | Some new_formatted =>
      p ← GetParentCluster new_path;
      match p with
      | Unexpected e => mret (Unexpected e)
      | Value c => MoveEntry old new_formatted c
      end
  end)).
End driver.
