(* ===== verification/FatVolume.v ===== *)
(** * What the FAT variants promise
    A formatted volume is a table of entries, a cluster of data for each, and the fixed root
    directory ([vol]).  [FatLaws] states what the driver relies on: the entry functions of a variant
    read and write one entry of the table and nothing else.  The three variants satisfy it; the
    packed 12-bit entries of FAT12 share bytes.  The rest of the development uses the entry, cluster
    and root operations through [vol] alone. *)
From S2P Require Import Prelude Bytes Path FatDisk Fat.

Section bytes_of_disk.
Implicit Types (d x : list Z).

Lemma splice_window a n o x d :
  0 ≤ a → 0 ≤ o → o + zlen x ≤ n → a + n ≤ zlen d →
  splice a (splice o x (slice a n d)) d = splice (a + o) x d.
Proof.
  intros. assert (Hn : zlen (slice a n d) = n) by (apply length_slice; lia).
  assert (Hs : zlen (splice o x (slice a n d)) = n) by (rewrite length_splice by lia; done).
  apply list_eq. intros i. rewrite (lookup_splice a), (lookup_splice (a + o)), Hs by lia.
  case_decide; [|by rewrite decide_False by lia]. rewrite lookup_splice by lia.
  case_decide; [rewrite decide_True by lia; f_equal; lia|].
  rewrite decide_False by lia. rewrite lookup_slice by lia. f_equal. lia.
Qed.
End bytes_of_disk.

(** ** Formatted volumes *)

Section volume.
Context `{FatImpl} (F : Fat).

Abbreviation bps := (bytes_per_sector (boot_sector F)).
Abbreviation spc := (sectors_per_cluster (boot_sector F)).

(** Clusters 2 to [cluster_count + 1] hold data. *)
Definition in_range (c : Z) : Prop := 2 ≤ c < cluster_count F + 2.

#[global] Instance in_range_dec c : Decision (in_range c).
Proof. unfold in_range. apply _. Defined.

Definition fat_start : Z := start (fat_region F) * bps.
Definition root_start : Z := start (root_dir_region F) * bps.
Definition data_start : Z := start (data_region F) * bps.
Definition root_bytes : Z := count (root_dir_region F) * bps.
Definition csize : Z := spc * bps.
Definition cluster_start (c : Z) : Z := data_start + (c - 2) * csize.

(** The width of a table entry. *)
Definition entry_bits : Z := if kClusterMask =? 0xFFF then 12 else ClusterBits.

(** The layout is that of a formatted volume: the table has room for all entries, the regions do
    not overlap and are within the volume, and the numbers fit their types. *)
Record formatted (len : Z) : Prop := {
  fm_sector : bps ∈ [512; 1024; 2048; 4096];
  fm_cluster : 1 ≤ spc ∧ csize ≤ kMaxClusterSize;
  fm_count : 0 ≤ cluster_count F ∧ cluster_count F + 2 ≤ kEOC;
  fm_fat : 0 < start (fat_region F) ∧
    fat_start + ((cluster_count F + 2) * entry_bits + 7) / 8 ≤ root_start;
  fm_root : 0 ≤ root_bytes ≤ kMaxClusterSize ∧ root_start + root_bytes ≤ data_start;
  fm_data : data_start + cluster_count F * csize ≤ len;
  fm_small : len ≤ 2 ^ 41
}.

Definition volume_ok (io : InMemory) : Prop :=
  formatted (zlen (disk io)) ∧ sector_size io = bps ∧ bytes (disk io).
End volume.

(** ** Reading and writing sectors *)

Section sectors.
Context `{FatImpl} (F : Fat).
Abbreviation bps := (bytes_per_sector (boot_sector F)).

Lemma bps_cases len : formatted F len → bps = 512 ∨ bps = 1024 ∨ bps = 2048 ∨ bps = 4096.
Proof. intros H1. pose proof (fm_sector _ _ H1) as H2. set_unfold in H2. tauto. Qed.

Lemma bps_bounds len : formatted F len → 512 ≤ bps ≤ 4096.
Proof. intros H1. pose proof (bps_cases _ H1). lia. Qed.

Lemma ReadRange_ok io s n :
  volume_ok F io → 0 ≤ s → 0 ≤ n → n * bps ≤ kMaxTempBufSize → (s + n) * bps ≤ zlen (disk io) →
  ReadRange (mkRange s n) io = Ok (slice (s * bps) (n * bps) (disk io), io).
Proof.
  intros (Hf & Hs & _) ? ? Hn Hl. pose proof (bps_bounds _ Hf). pose proof (fm_small _ _ Hf).
  unfold ReadRange, getS, mbind, M_bind, assertM. cbn [start count]. rewrite Hs.
  unfold kMaxTempBufSize in Hn. rewrite !wrap_u_small by (unfold in_u; nia).
  rewrite (proj2 (Z.leb_le _ _)) by (unfold kMaxTempBufSize; lia). cbn [mret M_ret].
  unfold mret, M_ret. by rewrite (proj2 (Z.leb_le _ _)) by nia.
Qed.

Lemma WriteRange_ok io s n data :
  volume_ok F io → 0 ≤ s → 0 ≤ n → zlen data = n * bps → (s + n) * bps ≤ zlen (disk io) →
  WriteRange (mkRange s n) data io = Ok (tt, mkIO (splice (s * bps) data (disk io)) (sector_size io)).
Proof.
  intros (Hf & Hs & _) ? ? Hn Hl. pose proof (bps_bounds _ Hf). pose proof (fm_small _ _ Hf).
  unfold WriteRange, getS, mbind, M_bind, assertM. cbn [start count]. rewrite Hs.
  rewrite !wrap_u_small by (unfold in_u; nia). rewrite Hn, Z.eqb_refl. unfold mret, M_ret, putS.
  by rewrite (proj2 (Z.leb_le _ _)) by nia.
Qed.

Lemma span_get_ok size offset span io :
  offset + size ≤ zlen span → span_get size offset span io = Ok (slice offset size span, io).
Proof.
  intros. unfold span_get, assertM, mbind, M_bind. by rewrite (proj2 (Z.leb_le _ _)).
Qed.

(** Changing bytes inside a window that was read and is written back. *)
Lemma write_back io s n o x :
  volume_ok F io → 0 ≤ s → 0 ≤ n → 0 ≤ o → o + zlen x ≤ n * bps → (s + n) * bps ≤ zlen (disk io) →
  WriteRange (mkRange s n) (splice o x (slice (s * bps) (n * bps) (disk io))) io =
    Ok (tt, mkIO (splice (s * bps + o) x (disk io)) (sector_size io)).
Proof.
  intros Hv ? ? ? ? ?. pose proof (bps_bounds _ (proj1 Hv)).
  assert (Hw : zlen (slice (s * bps) (n * bps) (disk io)) = n * bps) by (apply length_slice; nia).
  rewrite WriteRange_ok; [|done|done|done|by rewrite length_splice by lia|done].
  by rewrite splice_window by nia.
Qed.
End sectors.

(** ** The laws of a variant *)

Class FatLaws (I : FatImpl) := {
  fat_entry : Fat → list Z → Z → Z;
  fat_update : Fat → list Z → Z → Z → list Z;
  eoc_bound : 2 < kEOC ≤ kClusterMask ∧ kClusterMask < 2 ^ ClusterBits;
  mask_ones : kClusterMask = Z.ones (Z.log2 (kClusterMask + 1)) ∧ 2 ^ Z.log2 (kClusterMask + 1) = kClusterMask + 1;
  bits_16_32 : ClusterBits = 16 ∨ ClusterBits = 32;
  fixed_root F : kHasFixedRootDir = true → GetRootCluster F = 0;
  get_entry F io c : volume_ok F io → in_range F c →
    GetFATEntry F c io = Ok (fat_entry F (disk io) c, io);
  set_entry F io c v : volume_ok F io → in_range F c → 0 ≤ v < 2 ^ ClusterBits →
    SetFATEntry F c v io = Ok (tt, mkIO (fat_update F (disk io) c v) (sector_size io));
  entry_range F io c : volume_ok F io → in_range F c → 0 ≤ fat_entry F (disk io) c ≤ kClusterMask;
  update_ok F io c v : volume_ok F io → in_range F c → 0 ≤ v < 2 ^ ClusterBits →
    length (fat_update F (disk io) c v) = length (disk io) ∧ bytes (fat_update F (disk io) c v);
  entry_update F io c v c' : volume_ok F io → in_range F c → in_range F c' → 0 ≤ v < 2 ^ ClusterBits →
    fat_entry F (fat_update F (disk io) c v) c' =
      if decide (c' = c) then Z.land v kClusterMask else fat_entry F (disk io) c';
  update_apart F io c v a n : volume_ok F io → in_range F c → 0 ≤ v < 2 ^ ClusterBits → 0 ≤ n →
    root_start F ≤ a → slice a n (fat_update F (disk io) c v) = slice a n (disk io);
  entry_apart F io c a x : volume_ok F io → in_range F c → root_start F ≤ a → a + zlen x ≤ zlen (disk io) →
    fat_entry F (splice a x (disk io)) c = fat_entry F (disk io) c
}.

(** ** FAT16 and FAT32 *)

Section plain.
Context (bits mask : Z) (Hbits : bits = 16 ∨ bits = 32).

Abbreviation k := (bits / 8).

Definition plain_at (F : Fat) (c : Z) : Z := start (fat_region F) * bytes_per_sector (boot_sector F) + c * k.
Definition plain_raw (F : Fat) (d : list Z) (c : Z) : Z := entry_value bits (slice (plain_at F c) k d).
Definition plain_entry (F : Fat) (d : list Z) (c : Z) : Z := Z.land (plain_raw F d c) mask.
Definition plain_new (F : Fat) (d : list Z) (c v : Z) : Z :=
  wrap_u bits (Z.lor (Z.land (plain_raw F d c) (Z.lnot mask)) (Z.land v mask)).
Definition plain_update (F : Fat) (d : list Z) (c v : Z) : list Z :=
  splice (plain_at F c) (entry_bytes bits (plain_new F d c v)) d.

Lemma k_cases : (bits = 16 ∧ k = 2) ∨ (bits = 32 ∧ k = 4).
Proof. destruct Hbits as [-> | ->]; auto. Qed.

Lemma entry_bytes_len v : zlen (entry_bytes bits v) = k.
Proof. unfold entry_bytes. destruct Hbits as [-> | ->]; done. Qed.

Lemma entry_bytes_bytes v : bytes (entry_bytes bits v).
Proof. unfold entry_bytes. case_match; auto with bytes. Qed.

Lemma entry_value_bytes v : 0 ≤ v < 2 ^ bits → entry_value bits (entry_bytes bits v) = v.
Proof.
  unfold entry_value, entry_bytes. destruct Hbits as [-> | ->]; cbn [Z.eqb Pos.eqb]; intros.
  - rewrite get16_le16. by apply Z.mod_small.
  - rewrite get32_le32. by apply Z.mod_small.
Qed.

Lemma entry_value_range b : bytes b → 0 ≤ entry_value bits b < 2 ^ bits.
Proof.
  unfold entry_value. destruct Hbits as [-> | ->]; cbn [Z.eqb Pos.eqb]; intros.
  - by apply get16_range.
  - by apply get32_range.
Qed.

Context (n : Z) (Hmask : mask = Z.ones n) (Hn : 0 < n ≤ bits).
Context (I : FatImpl) (Ibits : @ClusterBits I = bits) (Iwidth : @entry_bits I = bits).
Context (Ieoc : 2 < @kEOC I ≤ mask).

(** Where an entry is: in one sector of the table. *)
Lemma plain_place F io c :
  volume_ok F io → in_range F c →
  let s := start (fat_region F) + c * k / bytes_per_sector (boot_sector F) in
  let o := (c * k) `mod` bytes_per_sector (boot_sector F) in
  fat_place bits F c = (s, o) ∧ 0 ≤ s ∧ 0 ≤ o ∧ o + k ≤ bytes_per_sector (boot_sector F) ∧
  s * bytes_per_sector (boot_sector F) + o = plain_at F c ∧
  (s + 1) * bytes_per_sector (boot_sector F) ≤ root_start F ∧ plain_at F c + k ≤ root_start F ∧ 0 ≤ plain_at F c ∧
  root_start F ≤ zlen (disk io).
Proof.
  intros (Hf & _ & _) [Hc1 Hc2]. pose proof (fm_fat _ _ Hf) as [Hs Hr]. pose proof (bps_cases _ _ Hf) as Hb.
  pose proof (fm_root _ _ Hf) as [Hr1 Hr2]. pose proof (fm_data _ _ Hf) as Hd. pose proof (fm_small _ _ Hf) as Hl.
  pose proof (fm_count _ _ Hf). pose proof (fm_cluster _ _ Hf) as [Hsp _]. unfold fat_start, csize in *. rewrite Iwidth in Hr.
  assert (0 ≤ cluster_count F * (sectors_per_cluster (boot_sector F) * bytes_per_sector (boot_sector F))).
  { apply Z.mul_nonneg_nonneg; [lia|]. apply Z.mul_nonneg_nonneg; lia. }
  assert (Hk : ((cluster_count F + 2) * bits + 7) / 8 = (cluster_count F + 2) * k ∧ (k = 2 ∨ k = 4)).
  { destruct Hbits as [E | E]; rewrite E; [change (16 / 8) with 2|change (32 / 8) with 4];
      (split; [|auto]); Z.to_euclidean_division_equations; lia. }
  destruct Hk as [Hk Hkk]. rewrite Hk in Hr. unfold fat_place, plain_at, root_start in *.
  assert (Hck : (c + 1) * k ≤ (cluster_count F + 2) * k) by nia.
  set (b := bytes_per_sector (boot_sector F)) in *. set (st := start (fat_region F)) in *.
  set (rs := start (root_dir_region F)) in *. clearbody b st rs.
  cbn zeta. assert (Hlt : c * k < (rs - st) * b) by nia.
  pose proof (Z.div_mod (c * k) b ltac:(lia)) as Hdm. pose proof (Z.mod_pos_bound (c * k) b ltac:(lia)) as Hmb.
  rewrite (wrap_u_small 64 (c * k)) by (unfold in_u; nia).
  set (q := c * k / b) in *. set (r := (c * k) `mod` b) in *. clearbody q r. assert (Hq : 0 ≤ q < rs - st) by nia.
  rewrite wrap_u_small by (unfold in_u; nia).
  split_and!; [done|lia|lia| |nia|nia|nia|nia|nia].
  destruct Hb as [->|[->|[->| ->]]], Hkk as [Hkk|Hkk]; rewrite Hkk in *; lia.
Qed.

Lemma testbit_mask i : 0 ≤ i → Z.testbit mask i = bool_decide (i < n).
Proof. intros. rewrite Hmask, Z.testbit_ones_nonneg by lia. case_bool_decide; [by apply Z.ltb_lt|by apply Z.ltb_ge, Z.nlt_ge]. Qed.

Lemma plain_new_masked raw v :
  Z.land (wrap_u bits (Z.lor (Z.land raw (Z.lnot mask)) (Z.land v mask))) mask = Z.land v mask.
Proof.
  apply Z.bits_inj'. intros i Hi. rewrite !Z.land_spec, testbit_mask by done. case_bool_decide; [|by rewrite !andb_false_r].
  rewrite !andb_true_r. unfold wrap_u. rewrite Z.mod_pow2_bits_low by lia.
  rewrite Z.lor_spec, !Z.land_spec, Z.lnot_spec, testbit_mask, bool_decide_eq_true_2 by done.
  cbn. by rewrite andb_false_r, andb_true_r.
Qed.

Lemma mask_pos : 0 ≤ mask < 2 ^ bits.
Proof.
  rewrite Hmask, Z.ones_equiv. pose proof (pow2_pos n ltac:(lia)). pose proof (Z.pow_le_mono_r 2 n bits ltac:(lia) ltac:(lia)). lia.
Qed.

Lemma land_mask_range x : 0 ≤ Z.land x mask ≤ mask.
Proof.
  rewrite Hmask, Z.land_ones by lia. pose proof (pow2_pos n ltac:(lia)).
  pose proof (Z.mod_pos_bound x (2 ^ n) ltac:(lia)). rewrite Z.ones_equiv. lia.
Qed.

Lemma plain_get_ok F io c :
  volume_ok F io → in_range F c → plain_get bits mask F c io = Ok (plain_entry F (disk io) c, io).
Proof.
  intros Hv Hc. destruct (plain_place F io c Hv Hc) as (E & Hs & Ho & Hok & Hat & Hend & _ & _ & Hl).
  pose proof (bps_bounds _ _ (proj1 Hv)).
  unfold plain_get. rewrite E. cbn zeta beta. unfold ReadSector, mbind, M_bind.
  rewrite (ReadRange_ok F) by (done || unfold kMaxTempBufSize; lia).
  rewrite Z.mul_1_l. rewrite span_get_ok by (rewrite length_slice; nia).
  unfold mret, M_ret, plain_entry, plain_raw. rewrite slice_slice by nia. by rewrite Hat.
Qed.

Lemma plain_set_ok F io c v :
  volume_ok F io → in_range F c →
  plain_set bits mask F c v io = Ok (tt, mkIO (plain_update F (disk io) c v) (sector_size io)).
Proof.
  intros Hv Hc. destruct (plain_place F io c Hv Hc) as (E & Hs & Ho & Hok & Hat & Hend & _ & _ & Hl).
  pose proof (bps_bounds _ _ (proj1 Hv)).
  unfold plain_set. rewrite E. cbn zeta beta. unfold ReadSector, WriteSector, mbind, M_bind.
  rewrite (ReadRange_ok F) by (done || unfold kMaxTempBufSize; lia).
  rewrite span_get_ok by (rewrite length_slice; nia). rewrite slice_slice by nia. rewrite Hat.
  rewrite (write_back F) by (done || rewrite ?entry_bytes_len; lia). by rewrite Hat.
Qed.

Lemma plain_update_len F io c v :
  volume_ok F io → in_range F c → length (plain_update F (disk io) c v) = length (disk io).
Proof.
  intros Hv Hc. destruct (plain_place F io c Hv Hc) as (_ & _ & _ & _ & _ & _ & H1 & H2 & H3).
  apply length_splice; rewrite ?entry_bytes_len; lia.
Qed.

Lemma plain_entry_update F io c v c' :
  volume_ok F io → in_range F c → in_range F c' →
  plain_entry F (plain_update F (disk io) c v) c' =
    if decide (c' = c) then Z.land v mask else plain_entry F (disk io) c'.
Proof.
  intros Hv Hc Hc'. destruct (plain_place F io c Hv Hc) as (_ & _ & _ & _ & _ & _ & H1 & H2 & H3).
  destruct (plain_place F io c' Hv Hc') as (_ & _ & _ & _ & _ & _ & H1' & H2' & _).
  pose proof (entry_bytes_len (plain_new F (disk io) c v)) as Hlen.
  unfold plain_entry at 1, plain_raw, plain_update. case_decide as Hd.
  - subst c'. rewrite <- Hlen, slice_splice by lia. rewrite entry_value_bytes by (apply wrap_u_range; lia).
    apply plain_new_masked.
  - rewrite slice_splice_apart; [done|lia..|]. rewrite Hlen. unfold plain_at.
    assert (0 < k) by (destruct k_cases; lia). destruct (decide (c' < c)); [left|right]; nia.
Qed.
End plain.

Lemma plain_laws bits n (I : FatImpl) :
  bits = 16 ∨ bits = 32 → 0 < n ≤ bits → @ClusterBits I = bits → @entry_bits I = bits →
  @kClusterMask I = Z.ones n → 2 < @kEOC I ≤ Z.ones n →
  @GetFATEntry I = plain_get bits (Z.ones n) → @SetFATEntry I = plain_set bits (Z.ones n) →
  (∀ F, @kHasFixedRootDir I = true → @GetRootCluster I F = 0) → FatLaws I.
Proof.
  intros Hbits Hn Ib Iw Im Ie Ig Is Ir.
  refine {| fat_entry := plain_entry bits (Z.ones n); fat_update := plain_update bits (Z.ones n) |}.
  - rewrite Im, Ib. pose proof (mask_pos bits (Z.ones n) n eq_refl Hn). lia.
  - rewrite Im. replace (Z.ones n + 1) with (2 ^ n) by (rewrite Z.ones_equiv; lia). by rewrite Z.log2_pow2 by lia.
  - by rewrite Ib.
  - done.
  - intros F io c Hv Hc. rewrite Ig. by eapply plain_get_ok.
  - intros F io c v Hv Hc _. rewrite Is. by eapply plain_set_ok.
  - intros F io c _ _. rewrite Im. by eapply land_mask_range.
  - intros F io c v Hv Hc _. split; [by eapply plain_update_len|].
    apply bytes_splice; [by apply entry_bytes_bytes|apply Hv].
  - intros F io c v c' Hv Hc Hc' _. rewrite Im. by eapply plain_entry_update.
  - intros F io c v a m Hv Hc _ Hm Ha.
    destruct (plain_place bits Hbits I Iw F io c Hv Hc) as (_ & _ & _ & _ & _ & _ & H1 & H2 & H3).
    pose proof (k_cases bits Hbits). unfold plain_update.
    apply slice_splice_apart; rewrite ?(entry_bytes_len bits Hbits); lia.
  - intros F io c a x Hv Hc Ha Hx.
    destruct (plain_place bits Hbits I Iw F io c Hv Hc) as (_ & _ & _ & _ & _ & _ & H1 & H2 & H3).
    pose proof (k_cases bits Hbits). unfold plain_entry, plain_raw. rewrite slice_splice_apart; [done|lia..].
Defined.

#[export] Instance Fat16_laws : FatLaws Fat16 := plain_laws 16 16 Fat16 ltac:(by left) ltac:(done) eq_refl eq_refl eq_refl ltac:(done) eq_refl eq_refl ltac:(done).
#[export] Instance Fat32_laws : FatLaws Fat32 := plain_laws 32 28 Fat32 ltac:(by right) ltac:(done) eq_refl eq_refl eq_refl ltac:(done) eq_refl eq_refl ltac:(done).

(** ** FAT12
    Entries [2m] and [2m + 1] share the middle one of three bytes. *)
Section fat12.
Existing Instance Fat12.

Definition fat12_at (F : Fat) (c : Z) : Z :=
  start (fat_region F) * bytes_per_sector (boot_sector F) + (c + c / 2).
Definition fat12_entry (F : Fat) (d : list Z) (c : Z) : Z :=
  if c `mod` 2 =? 0 then get16 (fat12_at F c) d `mod` 4096 else get16 (fat12_at F c) d / 16.
Definition fat12_new (F : Fat) (d : list Z) (c v : Z) : Z :=
  let e := get16 (fat12_at F c) d in
  if c `mod` 2 =? 0 then v `mod` 4096 + e / 4096 * 4096 else e `mod` 16 + v `mod` 4096 * 16.
Definition fat12_update (F : Fat) (d : list Z) (c v : Z) : list Z :=
  splice (fat12_at F c) (le16 (fat12_new F d c v)) d.

Lemma land_f000_table : forallb (λ h, Z.land (h * 4096) 0xF000 =? h * 4096) (seqZ 0 16) = true.
Proof. vm_compute. reflexivity. Qed.

Lemma land_f000 e : 0 ≤ e < 65536 → Z.land e 0xF000 = e / 4096 * 4096.
Proof.
  intros He. pose proof land_f000_table as H. rewrite forallb_forall in H.
  assert (Hh : 0 ≤ e / 4096 < 16) by (Z.to_euclidean_division_equations; lia).
  specialize (H (e / 4096) ltac:(apply list_elem_of_In, elem_of_seqZ; lia)). apply Z.eqb_eq in H. rewrite <- H at 1.
  apply Z.bits_inj'. intros i Hi. rewrite !Z.land_spec. destruct (decide (i < 12)).
  - replace (Z.testbit 0xF000 i) with false; [by rewrite !andb_false_r|].
    change 0xF000 with (Z.shiftl 15 12). by rewrite Z.shiftl_spec_low by lia.
  - f_equal. change 4096 with (2 ^ 12). rewrite Z.mul_pow2_bits by lia. rewrite Z.div_pow2_bits by lia. f_equal. lia.
Qed.

Lemma fat12_place_ok F io c :
  volume_ok F io → in_range F c →
  ∃ s o n, fat12_place F c = (s, o, n) ∧ 0 ≤ s ∧ 0 ≤ o ∧ 1 ≤ n ≤ 2 ∧ o + 2 ≤ n * bytes_per_sector (boot_sector F) ∧
    s * bytes_per_sector (boot_sector F) + o = fat12_at F c ∧
    (s + n) * bytes_per_sector (boot_sector F) ≤ root_start F ∧ fat12_at F c + 2 ≤ root_start F ∧
    0 ≤ fat12_at F c ∧ root_start F ≤ zlen (disk io).
Proof.
  intros (Hf & _ & _) [Hc1 Hc2]. pose proof (fm_fat _ _ Hf) as [Hs Hr]. pose proof (bps_cases _ _ Hf) as Hb.
  pose proof (fm_root _ _ Hf) as [Hr1 Hr2]. pose proof (fm_data _ _ Hf) as Hd. pose proof (fm_small _ _ Hf) as Hl.
  pose proof (fm_count _ _ Hf) as Hcc. pose proof (fm_cluster _ _ Hf) as [Hsp _]. unfold fat_start, csize in *.
  change (@entry_bits Fat12) with 12 in Hr. change (@kEOC Fat12) with 0xFF8 in Hcc.
  assert (0 ≤ cluster_count F * (sectors_per_cluster (boot_sector F) * bytes_per_sector (boot_sector F))).
  { apply Z.mul_nonneg_nonneg; [lia|]. apply Z.mul_nonneg_nonneg; lia. }
  unfold fat12_place, fat12_at, root_start in *. set (off := c + c / 2).
  assert (Hoff : 0 ≤ off ∧ off + 2 ≤ ((cluster_count F + 2) * 12 + 7) / 8).
  { unfold off. Z.to_euclidean_division_equations; lia. }
  set (t := ((cluster_count F + 2) * 12 + 7) / 8) in *. clearbody t off.
  set (b := bytes_per_sector (boot_sector F)) in *. set (st := start (fat_region F)) in *.
  set (rs := start (root_dir_region F)) in *. clearbody b st rs.
  pose proof (Z.div_mod off b ltac:(lia)) as Hdm. pose proof (Z.mod_pos_bound off b ltac:(lia)) as Hmb.
  set (q := off / b) in *. set (r := off `mod` b) in *. clearbody q r.
  assert (Hq : 0 ≤ q < rs - st) by nia. rewrite !wrap_u_small by (unfold in_u; nia).
  exists (st + q), r, (if r =? b - 1 then 2 else 1). destruct (Z.eqb_spec r (b - 1)); split_and!; try done; nia.
Qed.

Lemma fat12_get_ok F io c :
  volume_ok F io → in_range F c → fat12_get F c io = Ok (fat12_entry F (disk io) c, io).
Proof.
  intros Hv Hc. destruct (fat12_place_ok F io c Hv Hc) as (s & o & n & E & Hs & Ho & Hn & Hok & Hat & Hend & H1 & H2 & H3).
  pose proof (bps_bounds _ _ (proj1 Hv)). pose proof (fm_count _ _ (proj1 Hv)) as Hcc. change (@kEOC Fat12) with 0xFF8 in Hcc.
  unfold fat12_get. rewrite wrap_u_small by (unfold in_u, kFirstClusterNumber; lia).
  unfold assertM, mbind, M_bind. rewrite (proj2 (Z.ltb_lt _ _)) by (destruct Hc; unfold kFirstClusterNumber; lia).
  unfold mret, M_ret. rewrite E.
  rewrite (ReadRange_ok F) by (done || unfold kMaxTempBufSize; nia).
  rewrite span_get_ok by (rewrite length_slice; nia). rewrite slice_slice by nia. rewrite Hat. do 2 f_equal.
  unfold fat12_entry. assert (Hg : get16 0 (slice (fat12_at F c) 2 (disk io)) = get16 (fat12_at F c) (disk io)).
  { rewrite slice_two by lia. done. }
  rewrite Hg. case_match; [exact (Z.land_ones _ 12 ltac:(lia))|]. by rewrite Z.shiftr_div_pow2.
Qed.

Lemma fat12_new_range F d c v : bytes d → 0 ≤ fat12_new F d c v < 65536.
Proof.
  intros H. pose proof (get16_range (fat12_at F c) d H). unfold fat12_new. case_match; Z.to_euclidean_division_equations; lia.
Qed.

Lemma fat12_set_ok F io c v :
  volume_ok F io → in_range F c → 0 ≤ v < 2 ^ 16 →
  fat12_set F c v io = Ok (tt, mkIO (fat12_update F (disk io) c v) (sector_size io)).
Proof.
  intros Hv Hc Hr. destruct (fat12_place_ok F io c Hv Hc) as (s & o & n & E & Hs & Ho & Hn & Hok & Hat & Hend & H1 & H2 & H3).
  pose proof (bps_bounds _ _ (proj1 Hv)). pose proof (fm_count _ _ (proj1 Hv)) as Hcc. change (@kEOC Fat12) with 0xFF8 in Hcc.
  unfold fat12_set. rewrite (wrap_u_small 64) by (unfold in_u, kFirstClusterNumber; lia).
  unfold assertM, mbind, M_bind. rewrite (proj2 (Z.ltb_lt _ _)) by (destruct Hc; unfold kFirstClusterNumber; lia).
  unfold mret, M_ret. rewrite E.
  rewrite (ReadRange_ok F) by (done || unfold kMaxTempBufSize; nia).
  rewrite span_get_ok by (rewrite length_slice; nia). rewrite slice_slice by nia. rewrite Hat.
  assert (Hg : get16 0 (slice (fat12_at F c) 2 (disk io)) = get16 (fat12_at F c) (disk io)).
  { rewrite slice_two by lia. done. }
  rewrite Hg. set (e := get16 (fat12_at F c) (disk io)). pose proof (get16_range (fat12_at F c) _ (proj2 (proj2 Hv))) as He.
  fold e in He. set (w := if c `mod` 2 =? 0 then _ else _). assert (Hw : w = fat12_new F (disk io) c v).
  { pose proof (fat12_new_range F (disk io) c v (proj2 (proj2 Hv))) as Hnew. unfold fat12_new in *. fold e in Hnew |- *. cbn zeta in *. unfold w.
    assert (Hv12 : Z.land v 0x0FFF = v `mod` 4096) by (exact (Z.land_ones v 12 ltac:(lia))). rewrite Hv12.
    destruct (c `mod` 2 =? 0).
    - rewrite land_f000, Z.lor_comm by done. change 4096 with (2 ^ 12) at 3. rewrite <- (Z.shiftl_mul_pow2 (e / 4096)) by lia.
      rewrite lor_shiftl by (lia || apply Z.mod_pos_bound; lia). apply wrap_u_small. exact Hnew.
    - assert (He16 : Z.land e 0x000F = e `mod` 16) by (exact (Z.land_ones e 4 ltac:(lia))). rewrite He16.
      rewrite lor_shiftl by (lia || apply Z.mod_pos_bound; lia). apply wrap_u_small. exact Hnew. }
  clearbody w. subst w. rewrite (write_back F) by (done || cbn [length le16]; lia). by rewrite Hat.
Qed.

Lemma lookup_total_splice a x d i :
  0 ≤ a → a + zlen x ≤ zlen d →
  (splice a x d !!! i : Z) = if decide (a ≤ Z.of_nat i < a + zlen x) then x !!! (i - Z.to_nat a)%nat else d !!! i.
Proof. intros. rewrite !list_lookup_total_alt, lookup_splice by done. by case_decide. Qed.

(** The two bytes at [p] after the two bytes at [a] were written. *)
Lemma get16_splice a p e d :
  0 ≤ a → a + 2 ≤ zlen d → 0 ≤ p → 0 ≤ e < 65536 →
  get16 p (splice a (le16 e) d) =
    if decide (p = a) then e
    else if decide (p = a + 1) then e / 256 + 256 * (d !!! S (Z.to_nat p) : Z)
    else if decide (p = a - 1) then (d !!! Z.to_nat p : Z) + 256 * (e `mod` 256)
    else get16 p d.
Proof.
  intros Ha Hd Hp He. unfold get16. rewrite !lookup_total_splice by (cbn [length le16]; lia). cbn [length le16].
  repeat case_decide; try lia.
  - subst. replace (_ - _)%nat with 0%nat by lia. replace (_ - _)%nat with 1%nat by lia. cbn.
    Z.to_euclidean_division_equations; lia.
  - subst. replace (_ - _)%nat with 1%nat by lia. cbn. Z.to_euclidean_division_equations; lia.
  - subst. replace (_ - _)%nat with 0%nat by lia. cbn. Z.to_euclidean_division_equations; lia.
Qed.

Lemma fat12_entry_update F io c v c' :
  volume_ok F io → in_range F c → in_range F c' → 0 ≤ v < 2 ^ 16 →
  fat12_entry F (fat12_update F (disk io) c v) c' =
    if decide (c' = c) then v `mod` 4096 else fat12_entry F (disk io) c'.
Proof.
  intros Hv Hc Hc' Hr. destruct (fat12_place_ok F io c Hv Hc) as (_ & _ & _ & _ & _ & _ & _ & _ & _ & _ & H1 & H2 & H3).
  destruct (fat12_place_ok F io c' Hv Hc') as (_ & _ & _ & _ & _ & _ & _ & _ & _ & _ & _ & H2' & _).
  pose proof (fat12_new_range F (disk io) c v (proj2 (proj2 Hv))) as Hnew.
  pose proof (bytes_lookup (disk io) (Z.to_nat (fat12_at F c)) (proj2 (proj2 Hv))).
  pose proof (bytes_lookup (disk io) (S (Z.to_nat (fat12_at F c))) (proj2 (proj2 Hv))).
  pose proof (bytes_lookup (disk io) (Z.to_nat (fat12_at F c')) (proj2 (proj2 Hv))).
  pose proof (bytes_lookup (disk io) (S (Z.to_nat (fat12_at F c'))) (proj2 (proj2 Hv))).
  unfold fat12_entry, fat12_update. rewrite get16_splice by lia.
  destruct (decide (c' = c)) as [->|Hne].
  - rewrite decide_True by done. unfold fat12_new. cbn zeta.
    pose proof (get16_range (fat12_at F c) _ (proj2 (proj2 Hv))).
    destruct (Z.eqb_spec (c `mod` 2) 0); Z.to_euclidean_division_equations; lia.
  - unfold fat12_new. cbn zeta. unfold get16 in *. unfold fat12_at in *.
    set (base := start (fat_region F) * bytes_per_sector (boot_sector F)) in *.
    rewrite decide_False by (Z.to_euclidean_division_equations; lia).
    destruct (decide (base + (c' + c' / 2) = base + (c + c / 2) + 1)) as [E|_].
    + assert (c' = c + 1 ∧ c `mod` 2 = 0) as [-> Hm] by (Z.to_euclidean_division_equations; lia).
      rewrite Hm. replace ((c + 1) `mod` 2 =? 0) with false by (symmetry; apply Z.eqb_neq; Z.to_euclidean_division_equations; lia).
      cbn [Z.eqb]. rewrite E. replace (Z.to_nat (base + (c + c / 2) + 1)) with (S (Z.to_nat (base + (c + c / 2)))) by lia.
      Z.to_euclidean_division_equations; lia.
    + destruct (decide (base + (c' + c' / 2) = base + (c + c / 2) - 1)) as [E|_]; [|done].
      assert (c' = c - 1 ∧ c `mod` 2 = 1) as [-> Hm] by (Z.to_euclidean_division_equations; lia).
      rewrite Hm. replace ((c - 1) `mod` 2 =? 0) with true by (symmetry; apply Z.eqb_eq; Z.to_euclidean_division_equations; lia).
      cbn [Z.eqb Pos.eqb]. rewrite E. replace (S (Z.to_nat (base + (c + c / 2) - 1))) with (Z.to_nat (base + (c + c / 2))) by lia.
      Z.to_euclidean_division_equations; lia.
Qed.
End fat12.

#[export] Instance Fat12_laws : FatLaws Fat12.
Proof.
  refine {| fat_entry := fat12_entry; fat_update := fat12_update |}.
  - done.
  - done.
  - by left.
  - done.
  - apply fat12_get_ok.
  - apply fat12_set_ok.
  - intros F io c Hv Hc. unfold fat12_entry. change (@kClusterMask Fat12) with 4095.
    pose proof (get16_range (fat12_at F c) _ (proj2 (proj2 Hv))). case_match; Z.to_euclidean_division_equations; lia.
  - intros F io c v Hv Hc _. destruct (fat12_place_ok F io c Hv Hc) as (_ & _ & _ & _ & _ & _ & _ & _ & _ & _ & H1 & H2 & H3).
    split; [apply length_splice; cbn [length le16]; lia|]. apply bytes_splice; [apply bytes_le16|apply Hv].
  - intros F io c v c' Hv Hc Hc' Hr. rewrite fat12_entry_update by done. case_decide; [|done].
    symmetry. exact (Z.land_ones v 12 ltac:(lia)).
  - intros F io c v a m Hv Hc _ Hm Ha. destruct (fat12_place_ok F io c Hv Hc) as (_ & _ & _ & _ & _ & _ & _ & _ & _ & _ & H1 & H2 & H3).
    apply slice_splice_apart; cbn [length le16]; lia.
  - intros F io c a x Hv Hc Ha Hx. destruct (fat12_place_ok F io c Hv Hc) as (_ & _ & _ & _ & _ & _ & _ & _ & _ & _ & H1 & H2 & H3).
    unfold fat12_entry. enough (get16 (fat12_at F c) (splice a x (disk io)) = get16 (fat12_at F c) (disk io)) as -> by done.
    unfold get16. rewrite !lookup_total_splice by lia. by repeat case_decide; try lia.
Defined.

(** ** Volumes as tables and clusters *)

Record vol := mkVol { v_fat : gmap Z Z; v_cl : gmap Z (list Z); v_root : list Z }.

Definition set_fat (c x : Z) (v : vol) : vol := mkVol (<[c:=x]> (v_fat v)) (v_cl v) (v_root v).
Definition set_cl (c : Z) (x : list Z) (v : vol) : vol := mkVol (v_fat v) (<[c:=x]> (v_cl v)) (v_root v).
Definition set_root (x : list Z) (v : vol) : vol := mkVol (v_fat v) (v_cl v) x.

Section rep.
Context `{I : FatImpl, L : !FatLaws I} (F : Fat).

Record Rep (io : InMemory) (v : vol) : Prop := {
  rep_ok : volume_ok F io;
  rep_fat : ∀ c, v_fat v !! c = if decide (in_range F c) then Some (fat_entry F (disk io) c) else None;
  rep_cl : ∀ c, v_cl v !! c =
    if decide (in_range F c) then Some (slice (cluster_start F c) (csize F) (disk io)) else None;
  rep_root : v_root v = slice (root_start F) (root_bytes F) (disk io)
}.

Lemma csize_pos len : formatted F len → 512 ≤ csize F ≤ kMaxClusterSize ∧ csize F `mod` 32 = 0.
Proof.
  intros Hf. pose proof (bps_cases _ _ Hf) as Hb. pose proof (fm_cluster _ _ Hf) as [H1 H2]. unfold csize in *.
  split; [nia|]. destruct Hb as [->|[->|[->| ->]]]; [replace 512 with (16 * 32) by lia|replace 1024 with (32 * 32) by lia|
    replace 2048 with (64 * 32) by lia|replace 4096 with (128 * 32) by lia]; rewrite Z.mul_assoc; by apply Z.mod_mul.
Qed.

(** Where the data of a cluster is. *)
Lemma place_arith b sp ds c n rr len :
  512 ≤ b → 1 ≤ sp → 2 ≤ c < n + 2 → 0 < rr ≤ ds * b → ds * b + n * (sp * b) ≤ len →
  0 ≤ ds ∧ 0 ≤ (c - 2) * sp ∧ (ds + (c - 2) * sp) * b = ds * b + (c - 2) * (sp * b) ∧
  ds * b + (c - 2) * (sp * b) + sp * b ≤ len ∧ (ds + (c - 2) * sp) * 512 + 512 ≤ len ∧
  rr ≤ ds * b + (c - 2) * (sp * b) ∧ c - 2 ≤ (c - 2) * sp.
Proof.
  intros Hb Hsp Hc Hr Hl. assert (Hds : 0 ≤ ds) by nia.
  assert (H1 : 0 ≤ (c - 2) * sp) by (apply Z.mul_nonneg_nonneg; lia).
  assert (H2 : (c - 1) * (sp * b) ≤ n * (sp * b)) by (apply Z.mul_le_mono_nonneg_r; [apply Z.mul_nonneg_nonneg|]; lia).
  assert (H3 : (ds + (c - 2) * sp) * 512 ≤ (ds + (c - 2) * sp) * b) by (apply Z.mul_le_mono_nonneg_l; lia).
  assert (H4 : 1 * 512 ≤ sp * b) by (apply Z.mul_le_mono_nonneg; lia).
  assert (H5 : (ds + (c - 2) * sp) * b = ds * b + (c - 2) * (sp * b)) by ring.
  assert (H6 : (c - 1) * (sp * b) = (c - 2) * (sp * b) + sp * b) by ring.
  assert (H7 : 0 ≤ (c - 2) * (sp * b)) by (apply Z.mul_nonneg_nonneg; lia).
  assert (H8 : (c - 2) * 1 ≤ (c - 2) * sp) by (apply Z.mul_le_mono_nonneg_l; lia). lia.
Qed.

Lemma root_start_pos len : formatted F len → 0 < root_start F.
Proof.
  intros Hf. pose proof (bps_bounds _ _ Hf). pose proof (fm_fat _ _ Hf) as [Hfs Hfr]. pose proof (fm_count _ _ Hf).
  unfold fat_start in *. assert (0 < start (fat_region F) * bytes_per_sector (boot_sector F)) by (apply Z.mul_pos_pos; lia).
  assert (0 ≤ ((cluster_count F + 2) * entry_bits + 7) / 8); [|lia].
  apply Z.div_pos; [|lia]. assert (0 ≤ entry_bits) by (unfold entry_bits; case_match; [lia|]; destruct bits_16_32; lia).
  assert (0 ≤ (cluster_count F + 2) * entry_bits) by (apply Z.mul_nonneg_nonneg; lia). lia.
Qed.

Lemma cluster_place io c :
  volume_ok F io → in_range F c →
  GetClusterSector F c * bytes_per_sector (boot_sector F) = cluster_start F c ∧ 0 ≤ GetClusterSector F c ∧
  root_start F + root_bytes F ≤ cluster_start F c ∧ cluster_start F c + csize F ≤ zlen (disk io).
Proof.
  intros (Hf & _ & _) Hc. pose proof (bps_bounds _ _ Hf). pose proof (fm_cluster _ _ Hf) as [Hs _].
  pose proof (fm_root _ _ Hf) as [Hr1 Hr2]. pose proof (fm_data _ _ Hf) as Hd. pose proof (fm_small _ _ Hf).
  pose proof (root_start_pos _ Hf) as Hrs. unfold GetClusterSector, cluster_start, data_start, csize, kFirstClusterNumber in *.
  destruct (place_arith (bytes_per_sector (boot_sector F)) (sectors_per_cluster (boot_sector F)) (start (data_region F))
    c (cluster_count F) (root_start F + root_bytes F) (zlen (disk io))) as (H1 & H2 & H3 & H4 & H5 & H6 & H7); [lia..|exact Hc|lia|done|].
  destruct Hc as [Hc1 Hc2].
  rewrite (wrap_u_small 64 (c - 2)) by (unfold in_u; lia). rewrite (wrap_u_small 64 (_ * _)) by (unfold in_u; lia).
  rewrite (wrap_u_small 64) by (unfold in_u; lia). rewrite wrap_u_small by (unfold in_u; lia). lia.
Qed.

Lemma land_mask x : 0 ≤ x ≤ kClusterMask → Z.land x kClusterMask = x.
Proof.
  intros Hx. destruct mask_ones as [E E2]. rewrite E, Z.land_ones by apply Z.log2_nonneg. apply Z.mod_small. rewrite E2. lia.
Qed.

Lemma fat_in_range io v c x : Rep io v → v_fat v !! c = Some x → in_range F c ∧ 0 ≤ x ≤ kClusterMask.
Proof.
  intros HR E. rewrite (rep_fat _ _ HR) in E. case_decide; [|done]. injection E as <-. split; [done|].
  apply entry_range; [apply HR|done].
Qed.

Lemma cl_in_range io v c x : Rep io v → v_cl v !! c = Some x → in_range F c ∧ zlen x = csize F ∧ bytes x.
Proof.
  intros HR E. rewrite (rep_cl _ _ HR) in E. case_decide as Hc; [|done]. injection E as <-. split; [done|].
  destruct (cluster_place io c (rep_ok _ _ HR) Hc) as (_ & _ & H1 & H2).
  pose proof (csize_pos _ (proj1 (rep_ok _ _ HR))). pose proof (root_start_pos _ (proj1 (rep_ok _ _ HR))).
  pose proof (fm_root _ _ (proj1 (rep_ok _ _ HR))). split; [apply length_slice; lia|]. apply bytes_slice, HR.
Qed.

Lemma in_range_fat io v c : Rep io v → in_range F c → is_Some (v_fat v !! c) ∧ is_Some (v_cl v !! c).
Proof. intros HR Hc. rewrite (rep_fat _ _ HR), (rep_cl _ _ HR), !decide_True by done. eauto. Qed.

Lemma wp_get_entry E io v c x Q :
  Rep io v → v_fat v !! c = Some x → Q x io → wp E (GetFATEntry F c) Q io.
Proof.
  intros HR Ec HQ. rewrite (rep_fat _ _ HR) in Ec. case_decide as Hc; [|done]. injection Ec as <-.
  unfold wp. by rewrite get_entry by (done || apply HR).
Qed.

Lemma wp_set_entry E io v c x Q :
  Rep io v → in_range F c → 0 ≤ x ≤ kClusterMask → (∀ io', Rep io' (set_fat c x v) → Q tt io') →
  wp E (SetFATEntry F c x) Q io.
Proof.
  intros HR Hc Hx HQ. pose proof eoc_bound. pose proof (rep_ok _ _ HR) as Hv. unfold wp.
  rewrite set_entry by (done || lia). apply HQ. destruct (update_ok F io c x) as [Hl Hb]; [done..|lia|].
  pose proof (fm_root _ _ (proj1 Hv)). pose proof (csize_pos _ (proj1 Hv)).
  split; cbn [disk sector_size v_fat v_cl v_root set_fat].
  - destruct Hv as (Hf & Hs & _). split_and!; cbn [disk sector_size]; [by rewrite Hl|done|done].
  - intros c'. destruct (decide (c' = c)) as [->|Hne].
    + rewrite lookup_insert_eq, decide_True, entry_update, decide_True, land_mask by (done || lia). done.
    + rewrite lookup_insert_ne, (rep_fat _ _ HR) by done. case_decide; [|done].
      by rewrite entry_update, decide_False by (done || lia).
  - intros c'. rewrite (rep_cl _ _ HR). case_decide as Hc'; [|done]. f_equal. symmetry.
    destruct (cluster_place io c' Hv Hc') as (_ & _ & Hp1 & Hp2). apply update_apart; done || lia.
  - rewrite (rep_root _ _ HR). symmetry. apply update_apart; done || lia.
Qed.

Lemma wp_read_cluster E io v c x Q : Rep io v → v_cl v !! c = Some x → Q x io → wp E (ReadCluster F c) Q io.
Proof.
  intros HR Ec HQ. rewrite (rep_cl _ _ HR) in Ec. case_decide as Hc; [|done]. injection Ec as <-.
  destruct (cluster_place io c (rep_ok _ _ HR) Hc) as (H1 & H2 & H3 & H4). pose proof (csize_pos _ (proj1 (rep_ok _ _ HR))) as [H5 _].
  unfold wp, ReadCluster. unfold csize, kMaxClusterSize in *. pose proof (fm_cluster _ _ (proj1 (rep_ok _ _ HR))) as [H6 _].
  rewrite (ReadRange_ok F); [|apply HR|lia|lia|unfold kMaxTempBufSize; lia|rewrite Z.mul_add_distr_r; lia].
  by rewrite H1.
Qed.

(** Clusters do not overlap. *)
Lemma clusters_apart io c c' :
  volume_ok F io → in_range F c → in_range F c' → c ≠ c' →
  cluster_start F c + csize F ≤ cluster_start F c' ∨ cluster_start F c' + csize F ≤ cluster_start F c.
Proof.
  intros Hv _ _ Hne. pose proof (csize_pos _ (proj1 Hv)) as [H _]. unfold cluster_start.
  destruct (decide (c < c')); [left|right].
  - assert ((c - 2 + 1) * csize F ≤ (c' - 2) * csize F) by (apply Z.mul_le_mono_nonneg_r; lia). lia.
  - assert ((c' - 2 + 1) * csize F ≤ (c - 2) * csize F) by (apply Z.mul_le_mono_nonneg_r; lia). lia.
Qed.

(** A write at or after the root directory leaves the table. *)
Lemma volume_splice io a x :
  volume_ok F io → 0 ≤ a → a + zlen x ≤ zlen (disk io) → bytes x →
  volume_ok F (mkIO (splice a x (disk io)) (sector_size io)).
Proof.
  intros (Hf & Hs & Hb) Ha Hx Hbx. split_and!; cbn [disk sector_size]; [by rewrite length_splice|done|by apply bytes_splice].
Qed.

Lemma wp_write_cluster E io v c x Q :
  Rep io v → in_range F c → zlen x = csize F → bytes x → (∀ io', Rep io' (set_cl c x v) → Q tt io') →
  wp E (WriteCluster F c x) Q io.
Proof.
  intros HR Hc Hx Hbx HQ. pose proof (rep_ok _ _ HR) as Hv.
  destruct (cluster_place io c Hv Hc) as (H1 & H2 & H3 & H4). pose proof (csize_pos _ (proj1 Hv)) as [H5 _].
  pose proof (fm_cluster _ _ (proj1 Hv)) as [H6 _]. pose proof (fm_root _ _ (proj1 Hv)) as [H7 _].
  pose proof (root_start_pos _ (proj1 Hv)) as H8. unfold wp, WriteCluster.
  rewrite (WriteRange_ok F); [|done|lia|lia|by unfold csize in *|unfold csize in *; rewrite Z.mul_add_distr_r; lia].
  rewrite H1. apply HQ. split; cbn [disk sector_size v_fat v_cl v_root set_cl].
  - apply volume_splice; done || lia.
  - intros c'. rewrite (rep_fat _ _ HR). case_decide; [|done]. f_equal. symmetry. apply entry_apart; done || lia.
  - intros c'. destruct (decide (c' = c)) as [->|Hne].
    + rewrite lookup_insert_eq, decide_True by done. f_equal. symmetry. rewrite <- Hx. apply slice_splice; lia.
    + rewrite lookup_insert_ne, (rep_cl _ _ HR) by done. case_decide as Hc'; [|done]. f_equal. symmetry.
      destruct (cluster_place io c' Hv Hc') as (_ & _ & H9 & H10).
      apply slice_splice_apart; [lia..|]. rewrite Hx. by apply (clusters_apart io).
  - rewrite (rep_root _ _ HR). symmetry. apply slice_splice_apart; lia.
Qed.

Lemma root_place io : volume_ok F io →
  root_start F + root_bytes F ≤ data_start F ∧ data_start F ≤ zlen (disk io) ∧ root_size F = root_bytes F ∧
  0 ≤ start (root_dir_region F) ∧ 0 ≤ count (root_dir_region F).
Proof.
  intros (Hf & _ & _). pose proof (fm_root _ _ Hf) as [H1 H2]. pose proof (fm_data _ _ Hf). pose proof (fm_count _ _ Hf).
  pose proof (csize_pos _ Hf) as [H5 _]. pose proof (bps_bounds _ _ Hf). pose proof (root_start_pos _ Hf).
  assert (0 ≤ cluster_count F * csize F) by (apply Z.mul_nonneg_nonneg; lia).
  unfold root_size, root_bytes, root_start, kMaxClusterSize in *. rewrite wrap_u_small by (unfold in_u; lia).
  split_and!; [lia..|done| |]; nia.
Qed.

Lemma wp_read_root E io v Q : Rep io v → Q (v_root v) io → wp E (ReadRange (root_dir_region F)) Q io.
Proof.
  intros HR HQ. destruct (root_place io (rep_ok _ _ HR)) as (H1 & H2 & _ & H3 & H4).
  pose proof (fm_root _ _ (proj1 (rep_ok _ _ HR))) as [H5 _]. unfold wp, root_start, root_bytes, kMaxClusterSize in *.
  destruct (root_dir_region F) as [s n] eqn:Er. cbn [start count] in *.
  rewrite (ReadRange_ok F); [|apply HR|done|done|unfold kMaxTempBufSize; lia|rewrite Z.mul_add_distr_r; lia].
  rewrite (rep_root _ _ HR) in HQ. unfold root_start, root_bytes in HQ. by rewrite Er in HQ.
Qed.

Lemma wp_write_root E io v x Q :
  Rep io v → zlen x = root_bytes F → bytes x → (∀ io', Rep io' (set_root x v) → Q tt io') →
  wp E (WriteRange (root_dir_region F) x) Q io.
Proof.
  intros HR Hx Hbx HQ. pose proof (rep_ok _ _ HR) as Hv. destruct (root_place io Hv) as (H1 & H2 & _ & H3 & H4).
  pose proof (root_start_pos _ (proj1 Hv)) as H8. unfold wp.
  assert (Hw : WriteRange (root_dir_region F) x io = Ok (tt, mkIO (splice (root_start F) x (disk io)) (sector_size io))).
  { unfold root_start, root_bytes in *. destruct (root_dir_region F) as [s n]. cbn [start count] in *.
    apply (WriteRange_ok F); [done..|]. rewrite Z.mul_add_distr_r. lia. }
  rewrite Hw. apply HQ. split; cbn [disk sector_size v_fat v_cl v_root set_root].
  - apply volume_splice; done || lia.
  - intros c'. rewrite (rep_fat _ _ HR). case_decide; [|done]. f_equal. symmetry. apply entry_apart; done || lia.
  - intros c'. rewrite (rep_cl _ _ HR). case_decide as Hc'; [|done]. f_equal. symmetry.
    destruct (cluster_place io c' Hv Hc') as (_ & _ & H9 & H10). pose proof (fm_root _ _ (proj1 Hv)).
    apply slice_splice_apart; lia.
  - symmetry. rewrite <- Hx. apply slice_splice; lia.
Qed.

Lemma wp_temp E io x n Q : n ≤ kMaxClusterSize → zlen x = n → Q x io → wp E (temp_buffer n x) Q io.
Proof.
  intros Hn Hx HQ. unfold wp, temp_buffer. rewrite !(proj2 (Z.leb_le _ _)) by lia. cbn [andb].
  unfold mret, M_ret. by rewrite slice_all.
Qed.
End rep.
