(* ===== verification/FatChains.v ===== *)
(** * Cluster chains and file data
    A file or directory is a chain of clusters that ends with an end-of-chain mark.  This file has
    the theory of chains in a table and what the driver's walks do: skipping, reading, allocating,
    freeing, extending and writing a chain, each with what it leaves alone. *)
From S2P Require Import Prelude Bytes Path FatDisk Fat FatVolume.

Section chains.
Context `{I : FatImpl, L : !FatLaws I} (F : Fat).
Implicit Types (v : vol) (c : Z) (l : list Z).

(** What every volume in use satisfies. *)
Record vok (v : vol) : Prop := {
  vk_fat : ∀ c, is_Some (v_fat v !! c) ↔ in_range F c;
  vk_cl : ∀ c, is_Some (v_cl v !! c) ↔ in_range F c;
  vk_entry : ∀ c x, v_fat v !! c = Some x → 0 ≤ x ≤ kClusterMask;
  vk_data : ∀ c x, v_cl v !! c = Some x → zlen x = csize F ∧ bytes x;
  vk_range : ∀ c, in_range F c → 2 ≤ c < kEOC;
  vk_count : 0 ≤ cluster_count F ∧ cluster_count F + 2 ≤ kEOC;
  vk_csize : 512 ≤ csize F ≤ kMaxClusterSize ∧ csize F `mod` 32 = 0
}.

Lemma Rep_vok io v : Rep F io v → vok v.
Proof.
  intros HR. pose proof (fm_count _ _ (proj1 (rep_ok _ _ _ HR))). split.
  - intros c. rewrite (rep_fat _ _ _ HR). case_decide; split; intros H1; [done|eauto|by destruct H1|done].
  - intros c. rewrite (rep_cl _ _ _ HR). case_decide; split; intros H1; [done|eauto|by destruct H1|done].
  - intros c x E. by eapply fat_in_range.
  - intros c x E. by eapply cl_in_range.
  - unfold in_range. lia.
  - done.
  - apply (csize_pos _ _ (proj1 (rep_ok _ _ _ HR))).
Qed.

(** [chain fat c l]: the walk from [c] passes the clusters [l] and then the end mark. *)
Fixpoint chain (fat : gmap Z Z) (c : Z) (l : list Z) : Prop :=
  match l with
  | [] => kEOC ≤ c
  | x :: l => x = c ∧ ∃ n, fat !! c = Some n ∧ chain fat n l
  end.

Lemma chain_in fat c l x : chain fat c l → x ∈ l → is_Some (fat !! x).
Proof.
  revert c. induction l as [|y l IH]; intros c; [by intros _ ?%elem_of_nil|].
  intros [-> (n & E & Hc)] [-> | Hx]%elem_of_cons; eauto.
Qed.

Lemma chain_ext fat fat' c l : (∀ x, x ∈ l → fat' !! x = fat !! x) → chain fat c l → chain fat' c l.
Proof.
  revert c. induction l as [|y l IH]; intros c H; [done|]. intros [-> (n & E & Hc)]. split; [done|].
  exists n. rewrite H by left. split; [done|]. apply IH; [|done]. intros x Hx. apply H. by right.
Qed.

Lemma chain_det v c l l' : vok v → chain (v_fat v) c l → chain (v_fat v) c l' → l = l'.
Proof.
  intros Hv. revert c l'. induction l as [|y l IH]; intros c [|z l']; cbn; [done| | |].
  - intros ? [-> (n & E & _)]. pose proof (vk_range _ Hv c ltac:(apply (vk_fat _ Hv); eauto)). lia.
  - intros [-> (n & E & _)] ?. pose proof (vk_range _ Hv c ltac:(apply (vk_fat _ Hv); eauto)). lia.
  - intros [-> (n & E & H1)] [-> (n' & E' & H2)]. simplify_eq. f_equal. eauto.
Qed.

Lemma chain_app fat c l1 x l2 :
  chain fat c (l1 ++ x :: l2) → chain fat x (x :: l2).
Proof.
  revert c. induction l1 as [|y l1 IH]; intros c; cbn; [by intros [-> ?]|]. intros [-> (n & E & H)]. by eapply IH.
Qed.

(** The end of a chain can be exchanged where the part before is kept. *)
Lemma chain_suffix fat fat' c l1 x l2 l2' :
  chain fat c (l1 ++ x :: l2) → (∀ y, y ∈ l1 → fat' !! y = fat !! y) → chain fat' x (x :: l2') →
  chain fat' c (l1 ++ x :: l2').
Proof.
  revert c. induction l1 as [|y l1 IH]; intros c; cbn; [by intros [-> _]|].
  intros [-> (n & E & H)] Hk Hx. split; [done|]. exists n. rewrite Hk by left. split; [done|].
  apply (IH n H); [|done]. intros z Hz. apply Hk. by right.
Qed.

Lemma chain_range v c l : vok v → chain (v_fat v) c l → Forall (in_range F) l.
Proof. intros Hv H. apply Forall_forall. intros x Hx. apply (vk_fat _ Hv). by eapply chain_in. Qed.

Lemma chain_NoDup v c l : vok v → chain (v_fat v) c l → NoDup l.
Proof.
  intros Hv. revert c. induction l as [|y l IH]; intros c H; [constructor|]. pose proof H as [-> (n & E & Hc)].
  constructor; [|by eapply IH]. intros (l1 & l2 & ->)%list_elem_of_split.
  assert (H1 : chain (v_fat v) c (c :: l2)) by (by apply (chain_app _ n l1)).
  pose proof (chain_det v c _ _ Hv H H1) as E2. apply (f_equal length) in E2. cbn in E2. rewrite length_app in E2. cbn in E2. lia.
Qed.

Lemma chain_length v c l : vok v → chain (v_fat v) c l → zlen l ≤ cluster_count F.
Proof.
  intros Hv H. pose proof (chain_NoDup v c l Hv H) as Hn. pose proof (chain_range v c l Hv H) as Hr.
  pose proof (vk_count _ Hv). enough (length l ≤ length (seqZ 2 (cluster_count F)))%nat by (rewrite length_seqZ in *; lia).
  apply submseteq_length, NoDup_submseteq; [done|]. intros x Hx. rewrite Forall_forall in Hr. apply Hr in Hx.
  apply elem_of_seqZ. unfold in_range in Hx. lia.
Qed.

Lemma chain_head v c x l : vok v → chain (v_fat v) c (x :: l) → c = x ∧ (c <? kEOC) = true ∧ (c =? 0) = false ∧
  ∃ n, v_fat v !! c = Some n ∧ chain (v_fat v) n l.
Proof.
  intros Hv [-> (n & E & H)]. pose proof (vk_range _ Hv c ltac:(apply (vk_fat _ Hv); eauto)).
  split_and!; [done|apply Z.ltb_lt; lia|apply Z.eqb_neq; lia|eauto].
Qed.

Lemma chain_nil v c : chain (v_fat v) c [] → (c <? kEOC) = false ∧ (kEOC <=? c) = true.
Proof. intros H. cbn in H. split; [by apply Z.ltb_ge|by apply Z.leb_le]. Qed.

(** The bytes of a chain. *)
Definition cl_data (v : vol) (c : Z) : list Z := default [] (v_cl v !! c).
Definition chain_data (v : vol) (l : list Z) : list Z := concat (map (cl_data v) l).

Lemma cl_data_in v c : vok v → in_range F c → v_cl v !! c = Some (cl_data v c) ∧ zlen (cl_data v c) = csize F ∧ bytes (cl_data v c).
Proof.
  intros Hv Hc. apply (vk_cl _ Hv) in Hc as [x E]. unfold cl_data. rewrite E. split; [done|]. by apply (vk_data _ Hv c).
Qed.

Lemma chain_data_length v l : vok v → Forall (in_range F) l → zlen (chain_data v l) = zlen l * csize F.
Proof.
  intros Hv. induction 1 as [|c l Hc _ IH]; [done|]. unfold chain_data in *. cbn [map concat length].
  rewrite length_app, Nat2Z.inj_add, IH. destruct (cl_data_in v c Hv Hc) as (_ & -> & _). lia.
Qed.

Lemma chain_data_bytes v l : vok v → Forall (in_range F) l → bytes (chain_data v l).
Proof.
  intros Hv. induction 1 as [|c l Hc _ IH]; [constructor|]. unfold chain_data in *. cbn [map concat].
  apply Forall_app. split; [by apply cl_data_in|done].
Qed.

Lemma chain_data_ext v v' l : (∀ x, x ∈ l → v_cl v' !! x = v_cl v !! x) → chain_data v' l = chain_data v l.
Proof.
  intros H. unfold chain_data. f_equal. apply map_ext_in. intros x Hx%list_elem_of_In. unfold cl_data. by rewrite H.
Qed.

Lemma chain_data_app v l1 l2 : chain_data v (l1 ++ l2) = chain_data v l1 ++ chain_data v l2.
Proof. unfold chain_data. by rewrite map_app, concat_app. Qed.

(** ** Walking *)

Lemma wp_SkipClusters io v n c l :
  Rep F io v → chain (v_fat v) c l →
  wp never (SkipClusters F n c) (λ r io', io' = io ∧ chain (v_fat v) r (drop n l)) io.
Proof.
  intros HR. pose proof (Rep_vok _ _ HR) as Hv. revert c l. induction n as [|n IH]; intros c l Hc; cbn [SkipClusters]; [done|].
  destruct l as [|x l].
  - destruct (chain_nil v c Hc) as [-> _]. done.
  - destruct (chain_head v c x l Hv Hc) as (-> & -> & _ & m & E & Hm). wp_step.
    eapply wp_get_entry; [exact HR|exact E|]. by apply IH.
Qed.

Lemma wp_ReadLoop io v fuel c l off total dst :
  Rep F io v → chain (v_fat v) c l → (length l < fuel)%nat → 0 ≤ off < csize F → zlen dst ≤ total →
  wp never (ReadLoop F fuel c off total dst)
    (λ r io', io' = io ∧ r = dst ++ slice off (total - zlen dst) (chain_data v l)) io.
Proof.
  intros HR. pose proof (Rep_vok _ _ HR) as Hv. pose proof (vk_csize _ Hv) as [Hcs _].
  revert fuel c off dst. induction l as [|x l IH]; intros fuel c off dst Hc Hf Ho Hd;
    (destruct fuel as [|fuel]; [cbn in Hf; lia|]); cbn [ReadLoop].
  - destruct (chain_nil v c Hc) as [-> _]. rewrite andb_false_r. wp_step. unfold chain_data. cbn.
    by rewrite slice_nil, app_nil_r.
  - destruct (chain_head v c x l Hv Hc) as (-> & -> & _ & m & E & Hm). rewrite andb_true_r.
    pose proof (vk_fat _ Hv x) as Hxr. destruct (cl_data_in v x Hv ltac:(apply Hxr; eauto)) as (Ex & Hlx & _).
    unfold chain_data. cbn [map concat]. fold (chain_data v l). destruct (Z.ltb_spec (zlen dst) total); cycle 1.
    { wp_step. split; [done|]. replace (total - zlen dst) with 0 by lia. unfold slice. cbn. by rewrite app_nil_r. }
    wp_step. eapply wp_read_cluster; [exact HR|exact Ex|]. unfold GetClusterSize. fold (csize F).
    rewrite (proj2 (Z.leb_le _ _)) by lia. wp_step. eapply wp_get_entry; [exact HR|exact E|].
    set (n := Z.min (csize F - off) (total - zlen dst)).
    assert (Hn : zlen (slice off n (cl_data v x)) = n) by (apply length_slice; lia).
    eapply wp_mono; [apply (IH fuel m 0); [done|cbn in Hf; lia|lia|rewrite length_app; lia]|].
    intros r io' [-> ->]. split; [done|]. rewrite <- app_assoc. f_equal. rewrite length_app, Nat2Z.inj_add, Hn.
    destruct (Z.le_gt_cases (csize F - off) (total - zlen dst)).
    + replace n with (csize F - off) by lia. rewrite slice_app_mid by lia. by rewrite Hlx, Z.sub_add_distr.
    + replace n with (total - zlen dst) by lia. replace (total - (zlen dst + (total - zlen dst))) with 0 by lia.
      rewrite slice_app_l by lia. unfold slice at 2. cbn. by rewrite app_nil_r.
Qed.

(** ** Allocating and freeing *)

Lemma mask_small : 2 < kEOC ≤ kClusterMask ∧ kClusterMask < 2 ^ ClusterBits ∧ kClusterMask < 2 ^ 32.
Proof. pose proof eoc_bound as H. destruct bits_16_32 as [E|E]; rewrite E in *; lia. Qed.

Definition no_free v : Prop := ∀ c, v_fat v !! c ≠ Some 0.

Lemma wp_AllocLoop io v fuel c :
  Rep F io v → 2 ≤ c ≤ cluster_count F + 2 → cluster_count F + 2 - c < Z.of_nat fuel →
  (∀ x, x < c → v_fat v !! x ≠ Some 0) →
  wp never (AllocLoop F fuel c kEOC)
    (λ r io', (r = 0 ∧ io' = io ∧ no_free v) ∨
      (in_range F r ∧ v_fat v !! r = Some 0 ∧ (∀ x, x < r → v_fat v !! x ≠ Some 0) ∧ Rep F io' (set_fat r kEOC v))) io.
Proof.
  intros HR. pose proof (Rep_vok _ _ HR) as Hv. pose proof (vk_count _ Hv) as Hn. pose proof eoc_bound as He.
  revert c. induction fuel as [|fuel IH]; intros c Hc Hf Hb; [lia|]. cbn [AllocLoop].
  unfold kFirstClusterNumber. pose proof mask_small.
  rewrite (wrap_u_small 64) by (unfold in_u; lia). destruct (Z.ltb_spec c (cluster_count F + 2)) as [Hlt|Hge]; cycle 1.
  { wp_step. left. split_and!; [done..|]. intros x Hx. destruct (decide (x < c)) as [|Hxc]; [by eapply Hb|].
    destruct (vk_fat _ Hv x) as [[_ Hr] _]; [eauto|]. lia. }
  destruct (vk_fat _ Hv c) as [_ [e Ee]]; [split; lia|]. wp_step. eapply wp_get_entry; [exact HR|exact Ee|].
  destruct (Z.eqb_spec e 0) as [->|Hne].
  - wp_step. eapply wp_set_entry; [exact HR|split; lia|lia|]. intros io' HR'. wp_step. right. split_and!; done || (split; lia).
  - unfold clus. rewrite wrap_u_small by (unfold in_u; lia). apply IH; [lia..|]. intros x Hx.
    destruct (decide (x = c)) as [->|]; [congruence|apply Hb; lia].
Qed.

Lemma wp_AllocateCluster io v (Q : Z → InMemory → Prop) :
  Rep F io v → (no_free v → Q 0 io) →
  (∀ c io', in_range F c → v_fat v !! c = Some 0 → Rep F io' (set_fat c kEOC v) → Q c io') →
  wp never (AllocateCluster F) Q io.
Proof.
  intros HR H0 Hc. pose proof (Rep_vok _ _ HR) as Hv. pose proof (vk_count _ Hv).
  eapply wp_mono; [apply (wp_AllocLoop _ v); [done|unfold kFirstClusterNumber; lia..|]|].
  - intros x Hx E. destruct (vk_fat _ Hv x) as [[Hr _] _]; [eauto|]. unfold kFirstClusterNumber in *. lia.
  - intros r io' [(-> & -> & ?)|(? & ? & _ & ?)]; auto.
Qed.

(** The table with the entries of [l] cleared. *)
Definition clear_fat (l : list Z) (v : vol) : vol := foldl (λ v c, set_fat c 0 v) v l.

Lemma clear_fat_lookup l v c : v_fat (clear_fat l v) !! c = if decide (c ∈ l) then Some 0 else v_fat v !! c.
Proof.
  revert v. induction l as [|x l IH]; intros v; cbn [clear_fat foldl]; [by rewrite decide_False by apply not_elem_of_nil|].
  unfold clear_fat in IH. rewrite IH. destruct (decide (c ∈ l)); [by rewrite decide_True by (by right)|].
  cbn [set_fat v_fat]. destruct (decide (c = x)) as [->|]; [by rewrite lookup_insert_eq, decide_True by left|].
  rewrite lookup_insert_ne by done. rewrite decide_False; [done|]. intros [?|?]%elem_of_cons; done.
Qed.

Lemma clear_fat_rest l v : v_cl (clear_fat l v) = v_cl v ∧ v_root (clear_fat l v) = v_root v.
Proof. revert v. induction l as [|x l IH]; intros v; [done|]. cbn [clear_fat foldl]. apply (IH (set_fat x 0 v)). Qed.

Lemma wp_FreeLoop io v fuel c l :
  Rep F io v → chain (v_fat v) c l → (length l < fuel)%nat →
  wp never (FreeLoop F fuel c) (λ _ io', Rep F io' (clear_fat l v)) io.
Proof.
  revert io v fuel c. induction l as [|x l IH]; intros io v fuel c HR Hc Hf; pose proof (Rep_vok _ _ HR) as Hv;
    (destruct fuel as [|fuel]; [cbn in Hf; lia|]); cbn [FreeLoop].
  - destruct (chain_nil v c Hc) as [-> _]. rewrite andb_false_r. by wp_step.
  - pose proof (chain_NoDup _ _ _ Hv Hc) as [Hnx _]%NoDup_cons.
    destruct (chain_head v c x l Hv Hc) as (-> & -> & -> & n & E & Hn). cbn [negb andb].
    wp_step. eapply wp_get_entry; [exact HR|exact E|]. wp_step.
    eapply wp_set_entry; [exact HR|apply (vk_fat _ Hv); eauto|pose proof eoc_bound; lia|]. intros io' HR'.
    apply (IH io' (set_fat x 0 v)); [done| |cbn in Hf; lia]. apply (chain_ext (v_fat v)); [|done]. intros y Hy.
    cbn [set_fat v_fat]. apply lookup_insert_ne. by intros ->.
Qed.

Lemma chain_fuel v c l : vok v → chain (v_fat v) c l → (length l < Z.to_nat (cluster_count F) + 3)%nat.
Proof. intros Hv H. pose proof (chain_length _ _ _ Hv H). lia. Qed.

(** ** Growing a chain
    The clusters [l] of a chain and the [fresh] ones that were free may change; nothing else does. *)
Record grown v v' (l fresh : list Z) : Prop := {
  gr_free : Forall (λ x, v_fat v !! x = Some 0) fresh;
  gr_fat : ∀ x, x ∉ l ++ fresh → v_fat v' !! x = v_fat v !! x;
  gr_cl : ∀ x, x ∉ l ++ fresh → v_cl v' !! x = v_cl v !! x;
  gr_root : v_root v' = v_root v
}.

Lemma grown_refl v l : grown v v l [].
Proof. by split. Qed.

Lemma chain_used v c l x : vok v → chain (v_fat v) c l → x ∈ l → v_fat v !! x ≠ Some 0.
Proof.
  intros Hv. revert c. induction l as [|y l IH]; intros c; [by intros _ ?%elem_of_nil|].
  intros [-> (n & E & Hc)] [-> |Hx]%elem_of_cons; [|by eapply IH]. rewrite E. intros [= ->]. pose proof mask_small.
  destruct l as [|z l]; [cbn in Hc; lia|]. destruct (chain_head _ _ _ _ Hv Hc) as (_ & _ & Hz & _). by rewrite Z.eqb_refl in Hz.
Qed.

Lemma fresh_not_used v c l fresh x :
  vok v → chain (v_fat v) c l → x ∈ l → Forall (λ x, v_fat v !! x = Some 0) fresh → x ∉ fresh.
Proof. intros Hv Hc Hx Hf Hx'. rewrite Forall_forall in Hf. by eapply chain_used, Hf. Qed.

(** A chain whose tail has grown has grown. *)
Lemma grown_tail v v' c y l fresh :
  vok v → chain (v_fat v) c (c :: l) → v_fat v !! c = Some y → grown v v' l fresh → chain (v_fat v') y (l ++ fresh) →
  chain (v_fat v') c (c :: l ++ fresh) ∧ grown v v' (c :: l) fresh.
Proof.
  intros Hv Hc Hy G Hn. pose proof (chain_NoDup _ _ _ Hv Hc) as [Hl _]%NoDup_cons.
  assert (Hcf : c ∉ l ++ fresh).
  { intros [?|?]%elem_of_app; [done|]. eapply fresh_not_used; [exact Hv|exact Hc|left|apply G|done]. }
  split.
  - split; [done|]. exists y. split; [|done]. by rewrite (gr_fat _ _ _ _ G).
  - split; [apply G|..|apply G]; intros x Hx; apply G; contradict Hx; by right.
Qed.

(** The step that adds a cluster after the last one. *)
Definition link (c x : Z) (v : vol) : vol := set_fat c x (set_fat x kEOC v).

Lemma link_chain v c x : v_fat v !! x = Some 0 → c ≠ x → chain (v_fat (link c x v)) x [x].
Proof.
  intros Hx Hne. split; [done|]. exists kEOC. cbn [link set_fat v_fat]. rewrite lookup_insert_ne, lookup_insert_eq by done.
  by split; [|cbn].
Qed.

Lemma grown_link v v' c x fresh :
  vok v → chain (v_fat v) c [c] → v_fat v !! x = Some 0 → grown (link c x v) v' [x] fresh →
  chain (v_fat v') x (x :: fresh) → chain (v_fat v') c (c :: x :: fresh) ∧ grown v v' [c] (x :: fresh).
Proof.
  intros Hv Hc Hx G Hn. assert (Hne : c ≠ x) by (intros ->; by eapply chain_used; [..|left|]).
  assert (Hx0 : x ≠ 0).
  { intros ->. destruct (vk_fat _ Hv 0) as [[H _] _]; [eauto|lia]. }
  assert (Hfat : ∀ y, y ∉ [c; x] → v_fat (link c x v) !! y = v_fat v !! y).
  { intros y Hy. cbn [link set_fat v_fat]. set_unfold. rewrite !lookup_insert_ne by naive_solver. done. }
  assert (Hfc : v_fat (link c x v) !! c = Some x) by apply lookup_insert_eq.
  assert (Hcf : c ∉ [x] ++ fresh).
  { cbn. intros [?|Hf]%elem_of_cons; [done|]. pose proof (gr_free _ _ _ _ G) as Hg. rewrite Forall_forall in Hg.
    apply Hg in Hf. congruence. }
  assert (Hfr : Forall (λ y, v_fat v !! y = Some 0) fresh).
  { eapply Forall_impl; [apply Forall_and; split; [apply G|apply Forall_forall; intros y Hy; exact Hy]|].
    intros y [Hy Hin]. cbn beta in *. destruct (decide (y = x)) as [->|]; [done|].
    rewrite <- Hy. symmetry. apply Hfat. set_unfold. intros [->|[->|?]]; naive_solver. }
  split; [|split].
  - split; [done|]. exists x. split; [|done]. by rewrite (gr_fat _ _ _ _ G).
  - by constructor.
  - intros y Hy. rewrite (gr_fat _ _ _ _ G) by set_solver. apply Hfat. set_solver.
  - intros y Hy. rewrite (gr_cl _ _ _ _ G) by set_solver. done.
  - apply G.
Qed.

Lemma wp_link io v c x (Q : unit → InMemory → Prop) :
  Rep F io (set_fat x kEOC v) → in_range F c → in_range F x → vok v → (∀ io', Rep F io' (link c x v) → Q tt io') →
  wp never (SetFATEntry F c x) Q io.
Proof.
  intros HR Hc Hx Hv HQ. pose proof (vk_range _ Hv x Hx). pose proof mask_small. eapply wp_set_entry; [exact HR|done|lia|].
  exact HQ.
Qed.

Lemma wp_Ensure n io v c suf :
  Rep F io v → chain (v_fat v) c (c :: suf) →
  wp never (EnsureClusterChain F n c)
    (λ r io', ∃ v' fresh, Rep F io' v' ∧ chain (v_fat v') c (c :: suf ++ fresh) ∧ grown v v' (c :: suf) fresh ∧
      v_cl v' = v_cl v ∧
      ((r = 0 ∧ no_free v') ∨ ∃ l1 l2, c :: suf ++ fresh = l1 ++ r :: l2 ∧ length l1 = n)) io.
Proof.
  revert io v c suf. induction n as [|n IH]; intros io v c suf HR Hc; pose proof (Rep_vok _ _ HR) as Hv; cbn [EnsureClusterChain].
  { wp_step. exists v, []. rewrite app_nil_r. split_and!; [done..|apply grown_refl|done|]. right. by exists [], suf. }
  destruct (chain_head v c c suf Hv Hc) as (_ & _ & _ & m & E & Hm). wp_step. eapply wp_get_entry; [exact HR|exact E|].
  destruct suf as [|y suf].
  - destruct (chain_nil v m Hm) as [_ ->]. wp_step. eapply wp_AllocateCluster; [exact HR| |].
    { intros Hn. rewrite Z.eqb_refl. wp_step. exists v, []. split_and!; [done..|apply grown_refl|done|by left]. }
    intros x io1 Hx Hx0 HR1. pose proof (vk_range _ Hv x Hx). rewrite (proj2 (Z.eqb_neq _ _)) by lia.
    wp_step. assert (Hcr : in_range F c) by (apply (vk_fat _ Hv); eauto).
    assert (Hne : c ≠ x) by (intros ->; by eapply chain_used; [..|left|]).
    eapply wp_link; [exact HR1|done..|]. intros io2 HR2.
    eapply wp_mono; [apply (IH io2 (link c x v) x []); [done|by apply link_chain]|].
    intros r io' (v' & fresh & HR' & Hc' & G & Hcl & Hr). cbn [app] in *.
    destruct (grown_link v v' c x fresh) as [Hc'' G']; [done..|].
    exists v', (x :: fresh). split_and!; [done..|].
    destruct Hr as [?|(l1 & l2 & -> & <-)]; [by left|right]. by exists (c :: l1), l2.
  - destruct (chain_head _ _ _ _ Hv Hm) as (-> & Hy & _). rewrite Z.leb_antisym, Hy. cbn [negb].
    eapply wp_mono; [apply (IH io v y suf); done|].
    intros r io' (v' & fresh & HR' & Hc' & G & Hcl & Hr).
    destruct (grown_tail v v' c y (y :: suf) fresh) as [Hc'' G']; [done..|].
    exists v', fresh. split_and!; [done..|]. destruct Hr as [?|(l1 & l2 & Hl & <-)]; [by left|right].
    exists (c :: l1), l2. cbn [app]. rewrite <- Hl. done.
Qed.

(** ** Writing *)

Lemma set_cl_data v c x l : c ∉ l → chain_data (set_cl c x v) l = chain_data v l.
Proof. intros H. apply chain_data_ext. intros y Hy. cbn [set_cl v_cl]. apply lookup_insert_ne. by intros ->. Qed.

(** A step that writes cluster [c] before the rest of the chain is written. *)
Lemma grown_set_cl v v' c x l fresh : c ∈ l → grown (set_cl c x v) v' l fresh → grown v v' l fresh.
Proof.
  intros Hc G. split; [apply G..| |apply G]. intros y Hy. rewrite (gr_cl _ _ _ _ G) by done. cbn [set_cl v_cl].
  apply lookup_insert_ne. intros ->. apply Hy. by apply elem_of_app; left.
Qed.

(** The bytes of the chain after its first cluster [c] and then the rest have been written. *)
Lemma write_cons v v' c l off x y :
  vok v → in_range F c → 0 ≤ off → off + zlen x = csize F → c ∉ l →
  v_cl v' !! c = Some (splice off x (cl_data v c)) → chain_data v' l = splice 0 y (chain_data v l) →
  chain_data v' (c :: l) = splice off (x ++ y) (chain_data v (c :: l)).
Proof.
  intros Hv Hc Ho Hx Hcl E Hl. destruct (cl_data_in v c Hv Hc) as (_ & Hlen & _).
  unfold chain_data in *. cbn [map concat]. rewrite Hl, splice_app_mid by lia. f_equal. unfold cl_data at 1. by rewrite E.
Qed.

Definition write_post v c suf off src bw size (r : Z) (io' : InMemory) : Prop :=
  ∃ v' fresh, Rep F io' v' ∧ chain (v_fat v') c (c :: suf ++ fresh) ∧ grown v v' (c :: suf) fresh ∧
    bw < r ≤ size ∧ off + (r - bw) ≤ zlen (c :: suf ++ fresh) * csize F ∧
    chain_data v' (c :: suf ++ fresh) = splice off (slice bw (r - bw) src) (chain_data v (c :: suf ++ fresh)) ∧
    (r = size ∨ no_free v' ∧ off + (r - bw) = zlen (c :: suf ++ fresh) * csize F).

Lemma write_post_tail v v1 c y suf suf' fr off src bw size r io' (n := csize F - off) :
  vok v → vok v1 → in_range F c → 0 ≤ off < csize F → 0 ≤ bw → bw + n < size → size ≤ zlen src →
  (∀ v' fresh, chain (v_fat v') y (y :: suf' ++ fresh) → grown v1 v' (y :: suf') fresh →
     chain (v_fat v') c (c :: suf ++ fr ++ fresh) ∧ grown v v' (c :: suf) (fr ++ fresh)) →
  y :: suf' = suf ++ fr → v_cl v1 = <[c := splice off (slice bw n src) (cl_data v c)]> (v_cl v) →
  write_post v1 y suf' 0 src (bw + n) size r io' → write_post v c suf off src bw size r io'.
Proof.
  intros Hv Hv1 Hc Ho Hb Hsz Hs Hg Hl Hcl (v' & fresh & HR' & Hc' & G & Hr & Hlen & Hd & Hend).
  destruct (Hg v' fresh Hc' G) as (Hc'' & G'). assert (El : y :: suf' ++ fresh = suf ++ fr ++ fresh) by (by rewrite app_assoc, <- Hl).
  exists v', (fr ++ fresh). rewrite <- El in *. set (rest := y :: suf' ++ fresh) in *.
  pose proof (chain_NoDup _ _ _ (Rep_vok _ _ HR') Hc'') as [Hcn _]%NoDup_cons.
  assert (Hlc : zlen (c :: rest) = 1 + zlen rest) by (cbn [length]; lia). rewrite Hlc.
  split_and!; [done..|lia|lia|nia| |].
  - replace (r - bw) with (n + (r - (bw + n))) by lia. rewrite <- slice_app by lia.
    apply write_cons; [done..|lia| |done| |].
    + rewrite length_slice by lia. lia.
    + rewrite (gr_cl _ _ _ _ G) by done. rewrite Hcl. apply lookup_insert_eq.
    + rewrite Hd. f_equal. apply chain_data_ext. intros z Hz. rewrite Hcl. apply lookup_insert_ne. by intros ->.
  - destruct Hend as [?|[? ?]]; [by left|right]. split; [done|]. lia.
Qed.

Lemma wp_WriteLoop fuel io v c suf src size off bw :
  Rep F io v → chain (v_fat v) c (c :: suf) → 0 ≤ off < csize F → 0 ≤ bw < size → size ≤ zlen src → bytes src →
  off + (size - bw) ≤ Z.of_nat fuel * csize F →
  wp never (WriteLoop F fuel c src size off bw) (write_post v c suf off src bw size) io.
Proof.
  revert io v c suf off bw. induction fuel as [|fuel IH]; intros io v c suf off bw HR Hc Ho Hb Hs Hbs Hf; [lia|].
  pose proof (Rep_vok _ _ HR) as Hv. pose proof (vk_csize _ Hv) as [Hcs _]. cbn [WriteLoop].
  rewrite (proj2 (Z.ltb_lt _ _)) by lia. unfold GetClusterSize. fold (csize F).
  destruct (chain_head v c c suf Hv Hc) as (_ & _ & _ & m & E & Hm).
  assert (Hcr : in_range F c) by (apply (vk_fat _ Hv); eauto). destruct (cl_data_in v c Hv Hcr) as (Ec & Hlc & Hbc).
  wp_step. eapply wp_read_cluster; [exact HR|exact Ec|]. wp_step. eapply wp_temp; [lia|exact Hlc|]. wp_step.
  set (n := Z.min (csize F - off) (size - bw)). assert (Hn : zlen (slice bw n src) = n) by (apply length_slice; lia).
  eapply wp_write_cluster; [exact HR|done|by rewrite length_splice by lia|by auto with bytes|]. intros io1 HR1.
  set (v1 := set_cl c _ v) in HR1. pose proof (Rep_vok _ _ HR1) as Hv1.
  assert (Ev1 : cl_data v1 c = splice off (slice bw n src) (cl_data v c)) by (unfold cl_data at 1, v1; cbn [set_cl v_cl]; by rewrite lookup_insert_eq).
  pose proof (chain_NoDup _ _ _ Hv Hc) as [Hcs' _]%NoDup_cons.
  destruct (Z.ltb_spec (bw + n) size) as [Hlt|Hge]; cycle 1.
  { wp_step. eexists _, []. rewrite app_nil_r. split_and!; [exact HR1|done| |lia|lia| | |left; lia].
    - eapply grown_set_cl; [left|apply grown_refl].
    - cbn [length]. nia.
    - unfold chain_data at 2. cbn [map concat]. rewrite splice_app_l by (replace (bw + n - bw) with n by lia; lia).
      unfold chain_data. cbn [map concat]. replace (bw + n - bw) with n by lia. f_equal.
      + done.
      + by apply (set_cl_data v c _ suf). }
  assert (n = csize F - off) as Hn' by lia. wp_step. eapply wp_get_entry; [exact HR1|exact E|].
  destruct suf as [|y suf].
  - destruct (chain_nil v m Hm) as [_ ->]. wp_step. eapply wp_AllocateCluster; [exact HR1| |].
    { intros Hfree. rewrite Z.eqb_refl. wp_step. eexists _, []. split_and!; [exact HR1|done| |lia|lia| | |right].
      - eapply grown_set_cl; [left|apply grown_refl].
      - cbn [length app]. lia.
      - unfold chain_data. cbn [map concat app]. rewrite !app_nil_r, Ev1. by replace (bw + n - bw) with n by lia.
      - split; [done|]. cbn [length app]. lia. }
    intros x io2 Hx Hx0 HR2. cbn [set_cl v_fat] in Hx0. pose proof (vk_range _ Hv x Hx). rewrite (proj2 (Z.eqb_neq _ _)) by lia.
    wp_step. assert (Hne : c ≠ x) by (intros ->; by eapply chain_used; [..|left|]).
    eapply (wp_link _ v1); [exact HR2|done..|]. intros io3 HR3. cbn [app] in *.
    eapply wp_mono; [eapply (IH io3 (link c x v1) x []); [exact HR3|by apply link_chain|lia..|done|lia]|].
    intros r io'. rewrite Hn'.
    apply (write_post_tail v _ c x [] [] [x]); [done|exact (Rep_vok _ _ HR3)|done|lia..| |done|by rewrite <- Hn'].
    intros v' fresh Hc' G. cbn [app] in *.
    destruct (grown_link v1 v' c x fresh) as [Hc'' G'];
      [done..|].
    split; [done|by eapply grown_set_cl; [left|]].
  - destruct (chain_head _ _ _ _ Hv Hm) as (-> & Hy & _). rewrite Z.leb_antisym, Hy. cbn [negb].
    eapply wp_mono; [eapply (IH io1 v1 y suf); [exact HR1|done|lia..|done|lia]|].
    intros r io'. rewrite Hn'.
    apply (write_post_tail v _ c y (y :: suf) suf []); [done|exact (Rep_vok _ _ HR1)|done|lia..| |by rewrite app_nil_r|by rewrite <- Hn'].
    intros v' fresh Hc' G.
    destruct (grown_tail v1 v' c y (y :: suf) fresh) as [Hc'' G'];
      [done..|].
    split; [done|by eapply grown_set_cl; [left|]].
Qed.
End chains.
