(* ===== verification/FatDirs.v ===== *)
(** * Directories
    A directory is a sequence of 32-byte slots, in a chain of clusters or in the fixed root
    directory.  This file has what the driver's scans, searches and updates do to the sequence of
    slots, whichever place it is kept in. *)
From S2P Require Import Prelude Bytes Path FatDisk Fat FatVolume FatChains.

(** ** Entries and their bytes *)

Record entry_wf (e : DirectoryEntry) : Prop := {
  ew_name : length (filename e) = 11%nat ∧ bytes (filename e);
  ew_bytes : 0 ≤ attributes e < 256 ∧ 0 ≤ reserved e < 256 ∧ 0 ≤ creation_time_tenth e < 256;
  ew_times : 0 ≤ creation_time e < 65536 ∧ 0 ≤ creation_date e < 65536 ∧ 0 ≤ last_access_date e < 65536 ∧
    0 ≤ last_write_time e < 65536 ∧ 0 ≤ last_write_date e < 65536;
  ew_cluster : 0 ≤ first_cluster_high e < 65536 ∧ 0 ≤ first_cluster_low e < 65536;
  ew_size : 0 ≤ file_size e < 2 ^ 32
}.

Lemma entry_data_length e : length (filename e) = 11%nat → length (entry_data e) = 32%nat.
Proof. intros H. unfold entry_data. rewrite length_app, H. done. Qed.

Lemma entry_data_bytes e : entry_wf e → bytes (entry_data e).
Proof.
  intros [[_ Hn] (? & ? & ?) _ _ _]. unfold bytes, entry_data. rewrite !Forall_app. split_and!;
    first [apply bytes_le16 | apply bytes_le32 | done | apply Forall_forall; set_unfold; intros x Hx; naive_solver].
Qed.

Lemma read_entry_wf b : length b = 32%nat → bytes b → entry_wf (read_entry b).
Proof.
  intros Hl Hb. split; cbn [filename attributes reserved creation_time_tenth creation_time creation_date last_access_date
    first_cluster_high last_write_time last_write_date first_cluster_low file_size read_entry].
  - split; [|by apply bytes_slice]. pose proof (length_slice 0 11 b). lia.
  - split_and!; by apply bytes_lookup.
  - split_and!; by apply get16_range.
  - split_and!; by apply get16_range.
  - by apply get32_range.
Qed.

(** What is written is read back. *)
Lemma read_entry_data e : entry_wf e → read_entry (entry_data e) = e.
Proof.
  destruct e as [name at_ rs ct10 ct cd lad hi lwt lwd lo sz].
  intros [[Hn _] (? & ? & ?) (? & ? & ? & ? & ?) (? & ?) ?];
  cbn [filename attributes reserved creation_time_tenth creation_time creation_date last_access_date
    first_cluster_high last_write_time last_write_date first_cluster_low file_size] in *.
  assert (H16 : ∀ z, 0 ≤ z < 65536 → z `mod` 256 + 256 * ((z / 256) `mod` 256) = z).
  { intros z Hz. Z.to_euclidean_division_equations; lia. }
  do 11 (destruct name as [|? name]; [done|]). destruct name; [|done].
  unfold read_entry, entry_data, get32, get16, le32, le16. cbn [filename attributes reserved creation_time_tenth
    creation_time creation_date last_access_date first_cluster_high last_write_time last_write_date first_cluster_low
    file_size app]. change (Pos.to_nat 11) with 11%nat.
  cbn -[Z.mul Z.div Z.modulo Z.add Z.of_nat].
  f_equal; try (by apply H16).
  change (sz `mod` 256 + 256 * ((sz / 256) `mod` 256) +
    65536 * ((sz / 65536) `mod` 256 + 256 * ((sz / 65536 / 256) `mod` 256)) = sz).
  Z.to_euclidean_division_equations; lia.
Qed.

(** ** Slots *)

Definition slot (D : list Z) (i : nat) : DirectoryEntry := read_entry (slice (Z.of_nat i * 32) 32 D).
Definition slots (D : list Z) : list DirectoryEntry := map (slot D) (seq 0 (length D / 32)).

Lemma slots_length D : length (slots D) = (length D / 32)%nat.
Proof. unfold slots. by rewrite length_map, length_seq. Qed.

Lemma lookup_slots D i : (i < length D / 32)%nat → slots D !! i = Some (slot D i).
Proof. intros Hi. unfold slots. rewrite list_lookup_fmap, lookup_seq_lt by done. done. Qed.

Lemma lookup_slots_Some D i e : slots D !! i = Some e → (i < length D / 32)%nat ∧ e = slot D i.
Proof.
  intros E. pose proof (lookup_lt_Some _ _ _ E) as Hi. rewrite slots_length in Hi. split; [done|].
  rewrite lookup_slots in E by done. congruence.
Qed.

Lemma slot_fits (D : list Z) i : (i < length D / 32)%nat → Z.of_nat i * 32 + 32 ≤ zlen D.
Proof. intros Hi. pose proof (Nat.div_mod (length D) 32 ltac:(lia)). lia. Qed.

Lemma slot_wf D i : bytes D → (i < length D / 32)%nat → entry_wf (slot D i).
Proof.
  intros Hb Hi%slot_fits. apply read_entry_wf; [|by apply bytes_slice]. pose proof (length_slice (Z.of_nat i * 32) 32 D). lia.
Qed.

Lemma slots_wf D i e : bytes D → slots D !! i = Some e → entry_wf e.
Proof. intros Hb [Hi ->]%lookup_slots_Some. by apply slot_wf. Qed.

Lemma slots_app (A B : list Z) : (length A mod 32 = 0)%nat → slots (A ++ B) = slots A ++ slots B.
Proof.
  intros HA. assert (Hd : length A = (32 * (length A / 32))%nat) by (pose proof (Nat.div_mod (length A) 32 ltac:(lia)); lia).
  assert (Hab : (length (A ++ B) / 32 = length A / 32 + length B / 32)%nat).
  { rewrite length_app, Hd at 1. rewrite (Nat.mul_comm 32), Nat.div_add_l by lia. done. }
  apply list_eq. intros i. destruct (decide (i < length A / 32)%nat) as [Hi|Hi].
  - rewrite lookup_app_l by (by rewrite slots_length). rewrite !lookup_slots by lia. f_equal. unfold slot. f_equal.
    apply slice_app_l; [lia|]. by apply slot_fits.
  - rewrite lookup_app_r by (rewrite slots_length; lia). rewrite slots_length.
    destruct (decide (i < length A / 32 + length B / 32)%nat).
    + rewrite !lookup_slots by lia. f_equal. unfold slot. f_equal. rewrite slice_app_r by lia. f_equal. lia.
    + rewrite !lookup_ge_None_2; [done|rewrite slots_length; lia..].
Qed.

(** Writing the bytes of an entry to a slot replaces that slot. *)
Lemma slots_splice D i e :
  entry_wf e → (i < length D / 32)%nat → slots (splice (Z.of_nat i * 32) (entry_data e) D) = <[i := e]> (slots D).
Proof.
  intros Hw Hi. pose proof (slot_fits D i Hi) as Hf. pose proof (entry_data_length e (proj1 (ew_name _ Hw))) as Hl.
  assert (Hls : length (splice (Z.of_nat i * 32) (entry_data e) D) = length D) by (apply length_splice; lia).
  apply list_eq. intros j. destruct (decide (j < length D / 32)%nat) as [Hj|Hj]; cycle 1.
  { rewrite !lookup_ge_None_2; [done|rewrite ?length_insert, slots_length, ?Hls; lia..]. }
  rewrite lookup_slots by (by rewrite Hls). unfold slot. destruct (decide (j = i)) as [->|Hne].
  - rewrite list_lookup_insert_eq by (by rewrite slots_length). f_equal.
    pose proof (slice_splice (Z.of_nat i * 32) (entry_data e) D ltac:(lia) ltac:(lia)) as Hs. rewrite Hl in Hs.
    change (Z.of_nat 32) with 32 in Hs. rewrite Hs. by apply read_entry_data.
  - rewrite list_lookup_insert_ne, lookup_slots by done. f_equal. unfold slot. f_equal. apply slice_splice_apart; lia.
Qed.

(** ** Scanning *)

Fixpoint scan_list {A} (es : list DirectoryEntry) (offset : Z) (visit : A → DirectoryEntry → Z → A * bool) (a : A) : A * Z * bool :=
  match es with
  | [] => (a, offset, true)
  | e :: es =>
      if IsFree e then scan_list es (offset + 32) visit a
      else if IsFurtherEntriesFree e then (a, offset, false)
      else
        let '(a, go) := visit a e offset in
        if go then scan_list es (offset + 32) visit a else (a, offset, false)
  end.

Lemma scan_list_app {A} es1 es2 offset visit (a : A) :
  scan_list (es1 ++ es2) offset visit a =
    let '(a', offset', go) := scan_list es1 offset visit a in
    if go then scan_list es2 offset' visit a' else (a', offset', false).
Proof.
  revert offset a. induction es1 as [|e es1 IH]; intros offset a; cbn [app scan_list]; [done|].
  destruct (IsFree e); [apply IH|]. destruct (IsFurtherEntriesFree e); [done|].
  destruct (visit a e offset) as [a' []]; [apply IH|done].
Qed.

Lemma span_slot D i io : (i < length D / 32)%nat →
  span_get sizeof_DirectoryEntry (Z.of_nat i * sizeof_DirectoryEntry) D io = Ok (slice (Z.of_nat i * 32) 32 D, io).
Proof. intros Hi%slot_fits. unfold sizeof_DirectoryEntry. apply span_get_ok. lia. Qed.

Lemma ScanEntries_is {A} n i offset D visit (a : A) io :
  (i + n = length D / 32)%nat →
  ScanEntries n (Z.of_nat i) offset D visit a io = Ok (scan_list (drop i (slots D)) offset visit a, io).
Proof.
  revert i offset a. induction n as [|n IH]; intros i offset a Hi; cbn [ScanEntries].
  { rewrite drop_ge by (rewrite slots_length; lia). done. }
  rewrite (drop_S _ (slot D i)) by (apply lookup_slots; lia). cbn [scan_list].
  unfold mbind, M_bind. rewrite span_slot by lia. fold (slot D i).
  replace (Z.of_nat i + 1) with (Z.of_nat (S i)) by lia. unfold sizeof_DirectoryEntry.
  repeat case_match; try done; apply IH; lia.
Qed.

Lemma ScanEntries_all {A} offset D visit (a : A) io :
  ScanEntries (entry_count D) 0 offset D visit a io = Ok (scan_list (slots D) offset visit a, io).
Proof.
  unfold entry_count, sizeof_DirectoryEntry. rewrite <- (drop_0 (slots D)). apply (ScanEntries_is _ 0).
  change 32 with (Z.of_nat 32). rewrite <- Nat2Z.inj_div, Nat2Z.id. done.
Qed.

(** ** Free slots *)

Definition open_slot (e : DirectoryEntry) : Prop := IsFree e = true ∨ IsFurtherEntriesFree e = true.

#[export] Instance open_slot_dec e : Decision (open_slot e).
Proof. unfold open_slot. apply _. Defined.

(** After the mark of the end every slot is marked. *)
Definition eod_closed (es : list DirectoryEntry) : Prop :=
  ∀ i j e e', (i ≤ j)%nat → es !! i = Some e → IsFurtherEntriesFree e = true → es !! j = Some e' → IsFurtherEntriesFree e' = true.

Lemma eod_closed_app_r es1 es2 : eod_closed (es1 ++ es2) → eod_closed es2.
Proof.
  intros H i j e e' Hij Hi He Hj. apply (H (length es1 + i)%nat (length es1 + j)%nat e e'); [lia| |done|].
  - rewrite lookup_app_r by lia. by rewrite Nat.add_comm, Nat.add_sub.
  - rewrite lookup_app_r by lia. by rewrite Nat.add_comm, Nat.add_sub.
Qed.

Lemma eod_closed_app_l es1 es2 : eod_closed (es1 ++ es2) → eod_closed es1.
Proof. intros H i j e e' Hij Hi He Hj. apply (H i j e e'); [done|by apply lookup_app_l_Some|done|by apply lookup_app_l_Some]. Qed.

Lemma FindFree_is n i D io :
  (i + n = length D / 32)%nat →
  FindFree n (Z.of_nat i) D io =
    Ok ((λ p : nat * DirectoryEntry, (Z.of_nat (i + p.1), IsFurtherEntriesFree p.2)) <$> list_find open_slot (drop i (slots D)), io).
Proof.
  revert i. induction n as [|n IH]; intros i Hi; cbn [FindFree].
  { by rewrite drop_ge by (rewrite slots_length; lia). }
  rewrite (drop_S _ (slot D i)) by (apply lookup_slots; lia). cbn [list_find].
  unfold mbind at 1, M_bind at 1. rewrite span_slot by lia. fold (slot D i).
  replace (Z.of_nat i + 1) with (Z.of_nat (S i)) by lia.
  destruct (decide (open_slot (slot D i))) as [Ho|Ho].
  - rewrite (proj2 (orb_true_iff _ _) Ho). cbn. by rewrite Nat.add_0_r.
  - replace (IsFree (slot D i) || _) with false by (symmetry; apply orb_false_iff; unfold open_slot in Ho; split; apply not_true_is_false; tauto).
    rewrite IH by lia. destruct (list_find open_slot (drop (S i) (slots D))) as [[k e]|]; [|done]. cbn. by rewrite Nat.add_succ_r.
Qed.

Lemma slot_index (D : list Z) : Z.to_nat (zlen D / sizeof_DirectoryEntry) = (length D / 32)%nat.
Proof. unfold sizeof_DirectoryEntry. change 32 with (Z.of_nat 32). rewrite <- Nat2Z.inj_div, Nat2Z.id. done. Qed.

Lemma first_byte_at D i : (i < length D / 32)%nat → first_byte (slot D i) = D !!! (i * 32)%nat.
Proof.
  intros Hi%slot_fits. unfold first_byte, slot, read_entry. cbn [filename]. rewrite !list_lookup_total_alt. f_equal.
  rewrite !lookup_slice by lia. f_equal. lia.
Qed.

(** The new entry is written to its slot and the next slot keeps its mark. *)
Lemma WriteNewEntry_is D i old name attrs c :
  length name = 11%nat → eod_closed (slots D) → slots D !! i = Some old →
  WriteNewEntry D (Z.of_nat i) name attrs c (IsFurtherEntriesFree old) (Z.of_nat i + 1 <? zlen D / sizeof_DirectoryEntry) =
    splice (Z.of_nat i * 32) (entry_data (new_entry name attrs c old)) D.
Proof.
  intros Hn Hc Hi. pose proof (lookup_slots_Some _ _ _ Hi) as [Hlt ->]. unfold WriteNewEntry, sizeof_DirectoryEntry.
  fold (slot D i). set (x := entry_data _). pose proof (slot_fits D i Hlt).
  assert (Hx : length x = 32%nat) by (by apply entry_data_length). destruct (_ && _) eqn:E; [|done].
  apply andb_true_iff in E as [He Hlt'%Z.ltb_lt]. apply list_insert_id.
  assert (Hj : (S i < length D / 32)%nat).
  { change 32 with (Z.of_nat 32) in Hlt'. rewrite <- Nat2Z.inj_div in Hlt'. lia. }
  pose proof (slot_fits D (S i) Hj). rewrite lookup_splice, decide_False by lia.
  pose proof (Hc i (S i) _ _ ltac:(lia) Hi He (lookup_slots D (S i) Hj)) as He'.
  unfold IsFurtherEntriesFree in He'. apply Z.eqb_eq in He'. rewrite first_byte_at in He' by done.
  replace (Z.to_nat ((Z.of_nat i + 1) * 32)) with (S i * 32)%nat by lia.
  rewrite <- He'. apply list_lookup_lookup_total_lt. lia.
Qed.

Lemma new_entry_wf name attrs c old :
  length name = 11%nat → bytes name → 0 ≤ attrs < 256 → entry_wf old → entry_wf (new_entry name attrs c old).
Proof.
  intros Hn Hb Ha Ho. assert (Hm : ∀ z, 0 ≤ Z.land z 0xFFFF < 65536).
  { intros z. change 0xFFFF with (Z.ones 16). rewrite Z.land_ones by lia. apply Z.mod_pos_bound. lia. }
  split; cbn; [done|pose proof (ew_bytes _ Ho); lia|lia|split; apply Hm|lia].
Qed.

(** ** Directories on a volume *)

Section directories.
Context `{I : FatImpl, L : !FatLaws I} (F : Fat).
Implicit Types (v : vol) (c d : Z) (l : list Z) (D : list Z).

(** The fixed root directory has number 0 and no clusters. *)
Definition is_fixed (d : Z) : bool := kHasFixedRootDir && (d =? 0).

Definition dir_at v d l D : Prop :=
  if is_fixed d then l = [] ∧ D = v_root v else chain (v_fat v) d l ∧ l ≠ [] ∧ D = chain_data v l.

Lemma csize_32 v : vok F v → (Z.to_nat (csize F) mod 32 = 0)%nat ∧ 512 ≤ csize F ≤ kMaxClusterSize.
Proof.
  intros Hv. pose proof (vk_csize _ _ Hv) as [H1 H2]. split; [|done].
  apply Nat2Z.inj. rewrite Nat2Z.inj_mod, Z2Nat.id by lia. done.
Qed.

Lemma cl_data_len v c : vok F v → in_range F c → length (cl_data v c) = Z.to_nat (csize F).
Proof. intros Hv Hc. pose proof (cl_data_in F v c Hv Hc) as (_ & H & _). lia. Qed.

Lemma slots_cons v c l : vok F v → in_range F c → slots (chain_data v (c :: l)) = slots (cl_data v c) ++ slots (chain_data v l).
Proof.
  intros Hv Hc. unfold chain_data. cbn [map concat]. apply slots_app. rewrite cl_data_len by done. by apply (csize_32 v).
Qed.

Lemma slots_chain_app v l1 l2 : vok F v → Forall (in_range F) l1 →
  slots (chain_data v (l1 ++ l2)) = slots (chain_data v l1) ++ slots (chain_data v l2).
Proof.
  intros Hv. induction 1 as [|c l1 Hc _ IH]; [done|]. cbn [app]. rewrite !slots_cons by done. by rewrite IH, app_assoc.
Qed.

Lemma wp_ScanClusterChain {A} io v fuel c l offset visit (a : A) :
  Rep F io v → chain (v_fat v) c l → (length l < fuel)%nat →
  ScanClusterChain F fuel c offset visit a io = Ok ((scan_list (slots (chain_data v l)) offset visit a).1.1, io).
Proof.
  intros HR. pose proof (Rep_vok _ _ _ HR) as Hv. revert fuel c offset a.
  induction l as [|x l IH]; intros fuel c offset a Hc Hf; (destruct fuel as [|fuel]; [cbn in Hf; lia|]); cbn [ScanClusterChain].
  { destruct (chain_nil v c Hc) as [-> _]. done. }
  destruct (chain_head F v c x l Hv Hc) as (-> & -> & _ & n & E & Hn).
  assert (Hx : in_range F x) by (apply (vk_fat _ _ Hv); eauto). rewrite slots_cons, scan_list_app by done.
  unfold mbind, M_bind.
  assert (ReadCluster F x io = Ok (cl_data v x, io)) as ->.
  { pose proof (wp_read_cluster F never io v x (cl_data v x) (λ r io', r = cl_data v x ∧ io' = io) HR) as Hw.
    apply (proj1 (wp_total _ _ _)) in Hw as (? & ? & -> & -> & ->); [done|by apply (cl_data_in F)|done]. }
  rewrite ScanEntries_all. destruct (scan_list (slots (cl_data v x)) offset visit a) as [[a' offset'] go].
  destruct go; [|done].
  assert (GetFATEntry F x io = Ok (n, io)) as ->.
  { pose proof (wp_get_entry F never io v x n (λ r io', r = n ∧ io' = io) HR E) as Hw.
    apply (proj1 (wp_total _ _ _)) in Hw as (? & ? & -> & -> & ->); done. }
  apply IH; [done|]. cbn in Hf. lia.
Qed.

(** A scan visits the slots of the directory in order. *)
Lemma wp_ScanDirectory {A} io v e d l D visit (a : A) :
  Rep F io v → clus (GetFirstCluster e) = d → dir_at v d l D →
  ScanDirectoryTableWithOffset F e visit a io = Ok ((scan_list (slots D) 0 visit a).1.1, io).
Proof.
  intros HR Hd Hdir. pose proof (Rep_vok _ _ _ HR) as Hv. unfold ScanDirectoryTableWithOffset. rewrite Hd.
  unfold dir_at in Hdir. fold (is_fixed d). destruct (is_fixed d).
  - destruct Hdir as [_ ->]. unfold ScanFixedRootDirectory, mbind, M_bind.
    assert (ReadRange (root_dir_region F) io = Ok (v_root v, io)) as ->.
    { pose proof (wp_read_root F never io v (λ r io', r = v_root v ∧ io' = io) HR) as Hw.
      apply (proj1 (wp_total _ _ _)) in Hw as (? & ? & -> & -> & ->); done. }
    rewrite ScanEntries_all. by destruct (scan_list _ _ _ _) as [[? ?] ?].
  - destruct Hdir as (Hc & _ & ->). apply wp_ScanClusterChain; [done..|]. by apply (chain_fuel F v d).
Qed.

(** ** Updating an entry *)

(** What an operation on one directory or file may change: its clusters [l], [fresh] ones that
    were free, and the fixed root directory if [r]. *)
Record changes (r : bool) v v' l (fresh : list Z) : Prop := {
  ch_free : Forall (λ x, v_fat v !! x = Some 0) fresh;
  ch_fat : ∀ x, x ∉ l ++ fresh → v_fat v' !! x = v_fat v !! x;
  ch_cl : ∀ x, x ∉ l ++ fresh → v_cl v' !! x = v_cl v !! x;
  ch_root : r = false → v_root v' = v_root v
}.

Lemma grown_changes v v' l fresh : grown v v' l fresh → changes false v v' l fresh.
Proof. intros [? ? ? ?]. by split. Qed.

Lemma wp_SeekEntry io v fuel off c l :
  Rep F io v → chain (v_fat v) c l → (length l < fuel)%nat → 0 ≤ off < zlen l * csize F →
  wp never (SeekEntry F fuel off c)
    (λ r io', io' = io ∧ ∃ l1 x l2, l = l1 ++ x :: l2 ∧ r = (off - zlen l1 * csize F, x) ∧ 0 ≤ off - zlen l1 * csize F < csize F) io.
Proof.
  intros HR. pose proof (Rep_vok _ _ _ HR) as Hv. pose proof (vk_csize _ _ Hv) as [Hcs _]. revert fuel off c.
  induction l as [|x l IH]; intros fuel off c Hc Hf Ho; [cbn in Ho; lia|]. (destruct fuel as [|fuel]; [cbn in Hf; lia|]); cbn [SeekEntry].
  destruct (chain_head F v c x l Hv Hc) as (-> & -> & _ & n & E & Hn). unfold GetClusterSize. fold (csize F).
  rewrite andb_true_r. destruct (Z.leb_spec (csize F) off).
  - wp_step. eapply wp_get_entry; [exact HR|exact E|]. cbn [length] in Hf, Ho.
    eapply wp_mono; [apply (IH fuel _ n Hn); lia|]. intros r io' (-> & l1 & y & l2 & -> & -> & Hb). split; [done|].
    exists (x :: l1), y, l2. cbn [length]. split_and!; [done|f_equal; lia|lia..].
  - wp_step. split; [done|]. exists [], x, l. cbn [length]. split_and!; [done|f_equal; lia|lia..].
Qed.

(** Writing within one cluster of a chain writes the data of the chain. *)
Lemma chain_data_set_cl v l1 x l2 o y :
  vok F v → Forall (in_range F) (l1 ++ x :: l2) → NoDup (l1 ++ x :: l2) → 0 ≤ o → o + zlen y ≤ csize F →
  chain_data (set_cl x (splice o y (cl_data v x)) v) (l1 ++ x :: l2) =
    splice (zlen l1 * csize F + o) y (chain_data v (l1 ++ x :: l2)).
Proof.
  intros Hv Hr Hnd Ho Hy. apply Forall_app in Hr as [Hr1 [Hx Hr2]%Forall_cons].
  apply NoDup_app in Hnd as (_ & Hnd1 & [Hnd2 _]%NoDup_cons).
  rewrite !chain_data_app. rewrite splice_app_r by (rewrite (chain_data_length F) by done; lia).
  rewrite (chain_data_length F) by done. replace (zlen l1 * csize F + o - zlen l1 * csize F) with o by lia.
  rewrite set_cl_data by (intros ?; apply (Hnd1 x); [done|left]). f_equal.
  destruct (cl_data_in F v x Hv Hx) as (_ & Hlen & _).
  unfold chain_data at 2. cbn [map concat]. rewrite splice_app_l by lia. unfold chain_data at 1. cbn [map concat]. f_equal.
  - unfold cl_data at 1. cbn [set_cl v_cl]. by rewrite lookup_insert_eq.
  - by apply set_cl_data.
Qed.

Lemma set_cl_changes v x y l : x ∈ l → changes false v (set_cl x y v) l [].
Proof.
  intros Hx. split; [done| |intros z Hz|done]; [done|]. cbn [set_cl v_cl]. apply lookup_insert_ne. intros ->. apply Hz.
  by apply elem_of_app; left.
Qed.

Lemma slice_splice_whole n o x D : zlen D = n → 0 ≤ o → o + zlen x ≤ n → slice 0 n (splice o x D) = splice o x D.
Proof. intros. apply slice_all. rewrite length_splice by lia. done. Qed.

Lemma wp_UpdateDirectoryEntry io v d l D i e :
  Rep F io v → dir_at v d l D → (i < length D / 32)%nat → entry_wf e →
  wp never (UpdateDirectoryEntry F d (Z.of_nat i * 32) e)
    (λ _ io', ∃ v', Rep F io' v' ∧ v_fat v' = v_fat v ∧ changes (is_fixed d) v v' l [] ∧
      dir_at v' d l (splice (Z.of_nat i * 32) (entry_data e) D)) io.
Proof.
  intros HR Hdir Hi Hw. pose proof (Rep_vok _ _ _ HR) as Hv. pose proof (slot_fits D i Hi) as Hf.
  pose proof (entry_data_length e (proj1 (ew_name _ Hw))) as Hl. pose proof (entry_data_bytes e Hw) as Hb.
  unfold UpdateDirectoryEntry. fold (is_fixed d). unfold dir_at in *. destruct (is_fixed d).
  - destruct Hdir as [-> ->]. destruct (root_place F io (rep_ok _ _ _ HR)) as (_ & _ & Hrs & _).
    pose proof (fm_root _ _ (proj1 (rep_ok _ _ _ HR))) as [Hrb _]. unfold UpdateEntryInFixedRootDir. rewrite Hrs.
    pose proof (rep_root _ _ _ HR) as Hroot. destruct (root_place F io (rep_ok _ _ _ HR)) as (H1 & H2 & _).
    pose proof (root_start_pos F _ (proj1 (rep_ok _ _ _ HR))).
    assert (Hrl : zlen (v_root v) = root_bytes F) by (rewrite Hroot; apply length_slice; lia).
    assert (Hrb' : bytes (v_root v)) by (rewrite Hroot; apply bytes_slice, HR).
    rewrite (proj2 (Z.leb_gt _ _)) by lia. wp_step. eapply wp_read_root; [exact HR|]. wp_step.
    eapply wp_temp; [lia|exact Hrl|]. rewrite slice_splice_whole by lia.
    eapply wp_write_root; [exact HR|by rewrite length_splice by lia|by auto with bytes|]. intros io' HR'.
    eexists. split_and!; [exact HR'|done|by split|done..].
  - destruct Hdir as (Hc & Hne & ->). pose proof (chain_range F v d l Hv Hc) as Hr. pose proof (vk_csize _ _ Hv) as [Hcs H32].
    rewrite (chain_data_length F) in Hf by done. unfold UpdateEntryInClusterDir. wp_step.
    eapply wp_mono; [apply (wp_SeekEntry io v _ _ _ l); [done..|by apply (chain_fuel F v d)|lia]|].
    intros r io' (-> & l1 & x & l2 & El & -> & Ho). set (o := _ - _) in *.
    assert (Hx : in_range F x) by (rewrite El in Hr; by apply Forall_app in Hr as [_ [? _]%Forall_cons]).
    destruct (cl_data_in F v x Hv Hx) as (Ex & Hlx & Hbx). pose proof (vk_range _ _ Hv x Hx).
    rewrite (proj2 (Z.leb_gt _ _)) by lia. wp_step. eapply wp_read_cluster; [exact HR|exact Ex|]. wp_step.
    unfold GetClusterSize. fold (csize F). eapply wp_temp; [lia|exact Hlx|].
    assert (Ho32 : o + 32 ≤ csize F).
    { apply Z.mod_divide in H32 as [k Hk]; [|lia].
      assert (o = (Z.of_nat i - zlen l1 * k) * 32) by (unfold o; rewrite Hk; ring). lia. }
    rewrite slice_splice_whole by lia.
    eapply wp_write_cluster; [exact HR|done|by rewrite length_splice by lia|by auto with bytes|]. intros io' HR'.
    eexists. split_and!; [exact HR'|done|..].
    + apply set_cl_changes. rewrite El. apply elem_of_app. right. left.
    + done.
    + done.
    + rewrite El in *. rewrite chain_data_set_cl by (done || lia || by eapply (chain_NoDup F)). f_equal. lia.
Qed.

Lemma root_facts io v : Rep F io v → zlen (v_root v) = root_bytes F ∧ bytes (v_root v) ∧ root_size F = root_bytes F ∧
  root_bytes F ≤ kMaxClusterSize.
Proof.
  intros HR. pose proof (rep_root _ _ _ HR) as ->. destruct (root_place F io (rep_ok _ _ _ HR)) as (H1 & H2 & H3 & _).
  pose proof (root_start_pos F _ (proj1 (rep_ok _ _ _ HR))). pose proof (fm_root _ _ (proj1 (rep_ok _ _ _ HR))).
  split_and!; [apply length_slice; lia|apply bytes_slice, HR|done|lia].
Qed.

Lemma dir_bytes io v d l D : Rep F io v → dir_at v d l D → bytes D ∧ (is_fixed d = false → (length D mod 32 = 0)%nat).
Proof.
  intros HR. pose proof (Rep_vok _ _ _ HR) as Hv. unfold dir_at. destruct (is_fixed d).
  - intros [-> ->]. split; [|done]. by apply (root_facts io v).
  - intros (Hc & _ & ->). pose proof (chain_range F v d l Hv Hc) as Hr. split; [by apply (chain_data_bytes F)|intros _].
    pose proof (chain_data_length F v l Hv Hr). destruct (csize_32 v Hv) as [H32 Hcs].
    assert (length (chain_data v l) = (length l * Z.to_nat (csize F))%nat) as -> by lia.
    rewrite Nat.Div0.mul_mod, H32, Nat.mul_0_r. done.
Qed.

(** The slots of an empty cluster. *)
Lemma zero_slots n e i : slots (replicate n 0) !! i = Some e → IsFurtherEntriesFree e = true.
Proof.
  intros [Hi ->]%lookup_slots_Some. unfold IsFurtherEntriesFree. apply Z.eqb_eq. rewrite first_byte_at by done.
  rewrite length_replicate in Hi. apply lookup_total_replicate_2. pose proof (Nat.div_mod n 32 ltac:(lia)). lia.
Qed.

Lemma zero_slots_closed n : eod_closed (slots (replicate n 0)).
Proof. intros i j e e' _ _ _ Hj. by eapply zero_slots. Qed.

Definition zeros : list Z := replicate (Z.to_nat (csize F)) 0.

Lemma zeros_open v : vok F v → ∃ old, list_find open_slot (slots zeros) = Some (0%nat, old).
Proof.
  intros Hv. destruct (csize_32 v Hv) as [_ Hcs]. assert (Hl : (0 < length zeros / 32)%nat).
  { unfold zeros. rewrite length_replicate. apply Nat.div_str_pos. lia. }
  exists (slot zeros 0). apply list_find_Some. split_and!; [by apply lookup_slots| |lia].
  right. eapply (zero_slots _ _ 0). by apply lookup_slots.
Qed.

(** ** Creating an entry *)

Context (name : list Z) (attrs first : Z) (Hname : length name = 11%nat ∧ bytes name) (Hattrs : 0 ≤ attrs < 256).

Abbreviation fresh_entry old := (new_entry name attrs first old).

Lemma wp_FindFree io D (Q : option (Z * bool) → InMemory → Prop) :
  Q ((λ p : nat * DirectoryEntry, (Z.of_nat p.1, IsFurtherEntriesFree p.2)) <$> list_find open_slot (slots D)) io →
  wp never (FindFree (Z.to_nat (zlen D / sizeof_DirectoryEntry)) 0 D) Q io.
Proof.
  intros HQ. unfold wp. rewrite slot_index, (FindFree_is _ 0) by done. by rewrite drop_0.
Qed.

Lemma fresh_entry_ok D i old : bytes D → slots D !! i = Some old →
  entry_wf (fresh_entry old) ∧ zlen (entry_data (fresh_entry old)) = 32 ∧ bytes (entry_data (fresh_entry old)) ∧ Z.of_nat i * 32 + 32 ≤ zlen D.
Proof.
  intros Hb Hi. pose proof (slots_wf D i old Hb Hi) as Hw. destruct (lookup_slots_Some _ _ _ Hi) as [Hlt _].
  assert (entry_wf (fresh_entry old)) by (by apply new_entry_wf; first [apply Hname|done]). split_and!; [done| |by apply entry_data_bytes|by apply slot_fits].
  by rewrite entry_data_length by apply Hname.
Qed.

Lemma wp_create_root io v (es := slots (v_root v)) :
  Rep F io v → eod_closed es →
  wp never (CreateEntryInFixedRootDir F name attrs first)
    (λ r io', match list_find open_slot es with
              | Some (i, old) => r = Value tt ∧
                  Rep F io' (set_root (splice (Z.of_nat i * 32) (entry_data (fresh_entry old)) (v_root v)) v)
              | None => r = Unexpected kDiskFull ∧ io' = io
              end) io.
Proof.
  intros HR Hc. destruct (root_facts io v HR) as (Hl & Hb & Hrs & Hm). unfold CreateEntryInFixedRootDir. wp_step.
  eapply wp_read_root; [exact HR|]. rewrite Hrs, <- Hl. wp_step. apply wp_FindFree. unfold es in *.
  destruct (list_find open_slot (slots (v_root v))) as [[i old]|] eqn:E; cbn [fmap option_fmap option_map fst snd]; [|by wp_step].
  pose proof (proj1 (list_find_Some _ _ _ _) E) as (Hi & _ & _).
  destruct (fresh_entry_ok _ _ _ Hb Hi) as (Hw & Hlen & Hbe & Hf).
  wp_step. eapply wp_temp; [lia|done|]. rewrite (WriteNewEntry_is _ _ old) by (done || apply Hname). wp_step.
  eapply wp_write_root; [exact HR|by rewrite length_splice by lia|by auto with bytes|]. intros io' HR'. by wp_step.
Qed.

Lemma wp_create_here io v fuel c (es := slots (cl_data v c)) i old :
  Rep F io v → in_range F c → eod_closed es → list_find open_slot es = Some (i, old) →
  wp never (CreateInChain F (S fuel) c name attrs first)
    (λ r io', r = Value tt ∧ Rep F io' (set_cl c (splice (Z.of_nat i * 32) (entry_data (fresh_entry old)) (cl_data v c)) v)) io.
Proof.
  intros HR Hr Hc E. pose proof (Rep_vok _ _ _ HR) as Hv. pose proof (vk_csize _ _ Hv) as [Hcs _].
  destruct (cl_data_in F v c Hv Hr) as (Ec & Hl & Hb). pose proof (vk_range _ _ Hv c Hr). cbn [CreateInChain].
  rewrite (proj2 (Z.ltb_lt _ _)) by lia. wp_step. eapply wp_read_cluster; [exact HR|exact Ec|]. cbn zeta. wp_step.
  apply wp_FindFree. unfold es in *. rewrite E. cbn [fmap option_fmap option_map fst snd].
  pose proof (proj1 (list_find_Some _ _ _ _) E) as (Hi & _ & _).
  destruct (fresh_entry_ok _ _ _ Hb Hi) as (Hw & Hlen & Hbe & Hf). unfold GetClusterSize. fold (csize F).
  wp_step. eapply wp_temp; [lia|done|]. rewrite (WriteNewEntry_is _ _ old) by (done || apply Hname). wp_step.
  eapply wp_write_cluster; [exact HR|done|by rewrite length_splice by lia|by auto with bytes|]. intros io' HR'. by wp_step.
Qed.

(** What creating an entry in a chain leaves: the new entry is in the first open slot, in a cluster
    that was added if there was none. *)
Definition create_post io v c suf (r : Result unit) (io' : InMemory) : Prop :=
  (r = Unexpected kDiskFull ∧ io' = io ∧ no_free v ∧ list_find open_slot (slots (chain_data v (c :: suf))) = None) ∨
  (r = Value tt ∧ ∃ v' fresh i old, Rep F io' v' ∧ chain (v_fat v') c (c :: suf ++ fresh) ∧ grown v v' (c :: suf) fresh ∧
    list_find open_slot (slots (chain_data v (c :: suf) ++ concat (map (λ _, zeros) fresh))) = Some (i, old) ∧
    chain_data v' (c :: suf ++ fresh) =
      splice (Z.of_nat i * 32) (entry_data (fresh_entry old)) (chain_data v (c :: suf) ++ concat (map (λ _, zeros) fresh))).

Lemma list_find_app {A} (P : A → Prop) `{∀ x, Decision (P x)} (l1 l2 : list A) :
  list_find P (l1 ++ l2) = match list_find P l1 with Some p => Some p | None => prod_map (Nat.add (length l1)) id <$> list_find P l2 end.
Proof.
  induction l1 as [|x l1 IH]; cbn [app list_find length].
  { destruct (list_find P l2) as [[? ?]|]; done. }
  destruct (decide (P x)); [done|]. rewrite IH. destruct (list_find P l1) as [[? ?]|]; [done|].
  cbn. destruct (list_find P l2) as [[? ?]|]; done.
Qed.

(** The first cluster is full and the entry is created further on. *)
Lemma create_post_cons io io1 v v1 c y suf suf' fr r io' :
  vok F v → vok F v1 → in_range F c → list_find open_slot (slots (cl_data v c)) = None →
  (∀ v' fresh, chain (v_fat v') y (y :: suf' ++ fresh) → grown v1 v' (y :: suf') fresh →
     chain (v_fat v') c (c :: suf ++ fr ++ fresh) ∧ grown v v' (c :: suf) (fr ++ fresh)) →
  y :: suf' = suf ++ fr → chain_data v1 (y :: suf') = chain_data v suf ++ concat (map (λ _, zeros) fr) →
  cl_data v1 c = cl_data v c →
  (fr = [] ∧ v1 = v ∧ io1 = io ∨ ∃ p, list_find open_slot (slots (chain_data v1 (y :: suf'))) = Some p) →
  create_post io1 v1 y suf' r io' → create_post io v c suf r io'.
Proof.
  intros Hv Hv1 Hc Hfull Hg El Hd Hcl Hfr [(-> & -> & Hnf & Hno)|(-> & v' & fresh & i & old & HR & Hch & G & Hi & Hdata)].
  - left. destruct Hfr as [(-> & -> & ->)|[p Hp]]; [|congruence]. rewrite app_nil_r in El. subst suf. split_and!; [done..|].
    rewrite slots_cons, list_find_app, Hfull, Hno by done. done.
  - right. split; [done|]. destruct (Hg v' fresh Hch G) as [Hch' G'].
    assert (El' : y :: suf' ++ fresh = suf ++ fr ++ fresh) by (by rewrite app_assoc, <- El).
    destruct (cl_data_in F v c Hv Hc) as (_ & Hlc & _). destruct (csize_32 v Hv) as [H32 Hcs].
    assert (Hk : Z.of_nat (Z.to_nat (csize F) / 32) * 32 = csize F) by (pose proof (Nat.div_mod (Z.to_nat (csize F)) 32 ltac:(lia)); lia).
    exists v', (fr ++ fresh), (Z.to_nat (csize F) / 32 + i)%nat, old. rewrite <- El' in *.
    assert (Edata : chain_data v (c :: suf) ++ concat (map (λ _, zeros) (fr ++ fresh)) =
      cl_data v c ++ (chain_data v1 (y :: suf') ++ concat (map (λ _, zeros) fresh))).
    { rewrite Hd, map_app, concat_app. unfold chain_data. cbn [map concat]. by rewrite !app_assoc. }
    split_and!; [done..| |].
    + rewrite Edata, slots_app by (by rewrite cl_data_len). rewrite list_find_app, Hfull, Hi, slots_length, cl_data_len by done. done.
    + rewrite Edata, splice_app_r by lia.
      unfold chain_data at 1. cbn [map concat]. f_equal.
      * rewrite <- Hcl. unfold cl_data. rewrite (gr_cl _ _ _ _ G); [done|].
        pose proof (Rep_vok _ _ _ HR) as Hv'. pose proof (chain_NoDup F v' _ _ Hv' Hch') as [? _]%NoDup_cons. done.
      * trans (chain_data v' (y :: suf' ++ fresh)); [done|]. rewrite Hdata. f_equal. lia.
Qed.

Lemma wp_InitializeEmptyCluster io v c (Q : unit → InMemory → Prop) :
  Rep F io v → in_range F c → (∀ io', Rep F io' (set_cl c zeros v) → Q tt io') → wp never (InitializeEmptyCluster F c) Q io.
Proof.
  intros HR Hc HQ. pose proof (vk_csize _ _ (Rep_vok _ _ _ HR)) as [Hcs _]. unfold InitializeEmptyCluster, GetClusterSize. fold (csize F).
  rewrite (proj2 (Z.leb_le _ _)) by lia. rewrite list_insert_id by (apply lookup_replicate; split; [done|lia]).
  eapply wp_write_cluster; [exact HR|done|by rewrite length_replicate; lia|by apply bytes_replicate|exact HQ].
Qed.

Lemma wp_create_first io v fuel c suf i old :
  Rep F io v → chain (v_fat v) c (c :: suf) → eod_closed (slots (chain_data v (c :: suf))) →
  list_find open_slot (slots (cl_data v c)) = Some (i, old) →
  wp never (CreateInChain F (S fuel) c name attrs first) (create_post io v c suf) io.
Proof.
  intros HR Hc Hcl Ei. pose proof (Rep_vok _ _ _ HR) as Hv. pose proof (chain_range F v _ _ Hv Hc) as Hrs.
  pose proof Hrs as [Hr _]%Forall_cons. rewrite slots_cons in Hcl by done. destruct (cl_data_in F v c Hv Hr) as (_ & Hlc & Hbc).
  eapply wp_mono; [apply (wp_create_here io v fuel c i old); [done..|by eapply eod_closed_app_l|done]|].
  intros r io' [-> HR']. right. split; [done|]. set (v' := set_cl c _ v) in HR'. exists v', [], i, old.
  cbn [map concat]. rewrite !app_nil_r. split_and!; [done..| | |].
  - eapply grown_set_cl; [left|apply grown_refl].
  - by rewrite slots_cons, list_find_app, Ei by done.
  - apply (chain_data_set_cl v [] c suf); [done..|by eapply (chain_NoDup F)|lia|].
    destruct (fresh_entry_ok _ i old Hbc) as (_ & ? & _ & ?); [by apply list_find_Some in Ei as [? _]|]. lia.
Qed.

Lemma wp_CreateInChain io v fuel c suf :
  Rep F io v → chain (v_fat v) c (c :: suf) → (S (length suf) < fuel)%nat → eod_closed (slots (chain_data v (c :: suf))) →
  wp never (CreateInChain F fuel c name attrs first) (create_post io v c suf) io.
Proof.
  intros HR. pose proof (Rep_vok _ _ _ HR) as Hv. revert fuel c. induction suf as [|y suf IH]; intros fuel c Hc Hf Hcl;
    (destruct fuel as [|fuel]; [lia|]);
    (destruct (list_find open_slot (slots (cl_data v c))) as [[i old]|] eqn:Ei; [by eapply wp_create_first|]);
    destruct (chain_head F v c _ _ Hv Hc) as (_ & Hlt & _ & m & E & Hm);
    assert (Hr : in_range F c) by (apply (vk_fat _ _ Hv); eauto); destruct (cl_data_in F v c Hv Hr) as (Ec & Hlc & Hbc);
    cbn [CreateInChain]; rewrite Hlt; wp_step; (eapply wp_read_cluster; [exact HR|exact Ec|]); wp_step; apply wp_FindFree;
    rewrite Ei; cbn [fmap option_fmap option_map]; wp_step; (eapply wp_get_entry; [exact HR|exact E|]).
  - destruct (chain_nil v m Hm) as [_ ->]. wp_step. eapply wp_AllocateCluster; [exact HR| |].
    { intros Hn. rewrite Z.eqb_refl. wp_step. left. rewrite slots_cons, list_find_app, Ei by done. done. }
    intros x io1 Hx Hx0 HR1. pose proof (vk_range _ _ Hv x Hx). rewrite (proj2 (Z.eqb_neq _ _)) by lia.
    assert (Hne : c ≠ x) by (intros ->; by eapply (chain_used F); [..|left|]).
    wp_step. eapply (wp_link F _ v); [exact HR1|done..|]. intros io2 HR2. wp_step.
    eapply wp_InitializeEmptyCluster; [exact HR2|done|]. intros io3 HR3. set (v1 := set_cl x zeros (link c x v)) in HR3.
    pose proof (Rep_vok _ _ _ HR3) as Hv1. assert (Ex : cl_data v1 x = zeros) by (unfold cl_data, v1; cbn [set_cl v_cl]; by rewrite lookup_insert_eq).
    assert (Exs : chain_data v1 [x] = zeros) by (unfold chain_data; cbn [map concat]; by rewrite app_nil_r, Ex).
    destruct (zeros_open v Hv) as [old Hold]. destruct fuel as [|fuel]; [lia|].
    assert (Hcx : chain (v_fat v1) x [x]) by (by apply (link_chain v c x)).
    eapply wp_mono; [apply (wp_create_first io3 v1 fuel x [] 0 old); [done..|rewrite Exs; apply zero_slots_closed|by rewrite Ex]|].
    intros r io'. apply (create_post_cons io io3 v v1 c x [] [] [x]); [done..| |done|by rewrite Exs; cbn [map concat]; rewrite app_nil_r| |].
    + intros v' fresh Hc' G. apply (grown_link F); [done..| |done]. destruct G as [G1 G2 G3 G4]. split; [done..| |done].
      intros z Hz. rewrite G3 by done. cbn. apply lookup_insert_ne. set_solver.
    + unfold cl_data, v1. cbn. by rewrite lookup_insert_ne.
    + right. rewrite Exs. eauto.
  - destruct (chain_head _ _ _ _ _ Hv Hm) as (-> & Hy & _). rewrite Z.leb_antisym, Hy. cbn [negb].
    rewrite slots_cons in Hcl by done.
    eapply wp_mono; [apply (IH fuel y); [done|cbn in Hf; lia|by eapply eod_closed_app_r]|].
    intros r io'. apply (create_post_cons io io v v c y (y :: suf) suf []); [done..| |by rewrite app_nil_r|by rewrite app_nil_r|done|by left].
    intros v' fresh Hc' G. by apply (grown_tail F v v' c y (y :: suf) fresh).
Qed.

Lemma zeros_concat (l : list Z) : ∃ n, concat (map (λ _, zeros) l) = replicate n 0.
Proof.
  induction l as [|x l [n IH]]; [by exists 0%nat|]. exists (Z.to_nat (csize F) + n)%nat. cbn [map concat].
  by rewrite IH, replicate_add.
Qed.

(** A new entry takes the first open slot; a directory in a chain is extended by a cluster of
    end marks if it has none. *)
Lemma wp_CreateEntry io v d l D :
  Rep F io v → dir_at v d l D → eod_closed (slots D) →
  wp never (CreateEntry F d name attrs first) (λ r io',
    (r = Unexpected kDiskFull ∧ io' = io ∧ list_find open_slot (slots D) = None ∧ (is_fixed d = true ∨ no_free v)) ∨
    (r = Value tt ∧ ∃ v' fresh D' i old zs, Rep F io' v' ∧ changes (is_fixed d) v v' l fresh ∧ dir_at v' d (l ++ fresh) D' ∧
      Forall (λ e, IsFurtherEntriesFree e = true) zs ∧ list_find open_slot (slots D ++ zs) = Some (i, old) ∧
      slots D' = <[i := fresh_entry old]> (slots D ++ zs))) io.
Proof.
  intros HR Hdir Hcl. pose proof (Rep_vok _ _ _ HR) as Hv. destruct (dir_bytes io v d l D HR Hdir) as [HbD HlD].
  unfold CreateEntry. fold (is_fixed d). unfold dir_at in *. destruct (is_fixed d) eqn:Ed.
  - destruct Hdir as [-> ->]. eapply wp_mono; [by apply wp_create_root|]. intros r io'.
    destruct (list_find open_slot (slots (v_root v))) as [[i old]|] eqn:E; [|by intros [-> ->]; left; auto].
    intros [-> HR']. right. split; [done|]. pose proof (proj1 (list_find_Some _ _ _ _) E) as (Hi & _ & _).
    eexists _, [], _, i, old, []. rewrite !app_nil_r. split_and!; [exact HR'|by split|done|reflexivity|by apply Forall_nil_2|done|].
    cbn [set_root v_root]. apply slots_splice; [by eapply fresh_entry_ok|]. by apply lookup_slots_Some in Hi as [? _].
  - destruct Hdir as (Hc & Hne & ->). destruct l as [|x suf]; [done|]. pose proof Hc as [-> _].
    eapply wp_mono; [apply (wp_CreateInChain io v); [done..| |done]|].
    { pose proof (chain_fuel F v d _ Hv Hc) as Hfu. cbn in Hfu. lia. }
    intros r io' [(-> & -> & Hnf & Hno)|(-> & v' & fresh & i & old & HR' & Hc' & G & Hi & Hd)]; [by left; auto|right].
    split; [done|]. destruct (zeros_concat fresh) as [n Hz]. rewrite Hz in *.
    rewrite slots_app in Hi by (by apply HlD). exists v', fresh, (chain_data v' (d :: suf ++ fresh)), i, old, (slots (replicate n 0)).
    split_and!; [done|by apply grown_changes|done|done|done| |done|].
    + apply Forall_lookup. intros j e Hj. by eapply zero_slots.
    + rewrite Hd, slots_splice, slots_app; [done|by apply HlD| |].
      * pose proof (proj1 (list_find_Some _ _ _ _) Hi) as (Hi' & _ & _). rewrite <- slots_app in Hi' by (by apply HlD).
        eapply fresh_entry_ok; [|exact Hi']. apply Forall_app. split; [done|by apply bytes_replicate].
      * pose proof (proj1 (list_find_Some _ _ _ _) Hi) as (Hi' & _ & _). rewrite <- slots_app in Hi' by (by apply HlD).
        by apply lookup_slots_Some in Hi' as [? _].
Qed.
End directories.
