(* ===== verification/FatHeap.v ===== *)
(** * The objects of a volume
    Files and directories are chains of clusters.  Seen from the driver's operations a volume is a
    heap: a map from the number of an object (the first cluster of its chain, 0 for the fixed root
    directory) to its bytes, and a set of free clusters.  Chains of different objects do not share
    clusters, so an operation on one object leaves the others alone.  The lemmas give each routine
    of the driver its meaning on the heap. *)
From S2P Require Import Prelude Bytes Path FatDisk Fat FatVolume FatChains FatDirs.

Abbreviation heap := (gmap Z (list Z)).

Section heaps.
Context `{I : FatImpl, L : !FatLaws I} (F : Fat).
Implicit Types (v : vol) (c d h : Z) (l : list Z) (D : list Z) (H : heap) (st : gmap Z (list Z)) (fr : gset Z).

Record heap_at v st H fr : Prop := {
  ha_chain : ∀ h l, st !! h = Some l → chain (v_fat v) h l ∧ l ≠ [];
  ha_disj : ∀ h1 l1 h2 l2 x, st !! h1 = Some l1 → st !! h2 = Some l2 → x ∈ l1 → x ∈ l2 → h1 = h2;
  ha_obj : ∀ d, H !! d = if is_fixed d then Some (v_root v) else chain_data v <$> st !! d;
  ha_free : ∀ x, x ∈ fr ↔ v_fat v !! x = Some 0
}.

Definition heap_rep io H fr : Prop := ∃ v st, Rep F io v ∧ heap_at v st H fr.

Lemma heap_dir v st H fr d D :
  heap_at v st H fr → H !! d = Some D → ∃ l, dir_at v d l D ∧ (is_fixed d = false → st !! d = Some l).
Proof.
  intros Hh Hd. rewrite (ha_obj _ _ _ _ Hh) in Hd. unfold dir_at. destruct (is_fixed d).
  - injection Hd as <-. by exists [].
  - apply fmap_Some in Hd as (l & Hl & ->). exists l. destruct (ha_chain _ _ _ _ Hh d l Hl). done.
Qed.

(** The chain of an object after it has grown does not meet the others. *)
Lemma grown_apart v st H fr d l fresh h l' x :
  vok F v → heap_at v st H fr → st !! d = Some l → st !! h = Some l' → h ≠ d → Forall (λ x, v_fat v !! x = Some 0) fresh →
  x ∈ l' → x ∉ l ++ fresh.
Proof.
  intros Hv Hh Hd Hl' Hne Hf Hx [Hin|Hin]%elem_of_app.
  - apply Hne. by eapply (ha_disj _ _ _ _ Hh).
  - destruct (ha_chain _ _ _ _ Hh h l' Hl') as [Hc _]. by eapply (fresh_not_used F).
Qed.

Lemma chain_not_fresh v st H fr fresh h l' x :
  vok F v → heap_at v st H fr → st !! h = Some l' → Forall (λ x, v_fat v !! x = Some 0) fresh → x ∈ l' → x ∉ fresh.
Proof. intros Hv Hh Hl' Hf Hx. destruct (ha_chain _ _ _ _ Hh h l' Hl') as [Hc _]. by eapply (fresh_not_used F). Qed.

(** An operation that changes one object. *)
Lemma heap_change v st H fr v' d l D fresh D' :
  vok F v → vok F v' → heap_at v st H fr → dir_at v d l D → (is_fixed d = false → st !! d = Some l) →
  changes (is_fixed d) v v' l fresh → dir_at v' d (l ++ fresh) D' →
  heap_at v' (if is_fixed d then st else <[d := l ++ fresh]> st) (<[d := D']> H) (fr ∖ list_to_set fresh).
Proof.
  intros Hv Hv' Hh Hdir Hst Hc Hdir'. unfold dir_at in *. destruct (is_fixed d) eqn:Ed.
  - destruct Hdir as [-> ->], Hdir' as [E ->]. cbn in E. subst fresh. destruct Hc as [_ Hfat Hcl _]. cbn in Hfat, Hcl.
    assert (Hf : ∀ x, v_fat v' !! x = v_fat v !! x) by (intros x; apply Hfat, not_elem_of_nil).
    assert (Hcl' : ∀ x, v_cl v' !! x = v_cl v !! x) by (intros x; apply Hcl, not_elem_of_nil).
    split.
    + intros h l Hl. destruct (ha_chain _ _ _ _ Hh h l Hl). split; [|done]. by apply (chain_ext (v_fat v)).
    + apply Hh.
    + intros h. destruct (decide (h = d)) as [->|Hne]; [by rewrite lookup_insert_eq, Ed|].
      rewrite lookup_insert_ne, (ha_obj _ _ _ _ Hh) by done.
      destruct (is_fixed h) eqn:Eh.
      { unfold is_fixed in *. apply andb_true_iff in Ed as [_ ?%Z.eqb_eq], Eh as [_ ?%Z.eqb_eq]. congruence. }
      destruct (st !! h) as [l|]; [|done]. cbn. f_equal. symmetry. by apply chain_data_ext.
    + intros x. rewrite Hf, <- (ha_free _ _ _ _ Hh). set_solver.
  - destruct Hdir as (Hch & Hne & ->), Hdir' as (Hch' & Hne' & ->). specialize (Hst eq_refl).
    assert (Hap : ∀ h l' x, st !! h = Some l' → h ≠ d → x ∈ l' → x ∉ l ++ fresh).
    { intros h l' x Hl' Hhd Hx. apply (grown_apart v st H fr d l fresh h l'); [done..|apply Hc|done]. }
    split.
    + intros h l'. destruct (decide (h = d)) as [->|Hhd]; [rewrite lookup_insert_eq; by intros [= <-]|].
      rewrite lookup_insert_ne by done. intros Hl'. destruct (ha_chain _ _ _ _ Hh h l' Hl') as [Hch2 ?]. split; [|done].
      eapply chain_ext; [|exact Hch2]. intros x Hx. apply Hc. by eapply Hap.
    + intros h1 l1 h2 l2 x. rewrite !lookup_insert. repeat case_decide; subst; [done|..].
      * intros [= <-] H2 Hx1 Hx2. by destruct (Hap h2 l2 x).
      * intros H1 [= <-] Hx1 Hx2. by destruct (Hap h1 l1 x).
      * apply Hh.
    + intros h. destruct (decide (h = d)) as [->|Hhd]; [by rewrite !lookup_insert_eq, Ed|].
      rewrite !lookup_insert_ne, (ha_obj _ _ _ _ Hh) by done. destruct (is_fixed h); [f_equal; symmetry; by apply Hc|].
      destruct (st !! h) as [l'|] eqn:Hl'; [|done]. cbn. f_equal. symmetry. apply chain_data_ext. intros x Hx.
      apply Hc. by eapply Hap.
    + intros x. rewrite elem_of_difference, elem_of_list_to_set, (ha_free _ _ _ _ Hh).
      destruct (decide (x ∈ l ++ fresh)) as [Hin|Hin].
      * split; [|intros E0; by destruct (chain_used F v' _ _ x Hv' Hch' Hin)].
        intros [E0 Hnf]. apply elem_of_app in Hin as [Hin|Hin]; [|done]. by destruct (chain_used F v _ _ x Hv Hch Hin).
      * rewrite (ch_fat _ _ _ _ _ Hc x Hin). set_solver.
Qed.

Lemma heap_change_rep io' v st H fr v' d l D fresh D' :
  vok F v → Rep F io' v' → heap_at v st H fr → dir_at v d l D → (is_fixed d = false → st !! d = Some l) →
  changes (is_fixed d) v v' l fresh → dir_at v' d (l ++ fresh) D' →
  heap_rep io' (<[d := D']> H) (fr ∖ list_to_set fresh).
Proof. intros Hv HR' **. eexists v', _. split; [done|]. eapply heap_change; eauto using Rep_vok. Qed.

Lemma heap_full v st H fr : heap_at v st H fr → no_free v → fr = ∅.
Proof. intros Hh Hn. apply set_eq. intros x. rewrite (ha_free _ _ _ _ Hh). split; [intros E; by destruct (Hn x)|by intros ?%not_elem_of_empty]. Qed.

(** ** Directories *)

Lemma heap_bytes io H fr d D : heap_rep io H fr → H !! d = Some D → bytes D.
Proof.
  intros (v & st & HR & Hh) Hd. destruct (heap_dir _ _ _ _ _ _ Hh Hd) as (l & Hl & _). eapply (dir_bytes F); [exact HR|exact Hl].
Qed.

Lemma heap_scan {A} io H fr e d D visit (a : A) :
  heap_rep io H fr → clus (GetFirstCluster e) = d → H !! d = Some D →
  ScanDirectoryTableWithOffset F e visit a io = Ok ((scan_list (slots D) 0 visit a).1.1, io).
Proof. intros (v & st & HR & Hh) He Hd. destruct (heap_dir _ _ _ _ _ _ Hh Hd) as (l & Hl & _). by eapply wp_ScanDirectory. Qed.

Lemma heap_update io H fr d D i e (Q : unit → InMemory → Prop) :
  heap_rep io H fr → H !! d = Some D → (i < length D / 32)%nat → entry_wf e →
  (∀ io', heap_rep io' (<[d := splice (Z.of_nat i * 32) (entry_data e) D]> H) fr → Q tt io') →
  wp never (UpdateDirectoryEntry F d (Z.of_nat i * 32) e) Q io.
Proof.
  intros (v & st & HR & Hh) Hd Hi He HQ. destruct (heap_dir _ _ _ _ _ _ Hh Hd) as (l & Hl & Hst).
  eapply wp_mono; [by eapply wp_UpdateDirectoryEntry|]. intros [] io' (v' & HR' & _ & Hc & Hl'). apply HQ.
  rewrite <- (app_nil_r l) in Hl'. replace fr with (fr ∖ list_to_set (C := gset Z) []) by set_solver.
  eapply heap_change_rep; [exact (Rep_vok _ _ _ HR)|exact HR'|exact Hh|exact Hl|exact Hst|exact Hc|exact Hl'].
Qed.

Lemma heap_create io H fr d D name attrs first (Q : Result unit → InMemory → Prop) :
  heap_rep io H fr → H !! d = Some D → eod_closed (slots D) → length name = 11%nat → bytes name → 0 ≤ attrs < 256 →
  (list_find open_slot (slots D) = None → is_fixed d = true ∨ fr = ∅ → Q (Unexpected kDiskFull) io) →
  (∀ io' fr' D' i old zs, heap_rep io' (<[d := D']> H) fr' → fr' ⊆ fr →
     Forall (λ e, IsFurtherEntriesFree e = true) zs → list_find open_slot (slots D ++ zs) = Some (i, old) →
     slots D' = <[i := new_entry name attrs first old]> (slots D ++ zs) → Q (Value tt) io') →
  wp never (CreateEntry F d name attrs first) Q io.
Proof.
  intros (v & st & HR & Hh) Hd Hcl Hn Hb Ha HQ1 HQ2. destruct (heap_dir _ _ _ _ _ _ Hh Hd) as (l & Hl & Hst).
  eapply wp_mono; [by eapply wp_CreateEntry|].
  intros r io' [(-> & -> & Hno & Hfull)|(-> & v' & fresh & D' & i & old & zs & HR' & Hc & Hl' & Hz & Hi & Hs)].
  - apply HQ1; [done|]. destruct Hfull as [?|Hfull]; [by left|right]. by eapply heap_full.
  - eapply (HQ2 io' (fr ∖ list_to_set fresh)); [|set_solver|done..]. eapply heap_change_rep; [exact (Rep_vok _ _ _ HR)|exact HR'|exact Hh|exact Hl|exact Hst|exact Hc|exact Hl'].
Qed.

(** ** Allocating and freeing *)

Lemma heap_number io H fr d D : heap_rep io H fr → H !! d = Some D → is_fixed d = false → 2 ≤ d < kEOC.
Proof.
  intros (v & st & HR & Hh) Hd Hf. pose proof (Rep_vok _ _ _ HR) as Hv. rewrite (ha_obj _ _ _ _ Hh), Hf in Hd.
  apply fmap_Some in Hd as (l & Hl & _). destruct (ha_chain _ _ _ _ Hh d l Hl) as [Hc Hne]. destruct l as [|x l]; [done|].
  destruct Hc as [-> (n & E & _)]. apply (vk_range _ _ Hv), (vk_fat _ _ Hv). eauto.
Qed.

Lemma heap_nonempty io H fr d D : heap_rep io H fr → H !! d = Some D → is_fixed d = false → 512 ≤ zlen D.
Proof.
  intros (v & st & HR & Hh) Hd Hf. pose proof (Rep_vok _ _ _ HR) as Hv. pose proof (vk_csize _ _ Hv) as [Hcs _].
  destruct (heap_dir _ _ _ _ _ _ Hh Hd) as (l & Hl & _). unfold dir_at in Hl. rewrite Hf in Hl. destruct Hl as (Hch & Hne & ->).
  rewrite (chain_data_length F) by (done || by eapply chain_range). destruct l; [done|]. cbn [length]. nia.
Qed.

Lemma heap_alloc io H fr (Q : Z → InMemory → Prop) :
  heap_rep io H fr → (fr = ∅ → Q 0 io) →
  (∀ io' c D, 2 ≤ c < kEOC → is_fixed c = false → H !! c = None → c ∈ fr → zlen D = csize F →
     heap_rep io' (<[c := D]> H) (fr ∖ {[c]}) → Q c io') →
  wp never (AllocateCluster F) Q io.
Proof.
  intros (v & st & HR & Hh) HQ0 HQ. pose proof (Rep_vok _ _ _ HR) as Hv. eapply wp_AllocateCluster; [exact HR| |].
  { intros Hn. apply HQ0. by eapply heap_full. }
  intros c io' Hc H0 HR'. pose proof (vk_range _ _ Hv c Hc) as Hcb. destruct (cl_data_in F v c Hv Hc) as (_ & Hlc & _).
  assert (Hfix : is_fixed c = false) by (apply andb_false_iff; right; apply Z.eqb_neq; lia).
  assert (Hst : ∀ h l x, st !! h = Some l → x ∈ l → x ≠ c).
  { intros h l x Hl Hx ->. destruct (ha_chain _ _ _ _ Hh h l Hl) as [Hch _]. by eapply (chain_used F). }
  assert (Hsc : st !! c = None).
  { destruct (st !! c) as [l|] eqn:E; [|done]. destruct (ha_chain _ _ _ _ Hh c l E) as [Hch Hne].
    destruct l as [|x l]; [done|]. destruct Hch as [-> _]. by destruct (Hst c (c :: l) c E ltac:(left)). }
  apply (HQ io' c (cl_data v c)); [done..| |by apply (ha_free _ _ _ _ Hh)|done|].
  { by rewrite (ha_obj _ _ _ _ Hh), Hfix, Hsc. }
  exists (set_fat c kEOC v), (<[c := [c]]> st). split; [done|]. split.
  - intros h l. rewrite lookup_insert. case_decide as Ec; [subst h; intros [= <-]|].
    + split; [|done]. split; [done|]. exists kEOC. cbn [set_fat v_fat]. rewrite lookup_insert_eq. by split; [|cbn].
    + intros Hl. destruct (ha_chain _ _ _ _ Hh h l Hl) as [Hch ?]. split; [|done]. eapply chain_ext; [|exact Hch].
      intros x Hx. cbn [set_fat v_fat]. rewrite lookup_insert_ne; [done|]. intros ->. by eapply Hst.
  - intros h1 l1 h2 l2 x. rewrite !lookup_insert. repeat case_decide; subst; [done|..].
    + intros [= <-] HL2 ->%list_elem_of_singleton Hx2. by destruct (Hst _ _ _ HL2 Hx2).
    + intros HL1 [= <-] Hx1 ->%list_elem_of_singleton. by destruct (Hst _ _ _ HL1 Hx1).
    + apply Hh.
  - intros d. rewrite !lookup_insert. case_decide; [subst d; rewrite Hfix|]; [|apply Hh].
    cbn. unfold chain_data. cbn. by rewrite app_nil_r.
  - intros x. cbn [set_fat v_fat]. rewrite elem_of_difference, elem_of_singleton, (ha_free _ _ _ _ Hh), lookup_insert.
    pose proof mask_small. case_decide; [subst; split; [naive_solver|intros [= ?]; lia]|naive_solver].
Qed.

Lemma heap_free io H fr c h D (Q : unit → InMemory → Prop) :
  heap_rep io H fr → clus c = h → H !! h = Some D → is_fixed h = false →
  (∀ io' fr', heap_rep io' (delete h H) fr' → fr ⊆ fr' → zlen D = (Z.of_nat (size fr') - Z.of_nat (size fr)) * csize F → Q tt io') →
  wp never (FreeClusterChain F c) Q io.
Proof.
  intros (v & st & HR & Hh) Hc Hd Hf HQ. pose proof (Rep_vok _ _ _ HR) as Hv. unfold FreeClusterChain. rewrite Hc.
  rewrite (ha_obj _ _ _ _ Hh), Hf in Hd. apply fmap_Some in Hd as (l & Hl & ->). destruct (ha_chain _ _ _ _ Hh h l Hl) as [Hch Hne].
  eapply wp_mono; [apply (wp_FreeLoop F io v _ h l); [done..|by apply (chain_fuel F v h)]|]. intros [] io' HR'.
  destruct (clear_fat_rest l v) as [Hcl Hroot].
  apply (HQ io' (fr ∪ list_to_set l)); [exists (clear_fat l v), (delete h st); split; [done|]; split|set_solver|].
  - intros h' l' [Hne' Hl']%lookup_delete_Some. destruct (ha_chain _ _ _ _ Hh h' l' Hl') as [Hch' ?]. split; [|done].
    eapply chain_ext; [|exact Hch']. intros x Hx. rewrite clear_fat_lookup, decide_False; [done|].
    intros Hx'. apply Hne'. symmetry. by eapply (ha_disj _ _ _ _ Hh).
  - intros h1 l1 h2 l2 x [_ ?]%lookup_delete_Some [_ ?]%lookup_delete_Some. by eapply (ha_disj _ _ _ _ Hh).
  - intros d. destruct (decide (d = h)) as [->|Hd]; [by rewrite !lookup_delete_eq, Hf|].
    rewrite !lookup_delete_ne, (ha_obj _ _ _ _ Hh), Hroot by done. destruct (is_fixed d); [done|].
    destruct (st !! d) as [l'|]; [|done]. cbn. f_equal. symmetry. apply chain_data_ext. intros x _. by rewrite Hcl.
  - intros x. rewrite elem_of_union, elem_of_list_to_set, (ha_free _ _ _ _ Hh), clear_fat_lookup. case_decide; naive_solver.
  - rewrite size_union, size_list_to_set; [|by eapply (chain_NoDup F)|].
    + rewrite (chain_data_length F); [lia|done|by eapply chain_range].
    + intros x Hx Hx'%elem_of_list_to_set. apply (ha_free _ _ _ _ Hh) in Hx. by eapply (chain_used F).
Qed.

(** An object of one cluster is written whole. *)
Lemma heap_write_cluster io H fr h D x (Q : unit → InMemory → Prop) :
  heap_rep io H fr → H !! h = Some D → is_fixed h = false → zlen D = csize F → zlen x = csize F → bytes x →
  (∀ io', heap_rep io' (<[h := x]> H) fr → Q tt io') → wp never (WriteCluster F h x) Q io.
Proof.
  intros (v & st & HR & Hh) Hd Hf HD Hx Hb HQ. pose proof (Rep_vok _ _ _ HR) as Hv. pose proof (vk_csize _ _ Hv) as [Hcs _].
  destruct (heap_dir _ _ _ _ _ _ Hh Hd) as (l & Hl & Hst). pose proof Hl as Hl0. unfold dir_at in Hl. rewrite Hf in Hl.
  destruct Hl as (Hch & Hne & ->). pose proof (chain_range F v _ _ Hv Hch) as Hr. rewrite (chain_data_length F) in HD by done.
  assert (∃ c, l = [c]) as [c ->].
  { destruct l as [|c [|c' l]]; [done|by exists c|]. exfalso. cbn [length] in HD. nia. }
  pose proof Hch as [-> _]. eapply wp_write_cluster; [exact HR|by apply Forall_cons in Hr as [? _]|done..|]. intros io' HR'.
  apply HQ. replace fr with (fr ∖ list_to_set (C := gset Z) []) by set_solver.
  eapply (heap_change_rep _ v st H fr (set_cl h x v) h [h] _ []);
    [exact Hv|exact HR'|exact Hh|exact Hl0|exact Hst|rewrite Hf; apply set_cl_changes; left|].
  unfold dir_at. rewrite Hf. split_and!; [done..|]. unfold chain_data. cbn. unfold cl_data. cbn. by rewrite lookup_insert_eq, app_nil_r.
Qed.

(** ** File data *)

Lemma heap_read io H fr e D size off (Q : list Z → InMemory → Prop) :
  heap_rep io H fr → H !! clus (GetFirstCluster e) = Some D → is_fixed (clus (GetFirstCluster e)) = false →
  0 ≤ off < file_size e → file_size e ≤ zlen D → file_size e < 2 ^ 32 → 0 < size →
  Q (slice off (Z.min size (file_size e - off)) D) io →
  wp never (ReadFileData F e size off) Q io.
Proof.
  intros (v & st & HR & Hh) Hd Hf Ho HD H32 Hs HQ. pose proof (Rep_vok _ _ _ HR) as Hv. pose proof (vk_csize _ _ Hv) as [Hcs _].
  destruct (heap_dir _ _ _ _ _ _ Hh Hd) as (l & Hl & Hst). unfold dir_at in Hl. rewrite Hf in Hl. destruct Hl as (Hch & _ & ->).
  unfold ReadFileData, GetClusterSize. fold (csize F). rewrite wrap_u_small by (unfold in_u; lia). wp_step.
  eapply wp_mono; [by eapply wp_SkipClusters|]. intros c io' [-> Hc]. set (n := Z.to_nat (off / csize F)) in *.
  pose proof (Z.mod_pos_bound off (csize F) ltac:(lia)). pose proof (Z.div_mod off (csize F) ltac:(lia)).
  pose proof (Z.div_pos off (csize F) ltac:(lia) ltac:(lia)).
  eapply wp_mono; [apply (wp_ReadLoop F io v _ c (drop n l)); [done..|by apply (chain_fuel F v c)|lia|cbn; lia]|].
  intros r io' [-> ->]. cbn [app length]. rewrite Z.sub_0_r. pose proof (chain_range F v _ _ Hv Hch) as Hr.
  rewrite <- (take_drop n l), chain_data_app in HQ.
  rewrite (chain_data_length F) in HD by done.
  assert (Hn : (n ≤ length l)%nat) by (unfold n; nia).
  assert (Hlen : zlen (chain_data v (take n l)) = Z.of_nat n * csize F).
  { rewrite (chain_data_length F) by (done || by apply Forall_take). rewrite length_take. f_equal. lia. }
  rewrite slice_app_r in HQ by (unfold n in *; lia). 
  replace (off - zlen (chain_data v (take n l))) with (off `mod` csize F) in HQ by (unfold n in *; lia). done.
Qed.

(** Writing from a cluster of the chain on. *)
Lemma wp_write_suffix io v h l1 r l2 buf o (m := zlen l1 * csize F) :
  Rep F io v → chain (v_fat v) h (l1 ++ r :: l2) → 0 ≤ o < csize F → 0 < zlen buf → bytes buf →
  wp never (WriteToClusterChain F r buf o) (λ w io', ∃ v' fresh, Rep F io' v' ∧
    chain (v_fat v') h (l1 ++ r :: l2 ++ fresh) ∧ changes false v v' (l1 ++ r :: l2) fresh ∧
    0 < w ≤ zlen buf ∧ m + o + w ≤ zlen (chain_data v (l1 ++ r :: l2 ++ fresh)) ∧
    chain_data v' (l1 ++ r :: l2 ++ fresh) = splice (m + o) (slice 0 w buf) (chain_data v (l1 ++ r :: l2 ++ fresh)) ∧
    (w = zlen buf ∨ no_free v')) io.
Proof.
  intros HR Hc Ho Hb Hbb. pose proof (Rep_vok _ _ _ HR) as Hv. pose proof (vk_csize _ _ Hv) as [Hcs _].
  pose proof (chain_app _ _ _ _ _ Hc) as Hcr. pose proof (chain_range F _ _ _ Hv Hc) as [Hr1 Hr2]%Forall_app.
  pose proof (chain_NoDup F _ _ _ Hv Hc) as (_ & Hnd & _)%NoDup_app.
  unfold WriteToClusterChain, GetClusterSize. fold (csize F).
  eapply wp_mono; [apply (wp_WriteLoop F _ io v r l2); [done|done|lia..|done|]|].
  { pose proof (Z.div_mod (zlen buf) (csize F) ltac:(lia)). pose proof (Z.mod_pos_bound (zlen buf) (csize F) ltac:(lia)).
    pose proof (Z.div_pos (zlen buf) (csize F) ltac:(lia) ltac:(lia)). rewrite Nat2Z.inj_succ, Z2Nat.id by lia. nia. }
  intros w io' (v' & fresh & HR' & Hc' & G & Hw & Hlen & Hd & Hend). rewrite !Z.sub_0_r in *.
  pose proof (Rep_vok _ _ _ HR') as Hv'. pose proof (chain_range F _ _ _ Hv' Hc') as Hr'.
  assert (Hrv : Forall (in_range F) (r :: l2 ++ fresh)) by done.
  assert (Hap : ∀ x, x ∈ l1 → x ∉ (r :: l2) ++ fresh).
  { intros x Hx [?|?]%elem_of_app; [by apply (Hnd x)|]. eapply (fresh_not_used F v _ _ fresh x Hv Hc); [|apply G|done].
    apply elem_of_app. by left. }
  assert (Hl1 : chain_data v' l1 = chain_data v l1).
  { apply chain_data_ext. intros x Hx. apply (gr_cl _ _ _ _ G). by apply Hap. }
  assert (Hz : zlen (chain_data v l1) = m) by (by apply (chain_data_length F)).
  exists v', fresh. split_and!; [done| | |lia|lia| | |].
  - apply (chain_suffix (v_fat v) _ h l1 r l2); [done| |done]. intros y Hy. apply (gr_fat _ _ _ _ G). by apply Hap.
  - split; [apply G| | |intros _; apply G]; intros x Hx; apply G; contradict Hx; apply elem_of_app in Hx as [?|?]; set_solver.
  - rewrite chain_data_app, length_app, Nat2Z.inj_add, Hz, (chain_data_length F v) by done. lia.
  - rewrite !chain_data_app, Hl1, Hd. rewrite splice_app_r by lia. do 2 f_equal. lia.
  - destruct Hend as [?|[? _]]; auto.
Qed.

Lemma heap_write {A} io H fr h D buf off (full : IOM A) (k : Z → IOM A) (Q : A → InMemory → Prop) :
  heap_rep io H fr → H !! h = Some D → is_fixed h = false → 0 ≤ off → 0 < zlen buf → bytes buf →
  (∀ io' X, heap_rep io' (<[h := D ++ X]> H) ∅ → wp never full Q io') →
  (∀ io' X w fr', heap_rep io' (<[h := splice off (slice 0 w buf) (D ++ X)]> H) fr' → fr' ⊆ fr →
     0 < w ≤ zlen buf → off + w ≤ zlen (D ++ X) → (w = zlen buf ∨ fr' = ∅) → wp never (k w) Q io') →
  wp never (c ← EnsureClusterChain F (Z.to_nat (off / csize F)) h;
            if c =? 0 then full else w ← WriteToClusterChain F c buf (off `mod` csize F); k w) Q io.
Proof.
  intros (v & st & HR & Hh) Hd Hf Ho Hb Hbb HQ1 HQ2. pose proof (Rep_vok _ _ _ HR) as Hv. pose proof (vk_csize _ _ Hv) as [Hcs _].
  destruct (heap_dir _ _ _ _ _ _ Hh Hd) as (l & Hl & Hst). pose proof Hl as Hl0. unfold dir_at in Hl. rewrite Hf in Hl.
  destruct Hl as (Hch & Hne & ->). destruct l as [|x suf]; [done|]. pose proof Hch as [-> _].
  wp_step. eapply wp_mono; [apply (wp_Ensure F _ io v h suf); done|].
  intros r io' (v' & fresh & HR' & Hc' & G & Hcl & Hr). pose proof (Rep_vok _ _ _ HR') as Hv'.
  assert (Hcd : ∀ l, chain_data v' l = chain_data v l) by (intros l; apply chain_data_ext; intros x _; by rewrite Hcl).
  assert (Hdir' : dir_at v' h ((h :: suf) ++ fresh) (chain_data v (h :: suf) ++ chain_data v fresh)).
  { unfold dir_at. rewrite Hf. split_and!; [done..|]. by rewrite Hcd, <- chain_data_app. }
  pose proof (heap_change v st H fr v' h (h :: suf) _ fresh _ Hv Hv' Hh Hl0 Hst ltac:(rewrite Hf; by apply grown_changes) Hdir') as Hh'.
  rewrite Hf in Hh'. destruct Hr as [[-> Hnf]|(l1 & l2 & El & Hn)].
  { rewrite Z.eqb_refl. eapply HQ1. eexists v', _. split; [done|]. by rewrite <- (heap_full _ _ _ _ Hh' Hnf). }
  pose proof (chain_range F _ _ _ Hv' Hc') as Hrg.
  assert (Hrr : in_range F r) by (rewrite El in Hrg; by apply Forall_app in Hrg as [_ [? _]%Forall_cons]).
  pose proof (vk_range _ _ Hv r Hrr). rewrite (proj2 (Z.eqb_neq _ _)) by lia. wp_step.
  pose proof (Z.mod_pos_bound off (csize F) ltac:(lia)). pose proof (Z.div_mod off (csize F) ltac:(lia)).
  pose proof (Z.div_pos off (csize F) ltac:(lia) ltac:(lia)). cbn [app] in *. rewrite El in *.
  eapply wp_mono; [apply (wp_write_suffix io' v' h l1 r l2 buf); done || lia|].
  intros w io'' (v'' & fresh' & HR'' & Hc'' & Hchg & Hw & Hlen & Hdata & Hend). pose proof (Rep_vok _ _ _ HR'') as Hv''.
  assert (Hm : zlen l1 * csize F + off `mod` csize F = off) by lia. rewrite Hm in *.
  assert (Eall : l1 ++ r :: l2 ++ fresh' = (h :: suf) ++ fresh ++ fresh') by (trans ((l1 ++ r :: l2) ++ fresh'); [by rewrite <- app_assoc|]; rewrite <- El; cbn [app]; by rewrite app_assoc).
  rewrite Hcd, Eall, (chain_data_app v) in Hdata, Hlen.
  assert (Hh'' : heap_at v'' (<[h := (l1 ++ r :: l2) ++ fresh']> (<[h := l1 ++ r :: l2]> st))
    (<[h := splice off (slice 0 w buf) (chain_data v (h :: suf) ++ chain_data v (fresh ++ fresh'))]>
       (<[h := chain_data v (h :: suf) ++ chain_data v fresh]> H)) (fr ∖ list_to_set fresh ∖ list_to_set fresh')).
  { eapply (heap_change v' _ _ _ v'' h) in Hh'; [rewrite Hf in Hh'; exact Hh'|done..|exact Hdir'| |rewrite Hf; exact Hchg|].
    - intros _. apply lookup_insert_eq.
    - unfold dir_at. rewrite Hf, <- Hdata, <- Eall. rewrite <- app_assoc. cbn [app]. split_and!; [done| |done]. by destruct l1. }
  rewrite !insert_insert_eq in Hh''. eapply HQ2; [eexists v'', _; split; [done|exact Hh'']|set_solver|done|done|].
  destruct Hend as [?|Hnf]; [by left|right]. by apply (heap_full _ _ _ _ Hh'').
Qed.
End heaps.
