(* ===== verification/FatNames.v ===== *)
(** * Names and slots
    Short names as the driver formats them, and the search for a name in a sequence of slots: which
    slot is found, and how the search answers after a slot has been replaced. *)
From S2P Require Import Prelude Bytes Path FatDisk Fat FatVolume FatChains FatDirs.

(** ** Formatted names *)

Record name_wf (n : list Z) : Prop := {
  nw_length : length n = 11%nat;
  nw_bytes : bytes n;
  nw_first : (n !!! 0%nat : Z) ≠ kEOD ∧ (n !!! 0%nat : Z) ≠ 46
}.

Lemma name_char_ok c x : 0 ≤ c < 256 → name_char c = Some x → 0 ≤ x < 256 ∧ x ≠ 0 ∧ x ≠ 46.
Proof.
  intros Hc. unfold name_char. destruct (_ && _) eqn:E1; [done|]. case_bool_decide as E2; [done|]. intros [= <-].
  destruct (Z.eqb_spec (i8 c) 0x05); [done|]. rewrite andb_true_r in E1. apply Z.ltb_ge in E1.
  assert (Hi : i8 c = c ∧ c < 128).
  { unfold wrap_s in *. change (2 ^ (8 - 1)) with 128 in *. change (2 ^ 8) with 256 in *. Z.to_euclidean_division_equations; lia. }
  destruct Hi as [Hi Hc']. rewrite Hi in *. assert (c ≠ 46) by (intros ->; apply E2; by apply (bool_decide_unpack _)).
  assert (Hu : ∀ z, 0 ≤ z < 256 → u8 z = z) by (intros; by apply wrap_u_small).
  unfold toupper. destruct (_ && _) eqn:E; [apply andb_true_iff in E as [?%Z.leb_le ?%Z.leb_le]|]; rewrite Hu; lia.
Qed.

(** The characters are written one after another. *)
Lemma Copy_ok src len dst o n :
  bytes src → bytes dst → CopyAndValidateChars src len dst o = Some n →
  length n = length dst ∧ bytes n ∧ ∀ i, (i < o)%nat → n !!! i = (dst !!! i : Z).
Proof.
  revert src dst o. induction len as [|len IH]; intros [|c src] dst o Hs Hd; cbn; [by intros [= <-]..|].
  apply Forall_cons in Hs as [Hc Hs]. intros (x & Hx & H1)%bind_Some. destruct (name_char_ok c x Hc Hx) as (Hx1 & _).
  destruct (IH src _ _ Hs (Forall_insert _ _ _ _ Hd Hx1) H1) as (H2 & H3 & H4). rewrite length_insert in H2.
  split_and!; [done..|]. intros i Hi. rewrite H4 by lia. apply list_lookup_total_insert_ne. lia.
Qed.

Lemma bytes_c_str l : bytes l → bytes (c_str l).
Proof. intros H. induction H as [|c l Hc _ IH]; cbn; [constructor|]. case_match; by constructor. Qed.

Lemma FormatFilename_wf c n : bytes c → FormatFilename c = Some n → name_wf n.
Proof.
  intros Hc. unfold FormatFilename, ToShortFormat. set (s := c_str _).
  assert (Hs : bytes s) by (by apply bytes_c_str, Forall_take). clearbody s.
  destruct (_ <? _); [done|]. set (len := default _ _). destruct (_ || (len =? 0) || _) eqn:E; [done|].
  apply orb_false_iff in E as [[_ E0%Z.eqb_neq]%orb_false_iff _].
  intros (f & Hf & H)%bind_Some.
  assert (Hr : bytes (replicate 11 32)) by (by apply bytes_replicate).
  destruct (Copy_ok _ _ _ _ _ Hs Hr Hf) as (Hl & Hb & _).
  assert (Hf0 : (f !!! 0%nat : Z) ≠ 0 ∧ (f !!! 0%nat : Z) ≠ 46).
  { destruct s as [|x s], (Z.to_nat len) as [|k]; cbn in Hf; [injection Hf as <-; done..|].
    apply bind_Some in Hf as (y & Hy & Hf). apply Forall_cons in Hs as [Hx Hs]. destruct (name_char_ok x y Hx Hy) as (Hy1 & Hy2 & Hy3).
    assert (Hd : bytes (y :: replicate 10 32)) by (apply Forall_cons_2; [done|by apply bytes_replicate]).
    destruct (Copy_ok _ _ _ _ _ Hs Hd Hf) as (_ & _ & H0).
    rewrite H0 by lia. done. }
  destruct (find_last 46 s 0) as [d|]; [|injection H as <-; by split].
  destruct (Copy_ok _ _ _ _ _ (Forall_drop _ _ _ Hs) Hb H) as (Hl' & Hb' & H0). split; [by rewrite Hl', Hl|done|].
  by rewrite H0 by lia.
Qed.

(** ** Searching *)

(** A slot in use that is not a part of a long name. *)
Definition live (e : DirectoryEntry) : Prop :=
  IsFree e = false ∧ IsFurtherEntriesFree e = false ∧ IsLongNameSubComponent e = false.

#[export] Instance live_dec e : Decision (live e).
Proof. unfold live. apply _. Defined.

Lemma open_not_live e : open_slot e → ¬ live e.
Proof. unfold open_slot, live. naive_solver congruence. Qed.

Definition find_live (es : list DirectoryEntry) (n : list Z) : option (nat * DirectoryEntry) :=
  list_find (λ e, live e ∧ filename e = n) es.

(** No name is used twice. *)
Definition unique (es : list DirectoryEntry) : Prop :=
  ∀ i j e e', es !! i = Some e → es !! j = Some e' → live e → live e' → filename e = filename e' → i = j.

Lemma find_live_Some es n i e :
  unique es → find_live es n = Some (i, e) ↔ es !! i = Some e ∧ live e ∧ filename e = n.
Proof.
  intros Hu. unfold find_live. rewrite list_find_Some. split; [naive_solver|]. intros (Hi & He & Hn).
  split_and!; [done..|]. intros j e' Hj Hlt [He' Hn']. assert (j = i) by (eapply Hu; eauto; congruence). lia.
Qed.

(** The scan of [FindEntryInDirectory_] finds it. *)
Lemma scan_match es off n :
  eod_closed es →
  (scan_list es off (match_name n) None).1.1 = (λ p : nat * DirectoryEntry, (p.2, off + Z.of_nat p.1 * 32)) <$> find_live es n.
Proof.
  unfold find_live. revert off. induction es as [|e es IH]; intros off Hc; [done|]. cbn [scan_list list_find].
  pose proof (eod_closed_app_r [e] es Hc) as Hc'.
  assert (Hnext : ∀ o, o = (λ p : nat * DirectoryEntry, (p.2, (off + 32) + Z.of_nat p.1 * 32)) <$> list_find (λ e, live e ∧ filename e = n) es →
    o = (λ p : nat * DirectoryEntry, (p.2, off + Z.of_nat p.1 * 32)) <$> (prod_map S id <$> list_find (λ e, live e ∧ filename e = n) es)).
  { intros o ->. destruct (list_find _ es) as [[j e']|]; [|done]. cbn. do 2 f_equal. lia. }
  destruct (IsFree e) eqn:E1.
  { rewrite decide_False by (unfold live; naive_solver congruence). apply Hnext, IH, Hc'. }
  destruct (IsFurtherEntriesFree e) eqn:E2.
  { rewrite decide_False by (unfold live; naive_solver congruence). cbn. 
    assert (list_find (λ e, live e ∧ filename e = n) es = None) as ->; [|done].
    apply list_find_None, Forall_lookup. intros j e' Hj [[_ [He' _]] _].
    by rewrite (Hc 0%nat (S j) e e') in He' by (done || lia). }
  unfold match_name. rewrite E1. cbn [negb]. rewrite andb_true_r. destruct (IsLongNameSubComponent e) eqn:E3; cbn [negb andb].
  { rewrite decide_False by (unfold live; naive_solver congruence). apply Hnext, IH, Hc'. }
  case_bool_decide as E4.
  - rewrite decide_True by done. cbn. do 2 f_equal. lia.
  - rewrite decide_False by naive_solver. apply Hnext, IH, Hc'.
Qed.

(** ** Replacing a slot *)

Section replace.
Context (es : list DirectoryEntry) (i : nat) (old e : DirectoryEntry) (Hi : es !! i = Some old).

Lemma lookup_replaced j x : <[i := e]> es !! j = Some x ↔ (j = i ∧ x = e) ∨ (j ≠ i ∧ es !! j = Some x).
Proof.
  pose proof (lookup_lt_Some _ _ _ Hi). destruct (decide (j = i)) as [->|].
  - rewrite list_lookup_insert_eq by done. naive_solver.
  - rewrite list_lookup_insert_ne by done. naive_solver.
Qed.

Lemma unique_replace :
  unique es → (∀ j x, es !! j = Some x → live x → live e → filename x = filename e → j = i) → unique (<[i := e]> es).
Proof.
  intros Hu Hn j k x y. rewrite !lookup_replaced. intros [[-> ->]|[? Hj]] [[-> ->]|[? Hk]]; [done|..].
  - intros. symmetry. by eapply Hn.
  - intros. by eapply Hn.
  - eauto.
Qed.

Lemma find_replace n :
  unique es → unique (<[i := e]> es) →
  find_live (<[i := e]> es) n =
    if decide (live e ∧ filename e = n) then Some (i, e)
    else if decide (live old ∧ filename old = n) then None else find_live es n.
Proof.
  intros Hu Hu'. apply option_eq. intros [j x]. rewrite find_live_Some, lookup_replaced by done. repeat case_decide.
  - split; [|intros [= <- <-]; naive_solver]. intros ([[-> ->]|[Hj Hx]] & Hl & Hf); [done|]. exfalso. apply Hj.
    eapply (Hu' j i x e); [rewrite lookup_replaced; naive_solver| |done|naive_solver|naive_solver congruence].
    rewrite lookup_replaced. naive_solver.
  - split; [|done]. intros ([[-> ->]|[Hj Hx]] & Hl & Hf); [naive_solver|]. destruct Hj. eapply (Hu j i x old); naive_solver congruence.
  - rewrite find_live_Some by done. naive_solver congruence.
Qed.

Lemma eod_replace : eod_closed es → IsFurtherEntriesFree e = false →
  (∀ j x, (j < i)%nat → es !! j = Some x → IsFurtherEntriesFree x = false) → eod_closed (<[i := e]> es).
Proof.
  intros Hc He Hb j k x y Hjk. rewrite !lookup_replaced. intros [[-> ->]|[? Hj]] Hx [[-> ->]|[? Hk]]; [congruence..| |by eapply Hc].
  rewrite (Hb j x) in Hx by (done || lia). done.
Qed.
End replace.

Lemma used_before es i old : eod_closed es → es !! i = Some old → IsFurtherEntriesFree old = false →
  ∀ j x, (j < i)%nat → es !! j = Some x → IsFurtherEntriesFree x = false.
Proof. intros Hc Hi Ho j x Hj Hx. apply not_true_is_false. intros E. by rewrite (Hc j i x old) in Ho by (done || lia). Qed.

(** Slots with the end mark may be added. *)
Section pad.
Context (es zs : list DirectoryEntry) (Hz : Forall (λ e, IsFurtherEntriesFree e = true) zs).

Lemma lookup_pad j x : (es ++ zs) !! j = Some x → es !! j = Some x ∨ ((length es ≤ j)%nat ∧ IsFurtherEntriesFree x = true).
Proof.
  intros [?|[? Hx]]%lookup_app_Some; [by left|right]. split; [done|]. by eapply (Forall_lookup_1 _ _ _ _ Hz).
Qed.

Lemma eod_pad : eod_closed es → eod_closed (es ++ zs).
Proof.
  intros Hc j k x y Hjk [Hj|[Hj _]]%lookup_pad Hx [Hk|[_ Hk]]%lookup_pad; [by eapply Hc|done| |done].
  apply lookup_lt_Some in Hk. lia.
Qed.

Lemma unique_pad : unique es → unique (es ++ zs).
Proof.
  intros Hu j k x y [Hj|[_ Hj]]%lookup_pad [Hk|[_ Hk]]%lookup_pad Hx Hy; [by apply (Hu j k x y)|unfold live in *; naive_solver congruence..].
Qed.

Lemma find_pad n : find_live (es ++ zs) n = find_live es n.
Proof.
  unfold find_live. rewrite list_find_app. destruct (list_find _ es) as [|]; [done|].
  assert (list_find (λ e, live e ∧ filename e = n) zs = None) as ->; [|done].
  apply list_find_None. eapply Forall_impl; [exact Hz|]. intros x Hx [(_ & Hx' & _) _]. congruence.
Qed.
End pad.
