(* ===== verification/FatFs.v ===== *)
(** * The file system that a FAT volume implements
    The specification: directories, known by number, map names to files with their contents, to
    directories, or to volume labels.  [fs_rep] says that a volume holds a file system; each
    operation of the driver does on the volume what the specification says about the file system. *)
From S2P Require Import Prelude Bytes Path FatDisk Fat FatVolume FatChains FatDirs FatHeap FatNames.

Inductive node := NFile (b : list Z) | NDir (d : Z) | NLabel.

Abbreviation dir := (gmap (list Z) node).
Abbreviation fs := (gmap Z dir).

Section fs.
Context `{I : FatImpl, L : !FatLaws I} (F : Fat).
Implicit Types (S : fs) (H : heap) (ref : Z → option (Z * list Z)) (ents : dir) (fr : gset Z).

Definition root : Z := GetRootCluster F.

(** The first cluster of an entry. *)
Definition head (e : DirectoryEntry) : Z := clus (GetFirstCluster e).

Definition is_dot (n : list Z) : Prop := n = kDot ∨ n = kDotDot.

#[export] Instance is_dot_dec n : Decision (is_dot n).
Proof. unfold is_dot. apply _. Defined.

(** The entry [e], under name [n] in directory [d], is a node.  [ref] has for each object the one
    entry that refers to it. *)
Definition entry_rep H S ref (d : Z) (n : list Z) (e : DirectoryEntry) (x : node) : Prop :=
  match x with
  | NFile b => IsFile e = true ∧
      ((head e = 0 ∧ file_size e = 0 ∧ b = []) ∨
       ∃ D, ref (head e) = Some (d, n) ∧ H !! head e = Some D ∧ is_fixed (head e) = false ∧ S !! head e = None ∧
         file_size e ≤ zlen D ∧ b = slice 0 (file_size e) D)
  | NDir d' => IsDirectory e = true ∧ head e = d' ∧ d' ≠ root ∧ is_Some (S !! d') ∧ ref d' = Some (d, n)
  | NLabel => IsVolumeLabel e = true
  end.

Definition match_rep (R : DirectoryEntry → node → Prop) (p : option (nat * DirectoryEntry)) (x : option node) : Prop :=
  match p, x with
  | Some (_, e), Some x => R e x
  | None, None => True
  | _, _ => False
  end.

Record dir_ok H S ref (d : Z) (D : list Z) ents : Prop := {
  do_closed : eod_closed (slots D);
  do_unique : unique (slots D);
  do_dots : ∀ n, is_dot n → ents !! n = None;
  do_match : ∀ n, ¬ is_dot n → match_rep (entry_rep H S ref d n) (find_live (slots D) n) (ents !! n)
}.

Record fs_ok H S ref : Prop := {
  fo_root : is_Some (S !! root);
  fo_dir : ∀ d ents, S !! d = Some ents → ∃ D, H !! d = Some D ∧ dir_ok H S ref d D ents
}.

Definition fs_rep (io : InMemory) S fr : Prop := ∃ H ref, heap_rep F io H fr ∧ fs_ok H S ref.

(** ** What changes leave alone *)

Lemma match_rep_mono (R R' : DirectoryEntry → node → Prop) p x :
  (∀ e y, x = Some y → R e y → R' e y) → match_rep R p x → match_rep R' p x.
Proof. intros Hm. destruct p as [[? ?]|], x; cbn; auto. Qed.

Lemma entry_rep_frame H S ref H' S' ref' d n e x :
  (∀ h, ref h = Some (d, n) → ref' h = Some (d, n)) →
  (∀ h D, ref h = Some (d, n) → S !! h = None → H !! h = Some D → H' !! h = Some D ∧ S' !! h = None) →
  (∀ h, ref h = Some (d, n) → is_Some (S !! h) → is_Some (S' !! h)) →
  entry_rep H S ref d n e x → entry_rep H' S' ref' d n e x.
Proof.
  intros Hr Hf Hd. destruct x as [b|d'|]; cbn; [|naive_solver|done]. intros [Hi [?|(D & H1 & H2 & H3 & H4 & H5)]]; (split; [done|]); [by left|right].
  exists D. destruct (Hf _ _ H1 H4 H2). eauto 10.
Qed.

(** A new object changes nothing. *)
Lemma fs_ok_alloc H S ref c D : fs_ok H S ref → H !! c = None → fs_ok (<[c := D]> H) S ref.
Proof.
  intros [H1 H2] Hc. split; [done|]. intros d ents Hd. destruct (H2 d ents Hd) as (D' & HD' & [H3 H4 H6 H5]).
  exists D'. split; [rewrite lookup_insert_ne; congruence|]. split; [done..|]. intros n Hn. eapply match_rep_mono; [|by apply H5].
  intros e x _. apply entry_rep_frame; [done| |done]. intros h D0 _ ? Hh. split; [|done]. rewrite lookup_insert_ne; congruence.
Qed.

(** Replacing a directory. *)
Lemma fs_ok_replace H S ref d ents D' ents' ref' (H' := <[d := D']> H) (S' := <[d := ents']> S) :
  fs_ok H S ref → S !! d = Some ents → eod_closed (slots D') → unique (slots D') → (∀ n, is_dot n → ents' !! n = None) →
  (∀ p n h, p ≠ d → ref h = Some (p, n) → ref' h = Some (p, n)) →
  (∀ n, ¬ is_dot n → match_rep (entry_rep H' S' ref' d n) (find_live (slots D') n) (ents' !! n)) →
  fs_ok H' S' ref'.
Proof.
  intros [H1 H2] Hd Hc Hu Hdots Hr Hm. split.
  { unfold S'. rewrite lookup_insert. case_decide; eauto. }
  intros p pe. unfold S'. rewrite lookup_insert. case_decide as Hp; [subst p; intros [= <-]|intros Hpe].
  { exists D'. unfold H'. rewrite lookup_insert_eq. by split. }
  destruct (H2 p pe Hpe) as (D0 & HD0 & [H3 H4 H6 H5]). exists D0. split; [unfold H'; by rewrite lookup_insert_ne|].
  split; [done..|]. intros n Hn. eapply match_rep_mono; [|by apply H5]. intros e x _. apply entry_rep_frame.
  - intros h. by apply Hr.
  - intros h D1 _ Hs Hh. unfold H', S'. rewrite !lookup_insert_ne by congruence. done.
  - intros h _ Hs. unfold S'. rewrite lookup_insert. case_decide; eauto.
Qed.

Lemma fs_dir io S fr H ref d ents : heap_rep F io H fr → fs_ok H S ref → S !! d = Some ents →
  ∃ D, H !! d = Some D ∧ dir_ok H S ref d D ents.
Proof. intros _ Hf Hd. by apply (fo_dir _ _ _ Hf). Qed.

Lemma node_not_fixed H S ref d n e d' : entry_rep H S ref d n e (NDir d') → is_fixed d' = false.
Proof.
  intros (_ & _ & Hne & _). unfold is_fixed. destruct kHasFixedRootDir eqn:E; [|done]. cbn. apply Z.eqb_neq. intros ->.
  apply Hne. unfold root. by rewrite fixed_root.
Qed.

(** ** Paths *)

(** The components that a lookup follows: the driver skips [.] and [..]. *)
Definition dots (c : list Z) : Prop := c = chars "." ∨ c = chars "..".

#[export] Instance dots_dec c : Decision (dots c).
Proof. unfold dots. apply _. Defined.

Definition plain (cs : list (list Z)) : list (list Z) := filter (λ c, ¬ dots c) cs.

Definition child S (d : Z) (c : list Z) : option node :=
  n ← FormatFilename c; ents ← S !! d; ents !! n.

(** Where a sequence of components leads: to a directory, nowhere, or through something that is
    not a directory. *)
Inductive place := At (d : Z) | Gone | Through.

Fixpoint descend S (d : Z) (cs : list (list Z)) : place :=
  match cs with
  | [] => At d
  | c :: cs => match child S d c with Some (NDir d') => descend S d' cs | Some _ => Through | None => Gone end
  end.

Lemma format_not_dot c n : bytes c → FormatFilename c = Some n → ¬ is_dot n.
Proof. intros Hb Hn [-> | ->]; by destruct (nw_first _ (FormatFilename_wf c _ Hb Hn)). Qed.

Lemma LookupLoop_plain cs cur d par off io : LookupLoop F cs cur d par off io = LookupLoop F (plain cs) cur d par off io.
Proof.
  revert cur d par off io. induction cs as [|c cs IH]; intros cur d par off io; [done|]. unfold plain in *. cbn [LookupLoop].
  destruct (bool_decide (c = chars ".") || bool_decide (c = chars "..")) eqn:E.
  - rewrite filter_cons_False; [apply IH|]. intros Hn. apply Hn. apply orb_true_iff in E as [?%bool_decide_eq_true|?%bool_decide_eq_true]; [by left|by right].
  - apply orb_false_iff in E as [E1%bool_decide_eq_false E2%bool_decide_eq_false].
    rewrite filter_cons_True by (by intros [? | ?]). cbn [LookupLoop]. rewrite !bool_decide_eq_false_2 by done. cbn [orb].
    unfold mbind, M_bind. destruct (FindEntryInDirectory F cur c io) as [[[[e o]|] io']|]; [|done..]. apply IH.
Qed.

(** What a path names. *)
Inductive target := Present (d : Z) (n : list Z) (x : node) | Absent | Unsafe.

Definition locate S (cs : list (list Z)) (c : list Z) : target :=
  match descend S root cs with
  | At d =>
      match FormatFilename c with
      | Some n => match S !! d ≫= lookup n with Some x => Present d n x | None => Absent end
      | None => Absent
      end
  | Gone => Absent
  | Through => Unsafe
  end.

(** A cluster number in the two halves of an entry. *)
Lemma cluster_halves c : 0 ≤ c < 2 ^ 32 →
  Z.lor (Z.shiftl (Z.land (Z.shiftr c 16) 0xFFFF) 16) (Z.land c 0xFFFF) = c.
Proof.
  intros Hc. change 0xFFFF with (Z.ones 16). apply Z.bits_inj'. intros i Hi.
  rewrite Z.lor_spec, Z.shiftl_spec, !Z.land_spec by done. rewrite (Z.testbit_ones_nonneg 16 i) by lia.
  destruct (Z.ltb_spec i 16).
  - rewrite (Z.testbit_neg_r _ (i - 16)), andb_true_r by lia. done.
  - rewrite Z.shiftr_spec, Z.testbit_ones_nonneg, andb_false_r, orb_false_r, Z.sub_add by lia.
    destruct (Z.ltb_spec (i - 16) 16); [by rewrite andb_true_r|]. rewrite andb_false_r. symmetry.
    rewrite <- (Z.mod_small c (2 ^ 32)) by lia. apply Z.mod_pow2_bits_high. lia.
Qed.

Lemma clus_small c : 0 ≤ c ≤ kClusterMask → clus c = c ∧ 0 ≤ c < 2 ^ 32.
Proof. intros Hc. pose proof mask_small. unfold clus. split; [apply wrap_u_small; unfold in_u|]; lia. Qed.

Context (io : InMemory) (S : fs) (fr : gset Z) (H : heap) (ref : Z → option (Z * list Z))
  (Hheap : heap_rep F io H fr) (Hok : fs_ok H S ref).

Lemma FindEntry_is e d D ents c :
  head e = d → H !! d = Some D → dir_ok H S ref d D ents →
  FindEntryInDirectory F e c io =
    Ok (n ← FormatFilename c; (λ p : nat * DirectoryEntry, (p.2, Z.of_nat p.1 * 32)) <$> find_live (slots D) n, io).
Proof.
  intros He HD Hd. unfold FindEntryInDirectory. destruct (FormatFilename c) as [n|]; [|done].
  rewrite (heap_scan F io H fr e d D) by done. rewrite scan_match by apply Hd. done.
Qed.

Lemma child_is d D ents c :
  S !! d = Some ents → dir_ok H S ref d D ents → bytes c →
  match FormatFilename c with
  | None => child S d c = None
  | Some n => match_rep (entry_rep H S ref d n) (find_live (slots D) n) (child S d c)
  end.
Proof.
  intros Hd Hdir Hb. unfold child. destruct (FormatFilename c) as [n|] eqn:En; [|done]. cbn. rewrite Hd. cbn.
  apply Hdir. by eapply format_not_dot.
Qed.

Lemma LookupLoop_step c cs e d D ents par off :
  ¬ dots c → head e = d → H !! d = Some D → dir_ok H S ref d D ents →
  LookupLoop F (c :: cs) e d par off io =
    match n ← FormatFilename c; find_live (slots D) n with
    | Some (i, e') => LookupLoop F cs e' (head e') d (Z.of_nat i * 32) io
    | None => Ok (mkLookup zero_entry 0 off false, io)
    end.
Proof.
  intros Hn He HD Hd. cbn [LookupLoop]. rewrite !bool_decide_eq_false_2 by (intros ->; apply Hn; by (left + right)). cbn [orb].
  unfold mbind at 1, M_bind at 1. rewrite (FindEntry_is e d D ents c) by done. destruct (FormatFilename c) as [n|]; [|done].
  cbn [mbind option_bind]. by destruct (find_live (slots D) n) as [[i e']|].
Qed.

Lemma LookupLoop_descend cs rest e d ents par off :
  Forall bytes cs → Forall (λ c, ¬ dots c) cs → head e = d → IsDirectory e = true → S !! d = Some ents →
  match descend S d cs with
  | At p => ∃ e' par' off', head e' = p ∧ IsDirectory e' = true ∧ is_Some (S !! p) ∧
      LookupLoop F (cs ++ rest) e d par off io = LookupLoop F rest e' p par' off' io
  | Gone => ∃ off', LookupLoop F (cs ++ rest) e d par off io = Ok (mkLookup zero_entry 0 off' false, io)
  | Through => True
  end.
Proof.
  intros Hb Hn. revert e d ents par off Hn. induction Hb as [|c cs Hc Hb IH]; intros e d ents par off Hn He Hi Hd; cbn [descend app].
  { exists e, par, off. eauto. }
  apply Forall_cons in Hn as [Hnc Hn]. destruct (fo_dir _ _ _ Hok d ents Hd) as (D & HD & Hdir).
  rewrite (LookupLoop_step c (cs ++ rest) e d D ents) by done.
  pose proof (child_is d D ents c Hd Hdir Hc) as Hch. destruct (FormatFilename c) as [n|]; [|rewrite Hch; by exists off].
  cbn [mbind option_bind]. destruct (find_live (slots D) n) as [[i e']|], (child S d c) as [x|]; cbn in Hch |- *; [|done..|by exists off].
  destruct x as [|d'|]; [done| |done]. destruct Hch as (Hi' & Hd' & _ & [ents' Hents'] & _).
  rewrite Hd'. by eapply IH.
Qed.

Lemma root_range : 0 ≤ root ≤ kClusterMask.
Proof.
  pose proof mask_small. destruct (fo_root _ _ _ Hok) as [ents Hr]. destruct (fo_dir _ _ _ Hok _ _ Hr) as (D & HD & _).
  destruct (is_fixed root) eqn:E.
  - apply andb_true_iff in E as [_ E%Z.eqb_eq]. lia.
  - pose proof (heap_number F io H fr root D Hheap HD E). lia.
Qed.

Lemma root_entry : head (MakeRootDirectoryEntry F) = root ∧ IsDirectory (MakeRootDirectoryEntry F) = true.
Proof.
  split; [|done]. destruct (clus_small root root_range) as [Hc H32]. unfold head, GetFirstCluster, MakeRootDirectoryEntry.
  cbn [first_cluster_high first_cluster_low]. unfold GetRootCluster_. fold root. by rewrite cluster_halves.
Qed.

(** What [LookupPath_] returns. *)
Lemma LookupPath_is path cs0 cs c :
  path_is path true cs0 → plain cs0 = cs ++ [c] → Forall bytes cs0 →
  match locate S cs c with
  | Present d n x => ∃ i e D ents, S !! d = Some ents ∧ ents !! n = Some x ∧ H !! d = Some D ∧ dir_ok H S ref d D ents ∧
      find_live (slots D) n = Some (i, e) ∧ entry_rep H S ref d n e x ∧ ¬ is_dot n ∧
      LookupPath F path io = Ok (mkLookup e d (Z.of_nat i * 32) true, io)
  | Absent => ∃ off, LookupPath F path io = Ok (mkLookup zero_entry 0 off false, io)
  | Unsafe => True
  end.
Proof.
  intros Hp Hpl Hb. unfold LookupPath, IsEmpty, IsRoot. rewrite (pi_abs _ _ _ Hp). change (zlen (components path)) with (ComponentCount path).
  rewrite (count_is _ _ _ Hp), (pi_strings _ _ _ Hp). pose proof (pi_print _ _ _ Hp) as Hlen. cbn in Hlen.
  assert (Hne : zlen cs0 ≠ 0). { destruct cs0; [by destruct cs|cbn; lia]. }
  rewrite !(proj2 (Z.eqb_neq _ _)) by (done || lia). cbn [andb orb]. rewrite LookupLoop_plain, Hpl.
  assert (Hbp : Forall bytes (plain cs0) ∧ Forall (λ c, ¬ dots c) (plain cs0)).
  { split; apply Forall_forall; intros x [??]%list_elem_of_filter; [|done]. by apply (proj1 (Forall_forall _ _) Hb). }
  rewrite Hpl in Hbp. destruct Hbp as [[Hb1 [Hb2 _]%Forall_cons]%Forall_app [Hn1 [Hn2 _]%Forall_cons]%Forall_app].
  destruct root_entry as [He Hi]. destruct (fo_root _ _ _ Hok) as [rents Hr].
  pose proof (LookupLoop_descend cs [c] _ _ _ (GetRootCluster_ F) 0 Hb1 Hn1 He Hi Hr) as Hd. unfold GetRootCluster_ in *. fold root in Hd |- *.
  unfold locate. destruct (descend S root cs) as [d| |]; [|destruct Hd as [o ->]; by exists o|done].
  destruct Hd as (e' & par & off & He' & _ & [ents Hents] & ->). destruct (fo_dir _ _ _ Hok d ents Hents) as (D & HD & Hdir).
  rewrite (LookupLoop_step c [] e' d D ents) by done. destruct (FormatFilename c) as [n|] eqn:En; [|by exists off].
  pose proof (format_not_dot c n Hb2 En) as Hnd. cbn [mbind option_bind]. rewrite Hents. cbn [mbind option_bind].
  pose proof (do_match _ _ _ _ _ _ Hdir n Hnd) as Hm. unfold match_rep in Hm.
  destruct (find_live (slots D) n) as [[i e]|] eqn:Ef, (ents !! n) as [x|] eqn:Ex; [|done..|by exists off].
  exists i, e, D, ents. done.
Qed.
End fs.

(** ** Changing the file system *)

Section changes.
Context `{I : FatImpl, L : !FatLaws I} (F : Fat).
Implicit Types (S : fs) (H : heap) (ref : Z → option (Z * list Z)) (ents : dir) (fr : gset Z).

Lemma entry_frame_dir H S ref ref' d D' ents' p m e x :
  is_Some (S !! d) → (∀ h, ref h = Some (p, m) → ref' h = Some (p, m)) →
  entry_rep F H S ref p m e x → entry_rep F (<[d := D']> H) (<[d := ents']> S) ref' p m e x.
Proof.
  intros [ents Hd] Hr. apply entry_rep_frame; [done|..].
  - intros h D _ Hs Hh. rewrite !lookup_insert_ne by congruence. done.
  - intros h _ Hs. rewrite lookup_insert. case_decide; eauto.
Qed.

(** A directory whose slot [i] is replaced: the names of the old and the new entry change their
    meaning, the others keep it. *)
Lemma fs_ok_slot H S ref d ents D zs D' i old e' ents' ref' :
  fs_ok F H S ref → S !! d = Some ents → dir_ok F H S ref d D ents →
  Forall (λ e, IsFurtherEntriesFree e = true) zs → (slots D ++ zs) !! i = Some old → slots D' = <[i := e']> (slots D ++ zs) →
  IsFurtherEntriesFree e' = false → (∀ m, is_dot m → ents' !! m = None) →
  (∀ j x, (j < i)%nat → (slots D ++ zs) !! j = Some x → IsFurtherEntriesFree x = false) →
  (∀ j x, slots D !! j = Some x → live x → live e' → filename x = filename e' → j = i) →
  (∀ p m h, ref h = Some (p, m) → p ≠ d ∨ ¬ (live old ∧ filename old = m) ∧ ¬ (live e' ∧ filename e' = m) → ref' h = Some (p, m)) →
  (∀ m, ¬ is_dot m → ¬ (live e' ∧ filename e' = m) → ents' !! m = if decide (live old ∧ filename old = m) then None else ents !! m) →
  (live e' → ¬ is_dot (filename e') → ∃ x', ents' !! filename e' = Some x' ∧
     entry_rep F (<[d := D']> H) (<[d := ents']> S) ref' d (filename e') e' x') →
  fs_ok F (<[d := D']> H) (<[d := ents']> S) ref'.
Proof.
  intros Hok Hd [Hc Hu Hdots Hm] Hz Hi Hs He' Hdots' Hbefore Huniq Href Hents Hnew.
  pose proof (eod_pad _ _ Hz Hc) as Hc2. pose proof (unique_pad _ _ Hz Hu) as Hu2.
  assert (Hu3 : unique (slots D')).
  { rewrite Hs. eapply unique_replace; [done..|]. intros j x [Hj|[_ Hj]]%(lookup_pad _ _ Hz) Hx; [by eapply Huniq|].
    unfold live in Hx. naive_solver congruence. }
  eapply fs_ok_replace; [done|done| |done|done| |].
  - rewrite Hs. by eapply eod_replace.
  - intros p m h Hp Hr. apply Href; [done|by left].
  - intros m Hmd. rewrite Hs in *. rewrite (find_replace _ _ old e' Hi) by done. case_decide as E1.
    { destruct E1 as [Hl <-]. destruct (Hnew Hl Hmd) as (x' & -> & Hx). done. }
    rewrite Hents by done. case_decide as E2; [done|]. rewrite (find_pad _ _ Hz).
    eapply match_rep_mono; [|by apply Hm]. intros e x Ex. apply entry_frame_dir; [eauto|]. intros h Hr. apply Href; [done|by right].
Qed.

(** An object that nothing refers to may go. *)
Lemma fs_ok_drop H S ref h : fs_ok F H S ref → ref h = None → h ≠ root F → fs_ok F (delete h H) (delete h S) ref.
Proof.
  intros [H1 H2] Hr Hne. split; [by rewrite lookup_delete_ne|]. intros d ents [Hdh Hd]%lookup_delete_Some.
  destruct (H2 d ents Hd) as (D & HD & [H3 H4 H6 H5]). exists D. split; [by rewrite lookup_delete_ne|]. split; [done..|].
  intros n Hn. eapply match_rep_mono; [|by apply H5]. intros e x _. apply entry_rep_frame; [done|..].
  - intros k D0 Hk Hs Hh. rewrite !lookup_delete_ne by congruence. done.
  - intros k Hk Hs. rewrite lookup_delete_ne by congruence. done.
Qed.

(** The object of a file is rewritten. *)
Lemma fs_ok_write H S ref d ents D n i e b X :
  fs_ok F H S ref → S !! d = Some ents → H !! d = Some D → dir_ok F H S ref d D ents → find_live (slots D) n = Some (i, e) → ¬ is_dot n →
  entry_rep F H S ref d n e (NFile b) → ref (head e) = Some (d, n) → S !! head e = None → is_fixed (head e) = false →
  file_size e ≤ zlen X →
  fs_ok F (<[head e := X]> H) (<[d := <[n := NFile (slice 0 (file_size e) X)]> ents]> S) ref.
Proof.
  intros [H1 H2] Hd HD Hdir Hf Hn Hrep Hr Hh Hfix HX. assert (Hhd : head e ≠ d) by congruence.
  assert (Hfr : ∀ p m e' x, (p, m) ≠ (d, n) → entry_rep F H S ref p m e' x →
    entry_rep F (<[head e := X]> H) (<[d := <[n := NFile (slice 0 (file_size e) X)]> ents]> S) ref p m e' x).
  { intros p m e' x Hpm. apply entry_rep_frame; [done|..].
    - intros k D0 Hk Hs Hk0. rewrite !lookup_insert_ne by congruence. done.
    - intros k Hk Hs. rewrite lookup_insert. case_decide; eauto. }
  split; [rewrite lookup_insert; case_decide; eauto|].
  intros p pe. rewrite lookup_insert. case_decide as Hp; [subst p; intros [= <-]|intros Hpe].
  - exists D. split; [by rewrite lookup_insert_ne|]. destruct Hdir as [H3 H4 H6 H5]. split; [done..| |].
    { intros m Hm. rewrite lookup_insert_ne; [by apply H6|]. by intros ->. }
    intros m Hm.
    destruct (decide (m = n)) as [->|Hmn].
    + rewrite Hf, lookup_insert_eq. split; [apply Hrep|right]. exists X. rewrite lookup_insert_eq, lookup_insert_ne by congruence. done.
    + rewrite lookup_insert_ne by done. eapply match_rep_mono; [|by apply H5]. intros e' x _. apply Hfr. congruence.
  - destruct (H2 p pe Hpe) as (D0 & HD0 & [H3 H4 H6 H5]). exists D0. split; [rewrite lookup_insert_ne; congruence|]. split; [done..|].
    intros m Hm. eapply match_rep_mono; [|by apply H5]. intros e' x _. apply Hfr. congruence.
Qed.

(** ** Adding entries *)

Definition unref (c : Z) ref : Z → option (Z * list Z) := λ h, if decide (h = c) then None else ref h.
Definition setref (c : Z) (r : Z * list Z) ref : Z → option (Z * list Z) := λ h, if decide (h = c) then Some r else ref h.

Lemma fs_ok_unref H S ref c : fs_ok F H S ref → H !! c = None → fs_ok F H S (unref c ref).
Proof.
  intros [H1 H2] Hc. split; [done|]. intros d ents Hd. destruct (H2 d ents Hd) as (D & HD & [H3 H4 H6 H5]). exists D. split; [done|].
  split; [done..|]. intros n Hn. eapply match_rep_mono; [|by apply H5]. intros e x _. unfold unref.
  destruct x as [b|d'|]; cbn; [| |done].
  - intros [Hf [?|(D0 & Hr & Hh & ?)]]; (split; [done|]); [by left|right]. exists D0. rewrite decide_False by congruence. done.
  - intros (? & ? & ? & [ents' Hs] & ?). destruct (H2 _ _ Hs) as (D' & HD' & _). rewrite decide_False by congruence. eauto.
Qed.

Lemma name_not_dot n : name_wf n → ¬ is_dot n.
Proof. intros [_ _ [_ Hn]] [-> | ->]; done. Qed.

Lemma new_entry_live n attrs first old :
  name_wf n → (n !!! 0%nat : Z) ≠ kDeletedEntry → Z.land attrs kLongNameMask ≠ aLongName → live (new_entry n attrs first old).
Proof.
  intros [_ _ [H0 _]] He Ha. unfold live, IsFree, IsFurtherEntriesFree, IsLongNameSubComponent, first_byte. cbn [filename attributes new_entry].
  rewrite !(proj2 (Z.eqb_neq _ _)) by done. done.
Qed.

Lemma find_none es n : unique es → find_live es n = None → ∀ j x, es !! j = Some x → live x → filename x ≠ n.
Proof. intros Hu Hf j x Hj Hl Hn. assert (find_live es n = Some (j, x)) by (by apply find_live_Some). congruence. Qed.

Lemma fs_ok_new H S ref d ents D zs D' i old n attrs first x ref' :
  fs_ok F H S ref → S !! d = Some ents → dir_ok F H S ref d D ents → ents !! n = None → name_wf n → (n !!! 0%nat : Z) ≠ kDeletedEntry →
  Z.land attrs kLongNameMask ≠ aLongName →
  Forall (λ e, IsFurtherEntriesFree e = true) zs → list_find open_slot (slots D ++ zs) = Some (i, old) →
  slots D' = <[i := new_entry n attrs first old]> (slots D ++ zs) →
  (∀ p m h, ref h = Some (p, m) → (p, m) ≠ (d, n) → ref' h = Some (p, m)) →
  entry_rep F (<[d := D']> H) (<[d := <[n := x]> ents]> S) ref' d n (new_entry n attrs first old) x →
  fs_ok F (<[d := D']> H) (<[d := <[n := x]> ents]> S) ref'.
Proof.
  intros Hok Hd Hdir Hn Hw He5 Ha Hz Hi Hs Hr Hx. pose proof (name_not_dot n Hw) as Hdot.
  pose proof (do_match _ _ _ _ _ _ _ Hdir n Hdot) as Hm. rewrite Hn in Hm.
  destruct (find_live (slots D) n) as [[? ?]|] eqn:Hf; [done|]. pose proof (find_none _ _ (do_unique _ _ _ _ _ _ _ Hdir) Hf) as Hnone.
  apply list_find_Some in Hi as (Hi & Ho & Hb). pose proof (new_entry_live n attrs first old Hw He5 Ha) as Hlive.
  eapply (fs_ok_slot _ _ _ _ _ _ _ _ _ _ (new_entry n attrs first old)); [done..|apply Hlive| | | | | |].
  - intros m Hmd. rewrite lookup_insert_ne by (by intros ->). by apply (do_dots _ _ _ _ _ _ _ Hdir).
  - intros j y Hj Hy. specialize (Hb j y Hy Hj). apply not_true_is_false. intros E. apply Hb. by right.
  - intros j y Hj Hly _ Hfn. by destruct (Hnone j y Hj Hly).
  - intros p m h Hrh Hpm. apply Hr; [done|]. intros [= -> ->]. naive_solver.
  - intros m Hmd Hmn. rewrite decide_False by (intros [? _]; by eapply open_not_live). apply lookup_insert_ne. intros ->. by apply Hmn.
  - intros _ _. exists x. split; [apply lookup_insert_eq|done].
Qed.

(** A new, empty directory. *)
Lemma fs_ok_mkdir H S ref c D :
  fs_ok F H S ref → H !! c = None → eod_closed (slots D) → unique (slots D) → (∀ n, ¬ is_dot n → find_live (slots D) n = None) →
  fs_ok F (<[c := D]> H) (<[c := ∅]> S) (unref c ref).
Proof.
  intros Hok Hc Hcl Hu Hn. apply (fs_ok_unref _ _ _ c) in Hok; [|done]. destruct Hok as [H1 H2].
  assert (Hsc : S !! c = None). { destruct (S !! c) eqn:E; [|done]. destruct (H2 _ _ E) as (? & ? & _). congruence. }
  split; [rewrite lookup_insert; case_decide; eauto|]. intros d ents. rewrite lookup_insert. case_decide as Hdc; [subst; intros [= <-]|intros Hd].
  - exists D. rewrite lookup_insert_eq. split; [done|]. split; [done..|]. intros n Hdot. by rewrite Hn, lookup_empty.
  - destruct (H2 d ents Hd) as (D0 & HD0 & [H3 H4 H6 H5]). exists D0. rewrite lookup_insert_ne by done. split; [done|]. split; [done..|].
    intros n Hdot. eapply match_rep_mono; [|by apply H5]. intros e x _. apply entry_rep_frame; [done|..].
    + intros h D1 Hr Hs Hh. rewrite !lookup_insert_ne by congruence. done.
    + intros h Hr [ents' Hs]. rewrite lookup_insert_ne by congruence. eauto.
Qed.

(** ** Removing and replacing entries *)

Lemma deleted_entry e : length (filename e) = 11%nat → IsFree (with_first_byte kDeletedEntry e) = true ∧
  IsFurtherEntriesFree (with_first_byte kDeletedEntry e) = false.
Proof.
  intros Hl. unfold IsFree, IsFurtherEntriesFree, first_byte. cbn [with_first_byte with_filename filename].
  rewrite list_lookup_total_insert_eq by lia. done.
Qed.

Lemma with_first_byte_wf e x : 0 ≤ x < 256 → entry_wf e → entry_wf (with_first_byte x e).
Proof. intros Hx [[? ?] ? ? ? ?]. split; cbn; [|done..]. rewrite length_insert. split; [done|]. by apply Forall_insert. Qed.

Lemma slots_set D i e : entry_wf e → (i < length D / 32)%nat →
  slots (splice (Z.of_nat i * 32) (entry_data e) D) = <[i := e]> (slots D ++ []).
Proof. intros. by rewrite app_nil_r, slots_splice. Qed.

Lemma fs_ok_delete H S ref ref' d ents D n i e (D' := splice (Z.of_nat i * 32) (entry_data (with_first_byte kDeletedEntry e)) D) :
  fs_ok F H S ref → S !! d = Some ents → dir_ok F H S ref d D ents → find_live (slots D) n = Some (i, e) → entry_wf e → ¬ is_dot n →
  (∀ p m k, ref k = Some (p, m) → (p, m) ≠ (d, n) → ref' k = Some (p, m)) →
  fs_ok F (<[d := D']> H) (<[d := delete n ents]> S) ref'.
Proof.
  intros Hok Hd Hdir Hf Hw Hn Hr. apply find_live_Some in Hf as (Hi & Hl & Hfn); [|apply Hdir].
  destruct (deleted_entry e (proj1 (ew_name _ Hw))) as [E1 E2].
  assert (Hnl : ¬ live (with_first_byte kDeletedEntry e)) by (intros [? _]; congruence).
  eapply (fs_ok_slot _ _ _ _ _ _ [] _ i e _); [done|done|done|constructor|by rewrite app_nil_r|apply slots_set| |..].
  - by apply with_first_byte_wf.
  - by apply lookup_slots_Some in Hi as [? _].
  - done.
  - intros m Hm. rewrite lookup_delete_ne by (by intros ->). by apply (do_dots _ _ _ _ _ _ _ Hdir).
  - rewrite app_nil_r. eapply used_before; [apply Hdir|done|apply Hl].
  - intros j x _ _ ?. done.
  - intros p m k Hk Hpm. apply Hr; [done|]. intros [= -> ->]. naive_solver.
  - intros m _ _. case_decide as E; [destruct E as [_ <-]; rewrite Hfn; apply lookup_delete_eq|]. apply lookup_delete_ne. intros ->. naive_solver.
  - intros ?. done.
Qed.

(** The entry of a name is replaced by one with a name that is free or the same. *)
Lemma fs_ok_set H S ref ref' d ents D n i e n' e' x' (D' := splice (Z.of_nat i * 32) (entry_data e') D)
    (ents' := <[n' := x']> (delete n ents)) :
  fs_ok F H S ref → S !! d = Some ents → dir_ok F H S ref d D ents → find_live (slots D) n = Some (i, e) →
  n' = n ∨ ents !! n' = None → ¬ is_dot n → ¬ is_dot n' → entry_wf e' → live e' → filename e' = n' →
  (∀ p m k, ref k = Some (p, m) → (p, m) ≠ (d, n) → (p, m) ≠ (d, n') → ref' k = Some (p, m)) →
  entry_rep F (<[d := D']> H) (<[d := ents']> S) ref' d n' e' x' →
  fs_ok F (<[d := D']> H) (<[d := ents']> S) ref'.
Proof.
  intros Hok Hd Hdir Hf Hfree Hn Hn' Hw' Hl' Hfn' Hr Hx. pose proof (do_unique _ _ _ _ _ _ _ Hdir) as Hu.
  pose proof (proj1 (find_live_Some _ _ _ _ Hu) Hf) as (Hi & Hl & Hfn).
  eapply (fs_ok_slot _ _ _ _ _ _ [] _ i e e'); [done|done|done|constructor|by rewrite app_nil_r|apply slots_set; [done|]|apply Hl'|..].
  - by apply lookup_slots_Some in Hi as [? _].
  - intros m Hm. unfold ents'. rewrite lookup_insert_ne, lookup_delete_ne by (by intros ->). by apply (do_dots _ _ _ _ _ _ _ Hdir).
  - rewrite app_nil_r. eapply used_before; [apply Hdir|done|apply Hl].
  - intros j y Hj Hy _ E. rewrite Hfn' in E. destruct Hfree as [->|Hfree]; [by eapply Hu; try done; congruence|].
    pose proof (do_match _ _ _ _ _ _ _ Hdir n' Hn') as Hm. rewrite Hfree in Hm.
    destruct (find_live (slots D) n') as [[? ?]|] eqn:Hf'; [done|]. by destruct (find_none _ _ Hu Hf' j y Hj Hy).
  - intros p m k Hk Hpm. apply Hr; [done|..]; intros [= -> ->]; naive_solver.
  - intros m _ Hmn. unfold ents'. rewrite lookup_insert_ne by (intros ->; by apply Hmn).
    case_decide as E; [destruct E as [_ <-]; rewrite Hfn; apply lookup_delete_eq|]. apply lookup_delete_ne. intros ->. naive_solver.
  - intros _ _. exists x'. rewrite Hfn'. split; [apply lookup_insert_eq|done].
Qed.
End changes.
