(* ===== verification/FatOps.v ===== *)
(** * The operations of the FAT driver
    Each public operation of the driver, run on a volume that holds a file system ([fs_rep]),
    returns what the specification says and leaves a volume that holds the resulting file system. *)
From S2P Require Import Prelude Bytes Path FatDisk Fat FatVolume FatChains FatDirs FatHeap FatNames FatFs.

(** The path leads through the directories [cs] to the name [c]. *)
Definition names (path : Path) (cs : list (list Z)) (c : list Z) : Prop :=
  ∃ cs0, path_is path true cs0 ∧ plain cs0 = cs ++ [c] ∧ Forall bytes cs0.

(** The same for a path that ends with the name. *)
Definition names_new (path : Path) (cs : list (list Z)) (c : list Z) : Prop :=
  ∃ cs0, path_is path true (cs0 ++ [c]) ∧ plain cs0 = cs ∧ Forall bytes (cs0 ++ [c]).

Lemma names_new_names path cs c : names_new path cs c → ¬ dots c → names path cs c.
Proof.
  intros (cs0 & Hp & Hpl & Hb) Hn. exists (cs0 ++ [c]). split_and!; [done| |done]. unfold plain in *.
  rewrite filter_app, Hpl. by rewrite filter_cons_True.
Qed.

Lemma dots_format c : dots c → FormatFilename c = None.
Proof. intros [-> | ->]; done. Qed.

(** An entry is of one kind. *)
Lemma kind_cases e :
  (IsFile e = true → IsDirectory e = false ∧ IsVolumeLabel e = false) ∧ (IsDirectory e = true → IsFile e = false ∧ IsVolumeLabel e = false) ∧
  (IsVolumeLabel e = true → IsFile e = false ∧ IsDirectory e = false).
Proof.
  unfold IsFile, IsDirectory, IsVolumeLabel. set (a := Z.land _ _).
  split_and!; intros E%Z.eqb_eq; rewrite E; done.
Qed.

Section ops.
Context `{I : FatImpl, L : !FatLaws I} (F : Fat).
Implicit Types (S : fs) (H : heap) (fr : gset Z).

(** The node that a path names, if there is one. *)
Definition node_at S (cs : list (list Z)) (c : list Z) : option node :=
  match locate F S cs c with Present _ _ x => Some x | _ => None end.

Lemma entry_size io H S ref fr d D n e x i :
  heap_rep F io H fr → H !! d = Some D → slots D !! i = Some e → entry_rep F H S ref d n e x →
  entry_wf e ∧ match x with
               | NFile b => IsFile e = true ∧ file_size e = zlen b
               | NDir d' => IsFile e = false ∧ IsDirectory e = true ∧ head e = d'
               | NLabel => IsFile e = false ∧ IsDirectory e = false ∧ IsVolumeLabel e = true
               end.
Proof.
  intros Hh HD Hi He. pose proof (slots_wf D i e (heap_bytes F _ _ _ _ _ Hh HD) Hi) as Hw. split; [done|].
  pose proof (kind_cases e) as (H1 & H2 & H3). pose proof (ew_size _ Hw).
  destruct x as [b|d'|]; cbn in He; [|naive_solver..]. destruct He as [Hf [(_ & -> & ->)|(D0 & _ & _ & _ & _ & Hle & ->)]]; [done|].
  split; [done|]. rewrite length_slice; lia.
Qed.

(** [Exists], [FileExists], [DirectoryExists] and [GetFileSize] *)
Lemma queries_are io S fr path cs c (x := node_at S cs c) :
  fs_rep F io S fr → names path cs c → locate F S cs c ≠ Unsafe →
  Exists F path io = Ok (Value (bool_decide (is_Some x)), io) ∧
  FileExists F path io = Ok (Value (if x is Some (NFile _) then true else false), io) ∧
  DirectoryExists F path io = Ok (Value (if x is Some (NDir _) then true else false), io) ∧
  GetFileSize F path io =
    Ok (match x with
        | Some (NFile b) => Value (zlen b)
        | Some _ => Unexpected kNotAFile
        | None => Unexpected kFileNotFound
        end, io).
Proof.
  intros (H & ref & Hh & Hok) (cs0 & Hp & Hpl & Hb) Hsafe. unfold x, node_at.
  pose proof (LookupPath_is F io S fr H ref Hh Hok path cs0 cs c Hp Hpl Hb) as Hl.
  assert (Hr : IsRoot path = false).
  { unfold IsRoot. change (zlen (components path)) with (ComponentCount path). rewrite (count_is _ _ _ Hp). apply andb_false_iff.
    right. apply Z.eqb_neq. destruct cs0; [by destruct cs|cbn; lia]. }
  unfold Exists, FileExists, DirectoryExists, GetFileSize, ret_if, mbind, M_bind. rewrite Hr.
  destruct (locate F S cs c) as [d n y| |]; [|destruct Hl as [o ->]; done|done].
  destruct Hl as (i & e & D & ents & Hd & Hn & HD & Hdir & Hf & He & Hdot & ->). cbn [found entry andb negb].
  apply find_live_Some in Hf as (Hi & Hl & _); [|apply Hdir].
  destruct (entry_size _ _ _ _ _ _ _ _ _ _ _ Hh HD Hi He) as [_ Hx]. pose proof (kind_cases e) as (H1 & H2 & H3).
  destruct y as [b|d'|].
  - destruct Hx as [E Es]. destruct (H1 E) as [E2 _]. by rewrite E, E2, Es.
  - destruct Hx as (E & E2 & _). by rewrite E, E2.
  - destruct Hx as (E & E2 & _). by rewrite E, E2.
Qed.

Lemma slice_slice_take off size n (D : list Z) : 0 ≤ off → off < n → n ≤ zlen D → 0 < size →
  slice off size (slice 0 n D) = slice off (Z.min size (n - off)) D.
Proof.
  intros. unfold slice. change (Z.to_nat 0) with 0%nat. rewrite drop_0.
  replace (Z.to_nat n) with (Z.to_nat off + Z.to_nat (n - off))%nat by lia.
  rewrite <- take_drop_commute, take_take. f_equal. lia.
Qed.

(** [ReadFile] *)
Lemma ReadFile_is io S fr path cs c size off :
  fs_rep F io S fr → names path cs c → locate F S cs c ≠ Unsafe → 0 < size → 0 ≤ off →
  ReadFile F path true size off io =
    Ok (match node_at S cs c with
        | Some (NFile b) => Value (slice off size b)
        | Some _ => Unexpected kNotAFile
        | None => Unexpected kFileNotFound
        end, io).
Proof.
  intros (H & ref & Hh & Hok) (cs0 & Hp & Hpl & Hb) Hsafe Hs Ho. unfold node_at.
  pose proof (LookupPath_is F io S fr H ref Hh Hok path cs0 cs c Hp Hpl Hb) as Hl.
  unfold ReadFile, ret_if. rewrite (proj2 (Z.eqb_neq _ _)) by lia. cbn [negb orb]. unfold mbind at 1, M_bind at 1.
  destruct (locate F S cs c) as [d n y| |]; [|destruct Hl as [o ->]; done|done].
  destruct Hl as (i & e & D & ents & Hd & Hn & HD & Hdir & Hf & He & Hdot & ->). cbn [found entry negb].
  apply find_live_Some in Hf as (Hi & Hl & _); [|apply Hdir].
  destruct (entry_size _ _ _ _ _ _ _ _ _ _ _ Hh HD Hi He) as [Hw Hx].
  destruct y as [b|d'|]; [|destruct Hx as (-> & _); done..]. destruct Hx as [-> Es]. cbn [negb].
  pose proof (ew_size _ Hw). destruct (Z.leb_spec (file_size e) off).
  { unfold mret, M_ret. unfold slice. by rewrite drop_ge, take_nil by lia. }
  destruct He as [_ [(_ & E0 & _)|(D0 & _ & HD0 & Hfix & _ & Hle & ->)]]; [lia|].
  enough (ReadFileData F e size off io = Ok (slice off size (slice 0 (file_size e) D0), io)) as E.
  { unfold mbind, M_bind. by rewrite E. }
  pose proof (heap_read F io H fr e D0 size off (λ r io', r = slice off size (slice 0 (file_size e) D0) ∧ io' = io)) as Hw2.
  apply (proj1 (wp_total _ _ _)) in Hw2 as (? & ? & -> & -> & ->); [done|done..|lia|done|lia|lia|].
  by rewrite slice_slice_take by lia.
Qed.

(** ** Creating *)

Definition root_data (io : InMemory) : list Z := slice (root_start F) (root_bytes F) (disk io).

(** There is no place for a new entry in directory [d] and no cluster to make one. *)
Definition no_room (io : InMemory) (fr : gset Z) (d : Z) : Prop :=
  if is_fixed d then list_find open_slot (slots (root_data io)) = None else fr = ∅.

(** What is left when an entry is added to a directory. *)
Definition add S (d : Z) (n : list Z) (x : node) : fs := alter (insert n x) d S.

Lemma add_is S d ents n x : S !! d = Some ents → add S d n x = <[d := <[n := x]> ents]> S.
Proof.
  intros Hd. apply map_eq. intros p. unfold add. destruct (decide (p = d)) as [->|].
  - by rewrite lookup_alter_eq, lookup_insert_eq, Hd.
  - by rewrite lookup_alter_ne, lookup_insert_ne.
Qed.

Lemma GetParentCluster_is io S fr H ref path cs c :
  heap_rep F io H fr → fs_ok F H S ref → names_new path cs c →
  match descend S (root F) cs with
  | At d => is_Some (S !! d) ∧ GetParentCluster F path io = Ok (Value d, io)
  | Gone => GetParentCluster F path io = Ok (Unexpected kDirectoryNotFound, io)
  | Through => True
  end.
Proof.
  intros Hh Hok (cs0 & Hp & Hpl & Hb). destruct (GetParent_is _ _ _ Hp) as (q & Hq & Hpq).
  unfold parent_of in Hpq. cbn [negb andb] in Hpq. rewrite removelast_last in Hpq.
  unfold GetParentCluster, parent_path. rewrite Hq. unfold mbind, M_bind, mret, M_ret.
  unfold IsRoot. rewrite (pi_abs _ _ _ Hpq). change (zlen (components q)) with (ComponentCount q).
  rewrite (count_is _ _ _ Hpq). destruct (fo_root _ _ _ _ Hok) as [rents Hr].
  destruct (decide (cs0 = [])) as [->|Hne].
  { cbn in Hpl. subst cs. cbn. eauto. }
  assert (Hz : zlen cs0 ≠ 0) by (destruct cs0; [done|cbn; lia]). rewrite (proj2 (Z.eqb_neq _ _)) by done. cbn [andb].
  unfold LookupPath, IsEmpty, IsRoot. rewrite (pi_abs _ _ _ Hpq). change (zlen (components q)) with (ComponentCount q).
  rewrite (count_is _ _ _ Hpq), (pi_strings _ _ _ Hpq). pose proof (pi_print _ _ _ Hpq) as Hlen. cbn in Hlen.
  rewrite !(proj2 (Z.eqb_neq _ _)) by (done || lia). cbn [andb orb]. rewrite LookupLoop_plain, Hpl.
  apply Forall_app in Hb as [Hb _].
  assert (Hbp : Forall bytes cs ∧ Forall (λ c, ¬ dots c) cs).
  { rewrite <- Hpl. split; apply Forall_forall; intros x [??]%list_elem_of_filter; [|done]. by apply (proj1 (Forall_forall _ _) Hb). }
  destruct Hbp as [Hb1 Hn1]. destruct (root_entry F io S fr H ref Hh Hok) as [He Hi].
  pose proof (LookupLoop_descend F io S fr H ref Hh Hok cs [] _ _ _ (GetRootCluster_ F) 0 Hb1 Hn1 He Hi Hr) as Hd.
  rewrite app_nil_r in Hd. unfold GetRootCluster_ in *. fold (root F) in Hd |- *.
  destruct (descend S (root F) cs) as [d| |]; [|destruct Hd as [o ->]; done|done].
  destruct Hd as (e' & par & off & <- & _ & Hs & ->). done.
Qed.

Lemma at_new io S fr H ref path cs c n :
  heap_rep F io H fr → fs_ok F H S ref → names_new path cs c → FormatFilename c = Some n → descend S (root F) cs ≠ Through →
  match descend S (root F) cs with
  | At d => ∃ ents, S !! d = Some ents ∧ GetParentCluster F path io = Ok (Value d, io) ∧
      ∃ l, LookupPath F path io = Ok (l, io) ∧ found l = bool_decide (is_Some (ents !! n))
  | _ => GetParentCluster F path io = Ok (Unexpected kDirectoryNotFound, io) ∧ ∃ l, LookupPath F path io = Ok (l, io) ∧ found l = false
  end.
Proof.
  intros Hh Hok Hp Hn Hsafe. pose proof (GetParentCluster_is io S fr H ref path cs c Hh Hok Hp) as Hpar.
  destruct (names_new_names path cs c Hp) as (cs0 & Hp0 & Hpl & Hb); [intros Hd; by rewrite dots_format in Hn|].
  pose proof (LookupPath_is F io S fr H ref Hh Hok path cs0 cs c Hp0 Hpl Hb) as Hl. unfold locate in Hl. rewrite Hn in Hl.
  destruct (descend S (root F) cs) as [d| |]; [|destruct Hl as [o ->]; eauto|done].
  destruct Hpar as [[ents Hd] Hpar]. exists ents. split_and!; [done..|]. rewrite Hd in Hl. cbn in Hl.
  destruct (ents !! n) as [x|]; [|destruct Hl as [o ->]; eauto]. destruct Hl as (i & e & D & ents' & _ & _ & _ & _ & _ & _ & _ & ->). eauto.
Qed.

(** The outcome of creating a node [x] at a path. *)
Definition create_spec S cs c (x : node) (full : Z → Prop) (r : Result unit) S' : Prop :=
  match FormatFilename c, descend S (root F) cs with
  | None, _ => r = Unexpected kInvalidName ∧ S' = S
  | Some n, At d =>
      match S !! d ≫= lookup n with
      | Some _ => r = Unexpected kAlreadyExists ∧ S' = S
      | None => (r = Value tt ∧ S' = add S d n x) ∨ (r = Unexpected kDiskFull ∧ S' = S ∧ full d)
      end
  | Some _, _ => r = Unexpected kDirectoryNotFound ∧ S' = S
  end.

Lemma heap_root io H fr d D : heap_rep F io H fr → is_fixed d = true → H !! d = Some D → D = root_data io.
Proof.
  intros (v & st & HR & Hh) Hf. rewrite (ha_obj _ _ _ _ Hh), Hf. intros [= <-]. apply (rep_root _ _ _ HR).
Qed.

Lemma new_path_facts path cs c : names_new path cs c →
  (IsEmpty path || negb (HasComponents path)) = false ∧ GetFilename path = c ∧ bytes c.
Proof.
  intros (cs0 & Hp & _ & Hb). unfold IsEmpty, HasComponents, GetFilename. rewrite (count_is _ _ _ Hp), (pi_strings _ _ _ Hp), last_snoc.
  pose proof (pi_print _ _ _ Hp) as Hl. cbn in Hl. rewrite (proj2 (Z.eqb_neq _ _)) by lia.
  rewrite (proj2 (Z.ltb_lt _ _)) by (rewrite length_app; cbn; lia). by apply Forall_app in Hb as [_ [? _]%Forall_cons].
Qed.

(** A new entry in a directory of the file system. *)
Lemma wp_fs_CreateEntry io H S ref fr d ents D n attrs first x ref' (Q : Result unit → InMemory → Prop) :
  heap_rep F io H fr → fs_ok F H S ref → S !! d = Some ents → H !! d = Some D → dir_ok F H S ref d D ents → ents !! n = None →
  name_wf n → (n !!! 0%nat : Z) ≠ kDeletedEntry → 0 ≤ attrs < 256 → Z.land attrs kLongNameMask ≠ aLongName →
  (∀ p m h, ref h = Some (p, m) → (p, m) ≠ (d, n) → ref' h = Some (p, m)) →
  (∀ D' old, entry_rep F (<[d := D']> H) (add S d n x) ref' d n (new_entry n attrs first old) x) →
  (no_room io fr d → Q (Unexpected kDiskFull) io) →
  (∀ io' fr', fs_rep F io' (add S d n x) fr' → fr' ⊆ fr → Q (Value tt) io') →
  wp never (CreateEntry F d n attrs first) Q io.
Proof.
  intros Hh Hok Hd HD Hdir Hn Hw He5 Hab Ha Hr Hx HQ1 HQ2. rewrite (add_is S d ents) in * by done.
  eapply heap_create; [done..|apply Hdir|apply Hw|apply Hw|done| |].
  - intros Hfull Hor. apply HQ1. unfold no_room. destruct (is_fixed d) eqn:E; [|naive_solver].
    by rewrite <- (heap_root io H fr d D).
  - intros io' fr' D' i old zs Hh' Hfr Hz Hi Hs. apply (HQ2 io' fr'); [|done]. exists (<[d := D']> H), ref'. split; [done|].
    by eapply (fs_ok_new F).
Qed.

(** [CreateFile] *)
Lemma CreateFile_is io S fr path cs c :
  fs_rep F io S fr → names_new path cs c → descend S (root F) cs ≠ Through →
  (∀ n, FormatFilename c = Some n → (n !!! 0%nat : Z) ≠ kDeletedEntry) →
  ∃ r io' S' fr', CreateFile F path io = Ok (r, io') ∧ fs_rep F io' S' fr' ∧ fr' ⊆ fr ∧
    create_spec S cs c (NFile []) (no_room io fr) r S'.
Proof.
  intros (H & ref & Hh & Hok) Hp Hsafe He5. destruct (new_path_facts path cs c Hp) as (E1 & E2 & Hb).
  enough (Hwp : wp never (CreateFile F path) (λ r io', ∃ S' fr', fs_rep F io' S' fr' ∧ fr' ⊆ fr ∧
    create_spec S cs c (NFile []) (no_room io fr) r S') io).
  { apply wp_total in Hwp as (r & io' & E & S' & fr' & ?). by exists r, io', S', fr'. }
  unfold CreateFile, ret_if, create_spec. rewrite E1, E2.
  destruct (FormatFilename c) as [n|] eqn:En; [|wp_step; exists S, fr; split_and!; [by exists H, ref|done..]].
  pose proof (at_new io S fr H ref path cs c n Hh Hok Hp En Hsafe) as Hat.
  destruct (descend S (root F) cs) as [d| |]; [|destruct Hat as (Hpar & l & Hl & Hf)|done].
  - destruct Hat as (ents & Hd & Hpar & l & Hl & Hf). rewrite Hd. cbn [mbind option_bind].
    wp_step. unfold wp at 1. rewrite Hl, Hf. destruct (ents !! n) as [x|] eqn:Ex.
    { cbn. exists S, fr. split_and!; [by exists H, ref|done..]. }
    cbn. wp_step. unfold wp at 1. rewrite Hpar. destruct (fo_dir _ _ _ _ Hok d ents Hd) as (D & HD & Hdir).
    eapply (wp_fs_CreateEntry io H S ref fr d ents D n aArchive 0 (NFile []) ref); [done..|by eapply FormatFilename_wf|by apply He5|done|done|done| | |].
    + intros D' old. split; [done|left]. done.
    + intros Hno. exists S, fr. split_and!; [by exists H, ref|done|]. by right.
    + intros io' fr' Hrep Hfr. exists (add S d n (NFile [])), fr'. split_and!; [done..|]. by left.
  - wp_step. unfold wp at 1. rewrite Hl, Hf. cbn. wp_step. unfold wp at 1. rewrite Hpar. cbn.
    exists S, fr. split_and!; [by exists H, ref|done..].
Qed.

(** The data of a new directory: the two dot entries and end marks. *)
Section new_directory.
Context (v : vol) (Hv : vok F v) (c p : Z).

Abbreviation dot x nm := (mkEntry nm aDirectory 0 0 0 0 0 (Z.land (Z.shiftr x 16) 0xFFFF) 0 0 (Z.land x 0xFFFF) 0).

Lemma dot_wf x nm : length nm = 11%nat → bytes nm → entry_wf (dot x nm).
Proof. intros Hl Hb. apply (new_entry_wf nm aDirectory x zero_entry); [done..|]. split; cbn; try lia. split; [done|by apply (bytes_replicate 11)]. Qed.

Lemma dot_facts : entry_wf (dot c kDot) ∧ entry_wf (dot p kDotDot) ∧ length (entry_data (dot c kDot)) = 32%nat ∧
  length (entry_data (dot p kDotDot)) = 32%nat.
Proof. split_and!; [apply dot_wf..|done|done]; by (apply (bool_decide_unpack _)) || by apply Forall_forall; set_unfold; lia. Qed.

Lemma dir_data_length : zlen (dir_data F c p) = csize F ∧ bytes (dir_data F c p).
Proof.
  destruct dot_facts as (H1 & H2 & H3 & H4). destruct (csize_32 F v Hv) as [_ Hcs]. unfold dir_data, GetClusterSize. fold (csize F).
  unfold sizeof_DirectoryEntry. split.
  - rewrite !length_splice; rewrite ?length_splice, ?length_replicate; rewrite ?length_replicate; lia.
  - apply bytes_splice; [by apply entry_data_bytes|]. apply bytes_splice; [by apply entry_data_bytes|by apply bytes_replicate].
Qed.

Lemma dir_data_slots : (2 ≤ length (slots (zeros F)))%nat ∧ slots (dir_data F c p) = <[1%nat := dot p kDotDot]> (<[0%nat := dot c kDot]> (slots (zeros F))).
Proof.
  destruct dot_facts as (H1 & H2 & H3 & H4). destruct (csize_32 F v Hv) as [_ Hcs].
  assert (Hz : (2 ≤ length (zeros F) / 32)%nat).
  { unfold zeros. rewrite length_replicate. apply Nat.div_le_lower_bound; lia. }
  split; [by rewrite slots_length|]. unfold dir_data, GetClusterSize, sizeof_DirectoryEntry. fold (csize F). fold (zeros F).
  assert (Hl0 : length (splice 0 (entry_data (dot c kDot)) (zeros F)) = length (zeros F)).
  { apply length_splice; [lia|]. unfold zeros. rewrite length_replicate. lia. }
  rewrite (slots_splice _ 1) by (rewrite ?Hl0; done || lia). by rewrite (slots_splice _ 0) by (done || lia).
Qed.

Lemma dir_data_empty : eod_closed (slots (dir_data F c p)) ∧ unique (slots (dir_data F c p)) ∧
  ∀ n, ¬ is_dot n → find_live (slots (dir_data F c p)) n = None.
Proof.
  destruct dir_data_slots as [Hlen ->]. set (zs := slots (zeros F)) in *.
  assert (Hz : ∀ j x, zs !! j = Some x → IsFurtherEntriesFree x = true) by (intros j x; apply zero_slots).
  assert (Hzl : ∀ j x, zs !! j = Some x → ¬ live x) by (intros j x Hj%Hz (_ & ? & _); congruence).
  destruct (lookup_lt_is_Some_2 zs 0 ltac:(lia)) as [z0 H0]. destruct (lookup_lt_is_Some_2 zs 1 ltac:(lia)) as [z1 H1].
  set (es := <[0%nat := dot c kDot]> zs).
  assert (Hes : ∀ j x, es !! j = Some x ↔ (j = 0%nat ∧ x = dot c kDot) ∨ (j ≠ 0%nat ∧ zs !! j = Some x)) by (by apply (lookup_replaced zs 0 z0)).
  assert (H1' : es !! 1%nat = Some z1) by (apply Hes; right; done).
  assert (Hu0 : unique zs) by (intros i j x y Hi _ Hx; by destruct (Hzl i x Hi)).
  assert (Hue : unique es) by (eapply (unique_replace zs 0 z0); [done..|]; intros j x Hj Hx; by destruct (Hzl j x Hj)).
  assert (Hu : unique (<[1%nat := dot p kDotDot]> es)).
  { eapply (unique_replace es 1 z1); [done..|]. intros j x [[-> ->]|[_ Hj]]%Hes Hx; [done|by destruct (Hzl j x Hj)]. }
  split_and!; [|done|].
  - eapply (eod_replace es 1 z1); [done| |done|].
    + eapply (eod_replace zs 0 z0); [done|apply zero_slots_closed|done|lia].
    + intros j x Hj [[-> ->]|[? _]]%Hes; [done|lia].
  - intros n Hn. rewrite (find_replace es 1 z1) by done. rewrite decide_False by (intros [_ <-]; apply Hn; by right).
    rewrite decide_False by (intros [? _]; by destruct (Hzl 1%nat z1)). unfold es. rewrite (find_replace zs 0 z0) by done.
    rewrite decide_False by (intros [_ <-]; apply Hn; by left). rewrite decide_False by (intros [? _]; by destruct (Hzl 0%nat z0)).
    apply list_find_None, Forall_lookup. intros j x Hj [? _]. by destruct (Hzl j x).
Qed.
End new_directory.

Lemma new_entry_head n attrs c old : 0 ≤ c ≤ kClusterMask → head (new_entry n attrs c old) = c.
Proof.
  intros Hc. destruct (clus_small c Hc) as [E H32]. unfold head, GetFirstCluster. cbn [new_entry first_cluster_high first_cluster_low].
  by rewrite cluster_halves.
Qed.

Lemma wp_new_directory io io1 H S ref fr d ents D n d' D1 (Q : Result unit → InMemory → Prop) :
  heap_rep F io H fr → fs_ok F H S ref → S !! d = Some ents → H !! d = Some D → dir_ok F H S ref d D ents → ents !! n = None →
  2 ≤ d' < kEOC → is_fixed d' = false → H !! d' = None → zlen D1 = csize F → heap_rep F io1 (<[d' := D1]> H) (fr ∖ {[d']}) →
  name_wf n → (n !!! 0%nat : Z) ≠ kDeletedEntry →
  (∀ io' fr', fs_rep F io' S fr' → fr' ⊆ fr → no_room io (fr ∖ {[d']}) d → Q (Unexpected kDiskFull) io') →
  (∀ io' fr', fs_rep F io' (<[d' := ∅]> (add S d n (NDir d'))) fr' → fr' ⊆ fr → S !! d' = None → Q (Value tt) io') →
  wp never (InitializeNewDirectory F d' d;; CreateEntry F d n aDirectory d') Q io1.
Proof.
  intros Hh Hok Hd HD Hdir Hn Hd' Hfix Hnone Hlen Hh1 Hw He5 HQ1 HQ2. wp_step.
  assert (Hv : ∃ v, vok F v) by (destruct Hh as (v & st & HR & _); exists v; by eapply Rep_vok). destruct Hv as [v Hv].
  destruct (csize_32 F v Hv) as [_ Hcs]. destruct (dir_data_length v Hv d' d) as [Hdl Hdb]. destruct (dir_data_empty v Hv d' d) as (Hc & Hu & Hf).
  unfold InitializeNewDirectory, GetClusterSize. fold (csize F). rewrite (proj2 (Z.leb_le _ _)) by lia.
  eapply (heap_write_cluster F io1); [exact Hh1|apply lookup_insert_eq|done..|]. intros io2 Hh2. rewrite insert_insert_eq in Hh2.
  pose proof (fs_ok_mkdir F H S ref d' _ Hok Hnone Hc Hu Hf) as Hok2. pose proof (fs_ok_alloc F H S ref d' (dir_data F d' d) Hok Hnone) as Hok3.
  assert (Hne : d ≠ d') by congruence.
  assert (HSn : S !! d' = None). { destruct (S !! d') eqn:E; [|done]. destruct (fo_dir _ _ _ _ Hok _ _ E) as (? & ? & _). congruence. }
  assert (Hd2 : <[d' := ∅]> S !! d = Some ents) by (by rewrite lookup_insert_ne). destruct (fo_dir _ _ _ _ Hok2 d ents Hd2) as (D2 & HD2 & Hdir2).
  pose proof HD2 as HD2'. rewrite lookup_insert_ne, HD in HD2' by done. injection HD2' as <-.
  eapply (wp_fs_CreateEntry io2 _ (<[d' := ∅]> S) _ _ d ents D n aDirectory d' (NDir d') (setref d' (d, n) (unref d' ref)));
    [exact Hh2|exact Hok2|done..| | | |].
  - intros p m h. unfold setref, unref. case_decide; done.
  - intros D' old. pose proof (new_entry_head n aDirectory d' old) as Hhead. pose proof mask_small. split_and!; [done|apply Hhead; lia| | |].
    + destruct (fo_root _ _ _ _ Hok) as [x Hx]. congruence.
    + rewrite (add_is _ d ents) by done. rewrite lookup_insert_ne, lookup_insert_eq by done. eauto.
    + unfold setref. by rewrite decide_True.
  - intros Hno. eapply HQ1; [exists (<[d' := dir_data F d' d]> H), ref; split; [exact Hh2|done]|set_solver|].
    unfold no_room in *. destruct (is_fixed d) eqn:E; [|done]. rewrite <- (heap_root io H fr d D) by done.
    by rewrite (heap_root io2 _ _ d D Hh2 E HD2).
  - intros io' fr' Hrep Hfr. apply (HQ2 io' fr'); [|set_solver|done]. unfold add in *. by rewrite <- alter_insert_ne.
Qed.

(** [CreateDirectory] *)
Lemma CreateDirectory_is io S fr path cs c :
  fs_rep F io S fr → names_new path cs c → descend S (root F) cs ≠ Through →
  (∀ n, FormatFilename c = Some n → (n !!! 0%nat : Z) ≠ kDeletedEntry) →
  ∃ r io' S' fr' d', CreateDirectory F path io = Ok (r, io') ∧ fs_rep F io' (if r is Value _ then <[d' := ∅]> S' else S') fr' ∧ fr' ⊆ fr ∧
    create_spec S cs c (NDir d') (λ d, fr = ∅ ∨ no_room io (fr ∖ {[d']}) d) r S' ∧
    (r = Value tt → d' ∈ fr ∧ S !! d' = None).
Proof.
  intros (H & ref & Hh & Hok) Hp Hsafe He5. destruct (new_path_facts path cs c Hp) as (E1 & E2 & Hb).
  enough (Hwp : wp never (CreateDirectory F path) (λ r io', ∃ S' fr' d', fs_rep F io' (if r is Value _ then <[d' := ∅]> S' else S') fr' ∧ fr' ⊆ fr ∧
    create_spec S cs c (NDir d') (λ d, fr = ∅ ∨ no_room io (fr ∖ {[d']}) d) r S' ∧ (r = Value tt → d' ∈ fr ∧ S !! d' = None)) io).
  { apply wp_total in Hwp as (r & io' & E & S' & fr' & d' & ?). by exists r, io', S', fr', d'. }
  unfold CreateDirectory, ret_if, create_spec. rewrite E1, E2.
  destruct (FormatFilename c) as [n|] eqn:En; [|wp_step; exists S, fr, 0; split_and!; [by exists H, ref|done..]].
  pose proof (at_new io S fr H ref path cs c n Hh Hok Hp En Hsafe) as Hat.
  destruct (descend S (root F) cs) as [d| |]; [|destruct Hat as (Hpar & l & Hl & Hf)|done]; cycle 1.
  { wp_step. unfold wp at 1. rewrite Hl, Hf. cbn. wp_step. unfold wp at 1. rewrite Hpar. cbn.
    exists S, fr, 0. split_and!; [by exists H, ref|done..]. }
  destruct Hat as (ents & Hd & Hpar & l & Hl & Hf). rewrite Hd. cbn [mbind option_bind].
  wp_step. unfold wp at 1. rewrite Hl, Hf. destruct (ents !! n) as [x|] eqn:Ex.
  { cbn. exists S, fr, 0. split_and!; [by exists H, ref|done..]. }
  cbn. wp_step. unfold wp at 1. rewrite Hpar. destruct (fo_dir _ _ _ _ Hok d ents Hd) as (D & HD & Hdir).
  unfold CreateDirectoryWithCluster. wp_step. eapply heap_alloc; [done| |].
  { intros Hfr. rewrite Z.eqb_refl. cbn. exists S, fr, 0. split_and!; [by exists H, ref|done| |done]. right. split_and!; auto. }
  intros io1 d' D1 Hd' Hfix Hnone Hin Hlen1 Hh1. rewrite (proj2 (Z.eqb_neq _ _)) by lia.
  apply (wp_new_directory io io1 H S ref fr d ents D n d' D1); [done..|by eapply FormatFilename_wf|by apply He5| |].
  - intros io2 fr2 Hrep Hfr Hno. exists S, fr2, d'. split_and!; [done|set_solver| |done]. right. auto.
  - intros io2 fr2 Hrep Hfr HS. exists (add S d n (NDir d')), fr2, d'. split_and!; [done|set_solver| |done]. by left.
Qed.

(** ** Deleting *)

Definition remove S (d : Z) (n : list Z) : fs := alter (delete n) d S.

Lemma remove_is S d ents n : S !! d = Some ents → remove S d n = <[d := delete n ents]> S.
Proof.
  intros Hd. apply map_eq. intros p. unfold remove. destruct (decide (p = d)) as [->|].
  - by rewrite lookup_alter_eq, lookup_insert_eq, Hd.
  - by rewrite lookup_alter_ne, lookup_insert_ne.
Qed.

(** An object whose entry is deleted and whose clusters are freed. *)
Lemma wp_fs_DeleteEntry io H S ref fr d ents D n i e h D0 (Q : Result unit → InMemory → Prop) :
  heap_rep F io H fr → fs_ok F H S ref → S !! d = Some ents → H !! d = Some D → dir_ok F H S ref d D ents →
  find_live (slots D) n = Some (i, e) → entry_wf e → ¬ is_dot n → head e = h → H !! h = Some D0 → is_fixed h = false →
  ref h = Some (d, n) → h ≠ d → h ≠ root F →
  (∀ io' fr', fs_rep F io' (delete h (remove S d n)) fr' → fr ⊆ fr' →
     zlen D0 = (Z.of_nat (size fr') - Z.of_nat (size fr)) * csize F → Q (Value tt) io') →
  wp never (DeleteEntry F (mkLookup e d (Z.of_nat i * 32) true)) Q io.
Proof.
  intros Hh Hok Hd HD Hdir Hf Hw Hn Hhead HD0 Hfix Href Hhd Hhr HQ. unfold DeleteEntry. cbn [entry parent_cluster entry_offset].
  pose proof (proj1 (find_live_Some _ _ _ _ (do_unique _ _ _ _ _ _ _ Hdir)) Hf) as (Hi & _ & _). apply lookup_slots_Some in Hi as [Hlt _].
  wp_step. eapply (heap_free F io H fr _ h D0); [done..|]. intros io1 fr1 Hh1 Hsub Hsize. wp_step.
  eapply (heap_update F io1 _ fr1 d D i); [exact Hh1|by rewrite lookup_delete_ne|done|by apply with_first_byte_wf|]. intros io2 Hh2. wp_step.
  apply (HQ io2 fr1); [|done..]. rewrite (remove_is S d ents) by done. eexists _, (unref h ref). split; [exact Hh2|].
  rewrite <- delete_insert_ne by done. apply fs_ok_drop; [|by unfold unref; rewrite decide_True|done].
  apply (fs_ok_delete F H S ref); [done..|]. intros p m k Hk Hpm. unfold unref. rewrite decide_False; [done|]. congruence.
Qed.

Lemma FreeClusterChain_none c io : clus c = 0 → FreeClusterChain F c io = Ok (tt, io).
Proof. intros E. unfold FreeClusterChain. rewrite E, Nat.add_comm. done. Qed.

Lemma wp_fs_DeleteEntry_empty io H S ref fr d ents D n i e (Q : Result unit → InMemory → Prop) :
  heap_rep F io H fr → fs_ok F H S ref → S !! d = Some ents → H !! d = Some D → dir_ok F H S ref d D ents →
  find_live (slots D) n = Some (i, e) → entry_wf e → ¬ is_dot n → head e = 0 →
  (∀ io', fs_rep F io' (remove S d n) fr → Q (Value tt) io') →
  wp never (DeleteEntry F (mkLookup e d (Z.of_nat i * 32) true)) Q io.
Proof.
  intros Hh Hok Hd HD Hdir Hf Hw Hn Hhead HQ. unfold DeleteEntry. cbn [entry parent_cluster entry_offset].
  pose proof (proj1 (find_live_Some _ _ _ _ (do_unique _ _ _ _ _ _ _ Hdir)) Hf) as (Hi & _ & _). apply lookup_slots_Some in Hi as [Hlt _].
  wp_step. unfold wp at 1. rewrite FreeClusterChain_none by done. wp_step.
  eapply (heap_update F io H fr d D i); [done..|by apply with_first_byte_wf|]. intros io2 Hh2. wp_step.
  apply HQ. rewrite (remove_is S d ents) by done. eexists _, ref. split; [exact Hh2|]. by apply (fs_ok_delete F H S ref).
Qed.

(** [DeleteFile] *)
Lemma DeleteFile_is io S fr path cs c :
  fs_rep F io S fr → names path cs c →
  match locate F S cs c with
  | Present d n (NFile b) => ∃ io' fr', DeleteFile F path io = Ok (Value tt, io') ∧ fs_rep F io' (remove S d n) fr' ∧
      fr ⊆ fr' ∧ zlen b ≤ (Z.of_nat (size fr') - Z.of_nat (size fr)) * csize F
  | Present _ _ _ => DeleteFile F path io = Ok (Unexpected kNotAFile, io)
  | Absent => DeleteFile F path io = Ok (Unexpected kFileNotFound, io)
  | Unsafe => True
  end.
Proof.
  intros (H & ref & Hh & Hok) (cs0 & Hp & Hpl & Hb). pose proof (LookupPath_is F io S fr H ref Hh Hok path cs0 cs c Hp Hpl Hb) as Hl.
  unfold DeleteFile, ret_if, mbind, M_bind. destruct (locate F S cs c) as [d n y| |]; [|destruct Hl as [o ->]; done|done].
  destruct Hl as (i & e & D & ents & Hd & Hn & HD & Hdir & Hf & He & Hdot & ->). cbn [found entry negb].
  pose proof (proj1 (find_live_Some _ _ _ _ (do_unique _ _ _ _ _ _ _ Hdir)) Hf) as (Hi & Hl & _).
  destruct (entry_size _ _ _ _ _ _ _ _ _ _ _ Hh HD Hi He) as [Hw Hx].
  destruct y as [b|d'|]; [|destruct Hx as (-> & _); done..]. destruct Hx as [-> Hsz]. cbn [negb].
  destruct He as [_ [(E0 & _ & ->)|(D0 & Hr & HD0 & Hfix & Hs & Hle & Hbb)]].
  - pose proof (wp_fs_DeleteEntry_empty io H S ref fr d ents D n i e (λ r io', r = Value tt ∧ fs_rep F io' (remove S d n) fr)) as Hwp.
    apply (proj1 (wp_total _ _ _)) in Hwp as (r & io' & E & -> & Hrep); try done. exists io', fr. rewrite E. split_and!; [done..|cbn; lia].
  - pose proof (wp_fs_DeleteEntry io H S ref fr d ents D n i e (head e) D0 (λ r io', ∃ fr', r = Value tt ∧ fs_rep F io' (remove S d n) fr' ∧
      fr ⊆ fr' ∧ zlen D0 = (Z.of_nat (size fr') - Z.of_nat (size fr)) * csize F)) as Hwp.
    apply (proj1 (wp_total _ _ _)) in Hwp as (r & io' & E & fr' & -> & Hrep & Hsub & Hsize); try done.
    + exists io', fr'. rewrite E. split_and!; [done..|lia].
    + congruence.
    + destruct (fo_root _ _ _ _ Hok) as [x Hx]. congruence.
    + intros io' fr' Hrep Hsub Hsize. exists fr'. split_and!; [done| |done..]. rewrite delete_id in Hrep; [done|].
      rewrite (remove_is S d ents), lookup_insert_ne by congruence. done.
Qed.

(** ** Removing directories *)

(** Nothing but volume labels: what [IsDirectoryEmpty_] calls empty. *)
Definition empty_dir (ents : dir) : Prop := map_Forall (λ _ x, x = NLabel) ents.

#[export] Instance node_eq_dec : EqDecision node.
Proof. solve_decision. Defined.

Lemma scan_occupies es off (a : bool) :
  eod_closed es →
  (scan_list es off (λ a e _, (occupies a e, true)) a).1.1 =
    a && bool_decide (Forall (λ e, live e → IsVolumeLabel e = true ∨ is_dot (filename e)) es).
Proof.
  revert off a. induction es as [|e es IH]; intros off a Hc; [by rewrite andb_true_r|].
  pose proof (eod_closed_app_r [e] es Hc) as Hc'. cbn [scan_list].
  assert (Hskip : (live e → IsVolumeLabel e = true ∨ is_dot (filename e)) →
    bool_decide (Forall (λ e, live e → IsVolumeLabel e = true ∨ is_dot (filename e)) (e :: es)) =
    bool_decide (Forall (λ e, live e → IsVolumeLabel e = true ∨ is_dot (filename e)) es)).
  { intros He. apply bool_decide_ext. rewrite Forall_cons. tauto. }
  destruct (IsFree e) eqn:E1; [rewrite Hskip, IH by (done || intros [? _]; congruence); done|].
  destruct (IsFurtherEntriesFree e) eqn:E2.
  { rewrite bool_decide_eq_true_2, andb_true_r; [done|]. apply Forall_lookup. intros j x Hj (_ & Hx & _).
    by rewrite (Hc 0%nat j e x) in Hx by (done || lia). }
  rewrite IH by done. unfold occupies. rewrite E1. cbn [negb andb].
  destruct (IsLongNameSubComponent e) eqn:E3; cbn [negb andb]; [rewrite Hskip by (intros (_ & _ & ?); congruence); done|].
  destruct (IsVolumeLabel e) eqn:E4; cbn [negb andb]; [rewrite Hskip by auto; done|].
  destruct (bool_decide (filename e = kDot)) eqn:E5; cbn [negb andb].
  { apply bool_decide_eq_true in E5. rewrite Hskip by (intros _; right; by left). done. }
  destruct (bool_decide (filename e = kDotDot)) eqn:E6; cbn [negb andb].
  { apply bool_decide_eq_true in E6. rewrite Hskip by (intros _; right; by right). done. }
  rewrite bool_decide_eq_false_2, andb_false_r; [done|]. intros [He _]%Forall_cons.
  apply bool_decide_eq_false in E5, E6. destruct He as [?|[?|?]]; [done|congruence|done..].
Qed.

Lemma empty_dir_iff H S ref d D ents :
  dir_ok F H S ref d D ents →
  Forall (λ e, live e → IsVolumeLabel e = true ∨ is_dot (filename e)) (slots D) ↔ empty_dir ents.
Proof.
  intros [Hc Hu Hdots Hm]. rewrite Forall_lookup. split.
  - intros Hf n x Hx. destruct (decide (is_dot n)) as [Hn|Hn]; [by rewrite Hdots in Hx|].
    specialize (Hm n Hn). rewrite Hx in Hm. destruct (find_live (slots D) n) as [[i e]|] eqn:Ef; [|done]. cbn in Hm.
    apply find_live_Some in Ef as (Hi & Hl & Hfn); [|done]. destruct (Hf i e Hi Hl) as [Hlab|?]; [|congruence].
    pose proof (kind_cases e) as (K1 & K2 & K3). destruct (K3 Hlab) as [K4 K5]. destruct x as [b|d'|]; [|..|done]; cbn in Hm; naive_solver congruence.
  - intros Hemp i e Hi Hl. destruct (decide (is_dot (filename e))) as [|Hn]; [by right|left]. specialize (Hm _ Hn).
    assert (Ef : find_live (slots D) (filename e) = Some (i, e)) by (by apply find_live_Some). rewrite Ef in Hm.
    destruct (ents !! filename e) as [x|] eqn:Ex; [|done]. apply Hemp in Ex as ->. done.
Qed.

Lemma IsDirectoryEmpty_is io H S ref fr e d D ents :
  heap_rep F io H fr → H !! d = Some D → dir_ok F H S ref d D ents → head e = d →
  IsDirectoryEmpty F e io = Ok (bool_decide (empty_dir ents), io).
Proof.
  intros Hh HD Hdir He. unfold IsDirectoryEmpty, ScanDirectoryTable.
  rewrite (heap_scan F io H fr e d D) by done. rewrite scan_occupies by apply Hdir. cbn [andb]. do 2 f_equal.
  apply bool_decide_ext. by eapply empty_dir_iff.
Qed.

(** [RemoveDirectory] *)
Lemma RemoveDirectory_is io S fr path cs c :
  fs_rep F io S fr → names path cs c →
  match locate F S cs c with
  | Present d n (NDir d') =>
      if bool_decide (empty_dir (default ∅ (S !! d')))
      then ∃ io' fr', RemoveDirectory F path io = Ok (Value tt, io') ∧ fs_rep F io' (delete d' (remove S d n)) fr' ∧ fr ⊆ fr' ∧ fr ≠ fr'
      else RemoveDirectory F path io = Ok (Unexpected kNotEmpty, io)
  | Present _ _ _ => RemoveDirectory F path io = Ok (Unexpected kNotADirectory, io)
  | Absent => RemoveDirectory F path io = Ok (Unexpected kDirectoryNotFound, io)
  | Unsafe => True
  end.
Proof.
  intros (H & ref & Hh & Hok) (cs0 & Hp & Hpl & Hb). pose proof (LookupPath_is F io S fr H ref Hh Hok path cs0 cs c Hp Hpl Hb) as Hl.
  unfold RemoveDirectory, ret_if, mbind, M_bind. destruct (locate F S cs c) as [d n y| |]; [|destruct Hl as [o ->]; done|done].
  destruct Hl as (i & e & D & ents & Hd & Hn & HD & Hdir & Hf & He & Hdot & ->). cbn [found entry negb].
  pose proof (proj1 (find_live_Some _ _ _ _ (do_unique _ _ _ _ _ _ _ Hdir)) Hf) as (Hi & Hl & _).
  destruct (entry_size _ _ _ _ _ _ _ _ _ _ _ Hh HD Hi He) as [Hw Hx]. pose proof (kind_cases e) as (K1 & K2 & K3).
  destruct y as [b|d'|]; [destruct Hx as [Hx _], (K1 Hx) as [-> _]; done| |destruct Hx as (_ & -> & _); done].
  destruct Hx as (_ & -> & Hhead). pose proof (node_not_fixed F _ _ _ _ _ _ _ He) as Hfix.
  destruct He as (_ & _ & Hnr & [ents' Hs] & Hr). destruct (fo_dir _ _ _ _ Hok d' ents' Hs) as (D0 & HD0 & Hdir0). cbn [negb].
  rewrite (IsDirectoryEmpty_is io H S ref fr e d' D0 ents') by done. rewrite Hs. change (default ∅ (Some ents')) with ents'. case_bool_decide as Hemp; [|done]. cbn [negb].
  assert (Hne : d' ≠ d). { intros ->. assert (ents' = ents) as -> by congruence. by pose proof (Hemp n _ Hn). }
  pose proof (wp_fs_DeleteEntry io H S ref fr d ents D n i e d' D0 (λ r io', ∃ fr', r = Value tt ∧ fs_rep F io' (delete d' (remove S d n)) fr' ∧
    fr ⊆ fr' ∧ zlen D0 = (Z.of_nat (size fr') - Z.of_nat (size fr)) * csize F)) as Hwp.
  apply (proj1 (wp_total _ _ _)) in Hwp as (r & io' & E & fr' & -> & Hrep & Hsub & Hsize); try done.
  - exists io', fr'. rewrite E. split_and!; [done..|]. intros ->. pose proof (heap_nonempty F io H fr' d' D0 Hh HD0 Hfix). lia.
  - intros io' fr' Hrep Hsub Hsize. by exists fr'.
Qed.
End ops.
