(* ===== verification/FatWrite.v ===== *)
(** * Writing and moving files *)
From S2P Require Import Prelude Bytes Path FatDisk Fat FatVolume FatChains FatDirs FatHeap FatNames FatFs FatOps.

(** [b'] is [b] with [x] written at [off]: it is as long as needed, and what is not written over is
    as before.  The bytes between the old end and [off] are not determined. *)
Definition written (b : list Z) (off : Z) (x b' : list Z) : Prop :=
  zlen b' = Z.max (zlen b) (off + zlen x) ∧ slice off (zlen x) b' = x ∧
  ∀ i, (i < length b)%nat → Z.of_nat i < off ∨ off + zlen x ≤ Z.of_nat i → b' !! i = b !! i.

Lemma written_splice n off x (D X : list Z) :
  0 ≤ n ≤ zlen D → 0 ≤ off → off + zlen x ≤ zlen (D ++ X) →
  written (slice 0 n D) off x (slice 0 (Z.max n (off + zlen x)) (splice off x (D ++ X))).
Proof.
  intros Hn Ho Hx. assert (Hl : zlen (slice 0 n D) = n) by (apply length_slice; lia).
  assert (Hs : length (splice off x (D ++ X)) = length (D ++ X)) by (by apply length_splice).
  assert (HDX : zlen (D ++ X) = zlen D + zlen X) by (rewrite length_app; lia).
  unfold written. rewrite Hl. split_and!.
  - apply length_slice; lia.
  - rewrite slice_slice by lia. by apply slice_splice.
  - intros i Hi Hout. rewrite !lookup_slice by lia. cbn. rewrite lookup_splice, decide_False by lia. by rewrite lookup_app_l by lia.
Qed.

Lemma slice_app_prefix n (D X : list Z) : 0 ≤ n ≤ zlen D → slice 0 n (D ++ X) = slice 0 n D.
Proof. intros. apply slice_app_l; lia. Qed.

Section write.
Context `{I : FatImpl, L : !FatLaws I} (F : Fat).
Implicit Types (S : fs) (H : heap) (fr : gset Z).

Lemma with_size_wf e x : 0 ≤ x < 2 ^ 32 → entry_wf e → entry_wf (with_size x e).
Proof. intros Hx [? ? ? ? ?]. by split. Qed.

Lemma SetEntryFirstCluster_ok c e : entry_wf e → 0 ≤ c ≤ kClusterMask →
  entry_wf (SetEntryFirstCluster c e) ∧ head (SetEntryFirstCluster c e) = c.
Proof.
  intros [? ? ? ? ?] Hc. split.
  - assert (Hm : ∀ z, 0 ≤ Z.land z 0xFFFF < 65536).
    { intros z. change 0xFFFF with (Z.ones 16). rewrite Z.land_ones by lia. apply Z.mod_pos_bound. lia. }
    split; cbn; [done..|split; apply Hm|done].
  - by apply (new_entry_head [] 0 c zero_entry).
Qed.

(** A file that has clusters is written. *)
Lemma wp_fs_write io H S ref fr d ents D n i e D0 buf off (Q : Result Z → InMemory → Prop) (b := slice 0 (file_size e) D0) :
  heap_rep F io H fr → fs_ok F H S ref → S !! d = Some ents → H !! d = Some D → dir_ok F H S ref d D ents →
  find_live (slots D) n = Some (i, e) → entry_wf e → ¬ is_dot n → IsFile e = true → ents !! n = Some (NFile b) →
  H !! head e = Some D0 → is_fixed (head e) = false → ref (head e) = Some (d, n) → S !! head e = None → file_size e ≤ zlen D0 →
  0 ≤ off → 0 < zlen buf → bytes buf → off + zlen buf < 2 ^ 32 →
  (∀ io', fs_rep F io' S ∅ → Q (Unexpected kDiskFull) io') →
  (∀ io' fr' w b', fs_rep F io' (add S d n (NFile b')) fr' → fr' ⊆ fr → 0 < w ≤ zlen buf → written b off (slice 0 w buf) b' →
     w = zlen buf ∨ fr' = ∅ → Q (Value w) io') →
  wp never (c ← EnsureClusterChain F (Z.to_nat (off / csize F)) (head e);
            if c =? 0 then mret (Unexpected kDiskFull)
            else w ← WriteToClusterChain F c buf (off `mod` csize F);
                 let new_size := Z.max (file_size e) (u64 (off + w)) in
                 (if negb (new_size =? file_size e)
                  then UpdateDirectoryEntry F d (Z.of_nat i * 32) (with_size (u32 new_size) e) else mret tt);;
                 mret (Value w)) Q io.
Proof.
  intros Hh Hok Hd HD Hdir Hf Hw Hn Hfile Hb HD0 Hfix Hr Hs Hle Ho Hbuf Hbb H32 HQ1 HQ2.
  pose proof (ew_size _ Hw) as Hsz. pose proof (proj1 (find_live_Some _ _ _ _ (do_unique _ _ _ _ _ _ _ Hdir)) Hf) as (Hi & Hl & Hfn).
  assert (Hrep : entry_rep F H S ref d n e (NFile b)).
  { pose proof (do_match _ _ _ _ _ _ _ Hdir n Hn) as Hm. by rewrite Hf, Hb in Hm. }
  eapply (heap_write F io H fr (head e) D0); [done..| |].
  - intros io' X Hh'. wp_step. apply HQ1. eexists _, ref. split; [exact Hh'|].
    pose proof (fs_ok_write F H S ref d ents D n i e b (D0 ++ X) Hok Hd HD Hdir Hf Hn Hrep Hr Hs Hfix ltac:(rewrite length_app; lia)) as Hok'.
    rewrite slice_app_prefix in Hok' by lia. fold b in Hok'. by rewrite (insert_id ents n (NFile b)), (insert_id S d ents) in Hok' by done.
  - intros io' X w fr' Hh' Hfr Hw' Hlen Hend. set (X' := splice off (slice 0 w buf) (D0 ++ X)) in *.
    assert (Hsl : zlen (slice 0 w buf) = w) by (apply length_slice; lia).
    assert (HX' : zlen X' = zlen (D0 ++ X)) by (unfold X'; by rewrite length_splice by lia).
    assert (HlX : file_size e ≤ zlen X') by (rewrite HX', length_app; lia).
    pose proof (fs_ok_write F H S ref d ents D n i e b X' Hok Hd HD Hdir Hf Hn Hrep Hr Hs Hfix HlX) as Hok'.
    pose proof (written_splice (file_size e) off (slice 0 w buf) D0 X ltac:(lia) Ho ltac:(lia)) as Hwr. fold b X' in Hwr. rewrite Hsl in Hwr.
    rewrite (wrap_u_small 64) by (unfold in_u; lia). set (ns := Z.max (file_size e) (off + w)) in *. cbn zeta.
    rewrite (wrap_u_small 32) by (unfold in_u; lia). wp_step. destruct (Z.eqb_spec ns (file_size e)) as [E|E]; cbn [negb].
    { wp_step. wp_step. eapply HQ2; [|done..]. eexists _, ref. split; [exact Hh'|]. rewrite (add_is S d ents), E by done. done. }
    set (S1 := <[d := _]> S) in Hok'. set (ents1 := <[n := NFile (slice 0 (file_size e) X')]> ents) in *.
    assert (Hd1 : S1 !! d = Some ents1) by apply lookup_insert_eq. destruct (fo_dir _ _ _ _ Hok' d ents1 Hd1) as (D1 & HD1 & Hdir1).
    pose proof HD1 as HD1'. rewrite lookup_insert_ne, HD in HD1' by congruence. injection HD1' as <-.
    assert (Hlt : (i < length D / 32)%nat) by (by apply lookup_slots_Some in Hi as [? _]).
    assert (Hw2 : entry_wf (with_size ns e)) by (apply with_size_wf; [lia|done]).
    eapply (heap_update F io' _ fr' d D i); [exact Hh'|done|done|done|]. intros io2 Hh2. wp_step.
    eapply HQ2; [|done..]. eexists _, ref. split; [exact Hh2|].
    pose proof (fs_ok_set F _ S1 ref ref d ents1 D n i e n (with_size ns e) (NFile (slice 0 ns X')) Hok' Hd1 Hdir1 Hf) as Hset.
    replace (add S d n (NFile (slice 0 ns X'))) with (<[d := <[n := NFile (slice 0 ns X')]> (delete n ents1)]> S1); cycle 1.
    { rewrite (add_is S d ents) by done. unfold S1, ents1. by rewrite insert_insert_eq, insert_delete_eq, insert_insert_eq. }
    apply Hset; [by left|done..|]. split; [done|right]. exists X'.
    assert (Hhd : head e ≠ d) by congruence. change (head (with_size ns e)) with (head e).
    rewrite lookup_insert_ne, lookup_insert_eq by done.
    split_and!; [done..|unfold S1; by rewrite !lookup_insert_ne| |done]. cbn [with_size file_size]. lia.
Qed.

(** The first cluster of an empty file is set in its entry. *)
Lemma fs_ok_first_cluster H S ref d ents D n i e c D1 (e' := SetEntryFirstCluster c e) :
  fs_ok F H S ref → S !! d = Some ents → H !! d = Some D → dir_ok F H S ref d D ents → find_live (slots D) n = Some (i, e) → entry_wf e →
  ¬ is_dot n → IsFile e = true → file_size e = 0 → ents !! n = Some (NFile []) →
  2 ≤ c ≤ kClusterMask → is_fixed c = false → H !! c = None →
  fs_ok F (<[d := splice (Z.of_nat i * 32) (entry_data e') D]> (<[c := D1]> H)) S (setref c (d, n) (unref c ref)).
Proof.
  intros Hok Hd HD Hdir Hf Hw Hn Hfile Hsz Hb Hc Hfix Hnone.
  pose proof (proj1 (find_live_Some _ _ _ _ (do_unique _ _ _ _ _ _ _ Hdir)) Hf) as (Hi & Hl & Hfn).
  destruct (SetEntryFirstCluster_ok c e Hw ltac:(lia)) as [Hw' Hhead].
  pose proof (fs_ok_alloc F H S (unref c ref) c D1 (fs_ok_unref F H S ref c Hok Hnone) Hnone) as Hok1.
  destruct (fo_dir _ _ _ _ Hok1 d ents Hd) as (D2 & HD2 & Hdir2). assert (Hcd : c ≠ d) by congruence.
  pose proof HD2 as HD2'. rewrite lookup_insert_ne, HD in HD2' by done. injection HD2' as <-.
  assert (HSc : S !! c = None). { destruct (S !! c) eqn:E; [|done]. destruct (fo_dir _ _ _ _ Hok _ _ E) as (? & ? & _). congruence. }
  pose proof (fs_ok_set F _ S _ (setref c (d, n) (unref c ref)) d ents D n i e n e' (NFile []) Hok1 Hd Hdir2 Hf) as Hset.
  rewrite insert_delete_eq, (insert_id ents), (insert_id S) in Hset by done.
  apply Hset; [by left|done..| |].
  - intros p m k. unfold setref, unref. case_decide; done.
  - split; [done|right]. exists D1. unfold e'. rewrite Hhead, lookup_insert_ne, lookup_insert_eq by done. split_and!; [|done..| |].
    + unfold setref. by rewrite decide_True.
    + cbn. lia.
    + cbn. by rewrite Hsz.
Qed.

Lemma wp_fs_WriteFileData io H S ref fr d ents D n i e b buf off (Q : Result Z → InMemory → Prop) :
  heap_rep F io H fr → fs_ok F H S ref → S !! d = Some ents → H !! d = Some D → dir_ok F H S ref d D ents →
  find_live (slots D) n = Some (i, e) → entry_wf e → ¬ is_dot n → entry_rep F H S ref d n e (NFile b) → ents !! n = Some (NFile b) →
  0 ≤ off → 0 < zlen buf → bytes buf → off + zlen buf < 2 ^ 32 →
  (∀ io', fs_rep F io' S ∅ → Q (Unexpected kDiskFull) io') →
  (∀ io' fr' w b', fs_rep F io' (add S d n (NFile b')) fr' → fr' ⊆ fr → 0 < w ≤ zlen buf → written b off (slice 0 w buf) b' →
     w = zlen buf ∨ fr' = ∅ → Q (Value w) io') →
  wp never (WriteFileData F (mkLookup e d (Z.of_nat i * 32) true) buf off) Q io.
Proof.
  intros Hh Hok Hd HD Hdir Hf Hw Hn He Hb Ho Hbuf Hbb H32 HQ1 HQ2. unfold WriteFileData, GetClusterSize. fold (csize F).
  cbn [entry parent_cluster entry_offset]. fold (head e). pose proof mask_small as Hmask.
  pose proof (proj1 (find_live_Some _ _ _ _ (do_unique _ _ _ _ _ _ _ Hdir)) Hf) as (Hi & Hl & Hfn).
  destruct He as [Hfile [(E0 & Hsz & ->)|(D0 & Hr & HD0 & Hfix & Hs & Hle & ->)]].
  - rewrite E0. cbn [Z.eqb]. wp_step. wp_step. eapply heap_alloc; [done| |].
    { intros ->. rewrite Z.eqb_refl. wp_step. wp_step. apply HQ1. by exists H, ref. }
    intros io1 c D1 Hc Hcf Hnone Hin Hlen Hh1. rewrite (proj2 (Z.eqb_neq _ _)) by lia.
    destruct (SetEntryFirstCluster_ok c e Hw ltac:(lia)) as [Hw' Hhead]. assert (Hcd : c ≠ d) by congruence.
    wp_step. eapply (heap_update F io1 _ _ d D i); [exact Hh1|by rewrite lookup_insert_ne|by apply lookup_slots_Some in Hi as [? _]|done|].
    intros io2 Hh2. wp_step. cbn iota beta zeta.
    pose proof (fs_ok_first_cluster H S ref d ents D n i e c D1 Hok Hd HD Hdir Hf Hw Hn Hfile Hsz Hb ltac:(lia) Hcf Hnone) as Hok2.
    set (e' := SetEntryFirstCluster c e) in *. destruct (fo_dir _ _ _ _ Hok2 d ents Hd) as (D2 & HD2 & Hdir2).
    pose proof HD2 as HD2'. rewrite lookup_insert_eq in HD2'. injection HD2' as HD2'.
    assert (Hf2 : find_live (slots D2) n = Some (i, e')).
    { apply find_live_Some; [apply Hdir2|]. split; [|done]. rewrite <- HD2', slots_splice by (done || by apply lookup_slots_Some in Hi as [? _]).
      apply list_lookup_insert_eq. by eapply lookup_lt_Some. }
    assert (Hb2 : ents !! n = Some (NFile (slice 0 (file_size e') D1))) by (rewrite Hb; change (file_size e') with (file_size e); by rewrite Hsz).
    assert (HSc : S !! c = None). { destruct (S !! c) eqn:E; [|done]. destruct (fo_dir _ _ _ _ Hok _ _ E) as (? & ? & _). congruence. }
    assert (Hsz' : file_size e' = 0) by done.
    rewrite <- Hhead at 1. eapply (wp_fs_write io2 _ S _ (fr ∖ {[c]}) d ents D2 n i e' D1);
      [exact Hh2|exact Hok2|done|exact HD2|exact Hdir2|done..| | | | | |done|done|done|done|done|]; rewrite ?Hhead.
    + by rewrite lookup_insert_ne, lookup_insert_eq.
    + done.
    + unfold setref. by rewrite decide_True.
    + done.
    + lia.
    + intros io' fr' w b' Hrep Hsub Hw2 Hwr Hend. eapply HQ2; [done|set_solver|done| |done]. by rewrite Hsz' in Hwr.
  - pose proof (heap_number F io H fr _ D0 Hh HD0 Hfix). rewrite (proj2 (Z.eqb_neq _ _)) by lia. wp_step. wp_step. cbn iota beta zeta.
    by eapply (wp_fs_write io H S ref fr d ents D n i e D0).
Qed.

(** [WriteFile] *)
Lemma WriteFile_is io S fr path cs c data off :
  fs_rep F io S fr → names path cs c → bytes data → 0 < zlen data → 0 ≤ off → off + zlen data < 2 ^ 32 →
  match locate F S cs c with
  | Present d n (NFile b) => ∃ r io' S' fr', WriteFile F path (Some data) off io = Ok (r, io') ∧ fs_rep F io' S' fr' ∧ fr' ⊆ fr ∧
      match r with
      | Value w => 0 < w ≤ zlen data ∧ (w = zlen data ∨ fr' = ∅) ∧
          ∃ b', S' = add S d n (NFile b') ∧ written b off (slice 0 w data) b'
      | Unexpected e => e = kDiskFull ∧ S' = S ∧ fr' = ∅
      end
  | Present _ _ _ => WriteFile F path (Some data) off io = Ok (Unexpected kNotAFile, io)
  | Absent => WriteFile F path (Some data) off io = Ok (Unexpected kFileNotFound, io)
  | Unsafe => True
  end.
Proof.
  intros (H & ref & Hh & Hok) (cs0 & Hp & Hpl & Hb) Hbd Hlen Ho H32. pose proof (LookupPath_is F io S fr H ref Hh Hok path cs0 cs c Hp Hpl Hb) as Hl.
  unfold WriteFile, ret_if. destruct data as [|x0 data0]; [cbn in Hlen; lia|]. set (data := x0 :: data0) in *. unfold mbind, M_bind.
  destruct (locate F S cs c) as [d n y| |]; [|destruct Hl as [o ->]; done|done].
  destruct Hl as (i & e & D & ents & Hd & Hn & HD & Hdir & Hf & He & Hdot & ->). cbn [found entry negb].
  pose proof (proj1 (find_live_Some _ _ _ _ (do_unique _ _ _ _ _ _ _ Hdir)) Hf) as (Hi & Hl & _).
  destruct (entry_size F _ _ _ _ _ _ _ _ _ _ _ Hh HD Hi He) as [Hw Hx].
  destruct y as [b|d'|]; [|destruct Hx as (-> & _); done..]. destruct Hx as [Hfile Hsz]. rewrite Hfile. cbn [negb].
  pose proof (wp_fs_WriteFileData io H S ref fr d ents D n i e b data off (λ r io', ∃ S' fr', fs_rep F io' S' fr' ∧ fr' ⊆ fr ∧
      match r with
      | Value w => 0 < w ≤ zlen data ∧ (w = zlen data ∨ fr' = ∅) ∧
          ∃ b', S' = add S d n (NFile b') ∧ written b off (slice 0 w data) b'
      | Unexpected e => e = kDiskFull ∧ S' = S ∧ fr' = ∅
      end)) as Hwp.
  apply (proj1 (wp_total _ _ _)) in Hwp as (r & io' & E & S' & fr' & Hrep & Hsub & Hr); try done.
  - by exists r, io', S', fr'.
  - intros io' Hrep. exists S, ∅. split_and!; [done|set_solver|done..].
  - intros io' fr' w b' Hrep Hsub Hw' Hwr Hend. exists (add S d n (NFile b')), fr'. do 2 (split; [done|]). split; [done|]. split; [done|]. by exists b'.
Qed.
End write.

(** ** Moving *)

Section move.
Context `{I : FatImpl, L : !FatLaws I} (F : Fat).
Implicit Types (S : fs) (H : heap) (fr : gset Z).

(** An entry moved to another directory keeps its clusters, but its size is set to 0. *)
Definition emptied (x : node) : node := match x with NFile _ => NFile [] | _ => x end.

Definition move_spec (io : InMemory) S fr cs c cs2 c2 (r : Result unit) S' : Prop :=
  match locate F S cs c, FormatFilename c2, descend S (root F) cs2 with
  | Present d n x, Some n2, At d2 =>
      match S !! d2 ≫= lookup n2 with
      | Some _ => r = Unexpected kAlreadyExists ∧ S' = S
      | None =>
          (r = Value tt ∧ S' = add (remove S d n) d2 n2 (if decide (d = d2) then x else emptied x)) ∨
          (r = Unexpected kDiskFull ∧ S' = S ∧ d ≠ d2 ∧ no_room F io fr d2)
      end
  | Present _ _ _, None, _ => r = Unexpected kInvalidName ∧ S' = S
  | Present _ _ _, Some _, _ => r = Unexpected kDirectoryNotFound ∧ S' = S
  | _, _, _ => r = Unexpected kFileNotFound ∧ S' = S
  end.

Definition moveref (d : Z) (n : list Z) (d2 : Z) (n2 : list Z) (ref : Z → option (Z * list Z)) : Z → option (Z * list Z) :=
  λ k, if decide (ref k = Some (d, n)) then Some (d2, n2) else ref k.

Lemma moveref_other d n d2 n2 ref p m k : ref k = Some (p, m) → (p, m) ≠ (d, n) → moveref d n d2 n2 ref k = Some (p, m).
Proof. intros Hk Hne. unfold moveref. rewrite decide_False; [done|]. congruence. Qed.

(** An entry in another place for the same object. *)
Lemma entry_rep_move H S ref d n e x H' S' d2 n2 e' x' :
  entry_rep F H S ref d n e x → head e' = head e → attributes e' = attributes e →
  (∀ D, H !! head e = Some D → S !! head e = None → H' !! head e = Some D ∧ S' !! head e = None) →
  (is_Some (S !! head e) → is_Some (S' !! head e)) →
  (x' = x ∧ file_size e' = file_size e ∨ x' = emptied x ∧ file_size e' = 0) →
  entry_rep F H' S' (moveref d n d2 n2 ref) d2 n2 e' x'.
Proof.
  intros He Hh Ha HH HS Hx. assert (Hm : ∀ k, ref k = Some (d, n) → moveref d n d2 n2 ref k = Some (d2, n2)).
  { intros k Hk. unfold moveref. by rewrite decide_True. }
  destruct x as [b|d'|]; cbn in He.
  - destruct He as [Hf He]. unfold IsFile in Hf. rewrite <- Ha in Hf. fold (IsFile e') in Hf. destruct He as [(E0 & Hsz & ->)|(D & Hr & HD & Hfix & Hs & Hle & Hb)].
    + destruct Hx as [[-> Hz]|[-> Hz]]; (split; [done|left]); rewrite Hh, Hz; done.
    + destruct (HH D HD Hs) as [HD' Hs']. destruct Hx as [[-> Hz]|[-> Hz]]; (split; [done|right]); exists D; rewrite Hh, Hz; split_and!; auto; lia.
  - destruct He as (Hd & <- & Hr & Hs & Href). assert (x' = NDir (head e)) as -> by (destruct Hx as [[-> _]|[-> _]]; done).
    split_and!; auto. unfold IsDirectory in *. by rewrite Ha.
  - assert (x' = NLabel) as -> by (destruct Hx as [[-> _]|[-> _]]; done). unfold entry_rep, IsVolumeLabel in *. by rewrite Ha.
Qed.

Lemma not_long e : live e → Z.land (attributes e) kLongNameMask ≠ aLongName.
Proof. intros (E1 & _ & E2) E. unfold IsLongNameSubComponent in E2. by rewrite E, E1 in E2. Qed.

Lemma head_range e H ref S fr io d n x : heap_rep F io H fr → fs_ok F H S ref → entry_rep F H S ref d n e x → x ≠ NLabel → 0 ≤ head e ≤ kClusterMask.
Proof.
  intros Hh Hok He Hx. pose proof mask_small. destruct x as [b|d'|]; [| |done].
  - destruct He as [_ [(-> & _)|(D & _ & HD & Hfix & _)]]; [lia|]. pose proof (heap_number F io H fr _ D Hh HD Hfix). lia.
  - pose proof (node_not_fixed F _ _ _ _ _ _ _ He) as Hfix. destruct He as (_ & -> & _ & [ents Hs] & _).
    destruct (fo_dir _ _ _ _ Hok _ _ Hs) as (D & HD & _). pose proof (heap_number F io H fr _ D Hh HD Hfix). lia.
Qed.

Lemma rename_wf n e : name_wf n → (n !!! 0%nat : Z) ≠ kDeletedEntry → entry_wf e → live e →
  entry_wf (with_filename n e) ∧ live (with_filename n e).
Proof.
  intros [Hl Hb [H0 _]] He5 [? ? ? ? ?] Hlive. split; [by split|]. pose proof (not_long e Hlive).
  unfold live, IsFree, IsFurtherEntriesFree, IsLongNameSubComponent, first_byte. cbn [with_filename filename attributes].
  rewrite !(proj2 (Z.eqb_neq _ _)) by done. done.
Qed.

Lemma wp_fs_rename io H S ref fr d ents D n i e x n2 (Q : Result unit → InMemory → Prop) :
  heap_rep F io H fr → fs_ok F H S ref → S !! d = Some ents → H !! d = Some D → dir_ok F H S ref d D ents →
  find_live (slots D) n = Some (i, e) → entry_wf e → ¬ is_dot n → entry_rep F H S ref d n e x →
  ents !! n2 = None → name_wf n2 → (n2 !!! 0%nat : Z) ≠ kDeletedEntry →
  (∀ io', fs_rep F io' (add (remove S d n) d n2 x) fr → Q (Value tt) io') →
  wp never (MoveEntry F (mkLookup e d (Z.of_nat i * 32) true) n2 d) Q io.
Proof.
  intros Hh Hok Hd HD Hdir Hf Hw Hn He Hn2 Hw2 He5 HQ. unfold MoveEntry. cbn [parent_cluster entry_offset entry]. rewrite Z.eqb_refl.
  pose proof (proj1 (find_live_Some _ _ _ _ (do_unique _ _ _ _ _ _ _ Hdir)) Hf) as (Hi & Hl & Hfn).
  destruct (rename_wf n2 e Hw2 He5 Hw Hl) as [Hwf Hlive].
  wp_step. eapply (heap_update F io H fr d D i); [done..|by apply lookup_slots_Some in Hi as [? _]|done|]. intros io' Hh'. wp_step.
  apply HQ. eexists _, (moveref d n d n2 ref). split; [exact Hh'|].
  assert (Hr1 : remove S d n !! d = Some (delete n ents)) by (rewrite (remove_is S d ents) by done; apply lookup_insert_eq).
  rewrite (add_is _ d _ n2 x Hr1), (remove_is S d ents), insert_insert_eq by done.
  apply (fs_ok_set F H S ref _ d ents D n i e n2 (with_filename n2 e) x); [done|done|done|done|by right|done|by apply name_not_dot|done..| |].
  - intros p m k Hk Hne _. by apply moveref_other.
  - eapply entry_rep_move; [exact He|done..| | |by left].
    + intros D0 HD0 Hs. rewrite !lookup_insert_ne by congruence. done.
    + intros Hs. rewrite lookup_insert. case_decide; eauto.
Qed.

Lemma wp_fs_move io H S ref fr d ents D n i e x d2 ents2 n2 (Q : Result unit → InMemory → Prop) :
  heap_rep F io H fr → fs_ok F H S ref → S !! d = Some ents → H !! d = Some D → dir_ok F H S ref d D ents →
  find_live (slots D) n = Some (i, e) → entry_wf e → ¬ is_dot n → entry_rep F H S ref d n e x →
  d ≠ d2 → S !! d2 = Some ents2 → ents2 !! n2 = None → name_wf n2 → (n2 !!! 0%nat : Z) ≠ kDeletedEntry →
  (no_room F io fr d2 → Q (Unexpected kDiskFull) io) →
  (∀ io' fr', fs_rep F io' (add (remove S d n) d2 n2 (emptied x)) fr' → fr' ⊆ fr → Q (Value tt) io') →
  wp never (MoveEntry F (mkLookup e d (Z.of_nat i * 32) true) n2 d2) Q io.
Proof.
  intros Hh Hok Hd HD Hdir Hf Hw Hn He Hne Hd2 Hn2 Hw2 He5 HQ1 HQ2. unfold MoveEntry. cbn [parent_cluster entry_offset entry].
  rewrite (proj2 (Z.eqb_neq _ _)) by done. fold (head e).
  pose proof (proj1 (find_live_Some _ _ _ _ (do_unique _ _ _ _ _ _ _ Hdir)) Hf) as (Hi & Hl & Hfn).
  destruct (fo_dir _ _ _ _ Hok d2 ents2 Hd2) as (D2 & HD2 & Hdir2). wp_step.
  eapply (heap_create F io H fr d2 D2); [done..|apply Hdir2|apply Hw2|apply Hw2|apply (ew_bytes _ Hw)| |].
  { intros Hfull Hor. wp_step. apply HQ1. unfold no_room. destruct (is_fixed d2) eqn:E; [|naive_solver]. by rewrite <- (heap_root F io H fr d2 D2). }
  intros io1 fr1 D2' j old zs Hh1 Hsub Hz Hj Hs. wp_step.
  eapply (heap_update F io1 _ fr1 d D i); [exact Hh1|by rewrite lookup_insert_ne|by apply lookup_slots_Some in Hi as [? _]|by apply with_first_byte_wf|].
  intros io2 Hh2. wp_step. apply (HQ2 io2 fr1); [|done]. eexists _, (moveref d n d2 n2 ref). split; [exact Hh2|].
  rewrite insert_insert_ne by done.
  pose proof (fs_ok_delete F H S ref (moveref d n d2 n2 ref) d ents D n i e Hok Hd Hdir Hf Hw Hn ltac:(intros; by apply moveref_other)) as Hok1.
  rewrite (remove_is S d ents) by done. set (S1 := <[d := delete n ents]> S) in *. set (H1 := <[d := _]> H) in *.
  assert (Hd21 : S1 !! d2 = Some ents2) by (unfold S1; by rewrite lookup_insert_ne). rewrite (add_is S1 d2 ents2) by done.
  destruct (fo_dir _ _ _ _ Hok1 d2 ents2 Hd21) as (D3 & HD3 & Hdir3). pose proof HD3 as HD3'. unfold H1 in HD3'. rewrite lookup_insert_ne, HD2 in HD3' by done. injection HD3' as <-.
  eapply (fs_ok_new F H1 S1 _ d2 ents2 D2 zs D2' j old n2 (attributes e) (head e)); [done..|by apply not_long|done|done|done| |].
  - done.
  - destruct (decide (x = NLabel)) as [->|Hxl].
    { unfold entry_rep, IsVolumeLabel in *. cbn [new_entry attributes]. done. }
    pose proof (head_range e H ref S fr io d n x Hh Hok He Hxl) as Hhr.
    eapply (entry_rep_move H S ref d n e x); [exact He|by apply new_entry_head|done| | |by right].
    + intros D0 HD0 Hs0. unfold H1, S1. rewrite !lookup_insert_ne by congruence. done.
    + intros Hs0. unfold S1. rewrite !lookup_insert. repeat case_decide; eauto.
Qed.

(** [Move] *)
Lemma Move_is io S fr old cs c new cs2 c2 :
  fs_rep F io S fr → names old cs c → names_new new cs2 c2 → ¬ dots c2 →
  locate F S cs c ≠ Unsafe → descend S (root F) cs2 ≠ Through →
  (∀ n, FormatFilename c2 = Some n → (n !!! 0%nat : Z) ≠ kDeletedEntry) →
  ∃ r io' S' fr', Move F old new io = Ok (r, io') ∧ fs_rep F io' S' fr' ∧ fr' ⊆ fr ∧ move_spec io S fr cs c cs2 c2 r S'.
Proof.
  intros (H & ref & Hh & Hok) (cs0 & Hp & Hpl & Hb) Hnew Hdots Hsafe Hsafe2 He5.
  enough (Hwp : wp never (Move F old new) (λ r io', ∃ S' fr', fs_rep F io' S' fr' ∧ fr' ⊆ fr ∧ move_spec io S fr cs c cs2 c2 r S') io).
  { apply wp_total in Hwp as (r & io' & E & S' & fr' & ?). by exists r, io', S', fr'. }
  assert (Hself : fs_rep F io S fr) by (by exists H, ref).
  pose proof (LookupPath_is F io S fr H ref Hh Hok old cs0 cs c Hp Hpl Hb) as Hl. unfold Move, ret_if, move_spec.
  destruct (locate F S cs c) as [d n x| |]; [|destruct Hl as [o Hl]; wp_step; unfold wp at 1; rewrite Hl; cbn; by exists S, fr|done].
  destruct Hl as (i & e & D & ents & Hd & Hn & HD & Hdir & Hf & He & Hdot & Hl). wp_step. unfold wp at 1. rewrite Hl. cbn [found entry negb].
  pose proof (proj1 (find_live_Some _ _ _ _ (do_unique _ _ _ _ _ _ _ Hdir)) Hf) as (Hi & Hlive & _).
  destruct (entry_size F _ _ _ _ _ _ _ _ _ _ _ Hh HD Hi He) as [Hw _]. destruct (new_path_facts new cs2 c2 Hnew) as (_ & Hfn & Hbc).
  rewrite Hfn. destruct (FormatFilename c2) as [n2|] eqn:En2; cycle 1.
  { destruct (names_new_names new cs2 c2 Hnew Hdots) as (cs0' & Hp' & Hpl' & Hb').
    pose proof (LookupPath_is F io S fr H ref Hh Hok new cs0' cs2 c2 Hp' Hpl' Hb') as Hl'. unfold locate in Hl'. rewrite En2 in Hl'.
    destruct (descend S (root F) cs2) as [d2| |]; [|..|done]; destruct Hl' as [o Hl']; wp_step; unfold wp at 1; rewrite Hl'; cbn; by exists S, fr. }
  pose proof (at_new F io S fr H ref new cs2 c2 n2 Hh Hok Hnew En2 Hsafe2) as Hat.
  destruct (descend S (root F) cs2) as [d2| |]; [|destruct Hat as (Hpar & l & Hl2 & Hf2)|done]; cycle 1.
  { wp_step. unfold wp at 1. rewrite Hl2, Hf2. wp_step. unfold wp at 1. rewrite Hpar. cbn. by exists S, fr. }
  destruct Hat as (ents2 & Hd2 & Hpar & l & Hl2 & Hf2). rewrite Hd2. cbn [mbind option_bind].
  wp_step. unfold wp at 1. rewrite Hl2, Hf2. destruct (ents2 !! n2) as [y|] eqn:Ey; [cbn; by exists S, fr|].
  rewrite bool_decide_eq_false_2 by (by intros [? ?]). wp_step. unfold wp at 1. rewrite Hpar.
  pose proof (FormatFilename_wf c2 n2 Hbc En2) as Hw2. destruct (decide (d = d2)) as [<-|Hne].
  - assert (ents2 = ents) as -> by congruence.
    eapply (wp_fs_rename io H S ref fr d ents D n i e x n2); [done..|by apply He5|]. intros io' Hrep. exists (add (remove S d n) d n2 x), fr.
    split_and!; [done..|]. by left.
  - eapply (wp_fs_move io H S ref fr d ents D n i e x d2 ents2 n2); [done..|by apply He5| |].
    + intros Hno. exists S, fr. split_and!; [done..|]. right. done.
    + intros io' fr' Hrep Hsub. exists (add (remove S d n) d2 n2 (emptied x)), fr'. split_and!; [done..|]. by left.
Qed.
End move.
