(* ===== verification/FatFormat.v ===== *)
(** * Formatted volumes hold the empty file system
    Any formatted volume has a table, clusters and a root directory ([vol_of]); one of a variant with
    a fixed root directory whose slots all have the end mark holds the file system with an empty
    root and nothing else. *)
From S2P Require Import Prelude Bytes Path FatDisk Fat FatVolume FatChains FatDirs FatHeap FatNames FatFs FatOps FatWrite.

Section format.
Context `{I : FatImpl, L : !FatLaws I} (F : Fat).

Abbreviation clusters := (seqZ 2 (cluster_count F)).

Definition vol_of (io : InMemory) : vol :=
  mkVol (map_seqZ 2 (map (fat_entry F (disk io)) clusters))
    (map_seqZ 2 (map (λ c, slice (cluster_start F c) (csize F) (disk io)) clusters)) (root_data F io).

Lemma lookup_clusters {A} (f : Z → A) c :
  (map_seqZ 2 (map f clusters) : gmap Z A) !! c = if decide (in_range F c) then Some (f c) else None.
Proof.
  unfold in_range. case_decide as Hc.
  - rewrite lookup_map_seqZ_Some. split; [lia|]. rewrite list_lookup_fmap, lookup_seqZ_lt by lia. cbn. do 2 f_equal. lia.
  - apply lookup_map_seqZ_None. rewrite length_map, length_seqZ. lia.
Qed.

Lemma vol_of_rep io : volume_ok F io → Rep F io (vol_of io).
Proof. intros Hv. split; [done| | |done]; intros c; cbn [vol_of v_fat v_cl]; by rewrite lookup_clusters. Qed.

(** The free clusters of a volume. *)
Definition free_clusters (io : InMemory) : gset Z :=
  list_to_set (filter (λ c, fat_entry F (disk io) c = 0) clusters).

Lemma free_clusters_spec io c : c ∈ free_clusters io ↔ v_fat (vol_of io) !! c = Some 0.
Proof.
  unfold free_clusters. rewrite elem_of_list_to_set, list_elem_of_filter, elem_of_seqZ. cbn [vol_of v_fat]. rewrite lookup_clusters.
  unfold in_range. case_decide; [|split; [lia|done]]. split; [intros [-> _]; done|intros [= ->]; split; [done|lia]].
Qed.

Lemma format_rep io :
  kHasFixedRootDir = true → volume_ok F io → Forall (λ e, IsFurtherEntriesFree e = true) (slots (root_data F io)) →
  fs_rep F io {[root F := ∅]} (free_clusters io).
Proof.
  intros Hfix Hv Hz. assert (Hr : root F = 0) by (by apply fixed_root).
  exists {[0 := root_data F io]}, (λ _, None). split.
  - exists (vol_of io), ∅. split; [by apply vol_of_rep|]. split.
    + intros h l. by rewrite lookup_empty.
    + intros h1 l1 h2 l2 x. by rewrite lookup_empty.
    + intros d. unfold is_fixed. rewrite Hfix. cbn [andb]. destruct (Z.eqb_spec d 0) as [->|Hne].
      * by rewrite lookup_singleton_eq.
      * by rewrite lookup_singleton_ne, lookup_empty by done.
    + intros c. apply free_clusters_spec.
  - rewrite Hr. split; [rewrite Hr, lookup_singleton_eq; eauto|]. intros d ents [<- <-]%lookup_singleton_Some. exists (root_data F io).
    rewrite lookup_singleton_eq. split; [done|]. rewrite Forall_lookup in Hz.
    assert (Hnl : ∀ i e, slots (root_data F io) !! i = Some e → ¬ live e) by (intros i e Hi%Hz (_ & He & _); congruence).
    split.
    + intros i j e e' _ _ _ Hj. by eapply Hz.
    + intros i j e e' Hi _ He. by destruct (Hnl i e Hi).
    + intros n _. apply lookup_empty.
    + intros n _. rewrite lookup_empty. unfold find_live. 
      destruct (list_find _ (slots (root_data F io))) as [[i e]|] eqn:E; [|done]. apply list_find_Some in E as (Hi & [He _] & _). by destruct (Hnl i e Hi).
Qed.
End format.

(** ** Client view: what was written is read *)

Section client.
Context `{I : FatImpl, L : !FatLaws I} (F : Fat).
Implicit Types (S : fs) (fr : gset Z).

Lemma child_add_file S d n b b' p c :
  S !! d ≫= lookup n = Some (NFile b) →
  child (add S d n (NFile b')) p c = match child S p c with Some (NFile x) => Some (NFile (if decide (p = d ∧ FormatFilename c = Some n) then b' else x)) | o => o end.
Proof.
  intros Hb. destruct (S !! d) as [ents|] eqn:Hd; [|done]. cbn in Hb. unfold child. rewrite (add_is S d ents) by done.
  destruct (FormatFilename c) as [m|]; [|done]. cbn. rewrite lookup_insert. case_decide as E.
  - subst p. rewrite Hd. cbn. rewrite lookup_insert. case_decide as E2.
    + subst m. rewrite Hb. by rewrite decide_True.
    + destruct (ents !! m) as [[x| |]|]; [|done..]. by rewrite decide_False by naive_solver.
  - destruct (S !! p) as [pe|]; [|done]. cbn. destruct (pe !! m) as [[x| |]|]; [|done..]. by rewrite decide_False by naive_solver.
Qed.

Lemma descend_add_file S d n b b' p cs :
  S !! d ≫= lookup n = Some (NFile b) → descend (add S d n (NFile b')) p cs = descend S p cs.
Proof.
  intros Hb. revert p. induction cs as [|c cs IH]; intros p; [done|]. cbn [descend]. rewrite (child_add_file _ _ _ b) by done.
  destruct (child S p c) as [[x|d'|]|]; [done| |done..]. apply IH.
Qed.

Lemma locate_Present S cs c d n x : locate F S cs c = Present d n x →
  descend S (root F) cs = At d ∧ FormatFilename c = Some n ∧ S !! d ≫= lookup n = Some x.
Proof.
  unfold locate. destruct (descend S (root F) cs) as [d'| |]; [|done..]. destruct (FormatFilename c) as [m|]; [|done].
  destruct (S !! d' ≫= lookup m) as [y|] eqn:E; [|done]. intros [= -> -> ->]. done.
Qed.

Lemma locate_add_file S cs c d n b b' : locate F S cs c = Present d n (NFile b) →
  locate F (add S d n (NFile b')) cs c = Present d n (NFile b').
Proof.
  intros H%locate_Present. destruct H as (H1 & H2 & H3). unfold locate. rewrite (descend_add_file _ _ _ b) by done. rewrite H1, H2.
  destruct (S !! d) as [ents|] eqn:Hd; [|done]. rewrite (add_is S d ents) by done. rewrite lookup_insert_eq. cbn. by rewrite lookup_insert_eq.
Qed.
End client.
