(* ===== verification/FatList.v ===== *)
(** * Listing a directory *)
From S2P Require Import Prelude Bytes Path FatDisk Fat FatVolume FatChains FatDirs FatHeap FatNames FatFs FatOps.

(** The entries that [ListDirectory] reports. *)
Definition listed (e : DirectoryEntry) : Prop := live e ∧ (IsFile e = true ∨ IsDirectory e = true).

#[export] Instance listed_dec e : Decision (listed e).
Proof. unfold listed. apply _. Defined.

Definition show_entry (e : DirectoryEntry) : list Z * bool := (FormatShortName (filename e), IsDirectory e).

Lemma listed_iff e : IsFree e = false → IsFurtherEntriesFree e = false →
  (entry_IsValid e && negb (IsVolumeLabel e)) = true ↔ listed e.
Proof.
  intros E1 E2. pose proof (kind_cases e) as (K1 & K2 & K3).
  assert (Hlong : IsLongNameSubComponent e = true → IsVolumeLabel e = true).
  { unfold IsLongNameSubComponent, IsVolumeLabel. rewrite E1. cbn [negb]. rewrite andb_true_r. intros E%Z.eqb_eq.
    apply Z.eqb_eq. change (Z.lor aDirectory aVolumeLabel) with (Z.land kLongNameMask 0x18). rewrite Z.land_assoc, E. done. }
  unfold entry_IsValid, listed, live. rewrite andb_true_iff, !orb_true_iff, negb_true_iff. split.
  - intros [Hk Hv]. split; [|rewrite Hv in Hk; naive_solver]. split_and!; [done..|]. apply not_true_is_false. intros E. rewrite Hlong in Hv by done. done.
  - intros [_ [Hf|Hd]]; [destruct (K1 Hf)|destruct (K2 Hd)]; auto.
Qed.

Lemma scan_list_entries es off acc :
  eod_closed es →
  (scan_list es off (λ a e _, (list_entry a e, true)) acc).1.1 = acc ++ map show_entry (filter listed es).
Proof.
  revert off acc. induction es as [|e es IH]; intros off acc Hc; [by rewrite app_nil_r|]. cbn [scan_list].
  pose proof (eod_closed_app_r [e] es Hc) as Hc'. destruct (IsFree e) eqn:E1.
  { rewrite filter_cons_False by (intros [[? _] _]; congruence). by apply IH. }
  destruct (IsFurtherEntriesFree e) eqn:E2.
  { assert (filter listed (e :: es) = []) as ->; [|by rewrite app_nil_r]. apply elem_of_nil_inv. intros x [[(_ & Hx & _) _] [j Hj]%list_elem_of_lookup_1]%list_elem_of_filter.
    by rewrite (Hc 0%nat j e x) in Hx by (done || lia). }
  rewrite IH by done. unfold list_entry. pose proof (listed_iff e E1 E2) as Hiff.
  destruct (_ && _); destruct (decide (listed e)) as [El|El]; [|naive_solver congruence|naive_solver congruence|].
  - rewrite filter_cons_True by done. cbn [map]. by rewrite <- app_assoc.
  - by rewrite filter_cons_False.
Qed.

(** What a listing says of a node: whether it is a directory; volume labels are left out. *)
Definition kind (x : node) : option bool := match x with NFile _ => Some false | NDir _ => Some true | NLabel => None end.

Section list.
Context `{I : FatImpl, L : !FatLaws I} (F : Fat).
Implicit Types (S : fs) (H : heap) (fr : gset Z).

Lemma unique_names es (P : DirectoryEntry → Prop) `{∀ e, Decision (P e)} :
  unique es → (∀ e, P e → live e) → NoDup (map filename (filter P es)).
Proof.
  intros Hu HP. induction es as [|e es IH]; [constructor|].
  assert (Hu' : unique es) by (intros i j x y Hi Hj Hx Hy Hn; enough (Datatypes.S i = Datatypes.S j) by lia; by apply (Hu (Datatypes.S i) (Datatypes.S j) x y)).
  rewrite filter_cons. case_decide as He; [|by apply IH]. cbn [map]. constructor; [|by apply IH].
  intros (x & Hn & [Hx [i Hi]%list_elem_of_lookup_1]%list_elem_of_filter)%list_elem_of_fmap.
  assert (0%nat = Datatypes.S i); [|done]. apply (Hu 0%nat (Datatypes.S i) e x); auto.
Qed.

Lemma listed_names H S ref d D ents :
  dir_ok F H S ref d D ents →
  map_to_list (omap kind ents) ≡ₚ map (λ e, (filename e, IsDirectory e)) (filter (λ e, listed e ∧ ¬ is_dot (filename e)) (slots D)).
Proof.
  intros [Hc Hu Hdots Hm]. apply NoDup_Permutation; [apply NoDup_map_to_list| |].
  - apply (NoDup_fmap_1 fst). fold (map (A := list Z * bool) fst). rewrite map_map. apply (unique_names (slots D) _ Hu). by intros e [[? _] _].
  - intros [n k]. rewrite elem_of_map_to_list, lookup_omap, bind_Some, list_elem_of_fmap. split.
    + intros (x & Hx & Hk). destruct (decide (is_dot n)) as [Hn|Hn]; [by rewrite Hdots in Hx|]. specialize (Hm n Hn). rewrite Hx in Hm.
      destruct (find_live (slots D) n) as [[i e]|] eqn:Ef; [|done]. apply find_live_Some in Ef as (Hi & Hl & <-); [|done]. cbn in Hm.
      pose proof (kind_cases e) as (K1 & K2 & K3). exists e. rewrite list_elem_of_filter. unfold listed.
      destruct x as [b|d'|]; [| |done]; injection Hk as <-.
      * destruct Hm as [E _]. destruct (K1 E) as [-> _]. split; [done|]. split; [auto|by eapply list_elem_of_lookup_2].
      * destruct Hm as [E _]. rewrite E. split; [done|]. split; [auto|by eapply list_elem_of_lookup_2].
    + intros (e & [= -> ->] & [[[Hl Hk] Hn] [i Hi]%list_elem_of_lookup_1]%list_elem_of_filter).
      specialize (Hm _ Hn). rewrite (proj2 (find_live_Some _ _ i e Hu)) in Hm by done.
      destruct (ents !! filename e) as [x|]; [|done]. exists x. split; [done|]. cbn in Hm. pose proof (kind_cases e) as (K1 & K2 & K3).
      destruct x as [b|d'|]; cbn in Hm |- *.
      * destruct Hm as [E _]. by destruct (K1 E) as [-> _].
      * by destruct Hm as [-> _].
      * destruct (K3 Hm) as [E1 E2]. destruct Hk; congruence.
Qed.

Lemma filter_split {A} (P Q : A → Prop) `{∀ x, Decision (P x), ∀ x, Decision (Q x)} (l : list A) :
  filter P l ≡ₚ filter (λ x, P x ∧ ¬ Q x) l ++ filter (λ x, P x ∧ Q x) l.
Proof.
  induction l as [|x l IH]; [done|]. rewrite !filter_cons. repeat case_decide; try tauto; cbn [app]; rewrite IH; [done|].
  by rewrite <- Permutation_middle.
Qed.

(** The listing of a directory: its files and directories in some order, and its dot entries. *)
Definition listing (ents : dir) (R : list (list Z * bool)) : Prop :=
  ∃ ds, Forall (λ p, p.1 = chars "." ∨ p.1 = chars "..") ds ∧
    R ≡ₚ map (λ p, (FormatShortName p.1, p.2)) (map_to_list (omap kind ents)) ++ ds.

Lemma listing_slots H S ref d D ents : dir_ok F H S ref d D ents → listing ents (map show_entry (filter listed (slots D))).
Proof.
  intros Hd. exists (map show_entry (filter (λ e, listed e ∧ is_dot (filename e)) (slots D))). split.
  - apply Forall_map, Forall_forall. intros e [[_ He] _]%list_elem_of_filter. destruct He as [He|He]; cbn; rewrite He; [left|right]; done.
  - rewrite (listed_names _ _ _ _ _ _ Hd), map_map, <- map_app. apply Permutation_map, filter_split.
Qed.

Lemma ListDirectory_slots io H S ref fr e d D ents :
  heap_rep F io H fr → H !! d = Some D → dir_ok F H S ref d D ents → head e = d →
  ScanDirectoryTable F e list_entry [] io = Ok (map show_entry (filter listed (slots D)), io).
Proof.
  intros Hh HD Hdir He. unfold ScanDirectoryTable. rewrite (heap_scan F io H fr e d D) by done. by rewrite scan_list_entries by apply Hdir.
Qed.

(** What a path names, the root included. *)
Definition dir_named S (path : Path) (ents : option dir) : Prop :=
  (path_is path true [] ∧ ents = S !! root F) ∨
  ∃ cs c, names path cs c ∧ locate F S cs c ≠ Unsafe ∧ ents = match node_at F S cs c with Some (NDir d) => S !! d | _ => None end.

Lemma ListDirectory_is io S fr path ents :
  fs_rep F io S fr → dir_named S path ents →
  ∃ R, ListDirectory F path io = Ok (R, io) ∧ match ents with Some ents => listing ents R | None => R = [] end.
Proof.
  intros (H & ref & Hh & Hok) Hn. unfold ListDirectory, GetDirectoryLookup. destruct Hn as [[Hp ->]|(cs & c & Hnm & Hsafe & ->)].
  - destruct (fo_root _ _ _ _ Hok) as [ents Hr]. destruct (fo_dir _ _ _ _ Hok _ _ Hr) as (D & HD & Hdir).
    unfold IsRoot. rewrite (pi_abs _ _ _ Hp). change (zlen (components path)) with (ComponentCount path). rewrite (count_is _ _ _ Hp).
    destruct (root_entry F io S fr H ref Hh Hok) as [He Hi]. change (true && (zlen (@nil (list Z)) =? 0)) with true. cbn iota.
    unfold mbind, M_bind, mret, M_ret. cbn [found entry negb orb]. rewrite Hi. cbn [negb orb]. rewrite (ListDirectory_slots io H S ref fr _ _ D ents) by done. eexists. split; [done|]. rewrite Hr. by eapply listing_slots.
  - destruct Hnm as (cs0 & Hp & Hpl & Hb). pose proof (LookupPath_is F io S fr H ref Hh Hok path cs0 cs c Hp Hpl Hb) as Hl.
    unfold IsRoot. rewrite (pi_abs _ _ _ Hp). change (zlen (components path)) with (ComponentCount path). rewrite (count_is _ _ _ Hp).
    rewrite (proj2 (Z.eqb_neq _ _)) by (destruct cs0; [by destruct cs|cbn; lia]). cbn [andb]. unfold node_at.
    unfold mbind, M_bind. destruct (locate F S cs c) as [d n x| |]; [|destruct Hl as [o ->]; by exists []|done].
    destruct Hl as (i & e & D & ents & Hd & Hn & HD & Hdir & Hf & He & _ & ->). cbn [found entry negb orb].
    apply find_live_Some in Hf as (Hi & _ & _); [|apply Hdir]. destruct (entry_size F _ _ _ _ _ _ _ _ _ _ _ Hh HD Hi He) as [_ Hx].
    pose proof (kind_cases e) as (K1 & K2 & K3). destruct x as [b|d'|].
    + destruct Hx as [E _]. destruct (K1 E) as [-> _]. by exists [].
    + destruct Hx as (_ & -> & Hhd). destruct He as (_ & _ & _ & [ents' Hs] & _). destruct (fo_dir _ _ _ _ Hok _ _ Hs) as (D' & HD' & Hdir').
      cbn [negb]. rewrite (ListDirectory_slots io H S ref fr _ _ D' ents') by done. eexists. split; [done|]. rewrite Hs. by eapply listing_slots.
    + destruct Hx as (_ & -> & _). by exists [].
Qed.
End list.
