(* ===== verification/FatSpec.v ===== *)
(** * What the FAT driver promises
    The theorems about the driver that its clients rely on, for every variant that satisfies
    [FatLaws], and their instances on a small FAT12 volume. *)
From S2P Require Import Prelude Bytes Path FatDisk Fat FatVolume FatChains FatDirs FatHeap FatNames FatFs FatOps FatWrite FatFormat FatList.

(** ** A volume
    20 sectors of 512 bytes: boot sector, table, root directory of 16 slots, 17 clusters. *)
Section demo.
Existing Instance Fat12.

Definition demo_boot : list Z :=
  [0xEB; 0x3C; 0x90] ++ replicate 8 32 ++ le16 512 ++ [1] ++ le16 1 ++ [1] ++ le16 16 ++ le16 20 ++ [0xF8] ++ le16 1 ++
  le16 1 ++ le16 1 ++ le32 0 ++ le32 0.
Definition demo_disk : list Z :=
  splice 510 (le16 0xAA55) (splice 0 demo_boot (replicate 512 0)) ++ splice 0 [0xF8; 0xFF; 0xFF] (replicate 512 0) ++
  replicate 512 0 ++ replicate (17 * 512) 0xAA.
Definition demo_io : InMemory := mkIO demo_disk 512.
Definition demo_F : Fat := layout (read_boot demo_boot) (read_boot32 []).

Definition p_ (s : string) : Path := path_of (chars s).

(** The volume with a file and a directory. *)
Definition demo_run {A} (m : IOM A) (io : InMemory) : InMemory := match m io with Ok (_, io') => io' | Stop _ => io end.
Definition demo_io1 : InMemory := demo_run (CreateFile demo_F (p_ "/a.txt")) demo_io.
Definition demo_io2 : InMemory := demo_run (CreateDirectory demo_F (p_ "/d")) demo_io1.

Lemma demo_volume_ok : volume_ok demo_F demo_io.
Proof.
  split_and!.
  - split.
    + apply (bool_decide_unpack _). vm_compute. exact I.
    + split; apply (bool_decide_unpack _); vm_compute; exact I.
    + split; apply (bool_decide_unpack _); vm_compute; exact I.
    + split; apply (bool_decide_unpack _); vm_compute; exact I.
    + split; apply (bool_decide_unpack _); vm_compute; exact I.
    + apply (bool_decide_unpack _). vm_compute. exact I.
    + apply (bool_decide_unpack _). vm_compute. exact I.
  - vm_compute. reflexivity.
  - unfold bytes. apply (bool_decide_unpack _). vm_compute. exact I.
Qed.

Lemma demo_empty : fs_rep demo_F demo_io {[0 := ∅]} (free_clusters demo_F demo_io).
Proof.
  apply (format_rep (I := Fat12) demo_F demo_io eq_refl demo_volume_ok). apply (bool_decide_unpack _). vm_compute. exact I.
Qed.

(** The names that the paths of the volume have. *)
Lemma demo_names s c :
  bool_decide (zlen (chars s) < kMaxPathSize ∧ Forall (λ c, c ≠ 0) (chars s) ∧ bytes c ∧ hd_error (chars s) = Some kPathSeparator ∧
    take 64 (split (chars s)) = [c] ∧ ¬ dots c) = true →
  names (p_ s) [] c ∧ names_new (p_ s) [] c.
Proof.
  intros (H1 & H2 & H3 & H4 & H5 & H6)%bool_decide_eq_true. destruct (path_of_is _ H1 H2) as [Hp _].
  rewrite H5, bool_decide_eq_true_2 in Hp by done. split.
  - exists [c]. split_and!; [done| |by repeat constructor]. unfold plain. by rewrite filter_cons_True.
  - exists []. split_and!; [done|done|by repeat constructor].
Qed.

Definition demo_a : list Z := chars "A       TXT".
Definition demo_d : list Z := chars "D          ".
Definition demo_S1 : fs := {[0 := {[demo_a := NFile []]}]}.
Definition demo_S2 (d' : Z) : fs := <[d' := ∅]> (add demo_S1 0 demo_d (NDir d')).

Lemma demo_file : ∃ fr, fs_rep demo_F demo_io1 demo_S1 fr.
Proof.
  destruct (demo_names "/a.txt" (chars "a.txt") ltac:(vm_compute; reflexivity)) as [_ Hn].
  destruct (CreateFile_is (I := Fat12) demo_F demo_io _ _ _ _ _ demo_empty Hn) as (r & io' & S' & fr' & E & Hr & _ & Hs).
  - done.
  - intros n [= <-]. done.
  - assert (Hok : match CreateFile demo_F (p_ "/a.txt") demo_io with Ok (Value _, _) => true | _ => false end = true) by (vm_compute; reflexivity).
    rewrite E in Hok. destruct r as [[]|]; [|done]. exists fr'. unfold demo_io1, demo_run. rewrite E.
    unfold create_spec in Hs. change (FormatFilename (chars "a.txt")) with (Some demo_a) in Hs. cbn [descend] in Hs.
    change (root demo_F) with 0 in Hs. rewrite lookup_singleton_eq in Hs. cbn [mbind option_bind] in Hs. rewrite lookup_empty in Hs.
    destruct Hs as [[_ ->]|[? _]]; [|done]. rewrite (add_is _ 0 ∅) in Hr by apply lookup_singleton_eq.
    by rewrite insert_singleton_eq, insert_empty in Hr.
Qed.

Lemma demo_dir : ∃ fr d', d' ≠ 0 ∧ fs_rep demo_F demo_io2 (demo_S2 d') fr.
Proof.
  destruct demo_file as [fr Hfs]. destruct (demo_names "/d" (chars "d") ltac:(vm_compute; reflexivity)) as [_ Hn].
  destruct (CreateDirectory_is (I := Fat12) demo_F demo_io1 _ _ _ _ _ Hfs Hn) as (r & io' & S' & fr' & d' & E & Hr & _ & Hs & Hd').
  - done.
  - intros n [= <-]. done.
  - assert (Hok : match CreateDirectory demo_F (p_ "/d") demo_io1 with Ok (Value _, _) => true | _ => false end = true) by (vm_compute; reflexivity).
    rewrite E in Hok. destruct r as [[]|]; [|done]. exists fr', d'. destruct (Hd' eq_refl) as [_ Hnone]. split.
    { intros ->. unfold demo_S1 in Hnone. by rewrite lookup_singleton_eq in Hnone. }
    unfold demo_io2, demo_run. rewrite E. unfold create_spec in Hs. change (FormatFilename (chars "d")) with (Some demo_d) in Hs. cbn [descend] in Hs.
    change (root demo_F) with 0 in Hs. unfold demo_S1 in Hs at 1. rewrite lookup_singleton_eq in Hs. cbn [mbind option_bind] in Hs.
    rewrite lookup_singleton_ne in Hs by done. destruct Hs as [[_ ->]|[? _]]; [|done]. done.
Qed.

Lemma demo_volume2_ok : volume_ok demo_F demo_io2.
Proof.
  destruct demo_volume_ok as (Hf & _ & _). split_and!.
  - replace (zlen (disk demo_io2)) with (zlen (disk demo_io)) by (vm_compute; reflexivity). exact Hf.
  - vm_compute. reflexivity.
  - unfold bytes. apply (bool_decide_unpack _). vm_compute. exact I.
Qed.

Lemma demo_paths : names (p_ "/a.txt") [] (chars "a.txt") ∧ names (p_ "/d") [] (chars "d") ∧ names_new (p_ "/b") [] (chars "b").
Proof. split_and!; apply demo_names; vm_compute; reflexivity. Qed.

Lemma demo_locate : locate demo_F demo_S1 [] (chars "a.txt") = Present 0 demo_a (NFile []).
Proof. vm_compute. reflexivity. Qed.

Lemma demo_new_name n : FormatFilename (chars "b") = Some n → (n !!! 0%nat : Z) ≠ kDeletedEntry.
Proof. intros [= <-]. done. Qed.

Lemma demo_locate_dir d' : d' ≠ 0 → locate demo_F (demo_S2 d') [] (chars "d") = Present 0 demo_d (NDir d').
Proof.
  intros Hd. unfold locate, demo_S2. cbn [descend]. change (FormatFilename (chars "d")) with (Some demo_d). change (root demo_F) with 0.
  rewrite lookup_insert_ne by done. unfold add. rewrite lookup_alter_eq. unfold demo_S1. rewrite lookup_singleton_eq. cbn [fmap option_fmap option_map mbind option_bind].
  by rewrite lookup_insert_eq.
Qed.
End demo.

Section spec.
Context `{I : FatImpl, L : !FatLaws I} (F : Fat).
Implicit Types (S : fs) (fr : gset Z).

(** Asking about a path: [Exists], [FileExists], [DirectoryExists] and [GetFileSize] answer as
    the file system on the volume does and change nothing. *)
Theorem fat_queries io S fr path cs c (x := node_at F S cs c) :
  fs_rep F io S fr → names path cs c → locate F S cs c ≠ Unsafe →
  Exists F path io = Ok (Value (bool_decide (is_Some x)), io) ∧
  FileExists F path io = Ok (Value (if x is Some (NFile _) then true else false), io) ∧
  DirectoryExists F path io = Ok (Value (if x is Some (NDir _) then true else false), io) ∧
  GetFileSize F path io =
    Ok (match x with
        | Some (NFile b) => Value (zlen b)
        | Some _ => Unexpected kNotAFile
        | None => Unexpected kFileNotFound
        end, io).
Proof. apply queries_are. Qed.

(** C6. [ReadFile] returns the bytes of the file from the offset on, as many as were asked for and
    are there. *)
Theorem fat_ReadFile io S fr path cs c size off :
  fs_rep F io S fr → names path cs c → locate F S cs c ≠ Unsafe → 0 < size → 0 ≤ off →
  ReadFile F path true size off io =
    Ok (match node_at F S cs c with
        | Some (NFile b) => Value (slice off size b)
        | Some _ => Unexpected kNotAFile
        | None => Unexpected kFileNotFound
        end, io).
Proof. apply ReadFile_is. Qed.

(** C5. [WriteFile] writes the bytes at the offset, extending the file as far as there are free
    clusters: it returns how many bytes were written, fewer than asked for only if no cluster is
    left, and the rest of the file and of the file system stays as it was. *)
Theorem fat_WriteFile io S fr path cs c data off :
  fs_rep F io S fr → names path cs c → bytes data → 0 < zlen data → 0 ≤ off → off + zlen data < 2 ^ 32 →
  match locate F S cs c with
  | Present d n (NFile b) => ∃ r io' S' fr', WriteFile F path (Some data) off io = Ok (r, io') ∧ fs_rep F io' S' fr' ∧ fr' ⊆ fr ∧
      match r with
      | Value w => 0 < w ≤ zlen data ∧ (w = zlen data ∨ fr' = ∅) ∧
          ∃ b', S' = add S d n (NFile b') ∧ written b off (slice 0 w data) b'
      | Unexpected e => e = kDiskFull ∧ S' = S ∧ fr' = ∅
      end
  | Present _ _ _ => WriteFile F path (Some data) off io = Ok (Unexpected kNotAFile, io)
  | Absent => WriteFile F path (Some data) off io = Ok (Unexpected kFileNotFound, io)
  | Unsafe => True
  end.
Proof. apply WriteFile_is. Qed.


(** [CreateDirectory] adds an empty directory with a number of its own, or reports why it
    cannot. *)
Theorem fat_CreateDirectory io S fr path cs c :
  fs_rep F io S fr → names_new path cs c → descend S (root F) cs ≠ Through →
  (∀ n, FormatFilename c = Some n → (n !!! 0%nat : Z) ≠ kDeletedEntry) →
  ∃ r io' S' fr' d', CreateDirectory F path io = Ok (r, io') ∧ fs_rep F io' (if r is Value _ then <[d' := ∅]> S' else S') fr' ∧ fr' ⊆ fr ∧
    create_spec F S cs c (NDir d') (λ d, fr = ∅ ∨ no_room F io (fr ∖ {[d']}) d) r S' ∧
    (r = Value tt → d' ∈ fr ∧ S !! d' = None).
Proof. apply CreateDirectory_is. Qed.

(** C8. [DeleteFile] removes a file's entry and gives its clusters back to the free ones; a path
    that names nothing, or something else than a file, is reported and changes nothing. *)
Theorem fat_DeleteFile io S fr path cs c :
  fs_rep F io S fr → names path cs c →
  match locate F S cs c with
  | Present d n (NFile b) => ∃ io' fr', DeleteFile F path io = Ok (Value tt, io') ∧ fs_rep F io' (remove S d n) fr' ∧
      fr ⊆ fr' ∧ zlen b ≤ (Z.of_nat (size fr') - Z.of_nat (size fr)) * csize F
  | Present _ _ _ => DeleteFile F path io = Ok (Unexpected kNotAFile, io)
  | Absent => DeleteFile F path io = Ok (Unexpected kFileNotFound, io)
  | Unsafe => True
  end.
Proof. apply DeleteFile_is. Qed.

(** [RemoveDirectory] removes an empty directory and gives its clusters back; one that is not
    empty, or something else than a directory, is reported and stays. *)
Theorem fat_RemoveDirectory io S fr path cs c :
  fs_rep F io S fr → names path cs c →
  match locate F S cs c with
  | Present d n (NDir d') =>
      if bool_decide (empty_dir (default ∅ (S !! d')))
      then ∃ io' fr', RemoveDirectory F path io = Ok (Value tt, io') ∧ fs_rep F io' (delete d' (remove S d n)) fr' ∧ fr ⊆ fr' ∧ fr ≠ fr'
      else RemoveDirectory F path io = Ok (Unexpected kNotEmpty, io)
  | Present _ _ _ => RemoveDirectory F path io = Ok (Unexpected kNotADirectory, io)
  | Absent => RemoveDirectory F path io = Ok (Unexpected kDirectoryNotFound, io)
  | Unsafe => True
  end.
Proof. apply RemoveDirectory_is. Qed.

(** C12. [Move] renames an entry within its directory, or moves it to another one, where a file
    arrives empty; what cannot be moved is reported and changes nothing. *)
Theorem fat_Move io S fr old cs c new cs2 c2 :
  fs_rep F io S fr → names old cs c → names_new new cs2 c2 → ¬ dots c2 →
  locate F S cs c ≠ Unsafe → descend S (root F) cs2 ≠ Through →
  (∀ n, FormatFilename c2 = Some n → (n !!! 0%nat : Z) ≠ kDeletedEntry) →
  ∃ r io' S' fr', Move F old new io = Ok (r, io') ∧ fs_rep F io' S' fr' ∧ fr' ⊆ fr ∧ move_spec F io S fr cs c cs2 c2 r S'.
Proof. apply Move_is. Qed.

(** What [WriteFile] has written, [ReadFile] reads at the same place. *)
Theorem fat_write_read io S fr path cs c d n b data off :
  fs_rep F io S fr → names path cs c → bytes data → 0 < zlen data → 0 ≤ off → off + zlen data < 2 ^ 32 →
  locate F S cs c = Present d n (NFile b) →
  ∃ r io', WriteFile F path (Some data) off io = Ok (r, io') ∧
    match r with
    | Value w => 0 < w ≤ zlen data ∧ ReadFile F path true w off io' = Ok (Value (slice 0 w data), io')
    | Unexpected e => e = kDiskFull
    end.
Proof.
  intros Hfs Hn Hb Hl Ho H32 Hloc. pose proof (WriteFile_is F io S fr path cs c data off Hfs Hn Hb Hl Ho H32) as Hw. rewrite Hloc in Hw.
  destruct Hw as (r & io' & S' & fr' & E & Hfs' & _ & Hr). exists r, io'. split; [done|]. destruct r as [w|e]; [|by destruct Hr].
  destruct Hr as (Hw & _ & b' & -> & Hwr). split; [done|]. pose proof (locate_add_file F S cs c d n b b' Hloc) as Hloc'.
  rewrite (ReadFile_is F io' _ fr' path cs c w off) by (done || lia || by rewrite Hloc'). unfold node_at. rewrite Hloc'.
  destruct Hwr as (_ & Hx & _). rewrite length_slice in Hx by lia. by rewrite Hx.
Qed.

(** C13. [ListDirectory] reports the files and the directories of a directory, each once, with the
    dot entries of the volume; of anything else it reports nothing. *)
Theorem fat_ListDirectory io S fr path ents :
  fs_rep F io S fr → dir_named F S path ents →
  ∃ R, ListDirectory F path io = Ok (R, io) ∧ match ents with Some ents => listing ents R | None => R = [] end.
Proof. apply ListDirectory_is. Qed.

(** A formatted volume with a fixed root directory in which every slot has the end mark holds
    the empty file system. *)
Theorem fat_format io :
  kHasFixedRootDir = true → volume_ok F io → Forall (λ e, IsFurtherEntriesFree e = true) (slots (root_data F io)) →
  fs_rep F io {[root F := ∅]} (free_clusters F io).
Proof. apply format_rep. Qed.

(** A chain that ends has no cluster twice and no more clusters than the volume: the walks over
    it end, and freeing it clears its entries of the table and nothing else. *)
Theorem fat_chain_ends io v c l :
  Rep F io v → chain (v_fat v) c l → clus c = c →
  NoDup l ∧ zlen l ≤ cluster_count F ∧
  ∃ io', FreeClusterChain F c io = Ok (tt, io') ∧ Rep F io' (clear_fat l v) ∧
    ∀ x, v_fat (clear_fat l v) !! x = if decide (x ∈ l) then Some 0 else v_fat v !! x.
Proof.
  intros HR Hc Hcl. pose proof (Rep_vok _ _ _ HR) as Hv. split_and!; [by eapply chain_NoDup|by eapply chain_length|].
  pose proof (wp_FreeLoop F io v (Z.to_nat (cluster_count F) + 3) c l HR Hc (chain_fuel F v c l Hv Hc)) as Hw.
  apply wp_total in Hw as ([] & io' & E & HR'). exists io'. unfold FreeClusterChain. rewrite Hcl. split_and!; [done..|]. intros x. apply clear_fat_lookup.
Qed.
End spec.

(** ** On the volume *)

Section witnesses.
Existing Instance Fat12.

Lemma fat_queries_witness : GetFileSize demo_F (p_ "/a.txt") demo_io1 = Ok (Value 0, demo_io1).
Proof.
  destruct demo_file as [fr Hfs]. destruct demo_paths as (Ha & _ & _).
  pose proof (fat_queries (I := Fat12) demo_F demo_io1 demo_S1 fr _ _ _ Hfs Ha) as H. unfold node_at in H. rewrite demo_locate in H.
  apply H. done.
Defined.

Lemma fat_ReadFile_witness : ReadFile demo_F (p_ "/a.txt") true 10 0 demo_io1 = Ok (Value [], demo_io1).
Proof.
  destruct demo_file as [fr Hfs]. destruct demo_paths as (Ha & _ & _).
  pose proof (fat_ReadFile (I := Fat12) demo_F demo_io1 demo_S1 fr _ _ _ 10 0 Hfs Ha) as H. unfold node_at in H. rewrite demo_locate in H.
  apply H; done.
Defined.

Lemma fat_WriteFile_witness : ∃ r io', WriteFile demo_F (p_ "/a.txt") (Some [1; 2; 3]) 5 demo_io1 = Ok (r, io').
Proof.
  destruct demo_file as [fr Hfs]. destruct demo_paths as (Ha & _ & _).
  pose proof (fat_WriteFile (I := Fat12) demo_F demo_io1 demo_S1 fr _ _ _ [1; 2; 3] 5 Hfs Ha) as H. rewrite demo_locate in H.
  destruct H as (r & io' & S' & fr' & E & _); [apply (bool_decide_unpack _); vm_compute; exact I|done..|]. eauto.
Defined.


Lemma fat_CreateDirectory_witness : ∃ r io', CreateDirectory demo_F (p_ "/b") demo_io = Ok (r, io').
Proof.
  destruct demo_paths as (_ & _ & Hb).
  destruct (fat_CreateDirectory (I := Fat12) demo_F demo_io _ _ _ _ _ demo_empty Hb) as (r & io' & S' & fr' & d' & E & _); [done|apply demo_new_name|]. eauto.
Defined.

Lemma fat_DeleteFile_witness : ∃ io', DeleteFile demo_F (p_ "/a.txt") demo_io1 = Ok (Value tt, io').
Proof.
  destruct demo_file as [fr Hfs]. destruct demo_paths as (Ha & _ & _).
  pose proof (fat_DeleteFile (I := Fat12) demo_F demo_io1 demo_S1 fr _ _ _ Hfs Ha) as H. rewrite demo_locate in H.
  destruct H as (io' & fr' & E & _). eauto.
Defined.

Lemma fat_RemoveDirectory_witness : ∃ io', RemoveDirectory demo_F (p_ "/d") demo_io2 = Ok (Value tt, io').
Proof.
  destruct demo_dir as (fr & d' & Hd' & Hfs). destruct demo_paths as (_ & Hd & _).
  pose proof (fat_RemoveDirectory (I := Fat12) demo_F demo_io2 (demo_S2 d') fr _ _ _ Hfs Hd) as H. rewrite demo_locate_dir in H by done.
  assert (HS : demo_S2 d' !! d' = Some ∅) by apply lookup_insert_eq.
  rewrite HS, bool_decide_eq_true_2 in H by (intros n x E; cbn in E; by rewrite lookup_empty in E).
  destruct H as (io' & fr' & E & _). eauto.
Defined.

Lemma fat_Move_witness : ∃ r io', Move demo_F (p_ "/a.txt") (p_ "/b") demo_io1 = Ok (r, io').
Proof.
  destruct demo_file as [fr Hfs]. destruct demo_paths as (Ha & _ & Hb).
  destruct (fat_Move (I := Fat12) demo_F demo_io1 demo_S1 fr _ _ _ _ _ _ Hfs Ha Hb) as (r & io' & S' & fr' & E & _);
    [by apply (bool_decide_unpack _); vm_compute|by rewrite demo_locate|done|apply demo_new_name|]. eauto.
Defined.

Lemma fat_write_read_witness : ∃ r io', WriteFile demo_F (p_ "/a.txt") (Some [1; 2; 3]) 0 demo_io1 = Ok (r, io').
Proof.
  destruct demo_file as [fr Hfs]. destruct demo_paths as (Ha & _ & _).
  destruct (fat_write_read (I := Fat12) demo_F demo_io1 demo_S1 fr _ _ _ 0 demo_a [] [1; 2; 3] 0 Hfs Ha) as (r & io' & E & _);
    [apply (bool_decide_unpack _); vm_compute; exact I|done..|apply demo_locate|]. eauto.
Defined.

Lemma fat_ListDirectory_witness : ∃ R, ListDirectory demo_F kRoot demo_io1 = Ok (R, demo_io1).
Proof.
  destruct demo_file as [fr Hfs].
  destruct (fat_ListDirectory (I := Fat12) demo_F demo_io1 demo_S1 fr kRoot (demo_S1 !! root demo_F) Hfs) as (R & E & _); [left; split; [apply kRoot_is|done]|]. eauto.
Defined.

Lemma fat_format_witness : fs_rep demo_F demo_io {[root demo_F := ∅]} (free_clusters demo_F demo_io).
Proof. apply (fat_format (I := Fat12) demo_F demo_io eq_refl demo_volume_ok). apply (bool_decide_unpack _). vm_compute. exact I. Defined.

Lemma fat_chain_ends_witness : ∃ io', FreeClusterChain demo_F 2 demo_io2 = Ok (tt, io').
Proof.
  destruct (fat_chain_ends (I := Fat12) demo_F demo_io2 (vol_of demo_F demo_io2) 2 [2] (vol_of_rep demo_F demo_io2 demo_volume2_ok)) as (_ & _ & io' & E & _).
  - split; [reflexivity|]. exists kEOC. split; [vm_compute; reflexivity|vm_compute; discriminate].
  - vm_compute. reflexivity.
  - exists io'. exact E.
Defined.
End witnesses.
