(* ===== verification/VfsSpec.v ===== *)
(** * What the virtual file system promises
    The table of mounts refines a finite map.  A path below a mount point reaches the driver of
    that mount with the components that are left, if no other mount path begins with the text of
    this one.  Nothing that is read only is changed. *)
From S2P Require Import Prelude Bytes Path PathSpec CritBit FatDisk Fat Vfs.

(** ** Texts and bits *)

Lemma key_byte_app k r i : 0 ≤ i < zlen k → key_byte (k ++ r) i = key_byte k i.
Proof.
  intros Hi. unfold key_byte. rewrite length_app, !(proj2 (Z.ltb_lt _ _)) by lia.
  rewrite !list_lookup_total_alt, lookup_app_l by lia. done.
Qed.

Lemma prefix_agree k r : agree (8 * zlen k) k (k ++ r).
Proof. intros i Hi. unfold kbit. by rewrite key_byte_app by (Z.to_euclidean_division_equations; lia). Qed.

Lemma kbit_byte k p i :
  good_key k → good_key p → (∀ j, 8 * i ≤ j < 8 * i + 8 → kbit k j = kbit p j) → key_byte k i = key_byte p i.
Proof.
  intros Hk Hp H. apply Z.bits_inj'. intros j Hj. destruct (decide (j < 8)).
  - specialize (H (bit_pos i j)). rewrite !kbit_pos in H by lia. apply H. unfold bit_pos. lia.
  - by rewrite !testbit_byte by (lia || by apply key_byte_range).
Qed.

Lemma good_key_app k r : good_key (k ++ r) ↔ good_key k ∧ good_key r.
Proof. apply Forall_app. Qed.

Lemma agree_prefix k r p : good_key (k ++ r) → good_key p → agree (8 * zlen k) p (k ++ r) → k `prefix_of` p.
Proof.
  intros Hkr Hp Ha. pose proof Hkr as [Hk Hr]%good_key_app.
  assert (Hb : ∀ i, 0 ≤ i < zlen k → key_byte p i = key_byte k i).
  { intros i Hi. rewrite <- (key_byte_app k r) by done. apply kbit_byte; [done..|]. intros j Hj. apply Ha. lia. }
  assert (Hl : zlen k ≤ zlen p).
  { destruct (decide (zlen k ≤ zlen p)); [done|]. specialize (Hb (zlen p) ltac:(lia)). pose proof (key_byte_pos k (zlen p) Hk ltac:(lia)) as Hpos.
    unfold key_byte in Hb at 1. rewrite Z.ltb_irrefl in Hb. lia. }
  exists (drop (length k) p). rewrite <- (take_drop (length k) p) at 1. f_equal. apply list_eq_same_length with (length k); [done|rewrite length_take; lia|].
  intros i x y Hi Hx Hy. rewrite lookup_take_lt in Hx by done. specialize (Hb (Z.of_nat i) ltac:(lia)). unfold key_byte in Hb.
  rewrite !(proj2 (Z.ltb_lt _ _)), Nat2Z.id in Hb by lia. by rewrite (list_lookup_total_correct _ _ _ Hx), (list_lookup_total_correct _ _ _ Hy) in Hb.
Qed.

(** ** The table *)

Section table.
Context {W : Type}.
Implicit Types (v : VfsModule W) (m : gmap (list Z) (MountPoint W)) (p : Path) (mp : MountPoint W).

Abbreviation mounts_are v m := (stands_for (Mounts v) m).

(** The mount point that the search ends at when no other mount path extends its text. *)
Lemma best_mount v m k r mp :
  mounts_are v m → m !! k = Some mp → good_key (k ++ r) → (∀ k', is_Some (m !! k') → k `prefix_of` k' → k' = k) →
  GetLongestPrefixMatch (k ++ r) (Mounts v) = Ok (Some mp, Mounts v).
Proof.
  intros [Hm _] Hk Hg Hx. destruct (Mounts v) as [n|] eqn:En; [|by rewrite Hm, lookup_empty in Hk]. destruct Hm as [Hw <-].
  destruct (BestMatch_in 0 n (k ++ r) Hg Hw) as (p & w & E & Hp).
  assert (Hpk : p = k).
  { apply Hx; [by exists w|]. apply (agree_prefix k r); [done|by eapply wf_good; [exact Hw|]; exists w|].
    eapply (BestMatch_longest 0 n); [done..|by exists mp|apply prefix_agree]. }
  subst p. rewrite Hk in Hp. simplify_eq. unfold GetLongestPrefixMatch, GetBestMatch, mbind, M_bind, getS, mret, M_ret. cbn. by rewrite E.
Qed.

(** Every mount point that the search ends at is one of the table. *)
Lemma any_mount v m t :
  mounts_are v m → good_key t →
  ∃ o, GetLongestPrefixMatch t (Mounts v) = Ok (o, Mounts v) ∧ ∀ mp, o = Some mp → ∃ k, m !! k = Some mp.
Proof.
  intros [Hm _] Ht. destruct (Mounts v) as [n|]; cbn; [|by exists None].
  destruct Hm as [Hw <-]. destruct (BestMatch_in 0 n t Ht Hw) as (p & w & E & Hp). exists (Some w).
  unfold GetLongestPrefixMatch, GetBestMatch, mbind, M_bind, getS, mret, M_ret. cbn. rewrite E. split; [done|]. intros mp [= <-]. eauto.
Qed.

(** ** Relative paths *)

Lemma path_of_comp c : comp_ok c → zlen c < kMaxPathSize → path_is (path_of c) false [c].
Proof.
  intros Hc Hl. assert (Hpr : print false [c] = c) by (unfold print; cbn; by rewrite app_nil_r).
  destruct (path_of_print false [c]) as [Hq _]; [by constructor|done|by rewrite Hpr|]. by rewrite Hpr in Hq.
Qed.

Lemma comp_fits a c cs : c ∈ cs → zlen c ≤ zlen (print a cs).
Proof.
  intros H. unfold print. rewrite length_app. enough (∀ f, zlen c ≤ zlen (printed f cs)) as He by (specialize (He true); lia).
  induction cs as [|d cs IH]; [by apply not_elem_of_nil in H|]. intros f. cbn [printed]. rewrite !length_app.
  apply elem_of_cons in H as [->|H]; [lia|]. specialize (IH H false). lia.
Qed.

Lemma append_all r acc cs :
  path_is r true acc → Forall comp_ok cs → zlen (acc ++ cs) ≤ kMaxComponents → zlen (print true (acc ++ cs)) < kMaxPathSize →
  ∃ q, fold_left (λ r c, r ← r; path_append_assign r (path_of c)) cs (Some r) = Some q ∧ path_is q true (acc ++ cs).
Proof.
  intros Hr Hc. revert r acc Hr. induction Hc as [|c cs Hc _ IH]; intros r acc Hr Hn Hl.
  { exists r. by rewrite app_nil_r. }
  cbn [fold_left mbind option_bind]. rewrite (cons_middle c acc cs), app_assoc in *.
  assert (Hsub : acc ++ [c] `sublist_of` (acc ++ [c]) ++ cs) by apply sublist_inserts_r, reflexivity.
  pose proof (print_sub true _ _ Hsub) as Hpl. pose proof (sublist_length _ _ Hsub) as Hln.
  assert (Hcl : zlen c ≤ zlen (print true (acc ++ [c]))) by (apply comp_fits, elem_of_app; right; by apply list_elem_of_singleton).
  destruct (path_append_is r (path_of c) true acc [c] Hr) as (q & Eq & Hq & _); [apply path_of_comp; [done|lia]|lia|lia|].
  unfold path_append_assign. rewrite Eq. cbn [fmap option_fmap option_map]. rewrite (copy_is _ _ _ Hq). by apply IH.
Qed.

Lemma GetRelativePath_is p q ms cs :
  path_is p true (ms ++ cs) → path_is q true ms →
  ∃ r, GetRelativePath p q = Some r ∧ path_is r true cs ∧ (ms = [] → r = p).
Proof.
  intros Hp Hm. unfold GetRelativePath, IsRoot. rewrite (pi_abs _ _ _ Hm). cbn [andb].
  pose proof (count_is _ _ _ Hp) as Hcp. pose proof (count_is _ _ _ Hm) as Hcm. unfold ComponentCount in *. rewrite length_app in Hcp.
  destruct ms as [|c0 ms].
  { rewrite Hcm. exists p. rewrite (copy_is _ _ _ Hp). done. }
  rewrite Hcp, Hcm. rewrite (proj2 (Z.eqb_neq _ 0)) by (cbn; lia). destruct (Z.leb_spec (Z.of_nat (length (c0 :: ms) + length cs)) (zlen (c0 :: ms))) as [Hle|Hlt].
  - destruct cs; [|cbn in Hle; lia]. exists kRoot. split_and!; [done|apply kRoot_is|done].
  - rewrite (pi_strings _ _ _ Hp), Nat2Z.id, drop_app_length.
    destruct (append_all kRoot [] cs) as (q' & Eq & Hq); [apply kRoot_is|by eapply Forall_app, Hp| | |exists q'; split_and!; done].
    + pose proof (pi_count _ _ _ Hp) as H. rewrite length_app in H. cbn [app]. lia.
    + pose proof (pi_print _ _ _ Hp). pose proof (pi_len _ _ _ Hp). assert (zlen (print true cs) ≤ zlen (print true ((c0 :: ms) ++ cs))); [|cbn [app] in *; lia].
      apply print_sub, sublist_inserts_l. done.
Qed.
(** [t] is the whole text of a path object. *)
Definition text_is (p : Path) (t : list Z) : Prop := CString p = t ∧ good_key t ∧ zlen t < 2 ^ 32.

(** [p] lies below the mount point [mp], at the components [cs]; no other mount path begins with
    the text of its path. *)
Definition below (m : gmap (list Z) (MountPoint W)) (p : Path) (mp : MountPoint W) (cs : list (list Z)) : Prop :=
  ∃ ms r, path_is p true (ms ++ cs) ∧ path_is (mount_path mp) true ms ∧ text_is p (CString (mount_path mp) ++ r) ∧
    m !! CString (mount_path mp) = Some mp ∧
    ∀ k, is_Some (m !! k) → CString (mount_path mp) `prefix_of` k → k = CString (mount_path mp).

(** An operation of a driver on the devices of the module. *)
Definition run_devices {A} (c : M W A) v : res (A * VfsModule W) :=
  match c (devices v) with
  | Ok (x, w) => Ok (x, mkVfs (Mounts v) w)
  | Stop e => Stop e
  end.

Lemma nonempty_path p cs : path_is p true cs → IsEmpty p = false.
Proof. intros H. unfold IsEmpty. apply Z.eqb_neq. pose proof (pi_print _ _ _ H) as Hp. unfold print in Hp. cbn in Hp. lia. Qed.

Lemma FindMountPoint_below v m p mp cs :
  mounts_are v m → below m p mp cs → FindMountPoint p v = Ok (Value mp, v).
Proof.
  intros Hv (ms & r & Hp & Hm & (Ht & Hg & _) & Hmp & Hx). unfold FindMountPoint, ret_if. rewrite (nonempty_path _ _ Hp).
  unfold on_mounts, zoom, mbind, M_bind. rewrite Ht, (best_mount v m _ r mp) by done. destruct v. done.
Qed.

Lemma relative_below v m p mp cs :
  below m p mp cs →
  ∃ r, GetRelativePath p (mount_path mp) = Some r ∧ relative p mp v = Ok (r, v) ∧ path_is r true cs ∧ (mount_path mp = kRoot → r = p).
Proof.
  intros (ms & r & Hp & Hm & _). destruct (GetRelativePath_is p (mount_path mp) ms cs Hp Hm) as (q & Eq & Hq & Hr). exists q.
  unfold relative. rewrite Eq. split_and!; [done..|]. intros E. apply Hr. rewrite E in Hm.
  rewrite <- (pi_strings _ _ _ Hm). apply (pi_strings _ _ _ kRoot_is).
Qed.

Lemma dispatch_below v m p mp cs :
  mounts_are v m → below m p mp cs →
  ∃ r, GetRelativePath p (mount_path mp) = Some r ∧ path_is r true cs ∧ (mount_path mp = kRoot → r = p) ∧
    (∀ A changes (op : Filesystem W → Path → M W (Result A)),
       dispatch changes p op v =
         if changes && read_only (options mp) then Ok (Unexpected kReadOnly, v) else run_devices (op (fs mp) r) v) ∧
    ListDirectory p v = run_devices (list_directory (fs mp) r) v.
Proof.
  intros Hv Hb. destruct (relative_below v m p mp cs Hb) as (r & Eg & Er & Hr & Hk). exists r. split_and!; [done..| |];
    pose proof (FindMountPoint_below v m p mp cs Hv Hb) as Ef; unfold dispatch, ListDirectory, ret_if, mbind, M_bind; rewrite Ef; [|by rewrite Er].
  intros A changes op. destruct (changes && read_only (options mp)); [done|]. by rewrite Er.
Qed.

(** A change through a mount point. *)
Definition guarded {A} mp (c : M W (Result A)) v : res (Result A * VfsModule W) :=
  if read_only (options mp) then Ok (Unexpected kReadOnly, v) else run_devices c v.

(** C10. An operation on a path below a mount point calls the driver mounted there, once, with the
    path of the components that follow the mount path; a change of a read-only mount is refused. *)
Theorem vfs_dispatch v m p mp cs :
  mounts_are v m → below m p mp cs →
  ∃ r, path_is r true cs ∧
    (∀ b n off, ReadFile p b n off v = run_devices (read_file (fs mp) r b n off) v) ∧
    (∀ d off, WriteFile p d off v = guarded mp (write_file (fs mp) r d off) v) ∧
    CreateFile p v = guarded mp (create_file (fs mp) r) v ∧
    DeleteFile p v = guarded mp (delete_file (fs mp) r) v ∧
    CreateDirectory p v = guarded mp (create_directory (fs mp) r) v ∧
    RemoveDirectory p v = guarded mp (remove_directory (fs mp) r) v ∧
    FileExists p v = run_devices (file_exists (fs mp) r) v ∧
    GetFileSize p v = run_devices (get_file_size (fs mp) r) v ∧
    DirectoryExists p v = run_devices (directory_exists (fs mp) r) v ∧
    Exists p v = run_devices (exists_ (fs mp) r) v ∧
    ListDirectory p v = run_devices (list_directory (fs mp) r) v.
Proof.
  intros Hv Hb. destruct (dispatch_below v m p mp cs Hv Hb) as (r & _ & Hr & _ & Hd & Hl). exists r. split_and!; try done.
  - intros b n off. exact (Hd _ false (λ f p, read_file f p b n off)).
  - intros d off. exact (Hd _ true (λ f p, write_file f p d off)).
  - apply (Hd _ true).
  - apply (Hd _ true).
  - apply (Hd _ true).
  - apply (Hd _ true).
  - apply (Hd _ false).
  - apply (Hd _ false).
  - apply (Hd _ false).
  - apply (Hd _ false).
Qed.

(** [Move] between two mounts is refused; within one mount it calls its driver with both
    relative paths, unless the mount is read only. *)
Theorem vfs_Move v m p mp cs q mq ds :
  mounts_are v m → below m p mp cs → below m q mq ds →
  (mp = mq → ∃ r s, path_is r true cs ∧ path_is s true ds ∧ Move p q v = guarded mp (move_ (fs mp) r s) v) ∧
  (mp ≠ mq → Move p q v = Ok (Unexpected kCrossFilesystemRename, v)).
Proof.
  intros Hv Hp Hq. pose proof (FindMountPoint_below v m p mp cs Hv Hp) as Ep. pose proof (FindMountPoint_below v m q mq ds Hv Hq) as Eq.
  destruct (relative_below v m p mp cs Hp) as (r & _ & Er & Hr & _). destruct (relative_below v m q mq ds Hq) as (s & _ & Es & Hs & _).
  assert (Hk : CString (mount_path mp) = CString (mount_path mq) → mp = mq).
  { destruct Hp as (? & ? & _ & _ & _ & Hmp & _), Hq as (? & ? & _ & _ & _ & Hmq & _). intros E. rewrite E, Hmq in Hmp. by injection Hmp. }
  unfold Move, guarded, ret_if, mbind, M_bind. rewrite Ep, Eq. split.
  - intros ->. exists r, s. split_and!; [done..|]. rewrite bool_decide_eq_true_2 by done. cbn [negb].
    destruct (read_only (options mq)); [done|]. by rewrite Er, Es.
  - intros Hne. by rewrite bool_decide_eq_false_2 by auto.
Qed.

(** C15. Where every mount is read only, no operation changes anything: each one that would ends
    with an error and leaves the module and the devices as they are. *)
Theorem vfs_read_only v m p q d off :
  mounts_are v m → (∀ k mp, m !! k = Some mp → read_only (options mp) = true) → good_key (CString p) → good_key (CString q) →
  (∃ e, CreateFile p v = Ok (Unexpected e, v)) ∧ (∃ e, WriteFile p d off v = Ok (Unexpected e, v)) ∧
  (∃ e, DeleteFile p v = Ok (Unexpected e, v)) ∧ (∃ e, CreateDirectory p v = Ok (Unexpected e, v)) ∧
  (∃ e, RemoveDirectory p v = Ok (Unexpected e, v)) ∧ (∃ e, Move p q v = Ok (Unexpected e, v)).
Proof.
  intros Hv Hro Hp Hq.
  assert (Hf : ∀ p, good_key (CString p) → ∃ r, FindMountPoint p v = Ok (r, v) ∧ ∀ mp, r = Value mp → read_only (options mp) = true).
  { intros p' Hp'. destruct (any_mount v m _ Hv Hp') as (o & E & Ho). unfold FindMountPoint, ret_if. destruct (IsEmpty p'); [by eexists|].
    unfold on_mounts, zoom, mbind, M_bind. rewrite E. destruct v. destruct o as [mp|]; eexists; (split; [done|]); [|done].
    intros ? [= <-]. destruct (Ho mp eq_refl) as [k Hk]. by eapply Hro. }
  assert (Hd : ∀ A (op : Filesystem W → Path → M W (Result A)), ∃ e, dispatch true p op v = Ok (Unexpected e, v)).
  { intros A op. destruct (Hf p Hp) as (r & E & Hr). unfold dispatch, ret_if, mbind, M_bind. rewrite E.
    destruct r as [mp|e]; [|by eexists]. rewrite (Hr mp) by done. by eexists. }
  split_and!; [apply Hd..|]. destruct (Hf p Hp) as (r & E & Hr), (Hf q Hq) as (r' & E' & Hr'). unfold Move, ret_if, mbind, M_bind. rewrite E.
  destruct r as [mp|e]; [|by eexists]. rewrite E'. destruct r' as [mq|e]; [|by eexists]. rewrite (Hr mp) by done.
  destruct (negb _); by eexists.
Qed.
End table.

(** ** Mounting refines a finite map *)

Inductive mount_op (W : Type) : Type :=
| OpMount (a : allocs) (p : Path) (opts : MountOptions) (driver : Filesystem W)
| OpUnmount (p : Path).
Arguments OpMount {W}.
Arguments OpUnmount {W}.

Section mounting.
Context {W : Type}.
Implicit Types (v : VfsModule W) (m : gmap (list Z) (MountPoint W)) (p : Path).

Definition mount_do (o : mount_op W) : M (VfsModule W) (Result unit) :=
  match o with
  | OpMount a p opts driver => Mount a p opts driver
  | OpUnmount p => Unmount p
  end.

(** The table as a map from texts, and the devices, which mounting leaves alone. *)
Definition table_do (o : mount_op W) : M (gmap (list Z) (MountPoint W) * W) (Result unit) :=
  match o with
  | OpMount a p opts driver =>
      ret_if (IsEmpty p || negb (is_absolute p)) kInvalidPath (
      assertM (bool_decide (text_is p (CString p))) "text";; assertM (key_ok a) "key allocation";;
      s ← getS;
      let '(m, w) := s in
      ret_if (bool_decide (is_Some (m !! CString p))) kAlreadyMounted (
      ret_if (negb (external_ok a && (internal_ok a || bool_decide (m = ∅)))) kUnknownError (
      putS (<[CString p := mkMount (copy p) opts driver]> m, w);; mret (Value tt))))
  | OpUnmount p =>
      ret_if (IsEmpty p || negb (is_absolute p)) kInvalidPath (
      assertM (bool_decide (text_is p (CString p))) "text";;
      s ← getS;
      let '(m, w) := s in
      ret_if (negb (bool_decide (is_Some (m !! CString p)))) kNotMounted (
      putS (delete (CString p) m, w);; mret (Value tt)))
  end.

Definition table_is v (s : gmap (list Z) (MountPoint W) * W) : Prop := stands_for (Mounts v) s.1 ∧ devices v = s.2.

(** An operation on the tree whose specification on the map is known. *)
Lemma wp_mounts {A} (c : M (option (node (MountPoint W))) A) (r : M (gmap (list Z) (MountPoint W)) A) v m w x m' :
  refines stands_for c r → table_is v (m, w) → r m = Ok (x, m') →
  wp never (on_mounts c) (λ y v', y = x ∧ table_is v' (m', w)) v.
Proof.
  intros Hc [Hm Hw] E. unfold on_mounts. rewrite wp_zoom. specialize (Hc _ _ Hm). cbn [fst] in Hc. rewrite E in Hc.
  eapply wp_mono; [exact Hc|]. intros y t [-> Ht]. done.
Qed.

Lemma wp_Contains v m w k :
  good_key k → table_is v (m, w) →
  wp never (on_mounts (Contains k)) (λ b v', b = bool_decide (is_Some (m !! k)) ∧ table_is v' (m, w)) v.
Proof. intros Hk Hv. by eapply wp_mounts; [apply Contains_ok|..]. Qed.

Lemma mount_do_ok o : refines table_is (mount_do o) (table_do o).
Proof.
  destruct o as [a p opts driver|p]; intros v [m w] Hv; cbn [mount_do table_do]; unfold Mount, Unmount, ret_if, assertM;
    (destruct (IsEmpty p || negb (is_absolute p)); [done|]); unfold mbind at 1, M_bind at 1;
    (case_bool_decide as Ht; [|done]); destruct Ht as (_ & Hg & Hl); cbn.
  - unfold mbind at 1, M_bind at 1. destruct (key_ok a) eqn:Ha; [|done]. cbn. unfold mbind at 1, M_bind at 1. cbn.
    pose proof (Insert_ok false a (CString p) (mkMount (copy p) opts driver) Hg Hl Ha) as Hi.
    case_bool_decide as Hk; cbn.
    { rewrite wp_bind. eapply wp_mono; [by apply wp_Contains|]. cbn. intros b v' [-> Hv']. by rewrite bool_decide_eq_true_2. }
    destruct (external_ok a && (internal_ok a || bool_decide (m = ∅))) eqn:Ea; cbn; [unfold mbind at 1, M_bind at 1; cbn|];
      (rewrite wp_bind; eapply wp_mono; [by apply wp_Contains|]; cbn; intros b v' [-> Hv']; rewrite bool_decide_eq_false_2 by done;
       rewrite wp_bind; eapply wp_mono; [eapply (wp_mounts _ _ v' m w); [exact Hi|done|]|];
       [unfold map_insert, mbind, M_bind, getS; rewrite bool_decide_eq_false_2, Ea by done; done|by intros y v'' [-> Hv'']]).
  - unfold mbind at 1, M_bind at 1. cbn. case_bool_decide as Hk; cbn; [unfold mbind at 1, M_bind at 1; cbn|];
      (rewrite wp_bind; eapply wp_mono; [by apply wp_Contains|]; cbn; intros b v' [-> Hv']).
    + rewrite bool_decide_eq_true_2 by done. cbn. rewrite wp_bind. eapply wp_mono.
      * eapply (wp_mounts _ _ v' m w); [by apply Remove_ok|done|done].
      * intros y v'' [-> Hv'']. by rewrite bool_decide_eq_true_2.
    + by rewrite bool_decide_eq_false_2.
Qed.

(** Any sequence of [Mount] and [Unmount] keeps the table of mounts as a finite map from the
    texts of mount paths: a path is mounted once, only what is mounted can be unmounted, a call
    that reports an error changes nothing, and the devices are not touched. *)
Theorem vfs_mounts_refine_map (ops : list (mount_op W)) w :
  refines table_is (runs mount_do ops) (runs table_do ops) ∧ table_is (mkVfs None w) (∅, w).
Proof.
  split; [apply refines_runs, mount_do_ok|]. split; [|done]. split; [done|]. intros k [? Hk]. cbn in Hk. by rewrite lookup_empty in Hk.
Qed.
End mounting.
