(* ===== verification/VfsBoot.v ===== *)
(** * The virtual file system on the FAT driver
    The ramdisk that is mounted at boot is used through the module as through its driver; data
    written through the module to a mounted FAT volume is read back; and what the search for a
    mount point does when a mount path begins with the text of another. *)
From S2P Require Import Prelude Bytes Path PathSpec CritBit FatDisk Fat FatVolume FatFs FatOps FatWrite FatFormat FatSpec Vfs VfsSpec.

Lemma ReadSector0 E io Q :
  sector_size io = 512 → (512 ≤ zlen (disk io) → Q (slice 0 512 (disk io)) io) → (zlen (disk io) < 512 → E BadAccess) → wp E (ReadSector 0) Q io.
Proof.
  intros Es Hq He. unfold ReadSector, ReadRange. rewrite wp_bind, wp_get. cbn [count start]. rewrite Es, wp_bind. apply wp_assert; [done|].
  change (u64 (1 * 512)) with 512. change (u64 (0 * 512)) with 0. change (0 + 512) with 512.
  destruct (Z.leb_spec 512 (zlen (disk io))); [by apply Hq|by apply He].
Qed.

Lemma wp_any {S A} (m : M S A) (Q : A → S → Prop) s : (∀ a s', Q a s') → wp (λ _, True) m Q s.
Proof. intros H. unfold wp. destruct (m s) as [[a s']|]; auto. Qed.

Lemma wp_span_get E n o (l : list Z) Q (io : InMemory) :
  (o + n ≤ zlen l → Q (slice o n l) io) → (zlen l < o + n → E (Panic "Offset out of bounds")) → wp E (span_get n o l) Q io.
Proof. intros Hq He. unfold wp, span_get, assertM, mbind, M_bind. destruct (Z.leb_spec (o + n) (zlen l)); cbn; auto. Qed.

Lemma get16_prefix n o l : 0 ≤ o → o + 2 ≤ n → n ≤ zlen l → get16 o (slice 0 n l) = get16 o l.
Proof.
  intros Ho Hn Hl. apply get16_slice; rewrite ?length_slice by lia; try lia. rewrite slice_slice by lia. done.
Qed.

(** What the checks of the ramdisk ensure that the constructor of the driver relies on. *)
Lemma IsValid16_inv io :
  sector_size io = 512 →
  wp (λ _, True) IsValid16 (λ b _, b = true → 512 ≤ zlen (disk io) ∧ 512 ≤ get16 11 (slice 0 512 (disk io)) < 65536) io.
Proof.
  intros Es. set (P := λ (b : bool) (_ : InMemory), b = true → _). unfold IsValid16. rewrite wp_bind.
  apply (wp_mono _ _ (λ b io', P b io')).
  - unfold IsValid_base. rewrite wp_bind. apply ReadSector0; [done| |done]. intros Hd. rewrite wp_bind. apply wp_span_get; [intros _|done].
    case_match; [done|]. rewrite wp_bind. apply wp_span_get; [intros _|done]. cbn zeta.
    case_match; [done|]. destruct (ValidateSectorAndClusterSize _) eqn:Ev; [cbn|done].
    assert (Hp : 512 ≤ zlen (disk io) ∧ 512 ≤ get16 11 (slice 0 512 (disk io)) < 65536).
    { split; [done|]. unfold ValidateSectorAndClusterSize in Ev. destruct (_ || (4096 <? _)) eqn:Eb in Ev; [done|].
      apply orb_false_iff in Eb as [[_ E1%Z.ltb_ge]%orb_false_iff E2%Z.ltb_ge]. cbn [bytes_per_sector read_boot] in E1, E2.
      rewrite (get16_prefix 36) in E1, E2 by (rewrite ?length_slice by lia; lia). lia. }
    repeat (case_match; [done|]). apply wp_any. by intros b io' _.
  - intros [] io' Hb; [|done]. apply wp_any. intros b io'' _. by apply Hb.
Qed.

Lemma Construct16_ok io :
  sector_size io = 512 → 512 ≤ zlen (disk io) → 512 ≤ get16 11 (slice 0 512 (disk io)) < 65536 →
  wp never (Construct (H := Fat16) (mkRange 0 0)) (λ F io',
    F.2 = layout (H := Fat16) (read_boot (slice 0 62 (disk io))) (read_boot32 (slice 0 62 (disk io))) ∧
    io' = mkIO (disk io) (get16 11 (disk io))) io.
Proof.
  intros Es Hd Hb. rewrite get16_prefix in Hb by lia. assert (Hs : slice 0 62 (slice 0 512 (disk io)) = slice 0 62 (disk io)) by (by rewrite slice_slice by lia).
  unfold Construct. rewrite wp_bind. apply ReadSector0; [done|intros _|lia]. rewrite wp_bind.
  apply wp_span_get; [intros _|rewrite length_slice by lia; cbn; lia]. change (@sizeof_BootSector Fat16) with 62. rewrite Hs.
  cbn zeta. change (@kCleanShutdownMarkerBit Fat16) with (Some (2 * 8 - 1)). cbn [mbind]. rewrite wp_bind, wp_bind.
  change (@GetFATEntry Fat16) with (plain_get 16 (kFullMask 16)). unfold plain_get, fat_place. cbn [boot_sector fat_region start bytes_per_sector read_boot].
  rewrite get16_prefix by lia.
  rewrite wp_bind. change (u64 (1 * (16 / 8))) with 2. change (16 / 8) with 2. rewrite Z.div_small, Z.mod_small by lia.
  change (u64 (0 + 0)) with 0. apply ReadSector0; [done|intros _|lia]. rewrite wp_bind. apply wp_span_get; [intros _|rewrite length_slice by lia; cbn; lia].
  rewrite !wp_ret. unfold SetSectorSize. rewrite wp_bind, wp_mod, wp_ret. cbn [snd disk]. split; [done|].
  cbn [boot_sector layout bytes_per_sector read_boot]. by rewrite get16_prefix by lia.
Qed.

(** The mount of the ramdisk. *)
Definition root_mount {W} (d : Filesystem W) : MountPoint W := mkMount kRoot (mkOptions false) d.

Lemma kRoot_text : CString kRoot = [kPathSeparator].
Proof. vm_compute. reflexivity. Qed.

Lemma absolute_text p cs t : path_is p true cs → text_is p t → ∃ r, t = CString kRoot ++ r.
Proof.
  intros Hp [<- _]. rewrite kRoot_text. pose proof (pi_parsed _ _ _ Hp) as E. pose proof (pi_abs _ _ _ Hp) as Ha. rewrite <- E in Ha.
  unfold Parse, slice in Ha. unfold CString. destruct (raw_path p) as [|c raw]; [by rewrite drop_nil, take_nil in Ha|]. cbn [Z.to_nat drop] in Ha.
  destruct (Z.to_nat (path_len p)); [done|]. cbn [take is_absolute] in Ha. apply Z.eqb_eq in Ha as ->. by eexists.
Qed.

(** Every absolute path is below the only mount, at the root. *)
Lemma root_below {W} (d : Filesystem W) p cs t :
  path_is p true cs → text_is p t → below {[CString kRoot := root_mount d]} p (root_mount d) cs.
Proof.
  intros Hp Ht. destruct (absolute_text p cs t Hp Ht) as [r ->]. exists [], r. cbn [mount_path root_mount app].
  split_and!; [done|apply kRoot_is|done|apply lookup_singleton_eq|]. by intros k [? [<- _]%lookup_singleton_Some] _.
Qed.

Lemma wp_devices {W A} E (c : M W A) Q (v : VfsModule W) : wp E (on_devices c) Q v ↔ wp E c (λ x w, Q x (mkVfs (Mounts v) w)) (devices v).
Proof. apply wp_zoom. Qed.

(** The first mount, at the root. *)
Lemma first_mount {W} a (d : Filesystem W) w :
  external_ok a = true → key_ok a = true →
  wp never (Mount a kRoot (mkOptions false) d) (λ r v,
    r = Value tt ∧ devices v = w ∧ stands_for (Mounts v) {[CString kRoot := root_mount d]}) (mkVfs None w).
Proof.
  intros He Hk. pose proof (mount_do_ok (OpMount a kRoot (mkOptions false) d) (mkVfs None w) (∅, w)) as Hm.
  assert (E : table_do (OpMount a kRoot (mkOptions false) d) (∅, w) = Ok (Value tt, ({[CString kRoot := root_mount d]}, w))).
  { unfold table_do, ret_if, assertM, mbind, M_bind. change (IsEmpty kRoot || negb (is_absolute kRoot)) with false.
    rewrite bool_decide_eq_true_2 by (split; [done|]; rewrite kRoot_text; split; [by repeat constructor|done]). rewrite Hk. cbn.
    rewrite lookup_empty, bool_decide_eq_false_2 by (by intros []). rewrite He, bool_decide_eq_true_2, orb_true_r by done. cbn.
    rewrite (copy_is _ _ _ kRoot_is). done. }
  rewrite E in Hm. eapply wp_mono; [apply Hm|].
  - split; [|done]. split; [done|]. intros k [? H]. cbn in H. by rewrite lookup_empty in H.
  - intros r v (-> & Hv & Hw). done.
Qed.

Lemma init_ok io a :
  let io0 := mkIO (disk io) 512 in
  IsValid16 io0 = Ok (true, io0) → external_ok a = true → key_ok a = true →
  let F := layout (H := Fat16) (read_boot (slice 0 62 (disk io))) (read_boot32 (slice 0 62 (disk io))) in
  wp never (VfsModule_init true true true a) (λ _ v,
    devices v = mkIO (disk io) (get16 11 (disk io)) ∧
    stands_for (Mounts v) {[CString kRoot := root_mount (GetFilesystem (H := Fat16) fat16_info F)]}) (mkVfs None io).
Proof.
  intros io0 Hv He Hk F. assert (Hi := IsValid16_inv io0 eq_refl). unfold wp in Hi. rewrite Hv in Hi. destruct (Hi eq_refl) as [Hd Hb]. cbn [disk io0] in Hd, Hb.
  unfold VfsModule_init. cbn [andb]. rewrite wp_bind. apply wp_assert; [done|]. rewrite wp_bind, wp_devices. cbn [devices Mounts].
  unfold SetSectorSize. rewrite wp_mod. cbn [disk]. fold io0. rewrite wp_bind, wp_devices. cbn [devices Mounts].
  unfold wp at 1. rewrite Hv. rewrite wp_bind, wp_devices. cbn [devices Mounts].
  eapply wp_mono; [by apply Construct16_ok|]. intros [warn F'] io' [EF ->]. cbn [snd] in *. subst F'. fold F. rewrite wp_bind.
  eapply wp_mono; [by apply (first_mount a)|]. intros r v (_ & Hw & Hs). done.
Qed.


Section composed.
Context `{I : FatImpl, L : !FatLaws I}.

Lemma written_then_read (v : VfsModule InMemory) m p mp comps info F S fr cs c d n b data off :
  stands_for (Mounts v) m → below m p mp comps → Vfs.fs mp = GetFilesystem info F → read_only (options mp) = false →
  fs_rep F (devices v) S fr → plain comps = cs ++ [c] → Forall bytes comps → locate F S cs c = Present d n (NFile b) →
  bytes data → 0 < zlen data → 0 ≤ off → off + zlen data < 2 ^ 32 →
  ∃ r v', WriteFile p (Some data) off v = Ok (r, v') ∧
    match r with
    | Value w => 0 < w ≤ zlen data ∧ ReadFile p true w off v' = Ok (Value (slice 0 w data), v')
    | Unexpected e => e = kDiskFull
    end.
Proof.
  intros Hv Hb Hfs Hro Hrep Hpl Hby Hloc Hd Hl Ho H32. destruct (dispatch_below v m p mp comps Hv Hb) as (q & Eq & Hq & _ & Hop & _).
  assert (Hn : names q cs c) by (by exists comps).
  pose proof (WriteFile_is F (devices v) S fr q cs c data off Hrep Hn Hd Hl Ho H32) as Hw. rewrite Hloc in Hw.
  destruct Hw as (r & io' & S' & fr' & E & Hrep' & _ & Hr). exists r, (mkVfs (Mounts v) io'). split.
  { etrans; [exact (Hop _ true (λ f p, write_file f p (Some data) off))|]. rewrite Hro, Hfs. cbn [andb]. unfold run_devices. cbn [write_file GetFilesystem]. by rewrite E. }
  destruct r as [w|e]; [|by destruct Hr]. destruct Hr as (Hw & _ & b' & -> & Hwr). split; [done|].
  destruct (dispatch_below (mkVfs (Mounts v) io') m p mp comps Hv Hb) as (q' & Eq' & _ & _ & Hop' & _). rewrite Eq in Eq'. injection Eq' as <-.
  etrans; [exact (Hop' _ false (λ f p, read_file f p true w off))|]. rewrite Hfs. cbn [andb]. unfold run_devices. cbn [read_file GetFilesystem devices].
  pose proof (locate_add_file F S cs c d n b b' Hloc) as Hloc'.
  rewrite (ReadFile_is F io' _ fr' q cs c w off) by (done || lia || by rewrite Hloc'). unfold node_at. rewrite Hloc'.
  destruct Hwr as (_ & Hx & _). rewrite length_slice in Hx by lia. by rewrite Hx.
Qed.

(** C9. On a FAT volume that is mounted writable, what [WriteFile] of the virtual file system has
    written to a file, its [ReadFile] reads at the same place. *)
Theorem vfs_write_read (v : VfsModule InMemory) m p mp comps info F S fr cs c d n b data off :
  stands_for (Mounts v) m → below m p mp comps → Vfs.fs mp = GetFilesystem info F → read_only (options mp) = false →
  fs_rep F (devices v) S fr → plain comps = cs ++ [c] → Forall bytes comps → locate F S cs c = Present d n (NFile b) →
  bytes data → 0 < zlen data → 0 ≤ off → off + zlen data < 2 ^ 32 →
  ∃ r v', WriteFile p (Some data) off v = Ok (r, v') ∧
    match r with
    | Value w => 0 < w ≤ zlen data ∧ ReadFile p true w off v' = Ok (Value (slice 0 w data), v')
    | Unexpected e => e = kDiskFull
    end.
Proof. intros. by eapply written_then_read. Qed.
End composed.

(** The search for a mount point does not find the longest mount path: with file systems
    mounted at "/" and at "/mnt", the path "/foo" is sent to the second, as its root. *)
Theorem vfs_other_mount {W} (d1 d2 : Filesystem W) w (a := mkAllocs true true true) :
  ∃ v, (Mount a (p_ "/") (mkOptions false) d1;; Mount a (p_ "/mnt") (mkOptions false) d2) (mkVfs None w) = Ok (Value tt, v) ∧
    FindMountPoint (p_ "/foo") v = Ok (Value (mkMount (p_ "/mnt") (mkOptions false) d2), v) ∧
    Exists (p_ "/foo") v = run_devices (exists_ d2 kRoot) v.
Proof. eexists. split_and!; [vm_compute; reflexivity..|]. vm_compute. reflexivity. Qed.

(** ** A mounted volume *)

Section witnesses.
Existing Instance Fat12.

Definition demo_driver : Filesystem InMemory := GetFilesystem (mkInfo kFat12 (chars "FAT12")) demo_F.
Definition demo_vfs (ro : bool) (io : InMemory) : VfsModule InMemory :=
  mkVfs (Some (ExternalNode (Some (CString kRoot)) (mkMount kRoot (mkOptions ro) demo_driver))) io.

Lemma demo_mounts ro io : stands_for (Mounts (demo_vfs ro io)) {[CString kRoot := mkMount kRoot (mkOptions ro) demo_driver]}.
Proof.
  split; [split; [|done]; rewrite kRoot_text; by repeat constructor|]. intros k [? [<- _]%lookup_singleton_Some]. by rewrite kRoot_text.
Qed.

Lemma demo_below s c :
  bool_decide (zlen (chars s) < kMaxPathSize ∧ Forall (λ c, 0 < c < 256) (chars s) ∧ hd_error (chars s) = Some kPathSeparator ∧
    take 64 (split (chars s)) = [c] ∧ CString (p_ s) = chars s) = true →
  below {[CString kRoot := root_mount demo_driver]} (p_ s) (root_mount demo_driver) [c].
Proof.
  intros (H1 & H2 & H3 & H4 & H5)%bool_decide_eq_true. assert (Hz : Forall (λ c, c ≠ 0) (chars s)) by (eapply Forall_impl; [exact H2|]; cbn; lia).
  destruct (path_of_is _ H1 Hz) as [Hp _]. rewrite H4, bool_decide_eq_true_2 in Hp by done.
  apply (root_below _ _ _ (chars s) Hp). split_and!; [done..|]. unfold kMaxPathSize in H1. lia.
Qed.

Lemma vfs_dispatch_witness : ∃ r, path_is r true [chars "a.txt"] ∧
  FileExists (p_ "/a.txt") (demo_vfs false demo_io1) = run_devices (Fat.FileExists demo_F r) (demo_vfs false demo_io1).
Proof.
  destruct (vfs_dispatch (demo_vfs false demo_io1) _ (p_ "/a.txt") (root_mount demo_driver) [chars "a.txt"] (demo_mounts false demo_io1)) as (r & Hr & _ & _ & _ & _ & _ & _ & E & _).
  - apply demo_below. vm_compute. reflexivity.
  - exists r. split; [exact Hr|exact E].
Defined.

Lemma vfs_Move_witness : ∃ r s, path_is r true [chars "a.txt"] ∧ path_is s true [chars "b.txt"] ∧
  Move (p_ "/a.txt") (p_ "/b.txt") (demo_vfs false demo_io1) = run_devices (Fat.Move demo_F r s) (demo_vfs false demo_io1).
Proof.
  destruct (vfs_Move (demo_vfs false demo_io1) _ (p_ "/a.txt") (root_mount demo_driver) [chars "a.txt"] (p_ "/b.txt") (root_mount demo_driver) [chars "b.txt"]
    (demo_mounts false demo_io1)) as [H _].
  - apply demo_below. vm_compute. reflexivity.
  - apply demo_below. vm_compute. reflexivity.
  - exact (H eq_refl).
Defined.

Lemma vfs_read_only_witness : ∃ e, DeleteFile (p_ "/a.txt") (demo_vfs true demo_io1) = Ok (Unexpected e, demo_vfs true demo_io1).
Proof.
  destruct (vfs_read_only (demo_vfs true demo_io1) _ (p_ "/a.txt") (p_ "/b.txt") None 0 (demo_mounts true demo_io1)) as (_ & _ & H & _).
  - by intros k mp [_ <-]%lookup_singleton_Some.
  - apply (bool_decide_unpack _). vm_compute. exact I.
  - apply (bool_decide_unpack _). vm_compute. exact I.
  - exact H.
Defined.

Lemma vfs_write_read_witness : ∃ r v', WriteFile (p_ "/a.txt") (Some [1; 2; 3]) 0 (demo_vfs false demo_io1) = Ok (r, v') ∧
  match r with
  | Value w => 0 < w ≤ 3 ∧ ReadFile (p_ "/a.txt") true w 0 v' = Ok (Value (slice 0 w [1; 2; 3]), v')
  | Unexpected e => e = kDiskFull
  end.
Proof.
  destruct demo_file as [fr Hfs].
  apply (vfs_write_read (I := Fat12) (demo_vfs false demo_io1) _ (p_ "/a.txt") (root_mount demo_driver) [chars "a.txt"] (mkInfo kFat12 (chars "FAT12"))
    demo_F demo_S1 fr [] (chars "a.txt") 0 demo_a [] [1; 2; 3] 0 (demo_mounts false demo_io1)).
  - apply demo_below. vm_compute. reflexivity.
  - reflexivity.
  - reflexivity.
  - exact Hfs.
  - vm_compute. reflexivity.
  - apply (bool_decide_unpack _). vm_compute. exact I.
  - exact demo_locate.
  - apply (bool_decide_unpack _). vm_compute. exact I.
  - done.
  - done.
  - done.
Defined.

(** The start of a FAT16 ramdisk of 4200 sectors: boot sector and first sector of the table. *)
Definition ramdisk_boot : list Z :=
  [0xEB; 0x3C; 0x90] ++ replicate 8 32 ++ le16 512 ++ [1] ++ le16 1 ++ [1] ++ le16 16 ++ le16 4200 ++ [0xF8] ++ le16 17 ++
  le16 1 ++ le16 1 ++ le32 0 ++ le32 0.
Definition ramdisk : list Z :=
  splice 510 (le16 0xAA55) (splice 0 ramdisk_boot (replicate 512 0)) ++ splice 0 [0xF8; 0xFF; 0xFF; 0xFF] (replicate 512 0).

End witnesses.
