(* ===== verification/Pipe.v ===== *)
(** * Pipes (kernel/src/io/pipe.hpp, libs/libcontainers/include/data_structures/atomic_cyclic_buffer.hpp)
    A ring buffer for one producer and one consumer, without locks.  The indices only grow, modulo
    [2^64]; a slot is an index modulo the size, a power of two.  [Write] and [Read] are modelled
    twice: as whole operations, and as the sequence of their accesses to shared memory, which the
    accesses of the other side may come between.  The acquire and release orders make these
    accesses appear in program order to the other side, so an interleaving is a sequence of steps.
    Under every interleaving the consumer gets what the producer sent, in order, nothing lost and
    nothing twice; a pipe used by one side at a time is a bounded queue. *)
From S2P Require Import Prelude Bytes.

Record AtomicCyclicBuffer := mkRing { buffer_ : list Z; write_index_ : Z; read_index_ : Z }.

(** What [Pipe] returns: how many, or [Error::Retry]. *)
Inductive IoResult (A : Type) : Type := IoOk (a : A) | IoRetry.
Arguments IoOk {A}.
Arguments IoRetry {A}.

Section ring.
Context (kSize : Z).
Implicit Types (s : AtomicCyclicBuffer) (data : list Z).

Abbreviation RM := (M AtomicCyclicBuffer).

Definition kMask : Z := kSize - 1.

Definition empty_ring : AtomicCyclicBuffer := mkRing (replicate (Z.to_nat kSize) 0) 0 0.

Definition slot (idx : Z) : nat := Z.to_nat (Z.land idx kMask).

Definition put_slot (idx x : Z) s : AtomicCyclicBuffer := mkRing (<[slot idx := x]> (buffer_ s)) (write_index_ s) (read_index_ s).
Definition set_write (idx : Z) s : AtomicCyclicBuffer := mkRing (buffer_ s) idx (read_index_ s).
Definition set_read (idx : Z) s : AtomicCyclicBuffer := mkRing (buffer_ s) (write_index_ s) idx.
Definition get_slot (idx : Z) s : Z := buffer_ s !!! slot idx.

(** ** The operations *)

Fixpoint WriteLoop (data : list Z) (write_idx : Z) : RM Z :=
  match data with
  | [] => mret write_idx
  | x :: data => modS (put_slot write_idx x);; WriteLoop data (u64 (write_idx + 1))
  end.

Definition Write (data : list Z) : RM Z :=
  s ← getS;
  let read_idx := read_index_ s in
  let write_idx := write_index_ s in
  let count := u64 (write_idx - read_idx) in
  let free_space := u64 (kSize - count) in
  if free_space =? 0 then mret 0
  else
    let to_write := Z.min (zlen data) free_space in
    w ← WriteLoop (take (Z.to_nat to_write) data) write_idx;
    modS (set_write w);;
    mret to_write.

Fixpoint ReadLoop (n : nat) (read_idx : Z) : RM (list Z * Z) :=
  match n with
  | O => mret ([], read_idx)
  | S n =>
      s ← getS;
      r ← ReadLoop n (u64 (read_idx + 1));
      mret (get_slot read_idx s :: r.1, r.2)
  end.

(** [size] is the size of the span that is filled. *)
Definition Read (size : Z) : RM (list Z) :=
  s ← getS;
  let write_idx := write_index_ s in
  let read_idx := read_index_ s in
  let count := u64 (write_idx - read_idx) in
  if count =? 0 then mret []
  else
    let to_read := Z.min size count in
    r ← ReadLoop (Z.to_nat to_read) read_idx;
    modS (set_read r.2);;
    mret r.1.

Definition Count s : Z := u64 (write_index_ s - read_index_ s).
Definition IsFull s : bool := Count s =? kSize.
Definition IsEmpty s : bool := Count s =? 0.

Definition PipeWrite (data : list Z) : RM (IoResult Z) :=
  n ← Write data; mret (if (n =? 0) && (0 <? zlen data) then IoRetry else IoOk n).

Definition PipeRead (size : Z) : RM (IoResult (list Z)) :=
  r ← Read size; mret (if (zlen r =? 0) && (0 <? size) then IoRetry else IoOk r).

(** ** The accesses one by one
    A side is idle, or in the middle of an operation with its local variables. *)
Inductive producer : Type :=
| PIdle
| PLoaded (data : list Z) (read_idx : Z)
| PCopy (data : list Z) (write_idx : Z) (i to_write : Z).

Inductive consumer : Type :=
| CIdle
| CLoaded (size : Z) (write_idx : Z)
| CCopy (out : list Z) (read_idx : Z) (to_read : Z).

(** With what the finished writes have sent and the finished reads have got. *)
Record system := mkSystem { ring : AtomicCyclicBuffer; prod : producer; cons_ : consumer; sent : list Z; got : list Z }.

Definition start : system := mkSystem empty_ring PIdle CIdle [] [].

Inductive action : Type :=
| AWrite (data : list Z)
| AProducer
| ARead (size : Z)
| AConsumer.

Definition producer_step (y : system) : system :=
  let s := ring y in
  match prod y with
  | PIdle => y
  | PLoaded data read_idx =>
      let write_idx := write_index_ s in
      let count := u64 (write_idx - read_idx) in
      let free_space := u64 (kSize - count) in
      if free_space =? 0 then mkSystem s PIdle (cons_ y) (sent y) (got y)
      else mkSystem s (PCopy data write_idx 0 (Z.min (zlen data) free_space)) (cons_ y) (sent y) (got y)
  | PCopy data write_idx i to_write =>
      if i <? to_write
      then mkSystem (put_slot write_idx (data !!! Z.to_nat i) s) (PCopy data (u64 (write_idx + 1)) (i + 1) to_write) (cons_ y) (sent y) (got y)
      else mkSystem (set_write write_idx s) PIdle (cons_ y) (sent y ++ take (Z.to_nat to_write) data) (got y)
  end.

Definition consumer_step (y : system) : system :=
  let s := ring y in
  match cons_ y with
  | CIdle => y
  | CLoaded size write_idx =>
      let read_idx := read_index_ s in
      let count := u64 (write_idx - read_idx) in
      if count =? 0 then mkSystem s (prod y) CIdle (sent y) (got y)
      else mkSystem s (prod y) (CCopy [] read_idx (Z.min size count)) (sent y) (got y)
  | CCopy out read_idx to_read =>
      if zlen out <? to_read
      then mkSystem s (prod y) (CCopy (out ++ [get_slot read_idx s]) (u64 (read_idx + 1)) to_read) (sent y) (got y)
      else mkSystem (set_read read_idx s) (prod y) CIdle (sent y) (got y ++ out)
  end.

(** One action: a side that is idle begins an operation with its first load, or goes on. *)
Definition act (a : action) (y : system) : system :=
  match a with
  | AWrite data =>
      match prod y with
      | PIdle => mkSystem (ring y) (PLoaded data (read_index_ (ring y))) (cons_ y) (sent y) (got y)
      | _ => y
      end
  | AProducer => producer_step y
  | ARead size =>
      match cons_ y with
      | CIdle => mkSystem (ring y) (prod y) (CLoaded size (write_index_ (ring y))) (sent y) (got y)
      | _ => y
      end
  | AConsumer => consumer_step y
  end.

Definition run (l : list action) (y : system) : system := fold_left (λ y a, act a y) l y.
End ring.

(** ** The invariant
    In absolute numbers: [R] elements have been taken and [W] sent.  The slots of the elements in
    between hold them; what the producer is copying lies behind them, in slots that are free since
    it loaded the consumer's index. *)
Section invariant.
Context (kBits : Z) (HkBits : 0 ≤ kBits < 64).
Abbreviation kSize := (2 ^ kBits).
Abbreviation slot := (slot kSize).

Lemma size_pos : 0 < kSize < 2 ^ 64.
Proof. split; [apply pow2_pos; lia|]. apply Z.pow_lt_mono_r; lia. Qed.

Lemma slot_wrap p : slot (u64 p) = Z.to_nat (p `mod` kSize).
Proof.
  unfold Pipe.slot, kMask, wrap_u. f_equal. replace (kSize - 1) with (Z.ones kBits) by (rewrite Z.ones_equiv; lia).
  rewrite Z.land_ones by lia. apply Z.mod_mod_divide.
  exists (2 ^ (64 - kBits)). rewrite <- Z.pow_add_r by lia. f_equal. lia.
Qed.

Lemma slot_lt p : (slot (u64 p) < Z.to_nat kSize)%nat.
Proof. rewrite slot_wrap. pose proof size_pos. pose proof (Z.mod_pos_bound p kSize ltac:(lia)). lia. Qed.

Lemma slot_ne p q : 0 < p - q < kSize → slot (u64 p) ≠ slot (u64 q).
Proof.
  intros H E. rewrite !slot_wrap in E. pose proof size_pos. pose proof (Z.mod_pos_bound p kSize ltac:(lia)). pose proof (Z.mod_pos_bound q kSize ltac:(lia)).
  assert (Hd : (p - q) `mod` kSize = 0) by (rewrite Zminus_mod; replace (p `mod` kSize) with (q `mod` kSize) by lia; by rewrite Z.sub_diag).
  rewrite Z.mod_small in Hd by lia. lia.
Qed.

Lemma u64_succ p : u64 (u64 p + 1) = u64 (p + 1).
Proof. unfold wrap_u. by rewrite Zplus_mod_idemp_l. Qed.

Lemma u64_sub p q : 0 ≤ p - q < 2 ^ 64 → u64 (u64 p - u64 q) = p - q.
Proof. intros H. unfold wrap_u. rewrite <- Zminus_mod. by apply Z.mod_small. Qed.

(** The slots of the positions from [lo] on hold [l]. *)
Definition holds (buf : list Z) (lo : Z) (l : list Z) : Prop := ∀ i, (i < length l)%nat → buf !! slot (u64 (lo + Z.of_nat i)) = l !! i.

Definition producer_ok (buf : list Z) (W R : Z) (p : producer) : Prop :=
  match p with
  | PIdle => True
  | PLoaded data r => ∃ R', r = u64 R' ∧ R' ≤ R ∧ W ≤ R' + kSize
  | PCopy data w i n => w = u64 (W + i) ∧ 0 ≤ i ≤ n ∧ n ≤ zlen data ∧ W + n ≤ R + kSize ∧ holds buf W (take (Z.to_nat i) data)
  end.

Definition consumer_ok (q : list Z) (W R : Z) (c : consumer) : Prop :=
  match c with
  | CIdle => True
  | CLoaded size w => 0 ≤ size ∧ ∃ W', w = u64 W' ∧ R ≤ W' ≤ W
  | CCopy out r n => r = u64 (R + zlen out) ∧ zlen out ≤ n ≤ zlen q ∧ out = take (length out) q
  end.

(** With [q] what is sent and not yet taken. *)
Definition inv_with (q : list Z) (y : system) : Prop :=
  let W := zlen (sent y) in
  let R := zlen (got y) in
  sent y = got y ++ q ∧ zlen q ≤ kSize ∧ length (buffer_ (ring y)) = Z.to_nat kSize ∧
  write_index_ (ring y) = u64 W ∧ read_index_ (ring y) = u64 R ∧ holds (buffer_ (ring y)) R q ∧
  producer_ok (buffer_ (ring y)) W R (prod y) ∧ consumer_ok q W R (cons_ y).

Definition inv (y : system) : Prop := ∃ q, inv_with q y.

Lemma inv_start : inv (start kSize).
Proof.
  pose proof size_pos. exists []. split_and!; cbn [start ring prod cons_ sent got empty_ring buffer_ length]; try done; try lia; [apply length_replicate|].
  intros i Hi. cbn in Hi. lia.
Qed.

Lemma ring_slots_put buf lo l p x :
  (∀ i, (i < length l)%nat → slot (u64 (lo + Z.of_nat i)) ≠ slot (u64 p)) → holds buf lo l → holds (<[slot (u64 p) := x]> buf) lo l.
Proof. intros Hne H i Hi. rewrite list_lookup_insert_ne by (symmetry; by apply Hne). by apply H. Qed.

Lemma ring_slots_snoc buf lo l x : holds buf lo l → buf !! slot (u64 (lo + zlen l)) = Some x → holds buf lo (l ++ [x]).
Proof.
  intros H Hx i Hi. rewrite length_app in Hi. cbn in Hi. destruct (decide (i = length l)) as [->|].
  - by rewrite Hx, lookup_app_r, Nat.sub_diag by lia.
  - rewrite lookup_app_l by lia. apply H. lia.
Qed.

Lemma ring_slots_app buf lo l l' : holds buf lo l → holds buf (lo + zlen l) l' → holds buf lo (l ++ l').
Proof.
  intros H H' i Hi. rewrite length_app in Hi. destruct (decide (i < length l)%nat).
  - rewrite lookup_app_l by lia. by apply H.
  - rewrite lookup_app_r by lia. rewrite <- H' by lia. by replace (lo + zlen l + Z.of_nat (i - length l)) with (lo + Z.of_nat i) by lia.
Qed.

Lemma ring_slots_drop buf lo l n : holds buf lo l → (n ≤ length l)%nat → holds buf (lo + Z.of_nat n) (drop n l).
Proof.
  intros H Hn i Hi. rewrite length_drop in Hi. rewrite lookup_drop, <- H by lia.
  by replace (lo + Z.of_nat n + Z.of_nat i) with (lo + Z.of_nat (n + i)) by lia.
Qed.

Lemma inv_producer y : inv y → inv (producer_step kSize y).
Proof.
  intros (q & Hy). pose proof Hy as (Hs & Hq & Hl & Hw & Hr & Hh & Hp & Hc). pose proof size_pos as Hk.
  assert (HW : zlen (sent y) = zlen (got y) + zlen q) by (rewrite Hs, length_app; lia).
  unfold producer_step. destruct (prod y) as [|data r|data w i n] eqn:Ep; cbn [producer_ok] in Hp.
  - by exists q.
  - exists q. destruct Hp as (R' & -> & HR & HW'). rewrite Hw, u64_sub by lia. rewrite wrap_u_small by (unfold in_u; lia).
    destruct (Z.eqb_spec (kSize - (zlen (sent y) - R')) 0); split_and!; try done; cbn [prod ring got sent].
    split_and!; [by rewrite Z.add_0_r|lia..|]. intros j Hj. rewrite length_take in Hj. lia.
  - destruct Hp as (-> & Hi & Hn & HWn & Hd). destruct (Z.ltb_spec i n) as [Hin|Hin].
    + exists q. assert (Hx : data !! Z.to_nat i = Some (data !!! Z.to_nat i)) by (apply list_lookup_lookup_total_lt; lia).
      split_and!; try done; cbn [ring buffer_ put_slot write_index_ read_index_ prod sent got].
      * by rewrite length_insert.
      * apply ring_slots_put; [|done]. intros j Hj. apply not_eq_sym, slot_ne. lia.
      * rewrite u64_succ. split_and!; [f_equal; lia|lia..|].
        replace (Z.to_nat (i + 1)) with (S (Z.to_nat i)) by lia. rewrite (take_S_r _ _ _ Hx). apply ring_slots_snoc.
        -- apply ring_slots_put; [|done]. intros j Hj. rewrite length_take in Hj. apply not_eq_sym, slot_ne. lia.
        -- rewrite length_take, Nat.min_l by lia. rewrite Z2Nat.id by lia. apply list_lookup_insert_eq. rewrite Hl. apply slot_lt.
    + assert (i = n) as -> by lia. set (d := take (Z.to_nat n) data) in *. assert (Hld : zlen d = n) by (unfold d; rewrite length_take; lia).
      exists (q ++ d). split_and!; cbn [ring buffer_ set_write write_index_ read_index_ prod sent got]; try done.
      * by rewrite Hs, app_assoc.
      * rewrite length_app. lia.
      * f_equal. rewrite length_app. lia.
      * apply ring_slots_app; [done|]. by rewrite <- HW.
      * destruct (cons_ y) as [|size w|out r m]; cbn [consumer_ok] in *; rewrite ?length_app; [done|..].
        -- destruct Hc as (Hsz & W' & -> & HW'). split; [done|]. exists W'. split; [done|lia].
        -- destruct Hc as (-> & Ho & Hout). split_and!; [done|lia|rewrite length_app; lia|]. by rewrite take_app_le by lia.
Qed.

Lemma inv_consumer y : inv y → inv (consumer_step kSize y).
Proof.
  intros (q & Hy). pose proof Hy as (Hs & Hq & Hl & Hw & Hr & Hh & Hp & Hc). pose proof size_pos as Hk.
  assert (HW : zlen (sent y) = zlen (got y) + zlen q) by (rewrite Hs, length_app; lia).
  unfold consumer_step. destruct (cons_ y) as [|size w|out r n] eqn:Ec; cbn [consumer_ok] in Hc.
  - by exists q.
  - exists q. destruct Hc as (Hsz & W' & -> & HW'). rewrite Hr, u64_sub by lia.
    destruct (Z.eqb_spec (W' - zlen (got y)) 0); split_and!; try done; cbn [cons_ length sent got].
    split_and!; [by rewrite Z.add_0_r|cbn [length]; lia..|done].
  - destruct Hc as (-> & Ho & Hout). destruct (Z.ltb_spec (zlen out) n) as [Hn|Hn].
    + exists q. destruct (lookup_lt_is_Some_2 q (length out) ltac:(lia)) as [x Hx].
      assert (Hget : get_slot kSize (u64 (zlen (got y) + zlen out)) (ring y) = x).
      { apply list_lookup_total_correct. rewrite Hh by lia. done. }
      rewrite Hget. split_and!; try done; cbn [cons_ sent got consumer_ok]. rewrite length_app, u64_succ. cbn [length].
      split_and!; [f_equal; lia|lia..|]. rewrite Nat.add_1_r, (take_S_r _ _ _ Hx). by f_equal.
    + assert (n = zlen out) as -> by lia. assert (Hlo : zlen (got y ++ out) = zlen (got y) + zlen out) by (rewrite length_app; lia).
      exists (drop (length out) q). split_and!; cbn [ring buffer_ set_read write_index_ read_index_ prod cons_ sent got]; rewrite ?Hlo; try done.
      * rewrite Hs, <- app_assoc. f_equal. rewrite Hout at 1. by rewrite take_drop.
      * rewrite length_drop. lia.
      * apply ring_slots_drop; [done|lia].
      * destruct (prod y) as [|data r|data w i m]; cbn [producer_ok] in *; [done|..].
        -- destruct Hp as (R' & -> & HR & HW'). exists R'. split_and!; [done|lia..].
        -- destruct Hp as (-> & Hi & Hm & HWn & Hd). split_and!; [done|lia..|done].
Qed.

Definition action_ok (a : action) : Prop := if a is ARead size then 0 ≤ size else True.

Lemma inv_act a y : action_ok a → inv y → inv (act kSize a y).
Proof.
  intros Ha (q & Hy). pose proof Hy as (Hs & Hq & Hl & Hw & Hr & Hh & Hp & Hc).
  assert (HW : zlen (sent y) = zlen (got y) + zlen q) by (rewrite Hs, length_app; lia).
  destruct a as [data| |size|]; cbn [act]; [|by apply inv_producer; exists q| |by apply inv_consumer; exists q].
  - destruct (prod y) eqn:Ep; exists q; [|done..]. split_and!; try done. cbn [prod sent got]. exists (zlen (got y)). split; [done|lia].
  - destruct (cons_ y) eqn:Ec; exists q; [|done..]. split_and!; try done. cbn [cons_ sent got]. split; [done|]. exists (zlen (sent y)). split; [done|lia].
Qed.

Lemma inv_run l y : Forall action_ok l → inv y → inv (run kSize l y).
Proof. intros Hl. revert y. induction Hl as [|a l Ha _ IH]; intros y Hy; [done|]. cbn. by apply IH, inv_act. Qed.

Lemma run_app l l' y : run kSize (l ++ l') y = run kSize l' (run kSize l y).
Proof. apply fold_left_app. Qed.

(** ** A whole operation is a run of one side alone *)
Lemma write_loop_steps n data w i s c snt gt' :
  0 ≤ i → i + Z.of_nat n ≤ zlen data → ∃ w' s',
    WriteLoop kSize (take n (drop (Z.to_nat i) data)) w s = Ok (w', s') ∧
    run kSize (replicate n AProducer) (mkSystem s (PCopy data w i (i + Z.of_nat n)) c snt gt') =
      mkSystem s' (PCopy data w' (i + Z.of_nat n) (i + Z.of_nat n)) c snt gt'.
Proof.
  revert w i s. induction n as [|n IH]; intros w i s Hi Hn.
  - exists w, s. by rewrite Z.add_0_r.
  - destruct (IH (u64 (w + 1)) (i + 1) (put_slot kSize w (data !!! Z.to_nat i) s)) as (w' & s' & E & R); [lia..|].
    assert (Hx : data !! Z.to_nat i = Some (data !!! Z.to_nat i)) by (apply list_lookup_lookup_total_lt; lia).
    exists w', s'. split.
    + rewrite (drop_S _ _ _ Hx). replace (S (Z.to_nat i)) with (Z.to_nat (i + 1)) by lia. exact E.
    + cbn [replicate run fold_left act producer_step ring prod cons_ sent got]. rewrite (proj2 (Z.ltb_lt _ _)) by lia.
      replace (i + Z.of_nat (S n)) with (i + 1 + Z.of_nat n) by lia. exact R.
Qed.

Lemma write_steps data y : prod y = PIdle → ∃ k n s',
  Write kSize data (ring y) = Ok (n, s') ∧ (0 ≤ n ≤ zlen data) ∧
  run kSize (AWrite data :: replicate k AProducer) y = mkSystem s' PIdle (cons_ y) (sent y ++ take (Z.to_nat n) data) (got y).
Proof.
  intros Hp. destruct y as [s p c snt gt']; cbn in Hp; subst p. unfold Write, mbind, M_bind, getS; cbn [ring prod cons_ sent got].
  pose proof (wrap_u_range 64 (kSize - u64 (write_index_ s - read_index_ s)) ltac:(lia)) as Hf. unfold in_u in Hf.
  set (f := u64 (kSize - u64 (write_index_ s - read_index_ s))) in *. destruct (Z.eqb_spec f 0) as [Ef|Ef].
  - exists 1%nat, 0, s. split_and!; [done|lia..|]. cbn [run fold_left act replicate prod ring cons_ sent got producer_step].
    fold f. rewrite Ef, Z.eqb_refl. by rewrite app_nil_r.
  - set (n := zlen data `min` f). destruct (write_loop_steps (Z.to_nat n) data (write_index_ s) 0 s c snt gt') as (w' & s' & E & R); [lia..|].
    rewrite Z2Nat.id, Z.add_0_l in R by lia. change (drop (Z.to_nat 0) data) with data in E. rewrite E. cbn [modS].
    exists (S (Z.to_nat n + 1)), n, (set_write w' s'). split_and!; [done|lia..|]. cbn [replicate]. rewrite replicate_add.
    change (AWrite data :: AProducer :: ?l) with ([AWrite data; AProducer] ++ l). rewrite !run_app.
    cbn [run fold_left act prod ring cons_ sent got producer_step]. fold f. rewrite (proj2 (Z.eqb_neq f 0)) by done. fold n.
    fold (run kSize (replicate (Z.to_nat n) AProducer) (mkSystem s (PCopy data (write_index_ s) 0 n) c snt gt')).
    rewrite R. cbn [replicate run fold_left act producer_step prod ring cons_ sent got]. by rewrite Z.ltb_irrefl.
Qed.

Lemma read_loop_steps n r s p snt gt' out m :
  m = zlen out + Z.of_nat n → ∃ l r',
    ReadLoop kSize n r s = Ok ((l, r'), s) ∧ length l = n ∧
    run kSize (replicate n AConsumer) (mkSystem s p (CCopy out r m) snt gt') = mkSystem s p (CCopy (out ++ l) r' m) snt gt'.
Proof.
  revert r out. induction n as [|n IH]; intros r out Hm.
  - exists [], r. by rewrite app_nil_r.
  - destruct (IH (u64 (r + 1)) (out ++ [get_slot kSize r s])) as (l & r' & E & Hl & R); [rewrite length_app; cbn [length]; lia|].
    exists (get_slot kSize r s :: l), r'. split_and!.
    + cbn [ReadLoop]. unfold mbind, M_bind, getS. by rewrite E.
    + cbn. lia.
    + cbn [replicate run fold_left act consumer_step ring prod cons_ sent got]. rewrite (proj2 (Z.ltb_lt _ _)) by lia.
      rewrite (cons_middle _ out l), app_assoc. exact R.
Qed.

Lemma read_steps size y : 0 ≤ size → cons_ y = CIdle → ∃ k l s',
  Read kSize size (ring y) = Ok (l, s') ∧ zlen l = Z.min size (Count (ring y)) ∧
  run kSize (ARead size :: replicate k AConsumer) y = mkSystem s' (prod y) CIdle (sent y) (got y ++ l).
Proof.
  intros Hs Hp. destruct y as [s p c snt gt']; cbn in Hp; subst c. unfold Read, Count, mbind, M_bind, getS; cbn [ring prod cons_ sent got].
  pose proof (wrap_u_range 64 (write_index_ s - read_index_ s) ltac:(lia)) as Hf. unfold in_u in Hf.
  set (f := u64 (write_index_ s - read_index_ s)) in *. destruct (Z.eqb_spec f 0) as [Ef|Ef].
  - exists 1%nat, [], s. split_and!; [done|cbn; lia|]. cbn [run fold_left act replicate prod ring cons_ sent got consumer_step].
    fold f. rewrite Ef, Z.eqb_refl. by rewrite app_nil_r.
  - set (n := size `min` f). destruct (read_loop_steps (Z.to_nat n) (read_index_ s) s p snt gt' [] n) as (l & r' & E & Hl & R); [cbn; lia|].
    rewrite E. cbn [modS fst snd]. exists (S (Z.to_nat n + 1)), l, (set_read r' s). split_and!; [done|lia|].
    cbn [replicate]. rewrite replicate_add.
    change (ARead size :: AConsumer :: ?l) with ([ARead size; AConsumer] ++ l). rewrite !run_app.
    cbn [run fold_left act prod ring cons_ sent got consumer_step]. fold f. rewrite (proj2 (Z.eqb_neq f 0)) by done. fold n.
    fold (run kSize (replicate (Z.to_nat n) AConsumer) (mkSystem s p (CCopy [] (read_index_ s) n) snt gt')).
    rewrite R. cbn [replicate run fold_left act consumer_step prod ring cons_ sent got app]. by rewrite (proj2 (Z.ltb_ge _ _)) by lia.
Qed.

(** ** The bounded queue *)
Definition queue_write (data : list Z) : M (list Z) (IoResult Z) := λ q,
  let n := Z.min (zlen data) (kSize - zlen q) in
  Ok (if (n =? 0) && (0 <? zlen data) then IoRetry else IoOk n, q ++ take (Z.to_nat n) data).

Definition queue_read (size : Z) : M (list Z) (IoResult (list Z)) := λ q,
  let r := take (Z.to_nat size) q in
  Ok (if (zlen r =? 0) && (0 <? size) then IoRetry else IoOk r, drop (Z.to_nat size) q).

Definition ring_is (s : AtomicCyclicBuffer) (q : list Z) : Prop := ∃ gt', inv_with q (mkSystem s PIdle CIdle (gt' ++ q) gt').

Inductive pipe_op : Type := OWrite (data : list Z) | ORead (size : nat).

Definition pipe_do (o : pipe_op) : M AtomicCyclicBuffer (IoResult Z + IoResult (list Z)) :=
  match o with
  | OWrite data => r ← PipeWrite kSize data; mret (inl r)
  | ORead size => r ← PipeRead kSize (Z.of_nat size); mret (inr r)
  end.

Definition queue_do (o : pipe_op) : M (list Z) (IoResult Z + IoResult (list Z)) :=
  match o with
  | OWrite data => r ← queue_write data; mret (inl r)
  | ORead size => r ← queue_read (Z.of_nat size); mret (inr r)
  end.

Lemma inv_with_unique q q' y : inv_with q y → sent y = got y ++ q' → q = q'.
Proof. intros (Hs & _) H. rewrite Hs in H. by apply app_inv_head in H. Qed.

Lemma inv_with_count q y : inv_with q y → Count (ring y) = zlen q.
Proof.
  pose proof size_pos. intros (Hs & Hq & _ & Hw & Hr & _). unfold Count. rewrite Hw, Hr.
  rewrite Hs, length_app. rewrite u64_sub; lia.
Qed.

Lemma PipeWrite_ok data : sim ring_is (PipeWrite kSize data) (queue_write data).
Proof.
  intros s q (g & Hi). pose proof size_pos. pose proof (inv_with_count _ _ Hi) as Hc. pose proof Hi as (_ & Hq & _). cbn [ring] in Hc.
  destruct (write_steps data (mkSystem s PIdle CIdle (g ++ q) g)) as (k & n & s' & E & Hn & R); [done|]. cbn [ring cons_ sent got] in *.
  assert (Hmin : n = Z.min (zlen data) (kSize - zlen q)).
  { unfold Write, mbind, M_bind, getS in E. fold (Count s) in E. rewrite Hc, wrap_u_small in E by (unfold in_u; lia).
    destruct (Z.eqb_spec (kSize - zlen q) 0); [injection E as <- _; lia|]. destruct (WriteLoop _ _ _ _) as [[]|]; [|done]. by injection E as <- _. }
  unfold PipeWrite, mbind, M_bind, queue_write. rewrite E, <- Hmin. split; [done|]. exists g.
  destruct (inv_run (AWrite data :: replicate k AProducer) (mkSystem s PIdle CIdle (g ++ q) g)) as [q' Hi'].
  - constructor; [done|]. apply Forall_replicate. done.
  - by exists q.
  - rewrite R in Hi'. rewrite (app_assoc g). assert (q' = q ++ take (Z.to_nat n) data) as <-; [|done].
    apply (inv_with_unique _ _ _ Hi'). cbn. by rewrite app_assoc.
Qed.

Lemma PipeRead_ok size : 0 ≤ size → sim ring_is (PipeRead kSize size) (queue_read size).
Proof.
  intros Hsz s q (g & Hi). pose proof size_pos. pose proof (inv_with_count _ _ Hi) as Hc. cbn [ring] in Hc.
  destruct (read_steps size (mkSystem s PIdle CIdle (g ++ q) g)) as (k & l & s' & E & Hl & R); [done..|]. cbn [ring prod sent got] in *.
  destruct (inv_run (ARead size :: replicate k AConsumer) (mkSystem s PIdle CIdle (g ++ q) g)) as [q' Hi'].
  - constructor; [done|]. apply Forall_replicate. done.
  - by exists q.
  - rewrite R in Hi'. pose proof Hi' as (Hs & _). cbn [sent got] in Hs. rewrite <- app_assoc in Hs. apply app_inv_head in Hs.
    assert (l = take (Z.to_nat size) q ∧ q' = drop (Z.to_nat size) q) as [-> ->].
    { rewrite Hc in Hl. subst q. rewrite length_app in Hl. destruct (decide (size ≤ zlen l + zlen q')).
      - rewrite take_app_le, drop_app_le, take_ge, drop_ge by lia. done.
      - assert (q' = []) as -> by (apply length_zero_iff_nil; lia). rewrite app_nil_r. rewrite take_ge, drop_ge by lia. done. }
    unfold PipeRead, mbind, M_bind, queue_read. rewrite E. split; [done|]. exists (g ++ take (Z.to_nat size) q).
    by rewrite <- app_assoc, take_drop.
Qed.

Lemma pipe_do_ok o : sim ring_is (pipe_do o) (queue_do o).
Proof.
  destruct o as [data|size]; (apply sim_bind; [|intros; apply sim_ret]); [apply PipeWrite_ok|apply PipeRead_ok; lia].
Qed.

Lemma ring_is_empty : ring_is (empty_ring kSize) [].
Proof.
  pose proof size_pos. exists []. split_and!; try done; [cbn; lia|apply length_replicate|]. intros i Hi. cbn in Hi. lia.
Qed.

(** ** Wait freedom
    How many more of its own steps a side takes at most. *)
Definition producer_left (p : producer) : Z :=
  match p with PIdle => 0 | PLoaded _ _ => kSize + 2 | PCopy _ _ i n => n - i + 1 end.
Definition consumer_left (c : consumer) : Z :=
  match c with CIdle => 0 | CLoaded _ _ => kSize + 2 | CCopy out _ n => n - zlen out + 1 end.

Definition is_producer (a : action) : bool := if a is AProducer then true else false.
Definition is_consumer (a : action) : bool := if a is AConsumer then true else false.
Definition times (f : action → bool) (l : list action) : Z := zlen (filter f l).

(** A schedule that goes on with the operations under way and begins none on that side. *)
Definition no_write (a : action) : Prop := if a is AWrite _ then False else True.
Definition no_read (a : action) : Prop := if a is ARead _ then False else True.

Lemma producer_left_act a y : inv y → no_write a →
  0 ≤ producer_left (prod y) ∧
  producer_left (prod (act kSize a y)) ≤ Z.max 0 (producer_left (prod y) - (if is_producer a then 1 else 0)).
Proof.
  intros (q & Hs & Hq & Hl & Hw & Hr & Hh & Hp & Hc) Ha. pose proof size_pos as Hk.
  assert (H0 : 0 ≤ producer_left (prod y)) by (destruct (prod y); cbn in *; lia). split; [done|].
  destruct a as [data| |size|]; cbn [is_producer act]; [done|..]; unfold producer_step, consumer_step.
  - destruct (prod y) as [|data r|data w i n] eqn:Ep; cbn [producer_ok producer_left] in *; [rewrite Ep; cbn; lia|..].
    + destruct Hp as (R' & -> & HR & HW'). rewrite Hs, length_app in HW'. rewrite Hw, Hs, length_app, u64_sub by lia.
      rewrite wrap_u_small by (unfold in_u; lia). destruct (Z.eqb_spec (kSize - (Z.of_nat (length (got y) + length q) - R')) 0); cbn [prod producer_left]; lia.
    + destruct (Z.ltb_spec i n); cbn [prod producer_left]; lia.
  - destruct (cons_ y); cbn [prod]; lia.
  - destruct (cons_ y) as [|size w|out r n]; cbn [prod]; [lia|..]; [case_match|case_match]; cbn [prod]; lia.
Qed.

Lemma consumer_left_act a y : inv y → no_read a →
  0 ≤ consumer_left (cons_ y) ∧
  consumer_left (cons_ (act kSize a y)) ≤ Z.max 0 (consumer_left (cons_ y) - (if is_consumer a then 1 else 0)).
Proof.
  intros (q & Hs & Hq & Hl & Hw & Hr & Hh & Hp & Hc) Ha. pose proof size_pos as Hk.
  assert (H0 : 0 ≤ consumer_left (cons_ y)) by (destruct (cons_ y); cbn in *; lia). split; [done|].
  destruct a as [data| |size|]; cbn [is_consumer act]; [..|done|]; unfold producer_step, consumer_step.
  - destruct (prod y); cbn [cons_]; lia.
  - destruct (prod y) as [|data r|data w i n]; cbn [cons_]; [lia|..]; case_match; cbn [cons_]; lia.
  - destruct (cons_ y) as [|size w|out r n] eqn:Ec; cbn [consumer_ok consumer_left] in *; [rewrite Ec; cbn; lia|..].
    + destruct Hc as (Hsz & W' & -> & HW'). rewrite Hs, length_app in HW'. rewrite Hr, u64_sub by lia.
      destruct (Z.eqb_spec (W' - zlen (got y)) 0); cbn [cons_ consumer_left length]; lia.
    + destruct (Z.ltb_spec (zlen out) n); cbn [cons_ consumer_left]; rewrite ?length_app; cbn [length]; lia.
Qed.

Lemma times_cons f a l : times f (a :: l) = (if f a then 1 else 0) + times f l.
Proof. unfold times. rewrite filter_cons. destruct (f a); cbn [length Is_true]; [rewrite decide_True by done; cbn [length]; lia|by rewrite decide_False by naive_solver]. Qed.

Lemma producer_left_run l y : inv y → Forall action_ok l → Forall no_write l →
  0 ≤ producer_left (prod (run kSize l y)) ≤ Z.max 0 (producer_left (prod y) - times is_producer l).
Proof.
  revert y. induction l as [|a l IH]; intros y Hy Hok Hl.
  - pose proof (producer_left_act AConsumer y Hy I) as [H _]. change (times is_producer []) with 0. cbn [run fold_left]. lia.
  - inversion Hok; inversion Hl; subst. destruct (producer_left_act a y) as [Ha0 Ha1]; [done..|].
    specialize (IH (act kSize a y) ltac:(by apply inv_act) ltac:(done) ltac:(done)).
    rewrite times_cons. cbn [run fold_left]. fold (run kSize l (act kSize a y)). assert (0 ≤ times is_producer l) by (unfold times; lia).
    destruct (is_producer a); lia.
Qed.

Lemma consumer_left_run l y : inv y → Forall action_ok l → Forall no_read l →
  0 ≤ consumer_left (cons_ (run kSize l y)) ≤ Z.max 0 (consumer_left (cons_ y) - times is_consumer l).
Proof.
  revert y. induction l as [|a l IH]; intros y Hy Hok Hl.
  - pose proof (consumer_left_act AProducer y Hy I) as [H _]. change (times is_consumer []) with 0. cbn [run fold_left]. lia.
  - inversion Hok; inversion Hl; subst. destruct (consumer_left_act a y) as [Ha0 Ha1]; [done..|].
    specialize (IH (act kSize a y) ltac:(by apply inv_act) ltac:(done) ltac:(done)).
    rewrite times_cons. cbn [run fold_left]. fold (run kSize l (act kSize a y)). assert (0 ≤ times is_consumer l) by (unfold times; lia).
    destruct (is_consumer a); lia.
Qed.

Lemma producer_left_le y : inv y → producer_left (prod y) ≤ kSize + 2 ∧ (producer_left (prod y) ≤ 0 → prod y = PIdle).
Proof.
  intros (q & Hs & _ & _ & _ & _ & _ & Hp & _). pose proof size_pos. pose proof (f_equal length Hs) as HW. rewrite length_app in HW.
  destruct (prod y); cbn [producer_ok producer_left] in *; split; try done; lia.
Qed.

Lemma consumer_left_le y : inv y → consumer_left (cons_ y) ≤ kSize + 2 ∧ (consumer_left (cons_ y) ≤ 0 → cons_ y = CIdle).
Proof.
  intros (q & _ & Hq & _ & _ & _ & _ & _ & Hc). pose proof size_pos.
  destruct (cons_ y); cbn [consumer_ok consumer_left] in *; split; try done; lia.
Qed.

(** C19. Whatever the order in which the accesses of one producer and one consumer to the buffer
    come, and however often the indices have wrapped: what the finished reads have returned,
    followed by at most a buffer full of bytes still in the ring, is what the finished writes have
    sent, in order, nothing lost, changed or twice; an idle producer's [Count] is the number of
    bytes in the ring. *)
Theorem pipe_fifo (l : list action) : Forall action_ok l →
  let y := run kSize l (start kSize) in
  ∃ q, sent y = got y ++ q ∧ zlen q ≤ kSize ∧ Count (ring y) = zlen q ∧
       IsFull kSize (ring y) = bool_decide (zlen q = kSize) ∧ IsEmpty (ring y) = bool_decide (q = []).
Proof.
  intros Hl. destruct (inv_run l (start kSize) Hl inv_start) as [q Hq]. exists q. unfold IsFull, IsEmpty.
  rewrite (inv_with_count _ _ Hq). destruct Hq as (Hs & Hle & _). split_and!; try done.
  - case_bool_decide; lia.
  - destruct q; [done|]. rewrite bool_decide_eq_false_2 by done. apply Z.eqb_neq. cbn [length]. lia.
Qed.

(** C21. Neither side waits for the other: an operation that is under way when a schedule begins is
    over once its side has taken [kSize + 2] steps of its own, whatever the other side does, none
    at all included. *)
Theorem pipe_wait_free (before l : list action) : Forall action_ok before → Forall action_ok l →
  let y := run kSize before (start kSize) in
  (Forall no_write l → kSize + 2 ≤ times is_producer l → prod (run kSize l y) = PIdle) ∧
  (Forall no_read l → kSize + 2 ≤ times is_consumer l → cons_ (run kSize l y) = CIdle).
Proof.
  intros Hb Hl y. assert (Hy : inv y) by (apply inv_run; [done|apply inv_start]).
  assert (Hy' : inv (run kSize l y)) by by apply inv_run. split; intros Hn Ht.
  - apply producer_left_le; [done|]. pose proof (producer_left_run l y Hy Hl Hn). pose proof (producer_left_le y Hy). lia.
  - apply consumer_left_le; [done|]. pose proof (consumer_left_run l y Hy Hl Hn). pose proof (consumer_left_le y Hy). lia.
Qed.

(** C20. A pipe that one side at a time uses is a queue of at most [kSize] bytes: any sequence of
    [Write] and [Read] gives the results of the queue, short writes and reads and [Retry] where it
    is full or empty included. *)
Theorem pipe_refines_queue (ops : list pipe_op) :
  sim ring_is (runs pipe_do ops) (runs queue_do ops) ∧ ring_is (empty_ring kSize) [].
Proof. split; [apply sim_runs, pipe_do_ok|apply ring_is_empty]. Qed.
End invariant.

(** A producer that is cut off in the middle of its copy while the consumer reads twice. *)
Definition schedule : list action :=
  [AWrite [1; 2; 3]; AProducer; AProducer; AProducer; AProducer; AProducer; AWrite [4; 5]; AProducer; AProducer; ARead 2; AConsumer;
   AConsumer; AProducer; AConsumer; AConsumer; ARead 9; AConsumer; AConsumer].

Lemma pipe_fifo_witness : (0 ≤ 2 < 64 ∧ Forall action_ok schedule) ∧
  ∃ q, sent (run (2 ^ 2) schedule (start (2 ^ 2))) = got (run (2 ^ 2) schedule (start (2 ^ 2))) ++ q ∧ zlen q ≤ 2 ^ 2.
Proof.
  assert (Hl : Forall action_ok schedule) by (repeat constructor; done). split; [by split|].
  destruct (pipe_fifo 2 ltac:(lia) schedule Hl) as (q & H1 & H2 & _). exists q. exact (conj H1 H2).
Defined.

Example schedule_got : (sent (run 4 schedule (start 4)), got (run 4 schedule (start 4)), cons_ (run 4 schedule (start 4))) = ([1; 2; 3; 4], [1; 2], CCopy [3] 3 2).
Proof. reflexivity. Qed.

Lemma pipe_wait_free_witness :
  (Forall action_ok [AWrite [1; 2]] ∧ Forall action_ok (replicate 6 AProducer)) ∧
  prod (run (2 ^ 2) (replicate 6 AProducer) (run (2 ^ 2) [AWrite [1; 2]] (start (2 ^ 2)))) = PIdle.
Proof.
  assert (Forall action_ok [AWrite [1; 2]]) by by apply Forall_singleton.
  assert (Forall action_ok (replicate 6 AProducer)) by by apply Forall_replicate.
  assert (Forall no_write (replicate 6 AProducer)) by by apply Forall_replicate.
  split; [done|]. destruct (pipe_wait_free 2 ltac:(lia) [AWrite [1; 2]] (replicate 6 AProducer)) as [H' _]; [done..|].
  apply H'; [done|]. vm_compute. done.
Defined.

Lemma pipe_refines_queue_witness : 0 ≤ 3 < 64 ∧ sim (ring_is 3) (runs (pipe_do 3) [OWrite [7; 8]; ORead 5]) (runs (queue_do 3) [OWrite [7; 8]; ORead 5]).
Proof. split; [lia|]. apply (pipe_refines_queue 3 ltac:(lia)). Defined.
