(* ===== verification/FileDesc.v ===== *)
(** * File descriptors (kernel/src/fs/file_descriptor.cpp, file_descriptor.hpp, scheduling/processes.cpp)
    Three levels: the descriptor table of a process points to entries of the table of open files,
    which hold a file or a pipe.  Entries and files are counted references in pools.  Addresses are
    never used again, so that an access to a freed object shows as [BadAccess]; a failed assertion
    is a [Panic].  Reads and writes go to the virtual file system at the offset of the entry, or to
    the pipes of the process. *)
From S2P Require Import Prelude Bytes Path CritBit Fat Vfs Pipe.

(** An address of an object. *)
Abbreviation loc := nat.

Inductive FdError : Type :=
| kInvalidFd | kFdTableFull | kBadFileDescriptor | kNotOpen | kNotFound | kAlreadyClosed | kPermissionDenied | kInvalidArgument | kIoError.

Inductive FdResult (A : Type) : Type := FdOk (a : A) | FdErr (e : FdError).
Arguments FdOk {A}.
Arguments FdErr {A}.

(** ** Constants (fs/costants.hpp, constants.hpp) *)
Definition kMaxFdsPerProcess : Z := 128.
Definition kMaxOpenFiles : Z := 1014.
Definition kMaxActiveFiles : Z := 512.
Definition kStdioBufferSize : Z := 2 ^ 12.
Definition kMaxProcesses : Z := 4096.

(** ** Modes *)
Definition kRead : Z := 1.
Definition kWrite : Z := 2.
Definition kReadWrite : Z := Z.lor kRead kWrite.
Definition kAppend : Z := 4.
Definition HasMode (flags mode : Z) : bool := Z.land flags mode =? mode.

Definition kStderrFd : Z := 2.

Inductive FdSeek : Type := kSet | kCur | kEnd | kSeekOther.

(** ** Objects *)
Record File := mkFile { f_refs : Z; f_size : Z; f_mode : Z; f_path : Path; f_pool_idx : Z }.

(** [FileHandle]: the tagged pointer to a counted file or to a pipe that the process owns. *)
Inductive FileHandle : Type := HNull | HFile (f : loc) | HPipe (p : loc).

Record OpenFileEntry := mkEntry { e_refs : Z; handle : FileHandle; flags : Z; offset : Z; is_append : bool; e_pool_idx : Z }.

Definition IsFile (e : OpenFileEntry) : bool := if handle e is HFile _ then true else false.
Definition IsPipe (e : OpenFileEntry) : bool := if handle e is HPipe _ then true else false.

Record FdTable := mkFdTable { entries_ : list (option loc); fd_count : Z }.
Definition empty_fd_table : FdTable := mkFdTable (replicate (Z.to_nat kMaxFdsPerProcess) None) 0.

(** What of a [Process] the tables use. *)
Record Process := mkProcess { pid_count : Z; fd_table : FdTable; stdin_pipe : loc; stdout_pipe : loc; stderr_pipe : loc }.

(** [PooledHashMap]: where the objects are, and the free indices, the next one first. *)
Record PooledHashMap := mkPool { map_ : list (option loc); pool_ : list Z }.

Definition new_pool (kSize : Z) : PooledHashMap := mkPool (replicate (Z.to_nat kSize) None) (seqZ 0 kSize).

(** Take an index; [None] is the largest [size_t]. *)
Definition pool_take (p : PooledHashMap) (l : loc) : option (Z * PooledHashMap) :=
  match pool_ p with
  | [] => None
  | i :: rest => Some (i, mkPool (<[Z.to_nat i := Some l]> (map_ p)) rest)
  end.

Definition pool_give (p : PooledHashMap) (i : Z) : PooledHashMap :=
  mkPool (<[Z.to_nat i := None]> (map_ p)) (i :: pool_ p).

Definition pool_get (p : PooledHashMap) (i : Z) : option loc := mjoin (map_ p !! Z.to_nat i).

Section fd.
Context {W : Type}.

(** The tables with the objects in memory, the processes and the file system module.  [current] is
    the identifier of the process that the core runs. *)
Record FdManager := mkFd {
  files : gmap loc File; next_file : loc; files_ : PooledHashMap; files_count : Z;
  opens : gmap loc OpenFileEntry; next_entry : loc; opens_ : PooledHashMap; opens_count : Z;
  processes : list (option Process); process_pool : list Z; process_counter : Z;
  pipes : gmap loc AtomicCyclicBuffer; next_pipe : loc;
  current : Z;
  vfs : VfsModule W
}.

Definition set_files f n p c (m : FdManager) : FdManager :=
  mkFd f n p c (opens m) (next_entry m) (opens_ m) (opens_count m) (processes m) (process_pool m) (process_counter m) (pipes m) (next_pipe m) (current m) (vfs m).
Definition set_opens f n p c (m : FdManager) : FdManager :=
  mkFd (files m) (next_file m) (files_ m) (files_count m) f n p c (processes m) (process_pool m) (process_counter m) (pipes m) (next_pipe m) (current m) (vfs m).
Definition set_processes ps pool c (m : FdManager) : FdManager :=
  mkFd (files m) (next_file m) (files_ m) (files_count m) (opens m) (next_entry m) (opens_ m) (opens_count m) ps pool c (pipes m) (next_pipe m) (current m) (vfs m).
Definition set_pipes ps n (m : FdManager) : FdManager :=
  mkFd (files m) (next_file m) (files_ m) (files_count m) (opens m) (next_entry m) (opens_ m) (opens_count m) (processes m) (process_pool m) (process_counter m) ps n (current m) (vfs m).
Definition set_current c (m : FdManager) : FdManager :=
  mkFd (files m) (next_file m) (files_ m) (files_count m) (opens m) (next_entry m) (opens_ m) (opens_count m) (processes m) (process_pool m) (process_counter m) (pipes m) (next_pipe m) c (vfs m).
Definition set_vfs v (m : FdManager) : FdManager :=
  mkFd (files m) (next_file m) (files_ m) (files_count m) (opens m) (next_entry m) (opens_ m) (opens_count m) (processes m) (process_pool m) (process_counter m) (pipes m) (next_pipe m) (current m) v.

Definition set_file (l : loc) (f : File) (m : FdManager) : FdManager :=
  set_files (<[l := f]> (files m)) (next_file m) (files_ m) (files_count m) m.
Definition set_entry (l : loc) (e : OpenFileEntry) (m : FdManager) : FdManager :=
  set_opens (<[l := e]> (opens m)) (next_entry m) (opens_ m) (opens_count m) m.

Abbreviation FM := (M FdManager).

Definition get_file (l : loc) : FM File := m ← getS; match files m !! l with Some f => mret f | None => stopM BadAccess end.
Definition get_entry (l : loc) : FM OpenFileEntry := m ← getS; match opens m !! l with Some e => mret e | None => stopM BadAccess end.

(** ** Reference counts (ref_count.hpp) *)

Definition with_f_refs (n : Z) (f : File) : File := mkFile n (f_size f) (f_mode f) (f_path f) (f_pool_idx f).
Definition with_e_refs (n : Z) (e : OpenFileEntry) : OpenFileEntry := mkEntry n (handle e) (flags e) (offset e) (is_append e) (e_pool_idx e).
Definition with_offset (n : Z) (e : OpenFileEntry) : OpenFileEntry := mkEntry (e_refs e) (handle e) (flags e) n (is_append e) (e_pool_idx e).

Definition AddRefFile (l : loc) : FM unit := f ← get_file l; modS (set_file l (with_f_refs (u32 (f_refs f + 1)) f)).
Definition AddRefEntry (l : loc) : FM unit := e ← get_entry l; modS (set_entry l (with_e_refs (u32 (e_refs e + 1)) e)).

(** [PooledHashMap::Free] on the pool of files: the memory is given back. *)
Definition FreeFile (idx : Z) : FM unit :=
  assertM (idx <? kMaxActiveFiles) "idx < kSize";;
  m ← getS;
  match pool_get (files_ m) idx with
  | None => stopM (Panic "Get(idx)")
  | Some l => modS (set_files (delete l (files m)) (next_file m) (pool_give (files_ m) idx) (files_count m))
  end.

Definition FreeEntry (idx : Z) : FM unit :=
  assertM (idx <? kMaxOpenFiles) "idx < kSize";;
  m ← getS;
  match pool_get (opens_ m) idx with
  | None => stopM (Panic "Get(idx)")
  | Some l => modS (set_opens (delete l (opens m)) (next_entry m) (pool_give (opens_ m) idx) (opens_count m))
  end.

(** [File::~File] *)
Definition DestroyFile (l : loc) : FM unit :=
  f ← get_file l;
  FreeFile (f_pool_idx f);;
  m ← getS; modS (set_files (files m) (next_file m) (files_ m) (u64 (files_count m - 1))).

Definition ReleaseFile (l : loc) : FM unit :=
  f ← get_file l;
  modS (set_file l (with_f_refs (u32 (f_refs f - 1)) f));;
  assertM (0 <? f_refs f) "Releasing ref_count that is already zero";;
  if f_refs f =? 1 then DestroyFile l else mret tt.

(** [TaggedPointer::Destroy] *)
Definition DestroyHandle (h : FileHandle) : FM unit := if h is HFile f then ReleaseFile f else mret tt.

(** [OpenFileEntry::~OpenFileEntry]: its body gives the memory back, then its member [handle], which
    lies there still, is destroyed. *)
Definition DestroyEntry (l : loc) : FM unit :=
  e ← get_entry l;
  FreeEntry (e_pool_idx e);;
  m ← getS; modS (set_opens (opens m) (next_entry m) (opens_ m) (u64 (opens_count m - 1)));;
  DestroyHandle (handle e).

Definition ReleaseEntry (l : loc) : FM unit :=
  e ← get_entry l;
  modS (set_entry l (with_e_refs (u32 (e_refs e - 1)) e));;
  assertM (0 <? e_refs e) "Releasing ref_count that is already zero";;
  if e_refs e =? 1 then DestroyEntry l else mret tt.

(** ** Descriptor tables *)

Definition IsValidFd (fd : Z) : bool := (0 <=? fd) && (fd <? kMaxFdsPerProcess).

(** [GetProcesses().GetProcess(id)], then its descriptor table. *)
Definition get_process (id : Z) : FM (option Process) :=
  assertM (id <? kMaxProcesses) "idx < kSize";; m ← getS; mret (mjoin (processes m !! Z.to_nat id)).

Definition set_table (id : Z) (t : FdTable) : FM unit :=
  m ← getS;
  match mjoin (processes m !! Z.to_nat id) with
  | None => stopM BadAccess
  | Some p => modS (set_processes (<[Z.to_nat id := Some (mkProcess (pid_count p) t (stdin_pipe p) (stdout_pipe p) (stderr_pipe p))]> (processes m)) (process_pool m) (process_counter m))
  end.

Definition get_table (id : Z) : FM FdTable :=
  p ← get_process id; match p with None => stopM BadAccess | Some p => mret (fd_table p) end.

Fixpoint first_null (l : list (option loc)) (i : Z) : option Z :=
  match l with
  | [] => None
  | None :: _ => Some i
  | Some _ :: l => first_null l (i + 1)
  end.

(** [global_entry] is a counted reference that the call consumes. *)
Definition Allocate (id : Z) (global_entry : loc) : FM (FdResult Z) :=
  t ← get_table id;
  match first_null (entries_ t) 0 with
  | Some i =>
      set_table id (mkFdTable (<[Z.to_nat i := Some global_entry]> (entries_ t)) (u64 (fd_count t + 1)));;
      mret (FdOk i)
  | None => ReleaseEntry global_entry;; mret (FdErr kFdTableFull)
  end.

Definition AllocateAt (id : Z) (global_entry : loc) (fd : Z) : FM (FdResult Z) :=
  if negb (IsValidFd fd) then ReleaseEntry global_entry;; mret (FdErr kInvalidFd)
  else
    t ← get_table id;
    match entries_ t !!! Z.to_nat fd with
    | Some _ => ReleaseEntry global_entry;; mret (FdErr kBadFileDescriptor)
    | None =>
        set_table id (mkFdTable (<[Z.to_nat fd := Some global_entry]> (entries_ t)) (u64 (fd_count t + 1)));;
        mret (FdOk fd)
    end.

Definition Free (id : Z) (fd : Z) : FM (FdResult unit) :=
  if negb (IsValidFd fd) then mret (FdErr kInvalidFd)
  else
    t ← get_table id;
    match entries_ t !!! Z.to_nat fd with
    | None => mret (FdErr kNotOpen)
    | Some l =>
        e ← get_entry l;
        if (fd <=? kStderrFd) && IsPipe e then mret (FdErr kPermissionDenied)
        else
          ReleaseEntry l;;
          set_table id (mkFdTable (<[Z.to_nat fd := None]> (entries_ t)) (u64 (fd_count t - 1)));;
          mret (FdOk tt)
    end.

(** [FdTable::Get] *)
Definition GetFd (id : Z) (fd : Z) : FM (option loc) :=
  if IsValidFd fd then t ← get_table id; mret (entries_ t !!! Z.to_nat fd) else mret None.

Definition DuplicateFd (id : Z) (fd : Z) : FM (FdResult Z) :=
  if negb (IsValidFd fd) then mret (FdErr kInvalidFd)
  else
    t ← get_table id;
    match entries_ t !!! Z.to_nat fd with
    | None => mret (FdErr kBadFileDescriptor)
    | Some l =>
        match first_null (entries_ t) 0 with
        | Some i =>
            AddRefEntry l;;
            set_table id (mkFdTable (<[Z.to_nat i := Some l]> (entries_ t)) (u64 (fd_count t + 1)));;
            mret (FdOk i)
        | None => mret (FdErr kFdTableFull)
        end
    end.

(** [RefPtr::operator=] of [entries_[new_fd]] from [entries_[old_fd]], where the former is null. *)
Definition DuplicateFdTo (id : Z) (old_fd new_fd : Z) : FM (FdResult Z) :=
  if negb (IsValidFd old_fd) then mret (FdErr kInvalidFd)
  else if negb (IsValidFd new_fd) then mret (FdErr kInvalidFd)
  else
    t ← get_table id;
    match entries_ t !!! Z.to_nat old_fd with
    | None => mret (FdErr kBadFileDescriptor)
    | Some _ =>
        match entries_ t !!! Z.to_nat new_fd with
        | Some l => ReleaseEntry l;; set_table id (mkFdTable (<[Z.to_nat new_fd := None]> (entries_ t)) (fd_count t))
        | None => mret tt
        end;;
        t ← get_table id;
        match entries_ t !!! Z.to_nat old_fd with
        | Some l => AddRefEntry l
        | None => mret tt
        end;;
        set_table id (mkFdTable (<[Z.to_nat new_fd := entries_ t !!! Z.to_nat old_fd]> (entries_ t)) (u64 (fd_count t + 1)));;
        mret (FdOk new_fd)
    end.

(** ** Files *)

(** The loop over the pool: a file in use with that path. *)
Fixpoint FindLoop (path : Path) (l : list (option loc)) : FM (option loc) :=
  match l with
  | [] => mret None
  | None :: l => FindLoop path l
  | Some a :: l =>
      f ← get_file a;
      if (0 <? f_refs f) && path_eqb (f_path f) path then mret (Some a) else FindLoop path l
  end.

Definition Find (path : Path) : FM (option loc) := m ← getS; FindLoop path (map_ (files_ m)).

(** Returns a counted reference; for a file that is there already, without counting it. *)
Definition GetOrCreate (mem : bool) (path : Path) : FM (FdResult loc) :=
  if Path.IsEmpty path then mret (FdErr kInvalidArgument)
  else
    existing ← Find path;
    match existing with
    | Some f => mret (FdOk f)
    | None =>
        m ← getS;
        match pool_take (files_ m) (next_file m) with
        | None => mret (FdErr kIoError)
        | Some (idx, pool) =>
            assertM mem "static_cast<bool>(mem)";;
            let l := next_file m in
            modS (set_files (<[l := mkFile 0 0 0 (copy path) idx]> (files m)) (S l) pool (u64 (files_count m + 1)));;
            AddRefFile l;;
            mret (FdOk l)
        end
    end.

(** ** Open files *)

(** What [OpenFile] and [OpenPipe] share: a new entry in the pool. *)
Definition NewEntry (mem : bool) (h : FileHandle) (fl : Z) (append : bool) : FM (FdResult loc) :=
  m ← getS;
  match pool_take (opens_ m) (next_entry m) with
  | None => mret (FdErr kIoError)
  | Some (idx, pool) =>
      assertM mem "static_cast<bool>(mem)";;
      let l := next_entry m in
      modS (set_opens (opens m) (S l) pool (opens_count m));;
      (if h is HFile f then AddRefFile f else mret tt);;
      m ← getS;
      modS (set_opens (<[l := mkEntry 0 h fl 0 append idx]> (opens m)) (next_entry m) (opens_ m) (u64 (opens_count m + 1)));;
      AddRefEntry l;;
      mret (FdOk l)
  end.

Definition OpenFile (mem : bool) (file : loc) (mode : Z) : FM (FdResult loc) :=
  NewEntry mem (HFile file) mode (HasMode mode kAppend).

Definition OpenPipe (mem : bool) (pipe : loc) : FM (FdResult loc) := NewEntry mem (HPipe pipe) kReadWrite false.

(** ** The operations of the manager *)

Definition on_vfs {A} (c : M (VfsModule W) A) : FM A := zoom vfs set_vfs c.

Definition on_pipe {A} (p : loc) (c : M AtomicCyclicBuffer A) : FM A :=
  m ← getS;
  match pipes m !! p with
  | None => stopM BadAccess
  | Some r =>
      match c r with
      | Ok (a, r') => modS (set_pipes (<[p := r']> (pipes m)) (next_pipe m));; mret a
      | Stop e => stopM e
      end
  end.

(** [GetCurrentProcessFdTable]: the process whose table it is, or null. *)
Definition GetCurrentProcessFdTable : FM (option Z) :=
  m ← getS; p ← get_process (current m); mret (if p is Some _ then Some (current m) else None).

Definition Open (file_mem entry_mem : bool) (path : Path) (mode : Z) : FM (FdResult Z) :=
  exists_result ← on_vfs (FileExists path);
  match exists_result with
  | Unexpected _ => mret (FdErr kIoError)
  | Value false => mret (FdErr kNotFound)
  | Value true =>
      file_result ← GetOrCreate file_mem path;
      match file_result with
      | FdErr e => mret (FdErr e)
      | FdOk file =>
          open_result ← OpenFile entry_mem file mode;
          match open_result with
          | FdErr e => ReleaseFile file;; mret (FdErr e)
          | FdOk entry =>
              t ← GetCurrentProcessFdTable;
              match t with
              | None => ReleaseEntry entry;; ReleaseFile file;; mret (FdErr kIoError)
              | Some id => fd_result ← Allocate id entry; ReleaseFile file;; mret fd_result
              end
          end
      end
  end.

Definition Close (fd : Z) : FM (FdResult unit) :=
  t ← GetCurrentProcessFdTable;
  match t with None => mret (FdErr kIoError) | Some id => Free id fd end.

Definition add_offset (l : loc) (n : Z) : FM unit := e ← get_entry l; modS (set_entry l (with_offset (u64 (offset e + n)) e)).

(** [fd_table->Get(fd)] of the current process, which must be there. *)
Definition current_entry (fd : Z) : FM (option loc) :=
  t ← GetCurrentProcessFdTable;
  match t with None => stopM (Panic "fd_table") | Some id => GetFd id fd end.

Definition Read (fd : Z) (size : Z) : FM (FdResult (list Z)) :=
  if size =? 0 then mret (FdErr kInvalidArgument)
  else
    l ← current_entry fd;
    match l with
    | None => mret (FdErr kBadFileDescriptor)
    | Some l =>
        e ← get_entry l;
        if negb (HasMode (flags e) kRead) then mret (FdErr kPermissionDenied)
        else
          match handle e with
          | HFile f =>
              file ← get_file f;
              result ← on_vfs (ReadFile (f_path file) true size (offset e));
              match result with
              | Unexpected _ => mret (FdErr kIoError)
              | Value data => add_offset l (zlen data);; mret (FdOk data)
              end
          | HPipe p =>
              result ← on_pipe p (PipeRead kStdioBufferSize size);
              mret (match result with IoRetry => FdErr kIoError | IoOk data => FdOk data end)
          | HNull => mret (FdErr kBadFileDescriptor)
          end
    end.

Definition Write (fd : Z) (buffer : list Z) : FM (FdResult Z) :=
  if zlen buffer =? 0 then mret (FdErr kInvalidArgument)
  else
    l ← current_entry fd;
    match l with
    | None => mret (FdErr kBadFileDescriptor)
    | Some l =>
        e ← get_entry l;
        if negb (HasMode (flags e) kWrite) then mret (FdErr kPermissionDenied)
        else
          match handle e with
          | HFile f =>
              file ← get_file f;
              (if is_append e then modS (set_entry l (with_offset (f_size file) e)) else mret tt);;
              e ← get_entry l;
              result ← on_vfs (WriteFile (f_path file) (Some buffer) (offset e));
              match result with
              | Unexpected _ => mret (FdErr kIoError)
              | Value n => add_offset l n;; mret (FdOk n)
              end
          | HPipe p =>
              result ← on_pipe p (PipeWrite kStdioBufferSize buffer);
              mret (match result with IoRetry => FdErr kIoError | IoOk n => FdOk n end)
          | HNull => mret (FdErr kBadFileDescriptor)
          end
    end.

Definition Seek (fd : Z) (off : Z) (whence : FdSeek) : FM (FdResult Z) :=
  l ← current_entry fd;
  match l with
  | None => mret (FdErr kBadFileDescriptor)
  | Some l =>
      e ← get_entry l;
      match handle e with
      | HFile f =>
          file ← get_file f;
          let to (new_offset : Z) : FM (FdResult Z) := modS (set_entry l (with_offset (u64 new_offset) e));; mret (FdOk new_offset) in
          match whence with
          | kSet => to off
          | kCur => to (i64 (u64 (offset e + u64 off)))
          | kEnd => to (i64 (u64 (f_size file + u64 off)))
          | kSeekOther => mret (FdErr kInvalidArgument)
          end
      | _ => mret (FdErr kInvalidArgument)
      end
  end.

Definition Duplicate (fd : Z) : FM (FdResult Z) :=
  t ← GetCurrentProcessFdTable;
  match t with None => mret (FdErr kIoError) | Some id => DuplicateFd id fd end.

Definition DuplicateTo (old_fd new_fd : Z) : FM (FdResult Z) :=
  t ← GetCurrentProcessFdTable;
  match t with None => mret (FdErr kIoError) | Some id => DuplicateFdTo id old_fd new_fd end.

(** ** Processes *)

(** [FdTable::~FdTable]: the references in the array, the last first. *)
Fixpoint DestroyRefs (l : list (option loc)) : FM unit :=
  match l with
  | [] => mret tt
  | o :: l => DestroyRefs l;; (if o is Some a then ReleaseEntry a else mret tt)
  end.

(** The process at an index, with the members that its constructor sets: empty pipes. *)
Definition new_process (id : Z) (rest : list Z) : FM unit :=
  m ← getS;
  let p := next_pipe m in
  let c := u64 (process_counter m + 1) in
  let ring := empty_ring kStdioBufferSize in
  modS (set_pipes (<[p := ring]> (<[S p := ring]> (<[S (S p) := ring]> (pipes m)))) (S (S (S p))));;
  modS (set_processes (<[Z.to_nat id := Some (mkProcess (wrap_u 48 (u64 (c - 1))) empty_fd_table p (S p) (S (S p)))]> (processes m)) rest c).

(** [processes_.Free] *)
Definition free_process (id : Z) : FM unit :=
  m ← getS; modS (set_processes (<[Z.to_nat id := None]> (processes m)) (id :: process_pool m) (process_counter m)).

(** What goes wrong in [PrepareProcess]. *)
Inductive SchedError : Type := OutOfMemory | ProcessNotFound.

(** One of the three standard descriptors. *)
Definition open_std (id : Z) (mem : bool) (pipe : loc) (fd : Z) : FM bool :=
  r ← OpenPipe mem pipe;
  match r with
  | FdErr _ => mret false
  | FdOk l => a ← AllocateAt id l fd; mret (if a is FdOk _ then true else false)
  end.

(** The guards that run when the function returns early: the table with its references, then the
    process. *)
Definition undo_table (id : Z) : FM unit := t ← get_table id; DestroyRefs (entries_ t).

Record process_mem := mkProcessMem { object_mem : bool; wait_queue_mem : bool; table_mem : bool; stdin_mem : bool; stdout_mem : bool; stderr_mem : bool }.

Definition PrepareProcess (mem : process_mem) : FM (Z + SchedError) :=
  m ← getS;
  match process_pool m with
  | [] => stopM (Panic "idx < kSize")
  | id :: rest =>
      assertM (object_mem mem) "static_cast<bool>(mem)";;
      new_process id rest;;
      if negb (wait_queue_mem mem) then free_process id;; mret (inr OutOfMemory)
      else if negb (table_mem mem) then free_process id;; mret (inr OutOfMemory)
      else
        p ← get_process id;
        match p with
        | None => stopM BadAccess
        | Some p =>
            ok0 ← open_std id (stdin_mem mem) (stdin_pipe p) 0;
            if negb ok0 then undo_table id;; free_process id;; mret (inr OutOfMemory)
            else
              ok1 ← open_std id (stdout_mem mem) (stdout_pipe p) 1;
              if negb ok1 then undo_table id;; free_process id;; mret (inr OutOfMemory)
              else
                ok2 ← open_std id (stderr_mem mem) (stderr_pipe p) 2;
                if negb ok2 then undo_table id;; free_process id;; mret (inr OutOfMemory)
                else mret (inl id)
        end
  end.

(** [Processes::Free] with the part of [CleanupProcess] that concerns the descriptors. *)
Definition FreeProcess (id : Z) : FM (unit + SchedError) :=
  p ← get_process id;
  match p with
  | None => mret (inr ProcessNotFound)
  | Some p => DestroyRefs (entries_ (fd_table p));; free_process id;; mret (inl tt)
  end.
End fd.
Arguments FdManager : clear implicits.
