(* ===== verification/FileDescInv.v ===== *)
(** * The objects behind file descriptors
    The invariant of the pools and of the reference counts: an entry is counted as often as slots
    of descriptor tables and temporary references point to it, and a file is held by exactly one
    entry.  Taking and dropping a reference keep it; the last one frees the entry and its file. *)
From S2P Require Import Prelude Bytes Path CritBit Fat Vfs Pipe FileDesc.

(** ** Running a computation step by step *)
Lemma bind_run {S A B} (m : M S A) (k : A → M S B) s a s' : m s = Ok (a, s') → (m ≫= k) s = k a s'.
Proof. unfold mbind, M_bind. by intros ->. Qed.

Lemma bind_bind {S A B C} (m : M S A) (k : A → M S B) (h : B → M S C) s : ((m ≫= k) ≫= h) s = (m ≫= λ a, k a ≫= h) s.
Proof. unfold mbind, M_bind. by destruct (m s) as [[a s']|e]. Qed.

Lemma assert_run {S} b msg (s : S) : b = true → assertM b msg s = Ok (tt, s).
Proof. by intros ->. Qed.

Ltac run := erewrite bind_run by reflexivity; cbn beta.

(** ** Pools *)
Section pool.
Context {A : Type} (idx : A → Z) (N : Z).
Implicit Types (heap : gmap nat A) (p : PooledHashMap).

Record pool_ok p heap : Prop := {
  po_len : length (map_ p) = Z.to_nat N;
  po_obj : ∀ l o, heap !! l = Some o → 0 ≤ idx o < N ∧ map_ p !! Z.to_nat (idx o) = Some (Some l);
  po_free : ∀ i, i ∈ pool_ p → 0 ≤ i < N ∧ map_ p !! Z.to_nat i = Some None;
  po_nodup : NoDup (pool_ p);
  po_dom : ∀ i l, map_ p !! i = Some (Some l) → ∃ o, heap !! l = Some o ∧ Z.to_nat (idx o) = i;
  po_size : zlen (pool_ p) + Z.of_nat (size heap) = N
}.

Lemma new_pool_ok : 0 ≤ N → pool_ok (new_pool N) ∅.
Proof.
  intros HN. split; cbn [new_pool map_ pool_].
  - apply length_replicate.
  - intros l o H. by rewrite lookup_empty in H.
  - intros i Hi%elem_of_seqZ. split; [lia|]. apply lookup_replicate_2. lia.
  - apply NoDup_seqZ.
  - intros i l [? _]%lookup_replicate. done.
  - rewrite length_seqZ, map_size_empty. lia.
Qed.

Lemma pool_take_ok p heap l i p' o :
  pool_ok p heap → pool_take p l = Some (i, p') → heap !! l = None → idx o = i → pool_ok p' (<[l := o]> heap) ∧ 0 ≤ i < N.
Proof.
  intros [Hl Ho Hf Hn Hd Hs] Ht Hh Hi. unfold pool_take in Ht. destruct (pool_ p) as [|j rest] eqn:Ep; [done|].
  injection Ht as -> <-. destruct (Hf i (list_elem_of_here _ _)) as [Hb Hm]. apply NoDup_cons in Hn as [Hni Hn].
  assert (Hlt : (Z.to_nat i < length (map_ p))%nat) by (by apply lookup_lt_Some in Hm). split; [|done].
  split; cbn [map_ pool_].
  - by rewrite length_insert.
  - intros l' o' H. apply lookup_insert_Some in H as [[<- <-]|[Hne H]].
    + rewrite Hi. split; [done|]. by rewrite list_lookup_insert_eq.
    + destruct (Ho _ _ H) as [Hb' Hm']. split; [done|]. rewrite list_lookup_insert_ne; [done|]. intros E. rewrite <- E in Hm'. congruence.
  - intros j Hj. destruct (Hf j) as [Hb' Hm']; [by right|]. split; [done|]. rewrite list_lookup_insert_ne; [done|].
    intros E. assert (i = j) by lia. by subst.
  - done.
  - intros j l' H. destruct (decide (Z.to_nat i = j)) as [<-|].
    + rewrite list_lookup_insert_eq in H by done. injection H as <-. exists o. rewrite lookup_insert_eq, Hi. done.
    + rewrite list_lookup_insert_ne in H by done. destruct (Hd _ _ H) as (o' & Ho' & Hj). exists o'. rewrite lookup_insert_ne; [done|]. congruence.
  - rewrite map_size_insert_None by done. cbn [length] in Hs. lia.
Qed.

Lemma pool_give_ok p heap l o : pool_ok p heap → heap !! l = Some o → pool_ok (pool_give p (idx o)) (delete l heap) ∧ pool_get p (idx o) = Some l.
Proof.
  intros [Hl Ho Hf Hn Hd Hs] Hh. destruct (Ho _ _ Hh) as [Hb Hm]. assert (Hlt : (Z.to_nat (idx o) < length (map_ p))%nat) by (by apply lookup_lt_Some in Hm).
  split; [|unfold pool_get; by rewrite Hm]. split; cbn [pool_give map_ pool_].
  - by rewrite length_insert.
  - intros l' o' H. apply lookup_delete_Some in H as [Hne H]. destruct (Ho _ _ H) as [Hb' Hm']. split; [done|].
    rewrite list_lookup_insert_ne; [done|]. intros E. rewrite <- E in Hm'. congruence.
  - intros i [->|Hi]%elem_of_cons.
    + split; [done|]. by rewrite list_lookup_insert_eq.
    + destruct (Hf i Hi) as [Hb' Hm']. split; [done|]. destruct (decide (Z.to_nat (idx o) = Z.to_nat i)) as [->|]; [rewrite list_lookup_insert_eq; [done|by apply lookup_lt_Some in Hm']|].
      by rewrite list_lookup_insert_ne.
  - apply NoDup_cons. split; [|done]. intros Hi. destruct (Hf _ Hi) as [_ H]. congruence.
  - intros i l' H. destruct (decide (Z.to_nat (idx o) = i)) as [<-|]; [by rewrite list_lookup_insert_eq in H|].
    rewrite list_lookup_insert_ne in H by done. destruct (Hd _ _ H) as (o' & Ho' & Hi). exists o'. rewrite lookup_delete_ne; [done|].
    intros <-. congruence.
  - rewrite map_size_delete, Hh. cbn [length]. assert (size heap ≠ 0%nat) by (intros ?%map_size_empty_inv; set_solver). lia.
Qed.

Lemma pool_ok_set p heap l o o' : pool_ok p heap → heap !! l = Some o → idx o' = idx o → pool_ok p (<[l := o']> heap).
Proof.
  intros [Hl Ho Hf Hn Hd Hs] Hh Hi. split; try done.
  - intros l' x [[<- <-]|[Hne H]]%lookup_insert_Some; [rewrite Hi; by apply Ho|by apply Ho].
  - intros i l' H. destruct (Hd _ _ H) as (x & Hx & Hj). destruct (decide (l = l')) as [<-|].
    + exists o'. rewrite lookup_insert_eq, Hi. split; [done|congruence].
    + exists x. by rewrite lookup_insert_ne.
  - by rewrite map_size_insert_Some by by eexists.
Qed.

Lemma pool_take_give p heap l i p' : pool_ok p heap → pool_take p l = Some (i, p') →
  0 ≤ i < N ∧ pool_get p' i = Some l ∧ pool_give p' i = p.
Proof.
  intros [Hl Ho Hf Hn Hd Hs] Ht. destruct p as [mp pl]. unfold pool_take in Ht. cbn [map_ pool_] in *. destruct pl as [|j rest]; [done|].
  injection Ht as -> <-. destruct (Hf i (list_elem_of_here _ _)) as [Hb Hm]. split; [done|]. pose proof (lookup_lt_Some _ _ _ Hm).
  unfold pool_get, pool_give. cbn [map_ pool_]. rewrite list_lookup_insert_eq, list_insert_insert_eq by done. by rewrite list_insert_id.
Qed.

(** A pool has no index left when as many objects are there as it has places. *)
Lemma pool_take_full p heap l : pool_ok p heap → pool_take p l = None ↔ Z.of_nat (size heap) = N.
Proof. intros [_ _ _ _ _ Hs]. unfold pool_take. destruct (pool_ p); cbn [length] in Hs; split; intros; try done; lia. Qed.
End pool.

(** ** References *)
Section objects.
Context {W : Type}.
Implicit Types (m : FdManager W) (n : nat → nat).

Definition is_file (x : nat * OpenFileEntry) : bool := IsFile (snd x).

(** [n l]: how many references to the entry at [l] there are. *)
Record objs (n : nat → nat) (m : FdManager W) : Prop := {
  ob_refs : ∀ l e, opens m !! l = Some e → e_refs e = Z.of_nat (n l) ∧ (0 < n l)%nat ∧ (l < next_entry m)%nat;
  ob_live : ∀ l, (0 < n l)%nat → is_Some (opens m !! l);
  ob_null : ∀ l e, opens m !! l = Some e → handle e ≠ HNull;
  ob_pipe : ∀ l e p, opens m !! l = Some e → handle e = HPipe p → is_Some (pipes m !! p);
  ob_file : ∀ l e f, opens m !! l = Some e → handle e = HFile f → is_Some (files m !! f);
  ob_inj : ∀ l l' e e' f, opens m !! l = Some e → opens m !! l' = Some e' → handle e = HFile f → handle e' = HFile f → l = l';
  ob_held : ∀ f fl, files m !! f = Some fl →
    f_refs fl = 1 ∧ f_size fl = 0 ∧ (f < next_file m)%nat ∧ ∃ l e, opens m !! l = Some e ∧ handle e = HFile f;
  ob_files : pool_ok f_pool_idx kMaxActiveFiles (files_ m) (files m);
  ob_opens : pool_ok e_pool_idx kMaxOpenFiles (opens_ m) (opens m);
  ob_size : size (files m) = size (filter is_file (opens m));
  ob_counts : files_count m = Z.of_nat (size (files m)) ∧ opens_count m = Z.of_nat (size (opens m))
}.

Lemma objs_ext n n' m : (∀ l, n l = n' l) → objs n m → objs n' m.
Proof.
  intros E [H1 H2 H3 H4 H5 H6 H7 H8 H9 H10 H11]. split; try done.
  - intros l e H. rewrite <- E. by apply H1.
  - intros l. rewrite <- E. apply H2.
Qed.

Definition dec_at (l : nat) n : nat → nat := λ l', if decide (l = l') then (n l - 1)%nat else n l'.
Definition inc_at (l : nat) n : nat → nat := λ l', if decide (l = l') then (n l + 1)%nat else n l'.

(** What the objects have become, with everything else as it was. *)
Definition same_rest (m m' : FdManager W) : Prop :=
  next_file m' = next_file m ∧ next_entry m' = next_entry m ∧ processes m' = processes m ∧ process_pool m' = process_pool m ∧
  process_counter m' = process_counter m ∧ pipes m' = pipes m ∧ next_pipe m' = next_pipe m ∧ current m' = current m ∧ vfs m' = vfs m.

Lemma is_file_insert m l e e' : opens m !! l = Some e → handle e' = handle e → size (filter is_file (<[l := e']> (opens m))) = size (filter is_file (opens m)).
Proof.
  intros He Hh. unfold is_file, IsFile. destruct (handle e) eqn:E.
  - rewrite map_filter_insert_False by (cbn; rewrite Hh; naive_solver). rewrite map_filter_delete, map_size_delete.
    destruct (filter _ _ !! l) eqn:F; [|done]. apply map_lookup_filter_Some in F as [F1 F2]. cbn in F2. assert (o = e) as -> by congruence. by rewrite E in F2.
  - rewrite map_filter_insert_True by (cbn; by rewrite Hh). rewrite map_size_insert_Some; [done|]. exists e. apply map_lookup_filter_Some. split; [done|]. cbn. by rewrite E.
  - rewrite map_filter_insert_False by (cbn; rewrite Hh; naive_solver). rewrite map_filter_delete, map_size_delete.
    destruct (filter _ _ !! l) eqn:F; [|done]. apply map_lookup_filter_Some in F as [F1 F2]. cbn in F2. assert (o = e) as -> by congruence. by rewrite E in F2.
Qed.

Lemma objs_set_entry n n' m l e e' :
  objs n m → opens m !! l = Some e → handle e' = handle e → e_pool_idx e' = e_pool_idx e →
  e_refs e' = Z.of_nat (n' l) → (0 < n' l)%nat → (∀ l', l' ≠ l → n' l' = n l') → objs n' (set_entry l e' m).
Proof.
  intros [H1 H2 H3 H4 H5 H6 H7 H8 H9 H10 H11] He Hh Hi Hr Hp Hn.
  assert (Hold : ∀ k x, <[l := e']> (opens m) !! k = Some x → ∃ y, opens m !! k = Some y ∧ handle x = handle y).
  { intros k x [[<- <-]|[Hne H]]%lookup_insert_Some; [by exists e|by exists x]. }
  split; cbn [set_entry set_opens opens next_entry files pipes next_file files_ opens_ files_count opens_count].
  - intros k x [[<- <-]|[Hne H]]%lookup_insert_Some; [split_and!; [done..|]; by apply (H1 _ _ He)|]. rewrite Hn by done. by apply H1.
  - intros k Hk. destruct (decide (l = k)) as [<-|]; [rewrite lookup_insert_eq; by eexists|]. rewrite lookup_insert_ne by done. apply H2. by rewrite <- Hn.
  - intros k x Hx. destruct (Hold _ _ Hx) as (y & Hy & ->). by eapply H3.
  - intros k x q Hx Hq. destruct (Hold _ _ Hx) as (y & Hy & E). rewrite E in Hq. by eapply H4.
  - intros k x q Hx Hq. destruct (Hold _ _ Hx) as (y & Hy & E). rewrite E in Hq. by eapply H5.
  - intros k k' x x' f Hx Hx' E E'. destruct (Hold _ _ Hx) as (y & Hy & Ey), (Hold _ _ Hx') as (y' & Hy' & Ey').
    rewrite Ey in E. rewrite Ey' in E'. by eapply H6.
  - intros f fl Hf. destruct (H7 _ _ Hf) as (? & ? & ? & k & x & Hx & E). split_and!; try done. destruct (decide (l = k)) as [<-|].
    + exists l, e'. rewrite lookup_insert_eq. split; [done|]. congruence.
    + exists k, x. by rewrite lookup_insert_ne.
  - done.
  - by eapply pool_ok_set.
  - by rewrite (is_file_insert m l e e').
  - rewrite map_size_insert_Some; [done|]. by eexists.
Qed.

(** The state after the last reference to the entry [e] at [l] is gone. *)
Definition without_file (f : nat) (idx : Z) m : FdManager W :=
  set_files (delete f (files m)) (next_file m) (pool_give (files_ m) idx) (u64 (files_count m - 1)) m.
Definition without_entry (l : nat) (idx : Z) m : FdManager W :=
  set_opens (delete l (opens m)) (next_entry m) (pool_give (opens_ m) idx) (u64 (opens_count m - 1)) m.
Definition without (l : nat) (e : OpenFileEntry) m : FdManager W :=
  let m' := without_entry l (e_pool_idx e) m in
  match handle e with
  | HFile f => match files m !! f with Some fl => without_file f (f_pool_idx fl) m' | None => m' end
  | _ => m'
  end.

Lemma u64_pred (k : nat) : (0 < k < 5000)%nat → u64 (Z.of_nat k - 1) = Z.of_nat (k - 1).
Proof. intros H. rewrite wrap_u_small by (unfold in_u; lia). lia. Qed.

Lemma is_file_delete m l e : opens m !! l = Some e →
  size (filter is_file (opens m)) = (size (filter is_file (delete l (opens m))) + if IsFile e then 1 else 0)%nat.
Proof.
  intros He. rewrite <- (insert_delete_id _ _ _ He) at 1. unfold is_file. destruct (IsFile e) eqn:E.
  - rewrite map_filter_insert_True by (cbn; by rewrite E). rewrite map_size_insert_None; [lia|].
    apply map_lookup_filter_None. left. apply lookup_delete_eq.
  - rewrite map_filter_insert_False by (cbn; rewrite E; naive_solver). rewrite delete_delete_eq. lia.
Qed.

Lemma size_pos_lookup {A} (h : gmap nat A) l x : h !! l = Some x → (0 < size h)%nat.
Proof. intros H. assert (size h ≠ 0%nat); [|lia]. intros E%map_size_empty_inv. subst. by rewrite lookup_empty in H. Qed.

Lemma objs_without n m l e : objs n m → opens m !! l = Some e → n l = 1%nat → objs (dec_at l n) (without l e m).
Proof.
  intros [H1 H2 H3 H4 H5 H6 H7 H8 H9 H10 H11] He Hn.
  pose proof (proj1 (pool_give_ok _ _ _ _ _ _ H9 He)) as Ho. pose proof (is_file_delete m l e He) as Hsz.
  pose proof (po_size _ _ _ _ H9) as Hso. pose proof (po_size _ _ _ _ H8) as Hsf. pose proof (size_pos_lookup _ _ _ He).
  assert (Hd : ∀ k x, delete l (opens m) !! k = Some x → l ≠ k ∧ opens m !! k = Some x) by (intros k x; by rewrite lookup_delete_Some).
  assert (Hr : ∀ k x, delete l (opens m) !! k = Some x → e_refs x = Z.of_nat (dec_at l n k) ∧ (0 < dec_at l n k)%nat ∧ (k < next_entry m)%nat).
  { intros k x [Hne Hx]%Hd. unfold dec_at. rewrite decide_False by done. by apply H1. }
  assert (Hlv : ∀ k, (0 < dec_at l n k)%nat → is_Some (delete l (opens m) !! k)).
  { intros k. unfold dec_at. case_decide; [lia|]. intros Hk. rewrite lookup_delete_ne by done. by apply H2. }
  assert (Hc : u64 (opens_count m - 1) = Z.of_nat (size (delete l (opens m)))).
  { rewrite (proj2 H11), u64_pred, map_size_delete, He by (unfold kMaxOpenFiles in *; lia). f_equal. lia. }
  unfold without. destruct (handle e) as [|f|p] eqn:Eh; [by destruct (H3 _ _ He)|..].
  - destruct (H5 _ _ _ He Eh) as [fl Hf]. rewrite Hf. pose proof (proj1 (pool_give_ok _ _ _ _ _ _ H8 Hf)) as Hfp. pose proof (size_pos_lookup _ _ _ Hf).
    assert (Hif : IsFile e = true) by (unfold IsFile; by rewrite Eh). rewrite Hif in Hsz.
    split; cbn [without_file without_entry set_files set_opens opens next_entry files pipes next_file files_ opens_ files_count opens_count]; try done.
    + intros k x [Hne Hx]%Hd. by eapply H3.
    + intros k x q [Hne Hx]%Hd. by eapply H4.
    + intros k x g [Hne Hx]%Hd Hg. rewrite lookup_delete_ne; [by eapply H5|]. intros <-. by eapply Hne, H6.
    + intros k k' x x' g [_ Hx]%Hd [_ Hx']%Hd. by eapply H6.
    + intros g gl [Hne Hg]%lookup_delete_Some. destruct (H7 _ _ Hg) as (? & ? & ? & k & x & Hx & Ex). split_and!; try done.
      exists k, x. split; [|done]. rewrite lookup_delete_ne; [done|]. intros <-. congruence.
    + rewrite map_size_delete, Hf. lia.
    + split; [|done]. rewrite (proj1 H11), u64_pred, map_size_delete, Hf by (unfold kMaxActiveFiles in *; lia). f_equal. lia.
  - assert (Hif : IsFile e = false) by (unfold IsFile; by rewrite Eh). rewrite Hif in Hsz.
    split; cbn [without_entry set_opens opens next_entry files pipes next_file files_ opens_ files_count opens_count]; try done.
    + intros k x [Hne Hx]%Hd. by eapply H3.
    + intros k x q [Hne Hx]%Hd. by eapply H4.
    + intros k x g [Hne Hx]%Hd. by eapply H5.
    + intros k k' x x' g [_ Hx]%Hd [_ Hx']%Hd. by eapply H6.
    + intros g gl Hg. destruct (H7 _ _ Hg) as (? & ? & ? & k & x & Hx & Ex). split_and!; try done.
      exists k, x. split; [|done]. rewrite lookup_delete_ne; [done|]. intros <-. congruence.
    + lia.
    + by split; [apply H11|].
Qed.

Lemma get_file_run m l f : files m !! l = Some f → get_file l m = Ok (f, m).
Proof. intros H. unfold get_file, mbind, M_bind, getS. by rewrite H. Qed.

Lemma get_entry_run m l e : opens m !! l = Some e → get_entry l m = Ok (e, m).
Proof. intros H. unfold get_entry, mbind, M_bind, getS. by rewrite H. Qed.

Lemma ReleaseFile_run m f fl : files m !! f = Some fl → f_refs fl = 1 → pool_ok f_pool_idx kMaxActiveFiles (files_ m) (files m) →
  ReleaseFile f m = Ok (tt, without_file f (f_pool_idx fl) m).
Proof.
  intros Hf Hr Hp. pose proof (pool_give_ok _ _ _ _ _ _ Hp Hf) as [_ Hg]. pose proof (po_obj _ _ _ _ Hp _ _ Hf) as [Hi _].
  unfold ReleaseFile, DestroyFile, FreeFile. rewrite (bind_run _ _ _ _ _ (get_file_run _ _ _ Hf)), Hr. run. run. cbn [Z.eqb Pos.eqb].
  erewrite bind_run by (apply get_file_run; cbn [set_file set_files files]; apply lookup_insert_eq). rewrite bind_bind. cbn [f_pool_idx with_f_refs].
  erewrite bind_run by (apply assert_run, Z.ltb_lt; lia). rewrite bind_bind. run. cbn [set_file set_files files_]. rewrite Hg.
  run. run. cbn. by rewrite delete_insert_eq.
Qed.

Lemma ReleaseEntry_run n m l : objs n m → (0 < n l)%nat → (Z.of_nat (n l) < 2 ^ 32) → ∃ e, opens m !! l = Some e ∧
  ReleaseEntry l m = Ok (tt, if decide (n l = 1%nat) then without l e m else set_entry l (with_e_refs (e_refs e - 1) e) m).
Proof.
  intros Hm Hn Hb. pose proof Hm as [H1 H2 H3 H4 H5 H6 H7 H8 H9 H10 H11]. destruct (H2 l Hn) as [e He]. exists e. split; [done|].
  destruct (H1 _ _ He) as (Hr & _ & _). pose proof (pool_give_ok _ _ _ _ _ _ H9 He) as [_ Hg]. pose proof (po_obj _ _ _ _ H9 _ _ He) as [Hi _].
  unfold ReleaseEntry. rewrite (bind_run _ _ _ _ _ (get_entry_run _ _ _ He)). run. erewrite bind_run by (apply assert_run, Z.ltb_lt; lia).
  rewrite wrap_u_small by (unfold in_u; lia). case_decide as Hd.
  - rewrite (proj2 (Z.eqb_eq _ _)) by lia. unfold DestroyEntry, FreeEntry.
    erewrite bind_run by (apply get_entry_run; cbn [set_entry set_opens opens]; apply lookup_insert_eq). rewrite bind_bind. cbn [e_pool_idx with_e_refs handle].
    erewrite bind_run by (apply assert_run, Z.ltb_lt; lia). rewrite bind_bind. run. cbn [set_entry set_opens opens_]. rewrite Hg.
    run. run. run. cbn [set_opens set_entry opens next_entry opens_ opens_count].
    rewrite delete_insert_eq. unfold DestroyHandle, without. destruct (handle e) as [|f|p] eqn:Eh; [done| |done].
    destruct (H5 _ _ _ He Eh) as [fl Hf]. rewrite Hf. destruct (H7 _ _ Hf) as (Hfr & _). by rewrite (ReleaseFile_run _ f fl).
  - by rewrite (proj2 (Z.eqb_neq _ _)) by lia.
Qed.

Lemma objs_release n m l e : objs n m → opens m !! l = Some e → (0 < n l)%nat →
  objs (dec_at l n) (if decide (n l = 1%nat) then without l e m else set_entry l (with_e_refs (e_refs e - 1) e) m).
Proof.
  intros Hm He Hn. case_decide; [by apply objs_without|]. destruct (ob_refs _ _ Hm _ _ He) as (Hr & _).
  apply (objs_set_entry n _ _ _ e); try done; unfold dec_at; cbn [with_e_refs e_refs]; rewrite ?decide_True by done; try lia.
  intros l' Hl. by rewrite decide_False.
Qed.

Lemma AddRefEntry_run n m l : objs n m → (0 < n l)%nat → Z.of_nat (n l) + 1 < 2 ^ 32 → ∃ e, opens m !! l = Some e ∧
  AddRefEntry l m = Ok (tt, set_entry l (with_e_refs (e_refs e + 1) e) m) ∧ objs (inc_at l n) (set_entry l (with_e_refs (e_refs e + 1) e) m).
Proof.
  intros Hm Hn Hb. destruct (ob_live _ _ Hm l Hn) as [e He]. destruct (ob_refs _ _ Hm _ _ He) as (Hr & _). exists e. split_and!; [done|..].
  - unfold AddRefEntry, get_entry, mbind, M_bind, getS, modS. rewrite He. cbn [mret M_ret]. by rewrite wrap_u_small by (unfold in_u; lia).
  - apply (objs_set_entry n _ _ _ e); try done; unfold inc_at; cbn [with_e_refs e_refs]; rewrite ?decide_True by done; try lia.
    intros l' Hl. by rewrite decide_False.
Qed.

(** ** What the entries stand for *)
Record desc := mkDesc { d_target : Path + nat; d_flags : Z; d_offset : Z; d_append : bool }.

Definition abs_target (fs : gmap nat File) (h : FileHandle) : option (Path + nat) :=
  match h with
  | HNull => None
  | HFile f => inl ∘ f_path <$> fs !! f
  | HPipe p => Some (inr p)
  end.
Definition abs_desc (fs : gmap nat File) (e : OpenFileEntry) : option desc :=
  t ← abs_target fs (handle e); mret (mkDesc t (flags e) (offset e) (is_append e)).
Definition abs_descs m : gmap nat desc := omap (abs_desc (files m)) (opens m).

Lemma abs_descs_lookup n m l e : objs n m → opens m !! l = Some e → ∃ t, abs_target (files m) (handle e) = Some t ∧
  abs_descs m !! l = Some (mkDesc t (flags e) (offset e) (is_append e)).
Proof.
  intros Hm He. unfold abs_descs. rewrite lookup_omap, He. cbn. unfold abs_desc, abs_target. destruct (handle e) as [|f|p] eqn:Eh.
  - by destruct (ob_null _ _ Hm _ _ He).
  - destruct (ob_file _ _ Hm _ _ _ He Eh) as [fl ->]. cbn. eauto.
  - cbn. eauto.
Qed.

Lemma abs_descs_set_entry m l e e' : opens m !! l = Some e → handle e' = handle e →
  abs_descs (set_entry l e' m) = match abs_target (files m) (handle e) with Some t => <[l := mkDesc t (flags e') (offset e') (is_append e')]> (abs_descs m) | None => abs_descs m end.
Proof.
  intros He Hh. unfold abs_descs. cbn [set_entry set_opens opens files]. apply map_eq. intros k. destruct (decide (l = k)) as [<-|Hne].
  - rewrite lookup_omap, lookup_insert_eq. cbn. unfold abs_desc. rewrite Hh. destruct (abs_target (files m) (handle e)) as [t|] eqn:E; cbn.
    + by rewrite lookup_insert_eq.
    + rewrite lookup_omap, He. cbn. by rewrite E.
  - rewrite lookup_omap, lookup_insert_ne by done. destruct (abs_target _ _); [rewrite lookup_insert_ne by done|]; by rewrite lookup_omap.
Qed.

(** Dropping a reference that is not the last changes no description; the last one removes it. *)
Lemma abs_descs_release n m l e : objs n m → opens m !! l = Some e → (0 < n l)%nat →
  abs_descs (if decide (n l = 1%nat) then without l e m else set_entry l (with_e_refs (e_refs e - 1) e) m) =
  if decide (n l = 1%nat) then delete l (abs_descs m) else abs_descs m.
Proof.
  intros Hm He Hn. case_decide as Hd.
  - unfold abs_descs, without. destruct (handle e) as [|f|p] eqn:Eh; [by destruct (ob_null _ _ Hm _ _ He)| |cbn [without_entry set_opens opens files]; by rewrite omap_delete].
    destruct (ob_file _ _ Hm _ _ _ He Eh) as [fl Hf]. rewrite Hf. cbn [without_file without_entry set_files set_opens opens files].
    apply map_eq. intros k. rewrite lookup_omap. destruct (decide (l = k)) as [<-|Hne]; [by rewrite !lookup_delete_eq|].
    rewrite !lookup_delete_ne, lookup_omap by done. destruct (opens m !! k) as [x|] eqn:Ex; [|done]. cbn. unfold abs_desc, abs_target.
    destruct (handle x) as [|g|p] eqn:Ehx; try done. rewrite lookup_delete_ne; [done|]. intros <-. by eapply Hne, ob_inj.
  - destruct (abs_descs_lookup _ _ _ _ Hm He) as (t & Ht & Hl). rewrite (abs_descs_set_entry m l e) by done. rewrite Ht. cbn [with_e_refs flags offset is_append].
    by apply insert_id.
Qed.

(** ** Opening a file *)
Definition new_file (r i : Z) (pool : PooledHashMap) (path : Path) m : FdManager W :=
  set_files (<[next_file m := mkFile r 0 0 (copy path) i]> (files m)) (S (next_file m)) pool (u64 (files_count m + 1)) m.
Definition new_entry (h : FileHandle) (fl : Z) (app : bool) (j : Z) (pool : PooledHashMap) m : FdManager W :=
  set_opens (<[next_entry m := mkEntry 1 h fl 0 app j]> (opens m)) (S (next_entry m)) pool (u64 (opens_count m + 1)) m.
(** Addresses have been used. *)
Definition burn (k k' : nat) m : FdManager W :=
  set_files (files m) (next_file m + k) (files_ m) (files_count m) (set_opens (opens m) (next_entry m + k') (opens_ m) (opens_count m) m).

Lemma FindLoop_none path l m :
  (∀ a, Some a ∈ l → ∃ f, files m !! a = Some f ∧ path_eqb (f_path f) path = false) → FindLoop path l m = Ok (None, m).
Proof.
  induction l as [|[a|] l IH]; intros H; cbn [FindLoop]; [done|..].
  - destruct (H a ltac:(by left)) as (f & Hf & E). rewrite (bind_run _ _ _ _ _ (get_file_run _ _ _ Hf)). rewrite E, andb_false_r.
    apply IH. intros b Hb. apply H. by right.
  - apply IH. intros b Hb. apply H. by right.
Qed.

(** No open description names the path. *)
Definition names_path (path : Path) (d : desc) : bool := if d_target d is inl p then path_eqb p path else false.
Definition not_open (path : Path) (ds : gmap nat desc) : Prop := map_Forall (λ _ d, names_path path d = false) ds.
#[global] Instance not_open_dec path ds : Decision (not_open path ds).
Proof. unfold not_open. apply _. Defined.

Lemma Find_none n m path : objs n m → not_open path (abs_descs m) → Find path m = Ok (None, m).
Proof.
  intros Hm Hp. unfold Find. run. apply FindLoop_none. intros a [i Hi]%list_elem_of_lookup.
  destruct (po_dom _ _ _ _ (ob_files _ _ Hm) _ _ Hi) as (f & Hf & _). exists f. split; [done|].
  destruct (ob_held _ _ Hm _ _ Hf) as (_ & _ & _ & l & e & He & Eh). destruct (abs_descs_lookup _ _ _ _ Hm He) as (t & Ht & Hl).
  rewrite Eh in Ht. cbn in Ht. rewrite Hf in Ht. injection Ht as <-. exact (Hp _ _ Hl).
Qed.

Lemma GetOrCreate_run n m mem path : objs n m → not_open path (abs_descs m) → Path.IsEmpty path = false → mem = true →
  GetOrCreate mem path m = match pool_take (files_ m) (next_file m) with
    | None => Ok (FdErr kIoError, m)
    | Some (i, pool) => Ok (FdOk (next_file m), new_file 1 i pool path m)
    end.
Proof.
  intros Hm Hp He ->. unfold GetOrCreate. rewrite He, (bind_run _ _ _ _ _ (Find_none _ _ _ Hm Hp)). run.
  destruct (pool_take _ _) as [[i pool]|]; [|done]. run. run. unfold AddRefFile. rewrite bind_bind.
  erewrite bind_run by (apply get_file_run; cbn [set_files files]; apply lookup_insert_eq). run. cbn [with_f_refs f_refs f_size f_mode f_path f_pool_idx].
  unfold new_file, set_file. cbn [set_files files next_file files_ files_count mret M_ret]. rewrite insert_insert_eq. done.
Qed.

Lemma NewEntry_run m mem h fl app :
  mem = true → (∀ f, h = HFile f → is_Some (files m !! f)) →
  NewEntry mem h fl app m = match pool_take (opens_ m) (next_entry m) with
    | None => Ok (FdErr kIoError, m)
    | Some (j, pool) => Ok (FdOk (next_entry m), new_entry h fl app j pool
        (if h is HFile f then match files m !! f with Some x => set_file f (with_f_refs (u32 (f_refs x + 1)) x) m | None => m end else m))
    end.
Proof.
  intros -> Hf. unfold NewEntry. run. destruct (pool_take _ _) as [[j pool]|]; [|done]. run. run.
  destruct h as [|f|p].
  1,3: run; run; run; unfold AddRefEntry; rewrite bind_bind; erewrite bind_run by (apply get_entry_run; cbn [set_opens opens]; apply lookup_insert_eq);
    run; unfold new_entry, set_entry; cbn [set_opens opens next_entry opens_ opens_count mret M_ret]; by rewrite insert_insert_eq.
  destruct (Hf f eq_refl) as [x Hx]. rewrite Hx. unfold AddRefFile. rewrite bind_bind. erewrite bind_run by (by apply get_file_run). run. run. run.
  unfold AddRefEntry. rewrite bind_bind. erewrite bind_run by (apply get_entry_run; cbn [set_opens opens]; apply lookup_insert_eq).
  run. unfold new_entry, set_entry. cbn [set_opens set_file set_files opens next_entry opens_ opens_count mret M_ret]. by rewrite insert_insert_eq.
Qed.

Lemma objs_burn n m k k' : objs n m → objs n (burn k k' m).
Proof.
  intros [H1 H2 H3 H4 H5 H6 H7 H8 H9 H10 H11]. split; try done; cbn.
  - intros l e He. destruct (H1 _ _ He) as (? & ? & ?). split_and!; [done..|lia].
  - intros f fl Hf. destruct (H7 _ _ Hf) as (? & ? & ? & Hx). split_and!; [done..|lia|done].
Qed.

Lemma objs_fresh n m : objs n m → opens m !! next_entry m = None ∧ n (next_entry m) = 0%nat ∧ files m !! next_file m = None.
Proof.
  intros Hm. assert (Ho : opens m !! next_entry m = None).
  { destruct (opens m !! next_entry m) eqn:E; [|done]. destruct (ob_refs _ _ Hm _ _ E) as (_ & _ & ?). lia. }
  split_and!; [done|..].
  - destruct (n (next_entry m)) eqn:E; [done|]. destruct (ob_live _ _ Hm (next_entry m)) as [x Hx]; [lia|]. congruence.
  - destruct (files m !! next_file m) eqn:E; [|done]. destruct (ob_held _ _ Hm _ _ E) as (_ & _ & ? & _). lia.
Qed.

Lemma u64_succ_small (k : nat) N : Z.of_nat k < N → N < 5000 → u64 (Z.of_nat k + 1) = Z.of_nat (k + 1).
Proof. intros H1 H2. rewrite wrap_u_small by (unfold in_u; lia). lia. Qed.

Lemma pool_take_room {A} (idx : A → Z) N p heap l r : pool_ok idx N p heap → pool_take p l = Some r → Z.of_nat (size heap) < N.
Proof. intros [_ _ _ _ _ Hs]. unfold pool_take. destruct (pool_ p); [done|]. cbn [length] in Hs. lia. Qed.

Lemma is_file_new m l e : opens m !! l = None →
  size (filter is_file (<[l := e]> (opens m))) = (size (filter is_file (opens m)) + if IsFile e then 1 else 0)%nat.
Proof.
  intros He. unfold is_file. destruct (IsFile e) eqn:E.
  - rewrite map_filter_insert_True by (cbn; by rewrite E). rewrite map_size_insert_None; [lia|]. apply map_lookup_filter_None. by left.
  - rewrite map_filter_insert_False by (cbn; rewrite E; naive_solver). rewrite delete_id by done. lia.
Qed.

(** The clauses on the entries, for an entry more. *)
Lemma objs_new_entry n m h fl app j pool :
  objs n m → pool_take (opens_ m) (next_entry m) = Some (j, pool) → ∀ m', m' = new_entry h fl app j pool m →
  (∀ l e, opens m' !! l = Some e → e_refs e = Z.of_nat (inc_at (next_entry m) n l) ∧ (0 < inc_at (next_entry m) n l)%nat ∧ (l < next_entry m')%nat) ∧
  (∀ l, (0 < inc_at (next_entry m) n l)%nat → is_Some (opens m' !! l)) ∧
  pool_ok e_pool_idx kMaxOpenFiles (opens_ m') (opens m') ∧ opens_count m' = Z.of_nat (size (opens m')).
Proof.
  intros Hm Hp m' ->. destruct (objs_fresh _ _ Hm) as (Ho & Hn & _). cbn [new_entry set_opens opens next_entry opens_ opens_count]. unfold inc_at. split_and!.
  - intros l e [[<- <-]|[Hne He]]%lookup_insert_Some.
    + rewrite decide_True, Hn by done. cbn. split_and!; lia.
    + rewrite decide_False by done. destruct (ob_refs _ _ Hm _ _ He) as (? & ? & ?). split_and!; [done..|lia].
  - intros l. case_decide as Hd; [subst; rewrite lookup_insert_eq; by eexists|]. rewrite lookup_insert_ne by done. apply Hm.
  - eapply pool_take_ok; [apply Hm|done..].
  - rewrite (proj2 (ob_counts _ _ Hm)), map_size_insert_None by done. pose proof (pool_take_room _ _ _ _ _ _ (ob_opens _ _ Hm) Hp).
    rewrite (u64_succ_small _ kMaxOpenFiles) by done. f_equal. lia.
Qed.

Lemma objs_new_pipe n m p j pool :
  objs n m → pool_take (opens_ m) (next_entry m) = Some (j, pool) → is_Some (pipes m !! p) →
  let m' := new_entry (HPipe p) kReadWrite false j pool m in
  objs (inc_at (next_entry m) n) m' ∧ abs_descs m' = <[next_entry m := mkDesc (inr p) kReadWrite 0 false]> (abs_descs m).
Proof.
  intros Hm Hp Hpp m'. destruct (objs_fresh _ _ Hm) as (Ho & Hn & _). destruct (objs_new_entry _ _ _ _ _ _ _ Hm Hp m' eq_refl) as (Hr & Hl & Hpo & Hc).
  pose proof Hm as [H1 H2 H3 H4 H5 H6 H7 H8 H9 H10 H11]. split.
  - split; try done; unfold m'; cbn [new_entry set_opens opens files pipes].
    + intros l e [[_ <-]|[_ He]]%lookup_insert_Some; [done|by eapply H3].
    + intros l e q [[_ <-]|[_ He]]%lookup_insert_Some; [by intros [= <-]|by eapply H4].
    + intros l e q [[_ <-]|[_ He]]%lookup_insert_Some; [done|by eapply H5].
    + intros l l' e e' f [[_ <-]|[_ He]]%lookup_insert_Some [[_ <-]|[_ He']]%lookup_insert_Some; try done. by eapply H6.
    + intros f x Hf. destruct (H7 _ _ Hf) as (? & ? & ? & l & e & He & Eh). split_and!; try done. exists l, e. split; [|done].
      rewrite lookup_insert_ne; [done|]. intros <-. congruence.
    + rewrite is_file_new by done. cbn. lia.
    + split; [apply H11|done].
  - unfold abs_descs, m'. cbn [new_entry set_opens opens files]. by erewrite omap_insert_Some.
Qed.

Lemma objs_new_file n m path fl app i pf j po :
  objs n m → pool_take (files_ m) (next_file m) = Some (i, pf) → pool_take (opens_ m) (next_entry m) = Some (j, po) →
  let m' := new_entry (HFile (next_file m)) fl app j po (new_file 1 i pf path m) in
  objs (inc_at (next_entry m) n) m' ∧ abs_descs m' = <[next_entry m := mkDesc (inl (copy path)) fl 0 app]> (abs_descs m).
Proof.
  intros Hm Hf Hp m'. destruct (objs_fresh _ _ Hm) as (Ho & Hn & Hff). pose proof Hm as [H1 H2 H3 H4 H5 H6 H7 H8 H9 H10 H11].
  destruct (objs_new_entry _ _ (HFile (next_file m)) fl app _ _ Hm Hp _ eq_refl) as (Hr & Hl & Hpo & Hc). split.
  - split; try done; unfold m'; cbn [new_entry new_file set_opens set_files opens files pipes next_file next_entry files_ files_count].
    + intros l e [[_ <-]|[_ He]]%lookup_insert_Some; [done|by eapply H3].
    + intros l e q [[_ <-]|[_ He]]%lookup_insert_Some; [done|by eapply H4].
    + intros l e q [[_ <-]|[_ He]]%lookup_insert_Some; [intros [= <-]; rewrite lookup_insert_eq; by eexists|].
      intros Hq. rewrite lookup_insert_is_Some. destruct (decide (next_file m = q)); [by left|right]. split; [done|]. by eapply H5.
    + intros l l' e e' f [[<- <-]|[_ He]]%lookup_insert_Some [[<- <-]|[_ He']]%lookup_insert_Some; try done.
      * intros [= <-] E. destruct (H5 _ _ _ He' E) as [x Hx]. congruence.
      * intros E [= <-]. destruct (H5 _ _ _ He E) as [x Hx]. congruence.
      * by eapply H6.
    + intros f x [[<- <-]|[Hne Hx]]%lookup_insert_Some.
      * split_and!; [done..|lia|]. eexists _, _. rewrite lookup_insert_eq. done.
      * destruct (H7 _ _ Hx) as (? & ? & ? & l & e & He & Eh). split_and!; [done..|lia|]. exists l, e. split; [|done].
        rewrite lookup_insert_ne; [done|]. intros <-. congruence.
    + eapply pool_take_ok; done.
    + rewrite is_file_new, map_size_insert_None by done. cbn. lia.
    + split; [|done]. rewrite (proj1 H11), map_size_insert_None by done. pose proof (pool_take_room _ _ _ _ _ _ H8 Hf).
      rewrite (u64_succ_small _ kMaxActiveFiles) by done. f_equal. lia.
  - unfold abs_descs, m'. cbn [new_entry new_file set_opens set_files opens files next_entry]. apply map_eq. intros k. rewrite lookup_omap.
    destruct (decide (next_entry m = k)) as [<-|Hne].
    + rewrite !lookup_insert_eq. cbn. unfold abs_desc. cbn. by rewrite lookup_insert_eq.
    + rewrite !lookup_insert_ne, lookup_omap by done. destruct (opens m !! k) as [e|] eqn:He; [|done]. cbn. unfold abs_desc, abs_target.
      destruct (handle e) as [|f|p] eqn:Eh; try done. rewrite lookup_insert_ne; [done|]. intros <-. destruct (H5 _ _ _ He Eh) as [x Hx]. congruence.
Qed.
End objects.
