(* ===== verification/FileDescSpec.v ===== *)
(** * What file descriptors promise
    A descriptor of a process names an open description: a file by its path, or a pipe, with mode,
    offset and append flag.  Duplicates name the same description; a description is gone when no
    descriptor names it.  The tables with their pools and counted references refine this, for every
    sequence of calls in which no file is opened that is open already. *)
From S2P Require Import Prelude Bytes Path CritBit Fat Vfs Pipe FileDesc FileDescInv.

(** ** Counting the slots that name an entry *)

Definition count_in (l : nat) (t : list (option nat)) : nat := length (filter (λ o, o = Some l) t).
Definition count_tables (l : nat) (ts : list (option (list (option nat)))) : nat := sum_list (from_option (count_in l) 0%nat <$> ts).

Lemma count_in_cons l x t : count_in l (x :: t) = ((if decide (x = Some l) then 1 else 0) + count_in l t)%nat.
Proof. unfold count_in. rewrite filter_cons. by case_decide. Qed.

Lemma count_in_insert l t i x y : t !! i = Some x →
  (count_in l (<[i := y]> t) + (if decide (x = Some l) then 1 else 0) = count_in l t + if decide (y = Some l) then 1 else 0)%nat.
Proof.
  revert i. induction t as [|z t IH]; intros i; [done|]. destruct i as [|i].
  - intros [= <-]. change (<[0%nat := y]> (z :: t)) with (y :: t). rewrite !count_in_cons. lia.
  - intros H. change (<[S i := y]> (z :: t)) with (z :: <[i := y]> t). rewrite !count_in_cons. specialize (IH i H). lia.
Qed.

Lemma count_in_le l t : (count_in l t ≤ length t)%nat.
Proof. apply length_filter. Qed.

Lemma count_in_pos l t i : t !! i = Some (Some l) → (0 < count_in l t)%nat.
Proof. intros H. pose proof (count_in_insert l t i (Some l) None H) as E. rewrite decide_True, (decide_False (P := None = Some l)) in E by done. lia. Qed.

Lemma sum_insert {A} (f : A → nat) (ts : list A) i a b : ts !! i = Some a →
  (sum_list (f <$> <[i := b]> ts) + f a = sum_list (f <$> ts) + f b)%nat.
Proof.
  revert i. induction ts as [|c ts IH]; intros i; [done|]. destruct i as [|i].
  - intros [= <-]. change (<[0%nat := b]> (c :: ts)) with (b :: ts). rewrite !fmap_cons. cbn [sum_list_with id]. unfold id in *. lia.
  - intros H. change (<[S i := b]> (c :: ts)) with (c :: <[i := b]> ts). rewrite !fmap_cons. cbn [sum_list_with id]. unfold id in *. specialize (IH i H). lia.
Qed.

Lemma count_tables_insert l ts id t i x y : ts !! id = Some (Some t) → t !! i = Some x →
  (count_tables l (<[id := Some (<[i := y]> t)]> ts) + (if decide (x = Some l) then 1 else 0) = count_tables l ts + if decide (y = Some l) then 1 else 0)%nat.
Proof.
  intros Ht Hi. pose proof (sum_insert (from_option (count_in l) 0%nat) ts id _ (Some (<[i := y]> t)) Ht) as E. cbn in E.
  pose proof (count_in_insert l t i x y Hi). unfold count_tables. lia.
Qed.

Lemma count_tables_le l ts n : (∀ id t, ts !! id = Some (Some t) → length t ≤ n)%nat → (count_tables l ts ≤ length ts * n)%nat.
Proof.
  unfold count_tables. induction ts as [|o ts IH]; intros H; cbn; [done|].
  assert (from_option (count_in l) 0%nat o ≤ n)%nat.
  { destruct o as [t|]; cbn; [|lia]. etrans; [apply count_in_le|]. by apply (H 0%nat). }
  assert (Hts := IH (λ id, H (S id))). cbn in Hts. lia.
Qed.

(** ** The specification *)
Section spec.
Context {W : Type}.

Record fdspec := mkSpec {
  s_descs : gmap nat desc; s_next : nat;
  s_tables : list (option (list (option nat))); s_pool : list Z;
  s_pipes : gmap nat AtomicCyclicBuffer; s_next_pipe : nat;
  s_current : Z; s_vfs : VfsModule W
}.

Definition with_descs d (s : fdspec) : fdspec := mkSpec d (s_next s) (s_tables s) (s_pool s) (s_pipes s) (s_next_pipe s) (s_current s) (s_vfs s).
Definition with_next k (s : fdspec) : fdspec := mkSpec (s_descs s) k (s_tables s) (s_pool s) (s_pipes s) (s_next_pipe s) (s_current s) (s_vfs s).
Definition with_tables t p (s : fdspec) : fdspec := mkSpec (s_descs s) (s_next s) t p (s_pipes s) (s_next_pipe s) (s_current s) (s_vfs s).
Definition with_pipes p k (s : fdspec) : fdspec := mkSpec (s_descs s) (s_next s) (s_tables s) (s_pool s) p k (s_current s) (s_vfs s).
Definition with_vfs v (s : fdspec) : fdspec := mkSpec (s_descs s) (s_next s) (s_tables s) (s_pool s) (s_pipes s) (s_next_pipe s) (s_current s) v.

Abbreviation SM := (M fdspec).

(** The table of the running process. *)
Definition s_table : SM (option (list (option nat))) :=
  s ← getS; assertM (s_current s <? kMaxProcesses) "idx < kSize";; mret (mjoin (s_tables s !! Z.to_nat (s_current s))).

Definition s_set_slot (t : list (option nat)) (fd : Z) (o : option nat) : SM unit :=
  s ← getS; modS (with_tables (<[Z.to_nat (s_current s) := Some (<[Z.to_nat fd := o]> t)]> (s_tables s)) (s_pool s)).

(** A description that no descriptor names is gone. *)
Definition s_collect (l : nat) : SM unit :=
  modS (λ s, if decide (count_tables l (s_tables s) = 0%nat) then with_descs (delete l (s_descs s)) s else s).

Definition s_get (l : nat) : SM desc := s ← getS; match s_descs s !! l with Some d => mret d | None => stopM BadAccess end.
Definition s_set_offset (l : nat) (d : desc) (off : Z) : SM unit :=
  modS (λ s, with_descs (<[l := mkDesc (d_target d) (d_flags d) off (d_append d)]> (s_descs s)) s).

Definition is_file_desc (x : nat * desc) : bool := if d_target (snd x) is inl _ then true else false.

(** An open of a file that is open already is left open. *)
Definition spec_Open (file_mem entry_mem : bool) (path : Path) (mode : Z) : SM (FdResult Z) :=
  r ← zoom s_vfs with_vfs (FileExists path);
  match r with
  | Unexpected _ => mret (FdErr kIoError)
  | Value false => mret (FdErr kNotFound)
  | Value true =>
      if Path.IsEmpty path then mret (FdErr kInvalidArgument)
      else
        s ← getS;
        assertM (bool_decide (not_open path (s_descs s)) && file_mem && entry_mem) "open";;
        if Z.of_nat (size (filter is_file_desc (s_descs s))) =? kMaxActiveFiles then mret (FdErr kIoError)
        else if Z.of_nat (size (s_descs s)) =? kMaxOpenFiles then mret (FdErr kIoError)
        else
          modS (with_next (S (s_next s)));;
          t ← s_table;
          match t with
          | None => mret (FdErr kIoError)
          | Some t =>
              match first_null t 0 with
              | None => mret (FdErr kFdTableFull)
              | Some fd =>
                  s_set_slot t fd (Some (s_next s));;
                  modS (λ s', with_descs (<[s_next s := mkDesc (inl (copy path)) mode 0 (HasMode mode kAppend)]> (s_descs s')) s');;
                  mret (FdOk fd)
              end
          end
  end.

Definition spec_Close (fd : Z) : SM (FdResult unit) :=
  t ← s_table;
  match t with
  | None => mret (FdErr kIoError)
  | Some t =>
      if negb (IsValidFd fd) then mret (FdErr kInvalidFd)
      else
        match t !!! Z.to_nat fd with
        | None => mret (FdErr kNotOpen)
        | Some l =>
            d ← s_get l;
            if (fd <=? kStderrFd) && (if d_target d is inr _ then true else false) then mret (FdErr kPermissionDenied)
            else s_set_slot t fd None;; s_collect l;; mret (FdOk tt)
        end
  end.

Definition s_entry (fd : Z) : SM (option nat) :=
  t ← s_table;
  match t with
  | None => stopM (Panic "fd_table")
  | Some t => mret (if IsValidFd fd then t !!! Z.to_nat fd else None)
  end.

Definition s_on_pipe {A} (p : nat) (c : M AtomicCyclicBuffer A) : SM A :=
  s ← getS;
  match s_pipes s !! p with
  | None => stopM BadAccess
  | Some r => match c r with Ok (a, r') => modS (with_pipes (<[p := r']> (s_pipes s)) (s_next_pipe s));; mret a | Stop e => stopM e end
  end.

Definition spec_Read (fd size : Z) : SM (FdResult (list Z)) :=
  if size =? 0 then mret (FdErr kInvalidArgument)
  else
    l ← s_entry fd;
    match l with
    | None => mret (FdErr kBadFileDescriptor)
    | Some l =>
        d ← s_get l;
        if negb (HasMode (d_flags d) kRead) then mret (FdErr kPermissionDenied)
        else
          match d_target d with
          | inl path =>
              r ← zoom s_vfs with_vfs (ReadFile path true size (d_offset d));
              match r with
              | Unexpected _ => mret (FdErr kIoError)
              | Value data => s_set_offset l d (u64 (d_offset d + zlen data));; mret (FdOk data)
              end
          | inr p =>
              r ← s_on_pipe p (PipeRead kStdioBufferSize size);
              mret (match r with IoRetry => FdErr kIoError | IoOk data => FdOk data end)
          end
    end.

(** The recorded size of a file is never set: appending starts at 0. *)
Definition spec_Write (fd : Z) (buffer : list Z) : SM (FdResult Z) :=
  if zlen buffer =? 0 then mret (FdErr kInvalidArgument)
  else
    l ← s_entry fd;
    match l with
    | None => mret (FdErr kBadFileDescriptor)
    | Some l =>
        d ← s_get l;
        if negb (HasMode (d_flags d) kWrite) then mret (FdErr kPermissionDenied)
        else
          match d_target d with
          | inl path =>
              let off := if d_append d then 0 else d_offset d in
              s_set_offset l d off;;
              r ← zoom s_vfs with_vfs (WriteFile path (Some buffer) off);
              match r with
              | Unexpected _ => mret (FdErr kIoError)
              | Value n => s_set_offset l d (u64 (off + n));; mret (FdOk n)
              end
          | inr p =>
              r ← s_on_pipe p (PipeWrite kStdioBufferSize buffer);
              mret (match r with IoRetry => FdErr kIoError | IoOk n => FdOk n end)
          end
    end.

Definition spec_Seek (fd off : Z) (whence : FdSeek) : SM (FdResult Z) :=
  l ← s_entry fd;
  match l with
  | None => mret (FdErr kBadFileDescriptor)
  | Some l =>
      d ← s_get l;
      match d_target d, whence with
      | inr _, _ | _, kSeekOther => mret (FdErr kInvalidArgument)
      | inl _, kSet => s_set_offset l d (u64 off);; mret (FdOk off)
      | inl _, kCur => let n := i64 (u64 (d_offset d + u64 off)) in s_set_offset l d (u64 n);; mret (FdOk n)
      | inl _, kEnd => let n := i64 (u64 (0 + u64 off)) in s_set_offset l d (u64 n);; mret (FdOk n)
      end
  end.

Definition spec_Duplicate (fd : Z) : SM (FdResult Z) :=
  t ← s_table;
  match t with
  | None => mret (FdErr kIoError)
  | Some t =>
      if negb (IsValidFd fd) then mret (FdErr kInvalidFd)
      else
        match t !!! Z.to_nat fd with
        | None => mret (FdErr kBadFileDescriptor)
        | Some l => match first_null t 0 with None => mret (FdErr kFdTableFull) | Some i => s_set_slot t i (Some l);; mret (FdOk i) end
        end
  end.

(** The new descriptor is closed first, also when it is the old one. *)
Definition spec_DuplicateTo (old_fd new_fd : Z) : SM (FdResult Z) :=
  t ← s_table;
  match t with
  | None => mret (FdErr kIoError)
  | Some t =>
      if negb (IsValidFd old_fd && IsValidFd new_fd) then mret (FdErr kInvalidFd)
      else
        match t !!! Z.to_nat old_fd with
        | None => mret (FdErr kBadFileDescriptor)
        | Some _ =>
            (if t !!! Z.to_nat new_fd is Some l' then s_set_slot t new_fd None;; s_collect l' else mret tt);;
            t ← s_table;
            match t with
            | None => stopM BadAccess
            | Some t => s_set_slot t new_fd (t !!! Z.to_nat old_fd);; mret (FdOk new_fd)
            end
        end
  end.

(** A new process has empty pipes at its first three descriptors. *)
Definition spec_PrepareProcess (mem : process_mem) : SM (Z + SchedError) :=
  s ← getS;
  match s_pool s with
  | [] => stopM (Panic "idx < kSize")
  | id :: rest =>
      assertM (object_mem mem && stdin_mem mem && stdout_mem mem && stderr_mem mem) "mem";;
      let p := s_next_pipe s in
      let ring := empty_ring kStdioBufferSize in
      modS (with_pipes (<[p := ring]> (<[S p := ring]> (<[S (S p) := ring]> (s_pipes s)))) (S (S (S p))));;
      if negb (wait_queue_mem mem && table_mem mem) then mret (inr OutOfMemory)
      else
        let room := kMaxOpenFiles - Z.of_nat (size (s_descs s)) in
        let l := s_next s in
        if room <? 3 then modS (with_next (l + Z.to_nat room));; mret (inr OutOfMemory)
        else
          let d q := mkDesc (inr q) kReadWrite 0 false in
          modS (with_next (l + 3));;
          modS (with_descs (<[S (S l) := d (S (S p))]> (<[S l := d (S p)]> (<[l := d p]> (s_descs s)))));;
          modS (with_tables (<[Z.to_nat id := Some (Some l :: Some (S l) :: Some (S (S l)) :: replicate 125 None)]> (s_tables s)) rest);;
          mret (inl id)
  end.

(** A process that ends drops all its descriptors. *)
Definition spec_FreeProcess (id : Z) : SM (unit + SchedError) :=
  assertM ((0 <=? id) && (id <? kMaxProcesses)) "idx < kSize";;
  s ← getS;
  match mjoin (s_tables s !! Z.to_nat id) with
  | None => mret (inr ProcessNotFound)
  | Some t =>
      modS (with_tables (<[Z.to_nat id := None]> (s_tables s)) (id :: s_pool s));;
      modS (λ s, with_descs (filter (λ x, count_tables x.1 (s_tables s) ≠ 0%nat) (s_descs s)) s);;
      mret (inl tt)
  end.
End spec.
Arguments fdspec : clear implicits.
