(* ===== verification/FileDescOps.v ===== *)
(** * The operations on file descriptors refine their specification
    The invariant of all tables, the slots of a table, and the operations one by one. *)
From S2P Require Import Prelude Bytes Path CritBit Fat Vfs Pipe FileDesc FileDescInv FileDescSpec.

Section ops.
Context {W : Type}.
Implicit Types (m : FdManager W) (s : fdspec W).

Definition abs_tables m : list (option (list (option nat))) := (λ o : option Process, (λ p, entries_ (fd_table p)) <$> o) <$> processes m.
Definition abs m : fdspec W :=
  mkSpec (abs_descs m) (next_entry m) (abs_tables m) (process_pool m) (pipes m) (next_pipe m) (current m) (vfs m).
Definition refs m : nat → nat := λ l, count_tables l (abs_tables m).

Record fd_inv m : Prop := {
  iv_objs : objs (refs m) m;
  iv_procs : length (processes m) = Z.to_nat kMaxProcesses;
  iv_tables : ∀ id p, processes m !! id = Some (Some p) → length (entries_ (fd_table p)) = Z.to_nat kMaxFdsPerProcess;
  iv_nodup : NoDup (process_pool m);
  iv_pool : ∀ i, i ∈ process_pool m → 0 ≤ i < kMaxProcesses ∧ processes m !! Z.to_nat i = Some None
}.

Definition fd_rel m s : Prop := fd_inv m ∧ s = abs m.

Lemma abs_tables_lookup m id p : processes m !! id = Some (Some p) → abs_tables m !! id = Some (Some (entries_ (fd_table p))).
Proof. intros H. unfold abs_tables. by rewrite list_lookup_fmap, H. Qed.

Lemma refs_bound m l : fd_inv m → Z.of_nat (refs m l) ≤ 2 ^ 19.
Proof.
  intros Hm. pose proof (count_tables_le l (abs_tables m) 128) as H. unfold refs. unfold abs_tables in *. rewrite length_fmap, (iv_procs _ Hm) in H.
  unfold kMaxProcesses in *. assert (Hlen : ∀ id t, (λ o : option Process, (λ p, entries_ (fd_table p)) <$> o) <$> processes m !! id = Some (Some t) → (length t ≤ 128)%nat).
  { intros id t Ht. destruct (processes m !! id) as [[p|]|] eqn:E; try done. cbn in Ht. injection Ht as <-. by rewrite (iv_tables _ Hm _ _ E). }
  assert (count_tables l (abs_tables m) ≤ Z.to_nat 4096 * 128)%nat; [|unfold abs_tables in *; lia].
  apply H. intros id t. rewrite list_lookup_fmap. apply Hlen.
Qed.

Lemma slot_pos m id p i l : processes m !! id = Some (Some p) → entries_ (fd_table p) !! i = Some (Some l) → (0 < refs m l)%nat.
Proof.
  intros Hp Hl. pose proof (count_tables_insert l (abs_tables m) id _ i (Some l) None (abs_tables_lookup _ _ _ Hp) Hl) as E.
  rewrite decide_True, (decide_False (P := None = Some l)) in E by done. unfold refs. lia.
Qed.

Lemma objs_set_processes n m ps pool c : objs n (set_processes ps pool c m) ↔ objs n m.
Proof. split; intros [H1 H2 H3 H4 H5 H6 H7 H8 H9 H10 H11]; by split. Qed.

(** The state with another table for a process. *)
Definition with_table (id : nat) (p : Process) (t : FdTable) m : FdManager W :=
  set_processes (<[id := Some (mkProcess (pid_count p) t (stdin_pipe p) (stdout_pipe p) (stderr_pipe p))]> (processes m)) (process_pool m) (process_counter m) m.

Lemma abs_tables_with_table id p t m : abs_tables (with_table id p t m) = <[id := Some (entries_ t)]> (abs_tables m).
Proof. unfold abs_tables. cbn [with_table set_processes processes]. by rewrite list_fmap_insert. Qed.

(** One slot of a table changes, and the objects with it. *)
Lemma fd_inv_slot m m' id p i x y c n :
  fd_inv m → same_rest m m' ∨ (processes m' = processes m ∧ process_pool m' = process_pool m) → processes m !! id = Some (Some p) → entries_ (fd_table p) !! i = Some x → objs n m' →
  (∀ l, n l + (if decide (x = Some l) then 1 else 0) = refs m l + if decide (y = Some l) then 1 else 0)%nat →
  fd_inv (with_table id p (mkFdTable (<[i := y]> (entries_ (fd_table p))) c) m').
Proof.
  intros [H1 H2 H3 H4 H5] Hr Hp Hx Ho Hn.
  assert (Hps : processes m' = processes m ∧ process_pool m' = process_pool m) by (destruct Hr as [(_ & _ & -> & -> & _)|Hr]; done). destruct Hps as [Hps Hpp].
  split.
  - apply objs_set_processes. eapply objs_ext; [|exact Ho]. intros l. unfold refs. rewrite abs_tables_with_table. cbn [entries_].
    replace (abs_tables m') with (abs_tables m) by (unfold abs_tables; by rewrite Hps).
    pose proof (count_tables_insert l (abs_tables m) id _ i x y (abs_tables_lookup _ _ _ Hp) Hx). specialize (Hn l). unfold refs in Hn. lia.
  - cbn. rewrite length_insert, Hps. done.
  - cbn. rewrite Hps. intros k q [(<- & [= <-] & _)|[Hne Hq]]%list_lookup_insert_Some; [|by eapply H3]. cbn. rewrite length_insert. by eapply H3.
  - cbn. by rewrite Hpp.
  - cbn. rewrite Hps, Hpp. intros k Hk. destruct (H5 k Hk) as [Hb Hl]. split; [done|]. rewrite list_lookup_insert_ne; [done|]. intros ->. congruence.
Qed.

Lemma get_table_run m id p : id < kMaxProcesses → processes m !! Z.to_nat id = Some (Some p) → get_table id m = Ok (fd_table p, m).
Proof.
  intros Hid Hp. unfold get_table, get_process. rewrite bind_bind. erewrite bind_run by (by apply assert_run, Z.ltb_lt). rewrite bind_bind. run. run. by rewrite Hp.
Qed.

Lemma set_table_run m id p t : processes m !! Z.to_nat id = Some (Some p) → set_table id t m = Ok (tt, with_table (Z.to_nat id) p t m).
Proof. intros Hp. unfold set_table. run. by rewrite Hp. Qed.

Lemma same_rest_release (n : nat → nat) m l e :
  same_rest m (if decide (n l = 1%nat) then without l e m else set_entry l (with_e_refs (e_refs e - 1) e) m).
Proof.
  case_decide; [|done]. unfold without. destruct (handle e); [done| |done]. by destruct (files m !! f).
Qed.

(** A reference in a slot is dropped and the slot cleared. *)
Definition clear_slot (id i l : nat) (t : list (option nat)) s : fdspec W :=
  let s' := with_tables (<[id := Some (<[i := None]> t)]> (s_tables s)) (s_pool s) s in
  if decide (count_tables l (s_tables s') = 0%nat) then with_descs (delete l (s_descs s')) s' else s'.

Lemma drop_slot_run m id p i l c : fd_inv m → processes m !! Z.to_nat id = Some (Some p) → entries_ (fd_table p) !! i = Some (Some l) →
  ∃ m1, ReleaseEntry l m = Ok (tt, m1) ∧ processes m1 = processes m ∧
    let m' := with_table (Z.to_nat id) p (mkFdTable (<[i := None]> (entries_ (fd_table p))) c) m1 in
    fd_inv m' ∧ abs m' = clear_slot (Z.to_nat id) i l (entries_ (fd_table p)) (abs m).
Proof.
  intros Hm Hp Hl. pose proof (slot_pos _ _ _ _ _ Hp Hl) as Hn. pose proof (refs_bound m l Hm) as Hb.
  destruct (ReleaseEntry_run _ _ _ (iv_objs _ Hm) Hn ltac:(lia)) as (e & He & E).
  pose proof (same_rest_release (refs m) m l e) as Hs. pose proof (objs_release _ _ _ _ (iv_objs _ Hm) He Hn) as Ho.
  pose proof (abs_descs_release _ _ _ _ (iv_objs _ Hm) He Hn) as Ha. set (m1 := if decide _ then _ else _) in *. exists m1.
  split_and!; [done|apply Hs|]. intros m'. split.
  - eapply fd_inv_slot; [done|by left|done|exact Hl|exact Ho|]. intros k. unfold dec_at. rewrite (decide_False (P := None = Some k)) by done.
    destruct (decide (l = k)) as [<-|]; [rewrite decide_True by done; lia|rewrite decide_False by congruence; lia].
  - pose proof (count_tables_insert l (abs_tables m) _ _ i (Some l) None (abs_tables_lookup _ _ _ Hp) Hl) as Hc.
    rewrite decide_True, (decide_False (P := None = Some l)) in Hc by done. destruct Hs as (Hs1 & Hs2 & Hs3 & Hs4 & Hs5 & Hs6 & Hs7 & Hs8 & Hs9).
    assert (Ht : abs_tables m1 = abs_tables m) by (unfold abs_tables; by rewrite Hs3).
    assert (Had : abs_descs m' = abs_descs m1) by done. unfold clear_slot, abs. cbn [s_tables s_pool s_descs with_tables]. rewrite Had, Ha.
    unfold m', refs. rewrite abs_tables_with_table, Ht. cbn [entries_]. cbn [with_table set_processes next_entry process_pool pipes next_pipe current vfs]. rewrite Hs2, Hs4, Hs6, Hs7, Hs8, Hs9.
    destruct (decide (count_tables l (abs_tables m) = 1%nat)); [rewrite decide_True by lia; done|rewrite decide_False by lia; done].
Qed.

(** A reference is copied into a slot that is clear. *)
Lemma copy_slot_run m id p i l c : fd_inv m → processes m !! Z.to_nat id = Some (Some p) → entries_ (fd_table p) !! i = Some None → (0 < refs m l)%nat →
  ∃ m1, AddRefEntry l m = Ok (tt, m1) ∧ processes m1 = processes m ∧
    let m' := with_table (Z.to_nat id) p (mkFdTable (<[i := Some l]> (entries_ (fd_table p))) c) m1 in
    fd_inv m' ∧ abs m' = with_tables (<[Z.to_nat id := Some (<[i := Some l]> (entries_ (fd_table p)))]> (s_tables (abs m))) (s_pool (abs m)) (abs m).
Proof.
  intros Hm Hp Hl Hn. pose proof (refs_bound m l Hm) as Hb. destruct (AddRefEntry_run _ _ _ (iv_objs _ Hm) Hn ltac:(lia)) as (e & He & E & Ho).
  eexists. split_and!; [exact E|done|]. intros m'. split.
  - eapply fd_inv_slot; [done|by right|done|exact Hl|exact Ho|]. intros k. unfold inc_at. rewrite (decide_False (P := None = Some k)) by done.
    destruct (decide (l = k)) as [<-|]; [rewrite decide_True by done; lia|rewrite decide_False by congruence; lia].
  - destruct (abs_descs_lookup _ _ _ _ (iv_objs _ Hm) He) as (t & Ht & Hd).
    assert (Had : abs_descs m' = abs_descs m).
    { etrans; [exact (abs_descs_set_entry m l e (with_e_refs (e_refs e + 1) e) He eq_refl)|]. rewrite Ht. by apply insert_id. }
    unfold abs. rewrite Had. unfold m'. by rewrite abs_tables_with_table.
Qed.

(** The table of the running process. *)
Lemma current_run m : fd_inv m →
  match s_table (abs m) with
  | Ok (o, s) => s = abs m ∧ current m < kMaxProcesses ∧ match o with
      | None => GetCurrentProcessFdTable m = Ok (None, m)
      | Some t => ∃ p, processes m !! Z.to_nat (current m) = Some (Some p) ∧ entries_ (fd_table p) = t ∧ length t = Z.to_nat kMaxFdsPerProcess ∧
          GetCurrentProcessFdTable m = Ok (Some (current m), m)
      end
  | Stop _ => True
  end.
Proof.
  intros Hm. unfold s_table. run. cbn [abs s_current]. unfold mbind at 1, M_bind at 1. unfold assertM. destruct (Z.ltb_spec (current m) kMaxProcesses) as [Hc|]; [|done]. cbn.
  assert (Hg : GetCurrentProcessFdTable m = Ok (if mjoin (processes m !! Z.to_nat (current m)) is Some _ then Some (current m) else None, m)).
  { unfold GetCurrentProcessFdTable, get_process. run. rewrite bind_bind. erewrite bind_run by (by apply assert_run, Z.ltb_lt). rewrite bind_bind. run. run. done. }
  unfold abs_tables. rewrite list_lookup_fmap, Hg. destruct (processes m !! Z.to_nat (current m)) as [[p|]|] eqn:E; cbn; split_and!; try done.
  exists p. split_and!; try done. by apply (iv_tables _ Hm _ _ E).
Qed.

Lemma valid_fd_lookup (t : list (option nat)) fd : IsValidFd fd = true → length t = Z.to_nat kMaxFdsPerProcess → t !! Z.to_nat fd = Some (t !!! Z.to_nat fd).
Proof.
  intros [H1%Z.leb_le H2%Z.ltb_lt]%andb_prop Ht. apply list_lookup_lookup_total_lt. rewrite Ht. unfold kMaxFdsPerProcess in *. lia.
Qed.

Lemma first_null_spec t k i : first_null t k = Some i → ∃ j : nat, i = k + Z.of_nat j ∧ t !! j = Some None ∧ ∀ j', (j' < j)%nat → ∃ l, t !! j' = Some (Some l).
Proof.
  revert k. induction t as [|[l|] t IH]; intros k H; cbn in H; [done|..].
  - destruct (IH _ H) as (j & -> & Hj & Hb). exists (S j). split_and!; [lia|done|]. intros [|j'] Hj'; [by exists l|]. apply Hb. lia.
  - injection H as <-. exists 0%nat. split_and!; [lia|done|]. lia.
Qed.

(** A step of the specification that may stop. *)
Lemma refines_step {A B} (op : M (FdManager W) B) (n : M (fdspec W) A) (k : A → M (fdspec W) B) m :
  (∀ a s, n (abs m) = Ok (a, s) → match k a s with Ok (b, s') => wp never op (λ a m', a = b ∧ fd_rel m' s') m | Stop _ => True end) →
  match (n ≫= k) (abs m) with Ok (b, s') => wp never op (λ a m', a = b ∧ fd_rel m' s') m | Stop _ => True end.
Proof. intros H. unfold mbind, M_bind. destruct (n (abs m)) as [[a s]|] eqn:E; [|done]. by apply H. Qed.

Lemma Close_ok fd : refines fd_rel (Close fd) (spec_Close fd).
Proof.
  intros m ? [Hm ->]. pose proof (current_run m Hm) as Hc. apply refines_step. intros o s Es. rewrite Es in Hc. destruct Hc as (-> & Hcur & Hc). unfold wp.
  destruct o as [t|]; [destruct Hc as (p & Hp & <- & Hlen & Hg)|]; unfold Close; [|rewrite (bind_run _ _ _ _ _ Hc); done].
  rewrite (bind_run _ _ _ _ _ Hg). unfold Free. destruct (IsValidFd fd) eqn:Hv; cbn [negb]; [|done].
  rewrite (bind_run _ _ _ _ _ (get_table_run _ _ _ Hcur Hp)). pose proof (valid_fd_lookup _ _ Hv Hlen) as Hl.
  destruct (entries_ (fd_table p) !!! Z.to_nat fd) as [l|]; [|done].
  destruct (ob_live _ _ (iv_objs _ Hm) l (slot_pos _ _ _ _ _ Hp Hl)) as [e He]. destruct (abs_descs_lookup _ _ _ _ (iv_objs _ Hm) He) as (tg & Ht & Hd).
  rewrite (bind_run _ _ _ _ _ (get_entry_run _ _ _ He)). unfold s_get. rewrite bind_bind. run. cbn [abs s_descs]. rewrite Hd. run. cbn [d_target].
  assert (Hpi : (if tg is inr _ then true else false) = IsPipe e).
  { unfold IsPipe. unfold abs_target in Ht. destruct (handle e) as [|f|q]; [done| |by injection Ht as <-]. destruct (files m !! f); [by injection Ht as <-|done]. }
  rewrite Hpi. destruct (_ && _); [done|].
  destruct (drop_slot_run m (current m) p (Z.to_nat fd) l (u64 (fd_count (fd_table p) - 1)) Hm Hp Hl) as (m1 & E1 & Eps & Hi & Ha).
  rewrite (bind_run _ _ _ _ _ E1). rewrite <- Eps in Hp. rewrite (bind_run _ _ _ _ _ (set_table_run _ _ _ _ Hp)).
  unfold s_set_slot. rewrite bind_bind. run. run. run. cbn. split; [done|]. split; [exact Hi|]. exact (eq_sym Ha).
Qed.

Lemma Duplicate_ok fd : refines fd_rel (Duplicate fd) (spec_Duplicate fd).
Proof.
  intros m ? [Hm ->]. pose proof (current_run m Hm) as Hc. apply refines_step. intros o s Es. rewrite Es in Hc. destruct Hc as (-> & Hcur & Hc). unfold wp.
  destruct o as [t|]; [destruct Hc as (p & Hp & <- & Hlen & Hg)|]; unfold Duplicate; [|rewrite (bind_run _ _ _ _ _ Hc); done].
  rewrite (bind_run _ _ _ _ _ Hg). unfold DuplicateFd. destruct (IsValidFd fd) eqn:Hv; cbn [negb]; [|done].
  rewrite (bind_run _ _ _ _ _ (get_table_run _ _ _ Hcur Hp)). pose proof (valid_fd_lookup _ _ Hv Hlen) as Hl.
  destruct (entries_ (fd_table p) !!! Z.to_nat fd) as [l|]; [|done]. pose proof (slot_pos _ _ _ _ _ Hp Hl) as Hn.
  destruct (first_null _ 0) as [i|] eqn:Ef; [|done]. destruct (first_null_spec _ _ _ Ef) as (j & -> & Hj & _). rewrite Z.add_0_l, Nat2Z.id.
  destruct (copy_slot_run m (current m) p j l (u64 (fd_count (fd_table p) + 1)) Hm Hp Hj Hn) as (m1 & E1 & Eps & Hi & Ha).
  rewrite (bind_run _ _ _ _ _ E1). rewrite <- Eps in Hp. rewrite (bind_run _ _ _ _ _ (set_table_run _ _ _ _ Hp)).
  unfold s_set_slot. rewrite bind_bind. run. run. cbn. rewrite Nat2Z.id. split; [done|]. split; [exact Hi|]. exact (eq_sym Ha).
Qed.

(** The second half of [DuplicateFdTo]: the new slot is clear by now. *)
Lemma dup_copy m p old_fd new_fd : fd_inv m → current m < kMaxProcesses → processes m !! Z.to_nat (current m) = Some (Some p) →
  IsValidFd old_fd = true → IsValidFd new_fd = true → entries_ (fd_table p) !! Z.to_nat new_fd = Some None →
  ∃ m', (t ← get_table (current m);
         (if entries_ t !!! Z.to_nat old_fd is Some l then AddRefEntry l else mret tt);;
         set_table (current m) (mkFdTable (<[Z.to_nat new_fd := entries_ t !!! Z.to_nat old_fd]> (entries_ t)) (u64 (fd_count t + 1)));;
         mret (FdOk new_fd)) m = Ok (FdOk new_fd, m') ∧ fd_inv m' ∧
    abs m' = with_tables (<[Z.to_nat (current m) := Some (<[Z.to_nat new_fd := entries_ (fd_table p) !!! Z.to_nat old_fd]> (entries_ (fd_table p)))]> (s_tables (abs m))) (s_pool (abs m)) (abs m).
Proof.
  intros Hm Hcur Hp Hvo Hvn Hnew. pose proof (iv_tables _ Hm _ _ Hp) as Hlen. rewrite (bind_run _ _ _ _ _ (get_table_run _ _ _ Hcur Hp)).
  pose proof (valid_fd_lookup _ _ Hvo Hlen) as Hl. destruct (entries_ (fd_table p) !!! Z.to_nat old_fd) as [l|] eqn:El.
  - pose proof (slot_pos _ _ _ _ _ Hp Hl) as Hn.
    destruct (copy_slot_run m (current m) p (Z.to_nat new_fd) l (u64 (fd_count (fd_table p) + 1)) Hm Hp Hnew Hn) as (m1 & E1 & Eps & Hi & Ha).
    rewrite (bind_run _ _ _ _ _ E1). rewrite <- Eps in Hp. rewrite (bind_run _ _ _ _ _ (set_table_run _ _ _ _ Hp)). eexists. split_and!; [done|exact Hi|exact Ha].
  - run. rewrite (bind_run _ _ _ _ _ (set_table_run _ _ _ _ Hp)). eexists. split_and!; [done|..].
    + eapply fd_inv_slot; [done|by right|done|exact Hnew|apply Hm|done].
    + unfold abs. by rewrite abs_tables_with_table.
Qed.

Lemma DuplicateTo_ok old_fd new_fd : refines fd_rel (DuplicateTo old_fd new_fd) (spec_DuplicateTo old_fd new_fd).
Proof.
  intros m ? [Hm ->]. pose proof (current_run m Hm) as Hc. apply refines_step. intros o s Es. rewrite Es in Hc. destruct Hc as (-> & Hcur & Hc). unfold wp.
  destruct o as [t|]; [destruct Hc as (p & Hp & <- & Hlen & Hg)|]; unfold DuplicateTo; [|rewrite (bind_run _ _ _ _ _ Hc); done].
  rewrite (bind_run _ _ _ _ _ Hg). unfold DuplicateFdTo. destruct (IsValidFd old_fd) eqn:Hvo; cbn [negb andb]; [|done].
  destruct (IsValidFd new_fd) eqn:Hvn; cbn [negb]; [|done]. rewrite (bind_run _ _ _ _ _ (get_table_run _ _ _ Hcur Hp)).
  destruct (entries_ (fd_table p) !!! Z.to_nat old_fd) as [l0|]; [|done]. pose proof (valid_fd_lookup _ _ Hvn Hlen) as Hl.
  destruct (entries_ (fd_table p) !!! Z.to_nat new_fd) as [l|].
  - destruct (drop_slot_run m (current m) p (Z.to_nat new_fd) l (fd_count (fd_table p)) Hm Hp Hl) as (m1 & E1 & Eps & Hi & Ha).
    set (m' := with_table _ _ _ _) in *. assert (Hp' : processes m' !! Z.to_nat (current m) = Some (Some (mkProcess (pid_count p) (mkFdTable (<[Z.to_nat new_fd := None]> (entries_ (fd_table p))) (fd_count (fd_table p))) (stdin_pipe p) (stdout_pipe p) (stderr_pipe p)))).
    { unfold m'. cbn. apply list_lookup_insert_eq. rewrite Eps. by apply lookup_lt_Some in Hp. }
    assert (Hcu : current m' = current m) by (change (current m') with (s_current (abs m')); rewrite Ha; unfold clear_slot; by case_decide).
    assert (Hsp : (s_set_slot (entries_ (fd_table p)) new_fd None;; s_collect l) (abs m) = Ok (tt, abs m')).
    { rewrite Ha. unfold s_set_slot. rewrite bind_bind. run. run. done. }
    assert (Him : (ReleaseEntry l;; set_table (current m) (mkFdTable (<[Z.to_nat new_fd := None]> (entries_ (fd_table p))) (fd_count (fd_table p)))) m = Ok (tt, m')).
    { rewrite (bind_run _ _ _ _ _ E1). rewrite <- Eps in Hp. by rewrite (set_table_run _ _ _ _ Hp). }
    rewrite (bind_run _ _ _ _ _ Hsp), (bind_run _ _ _ _ _ Him). pose proof (current_run m' Hi) as Hc'. rewrite <- Hcu in Hp', Hcur |- *.
    destruct (dup_copy m' _ old_fd new_fd Hi Hcur Hp' Hvo Hvn) as (m2 & E2 & Hi2 & Ha2).
    { cbn. apply list_lookup_insert_eq. by apply lookup_lt_Some in Hl. }
    rewrite E2. assert (Ht : s_table (abs m') = Ok (Some (<[Z.to_nat new_fd := None]> (entries_ (fd_table p))), abs m')).
    { unfold s_table. run. rewrite (bind_run _ _ _ _ _ (assert_run _ _ _ (proj2 (Z.ltb_lt _ _) Hcur))). cbn [abs s_tables s_current]. by rewrite (abs_tables_lookup _ _ _ Hp'). }
    rewrite (bind_run _ _ _ _ _ Ht). unfold s_set_slot. rewrite bind_bind. run. run. cbn. split; [done|]. split; [done|]. by rewrite Ha2.
  - run. rewrite (bind_run _ _ _ _ _ Es). assert (Hmr : (mret () : M (FdManager W) ()) m = Ok (tt, m)) by done. rewrite (bind_run _ _ _ _ _ Hmr).
    destruct (dup_copy m p old_fd new_fd Hm Hcur Hp Hvo Hvn Hl) as (m2 & E2 & Hi2 & Ha2). rewrite E2.
    unfold s_set_slot. rewrite bind_bind. run. run. cbn. split; [done|]. split; [done|]. by rewrite Ha2.
Qed.

(** ** Reading, writing and seeking *)

Lemma entry_run m fd : fd_inv m →
  match s_entry fd (abs m) with
  | Ok (o, s) => s = abs m ∧ current_entry fd m = Ok (o, m) ∧ ∀ l, o = Some l → ∃ e t, opens m !! l = Some e ∧ abs_target (files m) (handle e) = Some t ∧
      abs_descs m !! l = Some (mkDesc t (flags e) (offset e) (is_append e))
  | Stop _ => True
  end.
Proof.
  intros Hm. pose proof (current_run m Hm) as Hc. unfold s_entry, mbind, M_bind. destruct (s_table (abs m)) as [[o s]|]; [|done].
  destruct Hc as (-> & Hcur & Hc). destruct o as [t|]; [|done]. destruct Hc as (p & Hp & <- & Hlen & Hg). split_and!; [done|..].
  - unfold current_entry. rewrite (bind_run _ _ _ _ _ Hg). unfold GetFd. destruct (IsValidFd fd); [|done].
    by rewrite (bind_run _ _ _ _ _ (get_table_run _ _ _ Hcur Hp)).
  - intros l Hl. destruct (IsValidFd fd) eqn:Hv; [|done]. pose proof (valid_fd_lookup _ _ Hv Hlen) as Hx. rewrite Hl in Hx.
    destruct (ob_live _ _ (iv_objs _ Hm) l (slot_pos _ _ _ _ _ Hp Hx)) as [e He]. exists e.
    destruct (abs_descs_lookup _ _ _ _ (iv_objs _ Hm) He) as (tg & Ht & Hd). by exists tg.
Qed.

Lemma set_offset_ok m l e t k : fd_inv m → opens m !! l = Some e → abs_target (files m) (handle e) = Some t →
  fd_inv (set_entry l (with_offset k e) m) ∧
  abs (set_entry l (with_offset k e) m) = with_descs (<[l := mkDesc t (flags e) k (is_append e)]> (abs_descs m)) (abs m).
Proof.
  intros Hm He Ht. split.
  - destruct Hm as [H1 H2 H3 H4 H5]. split; try done. destruct (ob_refs _ _ H1 _ _ He) as (Hr & Hp & _).
    change (refs (set_entry l (with_offset k e) m)) with (refs m). by apply (objs_set_entry (refs m) (refs m) m l e).
  - unfold abs. rewrite (abs_descs_set_entry m l e) by done. by rewrite Ht.
Qed.

Lemma set_vfs_ok m v : fd_inv m → fd_inv (set_vfs v m) ∧ abs (set_vfs v m) = with_vfs v (abs m).
Proof. intros [[H1 H2 H3 H4 H5 H6 H7 H8 H9 H10 H11] G2 G3 G4 G5]. split; [split; try done; by split|done]. Qed.

Lemma set_pipe_ok m p r : fd_inv m → fd_inv (set_pipes (<[p := r]> (pipes m)) (next_pipe m) m).
Proof.
  intros [[H1 H2 H3 H4 H5 H6 H7 H8 H9 H10 H11] G2 G3 G4 G5]. split; try done. split; try done.
  intros l e q He Hq. cbn. rewrite lookup_insert_is_Some. destruct (decide (p = q)); [by left|right]. split; [done|]. by eapply H4.
Qed.

Lemma on_pipe_run {A B} m p (c : M AtomicCyclicBuffer A) (k : A → FdResult B) : fd_inv m →
  match (r ← s_on_pipe p c; mret (k r)) (abs m) with
  | Ok (b, s') => wp never (r ← on_pipe p c; mret (k r)) (λ a m', a = b ∧ fd_rel m' s') m
  | Stop _ => True
  end.
Proof.
  intros Hm. apply refines_step. intros a s Es. unfold s_on_pipe in Es. erewrite bind_run in Es by reflexivity. cbn [abs s_pipes] in Es.
  destruct (pipes m !! p) as [r|] eqn:Ep; [|done]. destruct (c r) as [[a' r']|] eqn:Ec; [|done]. erewrite bind_run in Es by reflexivity. injection Es as <- <-.
  cbn. unfold wp, on_pipe. rewrite bind_bind. run. rewrite Ep, Ec, bind_bind. run. run. split; [done|]. split; [by apply set_pipe_ok|done].
Qed.

(** What a handle stands for. *)
Lemma target_inv m e t : abs_target (files m) (handle e) = Some t →
  match t with inl path => ∃ f fl, handle e = HFile f ∧ files m !! f = Some fl ∧ f_path fl = path | inr p => handle e = HPipe p end.
Proof.
  unfold abs_target. destruct (handle e) as [|f|p]; [done| |by intros [= <-]]. destruct (files m !! f) as [fl|] eqn:E; [|done]. intros [= <-]. eauto.
Qed.

Lemma on_vfs_run {A} m (c : M (VfsModule W) A) a v : c (vfs m) = Ok (a, v) → on_vfs c m = Ok (a, set_vfs v m).
Proof. intros E. unfold on_vfs, zoom. by rewrite E. Qed.

Lemma s_vfs_run {A} m (c : M (VfsModule W) A) a s : zoom s_vfs with_vfs c (abs m) = Ok (a, s) → ∃ v, c (vfs m) = Ok (a, v) ∧ s = abs (set_vfs v m).
Proof. unfold zoom. cbn [abs s_vfs]. destruct (c (vfs m)) as [[a' v]|]; [|done]. intros [= <- <-]. by exists v. Qed.

Lemma Read_ok fd n : refines fd_rel (Read fd n) (spec_Read fd n).
Proof.
  intros m ? [Hm ->]. unfold spec_Read, Read. destruct (n =? 0); [done|]. pose proof (entry_run m fd Hm) as Hc. apply refines_step. intros o s Es. rewrite Es in Hc.
  destruct Hc as (-> & Eo & Hl). unfold wp at 1. rewrite (bind_run _ _ _ _ _ Eo). destruct o as [l|]; [|done]. destruct (Hl l eq_refl) as (e & t & He & Ht & Hd).
  rewrite (bind_run _ _ _ _ _ (get_entry_run _ _ _ He)). unfold s_get. rewrite bind_bind. run. cbn [abs s_descs]. rewrite Hd. run. cbn [d_flags d_target d_offset d_append].
  destruct (negb _); [done|]. pose proof (target_inv _ _ _ Ht) as Hi. destruct t as [path|p]; [|rewrite Hi; by apply (on_pipe_run m p _ _ Hm)].
  destruct Hi as (f & fl & Eh & Hf & <-). rewrite Eh. rewrite (bind_run _ _ _ _ _ (get_file_run _ _ _ Hf)). apply refines_step. intros r s (v & Ev & ->)%s_vfs_run.
  destruct (set_vfs_ok m v Hm) as [Hm' _]. unfold wp. rewrite (bind_run _ _ _ _ _ (on_vfs_run _ _ _ _ Ev)). destruct r as [data|err]; [|done].
  unfold add_offset. rewrite bind_bind, (bind_run _ _ _ _ _ (get_entry_run (set_vfs v m) _ _ He)). run. run. split; [done|].
  destruct (set_offset_ok (set_vfs v m) l e _ (u64 (offset e + zlen data)) Hm' He Ht) as [Hi Ha]. split; [done|]. by rewrite Ha.
Qed.

Lemma Write_ok fd buf : refines fd_rel (Write fd buf) (spec_Write fd buf).
Proof.
  intros m ? [Hm ->]. unfold spec_Write, Write. destruct (zlen buf =? 0); [done|]. pose proof (entry_run m fd Hm) as Hc. apply refines_step. intros o s Es. rewrite Es in Hc.
  destruct Hc as (-> & Eo & Hl). unfold wp at 1. rewrite (bind_run _ _ _ _ _ Eo). destruct o as [l|]; [|done]. destruct (Hl l eq_refl) as (e & t & He & Ht & Hd).
  rewrite (bind_run _ _ _ _ _ (get_entry_run _ _ _ He)). unfold s_get. rewrite bind_bind. run. cbn [abs s_descs]. rewrite Hd. run. cbn [d_flags d_target d_offset d_append].
  destruct (negb _); [done|]. pose proof (target_inv _ _ _ Ht) as Hi. destruct t as [path|p]; [|rewrite Hi; by apply (on_pipe_run m p _ _ Hm)].
  destruct Hi as (f & fl & Eh & Hf & <-). rewrite Eh. rewrite (bind_run _ _ _ _ _ (get_file_run _ _ _ Hf)). destruct (ob_held _ _ (iv_objs _ Hm) _ _ Hf) as (_ & Hsz & _).
  rewrite Hsz. set (off := if is_append e then 0 else offset e). set (m1 := if is_append e then set_entry l (with_offset 0 e) m else m).
  assert (H1 : opens m1 !! l = Some (with_offset off e) ∧ files m1 = files m ∧ fd_inv m1 ∧ abs m1 = with_descs (<[l := mkDesc (inl (f_path fl)) (flags e) off (is_append e)]> (abs_descs m)) (abs m)).
  { unfold m1, off. destruct (is_append e) eqn:Ea.
    - destruct (set_offset_ok m l e _ 0 Hm He Ht) as [Hi Ha]. rewrite Ea in Ha. split_and!; [apply lookup_insert_eq|done|exact Hi|exact Ha].
    - split_and!; [by destruct e|done|done|]. unfold with_descs. cbn. rewrite insert_id; [done|]. exact Hd. }
  destruct H1 as (He1 & Ef1 & Hm1 & Ha1).
  assert (E1 : (if is_append e then modS (set_entry l (with_offset 0 e)) else mret tt) m = Ok (tt, m1)) by (unfold m1; by destruct (is_append e)).
  rewrite (bind_run _ _ _ _ _ E1), (bind_run _ _ _ _ _ (get_entry_run _ _ _ He1)). cbn [with_offset offset]. run. cbn [s_descs d_target d_flags d_append].
  change (with_descs _ _) with (with_descs (<[l := mkDesc (inl (f_path fl)) (flags e) off (is_append e)]> (abs_descs m)) (abs m)). rewrite <- Ha1.
  apply refines_step. intros r s (v & Ev & ->)%s_vfs_run. destruct (set_vfs_ok m1 v Hm1) as [Hm' _]. unfold wp. rewrite (bind_run _ _ _ _ _ (on_vfs_run _ _ _ _ Ev)).
  destruct r as [k|err]; [|done]. unfold add_offset. rewrite bind_bind, (bind_run _ _ _ _ _ (get_entry_run (set_vfs v m1) _ _ He1)). run. run. split; [done|].
  assert (Ht1 : abs_target (files (set_vfs v m1)) (handle (with_offset off e)) = Some (inl (f_path fl))) by (cbn; rewrite Ef1; exact Ht).
  destruct (set_offset_ok (set_vfs v m1) l _ _ (u64 (off + k)) Hm' He1 Ht1) as [Hi Ha]. split; [exact Hi|exact (eq_sym Ha)].
Qed.

Lemma Seek_ok fd off whence : refines fd_rel (Seek fd off whence) (spec_Seek fd off whence).
Proof.
  intros m ? [Hm ->]. pose proof (entry_run m fd Hm) as Hc. apply refines_step. intros o s Es. rewrite Es in Hc.
  destruct Hc as (-> & Eo & Hl). unfold wp, Seek. rewrite (bind_run _ _ _ _ _ Eo). destruct o as [l|]; [|done]. destruct (Hl l eq_refl) as (e & t & He & Ht & Hd).
  rewrite (bind_run _ _ _ _ _ (get_entry_run _ _ _ He)). unfold s_get. rewrite bind_bind. run. cbn [abs s_descs]. rewrite Hd. run. cbn [d_flags d_target d_offset d_append].
  pose proof (target_inv _ _ _ Ht) as Hi. destruct t as [path|p]; [|by rewrite Hi]. destruct Hi as (f & fl & Eh & Hf & <-). rewrite Eh, (bind_run _ _ _ _ _ (get_file_run _ _ _ Hf)).
  destruct (ob_held _ _ (iv_objs _ Hm) _ _ Hf) as (_ & Hsz & _). rewrite Hsz.
  destruct whence; try done; run; run; (split; [done|]);
    match goal with |- fd_rel (set_entry _ (with_offset ?k _) _) _ => destruct (set_offset_ok m l e _ k Hm He Ht) as [Hi Ha]; exact (conj Hi (eq_sym Ha)) end.
Qed.

(** ** Opening *)

Lemma abs_descs_dom n m : objs n m → dom (abs_descs m) = dom (opens m).
Proof.
  intros Hm. apply set_eq. intros l. rewrite !elem_of_dom. split; [|intros [e He]; destruct (abs_descs_lookup _ _ _ _ Hm He) as (t & _ & H); by eexists].
  intros [d Hd]. unfold abs_descs in Hd. apply lookup_omap_Some in Hd as (e & _ & He). by eexists.
Qed.

Lemma abs_descs_size n m : objs n m → size (abs_descs m) = size (opens m).
Proof. intros Hm. rewrite <- !size_dom. by rewrite (abs_descs_dom _ _ Hm). Qed.

Lemma abs_files_size n m : objs n m → size (filter is_file_desc (abs_descs m)) = size (files m).
Proof.
  intros Hm. rewrite (ob_size _ _ Hm), <- !size_dom. f_equal. apply set_eq. intros l. rewrite !elem_of_dom.
  assert (Hi : ∀ e t, opens m !! l = Some e → abs_target (files m) (handle e) = Some t → is_file_desc (l, mkDesc t (flags e) (offset e) (is_append e)) = is_file (l, e)).
  { intros e t He Ht. unfold is_file_desc, is_file, IsFile. cbn. apply target_inv in Ht. destruct t; [by destruct Ht as (? & ? & -> & _)|by rewrite Ht]. }
  split; intros [x [Hx Hf]%map_lookup_filter_Some].
  - assert (is_Some (opens m !! l)) as [e He] by (apply elem_of_dom; rewrite <- (abs_descs_dom _ _ Hm); apply elem_of_dom; by eexists).
    destruct (abs_descs_lookup _ _ _ _ Hm He) as (t & Ht & Hd). rewrite Hd in Hx. injection Hx as <-. exists e. apply map_lookup_filter_Some. split; [done|].
    by rewrite <- (Hi e t).
  - destruct (abs_descs_lookup _ _ _ _ Hm Hx) as (t & Ht & Hd). eexists. apply map_lookup_filter_Some. split; [exact Hd|]. by rewrite (Hi x t).
Qed.

Lemma current_fn m : current m < kMaxProcesses →
  GetCurrentProcessFdTable m = Ok (if mjoin (processes m !! Z.to_nat (current m)) is Some _ then Some (current m) else None, m).
Proof.
  intros Hc. unfold GetCurrentProcessFdTable, get_process. run. rewrite bind_bind. erewrite bind_run by (by apply assert_run, Z.ltb_lt). rewrite bind_bind. run. run. done.
Qed.

Lemma ReleaseFile_run2 m f fl : files m !! f = Some fl → f_refs fl = 2 → ReleaseFile f m = Ok (tt, set_file f (with_f_refs 1 fl) m).
Proof.
  intros Hf Hr. unfold ReleaseFile. rewrite (bind_run _ _ _ _ _ (get_file_run _ _ _ Hf)), Hr. run. run. done.
Qed.

Lemma u64_back (k : nat) : (k < 5000)%nat → u64 (u64 (Z.of_nat k + 1) - 1) = Z.of_nat k.
Proof. intros H. rewrite (wrap_u_small _ (Z.of_nat k + 1)) by (unfold in_u; lia). rewrite wrap_u_small by (unfold in_u; lia). lia. Qed.

(** A file that was just made is taken back. *)
Lemma undo_file n m i pf path k : objs n m → pool_take (files_ m) (next_file m) = Some (i, pf) →
  ReleaseFile (next_file m) (new_file 1 i pf path (burn 0 k m)) = Ok (tt, burn 1 k m).
Proof.
  intros Hm Hp. destruct (objs_fresh _ _ Hm) as (_ & _ & Hf). pose proof (pool_take_give _ _ _ _ _ _ _ (ob_files _ _ Hm) Hp) as (_ & _ & Hg).
  pose proof (po_size _ _ _ _ (ob_files _ _ Hm)) as Hs.
  rewrite (ReleaseFile_run _ _ (mkFile 1 0 0 (copy path) i)).
  - unfold without_file, new_file, burn. cbn. rewrite !Nat.add_0_r. rewrite delete_insert_id by done. rewrite Hg, (proj1 (ob_counts _ _ Hm)), u64_back by (unfold kMaxActiveFiles in *; lia).
    by rewrite Nat.add_1_r.
  - cbn. rewrite Nat.add_0_r. apply lookup_insert_eq.
  - done.
  - cbn. rewrite Nat.add_0_r. eapply pool_take_ok; [apply Hm|done..].
Qed.

(** An entry that was just made is taken back, with one of the two references to its file. *)
Lemma undo_entry n m i pf path mode app j po : objs n m → pool_take (files_ m) (next_file m) = Some (i, pf) → pool_take (opens_ m) (next_entry m) = Some (j, po) →
  ReleaseEntry (next_entry m) (new_entry (HFile (next_file m)) mode app j po (new_file 2 i pf path m)) = Ok (tt, new_file 1 i pf path (burn 0 1 m)).
Proof.
  intros Hm Hpf Hp. destruct (objs_fresh _ _ Hm) as (Ho & _ & _). pose proof (pool_take_give _ _ _ _ _ _ _ (ob_opens _ _ Hm) Hp) as (Hj & Hget & Hg).
  pose proof (po_size _ _ _ _ (ob_opens _ _ Hm)) as Hs. set (X := new_entry _ _ _ _ _ _).
  assert (HX : opens X !! next_entry m = Some (mkEntry 1 (HFile (next_file m)) mode 0 app j)) by (apply lookup_insert_eq).
  unfold ReleaseEntry. rewrite (bind_run _ _ _ _ _ (get_entry_run _ _ _ HX)). run. run. cbn [e_refs Z.eqb Pos.eqb]. unfold DestroyEntry, FreeEntry.
  erewrite bind_run by (apply get_entry_run; apply lookup_insert_eq). rewrite bind_bind. cbn [e_pool_idx with_e_refs handle].
  erewrite bind_run by (apply assert_run, Z.ltb_lt; lia). rewrite bind_bind. run.
  unfold X. cbn [set_entry set_opens opens_ new_entry]. rewrite Hget. run. run. run. cbn [DestroyHandle].
  erewrite ReleaseFile_run2; [|cbn; apply lookup_insert_eq|done]. unfold burn, new_file, set_file. cbn. rewrite !Nat.add_0_r, !insert_insert_eq, delete_insert_eq, delete_id by done.
  rewrite Hg, (proj2 (ob_counts _ _ Hm)), u64_back, Nat.add_1_r by (unfold kMaxOpenFiles in *; lia). done.
Qed.

Lemma burn_ok m k : fd_inv m → fd_inv (burn 1 k m) ∧ abs (burn 1 k m) = with_next (next_entry m + k) (abs m).
Proof. intros [H1 H2 H3 H4 H5]. split; [|done]. split; try done. by apply (objs_burn (refs m)). Qed.

(** The two objects of an open file, from the pools. *)
Lemma open_objects n m path mode i pf j po : objs n m → not_open path (abs_descs m) → Path.IsEmpty path = false →
  pool_take (files_ m) (next_file m) = Some (i, pf) → pool_take (opens_ m) (next_entry m) = Some (j, po) →
  GetOrCreate true path m = Ok (FdOk (next_file m), new_file 1 i pf path m) ∧
  OpenFile true (next_file m) mode (new_file 1 i pf path m) =
    Ok (FdOk (next_entry m), new_entry (HFile (next_file m)) mode (HasMode mode kAppend) j po (new_file 2 i pf path m)).
Proof.
  intros Hm Hn He Hpf Hpo. split; [by rewrite (GetOrCreate_run _ _ _ _ Hm Hn He eq_refl), Hpf|]. unfold OpenFile.
  rewrite NewEntry_run; [|done|intros f [= <-]; cbn; rewrite lookup_insert_eq; by eexists]. cbn [new_file set_files opens_ next_entry files]. rewrite Hpo, lookup_insert_eq.
  unfold new_file, set_file, with_f_refs. cbn. by rewrite insert_insert_eq.
Qed.

(** The rest of [Open]: the descriptor, or everything taken back. *)
Lemma open_slot m path mode i pf j po (app := HasMode mode kAppend) : fd_inv m →
  pool_take (files_ m) (next_file m) = Some (i, pf) → pool_take (opens_ m) (next_entry m) = Some (j, po) →
  let X := new_entry (HFile (next_file m)) mode app j po (new_file 2 i pf path m) in
  match (t ← s_table;
         match t with
         | None => mret (FdErr kIoError)
         | Some t =>
             match first_null t 0 with
             | None => mret (FdErr kFdTableFull)
             | Some fd =>
                 s_set_slot t fd (Some (next_entry m));;
                 modS (λ s', with_descs (<[next_entry m := mkDesc (inl (copy path)) mode 0 app]> (s_descs s')) s');;
                 mret (FdOk fd)
             end
         end) (with_next (S (next_entry m)) (abs m)) with
  | Ok (b, s') => wp never (t ← GetCurrentProcessFdTable;
      match t with
      | None => ReleaseEntry (next_entry m);; ReleaseFile (next_file m);; mret (FdErr kIoError)
      | Some id => fd_result ← Allocate id (next_entry m); ReleaseFile (next_file m);; mret fd_result
      end) (λ a m', a = b ∧ fd_rel m' s') X
  | Stop _ => True
  end.
Proof.
  intros Hm Epf Epo X. pose proof (iv_objs _ Hm) as Ho. unfold s_table. rewrite bind_bind. run. rewrite bind_bind. cbn [with_next abs s_current s_tables s_pool].
  unfold mbind at 1, M_bind at 1. unfold assertM. destruct (Z.ltb_spec (current m) kMaxProcesses) as [Hcur|]; cbn [mret M_ret]; [|done]. run.
  pose proof (undo_entry _ m i pf path mode app j po Ho Epf Epo) as E1. fold X in E1. pose proof (undo_file _ m i pf path 1 Ho Epf) as E2.
  destruct (burn_ok m 1 Hm) as [Hbi Hba]. rewrite Nat.add_1_r in Hba. unfold wp. rewrite (bind_run _ _ _ _ _ (current_fn X Hcur)).
  change (processes X) with (processes m). change (current X) with (current m). unfold abs_tables at 1. rewrite list_lookup_fmap.
  destruct (processes m !! Z.to_nat (current m)) as [[p|]|] eqn:Hp; cbn [fmap option_fmap option_map mjoin option_join].
  2, 3: rewrite (bind_run _ _ _ _ _ E1), (bind_run _ _ _ _ _ E2); split; [done|]; split; [done|]; by rewrite Hba.
  unfold Allocate. rewrite bind_bind. rewrite (bind_run _ _ _ _ _ (get_table_run X (current m) p Hcur Hp)).
  destruct (first_null (entries_ (fd_table p)) 0) as [fd|] eqn:Ef.
  2: { rewrite bind_bind, (bind_run _ _ _ _ _ E1). assert (Hr : (mret (FdErr kFdTableFull) : M (FdManager W) (FdResult Z)) (new_file 1 i pf path (burn 0 1 m)) = Ok (FdErr kFdTableFull, new_file 1 i pf path (burn 0 1 m))) by done.
       rewrite (bind_run _ _ _ _ _ Hr), (bind_run _ _ _ _ _ E2). split; [done|]. split; [done|]. by rewrite Hba. }
  destruct (first_null_spec _ _ _ Ef) as (k & -> & Hk & _). rewrite Z.add_0_l, Nat2Z.id, bind_bind, (bind_run _ _ _ _ _ (set_table_run X (current m) p _ Hp)).
  set (X' := with_table _ _ _ X).
  assert (E3 : ReleaseFile (next_file m) X' = Ok (tt, with_table (Z.to_nat (current m)) p (mkFdTable (<[k := Some (next_entry m)]> (entries_ (fd_table p))) (u64 (fd_count (fd_table p) + 1)))
    (new_entry (HFile (next_file m)) mode app j po (new_file 1 i pf path m)))).
  { erewrite ReleaseFile_run2; [|apply lookup_insert_eq|done]. unfold X', X, set_file, with_table, new_entry, new_file. cbn. by rewrite insert_insert_eq. }
  assert (Hr : (mret (FdOk (Z.of_nat k)) : M (FdManager W) (FdResult Z)) X' = Ok (FdOk (Z.of_nat k), X')) by done.
  rewrite (bind_run _ _ _ _ _ Hr), (bind_run _ _ _ _ _ E3). destruct (objs_new_file _ m path mode app i pf j po Ho Epf Epo) as [Ho' Ha'].
  unfold s_set_slot. rewrite bind_bind. run. run. run. cbn [mret M_ret]. split; [done|]. split.
  - eapply fd_inv_slot; [exact Hm|by right|done|exact Hk|exact Ho'|]. intros l. unfold inc_at. rewrite (decide_False (P := None = Some l)) by done.
    destruct (decide (next_entry m = l)) as [<-|]; [rewrite decide_True by done; lia|rewrite decide_False by congruence; lia].
  - unfold abs. rewrite abs_tables_with_table. cbn [entries_]. unfold with_descs, with_tables, with_next. cbn [s_descs s_next s_tables s_pool s_pipes s_next_pipe s_current s_vfs].
    rewrite Nat2Z.id. f_equal. exact (eq_sym Ha').
Qed.

Lemma Open_ok fm em path mode : refines fd_rel (Open fm em path mode) (spec_Open fm em path mode).
Proof.
  intros m0 ? [Hm0 ->]. apply refines_step. intros r s (v & Ev & ->)%s_vfs_run. destruct (set_vfs_ok m0 v Hm0) as [Hm _]. unfold wp, Open.
  rewrite (bind_run _ _ _ _ _ (on_vfs_run _ _ _ _ Ev)). destruct r as [[]|err]; [|done|done]. generalize dependent (set_vfs v m0). clear dependent m0. intros m Hm.
  destruct (Path.IsEmpty path) eqn:Hp; [unfold GetOrCreate; by rewrite Hp|]. run. unfold assertM. destruct (bool_decide (not_open path (abs_descs m)) && fm && em) eqn:Hb; cbn [abs s_descs]; [|by rewrite Hb].
  rewrite Hb. apply andb_prop in Hb as [[Hno%bool_decide_eq_true ->]%andb_prop ->]. run. pose proof (iv_objs _ Hm) as Ho.
  rewrite (abs_descs_size _ _ Ho), (abs_files_size _ _ Ho). pose proof (pool_take_full _ _ _ _ (next_file m) (ob_files _ _ Ho)) as Hff. pose proof (pool_take_full _ _ _ _ (next_entry m) (ob_opens _ _ Ho)) as Hfo.
  destruct (Z.eqb_spec (Z.of_nat (size (files m))) kMaxActiveFiles) as [Hs|Hs].
  { apply Hff in Hs. assert (E := GetOrCreate_run _ _ true path Ho Hno Hp eq_refl). rewrite Hs in E. by rewrite (bind_run _ _ _ _ _ E). }
  destruct (pool_take (files_ m) (next_file m)) as [[i pf]|] eqn:Epf; [|by destruct Hs; apply Hff].
  destruct (Z.eqb_spec (Z.of_nat (size (opens m))) kMaxOpenFiles) as [Hs'|Hs'].
  { apply Hfo in Hs'. assert (E := GetOrCreate_run _ _ true path Ho Hno Hp eq_refl). rewrite Epf in E. rewrite (bind_run _ _ _ _ _ E).
    assert (E' : OpenFile true (next_file m) mode (new_file 1 i pf path m) = Ok (FdErr kIoError, new_file 1 i pf path m)).
    { unfold OpenFile. rewrite NewEntry_run; [|done|intros f [= <-]; cbn; rewrite lookup_insert_eq; by eexists]. cbn [new_file set_files opens_ next_entry]. by rewrite Hs'. }
    rewrite (bind_run _ _ _ _ _ E'). assert (E2 := undo_file _ m i pf path 0 Ho Epf). replace (burn 0 0 m) with m in E2 by (unfold burn; destruct m; cbn; by rewrite !Nat.add_0_r).
    rewrite (bind_run _ _ _ _ _ E2). split; [done|]. destruct (burn_ok m 0 Hm) as [Hi Ha]. split; [done|]. rewrite Ha, Nat.add_0_r. done. }
  destruct (pool_take (opens_ m) (next_entry m)) as [[j po]|] eqn:Epo; [|by destruct Hs'; apply Hfo].
  destruct (open_objects _ m path mode i pf j po Ho Hno Hp Epf Epo) as [E1 E2]. rewrite (bind_run _ _ _ _ _ E1), (bind_run _ _ _ _ _ E2).
  run. exact (open_slot m path mode i pf j po Hm Epf Epo).
Qed.
End ops.
