(* ===== verification/FileDescProc.v ===== *)
(** * Processes and their descriptors
    A process that is prepared gets three descriptors for its pipes, or everything that was done is
    undone; one that is freed drops all its descriptors. *)
From S2P Require Import Prelude Bytes Path CritBit Fat Vfs Pipe FileDesc FileDescInv FileDescSpec FileDescOps.

Section proc.
Context {W : Type}.
Implicit Types (m : FdManager W) (s : fdspec W).

Lemma map_filter_filter_one {A} (h : gmap nat A) (n n' : nat → nat) a : n a = S (n' a) → (∀ k, k ≠ a → n k = n' k) →
  (if decide (n a = 1%nat) then delete a (filter (λ x, n x.1 ≠ 0%nat) h) else filter (λ x, n x.1 ≠ 0%nat) h) = filter (λ x, n' x.1 ≠ 0%nat) h.
Proof.
  intros Ha Hk. apply map_eq. intros k. apply option_eq. intros x. rewrite map_lookup_filter_Some. cbn. case_decide.
  - rewrite lookup_delete_Some, map_lookup_filter_Some. cbn. destruct (decide (k = a)) as [->|]; [naive_solver lia|]. rewrite Hk by done. naive_solver.
  - rewrite map_lookup_filter_Some. cbn. destruct (decide (k = a)) as [->|]; [naive_solver lia|]. rewrite Hk by done. naive_solver.
Qed.

Lemma DestroyRefs_run (t : list (option nat)) (n' : nat → nat) m : objs (λ k, count_in k t + n' k)%nat m → (∀ k, Z.of_nat (count_in k t + n' k) < 2 ^ 32) →
  ∃ m', DestroyRefs t m = Ok (tt, m') ∧ objs n' m' ∧ same_rest m m' ∧ abs_descs m' = filter (λ x, n' x.1 ≠ 0%nat) (abs_descs m).
Proof.
  revert n'. induction t as [|o t IH]; intros n' Hm Hb.
  - exists m. split_and!; [done|done|done|]. symmetry. apply map_filter_id. intros l d Hl. cbn.
    assert (is_Some (opens m !! l)) as [e He] by (apply elem_of_dom; rewrite <- (abs_descs_dom _ _ Hm); apply elem_of_dom; by eexists).
    destruct (ob_refs _ _ Hm _ _ He) as (_ & Hn & _). cbn in Hn. lia.
  - destruct (IH (λ k, (if decide (o = Some k) then 1 else 0) + n' k)%nat) as (m1 & E1 & Ho1 & Hs1 & Ha1).
    { refine (objs_ext _ _ _ _ Hm). intros k. rewrite count_in_cons. lia. }
    { intros k. specialize (Hb k). rewrite count_in_cons in Hb. lia. }
    cbn [DestroyRefs]. rewrite (bind_run _ _ _ _ _ E1). destruct o as [a|].
    + set (n := λ k, ((if decide (Some a = Some k) then 1 else 0) + n' k)%nat) in *.
      assert (Hna : n a = S (n' a)) by (unfold n; by rewrite decide_True). assert (Hnk : ∀ k, k ≠ a → n k = n' k) by (intros k Hk; unfold n; rewrite decide_False by congruence; done).
      change (abs_descs m1 = filter (λ x, n x.1 ≠ 0%nat) (abs_descs m)) in Ha1. clearbody n.
      destruct (ReleaseEntry_run n m1 a Ho1) as (e & He & E2); [lia|specialize (Hb a); rewrite count_in_cons, decide_True in Hb by done; lia|].
      pose proof (objs_release n m1 a e Ho1 He ltac:(lia)) as Ho2. pose proof (abs_descs_release n m1 a e Ho1 He ltac:(lia)) as Ha2. pose proof (same_rest_release n m1 a e) as Hs2.
      set (m2 := if decide _ then _ else _) in *. exists m2. split_and!; [done|..].
      * refine (objs_ext _ _ _ _ Ho2). intros k. unfold dec_at. destruct (decide (a = k)) as [<-|Hk]; [lia|]. by apply Hnk, not_eq_sym.
      * unfold same_rest in *. naive_solver congruence.
      * rewrite Ha2, Ha1. by apply map_filter_filter_one.
    + by exists m1.
Qed.

Lemma count_tables_clear k ts id t : ts !! id = Some (Some t) → count_tables k ts = (count_in k t + count_tables k (<[id := None]> ts))%nat.
Proof. intros H. pose proof (sum_insert (from_option (count_in k) 0%nat) ts id _ None H) as E. unfold count_tables. cbn in *. lia. Qed.

Lemma abs_tables_insert m id o : (λ o : option Process, (λ p, entries_ (fd_table p)) <$> o) <$> <[id := o]> (processes m) = <[id := (λ p, entries_ (fd_table p)) <$> o]> (abs_tables m).
Proof. apply list_fmap_insert. Qed.

(** The end of a process. *)
Definition killed (id : Z) s : fdspec W :=
  let s' := with_tables (<[Z.to_nat id := None]> (s_tables s)) (id :: s_pool s) s in
  with_descs (filter (λ x, count_tables x.1 (s_tables s') ≠ 0%nat) (s_descs s')) s'.

Lemma kill_run m id p : fd_inv m → 0 ≤ id < kMaxProcesses → processes m !! Z.to_nat id = Some (Some p) →
  ∃ m', (DestroyRefs (entries_ (fd_table p));; free_process id) m = Ok (tt, m') ∧ fd_inv m' ∧ abs m' = killed id (abs m).
Proof.
  intros Hm Hid Hp. pose proof Hm as [H1 H2 H3 H4 H5]. pose proof (abs_tables_lookup _ _ _ Hp) as Ht.
  destruct (DestroyRefs_run (entries_ (fd_table p)) (λ k, count_tables k (<[Z.to_nat id := None]> (abs_tables m))) m) as (m1 & E1 & Ho & Hs & Ha).
  { refine (objs_ext _ _ _ _ H1). intros k. by rewrite <- (count_tables_clear k _ _ _ Ht). }
  { intros k. rewrite <- (count_tables_clear k _ _ _ Ht). pose proof (refs_bound m k Hm). unfold refs in *. lia. }
  destruct Hs as (Hs1 & Hs2 & Hs3 & Hs4 & Hs5 & Hs6 & Hs7 & Hs8 & Hs9). rewrite (bind_run _ _ _ _ _ E1). unfold free_process. run. eexists. split_and!; [done|..].
  - split; cbn [set_processes processes process_pool].
    + apply objs_set_processes. refine (objs_ext _ _ _ _ Ho). intros k. unfold refs, abs_tables at 2. cbn [set_processes processes]. by rewrite Hs3, abs_tables_insert.
    + by rewrite length_insert, Hs3.
    + rewrite Hs3. intros k q [(_ & ? & _)|[_ Hq]]%list_lookup_insert_Some; [done|by eapply H3].
    + rewrite Hs4. apply NoDup_cons. split; [|done]. intros Hi. destruct (H5 _ Hi) as [_ Hn]. congruence.
    + rewrite Hs3, Hs4. intros k [->|Hk]%elem_of_cons.
      * split; [done|]. apply list_lookup_insert_eq. by apply lookup_lt_Some in Hp.
      * destruct (H5 _ Hk) as [Hb Hl]. split; [done|]. rewrite list_lookup_insert_ne; [done|]. intros E. rewrite <- E in Hl. congruence.
  - unfold killed, abs. cbn [with_tables with_descs s_descs s_next s_tables s_pool s_pipes s_next_pipe s_current s_vfs].
    unfold abs_tables at 1. cbn [set_processes processes process_pool next_entry pipes next_pipe current vfs]. rewrite Hs3, abs_tables_insert. cbn [fmap option_fmap option_map].
    change (abs_descs (set_processes _ _ _ m1)) with (abs_descs m1). rewrite Ha, Hs2, Hs4, Hs6, Hs7, Hs8, Hs9. done.
Qed.

Lemma FreeProcess_ok id : refines (fd_rel (W := W)) (FreeProcess id) (spec_FreeProcess id).
Proof.
  intros m ? [Hm ->]. unfold spec_FreeProcess, mbind at 1, M_bind at 1. unfold assertM. destruct ((0 <=? id) && (id <? kMaxProcesses)) eqn:Hid; cbn [mret M_ret]; [|done].
  apply andb_prop in Hid as [H0%Z.leb_le H1%Z.ltb_lt]. run. unfold wp, FreeProcess, get_process. rewrite bind_bind.
  rewrite (bind_run _ _ _ _ _ (assert_run _ _ _ (proj2 (Z.ltb_lt _ _) H1))), bind_bind.
  assert (Hg : getS m = Ok (m, m)) by done. rewrite (bind_run _ _ _ _ _ Hg). cbn [abs s_tables]. unfold abs_tables at 1. rewrite list_lookup_fmap.
  assert (Hr : ∀ o, (mret o : M (FdManager W) (option Process)) m = Ok (o, m)) by done. rewrite (bind_run _ _ _ _ _ (Hr _)).
  destruct (processes m !! Z.to_nat id) as [[p|]|] eqn:Hp; cbn [fmap option_fmap option_map mjoin option_join]; [|done..]. run. run.
  destruct (kill_run m id p Hm ltac:(done) Hp) as (m' & E & Hi & Ha). rewrite <- bind_bind, (bind_run _ _ _ _ _ E). split; [done|]. split; [done|]. by rewrite Ha.
Qed.

(** ** A new process *)

Definition born (id : Z) (rest : list Z) (t : list (option nat)) s : fdspec W :=
  let p := s_next_pipe s in
  let ring := empty_ring kStdioBufferSize in
  with_tables (<[Z.to_nat id := Some t]> (s_tables s)) rest (with_pipes (<[p := ring]> (<[S p := ring]> (<[S (S p) := ring]> (s_pipes s)))) (S (S (S p))) s).

Lemma count_in_null k n : count_in k (replicate n None) = 0%nat.
Proof. induction n as [|n IH]; [done|]. cbn [replicate]. by rewrite count_in_cons, decide_False. Qed.

Lemma new_process_run m id rest : fd_inv m → process_pool m = id :: rest →
  ∃ m' p, new_process id rest m = Ok (tt, m') ∧ fd_inv m' ∧ abs m' = born id rest (replicate 128 None) (abs m) ∧
    processes m' !! Z.to_nat id = Some (Some p) ∧ fd_table p = empty_fd_table ∧
    stdin_pipe p = next_pipe m ∧ stdout_pipe p = S (next_pipe m) ∧ stderr_pipe p = S (S (next_pipe m)).
Proof.
  intros [[H1 H2 H3 H4 H5 H6 H7 H8 H9 H10 H11] G2 G3 G4 G5] Hp. rewrite Hp in *. destruct (G5 id) as [Hid Hn]; [by left|]. apply NoDup_cons in G4 as [Gi G4].
  unfold new_process. run. run. eexists _, _. split; [done|]. cbn [set_processes processes set_pipes].
  assert (Hlt : (Z.to_nat id < length (processes m))%nat) by (by apply lookup_lt_Some in Hn).
  assert (Ht : abs_tables m !! Z.to_nat id = Some None) by (unfold abs_tables; by rewrite list_lookup_fmap, Hn).
  split_and!; [|unfold abs, born; cbn; f_equal; unfold abs_tables at 1; cbn; by rewrite abs_tables_insert|by apply list_lookup_insert_eq|done..]. split; cbn [processes process_pool set_processes set_pipes].
  - apply objs_set_processes. refine (objs_ext (refs m) _ _ _ _).
    + intros k. unfold refs, abs_tables at 2. cbn [processes set_processes set_pipes]. rewrite abs_tables_insert. cbn [fmap option_fmap option_map fd_table empty_fd_table entries_].
      pose proof (sum_insert (from_option (count_in k) 0%nat) (abs_tables m) _ _ (Some (replicate (Z.to_nat kMaxFdsPerProcess) None)) Ht) as E. cbn [from_option] in E. rewrite count_in_null in E. unfold count_tables. lia.
    + split; try done. cbn. intros l e q He Hq. rewrite !lookup_insert_is_Some'. repeat right. by eapply H4.
  - by rewrite length_insert.
  - intros k q [(_ & [= <-] & _)|[_ Hq]]%list_lookup_insert_Some; [cbn; apply length_replicate|by eapply G3].
  - done.
  - intros k Hk. destruct (G5 k) as [Hb Hl]; [by right|]. split; [done|]. rewrite list_lookup_insert_ne; [done|]. intros E. assert (id = k) by lia. by subst.
Qed.

Lemma open_std_run m id p pipe fd : fd_inv m → id < kMaxProcesses → processes m !! Z.to_nat id = Some (Some p) → entries_ (fd_table p) !! Z.to_nat fd = Some None →
  IsValidFd fd = true → is_Some (pipes m !! pipe) →
  if Z.of_nat (size (abs_descs m)) =? kMaxOpenFiles then open_std id true pipe fd m = Ok (false, m)
  else ∃ m' p', open_std id true pipe fd m = Ok (true, m') ∧ fd_inv m' ∧ processes m' !! Z.to_nat id = Some (Some p') ∧
    entries_ (fd_table p') = <[Z.to_nat fd := Some (next_entry m)]> (entries_ (fd_table p)) ∧
    stdin_pipe p' = stdin_pipe p ∧ stdout_pipe p' = stdout_pipe p ∧ stderr_pipe p' = stderr_pipe p ∧ next_entry m' = S (next_entry m) ∧
    abs m' = with_next (S (next_entry m)) (with_descs (<[next_entry m := mkDesc (inr pipe) kReadWrite 0 false]> (abs_descs m))
      (with_tables (<[Z.to_nat id := Some (<[Z.to_nat fd := Some (next_entry m)]> (entries_ (fd_table p)))]> (abs_tables m)) (process_pool m) (abs m))).
Proof.
  intros Hm Hid Hp Hfd Hv Hpipe. pose proof (iv_objs _ Hm) as Ho. rewrite (abs_descs_size _ _ Ho).
  pose proof (pool_take_full _ _ _ _ (next_entry m) (ob_opens _ _ Ho)) as Hfull. assert (E := NewEntry_run m true (HPipe pipe) kReadWrite false eq_refl ltac:(done)).
  destruct (Z.eqb_spec (Z.of_nat (size (opens m))) kMaxOpenFiles) as [Hs|Hs].
  - apply Hfull in Hs. rewrite Hs in E. unfold open_std, OpenPipe. by rewrite (bind_run _ _ _ _ _ E).
  - destruct (pool_take _ _) as [[j po]|] eqn:Epo; [|by destruct Hs; apply Hfull]. destruct (objs_new_pipe _ m pipe j po Ho Epo Hpipe) as [Ho' Ha'].
    unfold open_std, OpenPipe. rewrite (bind_run _ _ _ _ _ E). set (X := new_entry _ _ _ _ _ _) in *.
    assert (EA : AllocateAt id (next_entry m) fd X = Ok (FdOk fd, with_table (Z.to_nat id) p (mkFdTable (<[Z.to_nat fd := Some (next_entry m)]> (entries_ (fd_table p))) (u64 (fd_count (fd_table p) + 1))) X)).
    { unfold AllocateAt. rewrite Hv. cbn [negb]. rewrite (bind_run _ _ _ _ _ (get_table_run X id p Hid Hp)). rewrite (list_lookup_total_correct _ _ _ Hfd).
      by rewrite (bind_run _ _ _ _ _ (set_table_run X id p _ Hp)). }
    rewrite (bind_run _ _ _ _ _ EA). eexists _, _. split; [done|]. split; [|split_and!].
    + eapply fd_inv_slot; [exact Hm|by right|done|exact Hfd|exact Ho'|]. intros l. unfold inc_at. rewrite (decide_False (P := None = Some l)) by done.
      destruct (decide (next_entry m = l)) as [<-|]; [rewrite decide_True by done; lia|rewrite decide_False by congruence; lia].
    + cbn. apply list_lookup_insert_eq. by apply lookup_lt_Some in Hp.
    + done.
    + done.
    + done.
    + done.
    + done.
    + unfold abs at 1. rewrite abs_tables_with_table. cbn [entries_]. change (abs_descs (with_table _ _ _ X)) with (abs_descs X). rewrite Ha'. done.
Qed.

Lemma undo_run m id p : fd_inv m → 0 ≤ id < kMaxProcesses → processes m !! Z.to_nat id = Some (Some p) →
  ∃ m', (undo_table id;; free_process id) m = Ok (tt, m') ∧ fd_inv m' ∧ abs m' = killed id (abs m).
Proof.
  intros Hm Hid Hp. destruct (kill_run m id p Hm Hid Hp) as (m' & E & Hi & Ha). exists m'. split; [|done].
  unfold undo_table. by rewrite bind_bind, (bind_run _ _ _ _ _ (get_table_run _ _ _ (proj2 Hid) Hp)).
Qed.

Lemma DestroyRefs_null n m : DestroyRefs (replicate n None) m = Ok (tt, m).
Proof. induction n as [|n IH]; [done|]. cbn [replicate DestroyRefs]. by rewrite (bind_run _ _ _ _ _ IH). Qed.

Lemma abs_descs_live m : fd_inv m → filter (λ x, count_tables x.1 (abs_tables m) ≠ 0%nat) (abs_descs m) = abs_descs m.
Proof.
  intros Hm. apply map_filter_id. intros l d Hl. cbn. pose proof (iv_objs _ Hm) as Ho.
  assert (is_Some (opens m !! l)) as [e He] by (apply elem_of_dom; rewrite <- (abs_descs_dom _ _ Ho); apply elem_of_dom; by eexists).
  destruct (ob_refs _ _ Ho _ _ He) as (_ & Hn & _). unfold refs in Hn. lia.
Qed.

(** Entries from [next_entry m] on are named by no slot yet. *)
Lemma refs_fresh m k : fd_inv m → (next_entry m ≤ k)%nat → count_tables k (abs_tables m) = 0%nat ∧ abs_descs m !! k = None.
Proof.
  intros Hm Hk. pose proof (iv_objs _ Hm) as Ho. assert (Hn : opens m !! k = None).
  { destruct (opens m !! k) eqn:E; [|done]. destruct (ob_refs _ _ Ho _ _ E) as (_ & _ & ?). lia. }
  split; [|unfold abs_descs; by rewrite lookup_omap, Hn]. destruct (count_tables k (abs_tables m)) eqn:E; [done|].
  destruct (ob_live _ _ Ho k) as [x Hx]; [unfold refs; lia|]. congruence.
Qed.

Lemma fdspec_ext s s' : s_descs s = s_descs s' → s_next s = s_next s' → s_tables s = s_tables s' → s_pool s = s_pool s' → s_pipes s = s_pipes s' →
  s_next_pipe s = s_next_pipe s' → s_current s = s_current s' → s_vfs s = s_vfs s' → s = s'.
Proof. destruct s, s'. cbn. by intros -> -> -> -> -> -> -> ->. Qed.

(** Undoing a process that had got [ds] descriptions leaves those that were there before. *)
Lemma killed_born m id rest t ds k : fd_inv m → process_pool m = id :: rest →
  (∀ l d, ds !! l = Some d → (next_entry m ≤ l)%nat) →
  killed id (with_next k (with_descs (ds ∪ abs_descs m) (born id rest t (abs m)))) =
  with_next k (with_pipes (s_pipes (born id rest t (abs m))) (s_next_pipe (born id rest t (abs m))) (abs m)).
Proof.
  intros Hm Hp Hds. destruct (iv_pool _ Hm id) as [Hid Hn]; [rewrite Hp; by left|].
  assert (Ht : abs_tables m !! Z.to_nat id = Some None) by (unfold abs_tables; by rewrite list_lookup_fmap, Hn).
  assert (Htt : <[Z.to_nat id := None]> (<[Z.to_nat id := Some t]> (abs_tables m)) = abs_tables m) by (by rewrite list_insert_insert_eq, list_insert_id).
  apply fdspec_ext; try reflexivity; [|exact Htt|exact (eq_sym Hp)].
  change (filter (λ x, count_tables x.1 (<[Z.to_nat id := None]> (<[Z.to_nat id := Some t]> (abs_tables m))) ≠ 0%nat) (ds ∪ abs_descs m) = abs_descs m). rewrite Htt.
  apply map_eq. intros l. apply option_eq. intros d. rewrite map_lookup_filter_Some, lookup_union_Some_raw. cbn. split.
  - intros [[H|[_ H]] H2]; [|done]. apply Hds in H. by destruct (refs_fresh m l Hm H).
  - intros H. split; [|pose proof H as H'; rewrite <- (abs_descs_live m Hm) in H'; by apply map_lookup_filter_Some in H' as [_ H']].
    right. split; [|done]. destruct (ds !! l) eqn:E; [|done]. apply Hds in E. destruct (refs_fresh m l Hm E). congruence.
Qed.

(** [mk] is [m] with a new process at [id] that has the table [t], and the descriptions [ds] more. *)
Definition std_desc (q : nat) : desc := mkDesc (inr q) kReadWrite 0 false.

Record growing m (id : Z) (rest : list Z) (t : list (option nat)) (ds : gmap nat desc) (k : nat) (mk : FdManager W) : Prop := {
  gr_inv : fd_inv mk;
  gr_proc : ∃ p, processes mk !! Z.to_nat id = Some (Some p) ∧ entries_ (fd_table p) = t ∧
    stdin_pipe p = next_pipe m ∧ stdout_pipe p = S (next_pipe m) ∧ stderr_pipe p = S (S (next_pipe m));
  gr_abs : abs mk = with_next k (with_descs (ds ∪ abs_descs m) (born id rest t (abs m)));
  gr_new : ∀ l d, ds !! l = Some d → (next_entry m ≤ l < k)%nat;
  gr_next : (next_entry m ≤ k)%nat
}.

Lemma growing_size m id rest t ds k mk : fd_inv m → growing m id rest t ds k mk → size (abs_descs mk) = (size ds + size (abs_descs m))%nat.
Proof.
  intros Hm [_ _ Ha Hn _]. change (abs_descs mk) with (s_descs (abs mk)). rewrite Ha. cbn [with_next with_descs s_descs]. apply map_size_disj_union.
  apply map_disjoint_spec. intros l d d' H1 H2. apply Hn in H1. destruct (refs_fresh m l Hm) as [_ H]; [lia|]. congruence.
Qed.

Lemma growing_step m id rest t ds k mk q fd : fd_inv m → 0 ≤ id < kMaxProcesses → growing m id rest t ds k mk →
  t !! Z.to_nat fd = Some None → IsValidFd fd = true → (next_pipe m ≤ q ≤ S (S (next_pipe m)))%nat →
  if Z.of_nat (size ds + size (abs_descs m)) =? kMaxOpenFiles then open_std id true q fd mk = Ok (false, mk)
  else ∃ m', open_std id true q fd mk = Ok (true, m') ∧ growing m id rest (<[Z.to_nat fd := Some k]> t) (<[k := std_desc q]> ds) (S k) m'.
Proof.
  intros Hm Hid Hg Hfd Hv Hq. pose proof (growing_size _ _ _ _ _ _ _ Hm Hg) as Hsz. destruct Hg as [Hi (p & Hp & <- & Q0 & Q1 & Q2) Ha Hn Hk].
  assert (Hpipe : is_Some (pipes mk !! q)).
  { change (pipes mk) with (s_pipes (abs mk)). rewrite Ha. cbn [born with_next with_descs with_tables with_pipes s_pipes abs s_next_pipe]. rewrite !lookup_insert_is_Some'. lia. }
  assert (Hne : next_entry mk = k) by (change (next_entry mk) with (s_next (abs mk)); by rewrite Ha).
  pose proof (open_std_run mk id p q fd Hi (proj2 Hid) Hp Hfd Hv Hpipe) as H. rewrite Hsz, Hne in H. destruct (_ =? _); [done|].
  destruct H as (m' & p' & E & Hi' & Hp' & Et & R0 & R1 & R2 & Hnx & Ha'). exists m'. split; [done|]. split.
  - done.
  - exists p'. rewrite R0, R1, R2. done.
  - rewrite Ha'. change (abs_descs mk) with (s_descs (abs mk)). change (abs_tables mk) with (s_tables (abs mk)). change (process_pool mk) with (s_pool (abs mk)). rewrite Ha.
    apply fdspec_ext; try reflexivity; cbn [born with_next with_descs with_tables with_pipes s_descs s_tables abs].
    + by rewrite insert_union_l.
    + by rewrite list_insert_insert_eq.
  - intros l d [[<- _]|[_ Hl]]%lookup_insert_Some; [lia|]. apply Hn in Hl. lia.
  - lia.
Qed.

Lemma growing_undo m id rest t ds k mk : fd_inv m → process_pool m = id :: rest → growing m id rest t ds k mk →
  ∃ m', (undo_table id;; free_process id) mk = Ok (tt, m') ∧
    fd_rel m' (with_next k (with_pipes (s_pipes (born id rest t (abs m))) (s_next_pipe (born id rest t (abs m))) (abs m))).
Proof.
  intros Hm Hp [Hi (p & Hpp & _) Ha Hn _]. destruct (iv_pool _ Hm id) as [Hid _]; [rewrite Hp; by left|].
  destruct (undo_run mk id p Hi Hid Hpp) as (m' & E & Hi' & Ha'). exists m'. split; [done|]. split; [done|].
  rewrite Ha', Ha. symmetry. apply killed_born; [done..|]. intros l d Hl. apply Hn in Hl. lia.
Qed.

Lemma growing_start m id rest : fd_inv m → process_pool m = id :: rest →
  ∃ m1, new_process id rest m = Ok (tt, m1) ∧ growing m id rest (replicate 128 None) ∅ (next_entry m) m1.
Proof.
  intros Hm Ep. destruct (new_process_run m id rest Hm Ep) as (m1 & p & E1 & Hm1 & Ha1 & Hp1 & Ht & P0 & P1 & P2). exists m1. split; [done|]. split; [done|..].
  - exists p. by rewrite Ht.
  - rewrite Ha1. apply fdspec_ext; try reflexivity. cbn [with_next with_descs s_descs]. by rewrite (left_id_L ∅ (∪)).
  - intros l d H. by rewrite lookup_empty in H.
  - done.
Qed.

(** What the specification says of a failure after [k] descriptors. *)
Lemma growing_fail m id rest t ds k mk : fd_inv m → process_pool m = id :: rest → growing m id rest t ds k mk →
  match (undo_table id;; free_process id;; mret (inr OutOfMemory : Z + SchedError)) mk with
  | Ok (b, m') => b = inr OutOfMemory ∧ fd_rel m' (with_next k (with_pipes (s_pipes (born id rest t (abs m))) (s_next_pipe (born id rest t (abs m))) (abs m)))
  | Stop _ => False
  end.
Proof.
  intros Hm Hp Hg. destruct (growing_undo _ _ _ _ _ _ _ Hm Hp Hg) as (m' & E & Hr). by rewrite <- bind_bind, (bind_run _ _ _ _ _ E).
Qed.

Ltac fail_at j G :=
  cbn [negb]; rewrite (proj2 (Z.ltb_lt _ _)) by lia; erewrite bind_run by reflexivity;
  match goal with |- context [Z.to_nat (kMaxOpenFiles - ?z)] => replace (Z.to_nat (kMaxOpenFiles - z)) with j by lia end;
  rewrite ?Nat.add_0_r, ?Nat.add_1_r, ?Nat.add_succ_r, ?Nat.add_0_r;
  match goal with Hm : fd_inv ?m, Hp : process_pool ?m = _ |- _ =>
    let Hf := fresh in pose proof (growing_fail _ _ _ _ _ _ _ Hm Hp G) as Hf;
    match type of Hf with match ?r with _ => _ end => destruct r as [[a m']|]; [exact Hf|done] end
  end.

Lemma PrepareProcess_ok mem : refines (fd_rel (W := W)) (PrepareProcess mem) (spec_PrepareProcess mem).
Proof.
  intros m ? [Hm ->]. unfold spec_PrepareProcess. run. cbn [abs s_pool]. unfold wp, PrepareProcess.
  assert (Hg : getS m = Ok (m, m)) by done. rewrite (bind_run _ _ _ _ _ Hg). clear Hg. destruct (process_pool m) as [|id rest] eqn:Ep; [done|].
  destruct (iv_pool _ Hm id) as [Hid _]; [rewrite Ep; by left|].
  unfold mbind at 1, M_bind at 1. unfold assertM at 1. destruct (_ && stderr_mem mem) eqn:Hmem; cbn [mret M_ret]; [|done].
  apply andb_prop in Hmem as [[[Ho H0]%andb_prop H1]%andb_prop H2]. rewrite (bind_run _ _ _ _ _ (assert_run _ _ _ Ho)). rewrite H0, H1, H2. run.
  destruct (growing_start m id rest Hm Ep) as (m1 & E1 & G0). rewrite (bind_run _ _ _ _ _ E1).
  destruct (wait_queue_mem mem); cbn [negb andb]; [destruct (table_mem mem); cbn [negb andb]|].
  2, 3: destruct (growing_undo _ _ _ _ _ _ _ Hm Ep G0) as (m' & E & Hr); destruct (gr_proc _ _ _ _ _ _ _ G0) as (p & Hp & Et & _);
    unfold undo_table in E; rewrite bind_bind, (bind_run _ _ _ _ _ (get_table_run _ _ _ (proj2 Hid) Hp)), Et, (bind_run _ _ _ _ _ (DestroyRefs_null _ _)) in E;
    rewrite (bind_run _ _ _ _ _ E); split; [done|exact Hr].
  destruct (gr_proc _ _ _ _ _ _ _ G0) as (p & Hp & _ & Q0 & Q1 & Q2).
  assert (Hgp : get_process id m1 = Ok (Some p, m1)).
  { unfold get_process. rewrite (bind_run _ _ _ _ _ (assert_run _ _ _ (proj2 (Z.ltb_lt _ _) (proj2 Hid)))). run. by rewrite Hp. }
  rewrite (bind_run _ _ _ _ _ Hgp), Q0, Q1, Q2. clear Hgp. change (s_descs (abs m)) with (abs_descs m). change (s_next (abs m)) with (next_entry m). change (s_next_pipe (abs m)) with (next_pipe m).
  set (sz := size (abs_descs m)). assert (Hroom : Z.of_nat sz ≤ kMaxOpenFiles).
  { unfold sz. rewrite (abs_descs_size _ _ (iv_objs _ Hm)). pose proof (po_size _ _ _ _ (ob_opens _ _ (iv_objs _ Hm))). lia. }
  pose proof (growing_step _ _ _ _ _ _ _ (next_pipe m) 0 Hm Hid G0 eq_refl eq_refl ltac:(lia)) as S0. fold sz in S0. rewrite map_size_empty in S0.
  destruct (Z.eqb_spec (Z.of_nat (0 + sz)) kMaxOpenFiles) as [Hs|Hs0]; [rewrite (bind_run _ _ _ _ _ S0); fail_at 0%nat G0|].
  destruct S0 as (m2 & E2 & G1). rewrite (bind_run _ _ _ _ _ E2). cbn [negb].
  pose proof (growing_step _ _ _ _ _ _ _ (S (next_pipe m)) 1 Hm Hid G1 eq_refl eq_refl ltac:(lia)) as S1. fold sz in S1.
  rewrite map_size_insert_None, map_size_empty in S1 by apply lookup_empty.
  destruct (Z.eqb_spec (Z.of_nat (1 + sz)) kMaxOpenFiles) as [Hs|Hs1]; [rewrite (bind_run _ _ _ _ _ S1); fail_at 1%nat G1|].
  destruct S1 as (m3 & E3 & G2). rewrite (bind_run _ _ _ _ _ E3). cbn [negb].
  pose proof (growing_step _ _ _ _ _ _ _ (S (S (next_pipe m))) 2 Hm Hid G2 eq_refl eq_refl ltac:(lia)) as S2. fold sz in S2.
  rewrite map_size_insert_None, map_size_insert_None, map_size_empty in S2 by (rewrite ?lookup_insert_ne by lia; apply lookup_empty).
  destruct (Z.eqb_spec (Z.of_nat (2 + sz)) kMaxOpenFiles) as [Hs|Hs2]; [rewrite (bind_run _ _ _ _ _ S2); fail_at 2%nat G2|].
  destruct S2 as (m4 & E4 & G3). rewrite (bind_run _ _ _ _ _ E4). cbn [negb]. rewrite (proj2 (Z.ltb_ge _ _)) by lia. run. run. run.
  split; [done|]. split; [apply G3|]. rewrite (gr_abs _ _ _ _ _ _ _ G3).
  apply fdspec_ext; try reflexivity; cbn [born with_next with_descs with_tables with_pipes s_descs s_next s_tables].
  - rewrite <- !insert_union_l. by rewrite (left_id_L ∅ (∪)).
  - lia.
Qed.
End proc.
