(* ===== verification/FileDescClaims.v ===== *)
(** * Sequences of calls on file descriptors
    The refinement for whole sequences, from boot; reading back through a descriptor what was
    written to a FAT volume; and what happens when a file is opened twice. *)
From S2P Require Import Prelude Bytes Path PathSpec CritBit FatDisk Fat FatVolume FatFs FatOps FatWrite FatFormat FatSpec Vfs VfsSpec VfsBoot Pipe FileDesc FileDescInv FileDescSpec FileDescOps FileDescProc.

Section claims.
Context {W : Type}.
Implicit Types (m : FdManager W).

Inductive fd_op : Type :=
| OOpen (file_mem entry_mem : bool) (path : Path) (mode : Z)
| OClose (fd : Z)
| ORead (fd size : Z)
| OWrite (fd : Z) (buffer : list Z)
| OSeek (fd off : Z) (whence : FdSeek)
| ODuplicate (fd : Z)
| ODuplicateTo (old_fd new_fd : Z)
| OPrepare (mem : process_mem)
| OFreeProcess (id : Z)
| OSwitch (id : Z) (* the core runs another process *)
| OVfs (change : VfsModule W → VfsModule W) (* something else changes the file system *).

Inductive reply : Type :=
| RFd (r : FdResult Z) | RData (r : FdResult (list Z)) | RUnit (r : FdResult unit) | RProcess (r : Z + SchedError) | RFreed (r : unit + SchedError) | RNone.

Definition fd_do (o : fd_op) : M (FdManager W) reply :=
  match o with
  | OOpen fm em path mode => r ← Open fm em path mode; mret (RFd r)
  | OClose fd => r ← Close fd; mret (RUnit r)
  | ORead fd size => r ← Read fd size; mret (RData r)
  | OWrite fd buffer => r ← Write fd buffer; mret (RFd r)
  | OSeek fd off whence => r ← Seek fd off whence; mret (RFd r)
  | ODuplicate fd => r ← Duplicate fd; mret (RFd r)
  | ODuplicateTo o n => r ← DuplicateTo o n; mret (RFd r)
  | OPrepare mem => r ← PrepareProcess mem; mret (RProcess r)
  | OFreeProcess id => r ← FreeProcess id; mret (RFreed r)
  | OSwitch id => modS (set_current id);; mret RNone
  | OVfs f => modS (λ m, set_vfs (f (vfs m)) m);; mret RNone
  end.

Definition spec_do (o : fd_op) : M (fdspec W) reply :=
  match o with
  | OOpen fm em path mode => r ← spec_Open fm em path mode; mret (RFd r)
  | OClose fd => r ← spec_Close fd; mret (RUnit r)
  | ORead fd size => r ← spec_Read fd size; mret (RData r)
  | OWrite fd buffer => r ← spec_Write fd buffer; mret (RFd r)
  | OSeek fd off whence => r ← spec_Seek fd off whence; mret (RFd r)
  | ODuplicate fd => r ← spec_Duplicate fd; mret (RFd r)
  | ODuplicateTo o n => r ← spec_DuplicateTo o n; mret (RFd r)
  | OPrepare mem => r ← spec_PrepareProcess mem; mret (RProcess r)
  | OFreeProcess id => r ← spec_FreeProcess id; mret (RFreed r)
  | OSwitch id => modS (λ s, mkSpec (s_descs s) (s_next s) (s_tables s) (s_pool s) (s_pipes s) (s_next_pipe s) id (s_vfs s));; mret RNone
  | OVfs f => modS (λ s, with_vfs (f (s_vfs s)) s);; mret RNone
  end.

(** Boot: no process, no open file. *)
Definition boot (v : VfsModule W) : FdManager W :=
  mkFd ∅ 0 (new_pool kMaxActiveFiles) 0 ∅ 0 (new_pool kMaxOpenFiles) 0 (replicate (Z.to_nat kMaxProcesses) None) (seqZ 0 kMaxProcesses) 0 ∅ 0 0 v.
Definition spec_boot (v : VfsModule W) : fdspec W :=
  mkSpec ∅ 0 (replicate (Z.to_nat kMaxProcesses) None) (seqZ 0 kMaxProcesses) ∅ 0 0 v.

Lemma count_tables_null l n : count_tables l (replicate n None) = 0%nat.
Proof. unfold count_tables. induction n as [|n IH]; [done|]. cbn [replicate]. by rewrite fmap_cons. Qed.

Lemma boot_ok v : fd_rel (boot v) (spec_boot v).
Proof.
  assert (Ht : abs_tables (boot v) = replicate (Z.to_nat kMaxProcesses) None) by (unfold abs_tables, boot; cbn [processes]; by rewrite fmap_replicate).
  split; [|unfold abs; by rewrite Ht]. split.
  - refine (objs_ext (λ _, 0%nat) _ _ _ _); [intros l; unfold refs; by rewrite Ht, count_tables_null|].
    split; cbn [boot opens files pipes files_ opens_ files_count opens_count].
    1, 3, 4, 5, 6, 7: intros *; rewrite lookup_empty; done.
    + lia.
    + by apply new_pool_ok.
    + by apply new_pool_ok.
    + by rewrite map_filter_empty.
    + done.
  - apply length_replicate.
  - intros id p [? _]%lookup_replicate. done.
  - apply NoDup_seqZ.
  - intros i Hi%elem_of_seqZ. split; [lia|]. apply lookup_replicate_2. lia.
Qed.

Lemma fd_do_ok o : refines fd_rel (fd_do o) (spec_do o).
Proof.
  destruct o; try (apply refines_bind; [|intros; apply refines_ret]).
  - apply Open_ok.
  - apply Close_ok.
  - apply Read_ok.
  - apply Write_ok.
  - apply Seek_ok.
  - apply Duplicate_ok.
  - apply DuplicateTo_ok.
  - apply PrepareProcess_ok.
  - apply FreeProcess_ok.
  - intros m s [[H1 H2 H3 H4 H5] ->]. cbn. split; [done|]. split; [|done]. split; try done. destruct H1. by split.
  - intros m s [Hm ->]. cbn. split; [done|]. split; [by apply set_vfs_ok|done].
Qed.


(** [DuplicateFdTo] of a descriptor onto itself reports success and closes it; and its count of
    open descriptors goes up. *)
Theorem fd_dup_same m p fd l :
  fd_inv m → 0 ≤ current m < kMaxProcesses → processes m !! Z.to_nat (current m) = Some (Some p) → IsValidFd fd = true → entries_ (fd_table p) !! Z.to_nat fd = Some (Some l) →
  ∃ m' p', DuplicateTo fd fd m = Ok (FdOk fd, m') ∧ processes m' !! Z.to_nat (current m) = Some (Some p') ∧
    entries_ (fd_table p') !! Z.to_nat fd = Some None ∧ fd_count (fd_table p') = u64 (fd_count (fd_table p) + 1).
Proof.
  intros Hm Hcur Hp Hv Hl. unfold DuplicateTo. rewrite (bind_run _ _ _ _ _ (current_fn m (proj2 Hcur))), Hp. cbn [mjoin option_join].
  unfold DuplicateFdTo. rewrite Hv. cbn [negb]. rewrite (bind_run _ _ _ _ _ (get_table_run _ _ _ (proj2 Hcur) Hp)), (list_lookup_total_correct _ _ _ Hl).
  destruct (drop_slot_run m (current m) p (Z.to_nat fd) l (fd_count (fd_table p)) Hm Hp Hl) as (m1 & E1 & Eps & _ & _).
  rewrite bind_bind, (bind_run _ _ _ _ _ E1). pose proof Hp as Hp1. rewrite <- Eps in Hp1. rewrite (bind_run _ _ _ _ _ (set_table_run _ _ _ _ Hp1)).
  assert (Hlt : (Z.to_nat (current m) < length (processes m1))%nat) by (by apply lookup_lt_Some in Hp1).
  assert (Hlf : (Z.to_nat fd < length (entries_ (fd_table p)))%nat) by (by apply lookup_lt_Some in Hl).
  set (m2 := with_table _ _ _ m1). assert (Hp2 : processes m2 !! Z.to_nat (current m) = Some (Some (mkProcess (pid_count p) (mkFdTable (<[Z.to_nat fd := None]> (entries_ (fd_table p))) (fd_count (fd_table p))) (stdin_pipe p) (stdout_pipe p) (stderr_pipe p)))) by (by apply list_lookup_insert_eq).
  rewrite (bind_run _ _ _ _ _ (get_table_run _ _ _ (proj2 Hcur) Hp2)). cbn [fd_table entries_ fd_count].
  assert (Hn : <[Z.to_nat fd := None]> (entries_ (fd_table p)) !!! Z.to_nat fd = None) by (apply list_lookup_total_correct; by apply list_lookup_insert_eq).
  rewrite Hn. run. rewrite (bind_run _ _ _ _ _ (set_table_run _ _ _ _ Hp2)). eexists _, _. split; [done|]. split; [cbn; apply list_lookup_insert_eq; cbn; by rewrite length_insert|].
  cbn. split; [|done]. apply list_lookup_insert_eq. by rewrite length_insert.
Qed.
End claims.

(** ** Through a descriptor to a FAT volume *)
Section written.
Context `{I : FatImpl, L : !FatLaws I}.

(** The descriptor [fd] of the running process names the description [d] at [l]. *)
Definition names_desc {W} (m : FdManager W) (fd : Z) (l : nat) (d : desc) : Prop :=
  s_entry fd (abs m) = Ok (Some l, abs m) ∧ abs_descs m !! l = Some d.

Lemma s_entry_abs {W} (m : FdManager W) fd l (s' : fdspec W) : s_entry fd (abs m) = Ok (Some l, abs m) → s_tables s' = abs_tables m → s_current s' = current m → s_entry fd s' = Ok (Some l, s').
Proof.
  unfold s_entry, s_table, mbind, M_bind, getS. intros H Et Ec. cbn [abs s_current s_tables] in H. rewrite Et, Ec. unfold assertM in *.
  destruct (current m <? kMaxProcesses); [|done]. cbn in *. destruct (mjoin (abs_tables m !! Z.to_nat (current m))); [|done]. injection H as ->. done.
Qed.

Lemma s_get_run {W} l (s : fdspec W) d : s_descs s !! l = Some d → s_get l s = Ok (d, s).
Proof. intros H. unfold s_get. erewrite bind_run by reflexivity. by rewrite H. Qed.

(** C18. On a FAT volume mounted writable: what was written through a descriptor is read back
    through it after seeking to where the write began; a write fails only when the disk is full. *)
Theorem fd_write_read (m : FdManager InMemory) fd l d p mt mp comps info F S fr cs c dd n b data :
  fd_inv m → names_desc m fd l d → d_target d = inl p → d_append d = false → HasMode (d_flags d) kRead = true → HasMode (d_flags d) kWrite = true →
  stands_for (Mounts (vfs m)) mt → below mt p mp comps → Vfs.fs mp = GetFilesystem info F → read_only (options mp) = false →
  fs_rep F (devices (vfs m)) S fr → plain comps = cs ++ [c] → Forall bytes comps → locate F S cs c = Present dd n (NFile b) →
  bytes data → 0 < zlen data → 0 ≤ d_offset d → d_offset d + zlen data < 2 ^ 32 →
  ∃ r m1, Write fd data m = Ok (r, m1) ∧
    match r with
    | FdErr e => e = kIoError
    | FdOk w => 0 < w ≤ zlen data ∧ ∃ m2 m3, Seek fd (d_offset d) kSet m1 = Ok (FdOk (d_offset d), m2) ∧ Read fd w m2 = Ok (FdOk (slice 0 w data), m3)
    end.
Proof.
  intros Hm [He Hd] Hp Ha Hr Hw Hv Hb Hfs Hro Hrep Hpl Hby Hloc Hdat Hl Ho H32.
  destruct (written_then_read (vfs m) mt p mp comps info F S fr cs c dd n b data (d_offset d)) as (r & v' & Ew & Hres); try done.
  set (d1 := mkDesc (inl p) (d_flags d) (d_offset d) false). assert (Ed : d = d1) by (unfold d1; destruct d; cbn in *; by subst).
  pose proof (Write_ok fd data m (abs m) (conj Hm eq_refl)) as Hwr. unfold spec_Write in Hwr. rewrite (proj2 (Z.eqb_neq _ _)) in Hwr by lia.
  rewrite (bind_run _ _ _ _ _ He) in Hwr.
  rewrite (bind_run _ _ _ _ _ (s_get_run l (abs m) d Hd)), Hw, Hp, Ha in Hwr. cbn [negb] in Hwr. erewrite bind_run in Hwr by reflexivity.
  set (s1 := with_descs _ _) in Hwr. assert (E1 : s1 = abs m) by (unfold s1; rewrite Hp, Ha; fold d1; rewrite <- Ed; unfold with_descs; cbn; by rewrite insert_id).
  rewrite E1 in Hwr. clear s1 E1. assert (Ez : zoom s_vfs with_vfs (WriteFile p (Some data) (d_offset d)) (abs m) = Ok (r, with_vfs v' (abs m))) by (unfold zoom; cbn [abs s_vfs]; by rewrite Ew).
  rewrite (bind_run _ _ _ _ _ Ez) in Hwr. destruct r as [w|err].
  2: { cbn in Hwr. apply wp_total in Hwr as (r & m1 & E & -> & _). exists (FdErr kIoError), m1. done. }
  destruct Hres as [Hwb Hread]. erewrite bind_run in Hwr by reflexivity. cbn [mret M_ret] in Hwr. apply wp_total in Hwr as (r & m1 & E & -> & Hm1 & Ha1).
  exists (FdOk w), m1. split; [done|]. split; [done|]. set (s1 := with_descs _ _) in Ha1.
  assert (T1 : s_tables s1 = abs_tables m ∧ s_current s1 = current m) by done.
  pose proof (Seek_ok fd (d_offset d) kSet m1 s1 (conj Hm1 Ha1)) as Hs. unfold spec_Seek in Hs. rewrite (bind_run _ _ _ _ _ (s_entry_abs m fd l s1 He (proj1 T1) (proj2 T1))) in Hs.
  rewrite (bind_run _ _ _ _ _ (s_get_run l s1 _ (lookup_insert_eq _ _ _))) in Hs. cbn [d_target] in Hs. rewrite Hp in Hs. erewrite bind_run in Hs by reflexivity.
  cbn [mret M_ret] in Hs. apply wp_total in Hs as (r & m2 & E2 & -> & Hm2 & Ha2). set (s2 := with_descs _ _) in Ha2.
  pose proof (Read_ok fd w m2 s2 (conj Hm2 Ha2)) as Hrd. unfold spec_Read in Hrd. rewrite (proj2 (Z.eqb_neq w 0)) in Hrd by lia.
  rewrite (bind_run _ _ _ _ _ (s_entry_abs m fd l s2 He (proj1 T1) (proj2 T1))) in Hrd. rewrite (bind_run _ _ _ _ _ (s_get_run l s2 _ (lookup_insert_eq _ _ _))) in Hrd.
  cbn [d_target d_flags d_offset d_append] in Hrd. rewrite Hr in Hrd. cbn [negb] in Hrd. rewrite wrap_u_small in Hrd by (unfold in_u; lia).
  assert (Ez2 : zoom s_vfs with_vfs (ReadFile p true w (d_offset d)) s2 = Ok (Value (slice 0 w data), with_vfs v' s2)) by (unfold zoom; change (s_vfs s2) with v'; by rewrite Hread).
  rewrite (bind_run _ _ _ _ _ Ez2) in Hrd. erewrite bind_run in Hrd by reflexivity. cbn [mret M_ret] in Hrd. apply wp_total in Hrd as (r & m3 & E3 & -> & _).
  exists m2, m3. done.
Qed.
End written.

(** ** A file that is opened twice *)
Section twice.
Existing Instance Fat12.

Definition enough : process_mem := mkProcessMem true true true true true true.
Definition demo_boot : FdManager InMemory := boot (demo_vfs false demo_io1).
Definition open_demo : fd_op (W := InMemory) := OOpen true true (p_ "/a.txt") kReadWrite.

(** A process opens the file as descriptors 3 and 4 and closes the first. *)
Definition twice : res (list reply * FdManager InMemory) := runs fd_do [OPrepare enough; OSwitch 0; open_demo; open_demo; OClose 3] demo_boot.

Definition is_bad {A} (r : res A) : bool := if r is Stop BadAccess then true else false.
Definition dangles (r : res (list reply * FdManager InMemory)) : bool :=
  match r with
  | Ok ([RProcess (inl 0); RNone; RFd (FdOk 3); RFd (FdOk 4); RUnit (FdOk tt)], m) => is_bad (Read 4 1 m) && is_bad (Close 4 m)
  | _ => false
  end.

Lemma twice_dangles : dangles twice = true.
Proof. vm_compute. reflexivity. Qed.

Lemma is_bad_true {A} (r : res A) : is_bad r = true → r = Stop BadAccess.
Proof. by destruct r as [|[]]. Qed.

End twice.

(** ** One file open *)
Section witnesses.
Existing Instance Fat12.

#[local] Instance string_view_eq_dec : EqDecision string_view.
Proof. solve_decision. Defined.
#[local] Instance Path_eq_dec : EqDecision Path.
Proof. solve_decision. Defined.
#[local] Instance desc_eq_dec : EqDecision desc.
Proof. solve_decision. Defined.

Definition demo_desc : desc := mkDesc (inl (p_ "/a.txt")) kReadWrite 0 false.
Definition opened (r : res (list reply * fdspec InMemory)) : bool :=
  match r with
  | Ok (_, s) => bool_decide (s_current s = 0) && bool_decide (s_descs s !! 3%nat = Some demo_desc) && bool_decide ((s_tables s !! 0%nat) ≫= (λ o, o ≫= (λ t, t !! 3%nat)) = Some (Some 3%nat))
  | Stop _ => false
  end.

Lemma demo_opened : opened (runs spec_do [OPrepare enough; OSwitch 0; open_demo] (spec_boot (demo_vfs false demo_io1))) = true.
Proof. vm_compute. reflexivity. Qed.

Lemma opened_state ops v r : runs spec_do ops (spec_boot v) = r → opened r = true →
  ∃ m p, fd_inv m ∧ vfs m = demo_vfs false demo_io1 ∧ current m = 0 ∧ processes m !! 0%nat = Some (Some p) ∧
  entries_ (fd_table p) !! 3%nat = Some (Some 3%nat) ∧ abs_descs m !! 3%nat = Some demo_desc.
Proof.
  intros E H. pose proof (refines_runs fd_rel fd_do spec_do ops fd_do_ok _ _ (boot_ok v)) as Hr. rewrite E in Hr. destruct r as [[rs s]|]; [|done].
  apply wp_total in Hr as (_ & m & _ & _ & Hm & ->). unfold opened in H.
  apply andb_prop in H as [[H1%bool_decide_eq_true H2%bool_decide_eq_true]%andb_prop H3%bool_decide_eq_true].
  cbn [abs s_current s_descs s_tables] in *. unfold abs_tables in H3. rewrite list_lookup_fmap in H3. destruct (processes m !! 0%nat) as [[p|]|] eqn:Hp; try done.
  exists (set_vfs (demo_vfs false demo_io1) m), p. split_and!; try done. by apply set_vfs_ok.
Qed.

(** Descriptor 3 of the running process 0 names the demo file. *)
Lemma demo_state : ∃ m p, fd_inv m ∧ vfs m = demo_vfs false demo_io1 ∧ current m = 0 ∧ processes m !! 0%nat = Some (Some p) ∧
  entries_ (fd_table p) !! 3%nat = Some (Some 3%nat) ∧ abs_descs m !! 3%nat = Some demo_desc.
Proof. exact (opened_state _ _ _ eq_refl demo_opened). Qed.

Lemma fd_dup_same_witness : ∃ (m m' : FdManager InMemory) p', fd_inv m ∧ DuplicateTo 3 3 m = Ok (FdOk 3, m') ∧
  processes m' !! 0%nat = Some (Some p') ∧ entries_ (fd_table p') !! 3%nat = Some None.
Proof.
  destruct demo_state as (m & p & Hm & _ & Hc & Hp & Hl & _).
  destruct (fd_dup_same m p 3 3%nat Hm) as (m' & p' & E & Hp' & Hn & _).
  - rewrite Hc. done.
  - rewrite Hc. exact Hp.
  - reflexivity.
  - exact Hl.
  - exists m, m', p'. rewrite Hc in Hp'. exact (conj Hm (conj E (conj Hp' Hn))).
Defined.

Lemma fd_write_read_witness : ∃ (m : FdManager InMemory) r m1, Write 3 [1; 2; 3] m = Ok (r, m1) ∧
  match r with
  | FdErr e => e = kIoError
  | FdOk w => 0 < w ≤ 3 ∧ ∃ m2 m3, Seek 3 0 kSet m1 = Ok (FdOk 0, m2) ∧ Read 3 w m2 = Ok (FdOk (slice 0 w [1; 2; 3]), m3)
  end.
Proof.
  destruct demo_state as (m & p & Hm & Hv & Hc & Hp & Hl & Hd). exists m. destruct demo_file as [fr Hfs].
  apply (fd_write_read (I := Fat12) m 3 3%nat demo_desc (p_ "/a.txt") {[CString kRoot := root_mount demo_driver]} (root_mount demo_driver) [chars "a.txt"] (mkInfo kFat12 (chars "FAT12"))
    demo_F demo_S1 fr [] (chars "a.txt") 0 demo_a [] [1; 2; 3] Hm); try reflexivity; try done.
  - split; [|exact Hd]. assert (Et : s_table (abs m) = Ok (Some (entries_ (fd_table p)), abs m)).
    { unfold s_table. run. cbn [abs s_current s_tables]. rewrite Hc. run. change (Z.to_nat 0) with 0%nat. by rewrite (abs_tables_lookup _ _ _ Hp). }
    unfold s_entry. rewrite (bind_run _ _ _ _ _ Et). change (Z.to_nat 3) with 3%nat. rewrite (list_lookup_total_correct _ _ _ Hl). reflexivity.
  - rewrite Hv. apply (demo_mounts false demo_io1).
  - apply demo_below. vm_compute. reflexivity.
  - rewrite Hv. exact Hfs.
  - apply (bool_decide_unpack _). vm_compute. exact I.
  - apply (bool_decide_unpack _). vm_compute. exact I.
Defined.
End witnesses.
