(* ===== verification/Info.v ===== *)
(** * The tables of states and things (info.h, info.c)
    What the animation of every thing and weapon goes through, and the properties of every type of
    thing.  The enumerations of the program are inductive types; [statenum] and the like are the
    integers that they are in the program, which the tables of things store. *)
From S2P Require Import Prelude.

(** [NUMSPRITES] is the number of constructors. *)
Inductive spritenum_t : Type :=
| SPR_TROO | SPR_SHTG | SPR_PUNG | SPR_PISG | SPR_PISF | SPR_SHTF | SPR_SHT2 | SPR_CHGG | SPR_CHGF | SPR_MISG | SPR_MISF | SPR_SAWG | SPR_PLSG
| SPR_PLSF | SPR_BFGG | SPR_BFGF | SPR_BLUD | SPR_PUFF | SPR_BAL1 | SPR_BAL2 | SPR_PLSS | SPR_PLSE | SPR_MISL | SPR_BFS1 | SPR_BFE1 | SPR_BFE2
| SPR_TFOG | SPR_IFOG | SPR_PLAY | SPR_POSS | SPR_SPOS | SPR_VILE | SPR_FIRE | SPR_FATB | SPR_FBXP | SPR_SKEL | SPR_MANF | SPR_FATT | SPR_CPOS
| SPR_SARG | SPR_HEAD | SPR_BAL7 | SPR_BOSS | SPR_BOS2 | SPR_SKUL | SPR_SPID | SPR_BSPI | SPR_APLS | SPR_APBX | SPR_CYBR | SPR_PAIN | SPR_SSWV
| SPR_KEEN | SPR_BBRN | SPR_BOSF | SPR_ARM1 | SPR_ARM2 | SPR_BAR1 | SPR_BEXP | SPR_FCAN | SPR_BON1 | SPR_BON2 | SPR_BKEY | SPR_RKEY | SPR_YKEY
| SPR_BSKU | SPR_RSKU | SPR_YSKU | SPR_STIM | SPR_MEDI | SPR_SOUL | SPR_PINV | SPR_PSTR | SPR_PINS | SPR_MEGA | SPR_SUIT | SPR_PMAP | SPR_PVIS
| SPR_CLIP | SPR_AMMO | SPR_ROCK | SPR_BROK | SPR_CELL | SPR_CELP | SPR_SHEL | SPR_SBOX | SPR_BPAK | SPR_BFUG | SPR_MGUN | SPR_CSAW | SPR_LAUN
| SPR_PLAS | SPR_SHOT | SPR_SGN2 | SPR_COLU | SPR_SMT2 | SPR_GOR1 | SPR_POL2 | SPR_POL5 | SPR_POL4 | SPR_POL3 | SPR_POL1 | SPR_POL6 | SPR_GOR2
| SPR_GOR3 | SPR_GOR4 | SPR_GOR5 | SPR_SMIT | SPR_COL1 | SPR_COL2 | SPR_COL3 | SPR_COL4 | SPR_CAND | SPR_CBRA | SPR_COL6 | SPR_TRE1 | SPR_TRE2
| SPR_ELEC | SPR_CEYE | SPR_FSKU | SPR_COL5 | SPR_TBLU | SPR_TGRN | SPR_TRED | SPR_SMBT | SPR_SMGT | SPR_SMRT | SPR_HDB1 | SPR_HDB2 | SPR_HDB3
| SPR_HDB4 | SPR_HDB5 | SPR_HDB6 | SPR_POB1 | SPR_POB2 | SPR_BRS1 | SPR_TLMP | SPR_TLP2.

Definition spritenum (s : spritenum_t) : Z :=
  match s with
  | SPR_TROO => 0 | SPR_SHTG => 1 | SPR_PUNG => 2 | SPR_PISG => 3 | SPR_PISF => 4 | SPR_SHTF => 5 | SPR_SHT2 => 6 | SPR_CHGG => 7 | SPR_CHGF => 8
  | SPR_MISG => 9 | SPR_MISF => 10 | SPR_SAWG => 11 | SPR_PLSG => 12 | SPR_PLSF => 13 | SPR_BFGG => 14 | SPR_BFGF => 15 | SPR_BLUD => 16
  | SPR_PUFF => 17 | SPR_BAL1 => 18 | SPR_BAL2 => 19 | SPR_PLSS => 20 | SPR_PLSE => 21 | SPR_MISL => 22 | SPR_BFS1 => 23 | SPR_BFE1 => 24
  | SPR_BFE2 => 25 | SPR_TFOG => 26 | SPR_IFOG => 27 | SPR_PLAY => 28 | SPR_POSS => 29 | SPR_SPOS => 30 | SPR_VILE => 31 | SPR_FIRE => 32
  | SPR_FATB => 33 | SPR_FBXP => 34 | SPR_SKEL => 35 | SPR_MANF => 36 | SPR_FATT => 37 | SPR_CPOS => 38 | SPR_SARG => 39 | SPR_HEAD => 40
  | SPR_BAL7 => 41 | SPR_BOSS => 42 | SPR_BOS2 => 43 | SPR_SKUL => 44 | SPR_SPID => 45 | SPR_BSPI => 46 | SPR_APLS => 47 | SPR_APBX => 48
  | SPR_CYBR => 49 | SPR_PAIN => 50 | SPR_SSWV => 51 | SPR_KEEN => 52 | SPR_BBRN => 53 | SPR_BOSF => 54 | SPR_ARM1 => 55 | SPR_ARM2 => 56
  | SPR_BAR1 => 57 | SPR_BEXP => 58 | SPR_FCAN => 59 | SPR_BON1 => 60 | SPR_BON2 => 61 | SPR_BKEY => 62 | SPR_RKEY => 63 | SPR_YKEY => 64
  | SPR_BSKU => 65 | SPR_RSKU => 66 | SPR_YSKU => 67 | SPR_STIM => 68 | SPR_MEDI => 69 | SPR_SOUL => 70 | SPR_PINV => 71 | SPR_PSTR => 72
  | SPR_PINS => 73 | SPR_MEGA => 74 | SPR_SUIT => 75 | SPR_PMAP => 76 | SPR_PVIS => 77 | SPR_CLIP => 78 | SPR_AMMO => 79 | SPR_ROCK => 80
  | SPR_BROK => 81 | SPR_CELL => 82 | SPR_CELP => 83 | SPR_SHEL => 84 | SPR_SBOX => 85 | SPR_BPAK => 86 | SPR_BFUG => 87 | SPR_MGUN => 88
  | SPR_CSAW => 89 | SPR_LAUN => 90 | SPR_PLAS => 91 | SPR_SHOT => 92 | SPR_SGN2 => 93 | SPR_COLU => 94 | SPR_SMT2 => 95 | SPR_GOR1 => 96
  | SPR_POL2 => 97 | SPR_POL5 => 98 | SPR_POL4 => 99 | SPR_POL3 => 100 | SPR_POL1 => 101 | SPR_POL6 => 102 | SPR_GOR2 => 103 | SPR_GOR3 => 104
  | SPR_GOR4 => 105 | SPR_GOR5 => 106 | SPR_SMIT => 107 | SPR_COL1 => 108 | SPR_COL2 => 109 | SPR_COL3 => 110 | SPR_COL4 => 111 | SPR_CAND => 112
  | SPR_CBRA => 113 | SPR_COL6 => 114 | SPR_TRE1 => 115 | SPR_TRE2 => 116 | SPR_ELEC => 117 | SPR_CEYE => 118 | SPR_FSKU => 119 | SPR_COL5 => 120
  | SPR_TBLU => 121 | SPR_TGRN => 122 | SPR_TRED => 123 | SPR_SMBT => 124 | SPR_SMGT => 125 | SPR_SMRT => 126 | SPR_HDB1 => 127 | SPR_HDB2 => 128
  | SPR_HDB3 => 129 | SPR_HDB4 => 130 | SPR_HDB5 => 131 | SPR_HDB6 => 132 | SPR_POB1 => 133 | SPR_POB2 => 134 | SPR_BRS1 => 135 | SPR_TLMP => 136
  | SPR_TLP2 => 137
  end.
#[global] Coercion spritenum : spritenum_t >-> Z.

Definition NUMSPRITES : Z := 138.

(** Frames of animation. *)
Inductive statenum_t : Type :=
| S_NULL | S_LIGHTDONE | S_PUNCH | S_PUNCHDOWN | S_PUNCHUP | S_PUNCH1 | S_PUNCH2 | S_PUNCH3 | S_PUNCH4 | S_PUNCH5 | S_PISTOL | S_PISTOLDOWN
| S_PISTOLUP | S_PISTOL1 | S_PISTOL2 | S_PISTOL3 | S_PISTOL4 | S_PISTOLFLASH | S_SGUN | S_SGUNDOWN | S_SGUNUP | S_SGUN1 | S_SGUN2 | S_SGUN3 | S_SGUN4
| S_SGUN5 | S_SGUN6 | S_SGUN7 | S_SGUN8 | S_SGUN9 | S_SGUNFLASH1 | S_SGUNFLASH2 | S_DSGUN | S_DSGUNDOWN | S_DSGUNUP | S_DSGUN1 | S_DSGUN2 | S_DSGUN3
| S_DSGUN4 | S_DSGUN5 | S_DSGUN6 | S_DSGUN7 | S_DSGUN8 | S_DSGUN9 | S_DSGUN10 | S_DSNR1 | S_DSNR2 | S_DSGUNFLASH1 | S_DSGUNFLASH2 | S_CHAIN
| S_CHAINDOWN | S_CHAINUP | S_CHAIN1 | S_CHAIN2 | S_CHAIN3 | S_CHAINFLASH1 | S_CHAINFLASH2 | S_MISSILE | S_MISSILEDOWN | S_MISSILEUP | S_MISSILE1
| S_MISSILE2 | S_MISSILE3 | S_MISSILEFLASH1 | S_MISSILEFLASH2 | S_MISSILEFLASH3 | S_MISSILEFLASH4 | S_SAW | S_SAWB | S_SAWDOWN | S_SAWUP | S_SAW1
| S_SAW2 | S_SAW3 | S_PLASMA | S_PLASMADOWN | S_PLASMAUP | S_PLASMA1 | S_PLASMA2 | S_PLASMAFLASH1 | S_PLASMAFLASH2 | S_BFG | S_BFGDOWN | S_BFGUP
| S_BFG1 | S_BFG2 | S_BFG3 | S_BFG4 | S_BFGFLASH1 | S_BFGFLASH2 | S_BLOOD1 | S_BLOOD2 | S_BLOOD3 | S_PUFF1 | S_PUFF2 | S_PUFF3 | S_PUFF4 | S_TBALL1
| S_TBALL2 | S_TBALLX1 | S_TBALLX2 | S_TBALLX3 | S_RBALL1 | S_RBALL2 | S_RBALLX1 | S_RBALLX2 | S_RBALLX3 | S_PLASBALL | S_PLASBALL2 | S_PLASEXP
| S_PLASEXP2 | S_PLASEXP3 | S_PLASEXP4 | S_PLASEXP5 | S_ROCKET | S_BFGSHOT | S_BFGSHOT2 | S_BFGLAND | S_BFGLAND2 | S_BFGLAND3 | S_BFGLAND4
| S_BFGLAND5 | S_BFGLAND6 | S_BFGEXP | S_BFGEXP2 | S_BFGEXP3 | S_BFGEXP4 | S_EXPLODE1 | S_EXPLODE2 | S_EXPLODE3 | S_TFOG | S_TFOG01 | S_TFOG02
| S_TFOG2 | S_TFOG3 | S_TFOG4 | S_TFOG5 | S_TFOG6 | S_TFOG7 | S_TFOG8 | S_TFOG9 | S_TFOG10 | S_IFOG | S_IFOG01 | S_IFOG02 | S_IFOG2 | S_IFOG3
| S_IFOG4 | S_IFOG5 | S_PLAY | S_PLAY_RUN1 | S_PLAY_RUN2 | S_PLAY_RUN3 | S_PLAY_RUN4 | S_PLAY_ATK1 | S_PLAY_ATK2 | S_PLAY_PAIN | S_PLAY_PAIN2
| S_PLAY_DIE1 | S_PLAY_DIE2 | S_PLAY_DIE3 | S_PLAY_DIE4 | S_PLAY_DIE5 | S_PLAY_DIE6 | S_PLAY_DIE7 | S_PLAY_XDIE1 | S_PLAY_XDIE2 | S_PLAY_XDIE3
| S_PLAY_XDIE4 | S_PLAY_XDIE5 | S_PLAY_XDIE6 | S_PLAY_XDIE7 | S_PLAY_XDIE8 | S_PLAY_XDIE9 | S_POSS_STND | S_POSS_STND2 | S_POSS_RUN1 | S_POSS_RUN2
| S_POSS_RUN3 | S_POSS_RUN4 | S_POSS_RUN5 | S_POSS_RUN6 | S_POSS_RUN7 | S_POSS_RUN8 | S_POSS_ATK1 | S_POSS_ATK2 | S_POSS_ATK3 | S_POSS_PAIN
| S_POSS_PAIN2 | S_POSS_DIE1 | S_POSS_DIE2 | S_POSS_DIE3 | S_POSS_DIE4 | S_POSS_DIE5 | S_POSS_XDIE1 | S_POSS_XDIE2 | S_POSS_XDIE3 | S_POSS_XDIE4
| S_POSS_XDIE5 | S_POSS_XDIE6 | S_POSS_XDIE7 | S_POSS_XDIE8 | S_POSS_XDIE9 | S_POSS_RAISE1 | S_POSS_RAISE2 | S_POSS_RAISE3 | S_POSS_RAISE4
| S_SPOS_STND | S_SPOS_STND2 | S_SPOS_RUN1 | S_SPOS_RUN2 | S_SPOS_RUN3 | S_SPOS_RUN4 | S_SPOS_RUN5 | S_SPOS_RUN6 | S_SPOS_RUN7 | S_SPOS_RUN8
| S_SPOS_ATK1 | S_SPOS_ATK2 | S_SPOS_ATK3 | S_SPOS_PAIN | S_SPOS_PAIN2 | S_SPOS_DIE1 | S_SPOS_DIE2 | S_SPOS_DIE3 | S_SPOS_DIE4 | S_SPOS_DIE5
| S_SPOS_XDIE1 | S_SPOS_XDIE2 | S_SPOS_XDIE3 | S_SPOS_XDIE4 | S_SPOS_XDIE5 | S_SPOS_XDIE6 | S_SPOS_XDIE7 | S_SPOS_XDIE8 | S_SPOS_XDIE9
| S_SPOS_RAISE1 | S_SPOS_RAISE2 | S_SPOS_RAISE3 | S_SPOS_RAISE4 | S_SPOS_RAISE5 | S_VILE_STND | S_VILE_STND2 | S_VILE_RUN1 | S_VILE_RUN2
| S_VILE_RUN3 | S_VILE_RUN4 | S_VILE_RUN5 | S_VILE_RUN6 | S_VILE_RUN7 | S_VILE_RUN8 | S_VILE_RUN9 | S_VILE_RUN10 | S_VILE_RUN11 | S_VILE_RUN12
| S_VILE_ATK1 | S_VILE_ATK2 | S_VILE_ATK3 | S_VILE_ATK4 | S_VILE_ATK5 | S_VILE_ATK6 | S_VILE_ATK7 | S_VILE_ATK8 | S_VILE_ATK9 | S_VILE_ATK10
| S_VILE_ATK11 | S_VILE_HEAL1 | S_VILE_HEAL2 | S_VILE_HEAL3 | S_VILE_PAIN | S_VILE_PAIN2 | S_VILE_DIE1 | S_VILE_DIE2 | S_VILE_DIE3 | S_VILE_DIE4
| S_VILE_DIE5 | S_VILE_DIE6 | S_VILE_DIE7 | S_VILE_DIE8 | S_VILE_DIE9 | S_VILE_DIE10 | S_FIRE1 | S_FIRE2 | S_FIRE3 | S_FIRE4 | S_FIRE5 | S_FIRE6
| S_FIRE7 | S_FIRE8 | S_FIRE9 | S_FIRE10 | S_FIRE11 | S_FIRE12 | S_FIRE13 | S_FIRE14 | S_FIRE15 | S_FIRE16 | S_FIRE17 | S_FIRE18 | S_FIRE19
| S_FIRE20 | S_FIRE21 | S_FIRE22 | S_FIRE23 | S_FIRE24 | S_FIRE25 | S_FIRE26 | S_FIRE27 | S_FIRE28 | S_FIRE29 | S_FIRE30 | S_SMOKE1 | S_SMOKE2
| S_SMOKE3 | S_SMOKE4 | S_SMOKE5 | S_TRACER | S_TRACER2 | S_TRACEEXP1 | S_TRACEEXP2 | S_TRACEEXP3 | S_SKEL_STND | S_SKEL_STND2 | S_SKEL_RUN1
| S_SKEL_RUN2 | S_SKEL_RUN3 | S_SKEL_RUN4 | S_SKEL_RUN5 | S_SKEL_RUN6 | S_SKEL_RUN7 | S_SKEL_RUN8 | S_SKEL_RUN9 | S_SKEL_RUN10 | S_SKEL_RUN11
| S_SKEL_RUN12 | S_SKEL_FIST1 | S_SKEL_FIST2 | S_SKEL_FIST3 | S_SKEL_FIST4 | S_SKEL_MISS1 | S_SKEL_MISS2 | S_SKEL_MISS3 | S_SKEL_MISS4 | S_SKEL_PAIN
| S_SKEL_PAIN2 | S_SKEL_DIE1 | S_SKEL_DIE2 | S_SKEL_DIE3 | S_SKEL_DIE4 | S_SKEL_DIE5 | S_SKEL_DIE6 | S_SKEL_RAISE1 | S_SKEL_RAISE2 | S_SKEL_RAISE3
| S_SKEL_RAISE4 | S_SKEL_RAISE5 | S_SKEL_RAISE6 | S_FATSHOT1 | S_FATSHOT2 | S_FATSHOTX1 | S_FATSHOTX2 | S_FATSHOTX3 | S_FATT_STND | S_FATT_STND2
| S_FATT_RUN1 | S_FATT_RUN2 | S_FATT_RUN3 | S_FATT_RUN4 | S_FATT_RUN5 | S_FATT_RUN6 | S_FATT_RUN7 | S_FATT_RUN8 | S_FATT_RUN9 | S_FATT_RUN10
| S_FATT_RUN11 | S_FATT_RUN12 | S_FATT_ATK1 | S_FATT_ATK2 | S_FATT_ATK3 | S_FATT_ATK4 | S_FATT_ATK5 | S_FATT_ATK6 | S_FATT_ATK7 | S_FATT_ATK8
| S_FATT_ATK9 | S_FATT_ATK10 | S_FATT_PAIN | S_FATT_PAIN2 | S_FATT_DIE1 | S_FATT_DIE2 | S_FATT_DIE3 | S_FATT_DIE4 | S_FATT_DIE5 | S_FATT_DIE6
| S_FATT_DIE7 | S_FATT_DIE8 | S_FATT_DIE9 | S_FATT_DIE10 | S_FATT_RAISE1 | S_FATT_RAISE2 | S_FATT_RAISE3 | S_FATT_RAISE4 | S_FATT_RAISE5
| S_FATT_RAISE6 | S_FATT_RAISE7 | S_FATT_RAISE8 | S_CPOS_STND | S_CPOS_STND2 | S_CPOS_RUN1 | S_CPOS_RUN2 | S_CPOS_RUN3 | S_CPOS_RUN4 | S_CPOS_RUN5
| S_CPOS_RUN6 | S_CPOS_RUN7 | S_CPOS_RUN8 | S_CPOS_ATK1 | S_CPOS_ATK2 | S_CPOS_ATK3 | S_CPOS_ATK4 | S_CPOS_PAIN | S_CPOS_PAIN2 | S_CPOS_DIE1
| S_CPOS_DIE2 | S_CPOS_DIE3 | S_CPOS_DIE4 | S_CPOS_DIE5 | S_CPOS_DIE6 | S_CPOS_DIE7 | S_CPOS_XDIE1 | S_CPOS_XDIE2 | S_CPOS_XDIE3 | S_CPOS_XDIE4
| S_CPOS_XDIE5 | S_CPOS_XDIE6 | S_CPOS_RAISE1 | S_CPOS_RAISE2 | S_CPOS_RAISE3 | S_CPOS_RAISE4 | S_CPOS_RAISE5 | S_CPOS_RAISE6 | S_CPOS_RAISE7
| S_TROO_STND | S_TROO_STND2 | S_TROO_RUN1 | S_TROO_RUN2 | S_TROO_RUN3 | S_TROO_RUN4 | S_TROO_RUN5 | S_TROO_RUN6 | S_TROO_RUN7 | S_TROO_RUN8
| S_TROO_ATK1 | S_TROO_ATK2 | S_TROO_ATK3 | S_TROO_PAIN | S_TROO_PAIN2 | S_TROO_DIE1 | S_TROO_DIE2 | S_TROO_DIE3 | S_TROO_DIE4 | S_TROO_DIE5
| S_TROO_XDIE1 | S_TROO_XDIE2 | S_TROO_XDIE3 | S_TROO_XDIE4 | S_TROO_XDIE5 | S_TROO_XDIE6 | S_TROO_XDIE7 | S_TROO_XDIE8 | S_TROO_RAISE1
| S_TROO_RAISE2 | S_TROO_RAISE3 | S_TROO_RAISE4 | S_TROO_RAISE5 | S_SARG_STND | S_SARG_STND2 | S_SARG_RUN1 | S_SARG_RUN2 | S_SARG_RUN3 | S_SARG_RUN4
| S_SARG_RUN5 | S_SARG_RUN6 | S_SARG_RUN7 | S_SARG_RUN8 | S_SARG_ATK1 | S_SARG_ATK2 | S_SARG_ATK3 | S_SARG_PAIN | S_SARG_PAIN2 | S_SARG_DIE1
| S_SARG_DIE2 | S_SARG_DIE3 | S_SARG_DIE4 | S_SARG_DIE5 | S_SARG_DIE6 | S_SARG_RAISE1 | S_SARG_RAISE2 | S_SARG_RAISE3 | S_SARG_RAISE4 | S_SARG_RAISE5
| S_SARG_RAISE6 | S_HEAD_STND | S_HEAD_RUN1 | S_HEAD_ATK1 | S_HEAD_ATK2 | S_HEAD_ATK3 | S_HEAD_PAIN | S_HEAD_PAIN2 | S_HEAD_PAIN3 | S_HEAD_DIE1
| S_HEAD_DIE2 | S_HEAD_DIE3 | S_HEAD_DIE4 | S_HEAD_DIE5 | S_HEAD_DIE6 | S_HEAD_RAISE1 | S_HEAD_RAISE2 | S_HEAD_RAISE3 | S_HEAD_RAISE4 | S_HEAD_RAISE5
| S_HEAD_RAISE6 | S_BRBALL1 | S_BRBALL2 | S_BRBALLX1 | S_BRBALLX2 | S_BRBALLX3 | S_BOSS_STND | S_BOSS_STND2 | S_BOSS_RUN1 | S_BOSS_RUN2 | S_BOSS_RUN3
| S_BOSS_RUN4 | S_BOSS_RUN5 | S_BOSS_RUN6 | S_BOSS_RUN7 | S_BOSS_RUN8 | S_BOSS_ATK1 | S_BOSS_ATK2 | S_BOSS_ATK3 | S_BOSS_PAIN | S_BOSS_PAIN2
| S_BOSS_DIE1 | S_BOSS_DIE2 | S_BOSS_DIE3 | S_BOSS_DIE4 | S_BOSS_DIE5 | S_BOSS_DIE6 | S_BOSS_DIE7 | S_BOSS_RAISE1 | S_BOSS_RAISE2 | S_BOSS_RAISE3
| S_BOSS_RAISE4 | S_BOSS_RAISE5 | S_BOSS_RAISE6 | S_BOSS_RAISE7 | S_BOS2_STND | S_BOS2_STND2 | S_BOS2_RUN1 | S_BOS2_RUN2 | S_BOS2_RUN3 | S_BOS2_RUN4
| S_BOS2_RUN5 | S_BOS2_RUN6 | S_BOS2_RUN7 | S_BOS2_RUN8 | S_BOS2_ATK1 | S_BOS2_ATK2 | S_BOS2_ATK3 | S_BOS2_PAIN | S_BOS2_PAIN2 | S_BOS2_DIE1
| S_BOS2_DIE2 | S_BOS2_DIE3 | S_BOS2_DIE4 | S_BOS2_DIE5 | S_BOS2_DIE6 | S_BOS2_DIE7 | S_BOS2_RAISE1 | S_BOS2_RAISE2 | S_BOS2_RAISE3 | S_BOS2_RAISE4
| S_BOS2_RAISE5 | S_BOS2_RAISE6 | S_BOS2_RAISE7 | S_SKULL_STND | S_SKULL_STND2 | S_SKULL_RUN1 | S_SKULL_RUN2 | S_SKULL_ATK1 | S_SKULL_ATK2
| S_SKULL_ATK3 | S_SKULL_ATK4 | S_SKULL_PAIN | S_SKULL_PAIN2 | S_SKULL_DIE1 | S_SKULL_DIE2 | S_SKULL_DIE3 | S_SKULL_DIE4 | S_SKULL_DIE5
| S_SKULL_DIE6 | S_SPID_STND | S_SPID_STND2 | S_SPID_RUN1 | S_SPID_RUN2 | S_SPID_RUN3 | S_SPID_RUN4 | S_SPID_RUN5 | S_SPID_RUN6 | S_SPID_RUN7
| S_SPID_RUN8 | S_SPID_RUN9 | S_SPID_RUN10 | S_SPID_RUN11 | S_SPID_RUN12 | S_SPID_ATK1 | S_SPID_ATK2 | S_SPID_ATK3 | S_SPID_ATK4 | S_SPID_PAIN
| S_SPID_PAIN2 | S_SPID_DIE1 | S_SPID_DIE2 | S_SPID_DIE3 | S_SPID_DIE4 | S_SPID_DIE5 | S_SPID_DIE6 | S_SPID_DIE7 | S_SPID_DIE8 | S_SPID_DIE9
| S_SPID_DIE10 | S_SPID_DIE11 | S_BSPI_STND | S_BSPI_STND2 | S_BSPI_SIGHT | S_BSPI_RUN1 | S_BSPI_RUN2 | S_BSPI_RUN3 | S_BSPI_RUN4 | S_BSPI_RUN5
| S_BSPI_RUN6 | S_BSPI_RUN7 | S_BSPI_RUN8 | S_BSPI_RUN9 | S_BSPI_RUN10 | S_BSPI_RUN11 | S_BSPI_RUN12 | S_BSPI_ATK1 | S_BSPI_ATK2 | S_BSPI_ATK3
| S_BSPI_ATK4 | S_BSPI_PAIN | S_BSPI_PAIN2 | S_BSPI_DIE1 | S_BSPI_DIE2 | S_BSPI_DIE3 | S_BSPI_DIE4 | S_BSPI_DIE5 | S_BSPI_DIE6 | S_BSPI_DIE7
| S_BSPI_RAISE1 | S_BSPI_RAISE2 | S_BSPI_RAISE3 | S_BSPI_RAISE4 | S_BSPI_RAISE5 | S_BSPI_RAISE6 | S_BSPI_RAISE7 | S_ARACH_PLAZ | S_ARACH_PLAZ2
| S_ARACH_PLEX | S_ARACH_PLEX2 | S_ARACH_PLEX3 | S_ARACH_PLEX4 | S_ARACH_PLEX5 | S_CYBER_STND | S_CYBER_STND2 | S_CYBER_RUN1 | S_CYBER_RUN2
| S_CYBER_RUN3 | S_CYBER_RUN4 | S_CYBER_RUN5 | S_CYBER_RUN6 | S_CYBER_RUN7 | S_CYBER_RUN8 | S_CYBER_ATK1 | S_CYBER_ATK2 | S_CYBER_ATK3 | S_CYBER_ATK4
| S_CYBER_ATK5 | S_CYBER_ATK6 | S_CYBER_PAIN | S_CYBER_DIE1 | S_CYBER_DIE2 | S_CYBER_DIE3 | S_CYBER_DIE4 | S_CYBER_DIE5 | S_CYBER_DIE6 | S_CYBER_DIE7
| S_CYBER_DIE8 | S_CYBER_DIE9 | S_CYBER_DIE10 | S_PAIN_STND | S_PAIN_RUN1 | S_PAIN_RUN2 | S_PAIN_RUN3 | S_PAIN_RUN4 | S_PAIN_RUN5 | S_PAIN_RUN6
| S_PAIN_ATK1 | S_PAIN_ATK2 | S_PAIN_ATK3 | S_PAIN_ATK4 | S_PAIN_PAIN | S_PAIN_PAIN2 | S_PAIN_DIE1 | S_PAIN_DIE2 | S_PAIN_DIE3 | S_PAIN_DIE4
| S_PAIN_DIE5 | S_PAIN_DIE6 | S_PAIN_RAISE1 | S_PAIN_RAISE2 | S_PAIN_RAISE3 | S_PAIN_RAISE4 | S_PAIN_RAISE5 | S_PAIN_RAISE6 | S_SSWV_STND
| S_SSWV_STND2 | S_SSWV_RUN1 | S_SSWV_RUN2 | S_SSWV_RUN3 | S_SSWV_RUN4 | S_SSWV_RUN5 | S_SSWV_RUN6 | S_SSWV_RUN7 | S_SSWV_RUN8 | S_SSWV_ATK1
| S_SSWV_ATK2 | S_SSWV_ATK3 | S_SSWV_ATK4 | S_SSWV_ATK5 | S_SSWV_ATK6 | S_SSWV_PAIN | S_SSWV_PAIN2 | S_SSWV_DIE1 | S_SSWV_DIE2 | S_SSWV_DIE3
| S_SSWV_DIE4 | S_SSWV_DIE5 | S_SSWV_XDIE1 | S_SSWV_XDIE2 | S_SSWV_XDIE3 | S_SSWV_XDIE4 | S_SSWV_XDIE5 | S_SSWV_XDIE6 | S_SSWV_XDIE7 | S_SSWV_XDIE8
| S_SSWV_XDIE9 | S_SSWV_RAISE1 | S_SSWV_RAISE2 | S_SSWV_RAISE3 | S_SSWV_RAISE4 | S_SSWV_RAISE5 | S_KEENSTND | S_COMMKEEN | S_COMMKEEN2 | S_COMMKEEN3
| S_COMMKEEN4 | S_COMMKEEN5 | S_COMMKEEN6 | S_COMMKEEN7 | S_COMMKEEN8 | S_COMMKEEN9 | S_COMMKEEN10 | S_COMMKEEN11 | S_COMMKEEN12 | S_KEENPAIN
| S_KEENPAIN2 | S_BRAIN | S_BRAIN_PAIN | S_BRAIN_DIE1 | S_BRAIN_DIE2 | S_BRAIN_DIE3 | S_BRAIN_DIE4 | S_BRAINEYE | S_BRAINEYESEE | S_BRAINEYE1
| S_SPAWN1 | S_SPAWN2 | S_SPAWN3 | S_SPAWN4 | S_SPAWNFIRE1 | S_SPAWNFIRE2 | S_SPAWNFIRE3 | S_SPAWNFIRE4 | S_SPAWNFIRE5 | S_SPAWNFIRE6 | S_SPAWNFIRE7
| S_SPAWNFIRE8 | S_BRAINEXPLODE1 | S_BRAINEXPLODE2 | S_BRAINEXPLODE3 | S_ARM1 | S_ARM1A | S_ARM2 | S_ARM2A | S_BAR1 | S_BAR2 | S_BEXP | S_BEXP2
| S_BEXP3 | S_BEXP4 | S_BEXP5 | S_BBAR1 | S_BBAR2 | S_BBAR3 | S_BON1 | S_BON1A | S_BON1B | S_BON1C | S_BON1D | S_BON1E | S_BON2 | S_BON2A | S_BON2B
| S_BON2C | S_BON2D | S_BON2E | S_BKEY | S_BKEY2 | S_RKEY | S_RKEY2 | S_YKEY | S_YKEY2 | S_BSKULL | S_BSKULL2 | S_RSKULL | S_RSKULL2 | S_YSKULL
| S_YSKULL2 | S_STIM | S_MEDI | S_SOUL | S_SOUL2 | S_SOUL3 | S_SOUL4 | S_SOUL5 | S_SOUL6 | S_PINV | S_PINV2 | S_PINV3 | S_PINV4 | S_PSTR | S_PINS
| S_PINS2 | S_PINS3 | S_PINS4 | S_MEGA | S_MEGA2 | S_MEGA3 | S_MEGA4 | S_SUIT | S_PMAP | S_PMAP2 | S_PMAP3 | S_PMAP4 | S_PMAP5 | S_PMAP6 | S_PVIS
| S_PVIS2 | S_CLIP | S_AMMO | S_ROCK | S_BROK | S_CELL | S_CELP | S_SHEL | S_SBOX | S_BPAK | S_BFUG | S_MGUN | S_CSAW | S_LAUN | S_PLAS | S_SHOT
| S_SHOT2 | S_COLU | S_STALAG | S_BLOODYTWITCH | S_BLOODYTWITCH2 | S_BLOODYTWITCH3 | S_BLOODYTWITCH4 | S_DEADTORSO | S_DEADBOTTOM | S_HEADSONSTICK
| S_GIBS | S_HEADONASTICK | S_HEADCANDLES | S_HEADCANDLES2 | S_DEADSTICK | S_LIVESTICK | S_LIVESTICK2 | S_MEAT2 | S_MEAT3 | S_MEAT4 | S_MEAT5
| S_STALAGTITE | S_TALLGRNCOL | S_SHRTGRNCOL | S_TALLREDCOL | S_SHRTREDCOL | S_CANDLESTIK | S_CANDELABRA | S_SKULLCOL | S_TORCHTREE | S_BIGTREE
| S_TECHPILLAR | S_EVILEYE | S_EVILEYE2 | S_EVILEYE3 | S_EVILEYE4 | S_FLOATSKULL | S_FLOATSKULL2 | S_FLOATSKULL3 | S_HEARTCOL | S_HEARTCOL2
| S_BLUETORCH | S_BLUETORCH2 | S_BLUETORCH3 | S_BLUETORCH4 | S_GREENTORCH | S_GREENTORCH2 | S_GREENTORCH3 | S_GREENTORCH4 | S_REDTORCH | S_REDTORCH2
| S_REDTORCH3 | S_REDTORCH4 | S_BTORCHSHRT | S_BTORCHSHRT2 | S_BTORCHSHRT3 | S_BTORCHSHRT4 | S_GTORCHSHRT | S_GTORCHSHRT2 | S_GTORCHSHRT3
| S_GTORCHSHRT4 | S_RTORCHSHRT | S_RTORCHSHRT2 | S_RTORCHSHRT3 | S_RTORCHSHRT4 | S_HANGNOGUTS | S_HANGBNOBRAIN | S_HANGTLOOKDN | S_HANGTSKULL
| S_HANGTLOOKUP | S_HANGTNOBRAIN | S_COLONGIBS | S_SMALLPOOL | S_BRAINSTEM | S_TECHLAMP | S_TECHLAMP2 | S_TECHLAMP3 | S_TECHLAMP4 | S_TECH2LAMP
| S_TECH2LAMP2 | S_TECH2LAMP3 | S_TECH2LAMP4.

Definition statenum (s : statenum_t) : Z :=
  match s with
  | S_NULL => 0 | S_LIGHTDONE => 1 | S_PUNCH => 2 | S_PUNCHDOWN => 3 | S_PUNCHUP => 4 | S_PUNCH1 => 5 | S_PUNCH2 => 6 | S_PUNCH3 => 7 | S_PUNCH4 => 8
  | S_PUNCH5 => 9 | S_PISTOL => 10 | S_PISTOLDOWN => 11 | S_PISTOLUP => 12 | S_PISTOL1 => 13 | S_PISTOL2 => 14 | S_PISTOL3 => 15 | S_PISTOL4 => 16
  | S_PISTOLFLASH => 17 | S_SGUN => 18 | S_SGUNDOWN => 19 | S_SGUNUP => 20 | S_SGUN1 => 21 | S_SGUN2 => 22 | S_SGUN3 => 23 | S_SGUN4 => 24
  | S_SGUN5 => 25 | S_SGUN6 => 26 | S_SGUN7 => 27 | S_SGUN8 => 28 | S_SGUN9 => 29 | S_SGUNFLASH1 => 30 | S_SGUNFLASH2 => 31 | S_DSGUN => 32
  | S_DSGUNDOWN => 33 | S_DSGUNUP => 34 | S_DSGUN1 => 35 | S_DSGUN2 => 36 | S_DSGUN3 => 37 | S_DSGUN4 => 38 | S_DSGUN5 => 39 | S_DSGUN6 => 40
  | S_DSGUN7 => 41 | S_DSGUN8 => 42 | S_DSGUN9 => 43 | S_DSGUN10 => 44 | S_DSNR1 => 45 | S_DSNR2 => 46 | S_DSGUNFLASH1 => 47 | S_DSGUNFLASH2 => 48
  | S_CHAIN => 49 | S_CHAINDOWN => 50 | S_CHAINUP => 51 | S_CHAIN1 => 52 | S_CHAIN2 => 53 | S_CHAIN3 => 54 | S_CHAINFLASH1 => 55
  | S_CHAINFLASH2 => 56 | S_MISSILE => 57 | S_MISSILEDOWN => 58 | S_MISSILEUP => 59 | S_MISSILE1 => 60 | S_MISSILE2 => 61 | S_MISSILE3 => 62
  | S_MISSILEFLASH1 => 63 | S_MISSILEFLASH2 => 64 | S_MISSILEFLASH3 => 65 | S_MISSILEFLASH4 => 66 | S_SAW => 67 | S_SAWB => 68 | S_SAWDOWN => 69
  | S_SAWUP => 70 | S_SAW1 => 71 | S_SAW2 => 72 | S_SAW3 => 73 | S_PLASMA => 74 | S_PLASMADOWN => 75 | S_PLASMAUP => 76 | S_PLASMA1 => 77
  | S_PLASMA2 => 78 | S_PLASMAFLASH1 => 79 | S_PLASMAFLASH2 => 80 | S_BFG => 81 | S_BFGDOWN => 82 | S_BFGUP => 83 | S_BFG1 => 84 | S_BFG2 => 85
  | S_BFG3 => 86 | S_BFG4 => 87 | S_BFGFLASH1 => 88 | S_BFGFLASH2 => 89 | S_BLOOD1 => 90 | S_BLOOD2 => 91 | S_BLOOD3 => 92 | S_PUFF1 => 93
  | S_PUFF2 => 94 | S_PUFF3 => 95 | S_PUFF4 => 96 | S_TBALL1 => 97 | S_TBALL2 => 98 | S_TBALLX1 => 99 | S_TBALLX2 => 100 | S_TBALLX3 => 101
  | S_RBALL1 => 102 | S_RBALL2 => 103 | S_RBALLX1 => 104 | S_RBALLX2 => 105 | S_RBALLX3 => 106 | S_PLASBALL => 107 | S_PLASBALL2 => 108
  | S_PLASEXP => 109 | S_PLASEXP2 => 110 | S_PLASEXP3 => 111 | S_PLASEXP4 => 112 | S_PLASEXP5 => 113 | S_ROCKET => 114 | S_BFGSHOT => 115
  | S_BFGSHOT2 => 116 | S_BFGLAND => 117 | S_BFGLAND2 => 118 | S_BFGLAND3 => 119 | S_BFGLAND4 => 120 | S_BFGLAND5 => 121 | S_BFGLAND6 => 122
  | S_BFGEXP => 123 | S_BFGEXP2 => 124 | S_BFGEXP3 => 125 | S_BFGEXP4 => 126 | S_EXPLODE1 => 127 | S_EXPLODE2 => 128 | S_EXPLODE3 => 129
  | S_TFOG => 130 | S_TFOG01 => 131 | S_TFOG02 => 132 | S_TFOG2 => 133 | S_TFOG3 => 134 | S_TFOG4 => 135 | S_TFOG5 => 136 | S_TFOG6 => 137
  | S_TFOG7 => 138 | S_TFOG8 => 139 | S_TFOG9 => 140 | S_TFOG10 => 141 | S_IFOG => 142 | S_IFOG01 => 143 | S_IFOG02 => 144 | S_IFOG2 => 145
  | S_IFOG3 => 146 | S_IFOG4 => 147 | S_IFOG5 => 148 | S_PLAY => 149 | S_PLAY_RUN1 => 150 | S_PLAY_RUN2 => 151 | S_PLAY_RUN3 => 152
  | S_PLAY_RUN4 => 153 | S_PLAY_ATK1 => 154 | S_PLAY_ATK2 => 155 | S_PLAY_PAIN => 156 | S_PLAY_PAIN2 => 157 | S_PLAY_DIE1 => 158 | S_PLAY_DIE2 => 159
  | S_PLAY_DIE3 => 160 | S_PLAY_DIE4 => 161 | S_PLAY_DIE5 => 162 | S_PLAY_DIE6 => 163 | S_PLAY_DIE7 => 164 | S_PLAY_XDIE1 => 165
  | S_PLAY_XDIE2 => 166 | S_PLAY_XDIE3 => 167 | S_PLAY_XDIE4 => 168 | S_PLAY_XDIE5 => 169 | S_PLAY_XDIE6 => 170 | S_PLAY_XDIE7 => 171
  | S_PLAY_XDIE8 => 172 | S_PLAY_XDIE9 => 173 | S_POSS_STND => 174 | S_POSS_STND2 => 175 | S_POSS_RUN1 => 176 | S_POSS_RUN2 => 177
  | S_POSS_RUN3 => 178 | S_POSS_RUN4 => 179 | S_POSS_RUN5 => 180 | S_POSS_RUN6 => 181 | S_POSS_RUN7 => 182 | S_POSS_RUN8 => 183 | S_POSS_ATK1 => 184
  | S_POSS_ATK2 => 185 | S_POSS_ATK3 => 186 | S_POSS_PAIN => 187 | S_POSS_PAIN2 => 188 | S_POSS_DIE1 => 189 | S_POSS_DIE2 => 190 | S_POSS_DIE3 => 191
  | S_POSS_DIE4 => 192 | S_POSS_DIE5 => 193 | S_POSS_XDIE1 => 194 | S_POSS_XDIE2 => 195 | S_POSS_XDIE3 => 196 | S_POSS_XDIE4 => 197
  | S_POSS_XDIE5 => 198 | S_POSS_XDIE6 => 199 | S_POSS_XDIE7 => 200 | S_POSS_XDIE8 => 201 | S_POSS_XDIE9 => 202 | S_POSS_RAISE1 => 203
  | S_POSS_RAISE2 => 204 | S_POSS_RAISE3 => 205 | S_POSS_RAISE4 => 206 | S_SPOS_STND => 207 | S_SPOS_STND2 => 208 | S_SPOS_RUN1 => 209
  | S_SPOS_RUN2 => 210 | S_SPOS_RUN3 => 211 | S_SPOS_RUN4 => 212 | S_SPOS_RUN5 => 213 | S_SPOS_RUN6 => 214 | S_SPOS_RUN7 => 215 | S_SPOS_RUN8 => 216
  | S_SPOS_ATK1 => 217 | S_SPOS_ATK2 => 218 | S_SPOS_ATK3 => 219 | S_SPOS_PAIN => 220 | S_SPOS_PAIN2 => 221 | S_SPOS_DIE1 => 222 | S_SPOS_DIE2 => 223
  | S_SPOS_DIE3 => 224 | S_SPOS_DIE4 => 225 | S_SPOS_DIE5 => 226 | S_SPOS_XDIE1 => 227 | S_SPOS_XDIE2 => 228 | S_SPOS_XDIE3 => 229
  | S_SPOS_XDIE4 => 230 | S_SPOS_XDIE5 => 231 | S_SPOS_XDIE6 => 232 | S_SPOS_XDIE7 => 233 | S_SPOS_XDIE8 => 234 | S_SPOS_XDIE9 => 235
  | S_SPOS_RAISE1 => 236 | S_SPOS_RAISE2 => 237 | S_SPOS_RAISE3 => 238 | S_SPOS_RAISE4 => 239 | S_SPOS_RAISE5 => 240 | S_VILE_STND => 241
  | S_VILE_STND2 => 242 | S_VILE_RUN1 => 243 | S_VILE_RUN2 => 244 | S_VILE_RUN3 => 245 | S_VILE_RUN4 => 246 | S_VILE_RUN5 => 247 | S_VILE_RUN6 => 248
  | S_VILE_RUN7 => 249 | S_VILE_RUN8 => 250 | S_VILE_RUN9 => 251 | S_VILE_RUN10 => 252 | S_VILE_RUN11 => 253 | S_VILE_RUN12 => 254
  | S_VILE_ATK1 => 255 | S_VILE_ATK2 => 256 | S_VILE_ATK3 => 257 | S_VILE_ATK4 => 258 | S_VILE_ATK5 => 259 | S_VILE_ATK6 => 260 | S_VILE_ATK7 => 261
  | S_VILE_ATK8 => 262 | S_VILE_ATK9 => 263 | S_VILE_ATK10 => 264 | S_VILE_ATK11 => 265 | S_VILE_HEAL1 => 266 | S_VILE_HEAL2 => 267
  | S_VILE_HEAL3 => 268 | S_VILE_PAIN => 269 | S_VILE_PAIN2 => 270 | S_VILE_DIE1 => 271 | S_VILE_DIE2 => 272 | S_VILE_DIE3 => 273
  | S_VILE_DIE4 => 274 | S_VILE_DIE5 => 275 | S_VILE_DIE6 => 276 | S_VILE_DIE7 => 277 | S_VILE_DIE8 => 278 | S_VILE_DIE9 => 279 | S_VILE_DIE10 => 280
  | S_FIRE1 => 281 | S_FIRE2 => 282 | S_FIRE3 => 283 | S_FIRE4 => 284 | S_FIRE5 => 285 | S_FIRE6 => 286 | S_FIRE7 => 287 | S_FIRE8 => 288
  | S_FIRE9 => 289 | S_FIRE10 => 290 | S_FIRE11 => 291 | S_FIRE12 => 292 | S_FIRE13 => 293 | S_FIRE14 => 294 | S_FIRE15 => 295 | S_FIRE16 => 296
  | S_FIRE17 => 297 | S_FIRE18 => 298 | S_FIRE19 => 299 | S_FIRE20 => 300 | S_FIRE21 => 301 | S_FIRE22 => 302 | S_FIRE23 => 303 | S_FIRE24 => 304
  | S_FIRE25 => 305 | S_FIRE26 => 306 | S_FIRE27 => 307 | S_FIRE28 => 308 | S_FIRE29 => 309 | S_FIRE30 => 310 | S_SMOKE1 => 311 | S_SMOKE2 => 312
  | S_SMOKE3 => 313 | S_SMOKE4 => 314 | S_SMOKE5 => 315 | S_TRACER => 316 | S_TRACER2 => 317 | S_TRACEEXP1 => 318 | S_TRACEEXP2 => 319
  | S_TRACEEXP3 => 320 | S_SKEL_STND => 321 | S_SKEL_STND2 => 322 | S_SKEL_RUN1 => 323 | S_SKEL_RUN2 => 324 | S_SKEL_RUN3 => 325 | S_SKEL_RUN4 => 326
  | S_SKEL_RUN5 => 327 | S_SKEL_RUN6 => 328 | S_SKEL_RUN7 => 329 | S_SKEL_RUN8 => 330 | S_SKEL_RUN9 => 331 | S_SKEL_RUN10 => 332
  | S_SKEL_RUN11 => 333 | S_SKEL_RUN12 => 334 | S_SKEL_FIST1 => 335 | S_SKEL_FIST2 => 336 | S_SKEL_FIST3 => 337 | S_SKEL_FIST4 => 338
  | S_SKEL_MISS1 => 339 | S_SKEL_MISS2 => 340 | S_SKEL_MISS3 => 341 | S_SKEL_MISS4 => 342 | S_SKEL_PAIN => 343 | S_SKEL_PAIN2 => 344
  | S_SKEL_DIE1 => 345 | S_SKEL_DIE2 => 346 | S_SKEL_DIE3 => 347 | S_SKEL_DIE4 => 348 | S_SKEL_DIE5 => 349 | S_SKEL_DIE6 => 350
  | S_SKEL_RAISE1 => 351 | S_SKEL_RAISE2 => 352 | S_SKEL_RAISE3 => 353 | S_SKEL_RAISE4 => 354 | S_SKEL_RAISE5 => 355 | S_SKEL_RAISE6 => 356
  | S_FATSHOT1 => 357 | S_FATSHOT2 => 358 | S_FATSHOTX1 => 359 | S_FATSHOTX2 => 360 | S_FATSHOTX3 => 361 | S_FATT_STND => 362 | S_FATT_STND2 => 363
  | S_FATT_RUN1 => 364 | S_FATT_RUN2 => 365 | S_FATT_RUN3 => 366 | S_FATT_RUN4 => 367 | S_FATT_RUN5 => 368 | S_FATT_RUN6 => 369 | S_FATT_RUN7 => 370
  | S_FATT_RUN8 => 371 | S_FATT_RUN9 => 372 | S_FATT_RUN10 => 373 | S_FATT_RUN11 => 374 | S_FATT_RUN12 => 375 | S_FATT_ATK1 => 376
  | S_FATT_ATK2 => 377 | S_FATT_ATK3 => 378 | S_FATT_ATK4 => 379 | S_FATT_ATK5 => 380 | S_FATT_ATK6 => 381 | S_FATT_ATK7 => 382 | S_FATT_ATK8 => 383
  | S_FATT_ATK9 => 384 | S_FATT_ATK10 => 385 | S_FATT_PAIN => 386 | S_FATT_PAIN2 => 387 | S_FATT_DIE1 => 388 | S_FATT_DIE2 => 389
  | S_FATT_DIE3 => 390 | S_FATT_DIE4 => 391 | S_FATT_DIE5 => 392 | S_FATT_DIE6 => 393 | S_FATT_DIE7 => 394 | S_FATT_DIE8 => 395 | S_FATT_DIE9 => 396
  | S_FATT_DIE10 => 397 | S_FATT_RAISE1 => 398 | S_FATT_RAISE2 => 399 | S_FATT_RAISE3 => 400 | S_FATT_RAISE4 => 401 | S_FATT_RAISE5 => 402
  | S_FATT_RAISE6 => 403 | S_FATT_RAISE7 => 404 | S_FATT_RAISE8 => 405 | S_CPOS_STND => 406 | S_CPOS_STND2 => 407 | S_CPOS_RUN1 => 408
  | S_CPOS_RUN2 => 409 | S_CPOS_RUN3 => 410 | S_CPOS_RUN4 => 411 | S_CPOS_RUN5 => 412 | S_CPOS_RUN6 => 413 | S_CPOS_RUN7 => 414 | S_CPOS_RUN8 => 415
  | S_CPOS_ATK1 => 416 | S_CPOS_ATK2 => 417 | S_CPOS_ATK3 => 418 | S_CPOS_ATK4 => 419 | S_CPOS_PAIN => 420 | S_CPOS_PAIN2 => 421 | S_CPOS_DIE1 => 422
  | S_CPOS_DIE2 => 423 | S_CPOS_DIE3 => 424 | S_CPOS_DIE4 => 425 | S_CPOS_DIE5 => 426 | S_CPOS_DIE6 => 427 | S_CPOS_DIE7 => 428 | S_CPOS_XDIE1 => 429
  | S_CPOS_XDIE2 => 430 | S_CPOS_XDIE3 => 431 | S_CPOS_XDIE4 => 432 | S_CPOS_XDIE5 => 433 | S_CPOS_XDIE6 => 434 | S_CPOS_RAISE1 => 435
  | S_CPOS_RAISE2 => 436 | S_CPOS_RAISE3 => 437 | S_CPOS_RAISE4 => 438 | S_CPOS_RAISE5 => 439 | S_CPOS_RAISE6 => 440 | S_CPOS_RAISE7 => 441
  | S_TROO_STND => 442 | S_TROO_STND2 => 443 | S_TROO_RUN1 => 444 | S_TROO_RUN2 => 445 | S_TROO_RUN3 => 446 | S_TROO_RUN4 => 447 | S_TROO_RUN5 => 448
  | S_TROO_RUN6 => 449 | S_TROO_RUN7 => 450 | S_TROO_RUN8 => 451 | S_TROO_ATK1 => 452 | S_TROO_ATK2 => 453 | S_TROO_ATK3 => 454 | S_TROO_PAIN => 455
  | S_TROO_PAIN2 => 456 | S_TROO_DIE1 => 457 | S_TROO_DIE2 => 458 | S_TROO_DIE3 => 459 | S_TROO_DIE4 => 460 | S_TROO_DIE5 => 461
  | S_TROO_XDIE1 => 462 | S_TROO_XDIE2 => 463 | S_TROO_XDIE3 => 464 | S_TROO_XDIE4 => 465 | S_TROO_XDIE5 => 466 | S_TROO_XDIE6 => 467
  | S_TROO_XDIE7 => 468 | S_TROO_XDIE8 => 469 | S_TROO_RAISE1 => 470 | S_TROO_RAISE2 => 471 | S_TROO_RAISE3 => 472 | S_TROO_RAISE4 => 473
  | S_TROO_RAISE5 => 474 | S_SARG_STND => 475 | S_SARG_STND2 => 476 | S_SARG_RUN1 => 477 | S_SARG_RUN2 => 478 | S_SARG_RUN3 => 479
  | S_SARG_RUN4 => 480 | S_SARG_RUN5 => 481 | S_SARG_RUN6 => 482 | S_SARG_RUN7 => 483 | S_SARG_RUN8 => 484 | S_SARG_ATK1 => 485 | S_SARG_ATK2 => 486
  | S_SARG_ATK3 => 487 | S_SARG_PAIN => 488 | S_SARG_PAIN2 => 489 | S_SARG_DIE1 => 490 | S_SARG_DIE2 => 491 | S_SARG_DIE3 => 492 | S_SARG_DIE4 => 493
  | S_SARG_DIE5 => 494 | S_SARG_DIE6 => 495 | S_SARG_RAISE1 => 496 | S_SARG_RAISE2 => 497 | S_SARG_RAISE3 => 498 | S_SARG_RAISE4 => 499
  | S_SARG_RAISE5 => 500 | S_SARG_RAISE6 => 501 | S_HEAD_STND => 502 | S_HEAD_RUN1 => 503 | S_HEAD_ATK1 => 504 | S_HEAD_ATK2 => 505
  | S_HEAD_ATK3 => 506 | S_HEAD_PAIN => 507 | S_HEAD_PAIN2 => 508 | S_HEAD_PAIN3 => 509 | S_HEAD_DIE1 => 510 | S_HEAD_DIE2 => 511
  | S_HEAD_DIE3 => 512 | S_HEAD_DIE4 => 513 | S_HEAD_DIE5 => 514 | S_HEAD_DIE6 => 515 | S_HEAD_RAISE1 => 516 | S_HEAD_RAISE2 => 517
  | S_HEAD_RAISE3 => 518 | S_HEAD_RAISE4 => 519 | S_HEAD_RAISE5 => 520 | S_HEAD_RAISE6 => 521 | S_BRBALL1 => 522 | S_BRBALL2 => 523
  | S_BRBALLX1 => 524 | S_BRBALLX2 => 525 | S_BRBALLX3 => 526 | S_BOSS_STND => 527 | S_BOSS_STND2 => 528 | S_BOSS_RUN1 => 529 | S_BOSS_RUN2 => 530
  | S_BOSS_RUN3 => 531 | S_BOSS_RUN4 => 532 | S_BOSS_RUN5 => 533 | S_BOSS_RUN6 => 534 | S_BOSS_RUN7 => 535 | S_BOSS_RUN8 => 536 | S_BOSS_ATK1 => 537
  | S_BOSS_ATK2 => 538 | S_BOSS_ATK3 => 539 | S_BOSS_PAIN => 540 | S_BOSS_PAIN2 => 541 | S_BOSS_DIE1 => 542 | S_BOSS_DIE2 => 543 | S_BOSS_DIE3 => 544
  | S_BOSS_DIE4 => 545 | S_BOSS_DIE5 => 546 | S_BOSS_DIE6 => 547 | S_BOSS_DIE7 => 548 | S_BOSS_RAISE1 => 549 | S_BOSS_RAISE2 => 550
  | S_BOSS_RAISE3 => 551 | S_BOSS_RAISE4 => 552 | S_BOSS_RAISE5 => 553 | S_BOSS_RAISE6 => 554 | S_BOSS_RAISE7 => 555 | S_BOS2_STND => 556
  | S_BOS2_STND2 => 557 | S_BOS2_RUN1 => 558 | S_BOS2_RUN2 => 559 | S_BOS2_RUN3 => 560 | S_BOS2_RUN4 => 561 | S_BOS2_RUN5 => 562 | S_BOS2_RUN6 => 563
  | S_BOS2_RUN7 => 564 | S_BOS2_RUN8 => 565 | S_BOS2_ATK1 => 566 | S_BOS2_ATK2 => 567 | S_BOS2_ATK3 => 568 | S_BOS2_PAIN => 569 | S_BOS2_PAIN2 => 570
  | S_BOS2_DIE1 => 571 | S_BOS2_DIE2 => 572 | S_BOS2_DIE3 => 573 | S_BOS2_DIE4 => 574 | S_BOS2_DIE5 => 575 | S_BOS2_DIE6 => 576 | S_BOS2_DIE7 => 577
  | S_BOS2_RAISE1 => 578 | S_BOS2_RAISE2 => 579 | S_BOS2_RAISE3 => 580 | S_BOS2_RAISE4 => 581 | S_BOS2_RAISE5 => 582 | S_BOS2_RAISE6 => 583
  | S_BOS2_RAISE7 => 584 | S_SKULL_STND => 585 | S_SKULL_STND2 => 586 | S_SKULL_RUN1 => 587 | S_SKULL_RUN2 => 588 | S_SKULL_ATK1 => 589
  | S_SKULL_ATK2 => 590 | S_SKULL_ATK3 => 591 | S_SKULL_ATK4 => 592 | S_SKULL_PAIN => 593 | S_SKULL_PAIN2 => 594 | S_SKULL_DIE1 => 595
  | S_SKULL_DIE2 => 596 | S_SKULL_DIE3 => 597 | S_SKULL_DIE4 => 598 | S_SKULL_DIE5 => 599 | S_SKULL_DIE6 => 600 | S_SPID_STND => 601
  | S_SPID_STND2 => 602 | S_SPID_RUN1 => 603 | S_SPID_RUN2 => 604 | S_SPID_RUN3 => 605 | S_SPID_RUN4 => 606 | S_SPID_RUN5 => 607 | S_SPID_RUN6 => 608
  | S_SPID_RUN7 => 609 | S_SPID_RUN8 => 610 | S_SPID_RUN9 => 611 | S_SPID_RUN10 => 612 | S_SPID_RUN11 => 613 | S_SPID_RUN12 => 614
  | S_SPID_ATK1 => 615 | S_SPID_ATK2 => 616 | S_SPID_ATK3 => 617 | S_SPID_ATK4 => 618 | S_SPID_PAIN => 619 | S_SPID_PAIN2 => 620 | S_SPID_DIE1 => 621
  | S_SPID_DIE2 => 622 | S_SPID_DIE3 => 623 | S_SPID_DIE4 => 624 | S_SPID_DIE5 => 625 | S_SPID_DIE6 => 626 | S_SPID_DIE7 => 627 | S_SPID_DIE8 => 628
  | S_SPID_DIE9 => 629 | S_SPID_DIE10 => 630 | S_SPID_DIE11 => 631 | S_BSPI_STND => 632 | S_BSPI_STND2 => 633 | S_BSPI_SIGHT => 634
  | S_BSPI_RUN1 => 635 | S_BSPI_RUN2 => 636 | S_BSPI_RUN3 => 637 | S_BSPI_RUN4 => 638 | S_BSPI_RUN5 => 639 | S_BSPI_RUN6 => 640 | S_BSPI_RUN7 => 641
  | S_BSPI_RUN8 => 642 | S_BSPI_RUN9 => 643 | S_BSPI_RUN10 => 644 | S_BSPI_RUN11 => 645 | S_BSPI_RUN12 => 646 | S_BSPI_ATK1 => 647
  | S_BSPI_ATK2 => 648 | S_BSPI_ATK3 => 649 | S_BSPI_ATK4 => 650 | S_BSPI_PAIN => 651 | S_BSPI_PAIN2 => 652 | S_BSPI_DIE1 => 653 | S_BSPI_DIE2 => 654
  | S_BSPI_DIE3 => 655 | S_BSPI_DIE4 => 656 | S_BSPI_DIE5 => 657 | S_BSPI_DIE6 => 658 | S_BSPI_DIE7 => 659 | S_BSPI_RAISE1 => 660
  | S_BSPI_RAISE2 => 661 | S_BSPI_RAISE3 => 662 | S_BSPI_RAISE4 => 663 | S_BSPI_RAISE5 => 664 | S_BSPI_RAISE6 => 665 | S_BSPI_RAISE7 => 666
  | S_ARACH_PLAZ => 667 | S_ARACH_PLAZ2 => 668 | S_ARACH_PLEX => 669 | S_ARACH_PLEX2 => 670 | S_ARACH_PLEX3 => 671 | S_ARACH_PLEX4 => 672
  | S_ARACH_PLEX5 => 673 | S_CYBER_STND => 674 | S_CYBER_STND2 => 675 | S_CYBER_RUN1 => 676 | S_CYBER_RUN2 => 677 | S_CYBER_RUN3 => 678
  | S_CYBER_RUN4 => 679 | S_CYBER_RUN5 => 680 | S_CYBER_RUN6 => 681 | S_CYBER_RUN7 => 682 | S_CYBER_RUN8 => 683 | S_CYBER_ATK1 => 684
  | S_CYBER_ATK2 => 685 | S_CYBER_ATK3 => 686 | S_CYBER_ATK4 => 687 | S_CYBER_ATK5 => 688 | S_CYBER_ATK6 => 689 | S_CYBER_PAIN => 690
  | S_CYBER_DIE1 => 691 | S_CYBER_DIE2 => 692 | S_CYBER_DIE3 => 693 | S_CYBER_DIE4 => 694 | S_CYBER_DIE5 => 695 | S_CYBER_DIE6 => 696
  | S_CYBER_DIE7 => 697 | S_CYBER_DIE8 => 698 | S_CYBER_DIE9 => 699 | S_CYBER_DIE10 => 700 | S_PAIN_STND => 701 | S_PAIN_RUN1 => 702
  | S_PAIN_RUN2 => 703 | S_PAIN_RUN3 => 704 | S_PAIN_RUN4 => 705 | S_PAIN_RUN5 => 706 | S_PAIN_RUN6 => 707 | S_PAIN_ATK1 => 708 | S_PAIN_ATK2 => 709
  | S_PAIN_ATK3 => 710 | S_PAIN_ATK4 => 711 | S_PAIN_PAIN => 712 | S_PAIN_PAIN2 => 713 | S_PAIN_DIE1 => 714 | S_PAIN_DIE2 => 715 | S_PAIN_DIE3 => 716
  | S_PAIN_DIE4 => 717 | S_PAIN_DIE5 => 718 | S_PAIN_DIE6 => 719 | S_PAIN_RAISE1 => 720 | S_PAIN_RAISE2 => 721 | S_PAIN_RAISE3 => 722
  | S_PAIN_RAISE4 => 723 | S_PAIN_RAISE5 => 724 | S_PAIN_RAISE6 => 725 | S_SSWV_STND => 726 | S_SSWV_STND2 => 727 | S_SSWV_RUN1 => 728
  | S_SSWV_RUN2 => 729 | S_SSWV_RUN3 => 730 | S_SSWV_RUN4 => 731 | S_SSWV_RUN5 => 732 | S_SSWV_RUN6 => 733 | S_SSWV_RUN7 => 734 | S_SSWV_RUN8 => 735
  | S_SSWV_ATK1 => 736 | S_SSWV_ATK2 => 737 | S_SSWV_ATK3 => 738 | S_SSWV_ATK4 => 739 | S_SSWV_ATK5 => 740 | S_SSWV_ATK6 => 741 | S_SSWV_PAIN => 742
  | S_SSWV_PAIN2 => 743 | S_SSWV_DIE1 => 744 | S_SSWV_DIE2 => 745 | S_SSWV_DIE3 => 746 | S_SSWV_DIE4 => 747 | S_SSWV_DIE5 => 748
  | S_SSWV_XDIE1 => 749 | S_SSWV_XDIE2 => 750 | S_SSWV_XDIE3 => 751 | S_SSWV_XDIE4 => 752 | S_SSWV_XDIE5 => 753 | S_SSWV_XDIE6 => 754
  | S_SSWV_XDIE7 => 755 | S_SSWV_XDIE8 => 756 | S_SSWV_XDIE9 => 757 | S_SSWV_RAISE1 => 758 | S_SSWV_RAISE2 => 759 | S_SSWV_RAISE3 => 760
  | S_SSWV_RAISE4 => 761 | S_SSWV_RAISE5 => 762 | S_KEENSTND => 763 | S_COMMKEEN => 764 | S_COMMKEEN2 => 765 | S_COMMKEEN3 => 766
  | S_COMMKEEN4 => 767 | S_COMMKEEN5 => 768 | S_COMMKEEN6 => 769 | S_COMMKEEN7 => 770 | S_COMMKEEN8 => 771 | S_COMMKEEN9 => 772 | S_COMMKEEN10 => 773
  | S_COMMKEEN11 => 774 | S_COMMKEEN12 => 775 | S_KEENPAIN => 776 | S_KEENPAIN2 => 777 | S_BRAIN => 778 | S_BRAIN_PAIN => 779 | S_BRAIN_DIE1 => 780
  | S_BRAIN_DIE2 => 781 | S_BRAIN_DIE3 => 782 | S_BRAIN_DIE4 => 783 | S_BRAINEYE => 784 | S_BRAINEYESEE => 785 | S_BRAINEYE1 => 786 | S_SPAWN1 => 787
  | S_SPAWN2 => 788 | S_SPAWN3 => 789 | S_SPAWN4 => 790 | S_SPAWNFIRE1 => 791 | S_SPAWNFIRE2 => 792 | S_SPAWNFIRE3 => 793 | S_SPAWNFIRE4 => 794
  | S_SPAWNFIRE5 => 795 | S_SPAWNFIRE6 => 796 | S_SPAWNFIRE7 => 797 | S_SPAWNFIRE8 => 798 | S_BRAINEXPLODE1 => 799 | S_BRAINEXPLODE2 => 800
  | S_BRAINEXPLODE3 => 801 | S_ARM1 => 802 | S_ARM1A => 803 | S_ARM2 => 804 | S_ARM2A => 805 | S_BAR1 => 806 | S_BAR2 => 807 | S_BEXP => 808
  | S_BEXP2 => 809 | S_BEXP3 => 810 | S_BEXP4 => 811 | S_BEXP5 => 812 | S_BBAR1 => 813 | S_BBAR2 => 814 | S_BBAR3 => 815 | S_BON1 => 816
  | S_BON1A => 817 | S_BON1B => 818 | S_BON1C => 819 | S_BON1D => 820 | S_BON1E => 821 | S_BON2 => 822 | S_BON2A => 823 | S_BON2B => 824
  | S_BON2C => 825 | S_BON2D => 826 | S_BON2E => 827 | S_BKEY => 828 | S_BKEY2 => 829 | S_RKEY => 830 | S_RKEY2 => 831 | S_YKEY => 832
  | S_YKEY2 => 833 | S_BSKULL => 834 | S_BSKULL2 => 835 | S_RSKULL => 836 | S_RSKULL2 => 837 | S_YSKULL => 838 | S_YSKULL2 => 839 | S_STIM => 840
  | S_MEDI => 841 | S_SOUL => 842 | S_SOUL2 => 843 | S_SOUL3 => 844 | S_SOUL4 => 845 | S_SOUL5 => 846 | S_SOUL6 => 847 | S_PINV => 848
  | S_PINV2 => 849 | S_PINV3 => 850 | S_PINV4 => 851 | S_PSTR => 852 | S_PINS => 853 | S_PINS2 => 854 | S_PINS3 => 855 | S_PINS4 => 856
  | S_MEGA => 857 | S_MEGA2 => 858 | S_MEGA3 => 859 | S_MEGA4 => 860 | S_SUIT => 861 | S_PMAP => 862 | S_PMAP2 => 863 | S_PMAP3 => 864
  | S_PMAP4 => 865 | S_PMAP5 => 866 | S_PMAP6 => 867 | S_PVIS => 868 | S_PVIS2 => 869 | S_CLIP => 870 | S_AMMO => 871 | S_ROCK => 872 | S_BROK => 873
  | S_CELL => 874 | S_CELP => 875 | S_SHEL => 876 | S_SBOX => 877 | S_BPAK => 878 | S_BFUG => 879 | S_MGUN => 880 | S_CSAW => 881 | S_LAUN => 882
  | S_PLAS => 883 | S_SHOT => 884 | S_SHOT2 => 885 | S_COLU => 886 | S_STALAG => 887 | S_BLOODYTWITCH => 888 | S_BLOODYTWITCH2 => 889
  | S_BLOODYTWITCH3 => 890 | S_BLOODYTWITCH4 => 891 | S_DEADTORSO => 892 | S_DEADBOTTOM => 893 | S_HEADSONSTICK => 894 | S_GIBS => 895
  | S_HEADONASTICK => 896 | S_HEADCANDLES => 897 | S_HEADCANDLES2 => 898 | S_DEADSTICK => 899 | S_LIVESTICK => 900 | S_LIVESTICK2 => 901
  | S_MEAT2 => 902 | S_MEAT3 => 903 | S_MEAT4 => 904 | S_MEAT5 => 905 | S_STALAGTITE => 906 | S_TALLGRNCOL => 907 | S_SHRTGRNCOL => 908
  | S_TALLREDCOL => 909 | S_SHRTREDCOL => 910 | S_CANDLESTIK => 911 | S_CANDELABRA => 912 | S_SKULLCOL => 913 | S_TORCHTREE => 914 | S_BIGTREE => 915
  | S_TECHPILLAR => 916 | S_EVILEYE => 917 | S_EVILEYE2 => 918 | S_EVILEYE3 => 919 | S_EVILEYE4 => 920 | S_FLOATSKULL => 921 | S_FLOATSKULL2 => 922
  | S_FLOATSKULL3 => 923 | S_HEARTCOL => 924 | S_HEARTCOL2 => 925 | S_BLUETORCH => 926 | S_BLUETORCH2 => 927 | S_BLUETORCH3 => 928
  | S_BLUETORCH4 => 929 | S_GREENTORCH => 930 | S_GREENTORCH2 => 931 | S_GREENTORCH3 => 932 | S_GREENTORCH4 => 933 | S_REDTORCH => 934
  | S_REDTORCH2 => 935 | S_REDTORCH3 => 936 | S_REDTORCH4 => 937 | S_BTORCHSHRT => 938 | S_BTORCHSHRT2 => 939 | S_BTORCHSHRT3 => 940
  | S_BTORCHSHRT4 => 941 | S_GTORCHSHRT => 942 | S_GTORCHSHRT2 => 943 | S_GTORCHSHRT3 => 944 | S_GTORCHSHRT4 => 945 | S_RTORCHSHRT => 946
  | S_RTORCHSHRT2 => 947 | S_RTORCHSHRT3 => 948 | S_RTORCHSHRT4 => 949 | S_HANGNOGUTS => 950 | S_HANGBNOBRAIN => 951 | S_HANGTLOOKDN => 952
  | S_HANGTSKULL => 953 | S_HANGTLOOKUP => 954 | S_HANGTNOBRAIN => 955 | S_COLONGIBS => 956 | S_SMALLPOOL => 957 | S_BRAINSTEM => 958
  | S_TECHLAMP => 959 | S_TECHLAMP2 => 960 | S_TECHLAMP3 => 961 | S_TECHLAMP4 => 962 | S_TECH2LAMP => 963 | S_TECH2LAMP2 => 964 | S_TECH2LAMP3 => 965
  | S_TECH2LAMP4 => 966
  end.
#[global] Coercion statenum : statenum_t >-> Z.

Definition NUMSTATES : Z := 967.

(** Types of things. *)
Inductive mobjtype_t : Type :=
| MT_PLAYER | MT_POSSESSED | MT_SHOTGUY | MT_VILE | MT_FIRE | MT_UNDEAD | MT_TRACER | MT_SMOKE | MT_FATSO | MT_FATSHOT | MT_CHAINGUY | MT_TROOP
| MT_SERGEANT | MT_SHADOWS | MT_HEAD | MT_BRUISER | MT_BRUISERSHOT | MT_KNIGHT | MT_SKULL | MT_SPIDER | MT_BABY | MT_CYBORG | MT_PAIN | MT_WOLFSS
| MT_KEEN | MT_BOSSBRAIN | MT_BOSSSPIT | MT_BOSSTARGET | MT_SPAWNSHOT | MT_SPAWNFIRE | MT_BARREL | MT_TROOPSHOT | MT_HEADSHOT | MT_ROCKET | MT_PLASMA
| MT_BFG | MT_ARACHPLAZ | MT_PUFF | MT_BLOOD | MT_TFOG | MT_IFOG | MT_TELEPORTMAN | MT_EXTRABFG | MT_MISC0 | MT_MISC1 | MT_MISC2 | MT_MISC3
| MT_MISC4 | MT_MISC5 | MT_MISC6 | MT_MISC7 | MT_MISC8 | MT_MISC9 | MT_MISC10 | MT_MISC11 | MT_MISC12 | MT_INV | MT_MISC13 | MT_INS | MT_MISC14
| MT_MISC15 | MT_MISC16 | MT_MEGA | MT_CLIP | MT_MISC17 | MT_MISC18 | MT_MISC19 | MT_MISC20 | MT_MISC21 | MT_MISC22 | MT_MISC23 | MT_MISC24
| MT_MISC25 | MT_CHAINGUN | MT_MISC26 | MT_MISC27 | MT_MISC28 | MT_SHOTGUN | MT_SUPERSHOTGUN | MT_MISC29 | MT_MISC30 | MT_MISC31 | MT_MISC32
| MT_MISC33 | MT_MISC34 | MT_MISC35 | MT_MISC36 | MT_MISC37 | MT_MISC38 | MT_MISC39 | MT_MISC40 | MT_MISC41 | MT_MISC42 | MT_MISC43 | MT_MISC44
| MT_MISC45 | MT_MISC46 | MT_MISC47 | MT_MISC48 | MT_MISC49 | MT_MISC50 | MT_MISC51 | MT_MISC52 | MT_MISC53 | MT_MISC54 | MT_MISC55 | MT_MISC56
| MT_MISC57 | MT_MISC58 | MT_MISC59 | MT_MISC60 | MT_MISC61 | MT_MISC62 | MT_MISC63 | MT_MISC64 | MT_MISC65 | MT_MISC66 | MT_MISC67 | MT_MISC68
| MT_MISC69 | MT_MISC70 | MT_MISC71 | MT_MISC72 | MT_MISC73 | MT_MISC74 | MT_MISC75 | MT_MISC76 | MT_MISC77 | MT_MISC78 | MT_MISC79 | MT_MISC80
| MT_MISC81 | MT_MISC82 | MT_MISC83 | MT_MISC84 | MT_MISC85 | MT_MISC86.

Definition mobjtype (s : mobjtype_t) : Z :=
  match s with
  | MT_PLAYER => 0 | MT_POSSESSED => 1 | MT_SHOTGUY => 2 | MT_VILE => 3 | MT_FIRE => 4 | MT_UNDEAD => 5 | MT_TRACER => 6 | MT_SMOKE => 7
  | MT_FATSO => 8 | MT_FATSHOT => 9 | MT_CHAINGUY => 10 | MT_TROOP => 11 | MT_SERGEANT => 12 | MT_SHADOWS => 13 | MT_HEAD => 14 | MT_BRUISER => 15
  | MT_BRUISERSHOT => 16 | MT_KNIGHT => 17 | MT_SKULL => 18 | MT_SPIDER => 19 | MT_BABY => 20 | MT_CYBORG => 21 | MT_PAIN => 22 | MT_WOLFSS => 23
  | MT_KEEN => 24 | MT_BOSSBRAIN => 25 | MT_BOSSSPIT => 26 | MT_BOSSTARGET => 27 | MT_SPAWNSHOT => 28 | MT_SPAWNFIRE => 29 | MT_BARREL => 30
  | MT_TROOPSHOT => 31 | MT_HEADSHOT => 32 | MT_ROCKET => 33 | MT_PLASMA => 34 | MT_BFG => 35 | MT_ARACHPLAZ => 36 | MT_PUFF => 37 | MT_BLOOD => 38
  | MT_TFOG => 39 | MT_IFOG => 40 | MT_TELEPORTMAN => 41 | MT_EXTRABFG => 42 | MT_MISC0 => 43 | MT_MISC1 => 44 | MT_MISC2 => 45 | MT_MISC3 => 46
  | MT_MISC4 => 47 | MT_MISC5 => 48 | MT_MISC6 => 49 | MT_MISC7 => 50 | MT_MISC8 => 51 | MT_MISC9 => 52 | MT_MISC10 => 53 | MT_MISC11 => 54
  | MT_MISC12 => 55 | MT_INV => 56 | MT_MISC13 => 57 | MT_INS => 58 | MT_MISC14 => 59 | MT_MISC15 => 60 | MT_MISC16 => 61 | MT_MEGA => 62
  | MT_CLIP => 63 | MT_MISC17 => 64 | MT_MISC18 => 65 | MT_MISC19 => 66 | MT_MISC20 => 67 | MT_MISC21 => 68 | MT_MISC22 => 69 | MT_MISC23 => 70
  | MT_MISC24 => 71 | MT_MISC25 => 72 | MT_CHAINGUN => 73 | MT_MISC26 => 74 | MT_MISC27 => 75 | MT_MISC28 => 76 | MT_SHOTGUN => 77
  | MT_SUPERSHOTGUN => 78 | MT_MISC29 => 79 | MT_MISC30 => 80 | MT_MISC31 => 81 | MT_MISC32 => 82 | MT_MISC33 => 83 | MT_MISC34 => 84
  | MT_MISC35 => 85 | MT_MISC36 => 86 | MT_MISC37 => 87 | MT_MISC38 => 88 | MT_MISC39 => 89 | MT_MISC40 => 90 | MT_MISC41 => 91 | MT_MISC42 => 92
  | MT_MISC43 => 93 | MT_MISC44 => 94 | MT_MISC45 => 95 | MT_MISC46 => 96 | MT_MISC47 => 97 | MT_MISC48 => 98 | MT_MISC49 => 99 | MT_MISC50 => 100
  | MT_MISC51 => 101 | MT_MISC52 => 102 | MT_MISC53 => 103 | MT_MISC54 => 104 | MT_MISC55 => 105 | MT_MISC56 => 106 | MT_MISC57 => 107
  | MT_MISC58 => 108 | MT_MISC59 => 109 | MT_MISC60 => 110 | MT_MISC61 => 111 | MT_MISC62 => 112 | MT_MISC63 => 113 | MT_MISC64 => 114
  | MT_MISC65 => 115 | MT_MISC66 => 116 | MT_MISC67 => 117 | MT_MISC68 => 118 | MT_MISC69 => 119 | MT_MISC70 => 120 | MT_MISC71 => 121
  | MT_MISC72 => 122 | MT_MISC73 => 123 | MT_MISC74 => 124 | MT_MISC75 => 125 | MT_MISC76 => 126 | MT_MISC77 => 127 | MT_MISC78 => 128
  | MT_MISC79 => 129 | MT_MISC80 => 130 | MT_MISC81 => 131 | MT_MISC82 => 132 | MT_MISC83 => 133 | MT_MISC84 => 134 | MT_MISC85 => 135
  | MT_MISC86 => 136
  end.
#[global] Coercion mobjtype : mobjtype_t >-> Z.

Definition NUMMOBJTYPES : Z := 137.

(** Sounds (sounds.h). *)
Inductive sfxenum_t : Type :=
| sfx_None | sfx_pistol | sfx_shotgn | sfx_sgcock | sfx_dshtgn | sfx_dbopn | sfx_dbcls | sfx_dbload | sfx_plasma | sfx_bfg | sfx_sawup | sfx_sawidl
| sfx_sawful | sfx_sawhit | sfx_rlaunc | sfx_rxplod | sfx_firsht | sfx_firxpl | sfx_pstart | sfx_pstop | sfx_doropn | sfx_dorcls | sfx_stnmov
| sfx_swtchn | sfx_swtchx | sfx_plpain | sfx_dmpain | sfx_popain | sfx_vipain | sfx_mnpain | sfx_pepain | sfx_slop | sfx_itemup | sfx_wpnup | sfx_oof
| sfx_telept | sfx_posit1 | sfx_posit2 | sfx_posit3 | sfx_bgsit1 | sfx_bgsit2 | sfx_sgtsit | sfx_cacsit | sfx_brssit | sfx_cybsit | sfx_spisit
| sfx_bspsit | sfx_kntsit | sfx_vilsit | sfx_mansit | sfx_pesit | sfx_sklatk | sfx_sgtatk | sfx_skepch | sfx_vilatk | sfx_claw | sfx_skeswg
| sfx_pldeth | sfx_pdiehi | sfx_podth1 | sfx_podth2 | sfx_podth3 | sfx_bgdth1 | sfx_bgdth2 | sfx_sgtdth | sfx_cacdth | sfx_skldth | sfx_brsdth
| sfx_cybdth | sfx_spidth | sfx_bspdth | sfx_vildth | sfx_kntdth | sfx_pedth | sfx_skedth | sfx_posact | sfx_bgact | sfx_dmact | sfx_bspact
| sfx_bspwlk | sfx_vilact | sfx_noway | sfx_barexp | sfx_punch | sfx_hoof | sfx_metal | sfx_chgun | sfx_tink | sfx_bdopn | sfx_bdcls | sfx_itmbk
| sfx_flame | sfx_flamst | sfx_getpow | sfx_bospit | sfx_boscub | sfx_bossit | sfx_bospn | sfx_bosdth | sfx_manatk | sfx_mandth | sfx_sssit
| sfx_ssdth | sfx_keenpn | sfx_keendt | sfx_skeact | sfx_skesit | sfx_skeatk | sfx_radio.

Definition sfxenum (s : sfxenum_t) : Z :=
  match s with
  | sfx_None => 0 | sfx_pistol => 1 | sfx_shotgn => 2 | sfx_sgcock => 3 | sfx_dshtgn => 4 | sfx_dbopn => 5 | sfx_dbcls => 6 | sfx_dbload => 7
  | sfx_plasma => 8 | sfx_bfg => 9 | sfx_sawup => 10 | sfx_sawidl => 11 | sfx_sawful => 12 | sfx_sawhit => 13 | sfx_rlaunc => 14 | sfx_rxplod => 15
  | sfx_firsht => 16 | sfx_firxpl => 17 | sfx_pstart => 18 | sfx_pstop => 19 | sfx_doropn => 20 | sfx_dorcls => 21 | sfx_stnmov => 22
  | sfx_swtchn => 23 | sfx_swtchx => 24 | sfx_plpain => 25 | sfx_dmpain => 26 | sfx_popain => 27 | sfx_vipain => 28 | sfx_mnpain => 29
  | sfx_pepain => 30 | sfx_slop => 31 | sfx_itemup => 32 | sfx_wpnup => 33 | sfx_oof => 34 | sfx_telept => 35 | sfx_posit1 => 36 | sfx_posit2 => 37
  | sfx_posit3 => 38 | sfx_bgsit1 => 39 | sfx_bgsit2 => 40 | sfx_sgtsit => 41 | sfx_cacsit => 42 | sfx_brssit => 43 | sfx_cybsit => 44
  | sfx_spisit => 45 | sfx_bspsit => 46 | sfx_kntsit => 47 | sfx_vilsit => 48 | sfx_mansit => 49 | sfx_pesit => 50 | sfx_sklatk => 51
  | sfx_sgtatk => 52 | sfx_skepch => 53 | sfx_vilatk => 54 | sfx_claw => 55 | sfx_skeswg => 56 | sfx_pldeth => 57 | sfx_pdiehi => 58
  | sfx_podth1 => 59 | sfx_podth2 => 60 | sfx_podth3 => 61 | sfx_bgdth1 => 62 | sfx_bgdth2 => 63 | sfx_sgtdth => 64 | sfx_cacdth => 65
  | sfx_skldth => 66 | sfx_brsdth => 67 | sfx_cybdth => 68 | sfx_spidth => 69 | sfx_bspdth => 70 | sfx_vildth => 71 | sfx_kntdth => 72
  | sfx_pedth => 73 | sfx_skedth => 74 | sfx_posact => 75 | sfx_bgact => 76 | sfx_dmact => 77 | sfx_bspact => 78 | sfx_bspwlk => 79
  | sfx_vilact => 80 | sfx_noway => 81 | sfx_barexp => 82 | sfx_punch => 83 | sfx_hoof => 84 | sfx_metal => 85 | sfx_chgun => 86 | sfx_tink => 87
  | sfx_bdopn => 88 | sfx_bdcls => 89 | sfx_itmbk => 90 | sfx_flame => 91 | sfx_flamst => 92 | sfx_getpow => 93 | sfx_bospit => 94 | sfx_boscub => 95
  | sfx_bossit => 96 | sfx_bospn => 97 | sfx_bosdth => 98 | sfx_manatk => 99 | sfx_mandth => 100 | sfx_sssit => 101 | sfx_ssdth => 102
  | sfx_keenpn => 103 | sfx_keendt => 104 | sfx_skeact => 105 | sfx_skesit => 106 | sfx_skeatk => 107 | sfx_radio => 108
  end.
#[global] Coercion sfxenum : sfxenum_t >-> Z.

Definition NUMSFX : Z := 109.

(** The functions that a state may call when it is entered. *)
Inductive actionf_t : Type :=
| A_Light0 | A_WeaponReady | A_Lower | A_Raise | A_Punch | A_ReFire | A_FirePistol | A_Light1 | A_FireShotgun | A_Light2 | A_FireShotgun2
| A_CheckReload | A_OpenShotgun2 | A_LoadShotgun2 | A_CloseShotgun2 | A_FireCGun | A_GunFlash | A_FireMissile | A_Saw | A_FirePlasma | A_BFGsound
| A_FireBFG | A_BFGSpray | A_Explode | A_Pain | A_PlayerScream | A_Fall | A_XScream | A_Look | A_Chase | A_FaceTarget | A_PosAttack | A_Scream
| A_SPosAttack | A_VileChase | A_VileStart | A_VileTarget | A_VileAttack | A_StartFire | A_Fire | A_FireCrackle | A_Tracer | A_SkelWhoosh
| A_SkelFist | A_SkelMissile | A_FatRaise | A_FatAttack1 | A_FatAttack2 | A_FatAttack3 | A_BossDeath | A_CPosAttack | A_CPosRefire | A_TroopAttack
| A_SargAttack | A_HeadAttack | A_BruisAttack | A_SkullAttack | A_Metal | A_SpidRefire | A_BabyMetal | A_BspiAttack | A_Hoof | A_CyberAttack
| A_PainAttack | A_PainDie | A_KeenDie | A_BrainPain | A_BrainScream | A_BrainDie | A_BrainAwake | A_BrainSpit | A_SpawnSound | A_SpawnFly
| A_BrainExplode.

Record state_t := mk_state { sprite : spritenum_t; frame : Z; tics : Z; action : option actionf_t; nextstate : statenum_t; misc1 : Z; misc2 : Z }.

Record mobjinfo_t := mk_info {
  doomednum : Z; spawnstate : Z; spawnhealth : Z; seestate : Z; seesound : Z; reactiontime : Z; attacksound : Z; painstate : Z;
  painchance : Z; painsound : Z; meleestate : Z; missilestate : Z; deathstate : Z; xdeathstate : Z; deathsound : Z; speed : Z;
  radius : Z; height : Z; mass : Z; damage : Z; activesound : Z; flags : Z; raisestate : Z
}.

Definition FRACBITS : Z := 16.
Definition FRACUNIT : Z := 65536.

(** Flags of things (p_mobj.h). *)
Definition MF_SPECIAL : Z := 1.
Definition MF_SOLID : Z := 2.
Definition MF_SHOOTABLE : Z := 4.
Definition MF_NOSECTOR : Z := 8.
Definition MF_NOBLOCKMAP : Z := 16.
Definition MF_AMBUSH : Z := 32.
Definition MF_JUSTHIT : Z := 64.
Definition MF_JUSTATTACKED : Z := 128.
Definition MF_SPAWNCEILING : Z := 256.
Definition MF_NOGRAVITY : Z := 512.
Definition MF_DROPOFF : Z := 0x400.
Definition MF_PICKUP : Z := 0x800.
Definition MF_NOCLIP : Z := 0x1000.
Definition MF_SLIDE : Z := 0x2000.
Definition MF_FLOAT : Z := 0x4000.
Definition MF_TELEPORT : Z := 0x8000.
Definition MF_MISSILE : Z := 0x10000.
Definition MF_DROPPED : Z := 0x20000.
Definition MF_SHADOW : Z := 0x40000.
Definition MF_NOBLOOD : Z := 0x80000.
Definition MF_CORPSE : Z := 0x100000.
Definition MF_INFLOAT : Z := 0x200000.
Definition MF_COUNTKILL : Z := 0x400000.
Definition MF_COUNTITEM : Z := 0x800000.
Definition MF_SKULLFLY : Z := 0x1000000.
Definition MF_NOTDMATCH : Z := 0x2000000.
Definition MF_TRANSLATION : Z := 0xc000000.
Definition MF_TRANSSHIFT : Z := 26.

Definition flags_of (l : list Z) : Z := foldr Z.lor 0 l.

(** ** States *)
Definition states_0 : list state_t := [
  mk_state SPR_TROO 0 (-1) None S_NULL 0 0;
  mk_state SPR_SHTG 4 0 (Some A_Light0) S_NULL 0 0;
  mk_state SPR_PUNG 0 1 (Some A_WeaponReady) S_PUNCH 0 0;
  mk_state SPR_PUNG 0 1 (Some A_Lower) S_PUNCHDOWN 0 0;
  mk_state SPR_PUNG 0 1 (Some A_Raise) S_PUNCHUP 0 0;
  mk_state SPR_PUNG 1 4 None S_PUNCH2 0 0;
  mk_state SPR_PUNG 2 4 (Some A_Punch) S_PUNCH3 0 0;
  mk_state SPR_PUNG 3 5 None S_PUNCH4 0 0;
  mk_state SPR_PUNG 2 4 None S_PUNCH5 0 0;
  mk_state SPR_PUNG 1 5 (Some A_ReFire) S_PUNCH 0 0;
  mk_state SPR_PISG 0 1 (Some A_WeaponReady) S_PISTOL 0 0;
  mk_state SPR_PISG 0 1 (Some A_Lower) S_PISTOLDOWN 0 0;
  mk_state SPR_PISG 0 1 (Some A_Raise) S_PISTOLUP 0 0;
  mk_state SPR_PISG 0 4 None S_PISTOL2 0 0;
  mk_state SPR_PISG 1 6 (Some A_FirePistol) S_PISTOL3 0 0;
  mk_state SPR_PISG 2 4 None S_PISTOL4 0 0;
  mk_state SPR_PISG 1 5 (Some A_ReFire) S_PISTOL 0 0;
  mk_state SPR_PISF 32768 7 (Some A_Light1) S_LIGHTDONE 0 0;
  mk_state SPR_SHTG 0 1 (Some A_WeaponReady) S_SGUN 0 0;
  mk_state SPR_SHTG 0 1 (Some A_Lower) S_SGUNDOWN 0 0;
  mk_state SPR_SHTG 0 1 (Some A_Raise) S_SGUNUP 0 0;
  mk_state SPR_SHTG 0 3 None S_SGUN2 0 0;
  mk_state SPR_SHTG 0 7 (Some A_FireShotgun) S_SGUN3 0 0;
  mk_state SPR_SHTG 1 5 None S_SGUN4 0 0;
  mk_state SPR_SHTG 2 5 None S_SGUN5 0 0;
  mk_state SPR_SHTG 3 4 None S_SGUN6 0 0;
  mk_state SPR_SHTG 2 5 None S_SGUN7 0 0;
  mk_state SPR_SHTG 1 5 None S_SGUN8 0 0;
  mk_state SPR_SHTG 0 3 None S_SGUN9 0 0;
  mk_state SPR_SHTG 0 7 (Some A_ReFire) S_SGUN 0 0;
  mk_state SPR_SHTF 32768 4 (Some A_Light1) S_SGUNFLASH2 0 0;
  mk_state SPR_SHTF 32769 3 (Some A_Light2) S_LIGHTDONE 0 0;
  mk_state SPR_SHT2 0 1 (Some A_WeaponReady) S_DSGUN 0 0;
  mk_state SPR_SHT2 0 1 (Some A_Lower) S_DSGUNDOWN 0 0;
  mk_state SPR_SHT2 0 1 (Some A_Raise) S_DSGUNUP 0 0;
  mk_state SPR_SHT2 0 3 None S_DSGUN2 0 0;
  mk_state SPR_SHT2 0 7 (Some A_FireShotgun2) S_DSGUN3 0 0;
  mk_state SPR_SHT2 1 7 None S_DSGUN4 0 0;
  mk_state SPR_SHT2 2 7 (Some A_CheckReload) S_DSGUN5 0 0;
  mk_state SPR_SHT2 3 7 (Some A_OpenShotgun2) S_DSGUN6 0 0;
  mk_state SPR_SHT2 4 7 None S_DSGUN7 0 0;
  mk_state SPR_SHT2 5 7 (Some A_LoadShotgun2) S_DSGUN8 0 0;
  mk_state SPR_SHT2 6 6 None S_DSGUN9 0 0;
  mk_state SPR_SHT2 7 6 (Some A_CloseShotgun2) S_DSGUN10 0 0;
  mk_state SPR_SHT2 0 5 (Some A_ReFire) S_DSGUN 0 0;
  mk_state SPR_SHT2 1 7 None S_DSNR2 0 0;
  mk_state SPR_SHT2 0 3 None S_DSGUNDOWN 0 0;
  mk_state SPR_SHT2 32776 5 (Some A_Light1) S_DSGUNFLASH2 0 0;
  mk_state SPR_SHT2 32777 4 (Some A_Light2) S_LIGHTDONE 0 0;
  mk_state SPR_CHGG 0 1 (Some A_WeaponReady) S_CHAIN 0 0;
  mk_state SPR_CHGG 0 1 (Some A_Lower) S_CHAINDOWN 0 0;
  mk_state SPR_CHGG 0 1 (Some A_Raise) S_CHAINUP 0 0;
  mk_state SPR_CHGG 0 4 (Some A_FireCGun) S_CHAIN2 0 0;
  mk_state SPR_CHGG 1 4 (Some A_FireCGun) S_CHAIN3 0 0;
  mk_state SPR_CHGG 1 0 (Some A_ReFire) S_CHAIN 0 0;
  mk_state SPR_CHGF 32768 5 (Some A_Light1) S_LIGHTDONE 0 0;
  mk_state SPR_CHGF 32769 5 (Some A_Light2) S_LIGHTDONE 0 0;
  mk_state SPR_MISG 0 1 (Some A_WeaponReady) S_MISSILE 0 0;
  mk_state SPR_MISG 0 1 (Some A_Lower) S_MISSILEDOWN 0 0;
  mk_state SPR_MISG 0 1 (Some A_Raise) S_MISSILEUP 0 0;
  mk_state SPR_MISG 1 8 (Some A_GunFlash) S_MISSILE2 0 0;
  mk_state SPR_MISG 1 12 (Some A_FireMissile) S_MISSILE3 0 0;
  mk_state SPR_MISG 1 0 (Some A_ReFire) S_MISSILE 0 0;
  mk_state SPR_MISF 32768 3 (Some A_Light1) S_MISSILEFLASH2 0 0;
  mk_state SPR_MISF 32769 4 None S_MISSILEFLASH3 0 0;
  mk_state SPR_MISF 32770 4 (Some A_Light2) S_MISSILEFLASH4 0 0;
  mk_state SPR_MISF 32771 4 (Some A_Light2) S_LIGHTDONE 0 0;
  mk_state SPR_SAWG 2 4 (Some A_WeaponReady) S_SAWB 0 0;
  mk_state SPR_SAWG 3 4 (Some A_WeaponReady) S_SAW 0 0;
  mk_state SPR_SAWG 2 1 (Some A_Lower) S_SAWDOWN 0 0;
  mk_state SPR_SAWG 2 1 (Some A_Raise) S_SAWUP 0 0;
  mk_state SPR_SAWG 0 4 (Some A_Saw) S_SAW2 0 0;
  mk_state SPR_SAWG 1 4 (Some A_Saw) S_SAW3 0 0;
  mk_state SPR_SAWG 1 0 (Some A_ReFire) S_SAW 0 0;
  mk_state SPR_PLSG 0 1 (Some A_WeaponReady) S_PLASMA 0 0;
  mk_state SPR_PLSG 0 1 (Some A_Lower) S_PLASMADOWN 0 0;
  mk_state SPR_PLSG 0 1 (Some A_Raise) S_PLASMAUP 0 0;
  mk_state SPR_PLSG 0 3 (Some A_FirePlasma) S_PLASMA2 0 0;
  mk_state SPR_PLSG 1 20 (Some A_ReFire) S_PLASMA 0 0;
  mk_state SPR_PLSF 32768 4 (Some A_Light1) S_LIGHTDONE 0 0;
  mk_state SPR_PLSF 32769 4 (Some A_Light1) S_LIGHTDONE 0 0;
  mk_state SPR_BFGG 0 1 (Some A_WeaponReady) S_BFG 0 0;
  mk_state SPR_BFGG 0 1 (Some A_Lower) S_BFGDOWN 0 0;
  mk_state SPR_BFGG 0 1 (Some A_Raise) S_BFGUP 0 0;
  mk_state SPR_BFGG 0 20 (Some A_BFGsound) S_BFG2 0 0;
  mk_state SPR_BFGG 1 10 (Some A_GunFlash) S_BFG3 0 0;
  mk_state SPR_BFGG 1 10 (Some A_FireBFG) S_BFG4 0 0;
  mk_state SPR_BFGG 1 20 (Some A_ReFire) S_BFG 0 0;
  mk_state SPR_BFGF 32768 11 (Some A_Light1) S_BFGFLASH2 0 0;
  mk_state SPR_BFGF 32769 6 (Some A_Light2) S_LIGHTDONE 0 0;
  mk_state SPR_BLUD 2 8 None S_BLOOD2 0 0;
  mk_state SPR_BLUD 1 8 None S_BLOOD3 0 0;
  mk_state SPR_BLUD 0 8 None S_NULL 0 0;
  mk_state SPR_PUFF 32768 4 None S_PUFF2 0 0;
  mk_state SPR_PUFF 1 4 None S_PUFF3 0 0;
  mk_state SPR_PUFF 2 4 None S_PUFF4 0 0;
  mk_state SPR_PUFF 3 4 None S_NULL 0 0;
  mk_state SPR_BAL1 32768 4 None S_TBALL2 0 0;
  mk_state SPR_BAL1 32769 4 None S_TBALL1 0 0;
  mk_state SPR_BAL1 32770 6 None S_TBALLX2 0 0;
  mk_state SPR_BAL1 32771 6 None S_TBALLX3 0 0;
  mk_state SPR_BAL1 32772 6 None S_NULL 0 0;
  mk_state SPR_BAL2 32768 4 None S_RBALL2 0 0;
  mk_state SPR_BAL2 32769 4 None S_RBALL1 0 0;
  mk_state SPR_BAL2 32770 6 None S_RBALLX2 0 0;
  mk_state SPR_BAL2 32771 6 None S_RBALLX3 0 0;
  mk_state SPR_BAL2 32772 6 None S_NULL 0 0;
  mk_state SPR_PLSS 32768 6 None S_PLASBALL2 0 0;
  mk_state SPR_PLSS 32769 6 None S_PLASBALL 0 0;
  mk_state SPR_PLSE 32768 4 None S_PLASEXP2 0 0;
  mk_state SPR_PLSE 32769 4 None S_PLASEXP3 0 0;
  mk_state SPR_PLSE 32770 4 None S_PLASEXP4 0 0;
  mk_state SPR_PLSE 32771 4 None S_PLASEXP5 0 0;
  mk_state SPR_PLSE 32772 4 None S_NULL 0 0;
  mk_state SPR_MISL 32768 1 None S_ROCKET 0 0;
  mk_state SPR_BFS1 32768 4 None S_BFGSHOT2 0 0;
  mk_state SPR_BFS1 32769 4 None S_BFGSHOT 0 0;
  mk_state SPR_BFE1 32768 8 None S_BFGLAND2 0 0;
  mk_state SPR_BFE1 32769 8 None S_BFGLAND3 0 0;
  mk_state SPR_BFE1 32770 8 (Some A_BFGSpray) S_BFGLAND4 0 0;
  mk_state SPR_BFE1 32771 8 None S_BFGLAND5 0 0].

Definition states_1 : list state_t := [
  mk_state SPR_BFE1 32772 8 None S_BFGLAND6 0 0;
  mk_state SPR_BFE1 32773 8 None S_NULL 0 0;
  mk_state SPR_BFE2 32768 8 None S_BFGEXP2 0 0;
  mk_state SPR_BFE2 32769 8 None S_BFGEXP3 0 0;
  mk_state SPR_BFE2 32770 8 None S_BFGEXP4 0 0;
  mk_state SPR_BFE2 32771 8 None S_NULL 0 0;
  mk_state SPR_MISL 32769 8 (Some A_Explode) S_EXPLODE2 0 0;
  mk_state SPR_MISL 32770 6 None S_EXPLODE3 0 0;
  mk_state SPR_MISL 32771 4 None S_NULL 0 0;
  mk_state SPR_TFOG 32768 6 None S_TFOG01 0 0;
  mk_state SPR_TFOG 32769 6 None S_TFOG02 0 0;
  mk_state SPR_TFOG 32768 6 None S_TFOG2 0 0;
  mk_state SPR_TFOG 32769 6 None S_TFOG3 0 0;
  mk_state SPR_TFOG 32770 6 None S_TFOG4 0 0;
  mk_state SPR_TFOG 32771 6 None S_TFOG5 0 0;
  mk_state SPR_TFOG 32772 6 None S_TFOG6 0 0;
  mk_state SPR_TFOG 32773 6 None S_TFOG7 0 0;
  mk_state SPR_TFOG 32774 6 None S_TFOG8 0 0;
  mk_state SPR_TFOG 32775 6 None S_TFOG9 0 0;
  mk_state SPR_TFOG 32776 6 None S_TFOG10 0 0;
  mk_state SPR_TFOG 32777 6 None S_NULL 0 0;
  mk_state SPR_IFOG 32768 6 None S_IFOG01 0 0;
  mk_state SPR_IFOG 32769 6 None S_IFOG02 0 0;
  mk_state SPR_IFOG 32768 6 None S_IFOG2 0 0;
  mk_state SPR_IFOG 32769 6 None S_IFOG3 0 0;
  mk_state SPR_IFOG 32770 6 None S_IFOG4 0 0;
  mk_state SPR_IFOG 32771 6 None S_IFOG5 0 0;
  mk_state SPR_IFOG 32772 6 None S_NULL 0 0;
  mk_state SPR_PLAY 0 (-1) None S_NULL 0 0;
  mk_state SPR_PLAY 0 4 None S_PLAY_RUN2 0 0;
  mk_state SPR_PLAY 1 4 None S_PLAY_RUN3 0 0;
  mk_state SPR_PLAY 2 4 None S_PLAY_RUN4 0 0;
  mk_state SPR_PLAY 3 4 None S_PLAY_RUN1 0 0;
  mk_state SPR_PLAY 4 12 None S_PLAY 0 0;
  mk_state SPR_PLAY 32773 6 None S_PLAY_ATK1 0 0;
  mk_state SPR_PLAY 6 4 None S_PLAY_PAIN2 0 0;
  mk_state SPR_PLAY 6 4 (Some A_Pain) S_PLAY 0 0;
  mk_state SPR_PLAY 7 10 None S_PLAY_DIE2 0 0;
  mk_state SPR_PLAY 8 10 (Some A_PlayerScream) S_PLAY_DIE3 0 0;
  mk_state SPR_PLAY 9 10 (Some A_Fall) S_PLAY_DIE4 0 0;
  mk_state SPR_PLAY 10 10 None S_PLAY_DIE5 0 0;
  mk_state SPR_PLAY 11 10 None S_PLAY_DIE6 0 0;
  mk_state SPR_PLAY 12 10 None S_PLAY_DIE7 0 0;
  mk_state SPR_PLAY 13 (-1) None S_NULL 0 0;
  mk_state SPR_PLAY 14 5 None S_PLAY_XDIE2 0 0;
  mk_state SPR_PLAY 15 5 (Some A_XScream) S_PLAY_XDIE3 0 0;
  mk_state SPR_PLAY 16 5 (Some A_Fall) S_PLAY_XDIE4 0 0;
  mk_state SPR_PLAY 17 5 None S_PLAY_XDIE5 0 0;
  mk_state SPR_PLAY 18 5 None S_PLAY_XDIE6 0 0;
  mk_state SPR_PLAY 19 5 None S_PLAY_XDIE7 0 0;
  mk_state SPR_PLAY 20 5 None S_PLAY_XDIE8 0 0;
  mk_state SPR_PLAY 21 5 None S_PLAY_XDIE9 0 0;
  mk_state SPR_PLAY 22 (-1) None S_NULL 0 0;
  mk_state SPR_POSS 0 10 (Some A_Look) S_POSS_STND2 0 0;
  mk_state SPR_POSS 1 10 (Some A_Look) S_POSS_STND 0 0;
  mk_state SPR_POSS 0 4 (Some A_Chase) S_POSS_RUN2 0 0;
  mk_state SPR_POSS 0 4 (Some A_Chase) S_POSS_RUN3 0 0;
  mk_state SPR_POSS 1 4 (Some A_Chase) S_POSS_RUN4 0 0;
  mk_state SPR_POSS 1 4 (Some A_Chase) S_POSS_RUN5 0 0;
  mk_state SPR_POSS 2 4 (Some A_Chase) S_POSS_RUN6 0 0;
  mk_state SPR_POSS 2 4 (Some A_Chase) S_POSS_RUN7 0 0;
  mk_state SPR_POSS 3 4 (Some A_Chase) S_POSS_RUN8 0 0;
  mk_state SPR_POSS 3 4 (Some A_Chase) S_POSS_RUN1 0 0;
  mk_state SPR_POSS 4 10 (Some A_FaceTarget) S_POSS_ATK2 0 0;
  mk_state SPR_POSS 5 8 (Some A_PosAttack) S_POSS_ATK3 0 0;
  mk_state SPR_POSS 4 8 None S_POSS_RUN1 0 0;
  mk_state SPR_POSS 6 3 None S_POSS_PAIN2 0 0;
  mk_state SPR_POSS 6 3 (Some A_Pain) S_POSS_RUN1 0 0;
  mk_state SPR_POSS 7 5 None S_POSS_DIE2 0 0;
  mk_state SPR_POSS 8 5 (Some A_Scream) S_POSS_DIE3 0 0;
  mk_state SPR_POSS 9 5 (Some A_Fall) S_POSS_DIE4 0 0;
  mk_state SPR_POSS 10 5 None S_POSS_DIE5 0 0;
  mk_state SPR_POSS 11 (-1) None S_NULL 0 0;
  mk_state SPR_POSS 12 5 None S_POSS_XDIE2 0 0;
  mk_state SPR_POSS 13 5 (Some A_XScream) S_POSS_XDIE3 0 0;
  mk_state SPR_POSS 14 5 (Some A_Fall) S_POSS_XDIE4 0 0;
  mk_state SPR_POSS 15 5 None S_POSS_XDIE5 0 0;
  mk_state SPR_POSS 16 5 None S_POSS_XDIE6 0 0;
  mk_state SPR_POSS 17 5 None S_POSS_XDIE7 0 0;
  mk_state SPR_POSS 18 5 None S_POSS_XDIE8 0 0;
  mk_state SPR_POSS 19 5 None S_POSS_XDIE9 0 0;
  mk_state SPR_POSS 20 (-1) None S_NULL 0 0;
  mk_state SPR_POSS 10 5 None S_POSS_RAISE2 0 0;
  mk_state SPR_POSS 9 5 None S_POSS_RAISE3 0 0;
  mk_state SPR_POSS 8 5 None S_POSS_RAISE4 0 0;
  mk_state SPR_POSS 7 5 None S_POSS_RUN1 0 0;
  mk_state SPR_SPOS 0 10 (Some A_Look) S_SPOS_STND2 0 0;
  mk_state SPR_SPOS 1 10 (Some A_Look) S_SPOS_STND 0 0;
  mk_state SPR_SPOS 0 3 (Some A_Chase) S_SPOS_RUN2 0 0;
  mk_state SPR_SPOS 0 3 (Some A_Chase) S_SPOS_RUN3 0 0;
  mk_state SPR_SPOS 1 3 (Some A_Chase) S_SPOS_RUN4 0 0;
  mk_state SPR_SPOS 1 3 (Some A_Chase) S_SPOS_RUN5 0 0;
  mk_state SPR_SPOS 2 3 (Some A_Chase) S_SPOS_RUN6 0 0;
  mk_state SPR_SPOS 2 3 (Some A_Chase) S_SPOS_RUN7 0 0;
  mk_state SPR_SPOS 3 3 (Some A_Chase) S_SPOS_RUN8 0 0;
  mk_state SPR_SPOS 3 3 (Some A_Chase) S_SPOS_RUN1 0 0;
  mk_state SPR_SPOS 4 10 (Some A_FaceTarget) S_SPOS_ATK2 0 0;
  mk_state SPR_SPOS 32773 10 (Some A_SPosAttack) S_SPOS_ATK3 0 0;
  mk_state SPR_SPOS 4 10 None S_SPOS_RUN1 0 0;
  mk_state SPR_SPOS 6 3 None S_SPOS_PAIN2 0 0;
  mk_state SPR_SPOS 6 3 (Some A_Pain) S_SPOS_RUN1 0 0;
  mk_state SPR_SPOS 7 5 None S_SPOS_DIE2 0 0;
  mk_state SPR_SPOS 8 5 (Some A_Scream) S_SPOS_DIE3 0 0;
  mk_state SPR_SPOS 9 5 (Some A_Fall) S_SPOS_DIE4 0 0;
  mk_state SPR_SPOS 10 5 None S_SPOS_DIE5 0 0;
  mk_state SPR_SPOS 11 (-1) None S_NULL 0 0;
  mk_state SPR_SPOS 12 5 None S_SPOS_XDIE2 0 0;
  mk_state SPR_SPOS 13 5 (Some A_XScream) S_SPOS_XDIE3 0 0;
  mk_state SPR_SPOS 14 5 (Some A_Fall) S_SPOS_XDIE4 0 0;
  mk_state SPR_SPOS 15 5 None S_SPOS_XDIE5 0 0;
  mk_state SPR_SPOS 16 5 None S_SPOS_XDIE6 0 0;
  mk_state SPR_SPOS 17 5 None S_SPOS_XDIE7 0 0;
  mk_state SPR_SPOS 18 5 None S_SPOS_XDIE8 0 0;
  mk_state SPR_SPOS 19 5 None S_SPOS_XDIE9 0 0;
  mk_state SPR_SPOS 20 (-1) None S_NULL 0 0;
  mk_state SPR_SPOS 11 5 None S_SPOS_RAISE2 0 0;
  mk_state SPR_SPOS 10 5 None S_SPOS_RAISE3 0 0;
  mk_state SPR_SPOS 9 5 None S_SPOS_RAISE4 0 0;
  mk_state SPR_SPOS 8 5 None S_SPOS_RAISE5 0 0;
  mk_state SPR_SPOS 7 5 None S_SPOS_RUN1 0 0;
  mk_state SPR_VILE 0 10 (Some A_Look) S_VILE_STND2 0 0].

Definition states_2 : list state_t := [
  mk_state SPR_VILE 1 10 (Some A_Look) S_VILE_STND 0 0;
  mk_state SPR_VILE 0 2 (Some A_VileChase) S_VILE_RUN2 0 0;
  mk_state SPR_VILE 0 2 (Some A_VileChase) S_VILE_RUN3 0 0;
  mk_state SPR_VILE 1 2 (Some A_VileChase) S_VILE_RUN4 0 0;
  mk_state SPR_VILE 1 2 (Some A_VileChase) S_VILE_RUN5 0 0;
  mk_state SPR_VILE 2 2 (Some A_VileChase) S_VILE_RUN6 0 0;
  mk_state SPR_VILE 2 2 (Some A_VileChase) S_VILE_RUN7 0 0;
  mk_state SPR_VILE 3 2 (Some A_VileChase) S_VILE_RUN8 0 0;
  mk_state SPR_VILE 3 2 (Some A_VileChase) S_VILE_RUN9 0 0;
  mk_state SPR_VILE 4 2 (Some A_VileChase) S_VILE_RUN10 0 0;
  mk_state SPR_VILE 4 2 (Some A_VileChase) S_VILE_RUN11 0 0;
  mk_state SPR_VILE 5 2 (Some A_VileChase) S_VILE_RUN12 0 0;
  mk_state SPR_VILE 5 2 (Some A_VileChase) S_VILE_RUN1 0 0;
  mk_state SPR_VILE 32774 0 (Some A_VileStart) S_VILE_ATK2 0 0;
  mk_state SPR_VILE 32774 10 (Some A_FaceTarget) S_VILE_ATK3 0 0;
  mk_state SPR_VILE 32775 8 (Some A_VileTarget) S_VILE_ATK4 0 0;
  mk_state SPR_VILE 32776 8 (Some A_FaceTarget) S_VILE_ATK5 0 0;
  mk_state SPR_VILE 32777 8 (Some A_FaceTarget) S_VILE_ATK6 0 0;
  mk_state SPR_VILE 32778 8 (Some A_FaceTarget) S_VILE_ATK7 0 0;
  mk_state SPR_VILE 32779 8 (Some A_FaceTarget) S_VILE_ATK8 0 0;
  mk_state SPR_VILE 32780 8 (Some A_FaceTarget) S_VILE_ATK9 0 0;
  mk_state SPR_VILE 32781 8 (Some A_FaceTarget) S_VILE_ATK10 0 0;
  mk_state SPR_VILE 32782 8 (Some A_VileAttack) S_VILE_ATK11 0 0;
  mk_state SPR_VILE 32783 20 None S_VILE_RUN1 0 0;
  mk_state SPR_VILE 32794 10 None S_VILE_HEAL2 0 0;
  mk_state SPR_VILE 32795 10 None S_VILE_HEAL3 0 0;
  mk_state SPR_VILE 32796 10 None S_VILE_RUN1 0 0;
  mk_state SPR_VILE 16 5 None S_VILE_PAIN2 0 0;
  mk_state SPR_VILE 16 5 (Some A_Pain) S_VILE_RUN1 0 0;
  mk_state SPR_VILE 16 7 None S_VILE_DIE2 0 0;
  mk_state SPR_VILE 17 7 (Some A_Scream) S_VILE_DIE3 0 0;
  mk_state SPR_VILE 18 7 (Some A_Fall) S_VILE_DIE4 0 0;
  mk_state SPR_VILE 19 7 None S_VILE_DIE5 0 0;
  mk_state SPR_VILE 20 7 None S_VILE_DIE6 0 0;
  mk_state SPR_VILE 21 7 None S_VILE_DIE7 0 0;
  mk_state SPR_VILE 22 7 None S_VILE_DIE8 0 0;
  mk_state SPR_VILE 23 5 None S_VILE_DIE9 0 0;
  mk_state SPR_VILE 24 5 None S_VILE_DIE10 0 0;
  mk_state SPR_VILE 25 (-1) None S_NULL 0 0;
  mk_state SPR_FIRE 32768 2 (Some A_StartFire) S_FIRE2 0 0;
  mk_state SPR_FIRE 32769 2 (Some A_Fire) S_FIRE3 0 0;
  mk_state SPR_FIRE 32768 2 (Some A_Fire) S_FIRE4 0 0;
  mk_state SPR_FIRE 32769 2 (Some A_Fire) S_FIRE5 0 0;
  mk_state SPR_FIRE 32770 2 (Some A_FireCrackle) S_FIRE6 0 0;
  mk_state SPR_FIRE 32769 2 (Some A_Fire) S_FIRE7 0 0;
  mk_state SPR_FIRE 32770 2 (Some A_Fire) S_FIRE8 0 0;
  mk_state SPR_FIRE 32769 2 (Some A_Fire) S_FIRE9 0 0;
  mk_state SPR_FIRE 32770 2 (Some A_Fire) S_FIRE10 0 0;
  mk_state SPR_FIRE 32771 2 (Some A_Fire) S_FIRE11 0 0;
  mk_state SPR_FIRE 32770 2 (Some A_Fire) S_FIRE12 0 0;
  mk_state SPR_FIRE 32771 2 (Some A_Fire) S_FIRE13 0 0;
  mk_state SPR_FIRE 32770 2 (Some A_Fire) S_FIRE14 0 0;
  mk_state SPR_FIRE 32771 2 (Some A_Fire) S_FIRE15 0 0;
  mk_state SPR_FIRE 32772 2 (Some A_Fire) S_FIRE16 0 0;
  mk_state SPR_FIRE 32771 2 (Some A_Fire) S_FIRE17 0 0;
  mk_state SPR_FIRE 32772 2 (Some A_Fire) S_FIRE18 0 0;
  mk_state SPR_FIRE 32771 2 (Some A_Fire) S_FIRE19 0 0;
  mk_state SPR_FIRE 32772 2 (Some A_FireCrackle) S_FIRE20 0 0;
  mk_state SPR_FIRE 32773 2 (Some A_Fire) S_FIRE21 0 0;
  mk_state SPR_FIRE 32772 2 (Some A_Fire) S_FIRE22 0 0;
  mk_state SPR_FIRE 32773 2 (Some A_Fire) S_FIRE23 0 0;
  mk_state SPR_FIRE 32772 2 (Some A_Fire) S_FIRE24 0 0;
  mk_state SPR_FIRE 32773 2 (Some A_Fire) S_FIRE25 0 0;
  mk_state SPR_FIRE 32774 2 (Some A_Fire) S_FIRE26 0 0;
  mk_state SPR_FIRE 32775 2 (Some A_Fire) S_FIRE27 0 0;
  mk_state SPR_FIRE 32774 2 (Some A_Fire) S_FIRE28 0 0;
  mk_state SPR_FIRE 32775 2 (Some A_Fire) S_FIRE29 0 0;
  mk_state SPR_FIRE 32774 2 (Some A_Fire) S_FIRE30 0 0;
  mk_state SPR_FIRE 32775 2 (Some A_Fire) S_NULL 0 0;
  mk_state SPR_PUFF 1 4 None S_SMOKE2 0 0;
  mk_state SPR_PUFF 2 4 None S_SMOKE3 0 0;
  mk_state SPR_PUFF 1 4 None S_SMOKE4 0 0;
  mk_state SPR_PUFF 2 4 None S_SMOKE5 0 0;
  mk_state SPR_PUFF 3 4 None S_NULL 0 0;
  mk_state SPR_FATB 32768 2 (Some A_Tracer) S_TRACER2 0 0;
  mk_state SPR_FATB 32769 2 (Some A_Tracer) S_TRACER 0 0;
  mk_state SPR_FBXP 32768 8 None S_TRACEEXP2 0 0;
  mk_state SPR_FBXP 32769 6 None S_TRACEEXP3 0 0;
  mk_state SPR_FBXP 32770 4 None S_NULL 0 0;
  mk_state SPR_SKEL 0 10 (Some A_Look) S_SKEL_STND2 0 0;
  mk_state SPR_SKEL 1 10 (Some A_Look) S_SKEL_STND 0 0;
  mk_state SPR_SKEL 0 2 (Some A_Chase) S_SKEL_RUN2 0 0;
  mk_state SPR_SKEL 0 2 (Some A_Chase) S_SKEL_RUN3 0 0;
  mk_state SPR_SKEL 1 2 (Some A_Chase) S_SKEL_RUN4 0 0;
  mk_state SPR_SKEL 1 2 (Some A_Chase) S_SKEL_RUN5 0 0;
  mk_state SPR_SKEL 2 2 (Some A_Chase) S_SKEL_RUN6 0 0;
  mk_state SPR_SKEL 2 2 (Some A_Chase) S_SKEL_RUN7 0 0;
  mk_state SPR_SKEL 3 2 (Some A_Chase) S_SKEL_RUN8 0 0;
  mk_state SPR_SKEL 3 2 (Some A_Chase) S_SKEL_RUN9 0 0;
  mk_state SPR_SKEL 4 2 (Some A_Chase) S_SKEL_RUN10 0 0;
  mk_state SPR_SKEL 4 2 (Some A_Chase) S_SKEL_RUN11 0 0;
  mk_state SPR_SKEL 5 2 (Some A_Chase) S_SKEL_RUN12 0 0;
  mk_state SPR_SKEL 5 2 (Some A_Chase) S_SKEL_RUN1 0 0;
  mk_state SPR_SKEL 6 0 (Some A_FaceTarget) S_SKEL_FIST2 0 0;
  mk_state SPR_SKEL 6 6 (Some A_SkelWhoosh) S_SKEL_FIST3 0 0;
  mk_state SPR_SKEL 7 6 (Some A_FaceTarget) S_SKEL_FIST4 0 0;
  mk_state SPR_SKEL 8 6 (Some A_SkelFist) S_SKEL_RUN1 0 0;
  mk_state SPR_SKEL 32777 0 (Some A_FaceTarget) S_SKEL_MISS2 0 0;
  mk_state SPR_SKEL 32777 10 (Some A_FaceTarget) S_SKEL_MISS3 0 0;
  mk_state SPR_SKEL 10 10 (Some A_SkelMissile) S_SKEL_MISS4 0 0;
  mk_state SPR_SKEL 10 10 (Some A_FaceTarget) S_SKEL_RUN1 0 0;
  mk_state SPR_SKEL 11 5 None S_SKEL_PAIN2 0 0;
  mk_state SPR_SKEL 11 5 (Some A_Pain) S_SKEL_RUN1 0 0;
  mk_state SPR_SKEL 11 7 None S_SKEL_DIE2 0 0;
  mk_state SPR_SKEL 12 7 None S_SKEL_DIE3 0 0;
  mk_state SPR_SKEL 13 7 (Some A_Scream) S_SKEL_DIE4 0 0;
  mk_state SPR_SKEL 14 7 (Some A_Fall) S_SKEL_DIE5 0 0;
  mk_state SPR_SKEL 15 7 None S_SKEL_DIE6 0 0;
  mk_state SPR_SKEL 16 (-1) None S_NULL 0 0;
  mk_state SPR_SKEL 16 5 None S_SKEL_RAISE2 0 0;
  mk_state SPR_SKEL 15 5 None S_SKEL_RAISE3 0 0;
  mk_state SPR_SKEL 14 5 None S_SKEL_RAISE4 0 0;
  mk_state SPR_SKEL 13 5 None S_SKEL_RAISE5 0 0;
  mk_state SPR_SKEL 12 5 None S_SKEL_RAISE6 0 0;
  mk_state SPR_SKEL 11 5 None S_SKEL_RUN1 0 0;
  mk_state SPR_MANF 32768 4 None S_FATSHOT2 0 0;
  mk_state SPR_MANF 32769 4 None S_FATSHOT1 0 0;
  mk_state SPR_MISL 32769 8 None S_FATSHOTX2 0 0;
  mk_state SPR_MISL 32770 6 None S_FATSHOTX3 0 0;
  mk_state SPR_MISL 32771 4 None S_NULL 0 0;
  mk_state SPR_FATT 0 15 (Some A_Look) S_FATT_STND2 0 0].

Definition states_3 : list state_t := [
  mk_state SPR_FATT 1 15 (Some A_Look) S_FATT_STND 0 0;
  mk_state SPR_FATT 0 4 (Some A_Chase) S_FATT_RUN2 0 0;
  mk_state SPR_FATT 0 4 (Some A_Chase) S_FATT_RUN3 0 0;
  mk_state SPR_FATT 1 4 (Some A_Chase) S_FATT_RUN4 0 0;
  mk_state SPR_FATT 1 4 (Some A_Chase) S_FATT_RUN5 0 0;
  mk_state SPR_FATT 2 4 (Some A_Chase) S_FATT_RUN6 0 0;
  mk_state SPR_FATT 2 4 (Some A_Chase) S_FATT_RUN7 0 0;
  mk_state SPR_FATT 3 4 (Some A_Chase) S_FATT_RUN8 0 0;
  mk_state SPR_FATT 3 4 (Some A_Chase) S_FATT_RUN9 0 0;
  mk_state SPR_FATT 4 4 (Some A_Chase) S_FATT_RUN10 0 0;
  mk_state SPR_FATT 4 4 (Some A_Chase) S_FATT_RUN11 0 0;
  mk_state SPR_FATT 5 4 (Some A_Chase) S_FATT_RUN12 0 0;
  mk_state SPR_FATT 5 4 (Some A_Chase) S_FATT_RUN1 0 0;
  mk_state SPR_FATT 6 20 (Some A_FatRaise) S_FATT_ATK2 0 0;
  mk_state SPR_FATT 32775 10 (Some A_FatAttack1) S_FATT_ATK3 0 0;
  mk_state SPR_FATT 8 5 (Some A_FaceTarget) S_FATT_ATK4 0 0;
  mk_state SPR_FATT 6 5 (Some A_FaceTarget) S_FATT_ATK5 0 0;
  mk_state SPR_FATT 32775 10 (Some A_FatAttack2) S_FATT_ATK6 0 0;
  mk_state SPR_FATT 8 5 (Some A_FaceTarget) S_FATT_ATK7 0 0;
  mk_state SPR_FATT 6 5 (Some A_FaceTarget) S_FATT_ATK8 0 0;
  mk_state SPR_FATT 32775 10 (Some A_FatAttack3) S_FATT_ATK9 0 0;
  mk_state SPR_FATT 8 5 (Some A_FaceTarget) S_FATT_ATK10 0 0;
  mk_state SPR_FATT 6 5 (Some A_FaceTarget) S_FATT_RUN1 0 0;
  mk_state SPR_FATT 9 3 None S_FATT_PAIN2 0 0;
  mk_state SPR_FATT 9 3 (Some A_Pain) S_FATT_RUN1 0 0;
  mk_state SPR_FATT 10 6 None S_FATT_DIE2 0 0;
  mk_state SPR_FATT 11 6 (Some A_Scream) S_FATT_DIE3 0 0;
  mk_state SPR_FATT 12 6 (Some A_Fall) S_FATT_DIE4 0 0;
  mk_state SPR_FATT 13 6 None S_FATT_DIE5 0 0;
  mk_state SPR_FATT 14 6 None S_FATT_DIE6 0 0;
  mk_state SPR_FATT 15 6 None S_FATT_DIE7 0 0;
  mk_state SPR_FATT 16 6 None S_FATT_DIE8 0 0;
  mk_state SPR_FATT 17 6 None S_FATT_DIE9 0 0;
  mk_state SPR_FATT 18 6 None S_FATT_DIE10 0 0;
  mk_state SPR_FATT 19 (-1) (Some A_BossDeath) S_NULL 0 0;
  mk_state SPR_FATT 17 5 None S_FATT_RAISE2 0 0;
  mk_state SPR_FATT 16 5 None S_FATT_RAISE3 0 0;
  mk_state SPR_FATT 15 5 None S_FATT_RAISE4 0 0;
  mk_state SPR_FATT 14 5 None S_FATT_RAISE5 0 0;
  mk_state SPR_FATT 13 5 None S_FATT_RAISE6 0 0;
  mk_state SPR_FATT 12 5 None S_FATT_RAISE7 0 0;
  mk_state SPR_FATT 11 5 None S_FATT_RAISE8 0 0;
  mk_state SPR_FATT 10 5 None S_FATT_RUN1 0 0;
  mk_state SPR_CPOS 0 10 (Some A_Look) S_CPOS_STND2 0 0;
  mk_state SPR_CPOS 1 10 (Some A_Look) S_CPOS_STND 0 0;
  mk_state SPR_CPOS 0 3 (Some A_Chase) S_CPOS_RUN2 0 0;
  mk_state SPR_CPOS 0 3 (Some A_Chase) S_CPOS_RUN3 0 0;
  mk_state SPR_CPOS 1 3 (Some A_Chase) S_CPOS_RUN4 0 0;
  mk_state SPR_CPOS 1 3 (Some A_Chase) S_CPOS_RUN5 0 0;
  mk_state SPR_CPOS 2 3 (Some A_Chase) S_CPOS_RUN6 0 0;
  mk_state SPR_CPOS 2 3 (Some A_Chase) S_CPOS_RUN7 0 0;
  mk_state SPR_CPOS 3 3 (Some A_Chase) S_CPOS_RUN8 0 0;
  mk_state SPR_CPOS 3 3 (Some A_Chase) S_CPOS_RUN1 0 0;
  mk_state SPR_CPOS 4 10 (Some A_FaceTarget) S_CPOS_ATK2 0 0;
  mk_state SPR_CPOS 32773 4 (Some A_CPosAttack) S_CPOS_ATK3 0 0;
  mk_state SPR_CPOS 32772 4 (Some A_CPosAttack) S_CPOS_ATK4 0 0;
  mk_state SPR_CPOS 5 1 (Some A_CPosRefire) S_CPOS_ATK2 0 0;
  mk_state SPR_CPOS 6 3 None S_CPOS_PAIN2 0 0;
  mk_state SPR_CPOS 6 3 (Some A_Pain) S_CPOS_RUN1 0 0;
  mk_state SPR_CPOS 7 5 None S_CPOS_DIE2 0 0;
  mk_state SPR_CPOS 8 5 (Some A_Scream) S_CPOS_DIE3 0 0;
  mk_state SPR_CPOS 9 5 (Some A_Fall) S_CPOS_DIE4 0 0;
  mk_state SPR_CPOS 10 5 None S_CPOS_DIE5 0 0;
  mk_state SPR_CPOS 11 5 None S_CPOS_DIE6 0 0;
  mk_state SPR_CPOS 12 5 None S_CPOS_DIE7 0 0;
  mk_state SPR_CPOS 13 (-1) None S_NULL 0 0;
  mk_state SPR_CPOS 14 5 None S_CPOS_XDIE2 0 0;
  mk_state SPR_CPOS 15 5 (Some A_XScream) S_CPOS_XDIE3 0 0;
  mk_state SPR_CPOS 16 5 (Some A_Fall) S_CPOS_XDIE4 0 0;
  mk_state SPR_CPOS 17 5 None S_CPOS_XDIE5 0 0;
  mk_state SPR_CPOS 18 5 None S_CPOS_XDIE6 0 0;
  mk_state SPR_CPOS 19 (-1) None S_NULL 0 0;
  mk_state SPR_CPOS 13 5 None S_CPOS_RAISE2 0 0;
  mk_state SPR_CPOS 12 5 None S_CPOS_RAISE3 0 0;
  mk_state SPR_CPOS 11 5 None S_CPOS_RAISE4 0 0;
  mk_state SPR_CPOS 10 5 None S_CPOS_RAISE5 0 0;
  mk_state SPR_CPOS 9 5 None S_CPOS_RAISE6 0 0;
  mk_state SPR_CPOS 8 5 None S_CPOS_RAISE7 0 0;
  mk_state SPR_CPOS 7 5 None S_CPOS_RUN1 0 0;
  mk_state SPR_TROO 0 10 (Some A_Look) S_TROO_STND2 0 0;
  mk_state SPR_TROO 1 10 (Some A_Look) S_TROO_STND 0 0;
  mk_state SPR_TROO 0 3 (Some A_Chase) S_TROO_RUN2 0 0;
  mk_state SPR_TROO 0 3 (Some A_Chase) S_TROO_RUN3 0 0;
  mk_state SPR_TROO 1 3 (Some A_Chase) S_TROO_RUN4 0 0;
  mk_state SPR_TROO 1 3 (Some A_Chase) S_TROO_RUN5 0 0;
  mk_state SPR_TROO 2 3 (Some A_Chase) S_TROO_RUN6 0 0;
  mk_state SPR_TROO 2 3 (Some A_Chase) S_TROO_RUN7 0 0;
  mk_state SPR_TROO 3 3 (Some A_Chase) S_TROO_RUN8 0 0;
  mk_state SPR_TROO 3 3 (Some A_Chase) S_TROO_RUN1 0 0;
  mk_state SPR_TROO 4 8 (Some A_FaceTarget) S_TROO_ATK2 0 0;
  mk_state SPR_TROO 5 8 (Some A_FaceTarget) S_TROO_ATK3 0 0;
  mk_state SPR_TROO 6 6 (Some A_TroopAttack) S_TROO_RUN1 0 0;
  mk_state SPR_TROO 7 2 None S_TROO_PAIN2 0 0;
  mk_state SPR_TROO 7 2 (Some A_Pain) S_TROO_RUN1 0 0;
  mk_state SPR_TROO 8 8 None S_TROO_DIE2 0 0;
  mk_state SPR_TROO 9 8 (Some A_Scream) S_TROO_DIE3 0 0;
  mk_state SPR_TROO 10 6 None S_TROO_DIE4 0 0;
  mk_state SPR_TROO 11 6 (Some A_Fall) S_TROO_DIE5 0 0;
  mk_state SPR_TROO 12 (-1) None S_NULL 0 0;
  mk_state SPR_TROO 13 5 None S_TROO_XDIE2 0 0;
  mk_state SPR_TROO 14 5 (Some A_XScream) S_TROO_XDIE3 0 0;
  mk_state SPR_TROO 15 5 None S_TROO_XDIE4 0 0;
  mk_state SPR_TROO 16 5 (Some A_Fall) S_TROO_XDIE5 0 0;
  mk_state SPR_TROO 17 5 None S_TROO_XDIE6 0 0;
  mk_state SPR_TROO 18 5 None S_TROO_XDIE7 0 0;
  mk_state SPR_TROO 19 5 None S_TROO_XDIE8 0 0;
  mk_state SPR_TROO 20 (-1) None S_NULL 0 0;
  mk_state SPR_TROO 12 8 None S_TROO_RAISE2 0 0;
  mk_state SPR_TROO 11 8 None S_TROO_RAISE3 0 0;
  mk_state SPR_TROO 10 6 None S_TROO_RAISE4 0 0;
  mk_state SPR_TROO 9 6 None S_TROO_RAISE5 0 0;
  mk_state SPR_TROO 8 6 None S_TROO_RUN1 0 0;
  mk_state SPR_SARG 0 10 (Some A_Look) S_SARG_STND2 0 0;
  mk_state SPR_SARG 1 10 (Some A_Look) S_SARG_STND 0 0;
  mk_state SPR_SARG 0 2 (Some A_Chase) S_SARG_RUN2 0 0;
  mk_state SPR_SARG 0 2 (Some A_Chase) S_SARG_RUN3 0 0;
  mk_state SPR_SARG 1 2 (Some A_Chase) S_SARG_RUN4 0 0;
  mk_state SPR_SARG 1 2 (Some A_Chase) S_SARG_RUN5 0 0;
  mk_state SPR_SARG 2 2 (Some A_Chase) S_SARG_RUN6 0 0;
  mk_state SPR_SARG 2 2 (Some A_Chase) S_SARG_RUN7 0 0;
  mk_state SPR_SARG 3 2 (Some A_Chase) S_SARG_RUN8 0 0].

Definition states_4 : list state_t := [
  mk_state SPR_SARG 3 2 (Some A_Chase) S_SARG_RUN1 0 0;
  mk_state SPR_SARG 4 8 (Some A_FaceTarget) S_SARG_ATK2 0 0;
  mk_state SPR_SARG 5 8 (Some A_FaceTarget) S_SARG_ATK3 0 0;
  mk_state SPR_SARG 6 8 (Some A_SargAttack) S_SARG_RUN1 0 0;
  mk_state SPR_SARG 7 2 None S_SARG_PAIN2 0 0;
  mk_state SPR_SARG 7 2 (Some A_Pain) S_SARG_RUN1 0 0;
  mk_state SPR_SARG 8 8 None S_SARG_DIE2 0 0;
  mk_state SPR_SARG 9 8 (Some A_Scream) S_SARG_DIE3 0 0;
  mk_state SPR_SARG 10 4 None S_SARG_DIE4 0 0;
  mk_state SPR_SARG 11 4 (Some A_Fall) S_SARG_DIE5 0 0;
  mk_state SPR_SARG 12 4 None S_SARG_DIE6 0 0;
  mk_state SPR_SARG 13 (-1) None S_NULL 0 0;
  mk_state SPR_SARG 13 5 None S_SARG_RAISE2 0 0;
  mk_state SPR_SARG 12 5 None S_SARG_RAISE3 0 0;
  mk_state SPR_SARG 11 5 None S_SARG_RAISE4 0 0;
  mk_state SPR_SARG 10 5 None S_SARG_RAISE5 0 0;
  mk_state SPR_SARG 9 5 None S_SARG_RAISE6 0 0;
  mk_state SPR_SARG 8 5 None S_SARG_RUN1 0 0;
  mk_state SPR_HEAD 0 10 (Some A_Look) S_HEAD_STND 0 0;
  mk_state SPR_HEAD 0 3 (Some A_Chase) S_HEAD_RUN1 0 0;
  mk_state SPR_HEAD 1 5 (Some A_FaceTarget) S_HEAD_ATK2 0 0;
  mk_state SPR_HEAD 2 5 (Some A_FaceTarget) S_HEAD_ATK3 0 0;
  mk_state SPR_HEAD 32771 5 (Some A_HeadAttack) S_HEAD_RUN1 0 0;
  mk_state SPR_HEAD 4 3 None S_HEAD_PAIN2 0 0;
  mk_state SPR_HEAD 4 3 (Some A_Pain) S_HEAD_PAIN3 0 0;
  mk_state SPR_HEAD 5 6 None S_HEAD_RUN1 0 0;
  mk_state SPR_HEAD 6 8 None S_HEAD_DIE2 0 0;
  mk_state SPR_HEAD 7 8 (Some A_Scream) S_HEAD_DIE3 0 0;
  mk_state SPR_HEAD 8 8 None S_HEAD_DIE4 0 0;
  mk_state SPR_HEAD 9 8 None S_HEAD_DIE5 0 0;
  mk_state SPR_HEAD 10 8 (Some A_Fall) S_HEAD_DIE6 0 0;
  mk_state SPR_HEAD 11 (-1) None S_NULL 0 0;
  mk_state SPR_HEAD 11 8 None S_HEAD_RAISE2 0 0;
  mk_state SPR_HEAD 10 8 None S_HEAD_RAISE3 0 0;
  mk_state SPR_HEAD 9 8 None S_HEAD_RAISE4 0 0;
  mk_state SPR_HEAD 8 8 None S_HEAD_RAISE5 0 0;
  mk_state SPR_HEAD 7 8 None S_HEAD_RAISE6 0 0;
  mk_state SPR_HEAD 6 8 None S_HEAD_RUN1 0 0;
  mk_state SPR_BAL7 32768 4 None S_BRBALL2 0 0;
  mk_state SPR_BAL7 32769 4 None S_BRBALL1 0 0;
  mk_state SPR_BAL7 32770 6 None S_BRBALLX2 0 0;
  mk_state SPR_BAL7 32771 6 None S_BRBALLX3 0 0;
  mk_state SPR_BAL7 32772 6 None S_NULL 0 0;
  mk_state SPR_BOSS 0 10 (Some A_Look) S_BOSS_STND2 0 0;
  mk_state SPR_BOSS 1 10 (Some A_Look) S_BOSS_STND 0 0;
  mk_state SPR_BOSS 0 3 (Some A_Chase) S_BOSS_RUN2 0 0;
  mk_state SPR_BOSS 0 3 (Some A_Chase) S_BOSS_RUN3 0 0;
  mk_state SPR_BOSS 1 3 (Some A_Chase) S_BOSS_RUN4 0 0;
  mk_state SPR_BOSS 1 3 (Some A_Chase) S_BOSS_RUN5 0 0;
  mk_state SPR_BOSS 2 3 (Some A_Chase) S_BOSS_RUN6 0 0;
  mk_state SPR_BOSS 2 3 (Some A_Chase) S_BOSS_RUN7 0 0;
  mk_state SPR_BOSS 3 3 (Some A_Chase) S_BOSS_RUN8 0 0;
  mk_state SPR_BOSS 3 3 (Some A_Chase) S_BOSS_RUN1 0 0;
  mk_state SPR_BOSS 4 8 (Some A_FaceTarget) S_BOSS_ATK2 0 0;
  mk_state SPR_BOSS 5 8 (Some A_FaceTarget) S_BOSS_ATK3 0 0;
  mk_state SPR_BOSS 6 8 (Some A_BruisAttack) S_BOSS_RUN1 0 0;
  mk_state SPR_BOSS 7 2 None S_BOSS_PAIN2 0 0;
  mk_state SPR_BOSS 7 2 (Some A_Pain) S_BOSS_RUN1 0 0;
  mk_state SPR_BOSS 8 8 None S_BOSS_DIE2 0 0;
  mk_state SPR_BOSS 9 8 (Some A_Scream) S_BOSS_DIE3 0 0;
  mk_state SPR_BOSS 10 8 None S_BOSS_DIE4 0 0;
  mk_state SPR_BOSS 11 8 (Some A_Fall) S_BOSS_DIE5 0 0;
  mk_state SPR_BOSS 12 8 None S_BOSS_DIE6 0 0;
  mk_state SPR_BOSS 13 8 None S_BOSS_DIE7 0 0;
  mk_state SPR_BOSS 14 (-1) (Some A_BossDeath) S_NULL 0 0;
  mk_state SPR_BOSS 14 8 None S_BOSS_RAISE2 0 0;
  mk_state SPR_BOSS 13 8 None S_BOSS_RAISE3 0 0;
  mk_state SPR_BOSS 12 8 None S_BOSS_RAISE4 0 0;
  mk_state SPR_BOSS 11 8 None S_BOSS_RAISE5 0 0;
  mk_state SPR_BOSS 10 8 None S_BOSS_RAISE6 0 0;
  mk_state SPR_BOSS 9 8 None S_BOSS_RAISE7 0 0;
  mk_state SPR_BOSS 8 8 None S_BOSS_RUN1 0 0;
  mk_state SPR_BOS2 0 10 (Some A_Look) S_BOS2_STND2 0 0;
  mk_state SPR_BOS2 1 10 (Some A_Look) S_BOS2_STND 0 0;
  mk_state SPR_BOS2 0 3 (Some A_Chase) S_BOS2_RUN2 0 0;
  mk_state SPR_BOS2 0 3 (Some A_Chase) S_BOS2_RUN3 0 0;
  mk_state SPR_BOS2 1 3 (Some A_Chase) S_BOS2_RUN4 0 0;
  mk_state SPR_BOS2 1 3 (Some A_Chase) S_BOS2_RUN5 0 0;
  mk_state SPR_BOS2 2 3 (Some A_Chase) S_BOS2_RUN6 0 0;
  mk_state SPR_BOS2 2 3 (Some A_Chase) S_BOS2_RUN7 0 0;
  mk_state SPR_BOS2 3 3 (Some A_Chase) S_BOS2_RUN8 0 0;
  mk_state SPR_BOS2 3 3 (Some A_Chase) S_BOS2_RUN1 0 0;
  mk_state SPR_BOS2 4 8 (Some A_FaceTarget) S_BOS2_ATK2 0 0;
  mk_state SPR_BOS2 5 8 (Some A_FaceTarget) S_BOS2_ATK3 0 0;
  mk_state SPR_BOS2 6 8 (Some A_BruisAttack) S_BOS2_RUN1 0 0;
  mk_state SPR_BOS2 7 2 None S_BOS2_PAIN2 0 0;
  mk_state SPR_BOS2 7 2 (Some A_Pain) S_BOS2_RUN1 0 0;
  mk_state SPR_BOS2 8 8 None S_BOS2_DIE2 0 0;
  mk_state SPR_BOS2 9 8 (Some A_Scream) S_BOS2_DIE3 0 0;
  mk_state SPR_BOS2 10 8 None S_BOS2_DIE4 0 0;
  mk_state SPR_BOS2 11 8 (Some A_Fall) S_BOS2_DIE5 0 0;
  mk_state SPR_BOS2 12 8 None S_BOS2_DIE6 0 0;
  mk_state SPR_BOS2 13 8 None S_BOS2_DIE7 0 0;
  mk_state SPR_BOS2 14 (-1) None S_NULL 0 0;
  mk_state SPR_BOS2 14 8 None S_BOS2_RAISE2 0 0;
  mk_state SPR_BOS2 13 8 None S_BOS2_RAISE3 0 0;
  mk_state SPR_BOS2 12 8 None S_BOS2_RAISE4 0 0;
  mk_state SPR_BOS2 11 8 None S_BOS2_RAISE5 0 0;
  mk_state SPR_BOS2 10 8 None S_BOS2_RAISE6 0 0;
  mk_state SPR_BOS2 9 8 None S_BOS2_RAISE7 0 0;
  mk_state SPR_BOS2 8 8 None S_BOS2_RUN1 0 0;
  mk_state SPR_SKUL 32768 10 (Some A_Look) S_SKULL_STND2 0 0;
  mk_state SPR_SKUL 32769 10 (Some A_Look) S_SKULL_STND 0 0;
  mk_state SPR_SKUL 32768 6 (Some A_Chase) S_SKULL_RUN2 0 0;
  mk_state SPR_SKUL 32769 6 (Some A_Chase) S_SKULL_RUN1 0 0;
  mk_state SPR_SKUL 32770 10 (Some A_FaceTarget) S_SKULL_ATK2 0 0;
  mk_state SPR_SKUL 32771 4 (Some A_SkullAttack) S_SKULL_ATK3 0 0;
  mk_state SPR_SKUL 32770 4 None S_SKULL_ATK4 0 0;
  mk_state SPR_SKUL 32771 4 None S_SKULL_ATK3 0 0;
  mk_state SPR_SKUL 32772 3 None S_SKULL_PAIN2 0 0;
  mk_state SPR_SKUL 32772 3 (Some A_Pain) S_SKULL_RUN1 0 0;
  mk_state SPR_SKUL 32773 6 None S_SKULL_DIE2 0 0;
  mk_state SPR_SKUL 32774 6 (Some A_Scream) S_SKULL_DIE3 0 0;
  mk_state SPR_SKUL 32775 6 None S_SKULL_DIE4 0 0;
  mk_state SPR_SKUL 32776 6 (Some A_Fall) S_SKULL_DIE5 0 0;
  mk_state SPR_SKUL 9 6 None S_SKULL_DIE6 0 0;
  mk_state SPR_SKUL 10 6 None S_NULL 0 0;
  mk_state SPR_SPID 0 10 (Some A_Look) S_SPID_STND2 0 0;
  mk_state SPR_SPID 1 10 (Some A_Look) S_SPID_STND 0 0;
  mk_state SPR_SPID 0 3 (Some A_Metal) S_SPID_RUN2 0 0;
  mk_state SPR_SPID 0 3 (Some A_Chase) S_SPID_RUN3 0 0].

Definition states_5 : list state_t := [
  mk_state SPR_SPID 1 3 (Some A_Chase) S_SPID_RUN4 0 0;
  mk_state SPR_SPID 1 3 (Some A_Chase) S_SPID_RUN5 0 0;
  mk_state SPR_SPID 2 3 (Some A_Metal) S_SPID_RUN6 0 0;
  mk_state SPR_SPID 2 3 (Some A_Chase) S_SPID_RUN7 0 0;
  mk_state SPR_SPID 3 3 (Some A_Chase) S_SPID_RUN8 0 0;
  mk_state SPR_SPID 3 3 (Some A_Chase) S_SPID_RUN9 0 0;
  mk_state SPR_SPID 4 3 (Some A_Metal) S_SPID_RUN10 0 0;
  mk_state SPR_SPID 4 3 (Some A_Chase) S_SPID_RUN11 0 0;
  mk_state SPR_SPID 5 3 (Some A_Chase) S_SPID_RUN12 0 0;
  mk_state SPR_SPID 5 3 (Some A_Chase) S_SPID_RUN1 0 0;
  mk_state SPR_SPID 32768 20 (Some A_FaceTarget) S_SPID_ATK2 0 0;
  mk_state SPR_SPID 32774 4 (Some A_SPosAttack) S_SPID_ATK3 0 0;
  mk_state SPR_SPID 32775 4 (Some A_SPosAttack) S_SPID_ATK4 0 0;
  mk_state SPR_SPID 32775 1 (Some A_SpidRefire) S_SPID_ATK2 0 0;
  mk_state SPR_SPID 8 3 None S_SPID_PAIN2 0 0;
  mk_state SPR_SPID 8 3 (Some A_Pain) S_SPID_RUN1 0 0;
  mk_state SPR_SPID 9 20 (Some A_Scream) S_SPID_DIE2 0 0;
  mk_state SPR_SPID 10 10 (Some A_Fall) S_SPID_DIE3 0 0;
  mk_state SPR_SPID 11 10 None S_SPID_DIE4 0 0;
  mk_state SPR_SPID 12 10 None S_SPID_DIE5 0 0;
  mk_state SPR_SPID 13 10 None S_SPID_DIE6 0 0;
  mk_state SPR_SPID 14 10 None S_SPID_DIE7 0 0;
  mk_state SPR_SPID 15 10 None S_SPID_DIE8 0 0;
  mk_state SPR_SPID 16 10 None S_SPID_DIE9 0 0;
  mk_state SPR_SPID 17 10 None S_SPID_DIE10 0 0;
  mk_state SPR_SPID 18 30 None S_SPID_DIE11 0 0;
  mk_state SPR_SPID 18 (-1) (Some A_BossDeath) S_NULL 0 0;
  mk_state SPR_BSPI 0 10 (Some A_Look) S_BSPI_STND2 0 0;
  mk_state SPR_BSPI 1 10 (Some A_Look) S_BSPI_STND 0 0;
  mk_state SPR_BSPI 0 20 None S_BSPI_RUN1 0 0;
  mk_state SPR_BSPI 0 3 (Some A_BabyMetal) S_BSPI_RUN2 0 0;
  mk_state SPR_BSPI 0 3 (Some A_Chase) S_BSPI_RUN3 0 0;
  mk_state SPR_BSPI 1 3 (Some A_Chase) S_BSPI_RUN4 0 0;
  mk_state SPR_BSPI 1 3 (Some A_Chase) S_BSPI_RUN5 0 0;
  mk_state SPR_BSPI 2 3 (Some A_Chase) S_BSPI_RUN6 0 0;
  mk_state SPR_BSPI 2 3 (Some A_Chase) S_BSPI_RUN7 0 0;
  mk_state SPR_BSPI 3 3 (Some A_BabyMetal) S_BSPI_RUN8 0 0;
  mk_state SPR_BSPI 3 3 (Some A_Chase) S_BSPI_RUN9 0 0;
  mk_state SPR_BSPI 4 3 (Some A_Chase) S_BSPI_RUN10 0 0;
  mk_state SPR_BSPI 4 3 (Some A_Chase) S_BSPI_RUN11 0 0;
  mk_state SPR_BSPI 5 3 (Some A_Chase) S_BSPI_RUN12 0 0;
  mk_state SPR_BSPI 5 3 (Some A_Chase) S_BSPI_RUN1 0 0;
  mk_state SPR_BSPI 32768 20 (Some A_FaceTarget) S_BSPI_ATK2 0 0;
  mk_state SPR_BSPI 32774 4 (Some A_BspiAttack) S_BSPI_ATK3 0 0;
  mk_state SPR_BSPI 32775 4 None S_BSPI_ATK4 0 0;
  mk_state SPR_BSPI 32775 1 (Some A_SpidRefire) S_BSPI_ATK2 0 0;
  mk_state SPR_BSPI 8 3 None S_BSPI_PAIN2 0 0;
  mk_state SPR_BSPI 8 3 (Some A_Pain) S_BSPI_RUN1 0 0;
  mk_state SPR_BSPI 9 20 (Some A_Scream) S_BSPI_DIE2 0 0;
  mk_state SPR_BSPI 10 7 (Some A_Fall) S_BSPI_DIE3 0 0;
  mk_state SPR_BSPI 11 7 None S_BSPI_DIE4 0 0;
  mk_state SPR_BSPI 12 7 None S_BSPI_DIE5 0 0;
  mk_state SPR_BSPI 13 7 None S_BSPI_DIE6 0 0;
  mk_state SPR_BSPI 14 7 None S_BSPI_DIE7 0 0;
  mk_state SPR_BSPI 15 (-1) (Some A_BossDeath) S_NULL 0 0;
  mk_state SPR_BSPI 15 5 None S_BSPI_RAISE2 0 0;
  mk_state SPR_BSPI 14 5 None S_BSPI_RAISE3 0 0;
  mk_state SPR_BSPI 13 5 None S_BSPI_RAISE4 0 0;
  mk_state SPR_BSPI 12 5 None S_BSPI_RAISE5 0 0;
  mk_state SPR_BSPI 11 5 None S_BSPI_RAISE6 0 0;
  mk_state SPR_BSPI 10 5 None S_BSPI_RAISE7 0 0;
  mk_state SPR_BSPI 9 5 None S_BSPI_RUN1 0 0;
  mk_state SPR_APLS 32768 5 None S_ARACH_PLAZ2 0 0;
  mk_state SPR_APLS 32769 5 None S_ARACH_PLAZ 0 0;
  mk_state SPR_APBX 32768 5 None S_ARACH_PLEX2 0 0;
  mk_state SPR_APBX 32769 5 None S_ARACH_PLEX3 0 0;
  mk_state SPR_APBX 32770 5 None S_ARACH_PLEX4 0 0;
  mk_state SPR_APBX 32771 5 None S_ARACH_PLEX5 0 0;
  mk_state SPR_APBX 32772 5 None S_NULL 0 0;
  mk_state SPR_CYBR 0 10 (Some A_Look) S_CYBER_STND2 0 0;
  mk_state SPR_CYBR 1 10 (Some A_Look) S_CYBER_STND 0 0;
  mk_state SPR_CYBR 0 3 (Some A_Hoof) S_CYBER_RUN2 0 0;
  mk_state SPR_CYBR 0 3 (Some A_Chase) S_CYBER_RUN3 0 0;
  mk_state SPR_CYBR 1 3 (Some A_Chase) S_CYBER_RUN4 0 0;
  mk_state SPR_CYBR 1 3 (Some A_Chase) S_CYBER_RUN5 0 0;
  mk_state SPR_CYBR 2 3 (Some A_Chase) S_CYBER_RUN6 0 0;
  mk_state SPR_CYBR 2 3 (Some A_Chase) S_CYBER_RUN7 0 0;
  mk_state SPR_CYBR 3 3 (Some A_Metal) S_CYBER_RUN8 0 0;
  mk_state SPR_CYBR 3 3 (Some A_Chase) S_CYBER_RUN1 0 0;
  mk_state SPR_CYBR 4 6 (Some A_FaceTarget) S_CYBER_ATK2 0 0;
  mk_state SPR_CYBR 5 12 (Some A_CyberAttack) S_CYBER_ATK3 0 0;
  mk_state SPR_CYBR 4 12 (Some A_FaceTarget) S_CYBER_ATK4 0 0;
  mk_state SPR_CYBR 5 12 (Some A_CyberAttack) S_CYBER_ATK5 0 0;
  mk_state SPR_CYBR 4 12 (Some A_FaceTarget) S_CYBER_ATK6 0 0;
  mk_state SPR_CYBR 5 12 (Some A_CyberAttack) S_CYBER_RUN1 0 0;
  mk_state SPR_CYBR 6 10 (Some A_Pain) S_CYBER_RUN1 0 0;
  mk_state SPR_CYBR 7 10 None S_CYBER_DIE2 0 0;
  mk_state SPR_CYBR 8 10 (Some A_Scream) S_CYBER_DIE3 0 0;
  mk_state SPR_CYBR 9 10 None S_CYBER_DIE4 0 0;
  mk_state SPR_CYBR 10 10 None S_CYBER_DIE5 0 0;
  mk_state SPR_CYBR 11 10 None S_CYBER_DIE6 0 0;
  mk_state SPR_CYBR 12 10 (Some A_Fall) S_CYBER_DIE7 0 0;
  mk_state SPR_CYBR 13 10 None S_CYBER_DIE8 0 0;
  mk_state SPR_CYBR 14 10 None S_CYBER_DIE9 0 0;
  mk_state SPR_CYBR 15 30 None S_CYBER_DIE10 0 0;
  mk_state SPR_CYBR 15 (-1) (Some A_BossDeath) S_NULL 0 0;
  mk_state SPR_PAIN 0 10 (Some A_Look) S_PAIN_STND 0 0;
  mk_state SPR_PAIN 0 3 (Some A_Chase) S_PAIN_RUN2 0 0;
  mk_state SPR_PAIN 0 3 (Some A_Chase) S_PAIN_RUN3 0 0;
  mk_state SPR_PAIN 1 3 (Some A_Chase) S_PAIN_RUN4 0 0;
  mk_state SPR_PAIN 1 3 (Some A_Chase) S_PAIN_RUN5 0 0;
  mk_state SPR_PAIN 2 3 (Some A_Chase) S_PAIN_RUN6 0 0;
  mk_state SPR_PAIN 2 3 (Some A_Chase) S_PAIN_RUN1 0 0;
  mk_state SPR_PAIN 3 5 (Some A_FaceTarget) S_PAIN_ATK2 0 0;
  mk_state SPR_PAIN 4 5 (Some A_FaceTarget) S_PAIN_ATK3 0 0;
  mk_state SPR_PAIN 32773 5 (Some A_FaceTarget) S_PAIN_ATK4 0 0;
  mk_state SPR_PAIN 32773 0 (Some A_PainAttack) S_PAIN_RUN1 0 0;
  mk_state SPR_PAIN 6 6 None S_PAIN_PAIN2 0 0;
  mk_state SPR_PAIN 6 6 (Some A_Pain) S_PAIN_RUN1 0 0;
  mk_state SPR_PAIN 32775 8 None S_PAIN_DIE2 0 0;
  mk_state SPR_PAIN 32776 8 (Some A_Scream) S_PAIN_DIE3 0 0;
  mk_state SPR_PAIN 32777 8 None S_PAIN_DIE4 0 0;
  mk_state SPR_PAIN 32778 8 None S_PAIN_DIE5 0 0;
  mk_state SPR_PAIN 32779 8 (Some A_PainDie) S_PAIN_DIE6 0 0;
  mk_state SPR_PAIN 32780 8 None S_NULL 0 0;
  mk_state SPR_PAIN 12 8 None S_PAIN_RAISE2 0 0;
  mk_state SPR_PAIN 11 8 None S_PAIN_RAISE3 0 0;
  mk_state SPR_PAIN 10 8 None S_PAIN_RAISE4 0 0;
  mk_state SPR_PAIN 9 8 None S_PAIN_RAISE5 0 0;
  mk_state SPR_PAIN 8 8 None S_PAIN_RAISE6 0 0;
  mk_state SPR_PAIN 7 8 None S_PAIN_RUN1 0 0].

Definition states_6 : list state_t := [
  mk_state SPR_SSWV 0 10 (Some A_Look) S_SSWV_STND2 0 0;
  mk_state SPR_SSWV 1 10 (Some A_Look) S_SSWV_STND 0 0;
  mk_state SPR_SSWV 0 3 (Some A_Chase) S_SSWV_RUN2 0 0;
  mk_state SPR_SSWV 0 3 (Some A_Chase) S_SSWV_RUN3 0 0;
  mk_state SPR_SSWV 1 3 (Some A_Chase) S_SSWV_RUN4 0 0;
  mk_state SPR_SSWV 1 3 (Some A_Chase) S_SSWV_RUN5 0 0;
  mk_state SPR_SSWV 2 3 (Some A_Chase) S_SSWV_RUN6 0 0;
  mk_state SPR_SSWV 2 3 (Some A_Chase) S_SSWV_RUN7 0 0;
  mk_state SPR_SSWV 3 3 (Some A_Chase) S_SSWV_RUN8 0 0;
  mk_state SPR_SSWV 3 3 (Some A_Chase) S_SSWV_RUN1 0 0;
  mk_state SPR_SSWV 4 10 (Some A_FaceTarget) S_SSWV_ATK2 0 0;
  mk_state SPR_SSWV 5 10 (Some A_FaceTarget) S_SSWV_ATK3 0 0;
  mk_state SPR_SSWV 32774 4 (Some A_CPosAttack) S_SSWV_ATK4 0 0;
  mk_state SPR_SSWV 5 6 (Some A_FaceTarget) S_SSWV_ATK5 0 0;
  mk_state SPR_SSWV 32774 4 (Some A_CPosAttack) S_SSWV_ATK6 0 0;
  mk_state SPR_SSWV 5 1 (Some A_CPosRefire) S_SSWV_ATK2 0 0;
  mk_state SPR_SSWV 7 3 None S_SSWV_PAIN2 0 0;
  mk_state SPR_SSWV 7 3 (Some A_Pain) S_SSWV_RUN1 0 0;
  mk_state SPR_SSWV 8 5 None S_SSWV_DIE2 0 0;
  mk_state SPR_SSWV 9 5 (Some A_Scream) S_SSWV_DIE3 0 0;
  mk_state SPR_SSWV 10 5 (Some A_Fall) S_SSWV_DIE4 0 0;
  mk_state SPR_SSWV 11 5 None S_SSWV_DIE5 0 0;
  mk_state SPR_SSWV 12 (-1) None S_NULL 0 0;
  mk_state SPR_SSWV 13 5 None S_SSWV_XDIE2 0 0;
  mk_state SPR_SSWV 14 5 (Some A_XScream) S_SSWV_XDIE3 0 0;
  mk_state SPR_SSWV 15 5 (Some A_Fall) S_SSWV_XDIE4 0 0;
  mk_state SPR_SSWV 16 5 None S_SSWV_XDIE5 0 0;
  mk_state SPR_SSWV 17 5 None S_SSWV_XDIE6 0 0;
  mk_state SPR_SSWV 18 5 None S_SSWV_XDIE7 0 0;
  mk_state SPR_SSWV 19 5 None S_SSWV_XDIE8 0 0;
  mk_state SPR_SSWV 20 5 None S_SSWV_XDIE9 0 0;
  mk_state SPR_SSWV 21 (-1) None S_NULL 0 0;
  mk_state SPR_SSWV 12 5 None S_SSWV_RAISE2 0 0;
  mk_state SPR_SSWV 11 5 None S_SSWV_RAISE3 0 0;
  mk_state SPR_SSWV 10 5 None S_SSWV_RAISE4 0 0;
  mk_state SPR_SSWV 9 5 None S_SSWV_RAISE5 0 0;
  mk_state SPR_SSWV 8 5 None S_SSWV_RUN1 0 0;
  mk_state SPR_KEEN 0 (-1) None S_KEENSTND 0 0;
  mk_state SPR_KEEN 0 6 None S_COMMKEEN2 0 0;
  mk_state SPR_KEEN 1 6 None S_COMMKEEN3 0 0;
  mk_state SPR_KEEN 2 6 (Some A_Scream) S_COMMKEEN4 0 0;
  mk_state SPR_KEEN 3 6 None S_COMMKEEN5 0 0;
  mk_state SPR_KEEN 4 6 None S_COMMKEEN6 0 0;
  mk_state SPR_KEEN 5 6 None S_COMMKEEN7 0 0;
  mk_state SPR_KEEN 6 6 None S_COMMKEEN8 0 0;
  mk_state SPR_KEEN 7 6 None S_COMMKEEN9 0 0;
  mk_state SPR_KEEN 8 6 None S_COMMKEEN10 0 0;
  mk_state SPR_KEEN 9 6 None S_COMMKEEN11 0 0;
  mk_state SPR_KEEN 10 6 (Some A_KeenDie) S_COMMKEEN12 0 0;
  mk_state SPR_KEEN 11 (-1) None S_NULL 0 0;
  mk_state SPR_KEEN 12 4 None S_KEENPAIN2 0 0;
  mk_state SPR_KEEN 12 8 (Some A_Pain) S_KEENSTND 0 0;
  mk_state SPR_BBRN 0 (-1) None S_NULL 0 0;
  mk_state SPR_BBRN 1 36 (Some A_BrainPain) S_BRAIN 0 0;
  mk_state SPR_BBRN 0 100 (Some A_BrainScream) S_BRAIN_DIE2 0 0;
  mk_state SPR_BBRN 0 10 None S_BRAIN_DIE3 0 0;
  mk_state SPR_BBRN 0 10 None S_BRAIN_DIE4 0 0;
  mk_state SPR_BBRN 0 (-1) (Some A_BrainDie) S_NULL 0 0;
  mk_state SPR_SSWV 0 10 (Some A_Look) S_BRAINEYE 0 0;
  mk_state SPR_SSWV 0 181 (Some A_BrainAwake) S_BRAINEYE1 0 0;
  mk_state SPR_SSWV 0 150 (Some A_BrainSpit) S_BRAINEYE1 0 0;
  mk_state SPR_BOSF 32768 3 (Some A_SpawnSound) S_SPAWN2 0 0;
  mk_state SPR_BOSF 32769 3 (Some A_SpawnFly) S_SPAWN3 0 0;
  mk_state SPR_BOSF 32770 3 (Some A_SpawnFly) S_SPAWN4 0 0;
  mk_state SPR_BOSF 32771 3 (Some A_SpawnFly) S_SPAWN1 0 0;
  mk_state SPR_FIRE 32768 4 (Some A_Fire) S_SPAWNFIRE2 0 0;
  mk_state SPR_FIRE 32769 4 (Some A_Fire) S_SPAWNFIRE3 0 0;
  mk_state SPR_FIRE 32770 4 (Some A_Fire) S_SPAWNFIRE4 0 0;
  mk_state SPR_FIRE 32771 4 (Some A_Fire) S_SPAWNFIRE5 0 0;
  mk_state SPR_FIRE 32772 4 (Some A_Fire) S_SPAWNFIRE6 0 0;
  mk_state SPR_FIRE 32773 4 (Some A_Fire) S_SPAWNFIRE7 0 0;
  mk_state SPR_FIRE 32774 4 (Some A_Fire) S_SPAWNFIRE8 0 0;
  mk_state SPR_FIRE 32775 4 (Some A_Fire) S_NULL 0 0;
  mk_state SPR_MISL 32769 10 None S_BRAINEXPLODE2 0 0;
  mk_state SPR_MISL 32770 10 None S_BRAINEXPLODE3 0 0;
  mk_state SPR_MISL 32771 10 (Some A_BrainExplode) S_NULL 0 0;
  mk_state SPR_ARM1 0 6 None S_ARM1A 0 0;
  mk_state SPR_ARM1 32769 7 None S_ARM1 0 0;
  mk_state SPR_ARM2 0 6 None S_ARM2A 0 0;
  mk_state SPR_ARM2 32769 6 None S_ARM2 0 0;
  mk_state SPR_BAR1 0 6 None S_BAR2 0 0;
  mk_state SPR_BAR1 1 6 None S_BAR1 0 0;
  mk_state SPR_BEXP 32768 5 None S_BEXP2 0 0;
  mk_state SPR_BEXP 32769 5 (Some A_Scream) S_BEXP3 0 0;
  mk_state SPR_BEXP 32770 5 None S_BEXP4 0 0;
  mk_state SPR_BEXP 32771 10 (Some A_Explode) S_BEXP5 0 0;
  mk_state SPR_BEXP 32772 10 None S_NULL 0 0;
  mk_state SPR_FCAN 32768 4 None S_BBAR2 0 0;
  mk_state SPR_FCAN 32769 4 None S_BBAR3 0 0;
  mk_state SPR_FCAN 32770 4 None S_BBAR1 0 0;
  mk_state SPR_BON1 0 6 None S_BON1A 0 0;
  mk_state SPR_BON1 1 6 None S_BON1B 0 0;
  mk_state SPR_BON1 2 6 None S_BON1C 0 0;
  mk_state SPR_BON1 3 6 None S_BON1D 0 0;
  mk_state SPR_BON1 2 6 None S_BON1E 0 0;
  mk_state SPR_BON1 1 6 None S_BON1 0 0;
  mk_state SPR_BON2 0 6 None S_BON2A 0 0;
  mk_state SPR_BON2 1 6 None S_BON2B 0 0;
  mk_state SPR_BON2 2 6 None S_BON2C 0 0;
  mk_state SPR_BON2 3 6 None S_BON2D 0 0;
  mk_state SPR_BON2 2 6 None S_BON2E 0 0;
  mk_state SPR_BON2 1 6 None S_BON2 0 0;
  mk_state SPR_BKEY 0 10 None S_BKEY2 0 0;
  mk_state SPR_BKEY 32769 10 None S_BKEY 0 0;
  mk_state SPR_RKEY 0 10 None S_RKEY2 0 0;
  mk_state SPR_RKEY 32769 10 None S_RKEY 0 0;
  mk_state SPR_YKEY 0 10 None S_YKEY2 0 0;
  mk_state SPR_YKEY 32769 10 None S_YKEY 0 0;
  mk_state SPR_BSKU 0 10 None S_BSKULL2 0 0;
  mk_state SPR_BSKU 32769 10 None S_BSKULL 0 0;
  mk_state SPR_RSKU 0 10 None S_RSKULL2 0 0;
  mk_state SPR_RSKU 32769 10 None S_RSKULL 0 0;
  mk_state SPR_YSKU 0 10 None S_YSKULL2 0 0;
  mk_state SPR_YSKU 32769 10 None S_YSKULL 0 0;
  mk_state SPR_STIM 0 (-1) None S_NULL 0 0;
  mk_state SPR_MEDI 0 (-1) None S_NULL 0 0;
  mk_state SPR_SOUL 32768 6 None S_SOUL2 0 0;
  mk_state SPR_SOUL 32769 6 None S_SOUL3 0 0;
  mk_state SPR_SOUL 32770 6 None S_SOUL4 0 0;
  mk_state SPR_SOUL 32771 6 None S_SOUL5 0 0;
  mk_state SPR_SOUL 32770 6 None S_SOUL6 0 0].

Definition states_7 : list state_t := [
  mk_state SPR_SOUL 32769 6 None S_SOUL 0 0;
  mk_state SPR_PINV 32768 6 None S_PINV2 0 0;
  mk_state SPR_PINV 32769 6 None S_PINV3 0 0;
  mk_state SPR_PINV 32770 6 None S_PINV4 0 0;
  mk_state SPR_PINV 32771 6 None S_PINV 0 0;
  mk_state SPR_PSTR 32768 (-1) None S_NULL 0 0;
  mk_state SPR_PINS 32768 6 None S_PINS2 0 0;
  mk_state SPR_PINS 32769 6 None S_PINS3 0 0;
  mk_state SPR_PINS 32770 6 None S_PINS4 0 0;
  mk_state SPR_PINS 32771 6 None S_PINS 0 0;
  mk_state SPR_MEGA 32768 6 None S_MEGA2 0 0;
  mk_state SPR_MEGA 32769 6 None S_MEGA3 0 0;
  mk_state SPR_MEGA 32770 6 None S_MEGA4 0 0;
  mk_state SPR_MEGA 32771 6 None S_MEGA 0 0;
  mk_state SPR_SUIT 32768 (-1) None S_NULL 0 0;
  mk_state SPR_PMAP 32768 6 None S_PMAP2 0 0;
  mk_state SPR_PMAP 32769 6 None S_PMAP3 0 0;
  mk_state SPR_PMAP 32770 6 None S_PMAP4 0 0;
  mk_state SPR_PMAP 32771 6 None S_PMAP5 0 0;
  mk_state SPR_PMAP 32770 6 None S_PMAP6 0 0;
  mk_state SPR_PMAP 32769 6 None S_PMAP 0 0;
  mk_state SPR_PVIS 32768 6 None S_PVIS2 0 0;
  mk_state SPR_PVIS 1 6 None S_PVIS 0 0;
  mk_state SPR_CLIP 0 (-1) None S_NULL 0 0;
  mk_state SPR_AMMO 0 (-1) None S_NULL 0 0;
  mk_state SPR_ROCK 0 (-1) None S_NULL 0 0;
  mk_state SPR_BROK 0 (-1) None S_NULL 0 0;
  mk_state SPR_CELL 0 (-1) None S_NULL 0 0;
  mk_state SPR_CELP 0 (-1) None S_NULL 0 0;
  mk_state SPR_SHEL 0 (-1) None S_NULL 0 0;
  mk_state SPR_SBOX 0 (-1) None S_NULL 0 0;
  mk_state SPR_BPAK 0 (-1) None S_NULL 0 0;
  mk_state SPR_BFUG 0 (-1) None S_NULL 0 0;
  mk_state SPR_MGUN 0 (-1) None S_NULL 0 0;
  mk_state SPR_CSAW 0 (-1) None S_NULL 0 0;
  mk_state SPR_LAUN 0 (-1) None S_NULL 0 0;
  mk_state SPR_PLAS 0 (-1) None S_NULL 0 0;
  mk_state SPR_SHOT 0 (-1) None S_NULL 0 0;
  mk_state SPR_SGN2 0 (-1) None S_NULL 0 0;
  mk_state SPR_COLU 32768 (-1) None S_NULL 0 0;
  mk_state SPR_SMT2 0 (-1) None S_NULL 0 0;
  mk_state SPR_GOR1 0 10 None S_BLOODYTWITCH2 0 0;
  mk_state SPR_GOR1 1 15 None S_BLOODYTWITCH3 0 0;
  mk_state SPR_GOR1 2 8 None S_BLOODYTWITCH4 0 0;
  mk_state SPR_GOR1 1 6 None S_BLOODYTWITCH 0 0;
  mk_state SPR_PLAY 13 (-1) None S_NULL 0 0;
  mk_state SPR_PLAY 18 (-1) None S_NULL 0 0;
  mk_state SPR_POL2 0 (-1) None S_NULL 0 0;
  mk_state SPR_POL5 0 (-1) None S_NULL 0 0;
  mk_state SPR_POL4 0 (-1) None S_NULL 0 0;
  mk_state SPR_POL3 32768 6 None S_HEADCANDLES2 0 0;
  mk_state SPR_POL3 32769 6 None S_HEADCANDLES 0 0;
  mk_state SPR_POL1 0 (-1) None S_NULL 0 0;
  mk_state SPR_POL6 0 6 None S_LIVESTICK2 0 0;
  mk_state SPR_POL6 1 8 None S_LIVESTICK 0 0;
  mk_state SPR_GOR2 0 (-1) None S_NULL 0 0;
  mk_state SPR_GOR3 0 (-1) None S_NULL 0 0;
  mk_state SPR_GOR4 0 (-1) None S_NULL 0 0;
  mk_state SPR_GOR5 0 (-1) None S_NULL 0 0;
  mk_state SPR_SMIT 0 (-1) None S_NULL 0 0;
  mk_state SPR_COL1 0 (-1) None S_NULL 0 0;
  mk_state SPR_COL2 0 (-1) None S_NULL 0 0;
  mk_state SPR_COL3 0 (-1) None S_NULL 0 0;
  mk_state SPR_COL4 0 (-1) None S_NULL 0 0;
  mk_state SPR_CAND 32768 (-1) None S_NULL 0 0;
  mk_state SPR_CBRA 32768 (-1) None S_NULL 0 0;
  mk_state SPR_COL6 0 (-1) None S_NULL 0 0;
  mk_state SPR_TRE1 0 (-1) None S_NULL 0 0;
  mk_state SPR_TRE2 0 (-1) None S_NULL 0 0;
  mk_state SPR_ELEC 0 (-1) None S_NULL 0 0;
  mk_state SPR_CEYE 32768 6 None S_EVILEYE2 0 0;
  mk_state SPR_CEYE 32769 6 None S_EVILEYE3 0 0;
  mk_state SPR_CEYE 32770 6 None S_EVILEYE4 0 0;
  mk_state SPR_CEYE 32769 6 None S_EVILEYE 0 0;
  mk_state SPR_FSKU 32768 6 None S_FLOATSKULL2 0 0;
  mk_state SPR_FSKU 32769 6 None S_FLOATSKULL3 0 0;
  mk_state SPR_FSKU 32770 6 None S_FLOATSKULL 0 0;
  mk_state SPR_COL5 0 14 None S_HEARTCOL2 0 0;
  mk_state SPR_COL5 1 14 None S_HEARTCOL 0 0;
  mk_state SPR_TBLU 32768 4 None S_BLUETORCH2 0 0;
  mk_state SPR_TBLU 32769 4 None S_BLUETORCH3 0 0;
  mk_state SPR_TBLU 32770 4 None S_BLUETORCH4 0 0;
  mk_state SPR_TBLU 32771 4 None S_BLUETORCH 0 0;
  mk_state SPR_TGRN 32768 4 None S_GREENTORCH2 0 0;
  mk_state SPR_TGRN 32769 4 None S_GREENTORCH3 0 0;
  mk_state SPR_TGRN 32770 4 None S_GREENTORCH4 0 0;
  mk_state SPR_TGRN 32771 4 None S_GREENTORCH 0 0;
  mk_state SPR_TRED 32768 4 None S_REDTORCH2 0 0;
  mk_state SPR_TRED 32769 4 None S_REDTORCH3 0 0;
  mk_state SPR_TRED 32770 4 None S_REDTORCH4 0 0;
  mk_state SPR_TRED 32771 4 None S_REDTORCH 0 0;
  mk_state SPR_SMBT 32768 4 None S_BTORCHSHRT2 0 0;
  mk_state SPR_SMBT 32769 4 None S_BTORCHSHRT3 0 0;
  mk_state SPR_SMBT 32770 4 None S_BTORCHSHRT4 0 0;
  mk_state SPR_SMBT 32771 4 None S_BTORCHSHRT 0 0;
  mk_state SPR_SMGT 32768 4 None S_GTORCHSHRT2 0 0;
  mk_state SPR_SMGT 32769 4 None S_GTORCHSHRT3 0 0;
  mk_state SPR_SMGT 32770 4 None S_GTORCHSHRT4 0 0;
  mk_state SPR_SMGT 32771 4 None S_GTORCHSHRT 0 0;
  mk_state SPR_SMRT 32768 4 None S_RTORCHSHRT2 0 0;
  mk_state SPR_SMRT 32769 4 None S_RTORCHSHRT3 0 0;
  mk_state SPR_SMRT 32770 4 None S_RTORCHSHRT4 0 0;
  mk_state SPR_SMRT 32771 4 None S_RTORCHSHRT 0 0;
  mk_state SPR_HDB1 0 (-1) None S_NULL 0 0;
  mk_state SPR_HDB2 0 (-1) None S_NULL 0 0;
  mk_state SPR_HDB3 0 (-1) None S_NULL 0 0;
  mk_state SPR_HDB4 0 (-1) None S_NULL 0 0;
  mk_state SPR_HDB5 0 (-1) None S_NULL 0 0;
  mk_state SPR_HDB6 0 (-1) None S_NULL 0 0;
  mk_state SPR_POB1 0 (-1) None S_NULL 0 0;
  mk_state SPR_POB2 0 (-1) None S_NULL 0 0;
  mk_state SPR_BRS1 0 (-1) None S_NULL 0 0;
  mk_state SPR_TLMP 32768 4 None S_TECHLAMP2 0 0;
  mk_state SPR_TLMP 32769 4 None S_TECHLAMP3 0 0;
  mk_state SPR_TLMP 32770 4 None S_TECHLAMP4 0 0;
  mk_state SPR_TLMP 32771 4 None S_TECHLAMP 0 0;
  mk_state SPR_TLP2 32768 4 None S_TECH2LAMP2 0 0;
  mk_state SPR_TLP2 32769 4 None S_TECH2LAMP3 0 0;
  mk_state SPR_TLP2 32770 4 None S_TECH2LAMP4 0 0;
  mk_state SPR_TLP2 32771 4 None S_TECH2LAMP 0 0].

Definition states : list state_t := states_0 ++ states_1 ++ states_2 ++ states_3 ++ states_4 ++ states_5 ++ states_6 ++ states_7.
