(* ===== verification/InfoThings.v ===== *)
(** * The table of the types of things (info.c) *)
From S2P Require Import Prelude Info.

Definition mobjinfo_0 : list mobjinfo_t := [
  (* MT_PLAYER *)
    mk_info (-1) S_PLAY 100 S_PLAY_RUN1 sfx_None 0 sfx_None S_PLAY_PAIN 255 sfx_plpain S_NULL S_PLAY_ATK1 S_PLAY_DIE1 S_PLAY_XDIE1
    sfx_pldeth 0 (16 * FRACUNIT) (56 * FRACUNIT) 100 0 sfx_None (flags_of [MF_SOLID; MF_SHOOTABLE; MF_DROPOFF; MF_PICKUP; MF_NOTDMATCH])
    S_NULL;
  (* MT_POSSESSED *)
    mk_info 3004 S_POSS_STND 20 S_POSS_RUN1 sfx_posit1 8 sfx_pistol S_POSS_PAIN 200 sfx_popain 0 S_POSS_ATK1 S_POSS_DIE1 S_POSS_XDIE1
    sfx_podth1 8 (20 * FRACUNIT) (56 * FRACUNIT) 100 0 sfx_posact (flags_of [MF_SOLID; MF_SHOOTABLE; MF_COUNTKILL]) S_POSS_RAISE1;
  (* MT_SHOTGUY *)
    mk_info 9 S_SPOS_STND 30 S_SPOS_RUN1 sfx_posit2 8 0 S_SPOS_PAIN 170 sfx_popain 0 S_SPOS_ATK1 S_SPOS_DIE1 S_SPOS_XDIE1 sfx_podth2 8
    (20 * FRACUNIT) (56 * FRACUNIT) 100 0 sfx_posact (flags_of [MF_SOLID; MF_SHOOTABLE; MF_COUNTKILL]) S_SPOS_RAISE1;
  (* MT_VILE *)
    mk_info 64 S_VILE_STND 700 S_VILE_RUN1 sfx_vilsit 8 0 S_VILE_PAIN 10 sfx_vipain 0 S_VILE_ATK1 S_VILE_DIE1 S_NULL sfx_vildth 15
    (20 * FRACUNIT) (56 * FRACUNIT) 500 0 sfx_vilact (flags_of [MF_SOLID; MF_SHOOTABLE; MF_COUNTKILL]) S_NULL;
  (* MT_FIRE *)
    mk_info (-1) S_FIRE1 1000 S_NULL sfx_None 8 sfx_None S_NULL 0 sfx_None S_NULL S_NULL S_NULL S_NULL sfx_None 0 (20 * FRACUNIT)
    (16 * FRACUNIT) 100 0 sfx_None (flags_of [MF_NOBLOCKMAP; MF_NOGRAVITY]) S_NULL].

Definition mobjinfo_1 : list mobjinfo_t := [
  (* MT_UNDEAD *)
    mk_info 66 S_SKEL_STND 300 S_SKEL_RUN1 sfx_skesit 8 0 S_SKEL_PAIN 100 sfx_popain S_SKEL_FIST1 S_SKEL_MISS1 S_SKEL_DIE1 S_NULL
    sfx_skedth 10 (20 * FRACUNIT) (56 * FRACUNIT) 500 0 sfx_skeact (flags_of [MF_SOLID; MF_SHOOTABLE; MF_COUNTKILL]) S_SKEL_RAISE1;
  (* MT_TRACER *)
    mk_info (-1) S_TRACER 1000 S_NULL sfx_skeatk 8 sfx_None S_NULL 0 sfx_None S_NULL S_NULL S_TRACEEXP1 S_NULL sfx_barexp (10 * FRACUNIT)
    (11 * FRACUNIT) (8 * FRACUNIT) 100 10 sfx_None (flags_of [MF_NOBLOCKMAP; MF_MISSILE; MF_DROPOFF; MF_NOGRAVITY]) S_NULL;
  (* MT_SMOKE *)
    mk_info (-1) S_SMOKE1 1000 S_NULL sfx_None 8 sfx_None S_NULL 0 sfx_None S_NULL S_NULL S_NULL S_NULL sfx_None 0 (20 * FRACUNIT)
    (16 * FRACUNIT) 100 0 sfx_None (flags_of [MF_NOBLOCKMAP; MF_NOGRAVITY]) S_NULL;
  (* MT_FATSO *)
    mk_info 67 S_FATT_STND 600 S_FATT_RUN1 sfx_mansit 8 0 S_FATT_PAIN 80 sfx_mnpain 0 S_FATT_ATK1 S_FATT_DIE1 S_NULL sfx_mandth 8
    (48 * FRACUNIT) (64 * FRACUNIT) 1000 0 sfx_posact (flags_of [MF_SOLID; MF_SHOOTABLE; MF_COUNTKILL]) S_FATT_RAISE1;
  (* MT_FATSHOT *)
    mk_info (-1) S_FATSHOT1 1000 S_NULL sfx_firsht 8 sfx_None S_NULL 0 sfx_None S_NULL S_NULL S_FATSHOTX1 S_NULL sfx_firxpl (20 * FRACUNIT)
    (6 * FRACUNIT) (8 * FRACUNIT) 100 8 sfx_None (flags_of [MF_NOBLOCKMAP; MF_MISSILE; MF_DROPOFF; MF_NOGRAVITY]) S_NULL].

Definition mobjinfo_2 : list mobjinfo_t := [
  (* MT_CHAINGUY *)
    mk_info 65 S_CPOS_STND 70 S_CPOS_RUN1 sfx_posit2 8 0 S_CPOS_PAIN 170 sfx_popain 0 S_CPOS_ATK1 S_CPOS_DIE1 S_CPOS_XDIE1 sfx_podth2 8
    (20 * FRACUNIT) (56 * FRACUNIT) 100 0 sfx_posact (flags_of [MF_SOLID; MF_SHOOTABLE; MF_COUNTKILL]) S_CPOS_RAISE1;
  (* MT_TROOP *)
    mk_info 3001 S_TROO_STND 60 S_TROO_RUN1 sfx_bgsit1 8 0 S_TROO_PAIN 200 sfx_popain S_TROO_ATK1 S_TROO_ATK1 S_TROO_DIE1 S_TROO_XDIE1
    sfx_bgdth1 8 (20 * FRACUNIT) (56 * FRACUNIT) 100 0 sfx_bgact (flags_of [MF_SOLID; MF_SHOOTABLE; MF_COUNTKILL]) S_TROO_RAISE1;
  (* MT_SERGEANT *)
    mk_info 3002 S_SARG_STND 150 S_SARG_RUN1 sfx_sgtsit 8 sfx_sgtatk S_SARG_PAIN 180 sfx_dmpain S_SARG_ATK1 0 S_SARG_DIE1 S_NULL sfx_sgtdth
    10 (30 * FRACUNIT) (56 * FRACUNIT) 400 0 sfx_dmact (flags_of [MF_SOLID; MF_SHOOTABLE; MF_COUNTKILL]) S_SARG_RAISE1;
  (* MT_SHADOWS *)
    mk_info 58 S_SARG_STND 150 S_SARG_RUN1 sfx_sgtsit 8 sfx_sgtatk S_SARG_PAIN 180 sfx_dmpain S_SARG_ATK1 0 S_SARG_DIE1 S_NULL sfx_sgtdth
    10 (30 * FRACUNIT) (56 * FRACUNIT) 400 0 sfx_dmact (flags_of [MF_SOLID; MF_SHOOTABLE; MF_SHADOW; MF_COUNTKILL]) S_SARG_RAISE1;
  (* MT_HEAD *)
    mk_info 3005 S_HEAD_STND 400 S_HEAD_RUN1 sfx_cacsit 8 0 S_HEAD_PAIN 128 sfx_dmpain 0 S_HEAD_ATK1 S_HEAD_DIE1 S_NULL sfx_cacdth 8
    (31 * FRACUNIT) (56 * FRACUNIT) 400 0 sfx_dmact (flags_of [MF_SOLID; MF_SHOOTABLE; MF_FLOAT; MF_NOGRAVITY; MF_COUNTKILL]) S_HEAD_RAISE1].

Definition mobjinfo_3 : list mobjinfo_t := [
  (* MT_BRUISER *)
    mk_info 3003 S_BOSS_STND 1000 S_BOSS_RUN1 sfx_brssit 8 0 S_BOSS_PAIN 50 sfx_dmpain S_BOSS_ATK1 S_BOSS_ATK1 S_BOSS_DIE1 S_NULL
    sfx_brsdth 8 (24 * FRACUNIT) (64 * FRACUNIT) 1000 0 sfx_dmact (flags_of [MF_SOLID; MF_SHOOTABLE; MF_COUNTKILL]) S_BOSS_RAISE1;
  (* MT_BRUISERSHOT *)
    mk_info (-1) S_BRBALL1 1000 S_NULL sfx_firsht 8 sfx_None S_NULL 0 sfx_None S_NULL S_NULL S_BRBALLX1 S_NULL sfx_firxpl (15 * FRACUNIT)
    (6 * FRACUNIT) (8 * FRACUNIT) 100 8 sfx_None (flags_of [MF_NOBLOCKMAP; MF_MISSILE; MF_DROPOFF; MF_NOGRAVITY]) S_NULL;
  (* MT_KNIGHT *)
    mk_info 69 S_BOS2_STND 500 S_BOS2_RUN1 sfx_kntsit 8 0 S_BOS2_PAIN 50 sfx_dmpain S_BOS2_ATK1 S_BOS2_ATK1 S_BOS2_DIE1 S_NULL sfx_kntdth 8
    (24 * FRACUNIT) (64 * FRACUNIT) 1000 0 sfx_dmact (flags_of [MF_SOLID; MF_SHOOTABLE; MF_COUNTKILL]) S_BOS2_RAISE1;
  (* MT_SKULL *)
    mk_info 3006 S_SKULL_STND 100 S_SKULL_RUN1 0 8 sfx_sklatk S_SKULL_PAIN 256 sfx_dmpain 0 S_SKULL_ATK1 S_SKULL_DIE1 S_NULL sfx_firxpl 8
    (16 * FRACUNIT) (56 * FRACUNIT) 50 3 sfx_dmact (flags_of [MF_SOLID; MF_SHOOTABLE; MF_FLOAT; MF_NOGRAVITY]) S_NULL;
  (* MT_SPIDER *)
    mk_info 7 S_SPID_STND 3000 S_SPID_RUN1 sfx_spisit 8 sfx_shotgn S_SPID_PAIN 40 sfx_dmpain 0 S_SPID_ATK1 S_SPID_DIE1 S_NULL sfx_spidth 12
    (128 * FRACUNIT) (100 * FRACUNIT) 1000 0 sfx_dmact (flags_of [MF_SOLID; MF_SHOOTABLE; MF_COUNTKILL]) S_NULL].

Definition mobjinfo_4 : list mobjinfo_t := [
  (* MT_BABY *)
    mk_info 68 S_BSPI_STND 500 S_BSPI_SIGHT sfx_bspsit 8 0 S_BSPI_PAIN 128 sfx_dmpain 0 S_BSPI_ATK1 S_BSPI_DIE1 S_NULL sfx_bspdth 12
    (64 * FRACUNIT) (64 * FRACUNIT) 600 0 sfx_bspact (flags_of [MF_SOLID; MF_SHOOTABLE; MF_COUNTKILL]) S_BSPI_RAISE1;
  (* MT_CYBORG *)
    mk_info 16 S_CYBER_STND 4000 S_CYBER_RUN1 sfx_cybsit 8 0 S_CYBER_PAIN 20 sfx_dmpain 0 S_CYBER_ATK1 S_CYBER_DIE1 S_NULL sfx_cybdth 16
    (40 * FRACUNIT) (110 * FRACUNIT) 1000 0 sfx_dmact (flags_of [MF_SOLID; MF_SHOOTABLE; MF_COUNTKILL]) S_NULL;
  (* MT_PAIN *)
    mk_info 71 S_PAIN_STND 400 S_PAIN_RUN1 sfx_pesit 8 0 S_PAIN_PAIN 128 sfx_pepain 0 S_PAIN_ATK1 S_PAIN_DIE1 S_NULL sfx_pedth 8
    (31 * FRACUNIT) (56 * FRACUNIT) 400 0 sfx_dmact (flags_of [MF_SOLID; MF_SHOOTABLE; MF_FLOAT; MF_NOGRAVITY; MF_COUNTKILL]) S_PAIN_RAISE1;
  (* MT_WOLFSS *)
    mk_info 84 S_SSWV_STND 50 S_SSWV_RUN1 sfx_sssit 8 0 S_SSWV_PAIN 170 sfx_popain 0 S_SSWV_ATK1 S_SSWV_DIE1 S_SSWV_XDIE1 sfx_ssdth 8
    (20 * FRACUNIT) (56 * FRACUNIT) 100 0 sfx_posact (flags_of [MF_SOLID; MF_SHOOTABLE; MF_COUNTKILL]) S_SSWV_RAISE1;
  (* MT_KEEN *)
    mk_info 72 S_KEENSTND 100 S_NULL sfx_None 8 sfx_None S_KEENPAIN 256 sfx_keenpn S_NULL S_NULL S_COMMKEEN S_NULL sfx_keendt 0
    (16 * FRACUNIT) (72 * FRACUNIT) 10000000 0 sfx_None (flags_of [MF_SOLID; MF_SPAWNCEILING; MF_NOGRAVITY; MF_SHOOTABLE; MF_COUNTKILL])
    S_NULL].

Definition mobjinfo_5 : list mobjinfo_t := [
  (* MT_BOSSBRAIN *)
    mk_info 88 S_BRAIN 250 S_NULL sfx_None 8 sfx_None S_BRAIN_PAIN 255 sfx_bospn S_NULL S_NULL S_BRAIN_DIE1 S_NULL sfx_bosdth 0
    (16 * FRACUNIT) (16 * FRACUNIT) 10000000 0 sfx_None (flags_of [MF_SOLID; MF_SHOOTABLE]) S_NULL;
  (* MT_BOSSSPIT *)
    mk_info 89 S_BRAINEYE 1000 S_BRAINEYESEE sfx_None 8 sfx_None S_NULL 0 sfx_None S_NULL S_NULL S_NULL S_NULL sfx_None 0 (20 * FRACUNIT)
    (32 * FRACUNIT) 100 0 sfx_None (flags_of [MF_NOBLOCKMAP; MF_NOSECTOR]) S_NULL;
  (* MT_BOSSTARGET *)
    mk_info 87 S_NULL 1000 S_NULL sfx_None 8 sfx_None S_NULL 0 sfx_None S_NULL S_NULL S_NULL S_NULL sfx_None 0 (20 * FRACUNIT)
    (32 * FRACUNIT) 100 0 sfx_None (flags_of [MF_NOBLOCKMAP; MF_NOSECTOR]) S_NULL;
  (* MT_SPAWNSHOT *)
    mk_info (-1) S_SPAWN1 1000 S_NULL sfx_bospit 8 sfx_None S_NULL 0 sfx_None S_NULL S_NULL S_NULL S_NULL sfx_firxpl (10 * FRACUNIT)
    (6 * FRACUNIT) (32 * FRACUNIT) 100 3 sfx_None (flags_of [MF_NOBLOCKMAP; MF_MISSILE; MF_DROPOFF; MF_NOGRAVITY; MF_NOCLIP]) S_NULL;
  (* MT_SPAWNFIRE *)
    mk_info (-1) S_SPAWNFIRE1 1000 S_NULL sfx_None 8 sfx_None S_NULL 0 sfx_None S_NULL S_NULL S_NULL S_NULL sfx_None 0 (20 * FRACUNIT)
    (16 * FRACUNIT) 100 0 sfx_None (flags_of [MF_NOBLOCKMAP; MF_NOGRAVITY]) S_NULL].

Definition mobjinfo_6 : list mobjinfo_t := [
  (* MT_BARREL *)
    mk_info 2035 S_BAR1 20 S_NULL sfx_None 8 sfx_None S_NULL 0 sfx_None S_NULL S_NULL S_BEXP S_NULL sfx_barexp 0 (10 * FRACUNIT)
    (42 * FRACUNIT) 100 0 sfx_None (flags_of [MF_SOLID; MF_SHOOTABLE; MF_NOBLOOD]) S_NULL;
  (* MT_TROOPSHOT *)
    mk_info (-1) S_TBALL1 1000 S_NULL sfx_firsht 8 sfx_None S_NULL 0 sfx_None S_NULL S_NULL S_TBALLX1 S_NULL sfx_firxpl (10 * FRACUNIT)
    (6 * FRACUNIT) (8 * FRACUNIT) 100 3 sfx_None (flags_of [MF_NOBLOCKMAP; MF_MISSILE; MF_DROPOFF; MF_NOGRAVITY]) S_NULL;
  (* MT_HEADSHOT *)
    mk_info (-1) S_RBALL1 1000 S_NULL sfx_firsht 8 sfx_None S_NULL 0 sfx_None S_NULL S_NULL S_RBALLX1 S_NULL sfx_firxpl (10 * FRACUNIT)
    (6 * FRACUNIT) (8 * FRACUNIT) 100 5 sfx_None (flags_of [MF_NOBLOCKMAP; MF_MISSILE; MF_DROPOFF; MF_NOGRAVITY]) S_NULL;
  (* MT_ROCKET *)
    mk_info (-1) S_ROCKET 1000 S_NULL sfx_rlaunc 8 sfx_None S_NULL 0 sfx_None S_NULL S_NULL S_EXPLODE1 S_NULL sfx_barexp (20 * FRACUNIT)
    (11 * FRACUNIT) (8 * FRACUNIT) 100 20 sfx_None (flags_of [MF_NOBLOCKMAP; MF_MISSILE; MF_DROPOFF; MF_NOGRAVITY]) S_NULL;
  (* MT_PLASMA *)
    mk_info (-1) S_PLASBALL 1000 S_NULL sfx_plasma 8 sfx_None S_NULL 0 sfx_None S_NULL S_NULL S_PLASEXP S_NULL sfx_firxpl (25 * FRACUNIT)
    (13 * FRACUNIT) (8 * FRACUNIT) 100 5 sfx_None (flags_of [MF_NOBLOCKMAP; MF_MISSILE; MF_DROPOFF; MF_NOGRAVITY]) S_NULL].

Definition mobjinfo_7 : list mobjinfo_t := [
  (* MT_BFG *)
    mk_info (-1) S_BFGSHOT 1000 S_NULL 0 8 sfx_None S_NULL 0 sfx_None S_NULL S_NULL S_BFGLAND S_NULL sfx_rxplod (25 * FRACUNIT)
    (13 * FRACUNIT) (8 * FRACUNIT) 100 100 sfx_None (flags_of [MF_NOBLOCKMAP; MF_MISSILE; MF_DROPOFF; MF_NOGRAVITY]) S_NULL;
  (* MT_ARACHPLAZ *)
    mk_info (-1) S_ARACH_PLAZ 1000 S_NULL sfx_plasma 8 sfx_None S_NULL 0 sfx_None S_NULL S_NULL S_ARACH_PLEX S_NULL sfx_firxpl
    (25 * FRACUNIT) (13 * FRACUNIT) (8 * FRACUNIT) 100 5 sfx_None (flags_of [MF_NOBLOCKMAP; MF_MISSILE; MF_DROPOFF; MF_NOGRAVITY]) S_NULL;
  (* MT_PUFF *)
    mk_info (-1) S_PUFF1 1000 S_NULL sfx_None 8 sfx_None S_NULL 0 sfx_None S_NULL S_NULL S_NULL S_NULL sfx_None 0 (20 * FRACUNIT)
    (16 * FRACUNIT) 100 0 sfx_None (flags_of [MF_NOBLOCKMAP; MF_NOGRAVITY]) S_NULL;
  (* MT_BLOOD *)
    mk_info (-1) S_BLOOD1 1000 S_NULL sfx_None 8 sfx_None S_NULL 0 sfx_None S_NULL S_NULL S_NULL S_NULL sfx_None 0 (20 * FRACUNIT)
    (16 * FRACUNIT) 100 0 sfx_None MF_NOBLOCKMAP S_NULL;
  (* MT_TFOG *)
    mk_info (-1) S_TFOG 1000 S_NULL sfx_None 8 sfx_None S_NULL 0 sfx_None S_NULL S_NULL S_NULL S_NULL sfx_None 0 (20 * FRACUNIT)
    (16 * FRACUNIT) 100 0 sfx_None (flags_of [MF_NOBLOCKMAP; MF_NOGRAVITY]) S_NULL].

Definition mobjinfo_8 : list mobjinfo_t := [
  (* MT_IFOG *)
    mk_info (-1) S_IFOG 1000 S_NULL sfx_None 8 sfx_None S_NULL 0 sfx_None S_NULL S_NULL S_NULL S_NULL sfx_None 0 (20 * FRACUNIT)
    (16 * FRACUNIT) 100 0 sfx_None (flags_of [MF_NOBLOCKMAP; MF_NOGRAVITY]) S_NULL;
  (* MT_TELEPORTMAN *)
    mk_info 14 S_NULL 1000 S_NULL sfx_None 8 sfx_None S_NULL 0 sfx_None S_NULL S_NULL S_NULL S_NULL sfx_None 0 (20 * FRACUNIT)
    (16 * FRACUNIT) 100 0 sfx_None (flags_of [MF_NOBLOCKMAP; MF_NOSECTOR]) S_NULL;
  (* MT_EXTRABFG *)
    mk_info (-1) S_BFGEXP 1000 S_NULL sfx_None 8 sfx_None S_NULL 0 sfx_None S_NULL S_NULL S_NULL S_NULL sfx_None 0 (20 * FRACUNIT)
    (16 * FRACUNIT) 100 0 sfx_None (flags_of [MF_NOBLOCKMAP; MF_NOGRAVITY]) S_NULL;
  (* MT_MISC0 *)
    mk_info 2018 S_ARM1 1000 S_NULL sfx_None 8 sfx_None S_NULL 0 sfx_None S_NULL S_NULL S_NULL S_NULL sfx_None 0 (20 * FRACUNIT)
    (16 * FRACUNIT) 100 0 sfx_None MF_SPECIAL S_NULL;
  (* MT_MISC1 *)
    mk_info 2019 S_ARM2 1000 S_NULL sfx_None 8 sfx_None S_NULL 0 sfx_None S_NULL S_NULL S_NULL S_NULL sfx_None 0 (20 * FRACUNIT)
    (16 * FRACUNIT) 100 0 sfx_None MF_SPECIAL S_NULL].

Definition mobjinfo_9 : list mobjinfo_t := [
  (* MT_MISC2 *)
    mk_info 2014 S_BON1 1000 S_NULL sfx_None 8 sfx_None S_NULL 0 sfx_None S_NULL S_NULL S_NULL S_NULL sfx_None 0 (20 * FRACUNIT)
    (16 * FRACUNIT) 100 0 sfx_None (flags_of [MF_SPECIAL; MF_COUNTITEM]) S_NULL;
  (* MT_MISC3 *)
    mk_info 2015 S_BON2 1000 S_NULL sfx_None 8 sfx_None S_NULL 0 sfx_None S_NULL S_NULL S_NULL S_NULL sfx_None 0 (20 * FRACUNIT)
    (16 * FRACUNIT) 100 0 sfx_None (flags_of [MF_SPECIAL; MF_COUNTITEM]) S_NULL;
  (* MT_MISC4 *)
    mk_info 5 S_BKEY 1000 S_NULL sfx_None 8 sfx_None S_NULL 0 sfx_None S_NULL S_NULL S_NULL S_NULL sfx_None 0 (20 * FRACUNIT)
    (16 * FRACUNIT) 100 0 sfx_None (flags_of [MF_SPECIAL; MF_NOTDMATCH]) S_NULL;
  (* MT_MISC5 *)
    mk_info 13 S_RKEY 1000 S_NULL sfx_None 8 sfx_None S_NULL 0 sfx_None S_NULL S_NULL S_NULL S_NULL sfx_None 0 (20 * FRACUNIT)
    (16 * FRACUNIT) 100 0 sfx_None (flags_of [MF_SPECIAL; MF_NOTDMATCH]) S_NULL;
  (* MT_MISC6 *)
    mk_info 6 S_YKEY 1000 S_NULL sfx_None 8 sfx_None S_NULL 0 sfx_None S_NULL S_NULL S_NULL S_NULL sfx_None 0 (20 * FRACUNIT)
    (16 * FRACUNIT) 100 0 sfx_None (flags_of [MF_SPECIAL; MF_NOTDMATCH]) S_NULL].

Definition mobjinfo_10 : list mobjinfo_t := [
  (* MT_MISC7 *)
    mk_info 39 S_YSKULL 1000 S_NULL sfx_None 8 sfx_None S_NULL 0 sfx_None S_NULL S_NULL S_NULL S_NULL sfx_None 0 (20 * FRACUNIT)
    (16 * FRACUNIT) 100 0 sfx_None (flags_of [MF_SPECIAL; MF_NOTDMATCH]) S_NULL;
  (* MT_MISC8 *)
    mk_info 38 S_RSKULL 1000 S_NULL sfx_None 8 sfx_None S_NULL 0 sfx_None S_NULL S_NULL S_NULL S_NULL sfx_None 0 (20 * FRACUNIT)
    (16 * FRACUNIT) 100 0 sfx_None (flags_of [MF_SPECIAL; MF_NOTDMATCH]) S_NULL;
  (* MT_MISC9 *)
    mk_info 40 S_BSKULL 1000 S_NULL sfx_None 8 sfx_None S_NULL 0 sfx_None S_NULL S_NULL S_NULL S_NULL sfx_None 0 (20 * FRACUNIT)
    (16 * FRACUNIT) 100 0 sfx_None (flags_of [MF_SPECIAL; MF_NOTDMATCH]) S_NULL;
  (* MT_MISC10 *)
    mk_info 2011 S_STIM 1000 S_NULL sfx_None 8 sfx_None S_NULL 0 sfx_None S_NULL S_NULL S_NULL S_NULL sfx_None 0 (20 * FRACUNIT)
    (16 * FRACUNIT) 100 0 sfx_None MF_SPECIAL S_NULL;
  (* MT_MISC11 *)
    mk_info 2012 S_MEDI 1000 S_NULL sfx_None 8 sfx_None S_NULL 0 sfx_None S_NULL S_NULL S_NULL S_NULL sfx_None 0 (20 * FRACUNIT)
    (16 * FRACUNIT) 100 0 sfx_None MF_SPECIAL S_NULL].

Definition mobjinfo_11 : list mobjinfo_t := [
  (* MT_MISC12 *)
    mk_info 2013 S_SOUL 1000 S_NULL sfx_None 8 sfx_None S_NULL 0 sfx_None S_NULL S_NULL S_NULL S_NULL sfx_None 0 (20 * FRACUNIT)
    (16 * FRACUNIT) 100 0 sfx_None (flags_of [MF_SPECIAL; MF_COUNTITEM]) S_NULL;
  (* MT_INV *)
    mk_info 2022 S_PINV 1000 S_NULL sfx_None 8 sfx_None S_NULL 0 sfx_None S_NULL S_NULL S_NULL S_NULL sfx_None 0 (20 * FRACUNIT)
    (16 * FRACUNIT) 100 0 sfx_None (flags_of [MF_SPECIAL; MF_COUNTITEM]) S_NULL;
  (* MT_MISC13 *)
    mk_info 2023 S_PSTR 1000 S_NULL sfx_None 8 sfx_None S_NULL 0 sfx_None S_NULL S_NULL S_NULL S_NULL sfx_None 0 (20 * FRACUNIT)
    (16 * FRACUNIT) 100 0 sfx_None (flags_of [MF_SPECIAL; MF_COUNTITEM]) S_NULL;
  (* MT_INS *)
    mk_info 2024 S_PINS 1000 S_NULL sfx_None 8 sfx_None S_NULL 0 sfx_None S_NULL S_NULL S_NULL S_NULL sfx_None 0 (20 * FRACUNIT)
    (16 * FRACUNIT) 100 0 sfx_None (flags_of [MF_SPECIAL; MF_COUNTITEM]) S_NULL;
  (* MT_MISC14 *)
    mk_info 2025 S_SUIT 1000 S_NULL sfx_None 8 sfx_None S_NULL 0 sfx_None S_NULL S_NULL S_NULL S_NULL sfx_None 0 (20 * FRACUNIT)
    (16 * FRACUNIT) 100 0 sfx_None MF_SPECIAL S_NULL].

Definition mobjinfo_12 : list mobjinfo_t := [
  (* MT_MISC15 *)
    mk_info 2026 S_PMAP 1000 S_NULL sfx_None 8 sfx_None S_NULL 0 sfx_None S_NULL S_NULL S_NULL S_NULL sfx_None 0 (20 * FRACUNIT)
    (16 * FRACUNIT) 100 0 sfx_None (flags_of [MF_SPECIAL; MF_COUNTITEM]) S_NULL;
  (* MT_MISC16 *)
    mk_info 2045 S_PVIS 1000 S_NULL sfx_None 8 sfx_None S_NULL 0 sfx_None S_NULL S_NULL S_NULL S_NULL sfx_None 0 (20 * FRACUNIT)
    (16 * FRACUNIT) 100 0 sfx_None (flags_of [MF_SPECIAL; MF_COUNTITEM]) S_NULL;
  (* MT_MEGA *)
    mk_info 83 S_MEGA 1000 S_NULL sfx_None 8 sfx_None S_NULL 0 sfx_None S_NULL S_NULL S_NULL S_NULL sfx_None 0 (20 * FRACUNIT)
    (16 * FRACUNIT) 100 0 sfx_None (flags_of [MF_SPECIAL; MF_COUNTITEM]) S_NULL;
  (* MT_CLIP *)
    mk_info 2007 S_CLIP 1000 S_NULL sfx_None 8 sfx_None S_NULL 0 sfx_None S_NULL S_NULL S_NULL S_NULL sfx_None 0 (20 * FRACUNIT)
    (16 * FRACUNIT) 100 0 sfx_None MF_SPECIAL S_NULL;
  (* MT_MISC17 *)
    mk_info 2048 S_AMMO 1000 S_NULL sfx_None 8 sfx_None S_NULL 0 sfx_None S_NULL S_NULL S_NULL S_NULL sfx_None 0 (20 * FRACUNIT)
    (16 * FRACUNIT) 100 0 sfx_None MF_SPECIAL S_NULL].

Definition mobjinfo_13 : list mobjinfo_t := [
  (* MT_MISC18 *)
    mk_info 2010 S_ROCK 1000 S_NULL sfx_None 8 sfx_None S_NULL 0 sfx_None S_NULL S_NULL S_NULL S_NULL sfx_None 0 (20 * FRACUNIT)
    (16 * FRACUNIT) 100 0 sfx_None MF_SPECIAL S_NULL;
  (* MT_MISC19 *)
    mk_info 2046 S_BROK 1000 S_NULL sfx_None 8 sfx_None S_NULL 0 sfx_None S_NULL S_NULL S_NULL S_NULL sfx_None 0 (20 * FRACUNIT)
    (16 * FRACUNIT) 100 0 sfx_None MF_SPECIAL S_NULL;
  (* MT_MISC20 *)
    mk_info 2047 S_CELL 1000 S_NULL sfx_None 8 sfx_None S_NULL 0 sfx_None S_NULL S_NULL S_NULL S_NULL sfx_None 0 (20 * FRACUNIT)
    (16 * FRACUNIT) 100 0 sfx_None MF_SPECIAL S_NULL;
  (* MT_MISC21 *)
    mk_info 17 S_CELP 1000 S_NULL sfx_None 8 sfx_None S_NULL 0 sfx_None S_NULL S_NULL S_NULL S_NULL sfx_None 0 (20 * FRACUNIT)
    (16 * FRACUNIT) 100 0 sfx_None MF_SPECIAL S_NULL;
  (* MT_MISC22 *)
    mk_info 2008 S_SHEL 1000 S_NULL sfx_None 8 sfx_None S_NULL 0 sfx_None S_NULL S_NULL S_NULL S_NULL sfx_None 0 (20 * FRACUNIT)
    (16 * FRACUNIT) 100 0 sfx_None MF_SPECIAL S_NULL].

Definition mobjinfo_14 : list mobjinfo_t := [
  (* MT_MISC23 *)
    mk_info 2049 S_SBOX 1000 S_NULL sfx_None 8 sfx_None S_NULL 0 sfx_None S_NULL S_NULL S_NULL S_NULL sfx_None 0 (20 * FRACUNIT)
    (16 * FRACUNIT) 100 0 sfx_None MF_SPECIAL S_NULL;
  (* MT_MISC24 *)
    mk_info 8 S_BPAK 1000 S_NULL sfx_None 8 sfx_None S_NULL 0 sfx_None S_NULL S_NULL S_NULL S_NULL sfx_None 0 (20 * FRACUNIT)
    (16 * FRACUNIT) 100 0 sfx_None MF_SPECIAL S_NULL;
  (* MT_MISC25 *)
    mk_info 2006 S_BFUG 1000 S_NULL sfx_None 8 sfx_None S_NULL 0 sfx_None S_NULL S_NULL S_NULL S_NULL sfx_None 0 (20 * FRACUNIT)
    (16 * FRACUNIT) 100 0 sfx_None MF_SPECIAL S_NULL;
  (* MT_CHAINGUN *)
    mk_info 2002 S_MGUN 1000 S_NULL sfx_None 8 sfx_None S_NULL 0 sfx_None S_NULL S_NULL S_NULL S_NULL sfx_None 0 (20 * FRACUNIT)
    (16 * FRACUNIT) 100 0 sfx_None MF_SPECIAL S_NULL;
  (* MT_MISC26 *)
    mk_info 2005 S_CSAW 1000 S_NULL sfx_None 8 sfx_None S_NULL 0 sfx_None S_NULL S_NULL S_NULL S_NULL sfx_None 0 (20 * FRACUNIT)
    (16 * FRACUNIT) 100 0 sfx_None MF_SPECIAL S_NULL].

Definition mobjinfo_15 : list mobjinfo_t := [
  (* MT_MISC27 *)
    mk_info 2003 S_LAUN 1000 S_NULL sfx_None 8 sfx_None S_NULL 0 sfx_None S_NULL S_NULL S_NULL S_NULL sfx_None 0 (20 * FRACUNIT)
    (16 * FRACUNIT) 100 0 sfx_None MF_SPECIAL S_NULL;
  (* MT_MISC28 *)
    mk_info 2004 S_PLAS 1000 S_NULL sfx_None 8 sfx_None S_NULL 0 sfx_None S_NULL S_NULL S_NULL S_NULL sfx_None 0 (20 * FRACUNIT)
    (16 * FRACUNIT) 100 0 sfx_None MF_SPECIAL S_NULL;
  (* MT_SHOTGUN *)
    mk_info 2001 S_SHOT 1000 S_NULL sfx_None 8 sfx_None S_NULL 0 sfx_None S_NULL S_NULL S_NULL S_NULL sfx_None 0 (20 * FRACUNIT)
    (16 * FRACUNIT) 100 0 sfx_None MF_SPECIAL S_NULL;
  (* MT_SUPERSHOTGUN *)
    mk_info 82 S_SHOT2 1000 S_NULL sfx_None 8 sfx_None S_NULL 0 sfx_None S_NULL S_NULL S_NULL S_NULL sfx_None 0 (20 * FRACUNIT)
    (16 * FRACUNIT) 100 0 sfx_None MF_SPECIAL S_NULL;
  (* MT_MISC29 *)
    mk_info 85 S_TECHLAMP 1000 S_NULL sfx_None 8 sfx_None S_NULL 0 sfx_None S_NULL S_NULL S_NULL S_NULL sfx_None 0 (16 * FRACUNIT)
    (16 * FRACUNIT) 100 0 sfx_None MF_SOLID S_NULL].

Definition mobjinfo_16 : list mobjinfo_t := [
  (* MT_MISC30 *)
    mk_info 86 S_TECH2LAMP 1000 S_NULL sfx_None 8 sfx_None S_NULL 0 sfx_None S_NULL S_NULL S_NULL S_NULL sfx_None 0 (16 * FRACUNIT)
    (16 * FRACUNIT) 100 0 sfx_None MF_SOLID S_NULL;
  (* MT_MISC31 *)
    mk_info 2028 S_COLU 1000 S_NULL sfx_None 8 sfx_None S_NULL 0 sfx_None S_NULL S_NULL S_NULL S_NULL sfx_None 0 (16 * FRACUNIT)
    (16 * FRACUNIT) 100 0 sfx_None MF_SOLID S_NULL;
  (* MT_MISC32 *)
    mk_info 30 S_TALLGRNCOL 1000 S_NULL sfx_None 8 sfx_None S_NULL 0 sfx_None S_NULL S_NULL S_NULL S_NULL sfx_None 0 (16 * FRACUNIT)
    (16 * FRACUNIT) 100 0 sfx_None MF_SOLID S_NULL;
  (* MT_MISC33 *)
    mk_info 31 S_SHRTGRNCOL 1000 S_NULL sfx_None 8 sfx_None S_NULL 0 sfx_None S_NULL S_NULL S_NULL S_NULL sfx_None 0 (16 * FRACUNIT)
    (16 * FRACUNIT) 100 0 sfx_None MF_SOLID S_NULL;
  (* MT_MISC34 *)
    mk_info 32 S_TALLREDCOL 1000 S_NULL sfx_None 8 sfx_None S_NULL 0 sfx_None S_NULL S_NULL S_NULL S_NULL sfx_None 0 (16 * FRACUNIT)
    (16 * FRACUNIT) 100 0 sfx_None MF_SOLID S_NULL].

Definition mobjinfo_17 : list mobjinfo_t := [
  (* MT_MISC35 *)
    mk_info 33 S_SHRTREDCOL 1000 S_NULL sfx_None 8 sfx_None S_NULL 0 sfx_None S_NULL S_NULL S_NULL S_NULL sfx_None 0 (16 * FRACUNIT)
    (16 * FRACUNIT) 100 0 sfx_None MF_SOLID S_NULL;
  (* MT_MISC36 *)
    mk_info 37 S_SKULLCOL 1000 S_NULL sfx_None 8 sfx_None S_NULL 0 sfx_None S_NULL S_NULL S_NULL S_NULL sfx_None 0 (16 * FRACUNIT)
    (16 * FRACUNIT) 100 0 sfx_None MF_SOLID S_NULL;
  (* MT_MISC37 *)
    mk_info 36 S_HEARTCOL 1000 S_NULL sfx_None 8 sfx_None S_NULL 0 sfx_None S_NULL S_NULL S_NULL S_NULL sfx_None 0 (16 * FRACUNIT)
    (16 * FRACUNIT) 100 0 sfx_None MF_SOLID S_NULL;
  (* MT_MISC38 *)
    mk_info 41 S_EVILEYE 1000 S_NULL sfx_None 8 sfx_None S_NULL 0 sfx_None S_NULL S_NULL S_NULL S_NULL sfx_None 0 (16 * FRACUNIT)
    (16 * FRACUNIT) 100 0 sfx_None MF_SOLID S_NULL;
  (* MT_MISC39 *)
    mk_info 42 S_FLOATSKULL 1000 S_NULL sfx_None 8 sfx_None S_NULL 0 sfx_None S_NULL S_NULL S_NULL S_NULL sfx_None 0 (16 * FRACUNIT)
    (16 * FRACUNIT) 100 0 sfx_None MF_SOLID S_NULL].

Definition mobjinfo_18 : list mobjinfo_t := [
  (* MT_MISC40 *)
    mk_info 43 S_TORCHTREE 1000 S_NULL sfx_None 8 sfx_None S_NULL 0 sfx_None S_NULL S_NULL S_NULL S_NULL sfx_None 0 (16 * FRACUNIT)
    (16 * FRACUNIT) 100 0 sfx_None MF_SOLID S_NULL;
  (* MT_MISC41 *)
    mk_info 44 S_BLUETORCH 1000 S_NULL sfx_None 8 sfx_None S_NULL 0 sfx_None S_NULL S_NULL S_NULL S_NULL sfx_None 0 (16 * FRACUNIT)
    (16 * FRACUNIT) 100 0 sfx_None MF_SOLID S_NULL;
  (* MT_MISC42 *)
    mk_info 45 S_GREENTORCH 1000 S_NULL sfx_None 8 sfx_None S_NULL 0 sfx_None S_NULL S_NULL S_NULL S_NULL sfx_None 0 (16 * FRACUNIT)
    (16 * FRACUNIT) 100 0 sfx_None MF_SOLID S_NULL;
  (* MT_MISC43 *)
    mk_info 46 S_REDTORCH 1000 S_NULL sfx_None 8 sfx_None S_NULL 0 sfx_None S_NULL S_NULL S_NULL S_NULL sfx_None 0 (16 * FRACUNIT)
    (16 * FRACUNIT) 100 0 sfx_None MF_SOLID S_NULL;
  (* MT_MISC44 *)
    mk_info 55 S_BTORCHSHRT 1000 S_NULL sfx_None 8 sfx_None S_NULL 0 sfx_None S_NULL S_NULL S_NULL S_NULL sfx_None 0 (16 * FRACUNIT)
    (16 * FRACUNIT) 100 0 sfx_None MF_SOLID S_NULL].

Definition mobjinfo_19 : list mobjinfo_t := [
  (* MT_MISC45 *)
    mk_info 56 S_GTORCHSHRT 1000 S_NULL sfx_None 8 sfx_None S_NULL 0 sfx_None S_NULL S_NULL S_NULL S_NULL sfx_None 0 (16 * FRACUNIT)
    (16 * FRACUNIT) 100 0 sfx_None MF_SOLID S_NULL;
  (* MT_MISC46 *)
    mk_info 57 S_RTORCHSHRT 1000 S_NULL sfx_None 8 sfx_None S_NULL 0 sfx_None S_NULL S_NULL S_NULL S_NULL sfx_None 0 (16 * FRACUNIT)
    (16 * FRACUNIT) 100 0 sfx_None MF_SOLID S_NULL;
  (* MT_MISC47 *)
    mk_info 47 S_STALAGTITE 1000 S_NULL sfx_None 8 sfx_None S_NULL 0 sfx_None S_NULL S_NULL S_NULL S_NULL sfx_None 0 (16 * FRACUNIT)
    (16 * FRACUNIT) 100 0 sfx_None MF_SOLID S_NULL;
  (* MT_MISC48 *)
    mk_info 48 S_TECHPILLAR 1000 S_NULL sfx_None 8 sfx_None S_NULL 0 sfx_None S_NULL S_NULL S_NULL S_NULL sfx_None 0 (16 * FRACUNIT)
    (16 * FRACUNIT) 100 0 sfx_None MF_SOLID S_NULL;
  (* MT_MISC49 *)
    mk_info 34 S_CANDLESTIK 1000 S_NULL sfx_None 8 sfx_None S_NULL 0 sfx_None S_NULL S_NULL S_NULL S_NULL sfx_None 0 (20 * FRACUNIT)
    (16 * FRACUNIT) 100 0 sfx_None 0 S_NULL].

Definition mobjinfo_20 : list mobjinfo_t := [
  (* MT_MISC50 *)
    mk_info 35 S_CANDELABRA 1000 S_NULL sfx_None 8 sfx_None S_NULL 0 sfx_None S_NULL S_NULL S_NULL S_NULL sfx_None 0 (16 * FRACUNIT)
    (16 * FRACUNIT) 100 0 sfx_None MF_SOLID S_NULL;
  (* MT_MISC51 *)
    mk_info 49 S_BLOODYTWITCH 1000 S_NULL sfx_None 8 sfx_None S_NULL 0 sfx_None S_NULL S_NULL S_NULL S_NULL sfx_None 0 (16 * FRACUNIT)
    (68 * FRACUNIT) 100 0 sfx_None (flags_of [MF_SOLID; MF_SPAWNCEILING; MF_NOGRAVITY]) S_NULL;
  (* MT_MISC52 *)
    mk_info 50 S_MEAT2 1000 S_NULL sfx_None 8 sfx_None S_NULL 0 sfx_None S_NULL S_NULL S_NULL S_NULL sfx_None 0 (16 * FRACUNIT)
    (84 * FRACUNIT) 100 0 sfx_None (flags_of [MF_SOLID; MF_SPAWNCEILING; MF_NOGRAVITY]) S_NULL;
  (* MT_MISC53 *)
    mk_info 51 S_MEAT3 1000 S_NULL sfx_None 8 sfx_None S_NULL 0 sfx_None S_NULL S_NULL S_NULL S_NULL sfx_None 0 (16 * FRACUNIT)
    (84 * FRACUNIT) 100 0 sfx_None (flags_of [MF_SOLID; MF_SPAWNCEILING; MF_NOGRAVITY]) S_NULL;
  (* MT_MISC54 *)
    mk_info 52 S_MEAT4 1000 S_NULL sfx_None 8 sfx_None S_NULL 0 sfx_None S_NULL S_NULL S_NULL S_NULL sfx_None 0 (16 * FRACUNIT)
    (68 * FRACUNIT) 100 0 sfx_None (flags_of [MF_SOLID; MF_SPAWNCEILING; MF_NOGRAVITY]) S_NULL].

Definition mobjinfo_21 : list mobjinfo_t := [
  (* MT_MISC55 *)
    mk_info 53 S_MEAT5 1000 S_NULL sfx_None 8 sfx_None S_NULL 0 sfx_None S_NULL S_NULL S_NULL S_NULL sfx_None 0 (16 * FRACUNIT)
    (52 * FRACUNIT) 100 0 sfx_None (flags_of [MF_SOLID; MF_SPAWNCEILING; MF_NOGRAVITY]) S_NULL;
  (* MT_MISC56 *)
    mk_info 59 S_MEAT2 1000 S_NULL sfx_None 8 sfx_None S_NULL 0 sfx_None S_NULL S_NULL S_NULL S_NULL sfx_None 0 (20 * FRACUNIT)
    (84 * FRACUNIT) 100 0 sfx_None (flags_of [MF_SPAWNCEILING; MF_NOGRAVITY]) S_NULL;
  (* MT_MISC57 *)
    mk_info 60 S_MEAT4 1000 S_NULL sfx_None 8 sfx_None S_NULL 0 sfx_None S_NULL S_NULL S_NULL S_NULL sfx_None 0 (20 * FRACUNIT)
    (68 * FRACUNIT) 100 0 sfx_None (flags_of [MF_SPAWNCEILING; MF_NOGRAVITY]) S_NULL;
  (* MT_MISC58 *)
    mk_info 61 S_MEAT3 1000 S_NULL sfx_None 8 sfx_None S_NULL 0 sfx_None S_NULL S_NULL S_NULL S_NULL sfx_None 0 (20 * FRACUNIT)
    (52 * FRACUNIT) 100 0 sfx_None (flags_of [MF_SPAWNCEILING; MF_NOGRAVITY]) S_NULL;
  (* MT_MISC59 *)
    mk_info 62 S_MEAT5 1000 S_NULL sfx_None 8 sfx_None S_NULL 0 sfx_None S_NULL S_NULL S_NULL S_NULL sfx_None 0 (20 * FRACUNIT)
    (52 * FRACUNIT) 100 0 sfx_None (flags_of [MF_SPAWNCEILING; MF_NOGRAVITY]) S_NULL].

Definition mobjinfo_22 : list mobjinfo_t := [
  (* MT_MISC60 *)
    mk_info 63 S_BLOODYTWITCH 1000 S_NULL sfx_None 8 sfx_None S_NULL 0 sfx_None S_NULL S_NULL S_NULL S_NULL sfx_None 0 (20 * FRACUNIT)
    (68 * FRACUNIT) 100 0 sfx_None (flags_of [MF_SPAWNCEILING; MF_NOGRAVITY]) S_NULL;
  (* MT_MISC61 *)
    mk_info 22 S_HEAD_DIE6 1000 S_NULL sfx_None 8 sfx_None S_NULL 0 sfx_None S_NULL S_NULL S_NULL S_NULL sfx_None 0 (20 * FRACUNIT)
    (16 * FRACUNIT) 100 0 sfx_None 0 S_NULL;
  (* MT_MISC62 *)
    mk_info 15 S_PLAY_DIE7 1000 S_NULL sfx_None 8 sfx_None S_NULL 0 sfx_None S_NULL S_NULL S_NULL S_NULL sfx_None 0 (20 * FRACUNIT)
    (16 * FRACUNIT) 100 0 sfx_None 0 S_NULL;
  (* MT_MISC63 *)
    mk_info 18 S_POSS_DIE5 1000 S_NULL sfx_None 8 sfx_None S_NULL 0 sfx_None S_NULL S_NULL S_NULL S_NULL sfx_None 0 (20 * FRACUNIT)
    (16 * FRACUNIT) 100 0 sfx_None 0 S_NULL;
  (* MT_MISC64 *)
    mk_info 21 S_SARG_DIE6 1000 S_NULL sfx_None 8 sfx_None S_NULL 0 sfx_None S_NULL S_NULL S_NULL S_NULL sfx_None 0 (20 * FRACUNIT)
    (16 * FRACUNIT) 100 0 sfx_None 0 S_NULL].

Definition mobjinfo_23 : list mobjinfo_t := [
  (* MT_MISC65 *)
    mk_info 23 S_SKULL_DIE6 1000 S_NULL sfx_None 8 sfx_None S_NULL 0 sfx_None S_NULL S_NULL S_NULL S_NULL sfx_None 0 (20 * FRACUNIT)
    (16 * FRACUNIT) 100 0 sfx_None 0 S_NULL;
  (* MT_MISC66 *)
    mk_info 20 S_TROO_DIE5 1000 S_NULL sfx_None 8 sfx_None S_NULL 0 sfx_None S_NULL S_NULL S_NULL S_NULL sfx_None 0 (20 * FRACUNIT)
    (16 * FRACUNIT) 100 0 sfx_None 0 S_NULL;
  (* MT_MISC67 *)
    mk_info 19 S_SPOS_DIE5 1000 S_NULL sfx_None 8 sfx_None S_NULL 0 sfx_None S_NULL S_NULL S_NULL S_NULL sfx_None 0 (20 * FRACUNIT)
    (16 * FRACUNIT) 100 0 sfx_None 0 S_NULL;
  (* MT_MISC68 *)
    mk_info 10 S_PLAY_XDIE9 1000 S_NULL sfx_None 8 sfx_None S_NULL 0 sfx_None S_NULL S_NULL S_NULL S_NULL sfx_None 0 (20 * FRACUNIT)
    (16 * FRACUNIT) 100 0 sfx_None 0 S_NULL;
  (* MT_MISC69 *)
    mk_info 12 S_PLAY_XDIE9 1000 S_NULL sfx_None 8 sfx_None S_NULL 0 sfx_None S_NULL S_NULL S_NULL S_NULL sfx_None 0 (20 * FRACUNIT)
    (16 * FRACUNIT) 100 0 sfx_None 0 S_NULL].

Definition mobjinfo_24 : list mobjinfo_t := [
  (* MT_MISC70 *)
    mk_info 28 S_HEADSONSTICK 1000 S_NULL sfx_None 8 sfx_None S_NULL 0 sfx_None S_NULL S_NULL S_NULL S_NULL sfx_None 0 (16 * FRACUNIT)
    (16 * FRACUNIT) 100 0 sfx_None MF_SOLID S_NULL;
  (* MT_MISC71 *)
    mk_info 24 S_GIBS 1000 S_NULL sfx_None 8 sfx_None S_NULL 0 sfx_None S_NULL S_NULL S_NULL S_NULL sfx_None 0 (20 * FRACUNIT)
    (16 * FRACUNIT) 100 0 sfx_None 0 S_NULL;
  (* MT_MISC72 *)
    mk_info 27 S_HEADONASTICK 1000 S_NULL sfx_None 8 sfx_None S_NULL 0 sfx_None S_NULL S_NULL S_NULL S_NULL sfx_None 0 (16 * FRACUNIT)
    (16 * FRACUNIT) 100 0 sfx_None MF_SOLID S_NULL;
  (* MT_MISC73 *)
    mk_info 29 S_HEADCANDLES 1000 S_NULL sfx_None 8 sfx_None S_NULL 0 sfx_None S_NULL S_NULL S_NULL S_NULL sfx_None 0 (16 * FRACUNIT)
    (16 * FRACUNIT) 100 0 sfx_None MF_SOLID S_NULL;
  (* MT_MISC74 *)
    mk_info 25 S_DEADSTICK 1000 S_NULL sfx_None 8 sfx_None S_NULL 0 sfx_None S_NULL S_NULL S_NULL S_NULL sfx_None 0 (16 * FRACUNIT)
    (16 * FRACUNIT) 100 0 sfx_None MF_SOLID S_NULL].

Definition mobjinfo_25 : list mobjinfo_t := [
  (* MT_MISC75 *)
    mk_info 26 S_LIVESTICK 1000 S_NULL sfx_None 8 sfx_None S_NULL 0 sfx_None S_NULL S_NULL S_NULL S_NULL sfx_None 0 (16 * FRACUNIT)
    (16 * FRACUNIT) 100 0 sfx_None MF_SOLID S_NULL;
  (* MT_MISC76 *)
    mk_info 54 S_BIGTREE 1000 S_NULL sfx_None 8 sfx_None S_NULL 0 sfx_None S_NULL S_NULL S_NULL S_NULL sfx_None 0 (32 * FRACUNIT)
    (16 * FRACUNIT) 100 0 sfx_None MF_SOLID S_NULL;
  (* MT_MISC77 *)
    mk_info 70 S_BBAR1 1000 S_NULL sfx_None 8 sfx_None S_NULL 0 sfx_None S_NULL S_NULL S_NULL S_NULL sfx_None 0 (16 * FRACUNIT)
    (16 * FRACUNIT) 100 0 sfx_None MF_SOLID S_NULL;
  (* MT_MISC78 *)
    mk_info 73 S_HANGNOGUTS 1000 S_NULL sfx_None 8 sfx_None S_NULL 0 sfx_None S_NULL S_NULL S_NULL S_NULL sfx_None 0 (16 * FRACUNIT)
    (88 * FRACUNIT) 100 0 sfx_None (flags_of [MF_SOLID; MF_SPAWNCEILING; MF_NOGRAVITY]) S_NULL;
  (* MT_MISC79 *)
    mk_info 74 S_HANGBNOBRAIN 1000 S_NULL sfx_None 8 sfx_None S_NULL 0 sfx_None S_NULL S_NULL S_NULL S_NULL sfx_None 0 (16 * FRACUNIT)
    (88 * FRACUNIT) 100 0 sfx_None (flags_of [MF_SOLID; MF_SPAWNCEILING; MF_NOGRAVITY]) S_NULL].

Definition mobjinfo_26 : list mobjinfo_t := [
  (* MT_MISC80 *)
    mk_info 75 S_HANGTLOOKDN 1000 S_NULL sfx_None 8 sfx_None S_NULL 0 sfx_None S_NULL S_NULL S_NULL S_NULL sfx_None 0 (16 * FRACUNIT)
    (64 * FRACUNIT) 100 0 sfx_None (flags_of [MF_SOLID; MF_SPAWNCEILING; MF_NOGRAVITY]) S_NULL;
  (* MT_MISC81 *)
    mk_info 76 S_HANGTSKULL 1000 S_NULL sfx_None 8 sfx_None S_NULL 0 sfx_None S_NULL S_NULL S_NULL S_NULL sfx_None 0 (16 * FRACUNIT)
    (64 * FRACUNIT) 100 0 sfx_None (flags_of [MF_SOLID; MF_SPAWNCEILING; MF_NOGRAVITY]) S_NULL;
  (* MT_MISC82 *)
    mk_info 77 S_HANGTLOOKUP 1000 S_NULL sfx_None 8 sfx_None S_NULL 0 sfx_None S_NULL S_NULL S_NULL S_NULL sfx_None 0 (16 * FRACUNIT)
    (64 * FRACUNIT) 100 0 sfx_None (flags_of [MF_SOLID; MF_SPAWNCEILING; MF_NOGRAVITY]) S_NULL;
  (* MT_MISC83 *)
    mk_info 78 S_HANGTNOBRAIN 1000 S_NULL sfx_None 8 sfx_None S_NULL 0 sfx_None S_NULL S_NULL S_NULL S_NULL sfx_None 0 (16 * FRACUNIT)
    (64 * FRACUNIT) 100 0 sfx_None (flags_of [MF_SOLID; MF_SPAWNCEILING; MF_NOGRAVITY]) S_NULL;
  (* MT_MISC84 *)
    mk_info 79 S_COLONGIBS 1000 S_NULL sfx_None 8 sfx_None S_NULL 0 sfx_None S_NULL S_NULL S_NULL S_NULL sfx_None 0 (20 * FRACUNIT)
    (16 * FRACUNIT) 100 0 sfx_None MF_NOBLOCKMAP S_NULL].

Definition mobjinfo_27 : list mobjinfo_t := [
  (* MT_MISC85 *)
    mk_info 80 S_SMALLPOOL 1000 S_NULL sfx_None 8 sfx_None S_NULL 0 sfx_None S_NULL S_NULL S_NULL S_NULL sfx_None 0 (20 * FRACUNIT)
    (16 * FRACUNIT) 100 0 sfx_None MF_NOBLOCKMAP S_NULL;
  (* MT_MISC86 *)
    mk_info 81 S_BRAINSTEM 1000 S_NULL sfx_None 8 sfx_None S_NULL 0 sfx_None S_NULL S_NULL S_NULL S_NULL sfx_None 0 (20 * FRACUNIT)
    (16 * FRACUNIT) 100 0 sfx_None MF_NOBLOCKMAP S_NULL].

Definition mobjinfo : list mobjinfo_t :=
  mobjinfo_0 ++ mobjinfo_1 ++ mobjinfo_2 ++ mobjinfo_3 ++ mobjinfo_4 ++ mobjinfo_5 ++ mobjinfo_6 ++ mobjinfo_7 ++ mobjinfo_8 ++ mobjinfo_9 ++
  mobjinfo_10 ++ mobjinfo_11 ++ mobjinfo_12 ++ mobjinfo_13 ++ mobjinfo_14 ++ mobjinfo_15 ++ mobjinfo_16 ++ mobjinfo_17 ++ mobjinfo_18 ++
  mobjinfo_19 ++ mobjinfo_20 ++ mobjinfo_21 ++ mobjinfo_22 ++ mobjinfo_23 ++ mobjinfo_24 ++ mobjinfo_25 ++ mobjinfo_26 ++ mobjinfo_27.
