(* ===== verification/ThingData.v ===== *)
(** * Data of map objects
    The structures of p_mobj.h (a thing), doomdata.h (a thing of a map), d_player.h (what things use
    of a player) and the global variables of a level that the code of things works on.  Pointers to
    things are their addresses, null is [None]; subsectors, sectors, lines and players are their
    numbers.  The number of a thing's type stands for the pointer [info] as well, which always is
    [&mobjinfo[type]]; a thinker's links are in [Thinkers], here the list of thinkers is the
    sequence of its things, and [mo_removed] says that the thinker's function is -1. *)
From S2P Require Import Prelude Info.

(** [mapthing_t]: five 16-bit numbers. *)
Record mapthing_t : Type := mk_mapthing {
  mt_x : Z;
  mt_y : Z;
  mt_angle : Z;
  mt_type : Z;
  mt_options : Z;
}.

(** Two things of a map are the same or not. *)
#[export] Instance mapthing_eq_dec : EqDecision mapthing_t.
Proof. solve_decision. Defined.

(** [mobj_t] *)
Record mobj_t : Type := mk_mobj {
  mo_x : Z;
  mo_y : Z;
  mo_z : Z;
  mo_snext : option Z;
  mo_sprev : option Z;
  mo_angle : Z;
  mo_sprite : spritenum_t;
  mo_frame : Z;
  mo_bnext : option Z;
  mo_bprev : option Z;
  mo_subsector : option nat;
  mo_floorz : Z;
  mo_ceilingz : Z;
  mo_radius : Z;
  mo_height : Z;
  mo_momx : Z;
  mo_momy : Z;
  mo_momz : Z;
  mo_type : Z;
  mo_tics : Z;
  mo_state : option Z;
  mo_flags : Z;
  mo_health : Z;
  mo_movedir : Z;
  mo_movecount : Z;
  mo_target : option Z;
  mo_reactiontime : Z;
  mo_threshold : Z;
  mo_player : option nat;
  mo_lastlook : Z;
  mo_spawnpoint : mapthing_t;
  mo_tracer : option Z;
  mo_removed : bool;
}.
Definition set_mo_x (v : Z) (o : mobj_t) : mobj_t :=
  mk_mobj v (mo_y o) (mo_z o) (mo_snext o) (mo_sprev o) (mo_angle o) (mo_sprite o) (mo_frame o) (mo_bnext o) (mo_bprev o)
    (mo_subsector o) (mo_floorz o) (mo_ceilingz o) (mo_radius o) (mo_height o) (mo_momx o) (mo_momy o) (mo_momz o) (mo_type
    o) (mo_tics o) (mo_state o) (mo_flags o) (mo_health o) (mo_movedir o) (mo_movecount o) (mo_target o) (mo_reactiontime o)
    (mo_threshold o) (mo_player o) (mo_lastlook o) (mo_spawnpoint o) (mo_tracer o) (mo_removed o).
Definition set_mo_y (v : Z) (o : mobj_t) : mobj_t :=
  mk_mobj (mo_x o) v (mo_z o) (mo_snext o) (mo_sprev o) (mo_angle o) (mo_sprite o) (mo_frame o) (mo_bnext o) (mo_bprev o)
    (mo_subsector o) (mo_floorz o) (mo_ceilingz o) (mo_radius o) (mo_height o) (mo_momx o) (mo_momy o) (mo_momz o) (mo_type
    o) (mo_tics o) (mo_state o) (mo_flags o) (mo_health o) (mo_movedir o) (mo_movecount o) (mo_target o) (mo_reactiontime o)
    (mo_threshold o) (mo_player o) (mo_lastlook o) (mo_spawnpoint o) (mo_tracer o) (mo_removed o).
Definition set_mo_z (v : Z) (o : mobj_t) : mobj_t :=
  mk_mobj (mo_x o) (mo_y o) v (mo_snext o) (mo_sprev o) (mo_angle o) (mo_sprite o) (mo_frame o) (mo_bnext o) (mo_bprev o)
    (mo_subsector o) (mo_floorz o) (mo_ceilingz o) (mo_radius o) (mo_height o) (mo_momx o) (mo_momy o) (mo_momz o) (mo_type
    o) (mo_tics o) (mo_state o) (mo_flags o) (mo_health o) (mo_movedir o) (mo_movecount o) (mo_target o) (mo_reactiontime o)
    (mo_threshold o) (mo_player o) (mo_lastlook o) (mo_spawnpoint o) (mo_tracer o) (mo_removed o).
Definition set_mo_snext (v : option Z) (o : mobj_t) : mobj_t :=
  mk_mobj (mo_x o) (mo_y o) (mo_z o) v (mo_sprev o) (mo_angle o) (mo_sprite o) (mo_frame o) (mo_bnext o) (mo_bprev o)
    (mo_subsector o) (mo_floorz o) (mo_ceilingz o) (mo_radius o) (mo_height o) (mo_momx o) (mo_momy o) (mo_momz o) (mo_type
    o) (mo_tics o) (mo_state o) (mo_flags o) (mo_health o) (mo_movedir o) (mo_movecount o) (mo_target o) (mo_reactiontime o)
    (mo_threshold o) (mo_player o) (mo_lastlook o) (mo_spawnpoint o) (mo_tracer o) (mo_removed o).
Definition set_mo_sprev (v : option Z) (o : mobj_t) : mobj_t :=
  mk_mobj (mo_x o) (mo_y o) (mo_z o) (mo_snext o) v (mo_angle o) (mo_sprite o) (mo_frame o) (mo_bnext o) (mo_bprev o)
    (mo_subsector o) (mo_floorz o) (mo_ceilingz o) (mo_radius o) (mo_height o) (mo_momx o) (mo_momy o) (mo_momz o) (mo_type
    o) (mo_tics o) (mo_state o) (mo_flags o) (mo_health o) (mo_movedir o) (mo_movecount o) (mo_target o) (mo_reactiontime o)
    (mo_threshold o) (mo_player o) (mo_lastlook o) (mo_spawnpoint o) (mo_tracer o) (mo_removed o).
Definition set_mo_angle (v : Z) (o : mobj_t) : mobj_t :=
  mk_mobj (mo_x o) (mo_y o) (mo_z o) (mo_snext o) (mo_sprev o) v (mo_sprite o) (mo_frame o) (mo_bnext o) (mo_bprev o)
    (mo_subsector o) (mo_floorz o) (mo_ceilingz o) (mo_radius o) (mo_height o) (mo_momx o) (mo_momy o) (mo_momz o) (mo_type
    o) (mo_tics o) (mo_state o) (mo_flags o) (mo_health o) (mo_movedir o) (mo_movecount o) (mo_target o) (mo_reactiontime o)
    (mo_threshold o) (mo_player o) (mo_lastlook o) (mo_spawnpoint o) (mo_tracer o) (mo_removed o).
Definition set_mo_sprite (v : spritenum_t) (o : mobj_t) : mobj_t :=
  mk_mobj (mo_x o) (mo_y o) (mo_z o) (mo_snext o) (mo_sprev o) (mo_angle o) v (mo_frame o) (mo_bnext o) (mo_bprev o)
    (mo_subsector o) (mo_floorz o) (mo_ceilingz o) (mo_radius o) (mo_height o) (mo_momx o) (mo_momy o) (mo_momz o) (mo_type
    o) (mo_tics o) (mo_state o) (mo_flags o) (mo_health o) (mo_movedir o) (mo_movecount o) (mo_target o) (mo_reactiontime o)
    (mo_threshold o) (mo_player o) (mo_lastlook o) (mo_spawnpoint o) (mo_tracer o) (mo_removed o).
Definition set_mo_frame (v : Z) (o : mobj_t) : mobj_t :=
  mk_mobj (mo_x o) (mo_y o) (mo_z o) (mo_snext o) (mo_sprev o) (mo_angle o) (mo_sprite o) v (mo_bnext o) (mo_bprev o)
    (mo_subsector o) (mo_floorz o) (mo_ceilingz o) (mo_radius o) (mo_height o) (mo_momx o) (mo_momy o) (mo_momz o) (mo_type
    o) (mo_tics o) (mo_state o) (mo_flags o) (mo_health o) (mo_movedir o) (mo_movecount o) (mo_target o) (mo_reactiontime o)
    (mo_threshold o) (mo_player o) (mo_lastlook o) (mo_spawnpoint o) (mo_tracer o) (mo_removed o).
Definition set_mo_bnext (v : option Z) (o : mobj_t) : mobj_t :=
  mk_mobj (mo_x o) (mo_y o) (mo_z o) (mo_snext o) (mo_sprev o) (mo_angle o) (mo_sprite o) (mo_frame o) v (mo_bprev o)
    (mo_subsector o) (mo_floorz o) (mo_ceilingz o) (mo_radius o) (mo_height o) (mo_momx o) (mo_momy o) (mo_momz o) (mo_type
    o) (mo_tics o) (mo_state o) (mo_flags o) (mo_health o) (mo_movedir o) (mo_movecount o) (mo_target o) (mo_reactiontime o)
    (mo_threshold o) (mo_player o) (mo_lastlook o) (mo_spawnpoint o) (mo_tracer o) (mo_removed o).
Definition set_mo_bprev (v : option Z) (o : mobj_t) : mobj_t :=
  mk_mobj (mo_x o) (mo_y o) (mo_z o) (mo_snext o) (mo_sprev o) (mo_angle o) (mo_sprite o) (mo_frame o) (mo_bnext o) v
    (mo_subsector o) (mo_floorz o) (mo_ceilingz o) (mo_radius o) (mo_height o) (mo_momx o) (mo_momy o) (mo_momz o) (mo_type
    o) (mo_tics o) (mo_state o) (mo_flags o) (mo_health o) (mo_movedir o) (mo_movecount o) (mo_target o) (mo_reactiontime o)
    (mo_threshold o) (mo_player o) (mo_lastlook o) (mo_spawnpoint o) (mo_tracer o) (mo_removed o).
Definition set_mo_subsector (v : option nat) (o : mobj_t) : mobj_t :=
  mk_mobj (mo_x o) (mo_y o) (mo_z o) (mo_snext o) (mo_sprev o) (mo_angle o) (mo_sprite o) (mo_frame o) (mo_bnext o) (mo_bprev
    o) v (mo_floorz o) (mo_ceilingz o) (mo_radius o) (mo_height o) (mo_momx o) (mo_momy o) (mo_momz o) (mo_type o) (mo_tics
    o) (mo_state o) (mo_flags o) (mo_health o) (mo_movedir o) (mo_movecount o) (mo_target o) (mo_reactiontime o)
    (mo_threshold o) (mo_player o) (mo_lastlook o) (mo_spawnpoint o) (mo_tracer o) (mo_removed o).
Definition set_mo_floorz (v : Z) (o : mobj_t) : mobj_t :=
  mk_mobj (mo_x o) (mo_y o) (mo_z o) (mo_snext o) (mo_sprev o) (mo_angle o) (mo_sprite o) (mo_frame o) (mo_bnext o) (mo_bprev
    o) (mo_subsector o) v (mo_ceilingz o) (mo_radius o) (mo_height o) (mo_momx o) (mo_momy o) (mo_momz o) (mo_type o)
    (mo_tics o) (mo_state o) (mo_flags o) (mo_health o) (mo_movedir o) (mo_movecount o) (mo_target o) (mo_reactiontime o)
    (mo_threshold o) (mo_player o) (mo_lastlook o) (mo_spawnpoint o) (mo_tracer o) (mo_removed o).
Definition set_mo_ceilingz (v : Z) (o : mobj_t) : mobj_t :=
  mk_mobj (mo_x o) (mo_y o) (mo_z o) (mo_snext o) (mo_sprev o) (mo_angle o) (mo_sprite o) (mo_frame o) (mo_bnext o) (mo_bprev
    o) (mo_subsector o) (mo_floorz o) v (mo_radius o) (mo_height o) (mo_momx o) (mo_momy o) (mo_momz o) (mo_type o) (mo_tics
    o) (mo_state o) (mo_flags o) (mo_health o) (mo_movedir o) (mo_movecount o) (mo_target o) (mo_reactiontime o)
    (mo_threshold o) (mo_player o) (mo_lastlook o) (mo_spawnpoint o) (mo_tracer o) (mo_removed o).
Definition set_mo_radius (v : Z) (o : mobj_t) : mobj_t :=
  mk_mobj (mo_x o) (mo_y o) (mo_z o) (mo_snext o) (mo_sprev o) (mo_angle o) (mo_sprite o) (mo_frame o) (mo_bnext o) (mo_bprev
    o) (mo_subsector o) (mo_floorz o) (mo_ceilingz o) v (mo_height o) (mo_momx o) (mo_momy o) (mo_momz o) (mo_type o)
    (mo_tics o) (mo_state o) (mo_flags o) (mo_health o) (mo_movedir o) (mo_movecount o) (mo_target o) (mo_reactiontime o)
    (mo_threshold o) (mo_player o) (mo_lastlook o) (mo_spawnpoint o) (mo_tracer o) (mo_removed o).
Definition set_mo_height (v : Z) (o : mobj_t) : mobj_t :=
  mk_mobj (mo_x o) (mo_y o) (mo_z o) (mo_snext o) (mo_sprev o) (mo_angle o) (mo_sprite o) (mo_frame o) (mo_bnext o) (mo_bprev
    o) (mo_subsector o) (mo_floorz o) (mo_ceilingz o) (mo_radius o) v (mo_momx o) (mo_momy o) (mo_momz o) (mo_type o)
    (mo_tics o) (mo_state o) (mo_flags o) (mo_health o) (mo_movedir o) (mo_movecount o) (mo_target o) (mo_reactiontime o)
    (mo_threshold o) (mo_player o) (mo_lastlook o) (mo_spawnpoint o) (mo_tracer o) (mo_removed o).
Definition set_mo_momx (v : Z) (o : mobj_t) : mobj_t :=
  mk_mobj (mo_x o) (mo_y o) (mo_z o) (mo_snext o) (mo_sprev o) (mo_angle o) (mo_sprite o) (mo_frame o) (mo_bnext o) (mo_bprev
    o) (mo_subsector o) (mo_floorz o) (mo_ceilingz o) (mo_radius o) (mo_height o) v (mo_momy o) (mo_momz o) (mo_type o)
    (mo_tics o) (mo_state o) (mo_flags o) (mo_health o) (mo_movedir o) (mo_movecount o) (mo_target o) (mo_reactiontime o)
    (mo_threshold o) (mo_player o) (mo_lastlook o) (mo_spawnpoint o) (mo_tracer o) (mo_removed o).
Definition set_mo_momy (v : Z) (o : mobj_t) : mobj_t :=
  mk_mobj (mo_x o) (mo_y o) (mo_z o) (mo_snext o) (mo_sprev o) (mo_angle o) (mo_sprite o) (mo_frame o) (mo_bnext o) (mo_bprev
    o) (mo_subsector o) (mo_floorz o) (mo_ceilingz o) (mo_radius o) (mo_height o) (mo_momx o) v (mo_momz o) (mo_type o)
    (mo_tics o) (mo_state o) (mo_flags o) (mo_health o) (mo_movedir o) (mo_movecount o) (mo_target o) (mo_reactiontime o)
    (mo_threshold o) (mo_player o) (mo_lastlook o) (mo_spawnpoint o) (mo_tracer o) (mo_removed o).
Definition set_mo_momz (v : Z) (o : mobj_t) : mobj_t :=
  mk_mobj (mo_x o) (mo_y o) (mo_z o) (mo_snext o) (mo_sprev o) (mo_angle o) (mo_sprite o) (mo_frame o) (mo_bnext o) (mo_bprev
    o) (mo_subsector o) (mo_floorz o) (mo_ceilingz o) (mo_radius o) (mo_height o) (mo_momx o) (mo_momy o) v (mo_type o)
    (mo_tics o) (mo_state o) (mo_flags o) (mo_health o) (mo_movedir o) (mo_movecount o) (mo_target o) (mo_reactiontime o)
    (mo_threshold o) (mo_player o) (mo_lastlook o) (mo_spawnpoint o) (mo_tracer o) (mo_removed o).
Definition set_mo_type (v : Z) (o : mobj_t) : mobj_t :=
  mk_mobj (mo_x o) (mo_y o) (mo_z o) (mo_snext o) (mo_sprev o) (mo_angle o) (mo_sprite o) (mo_frame o) (mo_bnext o) (mo_bprev
    o) (mo_subsector o) (mo_floorz o) (mo_ceilingz o) (mo_radius o) (mo_height o) (mo_momx o) (mo_momy o) (mo_momz o) v
    (mo_tics o) (mo_state o) (mo_flags o) (mo_health o) (mo_movedir o) (mo_movecount o) (mo_target o) (mo_reactiontime o)
    (mo_threshold o) (mo_player o) (mo_lastlook o) (mo_spawnpoint o) (mo_tracer o) (mo_removed o).
Definition set_mo_tics (v : Z) (o : mobj_t) : mobj_t :=
  mk_mobj (mo_x o) (mo_y o) (mo_z o) (mo_snext o) (mo_sprev o) (mo_angle o) (mo_sprite o) (mo_frame o) (mo_bnext o) (mo_bprev
    o) (mo_subsector o) (mo_floorz o) (mo_ceilingz o) (mo_radius o) (mo_height o) (mo_momx o) (mo_momy o) (mo_momz o)
    (mo_type o) v (mo_state o) (mo_flags o) (mo_health o) (mo_movedir o) (mo_movecount o) (mo_target o) (mo_reactiontime o)
    (mo_threshold o) (mo_player o) (mo_lastlook o) (mo_spawnpoint o) (mo_tracer o) (mo_removed o).
Definition set_mo_state (v : option Z) (o : mobj_t) : mobj_t :=
  mk_mobj (mo_x o) (mo_y o) (mo_z o) (mo_snext o) (mo_sprev o) (mo_angle o) (mo_sprite o) (mo_frame o) (mo_bnext o) (mo_bprev
    o) (mo_subsector o) (mo_floorz o) (mo_ceilingz o) (mo_radius o) (mo_height o) (mo_momx o) (mo_momy o) (mo_momz o)
    (mo_type o) (mo_tics o) v (mo_flags o) (mo_health o) (mo_movedir o) (mo_movecount o) (mo_target o) (mo_reactiontime o)
    (mo_threshold o) (mo_player o) (mo_lastlook o) (mo_spawnpoint o) (mo_tracer o) (mo_removed o).
Definition set_mo_flags (v : Z) (o : mobj_t) : mobj_t :=
  mk_mobj (mo_x o) (mo_y o) (mo_z o) (mo_snext o) (mo_sprev o) (mo_angle o) (mo_sprite o) (mo_frame o) (mo_bnext o) (mo_bprev
    o) (mo_subsector o) (mo_floorz o) (mo_ceilingz o) (mo_radius o) (mo_height o) (mo_momx o) (mo_momy o) (mo_momz o)
    (mo_type o) (mo_tics o) (mo_state o) v (mo_health o) (mo_movedir o) (mo_movecount o) (mo_target o) (mo_reactiontime o)
    (mo_threshold o) (mo_player o) (mo_lastlook o) (mo_spawnpoint o) (mo_tracer o) (mo_removed o).
Definition set_mo_health (v : Z) (o : mobj_t) : mobj_t :=
  mk_mobj (mo_x o) (mo_y o) (mo_z o) (mo_snext o) (mo_sprev o) (mo_angle o) (mo_sprite o) (mo_frame o) (mo_bnext o) (mo_bprev
    o) (mo_subsector o) (mo_floorz o) (mo_ceilingz o) (mo_radius o) (mo_height o) (mo_momx o) (mo_momy o) (mo_momz o)
    (mo_type o) (mo_tics o) (mo_state o) (mo_flags o) v (mo_movedir o) (mo_movecount o) (mo_target o) (mo_reactiontime o)
    (mo_threshold o) (mo_player o) (mo_lastlook o) (mo_spawnpoint o) (mo_tracer o) (mo_removed o).
Definition set_mo_movecount (v : Z) (o : mobj_t) : mobj_t :=
  mk_mobj (mo_x o) (mo_y o) (mo_z o) (mo_snext o) (mo_sprev o) (mo_angle o) (mo_sprite o) (mo_frame o) (mo_bnext o) (mo_bprev
    o) (mo_subsector o) (mo_floorz o) (mo_ceilingz o) (mo_radius o) (mo_height o) (mo_momx o) (mo_momy o) (mo_momz o)
    (mo_type o) (mo_tics o) (mo_state o) (mo_flags o) (mo_health o) (mo_movedir o) v (mo_target o) (mo_reactiontime o)
    (mo_threshold o) (mo_player o) (mo_lastlook o) (mo_spawnpoint o) (mo_tracer o) (mo_removed o).
Definition set_mo_target (v : option Z) (o : mobj_t) : mobj_t :=
  mk_mobj (mo_x o) (mo_y o) (mo_z o) (mo_snext o) (mo_sprev o) (mo_angle o) (mo_sprite o) (mo_frame o) (mo_bnext o) (mo_bprev
    o) (mo_subsector o) (mo_floorz o) (mo_ceilingz o) (mo_radius o) (mo_height o) (mo_momx o) (mo_momy o) (mo_momz o)
    (mo_type o) (mo_tics o) (mo_state o) (mo_flags o) (mo_health o) (mo_movedir o) (mo_movecount o) v (mo_reactiontime o)
    (mo_threshold o) (mo_player o) (mo_lastlook o) (mo_spawnpoint o) (mo_tracer o) (mo_removed o).
Definition set_mo_reactiontime (v : Z) (o : mobj_t) : mobj_t :=
  mk_mobj (mo_x o) (mo_y o) (mo_z o) (mo_snext o) (mo_sprev o) (mo_angle o) (mo_sprite o) (mo_frame o) (mo_bnext o) (mo_bprev
    o) (mo_subsector o) (mo_floorz o) (mo_ceilingz o) (mo_radius o) (mo_height o) (mo_momx o) (mo_momy o) (mo_momz o)
    (mo_type o) (mo_tics o) (mo_state o) (mo_flags o) (mo_health o) (mo_movedir o) (mo_movecount o) (mo_target o) v
    (mo_threshold o) (mo_player o) (mo_lastlook o) (mo_spawnpoint o) (mo_tracer o) (mo_removed o).
Definition set_mo_player (v : option nat) (o : mobj_t) : mobj_t :=
  mk_mobj (mo_x o) (mo_y o) (mo_z o) (mo_snext o) (mo_sprev o) (mo_angle o) (mo_sprite o) (mo_frame o) (mo_bnext o) (mo_bprev
    o) (mo_subsector o) (mo_floorz o) (mo_ceilingz o) (mo_radius o) (mo_height o) (mo_momx o) (mo_momy o) (mo_momz o)
    (mo_type o) (mo_tics o) (mo_state o) (mo_flags o) (mo_health o) (mo_movedir o) (mo_movecount o) (mo_target o)
    (mo_reactiontime o) (mo_threshold o) v (mo_lastlook o) (mo_spawnpoint o) (mo_tracer o) (mo_removed o).
Definition set_mo_lastlook (v : Z) (o : mobj_t) : mobj_t :=
  mk_mobj (mo_x o) (mo_y o) (mo_z o) (mo_snext o) (mo_sprev o) (mo_angle o) (mo_sprite o) (mo_frame o) (mo_bnext o) (mo_bprev
    o) (mo_subsector o) (mo_floorz o) (mo_ceilingz o) (mo_radius o) (mo_height o) (mo_momx o) (mo_momy o) (mo_momz o)
    (mo_type o) (mo_tics o) (mo_state o) (mo_flags o) (mo_health o) (mo_movedir o) (mo_movecount o) (mo_target o)
    (mo_reactiontime o) (mo_threshold o) (mo_player o) v (mo_spawnpoint o) (mo_tracer o) (mo_removed o).
Definition set_mo_spawnpoint (v : mapthing_t) (o : mobj_t) : mobj_t :=
  mk_mobj (mo_x o) (mo_y o) (mo_z o) (mo_snext o) (mo_sprev o) (mo_angle o) (mo_sprite o) (mo_frame o) (mo_bnext o) (mo_bprev
    o) (mo_subsector o) (mo_floorz o) (mo_ceilingz o) (mo_radius o) (mo_height o) (mo_momx o) (mo_momy o) (mo_momz o)
    (mo_type o) (mo_tics o) (mo_state o) (mo_flags o) (mo_health o) (mo_movedir o) (mo_movecount o) (mo_target o)
    (mo_reactiontime o) (mo_threshold o) (mo_player o) (mo_lastlook o) v (mo_tracer o) (mo_removed o).
Definition set_mo_removed (v : bool) (o : mobj_t) : mobj_t :=
  mk_mobj (mo_x o) (mo_y o) (mo_z o) (mo_snext o) (mo_sprev o) (mo_angle o) (mo_sprite o) (mo_frame o) (mo_bnext o) (mo_bprev
    o) (mo_subsector o) (mo_floorz o) (mo_ceilingz o) (mo_radius o) (mo_height o) (mo_momx o) (mo_momy o) (mo_momz o)
    (mo_type o) (mo_tics o) (mo_state o) (mo_flags o) (mo_health o) (mo_movedir o) (mo_movecount o) (mo_target o)
    (mo_reactiontime o) (mo_threshold o) (mo_player o) (mo_lastlook o) (mo_spawnpoint o) (mo_tracer o) v.

Inductive playerstate_t : Type := PST_LIVE | PST_DEAD | PST_REBORN.

(** [player_t] *)
Record player_t : Type := mk_player {
  pl_mo : option Z;
  pl_playerstate : playerstate_t;
  pl_health : Z;
  pl_refire : Z;
  pl_message : option string;
  pl_damagecount : Z;
  pl_bonuscount : Z;
  pl_extralight : Z;
  pl_fixedcolormap : Z;
  pl_viewheight : Z;
  pl_deltaviewheight : Z;
  pl_cheats : Z;
  pl_forwardmove : Z;
  pl_sidemove : Z;
  pl_cards : list bool;
}.
Definition set_pl_mo (v : option Z) (o : player_t) : player_t :=
  mk_player v (pl_playerstate o) (pl_health o) (pl_refire o) (pl_message o) (pl_damagecount o) (pl_bonuscount o)
    (pl_extralight o) (pl_fixedcolormap o) (pl_viewheight o) (pl_deltaviewheight o) (pl_cheats o) (pl_forwardmove o)
    (pl_sidemove o) (pl_cards o).
Definition set_pl_playerstate (v : playerstate_t) (o : player_t) : player_t :=
  mk_player (pl_mo o) v (pl_health o) (pl_refire o) (pl_message o) (pl_damagecount o) (pl_bonuscount o) (pl_extralight o)
    (pl_fixedcolormap o) (pl_viewheight o) (pl_deltaviewheight o) (pl_cheats o) (pl_forwardmove o) (pl_sidemove o) (pl_cards
    o).
Definition set_pl_health (v : Z) (o : player_t) : player_t :=
  mk_player (pl_mo o) (pl_playerstate o) v (pl_refire o) (pl_message o) (pl_damagecount o) (pl_bonuscount o) (pl_extralight
    o) (pl_fixedcolormap o) (pl_viewheight o) (pl_deltaviewheight o) (pl_cheats o) (pl_forwardmove o) (pl_sidemove o)
    (pl_cards o).
Definition set_pl_refire (v : Z) (o : player_t) : player_t :=
  mk_player (pl_mo o) (pl_playerstate o) (pl_health o) v (pl_message o) (pl_damagecount o) (pl_bonuscount o) (pl_extralight
    o) (pl_fixedcolormap o) (pl_viewheight o) (pl_deltaviewheight o) (pl_cheats o) (pl_forwardmove o) (pl_sidemove o)
    (pl_cards o).
Definition set_pl_message (v : option string) (o : player_t) : player_t :=
  mk_player (pl_mo o) (pl_playerstate o) (pl_health o) (pl_refire o) v (pl_damagecount o) (pl_bonuscount o) (pl_extralight o)
    (pl_fixedcolormap o) (pl_viewheight o) (pl_deltaviewheight o) (pl_cheats o) (pl_forwardmove o) (pl_sidemove o) (pl_cards
    o).
Definition set_pl_damagecount (v : Z) (o : player_t) : player_t :=
  mk_player (pl_mo o) (pl_playerstate o) (pl_health o) (pl_refire o) (pl_message o) v (pl_bonuscount o) (pl_extralight o)
    (pl_fixedcolormap o) (pl_viewheight o) (pl_deltaviewheight o) (pl_cheats o) (pl_forwardmove o) (pl_sidemove o) (pl_cards
    o).
Definition set_pl_bonuscount (v : Z) (o : player_t) : player_t :=
  mk_player (pl_mo o) (pl_playerstate o) (pl_health o) (pl_refire o) (pl_message o) (pl_damagecount o) v (pl_extralight o)
    (pl_fixedcolormap o) (pl_viewheight o) (pl_deltaviewheight o) (pl_cheats o) (pl_forwardmove o) (pl_sidemove o) (pl_cards
    o).
Definition set_pl_extralight (v : Z) (o : player_t) : player_t :=
  mk_player (pl_mo o) (pl_playerstate o) (pl_health o) (pl_refire o) (pl_message o) (pl_damagecount o) (pl_bonuscount o) v
    (pl_fixedcolormap o) (pl_viewheight o) (pl_deltaviewheight o) (pl_cheats o) (pl_forwardmove o) (pl_sidemove o) (pl_cards
    o).
Definition set_pl_fixedcolormap (v : Z) (o : player_t) : player_t :=
  mk_player (pl_mo o) (pl_playerstate o) (pl_health o) (pl_refire o) (pl_message o) (pl_damagecount o) (pl_bonuscount o)
    (pl_extralight o) v (pl_viewheight o) (pl_deltaviewheight o) (pl_cheats o) (pl_forwardmove o) (pl_sidemove o) (pl_cards
    o).
Definition set_pl_viewheight (v : Z) (o : player_t) : player_t :=
  mk_player (pl_mo o) (pl_playerstate o) (pl_health o) (pl_refire o) (pl_message o) (pl_damagecount o) (pl_bonuscount o)
    (pl_extralight o) (pl_fixedcolormap o) v (pl_deltaviewheight o) (pl_cheats o) (pl_forwardmove o) (pl_sidemove o)
    (pl_cards o).
Definition set_pl_deltaviewheight (v : Z) (o : player_t) : player_t :=
  mk_player (pl_mo o) (pl_playerstate o) (pl_health o) (pl_refire o) (pl_message o) (pl_damagecount o) (pl_bonuscount o)
    (pl_extralight o) (pl_fixedcolormap o) (pl_viewheight o) v (pl_cheats o) (pl_forwardmove o) (pl_sidemove o) (pl_cards o).
Definition set_pl_cards (v : list bool) (o : player_t) : player_t :=
  mk_player (pl_mo o) (pl_playerstate o) (pl_health o) (pl_refire o) (pl_message o) (pl_damagecount o) (pl_bonuscount o)
    (pl_extralight o) (pl_fixedcolormap o) (pl_viewheight o) (pl_deltaviewheight o) (pl_cheats o) (pl_forwardmove o)
    (pl_sidemove o) v.

(** What things use of [sector_t]; the first thing of the sector is in [thinglist] of the level. *)
Record sector_t : Type := mk_sector { floorheight : Z; ceilingheight : Z; ceilingpic : Z }.

(** The level: its things, the lists of things of sectors and of blocks, the queue of items to respawn,
    the starts, the players, and the variables that a test of a position leaves. *)
Record level : Type := mk_level {
  things : gmap Z mobj_t;
  next_thing : Z;
  thinkers : list Z;
  sectors : list sector_t;
  thinglist : list (option Z);
  blocklinks : list (option Z);
  prndindex : Z;
  leveltime : Z;
  itemrespawnque : list mapthing_t;
  itemrespawntime : list Z;
  iquehead : Z;
  iquetail : Z;
  totalkills : Z;
  totalitems : Z;
  deathmatchstarts : list mapthing_t;
  deathmatch_p : Z;
  playerstarts : list mapthing_t;
  players : list player_t;
  line_special : list Z;
  tmfloorz : Z;
  tmceilingz : Z;
  tmdropoffz : Z;
  floatok : bool;
  ceilingline : option nat;
  spechit : list nat;
  numspechit : Z;
  linetarget : option Z;
}.
Definition set_things (v : gmap Z mobj_t) (o : level) : level :=
  mk_level v (next_thing o) (thinkers o) (sectors o) (thinglist o) (blocklinks o) (prndindex o) (leveltime o) (itemrespawnque
    o) (itemrespawntime o) (iquehead o) (iquetail o) (totalkills o) (totalitems o) (deathmatchstarts o) (deathmatch_p o)
    (playerstarts o) (players o) (line_special o) (tmfloorz o) (tmceilingz o) (tmdropoffz o) (floatok o) (ceilingline o)
    (spechit o) (numspechit o) (linetarget o).
Definition set_next_thing (v : Z) (o : level) : level :=
  mk_level (things o) v (thinkers o) (sectors o) (thinglist o) (blocklinks o) (prndindex o) (leveltime o) (itemrespawnque o)
    (itemrespawntime o) (iquehead o) (iquetail o) (totalkills o) (totalitems o) (deathmatchstarts o) (deathmatch_p o)
    (playerstarts o) (players o) (line_special o) (tmfloorz o) (tmceilingz o) (tmdropoffz o) (floatok o) (ceilingline o)
    (spechit o) (numspechit o) (linetarget o).
Definition set_thinkers (v : list Z) (o : level) : level :=
  mk_level (things o) (next_thing o) v (sectors o) (thinglist o) (blocklinks o) (prndindex o) (leveltime o) (itemrespawnque
    o) (itemrespawntime o) (iquehead o) (iquetail o) (totalkills o) (totalitems o) (deathmatchstarts o) (deathmatch_p o)
    (playerstarts o) (players o) (line_special o) (tmfloorz o) (tmceilingz o) (tmdropoffz o) (floatok o) (ceilingline o)
    (spechit o) (numspechit o) (linetarget o).
Definition set_thinglist (v : list (option Z)) (o : level) : level :=
  mk_level (things o) (next_thing o) (thinkers o) (sectors o) v (blocklinks o) (prndindex o) (leveltime o) (itemrespawnque o)
    (itemrespawntime o) (iquehead o) (iquetail o) (totalkills o) (totalitems o) (deathmatchstarts o) (deathmatch_p o)
    (playerstarts o) (players o) (line_special o) (tmfloorz o) (tmceilingz o) (tmdropoffz o) (floatok o) (ceilingline o)
    (spechit o) (numspechit o) (linetarget o).
Definition set_blocklinks (v : list (option Z)) (o : level) : level :=
  mk_level (things o) (next_thing o) (thinkers o) (sectors o) (thinglist o) v (prndindex o) (leveltime o) (itemrespawnque o)
    (itemrespawntime o) (iquehead o) (iquetail o) (totalkills o) (totalitems o) (deathmatchstarts o) (deathmatch_p o)
    (playerstarts o) (players o) (line_special o) (tmfloorz o) (tmceilingz o) (tmdropoffz o) (floatok o) (ceilingline o)
    (spechit o) (numspechit o) (linetarget o).
Definition set_prndindex (v : Z) (o : level) : level :=
  mk_level (things o) (next_thing o) (thinkers o) (sectors o) (thinglist o) (blocklinks o) v (leveltime o) (itemrespawnque o)
    (itemrespawntime o) (iquehead o) (iquetail o) (totalkills o) (totalitems o) (deathmatchstarts o) (deathmatch_p o)
    (playerstarts o) (players o) (line_special o) (tmfloorz o) (tmceilingz o) (tmdropoffz o) (floatok o) (ceilingline o)
    (spechit o) (numspechit o) (linetarget o).
Definition set_itemrespawnque (v : list mapthing_t) (o : level) : level :=
  mk_level (things o) (next_thing o) (thinkers o) (sectors o) (thinglist o) (blocklinks o) (prndindex o) (leveltime o) v
    (itemrespawntime o) (iquehead o) (iquetail o) (totalkills o) (totalitems o) (deathmatchstarts o) (deathmatch_p o)
    (playerstarts o) (players o) (line_special o) (tmfloorz o) (tmceilingz o) (tmdropoffz o) (floatok o) (ceilingline o)
    (spechit o) (numspechit o) (linetarget o).
Definition set_itemrespawntime (v : list Z) (o : level) : level :=
  mk_level (things o) (next_thing o) (thinkers o) (sectors o) (thinglist o) (blocklinks o) (prndindex o) (leveltime o)
    (itemrespawnque o) v (iquehead o) (iquetail o) (totalkills o) (totalitems o) (deathmatchstarts o) (deathmatch_p o)
    (playerstarts o) (players o) (line_special o) (tmfloorz o) (tmceilingz o) (tmdropoffz o) (floatok o) (ceilingline o)
    (spechit o) (numspechit o) (linetarget o).
Definition set_iquehead (v : Z) (o : level) : level :=
  mk_level (things o) (next_thing o) (thinkers o) (sectors o) (thinglist o) (blocklinks o) (prndindex o) (leveltime o)
    (itemrespawnque o) (itemrespawntime o) v (iquetail o) (totalkills o) (totalitems o) (deathmatchstarts o) (deathmatch_p o)
    (playerstarts o) (players o) (line_special o) (tmfloorz o) (tmceilingz o) (tmdropoffz o) (floatok o) (ceilingline o)
    (spechit o) (numspechit o) (linetarget o).
Definition set_iquetail (v : Z) (o : level) : level :=
  mk_level (things o) (next_thing o) (thinkers o) (sectors o) (thinglist o) (blocklinks o) (prndindex o) (leveltime o)
    (itemrespawnque o) (itemrespawntime o) (iquehead o) v (totalkills o) (totalitems o) (deathmatchstarts o) (deathmatch_p o)
    (playerstarts o) (players o) (line_special o) (tmfloorz o) (tmceilingz o) (tmdropoffz o) (floatok o) (ceilingline o)
    (spechit o) (numspechit o) (linetarget o).
Definition set_totalkills (v : Z) (o : level) : level :=
  mk_level (things o) (next_thing o) (thinkers o) (sectors o) (thinglist o) (blocklinks o) (prndindex o) (leveltime o)
    (itemrespawnque o) (itemrespawntime o) (iquehead o) (iquetail o) v (totalitems o) (deathmatchstarts o) (deathmatch_p o)
    (playerstarts o) (players o) (line_special o) (tmfloorz o) (tmceilingz o) (tmdropoffz o) (floatok o) (ceilingline o)
    (spechit o) (numspechit o) (linetarget o).
Definition set_totalitems (v : Z) (o : level) : level :=
  mk_level (things o) (next_thing o) (thinkers o) (sectors o) (thinglist o) (blocklinks o) (prndindex o) (leveltime o)
    (itemrespawnque o) (itemrespawntime o) (iquehead o) (iquetail o) (totalkills o) v (deathmatchstarts o) (deathmatch_p o)
    (playerstarts o) (players o) (line_special o) (tmfloorz o) (tmceilingz o) (tmdropoffz o) (floatok o) (ceilingline o)
    (spechit o) (numspechit o) (linetarget o).
Definition set_deathmatchstarts (v : list mapthing_t) (o : level) : level :=
  mk_level (things o) (next_thing o) (thinkers o) (sectors o) (thinglist o) (blocklinks o) (prndindex o) (leveltime o)
    (itemrespawnque o) (itemrespawntime o) (iquehead o) (iquetail o) (totalkills o) (totalitems o) v (deathmatch_p o)
    (playerstarts o) (players o) (line_special o) (tmfloorz o) (tmceilingz o) (tmdropoffz o) (floatok o) (ceilingline o)
    (spechit o) (numspechit o) (linetarget o).
Definition set_deathmatch_p (v : Z) (o : level) : level :=
  mk_level (things o) (next_thing o) (thinkers o) (sectors o) (thinglist o) (blocklinks o) (prndindex o) (leveltime o)
    (itemrespawnque o) (itemrespawntime o) (iquehead o) (iquetail o) (totalkills o) (totalitems o) (deathmatchstarts o) v
    (playerstarts o) (players o) (line_special o) (tmfloorz o) (tmceilingz o) (tmdropoffz o) (floatok o) (ceilingline o)
    (spechit o) (numspechit o) (linetarget o).
Definition set_playerstarts (v : list mapthing_t) (o : level) : level :=
  mk_level (things o) (next_thing o) (thinkers o) (sectors o) (thinglist o) (blocklinks o) (prndindex o) (leveltime o)
    (itemrespawnque o) (itemrespawntime o) (iquehead o) (iquetail o) (totalkills o) (totalitems o) (deathmatchstarts o)
    (deathmatch_p o) v (players o) (line_special o) (tmfloorz o) (tmceilingz o) (tmdropoffz o) (floatok o) (ceilingline o)
    (spechit o) (numspechit o) (linetarget o).
Definition set_players (v : list player_t) (o : level) : level :=
  mk_level (things o) (next_thing o) (thinkers o) (sectors o) (thinglist o) (blocklinks o) (prndindex o) (leveltime o)
    (itemrespawnque o) (itemrespawntime o) (iquehead o) (iquetail o) (totalkills o) (totalitems o) (deathmatchstarts o)
    (deathmatch_p o) (playerstarts o) v (line_special o) (tmfloorz o) (tmceilingz o) (tmdropoffz o) (floatok o) (ceilingline
    o) (spechit o) (numspechit o) (linetarget o).
Definition set_tmfloorz (v : Z) (o : level) : level :=
  mk_level (things o) (next_thing o) (thinkers o) (sectors o) (thinglist o) (blocklinks o) (prndindex o) (leveltime o)
    (itemrespawnque o) (itemrespawntime o) (iquehead o) (iquetail o) (totalkills o) (totalitems o) (deathmatchstarts o)
    (deathmatch_p o) (playerstarts o) (players o) (line_special o) v (tmceilingz o) (tmdropoffz o) (floatok o) (ceilingline
    o) (spechit o) (numspechit o) (linetarget o).
Definition set_tmceilingz (v : Z) (o : level) : level :=
  mk_level (things o) (next_thing o) (thinkers o) (sectors o) (thinglist o) (blocklinks o) (prndindex o) (leveltime o)
    (itemrespawnque o) (itemrespawntime o) (iquehead o) (iquetail o) (totalkills o) (totalitems o) (deathmatchstarts o)
    (deathmatch_p o) (playerstarts o) (players o) (line_special o) (tmfloorz o) v (tmdropoffz o) (floatok o) (ceilingline o)
    (spechit o) (numspechit o) (linetarget o).
Definition set_tmdropoffz (v : Z) (o : level) : level :=
  mk_level (things o) (next_thing o) (thinkers o) (sectors o) (thinglist o) (blocklinks o) (prndindex o) (leveltime o)
    (itemrespawnque o) (itemrespawntime o) (iquehead o) (iquetail o) (totalkills o) (totalitems o) (deathmatchstarts o)
    (deathmatch_p o) (playerstarts o) (players o) (line_special o) (tmfloorz o) (tmceilingz o) v (floatok o) (ceilingline o)
    (spechit o) (numspechit o) (linetarget o).
Definition set_floatok (v : bool) (o : level) : level :=
  mk_level (things o) (next_thing o) (thinkers o) (sectors o) (thinglist o) (blocklinks o) (prndindex o) (leveltime o)
    (itemrespawnque o) (itemrespawntime o) (iquehead o) (iquetail o) (totalkills o) (totalitems o) (deathmatchstarts o)
    (deathmatch_p o) (playerstarts o) (players o) (line_special o) (tmfloorz o) (tmceilingz o) (tmdropoffz o) v (ceilingline
    o) (spechit o) (numspechit o) (linetarget o).
Definition set_spechit (v : list nat) (o : level) : level :=
  mk_level (things o) (next_thing o) (thinkers o) (sectors o) (thinglist o) (blocklinks o) (prndindex o) (leveltime o)
    (itemrespawnque o) (itemrespawntime o) (iquehead o) (iquetail o) (totalkills o) (totalitems o) (deathmatchstarts o)
    (deathmatch_p o) (playerstarts o) (players o) (line_special o) (tmfloorz o) (tmceilingz o) (tmdropoffz o) (floatok o)
    (ceilingline o) v (numspechit o) (linetarget o).
Definition set_numspechit (v : Z) (o : level) : level :=
  mk_level (things o) (next_thing o) (thinkers o) (sectors o) (thinglist o) (blocklinks o) (prndindex o) (leveltime o)
    (itemrespawnque o) (itemrespawntime o) (iquehead o) (iquetail o) (totalkills o) (totalitems o) (deathmatchstarts o)
    (deathmatch_p o) (playerstarts o) (players o) (line_special o) (tmfloorz o) (tmceilingz o) (tmdropoffz o) (floatok o)
    (ceilingline o) (spechit o) v (linetarget o).
Definition set_linetarget (v : option Z) (o : level) : level :=
  mk_level (things o) (next_thing o) (thinkers o) (sectors o) (thinglist o) (blocklinks o) (prndindex o) (leveltime o)
    (itemrespawnque o) (itemrespawntime o) (iquehead o) (iquetail o) (totalkills o) (totalitems o) (deathmatchstarts o)
    (deathmatch_p o) (playerstarts o) (players o) (line_special o) (tmfloorz o) (tmceilingz o) (tmdropoffz o) (floatok o)
    (ceilingline o) (spechit o) (numspechit o) v.
