(* ===== verification/Links.v ===== *)
(** * Families of linked lists in one heap
    The things of DOOM are on two kinds of lists at once, one list for each sector and one for each
    block of the map, with the links in the things themselves and the first thing in an array of
    heads.  [lists h heads place]: list number [i] holds the nodes whose [place] is [i], linked both
    ways, with null at both ends. *)
From S2P Require Import Prelude Dll.

Section links.
Context {N : Type} (nxt prv : N → option Z) (set_nxt set_prv : option Z → N → N).
Context (LAWS : LinkLaws nxt prv set_nxt set_prv).

Abbreviation cfirst l := (first Some l None).
Abbreviation cfinal l := (final Some None l).
Abbreviation chain := (chain nxt prv).

Definition holds (h : gmap Z N) (place : Z → N → option nat) (i : nat) (l : list Z) : Prop :=
  NoDup l ∧ chain h l ∧ ∀ a, a ∈ l ↔ ∃ n, h !! a = Some n ∧ place a n = Some i.

Definition lists (h : gmap Z N) (heads : list (option Z)) (place : Z → N → option nat) : Prop :=
  ∀ i hd, heads !! i = Some hd → ∃ l, hd = cfirst l ∧ holds h place i l.

(** The update of a node that may be null, as in [Dll]. *)
Lemma lookup_upd f (o : option Z) (h : gmap Z N) a :
  upd f o h !! a = if decide (o = Some a) then f <$> h !! a else h !! a.
Proof.
  destruct o as [b|]; cbn [upd]; [|by rewrite decide_False].
  destruct (decide (b = a)) as [->|Hne].
  - by rewrite lookup_alter_eq, decide_True.
  - rewrite lookup_alter_ne by done. by rewrite decide_False by congruence.
Qed.

Lemma upd_comm f g (o p : option Z) (h : gmap Z N) :
  (∀ a, o = Some a → p = Some a → False) → upd f o (upd g p h) = upd g p (upd f o h).
Proof.
  intros Hne. apply map_eq. intros b. rewrite !lookup_upd.
  repeat case_decide; try done. exfalso. by eapply Hne.
Qed.

Lemma chain_frame h h' l :
  (∀ a n, a ∈ l → h !! a = Some n → ∃ n', h' !! a = Some n' ∧ prv n' = prv n ∧ nxt n' = nxt n) →
  chain h l → chain h' l.
Proof. apply seg_frame. Qed.

(** A list is not touched by what leaves its nodes, their links and the places alone. *)
Lemma holds_frame h h' place place' i l :
  (∀ a n, place a n = Some i → h !! a = Some n → ∃ n', h' !! a = Some n' ∧ prv n' = prv n ∧ nxt n' = nxt n ∧ place' a n' = Some i) →
  (∀ a n', place' a n' = Some i → h' !! a = Some n' → ∃ n, h !! a = Some n ∧ place a n = Some i) →
  holds h place i l → holds h' place' i l.
Proof.
  intros Hf Hb (Hnd & Hc & Hl). split_and!; [done| |].
  - eapply chain_frame; [|exact Hc]. intros a n Ha Hn.
    apply Hl in Ha as (n0 & Hn0 & Hp).
    assert (n0 = n) as -> by congruence.
    destruct (Hf a n) as (n' & ? & ? & ? & _); eauto.
  - intros a. rewrite Hl. split.
    + intros (n & Hn & Hp). destruct (Hf a n) as (n' & ? & _ & _ & ?); eauto.
    + intros (n' & Hn & Hp). eauto.
Qed.

Lemma lists_frame h h' heads place place' :
  (∀ a n i, place a n = Some i → h !! a = Some n → ∃ n', h' !! a = Some n' ∧ prv n' = prv n ∧ nxt n' = nxt n ∧ place' a n' = Some i) →
  (∀ a n' i, place' a n' = Some i → h' !! a = Some n' → ∃ n, h !! a = Some n ∧ place a n = Some i) →
  lists h heads place → lists h' heads place'.
Proof.
  intros Hf Hb HL i hd Hi. destruct (HL i hd Hi) as (l & ? & Hh). exists l. split; [done|].
  eapply holds_frame; [| |exact Hh]; eauto.
Qed.

(** Where the node [a] is, in its list. *)
Lemma holds_split h place i l a n :
  holds h place i l → h !! a = Some n → place a n = Some i →
  ∃ l1 l2, l = l1 ++ a :: l2 ∧ prv n = cfinal l1 ∧ nxt n = cfirst l2.
Proof.
  intros (Hnd & Hc & Hl) Hn Hp.
  destruct (list_elem_of_split l a) as (l1 & l2 & ->); [apply Hl; eauto|].
  exists l1, l2. destruct (chain_mid _ _ _ _ _ _ Hc) as (n' & ? & ? & ?). by simplify_eq.
Qed.

(** The neighbours of a node are in its list. *)
Lemma holds_neighbour h place i l a n b :
  holds h place i l → h !! a = Some n → place a n = Some i →
  prv n = Some b ∨ nxt n = Some b → b ≠ a ∧ ∃ m, h !! b = Some m ∧ place b m = Some i.
Proof.
  intros Hh Hn Hp Hb. destruct (holds_split _ _ _ _ _ _ Hh Hn Hp) as (l1 & l2 & -> & E1 & E2).
  destruct Hh as (Hnd & _ & Hl). apply NoDup_app in Hnd as (_ & Hd & [Ha _]%NoDup_cons).
  rewrite E1, E2 in Hb.
  destruct Hb as [Hb%cfinal_in|Hb%cfirst_in].
  - split; [intros ->; eapply Hd; [exact Hb|left]|]. apply Hl, elem_of_app. by left.
  - split; [by intros ->|]. apply Hl, elem_of_app. right. by right.
Qed.

(** The place of a node does not depend on its links. *)
Definition unlinked_place (place : Z → N → option nat) : Prop :=
  ∀ a v n, place a (set_nxt v n) = place a n ∧ place a (set_prv v n) = place a n.

(** ** Taking a node out of its list *)

Definition unlink (n : N) (h : gmap Z N) : gmap Z N :=
  upd (set_nxt (nxt n)) (prv n) (upd (set_prv (prv n)) (nxt n) h).

Definition unlink_head (i : nat) (n : N) (heads : list (option Z)) : list (option Z) :=
  match prv n with None => <[i := nxt n]> heads | Some _ => heads end.

Definition without (a : Z) (place : Z → N → option nat) (b : Z) (n : N) : option nat :=
  if decide (b = a) then None else place b n.

(** What [unlink] does to a node: only its links change. *)
Lemma unlink_lookup place n h b m :
  unlinked_place place → h !! b = Some m →
  ∃ m', unlink n h !! b = Some m' ∧ place b m' = place b m.
Proof.
  intros Hup Hb. unfold unlink. rewrite !lookup_upd, Hb. cbn.
  repeat case_decide; cbn; eexists; (split; [done|]); rewrite ?(proj1 (Hup _ _ _)), ?(proj2 (Hup _ _ _)); done.
Qed.

Lemma unlink_lookup_inv place n h b m' :
  unlinked_place place → unlink n h !! b = Some m' →
  ∃ m, h !! b = Some m ∧ place b m' = place b m.
Proof.
  intros Hup Hb. destruct (h !! b) as [m|] eqn:E.
  - destruct (unlink_lookup place n h b m) as (m1 & ? & ?); [done..|]. simplify_eq. eauto.
  - exfalso. unfold unlink in Hb. rewrite !lookup_upd, E in Hb. by repeat case_decide.
Qed.

Lemma lists_unlink_other n h b :
  prv n ≠ Some b → nxt n ≠ Some b → unlink n h !! b = h !! b.
Proof. intros. unfold unlink. rewrite !lookup_upd. by rewrite !decide_False. Qed.

(** The list the node was in. *)
Lemma holds_unlink h place i l a n :
  unlinked_place place → holds h place i l → h !! a = Some n → place a n = Some i →
  ∃ l1 l2, l = l1 ++ a :: l2 ∧ prv n = cfinal l1 ∧ nxt n = cfirst l2 ∧
    holds (unlink n h) (without a place) i (l1 ++ l2).
Proof using LAWS.
  intros Hup Hh Hn Hp. destruct (holds_split _ _ _ _ _ _ Hh Hn Hp) as (l1 & l2 & -> & E1 & E2).
  exists l1, l2. split_and!; [done..|]. destruct Hh as (Hnd & Hc & Hl).
  pose proof Hnd as (Hnd1 & Hd & [Ha Hnd2]%NoDup_cons)%NoDup_app. split_and!.
  - apply NoDup_app. split_and!; [done| |done]. intros b Hb Hb2. eapply Hd; [exact Hb|by right].
  - unfold unlink. rewrite E1, E2, upd_comm; [by eapply chain_remove|].
    intros b Hb%cfinal_in Hb2%cfirst_in. eapply Hd; [exact Hb|by right].
  - intros b. unfold without. rewrite elem_of_app. split.
    + intros Hb. assert (b ≠ a) as Hne.
      { destruct Hb as [Hb|Hb]; intros ->; [eapply Hd; [exact Hb|left]|done]. }
      destruct (proj1 (Hl b)) as (m & Hm & Hpm); [set_solver|].
      destruct (unlink_lookup place n h b m) as (m' & ? & ?); [done..|].
      exists m'. rewrite decide_False by done. split; [done|congruence].
    + intros (m' & Hm' & Hpm). case_decide as Hne; [done|].
      destruct (unlink_lookup_inv place n h b m') as (m & Hm & ?); [done..|].
      assert (b ∈ l1 ++ a :: l2) by (apply Hl; exists m; split; congruence). set_solver.
Qed.

Theorem lists_unlink h heads place a n i :
  unlinked_place place → lists h heads place → h !! a = Some n → place a n = Some i →
  (i < length heads)%nat →
  lists (unlink n h) (unlink_head i n heads) (without a place).
Proof using LAWS.
  intros Hup HL Hn Hp Hi j hd Hj.
  destruct (lookup_lt_is_Some_2 heads i Hi) as [hi Hhi].
  destruct (HL i hi Hhi) as (l & -> & Hh).
  destruct (decide (j = i)) as [->|Hne].
  - destruct (holds_unlink _ _ _ _ _ _ Hup Hh Hn Hp) as (l1 & l2 & -> & E1 & E2 & Hh').
    exists (l1 ++ l2). split; [|done]. unfold unlink_head in Hj. rewrite E1, E2 in Hj.
    destruct l1 as [|b l1 _] using rev_ind; cbn in *.
    + rewrite list_lookup_insert_eq in Hj by done. by simplify_eq.
    + rewrite final_snoc in Hj. rewrite Hhi in Hj. simplify_eq. by destruct l1.
  - assert (heads !! j = Some hd) as Hj'.
    { unfold unlink_head in Hj. destruct (prv n); [done|]. by rewrite list_lookup_insert_ne in Hj by done. }
    destruct (HL j hd Hj') as (l' & -> & Hh'). exists l'. split; [done|].
    eapply holds_frame; [| |exact Hh'].
    + intros b m Hpm Hm. exists m.
      assert (prv n ≠ Some b ∧ nxt n ≠ Some b) as [].
      { split; intros Hb; destruct (holds_neighbour _ _ _ _ _ _ b Hh Hn Hp) as (_ & m' & ? & ?); auto; congruence. }
      rewrite lists_unlink_other by done. unfold without. rewrite decide_False by congruence. done.
    + intros b m' Hpm Hm. unfold without in Hpm. case_decide; [done|].
      destruct (unlink_lookup_inv place n h b m') as (m & ? & ?); [done..|]. exists m. split; congruence.
Qed.

(** ** Putting a node at the front of a list *)

Definition link (a : Z) (hd : option Z) (n : N) (h : gmap Z N) : gmap Z N :=
  upd (set_prv (Some a)) hd (<[a := set_nxt hd (set_prv None n)]> h).

Theorem lists_link h heads place place' a n i hd :
  unlinked_place place → unlinked_place place' → lists h heads place → heads !! i = Some hd →
  h !! a = Some n → place a n = None → place' a n = Some i → (∀ b m, b ≠ a → place' b m = place b m) →
  lists (link a hd n h) (<[i := Some a]> heads) place'.
Proof using LAWS.
  intros Hup Hup' HL Hi Hn Hp Hp' Hpb j hj Hj.
  destruct (HL i hd Hi) as (l & -> & Hh).
  assert (a ∉ l) as Ha by (intros Ha; destruct Hh as (_ & _ & Hl); apply Hl in Ha as (? & ? & ?); congruence).
  assert (∀ b m, b ≠ a → h !! b = Some m → cfirst l ≠ Some b → link a (cfirst l) n h !! b = Some m) as Hother.
  { intros b m Hb Hm Hf. unfold link. by rewrite lookup_upd, decide_False, lookup_insert_ne by done. }
  assert (∀ b m', b ≠ a → link a (cfirst l) n h !! b = Some m' → ∃ m, h !! b = Some m ∧ place' b m' = place b m) as Hinv.
  { intros b m' Hb Hm. unfold link in Hm. rewrite lookup_upd, lookup_insert_ne in Hm by done.
    case_decide; [|exists m'; rewrite Hpb by done; done].
    destruct (h !! b) as [m|]; [|done]. cbn in Hm. simplify_eq. exists m.
    split; [done|]. by rewrite (proj2 (Hup' _ _ _)), Hpb. }
  destruct (decide (j = i)) as [->|Hne].
  - rewrite list_lookup_insert_eq in Hj by (by eapply lookup_lt_Some). simplify_eq.
    exists (a :: l). split; [done|]. destruct Hh as (Hnd & Hc & Hl). split_and!.
    + by constructor.
    + unfold link. apply (chain_insert nxt prv set_nxt set_prv LAWS _ [] a l (set_nxt (cfirst l) (set_prv None n))).
      * by constructor.
      * apply seg_insert_notin; [done|exact Hc].
      * by rewrite lookup_insert_eq.
      * apply LAWS.
      * destruct LAWS as [_ E _ E']. by rewrite E, E'.
    + intros b. rewrite elem_of_cons. destruct (decide (b = a)) as [->|Hb].
      * split; [intros _|by left]. exists (set_nxt (cfirst l) (set_prv None n)).
        unfold link. rewrite lookup_upd, lookup_insert_eq.
        rewrite decide_False by (by intros ?%cfirst_in).
        by rewrite (proj1 (Hup' _ _ _)), (proj2 (Hup' _ _ _)).
      * rewrite Hl. split.
        -- intros [?|(m & Hm & Hpm)]; [done|]. unfold link.
           rewrite lookup_upd, lookup_insert_ne, Hm by done.
           case_decide; eexists; (split; [done|]); rewrite ?(proj2 (Hup' _ _ _)), Hpb; done.
        -- intros (m' & Hm' & Hpm). right. destruct (Hinv b m') as (m & ? & ?); [done..|].
           exists m. split; congruence.
  - rewrite list_lookup_insert_ne in Hj by done.
    destruct (HL j hj Hj) as (l' & -> & Hh'). exists l'. split; [done|].
    eapply holds_frame; [| |exact Hh'].
    + intros b m Hpm Hm. exists m. assert (b ≠ a) by congruence. rewrite Hpb by done.
      split_and!; [|done..]. apply Hother; [done..|]. intros Hb%cfirst_in.
      destruct Hh as (_ & _ & Hl). apply Hl in Hb as (? & ? & ?). congruence.
    + intros b m' Hpm Hm. destruct (decide (b = a)) as [->|Hb].
      * exfalso. unfold link in Hm. rewrite lookup_upd, lookup_insert_eq, decide_False in Hm by (by intros ?%cfirst_in).
        simplify_eq. rewrite (proj1 (Hup' _ _ _)), (proj2 (Hup' _ _ _)) in Hpm. congruence.
      * destruct (Hinv b m') as (m & ? & ?); [done..|]. exists m. split; congruence.
Qed.
End links.
