(* ===== verification/Things.v ===== *)
(** * Map objects (p_mobj.c, and what of p_maputl.c and p_map.c places them)
    Things with their place in the lists of sectors and of blocks, their animation through the table
    of states, their movement, and how they come and go.  The test of a position ([P_CheckPosition]),
    sliding, crossing a special line, the actions of states, what resets a player and aiming are code
    of other modules and parameters here; so is the geometry of the map (where a point lies, on which
    side of a line) and trigonometry.  Sounds are left out.  The memory of a removed thing stays as it
    is, as it does in the program until the thinker list is run again. *)
From S2P Require Import Prelude Dll Movers Info InfoThings ThingData.

Definition TICRATE : Z := 35.
Definition ITEMQUESIZE : Z := 128.
Definition MAPBLOCKSHIFT : Z := FRACBITS + 7.
Definition MAXMOVE : Z := 30 * FRACUNIT.
Definition GRAVITY : Z := FRACUNIT.
Definition FLOATSPEED : Z := FRACUNIT * 4.
Definition VIEWHEIGHT : Z := 41 * FRACUNIT.
Definition STOPSPEED : Z := 0x1000.
Definition FRICTION : Z := 0xe800.
Definition ONFLOORZ : Z := - 2 ^ 31.
Definition ONCEILINGZ : Z := 2 ^ 31 - 1.
Definition MELEERANGE : Z := 64 * FRACUNIT.
Definition MAXPLAYERS : Z := 4.
Definition ANG45 : Z := 0x20000000.
Definition ANGLETOFINESHIFT : Z := 19.
Definition MTF_AMBUSH : Z := 8.
Definition CF_NOMOMENTUM : Z := 4.
Definition NUMCARDS : nat := 6.
Definition sk_baby : Z := 0.
Definition sk_nightmare : Z := 4.

(** [FixedMul]: the product of two 16.16 numbers. *)
Definition FixedMul (a b : Z) : Z := i32 (Z.shiftr (a * b) FRACBITS).

(** [flags & mask], and [flags & ~mask]. *)
Definition has (fl mask : Z) : bool := negb (Z.land fl mask =? 0).
Definition clear (fl mask : Z) : Z := Z.land fl (Z.lnot mask).

Definition P_AproxDistance (dx dy : Z) : Z :=
  let dx := i32 (Z.abs dx) in
  let dy := i32 (Z.abs dy) in
  if dx <? dy then i32 (dx + dy - Z.shiftr dx 1) else i32 (dx + dy - Z.shiftr dy 1).

(** [ANG45 * (angle / 45)], stored as an [angle_t]. *)
Definition spawn_angle (angle : Z) : Z := u32 (ANG45 * (angle ÷ 45)).

(** What does not change during a level. *)
Record game : Type := mk_game {
  subsectors : list nat;              (* the sector of each subsector *)
  backsector : list (option nat);     (* of each line *)
  bmapwidth : Z; bmapheight : Z; bmaporgx : Z; bmaporgy : Z;
  skyflatnum : Z; gameskill : Z; deathmatch : Z; netgame : bool; nomonsters : bool;
  respawnmonsters : bool; ultimate : bool;      (* gameversion >= exe_ultimate *)
  playeringame : list bool;
}.

(** The block of a place, if it is on the map. *)
Definition block_of (G : game) (x y : Z) : option nat :=
  let blockx := Z.shiftr (i32 (x - bmaporgx G)) MAPBLOCKSHIFT in
  let blocky := Z.shiftr (i32 (y - bmaporgy G)) MAPBLOCKSHIFT in
  if (0 <=? blockx) && (blockx <? bmapwidth G) && (0 <=? blocky) && (blocky <? bmapheight G)
  then Some (Z.to_nat (blocky * bmapwidth G + blockx)) else None.

Abbreviation LM := (M level).

Definition get (a : Z) : LM mobj_t :=
  s ← getS; match things s !! a with Some o => mret o | None => stopM BadAccess end.

Definition put (a : Z) (f : mobj_t → mobj_t) : LM unit :=
  get a;; modS (λ s, set_things (alter f a (things s)) s).

Definition fetch {A} (l : list A) (i : nat) : LM A :=
  match l !! i with Some v => mret v | None => stopM BadAccess end.

Definition states_at (i : Z) : LM state_t :=
  if i <? 0 then stopM BadAccess else fetch states (Z.to_nat i).

Definition mobjinfo_at (i : Z) : LM mobjinfo_t :=
  if i <? 0 then stopM BadAccess else fetch mobjinfo (Z.to_nat i).

Definition P_Random : LM Z :=
  s ← getS;
  let i := Z.land (prndindex s + 1) 0xff in
  modS (set_prndindex i);;
  fetch rndtable (Z.to_nat i).

Section things.
Context (G : game).
Context (R_PointInSubsector : Z → Z → nat).

(** [thing->subsector->sector] *)
Definition sector_of (o : mobj_t) : LM nat :=
  match mo_subsector o with None => stopM BadAccess | Some ss => fetch (subsectors G) ss end.

Definition sector_at (sec : nat) : LM sector_t := s ← getS; fetch (sectors s) sec.

Definition get_thinglist (sec : nat) : LM (option Z) := s ← getS; fetch (thinglist s) sec.
Definition put_thinglist (sec : nat) (v : option Z) : LM unit :=
  get_thinglist sec;; modS (λ s, set_thinglist (<[sec := v]> (thinglist s)) s).
Definition get_block (b : nat) : LM (option Z) := s ← getS; fetch (blocklinks s) b.
Definition put_block (b : nat) (v : option Z) : LM unit :=
  get_block b;; modS (λ s, set_blocklinks (<[b := v]> (blocklinks s)) s).

(** An assignment through a pointer that was tested. *)
Definition put_opt (p : option Z) (f : mobj_t → mobj_t) : LM unit :=
  match p with None => mret tt | Some a => put a f end.

(** ** Places *)

Definition unset_sector (thing : Z) : LM unit :=
  o ← get thing;
  put_opt (mo_snext o) (set_mo_sprev (mo_sprev o));;
  o ← get thing;
  match mo_sprev o with
  | Some p => put p (set_mo_snext (mo_snext o))
  | None => sec ← sector_of o; put_thinglist sec (mo_snext o)
  end.

Definition unset_block (thing : Z) : LM unit :=
  o ← get thing;
  put_opt (mo_bnext o) (set_mo_bprev (mo_bprev o));;
  o ← get thing;
  match mo_bprev o with
  | Some p => put p (set_mo_bnext (mo_bnext o))
  | None =>
      match block_of G (mo_x o) (mo_y o) with
      | Some b => put_block b (mo_bnext o)
      | None => mret tt
      end
  end.

Definition P_UnsetThingPosition (thing : Z) : LM unit :=
  o ← get thing;
  (if has (mo_flags o) MF_NOSECTOR then mret tt else unset_sector thing);;
  o ← get thing;
  if has (mo_flags o) MF_NOBLOCKMAP then mret tt else unset_block thing.

Definition set_in_sector (thing : Z) : LM unit :=
  o ← get thing;
  sec ← sector_of o;
  put thing (set_mo_sprev None);;
  hd ← get_thinglist sec;
  put thing (set_mo_snext hd);;
  put_opt hd (set_mo_sprev (Some thing));;
  put_thinglist sec (Some thing).

Definition set_in_block (thing : Z) : LM unit :=
  o ← get thing;
  match block_of G (mo_x o) (mo_y o) with
  | Some b =>
      put thing (set_mo_bprev None);;
      hd ← get_block b;
      put thing (set_mo_bnext hd);;
      put_opt hd (set_mo_bprev (Some thing));;
      put_block b (Some thing)
  | None => put thing (set_mo_bprev None);; put thing (set_mo_bnext None)
  end.

Definition P_SetThingPosition (thing : Z) : LM unit :=
  o ← get thing;
  put thing (set_mo_subsector (Some (R_PointInSubsector (mo_x o) (mo_y o))));;
  (if has (mo_flags o) MF_NOSECTOR then mret tt else set_in_sector thing);;
  if has (mo_flags o) MF_NOBLOCKMAP then mret tt else set_in_block thing.

(** ** Coming and going *)

(** The items that [P_RemoveMobj] queues to respawn, and the queueing. *)
Definition respawns (o : mobj_t) : bool :=
  has (mo_flags o) MF_SPECIAL && negb (has (mo_flags o) MF_DROPPED) && negb (mo_type o =? MT_INV) && negb (mo_type o =? MT_INS).

Definition que_item (o : mobj_t) : LM unit :=
  s ← getS;
  fetch (itemrespawnque s) (Z.to_nat (iquehead s));;
  modS (λ s, set_itemrespawnque (<[Z.to_nat (iquehead s) := mo_spawnpoint o]> (itemrespawnque s)) s);;
  modS (λ s, set_itemrespawntime (<[Z.to_nat (iquehead s) := leveltime s]> (itemrespawntime s)) s);;
  let head := Z.land (iquehead s + 1) (ITEMQUESIZE - 1) in
  modS (set_iquehead head);;
  if head =? iquetail s then modS (set_iquetail (Z.land (iquetail s + 1) (ITEMQUESIZE - 1))) else mret tt.

(** [P_RemoveThinker] only marks the thinker. *)
Definition P_RemoveMobj (mobj : Z) : LM unit :=
  o ← get mobj;
  (if respawns o then que_item o else mret tt);;
  P_UnsetThingPosition mobj;;
  put mobj (set_mo_removed true).

(** The thing that [memset] and the first assignments of [P_SpawnMobj] leave. *)
Definition new_mobj (x y type : Z) (info : mobjinfo_t) (look : Z) (state : Z) (st : state_t) : mobj_t :=
  mk_mobj x y 0 None None 0 (sprite st) (frame st) None None None 0 0 (radius info) (height info) 0 0 0 type
    (tics st) (Some state) (flags info) (spawnhealth info) 0 0 None
    (if gameskill G =? sk_nightmare then 0 else reactiontime info) 0 None look (mk_mapthing 0 0 0 0 0) None false.

Definition P_SpawnMobj (x y z type : Z) : LM Z :=
  info ← mobjinfo_at type;
  r ← P_Random;
  st ← states_at (spawnstate info);
  s ← getS;
  let mobj := next_thing s in
  modS (set_next_thing (mobj + 1));;
  modS (λ s, set_things (<[mobj := new_mobj x y type info (Z.rem r MAXPLAYERS) (spawnstate info) st]> (things s)) s);;
  P_SetThingPosition mobj;;
  o ← get mobj;
  sec ← sector_of o;
  sc ← sector_at sec;
  put mobj (set_mo_floorz (floorheight sc));;
  put mobj (set_mo_ceilingz (ceilingheight sc));;
  put mobj (set_mo_z (if z =? ONFLOORZ then floorheight sc
                      else if z =? ONCEILINGZ then i32 (ceilingheight sc - height info) else z));;
  modS (λ s, set_thinkers (thinkers s ++ [mobj]) s);;
  mret mobj.

(** ** Animation *)

(** The action functions of states, called on a thing. *)
Context (call : actionf_t → Z → LM unit).

(** The loop goes on while the duration of the state is zero. *)
Fixpoint SetStateLoop (fuel : nat) (mobj state : Z) : LM bool :=
  match fuel with
  | O => stopM NoFuel
  | S fuel =>
      if state =? S_NULL then
        put mobj (set_mo_state None);;
        P_RemoveMobj mobj;;
        mret false
      else
        st ← states_at state;
        put mobj (λ o, set_mo_frame (frame st) (set_mo_sprite (sprite st) (set_mo_tics (tics st) (set_mo_state (Some state) o))));;
        match action st with Some f => call f mobj | None => mret tt end;;
        o ← get mobj;
        if mo_tics o =? 0 then SetStateLoop fuel mobj (nextstate st) else mret true
  end.

Definition P_SetMobjState (mobj state : Z) : LM bool := SetStateLoop (S (length states)) mobj state.

(** [mo->tics -= P_Random() & 3], at least 1. *)
Definition jitter_tics (mo : Z) : LM unit :=
  r ← P_Random;
  put mo (λ o, set_mo_tics (i32 (mo_tics o - Z.land r 3)) o);;
  o ← get mo;
  if mo_tics o <? 1 then put mo (set_mo_tics 1) else mret tt.

Definition P_ExplodeMissile (mo : Z) : LM unit :=
  put mo (λ o, set_mo_momx 0 (set_mo_momy 0 (set_mo_momz 0 o)));;
  o ← get mo;
  info ← mobjinfo_at (mo_type o);
  P_SetMobjState mo (deathstate info);;
  jitter_tics mo;;
  put mo (λ o, set_mo_flags (clear (mo_flags o) MF_MISSILE) o).

(** ** Movement *)

(** [P_CheckPosition] sets [tmfloorz], [tmceilingz], [tmdropoffz], [ceilingline] and the special
    lines that the position touches. *)
Context (P_CheckPosition : Z → Z → Z → LM bool).
Context (P_CrossSpecialLine : nat → Z → Z → LM unit).
Context (P_PointOnLineSide : Z → Z → nat → Z).

(** [while (numspechit--)] *)
Fixpoint CrossLoop (fuel : nat) (thing oldx oldy : Z) : LM unit :=
  match fuel with
  | O => stopM NoFuel
  | S fuel =>
      s ← getS;
      let n := numspechit s in
      modS (set_numspechit (n - 1));;
      if n =? 0 then mret tt
      else
        (if n <? 0 then stopM BadAccess else mret tt);;
        ld ← fetch (spechit s) (Z.to_nat (n - 1));
        o ← get thing;
        let side := P_PointOnLineSide (mo_x o) (mo_y o) ld in
        let oldside := P_PointOnLineSide oldx oldy ld in
        (if side =? oldside then mret tt
         else sp ← fetch (line_special s) ld; if sp =? 0 then mret tt else P_CrossSpecialLine ld oldside thing);;
        CrossLoop fuel thing oldx oldy
  end.

(** Whether the thing may be at the position that was tested, and [floatok]. *)
Definition move_fits (s : level) (o : mobj_t) : bool * bool :=
  if has (mo_flags o) MF_NOCLIP then (true, false)
  else if i32 (tmceilingz s - tmfloorz s) <? mo_height o then (false, false)
  else if negb (has (mo_flags o) MF_TELEPORT) && (i32 (tmceilingz s - mo_z o) <? mo_height o) then (false, true)
  else if negb (has (mo_flags o) MF_TELEPORT) && (24 * FRACUNIT <? i32 (tmfloorz s - mo_z o)) then (false, true)
  else if negb (has (mo_flags o) (Z.lor MF_DROPOFF MF_FLOAT)) && (24 * FRACUNIT <? i32 (tmfloorz s - tmdropoffz s)) then (false, true)
  else (true, true).

(** [thing->x = x] and so on, between unlinking and linking. *)
Definition relocate (thing x y : Z) : LM unit :=
  P_UnsetThingPosition thing;;
  s ← getS;
  put thing (λ o, set_mo_y y (set_mo_x x (set_mo_ceilingz (tmceilingz s) (set_mo_floorz (tmfloorz s) o))));;
  P_SetThingPosition thing.

Definition P_TryMove (thing x y : Z) : LM bool :=
  modS (set_floatok false);;
  ok ← P_CheckPosition thing x y;
  if negb ok then mret false
  else
    s ← getS;
    o ← get thing;
    (if (move_fits s o).2 then modS (set_floatok true) else mret tt);;
    if negb (move_fits s o).1 then mret false
    else
      relocate thing x y;;
      o' ← get thing;
      (if has (mo_flags o') (Z.lor MF_TELEPORT MF_NOCLIP) then mret tt
       else s ← getS; CrossLoop (S (Z.to_nat (numspechit s))) thing (mo_x o) (mo_y o));;
      mret true.

Definition P_ThingHeightClip (thing : Z) : LM bool :=
  o ← get thing;
  let onfloor := mo_z o =? mo_floorz o in
  P_CheckPosition thing (mo_x o) (mo_y o);;
  s ← getS;
  put thing (λ o, set_mo_ceilingz (tmceilingz s) (set_mo_floorz (tmfloorz s) o));;
  o ← get thing;
  (if onfloor then put thing (set_mo_z (mo_floorz o))
   else if mo_ceilingz o <? i32 (mo_z o + mo_height o) then put thing (set_mo_z (i32 (mo_ceilingz o - mo_height o)))
   else mret tt);;
  mret (negb (i32 (mo_ceilingz o - mo_floorz o) <? mo_height o)).

Context (P_SlideMove : Z → LM unit).

Definition clamp_move (v : Z) : Z :=
  if MAXMOVE <? v then MAXMOVE else if v <? - MAXMOVE then - MAXMOVE else v.

(** The line that stopped a missile has a sky behind it. *)
Definition sky_hit : LM bool :=
  s ← getS;
  match ceilingline s with
  | None => mret false
  | Some ld =>
      back ← fetch (backsector G) ld;
      match back with None => mret false | Some sec => sc ← sector_at sec; mret (ceilingpic sc =? skyflatnum G) end
  end.

(** What a blocked move does; [true]: the thing is gone and [P_XYMovement] returns. *)
Definition blocked_move (mo : Z) : LM bool :=
  o ← get mo;
  match mo_player o with
  | Some _ => P_SlideMove mo;; mret false
  | None =>
      if has (mo_flags o) MF_MISSILE then
        sky ← sky_hit;
        if sky : bool then P_RemoveMobj mo;; mret true else P_ExplodeMissile mo;; mret false
      else put mo (λ o, set_mo_momx 0 (set_mo_momy 0 o));; mret false
  end.

(** One round moves by the whole rest or by half of it.  [xmove / 2] rounds to zero, [xmove >> 1]
    down. *)
Definition half_move (xmove ymove : Z) : bool := (MAXMOVE ÷ 2 <? xmove) || (MAXMOVE ÷ 2 <? ymove).

Fixpoint XYLoop (fuel : nat) (mo xmove ymove : Z) : LM bool :=
  match fuel with
  | O => stopM NoFuel
  | S fuel =>
      o ← get mo;
      let half := half_move xmove ymove in
      let ptryx := i32 (mo_x o + if half then xmove ÷ 2 else xmove) in
      let ptryy := i32 (mo_y o + if half then ymove ÷ 2 else ymove) in
      let xmove := if half then Z.shiftr xmove 1 else 0 in
      let ymove := if half then Z.shiftr ymove 1 else 0 in
      ok ← P_TryMove mo ptryx ptryy;
      gone ← (if ok : bool then mret false else blocked_move mo);
      if gone : bool then mret true
      else if (xmove =? 0) && (ymove =? 0) then mret false else XYLoop fuel mo xmove ymove
  end.

Definition player_of (o : mobj_t) : LM (option player_t) :=
  match mo_player o with None => mret None | Some i => s ← getS; p ← fetch (players s) i; mret (Some p) end.

Definition slow (v : Z) : bool := (- STOPSPEED <? v) && (v <? STOPSPEED).
Definition fast_corpse (v : Z) : bool := (FRACUNIT ÷ 4 <? v) || (v <? - FRACUNIT ÷ 4).

(** A player that stands still leaves the walking frames. *)
Definition stop_walking (p : option player_t) : LM unit :=
  match p with
  | None => mret tt
  | Some p =>
      match pl_mo p with
      | None => stopM BadAccess
      | Some a =>
          o ← get a;
          match mo_state o with
          | Some st => if u32 (st - S_PLAY_RUN1) <? 4 then P_SetMobjState a S_PLAY;; mret tt else mret tt
          | None => mret tt
          end
      end
  end.

(** The part of [P_XYMovement] that slows the thing down. *)
Definition xy_friction (mo : Z) (p : option player_t) : LM unit :=
  o ← get mo;
  if match p with Some p => has (pl_cheats p) CF_NOMOMENTUM | None => false end then
    put mo (λ o, set_mo_momx 0 (set_mo_momy 0 o))
  else if has (mo_flags o) (Z.lor MF_MISSILE MF_SKULLFLY) then mret tt
  else if mo_floorz o <? mo_z o then mret tt
  else
    edge ← (if has (mo_flags o) MF_CORPSE && (fast_corpse (mo_momx o) || fast_corpse (mo_momy o))
            then sec ← sector_of o; sc ← sector_at sec; mret (negb (mo_floorz o =? floorheight sc))
            else mret false);
    if edge : bool then mret tt
    else if slow (mo_momx o) && slow (mo_momy o) &&
            match p with Some p => (pl_forwardmove p =? 0) && (pl_sidemove p =? 0) | None => true end then
      stop_walking p;; put mo (λ o, set_mo_momx 0 (set_mo_momy 0 o))
    else put mo (λ o, set_mo_momx (FixedMul (mo_momx o) FRICTION) (set_mo_momy (FixedMul (mo_momy o) FRICTION) o)).

Definition P_XYMovement (mo : Z) : LM unit :=
  o ← get mo;
  if (mo_momx o =? 0) && (mo_momy o =? 0) then
    if has (mo_flags o) MF_SKULLFLY then
      put mo (λ o, set_mo_momx 0 (set_mo_momy 0 (set_mo_momz 0 (set_mo_flags (clear (mo_flags o) MF_SKULLFLY) o))));;
      info ← mobjinfo_at (mo_type o);
      P_SetMobjState mo (spawnstate info);;
      mret tt
    else mret tt
  else
    put mo (λ o, set_mo_momx (clamp_move (mo_momx o)) (set_mo_momy (clamp_move (mo_momy o)) o));;
    gone ← XYLoop 3 mo (clamp_move (mo_momx o)) (clamp_move (mo_momy o));
    if gone : bool then mret tt else p ← player_of o; xy_friction mo p.

Definition put_player (i : nat) (f : player_t → player_t) : LM unit :=
  s ← getS; fetch (players s) i;; modS (λ s, set_players (alter f i (players s)) s).

(** [if (mo->player ...)]: the number of the player. *)
Definition when_player (o : mobj_t) (c : bool) (f : player_t → player_t) : LM unit :=
  match mo_player o with Some i => if c then put_player i f else mret tt | None => mret tt end.

Definition smooth_step (o : mobj_t) (p : player_t) : player_t :=
  let v := i32 (pl_viewheight p - i32 (mo_floorz o - mo_z o)) in
  set_pl_deltaviewheight (Z.shiftr (i32 (VIEWHEIGHT - v)) 3) (set_pl_viewheight v p).

(** Towards the target, up or down. *)
Definition float_z (o t : mobj_t) : Z :=
  if has (mo_flags o) MF_SKULLFLY || has (mo_flags o) MF_INFLOAT then mo_z o
  else
    let dist := P_AproxDistance (i32 (mo_x o - mo_x t)) (i32 (mo_y o - mo_y t)) in
    let delta := i32 (i32 (mo_z t + Z.shiftr (mo_height o) 1) - mo_z o) in
    if (delta <? 0) && (dist <? i32 (- i32 (delta * 3))) then i32 (mo_z o - FLOATSPEED)
    else if (0 <? delta) && (dist <? i32 (delta * 3)) then i32 (mo_z o + FLOATSPEED)
    else mo_z o.

Definition hit_floor (o : mobj_t) : mobj_t :=
  let skull := has (mo_flags o) MF_SKULLFLY in
  let m := if ultimate G && skull then i32 (- mo_momz o) else mo_momz o in
  let m := if m <? 0 then 0 else m in
  let m := if negb (ultimate G) && skull then i32 (- m) else m in
  set_mo_momz m (set_mo_z (mo_floorz o) o).

(** A player that hits the floor hard squats. *)
Definition squat_speed (o : mobj_t) : Z :=
  if ultimate G && has (mo_flags o) MF_SKULLFLY then i32 (- mo_momz o) else mo_momz o.

Definition fall (o : mobj_t) : mobj_t :=
  if has (mo_flags o) MF_NOGRAVITY then o
  else if mo_momz o =? 0 then set_mo_momz (- GRAVITY * 2) o
  else set_mo_momz (i32 (mo_momz o - GRAVITY)) o.

Definition hit_ceiling (o : mobj_t) : mobj_t :=
  let m := if 0 <? mo_momz o then 0 else mo_momz o in
  let m := if has (mo_flags o) MF_SKULLFLY then i32 (- m) else m in
  set_mo_momz m (set_mo_z (i32 (mo_ceilingz o - mo_height o)) o).

Definition explodes (o : mobj_t) : bool := has (mo_flags o) MF_MISSILE && negb (has (mo_flags o) MF_NOCLIP).

Definition z_ceiling (mo : Z) : LM unit :=
  o ← get mo;
  if mo_ceilingz o <? i32 (mo_z o + mo_height o) then
    put mo hit_ceiling;;
    if explodes o then P_ExplodeMissile mo else mret tt
  else mret tt.

Definition P_ZMovement (mo : Z) : LM unit :=
  o ← get mo;
  when_player o (mo_z o <? mo_floorz o) (smooth_step o);;
  put mo (λ o, set_mo_z (i32 (mo_z o + mo_momz o)) o);;
  o ← get mo;
  match mo_target o with
  | Some t =>
      if has (mo_flags o) MF_FLOAT then ot ← get t; put mo (set_mo_z (float_z o ot)) else mret tt
  | None => mret tt
  end;;
  o ← get mo;
  if mo_z o <=? mo_floorz o then
    when_player o (squat_speed o <? - GRAVITY * 8) (set_pl_deltaviewheight (Z.shiftr (squat_speed o) 3));;
    put mo hit_floor;;
    if explodes o then P_ExplodeMissile mo else z_ceiling mo
  else put mo fall;; z_ceiling mo.

(** ** Respawning *)

(** [z] for a type that hangs or stands. *)
Definition spawn_z (info : mobjinfo_t) : Z := if has (flags info) MF_SPAWNCEILING then ONCEILINGZ else ONFLOORZ.

(** [mthing->x << FRACBITS] *)
Definition map_coord (v : Z) : Z := i32 (Z.shiftl v FRACBITS).

Definition P_NightmareRespawn (mobj : Z) : LM unit :=
  o ← get mobj;
  let mthing := mo_spawnpoint o in
  let x := map_coord (mt_x mthing) in
  let y := map_coord (mt_y mthing) in
  ok ← P_CheckPosition mobj x y;
  if negb ok then mret tt
  else
    o ← get mobj;
    sec ← sector_of o; sc ← sector_at sec;
    P_SpawnMobj (mo_x o) (mo_y o) (floorheight sc) MT_TFOG;;
    sec ← fetch (subsectors G) (R_PointInSubsector x y); sc ← sector_at sec;
    P_SpawnMobj x y (floorheight sc) MT_TFOG;;
    o ← get mobj;
    info ← mobjinfo_at (mo_type o);
    mo ← P_SpawnMobj x y (spawn_z info) (mo_type o);
    put mo (λ n, set_mo_angle (spawn_angle (mt_angle mthing)) (set_mo_spawnpoint (mo_spawnpoint o) n));;
    (if has (mt_options mthing) MTF_AMBUSH then put mo (λ n, set_mo_flags (Z.lor (mo_flags n) MF_AMBUSH) n) else mret tt);;
    put mo (set_mo_reactiontime 18);;
    P_RemoveMobj mobj.

(** The countdown of a state, and the wait of a monster for its return. *)
Definition think_state (mobj : Z) (o : mobj_t) : LM unit :=
  if negb (mo_tics o =? -1) then
    put mobj (λ o, set_mo_tics (i32 (mo_tics o - 1)) o);;
    if i32 (mo_tics o - 1) =? 0 then
      match mo_state o with
      | None => stopM BadAccess
      | Some i => st ← states_at i; P_SetMobjState mobj (nextstate st);; mret tt
      end
    else mret tt
  else if negb (has (mo_flags o) MF_COUNTKILL) then mret tt
  else if negb (respawnmonsters G) then mret tt
  else
    put mobj (λ o, set_mo_movecount (i32 (mo_movecount o + 1)) o);;
    if i32 (mo_movecount o + 1) <? 12 * TICRATE then mret tt
    else
      s ← getS;
      if negb (Z.land (leveltime s) 31 =? 0) then mret tt
      else r ← P_Random; if 4 <? r then mret tt else P_NightmareRespawn mobj.

Definition P_MobjThinker (mobj : Z) : LM unit :=
  o ← get mobj;
  (if negb (mo_momx o =? 0) || negb (mo_momy o =? 0) || has (mo_flags o) MF_SKULLFLY then P_XYMovement mobj else mret tt);;
  o ← get mobj;
  if mo_removed o then mret tt
  else
    (if negb (mo_z o =? mo_floorz o) || negb (mo_momz o =? 0) then P_ZMovement mobj else mret tt);;
    o ← get mobj;
    if mo_removed o then mret tt else think_state mobj o.

(** [for (i = 0; i < NUMMOBJTYPES; i++) if (type == mobjinfo[i].doomednum) break] *)
Fixpoint find_type (l : list mobjinfo_t) (type i : Z) : Z :=
  match l with
  | [] => i
  | info :: l => if type =? doomednum info then i else find_type l type (i + 1)
  end.

Definition P_RespawnSpecials : LM unit :=
  s ← getS;
  if negb (deathmatch G =? 2) then mret tt
  else if iquehead s =? iquetail s then mret tt
  else
    t ← fetch (itemrespawntime s) (Z.to_nat (iquetail s));
    if i32 (leveltime s - t) <? 30 * TICRATE then mret tt
    else
      mthing ← fetch (itemrespawnque s) (Z.to_nat (iquetail s));
      let x := map_coord (mt_x mthing) in
      let y := map_coord (mt_y mthing) in
      sec ← fetch (subsectors G) (R_PointInSubsector x y); sc ← sector_at sec;
      P_SpawnMobj x y (floorheight sc) MT_IFOG;;
      let i := find_type mobjinfo (mt_type mthing) 0 in
      info ← mobjinfo_at i;
      mo ← P_SpawnMobj x y (spawn_z info) i;
      put mo (λ n, set_mo_angle (spawn_angle (mt_angle mthing)) (set_mo_spawnpoint mthing n));;
      modS (λ s, set_iquetail (Z.land (iquetail s + 1) (ITEMQUESIZE - 1)) s).

(** ** Spawning *)

(** The reset of a player that was dead, and its weapon. *)
Context (G_PlayerReborn : nat → LM unit) (P_SetupPsprites : nat → LM unit).

(** The assignments to [*p]. *)
Definition live_player (mobj : Z) (p : player_t) : player_t :=
  set_pl_viewheight VIEWHEIGHT (set_pl_fixedcolormap 0 (set_pl_extralight 0 (set_pl_bonuscount 0 (set_pl_damagecount 0
    (set_pl_message None (set_pl_refire 0 (set_pl_playerstate PST_LIVE (set_pl_mo (Some mobj) p)))))))).

Definition P_SpawnPlayer (mthing : mapthing_t) : LM unit :=
  if mt_type mthing =? 0 then mret tt
  else
    (if mt_type mthing <? 0 then stopM BadAccess else mret tt);;
    let n := Z.to_nat (mt_type mthing - 1) in
    playing ← fetch (playeringame G) n;
    if negb playing then mret tt
    else
      s ← getS;
      p ← fetch (players s) n;
      match pl_playerstate p with PST_REBORN => G_PlayerReborn n | _ => mret tt end;;
      mobj ← P_SpawnMobj (map_coord (mt_x mthing)) (map_coord (mt_y mthing)) ONFLOORZ MT_PLAYER;
      (if 1 <? mt_type mthing
       then put mobj (λ o, set_mo_flags (Z.lor (mo_flags o) (Z.shiftl (mt_type mthing - 1) MF_TRANSSHIFT)) o)
       else mret tt);;
      s ← getS;
      p ← fetch (players s) n;
      put mobj (λ o, set_mo_health (pl_health p) (set_mo_player (Some n) (set_mo_angle (spawn_angle (mt_angle mthing)) o)));;
      put_player n (live_player mobj);;
      P_SetupPsprites n;;
      if deathmatch G =? 0 then mret tt else put_player n (set_pl_cards (replicate NUMCARDS true)).

(** The option that the skill asks for. *)
Definition skill_bit : Z :=
  if gameskill G =? sk_baby then 1 else if gameskill G =? sk_nightmare then 4 else Z.shiftl 1 (gameskill G - 1).

(** The last part of [P_SpawnMapThing]: the thing of type [i] is made. *)
Definition spawn_map_mobj (mthing : mapthing_t) (i : Z) (info : mobjinfo_t) : LM unit :=
  mobj ← P_SpawnMobj (map_coord (mt_x mthing)) (map_coord (mt_y mthing)) (spawn_z info) i;
  put mobj (set_mo_spawnpoint mthing);;
  o ← get mobj;
  (if 0 <? mo_tics o then r ← P_Random; put mobj (λ o, set_mo_tics (1 + Z.rem r (mo_tics o)) o) else mret tt);;
  (if has (mo_flags o) MF_COUNTKILL then modS (λ s, set_totalkills (i32 (totalkills s + 1)) s) else mret tt);;
  (if has (mo_flags o) MF_COUNTITEM then modS (λ s, set_totalitems (i32 (totalitems s + 1)) s) else mret tt);;
  put mobj (set_mo_angle (spawn_angle (mt_angle mthing)));;
  if has (mt_options mthing) MTF_AMBUSH then put mobj (λ o, set_mo_flags (Z.lor (mo_flags o) MF_AMBUSH) o) else mret tt.

Definition MAX_DM_STARTS : Z := 10.

Definition P_SpawnMapThing (mthing : mapthing_t) : LM unit :=
  if mt_type mthing =? 11 then
    s ← getS;
    if deathmatch_p s <? MAX_DM_STARTS then
      modS (λ s, set_deathmatchstarts (<[Z.to_nat (deathmatch_p s) := mthing]> (deathmatchstarts s)) s);;
      modS (λ s, set_deathmatch_p (deathmatch_p s + 1) s)
    else mret tt
  else if mt_type mthing <=? 0 then mret tt
  else if mt_type mthing <=? 4 then
    modS (λ s, set_playerstarts (<[Z.to_nat (mt_type mthing - 1) := mthing]> (playerstarts s)) s);;
    if deathmatch G =? 0 then P_SpawnPlayer mthing else mret tt
  else if negb (netgame G) && has (mt_options mthing) 16 then mret tt
  else if negb (has (mt_options mthing) skill_bit) then mret tt
  else
    let i := find_type mobjinfo (mt_type mthing) 0 in
    if i =? NUMMOBJTYPES then stopM (Panic "P_SpawnMapThing: Unknown type")
    else
      info ← mobjinfo_at i;
      if negb (deathmatch G =? 0) && has (flags info) MF_NOTDMATCH then mret tt
      else if nomonsters G && ((i =? MT_SKULL) || has (flags info) MF_COUNTKILL) then mret tt
      else spawn_map_mobj mthing i info.

(** [P_Random() - P_Random()]: C leaves open which of the two calls comes first. *)
Context (left_first : bool).
Definition P_SubRandom : LM Z :=
  a ← P_Random; b ← P_Random; mret (if left_first then a - b else b - a).

(** [attackrange] is a variable of p_map.c. *)
Definition P_SpawnPuff (attackrange x y z : Z) : LM unit :=
  d ← P_SubRandom;
  th ← P_SpawnMobj x y (i32 (z + Z.shiftl d 10)) MT_PUFF;
  put th (set_mo_momz FRACUNIT);;
  jitter_tics th;;
  if attackrange =? MELEERANGE then P_SetMobjState th S_PUFF3;; mret tt else mret tt.

Definition P_SpawnBlood (x y z damage : Z) : LM unit :=
  d ← P_SubRandom;
  th ← P_SpawnMobj x y (i32 (z + Z.shiftl d 10)) MT_BLOOD;
  put th (set_mo_momz (FRACUNIT * 2));;
  jitter_tics th;;
  if (damage <=? 12) && (9 <=? damage) then P_SetMobjState th S_BLOOD2;; mret tt
  else if damage <? 9 then P_SetMobjState th S_BLOOD3;; mret tt
  else mret tt.

Definition P_CheckMissileSpawn (th : Z) : LM unit :=
  jitter_tics th;;
  put th (λ o, set_mo_z (i32 (mo_z o + Z.shiftr (mo_momz o) 1)) (set_mo_y (i32 (mo_y o + Z.shiftr (mo_momy o) 1))
                 (set_mo_x (i32 (mo_x o + Z.shiftr (mo_momx o) 1)) o)));;
  o ← get th;
  ok ← P_TryMove th (mo_x o) (mo_y o);
  if ok : bool then mret tt else P_ExplodeMissile th.

Context (R_PointToAngle2 : Z → Z → Z → Z → Z) (finecosine finesine : Z → Z).

(** Division traps on zero. *)
Definition divide (a b : Z) : LM Z := if b =? 0 then stopM (Panic "division by zero") else mret (a ÷ b).

Definition aim (speed an momz : Z) (target : Z) (o : mobj_t) : mobj_t :=
  let fine := Z.shiftr an ANGLETOFINESHIFT in
  set_mo_momz momz (set_mo_momy (FixedMul speed (finesine fine)) (set_mo_momx (FixedMul speed (finecosine fine))
    (set_mo_angle an (set_mo_target (Some target) o)))).

Definition P_SpawnMissile (source dest type : Z) : LM Z :=
  src ← get source;
  th ← P_SpawnMobj (mo_x src) (mo_y src) (i32 (mo_z src + 4 * 8 * FRACUNIT)) type;
  info ← mobjinfo_at type;
  dst ← get dest;
  let an := R_PointToAngle2 (mo_x src) (mo_y src) (mo_x dst) (mo_y dst) in
  an ← (if has (mo_flags dst) MF_SHADOW then d ← P_SubRandom; mret (u32 (an + Z.shiftl d 20)) else mret an);
  dist ← divide (P_AproxDistance (i32 (mo_x dst - mo_x src)) (i32 (mo_y dst - mo_y src))) (speed info);
  let dist := if dist <? 1 then 1 else dist in
  put th (aim (speed info) an (i32 (mo_z dst - mo_z src) ÷ dist) source);;
  P_CheckMissileSpawn th;;
  mret th.

(** [P_AimLineAttack] gives the slope and sets [linetarget]. *)
Context (P_AimLineAttack : Z → Z → Z → LM Z).

(** The three tries to find a target, and the angle and slope that come of them. *)
Definition aim_player (source an : Z) : LM (Z * Z) :=
  let try (an : Z) := P_AimLineAttack source an (16 * 64 * FRACUNIT) in
  slope ← try an;
  s ← getS;
  if linetarget s is Some _ then mret (an, slope)
  else
    let an1 := u32 (an + 2 ^ 26) in
    slope ← try an1;
    s ← getS;
    if linetarget s is Some _ then mret (an1, slope)
    else
      let an2 := u32 (an1 - 2 * 2 ^ 26) in
      slope ← try an2;
      s ← getS;
      if linetarget s is Some _ then mret (an2, slope) else o ← get source; mret (mo_angle o, 0).

Definition P_SpawnPlayerMissile (source type : Z) : LM unit :=
  src ← get source;
  '(an, slope) ← aim_player source (mo_angle src);
  src ← get source;
  th ← P_SpawnMobj (mo_x src) (mo_y src) (i32 (mo_z src + 4 * 8 * FRACUNIT)) type;
  info ← mobjinfo_at type;
  put th (aim (speed info) an (FixedMul (speed info) slope) source);;
  P_CheckMissileSpawn th.
End things.
