(* ===== verification/ThingTables.v ===== *)
(** * Facts about the tables, flags and access to map objects
    What the tables of states and types guarantee (checked by computation over the whole tables),
    the flags of things, and the rules for reading and writing a thing. *)
From S2P Require Import Prelude Movers Info InfoThings ThingData Things.

(** ** Facts about the tables *)

Definition in_states (i : Z) : bool := (0 <=? i) && (i <? NUMSTATES).

(** The actions that remove the thing they are called on: [A_SpawnFly], and [A_SpawnSound] which calls it. *)
Definition removing (f : actionf_t) : bool := match f with A_SpawnFly | A_SpawnSound => true | _ => false end.
Definition removes (st : state_t) : bool := match action st with Some f => removing f | None => false end.

Definition state_good (st : state_t) : bool :=
  (-1 <=? tics st) && (tics st <? 2 ^ 31) && in_states (nextstate st) && negb (removes st && (tics st =? 0)).

(** How many states a zero duration leads through, at most three. *)
Fixpoint zero_run (fuel : nat) (state : Z) : option nat :=
  match fuel with
  | O => None
  | S fuel =>
      if state =? S_NULL then Some 0%nat
      else match states !! Z.to_nat state with
           | None => None
           | Some st => if tics st =? 0 then S <$> zero_run fuel (nextstate st) else Some 0%nat
           end
  end.

Definition lasting (state : Z) : bool :=
  match states !! Z.to_nat state with
  | Some st => negb (tics st =? 0) && negb (removes st)
  | None => false
  end.

Definition info_good (i : mobjinfo_t) : bool :=
  in_states (spawnstate i) && in_states (seestate i) && in_states (painstate i) && in_states (meleestate i) &&
  in_states (missilestate i) && in_states (deathstate i) && in_states (xdeathstate i) && in_states (raisestate i) &&
  match states !! Z.to_nat (spawnstate i) with Some st => negb (tics st =? 0) | None => false end &&
  ((deathstate i =? S_NULL) || lasting (deathstate i)) &&
  (negb (has (flags i) MF_MISSILE) ||
     has (flags i) MF_NOBLOCKMAP && (has (flags i) MF_NOCLIP || negb (deathstate i =? S_NULL)) && negb (speed i =? 0)) &&
  negb (has (flags i) MF_COUNTKILL && has (flags i) MF_SPECIAL) &&
  (0 <=? flags i) && (flags i <? 2 ^ 31).

Lemma states_length : length states = Z.to_nat NUMSTATES.
Proof. vm_compute. reflexivity. Qed.
Lemma mobjinfo_length : length mobjinfo = Z.to_nat NUMMOBJTYPES.
Proof. vm_compute. reflexivity. Qed.
Lemma states_good : forallb state_good states = true.
Proof. vm_compute. reflexivity. Qed.
Lemma mobjinfo_good : forallb info_good mobjinfo = true.
Proof. vm_compute. reflexivity. Qed.
Lemma zero_runs : forallb (λ i, match zero_run 4 (Z.of_nat i) with Some _ => true | None => false end) (seq 0 (Z.to_nat NUMSTATES)) = true.
Proof. vm_compute. reflexivity. Qed.

Lemma zero_run_small i : 0 ≤ i < NUMSTATES → is_Some (zero_run 4 i).
Proof.
  intros Hi. pose proof zero_runs as H. rewrite forallb_forall in H.
  specialize (H (Z.to_nat i)). rewrite Z2Nat.id in H by lia.
  destruct (zero_run 4 i); [by eexists|]. exfalso. discriminate H.
  apply in_seq. unfold NUMSTATES in *. lia.
Qed.

Lemma state_ok i : 0 ≤ i < NUMSTATES → ∃ st, states !! Z.to_nat i = Some st ∧ state_good st = true.
Proof.
  intros Hi. destruct (lookup_lt_is_Some_2 states (Z.to_nat i)) as [st Hst].
  { rewrite states_length. lia. }
  exists st. split; [done|]. pose proof states_good as H. rewrite forallb_forall in H.
  apply H, list_elem_of_In, list_elem_of_lookup. eauto.
Qed.

Lemma info_ok i : 0 ≤ i < NUMMOBJTYPES → ∃ inf, mobjinfo !! Z.to_nat i = Some inf ∧ info_good inf = true.
Proof.
  intros Hi. destruct (lookup_lt_is_Some_2 mobjinfo (Z.to_nat i)) as [st Hst].
  { rewrite mobjinfo_length. lia. }
  exists st. split; [done|]. pose proof mobjinfo_good as H. rewrite forallb_forall in H.
  apply H, list_elem_of_In, list_elem_of_lookup. eauto.
Qed.

(** ** Flags *)

Lemma has_lor f m k : has (Z.lor f m) k = has f k || has m k.
Proof.
  unfold has. rewrite Z.land_lor_distr_l.
  destruct (Z.eqb_spec (Z.land f k) 0) as [->|Hf], (Z.eqb_spec (Z.land m k) 0) as [->|Hm]; [done|..];
    cbn; apply negb_true_iff, Z.eqb_neq; intros [??]%Z.lor_eq_0_iff; done.
Qed.

Lemma has_clear_other f m k : Z.land m k = 0 → has (clear f m) k = has f k.
Proof.
  intros Hmk. unfold has, clear. do 2 f_equal. rewrite <- Z.land_assoc. f_equal.
  apply Z.bits_inj. intros i. rewrite Z.land_spec.
  destruct (decide (0 ≤ i)); [|by rewrite !(Z.testbit_neg_r k) by lia; rewrite andb_false_r].
  rewrite Z.lnot_spec by done. assert (Z.testbit (Z.land m k) i = false) as H by (rewrite Hmk; apply Z.bits_0).
  rewrite Z.land_spec in H. by destruct (Z.testbit m i), (Z.testbit k i).
Qed.

Lemma has_clear f m : has (clear f m) m = false.
Proof.
  unfold has, clear. apply negb_false_iff, Z.eqb_eq. rewrite <- Z.land_assoc, (Z.land_comm (Z.lnot m)).
  by rewrite Z.land_lnot_diag, Z.land_0_r.
Qed.

Lemma clear_sub f m k : has (clear f m) k = true → has f k = true.
Proof.
  unfold has, clear. rewrite !negb_true_iff, !Z.eqb_neq. intros H E. apply H.
  rewrite <- Z.land_assoc, (Z.land_comm (Z.lnot m)), Z.land_assoc, E. apply Z.land_0_l.
Qed.

(** ** Access to things *)

Lemma wp_getmo E a o (Q : mobj_t → level → Prop) s : things s !! a = Some o → wp E (get a) Q s ↔ Q o s.
Proof. intros H. unfold get. wp_simp. by rewrite H. Qed.

Lemma wp_putmo E a f o (Q : unit → level → Prop) s :
  things s !! a = Some o → wp E (put a f) Q s ↔ Q tt (set_things (alter f a (things s)) s).
Proof. intros H. unfold put. wp_simp. by rewrite (wp_getmo _ _ o) by done. Qed.

Lemma wp_fetch {A} E (l : list A) i v (Q : A → level → Prop) s : l !! i = Some v → wp E (fetch l i) Q s ↔ Q v s.
Proof. intros H. unfold fetch. by rewrite H. Qed.

Lemma wp_states_at E i st (Q : state_t → level → Prop) s :
  0 ≤ i → states !! Z.to_nat i = Some st → wp E (states_at i) Q s ↔ Q st s.
Proof. intros Hi H. unfold states_at. rewrite (proj2 (Z.ltb_ge _ _)) by done. by apply wp_fetch. Qed.

Lemma wp_mobjinfo_at E i st (Q : mobjinfo_t → level → Prop) s :
  0 ≤ i → mobjinfo !! Z.to_nat i = Some st → wp E (mobjinfo_at i) Q s ↔ Q st s.
Proof. intros Hi H. unfold mobjinfo_at. rewrite (proj2 (Z.ltb_ge _ _)) by done. by apply wp_fetch. Qed.

Lemma rndtable_bytes : Forall (λ v, 0 ≤ v < 256) rndtable.
Proof.
  assert (forallb (λ v, (0 <=? v) && (v <? 256)) rndtable = true) as H by reflexivity.
  rewrite forallb_forall in H. apply Forall_forall. intros v Hv%list_elem_of_In%H. lia.
Qed.

Lemma wp_random E (Q : Z → level → Prop) s :
  (∀ v i, 0 ≤ v < 256 → Q v (set_prndindex i s)) → wp E P_Random Q s.
Proof.
  intros H. unfold P_Random. wp_simp. set (i := Z.land (prndindex s + 1) 255).
  assert (0 ≤ i < 256) as Hi.
  { subst i. change 255 with (Z.ones 8). rewrite Z.land_ones by lia. change 256 with (2 ^ 8). apply Z.mod_pos_bound. lia. }
  destruct (lookup_lt_is_Some_2 rndtable (Z.to_nat i)) as [v Hv].
  { change (length rndtable) with 256%nat. lia. }
  rewrite (wp_fetch _ _ _ v) by done. apply H. pose proof rndtable_bytes as HF. rewrite Forall_lookup in HF. eauto.
Qed.

(** ** What a row of the table guarantees *)

Lemma in_states_spec i : in_states i = true ↔ 0 ≤ i < NUMSTATES.
Proof. unfold in_states. rewrite andb_true_iff, Z.leb_le, Z.ltb_lt. lia. Qed.

Record info_facts (info : mobjinfo_t) : Prop := mk_info_facts {
  if_spawn : 0 ≤ spawnstate info < NUMSTATES;
  if_death : 0 ≤ deathstate info < NUMSTATES;
  if_spawn_tics : ∃ st, states !! Z.to_nat (spawnstate info) = Some st ∧ (tics st = -1 ∨ 1 ≤ tics st) ∧ tics st < 2 ^ 31;
  if_lasting : deathstate info ≠ S_NULL → lasting (deathstate info) = true;
  if_missile : has (flags info) MF_MISSILE = true → has (flags info) MF_NOBLOCKMAP = true ∧
    (has (flags info) MF_NOCLIP = true ∨ deathstate info ≠ S_NULL) ∧ speed info ≠ 0;
  if_monster : has (flags info) MF_COUNTKILL = true → has (flags info) MF_SPECIAL = false;
}.

Lemma state_facts st : state_good st = true →
  -1 ≤ tics st < 2 ^ 31 ∧ 0 ≤ nextstate st < NUMSTATES ∧ (removes st = true → tics st ≠ 0).
Proof.
  unfold state_good. rewrite !andb_true_iff, in_states_spec, Z.leb_le, Z.ltb_lt. intros [[[H1 H2] H3] H4].
  split; [done|]. split; [done|]. intros E. rewrite E in H4. cbn in H4. by apply negb_true_iff, Z.eqb_neq in H4.
Qed.

Lemma info_row i info : 0 ≤ i → mobjinfo !! Z.to_nat i = Some info → info_facts info.
Proof.
  intros Hi Hinfo. destruct (info_ok i) as (info' & E & H).
  { split; [done|]. apply lookup_lt_Some in Hinfo. rewrite mobjinfo_length in Hinfo. lia. }
  assert (info' = info) as -> by congruence. clear E.
  unfold info_good in H. rewrite !andb_true_iff, !in_states_spec in H.
  destruct H as [[[[[[[[[[[[[H1 _] _] _] _] H2] _] _] H3] H4] H5] H6] _] _].
  split; [done..| | | |].
  - destruct (state_ok (spawnstate info) H1) as (st & Est & Hst). exists st. rewrite Est in H3.
    apply state_facts in Hst as ([??] & _ & _). apply negb_true_iff, Z.eqb_neq in H3. split_and!; [done|lia|lia].
  - intros Hne. apply orb_true_iff in H4 as [E|E]; [|done]. by apply Z.eqb_eq in E.
  - intros E. rewrite E in H5. cbn in H5. rewrite !andb_true_iff, orb_true_iff, !negb_true_iff, !Z.eqb_neq in H5. naive_solver.
  - intros E. rewrite E in H6. by apply negb_true_iff in H6.
Qed.

Lemma info_row_ex i : 0 ≤ i < NUMMOBJTYPES → ∃ info, mobjinfo !! Z.to_nat i = Some info ∧ info_facts info.
Proof.
  intros Hi. destruct (info_ok i Hi) as (info & E & _). exists info. split; [done|]. by eapply info_row; [apply Hi|].
Qed.
