(* ===== verification/ThingLinks.v ===== *)
(** * Things in the lists of sectors and of blocks
    [linked hole s]: every thing that is not removed, other than [hole], is in the list of its sector
    and in the list of its block, and nothing else is.  [P_UnsetThingPosition] and
    [P_SetThingPosition] open and close the hole. *)
From S2P Require Import Prelude Dll Links Info InfoThings ThingData Things ThingTables.

#[export] Instance sector_links : LinkLaws mo_snext mo_sprev set_mo_snext set_mo_sprev.
Proof. by split. Qed.
#[export] Instance block_links : LinkLaws mo_bnext mo_bprev set_mo_bnext set_mo_bprev.
Proof. by split. Qed.

(** A thing without its links. *)
Definition norm (o : mobj_t) : mobj_t :=
  set_mo_snext None (set_mo_sprev None (set_mo_bnext None (set_mo_bprev None o))).

(** States that differ in the links of things only. *)
Record relinked (s s' : level) : Prop := mk_relinked {
  rl_things : ∀ b, norm <$> things s !! b = norm <$> things s' !! b;
  rl_sectors : length (thinglist s) = length (thinglist s');
  rl_blocks : length (blocklinks s) = length (blocklinks s');
  rl_rest : set_blocklinks [] (set_thinglist [] (set_things ∅ s)) = set_blocklinks [] (set_thinglist [] (set_things ∅ s'));
}.

#[export] Instance relinked_refl : Reflexive relinked.
Proof. by intros s. Qed.
#[export] Instance relinked_trans : Transitive relinked.
Proof. intros s1 s2 s3 [A1 B1 C1 D1] [A2 B2 C2 D2]. split; [intros b; by rewrite A1|congruence..]. Qed.

Lemma relinked_lookup s s' b o :
  relinked s s' → things s !! b = Some o → ∃ o', things s' !! b = Some o' ∧ norm o = norm o'.
Proof.
  intros [H _ _ _] Hb. specialize (H b). rewrite Hb in H. destruct (things s' !! b) as [o'|]; [|done].
  apply (inj Some) in H. eauto.
Qed.

Section links.
Context (G : game).

Definition place_s (o : mobj_t) : option nat :=
  if mo_removed o || has (mo_flags o) MF_NOSECTOR then None else ss ← mo_subsector o; subsectors G !! ss.

Definition place_b (o : mobj_t) : option nat :=
  if mo_removed o || has (mo_flags o) MF_NOBLOCKMAP then None else block_of G (mo_x o) (mo_y o).

(** The place of every thing but the one at [hole]. *)
Definition but (hole : option Z) (place : mobj_t → option nat) (a : Z) (o : mobj_t) : option nat :=
  if decide (hole = Some a) then None else place o.

Definition sector_lists (hole : option Z) (s : level) : Prop :=
  lists mo_snext mo_sprev (things s) (thinglist s) (but hole place_s).
Definition block_lists (hole : option Z) (s : level) : Prop :=
  lists mo_bnext mo_bprev (things s) (blocklinks s) (but hole place_b).

(** A thing off the map has null links. *)
Definition off_map (o : mobj_t) : Prop :=
  mo_removed o = false → has (mo_flags o) MF_NOBLOCKMAP = false → block_of G (mo_x o) (mo_y o) = None →
  mo_bnext o = None ∧ mo_bprev o = None.

Record linked (hole : option Z) (s : level) : Prop := mk_linked {
  lk_sectors : sector_lists hole s;
  lk_blocks : block_lists hole s;
  lk_off : ∀ a o, hole ≠ Some a → things s !! a = Some o → off_map o;
  lk_nsec : Forall (λ sec, sec < length (thinglist s))%nat (subsectors G);
  lk_nblk : length (blocklinks s) = Z.to_nat (bmapwidth G * bmapheight G);
}.

Lemma place_s_norm o o' : norm o = norm o' → place_s o = place_s o'.
Proof. intros H. change (place_s (norm o) = place_s o'). by rewrite H. Qed.
Lemma place_b_norm o o' : norm o = norm o' → place_b o = place_b o'.
Proof. intros H. change (place_b (norm o) = place_b o'). by rewrite H. Qed.

Lemma but_place_s hole : unlinked_place set_mo_snext set_mo_sprev (but hole place_s).
Proof. by intros a v o. Qed.
Lemma but_place_b hole : unlinked_place set_mo_bnext set_mo_bprev (but hole place_b).
Proof. by intros a v o. Qed.

Lemma lists_ext {N} (nxt prv : N → option Z) h heads place place' :
  (∀ a n, place a n = place' a n) → lists nxt prv h heads place → lists nxt prv h heads place'.
Proof.
  intros E. apply lists_frame.
  - intros a n i Hp Hn. exists n. by rewrite <- E.
  - intros a n i Hp Hn. exists n. by rewrite E.
Qed.

Lemma without_but place a b o : without a (but None place) b o = but (Some a) place b o.
Proof. unfold without, but. repeat case_decide; simplify_eq; done. Qed.

(** A thing without its links in one kind of list. *)
Definition snorm (o : mobj_t) : mobj_t := set_mo_snext None (set_mo_sprev None o).
Definition bnorm (o : mobj_t) : mobj_t := set_mo_bnext None (set_mo_bprev None o).

Definition same (f : mobj_t → mobj_t) (h h' : gmap Z mobj_t) : Prop := ∀ b, f <$> h !! b = f <$> h' !! b.

Lemma same_lookup f h h' b o : same f h h' → h !! b = Some o → ∃ o', h' !! b = Some o' ∧ f o = f o'.
Proof.
  intros H Hb. specialize (H b). rewrite Hb in H. destruct (h' !! b) as [o'|]; [|done]. apply (inj Some) in H. eauto.
Qed.

Lemma same_sym f h h' : same f h h' → same f h' h.
Proof. intros H b. by rewrite H. Qed.

Lemma same_norm_s h h' : same snorm h h' → same norm h h'.
Proof.
  intros H b. specialize (H b). apply (f_equal (fmap norm)) in H. by rewrite <- !option_fmap_compose in H.
Qed.
Lemma same_norm_b h h' : same bnorm h h' → same norm h h'.
Proof.
  intros H b. specialize (H b). apply (f_equal (fmap norm)) in H. by rewrite <- !option_fmap_compose in H.
Qed.

(** Lists of one kind do not see the links of the other. *)
Lemma sector_lists_same hole s s' :
  same bnorm (things s) (things s') → thinglist s' = thinglist s → sector_lists hole s → sector_lists hole s'.
Proof.
  intros H E. unfold sector_lists. rewrite E. apply lists_frame.
  - intros a o i Hp Ho. destruct (same_lookup _ _ _ _ _ H Ho) as (o' & Ho' & En). exists o'.
    split_and!; [done| | |].
    + change (mo_sprev (bnorm o') = mo_sprev o). by rewrite <- En.
    + change (mo_snext (bnorm o') = mo_snext o). by rewrite <- En.
    + change (but hole place_s a (bnorm o') = Some i). by rewrite <- En.
  - intros a o' i Hp Ho'. destruct (same_lookup _ _ _ _ _ (same_sym _ _ _ H) Ho') as (o & Ho & En). exists o.
    split; [done|]. change (but hole place_s a (bnorm o) = Some i). by rewrite <- En.
Qed.

Lemma block_lists_same hole s s' :
  same snorm (things s) (things s') → blocklinks s' = blocklinks s → block_lists hole s → block_lists hole s'.
Proof.
  intros H E. unfold block_lists. rewrite E. apply lists_frame.
  - intros a o i Hp Ho. destruct (same_lookup _ _ _ _ _ H Ho) as (o' & Ho' & En). exists o'.
    split_and!; [done| | |].
    + change (mo_bprev (snorm o') = mo_bprev o). by rewrite <- En.
    + change (mo_bnext (snorm o') = mo_bnext o). by rewrite <- En.
    + change (but hole place_b a (snorm o') = Some i). by rewrite <- En.
  - intros a o' i Hp Ho'. destruct (same_lookup _ _ _ _ _ (same_sym _ _ _ H) Ho') as (o & Ho & En). exists o.
    split; [done|]. change (but hole place_b a (snorm o) = Some i). by rewrite <- En.
Qed.

Lemma off_map_same (hole : option Z) s s' :
  same snorm (things s) (things s') →
  (∀ a o, hole ≠ Some a → things s !! a = Some o → off_map o) →
  ∀ a o, hole ≠ Some a → things s' !! a = Some o → off_map o.
Proof.
  intros H Hoff a o' Ha Ho'. destruct (same_lookup _ _ _ _ _ (same_sym _ _ _ H) Ho') as (o & Ho & En).
  specialize (Hoff a o Ha Ho). change (off_map (snorm o')). rewrite En. exact Hoff.
Qed.

(** ** Unlinking *)

(** Changing a link of a tested pointer. *)
Lemma wp_put_opt E p f (Q : unit → level → Prop) s :
  (∀ b, p = Some b → is_Some (things s !! b)) →
  Q tt (set_things (upd f p (things s)) s) → wp E (put_opt p f) Q s.
Proof.
  intros Hp HQ. destruct p as [b|]; cbn [put_opt upd] in *.
  - destruct (Hp b eq_refl) as [o Ho]. by rewrite (wp_putmo _ _ _ o).
  - rewrite wp_ret. by destruct s.
Qed.

Lemma upd_same g f p h : (∀ o, g (f o) = g o) → same g h (upd f p h).
Proof.
  intros Hg b. rewrite lookup_upd. case_decide; [|done]. rewrite <- option_fmap_compose.
  destruct (h !! b); [|done]. cbn. by rewrite Hg.
Qed.

Lemma unset_sector_ok s a o i :
  sector_lists None s → things s !! a = Some o → place_s o = Some i → (i < length (thinglist s))%nat →
  wp never (unset_sector G a) (λ _ s', s' = set_thinglist (unlink_head mo_snext mo_sprev i o (thinglist s))
    (set_things (unlink mo_snext mo_sprev set_mo_snext set_mo_sprev o (things s)) s)) s.
Proof.
  intros HL Ho Hp Hi. destruct (lookup_lt_is_Some_2 _ _ Hi) as [hd Hhd].
  destruct (HL i hd Hhd) as (l & -> & Hh).
  assert (but None place_s a o = Some i) as Hp' by done.
  pose proof (λ b, holds_neighbour _ _ _ _ _ _ _ _ b Hh Ho Hp') as Hnb.
  unfold unset_sector. wp_simp. rewrite (wp_getmo _ _ o) by done. wp_simp.
  apply wp_put_opt.
  { intros b Hb. destruct (Hnb b) as (_ & m & -> & _); [by right|eauto]. }
  wp_simp. rewrite (wp_getmo _ _ o).
  2:{ cbn [things set_things]. rewrite lookup_upd, decide_False; [done|]. intros E. destruct (Hnb a) as [? _]; [by right|done]. }
  unfold unlink, unlink_head. destruct (mo_sprev o) as [p|] eqn:Ep.
  - destruct (Hnb p) as (Hne & m & Hm & _); [by left|].
    destruct (upd (set_mo_sprev (Some p)) (mo_snext o) (things s) !! p) as [m'|] eqn:Em.
    + rewrite (wp_putmo _ _ _ m') by exact Em. by destruct s.
    + exfalso. rewrite lookup_upd, Hm in Em. by case_decide.
  - unfold sector_of. unfold place_s in Hp. destruct (mo_removed o || has (mo_flags o) MF_NOSECTOR); [discriminate Hp|].
    destruct (mo_subsector o) as [ss|]; [|done]. cbn in Hp. rewrite wp_bind, (wp_fetch _ _ _ i) by done.
    unfold put_thinglist, get_thinglist. wp_simp. cbn [thinglist set_things]. rewrite (wp_fetch _ _ _ (first Some l None)) by done.
    by wp_simp.
Qed.

Lemma unset_block_ok s a o i :
  block_lists None s → things s !! a = Some o → place_b o = Some i → (i < length (blocklinks s))%nat →
  wp never (unset_block G a) (λ _ s', s' = set_blocklinks (unlink_head mo_bnext mo_bprev i o (blocklinks s))
    (set_things (unlink mo_bnext mo_bprev set_mo_bnext set_mo_bprev o (things s)) s)) s.
Proof.
  intros HL Ho Hp Hi. destruct (lookup_lt_is_Some_2 _ _ Hi) as [hd Hhd].
  destruct (HL i hd Hhd) as (l & -> & Hh).
  assert (but None place_b a o = Some i) as Hp' by done.
  pose proof (λ b, holds_neighbour _ _ _ _ _ _ _ _ b Hh Ho Hp') as Hnb.
  unfold unset_block. wp_simp. rewrite (wp_getmo _ _ o) by done. wp_simp.
  apply wp_put_opt.
  { intros b Hb. destruct (Hnb b) as (_ & m & -> & _); [by right|eauto]. }
  wp_simp. rewrite (wp_getmo _ _ o).
  2:{ cbn [things set_things]. rewrite lookup_upd, decide_False; [done|]. intros E. destruct (Hnb a) as [? _]; [by right|done]. }
  unfold unlink, unlink_head. destruct (mo_bprev o) as [p|] eqn:Ep.
  - destruct (Hnb p) as (Hne & m & Hm & _); [by left|].
    destruct (upd (set_mo_bprev (Some p)) (mo_bnext o) (things s) !! p) as [m'|] eqn:Em.
    + rewrite (wp_putmo _ _ _ m') by exact Em. by destruct s.
    + exfalso. rewrite lookup_upd, Hm in Em. by case_decide.
  - unfold place_b in Hp. destruct (mo_removed o || has (mo_flags o) MF_NOBLOCKMAP); [discriminate Hp|]. rewrite Hp.
    unfold put_block, get_block. wp_simp. cbn [blocklinks set_things]. rewrite (wp_fetch _ _ _ (first Some l None)) by done.
    by wp_simp.
Qed.

Lemma relinked_s s h tl :
  same norm (things s) h → length tl = length (thinglist s) → relinked s (set_thinglist tl (set_things h s)).
Proof. intros H E. split; [exact H|done..]. Qed.
Lemma relinked_b s h tl :
  same norm (things s) h → length tl = length (blocklinks s) → relinked s (set_blocklinks tl (set_things h s)).
Proof. intros H E. split; [exact H|done..]. Qed.

Lemma unlink_head_length {N} (nxt prv : N → option Z) i n heads : length (unlink_head nxt prv i n heads) = length heads.
Proof. unfold unlink_head. destruct (prv n); [done|]. apply length_insert. Qed.

Lemma block_of_lt x y b : block_of G x y = Some b → (b < Z.to_nat (bmapwidth G * bmapheight G))%nat.
Proof.
  unfold block_of. set (bx := Z.shiftr _ _). set (by_ := Z.shiftr (i32 (y - _)) _).
  destruct (_ && _) eqn:E; [|done]. intros [= <-]. rewrite !andb_true_iff in E.
  apply Z2Nat.inj_lt; nia.
Qed.

Lemma place_s_lt hole s o i : linked hole s → place_s o = Some i → (i < length (thinglist s))%nat.
Proof.
  intros HL. unfold place_s. destruct (mo_removed o || has (mo_flags o) MF_NOSECTOR); [discriminate|].
  destruct (mo_subsector o) as [ss|]; [|discriminate]. cbn. intros H.
  pose proof (lk_nsec _ _ HL) as HF. rewrite Forall_lookup in HF. by eapply HF.
Qed.

Lemma place_b_lt hole s o i : linked hole s → place_b o = Some i → (i < length (blocklinks s))%nat.
Proof.
  intros HL. unfold place_b. destruct (mo_removed o || has (mo_flags o) MF_NOBLOCKMAP); [discriminate|].
  intros H%block_of_lt. by rewrite (lk_nblk _ _ HL).
Qed.

(** A thing that is in no list of a kind is a hole of it. *)
Lemma but_none hole (place : mobj_t → option nat) a o s :
  things s !! a = Some o → place o = None →
  ∀ {nxt prv} heads, lists nxt prv (things s) heads (but None place) → hole = Some a →
  lists nxt prv (things s) heads (but hole place).
Proof.
  intros Ho Hp nxt prv heads HL ->. revert HL. apply lists_frame.
  - intros b n i Hi Hn. exists n. split_and!; [done..|]. unfold but in *. rewrite decide_False; [done|]. intros [= ->]. naive_solver.
  - intros b n i Hi Hn. exists n. split; [done|]. unfold but in *. by case_decide.
Qed.

(** Whether the position of a thing is known. *)
Definition placed (o : mobj_t) : Prop := ∃ ss sec, mo_subsector o = Some ss ∧ subsectors G !! ss = Some sec.

Lemma unset_sector_linked s a o :
  linked None s → things s !! a = Some o → mo_removed o = false → placed o →
  wp never (if has (mo_flags o) MF_NOSECTOR then mret tt else unset_sector G a)
    (λ _ s', sector_lists (Some a) s' ∧ same snorm (things s) (things s') ∧ blocklinks s' = blocklinks s ∧
             relinked s s' ∧ things s' !! a = Some o) s.
Proof.
  intros HL Ho Hr (ss & sec & Hss & Hsec). destruct (has (mo_flags o) MF_NOSECTOR) eqn:E.
  - wp_simp. split_and!; try done. eapply but_none; [done| |apply HL|done].
    unfold place_s. by rewrite E, orb_true_r.
  - assert (place_s o = Some sec) as Hp by (unfold place_s; by rewrite Hr, E, Hss).
    pose proof (place_s_lt _ _ _ _ HL Hp) as Hi.
    eapply wp_mono; [by apply unset_sector_ok; [apply HL|..]|]. intros [] s' ->.
    assert (same snorm (things s) (unlink mo_snext mo_sprev set_mo_snext set_mo_sprev o (things s))) as Hsame.
    { intros b. unfold unlink. rewrite !lookup_upd. by destruct (things s !! b); repeat case_decide. }
    split_and!; [|done|done| |].
    + eapply lists_ext; [apply (without_but place_s a)|].
      eapply lists_unlink; [exact sector_links|apply but_place_s|apply HL|done..].
    + apply relinked_s; [by apply same_norm_s|apply unlink_head_length].
    + destruct (lookup_lt_is_Some_2 _ _ Hi) as [hd Hhd]. destruct (lk_sectors _ _ HL sec hd Hhd) as (l & _ & Hh).
      pose proof (λ b, holds_neighbour _ _ _ _ _ _ _ _ b Hh Ho Hp) as Hnb.
      cbn [things set_thinglist set_things]. rewrite lists_unlink_other; [done|..]; intros E'; destruct (Hnb a); auto.
Qed.

Lemma unset_block_linked s a o :
  block_lists None s → length (blocklinks s) = Z.to_nat (bmapwidth G * bmapheight G) →
  (∀ b o, things s !! b = Some o → off_map o) → things s !! a = Some o → mo_removed o = false →
  wp never (if has (mo_flags o) MF_NOBLOCKMAP then mret tt else unset_block G a)
    (λ _ s', block_lists (Some a) s' ∧ same bnorm (things s) (things s') ∧ thinglist s' = thinglist s ∧
             relinked s s' ∧ things s' !! a = Some o ∧ (∀ b o, things s' !! b = Some o → off_map o)) s.
Proof.
  intros HL Hn Hoff Ho Hr. destruct (has (mo_flags o) MF_NOBLOCKMAP) eqn:E.
  - wp_simp. split_and!; try done. eapply but_none; [done| |apply HL|done].
    unfold place_b. by rewrite E, orb_true_r.
  - destruct (block_of G (mo_x o) (mo_y o)) as [i|] eqn:Eb.
    + assert (place_b o = Some i) as Hp by (unfold place_b; by rewrite Hr, E).
      assert (i < length (blocklinks s))%nat as Hi by (rewrite Hn; by eapply block_of_lt).
      eapply wp_mono; [by apply unset_block_ok|]. intros [] s' ->.
      assert (same bnorm (things s) (unlink mo_bnext mo_bprev set_mo_bnext set_mo_bprev o (things s))) as Hsame.
      { intros b. unfold unlink. rewrite !lookup_upd. by destruct (things s !! b); repeat case_decide. }
      destruct (lookup_lt_is_Some_2 _ _ Hi) as [hd Hhd]. destruct (HL i hd Hhd) as (l & _ & Hh).
      pose proof (λ b, holds_neighbour _ _ _ _ _ _ _ _ b Hh Ho Hp) as Hnb.
      split_and!; [|done|done| | |].
      * eapply lists_ext; [apply (without_but place_b a)|].
        eapply lists_unlink; [exact block_links|apply but_place_b|apply HL|done..].
      * apply relinked_b; [by apply same_norm_b|apply unlink_head_length].
      * cbn [things set_blocklinks set_things]. rewrite lists_unlink_other; [done|..]; intros E'; destruct (Hnb a); auto.
      * intros b m' Hm' Hrm Hfm Hbm. cbn [things set_blocklinks set_things] in Hm'.
        destruct (decide (mo_bprev o = Some b ∨ mo_bnext o = Some b)) as [Hb|Hb].
        -- exfalso. destruct (Hnb b Hb) as (_ & m & Hm & Hpm).
           destruct (same_lookup _ _ _ _ _ Hsame Hm) as (m2 & Hm2 & En). rewrite Hm' in Hm2. apply (inj Some) in Hm2 as <-.
           change (place_b (bnorm m) = Some i) in Hpm. rewrite En in Hpm. change (place_b m' = Some i) in Hpm.
           unfold place_b in Hpm. rewrite Hrm, Hfm in Hpm. cbn in Hpm. congruence.
        -- rewrite lists_unlink_other in Hm' by (intros E'; apply Hb; auto). by eapply Hoff.
    + destruct (Hoff a o Ho Hr E Eb) as [E1 E2]. unfold unset_block. wp_simp. rewrite (wp_getmo _ _ o) by done. wp_simp.
      rewrite E1. cbn [put_opt]. wp_simp. rewrite (wp_getmo _ _ o) by done. rewrite E2, Eb. wp_simp.
      split_and!; try done. eapply but_none; [done| |apply HL|done]. unfold place_b. by rewrite E, orb_false_r, Hr.
Qed.

(** Nothing of the level but the links of things and the heads of lists changes, and the hole opens. *)
Lemma unset_ok s a o :
  linked None s → things s !! a = Some o → mo_removed o = false → placed o →
  wp never (P_UnsetThingPosition G a) (λ _ s', linked (Some a) s' ∧ relinked s s' ∧ things s' !! a = Some o) s.
Proof.
  intros HL Ho Hr Hp. unfold P_UnsetThingPosition. wp_simp. rewrite (wp_getmo _ _ o) by done. wp_simp.
  eapply wp_mono; [by apply unset_sector_linked|]. intros [] s1 (HS & Hsame & Hbl & Hrl & Ho1). wp_simp.
  rewrite (wp_getmo _ _ o) by done. destruct HL as [L1 L2 L3 L4 L5].
  eapply wp_mono.
  { apply unset_block_linked; [by eapply block_lists_same|congruence| |done..].
    intros b m. by eapply (off_map_same None s). }
  intros [] s2 (HB & Hsame2 & Htl & Hrl2 & Ho2 & Hoff2). split_and!; [|by etrans|done].
  split; [by eapply sector_lists_same|done|by eauto| |].
  - by rewrite Htl, <- (rl_sectors _ _ Hrl).
  - by rewrite <- (rl_blocks _ _ Hrl2), Hbl.
Qed.

(** ** Linking *)

Lemma but_some (place : mobj_t → option nat) a o (h : gmap Z mobj_t) nxt prv heads :
  h !! a = Some o → place o = None →
  lists nxt prv h heads (but (Some a) place) → lists nxt prv h heads (but None place).
Proof.
  intros Ho Hp. apply lists_frame.
  - intros b n i Hi Hn. exists n. split_and!; [done..|]. unfold but in *. by case_decide.
  - intros b n i Hi Hn. exists n. split; [done|]. unfold but in *. rewrite decide_False; [done|]. intros [= ->]. naive_solver.
Qed.

Lemma alter_insert_eq {N} (f : N → N) a n (h : gmap Z N) : h !! a = Some n → alter f a h = <[a := f n]> h.
Proof.
  intros H. apply map_eq. intros b. destruct (decide (a = b)) as [->|Hne].
  - by rewrite lookup_alter_eq, lookup_insert_eq, H.
  - by rewrite lookup_alter_ne, lookup_insert_ne.
Qed.

(** The first thing of a list, if there is one, is a thing. *)
Lemma lists_head {N} (nxt prv : N → option Z) h heads place i hd b :
  lists nxt prv h heads place → heads !! i = Some hd → hd = Some b → ∃ n, h !! b = Some n ∧ place b n = Some i.
Proof. intros HL Hi ->. destruct (HL i _ Hi) as (l & E & _ & _ & Hl). symmetry in E. apply cfirst_in in E. by apply Hl. Qed.

Lemma set_in_sector_ok s a o sec :
  sector_lists (Some a) s → things s !! a = Some o → place_s o = Some sec → (sec < length (thinglist s))%nat →
  ∃ hd, thinglist s !! sec = Some hd ∧ hd ≠ Some a ∧
  wp never (set_in_sector G a) (λ _ s', s' = set_thinglist (<[sec := Some a]> (thinglist s))
    (set_things (link set_mo_snext set_mo_sprev a hd o (things s)) s)) s.
Proof.
  intros HL Ho Hp Hi. destruct (lookup_lt_is_Some_2 _ _ Hi) as [hd Hhd]. exists hd.
  assert (hd ≠ Some a) as Hne.
  { intros E. destruct (lists_head _ _ _ _ _ _ _ _ HL Hhd E) as (n & _ & Hn). unfold but in Hn. by rewrite decide_True in Hn. }
  split_and!; [done|done|].
  unfold set_in_sector. wp_simp. rewrite (wp_getmo _ _ o) by done. wp_simp.
  assert (sector_of G o = fetch (subsectors G) (default 0%nat (mo_subsector o)) ∧ subsectors G !! default 0%nat (mo_subsector o) = Some sec) as [-> Hsec].
  { unfold place_s in Hp. destruct (mo_removed o || has (mo_flags o) MF_NOSECTOR); [discriminate Hp|].
    unfold sector_of. by destruct (mo_subsector o). }
  rewrite (wp_fetch _ _ _ sec) by done. wp_simp. rewrite (wp_putmo _ _ _ o) by done. wp_simp.
  unfold get_thinglist. wp_simp. cbn [thinglist set_things]. rewrite (wp_fetch _ _ _ hd) by done. wp_simp.
  rewrite (wp_putmo _ _ _ (set_mo_sprev None o)) by (cbn [things set_things]; by rewrite lookup_alter_eq, Ho). wp_simp.
  cbn [things set_things]. rewrite (alter_insert_eq (set_mo_sprev None) a o) by done.
  rewrite (alter_insert_eq _ a (set_mo_sprev None o)) by (by rewrite lookup_insert_eq). rewrite insert_insert_eq.
  apply wp_put_opt.
  { intros b Hb. cbn [things set_things]. rewrite lookup_insert_ne by congruence.
    destruct (lists_head _ _ _ _ _ _ _ _ HL Hhd Hb) as (n & Hn & _). eauto. }
  unfold put_thinglist, get_thinglist. wp_simp. cbn [thinglist set_things]. rewrite (wp_fetch _ _ _ hd) by done. by wp_simp.
Qed.

Lemma set_in_block_ok s a o i :
  block_lists (Some a) s → things s !! a = Some o → block_of G (mo_x o) (mo_y o) = Some i → (i < length (blocklinks s))%nat →
  ∃ hd, blocklinks s !! i = Some hd ∧ hd ≠ Some a ∧
  wp never (set_in_block G a) (λ _ s', s' = set_blocklinks (<[i := Some a]> (blocklinks s))
    (set_things (link set_mo_bnext set_mo_bprev a hd o (things s)) s)) s.
Proof.
  intros HL Ho Hp Hi. destruct (lookup_lt_is_Some_2 _ _ Hi) as [hd Hhd]. exists hd.
  assert (hd ≠ Some a) as Hne.
  { intros E. destruct (lists_head _ _ _ _ _ _ _ _ HL Hhd E) as (n & _ & Hn). unfold but in Hn. by rewrite decide_True in Hn. }
  split_and!; [done|done|].
  unfold set_in_block. wp_simp. rewrite (wp_getmo _ _ o) by done. rewrite Hp. wp_simp.
  rewrite (wp_putmo _ _ _ o) by done. wp_simp.
  unfold get_block. wp_simp. cbn [blocklinks set_things]. rewrite (wp_fetch _ _ _ hd) by done. wp_simp.
  rewrite (wp_putmo _ _ _ (set_mo_bprev None o)) by (cbn [things set_things]; by rewrite lookup_alter_eq, Ho). wp_simp.
  cbn [things set_things]. rewrite (alter_insert_eq (set_mo_bprev None) a o) by done.
  rewrite (alter_insert_eq _ a (set_mo_bprev None o)) by (by rewrite lookup_insert_eq). rewrite insert_insert_eq.
  apply wp_put_opt.
  { intros b Hb. cbn [things set_things]. rewrite lookup_insert_ne by congruence.
    destruct (lists_head _ _ _ _ _ _ _ _ HL Hhd Hb) as (n & Hn & _). eauto. }
  unfold put_block, get_block. wp_simp. cbn [blocklinks set_things]. rewrite (wp_fetch _ _ _ hd) by done. by wp_simp.
Qed.

Lemma link_same {g : mobj_t → mobj_t} set_nxt set_prv a hd o (h : gmap Z mobj_t) :
  (∀ v o, g (set_nxt v o) = g o) → (∀ v o, g (set_prv v o) = g o) → h !! a = Some o →
  same g h (link set_nxt set_prv a hd o h).
Proof.
  intros H1 H2 Ho b. unfold link. rewrite lookup_upd. destruct (decide (a = b)) as [->|Hne].
  - rewrite lookup_insert_eq, Ho. case_decide; cbn; by rewrite ?H2, ?H1, ?H2.
  - rewrite lookup_insert_ne by done. case_decide; [|done]. destruct (h !! b); cbn; by rewrite ?H2.
Qed.

Lemma set_sector_linked s a o ss :
  sector_lists (Some a) s → Forall (λ sec, sec < length (thinglist s))%nat (subsectors G) →
  things s !! a = Some o → mo_removed o = false → mo_subsector o = Some ss → (ss < length (subsectors G))%nat →
  wp never (if has (mo_flags o) MF_NOSECTOR then mret tt else set_in_sector G a)
    (λ _ s', sector_lists None s' ∧ same snorm (things s) (things s') ∧ blocklinks s' = blocklinks s ∧ relinked s s') s.
Proof.
  intros HL HF Ho Hr Hss Hlt. destruct (has (mo_flags o) MF_NOSECTOR) eqn:E.
  - wp_simp. split_and!; try done. eapply but_some; [done| |done]. unfold place_s. by rewrite E, orb_true_r.
  - destruct (lookup_lt_is_Some_2 _ _ Hlt) as [sec Hsec].
    assert (place_s o = Some sec) as Hp by (unfold place_s; by rewrite Hr, E, Hss).
    assert (sec < length (thinglist s))%nat as Hi by (rewrite Forall_lookup in HF; eauto).
    destruct (set_in_sector_ok s a o sec) as (hd & Hhd & Hne & Hw); [done..|].
    eapply wp_mono; [exact Hw|]. intros [] s' ->.
    assert (same snorm (things s) (link set_mo_snext set_mo_sprev a hd o (things s))) by (by apply link_same).
    split_and!; [|done|done|].
    + eapply lists_link; [exact sector_links|apply (but_place_s (Some a))|apply but_place_s|exact HL|done|done| | |].
      * unfold but. by rewrite decide_True.
      * done.
      * intros b m Hb. unfold but. rewrite !decide_False by congruence. done.
    + apply relinked_s; [by apply same_norm_s|apply length_insert].
Qed.

Lemma set_block_linked s a o :
  block_lists (Some a) s → length (blocklinks s) = Z.to_nat (bmapwidth G * bmapheight G) →
  (∀ b o, Some a ≠ Some b → things s !! b = Some o → off_map o) → things s !! a = Some o → mo_removed o = false →
  wp never (if has (mo_flags o) MF_NOBLOCKMAP then mret tt else set_in_block G a)
    (λ _ s', block_lists None s' ∧ same bnorm (things s) (things s') ∧ thinglist s' = thinglist s ∧ relinked s s' ∧
             (∀ b o, things s' !! b = Some o → off_map o)) s.
Proof.
  intros HL Hn Hoff Ho Hr. destruct (has (mo_flags o) MF_NOBLOCKMAP) eqn:E.
  - wp_simp. split_and!; try done.
    + eapply but_some; [done| |done]. unfold place_b. by rewrite E, orb_true_r.
    + intros b m Hm. destruct (decide (b = a)) as [->|]; [|eapply Hoff; [|done]; congruence].
      assert (m = o) as -> by congruence. intros _ ?. congruence.
  - destruct (block_of G (mo_x o) (mo_y o)) as [i|] eqn:Eb.
    + assert (i < length (blocklinks s))%nat as Hi by (rewrite Hn; by eapply block_of_lt).
      destruct (set_in_block_ok s a o i) as (hd & Hhd & Hne & Hw); [done..|].
      eapply wp_mono; [exact Hw|]. intros [] s' ->.
      assert (same bnorm (things s) (link set_mo_bnext set_mo_bprev a hd o (things s))) as Hsame by (by apply link_same).
      split_and!; [|done|done| |].
      * eapply lists_link; [exact block_links|apply (but_place_b (Some a))|apply but_place_b|exact HL|done|done| | |].
        -- unfold but. by rewrite decide_True.
        -- unfold but, place_b. by rewrite decide_False, Hr, E by done.
        -- intros b m Hb. unfold but. rewrite !decide_False by congruence. done.
      * apply relinked_b; [by apply same_norm_b|apply length_insert].
      * intros b m' Hm'. cbn [things set_blocklinks set_things] in Hm'. unfold link in Hm'. rewrite lookup_upd in Hm'.
        destruct (decide (hd = Some b)) as [->|Hb].
        -- destruct (lists_head _ _ _ _ _ _ _ _ HL Hhd eq_refl) as (n & Hnb & Hpn).
           rewrite lookup_insert_ne, Hnb in Hm' by congruence. cbn in Hm'. apply (inj Some) in Hm' as <-.
           intros Hr' Hf' Hb'. exfalso. cbn in Hr', Hf', Hb'. unfold but in Hpn. rewrite decide_False in Hpn by congruence.
           unfold place_b in Hpn. rewrite Hr', Hf' in Hpn. cbn in Hpn. congruence.
        -- destruct (decide (b = a)) as [->|Hba].
           ++ rewrite lookup_insert_eq in Hm'. apply (inj Some) in Hm' as <-. intros _ _ Hb'. cbn in Hb'. congruence.
           ++ rewrite lookup_insert_ne in Hm' by done. eapply Hoff; [|done]. congruence.
    + unfold set_in_block. wp_simp. rewrite (wp_getmo _ _ o) by done. rewrite Eb. wp_simp.
      rewrite (wp_putmo _ _ _ o) by done. wp_simp.
      rewrite (wp_putmo _ _ _ (set_mo_bprev None o)) by (cbn [things set_things]; by rewrite lookup_alter_eq, Ho).
      cbn [things set_things]. rewrite (alter_insert_eq (set_mo_bprev None) a o) by done.
      rewrite (alter_insert_eq _ a (set_mo_bprev None o)) by (by rewrite lookup_insert_eq). rewrite insert_insert_eq.
      set (o' := set_mo_bnext None (set_mo_bprev None o)).
      assert (same bnorm (things s) (<[a := o']> (things s))) as Hsame.
      { intros b. destruct (decide (a = b)) as [->|Hne]; [by rewrite lookup_insert_eq, Ho|by rewrite lookup_insert_ne]. }
      assert (place_b o = None) as Hpo by (unfold place_b; by rewrite Hr, E).
      split_and!; [|exact Hsame|done| |].
      * eapply (but_some _ a o'); [cbn; by rewrite lookup_insert_eq|exact Hpo|]. revert HL. apply lists_frame.
        -- intros b n i Hi Hb. exists n. cbn. rewrite lookup_insert_ne; [done|]. intros ->. unfold but in Hi. by rewrite decide_True in Hi.
        -- intros b n i Hi Hb. exists n. cbn in Hb. rewrite lookup_insert_ne in Hb; [done|]. intros ->. unfold but in Hi. by rewrite decide_True in Hi.
      * split; [by apply same_norm_b|done..].
      * intros b m Hm. cbn in Hm. destruct (decide (b = a)) as [->|Hne].
        -- rewrite lookup_insert_eq in Hm. apply (inj Some) in Hm as <-. intros _ _ _. done.
        -- rewrite lookup_insert_ne in Hm by done. eapply Hoff; [|done]. congruence.
Qed.

(** Any change of the thing that is in no list. *)
Lemma lists_hole (place : mobj_t → option nat) nxt prv a f (h : gmap Z mobj_t) heads :
  lists nxt prv h heads (but (Some a) place) → lists nxt prv (alter f a h) heads (but (Some a) place).
Proof.
  apply lists_frame; intros b n i Hi Hn; exists n.
  - assert (a ≠ b) by (intros ->; unfold but in Hi; by rewrite decide_True in Hi). by rewrite lookup_alter_ne.
  - assert (a ≠ b) by (intros ->; unfold but in Hi; by rewrite decide_True in Hi). by rewrite lookup_alter_ne in Hn.
Qed.

Lemma linked_hole s a f : linked (Some a) s → linked (Some a) (set_things (alter f a (things s)) s).
Proof.
  intros [L1 L2 L3 L4 L5]. split; [by apply lists_hole|by apply lists_hole| |done..].
  intros b o Hb. cbn [things set_things]. rewrite lookup_alter_ne by congruence. by apply L3.
Qed.

(** A change of a thing that leaves its links and its places alone, or that makes it a removed hole. *)
Lemma lists_alter (place : mobj_t → option nat) nxt prv hole a o f (h : gmap Z mobj_t) heads :
  h !! a = Some o → nxt (f o) = nxt o → prv (f o) = prv o → place (f o) = place o →
  lists nxt prv h heads (but hole place) → lists nxt prv (alter f a h) heads (but hole place).
Proof.
  intros Ho E1 E2 E3. apply lists_frame; intros b n i Hi Hn; destruct (decide (a = b)) as [->|Hne].
  - assert (n = o) as -> by congruence. exists (f o). rewrite lookup_alter_eq, Ho. split_and!; [done..|].
    unfold but in *. case_decide; [done|congruence].
  - exists n. by rewrite lookup_alter_ne.
  - rewrite lookup_alter_eq, Ho in Hn. apply (inj Some) in Hn as <-. exists o. split; [done|].
    unfold but in *. case_decide; [done|congruence].
  - rewrite lookup_alter_ne in Hn by done. by exists n.
Qed.

Definition same_place (o o' : mobj_t) : Prop :=
  mo_snext o' = mo_snext o ∧ mo_sprev o' = mo_sprev o ∧ mo_bnext o' = mo_bnext o ∧ mo_bprev o' = mo_bprev o ∧
  mo_removed o' = mo_removed o ∧ mo_subsector o' = mo_subsector o ∧
  has (mo_flags o') MF_NOSECTOR = has (mo_flags o) MF_NOSECTOR ∧
  has (mo_flags o') MF_NOBLOCKMAP = has (mo_flags o) MF_NOBLOCKMAP ∧
  (has (mo_flags o) MF_NOBLOCKMAP = true ∨ mo_x o' = mo_x o ∧ mo_y o' = mo_y o).

Lemma linked_alter hole s a o f :
  linked hole s → things s !! a = Some o → same_place o (f o) →
  linked hole (set_things (alter f a (things s)) s).
Proof.
  intros [L1 L2 L3 L4 L5] Ho (E1 & E2 & E3 & E4 & E5 & E6 & E7 & E8 & E9).
  assert (place_s (f o) = place_s o) as P1 by (unfold place_s; by rewrite E5, E6, E7).
  assert (place_b (f o) = place_b o) as P2.
  { unfold place_b. rewrite E5, E8. destruct E9 as [->|[-> ->]]; [by rewrite orb_true_r|done]. }
  split; [by eapply lists_alter|by eapply lists_alter| |done..].
  intros b n Hb. cbn [things set_things]. destruct (decide (a = b)) as [->|Hne].
  - rewrite lookup_alter_eq, Ho. intros [= <-]. pose proof (L3 b o Hb Ho) as H. unfold off_map in *.
    rewrite E3, E4, E5, E8. destruct E9 as [E|[-> ->]]; [by rewrite E|done].
  - rewrite lookup_alter_ne by done. by apply L3.
Qed.

(** A thing that is in no list goes. *)
Lemma linked_gone s a o :
  linked (Some a) s → things s !! a = Some o →
  linked None (set_things (alter (set_mo_removed true) a (things s)) s).
Proof.
  intros HL Ho. pose proof (linked_hole _ a (set_mo_removed true) HL) as [L1 L2 L3 L4 L5].
  assert (things (set_things (alter (set_mo_removed true) a (things s)) s) !! a = Some (set_mo_removed true o)) as Ho'.
  { cbn [things set_things]. by rewrite lookup_alter_eq, Ho. }
  split; [eapply but_some; [exact Ho'|done|exact L1]|eapply but_some; [exact Ho'|done|exact L2]| |done..].
  intros b n _ Hn. destruct (decide (b = a)) as [->|Hne].
  - rewrite Ho' in Hn. apply (inj Some) in Hn as <-. intros ?. done.
  - eapply L3; [|exact Hn]. congruence.
Qed.

(** A new thing is in no list yet. *)
Lemma linked_new s a o n :
  linked None s → things s !! a = None →
  linked (Some a) (set_things (<[a := o]> (things s)) (set_next_thing n s)).
Proof.
  intros [L1 L2 L3 L4 L5] Ha.
  assert (∀ (place : mobj_t → option nat) nxt prv heads, lists nxt prv (things s) heads (but None place) →
    lists nxt prv (<[a := o]> (things s)) heads (but (Some a) place)) as H.
  { intros place nxt prv heads. apply lists_frame; intros b m i Hi Hm; exists m.
    - assert (a ≠ b) by congruence. rewrite lookup_insert_ne by done. unfold but in *. by rewrite decide_False by congruence.
    - unfold but in *. case_decide; [done|]. rewrite lookup_insert_ne in Hm by congruence. done. }
  split; [by apply H|by apply H| |done..].
  intros b m Hb Hm. cbn [things set_things] in Hm. rewrite lookup_insert_ne in Hm by congruence. by eapply L3.
Qed.

Context (R_PointInSubsector : Z → Z → nat).

Lemma set_ok s a o :
  linked (Some a) s → things s !! a = Some o → mo_removed o = false →
  (R_PointInSubsector (mo_x o) (mo_y o) < length (subsectors G))%nat →
  wp never (P_SetThingPosition G R_PointInSubsector a)
    (λ _ s', linked None s' ∧
       relinked (set_things (alter (set_mo_subsector (Some (R_PointInSubsector (mo_x o) (mo_y o)))) a (things s)) s) s') s.
Proof.
  intros HL Ho Hr Hlt. unfold P_SetThingPosition. wp_simp. rewrite (wp_getmo _ _ o) by done. wp_simp.
  rewrite (wp_putmo _ _ _ o) by done. wp_simp.
  set (ss := R_PointInSubsector (mo_x o) (mo_y o)) in *. set (o1 := set_mo_subsector (Some ss) o).
  pose proof (linked_hole _ a (set_mo_subsector (Some ss)) HL) as [L1 L2 L3 L4 L5].
  set (s1 := set_things (alter (set_mo_subsector (Some ss)) a (things s)) s) in *.
  assert (things s1 !! a = Some o1) as Ho1 by (subst s1; cbn [things set_things]; by rewrite lookup_alter_eq, Ho).
  clearbody s1. change (mo_flags o) with (mo_flags o1).
  eapply wp_mono; [by eapply (set_sector_linked s1 a o1)|]. intros [] s2 (HS & Hsame & Hbl & Hrl).
  destruct (same_lookup _ _ _ _ _ Hsame Ho1) as (o2 & Ho2 & En).
  change (mo_flags o1) with (mo_flags (snorm o1)). rewrite En. change (mo_flags (snorm o2)) with (mo_flags o2).
  eapply wp_mono.
  { apply (set_block_linked s2 a o2); [by eapply block_lists_same|congruence| |done|].
    - intros b m Hb. by eapply (off_map_same (Some a) s1).
    - change (mo_removed (snorm o2) = false). by rewrite <- En. }
  intros [] s3 (HB & Hsame2 & Htl & Hrl2 & Hoff2). split; [|by etrans].
  split; [by eapply sector_lists_same|done|by eauto| |].
  - by rewrite Htl, <- (rl_sectors _ _ Hrl).
  - by rewrite <- (rl_blocks _ _ Hrl2), Hbl.
Qed.
End links.
