(* ===== verification/ThingsInv.v ===== *)
(** * The invariant of map objects
    The invariant of the things of a level, what the code of other modules promises to the code of
    things, and the operations by which things come and go. *)
From S2P Require Import Prelude Dll Links Info InfoThings ThingData Things ThingTables ThingLinks.

(** ** The queue of items to respawn *)

#[export] Instance mapthing_inhabited : Inhabited mapthing_t := populate (mk_mapthing 0 0 0 0 0).

(** A type of the map that some row of the table has. *)
Definition known (type : Z) : bool := find_type mobjinfo type 0 <? NUMMOBJTYPES.

Definition que_next (i : Z) : Z := Z.land (i + 1) (ITEMQUESIZE - 1).

Definition que_length (s : level) : nat := Z.to_nat ((iquehead s - iquetail s) `mod` ITEMQUESIZE).

(** The [n] items from [tail] on with their times. *)
Definition que_slot (tail : Z) (k : nat) : Z := (tail + Z.of_nat k) `mod` ITEMQUESIZE.
Definition que_list (items : list mapthing_t) (times : list Z) (tail : Z) (n : nat) : list (mapthing_t * Z) :=
  (λ k, (items !!! Z.to_nat (que_slot tail k), times !!! Z.to_nat (que_slot tail k))) <$> seq 0 n.

(** The items of the queue with their times, the oldest first. *)
Definition queue (s : level) : list (mapthing_t * Z) :=
  que_list (itemrespawnque s) (itemrespawntime s) (iquetail s) (que_length s).

Record queue_ok (s : level) : Prop := mk_queue_ok {
  q_items : length (itemrespawnque s) = Z.to_nat ITEMQUESIZE;
  q_times : length (itemrespawntime s) = Z.to_nat ITEMQUESIZE;
  q_head : 0 ≤ iquehead s < ITEMQUESIZE;
  q_tail : 0 ≤ iquetail s < ITEMQUESIZE;
  q_known : Forall (λ q, known (mt_type q.1) = true) (queue s);
}.

(** Arithmetic on the ring. *)
#[local] Ltac ring_lia := Z.div_mod_to_equations; lia.

Lemma que_next_mod i : que_next i = (i + 1) `mod` ITEMQUESIZE.
Proof. unfold que_next, ITEMQUESIZE. change (128 - 1) with (Z.ones 7). by rewrite Z.land_ones by lia. Qed.

Lemma que_slot_range t k : 0 ≤ que_slot t k < ITEMQUESIZE.
Proof. by apply Z.mod_pos_bound. Qed.

(** Distinct places of the ring are distinct slots. *)
Lemma que_slot_inj t k k' : (k < 128)%nat → (k' < 128)%nat → que_slot t k = que_slot t k' → k = k'.
Proof.
  unfold que_slot, ITEMQUESIZE. intros Hk Hk' E.
  assert ((Z.of_nat k - Z.of_nat k') `mod` 128 = 0) as H.
  { replace (Z.of_nat k - Z.of_nat k') with ((t + Z.of_nat k) - (t + Z.of_nat k')) by lia.
    rewrite Zminus_mod, E, Z.sub_diag. done. }
  apply Z.mod_divide in H as [q Hq]; [|done]. nia.
Qed.

Lemma que_list_snoc items times t n x y :
  (n < 128)%nat → length items = Z.to_nat ITEMQUESIZE → length times = Z.to_nat ITEMQUESIZE →
  que_list (<[Z.to_nat (que_slot t n) := x]> items) (<[Z.to_nat (que_slot t n) := y]> times) t (S n) =
  que_list items times t n ++ [(x, y)].
Proof.
  intros Hn L1 L2. unfold que_list. rewrite seq_S, fmap_app. pose proof (que_slot_range t n) as Hr. f_equal.
  - apply list_fmap_ext. intros i k Hk. apply lookup_seq in Hk as [-> Hi]. cbn.
    assert (Z.to_nat (que_slot t n) ≠ Z.to_nat (que_slot t i)) as Hne.
    { intros E%Z2Nat.inj; [|lia|apply que_slot_range]. apply que_slot_inj in E; lia. }
    by rewrite !list_lookup_total_insert_ne.
  - cbn. rewrite !list_lookup_total_insert_eq; [done|lia..].
Qed.

Lemma que_list_next items times t n :
  que_list items times (que_next t) n = drop 1 (que_list items times t (S n)).
Proof.
  rewrite que_next_mod. unfold que_list. cbn. rewrite drop_0, <- fmap_S_seq, <- list_fmap_compose.
  apply list_fmap_ext. intros i k _. cbn.
  assert (que_slot ((t + 1) `mod` ITEMQUESIZE) k = que_slot t (S k)) as ->; [|done].
  unfold que_slot. rewrite Zplus_mod_idemp_l. f_equal. lia.
Qed.

Lemma que_list_length items times t n : length (que_list items times t n) = n.
Proof. unfold que_list. by rewrite length_fmap, length_seq. Qed.

(** The ring keeps the last 127 items. *)
Definition que_push {A} (q : list A) (x : A) : list A := drop (length q + 1 - 127) (q ++ [x]).

Lemma queue_push s head tail x y :
  queue_ok s → head = que_next (iquehead s) → tail = (if head =? iquetail s then que_next (iquetail s) else iquetail s) →
  que_list (<[Z.to_nat (iquehead s) := x]> (itemrespawnque s)) (<[Z.to_nat (iquehead s) := y]> (itemrespawntime s)) tail
    (Z.to_nat ((head - tail) `mod` ITEMQUESIZE)) = que_push (queue s) (x, y).
Proof.
  intros [L1 L2 Hh Ht _] -> ->. unfold que_push, queue. rewrite que_list_length.
  set (n := que_length s).
  assert (0 ≤ (iquehead s - iquetail s) `mod` ITEMQUESIZE < 128) as Hn by (by apply Z.mod_pos_bound).
  assert (Z.to_nat (iquehead s) = Z.to_nat (que_slot (iquetail s) n)) as Hslot.
  { f_equal. unfold que_slot, n, que_length. rewrite Z2Nat.id by lia. rewrite Zplus_mod_idemp_r.
    replace (iquetail s + (iquehead s - iquetail s)) with (iquehead s) by lia. by rewrite Z.mod_small. }
  rewrite Hslot, <- que_list_snoc by (done || (subst n; unfold que_length; lia)).
  destruct (Z.eqb_spec (que_next (iquehead s)) (iquetail s)) as [E|E].
  - assert (n = 127%nat) as ->.
    { subst n. unfold que_length, ITEMQUESIZE in *. rewrite que_next_mod in E. unfold ITEMQUESIZE in E. ring_lia. }
    rewrite E. replace (Z.to_nat ((iquetail s - que_next (iquetail s)) `mod` ITEMQUESIZE)) with 127%nat; [apply que_list_next|].
    rewrite que_next_mod. unfold ITEMQUESIZE in *. ring_lia.
  - assert (n < 127)%nat as Hlt.
    { subst n. unfold que_length, ITEMQUESIZE in *. rewrite que_next_mod in E. unfold ITEMQUESIZE in E. ring_lia. }
    replace (n + 1 - 127)%nat with 0%nat by lia. rewrite drop_0. f_equal.
    subst n. unfold que_length in *. rewrite que_next_mod in *. unfold ITEMQUESIZE in *. ring_lia.
Qed.

(** ** The invariant *)

(** The thing is in a state that lasts. *)
Definition timed (o : mobj_t) : Prop := is_Some (mo_state o) ∧ (mo_tics o = -1 ∨ 1 ≤ mo_tics o).
Definition item_ok (o : mobj_t) : Prop := respawns o = true → known (mt_type (mo_spawnpoint o)) = true.
Definition missile_ok (o : mobj_t) : Prop :=
  has (mo_flags o) MF_MISSILE = true → has (mo_flags o) MF_NOBLOCKMAP = true ∧
  (has (mo_flags o) MF_NOCLIP = true ∨ ∃ info, mobjinfo !! Z.to_nat (mo_type o) = Some info ∧ deathstate info ≠ S_NULL).

(** Monsters that count are not items. *)
Definition monster_ok (o : mobj_t) : Prop :=
  has (mo_flags o) MF_COUNTKILL = true → ∃ info, mobjinfo !! Z.to_nat (mo_type o) = Some info ∧ has (flags info) MF_SPECIAL = false.

Definition alive (a : Z) (s : level) : Prop := ∃ o, things s !! a = Some o ∧ mo_removed o = false.

(** Changes that leave the place of a thing alone. *)
Ltac keeps_place := split_and!; try done; right; done.

Section inv.
Context (G : game).

Record live_ok (o : mobj_t) : Prop := mk_live_ok {
  lo_type : 0 ≤ mo_type o < NUMMOBJTYPES;
  lo_placed : placed G o;
  lo_state : ∀ i, mo_state o = Some i → 0 ≤ i < NUMSTATES;
  lo_tics : -1 ≤ mo_tics o < 2 ^ 31;
  lo_missile : missile_ok o ∧ monster_ok o;
}.

(** What a thing refers to: its target is a thing, its player has a thing. *)
Record refs_ok (s : level) (o : mobj_t) : Prop := mk_refs_ok {
  ro_target : ∀ t, mo_target o = Some t → is_Some (things s !! t);
  ro_player : ∀ i, mo_player o = Some i → ∃ p b, players s !! i = Some p ∧ pl_mo p = Some b;
}.

(** [busy] is a thing in the middle of a change of state, whose state may be null and its duration zero; [fresh] is a
    thing that has not got its spawn point yet. *)
Record thing_ok (busy fresh : option Z) (s : level) (a : Z) (o : mobj_t) : Prop := mk_thing_ok {
  to_live : live_ok o;
  to_timed : busy ≠ Some a → timed o;
  to_item : fresh ≠ Some a → item_ok o;
  to_refs : refs_ok s o;
}.

Record good (busy fresh : option Z) (s : level) : Prop := mk_good {
  gd_fresh : ∀ a o, things s !! a = Some o → a < next_thing s;
  gd_things : ∀ a o, things s !! a = Some o → mo_removed o = false → thing_ok busy fresh s a o;
  gd_sectors : length (sectors s) = length (thinglist s);
  gd_back : ∀ ld sec, backsector G !! ld = Some (Some sec) → (sec < length (sectors s))%nat;
  gd_ceiling : ∀ ld, ceilingline s = Some ld → is_Some (backsector G !! ld);
  gd_queue : queue_ok s;
  gd_players : length (players s) = Z.to_nat MAXPLAYERS;
  gd_bodies : ∀ i p b, players s !! i = Some p → pl_mo p = Some b → is_Some (things s !! b);
  gd_starts : length (deathmatchstarts s) = Z.to_nat MAX_DM_STARTS ∧ 0 ≤ deathmatch_p s ≤ MAX_DM_STARTS ∧
              length (playerstarts s) = Z.to_nat MAXPLAYERS;
}.

Definition inv (busy fresh : option Z) (s : level) : Prop := linked G None s ∧ good busy fresh s.

(** Nothing comes back, nothing changes its type, and a player that has a thing keeps one. *)
Record later (s s' : level) : Prop := mk_later {
  lt_things : ∀ a o, things s !! a = Some o →
    ∃ o', things s' !! a = Some o' ∧ mo_type o' = mo_type o ∧ (mo_removed o = true → mo_removed o' = true);
  lt_next : next_thing s ≤ next_thing s';
  lt_players : ∀ i p b, players s !! i = Some p → pl_mo p = Some b → ∃ p' b', players s' !! i = Some p' ∧ pl_mo p' = Some b';
}.

#[export] Instance later_refl : Reflexive later.
Proof. intros s. split; [eauto|lia|eauto]. Qed.
#[export] Instance later_trans : Transitive later.
Proof.
  intros s1 s2 s3 [H1 H1' P1] [H2 H2' P2]. split; [|lia|].
  - intros a o Ho. destruct (H1 a o Ho) as (o' & Ho' & ? & ?). destruct (H2 a o' Ho') as (o'' & Ho'' & ? & ?).
    exists o''. split_and!; [done|congruence|auto].
  - intros i p b Hp Hb. destruct (P1 i p b Hp Hb) as (p' & b' & Hp' & Hb'). eauto.
Qed.

Lemma later_things s s' :
  players s' = players s → next_thing s ≤ next_thing s' →
  (∀ a o, things s !! a = Some o →
    ∃ o', things s' !! a = Some o' ∧ mo_type o' = mo_type o ∧ (mo_removed o = true → mo_removed o' = true)) → later s s'.
Proof. intros E Hn Ht. split; [done|done|]. rewrite E. eauto. Qed.

Lemma later_is_some s s' a : later s s' → is_Some (things s !! a) → is_Some (things s' !! a).
Proof. intros H [o Ho]. destruct (lt_things _ _ H a o Ho) as (o' & -> & _). eauto. Qed.

Lemma refs_mono s s' o :
  (∀ a, is_Some (things s !! a) → is_Some (things s' !! a)) → players s' = players s → refs_ok s o → refs_ok s' o.
Proof. intros H E [H1 H2]. split; [eauto|]. intros i Hi. rewrite E. eauto. Qed.

(** ** The invariant under changes of the state *)

(** Relinking. *)
Lemma relinked_rest s s' : relinked s s' →
  next_thing s = next_thing s' ∧ sectors s = sectors s' ∧ ceilingline s = ceilingline s' ∧ players s = players s' ∧
  itemrespawnque s = itemrespawnque s' ∧ itemrespawntime s = itemrespawntime s' ∧ iquehead s = iquehead s' ∧
  iquetail s = iquetail s' ∧ deathmatchstarts s = deathmatchstarts s' ∧ deathmatch_p s = deathmatch_p s' ∧
  playerstarts s = playerstarts s' ∧ leveltime s = leveltime s'.
Proof.
  intros [_ _ _ H]. split_and!;
    [apply (f_equal next_thing) in H|apply (f_equal sectors) in H|apply (f_equal ceilingline) in H|apply (f_equal players) in H
    |apply (f_equal itemrespawnque) in H|apply (f_equal itemrespawntime) in H|apply (f_equal iquehead) in H
    |apply (f_equal iquetail) in H|apply (f_equal deathmatchstarts) in H|apply (f_equal deathmatch_p) in H
    |apply (f_equal playerstarts) in H|apply (f_equal leveltime) in H]; exact H.
Qed.

Lemma relinked_lookup_inv s s' b o' :
  relinked s s' → things s' !! b = Some o' → ∃ o, things s !! b = Some o ∧ norm o = norm o'.
Proof.
  intros [H _ _ _] Hb. specialize (H b). rewrite Hb in H. destruct (things s !! b) as [o|]; [|done]. apply (inj Some) in H. eauto.
Qed.

Lemma relinked_later s s' : relinked s s' → later s s'.
Proof.
  intros H. pose proof (relinked_rest _ _ H) as (E1 & _ & _ & E2 & _). apply later_things; [done|lia|].
  intros a o Ho. destruct (relinked_lookup _ _ _ _ H Ho) as (o' & Ho' & En). exists o'. split; [done|].
  change (mo_type (norm o') = mo_type o ∧ (mo_removed o = true → mo_removed (norm o') = true)). by rewrite <- En.
Qed.

Lemma thing_ok_norm busy fresh s a o o' : norm o = norm o' → thing_ok busy fresh s a o → thing_ok busy fresh s a o'.
Proof.
  intros En [[A1 A2 A3 A4 A5] B C [D1 D2]].
  assert (thing_ok busy fresh s a (norm o)) as H by (split; [split| | |split]; done).
  rewrite En in H. destruct H as [[A1' A2' A3' A4' A5'] B' C' [D1' D2']]. split; [split| | |split]; done.
Qed.

Lemma queue_ok_eq s s' :
  itemrespawnque s = itemrespawnque s' → itemrespawntime s = itemrespawntime s' → iquehead s = iquehead s' →
  iquetail s = iquetail s' → queue_ok s → queue_ok s'.
Proof.
  intros E1 E2 E3 E4 [A B C D E]. split; rewrite <- ?E1, <- ?E2, <- ?E3, <- ?E4; try done.
  unfold queue, que_length in *. by rewrite <- E1, <- E2, <- E3, <- E4.
Qed.

Lemma good_relinked busy fresh s s' : relinked s s' → good busy fresh s → good busy fresh s'.
Proof.
  intros H. pose proof (relinked_rest _ _ H) as (E1 & E2 & E3 & E4 & E5 & E6 & E7 & E8 & E9 & E10 & E11 & E12).
  pose proof (rl_sectors _ _ H) as E13.
  assert (∀ b, is_Some (things s !! b) → is_Some (things s' !! b)) as Hs.
  { intros b [o Ho]. destruct (relinked_lookup _ _ _ _ H Ho) as (o' & -> & _). eauto. }
  intros [A B C D E F I J K]. split; rewrite <- ?E1, <- ?E2, <- ?E3, <- ?E4, <- ?E9, <- ?E10, <- ?E11, <- ?E13; try done.
  - intros a o' Ho'. destruct (relinked_lookup_inv _ _ _ _ H Ho') as (o & Ho & _). eauto.
  - intros a o' Ho' Hr'. destruct (relinked_lookup_inv _ _ _ _ H Ho') as (o & Ho & En).
    assert (mo_removed o = false) as Hr by (change (mo_removed (norm o) = false); by rewrite En).
    eapply thing_ok_norm; [exact En|]. destruct (B a o Ho Hr) as [T1 T2 T3 T4]. split; try done. by eapply refs_mono.
  - by eapply queue_ok_eq.
  - intros i p b Hp Hb. eauto.
Qed.

(** The fields of [good] that a change of other variables leaves alone. *)
#[local] Ltac good_split :=
  split; try done;
  try match goal with H : queue_ok ?s |- queue_ok _ => apply (queue_ok_eq s); [done|done|done|done|exact H] end.

(** A thing changes in place. *)
Lemma good_put busy fresh s a o f :
  good busy fresh s → things s !! a = Some o → mo_removed (f o) = mo_removed o →
  (mo_removed o = false → thing_ok busy fresh s a (f o)) → good busy fresh (set_things (alter f a (things s)) s).
Proof.
  intros [A B C D E F I J K] Ho Hr Hok.
  assert (∀ b, is_Some (things s !! b) → is_Some (alter f a (things s) !! b)) as Hs.
  { intros b Hb. by apply lookup_alter_is_Some. }
  good_split.
  - intros b m Hm. cbn [things set_things] in Hm. apply (mk_is_Some _ m), lookup_alter_is_Some in Hm as [? ?]. by eapply A.
  - intros b m Hm Hrm. cbn [things set_things] in Hm. destruct (decide (a = b)) as [->|Hne].
    + rewrite lookup_alter_eq, Ho in Hm. apply (inj Some) in Hm as <-.
      destruct Hok as [T1 T2 T3 T4]; [congruence|]. split; try done. by eapply refs_mono.
    + rewrite lookup_alter_ne in Hm by done. destruct (B b m Hm Hrm) as [T1 T2 T3 T4]. split; try done. by eapply refs_mono.
  - intros i p b Hp Hb. apply Hs. eauto.
Qed.

Lemma inv_put_thing busy fresh s a o f :
  inv busy fresh s → things s !! a = Some o → same_place o (f o) → mo_type (f o) = mo_type o →
  (mo_removed o = false → thing_ok busy fresh s a (f o)) →
  inv busy fresh (set_things (alter f a (things s)) s) ∧ later s (set_things (alter f a (things s)) s).
Proof.
  intros [HL HG] Ho Hp Ht Hok. split; [split; [by eapply linked_alter|by eapply good_put; [..|apply Hp|]]|].
  apply later_things; [done|done|]. intros b m Hm. cbn [things set_things]. destruct (decide (a = b)) as [->|Hne].
  - rewrite lookup_alter_eq, Hm. exists (f m). assert (m = o) as -> by congruence. split_and!; [done..|].
    destruct Hp as (_ & _ & _ & _ & -> & _). done.
  - rewrite lookup_alter_ne by done. eauto.
Qed.

Lemma wp_put_inv busy fresh s a o f (Q : unit → level → Prop) :
  inv busy fresh s → things s !! a = Some o → same_place o (f o) → mo_type (f o) = mo_type o →
  (mo_removed o = false → thing_ok busy fresh s a (f o)) →
  (∀ s', s' = set_things (alter f a (things s)) s → inv busy fresh s' → later s s' → things s' !! a = Some (f o) → Q tt s') →
  wp never (put a f) Q s.
Proof.
  intros HI Ho Hp Ht Hok HQ. destruct (inv_put_thing _ _ _ _ _ _ HI Ho Hp Ht Hok). rewrite (wp_putmo _ _ _ o) by done.
  apply HQ; try done. cbn [things set_things]. by rewrite lookup_alter_eq, Ho.
Qed.

(** The exceptions come and go. *)
Lemma good_busy busy fresh s : good None fresh s → good busy fresh s.
Proof.
  intros [A B C D E F I J K]. good_split. intros a o Ho Hr. destruct (B a o Ho Hr) as [T1 T2 T3 T4]. split; try done. by intros _; apply T2.
Qed.

Lemma good_settle a fresh s :
  good (Some a) fresh s → (∀ o, things s !! a = Some o → mo_removed o = false → timed o) → good None fresh s.
Proof.
  intros [A B C D E F I J K] Ha. good_split. intros b o Ho Hr. destruct (B b o Ho Hr) as [T1 T2 T3 T4]. split; try done.
  intros _. destruct (decide (b = a)) as [->|]; [eauto|]. apply T2. congruence.
Qed.

Lemma good_itemised busy a s :
  good busy (Some a) s → (∀ o, things s !! a = Some o → mo_removed o = false → item_ok o) → good busy None s.
Proof.
  intros [A B C D E F I J K] Ha. good_split. intros b o Ho Hr. destruct (B b o Ho Hr) as [T1 T2 T3 T4]. split; try done.
  intros _. destruct (decide (b = a)) as [->|]; [eauto|]. apply T3. congruence.
Qed.

(** ** Removing a thing *)

Lemma que_item_ok s o :
  queue_ok s → item_ok o → respawns o = true →
  wp never (que_item o) (λ _ s', ∃ items times head tail,
    s' = set_iquetail tail (set_iquehead head (set_itemrespawntime times (set_itemrespawnque items s))) ∧
    queue_ok s' ∧ queue s' = que_push (queue s) (mo_spawnpoint o, leveltime s)) s.
Proof.
  intros Hq Hitem Hr. pose proof Hq as [L1 L2 Hh Ht Hk]. unfold que_item. wp_simp.
  destruct (lookup_lt_is_Some_2 (itemrespawnque s) (Z.to_nat (iquehead s))) as [v Hv]; [rewrite L1; lia|].
  rewrite (wp_fetch _ _ _ v) by done. wp_simp. cbn [iquehead set_itemrespawnque leveltime itemrespawntime].
  change (Z.land (iquehead s + 1) (ITEMQUESIZE - 1)) with (que_next (iquehead s)).
  change (Z.land (iquetail s + 1) (ITEMQUESIZE - 1)) with (que_next (iquetail s)).
  pose proof (queue_push s _ _ (mo_spawnpoint o) (leveltime s) Hq eq_refl eq_refl) as Hpush.
  set (items := <[_ := _]> (itemrespawnque s)) in *. set (times := <[_ := _]> (itemrespawntime s)) in *.
  set (head := que_next (iquehead s)) in *.
  assert (∀ tail, 0 ≤ tail < ITEMQUESIZE → tail = (if head =? iquetail s then que_next (iquetail s) else iquetail s) →
    ∀ s', s' = set_iquetail tail (set_iquehead head (set_itemrespawntime times (set_itemrespawnque items s))) →
    ∃ items times head tail, s' = set_iquetail tail (set_iquehead head (set_itemrespawntime times (set_itemrespawnque items s))) ∧
    queue_ok s' ∧ queue s' = que_push (queue s) (mo_spawnpoint o, leveltime s)) as Hfin.
  { intros tail Htl Etl s' ->. exists items, times, head, tail. rewrite <- Etl in Hpush.
    assert (queue (set_iquetail tail (set_iquehead head (set_itemrespawntime times (set_itemrespawnque items s)))) =
      que_push (queue s) (mo_spawnpoint o, leveltime s)) as Hqs by exact Hpush.
    split_and!; [done| |done]. split; [subst items; cbn; by rewrite length_insert|subst times; cbn; by rewrite length_insert| |done|].
    - subst head. cbn. rewrite que_next_mod. by apply Z.mod_pos_bound.
    - rewrite Hqs. unfold que_push. apply Forall_drop, Forall_app. split; [done|]. constructor; [|done]. by apply Hitem. }
  destruct (head =? iquetail s) eqn:E; wp_simp.
  - eapply Hfin; [|done|done]. rewrite que_next_mod. by apply Z.mod_pos_bound.
  - eapply Hfin; [exact Ht|done|]. by destruct s.
Qed.

Lemma good_queue busy fresh s items times head tail :
  let s' := set_iquetail tail (set_iquehead head (set_itemrespawntime times (set_itemrespawnque items s))) in
  queue_ok s' → good busy fresh s → good busy fresh s'.
Proof.
  intros s' Hq [A B C D E F I J K]. good_split. intros a o Ho Hr. destruct (B a o Ho Hr) as [T1 T2 T3 [R1 R2]].
  split; [done..|]. by split.
Qed.

Lemma remove_mobj_ok busy fresh s a o :
  inv busy fresh s → things s !! a = Some o → mo_removed o = false → item_ok o →
  wp never (P_RemoveMobj G a) (λ _ s', inv busy fresh s' ∧ later s s' ∧
    (∃ o', things s' !! a = Some o' ∧ mo_removed o' = true) ∧
    queue s' = if respawns o then que_push (queue s) (mo_spawnpoint o, leveltime s) else queue s) s.
Proof.
  intros [HL HG] Ho Hr Hitem. unfold P_RemoveMobj. wp_simp. rewrite (wp_getmo _ _ o) by done. wp_simp.
  eapply (wp_mono _ _ (λ _ s1, linked G None s1 ∧ good busy fresh s1 ∧ later s s1 ∧ things s1 = things s ∧
    queue s1 = if respawns o then que_push (queue s) (mo_spawnpoint o, leveltime s) else queue s)).
  { destruct (respawns o) eqn:E; [|by wp_simp].
    eapply wp_mono; [by apply que_item_ok; [apply HG|..]|]. intros [] s1 (items & times & head & tail & -> & Hq & Eq).
    split_and!; [destruct HL; split; done|by apply good_queue| |done..]. apply later_things; [done|done|]. intros b m Hm. eauto. }
  intros [] s1 (HL1 & HG1 & Hl1 & Et & Eq). wp_simp. rewrite <- Et in Ho.
  destruct (gd_things _ _ _ HG1 a o Ho Hr) as [Hlive _ _ _].
  eapply wp_mono; [apply unset_ok; [done..|apply Hlive]|]. intros [] s2 (HL2 & Hrl & Ho2).
  pose proof (relinked_rest _ _ Hrl) as (_ & _ & _ & _ & E1 & E2 & E3 & E4 & _).
  rewrite (wp_putmo _ _ _ o) by done. pose proof (good_relinked _ _ _ _ Hrl HG1) as HG2.
  split_and!.
  - split; [by eapply linked_gone|]. destruct HG2 as [A B C D E F I J K].
    assert (∀ b, is_Some (things s2 !! b) → is_Some (alter (set_mo_removed true) a (things s2) !! b)) as Hs.
    { intros b Hb. by apply lookup_alter_is_Some. }
    good_split.
    + intros b m Hm. cbn [things set_things] in Hm. apply (mk_is_Some _ m), lookup_alter_is_Some in Hm as [? ?]. by eapply A.
    + intros b m Hm Hrm. cbn [things set_things] in Hm. destruct (decide (a = b)) as [->|Hne].
      * rewrite lookup_alter_eq, Ho2 in Hm. apply (inj Some) in Hm as <-. done.
      * rewrite lookup_alter_ne in Hm by done. destruct (B b m Hm Hrm) as [T1 T2 T3 T4]. split; try done. by eapply refs_mono.
    + intros i p b Hp Hb. apply Hs. eauto.
  - etrans; [exact Hl1|]. etrans; [by apply relinked_later|]. apply later_things; [done|done|]. intros b m Hm. cbn [things set_things].
    destruct (decide (a = b)) as [->|Hne]; [rewrite lookup_alter_eq, Hm; eexists; done|rewrite lookup_alter_ne by done; eauto].
  - exists (set_mo_removed true o). cbn [things set_things]. by rewrite lookup_alter_eq, Ho2.
  - rewrite <- Eq. change (queue s2 = queue s1). unfold queue, que_length. by rewrite E1, E2, E3, E4.
Qed.

(** ** Framing *)

Lemma inv_starts busy fresh s s' :
  things s' = things s → next_thing s' = next_thing s → sectors s' = sectors s → thinglist s' = thinglist s →
  blocklinks s' = blocklinks s → ceilingline s' = ceilingline s → players s' = players s →
  itemrespawnque s' = itemrespawnque s → itemrespawntime s' = itemrespawntime s → iquehead s' = iquehead s →
  iquetail s' = iquetail s →
  (length (deathmatchstarts s') = length (deathmatchstarts s) ∧ 0 ≤ deathmatch_p s' ≤ MAX_DM_STARTS ∧
   length (playerstarts s') = length (playerstarts s)) →
  inv busy fresh s → inv busy fresh s'.
Proof.
  intros E1 E2 E3 E4 E5 E6 E7 E8 E9 E10 E11 (E12 & E13 & E14) [[L1 L2 L3 L4 L5] [A B C D E F I J K]]. split.
  - unfold sector_lists, block_lists in *. split; unfold sector_lists, block_lists; by rewrite ?E1, ?E4, ?E5.
  - split; rewrite ?E1, ?E2, ?E3, ?E4, ?E6, ?E7, ?E12, ?E14; try done.
    + intros a o Ho Hr. destruct (B a o Ho Hr) as [T1 T2 T3 [R1 R2]]. split; try done. split; rewrite ?E1, ?E7; done.
    + by apply (queue_ok_eq s).
    + naive_solver.
Qed.

Lemma later_eq s s' : things s' = things s → next_thing s' = next_thing s → players s' = players s → later s s'.
Proof. intros E1 E2 E3. apply later_things; [done|lia|]. rewrite E1. eauto. Qed.

Lemma inv_eq busy fresh s s' :
  things s' = things s → next_thing s' = next_thing s → sectors s' = sectors s → thinglist s' = thinglist s →
  blocklinks s' = blocklinks s → ceilingline s' = ceilingline s → players s' = players s →
  itemrespawnque s' = itemrespawnque s → itemrespawntime s' = itemrespawntime s → iquehead s' = iquehead s →
  iquetail s' = iquetail s → deathmatchstarts s' = deathmatchstarts s → deathmatch_p s' = deathmatch_p s →
  playerstarts s' = playerstarts s → inv busy fresh s → inv busy fresh s'.
Proof.
  intros E1 E2 E3 E4 E5 E6 E7 E8 E9 E10 E11 E12 E13 E14 HI. apply (inv_starts _ _ s); try done.
  rewrite E12, E13, E14. split; [done|]. split; [|done]. apply (gd_starts _ _ _ (proj2 HI)).
Qed.

(** ** Spawning a thing *)

Lemma good_new busy s n :
  let a := next_thing s in
  let s' := set_things (<[a := n]> (things s)) (set_next_thing (a + 1) s) in
  good busy None s → thing_ok busy (Some a) s' a n → good busy (Some a) s'.
Proof.
  intros a s' HG Hn. pose proof HG as [A B C D E F I J K].
  assert (things s !! a = None) as Ha.
  { destruct (things s !! a) as [o|] eqn:Eo; [|done]. apply A in Eo. lia. }
  assert (∀ b, is_Some (things s !! b) → is_Some (things s' !! b)) as Hs.
  { intros b Hb. apply lookup_insert_is_Some. destruct (decide (a = b)); auto. }
  good_split.
  - intros b m Hm. cbn in Hm. destruct (decide (a = b)) as [<-|]; [cbn; lia|]. rewrite lookup_insert_ne in Hm by done.
    apply A in Hm. cbn. lia.
  - intros b m Hm Hrm. cbn in Hm. destruct (decide (a = b)) as [<-|Hne].
    + rewrite lookup_insert_eq in Hm. by apply (inj Some) in Hm as <-.
    + rewrite lookup_insert_ne in Hm by done. destruct (B b m Hm Hrm) as [T1 T2 T3 T4]. split; try done; [by auto|].
      by eapply refs_mono.
  - intros i p b Hp Hb. apply Hs. eauto.
Qed.

Context (R_PointInSubsector : Z → Z → nat).

(** The counts of the level stay. *)
Definition counts (s s' : level) : Prop := totalkills s' = totalkills s ∧ totalitems s' = totalitems s.

Lemma relinked_counts s s' : relinked s s' → counts s s'.
Proof.
  intros [_ _ _ H]. split; [apply (f_equal totalkills) in H|apply (f_equal totalitems) in H]; symmetry; exact H.
Qed.

(** What [P_SpawnMobj] makes of a row of the table. *)
Record spawned (type x y : Z) (info : mobjinfo_t) (o : mobj_t) : Prop := mk_spawned {
  sw_type : mo_type o = type; sw_x : mo_x o = x; sw_y : mo_y o = y;
  sw_flags : mo_flags o = flags info; sw_health : mo_health o = spawnhealth info;
  sw_radius : mo_radius o = radius info; sw_height : mo_height o = height info;
  sw_state : mo_state o = Some (spawnstate info);
  sw_tics : Some (mo_tics o) = tics <$> states !! Z.to_nat (spawnstate info);
  sw_mom : mo_momx o = 0 ∧ mo_momy o = 0 ∧ mo_momz o = 0;
  sw_refs : mo_target o = None ∧ mo_player o = None;
  sw_removed : mo_removed o = false;
  sw_subsector : mo_subsector o = Some (R_PointInSubsector x y);
}.

Definition spawn_height (z : Z) (info : mobjinfo_t) (sc : sector_t) : Z :=
  if z =? ONFLOORZ then floorheight sc else if z =? ONCEILINGZ then i32 (ceilingheight sc - height info) else z.

Lemma spawned_norm type x y info o o' : norm o = norm o' → spawned type x y info o → spawned type x y info o'.
Proof.
  intros En [A B C D E F I J K L N O P]. assert (spawned type x y info (norm o)) as H by (split; done).
  rewrite En in H. destruct H. by split.
Qed.

(** The other things stay as they are, but for their links. *)
Definition keeps (s s' : level) : Prop := ∀ b o, things s !! b = Some o → ∃ o', things s' !! b = Some o' ∧ norm o' = norm o.

Lemma keeps_trans s1 s2 s3 : keeps s1 s2 → keeps s2 s3 → keeps s1 s3.
Proof.
  intros H1 H2 b o Ho. destruct (H1 b o Ho) as (o' & Ho' & E). destruct (H2 b o' Ho') as (o'' & Ho'' & E').
  exists o''. split; [done|congruence].
Qed.

Lemma keeps_alive s s' a o : keeps s s' → things s !! a = Some o → mo_removed o = false →
  ∃ o', things s' !! a = Some o' ∧ mo_removed o' = false ∧ norm o' = norm o.
Proof.
  intros H Ho Hr. destruct (H a o Ho) as (o' & Ho' & E). exists o'. split_and!; [done| |done].
  change (mo_removed (norm o') = false). by rewrite E.
Qed.

Context (RS : ∀ x y, (R_PointInSubsector x y < length (subsectors G))%nat).

(** A new thing satisfies the invariant. *)
Lemma new_thing_ok busy s a type x y info o :
  0 ≤ type < NUMMOBJTYPES → mobjinfo !! Z.to_nat type = Some info → spawned type x y info o → thing_ok busy (Some a) s a o.
Proof using RS.
  intros Ht Hinfo Hsp. destruct (info_row type info) as [I1 I2 (st & Est & Htics & Hlt) I4 I5 I6]; [lia|done|].
  destruct Hsp as [A B C D E F I J K L N O P]. rewrite Est in K. cbn in K. apply (inj Some) in K.
  assert (timed o) as Htm by (unfold timed; rewrite K, J; split; [eauto|done]).
  split.
  - split.
    + by rewrite A.
    + destruct (lookup_lt_is_Some_2 _ _ (RS x y)) as [sec Hsec]. by exists (R_PointInSubsector x y), sec.
    + intros i. rewrite J. by intros [= <-].
    + unfold timed in Htm. lia.
    + split.
      * intros Hm. rewrite D in *. destruct (I5 Hm) as (-> & [H|H] & _); [by auto|]. split; [done|]. right. exists info. by rewrite A.
      * intros Hm. rewrite D in *. exists info. rewrite A. auto.
  - done.
  - done.
  - destruct N as [N1 N2]. split; intros ?; rewrite ?N1, ?N2; done.
Qed.

(** The new thing is put into the lists. *)
Lemma place_new busy s x y type info n :
  inv busy None s → 0 ≤ type < NUMMOBJTYPES → mobjinfo !! Z.to_nat type = Some info →
  spawned type x y info (set_mo_subsector (Some (R_PointInSubsector x y)) n) →
  let a := next_thing s in
  wp never (P_SetThingPosition G R_PointInSubsector a) (λ _ s',
    inv busy (Some a) s' ∧ later s s' ∧ queue s' = queue s ∧ counts s s' ∧ players s' = players s ∧
    sectors s' = sectors s ∧ keeps s s' ∧ ∃ o, things s' !! a = Some o ∧ spawned type x y info o)
    (set_things (<[a := n]> (things s)) (set_next_thing (a + 1) s)).
Proof using RS.
  intros [HL HG] Ht Hinfo Hn' a. set (n' := set_mo_subsector _ n) in Hn'.
  assert (things s !! a = None) as Ha.
  { destruct (things s !! a) as [o|] eqn:Eo; [|done]. apply (gd_fresh _ _ _ HG) in Eo. lia. }
  pose proof (linked_new G s a n (a + 1) HL Ha) as HL2.
  set (s2 := set_things (<[a := n]> (things s)) (set_next_thing (a + 1) s)) in *.
  assert (things s2 !! a = Some n) as Hn2 by (cbn; by rewrite lookup_insert_eq).
  assert (mo_x n = x ∧ mo_y n = y) as [Ex Ey] by (split; [apply (sw_x _ _ _ _ _ Hn')|apply (sw_y _ _ _ _ _ Hn')]).
  eapply wp_mono; [apply (set_ok G R_PointInSubsector s2 a n HL2 Hn2); [apply (sw_removed _ _ _ _ _ Hn')|rewrite Ex, Ey; apply RS]|].
  intros [] s3 [HL3 Hrl]. rewrite Ex, Ey in Hrl.
  assert (set_things (alter (set_mo_subsector (Some (R_PointInSubsector x y))) a (things s2)) s2 =
    set_things (<[a := n']> (things s)) (set_next_thing (a + 1) s)) as E2.
  { subst s2. cbn [things set_things]. rewrite (alter_insert_eq _ a n) by (by rewrite lookup_insert_eq). by rewrite insert_insert_eq. }
  rewrite E2 in Hrl.
  pose proof (good_new busy s n' HG (new_thing_ok _ _ _ _ _ _ _ _ Ht Hinfo Hn')) as HG2.
  change (next_thing s) with a in HG2. set (s2' := set_things (<[a := n']> (things s)) (set_next_thing (a + 1) s)) in *.
  assert (things s2' !! a = Some n') as Hn2' by (cbn; by rewrite lookup_insert_eq).
  assert (later s s2') as Hl2.
  { apply later_things; [done|cbn; lia|]. intros b m Hm. cbn. rewrite lookup_insert_ne by congruence. eauto. }
  destruct (relinked_lookup _ _ _ _ Hrl Hn2') as (o3 & Ho3 & En).
  pose proof (relinked_rest _ _ Hrl) as (_ & F1 & _ & F3 & F4 & F5 & F6 & F7 & _).
  split_and!; [split; [done|by eapply good_relinked]|by etrans; [|apply relinked_later]| |exact (relinked_counts _ _ Hrl)|by rewrite <- F3|by rewrite <- F1| |].
  - change (queue s) with (queue s2'). unfold queue, que_length. by rewrite F4, F5, F6, F7.
  - intros b m Hm. destruct (relinked_lookup _ _ b m Hrl) as (m' & Hm' & E); [cbn; by rewrite lookup_insert_ne by congruence|].
    by exists m'.
  - exists o3. split; [done|]. by eapply spawned_norm.
Qed.

(** The heights of a new thing. *)
Lemma raise_new busy s a o x y z type info :
  inv busy (Some a) s → 0 ≤ type < NUMMOBJTYPES → mobjinfo !! Z.to_nat type = Some info →
  things s !! a = Some o → spawned type x y info o →
  wp never (sec ← sector_of G o; sc ← sector_at sec;
            put a (set_mo_floorz (floorheight sc));; put a (set_mo_ceilingz (ceilingheight sc));;
            put a (set_mo_z (spawn_height z info sc));;
            modS (λ s, set_thinkers (thinkers s ++ [a]) s);; mret a)
    (λ r s', r = a ∧ inv busy (Some a) s' ∧ later s s' ∧ queue s' = queue s ∧ counts s s' ∧ players s' = players s ∧
      (∀ b, b ≠ a → things s' !! b = things s !! b) ∧ ∃ o sec sc, things s' !! a = Some o ∧ spawned type x y info o ∧
        subsectors G !! R_PointInSubsector x y = Some sec ∧ sectors s !! sec = Some sc ∧
        mo_floorz o = floorheight sc ∧ mo_ceilingz o = ceilingheight sc ∧ mo_z o = spawn_height z info sc) s.
Proof using RS.
  intros HI Ht Hinfo Ho Hsp. destruct (lookup_lt_is_Some_2 _ _ (RS x y)) as [sec Hsec].
  assert (∀ busy s o, spawned type x y info o → thing_ok busy (Some a) s a o) as Hok by (intros; by eapply new_thing_ok).
  unfold sector_of. rewrite (sw_subsector _ _ _ _ _ Hsp). wp_simp. rewrite (wp_fetch _ _ _ sec) by done. wp_simp.
  unfold sector_at. wp_simp. destruct (lookup_lt_is_Some_2 (sectors s) sec) as [sc Hsc].
  { rewrite (gd_sectors _ _ _ (proj2 HI)). pose proof (lk_nsec _ _ _ (proj1 HI)) as HF. rewrite Forall_lookup in HF. eauto. }
  rewrite (wp_fetch _ _ _ sc) by done. wp_simp.
  eapply wp_put_inv; [done..|keeps_place|done|intros _; apply Hok; by destruct Hsp|]. intros s1 E1 HI1 Hl1 Ho1. wp_simp.
  eapply wp_put_inv; [done..|keeps_place|done|intros _; apply Hok; by destruct Hsp|]. intros s2 E2 HI2 Hl2 Ho2. wp_simp.
  eapply wp_put_inv; [done..|keeps_place|done|intros _; apply Hok; by destruct Hsp|]. intros s3 E3 HI3 Hl3 Ho3. wp_simp.
  split_and!; [done|by apply (inv_eq _ _ s3)| |by rewrite E3, E2, E1|by rewrite E3, E2, E1|by rewrite E3, E2, E1| |].
  - etrans; [exact Hl1|]. etrans; [exact Hl2|]. etrans; [exact Hl3|]. by apply later_eq.
  - intros b Hb. rewrite E3, E2, E1. cbn [things set_things set_thinkers]. by rewrite !lookup_alter_ne by done.
  - eexists _, sec, sc. split_and!; [exact Ho3|by destruct Hsp|done..].
Qed.

Lemma spawn_ok busy s x y z type info :
  inv busy None s → 0 ≤ type < NUMMOBJTYPES → mobjinfo !! Z.to_nat type = Some info →
  wp never (P_SpawnMobj G R_PointInSubsector x y z type) (λ r s',
    r = next_thing s ∧ inv busy (Some r) s' ∧ later s s' ∧ queue s' = queue s ∧ counts s s' ∧
    players s' = players s ∧ things s !! r = None ∧ keeps s s' ∧
    ∃ o sec sc, things s' !! r = Some o ∧ spawned type x y info o ∧
      subsectors G !! R_PointInSubsector x y = Some sec ∧ sectors s !! sec = Some sc ∧
      mo_floorz o = floorheight sc ∧ mo_ceilingz o = ceilingheight sc ∧ mo_z o = spawn_height z info sc) s.
Proof using RS.
  intros HI Ht Hinfo. unfold P_SpawnMobj. wp_simp. rewrite (wp_mobjinfo_at _ _ info) by (done || lia). wp_simp.
  apply wp_random. intros v i Hv. wp_simp.
  destruct (info_row type info) as [I1 I2 (st & Est & Htics & Hlt) I4 I5 I6]; [lia|done|].
  rewrite (wp_states_at _ _ st) by (done || lia). wp_simp.
  set (s1 := set_prndindex i s). assert (inv busy None s1) as HI1 by (by apply (inv_eq _ _ s)).
  set (n := new_mobj G x y type info (Z.rem v MAXPLAYERS) (spawnstate info) st).
  assert (spawned type x y info (set_mo_subsector (Some (R_PointInSubsector x y)) n)) as Hn by (split; try done; by rewrite Est).
  eapply wp_mono; [exact (place_new _ _ _ _ _ _ _ HI1 Ht Hinfo Hn)|].
  intros [] s3 (HI3 & Hl3 & Eq & Ei & Ep & Es & Hk & o3 & Ho3 & Hsp). wp_simp. rewrite (wp_getmo _ _ o3) by done.
  eapply wp_mono; [exact (raise_new _ _ _ _ _ _ _ _ _ HI3 Ht Hinfo Ho3 Hsp)|].
  intros r s4 (-> & HI4 & Hl4 & Eq4 & Ei4 & Ep4 & Hk4 & o & sec & sc & Ho & Hsp4 & Hsec & Hsc & Hz).
  assert (things s !! next_thing s1 = None) as Hnone.
  { destruct (things s !! next_thing s1) as [m|] eqn:Em; [|done]. apply (gd_fresh _ _ _ (proj2 HI)) in Em. cbn in Em. lia. }
  split_and!; [done|done| |by rewrite Eq4, Eq| |by rewrite Ep4, Ep|done| |].
  - etrans; [apply (later_eq s s1); done|]. by etrans.
  - destruct Ei as [E1 E2], Ei4 as [E3 E4]. split; [by rewrite E3|by rewrite E4].
  - intros b m Hm. rewrite Hk4 by (intros ->; congruence). by apply Hk.
  - exists o, sec, sc. rewrite Es in Hsc. split_and!; try done; apply Hz.
Qed.
End inv.
