(* ===== verification/ThingsOps.v ===== *)
(** * Operations of map objects keep the invariant
    The promises of the other modules to the code of things ([Outside]), and from them: the changes
    of state, the explosion of missiles, moves and the thinker of things keep the invariant, never
    touch what does not exist and always end. *)
From S2P Require Import Prelude Dll Links Info InfoThings ThingData Things ThingTables ThingLinks ThingsInv.

(** ** Changes of a thing that matter little *)

(** Flags whose change does not touch the invariant. *)
Record flags_soft (fl fl' : Z) : Prop := mk_flags_soft {
  fs_nosector : has fl' MF_NOSECTOR = has fl MF_NOSECTOR;
  fs_noblockmap : has fl' MF_NOBLOCKMAP = has fl MF_NOBLOCKMAP;
  fs_noclip : has fl' MF_NOCLIP = has fl MF_NOCLIP;
  fs_special : has fl' MF_SPECIAL = has fl MF_SPECIAL;
  fs_dropped : has fl' MF_DROPPED = has fl MF_DROPPED;
  fs_missile : has fl' MF_MISSILE = true → has fl MF_MISSILE = true;
  fs_monster : has fl' MF_COUNTKILL = true → has fl MF_COUNTKILL = true;
}.

#[export] Instance flags_soft_refl : Reflexive flags_soft.
Proof. by intros fl. Qed.
Lemma flags_soft_missile fl : flags_soft fl (clear fl MF_MISSILE).
Proof. split; [by rewrite has_clear_other..| |]; apply clear_sub. Qed.
Lemma flags_soft_skullfly fl : flags_soft fl (clear fl MF_SKULLFLY).
Proof. split; [by rewrite has_clear_other..| |]; apply clear_sub. Qed.
Lemma flags_soft_lor fl m :
  (∀ k, k ∈ [MF_NOSECTOR; MF_NOBLOCKMAP; MF_NOCLIP; MF_SPECIAL; MF_DROPPED; MF_MISSILE; MF_COUNTKILL] → has m k = false) →
  flags_soft fl (Z.lor fl m).
Proof. intros H. split; rewrite has_lor, H, ?orb_false_r by set_solver; done. Qed.
Lemma flags_soft_ambush fl : flags_soft fl (Z.lor fl MF_AMBUSH).
Proof. apply flags_soft_lor. intros k Hk. repeat (apply elem_of_cons in Hk as [->|Hk]; [done|]). by apply not_elem_of_nil in Hk. Qed.

(** What the invariant does not look at may change. *)
Record soft (o o' : mobj_t) : Prop := mk_soft {
  sf_links : mo_snext o' = mo_snext o ∧ mo_sprev o' = mo_sprev o ∧ mo_bnext o' = mo_bnext o ∧ mo_bprev o' = mo_bprev o;
  sf_removed : mo_removed o' = mo_removed o;
  sf_subsector : mo_subsector o' = mo_subsector o;
  sf_place : has (mo_flags o) MF_NOBLOCKMAP = true ∨ mo_x o' = mo_x o ∧ mo_y o' = mo_y o;
  sf_type : mo_type o' = mo_type o;
  sf_state : mo_state o' = mo_state o;
  sf_tics : mo_tics o' = mo_tics o;
  sf_flags : flags_soft (mo_flags o) (mo_flags o');
  sf_target : mo_target o' = mo_target o;
  sf_player : mo_player o' = mo_player o;
  sf_spawn : mo_spawnpoint o' = mo_spawnpoint o;
}.

Lemma soft_place o o' : soft o o' → same_place o o'.
Proof.
  intros [(A & B & C & D) E F I _ _ _ [J K _ _ _ _ _] _ _ _]. split_and!; done.
Qed.

Lemma missile_soft o o' :
  flags_soft (mo_flags o) (mo_flags o') → mo_type o' = mo_type o → missile_ok o ∧ monster_ok o → missile_ok o' ∧ monster_ok o'.
Proof.
  intros [A B C D E F I] Et [Hm Hk]. split; intros H.
  - destruct (Hm (F H)) as [H1 H2]. rewrite B, C, Et. done.
  - destruct (Hk (I H)) as (info & Hi & Hs). exists info. by rewrite Et.
Qed.

Lemma item_soft o o' :
  flags_soft (mo_flags o) (mo_flags o') → mo_type o' = mo_type o → mo_spawnpoint o' = mo_spawnpoint o → item_ok o → item_ok o'.
Proof. intros [A B C D E F I] Et Es Hi. unfold item_ok, respawns in *. by rewrite D, E, Et, Es. Qed.

(** An assignment to fields that are soft. *)
Ltac soft_put := split; try done; right; done.
(** Reading a thing whose contents are known. *)
Ltac get_thing o := rewrite (wp_getmo _ _ o) by done.

Section ops.
#[local] Set Default Proof Using "Type".
Context (G : game).

Lemma thing_ok_soft busy fresh s a o o' : soft o o' → thing_ok G busy fresh s a o → thing_ok G busy fresh s a o'.
Proof.
  intros [_ E1 E2 _ E3 E4 E5 E6 E7 E8 E9] [[T1 T2 T3 T4 T5] Tm It [R1 R2]].
  split; [split| | |split]; rewrite ?E3, ?E4, ?E5, ?E7, ?E8; try done.
  - unfold placed. by rewrite E2.
  - by eapply missile_soft.
  - unfold timed. by rewrite E4, E5.
  - intros Hf. eapply item_soft; [done..|]. by apply It.
Qed.

Lemma wp_put_soft busy fresh s a o f (Q : unit → level → Prop) :
  inv G busy fresh s → things s !! a = Some o → soft o (f o) →
  (∀ s', s' = set_things (alter f a (things s)) s → inv G busy fresh s' → later s s' → things s' !! a = Some (f o) → Q tt s') →
  wp never (put a f) Q s.
Proof.
  intros HI Ho Hs HQ. eapply wp_put_inv; [done..|by apply soft_place|apply Hs| |exact HQ].
  intros Hr. eapply thing_ok_soft; [exact Hs|]. by apply (gd_things _ _ _ _ (proj2 HI)).
Qed.

(** ** What the other modules promise *)

Context (call : actionf_t → Z → LM unit) (P_CheckPosition : Z → Z → Z → LM bool) (P_CrossSpecialLine : nat → Z → Z → LM unit)
  (P_SlideMove : Z → LM unit).

Definition zero_tics (a : Z) (s : level) : Prop := ∃ o, things s !! a = Some o ∧ mo_tics o = 0.

(** The special lines that a test of a position has found. *)
Definition hits_ok (s : level) : Prop :=
  0 ≤ numspechit s ≤ Z.of_nat (length (spechit s)) ∧ Forall (λ ld, is_Some (line_special s !! ld)) (spechit s).

(** Actions keep the invariant, do not make a duration zero, and leave the thing in a state unless it
    goes; of the actions, only those of [removing] remove the thing they are called on.  A test of a position
    fails only for things that clip.  Crossing a line may end the loop over the lines, as a teleport
    does. *)
Class Outside : Prop := {
  call_ok f a s : inv G (Some a) None s → alive a s → (∀ o, things s !! a = Some o → is_Some (mo_state o)) →
    wp never (call f a) (λ _ s', inv G (Some a) None s' ∧ later s s' ∧ (zero_tics a s' → zero_tics a s) ∧
      (∀ o, things s' !! a = Some o → mo_removed o = false → is_Some (mo_state o)) ∧
      (removing f = false → alive a s')) s;
  check_ok a x y s : inv G None None s → alive a s →
    wp never (P_CheckPosition a x y) (λ r s', inv G None None s' ∧ later s s' ∧ alive a s' ∧ hits_ok s' ∧
      (r = false → ∀ o, things s' !! a = Some o → has (mo_flags o) MF_NOCLIP = false)) s;
  cross_ok ld side a s : inv G None None s → alive a s → is_Some (line_special s !! ld) → 0 ≤ numspechit s →
    wp never (P_CrossSpecialLine ld side a) (λ _ s', inv G None None s' ∧ later s s' ∧ alive a s' ∧
      spechit s' = spechit s ∧ 0 ≤ numspechit s' ≤ numspechit s ∧ length (line_special s') = length (line_special s)) s;
  slide_ok a s : inv G None None s → alive a s →
    wp never (P_SlideMove a) (λ _ s', inv G None None s' ∧ later s s' ∧ alive a s') s;
}.
Context {OUT : Outside}.

(** ** Changes of state *)

Lemma inv_busy a s : inv G None None s → inv G (Some a) None s.
Proof. intros [HL HG]. split; [done|by apply good_busy]. Qed.

Lemma thing_of busy fresh s a o :
  inv G busy fresh s → things s !! a = Some o → mo_removed o = false → thing_ok G busy fresh s a o.
Proof. intros HI. apply (gd_things _ _ _ _ (proj2 HI)). Qed.

Lemma alive_later s s' a : later s s' → alive a s → ∃ o, things s' !! a = Some o.
Proof. intros Hl (o & Ho & _). destruct (lt_things _ _ Hl a o Ho) as (o' & ? & _). eauto. Qed.

(** The call of the action, if the state has one. *)
Lemma action_ok st a s :
  state_good st = true → inv G (Some a) None s → (∃ o, things s !! a = Some o ∧ mo_removed o = false ∧ mo_tics o = tics st ∧ is_Some (mo_state o)) →
  wp never (match action st with Some f => call f a | None => mret tt end) (λ _ s',
    inv G (Some a) None s' ∧ later s s' ∧ (zero_tics a s' → tics st = 0) ∧
    (∀ o, things s' !! a = Some o → mo_removed o = false → is_Some (mo_state o)) ∧
    ((tics st = 0 ∨ removes st = false) → alive a s')) s.
Proof using OUT.
  intros Hst HI (o & Ho & Hr & Ht & Hs). apply state_facts in Hst as (_ & _ & Hfly). unfold removes in *.
  destruct (action st) as [f|] eqn:Ef.
  - eapply wp_mono; [apply call_ok; [done|by exists o|intros o' Ho'; by simplify_eq]|]. intros [] s' (H1 & H2 & H3 & H4 & H5).
    split_and!; [done|done| |done|].
    + intros Hz. destruct (H3 Hz) as (o' & Ho' & E). congruence.
    + intros Hd. apply H5. destruct Hd as [E|E]; [|done]. apply not_true_iff_false. by intros ?%Hfly.
  - wp_simp. split_and!; [done|done| | |].
    + intros (o' & Ho' & E). congruence.
    + intros o' Ho' _. by simplify_eq.
    + intros _. by exists o.
Qed.

(** Setting the fields of a state. *)
Lemma wp_enter busy s a o i st (Q : unit → level → Prop) :
  inv G busy None s → things s !! a = Some o → mo_removed o = false → busy = Some a →
  0 ≤ i < NUMSTATES → state_good st = true →
  (∀ s' o', inv G busy None s' → later s s' → things s' !! a = Some o' → mo_removed o' = false → mo_tics o' = tics st →
     mo_state o' = Some i → Q tt s') →
  wp never (put a (λ o, set_mo_frame (frame st) (set_mo_sprite (sprite st) (set_mo_tics (tics st) (set_mo_state (Some i) o))))) Q s.
Proof.
  intros HI Ho Hr -> Hi Hst HQ. apply state_facts in Hst as (Ht & _ & _).
  eapply wp_put_inv; [done..|keeps_place|done| |].
  - intros _. destruct (thing_of _ _ _ _ _ HI Ho Hr) as [[T1 T2 T3 T4 T5] Tm It [R1 R2]].
    split; [split| | |split]; try done. cbn. by intros ? [= <-].
  - intros s' _ HI' Hl Ho'. by eapply HQ.
Qed.

Lemma set_state_loop fuel : ∀ n k a state s,
  zero_run n state = Some k → (k < fuel)%nat → 0 ≤ state < NUMSTATES → inv G (Some a) None s → alive a s →
  wp never (SetStateLoop G call fuel a state) (λ r s',
    inv G None None s' ∧ later s s' ∧ (r = false → ¬ alive a s') ∧ (state ≠ S_NULL → lasting state = true → alive a s')) s.
Proof using OUT.
  induction fuel as [|fuel IH]; intros n k a state s Hrun Hk Hst HI (o & Ho & Hr); [lia|].
  destruct (thing_of _ _ _ _ _ HI Ho Hr) as [Hlive Htm Hit Hrefs].
  cbn [SetStateLoop]. destruct (Z.eqb_spec state S_NULL) as [->|Hne].
  - wp_simp. eapply wp_put_inv; [done..|keeps_place|done| |].
    { intros _. destruct Hlive as [T1 T2 T3 T4 T5], Hrefs as [R1 R2]. by split; [split| | |split]. }
    intros s1 _ HI1 Hl1 Ho1. wp_simp.
    eapply wp_mono; [by eapply remove_mobj_ok; [done|done|done|apply Hit]|].
    intros [] s2 ([HL2 HG2] & Hl2 & (o' & Ho' & Hr') & _). wp_simp. split_and!; [|by etrans| |done].
    + split; [done|]. eapply good_settle; [done|]. intros o2 Ho2 Hr2. congruence.
    + intros _ (o2 & Ho2 & Hr2). congruence.
  - destruct (state_ok state Hst) as (st & Est & Hgood). rewrite wp_bind, (wp_states_at _ _ st) by (done || lia). wp_simp.
    eapply (wp_enter (Some a)); [done..|]. intros s1 o1 HI1 Hl1 Ho1 Hr1 Ht1 Hs1. wp_simp.
    eapply wp_mono; [apply action_ok; [done..|exists o1; split_and!; eauto]|].
    intros [] s2 (HI2 & Hl2 & Hz & Hstate & Halive). wp_simp.
    destruct (alive_later s1 s2 a Hl2) as [o2 Ho2]; [by exists o1|]. get_thing o2.
    pose proof Hgood as (_ & Hnext & _)%state_facts.
    destruct (Z.eqb_spec (mo_tics o2) 0) as [E0|E0].
    + assert (tics st = 0) as Et by (apply Hz; by exists o2). destruct n as [|n]; [done|]. cbn [zero_run] in Hrun.
      rewrite (proj2 (Z.eqb_neq _ _)) in Hrun by done. rewrite Est, Et in Hrun. cbn in Hrun.
      destruct (zero_run n (nextstate st)) as [k'|] eqn:Ek; [|done]. cbn in Hrun. simplify_eq.
      eapply wp_mono; [by eapply IH; [done|lia|done|done|apply Halive; left]|].
      intros r s3 (HI3 & Hl3 & Hr3 & _). split_and!; [done|by etrans; [|etrans]|done|].
      intros _ Hlast. unfold lasting in Hlast. by rewrite Est, Et in Hlast.
    + wp_simp. split_and!; [|by etrans|done|].
      * destruct HI2 as [HL2 HG2]. split; [done|]. eapply good_settle; [done|]. intros o2' Ho2' Hr2. simplify_eq.
        destruct (gd_things _ _ _ _ HG2 _ _ Ho2 Hr2) as [[_ _ _ ? _] _ _ _]. split; [by eapply Hstate|lia].
      * intros _ Hlast. apply Halive. right. unfold lasting in Hlast. rewrite Est in Hlast.
        by apply andb_true_iff in Hlast as [_ ?%negb_true_iff].
Qed.

Lemma zero_run_bound n : ∀ state k, zero_run n state = Some k → (k < n)%nat.
Proof.
  induction n as [|n IH]; intros state k; [done|]. cbn [zero_run]. destruct (state =? S_NULL); [intros [= <-]; lia|].
  destruct (states !! _) as [st|]; [|done]. destruct (tics st =? 0); [|intros [= <-]; lia].
  destruct (zero_run n _) as [k'|] eqn:E; [|done]. intros [= <-]. apply IH in E. lia.
Qed.

(** Setting a state ends, whatever the state and the actions. *)
Lemma set_state_ok a state s :
  0 ≤ state < NUMSTATES → inv G (Some a) None s → alive a s →
  wp never (P_SetMobjState G call a state) (λ r s',
    inv G None None s' ∧ later s s' ∧ (r = false → ¬ alive a s') ∧ (state ≠ S_NULL → lasting state = true → alive a s')) s.
Proof using OUT.
  intros Hst HI Ha. destruct (zero_run_small state Hst) as [k Hk]. pose proof (zero_run_bound _ _ _ Hk).
  eapply set_state_loop; [exact Hk| |done..]. rewrite states_length. unfold NUMSTATES. lia.
Qed.

Lemma alter_thing_twice (f g : mobj_t → mobj_t) a (h : gmap Z mobj_t) : alter f a (alter g a h) = alter (λ o, f (g o)) a h.
Proof.
  apply map_eq. intros b. destruct (decide (a = b)) as [->|Hne].
  - rewrite !lookup_alter_eq. by destruct (h !! b).
  - by rewrite !lookup_alter_ne.
Qed.

(** A random part of the duration goes, at least one tic is left. *)
Lemma jitter_ok busy fresh s a o :
  inv G busy fresh s → things s !! a = Some o →
  wp never (jitter_tics a) (λ _ s', inv G busy fresh s' ∧ later s s' ∧ players s' = players s ∧
    ∃ v, 1 ≤ v ∧ things s' !! a = Some (set_mo_tics v o)) s.
Proof.
  intros HI Ho. unfold jitter_tics. wp_simp. apply wp_random. intros r i Hr. wp_simp.
  set (s1 := set_prndindex i s). assert (inv G busy fresh s1) as HI1 by (by apply (inv_eq _ _ _ s)).
  assert (later s s1) as Hl1 by (by apply later_eq). assert (players s1 = players s) as Ep by done.
  assert (things s1 !! a = Some o) as Ho1 by done. clearbody s1. clear HI Ho.
  set (t := i32 (mo_tics o - Z.land r 3)).
  assert (t < 2 ^ 31) as Hlt by (unfold t, wrap_s; Z.div_mod_to_equations; lia).
  rewrite (wp_putmo _ _ _ o) by done. wp_simp.
  assert (∀ v (h : gmap Z mobj_t), h = alter (set_mo_tics v) a (things s1) → h !! a = Some (set_mo_tics v o)) as Hat.
  { intros v h ->. by rewrite lookup_alter_eq, Ho1. }
  assert (alter (λ o, set_mo_tics (i32 (mo_tics o - Z.land r 3)) o) a (things s1) = alter (set_mo_tics t) a (things s1)) as ->.
  { rewrite (alter_insert_eq _ a o) by done. by rewrite (alter_insert_eq _ a o). }
  rewrite (wp_getmo _ _ (set_mo_tics t o)) by (by apply Hat). cbn [mo_tics set_mo_tics].
  assert (∀ v s', 1 ≤ v < 2 ^ 31 → s' = set_things (alter (set_mo_tics v) a (things s1)) s1 →
    inv G busy fresh s' ∧ later s s' ∧ players s' = players s ∧ ∃ v, 1 ≤ v ∧ things s' !! a = Some (set_mo_tics v o)) as Hfin.
  { intros v s' Hv ->. destruct (inv_put_thing G busy fresh s1 a o (set_mo_tics v)) as [HI2 Hl2]; [done|done|keeps_place|done| |].
    - intros Hr'. destruct (thing_of _ _ _ _ _ HI1 Ho1 Hr') as [[T1 T2 T3 T4 T5] Tm It [R1 R2]].
      split; [split| | |split]; try done; [cbn; lia|]. intros Hb. split; [apply (Tm Hb)|]. cbn. lia.
    - split_and!; [done|by etrans|done|]. exists v. split; [lia|]. by apply Hat. }
  destruct (Z.ltb_spec t 1); [|wp_simp; by apply (Hfin t)].
  rewrite (wp_putmo _ _ _ (set_mo_tics t o)) by (by apply Hat). apply (Hfin 1); [lia|].
  cbn [things set_things]. rewrite alter_thing_twice. done.
Qed.

Definition has_death (o : mobj_t) : Prop := ∃ info, mobjinfo !! Z.to_nat (mo_type o) = Some info ∧ deathstate info ≠ S_NULL.

Lemma explode_ok a s o :
  inv G None None s → things s !! a = Some o → mo_removed o = false →
  wp never (P_ExplodeMissile G call a) (λ _ s', inv G None None s' ∧ later s s' ∧ (has_death o → alive a s')) s.
Proof using OUT.
  intros HI Ho Hr. unfold P_ExplodeMissile. wp_simp.
  eapply wp_put_soft; [done..|soft_put|]. intros s1 _ HI1 Hl1 Ho1. wp_simp. rewrite (wp_getmo _ _ _ _ _ Ho1). wp_simp.
  destruct (thing_of _ _ _ _ _ HI Ho Hr) as [[T1 _ _ _ _] _ _ _].
  destruct (info_row_ex (mo_type o) T1) as (info & Einfo & Hfacts).
  rewrite (wp_mobjinfo_at _ _ info) by (done || (cbn; lia)). wp_simp.
  eapply wp_mono; [apply set_state_ok; [apply Hfacts|by apply inv_busy|by eexists]|].
  intros r s2 (HI2 & Hl2 & _ & Halive). wp_simp.
  destruct (alive_later s1 s2 a Hl2) as [o2 Ho2]; [by eexists|].
  eapply wp_mono; [by eapply jitter_ok|]. intros [] s3 (HI3 & Hl3 & _ & v & Hv & Ho3).
  eapply wp_put_soft; [done..|split; try done; [by right|apply flags_soft_missile]|].
  intros s4 _ HI4 Hl4 Ho4. split_and!; [done|by do 3 (etrans; [done|])|].
  intros (info' & Einfo' & Hdeath). simplify_eq. eexists. split; [exact Ho4|].
  destruct Halive as (o2' & Ho2' & ?); [done|by apply Hfacts|]. cbn. congruence.
Qed.

(** ** Moves *)

Context (R_PointInSubsector : Z → Z → nat) (RS : ∀ x y, (R_PointInSubsector x y < length (subsectors G))%nat).

Lemma relinked_hits s s' : relinked s s' → spechit s' = spechit s ∧ numspechit s' = numspechit s ∧ line_special s' = line_special s.
Proof.
  intros [_ _ _ H]. split_and!;
    [apply (f_equal spechit) in H|apply (f_equal numspechit) in H|apply (f_equal line_special) in H]; symmetry; exact H.
Qed.

Lemma relocate_ok a x y s o :
  inv G None None s → things s !! a = Some o → mo_removed o = false →
  wp never (relocate G R_PointInSubsector a x y) (λ _ s', inv G None None s' ∧ later s s' ∧ alive a s' ∧
    spechit s' = spechit s ∧ numspechit s' = numspechit s ∧ line_special s' = line_special s) s.
Proof using RS.
  intros [HL HG] Ho Hr. destruct (gd_things _ _ _ _ HG a o Ho Hr) as [[T1 T2 T3 T4 T5] Tm It [R1 R2]].
  unfold relocate. wp_simp. eapply wp_mono; [by apply unset_ok|]. intros [] s1 (HL1 & Hrl1 & Ho1). wp_simp.
  rewrite (wp_putmo _ _ _ o) by done. wp_simp. set (f := λ o0, set_mo_y y _).
  pose proof (good_relinked _ _ _ _ _ Hrl1 HG) as HG1. pose proof (linked_hole _ _ _ f HL1) as HL2.
  pose proof (gd_things _ _ _ _ HG1 a o Ho1 Hr) as [[T1' T2' T3' T4' T5'] Tm' It' [R1' R2']].
  assert (good G None None (set_things (alter f a (things s1)) s1)) as HG2.
  { eapply good_put; [done..|]. intros _. by split; [split| | |split]. }
  set (s2 := set_things (alter f a (things s1)) s1) in *.
  assert (things s2 !! a = Some (f o)) as Ho2 by (cbn [s2 things set_things]; by rewrite lookup_alter_eq, Ho1).
  eapply wp_mono; [apply (set_ok G R_PointInSubsector s2 a (f o)); [done|done|done|apply RS]|]. intros [] s3 [HL3 Hrl3].
  set (g := set_mo_subsector _) in Hrl3.
  assert (good G None None (set_things (alter g a (things s2)) s2)) as HG3.
  { eapply good_put; [done|exact Ho2|done|]. intros _. pose proof (gd_things _ _ _ _ HG2 a _ Ho2 Hr) as [[A B C D E] F I [J K]].
    split; [split| | |split]; try done. destruct (lookup_lt_is_Some_2 _ _ (RS (mo_x (f o)) (mo_y (f o)))) as [sec Hsec]. by eexists _, sec. }
  assert (things (set_things (alter g a (things s2)) s2) !! a = Some (g (f o))) as Ho3
    by (cbn [things set_things]; by rewrite lookup_alter_eq, Ho2).
  destruct (relinked_lookup _ _ _ _ Hrl3 Ho3) as (o3 & Ho3' & En).
  destruct (relinked_hits _ _ Hrl1) as (H1 & H2 & H3), (relinked_hits _ _ Hrl3) as (H4 & H5 & H6).
  split_and!; [split; [done|by eapply good_relinked]| | |rewrite H4; exact H1|rewrite H5; exact H2|rewrite H6; exact H3].
  - etrans; [by apply relinked_later|]. etrans; [|by apply relinked_later]. apply later_things; [done|done|]. intros b m Hm. cbn [things set_things s2].
    rewrite alter_thing_twice. destruct (decide (a = b)) as [->|Hne]; [|rewrite lookup_alter_ne by done; eauto].
    rewrite lookup_alter_eq, Hm. eexists. done.
  - exists o3. split; [done|]. change (mo_removed (norm o3) = false). by rewrite <- En.
Qed.

Context (P_PointOnLineSide : Z → Z → nat → Z).
Abbreviation trymove := (P_TryMove G R_PointInSubsector P_CheckPosition P_CrossSpecialLine P_PointOnLineSide).

Lemma cross_loop fuel : ∀ a oldx oldy s,
  inv G None None s → alive a s → hits_ok s → (Z.to_nat (numspechit s) < fuel)%nat →
  wp never (CrossLoop P_CrossSpecialLine P_PointOnLineSide fuel a oldx oldy)
    (λ _ s', inv G None None s' ∧ later s s' ∧ alive a s') s.
Proof using OUT.
  induction fuel as [|fuel IH]; intros a oldx oldy s HI (o & Ho & Hr) [Hn HF] Hfuel; [lia|]. cbn [CrossLoop]. wp_simp.
  set (s1 := set_numspechit (numspechit s - 1) s). assert (inv G None None s1) as HI1 by (by apply (inv_eq _ _ _ s)).
  assert (later s s1) as Hl1 by (by apply later_eq).
  destruct (Z.eqb_spec (numspechit s) 0); wp_simp; [split_and!; [done|done|by exists o]|].
  rewrite (proj2 (Z.ltb_ge _ _)) by lia. wp_simp.
  destruct (lookup_lt_is_Some_2 (spechit s) (Z.to_nat (numspechit s - 1))) as [ld Hld]; [lia|].
  rewrite (wp_fetch _ _ _ ld) by done. wp_simp. rewrite (wp_getmo _ _ o) by done. wp_simp.
  destruct ((proj1 (Forall_lookup _ _) HF) _ _ Hld) as [sp Hsp].
  set (m := if _ =? _ then mret tt else _).
  eapply (wp_mono _ m (λ _ s', inv G None None s' ∧ later s s' ∧ alive a s' ∧ hits_ok s' ∧ numspechit s' ≤ numspechit s - 1)).
  { subst m. assert (inv G None None s1 ∧ later s s1 ∧ alive a s1 ∧ hits_ok s1 ∧ numspechit s1 ≤ numspechit s - 1) as Hstay.
    { split_and!; [done|done|by exists o| |done]. split; [cbn; lia|done]. }
    destruct (_ =? _); [by wp_simp|]. wp_simp. rewrite (wp_fetch _ _ _ sp) by done. destruct (sp =? 0); [by wp_simp|].
    eapply wp_mono; [apply cross_ok; [done|by exists o|by exists sp|cbn; lia]|].
    intros [] s2 (HI2 & Hl2 & Ha2 & E1 & E2 & E3). split_and!; [done|by etrans|done| |apply E2].
    split; [rewrite E1; cbn in E2; cbn; lia|]. rewrite E1. eapply Forall_impl; [exact HF|]. cbn. intros ld' Hld'.
    apply lookup_lt_is_Some. rewrite E3. by apply lookup_lt_is_Some. }
  intros [] s2 (HI2 & Hl2 & Ha2 & Hh2 & Hn2). destruct Hh2 as [? ?].
  eapply wp_mono; [apply IH; [done|done|done|lia]|]. intros [] s3 (? & ? & ?). split_and!; [done|by etrans|done].
Qed.

(** A move keeps the invariant; only a thing that clips is stopped. *)
Lemma trymove_ok a x y s :
  inv G None None s → alive a s →
  wp never (trymove a x y) (λ r s', inv G None None s' ∧ later s s' ∧ alive a s' ∧
    (r = false → ∀ o, things s' !! a = Some o → has (mo_flags o) MF_NOCLIP = false)) s.
Proof using OUT RS.
  intros HI Ha. unfold P_TryMove. wp_simp.
  set (s0 := set_floatok false s). assert (inv G None None s0) as HI0 by (by apply (inv_eq _ _ _ s)).
  assert (later s s0) as Hl0 by (by apply later_eq). assert (alive a s0) as Ha0 by done. clearbody s0.
  eapply wp_mono; [by apply check_ok|]. intros ok s1 (HI1 & Hl1 & Ha1 & Hh1 & Hc1).
  destruct ok; cbn [negb]; wp_simp; [|split_and!; [done|by etrans|done|by auto]].
  destruct Ha1 as (o & Ho & Hr). rewrite (wp_getmo _ _ o) by done. wp_simp.
  set (m := if (move_fits s1 o).2 then _ else _).
  eapply (wp_mono _ m (λ _ s', inv G None None s' ∧ later s1 s' ∧ things s' = things s1 ∧ hits_ok s')).
  { subst m. destruct ((move_fits s1 o).2); wp_simp; [|done]. split_and!; [by apply (inv_eq _ _ _ s1)|by apply later_eq|done|done]. }
  intros [] s2 (HI2 & Hl2 & Et & Hh2). destruct (move_fits s1 o).1 eqn:Em; cbn [negb]; wp_simp.
  - eapply wp_mono; [eapply relocate_ok; [done|by rewrite Et|done]|]. intros [] s3 (HI3 & Hl3 & Ha3 & E1 & E2 & E3).
    assert (hits_ok s3) as Hh3 by (unfold hits_ok; by rewrite E1, E2, E3).
    pose proof Ha3 as (o' & Ho' & Hr'). wp_simp. rewrite (wp_getmo _ _ o') by done. wp_simp.
    assert (later s s3) as Hl by (do 3 (etrans; [done|]); done).
    destruct (has _ _); wp_simp; [by split_and!|].
    eapply wp_mono; [apply cross_loop; [done|done|done|lia]|]. intros [] s4 (HI4 & Hl4 & Ha4). wp_simp.
    split_and!; [done|by etrans|done|done].
  - split_and!; [done|by do 2 (etrans; [done|])|exists o; by rewrite Et|]. intros _ o'. rewrite Et, Ho. intros [= <-].
    unfold move_fits in Em. by destruct (has (mo_flags o) MF_NOCLIP).
Qed.
End ops.
