(* ===== verification/ThingsThink.v ===== *)
(** * The thinker of map objects keeps the invariant
    Movement along the floor, the rise and fall of things, monsters that come back, items that come
    back and things of the map: each keeps the invariant of [ThingsInv], given what the other modules
    promise. *)
From S2P Require Import Prelude Dll Links Info InfoThings ThingData Things ThingTables ThingLinks ThingsInv ThingsOps.

(** Half of a move is not halved again. *)
Lemma half_done x y :
  x ≤ MAXMOVE → y ≤ MAXMOVE → half_move (Z.shiftr x 1) (Z.shiftr y 1) = false.
Proof.
  intros Hx Hy. unfold half_move. rewrite !Z.shiftr_div_pow2 by lia. change (2 ^ 1) with 2.
  unfold MAXMOVE, FRACUNIT in *. change (30 * 65536 ÷ 2) with 983040.
  apply orb_false_iff. split; apply Z.ltb_ge; Z.div_mod_to_equations; lia.
Qed.

Lemma clamp_le v : clamp_move v ≤ MAXMOVE.
Proof. unfold clamp_move, MAXMOVE, FRACUNIT. destruct (Z.ltb_spec (30 * 65536) v); [lia|]. case_match; lia. Qed.

Section think.
#[local] Set Default Proof Using "Type".
Context (G : game) (R_PointInSubsector : Z → Z → nat) (RS : ∀ x y, (R_PointInSubsector x y < length (subsectors G))%nat).
Context (call : actionf_t → Z → LM unit) (P_CheckPosition : Z → Z → Z → LM bool) (P_CrossSpecialLine : nat → Z → Z → LM unit)
  (P_PointOnLineSide : Z → Z → nat → Z) (P_SlideMove : Z → LM unit).
Context {OUT : Outside G call P_CheckPosition P_CrossSpecialLine P_SlideMove}.

Abbreviation INV := (inv G None None).
Abbreviation removemobj := (P_RemoveMobj G).
Abbreviation setstate := (P_SetMobjState G call).
Abbreviation explode := (P_ExplodeMissile G call).
Abbreviation trymove := (P_TryMove G R_PointInSubsector P_CheckPosition P_CrossSpecialLine P_PointOnLineSide).

Lemma play_state : ∃ st, states !! Z.to_nat S_PLAY = Some st ∧ action st = None ∧ tics st = -1.
Proof. eexists. split; [vm_compute; reflexivity|split; reflexivity]. Qed.

(** [P_SetMobjState] on a thing that may be anywhere in its life, for a state without an action. *)
Lemma play_ok a s : INV s → is_Some (things s !! a) → wp never (setstate a S_PLAY) (λ _ s', INV s' ∧ later s s') s.
Proof.
  intros HI [o Ho]. unfold P_SetMobjState. generalize (length states) as n. intros n. cbn [SetStateLoop].
  change (S_PLAY =? S_NULL) with false. cbn iota. destruct play_state as (st & E & Ea & Et).
  rewrite wp_bind, (wp_states_at _ _ st) by (exact E || (vm_compute; discriminate)). wp_simp.
  eapply wp_put_inv; [done..|keeps_place|done| |].
  { intros Hr. destruct (thing_of _ _ _ _ _ _ HI Ho Hr) as [[T1 T2 T3 T4 T5] Tm It [R1 R2]].
    split; [split| | |split]; try done; cbn; rewrite ?Et; [by intros ? [= <-]|done|]. intros _. split; [by eexists|cbn; by left]. }
  intros s1 _ HI1 Hl1 Ho1. rewrite Ea. wp_simp. rewrite (wp_getmo _ _ _ _ _ Ho1). cbn [mo_tics set_mo_frame set_mo_sprite set_mo_tics].
  rewrite Et. by wp_simp.
Qed.

(** ** Movement along the floor *)

Lemma sky_hit_ok s : INV s → wp never (sky_hit G) (λ _ s', s' = s) s.
Proof.
  intros [_ HG]. unfold sky_hit. wp_simp. destruct (ceilingline s) as [ld|] eqn:E; [|by wp_simp].
  destruct (gd_ceiling _ _ _ _ HG ld E) as [back Hb]. wp_simp. rewrite (wp_fetch _ _ _ back) by done.
  destruct back as [sec|]; [|by wp_simp]. unfold sector_at. wp_simp.
  destruct (lookup_lt_is_Some_2 (sectors s) sec) as [sc Hsc]; [by eapply gd_back|]. rewrite (wp_fetch _ _ _ sc) by done. by wp_simp.
Qed.

Lemma blocked_ok a s :
  INV s → alive a s → (∀ o, things s !! a = Some o → has (mo_flags o) MF_NOCLIP = false) →
  wp never (blocked_move G call P_SlideMove a) (λ gone s', INV s' ∧ later s s' ∧ (gone = false → alive a s')) s.
Proof using OUT.
  intros HI Ha Hclip. pose proof Ha as (o & Ho & Hr). unfold blocked_move. wp_simp. rewrite (wp_getmo _ _ o) by done.
  destruct (mo_player o) as [i|].
  { wp_simp. eapply wp_mono; [by eapply slide_ok|]. intros [] s' (?&?&?). wp_simp. by split_and!. }
  destruct (has (mo_flags o) MF_MISSILE) eqn:Em.
  - wp_simp. eapply wp_mono; [by apply sky_hit_ok|]. intros sky s' ->.
    pose proof (thing_of _ _ _ _ _ _ HI Ho Hr) as [[_ _ _ _ [T5 _]] _ It _].
    destruct sky; wp_simp.
    + eapply wp_mono; [eapply remove_mobj_ok; [done|done|done|by apply It]|]. intros [] s' (?&?&_). wp_simp. by split_and!.
    + eapply wp_mono; [by eapply explode_ok|]. intros [] s' (?&?&Hl). wp_simp. split_and!; [done..|]. intros _. apply Hl.
      destruct (T5 Em) as [_ [E|?]]; [|done]. rewrite (Hclip o Ho) in E. done.
  - wp_simp. eapply wp_put_soft; [done..|soft_put|]. intros s' _ ? ? Ho'. wp_simp. split_and!; [done..|]. intros _. by eexists.
Qed.

(** One round of the loop. *)
Lemma xy_round fuel a x y s :
  INV s → alive a s →
  (half_move x y = true → ∀ s', INV s' → alive a s' →
     wp never (XYLoop G R_PointInSubsector call P_CheckPosition P_CrossSpecialLine P_PointOnLineSide P_SlideMove fuel a (Z.shiftr x 1) (Z.shiftr y 1))
       (λ gone s'', INV s'' ∧ later s' s'' ∧ (gone = false → alive a s'')) s') →
  wp never (XYLoop G R_PointInSubsector call P_CheckPosition P_CrossSpecialLine P_PointOnLineSide P_SlideMove (S fuel) a x y)
    (λ gone s', INV s' ∧ later s s' ∧ (gone = false → alive a s')) s.
Proof using OUT RS.
  intros HI Ha Hrec. pose proof Ha as (o & Ho & Hr). cbn [XYLoop]. wp_simp. rewrite (wp_getmo _ _ o) by done. wp_simp.
  eapply wp_mono; [by eapply trymove_ok|]. intros ok s1 (HI1 & Hl1 & Ha1 & Hc1).
  rewrite wp_bind. set (m := if ok then _ else _).
  eapply (wp_mono _ m (λ gone s', INV s' ∧ later s1 s' ∧ (gone = false → alive a s'))).
  { subst m. destruct ok; [by wp_simp|]. apply blocked_ok; auto. }
  intros gone s2 (HI2 & Hl2 & Ha2). assert (later s s2) as Hl by (by etrans).
  destruct gone; [wp_simp; by split_and!|]. destruct (half_move x y) eqn:Eh.
  - destruct (_ && _); [wp_simp; by split_and!|]. eapply wp_mono; [by apply Hrec; auto|]. intros g s3 (?&?&?). split_and!; [done|by etrans|done].
  - wp_simp. by split_and!.
Qed.

(** The loop makes at most two rounds. *)
Lemma xy_loop_ok a x y s :
  x ≤ MAXMOVE → y ≤ MAXMOVE → INV s → alive a s →
  wp never (XYLoop G R_PointInSubsector call P_CheckPosition P_CrossSpecialLine P_PointOnLineSide P_SlideMove 3 a x y)
    (λ gone s', INV s' ∧ later s s' ∧ (gone = false → alive a s')) s.
Proof using OUT RS.
  intros Hx Hy HI Ha. apply xy_round; [done..|]. intros _ s' HI' Ha'. apply xy_round; [done..|]. rewrite half_done by done. done.
Qed.

Lemma player_of_ok s s' a o :
  INV s → things s !! a = Some o → mo_removed o = false → later s s' → 
  wp never (player_of o) (λ p s'', s'' = s' ∧ (∀ q, p = Some q → ∃ b, pl_mo q = Some b ∧ ∃ i, players s' !! i = Some q)) s'.
Proof.
  intros HI Ho Hr Hl. unfold player_of. destruct (mo_player o) as [i|] eqn:E; [|by wp_simp].
  destruct (ro_player _ _ (to_refs _ _ _ _ _ _ (thing_of _ _ _ _ _ _ HI Ho Hr)) i E) as (p & b & Hp & Hb).
  destruct (lt_players _ _ Hl i p b Hp Hb) as (p' & b' & Hp' & Hb'). wp_simp. rewrite (wp_fetch _ _ _ p') by done. wp_simp.
  split; [done|]. intros q [= <-]. eauto.
Qed.

Lemma stop_walking_ok p s :
  INV s → (∀ q, p = Some q → ∃ b, pl_mo q = Some b ∧ ∃ i, players s !! i = Some q) →
  wp never (stop_walking G call p) (λ _ s', INV s' ∧ later s s') s.
Proof.
  intros HI Hp. destruct p as [q|]; [|by wp_simp]. destruct (Hp q eq_refl) as (b & Hb & i & Hi). cbn [stop_walking]. rewrite Hb. wp_simp.
  destruct (gd_bodies _ _ _ _ (proj2 HI) _ _ _ Hi Hb) as [o Ho]. rewrite (wp_getmo _ _ o) by done.
  destruct (mo_state o) as [st|]; [|by wp_simp]. destruct (_ <? 4); [|by wp_simp]. wp_simp.
  eapply wp_mono; [apply play_ok; [done|by eexists]|]. intros r s' [? ?]. by wp_simp.
Qed.

Lemma friction_ok a p s :
  INV s → alive a s → (∀ q, p = Some q → ∃ b, pl_mo q = Some b ∧ ∃ i, players s !! i = Some q) →
  wp never (xy_friction G call a p) (λ _ s', INV s' ∧ later s s') s.
Proof.
  intros HI (o & Ho & Hr) Hp. unfold xy_friction. wp_simp. rewrite (wp_getmo _ _ o) by done.
  assert (∀ f, soft o (f o) → wp never (put a f) (λ _ s', INV s' ∧ later s s') s) as Hput.
  { intros f Hf. by eapply wp_put_soft. }
  destruct (match p with Some _ => _ | None => _ end); [apply Hput; soft_put|].
  destruct (has _ _); [by wp_simp|]. destruct (_ <? mo_z o); [by wp_simp|]. wp_simp.
  set (m := if _ && _ then _ else _).
  eapply (wp_mono _ m (λ _ s', s' = s)).
  { subst m. destruct (_ && _); [|by wp_simp]. wp_simp.
    destruct (thing_of _ _ _ _ _ _ HI Ho Hr) as [[_ (ss & sec & Hss & Hsec) _ _ _] _ _ _].
    unfold sector_of. rewrite Hss. rewrite (wp_fetch _ _ _ sec) by done. wp_simp. unfold sector_at. wp_simp.
    destruct (lookup_lt_is_Some_2 (sectors s) sec) as [sc Hsc].
    { rewrite (gd_sectors _ _ _ _ (proj2 HI)). pose proof (lk_nsec _ _ _ (proj1 HI)) as HF. rewrite Forall_lookup in HF. eauto. }
    rewrite (wp_fetch _ _ _ sc) by done. by wp_simp. }
  intros edge s' ->. destruct edge; [by wp_simp|]. destruct (_ && _ && _).
  - wp_simp. eapply wp_mono; [by apply stop_walking_ok|]. intros [] s1 [HI1 Hl1].
    destruct (alive_later s s1 a Hl1) as [o1 Ho1]; [by exists o|].
    eapply wp_put_soft; [done..|soft_put|]. intros s2 _ HI2 Hl2 _. split; [done|by etrans].
  - apply Hput. soft_put.
Qed.

Lemma xy_ok a s :
  INV s → alive a s →
  wp never (P_XYMovement G R_PointInSubsector call P_CheckPosition P_CrossSpecialLine P_PointOnLineSide P_SlideMove a)
    (λ _ s', INV s' ∧ later s s') s.
Proof using OUT RS.
  intros HI (o & Ho & Hr). unfold P_XYMovement. wp_simp. rewrite (wp_getmo _ _ o) by done.
  destruct (thing_of _ _ _ _ _ _ HI Ho Hr) as [[T1 _ _ _ _] _ _ _].
  destruct (info_row_ex (mo_type o) T1) as (info & Einfo & Hfacts).
  destruct (_ && _).
  - destruct (has _ MF_SKULLFLY); [|by wp_simp]. wp_simp.
    eapply wp_put_soft; [done..|split; try done; [by right|apply flags_soft_skullfly]|]. intros s1 _ HI1 Hl1 Ho1. wp_simp.
    rewrite (wp_mobjinfo_at _ _ info) by (done || lia). wp_simp.
    eapply wp_mono; [apply (set_state_ok G call P_CheckPosition P_CrossSpecialLine P_SlideMove); [apply Hfacts|by apply inv_busy|by eexists]|].
    intros r s2 (HI2 & Hl2 & _). wp_simp. split; [done|by etrans].
  - wp_simp. eapply wp_put_soft; [done..|soft_put|]. intros s1 _ HI1 Hl1 Ho1. wp_simp.
    eapply wp_mono; [apply xy_loop_ok; [apply clamp_le|apply clamp_le|done|by eexists]|].
    intros gone s2 (HI2 & Hl2 & Ha2). destruct gone; [wp_simp; split; [done|by etrans]|].
    wp_simp. eapply wp_mono; [eapply (player_of_ok s s2 a o HI Ho Hr); by etrans|]. intros p s3 [-> Hp].
    eapply wp_mono; [apply friction_ok; auto|]. intros [] s4 [? ?]. split; [done|]. by do 2 (etrans; [done|]).
Qed.

(** ** Rise and fall *)

Lemma put_player_ok i f s :
  INV s → is_Some (players s !! i) → (∀ p, pl_mo (f p) = pl_mo p) →
  wp never (put_player i f) (λ _ s', INV s' ∧ later s s' ∧ things s' = things s) s.
Proof.
  intros [HL HG] [p Hp] Hf. unfold put_player. wp_simp. rewrite (wp_fetch _ _ _ p) by done. wp_simp.
  assert (∀ j q, players s !! j = Some q → ∃ q', alter f i (players s) !! j = Some q' ∧ pl_mo q' = pl_mo q) as Hfw.
  { intros j q Hq. destruct (decide (i = j)) as [->|].
    - exists (f q). rewrite list_lookup_alter_eq, Hq. split; [done|apply Hf].
    - exists q. by rewrite list_lookup_alter_ne. }
  assert (∀ j q', alter f i (players s) !! j = Some q' → ∃ q, players s !! j = Some q ∧ pl_mo q' = pl_mo q) as Hbw.
  { intros j q' Hq'. destruct (decide (i = j)) as [->|].
    - rewrite list_lookup_alter_eq in Hq'. destruct (players s !! j) as [q|]; [|done]. apply (inj Some) in Hq' as <-. eauto.
    - rewrite list_lookup_alter_ne in Hq' by done. eauto. }
  destruct HG as [A B C D E F I J K]. split_and!; [split; [by destruct HL|split]|split|]; try done.
  - intros a o Ho Hr. destruct (B a o Ho Hr) as [T1 T2 T3 [R1 R2]]. split; try done. split; [done|].
    intros j Hj. destruct (R2 j Hj) as (q & b & Hq & Hb). destruct (Hfw j q Hq) as (q' & ? & ?). exists q', b. split; [done|congruence].
  - by apply (queue_ok_eq s).
  - cbn. by rewrite length_alter.
  - intros j q' b Hq' Hb. destruct (Hbw j q' Hq') as (q & ? & ?). eapply J; [done|congruence].
  - eauto.
  - intros j q b Hq Hb. destruct (Hfw j q Hq) as (q' & ? & ?). exists q', b. split; [done|congruence].
Qed.

Lemma when_player_ok a o c f s :
  INV s → things s !! a = Some o → mo_removed o = false → (∀ p, pl_mo (f p) = pl_mo p) →
  wp never (when_player o c f) (λ _ s', INV s' ∧ later s s' ∧ things s' = things s) s.
Proof.
  intros HI Ho Hr Hf. unfold when_player. destruct (mo_player o) as [i|] eqn:E; [|by wp_simp]. destruct c; [|by wp_simp].
  destruct (ro_player _ _ (to_refs _ _ _ _ _ _ (thing_of _ _ _ _ _ _ HI Ho Hr)) i E) as (p & b & Hp & Hb).
  by apply put_player_ok; [|eexists|].
Qed.

Lemma z_ceiling_ok a s : INV s → alive a s → wp never (z_ceiling G call a) (λ _ s', INV s' ∧ later s s') s.
Proof using OUT.
  intros HI (o & Ho & Hr). unfold z_ceiling. wp_simp. rewrite (wp_getmo _ _ o) by done. destruct (_ <? _); [|by wp_simp]. wp_simp.
  eapply wp_put_soft; [done..|soft_put|]. intros s1 _ HI1 Hl1 Ho1. destruct (explodes o); [|wp_simp; by split].
  eapply wp_mono; [by eapply explode_ok|]. intros [] s2 (HI2 & Hl2 & _). split; [done|by etrans].
Qed.

Lemma fall_soft o : soft o (fall o).
Proof. unfold fall. destruct (has _ _); [soft_put|]. destruct (_ =? 0); soft_put. Qed.

Lemma z_ok a s : INV s → alive a s → wp never (P_ZMovement G call a) (λ _ s', INV s' ∧ later s s') s.
Proof using OUT.
  intros HI (o & Ho & Hr). unfold P_ZMovement. wp_simp. rewrite (wp_getmo _ _ o) by done. wp_simp.
  eapply wp_mono; [by eapply when_player_ok|]. intros [] s1 (HI1 & Hl1 & E1). wp_simp. rewrite <- E1 in Ho.
  eapply wp_put_soft; [done..|soft_put|]. intros s2 _ HI2 Hl2 Ho2. wp_simp. rewrite (wp_getmo _ _ _ _ _ Ho2). wp_simp.
  set (o2 := set_mo_z _ o) in *.
  set (m := match mo_target o2 with Some _ => _ | None => _ end).
  eapply (wp_mono _ m (λ _ s', INV s' ∧ later s2 s' ∧ alive a s')).
  { subst m. assert (alive a s2) as Ha2 by (by exists o2). destruct (mo_target o2) as [t|] eqn:Et; [|wp_simp; by split_and!].
    destruct (has _ _); [|wp_simp; by split_and!].
    destruct (ro_target _ _ (to_refs _ _ _ _ _ _ (thing_of _ _ _ _ _ _ HI2 Ho2 Hr)) t Et) as [ot Hot].
    wp_simp. rewrite (wp_getmo _ _ ot) by done. eapply wp_put_soft; [done..|soft_put|].
    intros s3 _ HI3 Hl3 Ho3. split_and!; [done|done|by eexists]. }
  intros [] s3 (HI3 & Hl3 & Ha3). assert (later s s3) as Hl by (by do 2 (etrans; [done|])).
  pose proof Ha3 as (o3 & Ho3 & Hr3). wp_simp. rewrite (wp_getmo _ _ o3) by done. destruct (_ <=? _); wp_simp.
  - eapply wp_mono; [by eapply when_player_ok|]. intros [] s4 (HI4 & Hl4 & E4). wp_simp. rewrite <- E4 in Ho3.
    eapply wp_put_soft; [done..|soft_put|]. intros s5 _ HI5 Hl5 Ho5.
    assert (later s s5) as Hls by (by do 2 (etrans; [done|])).
    destruct (explodes o3).
    + eapply wp_mono; [by eapply explode_ok|]. intros [] s6 (?&?&_). split; [done|by etrans].
    + eapply wp_mono; [apply z_ceiling_ok; [done|by eexists]|]. intros [] s6 [??]. split; [done|by etrans].
  - eapply wp_put_soft; [done..|apply fall_soft|]. intros s5 _ HI5 Hl5 Ho5.
    eapply wp_mono; [apply z_ceiling_ok; [done|]|].
    { eexists. split; [exact Ho5|]. by rewrite (sf_removed _ _ (fall_soft o3)). }
    intros [] s6 [??]. split; [done|by do 2 (etrans; [done|])].
Qed.

(** ** Monsters and items that come back *)

Lemma inv_itemised a s o : inv G None (Some a) s → things s !! a = Some o → item_ok o → INV s.
Proof.
  intros [HL HG] Ho Hi. split; [done|]. eapply good_itemised; [done|]. intros o' Ho' _. by replace o' with o by congruence.
Qed.

(** A thing of a type that is no item needs no spawn point. *)
Lemma spawn_plain s x y z type info :
  INV s → 0 ≤ type < NUMMOBJTYPES → mobjinfo !! Z.to_nat type = Some info → has (flags info) MF_SPECIAL = false →
  wp never (P_SpawnMobj G R_PointInSubsector x y z type) (λ r s', INV s' ∧ later s s' ∧ keeps s s' ∧
    queue s' = queue s ∧ counts s s' ∧ players s' = players s ∧
    ∃ o, things s' !! r = Some o ∧ spawned R_PointInSubsector type x y info o) s.
Proof using RS.
  intros HI Ht Hinfo Hsp. eapply wp_mono; [by eapply spawn_ok|].
  intros r s' (-> & HI' & Hl & Eq & Et & Ep & Hn & Hk & o & _ & _ & Ho & Hspawned & _).
  split_and!; [|done..|by eauto]. eapply inv_itemised; [done..|]. intros Hr. unfold respawns in Hr.
  by rewrite (sw_flags _ _ _ _ _ _ Hspawned), Hsp in Hr.
Qed.

Lemma tfog_row : ∃ info, mobjinfo !! Z.to_nat MT_TFOG = Some info ∧ has (flags info) MF_SPECIAL = false.
Proof. eexists. split; [vm_compute; reflexivity|vm_compute; reflexivity]. Qed.
Lemma ifog_row : ∃ info, mobjinfo !! Z.to_nat MT_IFOG = Some info ∧ has (flags info) MF_SPECIAL = false.
Proof. eexists. split; [vm_compute; reflexivity|vm_compute; reflexivity]. Qed.

(** The sector of a place. *)
Lemma wp_sector_at x y s (Q : sector_t → level → Prop) :
  INV s → (∀ sc, Q sc s) → wp never (sec ← fetch (subsectors G) (R_PointInSubsector x y); sector_at sec) Q s.
Proof using RS.
  intros [HL HG] HQ. destruct (lookup_lt_is_Some_2 _ _ (RS x y)) as [sec Hsec]. rewrite wp_bind, (wp_fetch _ _ _ sec) by done.
  unfold sector_at. wp_simp. destruct (lookup_lt_is_Some_2 (sectors s) sec) as [sc Hsc]; [|by rewrite (wp_fetch _ _ _ sc)].
  rewrite (gd_sectors _ _ _ _ HG). pose proof (lk_nsec _ _ _ HL) as HF. rewrite Forall_lookup in HF. eauto.
Qed.

Lemma wp_sector_of o s (Q : sector_t → level → Prop) :
  INV s → placed G o → (∀ sc, Q sc s) → wp never (sec ← sector_of G o; sector_at sec) Q s.
Proof.
  intros [HL HG] (ss & sec & Hss & Hsec) HQ. unfold sector_of. rewrite Hss, wp_bind, (wp_fetch _ _ _ sec) by done.
  unfold sector_at. wp_simp. destruct (lookup_lt_is_Some_2 (sectors s) sec) as [sc Hsc]; [|by rewrite (wp_fetch _ _ _ sc)].
  rewrite (gd_sectors _ _ _ _ HG). pose proof (lk_nsec _ _ _ HL) as HF. rewrite Forall_lookup in HF. eauto.
Qed.

(** The new thing gets its spawn point, and its angle perhaps. *)
Lemma wp_spawnpoint r o th f s (Q : unit → level → Prop) :
  inv G None (Some r) s → things s !! r = Some o → (respawns o = true → known (mt_type th) = true) →
  (∃ ang, f o = set_mo_angle ang (set_mo_spawnpoint th o)) →
  (∀ s', s' = set_things (alter f r (things s)) s → INV s' → later s s' → things s' !! r = Some (f o) → Q tt s') →
  wp never (put r f) Q s.
Proof.
  intros HI Ho Hk [ang Hf] HQ. eapply wp_put_inv; [done|done|rewrite Hf; keeps_place|by rewrite Hf| |].
  - intros Hr. rewrite Hf. destruct (thing_of _ _ _ _ _ _ HI Ho Hr) as [[T1 T2 T3 T4 T5] Tm It [R1 R2]]. by split; [split| | |split].
  - intros s' E HI' Hl Ho'. apply HQ; try done. eapply inv_itemised; [done|done|]. by rewrite Hf.
Qed.

(** [flags |= MF_AMBUSH] *)
Lemma ambush_ok (c : bool) r n s :
  INV s → things s !! r = Some n →
  wp never (if c then put r (λ n, set_mo_flags (Z.lor (mo_flags n) MF_AMBUSH) n) else mret tt)
    (λ _ s', INV s' ∧ later s s' ∧ queue s' = queue s ∧ counts s s' ∧ (∃ fl, things s' !! r = Some (set_mo_flags fl n)) ∧
       (∀ b, b ≠ r → things s' !! b = things s !! b)) s.
Proof.
  intros HI Hn. destruct c; [|wp_simp; split_and!; [done..| |done]; exists (mo_flags n); rewrite Hn; by destruct n].
  eapply wp_put_soft; [done..|split; try done; [by right|apply flags_soft_ambush]|].
  intros s1 -> HI1 Hl1 Hn1. split_and!; [done..|by eexists|]. intros b Hb. cbn [things set_things]. by rewrite lookup_alter_ne.
Qed.

(** The new monster is ready, the old one goes. *)
Lemma nightmare_finish (c : bool) r n a o s :
  INV s → things s !! r = Some n → things s !! a = Some o → mo_removed o = false → r ≠ a →
  wp never ((if c then put r (λ n, set_mo_flags (Z.lor (mo_flags n) MF_AMBUSH) n) else mret tt);;
            put r (set_mo_reactiontime 18);; removemobj a) (λ _ s', INV s' ∧ later s s') s.
Proof.
  intros HI Hn Ho Hr Hne. rewrite wp_bind. eapply wp_mono; [by apply (ambush_ok c r n)|].
  intros [] s1 (HI1 & Hl1 & _ & _ & [fl Hn1] & Hoth). wp_simp.
  eapply wp_put_soft; [done..|soft_put|]. intros s2 E2 HI2 Hl2 Hn2.
  assert (things s2 !! a = Some o) as Ho2 by (rewrite E2; cbn [things set_things]; rewrite lookup_alter_ne, Hoth by done; done).
  pose proof (thing_of _ _ _ _ _ _ HI2 Ho2 Hr) as [_ _ It _].
  eapply wp_mono; [eapply remove_mobj_ok; [done|done|done|by apply It]|]. intros [] s3 (HI3 & Hl3 & _). split; [done|].
  by do 2 (etrans; [done|]).
Qed.

Lemma nightmare_ok a s o :
  INV s → things s !! a = Some o → mo_removed o = false → has (mo_flags o) MF_COUNTKILL = true →
  wp never (P_NightmareRespawn G R_PointInSubsector P_CheckPosition a) (λ _ s', INV s' ∧ later s s') s.
Proof using OUT RS.
  intros HI Ho Hr Hkill. unfold P_NightmareRespawn. wp_simp. rewrite (wp_getmo _ _ o) by done. wp_simp.
  set (x := map_coord _). set (y := map_coord (mt_y _)).
  eapply wp_mono; [exact (check_ok G call P_CheckPosition P_CrossSpecialLine P_SlideMove a x y s HI (ex_intro _ o (conj Ho Hr)))|].
  intros ok s1 (HI1 & Hl1 & (o1 & Ho1 & Hr1) & _). destruct ok; cbn [negb]; [|by wp_simp].
  pose proof (thing_of _ _ _ _ _ _ HI Ho Hr) as [[T1 _ _ _ [_ Tk]] _ _ _]. destruct (Tk Hkill) as (info & Hinfo & Hsp).
  destruct (lt_things _ _ Hl1 a o Ho) as (o1' & Ho1' & Ety & _). assert (o1' = o1) as -> by congruence.
  pose proof (thing_of _ _ _ _ _ _ HI1 Ho1 Hr1) as [[_ P1 _ _ _] _ _ _].
  wp_simp. rewrite (wp_getmo _ _ o1) by done. wp_simp. rewrite <- wp_bind, wp_bind_assoc.
  apply wp_sector_of; [done|done|]. intros sc1. rewrite wp_bind.
  destruct tfog_row as (fog & Hfog & Hfogs).
  eapply wp_mono; [apply (spawn_plain _ _ _ _ MT_TFOG fog); [done|done|exact Hfog|done]|].
  intros r2 s2 (HI2 & Hl2 & Hk2 & _). rewrite wp_bind_assoc. apply wp_sector_at; [done|]. intros sc2. rewrite wp_bind.
  eapply wp_mono; [apply (spawn_plain _ _ _ _ MT_TFOG fog); [done|done|exact Hfog|done]|].
  intros r3 s3 (HI3 & Hl3 & Hk3 & _). destruct (keeps_alive s1 s3 a o1 (keeps_trans _ _ _ Hk2 Hk3) Ho1 Hr1) as (o3 & Ho3 & Hr3 & En3).
  wp_simp. rewrite (wp_getmo _ _ o3) by done. wp_simp.
  assert (mo_type o3 = mo_type o) as Ety3 by (rewrite <- Ety; change (mo_type (norm o3) = mo_type (norm o1)); by rewrite En3).
  rewrite Ety3. rewrite (wp_mobjinfo_at _ _ info) by (done || lia). wp_simp.
  eapply wp_mono; [by eapply (spawn_ok G R_PointInSubsector RS None s3)|].
  intros r s4 (-> & HI4 & Hl4 & _ & _ & _ & Hnew & Hk4 & n & _ & _ & Hn & Hspn & _). wp_simp.
  eapply wp_spawnpoint; [done|done| |by eexists|].
  { intros Hrn. unfold respawns in Hrn. by rewrite (sw_flags _ _ _ _ _ _ Hspn), Hsp in Hrn. }
  intros s5 E5 HI5 Hl5 Hn5.
  assert (next_thing s3 ≠ a) as Hne by (intros E; rewrite E in Hnew; congruence).
  destruct (keeps_alive s3 s4 a o3 Hk4 Ho3 Hr3) as (o4 & Ho4 & Hr4 & _).
  eapply wp_mono; [eapply (nightmare_finish _ _ _ a o4); [done|exact Hn5| |done|done]|].
  { rewrite E5. cbn [things set_things]. by rewrite lookup_alter_ne by done. }
  intros [] s6 [HI6 Hl6]. split; [done|]. by do 5 (etrans; [done|]).
Qed.

(** ** The thinker *)

Abbreviation thinker := (P_MobjThinker G R_PointInSubsector call P_CheckPosition P_CrossSpecialLine P_PointOnLineSide P_SlideMove).

Lemma i32_pred t : 1 ≤ t < 2 ^ 31 → i32 (t - 1) = t - 1.
Proof. intros H. unfold wrap_s. change (2 ^ (32 - 1)) with (2 ^ 31). rewrite Z.mod_small; lia. Qed.

Lemma think_state_ok a o s :
  INV s → things s !! a = Some o → mo_removed o = false → wp never (think_state G R_PointInSubsector call P_CheckPosition a o) (λ _ s', INV s' ∧ later s s') s.
Proof using OUT RS.
  intros HI Ho Hr. pose proof (thing_of _ _ _ _ _ _ HI Ho Hr) as [[T1 T2 T3 T4 T5] Tm It [R1 R2]].
  destruct Tm as [[i Hi] Htm]; [done|]. unfold think_state. destruct (Z.eqb_spec (mo_tics o) (-1)) as [Et|Et]; cbn [negb].
  - destruct (has (mo_flags o) MF_COUNTKILL) eqn:Ek; cbn [negb]; [|by wp_simp]. destruct (respawnmonsters G); cbn [negb]; [|by wp_simp].
    wp_simp. eapply wp_put_soft; [done..|soft_put|]. intros s1 _ HI1 Hl1 Ho1.
    destruct (_ <? _); [by wp_simp|]. wp_simp. destruct (negb _); [by wp_simp|]. wp_simp. apply wp_random. intros v j Hv.
    set (s2 := set_prndindex j s1). assert (INV s2) as HI2 by (by apply (inv_eq _ _ _ s1)).
    assert (later s s2) as Hl2 by (etrans; [exact Hl1|by apply later_eq]).
    destruct (4 <? v); [by wp_simp|]. eapply wp_mono; [by eapply (nightmare_ok a s2)|]. intros [] s3 [HI3 Hl3]. split; [done|by etrans].
  - assert (1 ≤ mo_tics o < 2 ^ 31) as Ht by lia. rewrite wp_bind.
    eapply (wp_put_inv G (Some a)); [by apply inv_busy|done|keeps_place|done| |].
    { intros _. split; [split| | |split]; try done. cbn. rewrite i32_pred by done. lia. }
    intros s1 _ HI1 Hl1 Ho1. cbn beta in Ho1. rewrite i32_pred in * by done. destruct (Z.eqb_spec (mo_tics o - 1) 0).
    + rewrite Hi. destruct (state_ok i (T3 i Hi)) as (st & Est & (_ & Hnx & _)%state_facts). wp_simp.
      rewrite (wp_states_at _ _ st) by (done || by apply (T3 i Hi)). wp_simp.
      eapply wp_mono; [apply (set_state_ok G call P_CheckPosition P_CrossSpecialLine P_SlideMove); [exact Hnx|done|by eexists]|].
      intros r s2 (HI2 & Hl2 & _). wp_simp. split; [done|by etrans].
    + wp_simp. split; [|done]. destruct HI1 as [HL1 HG1]. split; [done|]. eapply good_settle; [done|].
      intros o' Ho' _. assert (o' = set_mo_tics (mo_tics o - 1) o) as -> by congruence. split; [by exists i|]. cbn. right. lia.
Qed.

Lemma thinker_ok a s : INV s → alive a s → wp never (thinker a) (λ _ s', INV s' ∧ later s s') s.
Proof using OUT RS.
  intros HI Ha. pose proof Ha as (o & Ho & Hr). unfold P_MobjThinker. wp_simp. rewrite (wp_getmo _ _ o) by done. wp_simp.
  set (m := if negb _ || _ || _ then _ else _).
  eapply (wp_mono _ m (λ _ s', INV s' ∧ later s s')).
  { subst m. destruct (_ || _ || _); [by apply xy_ok|by wp_simp]. }
  intros [] s1 [HI1 Hl1]. destruct (alive_later s s1 a Hl1 Ha) as [o1 Ho1]. wp_simp. rewrite (wp_getmo _ _ o1) by done.
  destruct (mo_removed o1) eqn:Er1; [by wp_simp|]. rewrite wp_bind. clear m.
  set (m := if negb _ || _ then _ else _).
  eapply (wp_mono _ m (λ _ s', INV s' ∧ later s1 s')).
  { subst m. destruct (_ || _); [by apply z_ok; [|exists o1]|by wp_simp]. }
  intros [] s2 [HI2 Hl2]. assert (later s s2) as Hls by (by etrans). destruct (alive_later s s2 a Hls Ha) as [o2 Ho2].
  wp_simp. rewrite (wp_getmo _ _ o2) by done. destruct (mo_removed o2) eqn:Er2; [by wp_simp|].
  eapply wp_mono; [exact (think_state_ok a o2 s2 HI2 Ho2 Er2)|]. intros [] s3 [??]. split; [done|by etrans].
Qed.
End think.
