(* ===== verification/ThingsSpawn.v ===== *)
(** * Spawning of map objects
    Items that come back, the things of a map, puffs, blood and missiles: each keeps the invariant, and
    what it spawns is the row of the table that the map's number asks for. *)
From S2P Require Import Prelude Dll Links Info InfoThings ThingData Things ThingTables ThingLinks ThingsInv ThingsOps ThingsThink.

(** ** The search for a type *)

Lemma find_type_from l type i :
  (∃ k info, find_type l type i = i + Z.of_nat k ∧ l !! k = Some info ∧ doomednum info = type) ∨
  find_type l type i = i + Z.of_nat (length l) ∧ Forall (λ info, doomednum info ≠ type) l.
Proof.
  revert i. induction l as [|inf l IH]; intros i; cbn [find_type length]; [right; split; [lia|constructor]|].
  destruct (Z.eqb_spec type (doomednum inf)) as [->|Hne].
  - left. exists 0%nat, inf. split_and!; [lia|done|done].
  - destruct (IH (i + 1)) as [(k & info & -> & Hk & Hd)|[-> HF]].
    + left. exists (S k), info. split_and!; [lia|done|done].
    + right. split; [lia|]. by constructor.
Qed.

Lemma known_row type : known type = true →
  ∃ info, 0 ≤ find_type mobjinfo type 0 < NUMMOBJTYPES ∧ mobjinfo !! Z.to_nat (find_type mobjinfo type 0) = Some info ∧ doomednum info = type.
Proof.
  unfold known. intros H%Z.ltb_lt. destruct (find_type_from mobjinfo type 0) as [(k & info & E & Hk & Hd)|[E _]].
  - exists info. rewrite E. rewrite E in H. split_and!; [lia|lia|by rewrite Z.add_0_l, Nat2Z.id|done].
  - exfalso. rewrite E, mobjinfo_length in H. unfold NUMMOBJTYPES in H. lia.
Qed.

Lemma unknown_type type : known type = false → find_type mobjinfo type 0 = NUMMOBJTYPES.
Proof.
  unfold known. intros H%Z.ltb_ge. destruct (find_type_from mobjinfo type 0) as [(k & info & E & Hk & Hd)|[E _]].
  - exfalso. apply lookup_lt_Some in Hk. rewrite mobjinfo_length in Hk. rewrite E in H. unfold NUMMOBJTYPES in *. lia.
  - rewrite E, mobjinfo_length. done.
Qed.

(** No two rows of the table have the same number of the map. *)
Lemma doomednum_unique :
  forallb (λ i, (doomednum i =? -1) || bool_decide (length (List.filter (λ j, doomednum i =? doomednum j) mobjinfo) = 1%nat)) mobjinfo = true.
Proof. vm_compute. reflexivity. Qed.

(** ** The queue *)

Lemma queue_cons s :
  queue_ok s → iquehead s ≠ iquetail s →
  ∃ th t q, itemrespawnque s !! Z.to_nat (iquetail s) = Some th ∧ itemrespawntime s !! Z.to_nat (iquetail s) = Some t ∧
    queue s = (th, t) :: q.
Proof.
  intros [L1 L2 Hh Ht Hk] Hne. unfold ITEMQUESIZE in *.
  destruct (lookup_lt_is_Some_2 (itemrespawnque s) (Z.to_nat (iquetail s))) as [th Hth]; [lia|].
  destruct (lookup_lt_is_Some_2 (itemrespawntime s) (Z.to_nat (iquetail s))) as [t Htm]; [lia|].
  assert (que_length s ≠ 0%nat) as Hn by (unfold que_length, ITEMQUESIZE; Z.div_mod_to_equations; lia).
  unfold queue. destruct (que_length s) as [|n]; [done|]. exists th, t. unfold que_list. cbn [seq fmap list_fmap].
  assert (Z.to_nat (que_slot (iquetail s) 0) = Z.to_nat (iquetail s)) as ->.
  { unfold que_slot, ITEMQUESIZE. rewrite Z.add_0_r, Z.mod_small by lia. done. }
  rewrite !list_lookup_total_alt, Hth, Htm. cbn. eauto.
Qed.

Lemma queue_nil s : queue_ok s → iquehead s = iquetail s → queue s = [].
Proof. intros _ E. unfold queue, que_length. by rewrite E, Z.sub_diag. Qed.

Lemma queue_pop s :
  queue_ok s → queue s ≠ [] →
  let s' := set_iquetail (que_next (iquetail s)) s in queue_ok s' ∧ queue s' = tail (queue s).
Proof.
  intros Hq Hne s'. pose proof Hq as [L1 L2 Hh Ht Hk].
  assert (queue s' = tail (queue s)) as E.
  { unfold queue in *. cbn [itemrespawnque itemrespawntime iquetail set_iquetail s'].
    assert (que_length s = S (que_length s')) as El.
    { assert (que_length s ≠ 0%nat) as H0 by (intros E0; by rewrite E0 in Hne). clear Hne. unfold que_length in *.
      cbn [iquehead iquetail set_iquetail s']. rewrite que_next_mod. unfold ITEMQUESIZE in *. Z.div_mod_to_equations. lia. }
    rewrite El, que_list_next. by destruct (que_list _ _ _ (S _)). }
  split; [|done]. split; try done.
  - cbn. rewrite que_next_mod. by apply Z.mod_pos_bound.
  - rewrite E. destruct (queue s); [done|]. by inversion Hk.
Qed.

(** A new thing stands where the map puts it, of the type with the number of the map. *)
Definition stands (s s' : level) (th : mapthing_t) : Prop :=
  ∃ r o info, things s !! r = None ∧ things s' !! r = Some o ∧ mo_removed o = false ∧
    mobjinfo !! Z.to_nat (mo_type o) = Some info ∧ doomednum info = mt_type th ∧
    mo_x o = map_coord (mt_x th) ∧ mo_y o = map_coord (mt_y th) ∧ mo_spawnpoint o = th ∧
    mo_angle o = spawn_angle (mt_angle th) ∧ mo_state o = Some (spawnstate info) ∧ mo_health o = spawnhealth info.

Section spawn.
#[local] Set Default Proof Using "Type".
Context (G : game) (R_PointInSubsector : Z → Z → nat) (RS : ∀ x y, (R_PointInSubsector x y < length (subsectors G))%nat).
Abbreviation INV := (inv G None None).

(** [P_RespawnSpecials] is due. *)
Definition respawn_due (s : level) : bool :=
  (deathmatch G =? 2) && match queue s with [] => false | (_, t) :: _ => 30 * TICRATE <=? i32 (leveltime s - t) end.

(** The second part of [P_RespawnSpecials]: the item comes back. *)
Lemma respawn_item s s0 th :
  INV s → known (mt_type th) = true → (∀ b o, things s0 !! b = Some o → is_Some (things s !! b)) → queue s ≠ [] →
  wp never (let i := find_type mobjinfo (mt_type th) 0 in
    info ← mobjinfo_at i;
    mo ← P_SpawnMobj G R_PointInSubsector (map_coord (mt_x th)) (map_coord (mt_y th)) (spawn_z info) i;
    put mo (λ n, set_mo_angle (spawn_angle (mt_angle th)) (set_mo_spawnpoint th n));;
    modS (λ s, set_iquetail (Z.land (iquetail s + 1) (ITEMQUESIZE - 1)) s))
    (λ _ s', INV s' ∧ later s s' ∧ queue s' = tail (queue s) ∧ stands s0 s' th) s.
Proof using RS.
  intros HI Hk Hs0 Hq. destruct (known_row _ Hk) as (info & Hi & Hinfo & Hd). cbn zeta. wp_simp.
  rewrite (wp_mobjinfo_at _ _ info) by (done || lia). wp_simp.
  eapply wp_mono; [by eapply (spawn_ok G R_PointInSubsector RS None s)|].
  intros r s1 (-> & HI1 & Hl1 & Eq1 & _ & _ & Hnew & _ & n & _ & _ & Hn & Hsp & _). wp_simp.
  eapply wp_spawnpoint; [done|done|by intros _|by eexists|]. intros s2 E2 HI2 Hl2 Hn2. wp_simp.
  assert (queue s2 = queue s) as Eq2 by (rewrite <- Eq1, E2; done).
  destruct (queue_pop s2) as [Hok Epop]; [apply HI2|by rewrite Eq2|].
  change (Z.land (iquetail s2 + 1) (ITEMQUESIZE - 1)) with (que_next (iquetail s2)).
  set (s3 := set_iquetail (que_next (iquetail s2)) s2) in *.
  split_and!.
  - destruct HI2 as [HL2 HG2]. split; [by destruct HL2|]. destruct HG2 as [A B C D E F I J K]. split; try done.
    intros b o Ho Hr. destruct (B b o Ho Hr) as [T1 T2 T3 [R1 R2]]. by split.
  - etrans; [exact Hl1|]. etrans; [exact Hl2|]. by apply later_eq.
  - by rewrite Epop, Eq2.
  - destruct Hsp as [W1 W2 W3 W4 W5 W6 W7 W8 W9 W10 W11 W12 W13]. eexists _, _, info. split_and!; [|exact Hn2|done|by cbn; rewrite W1|done..].
    destruct (things s0 !! next_thing s) as [o|] eqn:E; [|done]. destruct (Hs0 _ _ E) as [? ?]. congruence.
Qed.

Lemma respawn_ok s :
  INV s →
  wp never (P_RespawnSpecials G R_PointInSubsector) (λ _ s', INV s' ∧ later s s' ∧
    if respawn_due s then queue s' = tail (queue s) ∧ ∃ th t, head (queue s) = Some (th, t) ∧ stands s s' th
    else s' = s) s.
Proof using RS.
  intros HI. pose proof (gd_queue _ _ _ _ (proj2 HI)) as Hq. unfold P_RespawnSpecials, respawn_due. wp_simp.
  destruct (deathmatch G =? 2); cbn [negb andb]; [|by wp_simp].
  destruct (Z.eqb_spec (iquehead s) (iquetail s)) as [E|Hne]; [rewrite (queue_nil s) by done; by wp_simp|].
  destruct (queue_cons s Hq Hne) as (th & t & q & Hth & Ht & Eq). rewrite Eq. wp_simp. rewrite (wp_fetch _ _ _ t) by done.
  rewrite Z.leb_antisym. destruct (_ <? 30 * TICRATE); cbn [negb]; [by wp_simp|]. wp_simp. rewrite (wp_fetch _ _ _ th) by done.
  rewrite wp_bind_assoc. apply wp_sector_at; [done|done|]. intros sc. wp_simp.
  destruct ifog_row as (fog & Hfog & Hfogs).
  eapply wp_mono; [apply (spawn_plain G R_PointInSubsector RS s _ _ _ MT_IFOG fog); [done|done|exact Hfog|done]|].
  intros r1 s1 (HI1 & Hl1 & Hk1 & Eq1 & _).
  assert (known (mt_type th) = true) as Hkn by (pose proof (q_known _ Hq) as HF; rewrite Eq in HF; by inversion HF).
  eapply wp_mono; [apply (respawn_item s1 s th HI1 Hkn)|].
  - intros b o Ho. destruct (Hk1 b o Ho) as (o' & -> & _). by eexists.
  - by rewrite Eq1, Eq.
  - intros [] s2 (HI2 & Hl2 & Eq2 & Hst). split_and!; [done|by etrans|by rewrite Eq2, Eq1, Eq|]. exists th, t. done.
Qed.

(** ** The things of a map *)

(** The thing is for this skill and kind of game. *)
Definition wanted (th : mapthing_t) : bool :=
  (4 <? mt_type th) && negb (mt_type th =? 11) && negb (negb (netgame G) && has (mt_options th) 16) &&
  has (mt_options th) (skill_bit G).

(** The type is allowed in the game. *)
Definition allowed (i : Z) (info : mobjinfo_t) : bool :=
  negb (negb (deathmatch G =? 0) && has (flags info) MF_NOTDMATCH) &&
  negb (nomonsters G && ((i =? MT_SKULL) || has (flags info) MF_COUNTKILL)).

(** The row of the table that is spawned, if any. *)
Definition chosen (th : mapthing_t) : option mobjinfo_t :=
  let i := find_type mobjinfo (mt_type th) 0 in
  if wanted th then info ← mobjinfo !! Z.to_nat i; if allowed i info then Some info else None else None.

(** A counter goes up. *)
Definition count (c : bool) (n : Z) : Z := if c then i32 (n + 1) else n.

Lemma frame_later s s' : INV s → things s' = things s → next_thing s' = next_thing s → sectors s' = sectors s →
  thinglist s' = thinglist s → blocklinks s' = blocklinks s → ceilingline s' = ceilingline s → players s' = players s →
  itemrespawnque s' = itemrespawnque s → itemrespawntime s' = itemrespawntime s → iquehead s' = iquehead s →
  iquetail s' = iquetail s → deathmatchstarts s' = deathmatchstarts s → deathmatch_p s' = deathmatch_p s →
  playerstarts s' = playerstarts s → INV s' ∧ later s s'.
Proof. intros. split; [by apply (inv_eq _ _ _ s)|by apply later_eq]. Qed.

(** A random first part of the first state. *)
Lemma first_tics_ok r o s :
  INV s → things s !! r = Some o →
  wp never (if 0 <? mo_tics o then v ← P_Random; put r (λ o, set_mo_tics (1 + Z.rem v (mo_tics o)) o) else mret tt)
    (λ _ s', INV s' ∧ later s s' ∧ totalkills s' = totalkills s ∧ totalitems s' = totalitems s ∧
       ∃ v, things s' !! r = Some (set_mo_tics v o)) s.
Proof.
  intros HI Ho. destruct (Z.ltb_spec 0 (mo_tics o)).
  - wp_simp. apply wp_random. intros v j Hv. set (s1 := set_prndindex j s).
    destruct (frame_later s s1) as [HI1 Hl1]; [done..|].
    eapply wp_put_inv; [exact HI1|done|keeps_place|done| |].
    + intros Hr. destruct (thing_of _ _ _ _ _ _ HI Ho Hr) as [[T1 T2 T3 T4 T5] Tm It [R1 R2]].
      pose proof (Z.rem_bound_pos v (mo_tics o)). split; [split| | |split]; try done; [cbn; lia|].
      intros Hb. split; [apply (Tm Hb)|cbn; lia].
    + intros s2 -> HI2 Hl2 Ho2. split_and!; [done|by etrans|done|done|by eexists].
  - wp_simp. split_and!; [done..|]. exists (mo_tics o). rewrite Ho. by destruct o.
Qed.

Lemma totals_ok (k i : bool) s :
  INV s →
  wp never ((if k then modS (λ s, set_totalkills (i32 (totalkills s + 1)) s) else mret tt);;
            (if i then modS (λ s, set_totalitems (i32 (totalitems s + 1)) s) else mret tt))
    (λ _ s', INV s' ∧ later s s' ∧ things s' = things s ∧ totalkills s' = count k (totalkills s) ∧ totalitems s' = count i (totalitems s)) s.
Proof.
  intros HI. wp_simp. destruct k; wp_simp.
  - set (s1 := set_totalkills _ s). destruct (frame_later s s1) as [HI1 Hl1]; [done..|]. destruct i; wp_simp; [|by split_and!].
    destruct (frame_later s (set_totalitems (i32 (totalitems s1 + 1)) s1)) as [HI2 Hl2]; [done..|]. by split_and!.
  - destruct i; wp_simp; [|by split_and!].
    destruct (frame_later s (set_totalitems (i32 (totalitems s + 1)) s)) as [HI2 Hl2]; [done..|]. by split_and!.
Qed.

Lemma spawn_map_mobj_ok th info s :
  INV s → known (mt_type th) = true → mobjinfo !! Z.to_nat (find_type mobjinfo (mt_type th) 0) = Some info →
  wp never (spawn_map_mobj G R_PointInSubsector th (find_type mobjinfo (mt_type th) 0) info) (λ _ s',
    INV s' ∧ later s s' ∧ stands s s' th ∧ totalkills s' = count (has (flags info) MF_COUNTKILL) (totalkills s) ∧
    totalitems s' = count (has (flags info) MF_COUNTITEM) (totalitems s)) s.
Proof using RS.
  intros HI Hk Hinfo. destruct (known_row _ Hk) as (info' & Hi & Hinfo' & Hd). assert (info' = info) as -> by congruence.
  unfold spawn_map_mobj. wp_simp. set (i := find_type mobjinfo (mt_type th) 0) in *.
  eapply wp_mono; [by eapply (spawn_ok G R_PointInSubsector RS None s)|].
  intros r s1 (-> & HI1 & Hl1 & _ & [Ek1 Ei1] & _ & Hnew & _ & n & _ & _ & Hn & Hsp & _). wp_simp.
  eapply wp_spawnpoint; [done|done|by intros _|exists (mo_angle n); by destruct n|]. intros s2 E2 HI2 Hl2 Hn2.
  assert (totalkills s2 = totalkills s ∧ totalitems s2 = totalitems s) as [Ek2 Ei2] by (by rewrite E2).
  clear E2. wp_simp. rewrite (wp_getmo _ _ _ _ _ Hn2). wp_simp.
  eapply wp_mono; [exact (first_tics_ok _ _ _ HI2 Hn2)|]. intros [] s3 (HI3 & Hl3 & Ek3 & Ei3 & v & Hn3).
  rewrite wp_bind_assoc.
  eapply wp_mono; [exact (totals_ok _ _ _ HI3)|]. intros [] s4 (HI4 & Hl4 & Et4 & Ek4 & Ei4). wp_simp.
  rewrite <- Et4 in Hn3. eapply wp_put_soft; [done..|soft_put|]. intros s5 E5 HI5 Hl5 Hn5.
  assert (totalkills s5 = totalkills s4 ∧ totalitems s5 = totalitems s4) as [Ek5 Ei5] by (by rewrite E5).
  eapply wp_mono; [exact (ambush_ok _ _ _ _ _ HI5 Hn5)|]. intros [] s6 (HI6 & Hl6 & _ & [Ek6 Ei6] & [fl Hn6] & _).
  destruct Hsp as [W1 W2 W3 W4 W5 W6 W7 W8 W9 W10 W11 W12 W13]. split_and!; [done|by do 5 (etrans; [done|])| | |].
  - eexists _, _, info. split_and!; [exact Hnew|exact Hn6|done|by cbn; rewrite W1|done..].
  - rewrite Ek6, Ek5, Ek4, Ek3, Ek2. cbn. by rewrite W4.
  - rewrite Ei6, Ei5, Ei4, Ei3, Ei2. cbn. by rewrite W4.
Qed.

Context (G_PlayerReborn P_SetupPsprites : nat → LM unit).
Abbreviation mapthing := (P_SpawnMapThing G R_PointInSubsector G_PlayerReborn P_SetupPsprites).

Definition unknown : stop := Panic "P_SpawnMapThing: Unknown type".

(** A thing of a map that is not the start of a player spawns, or is left out, or stops the game when
    it is wanted and no row of the table has its number. *)
Lemma map_thing_ok th s :
  INV s → (deathmatch G ≠ 0 ∨ ¬ 1 ≤ mt_type th ≤ 4) →
  wp (λ e, e = unknown ∧ wanted th = true ∧ known (mt_type th) = false) (mapthing th) (λ _ s',
    INV s' ∧ later s s' ∧ (wanted th = true → known (mt_type th) = true) ∧
    match chosen th with
    | Some info => stands s s' th ∧ totalkills s' = count (has (flags info) MF_COUNTKILL) (totalkills s) ∧
        totalitems s' = count (has (flags info) MF_COUNTITEM) (totalitems s)
    | None => things s' = things s
    end) s.
Proof using RS.
  intros HI Hpl. pose proof (gd_starts _ _ _ _ (proj2 HI)) as (S1 & S2 & S3). unfold P_SpawnMapThing, chosen, wanted.
  destruct (Z.eqb_spec (mt_type th) 11) as [->|H11]; cbn [negb andb Z.ltb].
  { wp_simp. destruct (Z.ltb_spec (deathmatch_p s) MAX_DM_STARTS); wp_simp; [|by split_and!].
    split_and!; [|by apply later_eq|done|done]. apply (inv_starts _ _ _ s); try done. cbn. rewrite length_insert. split_and!; lia. }
  destruct (Z.leb_spec (mt_type th) 0).
  { rewrite (proj2 (Z.ltb_ge 4 _)) by lia. wp_simp. by split_and!. }
  destruct (Z.leb_spec (mt_type th) 4).
  { rewrite (proj2 (Z.ltb_ge 4 _)) by lia. wp_simp. destruct Hpl as [Hd|?]; [|lia].
    rewrite (proj2 (Z.eqb_neq _ _)) by done. wp_simp. split_and!; [|by apply later_eq|done|done].
    apply (inv_starts _ _ _ s); try done. cbn. rewrite length_insert. split_and!; lia. }
  rewrite (proj2 (Z.ltb_lt 4 _)) by done. cbn [andb].
  destruct (negb (netgame G) && has (mt_options th) 16); cbn [negb andb]; [wp_simp; by split_and!|].
  destruct (has (mt_options th) (skill_bit G)); cbn [negb andb]; [|wp_simp; by split_and!].
  destruct (known (mt_type th)) eqn:Ek.
  - destruct (known_row _ Ek) as (info & Hi & Hinfo & Hd). rewrite (proj2 (Z.eqb_neq _ _)) by lia.
    rewrite wp_bind, (wp_mobjinfo_at _ _ info) by (done || lia). rewrite Hinfo. cbn [mbind option_bind].
    set (i := find_type mobjinfo (mt_type th) 0) in *. unfold allowed.
    destruct (_ && has (flags info) MF_NOTDMATCH); cbn [negb andb]; [wp_simp; by split_and!|].
    destruct (nomonsters G && _); cbn [negb andb]; [wp_simp; by split_and!|].
    eapply wp_weaken; [eapply wp_mono; [by apply (spawn_map_mobj_ok th info s)|]|done].
    intros [] s' (?&?&?&?&?). by split_and!.
  - rewrite (unknown_type _ Ek), Z.eqb_refl. wp_simp. done.
Qed.

(** ** Puffs, blood and missiles *)

Context (call : actionf_t → Z → LM unit) (P_CheckPosition : Z → Z → Z → LM bool) (P_CrossSpecialLine : nat → Z → Z → LM unit)
  (P_PointOnLineSide : Z → Z → nat → Z) (P_SlideMove : Z → LM unit) (left_first : bool).
Context {OUT : Outside G call P_CheckPosition P_CrossSpecialLine P_SlideMove}.

Lemma puff_row : ∃ info, mobjinfo !! Z.to_nat MT_PUFF = Some info ∧ has (flags info) MF_SPECIAL = false.
Proof. eexists. split; [vm_compute; reflexivity|vm_compute; reflexivity]. Qed.
Lemma blood_row : ∃ info, mobjinfo !! Z.to_nat MT_BLOOD = Some info ∧ has (flags info) MF_SPECIAL = false.
Proof. eexists. split; [vm_compute; reflexivity|vm_compute; reflexivity]. Qed.

Lemma wp_subrandom E (Q : Z → level → Prop) s :
  (∀ v s', (INV s → INV s' ∧ later s s' ∧ things s' = things s) → Q v s') → wp E (P_SubRandom left_first) Q s.
Proof.
  intros H. unfold P_SubRandom. wp_simp. apply wp_random. intros a i _. wp_simp. apply wp_random. intros b j _. wp_simp. apply H.
  intros HI. split_and!; [by apply (inv_eq _ _ _ s)|by apply later_eq|done].
Qed.

(** A puff or a splash of blood: a plain thing that rises, some tics in. *)
Lemma wp_splash type info momz x y z (k : Z → LM unit) (Q : unit → level → Prop) s :
  INV s → 0 ≤ type < NUMMOBJTYPES → mobjinfo !! Z.to_nat type = Some info → has (flags info) MF_SPECIAL = false →
  (∀ th s', INV s' → later s s' → alive th s' → wp never (k th) Q s') →
  wp never (th ← P_SpawnMobj G R_PointInSubsector x y z type; put th (set_mo_momz momz);; jitter_tics th;; k th) Q s.
Proof using RS.
  intros HI Ht Hinfo Hs Hk. wp_simp. eapply wp_mono; [by eapply (spawn_plain G R_PointInSubsector RS)|].
  intros r s1 (HI1 & Hl1 & _ & _ & _ & _ & o & Ho & Hsp). wp_simp.
  eapply wp_put_soft; [done..|soft_put|]. intros s2 _ HI2 Hl2 Ho2. wp_simp.
  eapply wp_mono; [by eapply jitter_ok|]. intros [] s3 (HI3 & Hl3 & _ & v & Hv & Ho3).
  apply Hk; [done|by do 2 (etrans; [done|])|]. eexists. split; [exact Ho3|]. cbn. by destruct Hsp.
Qed.

(** A state of the table, set on a live thing and nothing more. *)
Lemma then_state a i s0 s :
  0 ≤ i < NUMSTATES → INV s → later s0 s → alive a s →
  wp never (P_SetMobjState G call a i;; mret tt) (λ _ s', INV s' ∧ later s0 s') s.
Proof using OUT.
  intros Hi HI Hl Ha. rewrite wp_bind.
  eapply wp_mono; [apply (set_state_ok G call P_CheckPosition P_CrossSpecialLine P_SlideMove); [exact Hi|by apply inv_busy|done]|].
  intros r s1 (HI1 & Hl1 & _). wp_simp. split; [done|by etrans].
Qed.

Lemma puff_ok ar x y z s :
  INV s → wp never (P_SpawnPuff G R_PointInSubsector call left_first ar x y z) (λ _ s', INV s' ∧ later s s') s.
Proof using RS OUT.
  intros HI. unfold P_SpawnPuff. rewrite wp_bind. apply wp_subrandom. intros d s1 H1. destruct (H1 HI) as (HI1 & Hl1 & _).
  destruct puff_row as (info & Hinfo & Hs). eapply wp_splash; [done|done|exact Hinfo|done|].
  intros th s2 HI2 Hl2 Ha2. assert (later s s2) by (by etrans). destruct (_ =? _); [by eapply then_state|by wp_simp].
Qed.

Lemma blood_ok x y z damage s :
  INV s → wp never (P_SpawnBlood G R_PointInSubsector call left_first x y z damage) (λ _ s', INV s' ∧ later s s') s.
Proof using RS OUT.
  intros HI. unfold P_SpawnBlood. rewrite wp_bind. apply wp_subrandom. intros d s1 H1. destruct (H1 HI) as (HI1 & Hl1 & _).
  destruct blood_row as (info & Hinfo & Hs). eapply wp_splash; [done|done|exact Hinfo|done|].
  intros th s2 HI2 Hl2 Ha2. assert (later s s2) by (by etrans).
  destruct (_ && _); [by eapply then_state|]. destruct (_ <? 9); [by eapply then_state|by wp_simp].
Qed.

(** A new missile moves while it is linked; it may, since missiles are in no block. *)
Lemma check_missile_ok a o s :
  INV s → things s !! a = Some o → mo_removed o = false → has (mo_flags o) MF_MISSILE = true →
  wp never (P_CheckMissileSpawn G R_PointInSubsector call P_CheckPosition P_CrossSpecialLine P_PointOnLineSide a)
    (λ _ s', INV s' ∧ later s s') s.
Proof using RS OUT.
  intros HI Ho Hr Hm. pose proof (thing_of _ _ _ _ _ _ HI Ho Hr) as [[_ _ _ _ [T5 _]] _ _ _]. destruct (T5 Hm) as [Hnb _].
  unfold P_CheckMissileSpawn. wp_simp. eapply wp_mono; [by eapply jitter_ok|]. intros [] s1 (HI1 & Hl1 & _ & v & Hv & Ho1). wp_simp.
  eapply wp_put_soft; [done|done|split; try done; by left|]. intros s2 _ HI2 Hl2 Ho2. wp_simp. rewrite (wp_getmo _ _ _ _ _ Ho2). wp_simp.
  assert (later s s2) as Hl by (by etrans).
  eapply wp_mono; [eapply (trymove_ok G call P_CheckPosition P_CrossSpecialLine P_SlideMove R_PointInSubsector RS); [done|by eexists]|].
  intros ok s3 (HI3 & Hl3 & (o3 & Ho3 & Hr3) & _). assert (later s s3) by (by etrans). destruct ok; [by wp_simp|].
  eapply wp_mono; [by eapply (explode_ok G call P_CheckPosition P_CrossSpecialLine P_SlideMove)|].
  intros [] s4 (HI4 & Hl4 & _). split; [done|by etrans].
Qed.

Context (R_PointToAngle2 : Z → Z → Z → Z → Z) (finecosine finesine : Z → Z).

(** The missile is aimed and starts. *)
Lemma launch_ok th o source spd an momz s0 s :
  INV s → later s0 s → things s !! th = Some o → mo_removed o = false → has (mo_flags o) MF_MISSILE = true → is_Some (things s !! source) →
  wp never (put th (aim finecosine finesine spd an momz source);;
            P_CheckMissileSpawn G R_PointInSubsector call P_CheckPosition P_CrossSpecialLine P_PointOnLineSide th)
    (λ _ s', INV s' ∧ later s0 s') s.
Proof using RS OUT.
  intros HI Hl Ho Hr Hm Hsrc. wp_simp. eapply wp_put_inv; [done|done|keeps_place|done| |].
  - intros _. destruct (thing_of _ _ _ _ _ _ HI Ho Hr) as [[T1 T2 T3 T4 T5] Tm It [R1 R2]].
    split; [split| | |split]; try done. cbn. by intros ? [= <-].
  - intros s1 _ HI1 Hl1 Ho1. eapply wp_mono; [by eapply check_missile_ok|]. intros [] s2 [??]. split; [done|]. by do 2 (etrans; [done|]).
Qed.

(** A type of missiles. *)
Definition missile_type (type : Z) : bool :=
  (0 <=? type) && match mobjinfo !! Z.to_nat type with Some info => has (flags info) MF_MISSILE && negb (has (flags info) MF_SPECIAL) | None => false end.

Lemma missile_row type : missile_type type = true →
  ∃ info, 0 ≤ type < NUMMOBJTYPES ∧ mobjinfo !! Z.to_nat type = Some info ∧ has (flags info) MF_MISSILE = true ∧
    has (flags info) MF_SPECIAL = false ∧ speed info ≠ 0.
Proof.
  unfold missile_type. destruct (mobjinfo !! Z.to_nat type) as [info|] eqn:E; [|by rewrite andb_false_r].
  rewrite !andb_true_iff, negb_true_iff, Z.leb_le. intros (H0 & Hm & Hs). exists info.
  pose proof (lookup_lt_Some _ _ _ E) as Hlt. rewrite mobjinfo_length in Hlt.
  destruct (if_missile _ (info_row type info H0 E) Hm) as (_ & _ & Hsp). split; [lia|]. by split_and!.
Qed.

Lemma spawn_missile_ok source dest type s :
  INV s → is_Some (things s !! source) → is_Some (things s !! dest) → missile_type type = true →
  wp never (P_SpawnMissile G R_PointInSubsector call P_CheckPosition P_CrossSpecialLine P_PointOnLineSide left_first
    R_PointToAngle2 finecosine finesine source dest type) (λ _ s', INV s' ∧ later s s') s.
Proof using RS OUT.
  intros HI [src Hsrc] [dst Hdst] (info & Ht & Hinfo & Hm & Hs & Hspeed)%missile_row.
  unfold P_SpawnMissile. wp_simp. rewrite (wp_getmo _ _ src) by done. wp_simp.
  eapply wp_mono; [by eapply (spawn_plain G R_PointInSubsector RS)|].
  intros r s1 (HI1 & Hl1 & Hk1 & _ & _ & _ & o & Ho & Hsp). wp_simp. rewrite (wp_mobjinfo_at _ _ info) by (done || lia). wp_simp.
  destruct (Hk1 dest dst Hdst) as (dst1 & Hdst1 & _), (Hk1 source src Hsrc) as (src1 & Hsrc1 & _).
  rewrite (wp_getmo _ _ dst1) by done. wp_simp.
  set (m := if has (mo_flags dst1) MF_SHADOW then _ else _).
  eapply (wp_mono _ m (λ _ s', INV s' ∧ later s s' ∧ things s' = things s1)).
  { subst m. destruct (has (mo_flags dst1) MF_SHADOW); [|wp_simp; by split_and!]. wp_simp. apply wp_subrandom. intros d s2 H2. wp_simp.
    destruct (H2 HI1) as (?&?&?). split_and!; [done|by etrans|done]. }
  intros an s2 (HI2 & Hl2 & Et2). rewrite wp_bind. unfold divide. rewrite (proj2 (Z.eqb_neq _ _)) by done. rewrite wp_ret.
  cbn beta zeta. rewrite wp_bind_assoc. eapply wp_mono.
  { apply (launch_ok r o source _ _ _ s); [done|done|by rewrite Et2|by destruct Hsp|by rewrite (sw_flags _ _ _ _ _ _ Hsp)|rewrite Et2; by eexists]. }
  intros [] s3 [??]. by wp_simp.
Qed.

(** Aiming keeps the invariant. *)
Context (P_AimLineAttack : Z → Z → Z → LM Z)
  (AIM : ∀ a an dist s, INV s → alive a s → wp never (P_AimLineAttack a an dist) (λ _ s', INV s' ∧ later s s' ∧ alive a s') s).

Lemma aim_player_ok source an s :
  INV s → alive source s → wp never (aim_player P_AimLineAttack source an) (λ _ s', INV s' ∧ later s s' ∧ alive source s') s.
Proof using AIM.
  intros HI Ha. unfold aim_player. wp_simp. eapply wp_mono; [by apply AIM|]. intros v1 s1 (HI1 & Hl1 & Ha1). wp_simp.
  destruct (linetarget s1); [wp_simp; by split_and!|]. wp_simp. eapply wp_mono; [by apply AIM|]. intros v2 s2 (HI2 & Hl2 & Ha2). wp_simp.
  assert (later s s2) as Hl by (by etrans). destruct (linetarget s2); [wp_simp; by split_and!|]. wp_simp.
  eapply wp_mono; [by apply AIM|]. intros v3 s3 (HI3 & Hl3 & Ha3). wp_simp. assert (later s s3) as Hl' by (by etrans).
  destruct (linetarget s3); [wp_simp; by split_and!|]. pose proof Ha3 as (o & Ho & _). wp_simp. rewrite (wp_getmo _ _ o) by done. wp_simp.
  by split_and!.
Qed.

Lemma player_missile_ok source type s :
  INV s → alive source s → missile_type type = true →
  wp never (P_SpawnPlayerMissile G R_PointInSubsector call P_CheckPosition P_CrossSpecialLine P_PointOnLineSide
    finecosine finesine P_AimLineAttack source type) (λ _ s', INV s' ∧ later s s') s.
Proof using RS OUT AIM.
  intros HI Ha (info & Ht & Hinfo & Hm & Hs & _)%missile_row. pose proof Ha as (src & Hsrc & _).
  unfold P_SpawnPlayerMissile. wp_simp. rewrite (wp_getmo _ _ src) by done. wp_simp.
  eapply wp_mono; [by apply aim_player_ok|]. intros [an slope] s1 (HI1 & Hl1 & (src1 & Hsrc1 & _)). wp_simp.
  rewrite (wp_getmo _ _ src1) by done. wp_simp.
  eapply wp_mono; [by eapply (spawn_plain G R_PointInSubsector RS)|].
  intros r s2 (HI2 & Hl2 & Hk2 & _ & _ & _ & o & Ho & Hsp). wp_simp. rewrite (wp_mobjinfo_at _ _ info) by (done || lia).
  destruct (Hk2 source src1 Hsrc1) as (src2 & Hsrc2 & _). rewrite <- wp_bind || idtac.
  apply (launch_ok r o source _ _ _ s); [done|by etrans|done|by destruct Hsp|by rewrite (sw_flags _ _ _ _ _ _ Hsp)|by eexists].
Qed.
End spawn.
