(* ===== verification/ThingsClaims.v ===== *)
(** * Map objects: what the code guarantees
    Sequences of operations on the things of a level keep the invariant; setting a state ends; the
    queue of items is a bounded first-in first-out queue; the things of a map spawn as the table says;
    things stay between floor and ceiling. *)
From S2P Require Import Prelude Dll Links Movers Info InfoThings ThingData Things ThingTables ThingLinks ThingsInv ThingsOps ThingsThink ThingsSpawn.

(** ** Sequences of operations *)

(** What other code asks of the things of a level.  Each is asked only of things that are there. *)
Inductive thing_op : Type :=
| OThink (a : Z)
| ORespawn
| OMapThing (th : mapthing_t)
| OPuff (attackrange x y z : Z)
| OBlood (x y z damage : Z)
| OMissile (source dest type : Z)
| OPlayerMissile (source type : Z)
| OSetState (a state : Z)
| OMove (a x y : Z)
| OHeightClip (a : Z)
| ORemove (a : Z).

Definition is_alive (a : Z) (s : level) : bool :=
  match things s !! a with Some o => negb (mo_removed o) | None => false end.
Definition is_thing (a : Z) (s : level) : bool := match things s !! a with Some _ => true | None => false end.

Lemma is_alive_spec a s : is_alive a s = true ↔ alive a s.
Proof.
  unfold is_alive, alive. destruct (things s !! a) as [o|]; [|split; [done|by intros (? & ? & ?)]].
  rewrite negb_true_iff. split; [eauto|]. intros (o' & [= <-] & ?). done.
Qed.

Lemma is_thing_spec a s : is_thing a s = true ↔ is_Some (things s !! a).
Proof. unfold is_thing. destruct (things s !! a); [split; [by eexists|done]|split; [done|by intros [? ?]]]. Qed.

Definition legal (G : game) (op : thing_op) (s : level) : bool :=
  match op with
  | OThink a | OMove a _ _ | OHeightClip a | ORemove a => is_alive a s
  | OMapThing th => negb (deathmatch G =? 0) || negb ((1 <=? mt_type th) && (mt_type th <=? 4))
  | OMissile source dest type => is_thing source s && is_thing dest s && missile_type type
  | OPlayerMissile source type => is_alive source s && missile_type type
  | OSetState a state => is_alive a s && in_states state
  | ORespawn | OPuff _ _ _ _ | OBlood _ _ _ _ => true
  end.

Section claims.
#[local] Set Default Proof Using "Type".
Context (G : game) (R_PointInSubsector : Z → Z → nat).
Context (call : actionf_t → Z → LM unit) (P_CheckPosition : Z → Z → Z → LM bool) (P_CrossSpecialLine : nat → Z → Z → LM unit)
  (P_PointOnLineSide : Z → Z → nat → Z) (P_SlideMove : Z → LM unit) (left_first : bool)
  (R_PointToAngle2 : Z → Z → Z → Z → Z) (finecosine finesine : Z → Z) (P_AimLineAttack : Z → Z → Z → LM Z)
  (G_PlayerReborn P_SetupPsprites : nat → LM unit).
Abbreviation INV := (inv G None None).

Definition run_legal (op : thing_op) : LM unit :=
  match op with
  | OThink a => P_MobjThinker G R_PointInSubsector call P_CheckPosition P_CrossSpecialLine P_PointOnLineSide P_SlideMove a
  | ORespawn => P_RespawnSpecials G R_PointInSubsector
  | OMapThing th => P_SpawnMapThing G R_PointInSubsector G_PlayerReborn P_SetupPsprites th
  | OPuff ar x y z => P_SpawnPuff G R_PointInSubsector call left_first ar x y z
  | OBlood x y z damage => P_SpawnBlood G R_PointInSubsector call left_first x y z damage
  | OMissile source dest type =>
      P_SpawnMissile G R_PointInSubsector call P_CheckPosition P_CrossSpecialLine P_PointOnLineSide left_first
        R_PointToAngle2 finecosine finesine source dest type;; mret tt
  | OPlayerMissile source type =>
      P_SpawnPlayerMissile G R_PointInSubsector call P_CheckPosition P_CrossSpecialLine P_PointOnLineSide
        finecosine finesine P_AimLineAttack source type
  | OSetState a state => P_SetMobjState G call a state;; mret tt
  | OMove a x y => P_TryMove G R_PointInSubsector P_CheckPosition P_CrossSpecialLine P_PointOnLineSide a x y;; mret tt
  | OHeightClip a => P_ThingHeightClip P_CheckPosition a;; mret tt
  | ORemove a => P_RemoveMobj G a
  end.

Definition run_op (op : thing_op) : LM unit := s ← getS; if legal G op s then run_legal op else mret tt.

(** What the other modules owe. *)
Class Environment : Prop := {
  env_place x y : (R_PointInSubsector x y < length (subsectors G))%nat;
  env_outside :: Outside G call P_CheckPosition P_CrossSpecialLine P_SlideMove;
  env_aim a an dist s : INV s → alive a s → wp never (P_AimLineAttack a an dist) (λ _ s', INV s' ∧ later s s' ∧ alive a s') s;
}.
Context {ENV : Environment}.

Lemma height_clip_ok a s : INV s → alive a s → wp never (P_ThingHeightClip P_CheckPosition a) (λ _ s', INV s' ∧ later s s') s.
Proof using ENV.
  intros HI Ha. pose proof Ha as (o & Ho & Hr). unfold P_ThingHeightClip. wp_simp. rewrite (wp_getmo _ _ o) by done. wp_simp.
  eapply wp_mono; [exact (check_ok G call P_CheckPosition P_CrossSpecialLine P_SlideMove a _ _ s HI Ha)|].
  intros ok s1 (HI1 & Hl1 & (o1 & Ho1 & Hr1) & _). wp_simp.
  eapply wp_put_soft; [done..|soft_put|]. intros s2 _ HI2 Hl2 Ho2. wp_simp. rewrite (wp_getmo _ _ _ _ _ Ho2). wp_simp.
  assert (later s s2) as Hl by (by etrans).
  set (m := if mo_z o =? mo_floorz o then _ else _). eapply (wp_mono _ m (λ _ s', INV s' ∧ later s s')).
  { subst m. destruct (_ =? _); [|destruct (_ <? _); [|by wp_simp]].
    - eapply wp_put_soft; [done..|soft_put|]. intros s3 _ HI3 Hl3 _. split; [done|by etrans].
    - eapply wp_put_soft; [done..|soft_put|]. intros s3 _ HI3 Hl3 _. split; [done|by etrans]. }
  intros [] s3 ?. by wp_simp.
Qed.

(** An unknown type of the map is the only way to stop. *)
Definition unknown_only (e : stop) : Prop := e = unknown.

Lemma never_unknown (m : LM unit) Q s : wp never m Q s → wp unknown_only m Q s.
Proof. intros H. eapply wp_weaken; [exact H|]. intros e []. Qed.

Lemma then_ret {A} (m : LM A) (Q : level → Prop) s : wp never m (λ _ s', Q s') s → wp never (m;; mret tt) (λ _ s', Q s') s.
Proof. intros H. wp_simp. eapply wp_mono; [exact H|]. intros a s' ?. by wp_simp. Qed.

Lemma run_legal_ok op s :
  INV s → legal G op s = true → wp unknown_only (run_legal op) (λ _ s', INV s' ∧ later s s') s.
Proof using ENV.
  intros HI Hl. pose proof env_place as RS.
  destruct op as [a| |th|ar x y z|x y z d|src dst ty|src ty|a st|a x y|a|a]; cbn [legal run_legal] in *.
  3:{ eapply wp_mono; [eapply wp_weaken; [apply (map_thing_ok G R_PointInSubsector RS); [done|]|]|].
      - apply orb_true_iff in Hl as [H%negb_true_iff%Z.eqb_neq|H]; [by left|]. right. lia.
      - intros e (-> & _). done.
      - intros [] s' (?&?&_). done. }
  all: apply never_unknown.
  - apply (thinker_ok G R_PointInSubsector RS call P_CheckPosition P_CrossSpecialLine P_PointOnLineSide P_SlideMove); [done|by apply is_alive_spec].
  - eapply wp_mono; [by apply (respawn_ok G R_PointInSubsector RS)|]. intros [] s' (?&?&_). done.
  - by apply (puff_ok G R_PointInSubsector RS call P_CheckPosition P_CrossSpecialLine P_SlideMove left_first).
  - by apply (blood_ok G R_PointInSubsector RS call P_CheckPosition P_CrossSpecialLine P_SlideMove left_first).
  - rewrite !andb_true_iff, !is_thing_spec in Hl. destruct Hl as [[? ?] ?]. apply then_ret.
    by apply (spawn_missile_ok G R_PointInSubsector RS call P_CheckPosition P_CrossSpecialLine P_PointOnLineSide P_SlideMove left_first).
  - rewrite andb_true_iff, is_alive_spec in Hl. destruct Hl as [? ?].
    apply (player_missile_ok G R_PointInSubsector RS call P_CheckPosition P_CrossSpecialLine P_PointOnLineSide P_SlideMove); try done. apply env_aim.
  - rewrite andb_true_iff, is_alive_spec, in_states_spec in Hl. destruct Hl as [? ?]. apply then_ret.
    eapply wp_mono; [apply (set_state_ok G call P_CheckPosition P_CrossSpecialLine P_SlideMove); [done|by apply inv_busy|done]|].
    intros r s' (?&?&_). done.
  - apply then_ret. eapply wp_mono; [apply (trymove_ok G call P_CheckPosition P_CrossSpecialLine P_SlideMove R_PointInSubsector RS); [done|by apply is_alive_spec]|].
    intros r s' (?&?&_). done.
  - apply then_ret. apply height_clip_ok; [done|by apply is_alive_spec].
  - apply is_alive_spec in Hl as (o & Ho & Hr). pose proof (thing_of _ _ _ _ _ _ HI Ho Hr) as [_ _ It _].
    eapply wp_mono; [eapply remove_mobj_ok; [done|done|done|by apply It]|]. intros [] s' (?&?&_). done.
Qed.

Lemma run_ops_ok ops : ∀ s, INV s → wp unknown_only (runs run_op ops) (λ _ s', INV s' ∧ later s s') s.
Proof using ENV.
  induction ops as [|op ops IH]; intros s HI; cbn [runs]; [by wp_simp|]. wp_simp.
  assert (wp unknown_only (run_op op) (λ _ s', INV s' ∧ later s s') s) as H.
  { unfold run_op. wp_simp. destruct (legal G op s) eqn:E; [by apply run_legal_ok|by wp_simp]. }
  unfold run_op in H. rewrite wp_bind, wp_get in H. eapply wp_mono; [exact H|]. intros [] s1 [HI1 Hl1]. wp_simp.
  eapply wp_mono; [by apply IH|]. intros bs s2 [??]. wp_simp. split; [done|by etrans].
Qed.


(** C25. Setting a state of the table on a live thing ends after at most four rounds, however the actions
    behave within their contract: it leaves the thing in a state that lasts, or the answer is false and
    the thing is gone. *)
Theorem set_state_ends fuel a state s :
  (4 ≤ fuel)%nat → 0 ≤ state < NUMSTATES → INV s → alive a s →
  wp never (SetStateLoop G call fuel a state) (λ r s',
    INV s' ∧ later s s' ∧ (r = false → ¬ alive a s') ∧ (state ≠ S_NULL → lasting state = true → alive a s')) s.
Proof using ENV.
  intros Hf Hst HI Ha. destruct (zero_run_small state Hst) as [k Hk]. pose proof (zero_run_bound _ _ _ Hk).
  eapply (set_state_loop G call P_CheckPosition P_CrossSpecialLine P_SlideMove); [exact Hk|lia|done|by apply inv_busy|done].
Qed.

(** C24. The 128 slots of the queue of items are a first-in first-out queue of 127: removing an item that is
    not dropped appends its spawn point and the time, and loses the oldest entry when 127 are waiting;
    in a deathmatch of the second kind the oldest entry is taken out once it has waited 30 seconds, and
    a thing of the type with its number stands at its place again; otherwise nothing happens. *)
Theorem item_queue_fifo a o s :
  INV s → things s !! a = Some o → mo_removed o = false →
  wp never (P_RemoveMobj G a) (λ _ s',
    queue s' = if respawns o then que_push (queue s) (mo_spawnpoint o, leveltime s) else queue s) s ∧
  wp never (P_RespawnSpecials G R_PointInSubsector) (λ _ s',
    if respawn_due G s then queue s' = tail (queue s) ∧ ∃ th t, head (queue s) = Some (th, t) ∧ stands s s' th
    else s' = s) s.
Proof using ENV.
  intros HI Ho Hr. split.
  - pose proof (thing_of _ _ _ _ _ _ HI Ho Hr) as [_ _ It _].
    eapply wp_mono; [eapply remove_mobj_ok; [done|done|done|by apply It]|]. intros [] s' (_&_&_&?). done.
  - eapply wp_mono; [apply (respawn_ok G R_PointInSubsector env_place); done|]. intros [] s' (_&_&?). done.
Qed.

End claims.

(** ** Between floor and ceiling *)

Lemma i32_small v : - 2 ^ 31 ≤ v < 2 ^ 31 → i32 v = v.
Proof. intros H. unfold wrap_s. change (2 ^ (32 - 1)) with (2 ^ 31). rewrite Z.mod_small; lia. Qed.

Lemma float_z_near o t : - 2 ^ 30 ≤ mo_z o ≤ 2 ^ 30 → mo_z o - FLOATSPEED ≤ float_z o t ≤ mo_z o + FLOATSPEED.
Proof.
  intros Hz. unfold float_z. destruct (_ || _); [unfold FLOATSPEED, FRACUNIT; lia|].
  destruct (_ && _); [rewrite i32_small; unfold FLOATSPEED, FRACUNIT; lia|].
  destruct (_ && _); [rewrite i32_small; unfold FLOATSPEED, FRACUNIT; lia|unfold FLOATSPEED, FRACUNIT; lia].
Qed.

(** The parts of a thing that tell whether it fits. *)
Definition same_room (o o' : mobj_t) : Prop :=
  mo_floorz o' = mo_floorz o ∧ mo_ceilingz o' = mo_ceilingz o ∧ mo_height o' = mo_height o ∧ mo_flags o' = mo_flags o.
Definition in_room (o : mobj_t) : Prop := mo_floorz o ≤ mo_z o ∧ mo_z o + mo_height o ≤ mo_ceilingz o.
Definition small (v : Z) : Prop := - 2 ^ 29 < v < 2 ^ 29.
Definition room_ok (o : mobj_t) : Prop :=
  small (mo_floorz o) ∧ small (mo_ceilingz o) ∧ 0 ≤ mo_height o < 2 ^ 29 ∧ mo_floorz o + mo_height o ≤ mo_ceilingz o.

Lemma same_room_trans o1 o2 o3 : same_room o1 o2 → same_room o2 o3 → same_room o1 o3.
Proof. intros (A & B & C & D) (A' & B' & C' & D'). split_and!; congruence. Qed.

Lemma same_room_fall o : same_room o (fall o) ∧ mo_z (fall o) = mo_z o ∧ mo_removed (fall o) = mo_removed o.
Proof. unfold fall. destruct (has _ _); [done|]. by destruct (_ =? 0). Qed.

Section room.
#[local] Set Default Proof Using "Type".
Context (G : game) (call : actionf_t → Z → LM unit).
Abbreviation INV := (inv G None None).

Lemma z_ceiling_room a o s :
  things s !! a = Some o → explodes o = false → room_ok o → mo_floorz o ≤ mo_z o ≤ 2 ^ 30 + 2 ^ 29 →
  wp never (z_ceiling G call a) (λ _ s', ∃ o', things s' !! a = Some o' ∧ same_room o o' ∧ in_room o') s.
Proof.
  intros Ho He (Hf & Hc & Hh & Hfit) Hz. unfold small in *. unfold z_ceiling. wp_simp. rewrite (wp_getmo _ _ o) by done.
  rewrite (i32_small (mo_z o + mo_height o)) by lia. destruct (Z.ltb_spec (mo_ceilingz o) (mo_z o + mo_height o)).
  - wp_simp. rewrite (wp_putmo _ _ _ o) by done. rewrite He. wp_simp. exists (hit_ceiling o).
    split; [cbn [things set_things]; by rewrite lookup_alter_eq, Ho|]. split; [done|].
    unfold in_room. cbn. rewrite i32_small by lia. lia.
  - wp_simp. exists o. split; [done|]. split; [done|]. unfold in_room. lia.
Qed.

(** The steps of [P_ZMovement] before the floor is looked at. *)
Lemma z_float_room a o s :
  INV s → things s !! a = Some o → mo_removed o = false → - 2 ^ 30 ≤ mo_z o ≤ 2 ^ 30 →
  wp never (match mo_target o with
            | Some t => if has (mo_flags o) MF_FLOAT then ot ← get t; put a (set_mo_z (float_z o ot)) else mret tt
            | None => mret tt
            end)
    (λ _ s', INV s' ∧ ∃ z, things s' !! a = Some (set_mo_z z o) ∧ mo_z o - FLOATSPEED ≤ z ≤ mo_z o + FLOATSPEED) s.
Proof.
  intros HI Ho Hr Hz.
  assert (INV s ∧ ∃ z, things s !! a = Some (set_mo_z z o) ∧ mo_z o - FLOATSPEED ≤ z ≤ mo_z o + FLOATSPEED) as Hstay.
  { split; [done|]. exists (mo_z o). split; [rewrite Ho; by destruct o|unfold FLOATSPEED, FRACUNIT; lia]. }
  destruct (mo_target o) as [t|] eqn:Et; [|by wp_simp]. destruct (has _ _); [|by wp_simp].
  destruct (ro_target _ _ (to_refs _ _ _ _ _ _ (thing_of _ _ _ _ _ _ HI Ho Hr)) t Et) as [ot Hot].
  wp_simp. rewrite (wp_getmo _ _ ot) by done. eapply wp_put_soft; [done..|soft_put|].
  intros s1 _ HI1 _ Ho1. split; [done|]. exists (float_z o ot). split; [done|]. by apply float_z_near.
Qed.

(** C27. A thing that does not explode, in a room that it fits in, stands on the floor or above it and does not
    reach through the ceiling after its vertical movement, however fast it falls, rises or floats. *)
Theorem z_movement_in_room a o s :
  INV s → things s !! a = Some o → mo_removed o = false → explodes o = false →
  room_ok o → small (mo_z o) → small (mo_momz o) →
  wp never (P_ZMovement G call a) (λ _ s', ∃ o', things s' !! a = Some o' ∧ same_room o o' ∧ in_room o') s.
Proof.
  intros HI Ho Hr He Hroom Hz Hm. unfold small in Hz, Hm. unfold P_ZMovement. wp_simp. rewrite (wp_getmo _ _ o) by done. wp_simp.
  eapply wp_mono; [by eapply when_player_ok|]. intros [] s1 (HI1 & _ & E1). wp_simp. rewrite <- E1 in Ho.
  eapply wp_put_soft; [done..|soft_put|]. intros s2 _ HI2 _ Ho2. wp_simp. rewrite (wp_getmo _ _ _ _ _ Ho2). wp_simp.
  rewrite i32_small in * by lia. eapply wp_mono; [exact (z_float_room a _ s2 HI2 Ho2 Hr ltac:(cbn; lia))|].
  intros [] s3 (HI3 & z & Ho3 & Hz3). cbn [mo_z set_mo_z] in Hz3. unfold FLOATSPEED, FRACUNIT in Hz3.
  set (o3 := set_mo_z z _) in *. assert (same_room o o3 ∧ mo_z o3 = z) as [Hsame Ez] by done.
  assert (explodes o3 = false) as He3 by exact He. assert (room_ok o3) as Hroom3 by exact Hroom.
  assert (mo_removed o3 = false) as Hr3 by exact Hr. clearbody o3. clear Ho2.
  wp_simp. rewrite (wp_getmo _ _ o3) by done. destruct (Z.leb_spec (mo_z o3) (mo_floorz o3)); wp_simp.
  - eapply wp_mono; [by eapply when_player_ok|]. intros [] s4 (HI4 & _ & E4). wp_simp. rewrite <- E4 in Ho3.
    rewrite (wp_putmo _ _ _ o3) by done. rewrite He3.
    eapply wp_mono; [apply (z_ceiling_room a (hit_floor G o3)); [cbn [things set_things]; by rewrite lookup_alter_eq, Ho3|done|done|]|].
    + destruct Hroom3 as (H1 & _). unfold small in H1. cbn. lia.
    + intros [] s5 (o' & Ho' & Hs' & Hin). exists o'. split; [done|]. split; [|done]. by eapply same_room_trans.
  - rewrite (wp_putmo _ _ _ o3) by done. destruct (same_room_fall o3) as ((F1 & F2 & F3 & F4) & Fz & _).
    eapply wp_mono; [apply (z_ceiling_room a (fall o3)); [cbn [things set_things]; by rewrite lookup_alter_eq, Ho3|..]|].
    + unfold explodes. by rewrite F4.
    + unfold room_ok. by rewrite F1, F2, F3.
    + rewrite F1, Fz. lia.
    + intros [] s5 (o' & Ho' & Hs' & Hin). exists o'. split; [done|]. split; [|done]. eapply same_room_trans; [exact Hsame|]. by eapply same_room_trans.
Qed.
End room.

(** ** A small level *)

(** One sector, one block, a deathmatch of the second kind. *)
Definition small_game : game :=
  mk_game [0%nat] [] 1 1 0 0 99 2 2 false false true true [false; false; false; false].

Definition empty_level : level :=
  mk_level ∅ 0 [] [mk_sector 0 (128 * FRACUNIT) 5] [None] [None] 0 2000 (replicate 128 (mk_mapthing 0 0 0 0 0)) (replicate 128 0) 0 0
    0 0 (replicate 10 (mk_mapthing 0 0 0 0 0)) 0 (replicate 4 (mk_mapthing 0 0 0 0 0))
    (replicate 4 (mk_player None PST_DEAD 0 0 None 0 0 0 0 0 0 0 0 0 [])) [] 0 0 0 false None [] 0 None.

(** [A_Fall] of p_enemy.c; the other actions do nothing. *)
Definition small_call (f : actionf_t) (a : Z) : LM unit :=
  match f with A_Fall => put a (λ o, set_mo_flags (clear (mo_flags o) MF_SOLID) o) | _ => mret tt end.
(** Every place is free, and no special line is near. *)
Definition small_check (a x y : Z) : LM bool := modS (λ s, set_numspechit 0 (set_spechit [] s));; mret true.
Definition small_cross (ld : nat) (side a : Z) : LM unit := mret tt.
(** A player that is stopped stands still. *)
Definition small_slide (a : Z) : LM unit := put a (λ o, set_mo_momx 0 (set_mo_momy 0 o)).
Definition small_aim (a an dist : Z) : LM Z := mret 0.
Definition small_place (x y : Z) : nat := 0.

Lemma flags_soft_solid fl : flags_soft fl (clear fl MF_SOLID).
Proof. split; [by rewrite has_clear_other..| |]; apply clear_sub. Qed.

#[export] Instance small_outside : Outside small_game small_call small_check small_cross small_slide.
Proof.
  split.
  - intros f a s HI (o & Ho & Hr) Hst. unfold small_call.
    assert (wp never (mret tt : LM unit) (λ _ s', inv small_game (Some a) None s' ∧ later s s' ∧ (zero_tics a s' → zero_tics a s) ∧
      (∀ o, things s' !! a = Some o → mo_removed o = false → is_Some (mo_state o)) ∧ (removing f = false → alive a s')) s) as Hnop.
    { wp_simp. split_and!; [done|done|done|by eauto|]. intros _. by exists o. }
    destruct f; try exact Hnop. eapply wp_put_soft; [done..|split; try done; [by right|apply flags_soft_solid]|].
    intros s' _ HI' Hl Ho'. split_and!; [done|done| | |by eexists].
    + intros (o' & E & Hz). exists o. split; [done|]. rewrite Ho' in E. apply (inj Some) in E. by rewrite <- E in Hz.
    + intros o' E _. rewrite Ho' in E. apply (inj Some) in E as <-. exact (Hst o Ho).
  - intros a x y s HI Ha. unfold small_check. wp_simp. split_and!; [by apply (inv_eq _ _ _ s)|by apply later_eq|done| |done].
    split; [done|by constructor].
  - intros ld side a s HI Ha _ Hn. unfold small_cross. wp_simp. split_and!; try done; lia.
  - intros a s HI (o & Ho & Hr). eapply wp_put_soft; [done..|soft_put|]. intros s' _ HI' Hl Ho'. split_and!; [done|done|by eexists].
Qed.

#[export] Instance small_environment : Environment small_game small_place small_call small_check small_cross small_slide small_aim.
Proof.
  split; [intros x y; cbn; unfold small_place; lia|exact _|]. intros a an dist s HI Ha. unfold small_aim. wp_simp. by split_and!.
Qed.

Lemma empty_lists {N} (nxt prv : N → option Z) n place : lists nxt prv ∅ (replicate n None) place.
Proof.
  intros i hd Hi. apply lookup_replicate in Hi as [-> _]. exists []. split; [done|]. split_and!; [constructor|done|].
  intros a. rewrite elem_of_nil. split; [done|]. by intros (m & Hm & _).
Qed.

Lemma empty_level_ok : inv small_game None None empty_level.
Proof.
  split; split; try done; try exact (empty_lists _ _ 1 _).
  - cbn. constructor; [lia|constructor].
  - intros i p b Hp. apply lookup_replicate in Hp as [-> _]. done.
Qed.

(** A shotgun, from the map. *)
Definition shotgun : mapthing_t := mk_mapthing 64 64 90 2001 7.
Definition small_map (th : mapthing_t) : LM unit := P_SpawnMapThing small_game small_place (λ _, mret tt) (λ _, mret tt) th.
Definition shotgun_level : level := match small_map shotgun empty_level with Ok (_, s) => s | Stop _ => empty_level end.

Lemma shotgun_level_ok : inv small_game None None shotgun_level.
Proof.
  pose proof (map_thing_ok small_game small_place (env_place _ _ _ _ _ _ _) (λ _, mret tt) (λ _, mret tt) shotgun empty_level
    empty_level_ok ltac:(left; discriminate)) as H. unfold wp in H.
  unfold shotgun_level, small_map. destruct (P_SpawnMapThing _ _ _ _ _ _) as [[[] s]|e]; [by destruct H|]. apply empty_level_ok.
Qed.

Definition small_op : thing_op → LM unit :=
  run_op small_game small_place small_call small_check small_cross (λ _ _ _, 0) small_slide true (λ _ _ _ _, 0) (λ _, FRACUNIT)
    (λ _, 0) small_aim (λ _, mret tt) (λ _, mret tt).

(** An imp, which thinks, falls and dies; its fireball; a shotgun that is taken and comes back. *)
Definition small_ops : list thing_op :=
  [OMapThing (mk_mapthing 64 64 90 3001 7); OThink 0; OMissile 0 0 MT_TROOPSHOT; OThink 1; OMapThing shotgun; OSetState 0 S_TROO_DIE1;
   OMove 0 (96 * FRACUNIT) (96 * FRACUNIT); OHeightClip 0; OPuff MELEERANGE 0 0 0; OBlood 0 0 0 5; ORemove 2; ORespawn].


Lemma shotgun_there : ∃ o, things shotgun_level !! 0 = Some o ∧ mo_removed o = false ∧ respawns o = true ∧ explodes o = false ∧
  room_ok o ∧ small (mo_z o) ∧ small (mo_momz o).
Proof. eexists. split; [vm_compute; reflexivity|]. vm_compute. repeat split. all: discriminate. Qed.

Lemma shotgun_alive : alive 0 shotgun_level.
Proof. destruct shotgun_there as (o & Ho & Hr & _). by exists o. Qed.

Lemma set_state_ends_witness :
  wp never (SetStateLoop small_game small_call 4 0 S_LIGHTDONE) (λ r s',
    inv small_game None None s' ∧ later shotgun_level s' ∧ (r = false → ¬ alive 0 s') ∧
    (statenum S_LIGHTDONE ≠ S_NULL → lasting S_LIGHTDONE = true → alive 0 s')) shotgun_level.
Proof.
  apply (set_state_ends small_game small_place small_call small_check small_cross small_slide small_aim);
    [lia|vm_compute; split; [discriminate|reflexivity]|exact shotgun_level_ok|exact shotgun_alive].
Defined.

(** The shotgun is taken; nothing waits yet. *)
Lemma item_queue_fifo_witness :
  ∃ o, things shotgun_level !! 0 = Some o ∧ respawns o = true ∧
    wp never (P_RemoveMobj small_game 0) (λ _ s',
      queue s' = if respawns o then que_push (queue shotgun_level) (mo_spawnpoint o, leveltime shotgun_level) else queue shotgun_level)
      shotgun_level.
Proof.
  destruct shotgun_there as (o & Ho & Hr & Hresp & _). exists o. split; [exact Ho|]. split; [exact Hresp|].
  pose proof (item_queue_fifo small_game small_place small_call small_check small_cross small_slide small_aim 0 o shotgun_level
    shotgun_level_ok Ho Hr) as [H _]. exact H.
Defined.


Lemma z_movement_in_room_witness :
  ∃ o, things shotgun_level !! 0 = Some o ∧
    wp never (P_ZMovement small_game small_call 0) (λ _ s', ∃ o', things s' !! 0 = Some o' ∧ same_room o o' ∧ in_room o') shotgun_level.
Proof.
  destruct shotgun_there as (o & Ho & Hr & _ & He & Hroom & Hz & Hm). exists o. split; [exact Ho|].
  exact (z_movement_in_room small_game small_call 0 o shotgun_level shotgun_level_ok Ho Hr He Hroom Hz Hm).
Defined.

(** ** What the code does and does not mean *)

(** A long move is made in two halves when it goes east or north, and in one when it goes west or south. *)
Lemma long_moves_uneven : half_move MAXMOVE 0 = true ∧ half_move (- MAXMOVE) 0 = false.
Proof. done. Qed.

(** The actions of [small_call] with the removal that [A_SpawnFly] does at the end of the flight. *)
Definition fly_call (f : actionf_t) (a : Z) : LM unit :=
  match f with A_SpawnFly => P_RemoveMobj small_game a | _ => small_call f a end.

(** [P_SetMobjState] says that the thing is still there, and it is not. *)
Lemma set_state_says_present :
  match P_SetMobjState small_game fly_call 0 S_SPAWN2 shotgun_level with
  | Ok (r, s') => r = true ∧ is_alive 0 s' = false
  | Stop _ => False
  end.
Proof. vm_compute. split; reflexivity. Qed.

(** The product of [spawn_angle] does not fit into an [int] from 180 degrees on. *)
Lemma spawn_angle_overflows : 2 ^ 31 ≤ ANG45 * (180 ÷ 45) ∧ spawn_angle 180 = 2 ^ 31.
Proof. done. Qed.
